(* ===== verification/_CoqProject ===== *)
-Q . S2P
Prelude.v
PyStr.v
Json.v
Schema.v
Jobs.v
Failures.v
Broker.v
Worker.v
Sweep.v
Outbox.v
Evidence.v
PyColl.v
PyVal.v
PyTime.v
Sha256.v
Regex.v
Preprocess.v
Reconcile.v
PatternReconcile.v
Families.v
Validation.v
Hermes.v
Snapshots.v
SkillRegistry.v
SkillRuntime.v
Skills.v
SkillFlow.v
LogTriage.v
Api.v
Analysis.v
ReportDocument.v
Composition.v
DocxRender.v
DailyReport.v
Reports.v
Incidents.v
Accounts.v
Prefill.v
Health.v
Operations.v
Insight.v
