(* ===== verification/Prelude.v ===== *)
(** * NOC Report Builder: verification library

    ** The program

    Operators of a network operations centre upload the evidence of an
    incident, a log and screenshots, and ask for an analysis; at the end of a
    shift they ask for a report over its incidents.  Two kinds of process do
    this.  The API ([apps/api/app]) owns the database: it takes uploads, keeps
    the registry of skills (prompt, schema and manifest of what the model is
    asked), writes a job and its announcement in one transaction and reads the
    outcome back.  The worker ([bridge/noc_bridge]) takes announcements from
    RabbitMQ, leases the job's row, verifies the skill, reduces the log
    deterministically ([sandbox/preprocessing.py]), asks the model, checks the
    answer against the counts it made itself, and stores the artifacts under
    checksums.  Between the two stand the outbox dispatcher and the sweeps that
    purge evidence.  Redelivery, expiry of leases, rival workers and lost
    connections are normal events; so most of the theorems quantify over
    schedules of failures and of what the other processes do.

    ** The files

    Python and its library.
    - [Prelude]: outcomes of a call ([result]), the state and exception monad
      [M], runs over schedules, hint databases, list lemmas; [PyStr] (text as
      code points), [Json] (values and wire form), [PyVal] (unchecked values,
      arithmetic), [PyColl] ([sorted], [Counter], grouping), [PyTime]
      (ISO 8601), [Regex] (the part of [re] used), [Sha256], [Schema] (UUIDs
      and the JSON Schema fragment).

    Jobs and messages.
    - [Jobs]: [noc_bridge/db.py], the job table, leases, settlement.
    - [Failures]: [failures.py], which errors are retried.
    - [Broker]: [core/queue.py], [queue_topology.py], topology and messages.
    - [Worker]: [worker.py], the life of one delivery.
    - [Sweep], [Outbox]: [jobs.py], [outbox.py], [outbox_worker.py].
    - [Evidence]: [routers/evidence.py], [evidence_lifecycle.py],
      [evidence_purge_worker.py].

    From log to checked answer.
    - [Preprocess], [Reconcile], [PatternReconcile], [Families]:
      [sandbox/preprocessing.py].
    - [Validation]: [validation.py]; [Hermes]: [hermes.py].
    - [LogTriage]: the log triage half of [worker.py] with [storage.py].

    Skills.
    - [Snapshots] (rows, hashes), [SkillRegistry] ([skill_registry.py], the
      worker), [SkillRuntime] and [Skills] ([app/skills/runtime.py] and
      [registry.py], the API), [SkillFlow] (the two together).

    Requests and reports.
    - [Api]: what handlers share; [Analysis]: [routers/analysis.py];
      [Reports]: [routers/reports.py] and [report_fragments.py].
    - [Incidents]: [routers/incidents.py], [shifts.py] and the attachment of a
      screenshot; [Prefill]: [incident_prefill.py], [local_inference.py] and
      the OCR requests of [routers/ocr.py].
    - [ReportDocument]: [report_document.py], [report_document_json.py];
      [Composition]: [report_composition.py], [analysis_presentation.py],
      [time_projection.py]; [DocxRender]: [docx_render.py];
      [DailyReport]: [daily_report.py] and the report half of [worker.py].

    Running the system.
    - [Accounts]: [core/security.py], [deps.py], [routers/auth.py], users,
      roles and shift definitions of [routers/admin.py], [seed.py].
    - [Health]: [worker_health.py], [operational_health.py], readiness of
      [main.py] and the runtime status of [routers/admin.py].
    - [Operations]: dead letters, listings and skill activation of
      [routers/admin.py]; [Insight]: [routers/dashboard.py], [analytics.py],
      [search.py] and [report_metrics.py].

    A definition keeps the name of the function or class it models; where a
    name differs its comment gives the source's in brackets.

    ** How the code is rendered

    A function that can raise returns [result]; one that also changes state is
    in [M], and what it changed before raising stays, unless it is a request
    handler, whose transaction is closed without a commit.  Every statement of
    a maintenance function commits by itself and is one transition; concurrent
    processes are sequences of such transitions ([Inductive] step relations) or
    a schedule the procedure consumes.  A handler that reads without a lock
    takes what it read as an argument, which need not be what is there when it
    writes.  Generated keys, clocks, random tokens
    and durations are arguments.  Unchecked JSON stays [json], and what Python
    does with a value of the wrong type, [TypeError] included, is written out.
    Dictionaries that Python mutates through two references carry identities.

    Code outside the repository is an interface: [HasChannel], [AmqpRouting],
    [JsonSchema], [SchemaValidator], [MetaSchema], [YamlLoader], [ZoneDb],
    [UnicodeData], [PyText], [ByteText], [FloatFormat], [ArtifactStore],
    [VersionedStore], [UploadStore], [ObjectStore], [DocxLib], [DigitTable],
    [PasswordHash], [Jwt], [TextSearch].  Their laws are the documented
    behaviour the code relies on (an object that was stored is read back; a
    version never changes; a token decodes to its claims); every interface has
    an instance in the file that declares it or in one that uses it, and the
    theorems are evaluated there on a concrete run.

    ** What the theorems show

    - Jobs: a lease excludes every other worker unless a statement without a
      token (a late failure's retry, a deletion) displaces its row; claims and
      guarded settlements refine an abstract automaton; a delivery is
      acknowledged only after its own job was settled or its own message
      handed on, and is retried at most the configured number of times;
      messages round-trip and reach their queue; a dispatch pass tries the
      pending announcements oldest first, each once.
    - Evidence: rows and objects stay consistent through any interleaving of
      uploads, attachments and sweeps; no object of a live, referenced or
      locked row is purged, unless a second row of the same screenshot is due.
    - Answers: the counts account for every line of the log and survive
      reconciliation with any answer of the model; findings of one family are
      the connected components; validation is exactly its specification; only
      a checked answer is stored, and it reaches the reader.
    - Skills: the execution hashes of API and worker agree, a registered
      snapshot runs, what the worker materialises is the pinned closure.
    - Reports: the request freezes one snapshot and the job works on it; a
      report covers every incident exactly once, contains no image but frozen
      evidence and takes nothing but summaries from the model; the preview
      shows no storage coordinates; a redelivered job does not ask again;
      numbers are consecutive, no report is taken back, and a downloaded file
      stays as it was until its own job is completed again.
    - Incidents: display names and ids stay distinct, at most one shift is
      active, nothing refers to a deleted row, what others own is untouched by
      a deletion, and a suggested value is what the rules read in its line of
      the screenshot or a model answer the line supports.
    - Accounts: a refresh secret is exchanged once, and what a user may do
      changes only by a request whose token was then a valid one of an enabled
      user with the right to change it.
    - Operation: the worker's word on the model reaches the console, a broker
      outage makes readiness fail by an exception, a requeue resets the job
      its message names, and only when it is not running, and the dashboard
      counts what the incident list shows.

    ** Fuel

    Structural recursion is used where the source loops over data.  Otherwise:
    materialising a skill takes one more than the rows of the registry
    ([SkillRegistry]); [find] of the union-find one more than its nodes
    ([Families]); registration recursions take a fuel argument and
    [RecursionError] when it runs out, as Python does at its own limit;
    [json_loads] takes the length of the text; [run] of [Regex] is bounded by
    the remaining characters; the matching blocks of [Prefill] by the length
    of the first text ([matched_fuel]).

    ** What is not modelled

    - Pure input and output: the HTTP framework and the parsing of bodies and
      cookies, the database engine, the clients of object storage and broker,
      the OCR engine, logging, HTTP servers and the process entry points with
      their loops and signals.
    - Settings with their start-up checks; migrations, benchmarks, the offline
      contract script, the web front end, and tests.
    - Of modelled files: fonts, colours and spacing of the word processor
      file; the thread that renews leases (its renewals are steps of [Jobs] and
      of the worker's schedule); the values an f-string puts into messages
      where no code reads them; response schemas that copy a row. *)

From Stdlib Require Export ZArith Lia.
From stdpp Require Export prelude gmap strings fin_maps.


(** ** Scope of the notations of the development *)
Declare Scope py_scope.
Delimit Scope py_scope with py.

(** ** Hint databases

    [pysimp] holds the rewrite rules and resolution lemmas that close the
    routine goals about the code's helper functions (string slicing, map
    updates, monadic runs). *)
Create HintDb pysimp discriminated.

(** ** Outcome of a Python call

    A call either returns a value or raises.  [E] is the type of exceptions of
    the component. *)
Inductive result (E A : Type) : Type :=
  | Ok (a : A)
  | Raise (e : E).
Arguments Ok {E A} a.
Arguments Raise {E A} e.

Definition is_ok {E A} (r : result E A) : bool :=
  match r with Ok _ => true | Raise _ => false end.

Lemma is_ok_inv {E A} (r : result E A) : is_ok r = true -> exists a, r = Ok a.
Proof. destruct r; [eauto|done]. Qed.

(** A run, with its state, that returned. *)
Lemma ok_pair {E A W} (x : result E A * W) : is_ok (fst x) = true -> exists a, x = (Ok a, snd x).
Proof. destruct x as [[a|e] w]; [by exists a|discriminate]. Qed.

Lemma Ok_inj {E A} (a b : A) : @Ok E A a = Ok b -> a = b.
Proof. by intros [=]. Qed.

#[global] Instance result_ret {E} : MRet (result E) := fun A a => Ok a.
#[global] Instance result_bind {E} : MBind (result E) := fun A B f r =>
  match r with Ok a => f a | Raise e => Raise e end.
#[global] Instance result_fmap {E} : FMap (result E) := fun A B f r =>
  match r with Ok a => Ok (f a) | Raise e => Raise e end.

Lemma bind_result_ok {E A B} (m : result E A) (f : A -> result E B) y :
  mbind f m = Ok y <-> exists a, m = Ok a /\ f a = Ok y.
Proof. destruct m as [a|e]; cbn; [naive_solver|]. split; [done|by intros (? & ? & _)]. Qed.

#[global] Instance result_eq_dec {E A} `{EqDecision E} `{EqDecision A} :
  EqDecision (result E A).
Proof. solve_decision. Defined.

(** ** The effect monad

    A Python procedure over a world [S]: it may mutate the world and then
    return or raise.  Mutations made before a [Raise] stay, as they do in the
    source. *)
Definition M (S E A : Type) : Type := S -> result E A * S.

Section monad.
Context {S E : Type}.

#[global] Instance M_ret : MRet (M S E) := fun A a s => (Ok a, s).
#[global] Instance M_bind : MBind (M S E) := fun A B f m s =>
  match m s with
  | (Ok a, s') => f a s'
  | (Raise e, s') => (Raise e, s')
  end.

Definition raise {A} (e : E) : M S E A := fun s => (Raise e, s).
Definition get_st : M S E S := fun s => (Ok s, s).
Definition put_st (s' : S) : M S E () := fun _ => (Ok (), s').
Definition modify_st (f : S -> S) : M S E () := fun s => (Ok (), f s).
Definition lift_result {A} (r : result E A) : M S E A := fun s => (r, s).

(** [try: m  except E as exc: h exc] *)
Definition try_except {A} (m : M S E A) (h : E -> M S E A) : M S E A := fun s =>
  match m s with
  | (Raise e, s') => h e s'
  | r => r
  end.

(** [try: m  finally: f], for a [finally] block that does not raise or return *)
Definition try_finally {A} (m : M S E A) (f : S -> S) : M S E A := fun s =>
  let '(r, s') := m s in (r, f s').

Definition when (b : bool) (m : M S E ()) : M S E () := if b then m else mret ().
End monad.

Section monad_laws.
Context {S E A B C : Type}.

Lemma bind_ret_l (a : A) (f : A -> M S E B) : forall s, (mbind f (mret a)) s = f a s.
Proof. done. Qed.

Lemma bind_assoc (m : M S E A) (f : A -> M S E B) (g : B -> M S E C) : forall s,
  mbind g (mbind f m) s = mbind (fun a => mbind g (f a)) m s.
Proof. intros s. unfold mbind, M_bind. by destruct (m s) as [[]]. Qed.

Lemma bind_ok (m : M S E A) (f : A -> M S E B) s a s' :
  m s = (Ok a, s') -> mbind f m s = f a s'.
Proof. unfold mbind, M_bind. by intros ->. Qed.

Lemma bind_raise (m : M S E A) (f : A -> M S E B) s e s' :
  m s = (Raise e, s') -> mbind f m s = (Raise e, s').
Proof. unfold mbind, M_bind. by intros ->. Qed.

(** Inversion of a run of a bind: either the first part raised, or both ran. *)
Lemma bind_inv (m : M S E A) (f : A -> M S E B) s r s'' :
  mbind f m s = (r, s'') ->
  (exists e, m s = (Raise e, s'') /\ r = Raise e) \/
  (exists a s', m s = (Ok a, s') /\ f a s' = (r, s'')).
Proof.
  unfold mbind, M_bind. destruct (m s) as [[a|e] s'] eqn:Hm; intros H; simplify_eq; eauto.
Qed.

Lemma bind_ok_inv (m : M S E A) (f : A -> M S E B) s b s'' :
  mbind f m s = (Ok b, s'') -> exists a s', m s = (Ok a, s') /\ f a s' = (Ok b, s'').
Proof. intros [(e & _ & [=])|H]%bind_inv. exact H. Qed.

Lemma lift_ok_inv (r : result E A) (s s' : S) a : lift_result r s = (Ok a, s') -> r = Ok a /\ s' = s.
Proof. unfold lift_result. by intros [= -> ->]. Qed.
End monad_laws.

(** ** Preservation of a relation by a procedure

    [preserves R m] says that every run of [m], raising or not, relates its
    initial world to its final one by [R].  With [R] a preorder it composes
    over the combinators, which is how frame properties of long procedures are
    proved. *)
Definition preserves {S E A} (R : S -> S -> Prop) (m : M S E A) : Prop :=
  forall s, R s (snd (m s)).

Section preserves.
Context {S E : Type} (R : S -> S -> Prop) `{!PreOrder R}.

Lemma preserves_ret {A} (a : A) : preserves R (mret a : M S E A).
Proof. intros s. reflexivity. Qed.

Lemma preserves_raise {A} (e : E) : preserves R (raise e : M S E A).
Proof. intros s. reflexivity. Qed.

Lemma preserves_get : preserves R (get_st : M S E S).
Proof. intros s. reflexivity. Qed.

Lemma preserves_bind {A B} (m : M S E A) (f : A -> M S E B) :
  preserves R m -> (forall a, preserves R (f a)) -> preserves R (mbind f m).
Proof.
  intros Hm Hf s. specialize (Hm s). unfold mbind, M_bind.
  destruct (m s) as [[a|e] s']; [etrans; [done|apply Hf]|done].
Qed.

Lemma preserves_try {A} (m : M S E A) h :
  preserves R m -> (forall e, preserves R (h e)) -> preserves R (try_except m h).
Proof.
  intros Hm Hh s. specialize (Hm s). unfold try_except.
  destruct (m s) as [[a|e] s']; [done|etrans; [done|apply Hh]].
Qed.

Lemma preserves_finally {A} (m : M S E A) f :
  preserves R m -> (forall s, R s (f s)) -> preserves R (try_finally m f).
Proof.
  intros Hm Hf s. specialize (Hm s). unfold try_finally.
  destruct (m s) as [r s']. simpl in *. etrans; [done|apply Hf].
Qed.

Lemma preserves_when (b : bool) (m : M S E ()) : preserves R m -> preserves R (when b m).
Proof. destruct b; [done|intros _; apply preserves_ret]. Qed.
End preserves.

#[export] Hint Resolve preserves_ret preserves_raise preserves_get preserves_bind
  preserves_try preserves_finally preserves_when : pysimp.

(** ** Reachability *)
Section star.
Context {A : Type} (R : A -> A -> Prop).

Inductive star : A -> A -> Prop :=
  | star_refl a : star a a
  | star_step a b c : R a b -> star b c -> star a c.

Lemma star_one a b : R a b -> star a b.
Proof. eauto using star. Qed.

Lemma star_trans a b c : star a b -> star b c -> star a c.
Proof. induction 1; eauto using star. Qed.

(** An invariant of single steps is an invariant of runs. *)
Lemma star_invariant (P : A -> Prop) :
  (forall a b, R a b -> P a -> P b) -> forall a b, star a b -> P a -> P b.
Proof. intros HR a b. induction 1; eauto. Qed.

Lemma star_snoc a b c : star a b -> R b c -> star a c.
Proof. intros Hab Hbc. eapply star_trans; [done|by apply star_one]. Qed.

#[global] Instance star_preorder : PreOrder star.
Proof. split; [intros a; constructor|intros a b c; apply star_trans]. Qed.
End star.
Arguments star_refl {A R} a.
Arguments star_step {A R} a b c _ _.

(** A run of two kinds of steps has none of the second kind, or a first one. *)
Lemma star_first {A} (R Q : A -> A -> Prop) a c : star (fun x y => R x y \/ Q x y) a c ->
  star R a c \/ exists s s', star R a s /\ Q s s' /\ star (fun x y => R x y \/ Q x y) s' c.
Proof.
  induction 1 as [a|a b c [Hab|Hab] Hbc IH]; [left; constructor| |right; exists a, b; split; [constructor|done]].
  destruct IH as [IH|(s & s' & Hs & Hq & Hs')]; [left; by eapply star_step|]. right. exists s, s'. split; [by eapply star_step|done].
Qed.

(** ** Lists *)

(** [dict.fromkeys(l)]: the distinct elements of [l] in order of first
    occurrence. *)
Fixpoint fromkeys_from {A} `{EqDecision A} (seen : list A) (l : list A) : list A :=
  match l with
  | [] => []
  | x :: l => if decide (x ∈ seen) then fromkeys_from seen l
              else x :: fromkeys_from (x :: seen) l
  end.
Definition fromkeys {A} `{EqDecision A} (l : list A) : list A := fromkeys_from [] l.

Section fromkeys.
Context {A} `{EqDecision A}.
Implicit Types l seen : list A.

Lemma elem_of_fromkeys_from seen l x :
  x ∈ fromkeys_from seen l <-> x ∈ l /\ x ∉ seen.
Proof.
  revert seen. induction l as [|y l IH]; intros seen; simpl; [set_solver|].
  case_decide; rewrite ?elem_of_cons, IH, ?elem_of_cons;
    destruct (decide (x = y)); naive_solver.
Qed.

Lemma elem_of_fromkeys l x : x ∈ fromkeys l <-> x ∈ l.
Proof. unfold fromkeys. rewrite elem_of_fromkeys_from. set_solver. Qed.

Lemma NoDup_fromkeys_from seen l : NoDup (fromkeys_from seen l).
Proof.
  revert seen. induction l as [|y l IH]; intros seen; simpl; [constructor|].
  case_decide; [done|]. constructor; [|done].
  rewrite elem_of_fromkeys_from. set_solver.
Qed.

Lemma NoDup_fromkeys l : NoDup (fromkeys l).
Proof. apply NoDup_fromkeys_from. Qed.

Lemma fromkeys_from_id seen l :
  NoDup l -> (forall x, x ∈ l -> x ∉ seen) -> fromkeys_from seen l = l.
Proof.
  revert seen. induction l as [|y l IH]; intros seen Hnd Hs; simpl; [done|].
  apply NoDup_cons in Hnd as [Hy Hnd]. case_decide as Hd; [set_solver|].
  f_equal. apply IH; [done|]. set_solver.
Qed.

Lemma fromkeys_NoDup l : NoDup l -> fromkeys l = l.
Proof. intros. apply fromkeys_from_id; set_solver. Qed.
End fromkeys.
#[export] Hint Resolve NoDup_fromkeys : pysimp.

(** Distinctness of a concrete list, by evaluation. *)
Lemma NoDup_by_computation {A} `{EqDecision A} (l : list A) : bool_decide (NoDup l) = true -> NoDup l.
Proof. apply bool_decide_eq_true_1. Qed.

(** Python's [sum] over a list of integers. *)
Definition zsum (l : list Z) : Z := foldr Z.add 0%Z l.

Lemma zsum_app l k : zsum (l ++ k) = (zsum l + zsum k)%Z.
Proof. induction l; simpl; lia. Qed.

Lemma zsum_nonneg l : Forall (fun z => (0 <= z)%Z) l -> (0 <= zsum l)%Z.
Proof. induction 1; simpl; lia. Qed.

Lemma zsum_Permutation l k : l ≡ₚ k -> zsum l = zsum k.
Proof. induction 1; simpl; lia. Qed.

#[global] Instance zsum_proper : Proper ((≡ₚ) ==> (=)) zsum.
Proof. intros l k. apply zsum_Permutation. Qed.

Lemma zsum_map_add {A} (f g : A -> Z) l :
  zsum (map (fun x => f x + g x)%Z l) = (zsum (map f l) + zsum (map g l))%Z.
Proof. induction l; simpl; lia. Qed.

Lemma zsum_map_ext {A} (f g : A -> Z) l :
  (forall x, x ∈ l -> f x = g x) -> zsum (map f l) = zsum (map g l).
Proof.
  induction l as [|x l IH]; intros H; simpl; [done|].
  rewrite H by set_solver. rewrite IH; [done|]. set_solver.
Qed.

(** Position of the first element that satisfies [p]: Python's
    [next((x for x in l if p(x)), None)]. *)
Fixpoint find_first {A} (p : A -> bool) (l : list A) : option A :=
  match l with
  | [] => None
  | x :: l => if p x then Some x else find_first p l
  end.

Lemma find_first_Some {A} (p : A -> bool) l x :
  find_first p l = Some x -> x ∈ l /\ p x = true.
Proof.
  induction l as [|y l IH]; simpl; [done|].
  destruct (p y) eqn:E; intros; simplify_eq; set_solver.
Qed.

Lemma find_first_None {A} (p : A -> bool) l :
  find_first p l = None <-> forall x, x ∈ l -> p x = false.
Proof.
  induction l as [|y l IH]; simpl; [set_solver|].
  destruct (p y) eqn:E; [|set_solver].
  split; [done|]. intros H. rewrite H in E by set_solver. done.
Qed.

(** Rows with distinct keys. *)
Lemma list_key_unique {A K} (f : A -> K) (l : list A) x y : NoDup (map f l) -> x ∈ l -> y ∈ l -> f x = f y -> x = y.
Proof.
  induction l as [|z l IH]; [set_solver|]. cbn [map]. intros [Hn Hnd]%NoDup_cons [->|Hx]%elem_of_cons [->|Hy]%elem_of_cons Heq; [done| | |by apply IH].
  - destruct Hn. rewrite Heq. by apply list_elem_of_fmap_2.
  - destruct Hn. rewrite <- Heq. by apply list_elem_of_fmap_2.
Qed.

(** ** Automation *)

(** Case analysis on the first [match] of the goal or of a hypothesis, keeping
    the equation. *)
Ltac case_step :=
  match goal with
  | |- context [match ?x with _ => _ end] => destruct x eqn:?
  | H : context [match ?x with _ => _ end] |- _ => destruct x eqn:?
  end.

(** Linear arithmetic with division and modulo. *)
Ltac zdiv := Z.to_euclidean_division_equations; lia.

(** Unfold a run of the effect monad. *)
Ltac run_simpl :=
  unfold mbind, M_bind, mret, M_ret, raise, get_st, put_st, modify_st, lift_result,
    try_except, try_finally, when in *; simpl in *.

(** Frame goals [preserves R m] for a preorder [R]. *)
Ltac solve_preserves :=
  repeat first
    [ apply preserves_ret; [typeclasses eauto]
    | apply preserves_raise; [typeclasses eauto]
    | apply preserves_get; [typeclasses eauto]
    | apply preserves_when; [typeclasses eauto|]
    | apply preserves_try; [typeclasses eauto| |intros ?]
    | apply preserves_bind; [typeclasses eauto| |intros ?]
    | assumption
    | solve [eauto with pysimp]
    | progress simpl
    | case_match ].

Ltac inv H := inversion H; clear H; simplify_eq.
