(* ===== verification/PyStr.v ===== *)
(** * Python strings

    A [str] is a sequence of Unicode code points, so it is a [list Z] here:
    [len], slicing and indexing count code points as the source does.  Literals
    are written [u "..."]; the UTF-8 bytes of the Rocq literal are decoded to
    code points.  The white-space and line-boundary tables are the ones of
    Python's [str.isspace] and [str.splitlines].

    The case mappings and the [\w] and [\d] classes outside ASCII come from the
    Unicode Character Database, which is data and not code of the repository:
    they are the interface [UnicodeData], with the ASCII part fixed by its
    laws and an instance that changes ASCII letters only. *)

From S2P Require Import Prelude.

Abbreviation pystr := (list Z).

(** ** Literals *)

Definition byte_of_ascii (a : Ascii.ascii) : Z := Z.of_N (Ascii.N_of_ascii a).

(** UTF-8 decoding.  [need] is the number of continuation bytes still
    expected and [acc] the code point read so far. *)
Fixpoint utf8_go (need : nat) (acc : Z) (s : string) : pystr :=
  match s with
  | EmptyString => []
  | String a s =>
      let b := byte_of_ascii a in
      match need with
      | O =>
          if (b <? 128)%Z then b :: utf8_go 0 0 s
          else if (b <? 224)%Z then utf8_go 1 (Z.land b 31) s
          else if (b <? 240)%Z then utf8_go 2 (Z.land b 15) s
          else utf8_go 3 (Z.land b 7) s
      | S need =>
          let acc := (acc * 64 + Z.land b 63)%Z in
          match need with
          | O => acc :: utf8_go 0 0 s
          | S _ => utf8_go need acc s
          end
      end
  end.

Definition u (s : string) : pystr := utf8_go 0 0 s.

(** UTF-8 encoding of one code point, [chr(c).encode("utf-8")]. *)
Definition utf8_encode_char (c : Z) : list Z :=
  if (c <? 128)%Z then [c]
  else if (c <? 2048)%Z then [192 + c / 64; 128 + c mod 64]%Z
  else if (c <? 65536)%Z then [224 + c / 4096; 128 + (c / 64) mod 64; 128 + c mod 64]%Z
  else [240 + c / 262144; 128 + (c / 4096) mod 64; 128 + (c / 64) mod 64; 128 + c mod 64]%Z.

(** [s.encode("utf-8")] *)
Definition utf8_encode (s : pystr) : list Z := mjoin (map utf8_encode_char s).

(** [b.decode("utf-8")]: strict, so a stray or missing continuation byte, an
    overlong form, a surrogate or a value past U+10FFFF is [UnicodeDecodeError]. *)
Definition is_cont (b : Z) : bool := (128 <=? b)%Z && (b <? 192)%Z.
Fixpoint utf8_decode (bs : list Z) : option pystr :=
  match bs with
  | [] => Some []
  | b :: r =>
      if (b <? 128)%Z then cons b <$> utf8_decode r
      else if (194 <=? b)%Z && (b <? 224)%Z then
        match r with
        | c1 :: r => if is_cont c1 then cons ((b - 192) * 64 + (c1 - 128))%Z <$> utf8_decode r else None
        | _ => None
        end
      else if (224 <=? b)%Z && (b <? 240)%Z then
        match r with
        | c1 :: c2 :: r =>
            let x := ((b - 224) * 4096 + (c1 - 128) * 64 + (c2 - 128))%Z in
            if is_cont c1 && is_cont c2 && (2048 <=? x)%Z && negb ((55296 <=? x)%Z && (x <? 57344)%Z)
            then cons x <$> utf8_decode r else None
        | _ => None
        end
      else if (240 <=? b)%Z && (b <? 245)%Z then
        match r with
        | c1 :: c2 :: c3 :: r =>
            let x := ((b - 240) * 262144 + (c1 - 128) * 4096 + (c2 - 128) * 64 + (c3 - 128))%Z in
            if is_cont c1 && is_cont c2 && is_cont c3 && (65536 <=? x)%Z && (x <? 1114112)%Z
            then cons x <$> utf8_decode r else None
        | _ => None
        end
      else None
  end.

(** ** Unicode data *)
Class UnicodeData := {
  uni_lower : Z -> pystr;
  uni_upper : Z -> pystr;
  uni_fold : Z -> pystr;
  uni_word : Z -> bool;
  uni_digit : Z -> bool;
  uni_decimal : Z -> Z;
  uni_lower_ascii : forall c, (0 <= c < 128)%Z ->
    uni_lower c = [if (65 <=? c)%Z && (c <=? 90)%Z then (c + 32)%Z else c];
  uni_upper_ascii : forall c, (0 <= c < 128)%Z ->
    uni_upper c = [if (97 <=? c)%Z && (c <=? 122)%Z then (c - 32)%Z else c];
  uni_fold_ascii : forall c, (0 <= c < 128)%Z -> uni_fold c = uni_lower c;
}.

Definition ascii_lower (c : Z) : Z :=
  if (65 <=? c)%Z && (c <=? 90)%Z then (c + 32)%Z else c.
Definition ascii_upper (c : Z) : Z :=
  if (97 <=? c)%Z && (c <=? 122)%Z then (c - 32)%Z else c.
Definition ascii_digit (c : Z) : bool := (48 <=? c)%Z && (c <=? 57)%Z.
Definition ascii_word (c : Z) : bool :=
  ((97 <=? c)%Z && (c <=? 122)%Z) || ((65 <=? c)%Z && (c <=? 90)%Z) || ascii_digit c || (c =? 95)%Z.

(** The instance used to evaluate examples: the ASCII tables, with every
    CJK code point a word character that has no case. *)
Program Definition cjk_unicode : UnicodeData := {|
  uni_lower c := [ascii_lower c];
  uni_upper c := [ascii_upper c];
  uni_fold c := [ascii_lower c];
  uni_word c := ascii_word c || ((19968 <=? c)%Z && (c <=? 40959)%Z);
  uni_digit c := ascii_digit c;
  uni_decimal c := (c - 48)%Z;
|}.
Solve All Obligations with done.

(** ** Operations *)

(** [str.isspace] of one character. *)
Definition is_space (c : Z) : bool :=
  ((9 <=? c)%Z && (c <=? 13)%Z) || ((28 <=? c)%Z && (c <=? 32)%Z) ||
  (c =? 133)%Z || (c =? 160)%Z || (c =? 5760)%Z ||
  ((8192 <=? c)%Z && (c <=? 8202)%Z) || (c =? 8232)%Z || (c =? 8233)%Z ||
  (c =? 8239)%Z || (c =? 8287)%Z || (c =? 12288)%Z.

(** The line boundaries of [str.splitlines]. *)
Definition is_linebreak (c : Z) : bool :=
  ((10 <=? c)%Z && (c <=? 13)%Z) || ((28 <=? c)%Z && (c <=? 30)%Z) ||
  (c =? 133)%Z || (c =? 8232)%Z || (c =? 8233)%Z.

Fixpoint drop_while {A} (p : A -> bool) (l : list A) : list A :=
  match l with
  | [] => []
  | x :: l' => if p x then drop_while p l' else l
  end.

Definition lstrip_by (p : Z -> bool) (s : pystr) : pystr := drop_while p s.
Definition rstrip_by (p : Z -> bool) (s : pystr) : pystr := reverse (drop_while p (reverse s)).

(** [s.strip()] and [s.rstrip()] *)
Definition strip (s : pystr) : pystr := rstrip_by is_space (lstrip_by is_space s).
Definition rstrip (s : pystr) : pystr := rstrip_by is_space s.
(** [s.rstrip(chars)] *)
Definition rstrip_chars (chars s : pystr) : pystr := rstrip_by (fun c => bool_decide (c ∈ chars)) s.

Definition py_lower `{UnicodeData} (s : pystr) : pystr := mjoin (map uni_lower s).
Definition py_upper `{UnicodeData} (s : pystr) : pystr := mjoin (map uni_upper s).
Definition casefold `{UnicodeData} (s : pystr) : pystr := mjoin (map uni_fold s).

(** [s.startswith(p)], [s.endswith(p)], [p in s] *)
Fixpoint startswith (p s : pystr) : bool :=
  match p, s with
  | [], _ => true
  | _ :: _, [] => false
  | x :: p, y :: s => (x =? y)%Z && startswith p s
  end.
Definition endswith (p s : pystr) : bool := startswith (reverse p) (reverse s).
Fixpoint contains (p s : pystr) : bool :=
  startswith p s || match s with [] => false | _ :: s => contains p s end.

(** [sep.join(parts)] *)
Fixpoint py_join (sep : pystr) (parts : list pystr) : pystr :=
  match parts with
  | [] => []
  | [x] => x
  | x :: parts => x ++ sep ++ py_join sep parts
  end.

(** [s.split()]: the maximal runs of non-space characters. *)
Fixpoint split_ws_go (cur : pystr) (s : pystr) : list pystr :=
  match s with
  | [] => if decide (cur = []) then [] else [reverse cur]
  | c :: s =>
      if is_space c then
        (if decide (cur = []) then split_ws_go [] s else reverse cur :: split_ws_go [] s)
      else split_ws_go (c :: cur) s
  end.
Definition split_ws (s : pystr) : list pystr := split_ws_go [] s.

(** [s.splitlines()]; CR LF is one boundary. *)
Fixpoint splitlines_go (cur : pystr) (s : pystr) : list pystr :=
  match s with
  | [] => if decide (cur = []) then [] else [reverse cur]
  | c :: s' =>
      if is_linebreak c then
        match s' with
        | d :: s'' => if (c =? 13)%Z && (d =? 10)%Z then reverse cur :: splitlines_go [] s''
                      else reverse cur :: splitlines_go [] s'
        | [] => reverse cur :: splitlines_go [] s'
        end
      else splitlines_go (c :: cur) s'
  end.
Definition splitlines (s : pystr) : list pystr := splitlines_go [] s.

(** [s.replace(c, d)] for one character [c]. *)
Definition replace_char (c : Z) (d : pystr) (s : pystr) : pystr :=
  mjoin (map (fun x => if (x =? c)%Z then d else [x]) s).

(** [s[:n]] and [s[n:]]; a negative index counts from the end. *)
Definition slice_to {A} (n : Z) (s : list A) : list A :=
  if (n <? 0)%Z then take (Z.to_nat (Z.of_nat (length s) + n)) s else take (Z.to_nat n) s.
Definition slice_from {A} (n : Z) (s : list A) : list A :=
  if (n <? 0)%Z then drop (Z.to_nat (Z.of_nat (length s) + n)) s else drop (Z.to_nat n) s.

(** [s.removeprefix(p)] *)
Definition removeprefix (p s : pystr) : pystr := if startswith p s then drop (length p) s else s.

(** [str(n)] of an integer *)
Fixpoint dec_digits (fuel : nat) (n : Z) (acc : pystr) : pystr :=
  match fuel with
  | O => acc
  | S fuel =>
      let acc := (48 + n mod 10)%Z :: acc in
      if (n / 10 =? 0)%Z then acc else dec_digits fuel (n / 10) acc
  end.
Definition py_str_int (n : Z) : pystr :=
  if (n <? 0)%Z then 45%Z :: dec_digits (Z.to_nat (Z.log2 (- n) + 2)) (- n) []
  else dec_digits (Z.to_nat (Z.log2 n + 2)) n [].

(** [int(s)] of a string of ASCII digits *)
Definition py_int_digits (s : pystr) : Z := foldl (fun acc c => acc * 10 + (c - 48))%Z 0%Z s.

(** [s.isdigit()] for ASCII strings: non-empty, digits only *)
Definition isdigit_ascii (s : pystr) : bool := negb (bool_decide (s = [])) && forallb ascii_digit s.

(** Truthiness of a string. *)
Definition truthy_str (s : pystr) : bool := negb (bool_decide (s = [])).

(** ** Lemmas *)

Lemma startswith_app p s : startswith p (p ++ s) = true.
Proof. induction p as [|x p IH]; simpl; [done|]. by rewrite Z.eqb_refl. Qed.

Lemma startswith_spec p s : startswith p s = true <-> exists t, s = p ++ t.
Proof.
  split; [|intros [t ->]; apply startswith_app].
  revert s. induction p as [|x p IH]; intros s; simpl; [eauto|].
  destruct s as [|y s]; [done|]. intros [<-%Z.eqb_eq [t ->]%IH]%andb_prop. by exists t.
Qed.

Lemma contains_spec p s : contains p s = true <-> exists a b, s = a ++ p ++ b.
Proof.
  split.
  - induction s as [|y s IH]; simpl; intros [H|H]%orb_prop.
    + apply startswith_spec in H as [t ->]. by exists [], t.
    + done.
    + apply startswith_spec in H as [t ->]. by exists [], t.
    + destruct (IH H) as (a & b & ->). by exists (y :: a), b.
  - intros (a & b & ->). induction a as [|y a IH]; simpl.
    + destruct (p ++ b) eqn:E; simpl; rewrite <- E, startswith_app; done.
    + rewrite IH. apply orb_true_r.
Qed.

Lemma removeprefix_app p s : removeprefix p (p ++ s) = s.
Proof. unfold removeprefix. by rewrite startswith_app, drop_app_length. Qed.

Lemma length_drop_while {A} (p : A -> bool) l : length (drop_while p l) <= length l.
Proof. induction l; simpl; [lia|]. destruct (p a); simpl; lia. Qed.

Lemma length_strip s : length (strip s) <= length s.
Proof.
  unfold strip, rstrip_by, lstrip_by. rewrite length_reverse.
  etrans; [apply length_drop_while|]. rewrite length_reverse. apply length_drop_while.
Qed.

Lemma drop_while_suffix {A} (p : A -> bool) l : exists k, l = k ++ drop_while p l.
Proof.
  induction l as [|x l [k IH]]; simpl; [by exists []|].
  destruct (p x); [exists (x :: k); simpl; by f_equal|by exists []].
Qed.

(** Decimal rendering of an integer is injective. *)
Lemma drop_while_cons {A} (p : A -> bool) l x r : drop_while p l = x :: r -> p x = false.
Proof. induction l as [|y l IH]; simpl; [done|]. destruct (p y) eqn:E; [done|]. by intros [= <- _]. Qed.

Lemma rstrip_by_snoc p s c : rstrip_by p (s ++ [c]) = if p c then rstrip_by p s else s ++ [c].
Proof.
  unfold rstrip_by. rewrite reverse_snoc. simpl. destruct (p c); [done|].
  by rewrite reverse_cons, reverse_involutive.
Qed.

Lemma rstrip_by_prefix p s : exists k, s = rstrip_by p s ++ k.
Proof.
  destruct (drop_while_suffix p (reverse s)) as [k Hk]. exists (reverse k). unfold rstrip_by.
  by rewrite <- reverse_app, <- Hk, reverse_involutive.
Qed.

(** A stripped text neither begins nor ends with white space. *)
Lemma strip_first s c r : strip s = c :: r -> is_space c = false.
Proof.
  unfold strip, rstrip_by, lstrip_by. intros Hs. destruct (rstrip_by_prefix is_space (drop_while is_space s)) as [k Hk].
  unfold rstrip_by in Hk. rewrite Hs in Hk. by eapply drop_while_cons.
Qed.

Lemma strip_last s c r : strip s = r ++ [c] -> is_space c = false.
Proof.
  unfold strip, rstrip_by. intros Hs%(f_equal reverse). rewrite reverse_involutive, reverse_snoc in Hs.
  by eapply drop_while_cons.
Qed.

Lemma strip_id s : (forall c r, s = c :: r -> is_space c = false) -> (forall r c, s = r ++ [c] -> is_space c = false) -> strip s = s.
Proof.
  intros Hf Hl. unfold strip, lstrip_by. assert (Hd : drop_while is_space s = s).
  { destruct s as [|c r]; [done|]. simpl. by rewrite (Hf c r). }
  rewrite Hd. destruct s as [|c r] using rev_ind; [done|]. rewrite rstrip_by_snoc. by rewrite (Hl r c).
Qed.

Lemma dec_digits_app fuel n acc : dec_digits fuel n acc = dec_digits fuel n [] ++ acc.
Proof.
  revert n acc. induction fuel as [|fuel IH]; intros n acc; simpl; [done|].
  case_match; [done|]. rewrite IH, (IH _ [_]), <- app_assoc. done.
Qed.

Lemma py_int_digits_app s t :
  py_int_digits (s ++ t) = foldl (fun acc c => acc * 10 + (c - 48))%Z (py_int_digits s) t.
Proof. unfold py_int_digits. by rewrite foldl_app. Qed.

Lemma dec_digits_roundtrip fuel n :
  (0 <= n)%Z -> (n < 2 ^ Z.of_nat fuel)%Z -> py_int_digits (dec_digits fuel n []) = n.
Proof.
  revert n. induction fuel as [|fuel IH]; intros n Hn Hlt.
  - simpl in *. assert (n = 0)%Z as -> by lia. done.
  - simpl dec_digits. rewrite Nat2Z.inj_succ, Z.pow_succ_r in Hlt by lia.
    pose proof (Z.div_mod n 10) as Hdm. pose proof (Z.mod_pos_bound n 10).
    case_match eqn:E.
    + apply Z.eqb_eq in E. unfold py_int_digits. simpl. lia.
    + rewrite dec_digits_app, py_int_digits_app, IH.
      * simpl. lia.
      * apply Z.div_pos; lia.
      * apply Z.div_lt_upper_bound; lia.
Qed.

Lemma py_str_int_roundtrip n : (0 <= n)%Z -> py_int_digits (py_str_int n) = n.
Proof.
  intros Hn. unfold py_str_int. destruct (Z.ltb_spec n 0); [lia|].
  apply dec_digits_roundtrip; [done|].
  rewrite Z2Nat.id by (pose proof (Z.log2_nonneg n); lia).
  destruct (decide (n = 0)%Z) as [->|]; [done|].
  pose proof (Z.log2_spec n) as [_ Hl]; [lia|].
  etrans; [exact Hl|]. apply Z.pow_lt_mono_r; pose proof (Z.log2_nonneg n); lia.
Qed.

Lemma py_str_int_inj n m : (0 <= n)%Z -> (0 <= m)%Z -> py_str_int n = py_str_int m -> n = m.
Proof.
  intros Hn Hm E. rewrite <- (py_str_int_roundtrip n), <- (py_str_int_roundtrip m) by done.
  by rewrite E.
Qed.

Lemma dec_digits_digits fuel n :
  (0 <= n)%Z -> forallb ascii_digit (dec_digits fuel n []) = true.
Proof.
  revert n. induction fuel as [|fuel IH]; intros n Hn; simpl; [done|].
  pose proof (Z.mod_pos_bound n 10). assert (ascii_digit (48 + n mod 10) = true) as Hd.
  { unfold ascii_digit. apply andb_true_intro. split; apply Z.leb_le; lia. }
  case_match; simpl; [by rewrite Hd|].
  rewrite dec_digits_app, forallb_app, IH; simpl; [by rewrite Hd|]. apply Z.div_pos; lia.
Qed.

Lemma py_str_int_isdigit n : (0 <= n)%Z -> isdigit_ascii (py_str_int n) = true.
Proof.
  intros Hn. unfold isdigit_ascii, py_str_int. destruct (Z.ltb_spec n 0); [lia|].
  rewrite dec_digits_digits by done. rewrite andb_true_r. apply negb_true_iff, bool_decide_eq_false.
  replace (Z.to_nat (Z.log2 n + 2)) with (S (Z.to_nat (Z.log2 n + 1)))
    by (pose proof (Z.log2_nonneg n); lia).
  simpl. case_match; [done|]. rewrite dec_digits_app. by intros [_ ?]%app_nil.
Qed.

Definition is_ascii (c : Z) : Prop := (0 <= c < 128)%Z.

Lemma utf8_encode_ascii s : Forall is_ascii s -> utf8_encode s = s.
Proof.
  unfold utf8_encode, is_ascii. induction 1 as [|c s Hc _ IH]; [done|]. simpl. rewrite IH.
  unfold utf8_encode_char. by rewrite (proj2 (Z.ltb_lt c 128)) by lia.
Qed.

Lemma utf8_decode_ascii s : Forall is_ascii s -> utf8_decode s = Some s.
Proof.
  unfold is_ascii. induction 1 as [|c s Hc _ IH]; [done|]. simpl. rewrite IH.
  by rewrite (proj2 (Z.ltb_lt c 128)) by lia.
Qed.

Lemma is_ascii_digits d : forallb ascii_digit d = true -> Forall is_ascii d.
Proof.
  unfold is_ascii, ascii_digit. induction d as [|c d IH]; [constructor|]. simpl.
  intros [[H1%Z.leb_le H2%Z.leb_le]%andb_prop Hd]%andb_prop. constructor; [lia|auto].
Qed.

#[export] Hint Rewrite removeprefix_app startswith_app : pysimp.
