(* ===== verification/Json.v ===== *)
(** * JSON values and their wire form

    The dictionaries, lists and scalars the services exchange, and the two
    standard-library functions that put them on the wire: [json.dumps] with
    its default separators and ASCII output, and [json.loads].  An object is
    an association list without duplicate keys, in insertion order, as a
    Python dict is.

    A float is a binary64 value ([spec_float]); the shortest decimal that
    [repr] chooses for it is the parameter [float_repr]. *)

From Stdlib Require Import SpecFloat.
From S2P Require Import Prelude PyStr.

(** ** Values *)
Inductive json :=
  | JNull
  | JBool (b : bool)
  | JInt (n : Z)
  | JFloat (x : spec_float)
  | JStr (s : pystr)
  | JList (l : list json)
  | JObj (o : list (pystr * json)).

Section json_ind.
Context (P : json -> Prop).
Context (Hnull : P JNull) (Hbool : forall b, P (JBool b)) (Hint : forall n, P (JInt n))
  (Hfloat : forall x, P (JFloat x)) (Hstr : forall s, P (JStr s))
  (Hlist : forall l, Forall P l -> P (JList l))
  (Hobj : forall o, Forall (fun kv => P (snd kv)) o -> P (JObj o)).

(** Structural induction through the nested lists. *)
Fixpoint json_ind' (j : json) : P j :=
  match j with
  | JNull => Hnull
  | JBool b => Hbool b
  | JInt n => Hint n
  | JFloat x => Hfloat x
  | JStr s => Hstr s
  | JList l => Hlist l ((fix go l : Forall P l :=
      match l with [] => Forall_nil_2 P | x :: l => Forall_cons_2 P x l (json_ind' x) (go l) end) l)
  | JObj o => Hobj o ((fix go o : Forall (fun kv : pystr * json => P (snd kv)) o :=
      match o with
      | [] => Forall_nil_2 _
      | (k, x) :: o => Forall_cons_2 (fun kv : pystr * json => P (snd kv)) (k, x) o (json_ind' x) (go o)
      end) o)
  end.
End json_ind.

#[global] Instance spec_float_eq_dec : EqDecision spec_float.
Proof. solve_decision. Defined.

Fixpoint json_eqb (a b : json) : bool :=
  match a, b with
  | JNull, JNull => true
  | JBool x, JBool y => bool_decide (x = y)
  | JInt x, JInt y => bool_decide (x = y)
  | JFloat x, JFloat y => bool_decide (x = y)
  | JStr x, JStr y => bool_decide (x = y)
  | JList x, JList y =>
      (fix go x y := match x, y with
        | [], [] => true
        | a :: x, b :: y => json_eqb a b && go x y
        | _, _ => false end) x y
  | JObj x, JObj y =>
      (fix go x y := match x, y with
        | [], [] => true
        | (k, a) :: x, (k', b) :: y => bool_decide (k = k') && json_eqb a b && go x y
        | _, _ => false end) x y
  | _, _ => false
  end.

Lemma json_eqb_spec a b : json_eqb a b = true <-> a = b.
Proof.
  revert b. induction a as [| | | | |l IH|o IH] using json_ind'; intros [| | | | |l'|o'];
    simpl; try done; try (rewrite bool_decide_eq_true; naive_solver).
  - revert l'. induction IH as [|x l Hx _ IHl]; intros [|y l']; try done.
    rewrite andb_true_iff, Hx, IHl. naive_solver.
  - revert o'. induction IH as [|[k x] o Hx _ IHo]; intros [|[k' y] o']; try done.
    rewrite !andb_true_iff, Hx, bool_decide_eq_true, IHo. simpl. naive_solver.
Qed.

#[global] Instance json_eq_dec : EqDecision json.
Proof.
  intros a b. destruct (json_eqb a b) eqn:E.
  - left. by apply json_eqb_spec.
  - right. intros H%json_eqb_spec. congruence.
Defined.

(** ** Dict operations *)

(** [d.get(k)] of an object's items; [None] when the key is absent. *)
Fixpoint assoc {A} (k : pystr) (o : list (pystr * A)) : option A :=
  match o with
  | [] => None
  | (k', v) :: o => if decide (k = k') then Some v else assoc k o
  end.

(** [d[k] = v]: in place, or appended when the key is new. *)
Fixpoint assoc_set {A} (k : pystr) (v : A) (o : list (pystr * A)) : list (pystr * A) :=
  match o with
  | [] => [(k, v)]
  | (k', v') :: o => if decide (k = k') then (k', v) :: o else (k', v') :: assoc_set k v o
  end.

(** [j.get(k)] for an object [j]. *)
Definition jget (k : pystr) (j : json) : option json :=
  match j with JObj o => assoc k o | _ => None end.

(** [j.get(k)] with Python's [None] for a missing key. *)
Definition jget_null (k : pystr) (j : json) : json := default JNull (jget k j).

Definition jset (k : pystr) (v j : json) : json :=
  match j with JObj o => JObj (assoc_set k v o) | _ => j end.

Definition jstr (j : json) : option pystr := match j with JStr s => Some s | _ => None end.
Definition jint (j : json) : option Z := match j with JInt n => Some n | _ => None end.
Definition jlist (j : json) : option (list json) := match j with JList l => Some l | _ => None end.

(** Truthiness. *)
Definition jtruthy (j : json) : bool :=
  match j with
  | JNull => false
  | JBool b => b
  | JInt n => negb (n =? 0)%Z
  | JFloat (S754_zero _) => false
  | JFloat _ => true
  | JStr s => negb (bool_decide (s = []))
  | JList l => match l with [] => false | _ => true end
  | JObj o => match o with [] => false | _ => true end
  end.

(** A string, or null for [None]. *)
Definition jopt (s : option pystr) : json := match s with Some s => JStr s | None => JNull end.

Section assoc_lemmas.
Context {A : Type}.
Implicit Types (o : list (pystr * A)) (v : A).

Lemma assoc_set_eq k v o : assoc k (assoc_set k v o) = Some v.
Proof.
  induction o as [|[k' v'] o IH]; simpl; [by rewrite decide_True|].
  case_decide; simpl; [by rewrite decide_True|by rewrite decide_False].
Qed.

Lemma assoc_set_ne k k' v o : k <> k' -> assoc k (assoc_set k' v o) = assoc k o.
Proof.
  intros Hne. induction o as [|[k2 v2] o IH]; simpl; [by rewrite decide_False|].
  destruct (decide (k' = k2)) as [->|]; simpl.
  - by rewrite !decide_False.
  - by case_decide.
Qed.

Lemma assoc_None k o : assoc k o = None <-> k ∉ map fst o.
Proof.
  induction o as [|[k' v] o IH]; simpl; [set_solver|].
  case_decide; rewrite ?IH; set_solver.
Qed.

Lemma assoc_elem k v o : assoc k o = Some v -> (k, v) ∈ o.
Proof.
  induction o as [|[k' v'] o IH]; simpl; [done|].
  case_decide; intros; simplify_eq; set_solver.
Qed.

Lemma assoc_set_keys k v o :
  map fst (assoc_set k v o) = if decide (k ∈ map fst o) then map fst o else map fst o ++ [k].
Proof.
  induction o as [|[k' v'] o IH]; [done|]. simpl.
  destruct (decide (k = k')) as [->|Hne]; simpl.
  - rewrite decide_True by set_solver. done.
  - rewrite IH. destruct (decide (k ∈ map fst o)).
    + rewrite decide_True by set_solver. done.
    + rewrite decide_False by set_solver. done.
Qed.
End assoc_lemmas.
#[export] Hint Rewrite @assoc_set_eq : pysimp.

(** ** [json.dumps] *)

Definition hex_digit (d : Z) : Z := if (d <? 10)%Z then (48 + d)%Z else (87 + d)%Z.
Definition hex4 (n : Z) : pystr :=
  [hex_digit (n / 4096); hex_digit ((n / 256) mod 16); hex_digit ((n / 16) mod 16); hex_digit (n mod 16)].
Definition u_escape (n : Z) : pystr := 92%Z :: 117%Z :: hex4 n.

(** One character of a string literal with [ensure_ascii]. *)
Definition dump_char (c : Z) : pystr :=
  if (c =? 34)%Z then [92; 34]%Z
  else if (c =? 92)%Z then [92; 92]%Z
  else if (c =? 10)%Z then [92; 110]%Z
  else if (c =? 13)%Z then [92; 114]%Z
  else if (c =? 9)%Z then [92; 116]%Z
  else if (c =? 12)%Z then [92; 102]%Z
  else if (c =? 8)%Z then [92; 98]%Z
  else if (32 <=? c)%Z && (c <=? 126)%Z then [c]
  else if (c <? 65536)%Z then u_escape c
  else u_escape (55296 + (c - 65536) / 1024) ++ u_escape (56320 + (c - 65536) mod 1024).

Definition dump_str (s : pystr) : pystr := 34%Z :: mjoin (map dump_char s) ++ [34%Z].

Section dumps.
Context (float_repr : spec_float -> pystr).

Fixpoint json_dumps (j : json) : pystr :=
  match j with
  | JNull => u "null"
  | JBool true => u "true"
  | JBool false => u "false"
  | JInt n => py_str_int n
  | JFloat x => float_repr x
  | JStr s => dump_str s
  | JList l => u "[" ++ py_join (u ", ") (map json_dumps l) ++ u "]"
  | JObj o => u "{" ++ py_join (u ", ")
                (map (fun '(k, v) => dump_str k ++ u ": " ++ json_dumps v) o) ++ u "}"
  end.
End dumps.

(** ** [json.loads] *)

Definition unhex (c : Z) : option Z :=
  if (48 <=? c)%Z && (c <=? 57)%Z then Some (c - 48)%Z
  else if (97 <=? c)%Z && (c <=? 102)%Z then Some (c - 87)%Z
  else if (65 <=? c)%Z && (c <=? 70)%Z then Some (c - 55)%Z
  else None.
Definition unhex4 (a b c d : Z) : option Z :=
  a ← unhex a; b ← unhex b; c ← unhex c; d ← unhex d;
  Some (a * 4096 + b * 256 + c * 16 + d)%Z.

Definition unescape (c : Z) : option Z :=
  if (c =? 34)%Z then Some 34%Z
  else if (c =? 92)%Z then Some 92%Z
  else if (c =? 47)%Z then Some 47%Z
  else if (c =? 98)%Z then Some 8%Z
  else if (c =? 102)%Z then Some 12%Z
  else if (c =? 110)%Z then Some 10%Z
  else if (c =? 114)%Z then Some 13%Z
  else if (c =? 116)%Z then Some 9%Z
  else None.

(** The body of a string literal, after its opening quote. *)
Fixpoint parse_str (s : pystr) : option (pystr * pystr) :=
  match s with
  | [] => None
  | c :: s =>
      if (c =? 34)%Z then Some ([], s)
      else if (c <? 32)%Z then None
      else if (c =? 92)%Z then
        match s with
        | [] => None
        | e :: s =>
            if (e =? 117)%Z then
              match s with
              | a :: b :: c :: d :: s =>
                  x ← unhex4 a b c d;
                  if (55296 <=? x)%Z && (x <=? 56319)%Z then
                    match s with
                    | b1 :: b2 :: a' :: b' :: c' :: d' :: s' =>
                        match (if (b1 =? 92)%Z && (b2 =? 117)%Z then unhex4 a' b' c' d' else None) with
                        | Some y =>
                            if (56320 <=? y)%Z && (y <=? 57343)%Z
                            then '(t, r) ← parse_str s';
                                 Some ((65536 + (x - 55296) * 1024 + (y - 56320))%Z :: t, r)
                            else '(t, r) ← parse_str s; Some (x :: t, r)
                        | None => '(t, r) ← parse_str s; Some (x :: t, r)
                        end
                    | _ => '(t, r) ← parse_str s; Some (x :: t, r)
                    end
                  else '(t, r) ← parse_str s; Some (x :: t, r)
              | _ => None
              end
            else x ← unescape e; '(t, r) ← parse_str s; Some (x :: t, r)
        end
      else '(t, r) ← parse_str s; Some (c :: t, r)
  end.

Definition json_space (c : Z) : bool := (c =? 32)%Z || (c =? 9)%Z || (c =? 10)%Z || (c =? 13)%Z.
Definition skip_ws (s : pystr) : pystr := drop_while json_space s.

(** The longest prefix of digits. *)
Fixpoint take_digits (s : pystr) : pystr * pystr :=
  match s with
  | c :: s' => if ascii_digit c then let '(d, r) := take_digits s' in (c :: d, r) else ([], s)
  | [] => ([], [])
  end.

(** The binary64 value nearest to [n / d]. *)
Definition float_of_ratio (n d : Z) : spec_float :=
  match n, d with
  | Zpos n, Zpos d => SFdiv 53 1024 (S754_finite false n 0) (S754_finite false d 0)
  | Zneg n, Zpos d => SFdiv 53 1024 (S754_finite true n 0) (S754_finite false d 0)
  | _, _ => S754_zero false
  end.

Definition float_of_decimal (neg : bool) (digits : Z) (exp : Z) : spec_float :=
  let x := if (0 <=? exp)%Z then float_of_ratio (digits * 10 ^ exp) 1
           else float_of_ratio digits (10 ^ (- exp)) in
  if neg then SFopp x else x.

Definition parse_exp (s : pystr) : option Z * pystr :=
  match s with
  | e :: s' =>
      if (e =? 101)%Z || (e =? 69)%Z then
        let '(neg, t) := match s' with
          | c :: t => if (c =? 45)%Z then (true, t) else if (c =? 43)%Z then (false, t) else (false, s')
          | [] => (false, s') end in
        let '(d, r) := take_digits t in
        if decide (d = []) then (None, s)
        else (Some (if neg then - py_int_digits d else py_int_digits d)%Z, r)
      else (None, s)
  | [] => (None, s)
  end.

(** A number after its optional minus sign: no leading zeros, then an optional
    fraction and an optional exponent. *)
Definition parse_number (neg : bool) (s : pystr) : option (json * pystr) :=
  let '(d, r) := match s with
    | c :: r => if (c =? 48)%Z then ([c], r) else take_digits s
    | [] => ([], []) end in
  if decide (d = []) then None
  else
    let '(frac, r1) := match r with
      | c :: t => if (c =? 46)%Z then let '(f, r') := take_digits t in
                    if decide (f = []) then ([], r) else (f, r') else ([], r)
      | [] => ([], r) end in
    let '(ex, r2) := parse_exp r1 in
    if bool_decide (frac = []) && bool_decide (ex = None) then
      Some (JInt (if neg then - py_int_digits d else py_int_digits d)%Z, r2)
    else Some (JFloat (float_of_decimal neg (py_int_digits (d ++ frac))
                         (default 0 ex - Z.of_nat (length frac))%Z), r2).

Definition parse_const (s : pystr) : option (json * pystr) :=
  if startswith (u "null") s then Some (JNull, drop 4 s)
  else if startswith (u "true") s then Some (JBool true, drop 4 s)
  else if startswith (u "false") s then Some (JBool false, drop 5 s)
  else if startswith (u "NaN") s then Some (JFloat S754_nan, drop 3 s)
  else if startswith (u "Infinity") s then Some (JFloat (S754_infinity false), drop 8 s)
  else if startswith (u "-Infinity") s then Some (JFloat (S754_infinity true), drop 9 s)
  else None.

(** One value, the elements of a list after its [\[] and the members of an
    object after its [{]; each call but the first consumes a character, so the
    length of the text is enough fuel. *)
Fixpoint parse_value (fuel : nat) (s : pystr) : option (json * pystr) :=
  match fuel with
  | O => None
  | S fuel =>
      match s with
      | [] => None
      | c :: t =>
          if (c =? 34)%Z then '(x, r) ← parse_str t; Some (JStr x, r)
          else if (c =? 91)%Z then
            (if startswith (u "]") (skip_ws t) then Some (JList [], drop 1 (skip_ws t))
             else '(l, r) ← parse_items fuel (skip_ws t); Some (JList l, r))
          else if (c =? 123)%Z then
            (if startswith (u "}") (skip_ws t) then Some (JObj [], drop 1 (skip_ws t))
             else '(o, r) ← parse_members fuel (skip_ws t); Some (JObj o, r))
          else if ascii_digit c then parse_number false s
          else match parse_const s with
               | Some x => Some x
               | None => if (c =? 45)%Z then parse_number true t else None
               end
      end
  end
with parse_items (fuel : nat) (s : pystr) : option (list json * pystr) :=
  match fuel with
  | O => None
  | S fuel =>
      '(x, r) ← parse_value fuel s;
      match skip_ws r with
      | c :: t => if (c =? 93)%Z then Some ([x], t)
                  else if (c =? 44)%Z then '(l, r) ← parse_items fuel (skip_ws t); Some (x :: l, r)
                  else None
      | [] => None
      end
  end
with parse_members (fuel : nat) (s : pystr) : option (list (pystr * json) * pystr) :=
  match fuel with
  | O => None
  | S fuel =>
      match s with
      | q :: s =>
          if (q =? 34)%Z then
            '(k, r) ← parse_str s;
            match skip_ws r with
            | col :: r =>
                if (col =? 58)%Z then
                  '(x, r) ← parse_value fuel (skip_ws r);
                  match skip_ws r with
                  | c :: t =>
                      if (c =? 125)%Z then Some ([(k, x)], t)
                      else if (c =? 44)%Z then
                        '(o, r) ← parse_members fuel (skip_ws t); Some ((k, x) :: o, r)
                      else None
                  | [] => None
                  end
                else None
            | [] => None
            end
          else None
      | [] => None
      end
  end.

(** [dict(pairs)]: a repeated key keeps its first place and its last value. *)
Definition dict_of_pairs (o : list (pystr * json)) : list (pystr * json) :=
  foldl (fun d kv => assoc_set (fst kv) (snd kv) d) [] o.

Fixpoint dedup_keys (j : json) : json :=
  match j with
  | JList l => JList (map dedup_keys l)
  | JObj o => JObj (dict_of_pairs (map (fun '(k, v) => (k, dedup_keys v)) o))
  | _ => j
  end.

(** [json.loads(s)] of a [str]; [None] is [JSONDecodeError]. *)
Definition json_loads (s : pystr) : option json :=
  '(j, r) ← parse_value (S (length s)) (skip_ws s);
  if decide (skip_ws r = []) then Some (dedup_keys j) else None.

(** ** Round trip *)

Definition scalar_value (c : Z) : Prop := (0 <= c < 55296)%Z \/ (57344 <= c < 1114112)%Z.

(** Values that survive the wire: Unicode scalar values only, dicts (no
    repeated keys), and floats that satisfy [fl]. *)
Fixpoint wire_with (fl : spec_float -> Prop) (j : json) : Prop :=
  match j with
  | JFloat x => fl x
  | JStr s => Forall scalar_value s
  | JList l => (fix go l := match l with [] => True | x :: l => wire_with fl x /\ go l end) l
  | JObj o => NoDup (map fst o) /\
      (fix go o := match o with [] => True
        | (k, x) :: o => Forall scalar_value k /\ wire_with fl x /\ go o end) o
  | _ => True
  end.

(** The same without floats: these survive whatever [float_repr] writes. *)
Abbreviation wire_ok := (wire_with (fun _ => False)).

Section wire.
Context {fl : spec_float -> Prop}.

Lemma wire_ok_list l : wire_with fl (JList l) <-> Forall (wire_with fl) l.
Proof.
  simpl. induction l as [|x l IH]; [by rewrite Forall_nil|]. by rewrite Forall_cons, IH.
Qed.

Lemma wire_ok_obj o : wire_with fl (JObj o) <->
  NoDup (map fst o) /\ Forall (fun kv => Forall scalar_value (fst kv) /\ wire_with fl (snd kv)) o.
Proof.
  simpl. apply and_iff_compat_l. induction o as [|[k x] o IH]; [by rewrite Forall_nil|].
  rewrite Forall_cons, IH. simpl. tauto.
Qed.
End wire.

Lemma wire_with_mono (fl fl' : spec_float -> Prop) j : (forall x, fl x -> fl' x) -> wire_with fl j -> wire_with fl' j.
Proof.
  intros Hfl. induction j as [| | | | |l IH|o IH] using json_ind'; try done; [apply Hfl| |].
  - rewrite !wire_ok_list, !Forall_forall. rewrite Forall_forall in IH. auto.
  - rewrite !wire_ok_obj, !Forall_forall. rewrite Forall_forall in IH. intros [Hnd Ho]. split; [exact Hnd|].
    intros kv Hkv. destruct (Ho kv Hkv). auto.
Qed.

Lemma unhex_hex_digit d : (0 <= d < 16)%Z -> unhex (hex_digit d) = Some d.
Proof.
  intros Hd. assert (d = 0 \/ d = 1 \/ d = 2 \/ d = 3 \/ d = 4 \/ d = 5 \/ d = 6 \/ d = 7 \/ d = 8
    \/ d = 9 \/ d = 10 \/ d = 11 \/ d = 12 \/ d = 13 \/ d = 14 \/ d = 15)%Z as H by lia.
  by repeat destruct H as [->|H]; [..|subst d].
Qed.

Lemma unhex4_hex4 n : (0 <= n < 65536)%Z ->
  unhex4 (hex_digit (n / 4096)) (hex_digit ((n / 256) mod 16)) (hex_digit ((n / 16) mod 16))
    (hex_digit (n mod 16)) = Some n.
Proof.
  intros Hn. unfold unhex4. rewrite !unhex_hex_digit; simpl.
  - f_equal. zdiv.
  - zdiv.
  - zdiv.
  - zdiv.
  - zdiv.
Qed.

Lemma parse_str_u_escape n s : (0 <= n < 65536)%Z -> ~ (55296 <= n <= 56319)%Z ->
  parse_str (u_escape n ++ s) = ('(t, r) ← parse_str s; Some (n :: t, r)).
Proof.
  intros Hn Hs. unfold u_escape, hex4. cbn -[unhex4 Z.div Z.modulo hex_digit].
  rewrite unhex4_hex4 by done. simpl.
  destruct (Z.leb_spec 55296 n), (Z.leb_spec n 56319); try done; lia.
Qed.

Lemma parse_str_surrogates x y s :
  (55296 <= x <= 56319)%Z -> (56320 <= y <= 57343)%Z ->
  parse_str (u_escape x ++ u_escape y ++ s) =
    ('(t, r) ← parse_str s; Some ((65536 + (x - 55296) * 1024 + (y - 56320))%Z :: t, r)).
Proof.
  intros Hx Hy. unfold u_escape at 1, hex4 at 1. cbn -[unhex4 Z.div Z.modulo hex_digit u_escape].
  rewrite unhex4_hex4 by lia. simpl.
  rewrite (proj2 (Z.leb_le 55296 x)), (proj2 (Z.leb_le x 56319)) by lia.
  unfold u_escape, hex4. cbn -[unhex4 Z.div Z.modulo hex_digit].
  rewrite unhex4_hex4 by lia.
  rewrite (proj2 (Z.leb_le 56320 y)), (proj2 (Z.leb_le y 57343)) by lia. done.
Qed.

Lemma parse_str_char c s : scalar_value c ->
  parse_str (dump_char c ++ s) = ('(t, r) ← parse_str s; Some (c :: t, r)).
Proof.
  intros Hc. unfold dump_char.
  repeat match goal with |- context [(c =? ?k)%Z] =>
    destruct (Z.eqb_spec c k) as [->|]; [done|] end.
  destruct ((32 <=? c)%Z && (c <=? 126)%Z) eqn:Hp.
  { apply andb_prop in Hp as [H1%Z.leb_le H2%Z.leb_le]. simpl.
    rewrite (proj2 (Z.eqb_neq c 34)), (proj2 (Z.eqb_neq c 92)), (proj2 (Z.ltb_ge c 32)) by lia. done. }
  destruct (Z.ltb_spec c 65536) as [Hl|Hl].
  - apply parse_str_u_escape; unfold scalar_value in Hc; lia.
  - rewrite <- app_assoc, parse_str_surrogates; unfold scalar_value in Hc; [|zdiv..].
    replace (65536 + (55296 + (c - 65536) / 1024 - 55296) * 1024 + (56320 + (c - 65536) mod 1024 - 56320))%Z
      with c by zdiv. done.
Qed.

Lemma parse_str_dump s r : Forall scalar_value s ->
  parse_str (mjoin (map dump_char s) ++ 34%Z :: r) = Some (s, r).
Proof.
  induction 1 as [|c s Hc _ IH]; [done|]. simpl. rewrite <- app_assoc, parse_str_char by done.
  by rewrite IH.
Qed.

(** What may follow a value inside a document. *)
Definition delim (r : pystr) : Prop :=
  match r with [] => True | c :: _ => c = 44%Z \/ c = 93%Z \/ c = 125%Z end.

Lemma take_digits_app d r : forallb ascii_digit d = true -> delim r -> take_digits (d ++ r) = (d, r).
Proof.
  intros Hd Hr. induction d as [|c d IH]; simpl in *.
  - destruct r as [|c r]; [done|]. by destruct Hr as [->|[->| ->]].
  - apply andb_prop in Hd as [-> Hd]. by rewrite IH.
Qed.

Lemma parse_exp_delim r : delim r -> parse_exp r = (None, r).
Proof. destruct r as [|c r]; [done|]. by intros [->|[->| ->]]. Qed.

Lemma dec_digits_head fuel n : (0 < n)%Z -> (n < 2 ^ Z.of_nat fuel)%Z ->
  exists c t, dec_digits fuel n [] = c :: t /\ c <> 48%Z.
Proof.
  revert n. induction fuel as [|fuel IH]; intros n Hn Hlt; [simpl in Hlt; lia|].
  rewrite Nat2Z.inj_succ, Z.pow_succ_r in Hlt by lia. simpl.
  destruct (Z.eqb_spec (n / 10) 0) as [E|E].
  - exists (48 + n mod 10)%Z, []. split; [done|]. zdiv.
  - rewrite dec_digits_app. destruct (IH (n / 10)%Z) as (c & t & -> & Hc); [zdiv|zdiv|].
    by exists c, (t ++ [48 + n mod 10])%Z.
Qed.

Lemma py_str_int_digits n : (0 <= n)%Z ->
  exists c t, py_str_int n = c :: t /\ forallb ascii_digit (c :: t) = true /\
    (c = 48%Z -> t = []) /\ py_int_digits (c :: t) = n.
Proof.
  intros Hn. pose proof (py_str_int_isdigit n Hn) as Hd. pose proof (py_str_int_roundtrip n Hn) as Hr.
  unfold isdigit_ascii in Hd. apply andb_prop in Hd as [_ Hd].
  destruct (decide (n = 0)%Z) as [->|Hnz]; [by exists 48%Z, []|].
  unfold py_str_int in *. destruct (Z.ltb_spec n 0); [lia|].
  destruct (dec_digits_head (Z.to_nat (Z.log2 n + 2)) n) as (c & t & E & Hc); [lia| |].
  { rewrite Z2Nat.id by (pose proof (Z.log2_nonneg n); lia).
    pose proof (Z.log2_spec n) as [_ Hl]; [lia|]. etrans; [exact Hl|].
    apply Z.pow_lt_mono_r; pose proof (Z.log2_nonneg n); lia. }
  rewrite E in *. by exists c, t.
Qed.

Lemma parse_number_int neg n r : (0 <= n)%Z -> delim r ->
  parse_number neg (py_str_int n ++ r) = Some (JInt (if neg then - n else n)%Z, r).
Proof.
  intros Hn Hr. destruct (py_str_int_digits n Hn) as (c & t & -> & Hd & H0 & Hv).
  unfold parse_number. simpl app. cbv iota beta.
  assert ((if (c =? 48)%Z then ([c], t ++ r) else take_digits (c :: t ++ r)) = (c :: t, r)) as ->.
  { destruct (Z.eqb_spec c 48) as [->|]; [by rewrite H0|]. by apply (take_digits_app (c :: t)). }
  rewrite decide_False by done.
  assert (match r with c :: t => if (c =? 46)%Z then let '(f, r') := take_digits t in
    if decide (f = []) then ([], r) else (f, r') else ([], r) | [] => ([], r) end = (@nil Z, r)) as ->.
  { destruct r as [|c' r']; [done|]. by destruct Hr as [->|[->| ->]]. }
  rewrite parse_exp_delim by done. simpl. by rewrite Hv.
Qed.

(** Fuel that a value needs. *)
Fixpoint cost (j : json) : nat :=
  match j with
  | JList l => S (sum_list (map (fun x => S (cost x)) l))
  | JObj o => S (sum_list (map (fun '(_, x) => S (cost x)) o))
  | _ => 1
  end.

(** The encoder writes printable characters only. *)
Definition printable (c : Z) : Prop := (32 <= c < 128)%Z.

(** [float.__repr__] writes a JSON number that reads back as the same float. *)
Definition float_reads (float_repr : spec_float -> pystr) (x : spec_float) : Prop :=
  Forall printable (float_repr x) /\
  forall fuel r, delim r -> parse_value (S fuel) (float_repr x ++ r) = Some (JFloat x, r).

Lemma float_reads_head float_repr x : float_reads float_repr x ->
  exists c t, float_repr x = c :: t /\ json_space c = false /\ c <> 93%Z.
Proof.
  intros [_ H]. specialize (H 0 [] I). destruct (float_repr x) as [|c t]; [done|]. exists c, t. split; [done|].
  assert (Hno : c <> 32%Z /\ c <> 9%Z /\ c <> 10%Z /\ c <> 13%Z /\ c <> 93%Z) by (split_and!; intros ->; discriminate H).
  destruct Hno as (?&?&?&?&?). split; [|done]. unfold json_space. by rewrite !(proj2 (Z.eqb_neq _ _)) by done.
Qed.

Section roundtrip.
Context (float_repr : spec_float -> pystr).
Abbreviation dumps := (json_dumps float_repr).
Abbreviation sendable := (wire_with (float_reads float_repr)).

Lemma json_list_ind (l : list json) x : x ∈ l -> S (cost x) <= sum_list (map (fun x => S (cost x)) l).
Proof. induction l as [|y l IH]; [set_solver|]. simpl. intros [->|H]%elem_of_cons; [lia|]. specialize (IH H). lia. Qed.

Lemma startswith_nil_head p c s t : startswith (c :: p) (t :: s) = true -> c = t.
Proof. simpl. by intros [?%Z.eqb_eq _]%andb_prop. Qed.

Lemma parse_const_miss c s : ascii_digit c = true -> parse_const (45%Z :: c :: s) = None.
Proof.
  intros Hc. unfold parse_const. simpl. unfold ascii_digit in Hc. apply andb_prop in Hc as [_ Hc%Z.leb_le].
  destruct c as [|p|p]; try done. by repeat (destruct p as [p|p|]; try done; try lia).
Qed.

Lemma skip_ws_dump_str s r : skip_ws (dump_str s ++ r) = dump_str s ++ r.
Proof. done. Qed.

(** The text of a value starts with a character that is neither white space
    nor the end of a list. *)
Lemma dumps_head j : sendable j ->
  exists c t, dumps j = c :: t /\ json_space c = false /\ c <> 93%Z.
Proof.
  destruct j as [|[]|n|x|s|l|o]; intros H; try (by eexists _, _; split_and!; [reflexivity|..]); [|by apply float_reads_head].
  simpl. destruct (decide (0 <= n)%Z) as [Hn|Hn].
  - destruct (py_str_int_digits n Hn) as (c & t & -> & Hd & _). exists c, t. split; [done|].
    simpl in Hd. apply andb_prop in Hd as [Hd _]. unfold ascii_digit in Hd.
    apply andb_prop in Hd as [H1%Z.leb_le H2%Z.leb_le]. split; [|lia].
    unfold json_space. by rewrite !(proj2 (Z.eqb_neq _ _)) by lia.
  - unfold py_str_int. rewrite (proj2 (Z.ltb_lt _ _)) by lia. by eexists _, _.
Qed.

Lemma skip_ws_dumps j r : sendable j -> skip_ws (dumps j ++ r) = dumps j ++ r.
Proof. intros (c & t & -> & Hc & _)%dumps_head. simpl. unfold skip_ws. simpl. by rewrite Hc. Qed.

Definition parses (j : json) : Prop := forall fuel r,
  cost j <= fuel -> delim r -> parse_value fuel (dumps j ++ r) = Some (j, r).

Lemma join_dumps_head y l r : sendable y ->
  exists c t, py_join (u ", ") (map dumps (y :: l)) ++ r = c :: t /\ json_space c = false /\ c <> 93%Z.
Proof.
  intros (c & t & E & Hc & Hn)%dumps_head. exists c. simpl. rewrite E.
  destruct (map dumps l); by eexists.
Qed.

Lemma parse_items_dumps x l : Forall (fun x => sendable x /\ parses x) (x :: l) -> forall fuel r,
  sum_list (map (fun x => S (cost x)) (x :: l)) <= fuel ->
  parse_items fuel (py_join (u ", ") (map dumps (x :: l)) ++ u "]" ++ r) = Some (x :: l, r).
Proof.
  revert x. induction l as [|y l IH]; intros x [[Hw Hx] Hl]%Forall_cons fuel r Hf;
    (destruct fuel as [|fuel]; [simpl in Hf; lia|]).
  - simpl map. cbn [py_join]. cbn [parse_items]. rewrite Hx; [done|simpl in Hf; lia|]. simpl. auto.
  - destruct (join_dumps_head y l (u "]" ++ r) ltac:(apply Forall_cons in Hl; apply Hl))
      as (c & t & E & Hc & _).
    pose proof (IH y Hl fuel r ltac:(simpl in *; lia)) as Hp. rewrite E in Hp.
    replace (py_join (u ", ") (map dumps (x :: y :: l)) ++ u "]" ++ r)
      with (dumps x ++ 44%Z :: 32%Z :: c :: t)
      by (rewrite <- E; simpl map; cbn [py_join]; by rewrite <- !app_assoc).
    cbn [parse_items]. rewrite Hx; [|simpl in Hf; lia|by left].
    unfold skip_ws. cbn -[parse_items]. rewrite Hc. by rewrite Hp.
Qed.

Abbreviation dump_member := (fun '(k, v) => dump_str k ++ u ": " ++ dumps v).

Lemma parse_members_dumps kv o :
  Forall (fun kv => Forall scalar_value (fst kv) /\ sendable (snd kv) /\ parses (snd kv)) (kv :: o) ->
  forall fuel r, sum_list (map (fun '(_, x) => S (cost x)) (kv :: o)) <= fuel ->
  parse_members fuel (py_join (u ", ") (map dump_member (kv :: o)) ++ u "}" ++ r) = Some (kv :: o, r).
Proof.
  assert (Hkey : forall (k : pystr) x fuel rest, Forall scalar_value k -> sendable x -> parses x ->
    cost x <= fuel -> delim rest ->
    parse_members (S fuel) ((dump_str k ++ u ": " ++ dumps x) ++ rest) =
      match skip_ws rest with
      | c :: t => if (c =? 125)%Z then Some ([(k, x)], t)
                  else if (c =? 44)%Z then '(o, r) ← parse_members fuel (skip_ws t); Some ((k, x) :: o, r)
                  else None
      | [] => None
      end).
  { intros k x fuel rest Hk Hw Hx Hf Hr. unfold dump_str. rewrite <- !app_assoc.
    cbn [app parse_members]. rewrite Z.eqb_refl. rewrite <- !app_assoc. simpl app.
    rewrite parse_str_dump by done. simpl.
    match goal with |- context [skip_ws (?c :: dumps x ++ rest)] =>
      change (skip_ws (c :: dumps x ++ rest)) with (skip_ws (dumps x ++ rest)) end.
    rewrite skip_ws_dumps by done. by rewrite Hx. }
  revert kv. induction o as [|[k2 y] o IH]; intros [k x] [(Hk & Hw & Hx) Ho]%Forall_cons fuel r Hf;
    (destruct fuel as [|fuel]; [simpl in Hf; lia|]).
  - change (py_join (u ", ") (map dump_member [(k, x)])) with (dump_str k ++ u ": " ++ dumps x).
    rewrite Hkey; [done|done|done|done|simpl in Hf; lia|]. right; right; reflexivity.
  - assert (exists t', py_join (u ", ") (map dump_member ((k2, y) :: o)) ++ u "}" ++ r = 34%Z :: t') as [t' E].
    { destruct o as [|[k3 z] o]; eexists; reflexivity. }
    pose proof (IH (k2, y) Ho fuel r ltac:(simpl in *; lia)) as Hp. rewrite E in Hp.
    replace (py_join (u ", ") (map dump_member ((k, x) :: (k2, y) :: o)) ++ u "}" ++ r)
      with ((dump_str k ++ u ": " ++ dumps x) ++ 44%Z :: 32%Z :: 34%Z :: t')
      by (rewrite <- E, <- !app_assoc; cbn [map py_join]; rewrite <- !app_assoc; reflexivity).
    rewrite Hkey; [|done|done|done|simpl in Hf; lia|left; reflexivity].
    unfold skip_ws. cbn -[parse_members]. by rewrite Hp.
Qed.

Lemma parse_value_list fuel t :
  parse_value (S fuel) (91%Z :: t) =
    if startswith [93%Z] (skip_ws t) then Some (JList [], drop 1 (skip_ws t))
    else '(l, r) ← parse_items fuel (skip_ws t); Some (JList l, r).
Proof. done. Qed.

Lemma parse_value_obj fuel t :
  parse_value (S fuel) (123%Z :: t) =
    if startswith [125%Z] (skip_ws t) then Some (JObj [], drop 1 (skip_ws t))
    else '(o, r) ← parse_members fuel (skip_ws t); Some (JObj o, r).
Proof. done. Qed.

Lemma parse_value_dumps j : sendable j -> parses j.
Proof.
  induction j as [|b|n|x|s|l IH|o IH] using json_ind'; intros Hw fuel r Hf Hr;
    (destruct fuel as [|fuel]; [simpl in Hf; lia|]).
  - done.
  - by destruct b.
  - simpl dumps. destruct (decide (0 <= n)%Z) as [Hn|Hn].
    + destruct (py_str_int_digits n Hn) as (c & t & E & Hd & _).
      pose proof (parse_number_int false n r Hn Hr) as Hp. rewrite E in *. simpl in Hd.
      apply andb_prop in Hd as [Hd _]. simpl app in *. cbn [parse_value]. rewrite Hd.
      unfold ascii_digit in Hd. apply andb_prop in Hd as [H1%Z.leb_le H2%Z.leb_le].
      by rewrite !(proj2 (Z.eqb_neq c _)) by lia.
    + pose proof (parse_number_int true (- n) r ltac:(lia) Hr) as Hp.
      destruct (py_str_int_digits (- n) ltac:(lia)) as (c & t & E & Hd & _).
      unfold py_str_int in E, Hp |- *. rewrite (proj2 (Z.ltb_lt n 0)) by lia.
      rewrite (proj2 (Z.ltb_ge (- n) 0)) in * by lia. rewrite E in *. simpl in Hd.
      apply andb_prop in Hd as [Hd _]. simpl app. cbn [parse_value]. simpl.
      rewrite parse_const_miss by done. simpl app in Hp. rewrite Hp. by rewrite Z.opp_involutive.
  - by apply Hw.
  - change (dumps (JStr s)) with (34%Z :: mjoin (map dump_char s) ++ [34%Z]).
    rewrite <- app_comm_cons, <- app_assoc. simpl. by rewrite parse_str_dump.
  - apply wire_ok_list in Hw.
    change (dumps (JList l)) with (u "[" ++ py_join (u ", ") (map dumps l) ++ u "]"). rewrite <- !app_assoc.
    destruct l as [|x l]; [done|].
    assert (Hwp : Forall (fun x => sendable x /\ parses x) (x :: l)).
    { rewrite Forall_forall in *. auto. }
    pose proof (parse_items_dumps x l Hwp fuel r ltac:(simpl in *; lia)) as Hp.
    apply Forall_cons in Hw as [Hwx _].
    destruct (join_dumps_head x l (u "]" ++ r) Hwx) as (c & t & E & Hc & Hne). rewrite E in *.
    change (u "[" ++ c :: t) with (91%Z :: c :: t). rewrite parse_value_list. unfold skip_ws. cbn [drop_while].
    rewrite Hc. cbn [startswith]. destruct (Z.eqb_spec 93 c); [congruence|]. cbn [andb]. by rewrite Hp.
  - apply wire_ok_obj in Hw as [Hnd Hw].
    change (dumps (JObj o)) with (u "{" ++ py_join (u ", ") (map dump_member o) ++ u "}"). rewrite <- !app_assoc.
    change (u "{") with [123%Z]. destruct o as [|[k x] o]; [done|].
    assert (Hwp : Forall (fun kv => Forall scalar_value (fst kv) /\ sendable (snd kv) /\ parses (snd kv)) ((k, x) :: o)).
    { rewrite Forall_forall in *. intros kv Hkv. destruct (Hw kv Hkv). auto. }
    pose proof (parse_members_dumps (k, x) o Hwp fuel r ltac:(simpl in *; lia)) as Hp.
    assert (exists t', py_join (u ", ") (map dump_member ((k, x) :: o)) ++ u "}" ++ r = 34%Z :: t') as [t' Et].
    { destruct o as [|[k3 z] o]; eexists; reflexivity. }
    rewrite Et in *. change ([123%Z] ++ 34%Z :: t') with (123%Z :: 34%Z :: t').
    rewrite parse_value_obj. change (skip_ws (34%Z :: t')) with (34%Z :: t').
    change (startswith [125%Z] (34%Z :: t')) with false. cbv iota. by rewrite Hp.
Qed.
End roundtrip.

Lemma dict_of_pairs_app o p : dict_of_pairs (o ++ p) = foldl (fun d kv => assoc_set (fst kv) (snd kv) d) (dict_of_pairs o) p.
Proof. apply foldl_app. Qed.

Lemma assoc_set_new {A} k (v : A) o : k ∉ map fst o -> assoc_set k v o = o ++ [(k, v)].
Proof.
  induction o as [|[k' v'] o IH]; [done|]. simpl. intros H. rewrite decide_False by set_solver.
  f_equal. apply IH. set_solver.
Qed.

Lemma dict_of_pairs_NoDup o : NoDup (map fst o) -> dict_of_pairs o = o.
Proof.
  induction o as [|[k v] o IH] using rev_ind; [done|]. rewrite map_app, dict_of_pairs_app. simpl.
  intros (Hnd & Hd & _)%NoDup_app. rewrite IH by done. apply assoc_set_new. set_solver.
Qed.

Lemma dedup_keys_id fl j : wire_with fl j -> dedup_keys j = j.
Proof.
  induction j as [| | | | |l IH|o IH] using json_ind'; try done.
  - intros Hw%wire_ok_list. simpl. f_equal. induction Hw as [|x l Hx _ IHl]; [done|].
    apply Forall_cons in IH as [H1 H2]. simpl. by rewrite H1, IHl.
  - intros [Hnd Hw]%wire_ok_obj. simpl. f_equal.
    assert (map (fun '(k, v) => (k, dedup_keys v)) o = o) as ->; [|by apply dict_of_pairs_NoDup].
    clear Hnd. induction Hw as [|[k x] o [_ Hx] _ IHo]; [done|].
    apply Forall_cons in IH as [H1 H2]. simpl in *. by rewrite H1, IHo.
Qed.

Lemma length_py_join sep l :
  l <> [] -> length sep = 2 -> length (py_join sep l) + 2 = sum_list (map (fun x => length x + 2) l).
Proof.
  intros Hl Hsep. induction l as [|x l IH]; [done|]. destruct l as [|y l]; [simpl; lia|].
  change (py_join sep (x :: y :: l)) with (x ++ sep ++ py_join sep (y :: l)).
  rewrite !length_app. cbn [map sum_list fold_right] in *. specialize (IH ltac:(done)). simpl in *. lia.
Qed.

Section codec.
Context (float_repr : spec_float -> pystr).
Abbreviation dumps := (json_dumps float_repr).
Abbreviation sendable := (wire_with (float_reads float_repr)).

Lemma cost_dumps j : sendable j -> cost j <= length (dumps j).
Proof.
  induction j as [|[]|n|x|s|l IH|o IH] using json_ind'; try (simpl; lia).
  - intros _. simpl. unfold py_str_int. destruct (n <? 0)%Z eqn:E; simpl; [lia|].
    apply Z.ltb_ge in E. pose proof (py_str_int_digits n E) as (c & t & H & _).
    unfold py_str_int in H. rewrite (proj2 (Z.ltb_ge n 0) E) in H. rewrite H. simpl. lia.
  - intros (c & t & E & _)%float_reads_head. simpl. rewrite E. simpl. lia.
  - intros Hw%wire_ok_list. change (dumps (JList l)) with (u "[" ++ py_join (u ", ") (map dumps l) ++ u "]").
    rewrite !length_app. simpl cost. change (length (u "[")) with 1. change (length (u "]")) with 1.
    destruct l as [|x l]; [simpl; lia|].
    pose proof (length_py_join (u ", ") (map dumps (x :: l)) ltac:(done) eq_refl) as Hlen.
    enough (sum_list (map (fun x => S (cost x)) (x :: l)) + 1 <=
      sum_list (map (fun x => length x + 2) (map dumps (x :: l)))) by lia.
    clear Hlen. revert x IH Hw. induction l as [|y l IHl]; intros x [Hx IH]%Forall_cons [Hwx Hw]%Forall_cons.
    + simpl. specialize (Hx Hwx). lia.
    + specialize (IHl y IH Hw). specialize (Hx Hwx). simpl in *. lia.
  - intros [_ Hw]%wire_ok_obj.
    change (dumps (JObj o)) with (u "{" ++ py_join (u ", ") (map (fun '(k, v) => dump_str k ++ u ": " ++ dumps v) o) ++ u "}").
    rewrite !length_app. simpl cost. change (length (u "{")) with 1. change (length (u "}")) with 1.
    destruct o as [|kx o]; [simpl; lia|].
    pose proof (length_py_join (u ", ") (map (fun '(k, v) => dump_str k ++ u ": " ++ dumps v) (kx :: o)) ltac:(done) eq_refl) as Hlen.
    enough (sum_list (map (fun '(_, x) => S (cost x)) (kx :: o)) + 1 <=
      sum_list (map (fun x => length x + 2) (map (fun '(k, v) => dump_str k ++ u ": " ++ dumps v) (kx :: o)))) by lia.
    clear Hlen. revert kx IH Hw. induction o as [|ky o IHo];
      intros [k x] [Hx IH]%Forall_cons [[_ Hwx] Hw]%Forall_cons; simpl in Hx, Hwx; specialize (Hx Hwx).
    + simpl. rewrite !length_app. simpl. lia.
    + specialize (IHo ky IH Hw). simpl in *. rewrite !length_app. simpl. lia.
Qed.

(** Decoding the text of a value gives the value back. *)
Lemma loads_dumps j : sendable j -> json_loads (dumps j) = Some j.
Proof.
  intros Hw. unfold json_loads.
  pose proof (skip_ws_dumps float_repr j [] Hw) as Hs. rewrite !app_nil_r in Hs. rewrite Hs.
  pose proof (cost_dumps j Hw) as Hc.
  pose proof (parse_value_dumps float_repr j Hw (S (length (dumps j))) [] ltac:(lia) I) as Hp.
  rewrite app_nil_r in Hp. rewrite Hp. simpl. by rewrite (dedup_keys_id (float_reads float_repr)).
Qed.

Lemma printable_digits d : forallb ascii_digit d = true -> Forall printable d.
Proof.
  unfold printable, ascii_digit. induction d as [|c d IH]; [constructor|]. simpl. intros [Hc Hd]%andb_prop. constructor; [lia|auto].
Qed.

Lemma dump_char_printable c : scalar_value c -> Forall printable (dump_char c).
Proof.
  intros Hc. assert (Hhex : forall d, (0 <= d < 16)%Z -> printable (hex_digit d)).
  { intros d Hd. unfold printable, hex_digit. case_match; lia. }
  assert (Hu : forall n, (0 <= n < 65536)%Z -> Forall printable (u_escape n)).
  { intros n Hn. unfold u_escape, hex4. repeat constructor; try (unfold printable; lia); apply Hhex; zdiv. }
  unfold dump_char. repeat match goal with |- context [if ?b then _ else _] => destruct b eqn:? end;
    try (repeat constructor; unfold printable; lia).
  - apply Hu. unfold scalar_value in *. lia.
  - apply Forall_app. split; apply Hu; unfold scalar_value in *; zdiv.
Qed.

Lemma dump_str_printable s : Forall scalar_value s -> Forall printable (dump_str s).
Proof.
  intros H. unfold dump_str. constructor; [unfold printable; lia|]. apply Forall_app. split.
  - induction H as [|c s Hc _ IH]; [constructor|]. simpl. apply Forall_app. auto using dump_char_printable.
  - repeat constructor; unfold printable; lia.
Qed.

Lemma py_join_printable sep l : Forall printable sep -> Forall (Forall printable) l -> Forall printable (py_join sep l).
Proof.
  intros Hsep. induction 1 as [|x l Hx Hl IH]; [constructor|]. destruct l as [|y l]; [done|].
  change (py_join sep (x :: y :: l)) with (x ++ sep ++ py_join sep (y :: l)).
  rewrite !Forall_app. auto.
Qed.

Lemma dumps_in_print j : sendable j -> Forall printable (dumps j).
Proof.
  assert (Hlit : forall s, forallb (fun c => (32 <=? c)%Z && (c <? 128)%Z) s = true -> Forall printable s).
  { unfold printable. induction s as [|c s IHs]; [constructor|]. simpl. intros [Hc Hs]%andb_prop.
    constructor; [lia|auto]. }
  induction j as [|[]|n|x|s|l IH|o IH] using json_ind'; intros Hw; try by apply Hlit.
  - simpl. destruct (decide (0 <= n)%Z) as [Hn|Hn].
    + destruct (py_str_int_digits n Hn) as (c & t & -> & Hd & _). by apply printable_digits.
    + unfold py_str_int. rewrite (proj2 (Z.ltb_lt n 0)) by lia. constructor; [unfold printable; lia|].
      apply printable_digits, dec_digits_digits. lia.
  - apply Hw.
  - by apply dump_str_printable.
  - apply wire_ok_list in Hw.
    change (dumps (JList l)) with (u "[" ++ py_join (u ", ") (map dumps l) ++ u "]"). apply Forall_app; split; [by apply Hlit|].
    apply Forall_app; split; [|by apply Hlit]. apply py_join_printable; [by apply Hlit|].
    rewrite Forall_forall in IH. rewrite Forall_forall in Hw.
    apply Forall_forall. intros y (x & -> & Hx)%list_elem_of_fmap. auto.
  - apply wire_ok_obj in Hw as [_ Hw].
    change (dumps (JObj o)) with (u "{" ++ py_join (u ", ") (map (fun '(k, v) => dump_str k ++ u ": " ++ dumps v) o) ++ u "}").
    apply Forall_app; split; [by apply Hlit|].
    apply Forall_app; split; [|by apply Hlit]. apply py_join_printable; [by apply Hlit|].
    rewrite Forall_forall in IH. rewrite Forall_forall in Hw.
    apply Forall_forall. intros y ([k x] & -> & Hx)%list_elem_of_fmap.
    destruct (Hw _ Hx) as [Hk Hwx]. rewrite !Forall_app. split_and!.
    + by apply dump_str_printable.
    + by apply Hlit.
    + by apply (IH _ Hx).
Qed.

Lemma dumps_in_ascii j : sendable j -> Forall is_ascii (dumps j).
Proof. intros Hw%dumps_in_print. eapply Forall_impl; [exact Hw|]. unfold printable, is_ascii. lia. Qed.


Lemma wire_ok_sendable j : wire_ok j -> sendable j.
Proof. by apply wire_with_mono. Qed.

Lemma json_loads_dumps j : wire_ok j -> json_loads (dumps j) = Some j.
Proof. by intros Hw%wire_ok_sendable%loads_dumps. Qed.
Lemma dumps_ascii j : wire_ok j -> Forall is_ascii (dumps j).
Proof. by intros Hw%wire_ok_sendable%dumps_in_ascii. Qed.

(** [json.dumps(j).encode("utf-8")] and [json.loads(b.decode("utf-8"))] *)
Definition to_wire (j : json) : list Z := utf8_encode (dumps j).
End codec.

Definition from_wire (b : list Z) : option json := s ← utf8_decode b; json_loads s.

Lemma from_to_wire float_repr j : wire_ok j -> from_wire (to_wire float_repr j) = Some j.
Proof.
  intros Hw. unfold from_wire, to_wire. pose proof (dumps_ascii float_repr j Hw) as Ha.
  rewrite utf8_encode_ascii, utf8_decode_ascii by done. simpl. by apply json_loads_dumps.
Qed.

Lemma to_wire_inj float_repr j k :
  wire_ok j -> wire_ok k -> to_wire float_repr j = to_wire float_repr k -> j = k.
Proof.
  intros Hj Hk E. apply (from_to_wire float_repr) in Hj, Hk. rewrite E in Hj. congruence.
Qed.

(** Updating one entry keeps a dict sendable. *)
Lemma wire_ok_jset fl k v j : Forall scalar_value k -> wire_with fl v -> wire_with fl j -> wire_with fl (jset k v j).
Proof.
  destruct j as [| | | | | |o]; try done. intros Hk Hv [Hnd Ho]%wire_ok_obj. apply wire_ok_obj. simpl.
  split.
  - rewrite assoc_set_keys. case_decide; [done|]. apply NoDup_app. split_and!; [done|set_solver|apply NoDup_singleton].
  - clear Hnd. induction Ho as [|[k' v'] o [Hk' Hv'] Ho IH]; simpl.
    + by constructor.
    + case_decide; constructor; auto.
Qed.
