(* ===== verification/Schema.v ===== *)
(** * Identifiers and JSON Schema

    [uuid.UUID(text)] and [str(uuid)], and the fragment of JSON Schema
    (draft-07) the contracts under [packages/contracts] and the skills use.
    The validator itself is the third-party [jsonschema] package: it is the
    interface [SchemaValidator], whose law is the documented meaning
    [conforms] of each keyword of the fragment. *)

From S2P Require Import Prelude PyStr Json.

(** ** Substring replacement *)

(** [s.replace(pat, rep)] for a non-empty [pat]: [skip] counts the characters
    of a match still to be passed over. *)
Fixpoint replace_go (pat rep : pystr) (skip : nat) (s : pystr) : pystr :=
  match s with
  | [] => []
  | c :: t =>
      match skip with
      | S k => replace_go pat rep k t
      | O => if startswith pat s then rep ++ replace_go pat rep (length pat - 1) t
             else c :: replace_go pat rep 0 t
      end
  end.
Definition py_replace (pat rep s : pystr) : pystr := replace_go pat rep 0 s.

(** ** UUIDs *)

(** [int(s, 16)]: optional white space, sign and [0x], single underscores
    between digits. *)
Fixpoint hex_number (prev_digit : bool) (acc : N) (s : pystr) : option N :=
  match s with
  | [] => if prev_digit then Some acc else None
  | c :: s =>
      if (c =? 95)%Z then (if prev_digit then hex_number false acc s else None)
      else match unhex c with
           | Some d => hex_number true (acc * 16 + Z.to_N d) s
           | None => None
           end
  end.

Definition int_base16 (s : pystr) : option (bool * N) :=
  let s := strip s in
  let '(neg, s) := match s with
    | c :: t => if (c =? 45)%Z then (true, t) else if (c =? 43)%Z then (false, t) else (false, s)
    | [] => (false, s) end in
  let s := match s with
    | z :: x :: t => if (z =? 48)%Z && ((x =? 120)%Z || (x =? 88)%Z)
                     then (match t with c :: t' => if (c =? 95)%Z then t' else t | [] => t end) else s
    | _ => s end in
  pair neg <$> hex_number false 0 s.

(** [uuid.UUID(s).int]; [None] is [ValueError]. *)
Definition uuid_parse (s : pystr) : option N :=
  let hex := py_replace (u "uuid:") [] (py_replace (u "urn:") [] s) in
  let braces c := (c =? 123)%Z || (c =? 125)%Z in
  let hex := replace_char 45 [] (rstrip_by braces (lstrip_by braces hex)) in
  if decide (length hex = 32) then
    match int_base16 hex with
    | Some (neg, n) => if neg && negb (n =? 0)%N then None else Some n
    | None => None
    end
  else None.

(** The low [k] hexadecimal digits of [n]. *)
Fixpoint hex_digits (k : nat) (n : N) : pystr :=
  match k with
  | O => []
  | S k => hex_digits k (n / 16) ++ [hex_digit (Z.of_N (n mod 16))]
  end.

(** [str(uuid)]: 8-4-4-4-12 *)
Definition uuid_str (n : N) : pystr :=
  let h := hex_digits 32 n in
  take 8 h ++ 45%Z :: take 4 (drop 8 h) ++ 45%Z :: take 4 (drop 12 h) ++
  45%Z :: take 4 (drop 16 h) ++ 45%Z :: drop 20 h.

(** ** Schemas *)

Inductive jtype := TNull | TBool | TInteger | TNumber | TString | TArray | TObject.
#[global] Instance jtype_eq_dec : EqDecision jtype.
Proof. solve_decision. Defined.

Inductive keyword :=
  | KType (ts : list jtype)
  | KRequired (ks : list pystr)
  | KClosed (ks : list pystr)            (** additionalProperties: false *)
  | KProperty (k : pystr) (s : list keyword)
  | KItems (s : list keyword)
  | KMinLength (n : nat)
  | KMaxLength (n : nat)
  | KMinItems (n : nat)
  | KMaxItems (n : nat)
  | KMinimum (n : Z)
  | KMaximum (n : Z)
  | KConst (j : json)
  | KEnum (js : list json)
  | KUuid.                                (** format: uuid, with a format checker *)
Abbreviation schema := (list keyword).

(** A float without a fractional part is a JSON Schema integer. *)
Definition float_integral (x : SpecFloat.spec_float) : bool :=
  match x with
  | SpecFloat.S754_zero _ => true
  | SpecFloat.S754_finite _ m e =>
      (0 <=? e)%Z || (Zpos m mod 2 ^ (- e) =? 0)%Z
  | _ => false
  end.

Definition has_type (t : jtype) (j : json) : bool :=
  match t, j with
  | TNull, JNull | TBool, JBool _ | TInteger, JInt _ | TNumber, JInt _ | TNumber, JFloat _
  | TString, JStr _ | TArray, JList _ | TObject, JObj _ => true
  | TInteger, JFloat x => float_integral x
  | _, _ => false
  end.

(** Comparison of a number with an integer bound. *)
Definition num_leb (n : Z) (j : json) : bool :=
  match j with
  | JInt m => (n <=? m)%Z
  | JFloat x => match SpecFloat.SFcompare (float_of_ratio n 1) x with
                | Some (Lt | Eq) => true | _ => false end
  | _ => true
  end.
Definition num_geb (n : Z) (j : json) : bool :=
  match j with
  | JInt m => (m <=? n)%Z
  | JFloat x => match SpecFloat.SFcompare x (float_of_ratio n 1) with
                | Some (Lt | Eq) => true | _ => false end
  | _ => true
  end.

(** The equality of [const] and [enum]: numbers by value, 1 and 1.0 alike, but
    no number is a boolean.  The constants of the contracts are scalars. *)
Definition float_is (n : Z) (x : SpecFloat.spec_float) : bool :=
  match x with
  | SpecFloat.S754_zero _ => (n =? 0)%Z
  | SpecFloat.S754_finite s m e =>
      let a := if s then Zneg m else Zpos m in
      if (0 <=? e)%Z then (n =? a * 2 ^ e)%Z else (n * 2 ^ (- e) =? a)%Z
  | _ => false
  end.
Definition same_value (v j : json) : bool :=
  match v, j with
  | JInt n, JFloat x | JFloat x, JInt n => float_is n x
  | JFloat x, JFloat y => match SpecFloat.SFcompare x y with Some Eq => true | _ => false end
  | _, _ => bool_decide (j = v)
  end.

(** The documented meaning of the keywords: each constrains only the values of
    its own kind. *)
Fixpoint holds (k : keyword) (j : json) : bool :=
  match k with
  | KType ts => existsb (fun t => has_type t j) ts
  | KRequired ks => match j with JObj o => forallb (fun k => bool_decide (k ∈ map fst o)) ks | _ => true end
  | KClosed ks => match j with JObj o => forallb (fun kv => bool_decide (fst kv ∈ ks)) o | _ => true end
  | KProperty k s => match jget k j with Some v => forallb (fun k => holds k v) s | None => true end
  | KItems s => match j with JList l => forallb (fun x => forallb (fun k => holds k x) s) l | _ => true end
  | KMinLength n => match j with JStr s => Nat.leb n (length s) | _ => true end
  | KMaxLength n => match j with JStr s => Nat.leb (length s) n | _ => true end
  | KMinItems n => match j with JList l => Nat.leb n (length l) | _ => true end
  | KMaxItems n => match j with JList l => Nat.leb (length l) n | _ => true end
  | KMinimum n => num_leb n j
  | KMaximum n => num_geb n j
  | KConst v => same_value v j
  | KEnum vs => existsb (fun v => same_value v j) vs
  | KUuid => match j with
             | JStr s => match uuid_parse s with
                         | Some _ => forallb (fun p => bool_decide (s !! p = Some 45%Z)) [8; 13; 18; 23]
                         | None => false end
             | _ => true end
  end.
Definition conforms (s : schema) (j : json) : bool := forallb (fun k => holds k j) s.

(** The validator the services call: [is_valid s j = false] is its
    [ValidationError]. *)
Class SchemaValidator := {
  is_valid : schema -> json -> bool;
  is_valid_conforms : forall s j, is_valid s j = conforms s j;
}.
Definition draft7 : SchemaValidator := {| is_valid := conforms; is_valid_conforms _ _ := eq_refl |}.

(** ** Lemmas *)

Lemma conforms_spec s j : conforms s j = true <-> forall k, k ∈ s -> holds k j = true.
Proof.
  unfold conforms. rewrite forallb_forall. split; intros H k Hk; apply H; by apply list_elem_of_In.
Qed.

Lemma conforms_missing s ks k o :
  KRequired ks ∈ s -> k ∈ ks -> assoc k o = None -> conforms s (JObj o) = false.
Proof.
  intros Hs Hk Ho. apply not_true_iff_false. rewrite conforms_spec. intros H.
  specialize (H _ Hs). simpl in H. rewrite forallb_forall in H.
  specialize (H k ltac:(by apply list_elem_of_In)). apply bool_decide_eq_true in H.
  by apply assoc_None in Ho.
Qed.

Lemma conforms_extra s ks k o :
  KClosed ks ∈ s -> k ∉ ks -> k ∈ map fst o -> conforms s (JObj o) = false.
Proof.
  intros Hs Hk Ho. apply not_true_iff_false. rewrite conforms_spec. intros H.
  specialize (H _ Hs). simpl in H. rewrite forallb_forall in H.
  apply list_elem_of_fmap in Ho as ([k' v] & -> & Hkv).
  specialize (H _ ltac:(by apply list_elem_of_In)). apply bool_decide_eq_true in H. done.
Qed.

Lemma conforms_required s ks k o :
  conforms s (JObj o) = true -> KRequired ks ∈ s -> k ∈ ks -> exists v, assoc k o = Some v.
Proof.
  intros Hc Hs Hk. destruct (assoc k o) as [v|] eqn:E; [by exists v|].
  by rewrite (conforms_missing s ks k o Hs Hk E) in Hc.
Qed.

Lemma conforms_property s s' k j v :
  conforms s j = true -> KProperty k s' ∈ s -> jget k j = Some v -> conforms s' v = true.
Proof. rewrite conforms_spec. intros Hc Hs Hv. specialize (Hc _ Hs). simpl in Hc. by rewrite Hv in Hc. Qed.

(** Replacing one present entry of a dict keeps a schema that constrains dicts
    entry by entry. *)
Definition dict_keyword (k : keyword) : bool :=
  match k with KType _ | KRequired _ | KClosed _ | KProperty _ _ => true | _ => false end.

Lemma conforms_assoc_set s k v o :
  forallb dict_keyword s = true -> k ∈ map fst o -> conforms s (JObj o) = true ->
  (forall s', KProperty k s' ∈ s -> conforms s' v = true) ->
  conforms s (JObj (assoc_set k v o)) = true.
Proof.
  intros Hd Hk Hc Hv. rewrite conforms_spec in *. intros kw Hkw. specialize (Hc kw Hkw).
  rewrite forallb_forall in Hd. specialize (Hd kw ltac:(by apply list_elem_of_In)).
  assert (Hkeys : map fst (assoc_set k v o) = map fst o) by (rewrite assoc_set_keys; by rewrite decide_True).
  destruct kw as [ts|ks|ks|k' s'|s'|n|n|n|n|n|n|js|js|]; try done; simpl in *.
  - by rewrite Hkeys.
  - rewrite forallb_forall in *. intros kv Hin%list_elem_of_In.
    apply (list_elem_of_fmap_2 fst) in Hin. change (fst <$> assoc_set k v o) with (map fst (assoc_set k v o)) in Hin.
    rewrite Hkeys in Hin. apply list_elem_of_fmap in Hin as (kv' & -> & Hin). apply Hc.
    by apply list_elem_of_In.
  - destruct (decide (k' = k)) as [->|Hne].
    + rewrite assoc_set_eq. by apply Hv.
    + by rewrite assoc_set_ne.
Qed.

Lemma length_hex_digits k n : length (hex_digits k n) = k.
Proof. revert n. induction k as [|k IH]; intros n; simpl; [done|]. rewrite length_app, IH. simpl. lia. Qed.

Definition hex_char (c : Z) : Prop := (48 <= c <= 57)%Z \/ (97 <= c <= 102)%Z.

Lemma hex_digit_char d : (d < 16)%N -> hex_char (hex_digit (Z.of_N d)).
Proof. intros. unfold hex_char, hex_digit. case_match; lia. Qed.

Lemma hex_digits_chars k n : Forall hex_char (hex_digits k n).
Proof.
  revert n. induction k as [|k IH]; intros n; simpl; [constructor|]. apply Forall_app. split; [done|].
  constructor; [|constructor]. apply hex_digit_char, N.mod_lt. done.
Qed.

Lemma hex_number_app b acc s t :
  Forall hex_char s -> s <> [] ->
  hex_number b acc (s ++ t) = m ← hex_number true acc s; hex_number true m t.
Proof.
  intros Hs Hne. revert b acc Hne. induction Hs as [|c s Hc Hs IH]; intros b acc Hne; [done|]. simpl.
  assert (exists d, unhex c = Some d) as [d Hd].
  { unfold unhex. destruct Hc; [rewrite (proj2 (Z.leb_le 48 c)), (proj2 (Z.leb_le c 57)) by lia; by eexists|].
    rewrite (proj2 (Z.leb_gt c 57)), andb_false_r, (proj2 (Z.leb_le 97 c)), (proj2 (Z.leb_le c 102)) by lia. by eexists. }
  rewrite Hd. destruct (Z.eqb_spec c 95) as [->|]; [unfold hex_char in Hc; lia|].
  destruct s as [|c' s]; [done|]. by rewrite (IH true _ ltac:(done)).
Qed.

Lemma hex_number_digits k n : k <> 0 -> (n < 16 ^ N.of_nat k)%N -> forall b, hex_number b 0 (hex_digits k n) = Some n.
Proof.
  revert n. induction k as [|k IH]; intros n Hk Hn b; [done|].
  assert (Hd : unhex (hex_digit (Z.of_N (n mod 16))) = Some (Z.of_N (n mod 16))).
  { apply unhex_hex_digit. split; [apply N2Z.is_nonneg|]. change 16%Z with (Z.of_N 16). by apply N2Z.inj_lt, N.mod_lt. }
  assert (Hc : hex_char (hex_digit (Z.of_N (n mod 16)))) by (apply hex_digit_char, N.mod_lt; done).
  simpl hex_digits. destruct k as [|k].
  - simpl in *. rewrite Hd. destruct (Z.eqb_spec (hex_digit (Z.of_N (n mod 16))) 95); [unfold hex_char in Hc; lia|].
    rewrite N2Z.id, N.mod_small by lia. f_equal; lia.
  - rewrite hex_number_app; [|apply hex_digits_chars|].
    2: { intros E. apply (f_equal length) in E. rewrite length_hex_digits in E. done. }
    rewrite Nat2N.inj_succ, N.pow_succ_r' in Hn.
    rewrite IH by (try done; apply N.Div0.div_lt_upper_bound; lia). cbn [mbind option_bind hex_number].
    rewrite Hd. destruct (Z.eqb_spec (hex_digit (Z.of_N (n mod 16))) 95); [unfold hex_char in Hc; lia|].
    rewrite N2Z.id. f_equal. pose proof (N.div_mod n 16). lia.
Qed.

Lemma replace_go_miss pat rep c p s :
  pat = c :: p -> c ∉ s -> replace_go pat rep 0 s = s.
Proof.
  intros ->. induction s as [|x s IH]; [done|]. intros Hc. simpl.
  destruct (Z.eqb_spec c x) as [->|]; [set_solver|]. simpl. rewrite IH; [done|set_solver].
Qed.

Lemma drop_while_head {A} (p : A -> bool) x l : p x = false -> drop_while p (x :: l) = x :: l.
Proof. intros H. simpl. by rewrite H. Qed.

Lemma drop_while_none {A} (p : A -> bool) l : (forall x, x ∈ l -> p x = false) -> drop_while p l = l.
Proof. destruct l as [|x l]; [done|]. intros H. apply drop_while_head. set_solver. Qed.

Lemma rstrip_by_none p s : (forall x, x ∈ s -> p x = false) -> rstrip_by p s = s.
Proof.
  intros H. unfold rstrip_by. rewrite drop_while_none; [by rewrite reverse_involutive|].
  intros x Hx. apply H. by apply elem_of_reverse_2 in Hx; rewrite reverse_involutive in Hx.
Qed.

Lemma replace_char_app c d s t : replace_char c d (s ++ t) = replace_char c d s ++ replace_char c d t.
Proof. unfold replace_char. by rewrite map_app, join_app. Qed.

Lemma replace_char_miss c d s : c ∉ s -> replace_char c d s = s.
Proof.
  unfold replace_char. induction s as [|x s IH]; [done|]. intros H. simpl.
  destruct (Z.eqb_spec x c) as [->|]; [set_solver|]. simpl. rewrite IH; [done|set_solver].
Qed.

Definition uuid_char (c : Z) : Prop := hex_char c \/ c = 45%Z.

Lemma uuid_str_chars n : Forall uuid_char (uuid_str n).
Proof.
  unfold uuid_str. pose proof (hex_digits_chars 32 n) as Hh.
  assert (Hu : forall l, Forall hex_char l -> Forall uuid_char l).
  { intros l Hl. eapply Forall_impl; [exact Hl|]. by left. }
  repeat first [apply Forall_app; split | constructor; [by right|] | apply Hu];
    auto using Forall_take, Forall_drop.
Qed.

Lemma uuid_str_ascii n : Forall scalar_value (uuid_str n).
Proof.
  eapply Forall_impl; [apply uuid_str_chars|]. unfold uuid_char, hex_char, scalar_value. lia.
Qed.

Lemma length_uuid_str n : length (uuid_str n) = 36.
Proof.
  unfold uuid_str. pose proof (length_hex_digits 32 n) as Hl.
  repeat (rewrite ?length_app, ?length_take, ?length_drop, ?Hl; simpl).  reflexivity.
Qed.

Lemma uuid_str_hex n : replace_char 45 [] (uuid_str n) = hex_digits 32 n.
Proof.
  unfold uuid_str. set (h := hex_digits 32 n).
  assert (Hm : forall l, Forall hex_char l -> replace_char 45 [] l = l).
  { intros l Hl. apply replace_char_miss. intros H. rewrite Forall_forall in Hl.
    specialize (Hl _ H). unfold hex_char in Hl. lia. }
  assert (Hh : Forall hex_char h) by apply hex_digits_chars.
  assert (Hc : forall l, replace_char 45 [] (45%Z :: l) = replace_char 45 [] l) by done.
  repeat (rewrite ?replace_char_app, ?Hc).
  rewrite !Hm by auto using Forall_take, Forall_drop.
  assert (Hd : forall i, take 4 (drop i h) ++ drop (4 + i) h = drop i h).
  { intros i. rewrite <- (take_drop 4 (drop i h)) at 2. by rewrite drop_drop, Nat.add_comm. }
  change 20 with (4 + 16). rewrite (Hd 16). change (4 + 16) with 20. change (drop 16 h) with (drop (4 + 12) h). rewrite (Hd 12). change (drop 12 h) with (drop (4 + 8) h). rewrite (Hd 8). apply take_drop.
Qed.

(** [uuid.UUID(str(x)) == x] *)
Lemma uuid_parse_str n : (n < 2 ^ 128)%N -> uuid_parse (uuid_str n) = Some n.
Proof.
  intros Hn. pose proof (uuid_str_chars n) as Hc. rewrite Forall_forall in Hc.
  assert (Hx : forall x c, c ∈ uuid_str n -> uuid_char c -> c = x -> uuid_char x) by naive_solver.
  unfold uuid_parse, py_replace.
  rewrite (replace_go_miss (u "urn:") [] 117%Z (u "rn:")); [|done|].
  2: { intros H%Hc. unfold uuid_char, hex_char in H. lia. }
  rewrite (replace_go_miss (u "uuid:") [] 117%Z (u "uid:")); [|done|].
  2: { intros H%Hc. unfold uuid_char, hex_char in H. lia. }
  unfold lstrip_by. rewrite drop_while_none, rstrip_by_none, uuid_str_hex.
  2, 3: intros x H%Hc; unfold uuid_char, hex_char in H;
    by rewrite !(proj2 (Z.eqb_neq x _)) by lia.
  rewrite decide_True by apply length_hex_digits.
  pose proof (hex_digits_chars 32 n) as Hh. pose proof (hex_number_digits 32 n ltac:(done) Hn) as Hnum.
  assert (Hsp : forall x, x ∈ hex_digits 32 n -> is_space x = false).
  { rewrite Forall_forall in Hh. intros x H%Hh. unfold hex_char in H. unfold is_space. lia. }
  unfold int_base16, strip, lstrip_by. rewrite drop_while_none, rstrip_by_none by done.
  pose proof (length_hex_digits 32 n) as Hlen.
  destruct (hex_digits 32 n) as [|z [|x t]] eqn:E; try done.
  pose proof Hh as Hh'. apply Forall_cons in Hh' as [Hz Hh']. apply Forall_cons in Hh' as [Hx' _].
  unfold hex_char in Hz, Hx'.
  rewrite (proj2 (Z.eqb_neq z 45)), (proj2 (Z.eqb_neq z 43)) by lia.
  rewrite (proj2 (Z.eqb_neq x 120)), (proj2 (Z.eqb_neq x 88)), andb_false_r by lia.
  by rewrite Hnum.
Qed.

Lemma uuid_str_dashes n p : p ∈ [8; 13; 18; 23] -> uuid_str n !! p = Some 45%Z.
Proof.
  intros Hp. unfold uuid_str. pose proof (length_hex_digits 32 n) as Hl.
  destruct (hex_digits 32 n) as [|a0 [|a1 [|a2 [|a3 [|a4 [|a5 [|a6 [|a7 [|a8 [|a9 [|a10 [|a11 [|a12
    [|a13 [|a14 [|a15 [|a16 [|a17 [|a18 [|a19 l]]]]]]]]]]]]]]]]]]]]; try done.
  by repeat (apply elem_of_cons in Hp as [->|Hp]; [done|]); apply elem_of_nil in Hp.
Qed.

Lemma uuid_format n : (n < 2 ^ 128)%N -> holds KUuid (JStr (uuid_str n)) = true.
Proof.
  intros Hn. unfold holds. rewrite uuid_parse_str by done. apply forallb_forall.
  intros p Hp%list_elem_of_In. apply bool_decide_eq_true. by apply uuid_str_dashes.
Qed.
