(* ===== verification/Jobs.v ===== *)
(** * The durable job table and its leases

    Models [bridge/noc_bridge/db.py]: the [jobs] and [reports] rows as the SQL
    statements of that file read and write them.  One function per Python
    function, each of which commits before it returns, so each is one atomic
    transition of the table; [claim_job] is two statements, its update and the
    read that says why the update missed, and other sessions may commit
    [between] them.  Timestamps are microseconds since the epoch; the [now]
    each function samples and the random claim token are arguments.

    The second half states what the table promises: [LeaseSpec] is the abstract
    lease automaton, [claim_job_refines] and its companions show the SQL
    implements it; [rival_step] is what other sessions do beside a lease
    holder, [displacing_step] the two statements that ask for no token, and
    [writer_step] the step relation of all writers of db.py. *)

From S2P Require Import Prelude PyStr.

Abbreviation job_id := N (only parsing).
Abbreviation token := N (only parsing).
Abbreviation usec := Z (only parsing).

(** ** Data *)

(** The values the [status] column takes. *)
Inductive job_status := QUEUED | PROCESSING | COMPLETED | FAILED | RETRYING.
#[global] Instance job_status_eq_dec : EqDecision job_status.
Proof. solve_decision. Defined.

(** The columns of [jobs] that the modelled code reads or writes. *)
Record job := mk_job {
  j_type : pystr;
  j_incident_id : option N;
  j_status : job_status;
  j_attempt : Z;
  j_error_code : option pystr;
  j_error_message : option pystr;
  j_queued_at : usec;
  j_started_at : option usec;
  j_completed_at : option usec;
  j_claimed_at : option usec;
  j_claim_token : option token;
  j_lease_expires_at : option usec;
  j_worker_id : option pystr;
}.
#[global] Instance job_eq_dec : EqDecision job.
Proof. solve_decision. Defined.

(** One uploaded artifact's identity, as [upload_artifact_metadata] returns it. *)
Record artifact := mk_artifact {
  a_bucket : option pystr;
  a_object_key : option pystr;
  a_version_id : option pystr;
  a_sha256 : option pystr;
  a_byte_size : option Z;
  a_content_type : option pystr;
}.

Record provenance := mk_provenance {
  p_runtime_name : option pystr;
  p_runtime_version : option pystr;
  p_runtime_profile : option pystr;
  p_provider : option pystr;
  p_runtime_model : option pystr;
  p_input_manifest_sha256 : option pystr;
  p_output_sha256 : option pystr;
  p_input_tokens : option Z;
  p_output_tokens : option Z;
  p_duration_ms : option Z;
}.

(** The [artifact_metadata] argument of [mark_completed]; a missing or empty
    entry is [None]. *)
Record artifact_metadata := mk_artifact_metadata {
  am_report : option artifact;
  am_document : option artifact;
  am_screenshots : option artifact;
  am_provenance : option provenance;
}.

(** The columns of [reports] written by [mark_completed].  The screenshots
    artifact has no bucket column. *)
Record report := mk_report {
  r_job_id : job_id;
  r_report : artifact;
  r_document : artifact;
  r_screenshots : artifact;
  r_provenance : provenance;
  r_generated_at : option usec;
}.

Record db := mk_db { jobs : gmap job_id job; reports : gmap N report }.

Inductive JobClaimDisposition := CLAIMED | ALREADY_COMPLETED | LEASE_BUSY | NOT_CLAIMABLE.
#[global] Instance disposition_eq_dec : EqDecision JobClaimDisposition.
Proof. solve_decision. Defined.

Record JobClaimResult := mk_claim { disposition : JobClaimDisposition; claim_row : option job }.

(** ** SQL statements *)

(** [UPDATE jobs SET f WHERE id = i AND p], with [rowcount == 1]. *)
Definition update_job (i : job_id) (p : job -> bool) (f : job -> job) (d : db) : bool * db :=
  match jobs d !! i with
  | Some j => if p j then (true, mk_db (<[i := f j]> (jobs d)) (reports d)) else (false, d)
  | None => (false, d)
  end.

(** [WHERE id = %s] or [WHERE id = %s AND claim_token = %s]; a NULL column
    never equals a token. *)
Definition token_matches (claim_token : option token) (j : job) : bool :=
  match claim_token with
  | None => true
  | Some t => bool_decide (j_claim_token j = Some t)
  end.

Definition set_status (s : job_status) (j : job) : job :=
  mk_job (j_type j) (j_incident_id j) s (j_attempt j) (j_error_code j) (j_error_message j)
    (j_queued_at j) (j_started_at j) (j_completed_at j) (j_claimed_at j) (j_claim_token j)
    (j_lease_expires_at j) (j_worker_id j).
Definition set_attempt (n : Z) (j : job) : job :=
  mk_job (j_type j) (j_incident_id j) (j_status j) n (j_error_code j) (j_error_message j)
    (j_queued_at j) (j_started_at j) (j_completed_at j) (j_claimed_at j) (j_claim_token j)
    (j_lease_expires_at j) (j_worker_id j).
Definition set_error (c m : option pystr) (j : job) : job :=
  mk_job (j_type j) (j_incident_id j) (j_status j) (j_attempt j) c m
    (j_queued_at j) (j_started_at j) (j_completed_at j) (j_claimed_at j) (j_claim_token j)
    (j_lease_expires_at j) (j_worker_id j).
Definition set_started (t : option usec) (j : job) : job :=
  mk_job (j_type j) (j_incident_id j) (j_status j) (j_attempt j) (j_error_code j) (j_error_message j)
    (j_queued_at j) t (j_completed_at j) (j_claimed_at j) (j_claim_token j)
    (j_lease_expires_at j) (j_worker_id j).
Definition set_completed (t : option usec) (j : job) : job :=
  mk_job (j_type j) (j_incident_id j) (j_status j) (j_attempt j) (j_error_code j) (j_error_message j)
    (j_queued_at j) (j_started_at j) t (j_claimed_at j) (j_claim_token j)
    (j_lease_expires_at j) (j_worker_id j).
Definition set_lease (claimed : option usec) (tok : option token) (expires : option usec) (j : job) : job :=
  mk_job (j_type j) (j_incident_id j) (j_status j) (j_attempt j) (j_error_code j) (j_error_message j)
    (j_queued_at j) (j_started_at j) (j_completed_at j) claimed tok expires (j_worker_id j).
Definition set_worker (w : option pystr) (j : job) : job :=
  mk_job (j_type j) (j_incident_id j) (j_status j) (j_attempt j) (j_error_code j) (j_error_message j)
    (j_queued_at j) (j_started_at j) (j_completed_at j) (j_claimed_at j) (j_claim_token j)
    (j_lease_expires_at j) w.

(** [claimed_at = NULL, claim_token = NULL, lease_expires_at = NULL] *)
Definition release (j : job) : job := set_lease None None None j.

Definition seconds (n : Z) : usec := (n * 1000000)%Z.

(** ** Operations *)

Definition mark_started (i : job_id) (claim_token : option token) (now : usec) (d : db) : bool * db :=
  update_job i (token_matches claim_token)
    (fun j => set_started (Some now) (set_status PROCESSING j)) d.

Definition complete_row (completed_at : usec) (j : job) : job :=
  release (set_error None None (set_completed (Some completed_at) (set_status COMPLETED j))).

(** [UPDATE reports SET f WHERE job_id = i] *)
Definition update_reports (i : job_id) (f : report -> report) (d : db) : db :=
  mk_db (jobs d) ((fun r => if decide (r_job_id r = i) then f r else r) <$> reports d).

Definition set_report_artifact (a : artifact) (r : report) : report :=
  mk_report (r_job_id r) a (r_document r) (r_screenshots r) (r_provenance r) (r_generated_at r).

Definition drop_bucket (old a : artifact) : artifact :=
  mk_artifact (a_bucket old) (a_object_key a) (a_version_id a) (a_sha256 a) (a_byte_size a) (a_content_type a).

Definition set_preview_artifacts (doc shots : artifact) (r : report) : report :=
  mk_report (r_job_id r) (r_report r) (drop_bucket (r_document r) doc)
    (drop_bucket (r_screenshots r) shots) (r_provenance r) (r_generated_at r).

(** [generated_at = COALESCE(generated_at, completed_at)] *)
Definition set_provenance (p : provenance) (completed_at : usec) (r : report) : report :=
  mk_report (r_job_id r) (r_report r) (r_document r) (r_screenshots r) p
    (Some (default completed_at (r_generated_at r))).

Definition save_artifacts (i : job_id) (completed_at : usec) (m : artifact_metadata) (d : db) : db :=
  let d := match am_report m with
           | Some a => update_reports i (set_report_artifact a) d
           | None => d
           end in
  let d := match am_document m, am_screenshots m with
           | Some a, Some s => update_reports i (set_preview_artifacts a s) d
           | _, _ => d
           end in
  match am_provenance m with
  | Some p => update_reports i (set_provenance p completed_at) d
  | None => d
  end.

Definition mark_completed (i : job_id) (meta : option artifact_metadata)
    (claim_token : option token) (completed_at : usec) (d : db) : bool * db :=
  let '(updated, d) := update_job i (token_matches claim_token) (complete_row completed_at) d in
  if negb updated then (false, d)
  else match meta with
       | None => (true, d)
       | Some m => (true, save_artifacts i completed_at m d)
       end.

Definition fail_row (error_code error_message : pystr) (now : usec) (j : job) : job :=
  release (set_error (Some error_code) (Some error_message)
    (set_completed (Some now) (set_status FAILED j))).

Definition mark_failed (i : job_id) (error_code error_message : pystr)
    (claim_token : option token) (now : usec) (d : db) : bool * db :=
  update_job i (token_matches claim_token) (fail_row error_code error_message now) d.

Definition retry_row (error_code error_message : pystr) (j : job) : job :=
  release (set_error (Some error_code) (Some error_message)
    (set_completed None (set_status RETRYING j))).

(** No token argument: the update is by id alone. *)
Definition mark_retrying (i : job_id) (error_code error_message : pystr) (d : db) : bool * db :=
  update_job i (fun _ => true) (retry_row error_code error_message) d.

Definition bump_attempt (i : job_id) (attempt : Z) (d : db) : db :=
  snd (update_job i (fun _ => true) (set_attempt attempt) d).

Definition fetch_job_row (i : job_id) (d : db) : option job := jobs d !! i.

(** The [WHERE] clause of the claiming [UPDATE]. *)
Definition claimable (now : usec) (j : job) : bool :=
  bool_decide (j_status j <> COMPLETED) &&
  (bool_decide (j_status j = QUEUED) || bool_decide (j_status j = FAILED) ||
   bool_decide (j_status j = RETRYING) ||
   (bool_decide (j_status j = PROCESSING) &&
    match j_lease_expires_at j with
    | None => true
    | Some e => (e <? now)%Z
    end)).

Definition claim_row_update (worker_id : pystr) (lease_seconds : Z) (tok : token) (now : usec)
    (j : job) : job :=
  set_worker (Some worker_id)
    (set_lease (Some now) (Some tok) (Some (now + seconds lease_seconds)%Z)
      (set_started (Some now) (set_status PROCESSING j))).

(** The classification of a row the [UPDATE] did not take. *)
Definition classify_unclaimed (now : usec) (current : option job) : JobClaimResult :=
  match current with
  | None => mk_claim NOT_CLAIMABLE None
  | Some j =>
      if decide (j_status j = COMPLETED) then mk_claim ALREADY_COMPLETED (Some j)
      else if decide (j_status j = PROCESSING) then
        match j_lease_expires_at j with
        | Some e => if (now <=? e)%Z then mk_claim LEASE_BUSY (Some j)
                    else mk_claim NOT_CLAIMABLE (Some j)
        | None => mk_claim NOT_CLAIMABLE (Some j)
        end
      else mk_claim NOT_CLAIMABLE (Some j)
  end.

(** The statements of [claim_job]: [UPDATE ... RETURNING *], and the locked
    [SELECT] that classifies a row the update did not take.  Each sees what is
    committed when it runs; [now] is taken once, before the first. *)
Definition claim_update (i : job_id) (worker_id : pystr) (lease_seconds : Z) (tok : token)
    (now : usec) (d : db) : option job * db :=
  let '(updated, d) := update_job i (claimable now) (claim_row_update worker_id lease_seconds tok now) d in
  (if updated then jobs d !! i else None, d).
Definition claim_read (i : job_id) (now : usec) (d : db) : JobClaimResult := classify_unclaimed now (jobs d !! i).
(** [between]: what other sessions commit after the update missed. *)
Definition claim_job (i : job_id) (worker_id : pystr) (lease_seconds : Z) (tok : token)
    (now : usec) (between : db -> db) (d : db) : JobClaimResult * db :=
  match claim_update i worker_id lease_seconds tok now d with
  | (Some row, d) => (mk_claim CLAIMED (Some row), d)
  | (None, d) => (claim_read i now (between d), between d)
  end.

Definition renew_job_lease (i : job_id) (tok : token) (lease_seconds : Z) (now : usec) (d : db) : bool * db :=
  update_job i (fun j => bool_decide (j_status j = PROCESSING) && bool_decide (j_claim_token j = Some tok))
    (fun j => set_lease (j_claimed_at j) (j_claim_token j) (Some (now + seconds lease_seconds)%Z) j) d.

(** ** Lookup lemmas of the SQL primitives *)

Section update_lemmas.
Implicit Types (d : db) (i : job_id) (p : job -> bool) (f : job -> job).

Lemma update_job_hit i p f d j :
  jobs d !! i = Some j -> p j = true ->
  update_job i p f d = (true, mk_db (<[i := f j]> (jobs d)) (reports d)).
Proof. intros Hj Hp. unfold update_job. by rewrite Hj, Hp. Qed.

Lemma update_job_miss i p f d :
  (forall j, jobs d !! i = Some j -> p j = false) -> update_job i p f d = (false, d).
Proof. intros Hp. unfold update_job. destruct (jobs d !! i); [by rewrite Hp|done]. Qed.

Lemma update_job_inv i p f d b d' :
  update_job i p f d = (b, d') ->
  (b = false /\ d' = d) \/
  (b = true /\ exists j, jobs d !! i = Some j /\ p j = true /\
     d' = mk_db (<[i := f j]> (jobs d)) (reports d)).
Proof.
  unfold update_job. destruct (jobs d !! i) as [j|] eqn:Hj; [destruct (p j) eqn:Hp|];
    intros [= <- <-]; [right|left|left]; repeat esplit; done.
Qed.

Lemma update_job_reports i p f d : reports (snd (update_job i p f d)) = reports d.
Proof. unfold update_job. destruct (jobs d !! i) as [j|]; [by destruct (p j)|done]. Qed.

Lemma update_job_other i i' p f d :
  i <> i' -> jobs (snd (update_job i p f d)) !! i' = jobs d !! i'.
Proof.
  intros. unfold update_job. destruct (jobs d !! i) as [j|]; [destruct (p j)|]; simpl; try done.
  by rewrite lookup_insert_ne.
Qed.

Lemma update_job_lookup i p f d :
  jobs (snd (update_job i p f d)) !! i =
    (fun j => if p j then f j else j) <$> jobs d !! i.
Proof.
  unfold update_job. destruct (jobs d !! i) as [j|] eqn:E; simpl; [|done].
  destruct (p j) eqn:Ep; simpl; [by rewrite lookup_insert_eq|done].
Qed.

Lemma update_reports_jobs i g d : jobs (update_reports i g d) = jobs d.
Proof. done. Qed.

Lemma save_artifacts_jobs i now m d : jobs (save_artifacts i now m d) = jobs d.
Proof.
  unfold save_artifacts. by destruct (am_report m), (am_document m), (am_screenshots m), (am_provenance m).
Qed.
End update_lemmas.
#[export] Hint Rewrite update_job_reports update_reports_jobs save_artifacts_jobs : pysimp.

(** ** Well-formed rows

    A row outside [PROCESSING] carries no claim.  Every statement of the file
    keeps this, whatever tokens its callers hold. *)
Definition row_wf (j : job) : Prop :=
  j_status j <> PROCESSING ->
  j_claimed_at j = None /\ j_claim_token j = None /\ j_lease_expires_at j = None.
Definition db_wf (d : db) : Prop := map_Forall (fun _ => row_wf) (jobs d).

Lemma update_job_wf i p f d :
  (forall j, row_wf j -> row_wf (f j)) -> db_wf d -> db_wf (snd (update_job i p f d)).
Proof.
  intros Hf Hd. unfold update_job. destruct (jobs d !! i) as [j|] eqn:E; [|done].
  destruct (p j); simpl; [|done]. apply map_Forall_insert_2; [|done].
  apply Hf, (Hd i _ E).
Qed.

Lemma release_wf j : row_wf (release j).
Proof. done. Qed.

Lemma mark_completed_jobs i meta tok now d :
  jobs (snd (mark_completed i meta tok now d)) =
  jobs (snd (update_job i (token_matches tok) (complete_row now) d)).
Proof.
  unfold mark_completed. destruct (update_job _ _ _ _) as [[] d'] eqn:E; simpl; [|done].
  destruct meta; simpl; by rewrite ?save_artifacts_jobs.
Qed.

Lemma mark_completed_wf i meta tok now d :
  db_wf d -> db_wf (snd (mark_completed i meta tok now d)).
Proof.
  intros Hd. unfold db_wf. rewrite mark_completed_jobs. by apply update_job_wf.
Qed.

(** ** The abstract lease automaton *)
Module LeaseSpec.
(** What a job's row promises to the workers. *)
Inductive lease :=
  | Free                                             (** waiting for a worker *)
  | Held (owner : option token) (until : option usec)
  | Done.

Definition live (now : usec) (until : option usec) : bool :=
  match until with Some e => (now <=? e)%Z | None => false end.

Definition lease_of (j : job) : lease :=
  match j_status j with
  | COMPLETED => Done
  | PROCESSING => Held (j_claim_token j) (j_lease_expires_at j)
  | QUEUED | FAILED | RETRYING => Free
  end.

(** A claim takes a free or an expired lease and nothing else. *)
Definition acquire (tok : token) (now until : usec) (l : option lease) : JobClaimDisposition * option lease :=
  match l with
  | None => (NOT_CLAIMABLE, None)
  | Some Done => (ALREADY_COMPLETED, Some Done)
  | Some Free => (CLAIMED, Some (Held (Some tok) (Some until)))
  | Some (Held o e) =>
      if live now e then (LEASE_BUSY, Some (Held o e))
      else (CLAIMED, Some (Held (Some tok) (Some until)))
  end.

(** Giving a lease up takes its token. *)
Definition finish (tok : token) (l' : lease) (l : option lease) : bool * option lease :=
  match l with
  | Some (Held (Some t) e) => if decide (t = tok) then (true, Some l') else (false, l)
  | _ => (false, l)
  end.

Definition extend (tok : token) (until : usec) (l : option lease) : bool * option lease :=
  finish tok (Held (Some tok) (Some until)) l.

(** The only transition that asks for no token. *)
Definition reopen (l : option lease) : bool * option lease :=
  match l with
  | Some _ => (true, Some Free)
  | None => (false, None)
  end.

Definition abs (d : db) (i : job_id) : option lease := lease_of <$> jobs d !! i.
End LeaseSpec.
Import LeaseSpec.

(** A step of job [i] leaves the leases of the other jobs alone. *)
Definition only_at (i : job_id) (d d' : db) : Prop := forall i', i' <> i -> abs d' i' = abs d i'.

Lemma update_job_only_at i p f d : only_at i d (snd (update_job i p f d)).
Proof. intros i' Hne. unfold abs. by rewrite update_job_other. Qed.

Lemma claimable_spec now j :
  claimable now j = match lease_of j with
                    | Done => false
                    | Free => true
                    | Held _ e => negb (live now e)
                    end.
Proof.
  unfold claimable, lease_of, live. destruct (j_status j); try done. simpl.
  destruct (j_lease_expires_at j) as [e|]; [|done]. by rewrite Z.leb_antisym, negb_involutive.
Qed.

(** The classifying read agrees with the claiming update on the same row. *)
Lemma classify_unclaimed_spec now o :
  (forall j, o = Some j -> claimable now j = false) ->
  disposition (classify_unclaimed now o) =
    match lease_of <$> o with
    | None => NOT_CLAIMABLE
    | Some Done => ALREADY_COMPLETED
    | Some _ => LEASE_BUSY
    end.
Proof.
  intros H. destruct o as [j|]; [|done]. specialize (H j eq_refl).
  rewrite claimable_spec in H. simpl. revert H. unfold lease_of, live.
  destruct (j_status j); simpl; try done.
  by destruct (j_lease_expires_at j) as [e|]; [destruct (now <=? e)%Z|].
Qed.

(** A token guard holds exactly when the abstract owner is that token. *)
Lemma token_guard_spec tok j :
  row_wf j ->
  token_matches (Some tok) j = match lease_of j with
                               | Held (Some t) _ => bool_decide (t = tok)
                               | _ => false
                               end.
Proof.
  unfold row_wf, token_matches, lease_of. intros Hwf.
  destruct (j_status j) eqn:E; try (destruct Hwf as (_ & -> & _); [done|done]).
  destruct (j_claim_token j) as [t|]; [|done]. apply bool_decide_ext. naive_solver.
Qed.

(** ** Refinement of the lease automaton *)

Lemma claim_update_hit i w secs tok now d j :
  jobs d !! i = Some j -> claimable now j = true ->
  claim_update i w secs tok now d =
    (Some (claim_row_update w secs tok now j),
     mk_db (<[i := claim_row_update w secs tok now j]> (jobs d)) (reports d)).
Proof.
  intros Hj Hc. unfold claim_update. rewrite (update_job_hit _ _ _ _ _ Hj Hc). simpl.
  by rewrite lookup_insert_eq.
Qed.

Lemma claim_update_miss i w secs tok now d :
  (forall j, jobs d !! i = Some j -> claimable now j = false) -> claim_update i w secs tok now d = (None, d).
Proof. intros H. unfold claim_update. by rewrite update_job_miss. Qed.

Lemma claim_update_token i w secs tok now d row d' : claim_update i w secs tok now d = (Some row, d') -> j_claim_token row = Some tok.
Proof.
  unfold claim_update. destruct (update_job _ _ _ _) as [[] d2] eqn:E; [|done]. intros [= Hrow <-].
  apply update_job_inv in E as [[? _]|(_ & j & _ & _ & ->)]; [done|]. simpl in Hrow. rewrite lookup_insert_eq in Hrow. by injection Hrow as <-.
Qed.

Lemma lease_of_claimed w secs tok now j :
  lease_of (claim_row_update w secs tok now j) = Held (Some tok) (Some (now + seconds secs)%Z).
Proof. done. Qed.

(** The lease the update leaves is the one of [acquire], and it returns a row
    exactly when [acquire] grants the lease. *)
Lemma claim_update_sim i w secs tok now d :
  let '(r, d') := claim_update i w secs tok now d in
  let '(granted, l) := acquire tok now (now + seconds secs)%Z (abs d i) in
  abs d' i = l /\ (if r then granted = CLAIMED else granted <> CLAIMED /\ d' = d) /\ only_at i d d' /\ reports d' = reports d.
Proof.
  destruct (jobs d !! i) as [j|] eqn:Hj; [destruct (claimable now j) eqn:Hc|].
  - rewrite (claim_update_hit _ _ _ _ _ _ _ Hj Hc). rewrite claimable_spec in Hc.
    assert (acquire tok now (now + seconds secs)%Z (abs d i) = (CLAIMED, Some (Held (Some tok) (Some (now + seconds secs)%Z)))) as ->.
    { unfold abs, acquire. rewrite Hj. simpl. destruct (lease_of j) as [|o e|]; [done| |done]. by rewrite (proj1 (negb_true_iff _) Hc). }
    unfold abs. simpl. rewrite lookup_insert_eq. simpl. rewrite lease_of_claimed.
    split_and!; [done|done|intros i' Hi'; unfold abs; simpl; by rewrite lookup_insert_ne|done].
  - rewrite claim_update_miss by naive_solver. rewrite claimable_spec in Hc. unfold abs, acquire. rewrite Hj. simpl.
    destruct (lease_of j) as [|o e|]; [done| |by split_and!]. rewrite (proj1 (negb_false_iff _) Hc). by split_and!.
  - rewrite claim_update_miss by naive_solver. unfold abs. rewrite Hj. by split_and!.
Qed.

(** The disposition of a row that was read: the one [acquire] would give, but
    a row that came free after the update missed it is not claimable. *)
Lemma claim_read_spec i now d : claim_row (claim_read i now d) = jobs d !! i /\
  disposition (claim_read i now d) = match abs d i with
    | Some Done => ALREADY_COMPLETED
    | Some (Held _ e) => if live now e then LEASE_BUSY else NOT_CLAIMABLE
    | Some Free | None => NOT_CLAIMABLE
    end.
Proof.
  unfold claim_read, abs. destruct (jobs d !! i) as [j|]; [|done]. simpl. unfold classify_unclaimed, lease_of, live.
  destruct (j_status j); simpl; try done. destruct (j_lease_expires_at j) as [e|]; [|done]. by destruct (now <=? e)%Z.
Qed.

(** [claim_job] implements the abstract lease automaton: the update takes
    exactly what [acquire] grants and then returns the row as it is stored,
    owned by the caller's token until the end of the lease, and touches no
    other job and no report; otherwise nothing is written and the row that the
    later read finds is classified, which is the answer of [acquire] when no
    session came between. *)
Theorem claim_job_refines i w secs tok now between d :
  let '(r, d') := claim_job i w secs tok now between d in
  let '(granted, l) := acquire tok now (now + seconds secs)%Z (abs d i) in
  (granted = CLAIMED -> disposition r = CLAIMED /\ abs d' i = l /\ only_at i d d' /\ reports d' = reports d /\
     exists j, claim_row r = Some j /\ jobs d' !! i = Some j /\ j_status j = PROCESSING /\
     j_claim_token j = Some tok /\ j_worker_id j = Some w /\ j_lease_expires_at j = Some (now + seconds secs)%Z) /\
  (granted <> CLAIMED -> d' = between d /\ claim_row r = jobs d' !! i /\ disposition r <> CLAIMED /\
     (abs d' i = abs d i -> disposition r = granted)).
Proof.
  pose proof (claim_update_sim i w secs tok now d) as H. unfold claim_job.
  destruct (claim_update i w secs tok now d) as [[row|] d1] eqn:Hu; destruct (acquire _ _ _ _) as [g l] eqn:Ha; destruct H as (Hl & Hg & Hat & Hrep).
  - split; [|by intros []]. intros _. split_and!; try done.
    unfold claim_update in Hu. destruct (update_job _ _ _ _) as [[] d2] eqn:E; [|discriminate]. injection Hu as Hrow <-.
    exists row. split; [done|]. split; [done|]. apply update_job_inv in E as [[? _]|(_ & j & _ & _ & ->)]; [done|].
    simpl in Hrow. rewrite lookup_insert_eq in Hrow. injection Hrow as <-. done.
  - destruct Hg as [Hg ->]. split; [done|]. intros _. destruct (claim_read_spec i now (between d)) as [Hrow Hd].
    split_and!; [done|done| |].
    + rewrite Hd. destruct (abs (between d) i) as [[|o e|]|]; [done|by destruct (live now e)|done|done].
    + intros E. rewrite Hd, E. revert Ha Hg. unfold acquire. destruct (abs d i) as [[|o e|]|]; [intros [= <- _]; by intros []| |by intros [= <- _]|by intros [= <- _]].
      destruct (live now e); intros [= <- _]; [done|by intros []].
Qed.

(** The rows a token owns. *)
Definition owned_by (tok : token) (l : lease) : bool :=
  match l with Held (Some t) _ => bool_decide (t = tok) | _ => false end.

Lemma finish_owned tok l' l :
  finish tok l' (Some l) = if owned_by tok l then (true, Some l') else (false, Some l).
Proof. destruct l as [|[t|] e|]; try done. simpl. by case_bool_decide; case_decide. Qed.

(** A token-guarded update of one row refines [finish]. *)
Lemma guarded_update_refines i tok p f l' d :
  (forall j, jobs d !! i = Some j -> p j = owned_by tok (lease_of j)) ->
  (forall j, p j = true -> lease_of (f j) = l') ->
  let '(b, d') := update_job i p f d in
  (b, abs d' i) = finish tok l' (abs d i) /\ only_at i d d' /\ (b = false -> d' = d).
Proof.
  intros Hp Hf. pose proof (update_job_only_at i p f d) as Hat. revert Hat.
  unfold update_job, abs. destruct (jobs d !! i) as [j|] eqn:Hj; [|by rewrite Hj].
  change (fmap lease_of (Some j)) with (Some (lease_of j)). rewrite finish_owned, <- Hp by done.
  destruct (p j) eqn:Hpj; simpl; [rewrite lookup_insert_eq|rewrite Hj]; simpl; [|done].
  by rewrite Hf.
Qed.

Lemma settle_guard_owned d i tok j :
  db_wf d -> jobs d !! i = Some j -> token_matches (Some tok) j = owned_by tok (lease_of j).
Proof. intros Hwf Hj. apply token_guard_spec, (Hwf i j Hj). Qed.

Lemma renew_guard_owned tok j :
  bool_decide (j_status j = PROCESSING) && bool_decide (j_claim_token j = Some tok) =
  owned_by tok (lease_of j).
Proof.
  unfold lease_of, owned_by. destruct (j_status j); simpl; try done.
  destruct (j_claim_token j); [|done]. apply bool_decide_ext. naive_solver.
Qed.

Definition sim_finish (i : job_id) (tok : token) (l' : lease) (d : db) (r : bool * db) : Prop :=
  (fst r, abs (snd r) i) = finish tok l' (abs d i) /\ only_at i d (snd r) /\ (fst r = false -> snd r = d).

Lemma mark_completed_sim i meta tok now d :
  db_wf d -> sim_finish i tok Done d (mark_completed i meta (Some tok) now d).
Proof.
  intros Hwf. unfold sim_finish.
  pose proof (guarded_update_refines i tok (token_matches (Some tok)) (complete_row now) Done d
    ltac:(eauto using settle_guard_owned) ltac:(done)) as H.
  unfold mark_completed. destruct (update_job _ _ _ _) as [[] d1]; simpl in *; [|done].
  destruct H as (H & Hat & _). destruct meta as [m|]; [|done].
  unfold only_at, abs in *. simpl. rewrite save_artifacts_jobs. done.
Qed.

Lemma mark_failed_sim i code msg tok now d :
  db_wf d -> sim_finish i tok Free d (mark_failed i code msg (Some tok) now d).
Proof.
  intros Hwf. unfold sim_finish, mark_failed.
  pose proof (guarded_update_refines i tok (token_matches (Some tok)) (fail_row code msg now) Free d
    ltac:(eauto using settle_guard_owned) ltac:(done)) as H.
  by destruct (update_job _ _ _ _).
Qed.

Lemma renew_job_lease_sim i tok secs now d :
  sim_finish i tok (Held (Some tok) (Some (now + seconds secs)%Z)) d (renew_job_lease i tok secs now d).
Proof.
  unfold sim_finish, renew_job_lease.
  match goal with |- context [update_job i ?p ?f d] =>
    pose proof (guarded_update_refines i tok p f (Held (Some tok) (Some (now + seconds secs)%Z)) d) as H end.
  destruct (update_job _ _ _ _). apply H; [intros; apply renew_guard_owned|].
  intros j [Hs%bool_decide_eq_true Ht%bool_decide_eq_true]%andb_prop.
  unfold lease_of. simpl. by rewrite Hs, Ht.
Qed.

(** Completing, failing and renewing with a token implement the abstract
    [finish] and [extend]: they act exactly when the caller's token owns the
    row, report whether they did, and otherwise leave jobs and reports as they
    were. *)
Theorem guarded_settlement_refines i tok meta now code msg secs d :
  db_wf d ->
  (let '(b, d') := mark_completed i meta (Some tok) now d in
   (b, abs d' i) = finish tok Done (abs d i) /\ only_at i d d' /\ (b = false -> d' = d)) /\
  (let '(b, d') := mark_failed i code msg (Some tok) now d in
   (b, abs d' i) = finish tok Free (abs d i) /\ only_at i d d' /\ (b = false -> d' = d)) /\
  (let '(b, d') := renew_job_lease i tok secs now d in
   (b, abs d' i) = extend tok (now + seconds secs)%Z (abs d i) /\ only_at i d d' /\ (b = false -> d' = d)).
Proof.
  intros Hwf.
  pose proof (mark_completed_sim i meta tok now d Hwf) as H1.
  pose proof (mark_failed_sim i code msg tok now d Hwf) as H2.
  pose proof (renew_job_lease_sim i tok secs now d) as H3. unfold sim_finish in *.
  destruct (mark_completed _ _ _ _ _), (mark_failed _ _ _ _ _ _), (renew_job_lease _ _ _ _ _).
  simpl in *. split; [exact H1|split; [exact H2|exact H3]].
Qed.

(** ** Mutual exclusion of workers *)

Section exclusion.
Context (i : job_id) (t : token).

(** What the clock and the other sessions can do while the holder of [t] works
    on job [i]: any claim, any token-guarded settlement or renewal with another
    token, any renewal of [t] that does not shorten the lease below [deadline],
    any attempt bump, any update that leaves running jobs alone (the API's
    requeue of a dead letter), new jobs, and retries and deletions of other
    jobs. *)
Inductive rival_step (deadline : usec) : usec * db -> usec * db -> Prop :=
  | rival_tick now now' d : (now <= now')%Z -> rival_step deadline (now, d) (now', d)
  | rival_claim i' w s tok now d :
      rival_step deadline (now, d) (now, snd (claim_update i' w s tok now d))
  | rival_complete i' meta tok now d : tok <> t ->
      rival_step deadline (now, d) (now, snd (mark_completed i' meta (Some tok) now d))
  | rival_fail i' c m tok now d : tok <> t ->
      rival_step deadline (now, d) (now, snd (mark_failed i' c m (Some tok) now d))
  | rival_renew i' s tok now d : tok <> t \/ (deadline <= now + seconds s)%Z ->
      rival_step deadline (now, d) (now, snd (renew_job_lease i' tok s now d))
  | rival_bump i' n now d :
      rival_step deadline (now, d) (now, bump_attempt i' n d)
  | rival_update i' p f now d : (forall j, p j = true -> j_status j <> PROCESSING) -> (forall j, row_wf j -> row_wf (f j)) ->
      rival_step deadline (now, d) (now, snd (update_job i' p f d))
  | rival_insert i' j now d : jobs d !! i' = None -> row_wf j ->
      rival_step deadline (now, d) (now, mk_db (<[i' := j]> (jobs d)) (reports d))
  | rival_retrying i' c m now d : i' <> i ->
      rival_step deadline (now, d) (now, snd (mark_retrying i' c m d))
  | rival_delete i' now d : i' <> i ->
      rival_step deadline (now, d) (now, mk_db (delete i' (jobs d)) (reports d)).

(** The two statements that ask for no token and so take the row away from its
    holder: the retry that a worker writes for a failure it reports late, and
    the deletion of the job with its incident. *)
Inductive displacing_step : usec * db -> usec * db -> Prop :=
  | displace_retrying c m now d : displacing_step (now, d) (now, snd (mark_retrying i c m d))
  | displace_delete now d : displacing_step (now, d) (now, mk_db (delete i (jobs d)) (reports d)).
Definition other_session (deadline : usec) (s s' : usec * db) : Prop := rival_step deadline s s' \/ displacing_step s s'.

Definition holds (deadline : usec) (d : db) : Prop :=
  db_wf d /\ exists e, abs d i = Some (Held (Some t) (Some e)) /\ (deadline <= e)%Z.

Definition held_until (deadline : usec) (s : usec * db) : Prop :=
  (deadline < fst s)%Z \/ holds deadline (snd s).

Lemma claim_update_wf i' w s tok now d : db_wf d -> db_wf (snd (claim_update i' w s tok now d)).
Proof.
  intros Hd. unfold claim_update.
  pose proof (update_job_wf i' (claimable now) (claim_row_update w s tok now) d) as H.
  destruct (update_job _ _ _ _) as [[] d']; simpl in *; apply H; done.
Qed.

Lemma renew_job_wf i' tok s now d : db_wf d -> db_wf (snd (renew_job_lease i' tok s now d)).
Proof.
  intros Hd. unfold renew_job_lease, update_job. destruct (jobs d !! i') as [j|] eqn:Hj; [|done].
  destruct (bool_decide _) eqn:Hs; simpl; [|done]. apply bool_decide_eq_true in Hs.
  destruct (bool_decide (j_claim_token j = Some tok)); simpl; [|done].
  apply map_Forall_insert_2; [|done]. intros Hns. by destruct Hns.
Qed.

Lemma bump_attempt_abs i' n d i'' : abs (bump_attempt i' n d) i'' = abs d i''.
Proof.
  unfold bump_attempt, abs. destruct (decide (i' = i'')) as [->|Hne].
  - rewrite update_job_lookup. by destruct (jobs d !! i'').
  - by rewrite update_job_other.
Qed.

Lemma holds_finish deadline tok d d' b l' :
  holds deadline d -> db_wf d' -> tok <> t ->
  (b, abs d' i) = finish tok l' (abs d i) -> holds deadline d'.
Proof.
  intros (_ & e & He & Hle) Hwf' Hne H. rewrite He in H. simpl in H.
  rewrite decide_False in H by done. injection H as _ Ha. split; [done|]. exists e. by rewrite Ha.
Qed.

Lemma holds_other deadline i' d d' :
  holds deadline d -> db_wf d' -> only_at i' d d' -> i' <> i -> holds deadline d'.
Proof.
  intros (_ & e & He & Hle) Hwf' Hat Hne. split; [done|]. exists e. rewrite (Hat i); [done|]. congruence.
Qed.

Lemma holds_claim deadline i' w s tok now d :
  holds deadline d -> (now <= deadline)%Z -> holds deadline (snd (claim_update i' w s tok now d)).
Proof.
  intros Hh Hnow. pose proof (claim_update_sim i' w s tok now d) as H.
  pose proof (claim_update_wf i' w s tok now d (proj1 Hh)) as Hwf'.
  destruct (claim_update _ _ _ _ _ _) as [r d']; simpl in *. destruct (acquire _ _ _ _) as [g l] eqn:Ha. destruct H as (H & _ & Hat & _).
  destruct (decide (i' = i)) as [->|Hne]; [|by eapply holds_other].
  destruct Hh as (_ & e & He & Hle). rewrite He in Ha. simpl in Ha.
  rewrite (proj2 (Z.leb_le now e)) in Ha by lia. injection Ha as _ <-.
  split; [done|]. by exists e.
Qed.

Lemma holds_running deadline d : holds deadline d -> exists j, jobs d !! i = Some j /\ j_status j = PROCESSING.
Proof.
  intros (_ & e & He & _). unfold abs in He. destruct (jobs d !! i) as [j|]; [|done]. exists j. split; [done|].
  simpl in He. injection He as He. unfold lease_of in He. by destruct (j_status j).
Qed.
Lemma holds_insert deadline i' j d : holds deadline d -> jobs d !! i' = None -> row_wf j ->
  holds deadline (mk_db (<[i' := j]> (jobs d)) (reports d)).
Proof.
  intros Hh Hi Hj. destruct (holds_running _ _ Hh) as (j' & Hj' & _). destruct Hh as (Hwf & e & He & Hle).
  split; [by apply map_Forall_insert_2|]. exists e. split; [|done]. unfold abs in *. simpl. rewrite lookup_insert_ne; [done|congruence].
Qed.
Lemma holds_update deadline i' p f d : holds deadline d -> (forall j, p j = true -> j_status j <> PROCESSING) -> (forall j, row_wf j -> row_wf (f j)) ->
  holds deadline (snd (update_job i' p f d)).
Proof.
  intros Hh Hp Hf. destruct (holds_running _ _ Hh) as (j & Hj & Hs). destruct (decide (i' = i)) as [->|Hne].
  - rewrite update_job_miss; [done|]. intros j' Hj'. destruct (p j') eqn:E; [|done]. exfalso. apply (Hp j' E). congruence.
  - eapply holds_other; [done|apply update_job_wf; [done|apply Hh]|apply update_job_only_at|done].
Qed.

Lemma rival_step_held deadline s s' :
  rival_step deadline s s' -> held_until deadline s -> held_until deadline s'.
Proof.
  intros Hstep [Hlate|Hh]; [left; destruct Hstep; simpl in *; lia|].
  destruct (decide (deadline < fst s')%Z) as [|Hlive]; [by left|right].
  destruct Hstep as [now now' d Hle|i' w s tok now d|i' meta tok now d Hne|i' c m tok now d Hne
    |i' s tok now d Hor|i' n now d|i' p f now d Hp Hf|i' j now d Hi Hj|i' c m now d Hne|i' now d Hne]; simpl in *; [done| | | | | | | | |].
  - apply holds_claim; [done|lia].
  - pose proof (mark_completed_sim i' meta tok now d (proj1 Hh)) as H. unfold sim_finish in H.
    pose proof (mark_completed_wf i' meta (Some tok) now d (proj1 Hh)) as Hwf'.
    destruct (mark_completed _ _ _ _ _) as [b d']; simpl in *. destruct H as (H & Hat & _).
    destruct (decide (i' = i)) as [->|Hi]; [by eapply holds_finish|by eapply holds_other].
  - pose proof (mark_failed_sim i' c m tok now d (proj1 Hh)) as H. unfold sim_finish in H.
    pose proof (update_job_wf i' (token_matches (Some tok)) (fail_row c m now) d ltac:(done) (proj1 Hh)) as Hwf'.
    fold (mark_failed i' c m (Some tok) now d) in Hwf'.
    destruct (mark_failed _ _ _ _ _ _) as [b d']; simpl in *. destruct H as (H & Hat & _).
    destruct (decide (i' = i)) as [->|Hi]; [by eapply holds_finish|by eapply holds_other].
  - pose proof (renew_job_lease_sim i' tok s now d) as H. unfold sim_finish in H.
    pose proof (renew_job_wf i' tok s now d (proj1 Hh)) as Hwf'.
    destruct (renew_job_lease _ _ _ _ _) as [b d']; simpl in *. destruct H as (H & Hat & _).
    destruct (decide (i' = i)) as [->|Hi]; [|by eapply holds_other].
    destruct (decide (tok = t)) as [->|Hne]; [|by eapply holds_finish].
    destruct Hor as [|Hext]; [done|]. destruct Hh as (_ & e & He & Hle). rewrite He in H.
    unfold extend, finish in H. rewrite decide_True in H by done. injection H as _ Ha.
    split; [done|]. by exists (now + seconds s)%Z.
  - split; [apply update_job_wf; [done|apply Hh]|].
    rewrite bump_attempt_abs. apply Hh.
  - by apply holds_update.
  - by apply holds_insert.
  - eapply holds_other; [done| |apply update_job_only_at|done].
    apply update_job_wf; [done|apply Hh].
  - eapply (holds_other _ i'); [done| | |done].
    + apply map_Forall_delete. apply Hh.
    + intros i'' Hi''. unfold abs. simpl. by rewrite lookup_delete_ne.
Qed.

End exclusion.

(** ** Invariant of all writers *)

(** Any statement of [db.py] with any arguments. *)
Inductive writer_step : db -> db -> Prop :=
  | w_started i tok now d : writer_step d (snd (mark_started i tok now d))
  | w_completed i meta tok now d : writer_step d (snd (mark_completed i meta tok now d))
  | w_failed i c m tok now d : writer_step d (snd (mark_failed i c m tok now d))
  | w_retrying i c m d : writer_step d (snd (mark_retrying i c m d))
  | w_bump i n d : writer_step d (bump_attempt i n d)
  | w_claim i w s tok now d : writer_step d (snd (claim_update i w s tok now d))
  | w_renew i tok s now d : writer_step d (snd (renew_job_lease i tok s now d)).

Lemma writer_step_wf d d' : writer_step d d' -> db_wf d -> db_wf d'.
Proof.
  destruct 1; intros Hd;
    eauto using claim_update_wf, renew_job_wf, mark_completed_wf;
    apply update_job_wf; try done; intros j Hj; by intros Hs; destruct Hj.
Qed.

(** In every state the writers reach, a row outside [PROCESSING] has no
    claim time, claim token or lease, so no worker that lost its job can still
    match the token guard. *)
Theorem writers_keep_rows_wf d d' i j tok :
  db_wf d -> star writer_step d d' -> jobs d' !! i = Some j -> j_status j <> PROCESSING ->
  row_wf j /\ token_matches (Some tok) j = false.
Proof.
  intros Hd Hrun Hj Hs.
  assert (Hwf : row_wf j) by exact (star_invariant _ _ writer_step_wf _ _ Hrun Hd i j Hj).
  split; [done|]. rewrite token_guard_spec by done. unfold lease_of. by destruct (j_status j).
Qed.

(** ** Crash recovery *)

(** A job is never stuck: as long as its row is not [COMPLETED], a claim
    succeeds as soon as the clock is past the recorded lease (at once when
    there is none), and it hands the row to the claimant with a full lease. *)
Theorem unfinished_job_reclaimable i w secs tok now d j :
  jobs d !! i = Some j -> j_status j <> COMPLETED ->
  (forall e, j_lease_expires_at j = Some e -> (e < now)%Z) ->
  claim_update i w secs tok now d =
    (Some (claim_row_update w secs tok now j), mk_db (<[i := claim_row_update w secs tok now j]> (jobs d)) (reports d)).
Proof.
  intros Hj Hs Hlease. apply claim_update_hit; [done|]. rewrite claimable_spec.
  unfold lease_of, live. destruct (j_status j); try done.
  destruct (j_lease_expires_at j) as [e|]; [|done].
  specialize (Hlease e eq_refl). apply negb_true_iff, Z.leb_gt. lia.
Qed.

(** ** Report artifacts *)

Lemma update_reports_lookup i f d k r :
  reports d !! k = Some r ->
  reports (update_reports i f d) !! k = Some (if decide (r_job_id r = i) then f r else r).
Proof. intros H. simpl. by rewrite lookup_fmap, H. Qed.

(** What completing job [i] may do to one report row. *)
Definition report_step (i : job_id) (completed_at : usec) (r r' : report) : Prop :=
  r_job_id r' = r_job_id r /\
  (r_job_id r <> i -> r' = r) /\
  (forall g, r_generated_at r = Some g -> r_generated_at r' = Some g) /\
  (r_generated_at r' = r_generated_at r \/ r_generated_at r' = Some (default completed_at (r_generated_at r))) /\
  a_bucket (r_document r') = a_bucket (r_document r).

Lemma report_step_refl i now r : report_step i now r r.
Proof. unfold report_step. split_and!; auto. Qed.

Lemma report_step_update i now f d k r r0 :
  (forall r, report_step i now r0 r -> r_job_id r = i -> report_step i now r0 (f r)) ->
  report_step i now r0 r -> reports d !! k = Some r ->
  exists r', reports (update_reports i f d) !! k = Some r' /\ report_step i now r0 r'.
Proof.
  intros Hf Hr Hk. eexists. split; [by apply update_reports_lookup|].
  case_decide as Hi; [by apply Hf|done].
Qed.

Lemma save_artifacts_step i now m d k r :
  reports d !! k = Some r ->
  exists r', reports (save_artifacts i now m d) !! k = Some r' /\ report_step i now r r'.
Proof.
  intros Hk. pose proof (report_step_refl i now r) as Hr.
  assert (exists r1, reports (match am_report m with
    | Some a => update_reports i (set_report_artifact a) d | None => d end) !! k = Some r1 /\
    report_step i now r r1) as (r1 & Hk1 & Hr1).
  { destruct (am_report m) as [a|]; [|eauto].
    eapply report_step_update; [|done|done]. unfold report_step. simpl.
    intros r2 (? & ? & ? & ? & ?) ?. split_and!; try done; congruence. }
  unfold save_artifacts. revert Hk1. generalize (match am_report m with
    | Some a => update_reports i (set_report_artifact a) d | None => d end). intros d1 Hk1.
  assert (exists r2, reports (match am_document m, am_screenshots m with
    | Some a, Some s => update_reports i (set_preview_artifacts a s) d1 | _, _ => d1 end) !! k = Some r2 /\
    report_step i now r r2) as (r2 & Hk2 & Hr2).
  { destruct (am_document m) as [a|], (am_screenshots m) as [s|]; try by eauto.
    eapply report_step_update; [|done|done]. unfold report_step. simpl.
    intros r2 (? & ? & ? & ? & ?) ?. split_and!; try done; congruence. }
  destruct (am_provenance m) as [p|]; [|eauto].
  eapply report_step_update; [|done|done]. unfold report_step. simpl.
  intros r3 (Hid & Ho & Hg & Hor & Hb) Hi. split_and!; try done; [congruence| |].
  - intros g H0. by rewrite (Hg g H0).
  - right. destruct (r_generated_at r) as [g|] eqn:E; [by rewrite (Hg g eq_refl)|].
    by destruct Hor as [-> | ->].
Qed.

(** The columns that completing job [i] with [m] leaves in one of its reports,
    read off the statements: each artifact that was handed over, and what was
    there for the others. *)
Record artifacts_recorded (m : artifact_metadata) (completed_at : usec) (r r' : report) : Prop := {
  rec_job : r_job_id r' = r_job_id r;
  rec_report : r_report r' = default (r_report r) (am_report m);
  rec_preview : match am_document m, am_screenshots m with
    | Some doc, Some shots => r_document r' = drop_bucket (r_document r) doc /\ r_screenshots r' = drop_bucket (r_screenshots r) shots
    | _, _ => r_document r' = r_document r /\ r_screenshots r' = r_screenshots r
    end;
  rec_provenance : match am_provenance m with
    | Some p => r_provenance r' = p /\ r_generated_at r' = Some (default completed_at (r_generated_at r))
    | None => r_provenance r' = r_provenance r /\ r_generated_at r' = r_generated_at r
    end;
}.
Definition reports_recorded (i : job_id) (meta : option artifact_metadata) (completed_at : usec) (d d' : db) : Prop :=
  forall k, match reports d !! k, reports d' !! k with
  | Some r, Some r' => if decide (r_job_id r = i) then match meta with Some m => artifacts_recorded m completed_at r r' | None => r' = r end else r' = r
  | None, None => True
  | _, _ => False
  end.
Lemma save_artifacts_recorded i now m d : reports_recorded i (Some m) now d (save_artifacts i now m d).
Proof.
  intros k. unfold save_artifacts.
  destruct (am_report m) as [a|] eqn:Ea, (am_document m) as [x|] eqn:Ex, (am_screenshots m) as [y|] eqn:Ey, (am_provenance m) as [p|] eqn:Ep; simpl;
    rewrite ?lookup_fmap; (destruct (reports d !! k) as [r|]; simpl; [|done]);
    repeat (case_decide; simpl in *; try done); split; rewrite ?Ea, ?Ex, ?Ey, ?Ep; done.
Qed.
Lemma mark_completed_recorded i meta tok now d d' : mark_completed i meta tok now d = (true, d') -> reports_recorded i meta now d d'.
Proof.
  unfold mark_completed. pose proof (update_job_reports i (token_matches tok) (complete_row now) d) as Hrep.
  destruct (update_job _ _ _ _) as [[] d1]; simpl in *; [|done]. destruct meta as [m|]; intros [= <-] k.
  - rewrite <- Hrep. apply (save_artifacts_recorded i now m d1).
  - rewrite Hrep. destruct (reports d !! k); [by case_decide|done].
Qed.
(** Only the holder of the token completes. *)
Lemma mark_completed_owner i meta tok now d d' : mark_completed i meta (Some tok) now d = (true, d') ->
  exists j, jobs d !! i = Some j /\ j_claim_token j = Some tok /\ jobs d' !! i = Some (complete_row now j).
Proof.
  intros E. pose proof (mark_completed_jobs i meta (Some tok) now d) as Hj. rewrite E in Hj. simpl in Hj. revert E. unfold mark_completed.
  destruct (update_job _ _ _ _) as [[] d1] eqn:Eu; [|done]. intros _. apply update_job_inv in Eu as [[? _]|(_ & j & Hin & Hp & ->)]; [done|].
  exists j. split; [done|]. split; [by apply bool_decide_eq_true in Hp|]. rewrite Hj. simpl. apply lookup_insert_eq.
Qed.

(** Completing a job records artifacts only in the report rows of that
    job, never changes a generation time once set, and does nothing at all
    when the caller no longer owns the job. *)
Theorem mark_completed_reports i meta tok now d k r :
  reports d !! k = Some r ->
  let '(b, d') := mark_completed i meta tok now d in
  (b = false -> d' = d) /\
  exists r', reports d' !! k = Some r' /\ report_step i now r r'.
Proof.
  intros Hk. unfold mark_completed.
  pose proof (update_job_reports i (token_matches tok) (complete_row now) d) as Hrep.
  destruct (update_job _ _ _ d) as [[] d1] eqn:E; simpl in *.
  - destruct meta as [m|]; (split; [done|]).
    + apply save_artifacts_step. by rewrite Hrep.
    + exists r. rewrite Hrep. auto using report_step_refl.
  - apply update_job_inv in E as [[_ ->]|[? _]]; [|done].
    split; [done|]. exists r. auto using report_step_refl.
Qed.

(** ** Witnesses *)

Definition queued_row : job :=
  mk_job (u "log_triage") (Some 7%N) QUEUED 1 None None 0 None None None None None None.
Definition sample_db : db := mk_db {[ 1%N := queued_row ]} ∅.

Lemma sample_db_wf : db_wf sample_db.
Proof. unfold db_wf, sample_db. simpl. apply map_Forall_singleton. done. Qed.


Lemma guarded_settlement_witness :
  let d1 := snd (claim_update 1 (u "w1") 900 10%N 0 sample_db) in
  fst (mark_completed 1 None (Some 11%N) 5 d1) = false.
Proof.
  intros d1.
  pose proof (guarded_settlement_refines 1 11%N None 5 [] [] 0 d1
    (claim_update_wf 1 (u "w1") 900 10%N 0 sample_db sample_db_wf)) as (H & _).
  revert H. destruct (mark_completed _ _ _ _ d1) as [b d']. intros (H & _). by injection H.
Defined.

Lemma writers_keep_rows_witness :
  row_wf queued_row /\ token_matches (Some 3%N) queued_row = false.
Proof.
  apply (writers_keep_rows_wf sample_db sample_db 1 queued_row 3%N);
    [exact sample_db_wf|apply star_refl|reflexivity|discriminate].
Defined.

Lemma unfinished_job_witness :
  is_Some (fst (claim_update 1 (u "w2") 60 12%N 1000000000
    (snd (claim_update 1 (u "w1") 900 10%N 0 sample_db)))).
Proof.
  rewrite (unfinished_job_reclaimable 1 (u "w2") 60 12%N 1000000000
    (snd (claim_update 1 (u "w1") 900 10%N 0 sample_db)) (claim_row_update (u "w1") 900 10%N 0 queued_row));
    [by eexists|reflexivity|discriminate|].
  intros e [= <-]. reflexivity.
Defined.

Definition empty_artifact : artifact := mk_artifact None None None None None None.
Definition empty_provenance : provenance :=
  mk_provenance None None None None None None None None None None.
Definition sample_report : report :=
  mk_report 1 empty_artifact empty_artifact empty_artifact empty_provenance None.

Lemma mark_completed_reports_witness :
  exists r', reports (snd (mark_completed 1 None None 9
    (mk_db {[ 1%N := queued_row ]} {[ 4%N := sample_report ]}))) !! 4%N = Some r' /\
    report_step 1 9 sample_report r'.
Proof.
  pose proof (mark_completed_reports 1 None None 9
    (mk_db {[ 1%N := queued_row ]} {[ 4%N := sample_report ]}) 4%N sample_report eq_refl) as H.
  revert H. destruct (mark_completed _ _ _ _ _) as [b d']. by intros [_ H].
Defined.
