(* ===== verification/Failures.v ===== *)
(** * Exceptions and their retry policy

    Models the exception classes of [bridge/noc_bridge] and
    [failures.classify_failure], [worker._error_detail].  An exception is its
    class and its message; the class fixes its bases and the [retryable] and
    [error_code] attributes the classes of the repository declare.  Exceptions
    of libraries (database driver, broker client, object store, schema
    validator) carry neither attribute and are [ForeignError]. *)

From S2P Require Import Prelude PyStr.

Inductive exn_class :=
  (* worker.py *)
  | WorkerInputError | EvidenceVerificationError | SkillConfigurationError | JobLeaseError
  (* hermes.py *)
  | HermesError | HermesUnavailable | HermesTimeout | HermesAuthenticationError
  | HermesProviderAuthenticationError | HermesProviderTemporaryError
  | HermesProviderRateLimitError | HermesInvalidResponse | HermesPolicyError
  (* failures.py *)
  | EvidenceRetrievalError | EvidenceIntegrityError
  (* validation.py, skill_registry.py, storage.py *)
  | OutputValidationError | SkillHashMismatch | SkillSnapshotMissing | ChecksumMismatch
  (* built in *)
  | ValueError | JSONDecodeError | UnicodeDecodeError | KeyError | TypeError
  | IndexError | AttributeError | AssertionError | RuntimeError
  (* a library's own class; the flag says whether it derives from ValueError *)
  | ForeignError (name : pystr) (is_value_error : bool).
#[global] Instance exn_class_eq_dec : EqDecision exn_class.
Proof. solve_decision. Defined.

Record pyexn := mk_exn { x_class : exn_class; x_msg : pystr }.
#[global] Instance pyexn_eq_dec : EqDecision pyexn.
Proof. solve_decision. Defined.

Inductive disposition_kind := RETRYABLE | TERMINAL.
#[global] Instance disposition_kind_eq_dec : EqDecision disposition_kind.
Proof. solve_decision. Defined.

(** ** Class attributes *)

(** [getattr(exc, "retryable")], [None] when the class has no such attribute. *)
Definition retryable_attr (c : exn_class) : option bool :=
  match c with
  | WorkerInputError | EvidenceVerificationError | SkillConfigurationError => Some false
  | JobLeaseError => Some true
  | HermesError | HermesUnavailable | HermesTimeout
  | HermesProviderTemporaryError | HermesProviderRateLimitError => Some true
  | HermesAuthenticationError | HermesProviderAuthenticationError
  | HermesInvalidResponse | HermesPolicyError => Some false
  | _ => None
  end.

Definition error_code_attr (c : exn_class) : option pystr :=
  match c with
  | WorkerInputError => Some (u "WORKER_INPUT_INVALID")
  | EvidenceVerificationError => Some (u "EVIDENCE_VERIFICATION_FAILED")
  | SkillConfigurationError => Some (u "SKILL_CONFIGURATION_FAILED")
  | JobLeaseError => Some (u "JOB_LEASE_LOST")
  | HermesError => Some (u "HERMES_ERROR")
  | HermesUnavailable => Some (u "HERMES_UNAVAILABLE")
  | HermesTimeout => Some (u "HERMES_TIMEOUT")
  | HermesAuthenticationError => Some (u "HERMES_AUTHENTICATION_ERROR")
  | HermesProviderAuthenticationError => Some (u "PROVIDER_AUTHENTICATION_ERROR")
  | HermesProviderTemporaryError => Some (u "PROVIDER_TEMPORARY_FAILURE")
  | HermesProviderRateLimitError => Some (u "PROVIDER_RATE_LIMIT")
  | HermesInvalidResponse => Some (u "HERMES_INVALID_OUTPUT")
  | HermesPolicyError => Some (u "HERMES_TOOL_POLICY_VIOLATION")
  | _ => None
  end.

(** [type(exc).__name__] *)
Definition class_name (c : exn_class) : pystr :=
  match c with
  | WorkerInputError => u "WorkerInputError"
  | EvidenceVerificationError => u "EvidenceVerificationError"
  | SkillConfigurationError => u "SkillConfigurationError"
  | JobLeaseError => u "JobLeaseError"
  | HermesError => u "HermesError"
  | HermesUnavailable => u "HermesUnavailable"
  | HermesTimeout => u "HermesTimeout"
  | HermesAuthenticationError => u "HermesAuthenticationError"
  | HermesProviderAuthenticationError => u "HermesProviderAuthenticationError"
  | HermesProviderTemporaryError => u "HermesProviderTemporaryError"
  | HermesProviderRateLimitError => u "HermesProviderRateLimitError"
  | HermesInvalidResponse => u "HermesInvalidResponse"
  | HermesPolicyError => u "HermesPolicyError"
  | EvidenceRetrievalError => u "EvidenceRetrievalError"
  | EvidenceIntegrityError => u "EvidenceIntegrityError"
  | OutputValidationError => u "OutputValidationError"
  | SkillHashMismatch => u "SkillHashMismatch"
  | SkillSnapshotMissing => u "SkillSnapshotMissing"
  | ChecksumMismatch => u "ChecksumMismatch"
  | ValueError => u "ValueError"
  | JSONDecodeError => u "JSONDecodeError"
  | UnicodeDecodeError => u "UnicodeDecodeError"
  | KeyError => u "KeyError"
  | TypeError => u "TypeError"
  | IndexError => u "IndexError"
  | AttributeError => u "AttributeError"
  | AssertionError => u "AssertionError"
  | RuntimeError => u "RuntimeError"
  | ForeignError n _ => n
  end.

(** [isinstance(exc, ValueError)] *)
Definition is_value_error (c : exn_class) : bool :=
  match c with
  | OutputValidationError | ValueError | JSONDecodeError | UnicodeDecodeError => true
  | ForeignError _ b => b
  | _ => false
  end.

(** [worker._error_detail] *)
Definition error_detail (e : pyexn) : pystr * pystr :=
  (default (u "WORKER_FAILURE") (error_code_attr (x_class e)), class_name (x_class e)).

Definition TERMINAL_MESSAGE_MARKERS : list pystr :=
  [u "unauthorized"; u "unsupported skill"; u "invalid schema"; u "invalid evidence";
   u "prompt too large"; u "security violation"; u "missing required immutable snapshot"].

Definition RETRYABLE_MESSAGE_MARKERS : list pystr := [u "structured_output_retry_exhausted"].

Section classify.
Context `{UnicodeData}.

(** [failures.classify_failure] *)
Definition classify_failure (e : pyexn) : disposition_kind :=
  let message := py_lower (x_msg e) in
  match retryable_attr (x_class e) with
  | Some b => if b then RETRYABLE else TERMINAL
  | None =>
      if is_value_error (x_class e) && contains (u "unsupported") message then TERMINAL
      else match x_class e with
      | EvidenceIntegrityError => TERMINAL
      | EvidenceRetrievalError => RETRYABLE
      | OutputValidationError => TERMINAL
      | SkillHashMismatch => TERMINAL
      | SkillSnapshotMissing => TERMINAL
      | ChecksumMismatch => RETRYABLE
      | _ =>
          if existsb (fun marker => contains marker message) TERMINAL_MESSAGE_MARKERS then TERMINAL
          else if existsb (fun marker => contains marker message) RETRYABLE_MESSAGE_MARKERS then RETRYABLE
          else RETRYABLE
      end
  end.

(** The declarative retry policy: an explicit attribute decides; permanent
    repository failures are terminal; anything else is terminal exactly when
    its message names a permanent cause. *)
Definition terminal_policy (e : pyexn) : Prop :=
  let message := py_lower (x_msg e) in
  match retryable_attr (x_class e) with
  | Some b => b = false
  | None =>
      x_class e ∈ [EvidenceIntegrityError; OutputValidationError; SkillHashMismatch; SkillSnapshotMissing] \/
      (x_class e ∉ [EvidenceRetrievalError; ChecksumMismatch] /\
       exists m, m ∈ TERMINAL_MESSAGE_MARKERS /\ contains m message = true) \/
      (is_value_error (x_class e) = true /\ contains (u "unsupported") message = true)
  end.

Lemma existsb_elem {A} (f : A -> bool) l : existsb f l = true <-> exists x, x ∈ l /\ f x = true.
Proof.
  rewrite existsb_exists. split; intros (x & Hx & Hf); exists x; split; try done; by apply list_elem_of_In.
Qed.

(** The retry decision implements the declarative policy, so every
    exception is either terminal for a stated reason or retryable, and the
    answer depends on the class and the message only. *)
Theorem classify_failure_policy e :
  (classify_failure e = TERMINAL <-> terminal_policy e) /\
  (classify_failure e = RETRYABLE <-> ~ terminal_policy e).
Proof.
  enough (Hiff : classify_failure e = TERMINAL <-> terminal_policy e).
  { split; [done|]. rewrite <- Hiff. by destruct (classify_failure e). }
  unfold classify_failure, terminal_policy.
  destruct (retryable_attr (x_class e)) as [[]|] eqn:Hattr; [done|done|].
  pose proof (existsb_elem (fun marker => contains marker (py_lower (x_msg e))) TERMINAL_MESSAGE_MARKERS) as Hm.
  destruct (is_value_error (x_class e) && contains (u "unsupported") (py_lower (x_msg e))) eqn:Hun.
  { apply andb_prop in Hun. tauto. }
  apply andb_false_iff in Hun.
  destruct (existsb (fun m => contains m (py_lower (x_msg e))) TERMINAL_MESSAGE_MARKERS) eqn:Hmark;
  destruct (existsb (fun m => contains m (py_lower (x_msg e))) RETRYABLE_MESSAGE_MARKERS);
  destruct (x_class e) eqn:Hc; simplify_eq; simpl in Hun; rewrite !elem_of_cons, elem_of_nil;
    split; try done; try tauto;
    try (intros _; right; left; split; [set_solver|by apply Hm]);
    intros [Hin|[(Hnin & Hex)|[Hv Hcn]]]; try naive_solver; try (apply Hm in Hex; done); destruct Hun; congruence.
Qed.
End classify.
