(* ===== verification/Broker.v ===== *)
(** * Queue topology, job messages and the dead-letter controls

    Models [apps/api/app/core/queue.py] and [bridge/noc_bridge/queue_topology.py]
    with the two contracts they load, [packages/contracts/job_protocol.json] and
    [packages/contracts/job_message.schema.json].

    RabbitMQ and pika are third-party: a procedure reaches them through the
    interface [HasChannel], whose law says that an operation that returns was
    carried out, and the meaning of exchanges and bindings is the
    interface [AmqpRouting]. *)

From S2P Require Import Prelude PyStr Json Schema Failures.

(** ** The shared protocol document *)

Definition PROTOCOL_VERSION : Z := 1.
Definition JOB_TYPES : list pystr := [u "log_triage"; u "daily_report"].
Definition JOBS_EXCHANGE : pystr := u "noc.jobs".
Definition EVENTS_EXCHANGE : pystr := u "noc.events".
Definition DLX_EXCHANGE : pystr := u "noc.dlx".
Definition RETRY_TTL_MS : Z := 30000.

(** [packages/contracts/job_message.schema.json] *)
Definition str1 : schema := [KType [TString]; KMinLength 1].
Definition str_or_null : schema := [KType [TString; TNull]].

Definition object_ref_schema : schema :=
  [ KType [TObject]; KRequired [u "bucket"; u "key"];
    KProperty (u "bucket") str1; KProperty (u "key") str1;
    KProperty (u "sha256") str_or_null; KProperty (u "version_id") str_or_null ].

Definition ai_policy_schema : schema :=
  [ KType [TObject]; KProperty (u "model") str1; KProperty (u "effort") str1;
    KProperty (u "max_turns") [KType [TInteger]; KMinimum 1] ].

Definition job_required : list pystr :=
  [u "protocol_version"; u "job_id"; u "job_type"; u "incident_id"; u "object_refs"; u "model";
   u "effort"; u "skill_name"; u "skill_version"; u "skill_hash"; u "correlation_id"; u "attempt"].

Definition job_keys : list pystr :=
  [u "protocol_version"; u "job_id"; u "job_type"; u "incident_id"; u "object_refs"; u "model";
   u "effort"; u "skill_name"; u "skill_version"; u "skill_hash"; u "skill_execution_hash";
   u "skill_snapshot_id"; u "expected_output_type"; u "ai_policy"; u "correlation_id"; u "attempt"].

Definition job_message_schema : schema :=
  [ KType [TObject]; KRequired job_required; KClosed job_keys;
    KProperty (u "protocol_version") [KType [TInteger]; KConst (JInt 1)];
    KProperty (u "job_id") [KType [TString]; KUuid];
    KProperty (u "job_type") str1;
    KProperty (u "incident_id") str_or_null;
    KProperty (u "object_refs") [KType [TArray]; KItems object_ref_schema];
    KProperty (u "model") [KType [TString; TNull]; KMinLength 1];
    KProperty (u "effort") [KType [TString; TNull]; KMinLength 1];
    KProperty (u "skill_name") str1;
    KProperty (u "skill_version") str1;
    KProperty (u "skill_hash") str_or_null;
    KProperty (u "skill_execution_hash") str_or_null;
    KProperty (u "skill_snapshot_id") str_or_null;
    KProperty (u "expected_output_type") str1;
    KProperty (u "ai_policy") ai_policy_schema;
    KProperty (u "correlation_id") str1;
    KProperty (u "attempt") [KType [TInteger]; KMinimum 1] ].

(** ** Queue names *)

Record queue_name_set := mk_names {
  main : pystr; retry : pystr; dlq : pystr; routing_key : pystr }.

Definition queue_names (job_type : pystr) : queue_name_set :=
  let slug := replace_char 95 [45%Z] job_type in
  mk_names (u "noc.jobs." ++ slug) (u "noc.jobs." ++ slug ++ u ".retry")
    (u "noc.jobs." ++ slug ++ u ".dlq") (u "job." ++ job_type).

Definition dlq_routing_key (job_type : pystr) : pystr := routing_key (queue_names job_type) ++ u ".dlq".

(** ** Declarations *)

Inductive exchange_type := Direct | Topic.

Record queue_args := mk_args {
  x_dead_letter : option (pystr * pystr);   (** exchange and routing key *)
  x_message_ttl : option Z }.

Inductive amqp_decl :=
  | exchange_declare (e : pystr) (t : exchange_type)
  | queue_declare (q : pystr) (a : queue_args)
  | queue_bind (q e k : pystr).

Definition declare_job_type (job_type : pystr) : list amqp_decl :=
  let names := queue_names job_type in
  [ queue_declare (main names) (mk_args (Some (DLX_EXCHANGE, routing_key names)) None);
    queue_bind (main names) JOBS_EXCHANGE (routing_key names);
    queue_declare (retry names) (mk_args (Some (JOBS_EXCHANGE, routing_key names)) (Some RETRY_TTL_MS));
    queue_bind (retry names) DLX_EXCHANGE (routing_key names);
    queue_declare (dlq names) (mk_args None None);
    queue_bind (dlq names) DLX_EXCHANGE (routing_key names ++ u ".dlq") ].

(** The declarations a connection makes before it uses its channel, in order. *)
Definition declare_topology : list amqp_decl :=
  [ exchange_declare JOBS_EXCHANGE Direct; exchange_declare EVENTS_EXCHANGE Topic;
    exchange_declare DLX_EXCHANGE Direct ] ++
  flat_map declare_job_type JOB_TYPES ++
  [ queue_declare (u "noc.events.log") (mk_args None None);
    queue_bind (u "noc.events.log") EVENTS_EXCHANGE (u "event.job.#") ].

(** What the broker does with a message published on an exchange, for the
    declarations made: AMQP 0-9-1 direct routing, and the dead-letter and TTL
    arguments of RabbitMQ. *)
Class AmqpRouting := {
  routes : list amqp_decl -> pystr -> pystr -> pystr -> Prop;
  dead_letters : list amqp_decl -> pystr -> option (pystr * pystr);
  routes_direct : forall ds e k q,
    exchange_declare e Direct ∈ ds -> routes ds e k q <-> queue_bind q e k ∈ ds;
  dead_letters_args : forall ds q a,
    queue_declare q a ∈ ds -> (forall a', queue_declare q a' ∈ ds -> a' = a) ->
    dead_letters ds q = x_dead_letter a;
}.

(** Where a message of queue [q] goes when it is rejected or expires. *)
Definition rejected_to `{AmqpRouting} (q q' : pystr) : Prop :=
  exists e k, dead_letters declare_topology q = Some (e, k) /\ routes declare_topology e k q'.

(** ** Channels *)

(** What a channel carried out.  [persistent] is the delivery mode,
    [mandatory] asks the broker to return an unroutable message. *)
Inductive chan_op :=
  | Publish (exchange key : pystr) (body : list Z) (persistent mandatory : bool) (message_id : option pystr)
  | Ack (tag : N)
  | Nack (tag : N) (requeue : bool)
  | Purge (q : pystr).

(** A world with a channel in confirm mode.  [chan_do] raises when the broker
    does not confirm or the connection is gone; the log holds the operations
    that took effect, which an operation that raises may or may not have. *)
Class HasChannel (S : Type) := {
  chan_do : chan_op -> M S pyexn ();
  chan_log : S -> list chan_op;
  chan_do_log : forall op s,
    (fst (chan_do op s) = Ok () /\ chan_log (snd (chan_do op s)) = chan_log s ++ [op]) \/
    ((exists e, fst (chan_do op s) = Raise e) /\
     (chan_log (snd (chan_do op s)) = chan_log s \/ chan_log (snd (chan_do op s)) = chan_log s ++ [op]));
}.

Section channel.
Context {S : Type} `{HasChannel S} (float_repr : SpecFloat.spec_float -> pystr).

Definition publish_message (exchange routing_key : pystr) (payload : json) (message_id : option pystr)
    : M S pyexn () :=
  chan_do (Publish exchange routing_key (to_wire float_repr payload) true true message_id).

Definition send_to_dlq (job_type : pystr) (body : json) : M S pyexn () :=
  chan_do (Publish DLX_EXCHANGE (dlq_routing_key job_type) (to_wire float_repr body) true false None).

(** [base64.b64encode] *)
Definition b64_char (n : Z) : Z :=
  if (n <? 26)%Z then (65 + n)%Z
  else if (n <? 52)%Z then (71 + n)%Z
  else if (n <? 62)%Z then (n - 4)%Z
  else if (n =? 62)%Z then 43%Z else 47%Z.
Fixpoint b64encode (bs : list Z) : pystr :=
  match bs with
  | a :: b :: c :: bs =>
      b64_char (a / 4) :: b64_char (a mod 4 * 16 + b / 16) :: b64_char (b mod 16 * 4 + c / 64)
        :: b64_char (c mod 64) :: b64encode bs
  | [a; b] => [b64_char (a / 4); b64_char (a mod 4 * 16 + b / 16); b64_char (b mod 16 * 4); 61]%Z
  | [a] => [b64_char (a / 4); b64_char (a mod 4 * 16); 61; 61]%Z
  | [] => []
  end.

Definition quarantine_body (raw : list Z) (reason : pystr) : json :=
  let max_bytes := Z.to_nat 4096 in
  JObj [ (u "quarantine", JStr (u "invalid_job_message"));
         (u "reason", JStr reason);
         (u "body_size", JInt (Z.of_nat (length raw)));
         (u "body_truncated", JBool (negb (Nat.leb (length raw) max_bytes)));
         (u "body_base64", JStr (b64encode (take max_bytes raw))) ].

Definition send_raw_to_dlq (job_type : pystr) (body : list Z) (reason : pystr) : M S pyexn () :=
  send_to_dlq job_type (quarantine_body body reason).

(** [requeue_one_dlq_message], given what [basic_get] returned: nothing, or a
    delivery tag, a message id and a body. *)
Definition requeue_one_dlq_message (job_type : pystr)
    (got : option (N * option pystr * list Z)) : M S pyexn (option json) :=
  match got with
  | None => mret None
  | Some (tag, message_id, body) =>
      match from_wire body with
      | None => raise (mk_exn JSONDecodeError [])
      | Some (JObj o) =>
          let payload := JObj (assoc_set (u "attempt") (JInt 1) o) in
          publish_message JOBS_EXCHANGE (routing_key (queue_names job_type)) payload message_id;;
          chan_do (Ack tag);;
          mret (Some payload)
      | Some _ => raise (mk_exn TypeError [])
      end
  end.

(** [count] is the number of messages [queue_purge] reports. *)
Definition purge_dlq (job_type : pystr) (count : Z) : M S pyexn Z :=
  chan_do (Purge (dlq (queue_names job_type)));; mret count.

Definition publish_status_event (job_id event : pystr) (detail : json) (emitted_at : pystr) : M S pyexn () :=
  chan_do (Publish EVENTS_EXCHANGE (u "event.job." ++ event)
    (to_wire float_repr (JObj [ (u "job_id", JStr job_id); (u "event", JStr event);
       (u "detail", if jtruthy detail then detail else JObj []); (u "emitted_at", JStr emitted_at) ]))
    true false None).
End channel.

(** ** Job messages *)

Record job_fields := mk_job_fields {
  f_job_id : N;
  f_job_type : pystr;
  f_incident_id : option pystr;
  f_object_refs : list json;
  f_model : option pystr;
  f_effort : option pystr;
  f_skill_name : pystr;
  f_skill_version : pystr;
  f_correlation_id : pystr;
  f_attempt : Z;
  f_skill_hash : option pystr;
  f_skill_execution_hash : option pystr;
  f_skill_snapshot_id : option pystr;
  f_expected_output_type : option pystr;
  f_ai_policy : option json;
}.

(** [{key: value for ... if value is not None}] *)
Definition present (o : list (pystr * option pystr)) : list (pystr * json) :=
  omap (fun '(k, v) => (fun s => (k, JStr s)) <$> v) o.

(** A missing or empty string selects the default: [x or y]. *)
Definition str_or (x : option pystr) (y : pystr) : pystr :=
  match x with Some s => if truthy_str s then s else y | None => y end.

Definition message_of (f : job_fields) : json :=
  JObj [ (u "protocol_version", JInt PROTOCOL_VERSION);
         (u "job_id", JStr (uuid_str (f_job_id f)));
         (u "job_type", JStr (f_job_type f));
         (u "incident_id", jopt (f_incident_id f));
         (u "object_refs", JList (f_object_refs f));
         (u "model", jopt (f_model f));
         (u "effort", jopt (f_effort f));
         (u "skill_name", JStr (f_skill_name f));
         (u "skill_version", JStr (f_skill_version f));
         (u "skill_hash", jopt (f_skill_hash f));
         (u "skill_execution_hash", jopt (f_skill_execution_hash f));
         (u "skill_snapshot_id", match f_skill_snapshot_id f with
            | Some s => if truthy_str s then JStr s else JNull | None => JNull end);
         (u "expected_output_type",
            JStr (str_or (f_expected_output_type f) (f_job_type f ++ u ".result")));
         (u "ai_policy", default (JObj (present [(u "model", f_model f); (u "effort", f_effort f)])) (f_ai_policy f));
         (u "correlation_id", JStr (f_correlation_id f));
         (u "attempt", JInt (f_attempt f)) ].

Section messages.
Context `{SchemaValidator}.

Definition ValidationError : exn_class := ForeignError (u "ValidationError") false.

Definition build_job_message (f : job_fields) : result pyexn json :=
  if decide (f_job_type f ∈ JOB_TYPES) then
    let message := message_of f in
    if is_valid job_message_schema message then Ok message
    else Raise (mk_exn ValidationError [])
  else Raise (mk_exn ValueError (u "Unknown job_type: " ++ f_job_type f)).

(** [publish_job] of the tools *)
Definition publish_job {S} `{HasChannel S} (float_repr : SpecFloat.spec_float -> pystr) (f : job_fields)
    : M S pyexn () :=
  body ← lift_result (build_job_message f);
  publish_message float_repr JOBS_EXCHANGE (routing_key (queue_names (f_job_type f))) body
    (Some (uuid_str (f_job_id f))).
End messages.

(** ** Routing of the declared topology *)

(** The queues bound to an exchange under a key, and the arguments a queue was
    declared with. *)
Definition bound (e k : pystr) (ds : list amqp_decl) : list pystr :=
  omap (fun d => match d with
    | queue_bind q e' k' => if decide (e' = e /\ k' = k) then Some q else None
    | _ => None end) ds.
Definition declared (q : pystr) (ds : list amqp_decl) : list queue_args :=
  omap (fun d => match d with
    | queue_declare q' a => if decide (q' = q) then Some a else None
    | _ => None end) ds.

Lemma elem_of_bound e k ds q : queue_bind q e k ∈ ds <-> q ∈ bound e k ds.
Proof.
  unfold bound. rewrite list_elem_of_omap. split.
  - intros H. exists (queue_bind q e k). by rewrite decide_True.
  - intros ([| |] & H & Hq); try done. case_decide as Hd; simplify_eq. by destruct Hd as [-> ->].
Qed.

Lemma elem_of_declared q ds a : queue_declare q a ∈ ds <-> a ∈ declared q ds.
Proof.
  unfold declared. rewrite list_elem_of_omap. split.
  - intros H. exists (queue_declare q a). by rewrite decide_True.
  - intros ([| |] & H & Hq); try done. case_decide as Hd; simplify_eq. done.
Qed.

Section routing.
Context `{AmqpRouting}.

Lemma routes_bound e k q qs :
  exchange_declare e Direct ∈ declare_topology -> bound e k declare_topology = qs ->
  routes declare_topology e k q <-> q ∈ qs.
Proof. intros He <-. by rewrite routes_direct, elem_of_bound. Qed.

Lemma dead_letters_declared q a :
  declared q declare_topology = [a] -> dead_letters declare_topology q = x_dead_letter a.
Proof.
  intros Hd. apply dead_letters_args.
  - apply elem_of_declared. rewrite Hd. apply list_elem_of_here.
  - intros a' Ha%elem_of_declared. rewrite Hd in Ha. by apply list_elem_of_singleton in Ha.
Qed.

Lemma rejected_to_bound q a e k q' qs :
  declared q declare_topology = [a] -> x_dead_letter a = Some (e, k) ->
  exchange_declare e Direct ∈ declare_topology -> bound e k declare_topology = qs ->
  rejected_to q q' <-> q' ∈ qs.
Proof.
  intros Hd Hx He Hb. unfold rejected_to. rewrite (dead_letters_declared _ _ Hd), Hx.
  rewrite <- (routes_bound e k q' qs He Hb). split.
  - by intros (e' & k' & [= <- <-] & Hr).
  - by exists e, k.
Qed.

Lemma jobs_direct : exchange_declare JOBS_EXCHANGE Direct ∈ declare_topology.
Proof. apply list_elem_of_here. Qed.
Lemma dlx_direct : exchange_declare DLX_EXCHANGE Direct ∈ declare_topology.
Proof. do 2 apply list_elem_of_further. apply list_elem_of_here. Qed.

(** The topology delivers each job type to its own queues and to nothing
    else: a job published under its routing key reaches its main queue, a
    retry published on the dead-letter exchange under the same key reaches its
    retry queue, and the [.dlq] key its dead-letter queue.  A message rejected
    from the main queue goes to the retry queue and one that expires there
    returns to the main queue, while the dead-letter queue is terminal. *)
Theorem topology_routes job_type q :
  job_type ∈ JOB_TYPES ->
  let names := queue_names job_type in
  (routes declare_topology JOBS_EXCHANGE (routing_key names) q <-> q = main names) /\
  (routes declare_topology DLX_EXCHANGE (routing_key names) q <-> q = retry names) /\
  (routes declare_topology DLX_EXCHANGE (dlq_routing_key job_type) q <-> q = dlq names) /\
  (rejected_to (main names) q <-> q = retry names) /\
  (rejected_to (retry names) q <-> q = main names) /\
  ~ rejected_to (dlq names) q /\
  (forall other, other ∈ JOB_TYPES -> other <> job_type ->
     main (queue_names other) <> main names /\ retry (queue_names other) <> retry names /\
     dlq (queue_names other) <> dlq names).
Proof.
  intros Ht names. split_and!.
  - rewrite (routes_bound _ _ q [main names] jobs_direct); [set_solver|].
    by repeat (apply elem_of_cons in Ht as [->|Ht]; [by vm_compute|]); apply elem_of_nil in Ht.
  - rewrite (routes_bound _ _ q [retry names] dlx_direct); [set_solver|].
    by repeat (apply elem_of_cons in Ht as [->|Ht]; [by vm_compute|]); apply elem_of_nil in Ht.
  - rewrite (routes_bound _ _ q [dlq names] dlx_direct); [set_solver|].
    by repeat (apply elem_of_cons in Ht as [->|Ht]; [by vm_compute|]); apply elem_of_nil in Ht.
  - rewrite (rejected_to_bound _ (mk_args (Some (DLX_EXCHANGE, routing_key names)) None) DLX_EXCHANGE (routing_key names) q [retry names]);
      [set_solver| |done|apply dlx_direct|];
      by repeat (apply elem_of_cons in Ht as [->|Ht]; [by vm_compute|]); apply elem_of_nil in Ht.
  - rewrite (rejected_to_bound _ (mk_args (Some (JOBS_EXCHANGE, routing_key names)) (Some RETRY_TTL_MS)) JOBS_EXCHANGE (routing_key names) q [main names]);
      [set_solver| |done|apply jobs_direct|];
      by repeat (apply elem_of_cons in Ht as [->|Ht]; [by vm_compute|]); apply elem_of_nil in Ht.
  - intros (e & k & Hd & _). rewrite (dead_letters_declared _ (mk_args None None)) in Hd; [done|].
    by repeat (apply elem_of_cons in Ht as [->|Ht]; [by vm_compute|]); apply elem_of_nil in Ht.
  - intros other Ho. revert other Ho. subst names.
    repeat (apply elem_of_cons in Ht as [->|Ht]);
      [| |by apply elem_of_nil in Ht]; intros other Ho Hne;
      repeat (apply elem_of_cons in Ho as [->|Ho]); try done; by apply elem_of_nil in Ho.
Qed.
End routing.

(** A broker with AMQP's direct exchanges and trailing [#] topic patterns. *)
Definition amqp_routes (ds : list amqp_decl) (e k q : pystr) : Prop :=
  exists pattern, queue_bind q e pattern ∈ ds /\
    (pattern = k \/
     (exchange_declare e Direct ∉ ds /\ exists pre, pattern = pre ++ [35%Z] /\ startswith pre k = true)).
Definition amqp_dead_letters (ds : list amqp_decl) (q : pystr) : option (pystr * pystr) :=
  match declared q ds with a :: _ => x_dead_letter a | [] => None end.
Program Definition amqp_091 : AmqpRouting := {|
  routes := amqp_routes;
  dead_letters := amqp_dead_letters;
|}.
Next Obligation.
  intros ds e k q He. split; [|intros; exists k; auto]. intros (p & Hp & [->|[Hn _]]); done.
Qed.
Next Obligation.
  intros ds q a Ha Hu. unfold amqp_dead_letters. apply elem_of_declared in Ha.
  destruct (declared q ds) as [|a' l] eqn:E; [set_solver|]. f_equal. apply (Hu a').
  apply elem_of_declared. rewrite E. set_solver.
Qed.

Lemma topology_routes_witness :
  @routes amqp_091 declare_topology JOBS_EXCHANGE (u "job.log_triage") (u "noc.jobs.log-triage").
Proof.
  apply (@topology_routes amqp_091 (u "log_triage") (u "noc.jobs.log-triage")); [|by vm_compute].
  apply list_elem_of_here.
Defined.

(** ** Messages *)

Lemma holds_property k s j v : jget k j = Some v -> holds (KProperty k s) j = conforms s v.
Proof. intros H. simpl. by rewrite H. Qed.

(** What a caller of [build_job_message] has to respect. *)
Definition fields_ok (f : job_fields) : bool :=
  forallb (conforms object_ref_schema) (f_object_refs f) &&
  bool_decide (f_model f <> Some []) && bool_decide (f_effort f <> Some []) &&
  truthy_str (f_skill_name f) && truthy_str (f_skill_version f) &&
  match f_ai_policy f with Some p => conforms ai_policy_schema p | None => true end &&
  truthy_str (f_correlation_id f) && (1 <=? f_attempt f)%Z.

Lemma conforms_str1 s : conforms str1 (JStr s) = truthy_str s.
Proof. unfold conforms, truthy_str. simpl. by destruct s. Qed.

Lemma conforms_opt_min x :
  conforms [KType [TString; TNull]; KMinLength 1] (jopt x) = bool_decide (x <> Some []).
Proof. destruct x as [[|c s]|]; done. Qed.

Lemma conforms_opt x : conforms str_or_null (jopt x) = true.
Proof. by destruct x. Qed.

Lemma conforms_policy m e :
  conforms ai_policy_schema (JObj (present [(u "model", m); (u "effort", e)])) =
  bool_decide (m <> Some []) && bool_decide (e <> Some []).
Proof. destruct m as [[|]|], e as [[|]|]; by vm_compute. Qed.

Lemma str_or_truthy x y : truthy_str y = true -> truthy_str (str_or x y) = true.
Proof. unfold str_or. destruct x as [s|]; [|done]. by destruct (truthy_str s) eqn:E. Qed.

Lemma message_conforms f :
  (f_job_id f < 2 ^ 128)%N -> f_job_type f ∈ JOB_TYPES ->
  conforms job_message_schema (message_of f) = fields_ok f.
Proof.
  intros Hid Ht.
  assert (Htt : truthy_str (f_job_type f) = true).
  { repeat (apply elem_of_cons in Ht as [->|Ht]; [done|]). by apply elem_of_nil in Ht. }
  unfold conforms at 1, job_message_schema.
  set (m := message_of f). cbn [forallb].
  rewrite (holds_property (u "protocol_version") _ m (JInt 1)) by reflexivity.
  rewrite (holds_property (u "job_id") _ m (JStr (uuid_str (f_job_id f)))) by reflexivity.
  rewrite (holds_property (u "job_type") _ m (JStr (f_job_type f))) by reflexivity.
  rewrite (holds_property (u "incident_id") _ m (jopt (f_incident_id f))) by reflexivity.
  rewrite (holds_property (u "object_refs") _ m (JList (f_object_refs f))) by reflexivity.
  rewrite (holds_property (u "model") _ m (jopt (f_model f))) by reflexivity.
  rewrite (holds_property (u "effort") _ m (jopt (f_effort f))) by reflexivity.
  rewrite (holds_property (u "skill_name") _ m (JStr (f_skill_name f))) by reflexivity.
  rewrite (holds_property (u "skill_version") _ m (JStr (f_skill_version f))) by reflexivity.
  rewrite (holds_property (u "skill_hash") _ m (jopt (f_skill_hash f))) by reflexivity.
  rewrite (holds_property (u "skill_execution_hash") _ m (jopt (f_skill_execution_hash f))) by reflexivity.
  rewrite (holds_property (u "skill_snapshot_id") _ m _) by reflexivity.
  rewrite (holds_property (u "expected_output_type") _ m _) by reflexivity.
  rewrite (holds_property (u "ai_policy") _ m _) by reflexivity.
  rewrite (holds_property (u "correlation_id") _ m (JStr (f_correlation_id f))) by reflexivity.
  rewrite (holds_property (u "attempt") _ m (JInt (f_attempt f))) by reflexivity.
  replace (holds (KType [TObject]) m) with true by reflexivity.
  replace (holds (KRequired job_required) m) with true by (by vm_compute).
  replace (holds (KClosed job_keys) m) with true by (by vm_compute).
  replace (conforms [KType [TString]; KUuid] (JStr (uuid_str (f_job_id f)))) with true.
  2: { unfold conforms. cbn [forallb]. by rewrite uuid_format. }
  rewrite !conforms_str1, !conforms_opt, !conforms_opt_min, Htt.
  rewrite (str_or_truthy (f_expected_output_type f)) by (by destruct (f_job_type f)).
  assert (conforms str_or_null match f_skill_snapshot_id f with
    | Some s => if truthy_str s then JStr s else JNull | None => JNull end = true) as ->.
  { destruct (f_skill_snapshot_id f) as [s|]; [|done]. by destruct (truthy_str s). }
  replace (conforms [KType [TInteger]; KConst (JInt 1)] (JInt 1)) with true by reflexivity.
  replace (conforms [KType [TInteger]; KMinimum 1] (JInt (f_attempt f))) with (1 <=? f_attempt f)%Z
    by (unfold conforms; simpl; by rewrite andb_true_r).
  replace (conforms [KType [TArray]; KItems object_ref_schema] (JList (f_object_refs f)))
    with (forallb (conforms object_ref_schema) (f_object_refs f))
    by (unfold conforms; simpl; by rewrite andb_true_r).
  unfold fields_ok. destruct (f_ai_policy f) as [p|]; unfold default, from_option, id; [|rewrite conforms_policy];
    repeat match goal with |- context [bool_decide ?P] => generalize (bool_decide P); intros ? end;
    repeat match goal with |- context [forallb ?p ?l] => generalize (forallb p l); intros ? end;
    repeat match goal with |- context [truthy_str ?s] => generalize (truthy_str s); intros ? end;
    try generalize (conforms ai_policy_schema p); try intros ?;
    generalize (1 <=? f_attempt f)%Z; intros; cbn [andb];
    repeat match goal with b : bool |- _ => destruct b; try reflexivity end.
Qed.

(** Sendable fields: every string is made of Unicode scalar values. *)
Definition opt_scalar (x : option pystr) : Prop := match x with Some s => Forall scalar_value s | None => True end.
Definition fields_sendable (f : job_fields) : Prop :=
  opt_scalar (f_incident_id f) /\ Forall wire_ok (f_object_refs f) /\ opt_scalar (f_model f) /\
  opt_scalar (f_effort f) /\ Forall scalar_value (f_skill_name f) /\ Forall scalar_value (f_skill_version f) /\
  Forall scalar_value (f_correlation_id f) /\ opt_scalar (f_skill_hash f) /\
  opt_scalar (f_skill_execution_hash f) /\ opt_scalar (f_skill_snapshot_id f) /\
  opt_scalar (f_expected_output_type f) /\ match f_ai_policy f with Some p => wire_ok p | None => True end.

Lemma literal_scalar s : forallb (fun c => (0 <=? c)%Z && (c <? 55296)%Z) s = true -> Forall scalar_value s.
Proof.
  unfold scalar_value. induction s as [|c s IH]; [constructor|]. simpl.
  intros [Hc Hs]%andb_prop. constructor; [lia|auto].
Qed.

Lemma keys_NoDup (ks : list pystr) : bool_decide (NoDup ks) = true -> NoDup ks.
Proof. apply bool_decide_eq_true_1. Qed.

Lemma wire_ok_jopt x : opt_scalar x -> wire_ok (jopt x).
Proof. by destruct x. Qed.

Lemma wire_ok_present m e : opt_scalar m -> opt_scalar e ->
  wire_ok (JObj (present [(u "model", m); (u "effort", e)])).
Proof.
  intros Hm He. apply wire_ok_obj.
  assert (Hk : Forall scalar_value (u "model") /\ Forall scalar_value (u "effort"))
    by (split; by apply literal_scalar).
  destruct m as [m|], e as [e|]; simpl in *; (split; [apply keys_NoDup; by vm_compute|]);
    repeat constructor; simpl; try done; try (by apply Hk).
Qed.

Lemma message_sendable f : f_job_type f ∈ JOB_TYPES -> fields_sendable f -> wire_ok (message_of f).
Proof.
  intros Ht (Hi & Hr & Hm & He & Hsn & Hsv & Hc & Hsh & Hsx & Hss & Hx & Hp).
  assert (Htt : Forall scalar_value (f_job_type f)).
  { repeat (apply elem_of_cons in Ht as [->|Ht]; [by apply literal_scalar|]). by apply elem_of_nil in Ht. }
  assert (Hor : Forall scalar_value (str_or (f_expected_output_type f) (f_job_type f ++ u ".result"))).
  { unfold str_or. destruct (f_expected_output_type f) as [x|];
      [destruct (truthy_str x); [done|]|]; apply Forall_app; split; try done; by apply literal_scalar. }
  apply wire_ok_obj. split; [apply keys_NoDup; by vm_compute|].
  repeat (apply Forall_cons; split; [split; [by apply literal_scalar|]|]); simpl snd; try done;
    try (by apply wire_ok_jopt); try (by apply wire_ok_list).
  - simpl. apply uuid_str_ascii.
  - destruct (f_skill_snapshot_id f) as [s|]; [|done]. by destruct (truthy_str s).
  - destruct (f_ai_policy f) as [p|]; [done|]. by apply wire_ok_present.
Qed.

Lemma elem_literal (k : pystr) (ks : list pystr) : bool_decide (k ∈ ks) = true -> k ∈ ks.
Proof. apply bool_decide_eq_true_1. Qed.

(** What the consumer relies on in a message the schema accepts. *)
Lemma valid_message_inv m :
  conforms job_message_schema m = true ->
  exists o jt idt i att, m = JObj o /\ jget (u "job_type") m = Some (JStr jt) /\
    jget (u "job_id") m = Some (JStr idt) /\ uuid_parse idt = Some i /\
    jget (u "attempt") m = Some att /\ conforms [KType [TInteger]; KMinimum 1] att = true.
Proof.
  intros Hc. pose proof (proj1 (conforms_spec _ _) Hc (KType [TObject]) ltac:(apply list_elem_of_here)) as Ho.
  destruct m as [| | | | | |o]; try done. clear Ho.
  assert (Hreq : forall k, k ∈ job_required -> exists v, assoc k o = Some v).
  { intros k Hk. apply (conforms_required _ _ k o Hc (list_elem_of_further _ _ _ (list_elem_of_here _ _)) Hk). }
  destruct (Hreq (u "job_type")) as [jt Hjt]; [by apply elem_literal; vm_compute|].
  destruct (Hreq (u "job_id")) as [idt Hid]; [by apply elem_literal; vm_compute|].
  destruct (Hreq (u "attempt")) as [att Hatt]; [by apply elem_literal; vm_compute|].
  pose proof (conforms_property _ str1 (u "job_type") (JObj o) jt Hc) as Cjt.
  pose proof (conforms_property _ [KType [TString]; KUuid] (u "job_id") (JObj o) idt Hc) as Cid.
  pose proof (conforms_property _ [KType [TInteger]; KMinimum 1] (u "attempt") (JObj o) att Hc) as Catt.
  specialize (Cjt ltac:(unfold job_message_schema; repeat constructor) Hjt).
  specialize (Cid ltac:(unfold job_message_schema; repeat constructor) Hid).
  specialize (Catt ltac:(unfold job_message_schema; repeat constructor) Hatt).
  destruct jt as [| | | |jt| |]; try done. destruct idt as [| | | |idt| |]; try done.
  unfold conforms in Cid. cbn [forallb] in Cid. apply andb_prop in Cid as [_ Cid]. apply andb_prop in Cid as [Cid _].
  simpl in Cid. destruct (uuid_parse idt) as [i|] eqn:Ei; [|done].
  by exists o, jt, idt, i, att.
Qed.

Section message_theorems.
Context `{SchemaValidator}.

Lemma build_job_message_eq f :
  (f_job_id f < 2 ^ 128)%N ->
  build_job_message f =
    if decide (f_job_type f ∈ JOB_TYPES) then
      if fields_ok f then Ok (message_of f) else Raise (mk_exn ValidationError [])
    else Raise (mk_exn ValueError (u "Unknown job_type: " ++ f_job_type f)).
Proof.
  intros Hid. unfold build_job_message. case_decide; [|done].
  by rewrite is_valid_conforms, message_conforms.
Qed.

(** C31. Producer and consumer agree on job messages: [build_job_message]
    succeeds exactly on the fields the contract allows, and the bytes put on
    the wire decode at the worker to the same message, which the worker's
    schema check accepts and whose job id is the one of the row. *)
Theorem job_message_roundtrip float_repr f :
  (f_job_id f < 2 ^ 128)%N -> fields_sendable f ->
  (is_ok (build_job_message f) = bool_decide (f_job_type f ∈ JOB_TYPES) && fields_ok f) /\
  forall m, build_job_message f = Ok m ->
    from_wire (to_wire float_repr m) = Some m /\ is_valid job_message_schema m = true /\
    jget (u "job_type") m = Some (JStr (f_job_type f)) /\
    (s ← jget (u "job_id") m; s ← jstr s; uuid_parse s) = Some (f_job_id f) /\
    jget (u "attempt") m = Some (JInt (f_attempt f)).
Proof.
  intros Hid Hs. rewrite build_job_message_eq by done. case_decide as Ht.
  - rewrite bool_decide_eq_true_2 by done. destruct (fields_ok f) eqn:Hok; (split; [done|]); [|done].
    intros m [= <-]. split_and!.
    + apply from_to_wire. by apply message_sendable.
    + by rewrite is_valid_conforms, message_conforms.
    + reflexivity.
    + change (jget (u "job_id") (message_of f)) with (Some (JStr (uuid_str (f_job_id f)))). simpl.
      by apply uuid_parse_str.
    + reflexivity.
  - rewrite bool_decide_eq_false_2 by done. by split.
Qed.
End message_theorems.

Definition sample_fields : job_fields :=
  mk_job_fields 77 (u "log_triage") (Some (u "inc")) [JObj [(u "bucket", JStr (u "b")); (u "key", JStr (u "k"))]]
    None (Some (u "low")) (u "log-triage-summary") (u "1") (u "corr") 1 None None None None None.

Lemma sample_fields_sendable : fields_sendable sample_fields.
Proof.
  unfold fields_sendable. simpl. split_and!; try done; try by apply literal_scalar.
  apply Forall_cons. split; [|done]. apply wire_ok_obj. split; [apply keys_NoDup; by vm_compute|].
  repeat (apply Forall_cons; split; [split; simpl; by apply literal_scalar|]). done.
Qed.

Lemma job_message_roundtrip_witness :
  exists m, from_wire (to_wire (fun _ => []) m) = Some m /\ @is_valid draft7 job_message_schema m = true.
Proof.
  destruct (@job_message_roundtrip draft7 (fun _ => []) sample_fields) as [H1 H2].
  - by vm_compute.
  - exact sample_fields_sendable.
  - destruct (@build_job_message draft7 sample_fields) as [m|e] eqn:E.
    + exists m. destruct (H2 m eq_refl) as (Ha & Hb & _). done.
    + exfalso. revert H1. by vm_compute.
Defined.
