(* ===== verification/Worker.v ===== *)
(** * The AI worker's job lifecycle

    Models the [Worker] class and [_LeaseRenewer] of [bridge/noc_bridge/worker.py].
    The world holds the job table, a trace of everything that took effect, the
    metrics, and a schedule: one event per external call (opening a database
    connection, a statement, a channel operation).  An event carries what every
    other session did to the table since the last call, the clock, and whether
    the call fails before or after taking effect.  A claim takes one or two of
    them, its update and the read after a missed one.  The trace names the job,
    the token and the message of what took effect.  Theorems quantify over the
    schedule, so they hold under every interleaving and every pattern of
    failures, crashes of the connection included.

    What a job computes is the interface [JobProcessor]: it neither settles the
    delivery nor touches the table. *)

From S2P Require Import Prelude PyStr Json Schema Jobs Failures Broker.
Import LeaseSpec.

(** ** The world *)

Inductive fault := NoFault | FailBefore (e : pyexn) | FailAfter (e : pyexn).

Record event := mk_event {
  ev_env : db -> db;      (** the other sessions *)
  ev_now : usec;
  ev_fault : fault;
}.

(** What took effect.  [TMissed] is a claiming update that took no row; a
    completion is recorded with the token its row carried just before. *)
Inductive trace_event :=
  | TChan (op : chan_op)
  | TMissed (i : job_id)
  | TClaim (i : job_id) (tok : token) (d : JobClaimDisposition)
  | TCompleted (i : job_id) (tok : token) (owner : option token) (updated : bool)
  | TFailed (i : job_id) (updated : bool)
  | TBump (i : job_id) (attempt : Z)
  | TRetrying (i : job_id) (updated : bool).

Record worker_metrics := mk_metrics {
  jobs_processing : Z;
  jobs_completed : Z;
  jobs_failed : Z;
  retry_count : Z;
  schema_validation_failures : Z;
  provider_failures : Z;
}.

Record world := mk_world {
  w_db : db;
  w_now : usec;
  w_trace : list trace_event;
  w_metrics : worker_metrics;
  w_sched : list event;
}.

Definition set_db (d : db) (s : world) : world :=
  mk_world d (w_now s) (w_trace s) (w_metrics s) (w_sched s).
Definition emit (t : trace_event) (s : world) : world :=
  mk_world (w_db s) (w_now s) (w_trace s ++ [t]) (w_metrics s) (w_sched s).
Definition set_metrics (f : worker_metrics -> worker_metrics) (s : world) : world :=
  mk_world (w_db s) (w_now s) (w_trace s) (f (w_metrics s)) (w_sched s).

(** The next event happens; an exhausted schedule is a quiet one. *)
Definition next_event (s : world) : fault * world :=
  match w_sched s with
  | [] => (NoFault, s)
  | ev :: sched =>
      (ev_fault ev, mk_world (ev_env ev (w_db s)) (ev_now ev) (w_trace s) (w_metrics s) sched)
  end.

(** One external call whose effect is [f]. *)
Definition external {A} (f : world -> A * world) : M world pyexn A := fun s =>
  let '(fl, s) := next_event s in
  match fl with
  | NoFault => let '(a, s) := f s in (Ok a, s)
  | FailBefore e => (Raise e, s)
  | FailAfter e => (Raise e, snd (f s))
  end.

Definition connect_db : M world pyexn () := external (fun s => ((), s)).

(** A statement of [Jobs], at the time the call reaches the server; its record
    may mention the table it found. *)
Definition db_call {A} (f : usec -> db -> A * db) (t : db -> A -> trace_event) : M world pyexn A :=
  external (fun s => let '(a, d) := f (w_now s) (w_db s) in (a, emit (t (w_db s) a) (set_db d s))).
Definition owner_of (i : job_id) (d : db) : option token := j ← jobs d !! i; j_claim_token j.

Definition do_chan (op : chan_op) : M world pyexn () := external (fun s => ((), emit (TChan op) s)).

Definition chan_ops (tr : list trace_event) : list chan_op :=
  omap (fun t => match t with TChan op => Some op | _ => None end) tr.

Lemma chan_ops_app tr tr' : chan_ops (tr ++ tr') = chan_ops tr ++ chan_ops tr'.
Proof. apply omap_app. Qed.

#[global] Program Instance worker_channel : HasChannel world := {|
  chan_do := do_chan;
  chan_log s := chan_ops (w_trace s);
|}.
Next Obligation.
  intros op s. unfold do_chan, external, next_event.
  destruct (w_sched s) as [|[env now [|e|e]] sched]; simpl; rewrite ?chan_ops_app; eauto 6.
Qed.

(** ** Metrics *)

Definition incr_processing (n : Z) (m : worker_metrics) : worker_metrics :=
  mk_metrics (jobs_processing m + n)%Z (jobs_completed m) (jobs_failed m) (retry_count m)
    (schema_validation_failures m) (provider_failures m).
Definition incr_completed (m : worker_metrics) : worker_metrics :=
  mk_metrics (jobs_processing m) (jobs_completed m + 1)%Z (jobs_failed m) (retry_count m)
    (schema_validation_failures m) (provider_failures m).
Definition incr_failed (m : worker_metrics) : worker_metrics :=
  mk_metrics (jobs_processing m) (jobs_completed m) (jobs_failed m + 1)%Z (retry_count m)
    (schema_validation_failures m) (provider_failures m).
Definition incr_retry (m : worker_metrics) : worker_metrics :=
  mk_metrics (jobs_processing m) (jobs_completed m) (jobs_failed m) (retry_count m + 1)%Z
    (schema_validation_failures m) (provider_failures m).
Definition incr_schema (m : worker_metrics) : worker_metrics :=
  mk_metrics (jobs_processing m) (jobs_completed m) (jobs_failed m) (retry_count m)
    (schema_validation_failures m + 1)%Z (provider_failures m).
Definition incr_provider (m : worker_metrics) : worker_metrics :=
  mk_metrics (jobs_processing m) (jobs_completed m) (jobs_failed m) (retry_count m)
    (schema_validation_failures m) (provider_failures m + 1)%Z.
Definition metric (f : worker_metrics -> worker_metrics) : M world pyexn () := modify_st (set_metrics f).

(** ** What a job computes *)

(** Only the schedule, the clock and the other sessions move. *)
Definition env_run (evs : list event) (d : db) : db := foldl (fun d ev => ev_env ev d) d evs.
Definition env_only (s s' : world) : Prop := exists evs,
  w_sched s = evs ++ w_sched s' /\ w_db s' = env_run evs (w_db s) /\ (evs = [] -> w_now s' = w_now s).
Definition quiet (s s' : world) : Prop :=
  w_trace s' = w_trace s /\ w_metrics s' = w_metrics s /\ env_only s s'.

#[global] Instance env_only_preorder : PreOrder env_only.
Proof.
  split; unfold env_only.
  - intros s. by exists [].
  - intros a b c (e1 & H1 & H2 & H3) (e2 & H4 & H5 & H6). exists (e1 ++ e2). split_and!.
    + by rewrite H1, H4, app_assoc.
    + unfold env_run in *. by rewrite foldl_app, H5, H2.
    + intros [-> ->]%app_nil. by rewrite H6, H3.
Qed.

#[global] Instance quiet_preorder : PreOrder quiet.
Proof.
  split; unfold quiet; [intros s; split_and!; done|].
  intros a b c (H1 & H2 & H3) (H4 & H5 & H6). split_and!; [congruence|congruence|by etrans].
Qed.

Class JobProcessor := {
  (** the crash reconciliation of a log triage: is a valid result stored? *)
  stored_result_valid : json -> M world pyexn bool;
  (** the job itself; the result is the artifact metadata to record *)
  process_message : json -> M world pyexn (option artifact_metadata);
  stored_result_quiet : forall m, preserves quiet (stored_result_valid m);
  process_message_quiet : forall m, preserves quiet (process_message m);
}.

Record settings := mk_settings {
  worker_id : pystr;
  lease_seconds : Z;
  max_attempts : Z;
}.

(** [int(v)] of a validated number *)
Definition py_int (j : json) : option Z :=
  match j with
  | JInt n => Some n
  | JBool b => Some (if b then 1 else 0)%Z
  | JFloat (SpecFloat.S754_zero _) => Some 0%Z
  | JFloat (SpecFloat.S754_finite s m e) =>
      let a := if (0 <=? e)%Z then (Zpos m * 2 ^ e)%Z else (Zpos m / 2 ^ (- e))%Z in
      Some (if s then - a else a)%Z
  | _ => None
  end.

(** [{key: value for ... if not key.startswith("_")}] *)
Definition public_items (m : json) : json :=
  match m with
  | JObj o => JObj (filter (fun kv => negb (startswith (u "_") (fst kv))) o)
  | _ => m
  end.

Definition type_error : pyexn := mk_exn TypeError [].
Definition key_error : pyexn := mk_exn KeyError [].

Definition get_attempt (m : json) : M world pyexn Z :=
  match py_int (default (JInt 1) (jget (u "attempt") m)) with
  | Some n => mret n
  | None => raise type_error
  end.

Definition get_str (k : pystr) (m : json) : M world pyexn pystr :=
  match jget k m with
  | Some (JStr s) => mret s
  | Some _ => raise type_error
  | None => raise key_error
  end.

Definition get_job_id (m : json) : M world pyexn job_id :=
  s ← get_str (u "job_id") m;
  match uuid_parse s with
  | Some i => mret i
  | None => raise (mk_exn ValueError (u "badly formed hexadecimal UUID string"))
  end.

Section worker.
Context `{UnicodeData} `{SchemaValidator} `{JobProcessor}.
Context (float_repr : SpecFloat.spec_float -> pystr) (cfg : settings).

(** The dead-letter body of a failed job. *)
Definition dlq_body (job_id job_type : pystr) (attempt : Z) (error_code error : pystr) : json :=
  JObj [ (u "job_id", JStr job_id); (u "job_type", JStr job_type); (u "attempt", JInt attempt);
         (u "error_code", JStr error_code); (u "error", JStr error) ].

Definition settle_failure (tag : N) (message : json) (claim_token : option token) (exc : pyexn)
    : M world pyexn () :=
  let '(error_code, safe_message) := error_detail exc in
  let disposition := classify_failure exc in
  job_id ← get_job_id message;
  connect_db;;
  db_call (fun now => mark_failed job_id error_code safe_message claim_token now) (fun _ => TFailed job_id);;
  attempt ← get_attempt message;
  job_type ← get_str (u "job_type") message;
  (if bool_decide (disposition <> TERMINAL) && (attempt <? max_attempts cfg)%Z then
     let retry := jset (u "attempt") (JInt (attempt + 1)) (public_items message) in
     db_call (fun _ d => ((), bump_attempt job_id (attempt + 1) d)) (fun _ _ => TBump job_id (attempt + 1));;
     do_chan (Publish DLX_EXCHANGE (routing_key (queue_names job_type)) (to_wire float_repr retry) false false None);;
     db_call (fun _ => mark_retrying job_id error_code safe_message) (fun _ => TRetrying job_id);;
     metric incr_retry
   else
     id_text ← get_str (u "job_id") message;
     send_to_dlq float_repr job_type (dlq_body id_text job_type attempt error_code safe_message);;
     metric incr_failed);;
  do_chan (Ack tag).

(** [json.loads(body.decode("utf-8"))] and the schema check: the message, or
    the class of the exception raised. *)
Definition decode_message (body : list Z) : result pystr json :=
  match utf8_decode body with
  | None => Raise (class_name UnicodeDecodeError)
  | Some text =>
      match json_loads text with
      | None => Raise (class_name JSONDecodeError)
      | Some message =>
          if is_valid job_message_schema message then Ok message
          else Raise (class_name ValidationError)
      end
  end.

Definition lost_reconcile : pyexn :=
  mk_exn JobLeaseError (u "job lease was lost during artifact reconciliation").
Definition lost_completion : pyexn := mk_exn JobLeaseError (u "job lease was lost before completion").

(** [mark_completed] with the held token, on a connection of its own, then the
    acknowledgement. *)
Definition complete_and_ack (tag : N) (job_id : job_id) (tok : token)
    (meta : option artifact_metadata) (lost : pyexn) : M world pyexn () :=
  connect_db;;
  updated ← db_call (mark_completed job_id meta (Some tok)) (fun d => TCompleted job_id tok (owner_of job_id d));
  (if negb updated then raise lost else mret ());;
  do_chan (Ack tag);;
  metric incr_completed.

(** The guarded body of [handle_delivery]: reconcile a stored result or run
    the job, then complete it. *)
Definition run_job (tag : N) (job_id : job_id) (tok : token) (message : json) : M world pyexn () :=
  job_type ← get_str (u "job_type") message;
  reconciled ← (if decide (job_type = u "log_triage") then stored_result_valid message else mret false);
  if (reconciled : bool) then complete_and_ack tag job_id tok None lost_reconcile
  else
    outcome ← process_message (public_items message);
    complete_and_ack tag job_id tok outcome lost_completion.

(** The [except Exception] block. *)
Definition on_failure (tag : N) (tok : token) (message : json) (exc : pyexn) : M world pyexn () :=
  when (bool_decide (error_code_attr (x_class exc) = Some (u "HERMES_INVALID_OUTPUT"))) (metric incr_schema);;
  when (startswith (u "Hermes") (class_name (x_class exc)) &&
        bool_decide (error_code_attr (x_class exc) <> Some (u "HERMES_INVALID_OUTPUT"))) (metric incr_provider);;
  settle_failure tag message (Some tok) exc.

(** [claim_job], the two statements one after the other. *)
Definition claim_statements (fresh : token) (job_id : job_id) : M world pyexn JobClaimResult :=
  taken ← db_call (fun now d => let '(row, d) := claim_update job_id (worker_id cfg) (lease_seconds cfg) fresh now d in ((now, row), d))
            (fun _ r => match snd r with Some _ => TClaim job_id fresh CLAIMED | None => TMissed job_id end);
  match snd taken with
  | Some row => mret (mk_claim CLAIMED (Some row))
  | None => db_call (fun _ d => (claim_read job_id (fst taken) d, d)) (fun _ r => TClaim job_id fresh (disposition r))
  end.

(** Claiming: [Some tok] when the job is this worker's to run, [None] when the
    delivery has been settled.  [fresh] is the random token. *)
Definition claim_delivery (tag : N) (fresh : token) (job_id : job_id) (message : json)
    : M world pyexn (option token) :=
  connect_db;;
  claimed ← claim_statements fresh job_id;
  match disposition claimed with
  | ALREADY_COMPLETED | NOT_CLAIMABLE => do_chan (Ack tag);; mret None
  | LEASE_BUSY => do_chan (Nack tag false);; mret None
  | CLAIMED =>
      match j ← claim_row claimed; j_claim_token j with
      | None => raise key_error
      | Some tok =>
          attempt ← get_attempt message;
          db_call (fun _ d => ((), bump_attempt job_id attempt d)) (fun _ _ => TBump job_id attempt);;
          mret (Some tok)
      end
  end.

Definition handle_delivery (tag : N) (fresh : token) (expected_job_type : pystr) (body : list Z)
    : M world pyexn () :=
  match decode_message body with
  | Raise name =>
      send_raw_to_dlq float_repr expected_job_type body (u "invalid job message: " ++ name);;
      do_chan (Ack tag)
  | Ok message =>
      job_type ← get_str (u "job_type") message;
      if decide (job_type <> expected_job_type) then
        send_to_dlq float_repr expected_job_type message;;
        do_chan (Ack tag)
      else
        job_id ← get_job_id message;
        claim ← claim_delivery tag fresh job_id message;
        match claim with
        | None => mret ()
        | Some tok =>
            metric (incr_processing 1);;
            try_finally
              (try_except (run_job tag job_id tok message) (on_failure tag tok message))
              (set_metrics (incr_processing (-1)))
        end
  end.
End worker.

(** ** Reasoning about traces

    [triple P m Q X]: from a trace that satisfies [P], a run of [m] under any
    schedule ends in [Q] when it returns and in [X] when it raises. *)
Definition trace_pred := list trace_event -> Prop.
Definition triple {A} (P : trace_pred) (m : M world pyexn A) (Q : A -> trace_pred) (X : trace_pred) : Prop :=
  forall s, P (w_trace s) ->
    match m s with
    | (Ok a, s') => Q a (w_trace s')
    | (Raise _, s') => X (w_trace s')
    end.

Section triples.
Implicit Types (P X : trace_pred).

Lemma triple_ret {A} P X (a : A) (Q : A -> trace_pred) : (forall tr, P tr -> Q a tr) -> triple P (mret a) Q X.
Proof. intros HQ s Hs. by apply HQ. Qed.

Lemma triple_raise {A} P X e (Q : A -> trace_pred) : (forall tr, P tr -> X tr) -> triple P (raise e) Q X.
Proof. intros HX s Hs. by apply HX. Qed.

Lemma triple_bind {A B} P R X (m : M world pyexn A) (f : A -> M world pyexn B) Q :
  triple P m R X -> (forall a, triple (R a) (f a) Q X) -> triple P (mbind f m) Q X.
Proof.
  intros Hm Hf s Hs. specialize (Hm s Hs). unfold mbind, M_bind.
  destruct (m s) as [[a|e] s']; [by apply Hf|done].
Qed.

Lemma triple_mono {A} P P' X X' (m : M world pyexn A) Q Q' :
  triple P' m Q' X' -> (forall tr, P tr -> P' tr) -> (forall a tr, Q' a tr -> Q a tr) ->
  (forall tr, X' tr -> X tr) -> triple P m Q X.
Proof.
  intros Hm HP HQ HX s Hs. specialize (Hm s (HP _ Hs)). destruct (m s) as [[a|e] s']; auto.
Qed.

(** Forgetting part of the precondition. *)
Lemma triple_pre {A} P (R : Prop) X (m : M world pyexn A) Q :
  (R -> triple P m Q X) -> triple (fun tr => P tr /\ R) m Q X.
Proof. intros Hm s [Hs HR]. by apply Hm. Qed.

Lemma next_event_trace s : w_trace (snd (next_event s)) = w_trace s.
Proof. unfold next_event. by destruct (w_sched s). Qed.

Lemma triple_external {A} P X (f : world -> A * world) (Q : A -> trace_pred) :
  (forall s, P (w_trace s) -> Q (fst (f s)) (w_trace (snd (f s)))) ->
  (forall s, P (w_trace s) -> X (w_trace s) /\ X (w_trace (snd (f s)))) ->
  triple P (external f) Q X.
Proof.
  intros HQ HX s Hs. unfold external. rewrite <- next_event_trace in Hs.
  destruct (next_event s) as [fl s1]; simpl in Hs. specialize (HQ s1 Hs). specialize (HX s1 Hs).
  destruct fl; [|apply HX|apply HX]. by destruct (f s1).
Qed.

Lemma triple_connect P X : (forall tr, P tr -> X tr) -> triple P connect_db (fun _ => P) X.
Proof. intros HX. apply triple_external; simpl; auto. Qed.

Lemma triple_db_call {A} P X (f : usec -> db -> A * db) t (Q : A -> trace_pred) :
  (forall tr now d, P tr -> Q (fst (f now d)) (tr ++ [t d (fst (f now d))])) -> (forall tr, P tr -> X tr) ->
  (forall tr d a, P tr -> X (tr ++ [t d a])) ->
  triple P (db_call f t) Q X.
Proof.
  intros HQ HX HX'. apply triple_external; intros s Hs.
  - specialize (HQ _ (w_now s) (w_db s) Hs). by destruct (f (w_now s) (w_db s)) as [a d].
  - destruct (f (w_now s) (w_db s)) as [a d]; simpl; auto.
Qed.

Lemma triple_chan P X op (Q : () -> trace_pred) :
  (forall tr, P tr -> Q () (tr ++ [TChan op])) -> (forall tr, P tr -> X tr) ->
  (forall tr, P tr -> X (tr ++ [TChan op])) ->
  triple P (do_chan op) Q X.
Proof. intros HQ HX HX'. apply triple_external; intros s Hs; simpl; auto. Qed.

Lemma triple_metric P X g : triple P (metric g) (fun _ => P) X.
Proof. by intros s Hs. Qed.

Lemma triple_quiet {A} P X (m : M world pyexn A) :
  preserves quiet m -> (forall tr, P tr -> X tr) -> triple P m (fun _ => P) X.
Proof.
  intros Hm HX s Hs. destruct (Hm s) as (Ht & _). destruct (m s) as [[a|e] s']; simpl in *; rewrite Ht; auto.
Qed.

Lemma triple_try {A} P R X (m : M world pyexn A) h Q :
  triple P m Q R -> (forall e, triple R (h e) Q X) -> triple P (try_except m h) Q X.
Proof.
  intros Hm Hh s Hs. specialize (Hm s Hs). unfold try_except.
  destruct (m s) as [[a|e] s']; [done|by apply Hh].
Qed.

Lemma triple_finally {A} P X (m : M world pyexn A) g Q :
  (forall s, w_trace (g s) = w_trace s) -> triple P m Q X -> triple P (try_finally m g) Q X.
Proof.
  intros Hg Hm s Hs. specialize (Hm s Hs). unfold try_finally.
  destruct (m s) as [[a|e] s']; simpl in *; by rewrite Hg.
Qed.

Lemma triple_get_str P k m (X : trace_pred) :
  (forall tr, P tr -> X tr) -> triple P (get_str k m) (fun s tr => P tr /\ jget k m = Some (JStr s)) X.
Proof.
  intros HX. unfold get_str. destruct (jget k m) as [[]|]; try by apply triple_raise.
  by apply triple_ret.
Qed.

Lemma triple_get_attempt P m (X : trace_pred) :
  (forall tr, P tr -> X tr) ->
  triple P (get_attempt m) (fun n tr => P tr /\ py_int (default (JInt 1) (jget (u "attempt") m)) = Some n) X.
Proof.
  intros HX. unfold get_attempt. destruct (py_int _); [by apply triple_ret|by apply triple_raise].
Qed.

Lemma triple_get_job_id_of P m (X : trace_pred) : (forall tr, P tr -> X tr) ->
  triple P (get_job_id m) (fun i tr => P tr /\ exists s, jget (u "job_id") m = Some (JStr s) /\ uuid_parse s = Some i) X.
Proof.
  intros HX. unfold get_job_id. eapply triple_bind; [by apply (triple_get_str P)|]. intros s. simpl.
  destruct (uuid_parse s) eqn:E; [apply triple_ret; intros ? []; eauto|].
  apply triple_raise. intros ? []. auto.
Qed.
Lemma triple_get_job_id P m (X : trace_pred) :
  (forall tr, P tr -> X tr) -> triple P (get_job_id m) (fun _ => P) X.
Proof.
  intros HX. eapply triple_mono; [by apply (triple_get_job_id_of P)|done|by intros ? ? []|done].
Qed.
End triples.

(** ** An invariant of every event

    When each event a procedure emits satisfies [E], so does its whole trace. *)
Section events.
Context (E : trace_event -> Prop).
Definition events_ok : trace_pred := Forall E.

Lemma events_snoc tr t : events_ok tr -> E t -> events_ok (tr ++ [t]).
Proof. intros H Ht. apply Forall_app. split; [done|by constructor]. Qed.

Lemma events_db_call {A} (f : usec -> db -> A * db) t :
  (forall d a, E (t d a)) -> triple events_ok (db_call f t) (fun _ => events_ok) events_ok.
Proof. intros Ht. apply triple_db_call; auto using events_snoc. Qed.

Lemma events_chan op : E (TChan op) -> triple events_ok (do_chan op) (fun _ => events_ok) events_ok.
Proof. intros Ht. apply triple_chan; auto using events_snoc. Qed.
End events.

(** ** Justified acknowledgements *)

Section no_loss.
Context (tag : N) (accounted : trace_event -> Prop).

Definition settled : trace_pred := Exists accounted.

(** Every acknowledgement of the delivery comes after such an event. *)
Definition acks_justified : trace_pred := fun tr =>
  forall pre post, tr = pre ++ TChan (Ack tag) :: post -> settled pre.

Lemma justified_snoc tr t :
  acks_justified tr -> (t = TChan (Ack tag) -> settled tr) -> acks_justified (tr ++ [t]).
Proof.
  intros Hj Ht pre post E. destruct post as [|t' post _] using rev_ind.
  - apply app_inj_2 in E as [-> [= ->]]; [|done]. by apply Ht.
  - rewrite app_comm_cons, app_assoc in E. apply app_inj_2 in E as [-> _]; [|done]. by eapply Hj.
Qed.

Definition IS : trace_pred := fun tr => acks_justified tr /\ settled tr.

Lemma settled_snoc tr t : settled tr -> settled (tr ++ [t]).
Proof. intros H. apply Exists_app. by left. Qed.

Lemma settled_last tr t : accounted t -> settled (tr ++ [t]).
Proof. intros H. apply Exists_app. right. by constructor. Qed.

Lemma justified_db_call {A} (f : usec -> db -> A * db) t :
  (forall d a op, t d a <> TChan op) ->
  triple acks_justified (db_call f t) (fun _ => acks_justified) acks_justified.
Proof.
  intros Ht. apply triple_db_call; try done; intros tr x y Htr;
    apply justified_snoc; try done; intros E; by destruct (Ht _ _ _ E).
Qed.

(** Publishing something that accounts for the delivery settles it. *)
Lemma justified_publish e k b p m i :
  accounted (TChan (Publish e k b p m i)) ->
  triple acks_justified (do_chan (Publish e k b p m i)) (fun _ => IS) acks_justified.
Proof.
  intros Hk. apply triple_chan; intros tr Htr; try done.
  - split; [by apply justified_snoc|by apply settled_last].
  - by apply justified_snoc.
Qed.

Lemma justified_ack : triple IS (do_chan (Ack tag)) (fun _ => acks_justified) acks_justified.
Proof. apply triple_chan; intros tr [Hj Hs]; try done; by apply justified_snoc. Qed.

Lemma IS_db_call {A} (f : usec -> db -> A * db) t :
  (forall d a op, t d a <> TChan op) -> triple IS (db_call f t) (fun _ => IS) acks_justified.
Proof.
  intros Ht. apply triple_db_call; [| |]; intros tr; [intros now d [Hj Hs]|by intros []|intros d a [Hj Hs]];
    [split; [|by apply settled_snoc]|]; apply justified_snoc; try done; intros E; by destruct (Ht _ _ _ E).
Qed.
End no_loss.

Section worker_theorems.
Context `{UnicodeData} `{SchemaValidator} `{JobProcessor}.
Context (float_repr : SpecFloat.spec_float -> pystr) (cfg : settings).

(** The message of a delivery that a worker of [job_type] takes up, and the job
    it names. *)
Definition delivered (job_type : pystr) (body : list Z) (m : json) : Prop :=
  decode_message body = Ok m /\ jget (u "job_type") m = Some (JStr job_type).
Definition names_job (job_type : pystr) (body : list Z) (i : job_id) : Prop :=
  exists m idt, delivered job_type body m /\ jget (u "job_id") m = Some (JStr idt) /\ uuid_parse idt = Some i.
Definition attempt_of (m : json) (n : Z) : Prop := py_int (default (JInt 1) (jget (u "attempt") m)) = Some n.

(** What a delivery that is not a message for this worker leaves on the
    dead-letter queue. *)
Definition quarantined (job_type : pystr) (body : list Z) : option json :=
  match decode_message body with
  | Raise name => Some (quarantine_body body (u "invalid job message: " ++ name))
  | Ok m => if decide (jget (u "job_type") m = Some (JStr job_type)) then None else Some m
  end.

(** The body that goes back through the retry queue, and the ones that end on
    the dead-letter queue. *)
Definition retry_of (job_type : pystr) (body b : list Z) : Prop := exists m n,
  delivered job_type body m /\ attempt_of m n /\ (n < max_attempts cfg)%Z /\
  b = to_wire float_repr (jset (u "attempt") (JInt (n + 1)) (public_items m)).
Definition dead_letter_of (job_type : pystr) (body b : list Z) : Prop :=
  (exists j, quarantined job_type body = Some j /\ b = to_wire float_repr j) \/
  exists m idt n code msg, delivered job_type body m /\ jget (u "job_id") m = Some (JStr idt) /\ attempt_of m n /\
    b = to_wire float_repr (dlq_body idt job_type n code msg).

(** What makes it safe to forget the delivery [body] that was claimed with
    [fresh]. *)
Definition accounted (job_type : pystr) (body : list Z) (fresh : token) (t : trace_event) : Prop :=
  match t with
  | TClaim i tok d => names_job job_type body i /\ tok = fresh /\ (d = ALREADY_COMPLETED \/ d = NOT_CLAIMABLE)
  | TCompleted i tok owner updated => names_job job_type body i /\ tok = fresh /\ owner = Some fresh /\ updated = true
  | TChan (Publish e k b _ _ _) => e = DLX_EXCHANGE /\
      (k = routing_key (queue_names job_type) /\ retry_of job_type body b \/ k = dlq_routing_key job_type /\ dead_letter_of job_type body b)
  | _ => False
  end.

Section justified.
Context (tag : N) (job_type : pystr) (body : list Z) (fresh : token).
#[local] Notation J := (acks_justified tag (accounted job_type body fresh)).
#[local] Notation JS := (IS tag (accounted job_type body fresh)).
#[local] Notation S := (settled (accounted job_type body fresh)).

Lemma settle_failure_justified m claim_token exc : delivered job_type body m ->
  triple J (settle_failure float_repr cfg tag m claim_token exc) (fun _ => J) J.
Proof.
  intros Hm. unfold settle_failure. destruct (error_detail exc) as [code msg].
  eapply triple_bind; [by apply triple_get_job_id|]. intros i.
  eapply triple_bind; [by apply triple_connect|]. intros ?.
  eapply triple_bind; [by apply justified_db_call|]. intros ?.
  eapply triple_bind; [by apply triple_get_attempt|]. intros n. apply triple_pre. intros Hn.
  eapply triple_bind; [by apply triple_get_str|]. intros jt. apply triple_pre. intros Hjt.
  assert (jt = job_type) as -> by (destruct Hm; congruence).
  eapply triple_bind; [|intros ?; apply justified_ack].
  destruct (_ && _) eqn:Hretry.
  - apply andb_prop in Hretry as [_ Hlt].
    eapply triple_bind; [by apply justified_db_call|]. intros ?.
    eapply triple_bind; [apply justified_publish; split; [done|left; split; [done|]]; exists m, n; split_and!; try done; lia|]. intros ?.
    eapply triple_bind; [by apply IS_db_call|]. intros ?. apply triple_metric.
  - eapply triple_bind; [by apply triple_get_str|]. intros idt.
    apply triple_pre. intros Hid.
    eapply triple_bind; [apply justified_publish; split; [done|right; split; [done|]]; right; by exists m, idt, n, code, msg|]. intros ?. apply triple_metric.
Qed.

Lemma complete_and_ack_justified i meta lost : names_job job_type body i ->
  triple J (complete_and_ack tag i fresh meta lost) (fun _ => J) J.
Proof.
  intros Hi. unfold complete_and_ack. eapply triple_bind; [by apply triple_connect|]. intros ?.
  eapply (triple_bind _ (fun (b : bool) tr => J tr /\ (b = true -> S tr))).
  - apply triple_db_call; [|done|].
    + intros tr now d Htr. split; [by apply justified_snoc|]. intros Hb. apply settled_last.
      destruct (mark_completed i meta (Some fresh) now d) as [b d'] eqn:E. simpl in *. subst b.
      apply mark_completed_owner in E as (j & Hj & Ht & _). split_and!; try done. unfold owner_of. by rewrite Hj.
    + intros tr d b Htr. by apply justified_snoc.
  - intros b. apply (triple_bind _ (fun _ => JS)).
    + destruct b; simpl; [apply triple_ret|apply triple_raise]; intros tr [Hj Hs]; [split; auto|done].
    + intros ?. eapply triple_bind; [apply justified_ack|]. intros ?. apply triple_metric.
Qed.

Lemma run_job_justified i m : names_job job_type body i -> triple J (run_job tag i fresh m) (fun _ => J) J.
Proof.
  intros Hi. unfold run_job. eapply triple_bind; [by apply triple_get_str|]. intros jt.
  apply triple_pre. intros _. eapply (triple_bind _ (fun _ => J)).
  - case_decide; [apply triple_quiet; [apply stored_result_quiet|done]|by apply triple_ret].
  - intros []; [by apply complete_and_ack_justified|].
    eapply triple_bind; [apply triple_quiet; [apply process_message_quiet|done]|].
    intros o. by apply complete_and_ack_justified.
Qed.

(** A claim that succeeds returns a row with the token it was made with. *)
Lemma claim_statements_justified i : names_job job_type body i ->
  triple J (claim_statements cfg fresh i) (fun r tr => J tr /\
    match disposition r with
    | CLAIMED => forall j, claim_row r = Some j -> j_claim_token j = Some fresh
    | ALREADY_COMPLETED | NOT_CLAIMABLE => S tr
    | LEASE_BUSY => True
    end) J.
Proof.
  intros Hi. unfold claim_statements.
  eapply (triple_bind _ (fun r tr => J tr /\ forall j, snd r = Some j -> j_claim_token j = Some fresh)).
  { apply triple_db_call; [|done|].
    - intros tr now d Htr. destruct (claim_update i _ _ fresh now d) as [row d'] eqn:E. cbn [fst snd].
      split; [apply justified_snoc; [done|by destruct row]|]. intros j ->. by eapply claim_update_token.
    - intros tr d [now row] Htr. apply justified_snoc; [done|]. by destruct row. }
  intros [now [row|]]; cbn [fst snd].
  - apply triple_ret. intros tr [Hj Hr]. split; [done|]. simpl. intros j [= <-]. by apply Hr.
  - apply triple_db_call; [|by intros tr []|].
    + intros tr now' d [Hj _]. cbn [fst]. split; [by apply justified_snoc|].
      destruct (claim_read_spec i now d) as [_ Hd].
      assert (Hs : disposition (claim_read i now d) = ALREADY_COMPLETED \/ disposition (claim_read i now d) = NOT_CLAIMABLE ->
        S (tr ++ [TClaim i fresh (disposition (claim_read i now d))])) by (intros Hx; by apply settled_last).
      destruct (disposition (claim_read i now d)); auto. exfalso. revert Hd.
      destruct (abs d i) as [[|o e|]|]; [done|by destruct (live now e)|done|done].
    + intros tr d a [Hj _]. by apply justified_snoc.
Qed.

Lemma claim_delivery_justified i m : names_job job_type body i ->
  triple J (claim_delivery cfg tag fresh i m) (fun r tr => J tr /\ forall tok, r = Some tok -> tok = fresh) J.
Proof.
  intros Hi. unfold claim_delivery. eapply triple_bind; [by apply triple_connect|]. intros ?.
  eapply triple_bind; [by apply claim_statements_justified|].
  assert (Hack : triple JS (do_chan (Ack tag);; mret (@None token)) (fun r tr => J tr /\ forall tok, r = Some tok -> tok = fresh) J).
  { eapply triple_bind; [apply justified_ack|]. intros ?. by apply triple_ret. }
  intros r. cbv beta. destruct (disposition r) eqn:Hr; [|exact Hack| |exact Hack].
  - destruct (claim_row r) as [j|] eqn:Hj; [|apply triple_raise; by intros tr []].
    apply triple_pre. intros Ht. cbn [mbind option_bind]. rewrite (Ht j eq_refl).
    eapply triple_bind; [by apply triple_get_attempt|]. intros n. apply triple_pre. intros _.
    eapply triple_bind; [by apply justified_db_call|]. intros ?. apply triple_ret. intros tr Htr. split; [done|]. by intros tok [= <-].
  - eapply triple_bind; [|intros ?; apply triple_ret; intros tr Hx; split; [exact Hx|done]].
    apply triple_chan; intros tr [Hj _]; try done; by apply justified_snoc.
Qed.

Lemma on_failure_justified tok m e : delivered job_type body m ->
  triple J (on_failure float_repr cfg tag tok m e) (fun _ => J) J.
Proof.
  intros Hm. unfold on_failure, when.
  eapply (triple_bind _ (fun _ => J)); [case_match; [apply triple_metric|by apply triple_ret]|]. intros ?.
  eapply (triple_bind _ (fun _ => J)); [case_match; [apply triple_metric|by apply triple_ret]|]. intros ?.
  by apply settle_failure_justified.
Qed.

Lemma handle_delivery_justified : triple J (handle_delivery float_repr cfg tag fresh job_type body) (fun _ => J) J.
Proof.
  assert (Hdlq : forall j, quarantined job_type body = Some j ->
    triple J (send_to_dlq float_repr job_type j;; do_chan (Ack tag)) (fun _ => J) J).
  { intros j Hj. eapply triple_bind; [apply justified_publish; split; [done|right; split; [done|]]; left; by exists j|].
    intros ?. apply justified_ack. }
  unfold handle_delivery. destruct (decode_message body) as [m|name] eqn:Hd; [|apply Hdlq; unfold quarantined; by rewrite Hd].
  eapply triple_bind; [by apply triple_get_str|]. intros jt. apply triple_pre. intros Hjt.
  case_decide as Hne; [apply Hdlq; unfold quarantined; rewrite Hd, decide_False; [done|congruence]|].
  assert (jt = job_type) as -> by (destruct (decide (jt = job_type)); [done|by destruct Hne]).
  assert (Hm : delivered job_type body m) by done.
  eapply triple_bind; [by apply triple_get_job_id_of|]. intros i. apply triple_pre. intros (idt & Hid & Hi).
  assert (Hn : names_job job_type body i) by (by exists m, idt).
  eapply triple_bind; [by apply claim_delivery_justified|].
  intros [t'|]; [|apply triple_ret; by intros tr []]. apply triple_pre. intros ->%(fun Hx => Hx t' eq_refl).
  eapply triple_bind; [apply triple_metric|]. intros ?.
  apply triple_finally; [done|]. eapply triple_try; [by apply run_job_justified|].
  intros e. by apply on_failure_justified.
Qed.
End justified.

Lemma decode_message_valid body m :
  decode_message body = Ok m -> is_valid job_message_schema m = true.
Proof.
  unfold decode_message. destruct (utf8_decode body); [|done]. destruct (json_loads _); [|done].
  by destruct (is_valid _ _) eqn:E; intros [= <-].
Qed.


(** *** Poison messages *)

(** A channel operation: recorded or not, nothing else moves. *)
Lemma do_chan_run op s :
  exists (b : bool), let '(r, s') := do_chan op s in
    env_only s s' /\ w_metrics s' = w_metrics s /\
    w_trace s' = w_trace s ++ (if b then [TChan op] else []) /\ (r = Ok () -> b = true).
Proof.
  unfold do_chan, external, next_event, env_only.
  destruct (w_sched s) as [|[env now [|e|e]] sched] eqn:Es; simpl; [exists true|exists true|exists false|exists true];
    split_and!; rewrite ?app_nil_r; try done; try (exists []; by rewrite Es).
  - by exists [mk_event env now NoFault].
  - by exists [mk_event env now (FailBefore e)].
  - by exists [mk_event env now (FailAfter e)].
Qed.

(** The steps of a rejected delivery. *)
Lemma poison_run tag fresh job_type body s j :
  quarantined job_type body = Some j ->
  let '(r, s') := handle_delivery float_repr cfg tag fresh job_type body s in
  exists k, w_trace s' = w_trace s ++ take k
      [TChan (Publish DLX_EXCHANGE (dlq_routing_key job_type) (to_wire float_repr j) true false None);
       TChan (Ack tag)] /\
    (r = Ok () -> k = 2) /\ env_only s s' /\ w_metrics s' = w_metrics s.
Proof.
  intros Hq.
  assert (Hdlq : let '(r, s') := (send_to_dlq float_repr job_type j;; do_chan (Ack tag)) s in
    exists k, w_trace s' = w_trace s ++ take k
      [TChan (Publish DLX_EXCHANGE (dlq_routing_key job_type) (to_wire float_repr j) true false None);
       TChan (Ack tag)] /\ (r = Ok () -> k = 2) /\ env_only s s' /\ w_metrics s' = w_metrics s).
  { unfold send_to_dlq. set (op := Publish _ _ _ _ _ _). change (chan_do op) with (do_chan op).
    unfold mbind, M_bind. destruct (do_chan_run op s) as [b Hb].
    destruct (do_chan op s) as [[[]|e] s1]; destruct Hb as (Henv & Hm & Ht & Hok).
    - rewrite (Hok eq_refl) in Ht. destruct (do_chan_run (Ack tag) s1) as [b2 Hb2].
      destruct (do_chan (Ack tag) s1) as [r s2]. destruct Hb2 as (Henv2 & Hm2 & Ht2 & Hok2).
      exists (if b2 then 2 else 1). rewrite Ht2, Ht, <- app_assoc. split_and!; [by destruct b2| | |congruence].
      + intros Hr. by rewrite (Hok2 Hr).
      + by etrans.
    - exists (if b then 1 else 0). rewrite Ht. split_and!; [by destruct b|done|done|done]. }
  unfold handle_delivery, quarantined in *. destruct (decode_message body) as [m|name] eqn:Hd.
  - case_decide as Hne; [done|]. injection Hq as ->.
    apply decode_message_valid in Hd. rewrite is_valid_conforms in Hd.
    destruct (valid_message_inv _ Hd) as (o & jt & _ & _ & _ & _ & Hjt & _).
    unfold get_str. rewrite Hjt. unfold mbind at 1, M_bind at 1, mret at 1, M_ret at 1.
    rewrite decide_True by congruence. exact Hdlq.
  - injection Hq as <-. exact Hdlq.
Qed.

(** A poison message never reaches the job table: a delivery that is not
    a valid job message, or is one for another worker, only has its diagnostic
    published to the dead-letter queue and is then acknowledged; under any
    failure the trace is a prefix of these two steps, no metric moves and the
    table changes by the other sessions alone. *)
Theorem poison_quarantined tag fresh job_type body s j :
  quarantined job_type body = Some j ->
  let '(r, s') := handle_delivery float_repr cfg tag fresh job_type body s in
  exists k, w_trace s' = w_trace s ++ take k
      [TChan (Publish DLX_EXCHANGE (dlq_routing_key job_type) (to_wire float_repr j) true false None);
       TChan (Ack tag)] /\
    (r = Ok () -> k = 2) /\ env_only s s' /\ w_metrics s' = w_metrics s.
Proof. apply poison_run. Qed.

(** *** Bounded retries *)

Lemma decode_to_wire j :
  wire_ok j -> conforms job_message_schema j = true -> decode_message (to_wire float_repr j) = Ok j.
Proof.
  intros Hw Hc. unfold decode_message, to_wire. pose proof (dumps_ascii float_repr j Hw) as Ha.
  rewrite utf8_encode_ascii, utf8_decode_ascii by done.
  by rewrite json_loads_dumps, is_valid_conforms, Hc.
Qed.

Lemma public_items_valid m : conforms job_message_schema m = true -> public_items m = m.
Proof.
  intros Hc. destruct (valid_message_inv m Hc) as (o & _ & _ & _ & _ & -> & _).
  rewrite conforms_spec in Hc.
  specialize (Hc (KClosed job_keys) ltac:(do 2 apply list_elem_of_further; apply list_elem_of_here)).
  unfold public_items. f_equal. change (forallb (fun kv => bool_decide (fst kv ∈ job_keys)) o = true) in Hc.
  rewrite forallb_forall in Hc.
  assert (Hu : forall kv, kv ∈ o -> startswith (u "_") (fst kv) = false).
  { intros kv Hkv. specialize (Hc kv ltac:(by apply list_elem_of_In)). apply bool_decide_eq_true in Hc.
    revert Hc. generalize (fst kv). clear. intros k Hk.
    assert (forallb (fun k => negb (startswith (u "_") k)) job_keys = true) as Hall by by vm_compute.
    rewrite forallb_forall in Hall. by apply negb_true_iff, Hall, list_elem_of_In. }
  clear Hc. induction o as [|kv o IH]; [done|]. rewrite filter_cons_True.
  - f_equal. apply IH. intros kv' Hkv'. apply Hu. by apply list_elem_of_further.
  - cbv beta. by rewrite (Hu kv (list_elem_of_here _ _)).
Qed.

(** The message of the next attempt. *)
Lemma retry_message_valid m n :
  conforms job_message_schema m = true -> (1 <= n)%Z ->
  conforms job_message_schema (jset (u "attempt") (JInt n) (public_items m)) = true.
Proof.
  intros Hc Hn. rewrite public_items_valid by done.
  destruct (valid_message_inv m Hc) as (o & _ & _ & _ & att & -> & _ & _ & _ & Hatt & _).
  apply conforms_assoc_set; [by vm_compute| |done|].
  - destruct (decide (u "attempt" ∈ map fst o)) as [|Hn']; [done|]. apply assoc_None in Hn'.
    simpl in Hatt. congruence.
  - intros s' Hs'. assert (s' = [KType [TInteger]; KMinimum 1]) as ->.
    { unfold job_message_schema in Hs'.
      repeat (apply elem_of_cons in Hs' as [E|Hs']; [first [discriminate E | by injection E]|]).
      by apply elem_of_nil in Hs'. }
    unfold conforms. simpl. by rewrite (proj2 (Z.leb_le 1 n)).
Qed.

Lemma wire_ok_assoc k o v : wire_ok (JObj o) -> assoc k o = Some v -> wire_ok v.
Proof.
  intros [_ Ho]%wire_ok_obj Hv%assoc_elem. rewrite Forall_forall in Ho. apply (Ho _ Hv).
Qed.

(** The attempt of a message without floats is a positive integer. *)
Lemma message_attempt m :
  conforms job_message_schema m = true -> wire_ok m ->
  exists n, jget (u "attempt") m = Some (JInt n) /\ (1 <= n)%Z.
Proof.
  intros Hc Hw. destruct (valid_message_inv m Hc) as (o & _ & _ & _ & att & -> & _ & _ & _ & Hatt & Hn).
  simpl in Hatt. pose proof (wire_ok_assoc _ _ _ Hw Hatt) as Hwa.
  destruct att as [| |n| | | |]; try done. exists n. split; [done|].
  unfold conforms in Hn. simpl in Hn. rewrite andb_true_r in Hn. lia.
Qed.

(** What may be published for delivery [m] under the retry key. *)
Definition retry_only (m : json) (job_type : pystr) (t : trace_event) : Prop :=
  match t with
  | TChan (Publish e k b _ _ _) => k = routing_key (queue_names job_type) ->
      e = DLX_EXCHANGE /\ exists n, py_int (default (JInt 1) (jget (u "attempt") m)) = Some n /\
        (n < max_attempts cfg)%Z /\ b = to_wire float_repr (jset (u "attempt") (JInt (n + 1)) (public_items m))
  | _ => True
  end.

Lemma dlq_key_ne job_type : dlq_routing_key job_type <> routing_key (queue_names job_type).
Proof.
  unfold dlq_routing_key. intros E. apply (f_equal length) in E. rewrite length_app in E.
  change (length (u ".dlq")) with 4 in E. lia.
Qed.

Lemma retry_only_dlq m job_type j : retry_only m job_type
  (TChan (Publish DLX_EXCHANGE (dlq_routing_key job_type) j true false None)).
Proof. simpl. intros E. by apply dlq_key_ne in E. Qed.

Lemma settle_failure_retries tag job_type m claim_token exc :
  jget (u "job_type") m = Some (JStr job_type) ->
  triple (events_ok (retry_only m job_type)) (settle_failure float_repr cfg tag m claim_token exc)
    (fun _ => events_ok (retry_only m job_type)) (events_ok (retry_only m job_type)).
Proof.
  intros Hjt. unfold settle_failure. destruct (error_detail exc) as [code msg].
  eapply triple_bind; [by apply triple_get_job_id|]. intros i.
  eapply triple_bind; [by apply triple_connect|]. intros ?.
  eapply triple_bind; [by apply events_db_call|]. intros ?.
  eapply triple_bind; [by apply triple_get_attempt|]. intros n. apply triple_pre. intros Hn.
  eapply triple_bind; [by apply triple_get_str|]. intros jt. apply triple_pre. intros Hjt'.
  assert (jt = job_type) by congruence. subst jt.
  eapply (triple_bind _ (fun _ => events_ok (retry_only m job_type))); [|intros ?; by apply events_chan].
  destruct (_ && _) eqn:Hretry.
  - apply andb_prop in Hretry as [_ Hlt].
    eapply triple_bind; [by apply events_db_call|]. intros ?.
    eapply triple_bind; [apply events_chan|].
    { simpl. intros _. split; [done|]. exists n. split_and!; [done|lia|done]. }
    intros ?. eapply triple_bind; [by apply events_db_call|]. intros ?. apply triple_metric.
  - eapply triple_bind; [by apply triple_get_str|]. intros idt. apply triple_pre. intros _.
    eapply triple_bind; [apply events_chan, retry_only_dlq|]. intros ?. apply triple_metric.
Qed.

Lemma run_job_retries E tag i tok m :
  (forall owner b, E (TCompleted i tok owner b)) -> E (TChan (Ack tag)) ->
  triple (events_ok E) (run_job tag i tok m) (fun _ => events_ok E) (events_ok E).
Proof.
  intros Hb Ha. unfold run_job. eapply triple_bind; [by apply triple_get_str|]. intros jt.
  apply triple_pre. intros _.
  assert (Hcomplete : forall meta lost, triple (events_ok E) (complete_and_ack tag i tok meta lost)
    (fun _ => events_ok E) (events_ok E)).
  { intros meta lost. unfold complete_and_ack. eapply triple_bind; [by apply triple_connect|]. intros ?.
    eapply triple_bind; [by apply events_db_call|]. intros b. simpl.
    eapply (triple_bind _ (fun _ => events_ok E)); [destruct b; simpl; [by apply triple_ret|by apply triple_raise]|].
    intros ?. eapply triple_bind; [by apply events_chan|]. intros ?. apply triple_metric. }
  eapply (triple_bind _ (fun _ => events_ok E)).
  - case_decide; [apply triple_quiet; [apply stored_result_quiet|done]|by apply triple_ret].
  - intros []; [apply Hcomplete|].
    eapply triple_bind; [apply triple_quiet; [apply process_message_quiet|done]|]. intros o. apply Hcomplete.
Qed.

Lemma claim_delivery_events E tag fresh i m :
  E (TMissed i) -> (forall d, E (TClaim i fresh d)) -> E (TChan (Ack tag)) -> E (TChan (Nack tag false)) -> (forall n, E (TBump i n)) ->
  triple (events_ok E) (claim_delivery cfg tag fresh i m) (fun _ => events_ok E) (events_ok E).
Proof.
  intros Hm Hd Ha Hn Hb. unfold claim_delivery. eapply triple_bind; [by apply triple_connect|]. intros ?.
  eapply (triple_bind _ (fun _ => events_ok E)).
  { unfold claim_statements. eapply triple_bind; [apply events_db_call; intros d [t0 [row|]]; [apply Hd|apply Hm]|].
    intros [t0 [row|]]; [by apply triple_ret|by apply events_db_call]. }
  intros r. simpl. destruct (disposition r).
  - destruct (_ ≫= _) as [t'|]; [|by apply triple_raise].
    eapply triple_bind; [by apply triple_get_attempt|]. intros n. apply triple_pre. intros _.
    eapply triple_bind; [by apply events_db_call|]. intros ?. by apply triple_ret.
  - eapply triple_bind; [by apply events_chan|]. intros ?. by apply triple_ret.
  - eapply triple_bind; [by apply events_chan|]. intros ?. by apply triple_ret.
  - eapply triple_bind; [by apply events_chan|]. intros ?. by apply triple_ret.
Qed.

Lemma handle_delivery_retries tag fresh job_type body m :
  decode_message body = Ok m -> jget (u "job_type") m = Some (JStr job_type) ->
  triple (events_ok (retry_only m job_type)) (handle_delivery float_repr cfg tag fresh job_type body)
    (fun _ => events_ok (retry_only m job_type)) (events_ok (retry_only m job_type)).
Proof.
  intros Hd Hjt. unfold handle_delivery. rewrite Hd.
  eapply triple_bind; [by apply triple_get_str|]. intros jt. apply triple_pre. intros Hjt'.
  rewrite decide_False by (intros H'; apply H'; congruence).
  eapply triple_bind; [by apply triple_get_job_id|]. intros i.
  eapply triple_bind; [by apply claim_delivery_events|].
  intros [t'|]; [|by apply triple_ret].
  eapply triple_bind; [apply triple_metric|]. intros ?.
  apply triple_finally; [done|]. eapply triple_try; [by apply run_job_retries|].
  intros e. unfold on_failure, when.
  eapply (triple_bind _ (fun _ => events_ok (retry_only m job_type)));
    [case_match; [apply triple_metric|by apply triple_ret]|]. intros ?.
  eapply (triple_bind _ (fun _ => events_ok (retry_only m job_type)));
    [case_match; [apply triple_metric|by apply triple_ret]|]. intros ?.
  by apply settle_failure_retries.
Qed.

(** C3. Retries are bounded.  Whatever is published to the retry queue for a
    delivery is a message the next worker accepts, for the same job and type,
    whose attempt is exactly one higher and never exceeds the configured
    maximum; so the attempts of a job strictly increase up to the bound. *)
Theorem retries_bounded tag fresh job_type body s m e b p md i :
  decode_message body = Ok m -> jget (u "job_type") m = Some (JStr job_type) -> wire_ok m ->
  w_trace s = [] ->
  TChan (Publish e (routing_key (queue_names job_type)) b p md i) ∈
    w_trace (snd (handle_delivery float_repr cfg tag fresh job_type body s)) ->
  exists n m', jget (u "attempt") m = Some (JInt n) /\ (1 <= n < max_attempts cfg)%Z /\ e = DLX_EXCHANGE /\
    decode_message b = Ok m' /\ jget (u "attempt") m' = Some (JInt (n + 1)) /\
    (forall k, k <> u "attempt" -> jget k m' = jget k m).
Proof.
  intros Hd Hjt Hw Hs Hin. pose proof (handle_delivery_retries tag fresh job_type body m Hd Hjt s) as Ht.
  assert (events_ok (retry_only m job_type) (w_trace (snd (handle_delivery float_repr cfg tag fresh job_type body s)))) as Hall.
  { destruct (handle_delivery _ _ _ _ _ _ s) as [[a|x] s']; apply Ht; rewrite Hs; constructor. }
  unfold events_ok in Hall. rewrite Forall_forall in Hall. specialize (Hall _ Hin).
  destruct (Hall eq_refl) as (-> & n & Hn & Hlt & ->). clear Hall Hin Ht.
  apply decode_message_valid in Hd. rewrite is_valid_conforms in Hd.
  destruct (message_attempt m Hd Hw) as (n' & Hatt & Hpos). rewrite Hatt in Hn. injection Hn as <-.
  exists n', (jset (u "attempt") (JInt (n' + 1)) (public_items m)).
  split_and!; [done|done|done|done| | |].
  - apply decode_to_wire; [|apply retry_message_valid; [done|lia]].
    rewrite public_items_valid by done. apply wire_ok_jset; [by apply literal_scalar|done|done].
  - rewrite public_items_valid by done. destruct m; try done. apply assoc_set_eq.
  - intros k Hk. rewrite public_items_valid by done. destruct m; try done. by apply assoc_set_ne.
Qed.

(** *** Settlement without failures *)

Definition idle (d : db) (now : usec) (tr : list trace_event) (me : worker_metrics) : world :=
  mk_world d now tr me [].

Lemma db_call_idle {A} (f : usec -> db -> A * db) t d now tr me :
  db_call f t (idle d now tr me) =
    (Ok (fst (f now d)), idle (snd (f now d)) now (tr ++ [t d (fst (f now d))]) me).
Proof. unfold db_call, external, idle. simpl. by destruct (f now d). Qed.

Lemma do_chan_idle op d now tr me :
  do_chan op (idle d now tr me) = (Ok (), idle d now (tr ++ [TChan op]) me).
Proof. done. Qed.

Definition retries (exc : pyexn) (n : Z) : bool :=
  bool_decide (classify_failure exc <> TERMINAL) && (n <? max_attempts cfg)%Z.

Lemma get_ok k m v (s : world) : jget k m = Some (JStr v) -> get_str k m s = (Ok v, s).
Proof. intros H'. unfold get_str. by rewrite H'. Qed.

Lemma get_job_id_ok m v i (s : world) :
  jget (u "job_id") m = Some (JStr v) -> uuid_parse v = Some i -> get_job_id m s = (Ok i, s).
Proof.
  intros H' Hi. unfold get_job_id. rewrite (bind_ok _ _ _ v s) by (by apply get_ok). by rewrite Hi.
Qed.

Lemma get_attempt_ok m n (s : world) :
  py_int (default (JInt 1) (jget (u "attempt") m)) = Some n -> get_attempt m s = (Ok n, s).
Proof. intros H'. unfold get_attempt. by rewrite H'. Qed.

Section settle_idle.
Context (tag : N) (m : json) (idt job_type : pystr) (i : job_id) (n : Z).
Context (Hid : jget (u "job_id") m = Some (JStr idt)) (Hi : uuid_parse idt = Some i)
  (Hjt : jget (u "job_type") m = Some (JStr job_type))
  (Hn : py_int (default (JInt 1) (jget (u "attempt") m)) = Some n).

Lemma settle_failure_idle tok exc d now tr me :
  settle_failure float_repr cfg tag m tok exc (idle d now tr me) =
    let '(code, msg) := error_detail exc in
    let '(b, d1) := mark_failed i code msg tok now d in
    if retries exc n then
      let '(b2, d2) := mark_retrying i code msg (bump_attempt i (n + 1) d1) in
      (Ok (), idle d2 now (tr ++ [TFailed i b; TBump i (n + 1);
         TChan (Publish DLX_EXCHANGE (routing_key (queue_names job_type))
           (to_wire float_repr (jset (u "attempt") (JInt (n + 1)) (public_items m))) false false None);
         TRetrying i b2; TChan (Ack tag)]) (incr_retry me))
    else
      (Ok (), idle d1 now (tr ++ [TFailed i b;
         TChan (Publish DLX_EXCHANGE (dlq_routing_key job_type)
           (to_wire float_repr (dlq_body idt job_type n code msg)) true false None);
         TChan (Ack tag)]) (incr_failed me)).
Proof.
  unfold settle_failure. destruct (error_detail exc) as [code msg]. cbv zeta.
  rewrite (bind_ok _ _ _ i (idle d now tr me)) by (by apply (get_job_id_ok m idt)).
  rewrite (bind_ok _ _ _ () (idle d now tr me)) by done.
  rewrite (bind_ok _ _ _ _ _ (db_call_idle _ _ d now tr me)). cbv beta.
  rewrite (surjective_pairing (mark_failed i code msg tok now d)). simpl fst. simpl snd.
  set (b := fst (mark_failed _ _ _ _ _ _)). set (d1 := snd (mark_failed _ _ _ _ _ _)).
  rewrite (bind_ok _ _ _ n (idle d1 now (tr ++ [TFailed i b]) me)) by (by apply get_attempt_ok).
  rewrite (bind_ok _ _ _ job_type (idle d1 now (tr ++ [TFailed i b]) me)) by (by apply get_ok).
  fold (retries exc n). destruct (retries exc n).
  - erewrite bind_ok; [|erewrite bind_ok by apply db_call_idle; erewrite bind_ok by apply do_chan_idle;
      erewrite bind_ok by apply db_call_idle; reflexivity].
    unfold idle, do_chan, external, set_metrics, emit.
    cbn -[u to_wire jset public_items routing_key queue_names mark_retrying bump_attempt].
    rewrite <- !app_assoc. by destruct (mark_retrying i code msg (bump_attempt i (n + 1) d1)).
  - erewrite bind_ok; [|erewrite bind_ok by (by apply (get_ok _ m idt)); erewrite bind_ok by apply do_chan_idle; reflexivity].
    unfold idle, do_chan, external, set_metrics, emit. simpl. by rewrite <- !app_assoc.
Qed.
End settle_idle.

Lemma row_after_failure i code msg tok now d j :
  jobs d !! i = Some j ->
  jobs (snd (mark_failed i code msg tok now d)) !! i =
    Some (if token_matches tok j then fail_row code msg now j else j).
Proof. intros Hj. unfold mark_failed. by rewrite update_job_lookup, Hj. Qed.

Lemma row_after_retry i code msg n d j :
  jobs d !! i = Some j ->
  jobs (snd (mark_retrying i code msg (bump_attempt i n d))) !! i =
    Some (retry_row code msg (set_attempt n j)).
Proof.
  intros Hj. unfold mark_retrying, bump_attempt. rewrite !update_job_lookup, Hj. done.
Qed.

(** Settling a failure the worker still owns: the job ends [RETRYING]
    with its attempt raised, or [FAILED] when the failure is terminal or the
    attempts are used up; its row records the error, holds no claim and can be
    claimed at once; exactly one message is published, to the retry or to the
    dead-letter queue, before the delivery is acknowledged; one counter moves
    by one and no other job changes. *)
Theorem owned_failure_settled tag m idt job_type i n tok exc d now tr me j :
  jget (u "job_id") m = Some (JStr idt) -> uuid_parse idt = Some i ->
  jget (u "job_type") m = Some (JStr job_type) ->
  py_int (default (JInt 1) (jget (u "attempt") m)) = Some n ->
  jobs d !! i = Some j -> token_matches (Some tok) j = true ->
  let retried := retries exc n in
  let '(r, s') := settle_failure float_repr cfg tag m (Some tok) exc (idle d now tr me) in
  r = Ok () /\
  (exists j', jobs (w_db s') !! i = Some j' /\
     j_status j' = (if retried then RETRYING else FAILED) /\
     j_attempt j' = (if retried then n + 1 else j_attempt j)%Z /\
     j_error_code j' = Some (fst (error_detail exc)) /\ row_wf j' /\
     (forall later, claimable later j' = true)) /\
  only_at i d (w_db s') /\ reports (w_db s') = reports d /\
  (exists b p, chan_ops (w_trace s') = chan_ops tr ++
     [Publish DLX_EXCHANGE (if retried then routing_key (queue_names job_type) else dlq_routing_key job_type)
        b p false None; Ack tag]) /\
  w_metrics s' = (if retried then incr_retry me else incr_failed me).
Proof.
  intros Hid Hi Hjt Hn Hj Htok retried.
  rewrite (settle_failure_idle tag m idt job_type i n Hid Hi Hjt Hn). fold retried.
  destruct (error_detail exc) as [code msg] eqn:He. simpl fst.
  pose proof (row_after_failure i code msg (Some tok) now d j Hj) as Hrow. rewrite Htok in Hrow.
  pose proof (update_job_only_at i (token_matches (Some tok)) (fail_row code msg now) d) as Hat.
  pose proof (update_job_reports i (token_matches (Some tok)) (fail_row code msg now) d) as Hrep.
  fold (mark_failed i code msg (Some tok) now d) in Hat, Hrep.
  destruct (mark_failed i code msg (Some tok) now d) as [b d1]. simpl in Hrow, Hat, Hrep.
  destruct retried.
  - pose proof (row_after_retry i code msg (n + 1) d1 _ Hrow) as Hrow2.
    pose proof (update_job_only_at i (fun _ => true) (retry_row code msg) (bump_attempt i (n + 1) d1)) as Hat2.
    pose proof (update_job_reports i (fun _ => true) (retry_row code msg) (bump_attempt i (n + 1) d1)) as Hrep2.
    fold (mark_retrying i code msg (bump_attempt i (n + 1) d1)) in Hat2, Hrep2.
    destruct (mark_retrying _ _ _ _) as [b2 d2]. simpl in *. split_and!; [done| | | | |done].
    + eexists. split; [exact Hrow2|]. by split_and!.
    + intros i' Hne. rewrite (Hat2 i' Hne), bump_attempt_abs. by apply Hat.
    + rewrite Hrep2. unfold bump_attempt. by rewrite update_job_reports.
    + rewrite chan_ops_app. simpl. by eexists _, _.
  - simpl. split_and!; [done| |done|done| |done].
    + eexists. split; [exact Hrow|]. by split_and!.
    + rewrite chan_ops_app. simpl. by eexists _, _.
Qed.

(** C32. A worker that lost its lease still reopens the job: when a retryable
    failure below the attempt limit is settled with a token the row no longer
    carries, [mark_failed] does nothing, but the unguarded [bump_attempt] and
    [mark_retrying] set the row to [RETRYING] and drop its claim, whoever owns
    it and even if it is [COMPLETED]. *)
Theorem late_failure_reopens_job tag m idt job_type i n tok exc d now tr me j :
  jget (u "job_id") m = Some (JStr idt) -> uuid_parse idt = Some i ->
  jget (u "job_type") m = Some (JStr job_type) ->
  py_int (default (JInt 1) (jget (u "attempt") m)) = Some n ->
  jobs d !! i = Some j -> token_matches (Some tok) j = false -> retries exc n = true ->
  let '(r, s') := settle_failure float_repr cfg tag m (Some tok) exc (idle d now tr me) in
  r = Ok () /\ TFailed i false ∈ w_trace s' /\
  abs (w_db s') i = Some Free /\
  exists j', jobs (w_db s') !! i = Some j' /\ j_status j' = RETRYING /\ j_attempt j' = (n + 1)%Z /\
    j_claim_token j' = None /\ j_lease_expires_at j' = None.
Proof.
  intros Hid Hi Hjt Hn Hj Htok Hretry.
  rewrite (settle_failure_idle tag m idt job_type i n Hid Hi Hjt Hn). rewrite Hretry.
  destruct (error_detail exc) as [code msg].
  assert (mark_failed i code msg (Some tok) now d = (false, d)) as ->.
  { apply update_job_miss. intros j2 Hj2. congruence. }
  pose proof (row_after_retry i code msg (n + 1) d _ Hj) as Hrow2.
  destruct (mark_retrying _ _ _ _) as [b2 d2]. simpl in *. split_and!; [done| | |].
  - apply elem_of_app. right. apply list_elem_of_here.
  - unfold abs. by rewrite Hrow2.
  - by eexists.
Qed.

(** *** The claimed job runs to completion *)

(** Without interference a quiet procedure leaves the world as it was. *)
Lemma quiet_idle {A} (c : M world pyexn A) d now tr me :
  preserves quiet c -> snd (c (idle d now tr me)) = idle d now tr me.
Proof.
  intros Hc. destruct (Hc (idle d now tr me)) as (Ht & Hm & evs & Hs & Hd & Hn).
  destruct (snd (c _)) as [d' now' tr' me' sched]. simpl in *. symmetry in Hs.
  apply app_nil in Hs as [-> ->]. unfold idle. simpl in *. subst. by rewrite Hn.
Qed.

Lemma quiet_idle_run {A} (c : M world pyexn A) r d now tr me :
  preserves quiet c -> fst (c (idle d now tr me)) = r -> c (idle d now tr me) = (r, idle d now tr me).
Proof.
  intros Hc Hr. pose proof (quiet_idle c d now tr me Hc) as Hs.
  destruct (c (idle d now tr me)). simpl in *. by subst.
Qed.

Lemma complete_and_ack_idle tag i tok meta lost d now tr me j :
  jobs d !! i = Some j -> token_matches (Some tok) j = true ->
  complete_and_ack tag i tok meta lost (idle d now tr me) =
    (Ok (), idle (snd (mark_completed i meta (Some tok) now d)) now
       (tr ++ [TCompleted i tok (Some tok) true; TChan (Ack tag)]) (incr_completed me)).
Proof.
  intros Hj Ht. unfold complete_and_ack.
  rewrite (bind_ok _ _ _ () (idle d now tr me)) by done.
  rewrite (bind_ok _ _ _ _ _ (db_call_idle _ _ d now tr me)).
  assert (fst (mark_completed i meta (Some tok) now d) = true) as ->.
  { unfold mark_completed. rewrite (update_job_hit _ _ _ _ _ Hj Ht). by destruct meta. }
  assert (owner_of i d = Some tok) as -> by (unfold owner_of; rewrite Hj; by apply bool_decide_eq_true in Ht).
  erewrite bind_ok by reflexivity. erewrite bind_ok by apply do_chan_idle.
  unfold metric, modify_st, set_metrics, idle. simpl. by rewrite <- app_assoc.
Qed.

Section run_idle.
Context (tag : N) (fresh : token) (body : list Z) (m : json) (idt job_type : pystr) (i : job_id) (n : Z).
Context (Hd : decode_message body = Ok m)
  (Hid : jget (u "job_id") m = Some (JStr idt)) (Hi : uuid_parse idt = Some i)
  (Hjt : jget (u "job_type") m = Some (JStr job_type))
  (Hn : py_int (default (JInt 1) (jget (u "attempt") m)) = Some n).

Lemma handle_delivery_claiming s :
  handle_delivery float_repr cfg tag fresh job_type body s =
    (claim ← claim_delivery cfg tag fresh i m;
     match claim with
     | None => mret ()
     | Some tok =>
         metric (incr_processing 1);;
         try_finally (try_except (run_job tag i tok m) (on_failure float_repr cfg tag tok m))
           (set_metrics (incr_processing (-1)))
     end) s.
Proof.
  unfold handle_delivery. rewrite Hd.
  rewrite (bind_ok _ _ _ job_type s) by (by apply get_ok).
  rewrite decide_False by (by intros H').
  by rewrite (bind_ok _ _ _ i s) by (by apply (get_job_id_ok m idt)).
Qed.

(** Run on its own, with what others commit between its statements, the claim
    is [claim_job]. *)
Lemma claim_statements_run d now tr me ev ev' sched : ev_fault ev = NoFault -> ev_fault ev' = NoFault ->
  let d1 := ev_env ev d in
  let '(r, d2) := claim_job i (worker_id cfg) (lease_seconds cfg) fresh (ev_now ev) (ev_env ev') d1 in
  let '(r', s') := claim_statements cfg fresh i (mk_world d now tr me (ev :: ev' :: sched)) in
  r' = Ok r /\ w_db s' = d2.
Proof.
  destruct ev as [env t0 f], ev' as [env' t1 f']. cbn [ev_fault ev_env ev_now]. intros -> ->. unfold claim_job, claim_statements, db_call, external, mbind, M_bind.
  simpl. destruct (claim_update _ _ _ _ _ _) as [[row|] d']; simpl; done.
Qed.

Lemma claim_statements_idle d now tr me : claim_statements cfg fresh i (idle d now tr me) =
  let '(r, d') := claim_job i (worker_id cfg) (lease_seconds cfg) fresh now id d in
  (Ok r, idle d' now (tr ++ (if fst (claim_update i (worker_id cfg) (lease_seconds cfg) fresh now d) then [] else [TMissed i]) ++ [TClaim i fresh (disposition r)]) me).
Proof.
  unfold claim_statements, claim_job. rewrite (bind_ok _ _ _ _ _ (db_call_idle _ _ d now tr me)). cbv beta.
  destruct (claim_update i (worker_id cfg) (lease_seconds cfg) fresh now d) as [[row|] d1] eqn:E; cbn [fst snd]; [done|].
  rewrite db_call_idle. cbn [fst snd]. by rewrite <- app_assoc.
Qed.

Definition claimed_db (now : usec) (d : db) : db :=
  bump_attempt i n (snd (claim_update i (worker_id cfg) (lease_seconds cfg) fresh now d)).

Lemma claim_delivery_idle d now tr me j :
  jobs d !! i = Some j -> claimable now j = true ->
  claim_delivery cfg tag fresh i m (idle d now tr me) =
    (Ok (Some fresh), idle (claimed_db now d) now (tr ++ [TClaim i fresh CLAIMED; TBump i n]) me).
Proof.
  intros Hj Hc. unfold claim_delivery, claimed_db.
  rewrite (bind_ok _ _ _ () (idle d now tr me)) by done.
  pose proof (claim_statements_idle d now tr me) as Hs. unfold claim_job in Hs. rewrite (claim_update_hit _ _ _ _ _ _ _ Hj Hc) in Hs.
  rewrite (bind_ok _ _ _ _ _ Hs), (claim_update_hit _ _ _ _ _ _ _ Hj Hc). cbn [fst snd disposition claim_row mbind option_bind].
  change (j_claim_token (claim_row_update _ _ fresh now j)) with (Some fresh). cbv iota.
  erewrite bind_ok by (by apply get_attempt_ok). erewrite bind_ok by apply db_call_idle.
  unfold mret, M_ret. by rewrite <- app_assoc.
Qed.

Lemma claimed_row now d j :
  jobs d !! i = Some j -> claimable now j = true ->
  jobs (claimed_db now d) !! i =
    Some (set_attempt n (claim_row_update (worker_id cfg) (lease_seconds cfg) fresh now j)).
Proof.
  intros Hj Hc. unfold claimed_db, bump_attempt. rewrite (claim_update_hit _ _ _ _ _ _ _ Hj Hc).
  rewrite update_job_lookup. simpl. by rewrite lookup_insert_eq.
Qed.


Lemma claim_delivery_refused d now tr me :
  (forall j, jobs d !! i = Some j -> claimable now j = false) ->
  claim_delivery cfg tag fresh i m (idle d now tr me) =
    (Ok None, idle d now (tr ++ [TMissed i; TClaim i fresh (disposition (claim_read i now d));
       TChan match abs d i with Some Done | None => Ack tag | Some _ => Nack tag false end]) me).
Proof.
  intros Hc. unfold claim_delivery.
  assert (Hclass := classify_unclaimed_spec now (jobs d !! i) Hc).
  rewrite (bind_ok _ _ _ () (idle d now tr me)) by done.
  pose proof (claim_statements_idle d now tr me) as Hs. unfold claim_job in Hs. rewrite (claim_update_miss _ _ _ _ _ _ Hc) in Hs.
  rewrite (bind_ok _ _ _ _ _ Hs). cbn [fst snd app]. unfold claim_read, id. rewrite Hclass. unfold abs.
  destruct (lease_of <$> jobs d !! i) as [[|o e|]|]; erewrite bind_ok by apply do_chan_idle;
    unfold mret, M_ret; by rewrite <- app_assoc.
Qed.

(** A delivery whose job is not this worker's to run has no effect on the
    table: a live lease sends it back through the retry queue without
    acknowledging it, a completed or missing job is acknowledged at once, and
    in neither case is the job's work started. *)
Theorem unclaimable_delivery d now tr me :
  (forall j, jobs d !! i = Some j -> claimable now j = false) ->
  let op := match abs d i with
            | Some Done | None => Ack tag
            | Some _ => Nack tag false
            end in
  handle_delivery float_repr cfg tag fresh job_type body (idle d now tr me) =
    (Ok (), idle d now (tr ++ [TMissed i; TClaim i fresh (disposition (claim_read i now d)); TChan op]) me).
Proof.
  intros Hc op. rewrite handle_delivery_claiming.
  by rewrite (bind_ok _ _ _ _ _ (claim_delivery_refused d now tr me Hc)).
Qed.
End run_idle.

(** *** The gauge of running jobs *)

Definition same_processing (s s' : world) : Prop :=
  jobs_processing (w_metrics s') = jobs_processing (w_metrics s).
#[local] Instance same_processing_preorder : PreOrder same_processing.
Proof. split; unfold same_processing; [done|congruence]. Qed.

Lemma external_processing {A} (f : world -> A * world) :
  (forall s, w_metrics (snd (f s)) = w_metrics s) -> preserves same_processing (external f).
Proof.
  intros Hf s. unfold same_processing, external, next_event.
  destruct (w_sched s) as [|[env now [|e|e]] sched]; simpl.
  - specialize (Hf s). by destruct (f s); simpl in *; rewrite Hf.
  - match goal with |- context [f ?x] => specialize (Hf x); destruct (f x); simpl in *; by rewrite Hf end.
  - done.
  - by rewrite Hf.
Qed.

Lemma db_call_processing {A} (f : usec -> db -> A * db) t : preserves same_processing (db_call f t).
Proof. apply external_processing. intros s. by destruct (f (w_now s) (w_db s)). Qed.
Lemma do_chan_processing op : preserves same_processing (do_chan op).
Proof. by apply external_processing. Qed.
Lemma connect_processing : preserves same_processing connect_db.
Proof. by apply external_processing. Qed.
Lemma quiet_processing {A} (c : M world pyexn A) : preserves quiet c -> preserves same_processing c.
Proof. intros Hc s. destruct (Hc s) as (_ & Hm & _). unfold same_processing. by rewrite Hm. Qed.
Lemma get_str_processing k m : preserves same_processing (get_str k m).
Proof. unfold get_str. by repeat case_match. Qed.
Lemma get_attempt_processing m : preserves same_processing (get_attempt m).
Proof. unfold get_attempt. by case_match. Qed.
Lemma metric_processing g :
  (forall me, jobs_processing (g me) = jobs_processing me) -> preserves same_processing (metric g).
Proof. intros Hg s. apply Hg. Qed.
Lemma get_job_id_processing m : preserves same_processing (get_job_id m).
Proof.
  unfold get_job_id. apply preserves_bind; [typeclasses eauto|apply get_str_processing|].
  intros s. by case_match.
Qed.

Ltac solve_processing :=
  repeat first
    [ apply get_str_processing | apply get_attempt_processing | apply get_job_id_processing
    | apply db_call_processing | apply do_chan_processing | apply connect_processing
    | apply metric_processing; done
    | progress unfold claim_statements
    | apply quiet_processing, stored_result_quiet
    | apply quiet_processing, process_message_quiet
    | apply preserves_bind; [typeclasses eauto| |intros ?]
    | apply preserves_ret; typeclasses eauto
    | apply preserves_raise; typeclasses eauto
    | case_match ].

Lemma run_job_processing tag i tok m : preserves same_processing (run_job tag i tok m).
Proof. unfold run_job, complete_and_ack, when. solve_processing. Qed.
Lemma on_failure_processing tag tok m e : preserves same_processing (on_failure float_repr cfg tag tok m e).
Proof. unfold on_failure, settle_failure, send_to_dlq, when. simpl. solve_processing. Qed.
Lemma claim_delivery_processing tag fresh i m : preserves same_processing (claim_delivery cfg tag fresh i m).
Proof. unfold claim_delivery. solve_processing. Qed.

(** The gauge of running jobs never drifts: whatever a delivery does and
    however it fails, [jobs_processing] is back at its former value. *)
Theorem processing_gauge_balanced tag fresh job_type body s :
  jobs_processing (w_metrics (snd (handle_delivery float_repr cfg tag fresh job_type body s))) =
  jobs_processing (w_metrics s).
Proof.
  change (same_processing s (snd (handle_delivery float_repr cfg tag fresh job_type body s))).
  revert s. change (preserves same_processing (handle_delivery float_repr cfg tag fresh job_type body)).
  unfold handle_delivery, send_raw_to_dlq, send_to_dlq. simpl.
  destruct (decode_message body) as [m|name]; [|solve_processing].
  apply preserves_bind; [typeclasses eauto|apply get_str_processing|]. intros jt.
  case_decide; [solve_processing|].
  apply preserves_bind; [typeclasses eauto|apply get_job_id_processing|]. intros i.
  apply preserves_bind; [typeclasses eauto|apply claim_delivery_processing|].
  intros [t'|]; [|apply preserves_ret; typeclasses eauto]. intros s.
  pose proof (run_job_processing tag i t' m (set_metrics (incr_processing 1) s)) as Hr.
  unfold same_processing, mbind, M_bind, metric, modify_st, try_finally, try_except in *.
  destruct (run_job tag i t' m (set_metrics (incr_processing 1) s)) as [[a|e] s1]; simpl in *; [lia|].
  pose proof (on_failure_processing tag t' m e s1) as Hf. unfold same_processing in Hf.
  destruct (on_failure _ _ _ _ _ _ s1) as [r s2]; simpl in *. lia.
Qed.

(** *** Requeued dead letters *)

(** The bodies the worker puts on the dead-letter queue of a job type: the
    diagnostic of an invalid delivery, a valid message for another worker, and
    the record of a failed job. *)
Inductive dead_letter (job_type : pystr) : json -> Prop :=
  | dead_quarantine raw reason : dead_letter job_type (quarantine_body raw reason)
  | dead_misrouted j : conforms job_message_schema j = true ->
      jget (u "job_type") j <> Some (JStr job_type) -> dead_letter job_type j
  | dead_failed idt attempt code msg : dead_letter job_type (dlq_body idt job_type attempt code msg).

Lemma requeued_rejected job_type j :
  wire_ok j -> dead_letter job_type j ->
  exists o, j = JObj o /\ quarantined job_type (to_wire float_repr (jset (u "attempt") (JInt 1) j)) <> None.
Proof.
  intros Hw Hj.
  assert (Hq : forall p, wire_ok p ->
    conforms job_message_schema p = false \/ jget (u "job_type") p <> Some (JStr job_type) ->
    quarantined job_type (to_wire float_repr p) <> None).
  { intros p Hp Hc. unfold quarantined, decode_message, to_wire. pose proof (dumps_ascii float_repr p Hp) as Ha.
    rewrite utf8_encode_ascii, utf8_decode_ascii, json_loads_dumps, is_valid_conforms by done.
    destruct (conforms job_message_schema p); [|done]. destruct Hc as [?|Hne]; [done|]. by rewrite decide_False. }
  assert (Hreq : KRequired job_required ∈ job_message_schema).
  { apply list_elem_of_further, list_elem_of_here. }
  assert (Hwp : wire_ok (jset (u "attempt") (JInt 1) j)) by (apply wire_ok_jset; [by apply literal_scalar|done|done]).
  destruct Hj as [raw reason|j Hc Hne|idt attempt code msg].
  - eexists. split; [reflexivity|]. apply Hq; [done|]. left.
    apply (conforms_missing _ job_required (u "job_id")); [done|by apply elem_literal; vm_compute|reflexivity].
  - destruct (valid_message_inv j Hc) as (o & _ & _ & _ & _ & -> & _). exists o. split; [done|].
    apply Hq; [done|]. right. simpl. by rewrite assoc_set_ne.
  - eexists. split; [reflexivity|]. apply Hq; [done|]. left.
    apply (conforms_missing _ job_required (u "protocol_version")); [done|by apply elem_literal; vm_compute|reflexivity].
Qed.

(** Requeueing never runs a job again.  Whatever the worker left on a
    dead-letter queue, [requeue_one_dlq_message] republishes it with attempt 1,
    and the worker that receives it rejects it without touching the job table:
    no claim happens under any schedule, and the message goes back to the
    dead-letter queue. *)
Theorem requeue_never_reruns {S} `{HasChannel S} job_type j tag mid (s : S) :
  wire_ok j -> dead_letter job_type j ->
  let payload := jset (u "attempt") (JInt 1) j in
  requeue_one_dlq_message float_repr job_type (Some (tag, mid, to_wire float_repr j)) s =
    (publish_message float_repr JOBS_EXCHANGE (routing_key (queue_names job_type)) payload mid;;
     chan_do (Ack tag);; mret (Some payload)) s /\
  forall tag' fresh w, w_trace w = [] -> exists back k,
    w_trace (snd (handle_delivery float_repr cfg tag' fresh job_type (to_wire float_repr payload) w)) =
      take k [TChan (Publish DLX_EXCHANGE (dlq_routing_key job_type) (to_wire float_repr back) true false None);
              TChan (Ack tag')].
Proof.
  intros Hw Hj payload. destruct (requeued_rejected job_type j Hw Hj) as (o & Ho & Hq). split.
  - unfold requeue_one_dlq_message. rewrite from_to_wire by done. by subst j.
  - intros tag' fresh w Hwt. fold payload in Hq.
    destruct (quarantined job_type (to_wire float_repr payload)) as [back|] eqn:E; [|done].
    pose proof (poison_run tag' fresh job_type _ w back E) as Hrun.
    destruct (handle_delivery _ _ _ _ _ _ w) as [r w']. destruct Hrun as (k & Ht & _).
    exists back, k. simpl. by rewrite Ht, Hwt.
Qed.
End worker_theorems.

(** ** Witnesses *)

Program Definition processor (r : result pyexn (option artifact_metadata)) : JobProcessor := {|
  stored_result_valid _ := mret false;
  process_message _ := lift_result r;
|}.
Next Obligation. intros r m s. split_and!; [done|done|]. by exists []. Qed.
Next Obligation. intros r m s. split_and!; [done|done|]. by exists []. Qed.

Definition no_floats : SpecFloat.spec_float -> pystr := fun _ => [].
Definition sample_cfg : settings := mk_settings (u "w1") 900 3.
Definition sample_message : json := message_of sample_fields.
Definition sample_body : list Z := to_wire no_floats sample_message.
Definition no_metrics : worker_metrics := mk_metrics 0 0 0 0 0 0.
Definition queued_db : db := mk_db {[ 77%N := queued_row ]} ∅.
Definition sample_world (d : db) : world := mk_world d 5 [] no_metrics [].
Abbreviation run_sample r d :=
  (@handle_delivery cjk_unicode draft7 (processor r) no_floats sample_cfg 1 10 (u "log_triage") sample_body (sample_world d)).

Lemma sample_wire_ok : wire_ok sample_message.
Proof.
  apply message_sendable; [apply list_elem_of_here|exact sample_fields_sendable].
Qed.


Lemma poison_quarantined_witness :
  snd (@handle_delivery cjk_unicode draft7 (processor (Ok None)) no_floats sample_cfg 1 10
    (u "log_triage") [123%Z] (sample_world queued_db)) <> sample_world queued_db.
Proof.
  pose proof (@poison_quarantined cjk_unicode draft7 (processor (Ok None)) no_floats sample_cfg 1 10
    (u "log_triage") [123%Z] (sample_world queued_db) _ eq_refl) as H. revert H.
  destruct (handle_delivery _ _ _ _ _ _ _) as [r s'] eqn:E.
  assert (r = Ok ()) as -> by (apply (f_equal fst) in E; revert E; vm_compute; congruence).
  intros (k & Ht & Hk & _). rewrite (Hk eq_refl) in Ht. simpl. intros ->. by vm_compute in Ht.
Defined.

Lemma retries_bounded_witness :
  exists m', @decode_message draft7
      (to_wire no_floats (jset (u "attempt") (JInt 2) sample_message)) = Ok m' /\
    jget (u "attempt") m' = Some (JInt 2).
Proof.
  destruct (@retries_bounded cjk_unicode draft7 (processor (Raise type_error)) no_floats sample_cfg 1 10
    (u "log_triage") sample_body (sample_world queued_db) sample_message DLX_EXCHANGE
    (to_wire no_floats (jset (u "attempt") (JInt 2) sample_message)) false false None)
    as (n & m' & Hn & _ & _ & Hm & Ha & _).
  - by vm_compute.
  - reflexivity.
  - exact sample_wire_ok.
  - reflexivity.
  - assert (w_trace (snd (run_sample (Raise type_error) queued_db)) !! 4 =
      Some (TChan (Publish DLX_EXCHANGE (routing_key (queue_names (u "log_triage")))
        (to_wire no_floats (jset (u "attempt") (JInt 2) sample_message)) false false None))) as Hl by by vm_compute.
    by apply list_elem_of_lookup_2 in Hl.
  - exists m'. split; [exact Hm|]. injection Hn as <-. exact Ha.
Defined.

Definition held_db (tok : token) : db :=
  mk_db {[ 77%N := claim_row_update (u "w1") 900 tok 0 queued_row ]} ∅.

Lemma owned_failure_witness :
  let '(r, s') := @settle_failure cjk_unicode no_floats sample_cfg 1 sample_message (Some 10%N) type_error
    (sample_world (held_db 10)) in
  r = Ok () /\ exists j', jobs (w_db s') !! 77%N = Some j' /\ j_status j' = RETRYING.
Proof.
  pose proof (@owned_failure_settled cjk_unicode no_floats sample_cfg 1 sample_message
    (uuid_str 77) (u "log_triage") 77 1 10 type_error (held_db 10) 5 [] no_metrics _
    eq_refl ltac:(by vm_compute) eq_refl eq_refl eq_refl eq_refl) as H. revert H.
  change (idle (held_db 10) 5 [] no_metrics) with (sample_world (held_db 10)).
  destruct (settle_failure _ _ _ _ _ _ _) as [r s']. intros (Hr & (j' & Hj & Hst & _) & _).
  split; [exact Hr|]. exists j'. split; [exact Hj|]. rewrite Hst. by vm_compute.
Defined.

Definition completed_db : db := mk_db {[ 77%N := complete_row 3 queued_row ]} ∅.

Lemma late_failure_witness :
  let '(r, s') := @settle_failure cjk_unicode no_floats sample_cfg 1 sample_message (Some 10%N) lost_completion
    (sample_world completed_db) in
  abs completed_db 77%N = Some Done /\ abs (w_db s') 77%N = Some Free.
Proof.
  pose proof (@late_failure_reopens_job cjk_unicode no_floats sample_cfg 1 sample_message
    (uuid_str 77) (u "log_triage") 77 1 10 lost_completion completed_db 5 [] no_metrics _
    eq_refl ltac:(by vm_compute) eq_refl eq_refl eq_refl eq_refl ltac:(by vm_compute)) as H. revert H.
  change (idle completed_db 5 [] no_metrics) with (sample_world completed_db).
  destruct (settle_failure _ _ _ _ _ _ _) as [r s']. intros (_ & _ & Ha & _). split; [reflexivity|exact Ha].
Defined.

(** A job with a report, and a run that returns a file for it. *)
Definition reported_db : db := mk_db {[ 77%N := queued_row ]} {[ 4%N := mk_report 77 empty_artifact empty_artifact empty_artifact empty_provenance None ]}.
Definition report_file : artifact := mk_artifact (Some (u "noc-reports")) (Some (u "report.docx")) (Some (u "v1")) (Some (u "ab")) (Some 3%Z) None.
Definition report_metadata : artifact_metadata := mk_artifact_metadata (Some report_file) None None None.


Lemma unclaimable_delivery_witness :
  snd (run_sample (Ok None) (held_db 11)) =
    idle (held_db 11) 5 [TMissed 77; TClaim 77 10 LEASE_BUSY; TChan (Nack 1 false)] no_metrics.
Proof.
  pose proof (@unclaimable_delivery cjk_unicode draft7 (processor (Ok None)) no_floats sample_cfg 1 10
    sample_body sample_message (uuid_str 77) (u "log_triage") 77 ltac:(by vm_compute) eq_refl ltac:(by vm_compute)
    eq_refl (held_db 11) 5 [] no_metrics) as H.
  change (idle (held_db 11) 5 [] no_metrics) with (sample_world (held_db 11)) in H.
  rewrite H; [by vm_compute|]. intros j. by intros [= <-].
Defined.

Lemma requeue_never_reruns_witness :
  exists back k,
    w_trace (snd (@handle_delivery cjk_unicode draft7 (processor (Ok None)) no_floats sample_cfg 2 10 (u "log_triage")
      (to_wire no_floats (dlq_body (uuid_str 77) (u "log_triage") 1 (u "E") (u "X"))) (sample_world queued_db))) =
      take k [TChan (Publish DLX_EXCHANGE (dlq_routing_key (u "log_triage")) (to_wire no_floats back) true false None);
              TChan (Ack 2)].
Proof.
  destruct (@requeue_never_reruns cjk_unicode draft7 (processor (Ok None)) no_floats sample_cfg world _
    (u "log_triage") (dlq_body (uuid_str 77) (u "log_triage") 1 (u "E") (u "X")) 1 None (sample_world queued_db))
    as [_ H].
  - apply wire_ok_obj. split; [apply keys_NoDup; by vm_compute|].
    repeat (apply Forall_cons; split; [split; simpl; try (by apply literal_scalar); done|]). done.
  - apply dead_failed.
  - exact (H 2%N 10%N (sample_world queued_db) eq_refl).
Defined.
