(* ===== verification/Sweep.v ===== *)
(** * Oldest-first selection

    [SELECT ... WHERE p ORDER BY key LIMIT 1], the query the maintenance loops
    repeat.  A table is the list of its rows in physical order, so that rows
    with equal keys come in an arbitrary order that the theorems do not fix.
    NULL keys sort last, as PostgreSQL sorts them. *)

From S2P Require Import Prelude.

(** [x <= y] of nullable timestamps, NULLS LAST. *)
Definition ts_leb (x y : option Z) : bool :=
  match x, y with
  | Some a, Some b => (a <=? b)%Z
  | _, None => true
  | None, Some _ => false
  end.

(** Two sort columns. *)
Definition lex_leb (x y : option Z * option Z) : bool :=
  if ts_leb (fst x) (fst y) then
    (if ts_leb (fst y) (fst x) then ts_leb (snd x) (snd y) else true)
  else false.

Section oldest.
Context {A : Type} (key : A -> option Z * option Z).

Definition key_leb (x y : A) : bool := lex_leb (key x) (key y).

Fixpoint oldest (p : A -> bool) (l : list A) : option A :=
  match l with
  | [] => None
  | x :: l =>
      match oldest p l with
      | None => if p x then Some x else None
      | Some y => if p x && key_leb x y then Some x else Some y
      end
  end.

Lemma key_leb_refl x : key_leb x x = true.
Proof.
  unfold key_leb, lex_leb. destruct (key x) as [[a|] [b|]]; simpl; rewrite ?Z.leb_refl; done.
Qed.

Lemma key_leb_trans x y z : key_leb x y = true -> key_leb y z = true -> key_leb x z = true.
Proof.
  unfold key_leb, lex_leb. destruct (key x) as [[a|] [b|]], (key y) as [[c|] [d|]], (key z) as [[e|] [f|]];
    simpl; repeat case_match; try done; lia.
Qed.

Lemma key_leb_total x y : key_leb x y = true \/ key_leb y x = true.
Proof.
  unfold key_leb, lex_leb. destruct (key x) as [[a|] [b|]], (key y) as [[c|] [d|]];
    simpl; repeat case_match; auto; lia.
Qed.

Lemma oldest_Some p l x :
  oldest p l = Some x ->
  x ∈ l /\ p x = true /\ forall y, y ∈ l -> p y = true -> key_leb x y = true.
Proof.
  revert x. induction l as [|z l IH]; intros x; simpl; [done|].
  destruct (oldest p l) as [y|] eqn:E.
  - destruct (IH y eq_refl) as (Hin & Hp & Hmin).
    destruct (p z) eqn:Hz; simpl; [destruct (key_leb z y) eqn:Hzy|]; intros [= <-].
    + split_and!; [set_solver|done|]. intros w [->|Hw]%elem_of_cons Hpw; [apply key_leb_refl|].
      eapply key_leb_trans; eauto.
    + split_and!; [set_solver|done|]. intros w [->|Hw]%elem_of_cons Hpw; [|auto].
      destruct (key_leb_total z y); congruence.
    + split_and!; [set_solver|done|]. intros w [->|Hw]%elem_of_cons Hpw; [congruence|auto].
  - destruct (p z) eqn:Hz; [|done]. intros [= <-]. split_and!; [set_solver|done|].
    intros w [->|Hw]%elem_of_cons Hpw; [apply key_leb_refl|]. exfalso. clear IH. revert w Hw Hpw.
    induction l as [|v l IHl]; [set_solver|]. simpl in E. intros w Hw Hpw.
    destruct (oldest p l) as [y|] eqn:E'; [by destruct (p v && key_leb v y)|].
    destruct (p v) eqn:Hv; [done|]. apply elem_of_cons in Hw as [->|Hw]; [congruence|].
    by apply (IHl eq_refl w).
Qed.

Lemma oldest_None p l : oldest p l = None <-> forall x, x ∈ l -> p x = false.
Proof.
  induction l as [|z l IH]; simpl; [set_solver|].
  destruct (oldest p l) as [y|] eqn:E.
  - split; [by destruct (p z && key_leb z y)|]. intros H. apply oldest_Some in E as (Hin & Hp & _).
    rewrite H in Hp by set_solver. done.
  - destruct (p z) eqn:Hz.
    + split; [done|]. intros H. rewrite H in Hz by set_solver. done.
    + split; [|done]. intros _ x [->|Hx]%elem_of_cons; [done|]. by apply (proj1 IH).
Qed.
End oldest.

(** Updating the rows with a given id. *)
Definition update_row {R} (i : N) (f : R -> R) (l : list (N * R)) : list (N * R) :=
  map (fun '(k, r) => if decide (k = i) then (k, f r) else (k, r)) l.

Section update_row.
Context {R : Type}.
Implicit Types (l : list (N * R)) (f : R -> R).

Lemma update_row_ids i f l : map fst (update_row i f l) = map fst l.
Proof. unfold update_row. rewrite map_map. apply map_ext. intros [k r]. by case_decide. Qed.

Lemma elem_of_update_row i f l k r :
  (k, r) ∈ update_row i f l <->
  (k <> i /\ (k, r) ∈ l) \/ (k = i /\ exists r', (k, r') ∈ l /\ r = f r').
Proof.
  unfold update_row. rewrite list_elem_of_fmap. split.
  - intros ([k' r'] & H & Hin). case_decide; simplify_eq; eauto 6.
  - intros [[Hne Hin]|(-> & r' & Hin & ->)].
    + exists (k, r). by rewrite decide_False.
    + exists (i, r'). by rewrite decide_True.
Qed.

(** Rows are identified by their id. *)
Lemma id_unique l k r r' : NoDup (map fst l) -> (k, r) ∈ l -> (k, r') ∈ l -> r = r'.
Proof. intros Hn Hx Hy. by injection (list_key_unique fst l (k, r) (k, r') Hn Hx Hy eq_refl). Qed.
End update_row.
