(* ===== verification/Outbox.v ===== *)
(** * The transactional outbox

    Models [apps/api/app/jobs.py] (a job and its announcement are written in one
    transaction), [apps/api/app/outbox.py] (the dispatcher and the retention
    cleanup) and the reconnect policy of [apps/api/app/outbox_worker.py].

    The dispatcher runs one transaction per row.  A schedule gives, for each of
    them, the rows other dispatchers hold locked, the clock, and what became of
    the publication: confirmed, refused (possibly after the broker took the
    message) or a crash before the commit.  Every pass logs the rows it
    attempted, in order. *)

From Stdlib Require Import Sorting.Sorted.
From S2P Require Import Prelude PyStr Json Schema Jobs Failures Broker Sweep.

Record outbox_event := mk_outbox_event {
  oe_job_id : N;
  oe_routing_key : pystr;
  oe_payload : json;
  oe_created_at : option usec;
  oe_published_at : option usec;
  oe_attempt_count : Z;
  oe_last_error : option pystr;
}.

Abbreviation outbox := (list (N * outbox_event)).

Definition pending (r : outbox_event) : bool := bool_decide (oe_published_at r = None).

(** [SET published_at = now(), last_error = NULL] *)
Definition mark_published (now : usec) (r : outbox_event) : outbox_event :=
  mk_outbox_event (oe_job_id r) (oe_routing_key r) (oe_payload r) (oe_created_at r) (Some now)
    (oe_attempt_count r) None.

(** [SET attempt_count = attempt_count + 1, last_error = str(exc)[:2000]] *)
Definition mark_refused (err : pystr) (r : outbox_event) : outbox_event :=
  mk_outbox_event (oe_job_id r) (oe_routing_key r) (oe_payload r) (oe_created_at r) (oe_published_at r)
    (oe_attempt_count r + 1)%Z (Some (take (Z.to_nat 2000) err)).

(** ** The dispatcher *)

Inductive publish_outcome :=
  | Confirmed
  | Refused (err : pystr) (reached : bool)
  | Crashed (e : pyexn) (reached : bool).

Record pass_event := mk_pass_event {
  pe_locked : N -> bool;
  pe_now : usec;
  pe_publish : publish_outcome;
}.

(** One publication attempt: the row, the message, and whether the broker
    confirmed it. *)
Record attempt := mk_attempt { at_row : N; at_message : chan_op; at_confirmed : bool }.

Record oworld := mk_oworld {
  ow_rows : outbox;
  ow_broker : list chan_op;        (** what reached the broker *)
  ow_attempts : list attempt;
  ow_sched : list pass_event;
}.

Definition quiet_pass : pass_event := mk_pass_event (fun _ => false) 0 Confirmed.

Definition created_key (x : N * outbox_event) : option Z * option Z := (oe_created_at (snd x), None).

Section dispatch.
Context (float_repr : SpecFloat.spec_float -> pystr).

Definition message_of_row (r : outbox_event) : chan_op :=
  Publish JOBS_EXCHANGE (oe_routing_key r) (to_wire float_repr (oe_payload r)) true true
    (Some (uuid_str (oe_job_id r))).

Definition selectable (ev : pass_event) (failed_ids : list N) (x : N * outbox_event) : bool :=
  pending (snd x) && negb (bool_decide (fst x ∈ failed_ids)) && negb (pe_locked ev (fst x)).

(** The rows and the broker after one attempt at row [i]. *)
Definition after_attempt (s : oworld) (i : N) (f : outbox_event -> outbox_event) (reached confirmed : bool)
    (op : chan_op) (sched : list pass_event) : oworld :=
  mk_oworld (update_row i f (ow_rows s))
    (ow_broker s ++ (if reached then [op] else []))
    (ow_attempts s ++ [mk_attempt i op confirmed]) sched.

Fixpoint dispatch_loop (batch : nat) (failed_ids : list N) (published : Z) (s : oworld)
    : result pyexn Z * oworld :=
  match batch with
  | O => (Ok published, s)
  | S batch =>
      let '(ev, sched) := match ow_sched s with [] => (quiet_pass, []) | ev :: sched => (ev, sched) end in
      match oldest created_key (selectable ev failed_ids) (ow_rows s) with
      | None => (Ok published, mk_oworld (ow_rows s) (ow_broker s) (ow_attempts s) sched)
      | Some (i, row) =>
          let op := message_of_row row in
          match pe_publish ev with
          | Confirmed =>
              dispatch_loop batch failed_ids (published + 1)%Z
                (after_attempt s i (mark_published (pe_now ev)) true true op sched)
          | Refused err reached =>
              dispatch_loop batch (i :: failed_ids) published
                (after_attempt s i (mark_refused err) reached false op sched)
          | Crashed e reached =>
              (Raise e, after_attempt s i (fun r => r) reached false op sched)
          end
      end
  end.

Definition dispatch_pending_events (batch_size : nat) (s : oworld) : result pyexn Z * oworld :=
  dispatch_loop batch_size [] 0 s.
End dispatch.

(** ** Retention *)

Definition published_key (x : N * outbox_event) : option Z * option Z :=
  (oe_published_at (snd x), Some (Z.of_N (fst x))).

Definition purgeable (cutoff : usec) (x : N * outbox_event) : bool :=
  match oe_published_at (snd x) with Some t => (t <? cutoff)%Z | None => false end.

(** The first [batch] rows of the retention query, oldest publication first. *)
Fixpoint purge_ids (batch : nat) (locked : N -> bool) (cutoff : usec) (taken : list N) (l : outbox) : list N :=
  match batch with
  | O => []
  | S batch =>
      match oldest published_key
              (fun x => purgeable cutoff x && negb (locked (fst x)) && negb (bool_decide (fst x ∈ taken))) l with
      | Some (i, _) => i :: purge_ids batch locked cutoff (i :: taken) l
      | None => []
      end
  end.

Definition days (n : Z) : usec := (n * 86400000000)%Z.

(** The [WHERE] clause of the deletion. *)
Definition deletable (ids : list N) (cutoff : usec) (x : N * outbox_event) : bool :=
  bool_decide (fst x ∈ ids) && purgeable cutoff x.

(** The result is the number of deleted rows. *)
Definition purge_published_events (retention_days batch_size : Z) (now : usec) (locked : N -> bool)
    (l : outbox) : result pyexn Z * outbox :=
  if (retention_days <? 0)%Z then (Raise (mk_exn ValueError (u "retention_days must be non-negative")), l)
  else if (batch_size <? 1)%Z then (Raise (mk_exn ValueError (u "batch_size must be positive")), l)
  else
    let cutoff := (now - days retention_days)%Z in
    let ids := purge_ids (Z.to_nat batch_size) locked cutoff [] l in
    if decide (ids = []) then (Ok 0%Z, l)
    else
      (Ok (Z.of_nat (length (filter (fun x => deletable ids cutoff x) l))),
       filter (fun x => negb (deletable ids cutoff x)) l).

(** ** Creating a job *)

Record store := mk_store { st_jobs : gmap job_id job; st_outbox : outbox }.

(** [enqueue_job] inside the caller's transaction: [job_id] and [event_id] are
    the generated keys, [now] the queue time.  A rejected message aborts the
    transaction. *)
Definition enqueue_job `{SchemaValidator} (event_id : N) (f : job_fields) (incident : option N) (now : usec)
    (st : store) : result pyexn store :=
  let job := mk_job (f_job_type f) incident QUEUED 1 None None now None None None None None None in
  match build_job_message f with
  | Raise e => Raise e
  | Ok message =>
      Ok (mk_store (<[f_job_id f := job]> (st_jobs st))
            (st_outbox st ++
             [(event_id, mk_outbox_event (f_job_id f) (routing_key (queue_names (f_job_type f))) message
                 (Some now) None 0 None)]))
  end.

(** ** The dispatcher process *)

Definition RECONNECT_BACKOFF_SECONDS : Z := 1.
Definition RECONNECT_BACKOFF_MAX_SECONDS : Z := 30.

(** The outer loop's state after a run of connection attempts: [true] is one
    that reached [declare_topology].  The list holds the waits taken. *)
Fixpoint reconnects (backoff : Z) (attempts : list bool) : list Z :=
  match attempts with
  | [] => []
  | connected :: attempts =>
      let backoff := if connected then RECONNECT_BACKOFF_SECONDS else backoff in
      backoff :: reconnects (Z.min (backoff * 2) RECONNECT_BACKOFF_MAX_SECONDS) attempts
  end.

(** Whether this iteration runs the retention cleanup. *)
Definition cleanup_due (now_monotonic last_cleanup_at interval : Z) : bool :=
  (interval <=? now_monotonic - last_cleanup_at)%Z.

(** ** Dispatch theorems *)

Section dispatch_theorems.
Context (float_repr : SpecFloat.spec_float -> pystr).
Abbreviation loop := (dispatch_loop float_repr).
Abbreviation msg := (message_of_row float_repr).

(** The row an attempt leaves. *)
Definition row_after (a : attempt) (r r' : outbox_event) : Prop :=
  if at_confirmed a then exists now, r' = mark_published now r
  else r' = r \/ exists err, r' = mark_refused err r.

(** What a pass may do between two worlds, with [L] its attempts. *)
Record pass (failed_ids : list N) (s s' : oworld) (L : list attempt) : Prop := {
  pass_attempts : ow_attempts s' = ow_attempts s ++ L;
  pass_once : NoDup (map at_row L);
  pass_pending : forall a, a ∈ L -> at_row a ∉ failed_ids /\ exists r,
      (at_row a, r) ∈ ow_rows s /\ pending r = true /\ at_message a = msg r;
  pass_ids : map fst (ow_rows s') = map fst (ow_rows s);
  pass_untouched : forall i r, (i, r) ∈ ow_rows s -> i ∉ map at_row L -> (i, r) ∈ ow_rows s';
  pass_result : forall a r, a ∈ L -> (at_row a, r) ∈ ow_rows s ->
      exists r', (at_row a, r') ∈ ow_rows s' /\ row_after a r r';
  pass_broker : exists sent, ow_broker s' = ow_broker s ++ sent /\
      (forall a, a ∈ L -> at_confirmed a = true -> at_message a ∈ sent) /\
      (forall op, op ∈ sent -> exists a, a ∈ L /\ op = at_message a);
}.

Lemma pass_nil failed_ids s sched :
  pass failed_ids s (mk_oworld (ow_rows s) (ow_broker s) (ow_attempts s) sched) [].
Proof.
  split; simpl; rewrite ?app_nil_r; try done; try set_solver; [constructor|].
  exists []. rewrite app_nil_r. set_solver.
Qed.

(** One attempt followed by a pass that avoids it. *)
Lemma pass_step failed_ids failed_ids' s i r f reached confirmed sched s' L :
  NoDup (map fst (ow_rows s)) ->
  (i, r) ∈ ow_rows s -> pending r = true -> i ∉ failed_ids ->
  (confirmed = true -> reached = true /\ exists now, f = mark_published now) ->
  (confirmed = false -> i ∈ failed_ids' /\ ((forall r, f r = r) \/ exists err, f = mark_refused err)) ->
  (forall j, j ∈ failed_ids -> j ∈ failed_ids') ->
  pass failed_ids' (after_attempt s i f reached confirmed (msg r) sched) s' L ->
  pass failed_ids s s' (mk_attempt i (msg r) confirmed :: L).
Proof.
  intros Hnd Hin Hpend Hfail Hconf Hrefl Hsub [Ha Ho Hp Hids Hun Hres (sent & Hsent & Hs1 & Hs2)].
  simpl in *. set (s1 := after_attempt s i f reached confirmed (msg r) sched) in *.
  assert (HiL : i ∉ map at_row L).
  { intros (a & -> & HaL)%list_elem_of_fmap. destruct (Hp a HaL) as (Hnf & r1 & Hr1 & Hpr & _).
    apply elem_of_update_row in Hr1 as [[Hne _]|(_ & r2 & Hr2 & ->)]; [done|].
    rewrite (id_unique _ _ _ _ Hnd Hr2 Hin) in Hpr.
    destruct confirmed.
    - destruct (Hconf eq_refl) as (_ & now & ->). done.
    - destruct (Hrefl eq_refl) as [Hf' _]. done. }
  assert (Hold : forall j r1, j ∈ map at_row L -> (j, r1) ∈ update_row i f (ow_rows s) -> (j, r1) ∈ ow_rows s).
  { intros j r1 Hj Hr1. apply elem_of_update_row in Hr1 as [[_ ?]|[-> _]]; done. }
  assert (Hrow : forall a, a ∈ L -> at_row a ∈ map at_row L).
  { intros a HaL. by apply list_elem_of_fmap_2. }
  split; simpl.
  - rewrite Ha. unfold s1. simpl. by rewrite <- app_assoc.
  - by constructor.
  - intros a [->|HaL]%elem_of_cons; simpl; [eauto|].
    destruct (Hp a HaL) as (Hnf & r1 & Hr1 & Hpr & Hm). split; [auto|]. exists r1. eauto.
  - rewrite Hids. unfold s1. simpl. apply update_row_ids.
  - intros j r1 Hj HjL. apply not_elem_of_cons in HjL as [Hji HjL]. apply Hun; [|done].
    apply elem_of_update_row. by left.
  - intros a r1 [->|HaL]%elem_of_cons Hr1; simpl in *.
    + rewrite (id_unique _ _ _ _ Hnd Hr1 Hin). exists (f r). split.
      * apply Hun; [|done]. apply elem_of_update_row. right. eauto.
      * unfold row_after. simpl. destruct confirmed.
        -- destruct (Hconf eq_refl) as (_ & now & ->). eauto.
        -- destruct (Hrefl eq_refl) as (_ & [Hf|[err ->]]); [left; auto|right; eauto].
    + apply Hres; [done|]. apply elem_of_update_row. left. split; [|done].
      intros E. apply HiL. rewrite <- E. auto.
  - exists ((if reached then [msg r] else []) ++ sent). rewrite Hsent. unfold s1. simpl.
    rewrite <- app_assoc. split_and!; [done| |].
    + intros a [->|HaL]%elem_of_cons Hc; simpl in *.
      * destruct (Hconf Hc) as [-> _]. set_solver.
      * apply elem_of_app. auto.
    + intros op [Hop|Hop]%elem_of_app.
      * exists (mk_attempt i (msg r) confirmed). destruct reached; set_solver.
      * destruct (Hs2 op Hop) as (a & HaL & ->). exists a. set_solver.
Qed.

Definition confirmed_count (L : list attempt) : Z := zsum (map (fun a => if at_confirmed a then 1 else 0)%Z L).

Lemma dispatch_loop_pass batch failed_ids published s :
  NoDup (map fst (ow_rows s)) ->
  exists L, pass failed_ids s (snd (loop batch failed_ids published s)) L /\ length L <= batch /\
    (forall n, fst (loop batch failed_ids published s) = Ok n -> n = published + confirmed_count L)%Z.
Proof.
  revert failed_ids published s. induction batch as [|batch IH]; intros failed_ids published s Hnd; simpl.
  - exists []. split_and!; [|done|intros n [= <-]; unfold confirmed_count; simpl; lia].
    destruct s. apply pass_nil.
  - destruct (match ow_sched s with [] => (quiet_pass, []) | ev :: sched => (ev, sched) end) as [ev sched].
    destruct (oldest created_key (selectable ev failed_ids) (ow_rows s)) as [[i r]|] eqn:Hold.
    2: { exists []. split_and!; [apply pass_nil|simpl; lia|]. intros n [= <-]. unfold confirmed_count. simpl. lia. }
    apply oldest_Some in Hold as (Hin & Hsel & _). unfold selectable in Hsel. simpl in Hsel.
    apply andb_prop in Hsel as [Hsel _]. apply andb_prop in Hsel as [Hpend Hnf].
    apply negb_true_iff, bool_decide_eq_false in Hnf.
    destruct (pe_publish ev) as [|err reached|e reached].
    + set (s1 := after_attempt _ _ _ _ _ _ _).
      destruct (IH failed_ids (published + 1)%Z s1) as (L & HL & Hlen & Hn).
      { unfold s1. simpl. by rewrite update_row_ids. }
      exists (mk_attempt i (msg r) true :: L). split_and!; [|simpl; lia|].
      * apply (pass_step failed_ids failed_ids s i r (mark_published (pe_now ev)) true true sched);
          try done. eauto.
      * intros n H. rewrite (Hn n H). unfold confirmed_count. simpl. lia.
    + set (s1 := after_attempt _ _ _ _ _ _ _).
      destruct (IH (i :: failed_ids) published s1) as (L & HL & Hlen & Hn).
      { unfold s1. simpl. by rewrite update_row_ids. }
      exists (mk_attempt i (msg r) false :: L). split_and!; [|simpl; lia|].
      * apply (pass_step failed_ids (i :: failed_ids) s i r (mark_refused err) reached false sched);
          try done; [|set_solver]. intros _. split; [set_solver|eauto].
      * intros n H. rewrite (Hn n H). unfold confirmed_count. simpl. lia.
    + exists [mk_attempt i (msg r) false]. split_and!; [|simpl; lia|done]. simpl.
      apply (pass_step failed_ids (i :: failed_ids) s i r (fun r => r) reached false sched); try done.
      * intros _. split; [set_solver|]. by left.
      * set_solver.
      * apply (pass_nil _ (after_attempt s i (fun r => r) reached false (msg r) sched)).
Qed.

(** C33. One pass of the dispatcher, under any locks, refusals and crashes:
    every row is tried at most once, only rows pending at the start are tried,
    and each is sent verbatim under its own routing key; a row is marked
    published only when the broker confirmed it and otherwise stays pending
    with its failure counted; rows that were not tried are untouched, none is
    lost or added, everything the broker received comes from an attempt, and
    the result is the number of confirmations, at most the batch size. *)
Theorem dispatch_pass_correct batch s :
  NoDup (map fst (ow_rows s)) ->
  exists L, pass [] s (snd (dispatch_pending_events float_repr batch s)) L /\ length L <= batch /\
    (forall n, fst (dispatch_pending_events float_repr batch s) = Ok n -> n = confirmed_count L).
Proof.
  intros Hnd. destruct (dispatch_loop_pass batch [] 0 s Hnd) as (L & HL & Hlen & Hn).
  exists L. split_and!; [done|done|]. intros n H. specialize (Hn n H). lia.
Qed.

(** A pass that no other dispatcher and no crash disturbs. *)
Definition undisturbed (ev : pass_event) : Prop :=
  (forall i, pe_locked ev i = false) /\ match pe_publish ev with Crashed _ _ => False | _ => True end.

Definition older (x y : N * outbox_event) : Prop := key_leb created_key x y = true.

(** Of two attempts the first was made at a row at least as old. *)
Definition in_turn (rows : outbox) (a b : attempt) : Prop :=
  forall ra rb, (at_row a, ra) ∈ rows -> (at_row b, rb) ∈ rows -> older (at_row a, ra) (at_row b, rb).

Lemma older_created i r j r' i' j' s s' :
  oe_created_at r = oe_created_at s -> oe_created_at r' = oe_created_at s' -> older (i, r) (j, r') -> older (i', s) (j', s').
Proof. unfold older, key_leb, created_key. cbn [snd]. by intros -> ->. Qed.

(** An attempt keeps the ages. *)
Lemma in_turn_update i f rows L : NoDup (map fst rows) -> (forall r, oe_created_at (f r) = oe_created_at r) ->
  StronglySorted (in_turn (update_row i f rows)) L -> StronglySorted (in_turn rows) L.
Proof.
  intros Hnd Hf. assert (Hup : forall k r, (k, r) ∈ rows -> exists r', (k, r') ∈ update_row i f rows /\ oe_created_at r' = oe_created_at r).
  { intros k r Hr. destruct (decide (k = i)) as [->|Hne]; [exists (f r)|exists r]; (split; [apply elem_of_update_row|done]); eauto. }
  intros Hs. induction Hs as [|a L _ IH Ha]; constructor; [done|]. eapply List.Forall_impl; [|exact Ha].
  intros b Hb ra rb Hra Hrb. destruct (Hup _ _ Hra) as (ra' & Hra' & Ea), (Hup _ _ Hrb) as (rb' & Hrb' & Eb).
  eapply older_created; [exact Ea|exact Eb|]. by apply Hb.
Qed.

Lemma dispatch_loop_fair batch failed_ids published s :
  NoDup (map fst (ow_rows s)) -> Forall undisturbed (ow_sched s) ->
  exists L, ow_attempts (snd (loop batch failed_ids published s)) = ow_attempts s ++ L /\
    is_ok (fst (loop batch failed_ids published s)) = true /\
    (forall a, a ∈ L -> at_row a ∉ failed_ids /\ exists r, (at_row a, r) ∈ ow_rows s /\ pending r = true) /\
    StronglySorted (in_turn (ow_rows s)) L /\
    forall i r, (i, r) ∈ ow_rows s -> pending r = true -> i ∉ failed_ids ->
      i ∈ map at_row L \/
      (length L = batch /\ forall a ra, a ∈ L -> (at_row a, ra) ∈ ow_rows s -> older (at_row a, ra) (i, r)).
Proof.
  revert failed_ids published s. induction batch as [|batch IH]; intros failed_ids published s Hnd Hq; simpl.
  { exists []. rewrite app_nil_r. split_and!; [done|done|set_solver|constructor|]. intros. right. split; [done|set_solver]. }
  assert (Hev : undisturbed (match ow_sched s with [] => quiet_pass | ev :: _ => ev end) /\
    Forall undisturbed (match ow_sched s with [] => [] | _ :: sched => sched end)).
  { destruct (ow_sched s); [split; [done|constructor]|by apply Forall_cons in Hq]. }
  assert ((match ow_sched s with [] => (quiet_pass, []) | ev :: sched => (ev, sched) end) =
    (match ow_sched s with [] => quiet_pass | ev :: _ => ev end,
     match ow_sched s with [] => [] | _ :: sched => sched end)) as -> by (by destruct (ow_sched s)).
  destruct Hev as [[Hlock Hpub] Hq'].
  set (ev := match ow_sched s with [] => quiet_pass | ev :: _ => ev end) in *.
  set (sched := match ow_sched s with [] => [] | _ :: sched => sched end) in *. clearbody ev sched.
  destruct (oldest created_key (selectable ev failed_ids) (ow_rows s)) as [[i0 r0]|] eqn:Hold.
  2: { exists []. simpl. rewrite app_nil_r. split_and!; [done|done|set_solver|constructor|].
       intros i r Hin Hp Hnf. pose proof (proj1 (oldest_None _ _ _) Hold (i, r) Hin) as Hs.
       unfold selectable in Hs. simpl in Hs. rewrite Hp, Hlock, bool_decide_eq_false_2 in Hs; done. }
  apply oldest_Some in Hold as (Hin0 & Hsel & Hmin).
  assert (Hnf0 : i0 ∉ failed_ids).
  { unfold selectable in Hsel. simpl in Hsel. apply andb_prop in Hsel as [Hsel _].
    apply andb_prop in Hsel as [_ Hsel]. by apply negb_true_iff, bool_decide_eq_false in Hsel. }
  assert (Hp0 : pending r0 = true) by (unfold selectable in Hsel; simpl in Hsel; by apply andb_prop in Hsel as [[? _]%andb_prop _]).
  assert (Hfirst : forall i r, (i, r) ∈ ow_rows s -> pending r = true -> i ∉ failed_ids -> older (i0, r0) (i, r)).
  { intros i r Hin Hp Hnf. apply (Hmin (i, r)); [done|]. unfold selectable. simpl. by rewrite Hp, Hlock, bool_decide_eq_false_2. }
  assert (Hstep : forall f reached c failed' pub' s',
    s' = after_attempt s i0 f reached c (msg r0) sched -> (forall r, oe_created_at (f r) = oe_created_at r) ->
    (forall j, j ∈ failed_ids -> j ∈ failed') -> (forall j, j ∈ failed' -> j ∈ failed_ids \/ j = i0) ->
    exists L, ow_attempts (snd (loop batch failed' pub' s')) = ow_attempts s ++ L /\
    is_ok (fst (loop batch failed' pub' s')) = true /\
    (forall a, a ∈ L -> at_row a ∉ failed_ids /\ exists r, (at_row a, r) ∈ ow_rows s /\ pending r = true) /\
    StronglySorted (in_turn (ow_rows s)) L /\
    forall i r, (i, r) ∈ ow_rows s -> pending r = true -> i ∉ failed_ids ->
      i ∈ map at_row L \/
      (length L = S batch /\ forall a ra, a ∈ L -> (at_row a, ra) ∈ ow_rows s -> older (at_row a, ra) (i, r))).
  { intros f reached c failed' pub' s' -> Hage Hsub Hsup.
    destruct (IH failed' pub' (after_attempt s i0 f reached c (msg r0) sched)) as (L & Ha & Hok & HLf & Hsort & Hfair);
      [simpl; by rewrite update_row_ids|done|].
    assert (HLp : forall a, a ∈ L -> at_row a ∉ failed_ids /\ exists r, (at_row a, r) ∈ ow_rows s /\ pending r = true).
    { intros a HaL. destruct (HLf a HaL) as (Hf & r1 & Hr1 & Hp1). split; [auto|]. simpl in Hr1.
      apply elem_of_update_row in Hr1 as [[_ ?]|(E & _)]; [by exists r1|exists r0; by rewrite E]. }
    exists (mk_attempt i0 (msg r0) c :: L). split_and!; [|done| | |].
    - rewrite Ha. simpl. by rewrite <- app_assoc.
    - intros a [->|HaL]%elem_of_cons; simpl; eauto.
    - constructor.
      + eapply in_turn_update; [exact Hnd|exact Hage|exact Hsort].
      + apply Forall_forall. intros a HaL ra rb Hra Hrb. simpl in *.
        rewrite (id_unique _ _ _ _ Hnd Hra Hin0). destruct (HLp a HaL) as (Hf & r1 & Hr1 & Hp1).
        rewrite (id_unique _ _ _ _ Hnd Hrb Hr1). auto.
    - intros i r Hin Hp Hnf. simpl. destruct (decide (i = i0)) as [->|Hne]; [left; apply list_elem_of_here|].
      destruct (Hfair i r) as [HL|[Hlen Ho]].
      + simpl. apply elem_of_update_row. by left.
      + done.
      + intros Hf. by destruct (Hsup i Hf).
      + left. by apply list_elem_of_further.
      + right. split; [simpl; lia|]. intros a ra [->|HaL]%elem_of_cons Hra; simpl in *.
        * rewrite (id_unique _ _ _ _ Hnd Hra Hin0). auto.
        * destruct (decide (at_row a = i0)) as [E|E].
          -- rewrite E in *. rewrite (id_unique _ _ _ _ Hnd Hra Hin0). auto.
          -- apply (Ho a ra HaL). apply elem_of_update_row. by left. }
  destruct (pe_publish ev) as [|err reached|e reached]; [| |done]; eapply Hstep; try reflexivity; set_solver.
Qed.

(** C34. The dispatcher is fair: with no other dispatcher and no crash, the
    rows of a pass are distinct pending rows tried oldest first, whatever the
    broker answers; every pending row is tried, or else the whole batch went
    to that many other rows at least as old.  A row the broker keeps refusing
    takes one turn of each pass and no more. *)
Theorem dispatch_fair batch s :
  NoDup (map fst (ow_rows s)) -> Forall undisturbed (ow_sched s) ->
  exists L, ow_attempts (snd (dispatch_pending_events float_repr batch s)) = ow_attempts s ++ L /\
    is_ok (fst (dispatch_pending_events float_repr batch s)) = true /\
    NoDup (map at_row L) /\ (forall a, a ∈ L -> exists r, (at_row a, r) ∈ ow_rows s /\ pending r = true) /\
    StronglySorted (in_turn (ow_rows s)) L /\
    forall i r, (i, r) ∈ ow_rows s -> pending r = true ->
      i ∈ map at_row L \/
      (length L = batch /\ forall a ra, a ∈ L -> (at_row a, ra) ∈ ow_rows s -> older (at_row a, ra) (i, r)).
Proof.
  intros Hnd Hq. destruct (dispatch_loop_fair batch [] 0 s Hnd Hq) as (L & Ha & Hok & HL & Hs & Hf).
  destruct (dispatch_loop_pass batch [] 0 s Hnd) as (L' & [Ha' Honce _ _ _ _ _] & _).
  fold (dispatch_pending_events float_repr batch s) in Ha, Ha'. rewrite Ha in Ha'. apply app_inv_head in Ha' as <-.
  exists L. split_and!; [done|done|done| |done|]; [intros a HaL; by apply HL|]. intros i r Hin Hp. apply Hf; [done|done|set_solver].
Qed.
End dispatch_theorems.

(** ** Retention theorems *)

Lemma purge_ids_spec batch locked cutoff taken l :
  NoDup (map fst l) ->
  let ids := purge_ids batch locked cutoff taken l in
  length ids <= batch /\ NoDup ids /\
  (forall i, i ∈ ids -> i ∉ taken /\ locked i = false /\ exists r, (i, r) ∈ l /\ purgeable cutoff (i, r) = true) /\
  (forall x, x ∈ l -> purgeable cutoff x = true -> locked (fst x) = false -> fst x ∉ taken -> fst x ∉ ids ->
     length ids = batch /\ forall y, y ∈ l -> fst y ∈ ids -> key_leb published_key y x = true).
Proof.
  intros Hnd. revert taken. induction batch as [|batch IH]; intros taken; simpl.
  { split_and!; [done|constructor|set_solver|]. intros. split; [done|set_solver]. }
  match goal with |- context [oldest published_key ?p l] => destruct (oldest published_key p l) as [[i r]|] eqn:E end.
  - apply oldest_Some in E as (Hin & Hp & Hmin). simpl in Hp.
    apply andb_prop in Hp as [Hp Ht]. apply andb_prop in Hp as [Hp Hl].
    apply negb_true_iff in Ht, Hl. apply bool_decide_eq_false in Ht.
    destruct (IH (i :: taken)) as (Hlen & HndL & Hall & Hord). split_and!.
    + simpl. lia.
    + constructor; [|done]. intros Hi. destruct (Hall i Hi) as [Hni _]. set_solver.
    + intros j [->|Hj]%elem_of_cons; [eauto|]. destruct (Hall j Hj) as (? & ? & ?). set_solver.
    + intros x Hx Hpx Hlx Htx Hix. apply not_elem_of_cons in Hix as [Hxi Hix].
      destruct (Hord x Hx Hpx Hlx ltac:(set_solver) Hix) as [Hlen' Hord']. split; [simpl; lia|].
      intros [j ry] Hy [Hj|Hj]%elem_of_cons; simpl in *; [|by apply (Hord' (j, ry))].
      subst j. rewrite (id_unique _ _ _ _ Hnd Hy Hin). apply Hmin; [done|].
      rewrite Hpx, Hlx, bool_decide_eq_false_2 by done. done.
  - split_and!; [simpl; lia|constructor|set_solver|]. intros x Hx Hpx Hlx Htx _. exfalso.
    pose proof (proj1 (oldest_None _ _ _) E x Hx) as Hs. simpl in Hs.
    rewrite Hpx, Hlx, bool_decide_eq_false_2 in Hs; done.
Qed.

Lemma map_filter_sublist (p : N * outbox_event -> Prop) `{forall x, Decision (p x)} l :
  sublist (map fst (filter p l)) (map fst l).
Proof.
  induction l as [|x l IH]; [constructor|]. simpl. rewrite filter_cons. case_decide; simpl; by constructor.
Qed.

(** Retention removes history only: a call with valid arguments deletes at
    most [batch_size] rows and reports how many; each was published before the
    cutoff and not locked by another dispatcher, so pending rows always stay;
    and an eligible row is passed over only when the whole batch went to rows
    published no later.  Invalid arguments raise and delete nothing. *)
Theorem purge_published_correct retention_days batch_size now locked l :
  NoDup (map fst l) ->
  let '(r, l') := purge_published_events retention_days batch_size now locked l in
  let cutoff := (now - days retention_days)%Z in
  match r with
  | Raise _ => l' = l /\ (retention_days < 0 \/ batch_size < 1)%Z
  | Ok n =>
      (0 <= n <= batch_size)%Z /\ Z.of_nat (length l') = (Z.of_nat (length l) - n)%Z /\
      (forall x, x ∈ l' -> x ∈ l) /\
      (forall x, x ∈ l -> x ∉ l' -> purgeable cutoff x = true /\ locked (fst x) = false) /\
      (forall x, x ∈ l' -> purgeable cutoff x = true -> locked (fst x) = false ->
         n = batch_size /\ forall y, y ∈ l -> y ∉ l' -> key_leb published_key y x = true)
  end.
Proof.
  intros Hnd. unfold purge_published_events.
  destruct (Z.ltb_spec retention_days 0); [auto|]. destruct (Z.ltb_spec batch_size 1); [auto|].
  set (cutoff := (now - days retention_days)%Z).
  destruct (purge_ids_spec (Z.to_nat batch_size) locked cutoff [] l Hnd) as (Hlen & HndI & Hall & Hord).
  set (ids := purge_ids _ _ _ _ _) in *.
  case_decide as He.
  - split_and!; [lia|lia|lia|done|done|]. intros x Hx Hp Hl.
    destruct (Hord x Hx Hp Hl) as [Hl0 _]; [set_solver|rewrite He; set_solver|]. rewrite He in Hl0. simpl in Hl0. lia.
  - set (gone := deletable ids cutoff).
    assert (Hgone : forall x, x ∈ l -> gone x = true <-> fst x ∈ ids).
    { intros [i r] Hx. unfold gone, deletable. simpl. rewrite andb_true_iff, bool_decide_eq_true.
      split; [by intros []|]. intros Hi. split; [done|]. destruct (Hall i Hi) as (_ & _ & r' & Hr' & Hp).
      by rewrite (id_unique _ _ _ _ Hnd Hx Hr'). }
    assert (Hin' : forall x, x ∈ filter (fun x => negb (gone x)) l <-> x ∈ l /\ gone x = false).
    { intros x. rewrite list_elem_of_filter. destruct (gone x); simpl; intuition congruence. }
    assert (Hcount : length (filter (fun x => gone x) l) = length ids).
    { rewrite <- (length_map fst (filter _ l)). apply Permutation_length, NoDup_Permutation; [|done|].
      - eapply sublist_NoDup; [|apply map_filter_sublist]. done.
      - intros i. rewrite list_elem_of_fmap. split.
        + intros (x & -> & Hx). apply list_elem_of_filter in Hx as [Hg Hx]. apply Hgone; [done|]. by destruct (gone x).
        + intros Hi. destruct (Hall i Hi) as (_ & _ & r & Hr & _). exists (i, r). split; [done|].
          apply list_elem_of_filter. split; [|done]. by rewrite (proj2 (Hgone (i, r) Hr) Hi). }
    rewrite Hcount. split_and!; [lia|lia| | | |].
    + clear - Hcount. assert (length (filter (fun x => negb (gone x)) l) + length (filter (fun x => gone x) l) = length l).
      { clear. clearbody gone. induction l as [|x l IH]; [done|]. rewrite !filter_cons. destruct (gone x); simpl; revert IH; simpl; lia. }
      lia.
    + intros x Hx. by apply Hin' in Hx as [].
    + intros [i r] Hx Hx'. assert (Hg : gone (i, r) = true).
      { destruct (gone (i, r)) eqn:E; [done|]. exfalso. apply Hx', Hin'. done. }
      split; [by apply andb_prop in Hg as []|]. by apply (Hall i), (Hgone (i, r) Hx).
    + intros x [Hx Hg]%Hin' Hp Hl.
      assert (Hni : fst x ∉ ids) by (intros Hi; apply (Hgone x Hx) in Hi; congruence).
      destruct (Hord x Hx Hp Hl ltac:(set_solver) Hni) as [Hl' Ho]. split; [lia|].
      intros y Hy Hy'. apply Ho; [done|]. apply (Hgone y Hy). destruct (gone y) eqn:E; [done|].
      exfalso. apply Hy', Hin'. done.
Qed.

(** ** Enqueueing *)

(** A job and its announcement exist together or not at all: enqueueing a
    valid job adds one [QUEUED] row that any worker may claim and one pending
    outbox row, whose routing key is the job type's and whose payload reaches
    the worker as a valid message for that row; an invalid job leaves the
    store untouched because the transaction is aborted. *)
Theorem enqueue_job_atomic `{SchemaValidator} float_repr event_id f incident now st :
  (f_job_id f < 2 ^ 128)%N -> fields_sendable f ->
  match enqueue_job event_id f incident now st with
  | Raise _ => f_job_type f ∉ JOB_TYPES \/ fields_ok f = false
  | Ok st' =>
      exists j r, st_jobs st' = <[f_job_id f := j]> (st_jobs st) /\ st_outbox st' = st_outbox st ++ [(event_id, r)] /\
      j_status j = QUEUED /\ j_attempt j = 1%Z /\ row_wf j /\ (forall t, claimable t j = true) /\
      pending r = true /\ oe_job_id r = f_job_id f /\
      oe_routing_key r = routing_key (queue_names (f_job_type f)) /\
      exists m, from_wire (to_wire float_repr (oe_payload r)) = Some m /\ is_valid job_message_schema m = true /\
        (s ← jget (u "job_id") m; s ← jstr s; uuid_parse s) = Some (f_job_id f)
  end.
Proof.
  intros Hid Hs. unfold enqueue_job. rewrite build_job_message_eq by done.
  case_decide as Ht; [|by left]. destruct (fields_ok f) eqn:Hok; [|by right].
  eexists _, _. simpl. split_and!; try done.
  exists (message_of f). split_and!.
  - apply from_to_wire. by apply message_sendable.
  - by rewrite is_valid_conforms, message_conforms.
  - change (jget (u "job_id") (message_of f)) with (Some (JStr (uuid_str (f_job_id f)))). simpl.
    by apply uuid_parse_str.
Qed.

(** ** Reconnecting *)

Lemma reconnects_bounded backoff attempts :
  (1 <= backoff <= 30)%Z -> Forall (fun w => (1 <= w <= 30)%Z) (reconnects backoff attempts).
Proof.
  revert backoff. induction attempts as [|c attempts IH]; intros b Hb; simpl; [constructor|].
  unfold RECONNECT_BACKOFF_SECONDS, RECONNECT_BACKOFF_MAX_SECONDS.
  constructor; [destruct c; lia|]. apply IH. destruct c; lia.
Qed.

(** ** Witnesses *)

Definition sample_event (created : Z) : outbox_event :=
  mk_outbox_event 77 (u "job.log_triage") JNull (Some created) None 0 None.
Definition sample_pass (o : publish_outcome) : pass_event := mk_pass_event (fun _ => false) 9 o.
Definition sample_oworld : oworld :=
  mk_oworld [(1%N, sample_event 5); (2%N, sample_event 3)] [] []
    [sample_pass (Refused (u "down") false); sample_pass Confirmed].

Lemma dispatch_pass_witness :
  exists L, ow_attempts (snd (dispatch_pending_events (fun _ => []) 50 sample_oworld)) = L /\
    map at_row L = [2%N; 1%N] /\ NoDup (map at_row L).
Proof.
  destruct (dispatch_pass_correct (fun _ => []) 50 sample_oworld) as (L & HL & _ & _).
  { by apply NoDup_by_computation. }
  exists L. pose proof (pass_attempts _ _ _ _ _ HL) as Ha. pose proof (pass_once _ _ _ _ _ HL) as Ho.
  simpl in Ha. rewrite <- Ha in *. split_and!; [reflexivity|reflexivity|exact Ho].
Defined.

Lemma dispatch_fair_witness :
  1%N ∈ map at_row (ow_attempts (snd (dispatch_pending_events (fun _ => []) 50 sample_oworld))).
Proof.
  destruct (dispatch_fair (fun _ => []) 50 sample_oworld) as (L & Ha & _ & _ & _ & _ & Hf).
  - by apply NoDup_by_computation.
  - repeat constructor.
  - destruct (Hf 1%N (sample_event 5)) as [H|[H _]]; [apply list_elem_of_here|reflexivity| |].
    + rewrite Ha. exact H.
    + exfalso. simpl in Ha. rewrite <- Ha in H. discriminate.
Defined.

Definition old_event : outbox_event := mk_outbox_event 77 (u "job.log_triage") JNull (Some 1%Z) (Some 2%Z) 0 None.

Lemma purge_published_witness :
  purge_published_events 0 10 5 (fun _ => false) [(1%N, sample_event 1); (2%N, old_event)] =
    (Ok 1%Z, [(1%N, sample_event 1)]) /\
  purgeable 5 (2%N, old_event) = true.
Proof.
  pose proof (purge_published_correct 0 10 5 (fun _ => false) [(1%N, sample_event 1); (2%N, old_event)]) as H.
  assert (E : purge_published_events 0 10 5 (fun _ => false) [(1%N, sample_event 1); (2%N, old_event)] =
    (Ok 1%Z, [(1%N, sample_event 1)])) by reflexivity.
  split; [exact E|]. rewrite E in H. destruct H as (_ & _ & _ & H & _).
  - by apply NoDup_by_computation.
  - apply (H (2%N, old_event)); [apply list_elem_of_further, list_elem_of_here|].
    intros Hx%list_elem_of_singleton. discriminate.
Defined.

Lemma enqueue_job_witness :
  is_ok (@enqueue_job draft7 5 sample_fields None 0 (mk_store ∅ [])) = true /\ fields_ok sample_fields = true.
Proof.
  pose proof (@enqueue_job_atomic draft7 (fun _ => []) 5 sample_fields None 0 (mk_store ∅ [])) as H.
  split; [|reflexivity]. revert H.
  destruct (@enqueue_job draft7 5 sample_fields None 0 (mk_store ∅ [])) eqn:E; [done|]. intros H. exfalso.
  destruct H as [H|H]; [reflexivity| | |discriminate].
  - exact sample_fields_sendable.
  - apply H. apply list_elem_of_here.
Defined.
