(* ===== verification/Evidence.v ===== *)
(** * Evidence uploads, retention and purging

    Models [apps/api/app/api/v1/routers/evidence.py], [apps/api/app/evidence_lifecycle.py],
    the two sweeps of [apps/api/app/evidence_purge_worker.py] and the storage
    helpers of [apps/api/app/core/storage.py] they use.

    A request handler either commits or raises an [api_error]; a raised error
    carries the state that was committed before it.  The object store is
    third-party: the interface [ObjectStore] says what deleting and listing
    do to other keys.  Storage calls fail as the schedule [ew_faults] says.

    [evidence_step] is what the handlers, the sweeps, the clients' uploads and
    the rest of the system can do.  Attaching a prefill adds a row for an object
    that another row may have already ([step_attach]), so rows are guaranteed
    their bytes as long as they are the [sole] row of their object. *)

From S2P Require Import Prelude PyStr Json Schema Jobs Sweep.

(** ** Data *)

Inductive lifecycle := ACTIVE | PURGE_PENDING | PURGED.
#[global] Instance lifecycle_eq_dec : EqDecision lifecycle.
Proof. solve_decision. Defined.

Record evidence := mk_evidence {
  e_incident : option N;
  e_type : pystr;
  e_bucket : pystr;
  e_key : pystr;
  e_filename : pystr;
  e_mime : option pystr;
  e_size : Z;
  e_sha256 : pystr;
  e_version : option pystr;
  e_uploaded_by : N;
  e_created_at : option usec;
  e_state : lifecycle;
  e_deleted_at : option usec;
}.

#[global] Instance evidence_eq_dec : EqDecision evidence.
Proof. solve_decision. Defined.

Inductive intent_state := OPEN | INTENT_COMPLETED | EXPIRED | CLEANED.
#[global] Instance intent_state_eq_dec : EqDecision intent_state.
Proof. solve_decision. Defined.

Record upload_intent := mk_intent {
  i_incident : N;
  i_created_by : N;
  i_bucket : pystr;
  i_key : pystr;
  i_type : pystr;
  i_filename : pystr;
  i_content_type : option pystr;
  i_byte_size : option Z;
  i_state : intent_state;
  i_expires_at : usec;
  i_evidence : option N;
  i_created_at : option usec;
  i_completed_at : option usec;
}.

(** What [head_object] and the download report about one stored version. *)
Record obj_version := mk_version {
  v_id : option pystr;
  v_size : Z;
  v_content_type : option pystr;
  v_sha256 : pystr;
}.
#[global] Instance obj_version_eq_dec : EqDecision obj_version.
Proof. solve_decision. Defined.

(** A versioned object store. *)
Class ObjectStore (O : Type) := {
  stored : O -> pystr -> pystr -> list obj_version;          (** newest first *)
  delete_object : pystr -> pystr -> option pystr -> O -> O;
  delete_object_versions : pystr -> pystr -> O -> O;
  upload : pystr -> pystr -> obj_version -> O -> O;
  delete_other : forall o b k v b' k', (b', k') <> (b, k) ->
    stored (delete_object b k v o) b' k' = stored o b' k';
  delete_version : forall o b k v, forall x, x ∈ stored (delete_object b k (Some v) o) b k ->
    x ∈ stored o b k /\ v_id x <> Some v;
  delete_versions_other : forall o b k b' k', (b', k') <> (b, k) ->
    stored (delete_object_versions b k o) b' k' = stored o b' k';
  upload_keeps : forall o b k v b' k' x, x ∈ stored o b' k' -> x ∈ stored (upload b k v o) b' k';
}.

(** [intent.state.lower()] *)
Definition intent_state_name (s : intent_state) : pystr :=
  match s with
  | OPEN => u "open" | INTENT_COMPLETED => u "completed" | EXPIRED => u "expired" | CLEANED => u "cleaned"
  end.

(** How a storage call ends: normally, with a [ClientError] and its code, or
    with any other exception; a failing call may still have taken effect. *)
Inductive storage_fault :=
  | StorageOk
  | ClientError (code : pystr) (took_effect : bool)
  | StorageBroken (took_effect : bool).

Record eworld (O : Type) := mk_eworld {
  ew_incidents : list N;
  ew_evidence : list (N * evidence);
  ew_intents : list (N * upload_intent);
  ew_ocr : list N;                     (** evidence ids of the OCR runs *)
  ew_analysis : list N;                (** evidence ids of the analysis runs *)
  ew_snapshots : list json;            (** the report snapshots *)
  ew_store : O;
  ew_faults : list storage_fault;
}.
Arguments mk_eworld {O}.
Arguments ew_incidents {O}. Arguments ew_evidence {O}. Arguments ew_intents {O}. Arguments ew_ocr {O}.
Arguments ew_analysis {O}. Arguments ew_snapshots {O}. Arguments ew_store {O}. Arguments ew_faults {O}.

Inductive api_error :=
  | Http (status : Z) (detail : pystr)
  | EvidenceReferenced (references : list pystr)
  | StorageClientError (code : pystr)
  | StorageError.
#[global] Instance api_error_eq_dec : EqDecision api_error.
Proof. solve_decision. Defined.

(** ** Storage keys *)

Fixpoint split_on (c : Z) (cur : pystr) (s : pystr) : list pystr :=
  match s with
  | [] => [reverse cur]
  | x :: s => if (x =? c)%Z then reverse cur :: split_on c [] s else split_on c (x :: cur) s
  end.

(** [pathlib.PurePath(s).name] *)
Definition path_name (s : pystr) : pystr :=
  default [] (last (filter (fun p => p <> [] /\ p <> [46%Z]) (split_on 47 [] s))).

Definition evidence_subdir (evidence_type : pystr) : pystr :=
  if decide (evidence_type = u "ALERT_SCREENSHOT" \/ evidence_type = u "GRAFANA_SCREENSHOT") then u "alert"
  else if decide (evidence_type = u "LOG") then u "logs"
  else u "supporting".

Definition evidence_object_key (incident_id evidence_type filename : pystr) (upload_id : N) : pystr :=
  let safe_filename := replace_char 47 (u "_") (path_name (replace_char 92 (u "/") filename)) in
  u "incidents/" ++ incident_id ++ u "/" ++ evidence_subdir evidence_type ++ u "/" ++
  uuid_str upload_id ++ u "-" ++ safe_filename.

(** ** References *)

(** [str(value)], where it can equal an identifier. *)
Definition str_scalar (j : json) : option pystr :=
  match j with
  | JStr s => Some s
  | JNull => Some (u "None")
  | JBool true => Some (u "True")
  | JBool false => Some (u "False")
  | JInt n => Some (py_str_int n)
  | _ => None
  end.

Fixpoint contains_evidence_id (value : json) (evidence_id : pystr) : bool :=
  match value with
  | JObj o =>
      bool_decide (str_scalar (default JNull (assoc (u "evidence_id") o)) = Some evidence_id) ||
      existsb (fun kv => contains_evidence_id (snd kv) evidence_id) o
  | JList l => existsb (fun item => contains_evidence_id item evidence_id) l
  | _ => false
  end.

Section evidence.
Context {Store : Type} `{ObjectStore Store}.
Context (bucket : pystr) (max_upload_bytes intent_ttl_seconds : Z).

Abbreviation W := (eworld Store).
Abbreviation EM A := (M W api_error A).

Definition set_evidence (l : list (N * evidence)) (w : W) : W :=
  mk_eworld (ew_incidents w) l (ew_intents w) (ew_ocr w) (ew_analysis w) (ew_snapshots w) (ew_store w) (ew_faults w).
Definition set_intents (l : list (N * upload_intent)) (w : W) : W :=
  mk_eworld (ew_incidents w) (ew_evidence w) l (ew_ocr w) (ew_analysis w) (ew_snapshots w) (ew_store w) (ew_faults w).
Definition set_store (o : Store) (w : W) : W :=
  mk_eworld (ew_incidents w) (ew_evidence w) (ew_intents w) (ew_ocr w) (ew_analysis w) (ew_snapshots w) o (ew_faults w).
Definition set_faults (l : list storage_fault) (w : W) : W :=
  mk_eworld (ew_incidents w) (ew_evidence w) (ew_intents w) (ew_ocr w) (ew_analysis w) (ew_snapshots w) (ew_store w) l.

Definition http {A} (status : Z) (detail : pystr) : EM A := raise (Http status detail).

(** One storage call with effect [f]. *)
Definition storage_call (f : Store -> Store) : EM () := fun w =>
  let '(fl, rest) := match ew_faults w with [] => (StorageOk, []) | fl :: rest => (fl, rest) end in
  let w := set_faults rest w in
  let did := set_store (f (ew_store w)) w in
  match fl with
  | StorageOk => (Ok (), did)
  | ClientError code b => (Raise (StorageClientError code), if b then did else w)
  | StorageBroken b => (Raise StorageError, if b then did else w)
  end.

Definition set_state (s : lifecycle) (deleted : option usec) (e : evidence) : evidence :=
  mk_evidence (e_incident e) (e_type e) (e_bucket e) (e_key e) (e_filename e) (e_mime e) (e_size e) (e_sha256 e)
    (e_version e) (e_uploaded_by e) (e_created_at e) s deleted.

Definition settle_intent (s : intent_state) (ev : option N) (completed : option usec) (i : upload_intent) : upload_intent :=
  mk_intent (i_incident i) (i_created_by i) (i_bucket i) (i_key i) (i_type i) (i_filename i) (i_content_type i)
    (i_byte_size i) s (i_expires_at i) ev (i_created_at i) completed.

Definition get_row {R} (i : N) (l : list (N * R)) : option R := snd <$> find_first (fun x => bool_decide (fst x = i)) l.

(** ** Lifecycle *)

Definition references_for (w : W) (evidence_id : N) : list pystr :=
  (if decide (evidence_id ∈ ew_ocr w) then [u "OCR"] else []) ++
  (if decide (evidence_id ∈ ew_analysis w) then [u "analysis"] else []) ++
  (if existsb (fun snap => contains_evidence_id snap (uuid_str evidence_id)) (ew_snapshots w)
   then [u "historical report snapshot"] else []).

(** The identity of one stored object: bucket, key and version. *)
Definition purge_plan : Type := pystr * pystr * option pystr.
Definition plan_of (e : evidence) : purge_plan := (e_bucket e, e_key e, e_version e).

Definition request_purge (now : usec) (evidence_id : N) (e : evidence) : EM purge_plan :=
  if decide (e_state e = PURGED) then mret (plan_of e)
  else
    w ← get_st;
    let references := references_for w evidence_id in
    if decide (references <> []) then raise (EvidenceReferenced references)
    else
      let deleted := match e_deleted_at e with Some t => Some t | None => Some now end in
      modify_st (fun w => set_evidence (update_row evidence_id (set_state PURGE_PENDING deleted) (ew_evidence w)) w);;
      mret (plan_of e).

Definition missing_codes : list pystr := [u "404"; u "NoSuchKey"; u "NoSuchVersion"; u "NotFound"].

Definition purge_storage (plan : purge_plan) : EM () :=
  let '(b, k, v) := plan in
  try_except (storage_call (delete_object b k v))
    (fun exc => match exc with
                | StorageClientError code => if decide (code ∈ missing_codes) then mret () else raise exc
                | _ => raise exc
                end).

Definition mark_purged (evidence_id : N) : EM () :=
  modify_st (fun w => set_evidence
    (update_row evidence_id (fun e => set_state PURGED (e_deleted_at e) e) (ew_evidence w)) w).

(** ** Request handlers *)

Definition request_upload_url (incident_id upload_id user : N) (evidence_type filename : pystr)
    (content_type : option pystr) (expected : option Z) (now : usec) : EM (N * usec) :=
  w ← get_st;
  if decide (incident_id ∉ ew_incidents w) then http 404 (u "Incident not found")
  else if match expected with Some n => (max_upload_bytes <? n)%Z | None => false end
  then http 413 (u "File exceeds the configured upload limit")
  else
    let key := evidence_object_key (uuid_str incident_id) evidence_type filename upload_id in
    let expires := (now + seconds intent_ttl_seconds)%Z in
    let intent := mk_intent incident_id user bucket key evidence_type filename content_type expected
                    OPEN expires None (Some now) None in
    modify_st (fun w => set_intents (ew_intents w ++ [(upload_id, intent)]) w);;
    mret (upload_id, expires).

Definition head_object (b k : pystr) : EM obj_version := fun w =>
  let '(fl, rest) := match ew_faults w with [] => (StorageOk, []) | fl :: rest => (fl, rest) end in
  let w := set_faults rest w in
  match fl with
  | StorageOk => match stored (ew_store w) b k with
                 | v :: _ => (Ok v, w)
                 | [] => (Raise (StorageClientError (u "404")), w)
                 end
  | ClientError code _ => (Raise (StorageClientError code), w)
  | StorageBroken _ => (Raise StorageError, w)
  end.

(** The checks on the stored object, each of which removes it again. *)
Definition reject_upload {A} (i : upload_intent) (v : obj_version) (status : Z) (detail : pystr) : EM A :=
  storage_call (delete_object (i_bucket i) (i_key i) (v_id v));; http status detail.

Definition mismatched_size (i : upload_intent) (v : obj_version) : bool :=
  match i_byte_size i with Some n => negb (v_size v =? n)%Z | None => false end.
Definition mismatched_type (i : upload_intent) (v : obj_version) : bool :=
  match i_content_type i with
  | Some ct => truthy_str ct && bool_decide (v_content_type v <> Some ct)
  | None => false end.

Definition or_str (x y : option pystr) : option pystr :=
  match x with Some s => if truthy_str s then x else y | None => y end.

(** The evidence row of a completed upload. *)
Definition evidence_of (incident_id user : N) (i : upload_intent) (v : obj_version) (now : usec) : evidence :=
  mk_evidence (Some incident_id) (i_type i) (i_bucket i) (i_key i) (i_filename i)
    (or_str (v_content_type v) (i_content_type i)) (v_size v) (v_sha256 v) (v_id v) user (Some now) ACTIVE None.

Definition complete_upload (incident_id upload_id user evidence_id : N) (now : usec) : EM (N * evidence) :=
  w ← get_st;
  if decide (incident_id ∉ ew_incidents w) then http 404 (u "Incident not found")
  else
  match get_row upload_id (ew_intents w) with
  | None => http 404 (u "Upload intent not found")
  | Some i =>
      if decide (i_incident i <> incident_id) then http 404 (u "Upload intent not found")
      else if decide (i_created_by i <> user) then http 403 (u "Upload intent belongs to another user")
      else
      let existing := if decide (i_state i = INTENT_COMPLETED)
                      then j ← i_evidence i; pair j <$> get_row j (ew_evidence w) else None in
      match existing with
      | Some row => mret row
      | None =>
          if decide (i_state i <> OPEN) then http 409 (u "Upload intent is " ++ intent_state_name (i_state i))
          else if (i_expires_at i <=? now)%Z then
            modify_st (fun w => set_intents (update_row upload_id
              (fun i => settle_intent EXPIRED (i_evidence i) (i_completed_at i) i) (ew_intents w)) w);;
            http 410 (u "Upload intent has expired")
          else
            v ← try_except (head_object (i_bucket i) (i_key i))
                  (fun exc => match exc with
                              | StorageClientError _ => http 400
                                  (u "Object not found in storage — upload must complete before calling this endpoint")
                              | _ => raise exc end);
            if mismatched_size i v then
              reject_upload i v 400 (u "Uploaded object size does not match the upload intent")
            else if mismatched_type i v then
              reject_upload i v 415 (u "Uploaded object MIME type does not match the upload intent")
            else if (max_upload_bytes <? v_size v)%Z then
              reject_upload i v 413 (u "File exceeds the " ++ py_str_int (max_upload_bytes / 1048576) ++ u " MB upload limit")
            else
              storage_call (fun o => o);;
              let row := evidence_of incident_id user i v now in
              modify_st (fun w => set_evidence (ew_evidence w ++ [(evidence_id, row)]) w);;
              modify_st (fun w => set_intents (update_row upload_id
                (settle_intent INTENT_COMPLETED (Some evidence_id) (Some now)) (ew_intents w)) w);;
              mret (evidence_id, row)
      end
  end.

(** The rows a listing shows. *)
Definition list_evidence (incident_id : N) : EM (list (N * evidence)) :=
  w ← get_st;
  if decide (incident_id ∉ ew_incidents w) then http 404 (u "Incident not found")
  else mret (filter (fun x => e_incident (snd x) = Some incident_id /\
               (e_state (snd x) = ACTIVE \/ e_state (snd x) = PURGE_PENDING)) (ew_evidence w)).

Definition get_download_url (evidence_id : N) : EM purge_plan :=
  w ← get_st;
  match get_row evidence_id (ew_evidence w) with
  | None => http 404 (u "Evidence not found")
  | Some e => if decide (e_state e <> ACTIVE) then http 410 (u "Evidence is no longer available")
              else mret (plan_of e)
  end.

Definition delete_evidence (evidence_id : N) (now : usec) : EM () :=
  w ← get_st;
  match get_row evidence_id (ew_evidence w) with
  | None => http 404 (u "Evidence not found")
  | Some e =>
      plan ← try_except (request_purge now evidence_id e)
               (fun exc => match exc with
                           | EvidenceReferenced refs => http 409 (u "evidence is retained by: " ++ py_join (u ", ") refs)
                           | _ => raise exc end);
      try_except (purge_storage plan)
        (fun exc => match exc with
                    | StorageClientError _ => http 503 (u "Evidence cleanup is pending retry")
                    | _ => raise exc end);;
      mark_purged evidence_id
  end.

(** ** Sweeps *)

Definition deleted_key (x : N * evidence) : option Z * option Z := (e_deleted_at (snd x), e_created_at (snd x)).
Definition expiry_key (x : N * upload_intent) : option Z * option Z := (Some (i_expires_at (snd x)), i_created_at (snd x)).

(** [locked] are the rows other workers hold.  The counter is the number of
    purged records. *)
Fixpoint sweep_purges (limit : nat) (locked : N -> bool) (skipped_ids : list N) (completed : Z) (w : W) : Z * W :=
  match limit with
  | O => (completed, w)
  | S limit =>
      match oldest deleted_key (fun x => bool_decide (e_state (snd x) = PURGE_PENDING) &&
              negb (bool_decide (fst x ∈ skipped_ids)) && negb (locked (fst x))) (ew_evidence w) with
      | None => (completed, w)
      | Some (i, e) =>
          if decide (references_for w i <> []) then sweep_purges limit locked (i :: skipped_ids) completed w
          else
            match purge_storage (plan_of e) w with
            | (Ok _, w) => sweep_purges limit locked skipped_ids (completed + 1)%Z (snd (mark_purged i w))
            | (Raise _, w) => sweep_purges limit locked skipped_ids completed w
            end
      end
  end.
Definition sweep_pending_purges (limit : nat) (locked : N -> bool) (w : W) : Z * W := sweep_purges limit locked [] 0 w.

Definition settle_row (i : N) (s : intent_state) (ev : option N) (w : W) : W :=
  set_intents (update_row i (fun x => settle_intent s ev (i_completed_at x) x) (ew_intents w)) w.

(** The evidence row, if any, that owns an object. *)
Definition owner_of (b k : pystr) (w : W) : option N :=
  fst <$> find_first (fun x => bool_decide (e_bucket (snd x) = b) && bool_decide (e_key (snd x) = k)) (ew_evidence w).

(** [commit_ok] says for each iteration whether the commit of the new intent
    state succeeds; a failed commit rolls the row back. *)
Fixpoint sweep_intents (limit : nat) (locked : N -> bool) (commits : list bool) (now : usec)
    (skipped_ids : list N) (settled : Z) (w : W) : Z * W :=
  match limit with
  | O => (settled, w)
  | S limit =>
      let '(commit_ok, commits) := match commits with [] => (true, []) | b :: bs => (b, bs) end in
      match oldest expiry_key (fun x => (bool_decide (i_state (snd x) = OPEN) || bool_decide (i_state (snd x) = EXPIRED)) &&
              (i_expires_at (snd x) <=? now)%Z &&
              negb (bool_decide (fst x ∈ skipped_ids)) && negb (locked (fst x))) (ew_intents w) with
      | None => (settled, w)
      | Some (i, it) =>
          let identity_is_valid := bool_decide (i_bucket it = bucket) &&
            bool_decide (i_key it = evidence_object_key (uuid_str (i_incident it)) (i_type it) (i_filename it) i) in
          match i_evidence it with
          | Some ev =>
              if commit_ok then sweep_intents limit locked commits now skipped_ids (settled + 1)%Z
                                  (settle_row i INTENT_COMPLETED (Some ev) w)
              else sweep_intents limit locked commits now skipped_ids settled w
          | None =>
              if negb identity_is_valid then
                sweep_intents limit locked commits now (i :: skipped_ids) settled
                  (if commit_ok then settle_row i EXPIRED None w else w)
              else match owner_of (i_bucket it) (i_key it) w with
              | Some ev =>
                  if commit_ok then sweep_intents limit locked commits now skipped_ids (settled + 1)%Z
                                      (settle_row i INTENT_COMPLETED (Some ev) w)
                  else sweep_intents limit locked commits now skipped_ids settled w
              | None =>
                  match storage_call (delete_object_versions (i_bucket it) (i_key it)) w with
                  | (Ok _, w) =>
                      if commit_ok then sweep_intents limit locked commits now skipped_ids (settled + 1)%Z
                                          (settle_row i CLEANED None w)
                      else sweep_intents limit locked commits now (i :: skipped_ids) settled w
                  | (Raise _, w) => sweep_intents limit locked commits now (i :: skipped_ids) settled w
                  end
              end
          end
      end
  end.
Definition sweep_abandoned_upload_intents (limit : nat) (locked : N -> bool) (commits : list bool) (now : usec)
    (w : W) : Z * W := sweep_intents limit locked commits now [] 0 w.
End evidence.

(** ** Invariant *)

Section invariant.
Context {Store : Type} `{ObjectStore Store}.
Context (bucket : pystr) (max_upload_bytes intent_ttl_seconds : Z).
Abbreviation W := (eworld Store).

Definition ev_key (x : N * evidence) : pystr * pystr := (e_bucket (snd x), e_key (snd x)).
Definition intent_key (x : N * upload_intent) : pystr * pystr := (i_bucket (snd x), i_key (snd x)).

(** The objects of prefills; an upload never gets such a key. *)
Definition screenshot_key (k : pystr) : bool := startswith (u "prefills/") k.
(** No other row refers to the row's object. *)
Definition sole (w : W) (i : N) (e : evidence) : Prop :=
  forall j e', (j, e') ∈ ew_evidence w -> ev_key (j, e') = ev_key (i, e) -> j = i.

(** Rows are identified, only the screenshot of a prefill has more than one
    evidence row, an upload that may still be completed or cleaned has no
    evidence row, and the bytes of live evidence that shares its object with no
    other row are in the store under their exact version. *)
Record inv (w : W) : Prop := {
  inv_evidence_ids : NoDup (map fst (ew_evidence w));
  inv_intent_ids : NoDup (map fst (ew_intents w));
  inv_keys : forall i e j e', (i, e) ∈ ew_evidence w -> (j, e') ∈ ew_evidence w -> ev_key (j, e') = ev_key (i, e) ->
      j = i \/ screenshot_key (e_key e) = true;
  inv_intent_keys : NoDup (map intent_key (ew_intents w));
  inv_intent_space : forall it, it ∈ ew_intents w -> screenshot_key (i_key (snd it)) = false;
  inv_owned : forall x it, x ∈ ew_evidence w -> it ∈ ew_intents w -> ev_key x = intent_key it ->
      i_state (snd it) = INTENT_COMPLETED;
  inv_live : forall i e, (i, e) ∈ ew_evidence w -> e_state e = ACTIVE -> sole w i e ->
      exists v, v ∈ stored (ew_store w) (e_bucket e) (e_key e) /\ v_id v = e_version e;
}.

(** A row is the only one of its object if it is in a larger table. *)
Lemma sole_mono (w w' : W) i e e0 : (forall k x, (k, x) ∈ ew_evidence w -> exists x', (k, x') ∈ ew_evidence w' /\ ev_key (k, x') = ev_key (k, x)) ->
  ev_key (i, e0) = ev_key (i, e) -> sole w' i e -> sole w i e0.
Proof. intros Hsub Hk Hs j x Hx Hjk. destruct (Hsub j x Hx) as (x' & Hx' & Hxk). apply (Hs j x' Hx'). congruence. Qed.

Definition keeps {A} (m : M W api_error A) : Prop := forall w, inv w -> inv (snd (m w)).

Lemma get_row_elem {R} i (l : list (N * R)) r : get_row i l = Some r -> (i, r) ∈ l.
Proof.
  unfold get_row. destruct (find_first _ l) as [[j r']|] eqn:E; [|done]. intros [= ->].
  apply find_first_Some in E as [Hin Hb]. apply bool_decide_eq_true in Hb. simpl in Hb. by subst.
Qed.

Lemma inv_faults w l : inv w -> inv (set_faults l w).
Proof. by intros []. Qed.

(** Replacing rows that keep their identity and become no more alive. *)
Lemma inv_update_evidence w i f :
  (forall e, e_bucket (f e) = e_bucket e /\ e_key (f e) = e_key e /\ e_version (f e) = e_version e /\
     (e_state (f e) = ACTIVE -> e_state e = ACTIVE)) ->
  inv w -> inv (set_evidence (update_row i f (ew_evidence w)) w).
Proof.
  intros Hf [H1 H2 H3 H4 Hsp H5 H6].
  assert (Hback : forall k x, (k, x) ∈ update_row i f (ew_evidence w) -> exists x', (k, x') ∈ ew_evidence w /\ ev_key (k, x') = ev_key (k, x)).
  { intros k x Hx. apply elem_of_update_row in Hx as [[_ Hx]|(-> & x' & Hx & ->)]; [by exists x|]. exists x'. split; [done|].
    unfold ev_key. simpl. by destruct (Hf x') as (-> & -> & _). }
  assert (Hfwd : forall k x, (k, x) ∈ ew_evidence w -> exists x', (k, x') ∈ update_row i f (ew_evidence w) /\ ev_key (k, x') = ev_key (k, x)).
  { intros k x Hx. destruct (decide (k = i)) as [->|Hne]; [exists (f x)|exists x]; (split; [apply elem_of_update_row; eauto|]); [|done].
    unfold ev_key. simpl. by destruct (Hf x) as (-> & -> & _). }
  split; simpl; rewrite ?update_row_ids; try done.
  - intros k x j y Hx Hy Hk. destruct (Hback k x Hx) as (x' & Hx' & Ex), (Hback j y Hy) as (y' & Hy' & Ey).
    destruct (H3 k x' j y' Hx' Hy') as [|Hs]; [congruence|by left|right]. unfold ev_key in Ex. simpl in Ex. by injection Ex as _ <-.
  - intros [j e] it Hx Hit Hk. apply elem_of_update_row in Hx as [[_ Hx]|(-> & e' & Hx & ->)]; [by apply (H5 (j, e))|].
    apply (H5 (i, e') it); [done|done|]. rewrite <- Hk. unfold ev_key. simpl.
    by destruct (Hf e') as (-> & -> & _).
  - intros j e Hx Hs Hsole. apply elem_of_update_row in Hx as [[_ Hx]|(-> & e' & Hx & ->)].
    + apply (H6 j e Hx Hs). by apply (sole_mono w (set_evidence (update_row i f (ew_evidence w)) w) j e e Hfwd).
    + assert (Hs' : sole w i e').
      { apply (sole_mono w (set_evidence (update_row i f (ew_evidence w)) w) i (f e') e' Hfwd); [|done]. unfold ev_key. simpl. by destruct (Hf e') as (-> & -> & _). }
      destruct (Hf e') as (-> & -> & -> & Hst). apply (H6 i e' Hx); auto.
Qed.

Lemma inv_set_state w i s :
  s <> ACTIVE -> inv w ->
  forall d, inv (set_evidence (update_row i (fun e => set_state s (d e) e) (ew_evidence w)) w).
Proof. intros Hs Hw d. by apply inv_update_evidence. Qed.

(** Intents may move to any state as long as an owned one stays completed. *)
Lemma inv_update_intent w i f :
  (forall x it, x ∈ ew_evidence w -> (i, it) ∈ ew_intents w -> ev_key x = intent_key (i, it) ->
     i_state (f it) = INTENT_COMPLETED) ->
  (forall it, i_bucket (f it) = i_bucket it /\ i_key (f it) = i_key it) ->
  inv w -> inv (set_intents (update_row i f (ew_intents w)) w).
Proof.
  intros Hs Hf [H1 H2 H3 H4 Hsp H5 H6].
  assert (Hkeys : map intent_key (update_row i f (ew_intents w)) = map intent_key (ew_intents w)).
  { unfold update_row. rewrite map_map. apply map_ext. intros [j e]. case_decide; [|done].
    unfold intent_key. simpl. by destruct (Hf e) as (-> & ->). }
  split; simpl; rewrite ?update_row_ids, ?Hkeys; try done.
  { intros [j it] Hit. apply elem_of_update_row in Hit as [[_ Hit]|(-> & it' & Hit & ->)]; [by apply (Hsp (j, it))|].
    simpl. destruct (Hf it') as (_ & ->). by apply (Hsp (i, it')). }
  intros x [j it] Hx Hit Hk. apply elem_of_update_row in Hit as [[_ Hit]|(-> & it' & Hit & ->)].
  - by apply (H5 x (j, it)).
  - simpl. apply (Hs x it' Hx Hit). rewrite Hk. unfold intent_key. simpl. by destruct (Hf it') as (-> & ->).
Qed.

(** The store may change at keys that no live evidence owns. *)
Lemma inv_set_store w o :
  (forall i e, (i, e) ∈ ew_evidence w -> e_state e = ACTIVE -> sole w i e ->
     stored o (e_bucket e) (e_key e) = stored (ew_store w) (e_bucket e) (e_key e)) ->
  inv w -> inv (set_store o w).
Proof.
  intros Ho [H1 H2 H3 H4 Hsp H5 H6]. split; try done. simpl. intros i e Hin Hs Hsole. rewrite (Ho i e Hin Hs Hsole). by apply (H6 i).
Qed.

Lemma storage_call_cases (f : Store -> Store) w :
  exists faults o, snd (storage_call f w) = set_store o (set_faults faults w) /\
    (o = f (ew_store w) \/ o = ew_store w) /\ (fst (storage_call f w) = Ok () -> o = f (ew_store w)).
Proof.
  unfold storage_call. destruct (ew_faults w) as [|[|code []|[]] rest] eqn:E.
  all: eexists _, _; split; [unfold set_faults, set_store; simpl; reflexivity|]; simpl; split; try done; auto.
Qed.

Lemma storage_call_inv f w :
  (forall i e, (i, e) ∈ ew_evidence w -> e_state e = ACTIVE -> sole w i e ->
     stored (f (ew_store w)) (e_bucket e) (e_key e) = stored (ew_store w) (e_bucket e) (e_key e)) ->
  inv w -> inv (snd (storage_call f w)).
Proof.
  intros Hf Hw. destruct (storage_call_cases f w) as (fl & o & -> & [-> | ->] & _);
    (apply inv_set_store; [|by apply inv_faults]); simpl; auto.
Qed.

(** An object that is no live evidence's own may be deleted. *)
Definition unowned (b k : pystr) (w : W) : Prop :=
  forall i e, (i, e) ∈ ew_evidence w -> e_state e = ACTIVE -> sole w i e -> (e_bucket e, e_key e) <> (b, k).

Lemma delete_inv b k v w : unowned b k w -> inv w -> inv (snd (storage_call (delete_object b k v) w)).
Proof. intros Hu. apply storage_call_inv. intros i e Hin Hs Hsole. apply delete_other. by apply (Hu i). Qed.

Lemma unowned_purged w i e : inv w -> (i, e) ∈ ew_evidence w -> e_state e <> ACTIVE -> unowned (e_bucket e) (e_key e) w.
Proof.
  intros Hw Hin Hs j e' Hin' Hs' Hsole Hk. assert (i = j) as <- by (by apply (Hsole i e)). apply Hs.
  by rewrite (id_unique _ _ _ _ (inv_evidence_ids w Hw) Hin Hin').
Qed.

Lemma unowned_open w i it : inv w -> (i, it) ∈ ew_intents w -> i_state it <> INTENT_COMPLETED ->
  unowned (i_bucket it) (i_key it) w.
Proof. intros Hw Hin Hs j e Hin' Hs' _ Hk. apply Hs. by apply (inv_owned w Hw (j, e) (i, it)). Qed.

Lemma purge_storage_inv b k v w : unowned b k w -> inv w -> inv (snd (purge_storage (b, k, v) w)).
Proof.
  intros Hu Hw. pose proof (delete_inv b k v w Hu Hw) as Hd. unfold purge_storage, try_except.
  destruct (storage_call _ w) as [[[]|[| |code|]] w']; simpl in *; try done. by case_decide.
Qed.

Lemma purge_storage_rows plan w :
  ew_evidence (snd (purge_storage plan w)) = ew_evidence w /\
  ew_intents (snd (purge_storage plan w)) = ew_intents w /\
  ew_ocr (snd (purge_storage plan w)) = ew_ocr w /\ ew_analysis (snd (purge_storage plan w)) = ew_analysis w /\
  ew_snapshots (snd (purge_storage plan w)) = ew_snapshots w.
Proof.
  destruct plan as [[b k] v]. unfold purge_storage, try_except.
  destruct (storage_call_cases (delete_object b k v) w) as (fl & o & Hs & _).
  destruct (storage_call _ w) as [[[]|[| |code|]] w']; simpl in *; subst w'; try done. by case_decide.
Qed.

(** *** Handlers *)

Lemma request_purge_inv now i e w : inv w -> inv (snd (request_purge now i e w)).
Proof.
  intros Hw. unfold request_purge. case_decide; [done|]. run_simpl. case_decide; simpl; [done|].
  by apply (inv_set_state w i PURGE_PENDING ltac:(done) Hw (fun _ => match e_deleted_at e with Some t => Some t | None => Some now end)).
Qed.

(** A granted purge leaves its row dead. *)
Lemma request_purge_row now i e (w : W) plan w' :
  (i, e) ∈ ew_evidence w -> request_purge now i e w = (Ok plan, w') ->
  plan = plan_of e /\ exists e', (i, e') ∈ ew_evidence w' /\ e_state e' <> ACTIVE /\ plan_of e' = plan_of e.
Proof.
  intros Hin. unfold request_purge. case_decide as Hp.
  - intros [= <- <-]. split; [done|]. exists e. rewrite Hp. done.
  - run_simpl. case_decide; [done|]. intros [= <- <-]. split; [done|].
    eexists. split; [apply elem_of_update_row; right; split; [done|exists e; done]|]. done.
Qed.

Lemma delete_evidence_inv i now : keeps (delete_evidence i now).
Proof.
  intros w Hw. unfold delete_evidence, mbind at 1, M_bind at 1, get_st.
  destruct (get_row i (ew_evidence w)) as [e|] eqn:Hget; [|done].
  apply get_row_elem in Hget. unfold mbind at 1, M_bind at 1, try_except at 1.
  pose proof (request_purge_inv now i e w Hw) as Hr.
  destruct (request_purge now i e w) as [[plan|x] w1] eqn:E; simpl in Hr; [|by destruct x].
  destruct (request_purge_row _ _ _ _ _ _ Hget E) as (-> & e' & Hin' & Hs' & Hpl).
  unfold plan_of in Hpl. injection Hpl as Hb Hk Hv.
  pose proof (purge_storage_inv (e_bucket e') (e_key e') (e_version e') w1 (unowned_purged w1 i e' Hr Hin' Hs') Hr) as Hd.
  rewrite Hb, Hk, Hv in Hd. fold (plan_of e) in Hd.
  unfold mbind, M_bind, try_except. destruct (purge_storage (plan_of e) w1) as [[[]|x] w2]; simpl in Hd;
    [|by destruct x].
  by apply (inv_set_state w2 i PURGED ltac:(done) Hd e_deleted_at).
Qed.

Lemma request_upload_inv incident upload user ty fn ct n now w :
  let key := evidence_object_key (uuid_str incident) ty fn upload in
  inv w -> upload ∉ map fst (ew_intents w) -> (bucket, key) ∉ map intent_key (ew_intents w) ->
  (bucket, key) ∉ map ev_key (ew_evidence w) ->
  inv (snd (request_upload_url bucket max_upload_bytes intent_ttl_seconds incident upload user ty fn ct n now w)).
Proof.
  intros key Hw Hi Hk Hek. unfold request_upload_url, mbind, M_bind, get_st.
  case_decide; [done|]. case_match; [done|]. destruct Hw as [I1 I2 I3 I4 Isp I5 I6]. split; simpl; try done.
  - rewrite map_app. apply NoDup_app. split_and!; [done|set_solver|apply NoDup_singleton].
  - rewrite map_app. apply NoDup_app. split_and!; [done| |apply NoDup_singleton].
    intros x Hx. simpl. intros ->%list_elem_of_singleton. apply Hk. exact Hx.
  - intros it [Hit| ->%list_elem_of_singleton]%elem_of_app; [by apply Isp|]. reflexivity.
  - intros x it Hx [Hit|Hit]%elem_of_app Hxk; [by apply (I5 x)|].
    apply list_elem_of_singleton in Hit as ->. exfalso. apply Hek. unfold intent_key in Hxk. simpl in Hxk.
    fold key in Hxk. rewrite <- Hxk. by apply list_elem_of_fmap_2.
Qed.

Lemma reject_upload_inv {A} i it v status detail w :
  inv w -> (i, it) ∈ ew_intents w -> i_state it <> INTENT_COMPLETED ->
  inv (snd (reject_upload it v status detail w : result api_error A * W)).
Proof.
  intros Hw Hin Hs. unfold reject_upload, mbind, M_bind.
  pose proof (delete_inv (i_bucket it) (i_key it) (v_id v) w (unowned_open w i it Hw Hin Hs) Hw) as Hd.
  by destruct (storage_call _ w) as [[[]|x] w1].
Qed.

Lemma head_object_spec b k w :
  exists faults, snd (head_object b k w) = set_faults faults w /\
    forall v, fst (head_object b k w) = Ok v -> v ∈ stored (ew_store w) b k.
Proof.
  unfold head_object. destruct (ew_faults w) as [|[|code c|c] rest].
  all: try (eexists; split; [reflexivity|done]).
  all: simpl; destruct (stored (ew_store w) b k) as [|v l]; eexists; (split; [reflexivity|]); intros v' [= <-]; set_solver.
Qed.

Lemma complete_upload_inv incident upload user ev now w :
  inv w -> ev ∉ map fst (ew_evidence w) ->
  inv (snd (complete_upload max_upload_bytes incident upload user ev now w)).
Proof.
  intros Hw Hev. unfold complete_upload, mbind at 1, M_bind at 1, get_st.
  case_decide; [done|]. destruct (get_row upload (ew_intents w)) as [it|] eqn:Hget; [|done].
  apply get_row_elem in Hget. case_decide; [done|]. case_decide; [done|].
  destruct (if decide (i_state it = INTENT_COMPLETED) then _ else None); [done|].
  destruct (decide (i_state it <> OPEN)) as [|Ho]; [done|]. apply dec_stable in Ho.
  assert (Hs : i_state it <> INTENT_COMPLETED) by congruence.
  destruct (i_expires_at it <=? now)%Z.
  { unfold mbind, M_bind. simpl. apply inv_update_intent; [|done|done].
    intros x it' Hx Hit' Hk. exfalso. apply Hs.
    rewrite (id_unique _ _ _ _ (inv_intent_ids w Hw) Hget Hit'). by apply (inv_owned w Hw x (upload, it')). }
  unfold mbind at 1, M_bind at 1, try_except at 1.
  destruct (head_object_spec (i_bucket it) (i_key it) w) as (fl & Hfl & Hv).
  destruct (head_object (i_bucket it) (i_key it) w) as [[v|x] w1]; simpl in Hfl, Hv; subst w1.
  2: { destruct x; simpl; by apply inv_faults. }
  specialize (Hv v eq_refl). assert (Hw1 : inv (set_faults fl w)) by by apply inv_faults.
  repeat match goal with |- context [if ?b then reject_upload _ _ _ _ else _] =>
    destruct b; [by apply (reject_upload_inv upload it)|] end.
  unfold mbind at 1, M_bind at 1.
  destruct (storage_call_cases (fun o => o) (set_faults fl w)) as (fl2 & o & Hsc & Ho' & _).
  assert (o = ew_store w) as -> by (destruct Ho' as [-> | ->]; done).
  assert (Hw2 : inv (set_store (ew_store w) (set_faults fl2 (set_faults fl w)))).
  { apply inv_set_store; [done|]. by apply inv_faults. }
  destruct (storage_call (fun o => o) (set_faults fl w)) as [[[]|x] w2]; simpl in Hsc; subst w2; [|done].
  unfold mbind, M_bind. cbn [fst snd modify_st].
  assert (Hfresh : (i_bucket it, i_key it) ∉ map ev_key (ew_evidence w)).
  { intros (x & Hx & Hin)%list_elem_of_fmap. apply Hs. by apply (inv_owned w Hw x (upload, it)). }
  destruct Hw as [I1 I2 I3 I4 Isp I5 I6]. split; simpl; rewrite ?update_row_ids; try done.
  - rewrite map_app. apply NoDup_app. split_and!; [done|set_solver|apply NoDup_singleton].
  - assert (Hno : forall j x, (j, x) ∈ ew_evidence w -> ev_key (j, x) <> (i_bucket it, i_key it)).
    { intros j x Hx Hk. apply Hfresh. rewrite <- Hk. by apply list_elem_of_fmap_2. }
    intros j x k y [Hx|[= -> ->]%list_elem_of_singleton]%elem_of_app [Hy|[= -> ->]%list_elem_of_singleton]%elem_of_app Hk;
      [by apply (I3 j x k y)| | |by left]; exfalso; [by apply (Hno j x)|by apply (Hno k y)].
  - assert (map intent_key (update_row upload (settle_intent INTENT_COMPLETED (Some ev) (Some now)) (ew_intents w)) =
      map intent_key (ew_intents w)) as ->; [|done].
    unfold update_row. rewrite map_map. apply map_ext. intros [j e]. by case_decide.
  - intros [j it'] Hit'. apply elem_of_update_row in Hit' as [[_ Hit']|(-> & it2 & Hit2 & ->)]; [by apply (Isp (j, it'))|by apply (Isp (upload, it2))].
  - intros x [j it'] Hx Hit' Hk. apply elem_of_update_row in Hit' as [[Hne Hit']|(-> & it2 & Hit2 & ->)]; [|done].
    apply elem_of_app in Hx as [Hx|Hx]; [by apply (I5 x (j, it'))|]. apply list_elem_of_singleton in Hx as ->.
    exfalso. apply Hne. enough ((j, it') = (upload, it)) by congruence.
    apply (list_key_unique intent_key (ew_intents w)); [done|done|done|by rewrite <- Hk].
  - intros j e [Hin|Hin]%elem_of_app Hact Hsole.
    + apply (I6 j e Hin Hact). eapply sole_mono; [|done|exact Hsole]. intros k x Hx. exists x. split; [by apply elem_of_app; left|done].
    + apply list_elem_of_singleton in Hin as [= -> ->]. simpl. by exists v.
Qed.

(** *** Sweeps *)

Definition pending_row (x : N * evidence) : bool := bool_decide (e_state (snd x) = PURGE_PENDING).

Lemma oldest_pending (limit_skipped : list N) locked (w : W) i e :
  oldest deleted_key (fun x => bool_decide (e_state (snd x) = PURGE_PENDING) &&
    negb (bool_decide (fst x ∈ limit_skipped)) && negb (locked (fst x))) (ew_evidence w) = Some (i, e) ->
  (i, e) ∈ ew_evidence w /\ e_state e = PURGE_PENDING /\ i ∉ limit_skipped /\ locked i = false.
Proof.
  intros (Hin & Hp & _)%oldest_Some. simpl in Hp.
  apply andb_prop in Hp as [Hp Hl]. apply andb_prop in Hp as [Hp Hs].
  apply bool_decide_eq_true in Hp. apply negb_true_iff in Hl. apply negb_true_iff, bool_decide_eq_false in Hs. done.
Qed.

(** A tombstone that nothing refers to and nobody works on. *)
Definition due (locked : N -> bool) (w : W) (x : N * evidence) : Prop :=
  e_state (snd x) = PURGE_PENDING /\ references_for w (fst x) = [] /\ locked (fst x) = false.

(** What one sweep may do: rows that are not due stay, a purged row was due,
    and only objects of due rows are touched. *)
Record swept (locked : N -> bool) (w w' : W) (n : Z) : Prop := {
  swept_refs : forall i, references_for w' i = references_for w i;
  swept_kept : forall x, x ∈ ew_evidence w -> ~ due locked w x -> x ∈ ew_evidence w';
  swept_bytes : forall b k, (forall x, x ∈ ew_evidence w -> ev_key x = (b, k) -> ~ due locked w x) ->
      stored (ew_store w') b k = stored (ew_store w) b k;
  swept_rows : forall i e', (i, e') ∈ ew_evidence w' -> exists e, (i, e) ∈ ew_evidence w /\
      (e' = e \/ (due locked w (i, e) /\ e' = set_state PURGED (e_deleted_at e) e));
  swept_count : n = (Z.of_nat (length (filter pending_row (ew_evidence w))) -
                     Z.of_nat (length (filter pending_row (ew_evidence w'))))%Z;
}.

Lemma references_for_ext (w w' : W) i :
  ew_ocr w' = ew_ocr w -> ew_analysis w' = ew_analysis w -> ew_snapshots w' = ew_snapshots w ->
  references_for w' i = references_for w i.
Proof. unfold references_for. by intros -> -> ->. Qed.

Lemma swept_refl locked (w : W) : swept locked w w 0.
Proof. split; [done|done|done|eauto|lia]. Qed.

Lemma filter_update_miss i (f : evidence -> evidence) l :
  i ∉ map fst l -> update_row i f l = l.
Proof.
  induction l as [|[j e] l IH]; [done|]. simpl. intros Hn. rewrite decide_False by set_solver.
  f_equal. apply IH. set_solver.
Qed.

Lemma filter_update_purged i e d l :
  NoDup (map fst l) -> (i, e) ∈ l -> e_state e = PURGE_PENDING ->
  length (filter pending_row l) = S (length (filter pending_row (update_row i (set_state PURGED d) l))).
Proof.
  induction l as [|[j e'] l IH]; simpl; [set_solver|]. intros [Hn Hnd]%NoDup_cons Hin Hs.
  apply elem_of_cons in Hin as [[= <- <-]|Hin].
  - rewrite decide_True by done. rewrite filter_update_miss by done.
    assert (Hp : pending_row (i, e) = true) by (by apply bool_decide_eq_true).
    rewrite filter_cons_True by (by rewrite Hp). rewrite filter_cons_False; [done|].
    by intros [].
  - assert (i ∈ map fst l) by (change i with (fst (i, e)); by apply list_elem_of_fmap_2).
    rewrite decide_False by (intros ->; done). rewrite !filter_cons.
    specialize (IH Hnd Hin Hs). destruct (decide (pending_row (j, e'))); simpl; lia.
Qed.

(** A purge attempt touches one object. *)
Lemma purge_storage_other e (w : W) b k : (b, k) <> (e_bucket e, e_key e) ->
  stored (ew_store (snd (purge_storage (plan_of e) w))) b k = stored (ew_store w) b k.
Proof.
  intros Hne. unfold purge_storage, plan_of, try_except.
  destruct (storage_call_cases (delete_object (e_bucket e) (e_key e) (e_version e)) w) as (fl & o & Hsc & Hor & _).
  assert (stored o b k = stored (ew_store w) b k) as Hob by (destruct Hor as [-> | ->]; [by apply delete_other|done]).
  destruct (storage_call _ w) as [[[]|[| |code|]] w2]; simpl in Hsc; subst w2; try done. by case_decide.
Qed.

Lemma swept_step locked (w w1 w' : W) i e n :
  NoDup (map fst (ew_evidence w)) -> (i, e) ∈ ew_evidence w -> due locked w (i, e) ->
  snd (purge_storage (plan_of e) w) = w1 -> swept locked (snd (mark_purged i w1)) w' n -> swept locked w w' (n + 1).
Proof.
  intros Hnd Hin Hdue Hp [Hr Hk Hb Hrow Hc].
  pose proof (purge_storage_other e w) as Hst. destruct (purge_storage_rows (plan_of e) w) as (Hev & _ & Ho & Ha & Hsn).
  rewrite Hp in Hst, Hev, Ho, Ha, Hsn. unfold mark_purged in *. simpl in *. set (w2 := set_evidence _ w1) in *.
  assert (Hrefs : forall j, references_for w2 j = references_for w j) by (intros; by apply references_for_ext).
  assert (Hdues : forall x, due locked w2 x <-> due locked w x) by (intros x; unfold due; by rewrite Hrefs).
  assert (Hone : forall e', (i, e') ∈ ew_evidence w -> e' = e) by (intros e' He'; exact (id_unique _ _ _ _ Hnd He' Hin)).
  split.
  - intros j. by rewrite Hr, Hrefs.
  - intros [j e'] Hin' Hnot. apply Hk; [|by rewrite Hdues]. unfold w2. simpl. rewrite Hev. apply elem_of_update_row. left. split; [|done].
    intros ->. apply Hnot. by rewrite (Hone _ Hin').
  - intros b k Hnone. rewrite Hb.
    + unfold w2. simpl. apply Hst. intros Hkey. by apply (Hnone (i, e) Hin).
    + intros [j e'] Hin' Hkey. rewrite Hdues. unfold w2 in Hin'. simpl in Hin'. rewrite Hev in Hin'.
      apply elem_of_update_row in Hin' as [[_ Hin']|(-> & e0 & _ & ->)]; [by apply Hnone|]. by intros [? _].
  - intros j e' Hin'. destruct (Hrow j e' Hin') as (e1 & Hin1 & Hor). unfold w2 in Hin1. simpl in Hin1.
    rewrite Hev in Hin1. apply elem_of_update_row in Hin1 as [[Hne Hin1]|(-> & e0 & Hin0 & ->)].
    + exists e1. split; [done|]. by rewrite Hdues in Hor.
    + exists e0. split; [done|]. destruct Hor as [->|((Hs' & _) & _)]; [|done]. right. by rewrite (Hone _ Hin0).
  - rewrite Hc. unfold w2. simpl. rewrite Hev. destruct Hdue as (Hs & _ & _). simpl in Hs.
    rewrite (filter_update_purged i e (e_deleted_at e) (ew_evidence w) Hnd Hin Hs).
    assert (update_row i (fun e0 => set_state PURGED (e_deleted_at e0) e0) (ew_evidence w) =
      update_row i (set_state PURGED (e_deleted_at e)) (ew_evidence w)) as ->; [|lia].
    unfold update_row. apply list_fmap_ext. intros pos [j e0] Hj. case_decide as Hji; [|done].
    apply list_elem_of_lookup_2 in Hj. rewrite Hji in Hj |- *. by rewrite (Hone _ Hj).
Qed.

(** A failed attempt changes no row, and only the bytes of the due object. *)
Lemma swept_failed locked (w w1 w' : W) i e n :
  (i, e) ∈ ew_evidence w -> due locked w (i, e) -> snd (purge_storage (plan_of e) w) = w1 -> swept locked w1 w' n -> swept locked w w' n.
Proof.
  intros Hin Hdue Hp [Hr Hk Hb Hrow Hc].
  pose proof (purge_storage_other e w) as Hst. destruct (purge_storage_rows (plan_of e) w) as (Hev & _ & Ho & Ha & Hsn).
  rewrite Hp in Hst, Hev, Ho, Ha, Hsn.
  assert (Hrefs : forall j, references_for w1 j = references_for w j) by (intros; by apply references_for_ext).
  assert (Hdues : forall x, due locked w1 x <-> due locked w x) by (intros x; unfold due; by rewrite Hrefs).
  split.
  - intros j. by rewrite Hr, Hrefs.
  - intros x Hx Hnot. apply Hk; [by rewrite Hev|by rewrite Hdues].
  - intros b k Hnone. rewrite Hb; [apply Hst; intros Hkey; by apply (Hnone (i, e) Hin)|].
    intros x Hx Hkey. rewrite Hdues. apply Hnone; [by rewrite <- Hev|done].
  - intros j e' Hin'. destruct (Hrow j e' Hin') as (e1 & Hin1 & Hor). rewrite Hev in Hin1.
    exists e1. by rewrite Hdues in Hor.
  - by rewrite Hc, Hev.
Qed.

Lemma sweep_purges_spec limit locked skipped n w : NoDup (map fst (ew_evidence w)) ->
  let '(n', w') := sweep_purges limit locked skipped n w in (inv w -> inv w') /\ swept locked w w' (n' - n).
Proof.
  revert skipped n w. induction limit as [|limit IH]; intros skipped n w Hnd; cbn [sweep_purges].
  { split; [done|]. rewrite Z.sub_diag. apply swept_refl. }
  destruct (oldest _ _ _) as [[i e]|] eqn:E.
  2: { split; [done|]. rewrite Z.sub_diag. apply swept_refl. }
  apply oldest_pending in E as (Hin & Hs & _ & Hl). case_decide as Href; [by apply IH|].
  assert (Hdue : due locked w (i, e)) by done.
  assert (Hw1 : inv w -> inv (snd (purge_storage (plan_of e) w))).
  { intros Hw. apply purge_storage_inv; [|done]. apply (unowned_purged w i e); [done|done|congruence]. }
  destruct (purge_storage_rows (plan_of e) w) as (Hev & _).
  destruct (purge_storage (plan_of e) w) as [[[]|x] w1] eqn:Hp; simpl in Hw1, Hev.
  - assert (Hw2 : inv w -> inv (snd (mark_purged i w1))).
    { intros Hw. apply (inv_set_state w1 i PURGED ltac:(done) (Hw1 Hw) e_deleted_at). }
    specialize (IH skipped (n + 1)%Z (snd (mark_purged i w1))). destruct (sweep_purges _ _ _ _ _) as [n' w'].
    destruct IH as [Hi Hsw]; [simpl; by rewrite update_row_ids, Hev|]. split; [auto|].
    replace (n' - n)%Z with ((n' - (n + 1)) + 1)%Z by lia. eapply swept_step; [exact Hnd|exact Hin|done|by rewrite Hp|exact Hsw].
  - specialize (IH skipped n w1). destruct (sweep_purges _ _ _ _ _) as [n' w'].
    destruct IH as [Hi Hsw]; [by rewrite Hev|]. split; [auto|]. eapply swept_failed; [exact Hin|done|by rewrite Hp|exact Hsw].
Qed.

Lemma find_first_spec {A} (p : A -> bool) l x : find_first p l = Some x -> x ∈ l /\ p x = true.
Proof. apply find_first_Some. Qed.

Lemma owner_of_Some b k (w : W) j : owner_of b k w = Some j -> exists e, (j, e) ∈ ew_evidence w /\ e_bucket e = b /\ e_key e = k.
Proof.
  unfold owner_of. destruct (find_first _ _) as [[j' e]|] eqn:E; [|done]. intros [= ->].
  apply find_first_Some in E as [Hin Hb]. simpl in Hb.
  apply andb_prop in Hb as [Hb%bool_decide_eq_true Hk%bool_decide_eq_true]. eauto.
Qed.

Lemma owner_of_None b k (w : W) : owner_of b k w = None -> forall j e, (j, e) ∈ ew_evidence w -> (e_bucket e, e_key e) <> (b, k).
Proof.
  unfold owner_of. destruct (find_first _ _) eqn:E; [done|]. intros _ j e Hin [= Hb Hk].
  pose proof (proj1 (find_first_None _ _) E (j, e) Hin) as Hf. simpl in Hf.
  rewrite !bool_decide_eq_true_2 in Hf by done. done.
Qed.

Lemma settle_row_inv i it s ev w :
  inv w -> (i, it) ∈ ew_intents w ->
  s = INTENT_COMPLETED \/ (forall x, x ∈ ew_evidence w -> ev_key x <> intent_key (i, it)) ->
  inv (settle_row i s ev w).
Proof.
  intros Hw Hin Hor. unfold settle_row. apply inv_update_intent; [|done|done].
  intros x it' Hx Hit' Hk. rewrite (id_unique _ _ _ _ (inv_intent_ids w Hw) Hit' Hin) in Hk.
  destruct Hor as [->|Hno]; [done|]. by destruct (Hno x Hx).
Qed.

Lemma sweep_intents_inv limit locked commits now skipped n w :
  inv w -> inv (snd (sweep_intents bucket limit locked commits now skipped n w)).
Proof.
  revert commits skipped n w. induction limit as [|limit IH]; intros commits skipped n w Hw; simpl; [done|].
  destruct (match commits with [] => (true, []) | b :: bs => (b, bs) end) as [ok commits'].
  destruct (oldest _ _ _) as [[i it]|] eqn:E; [|done].
  apply oldest_Some in E as (Hin & Hp & _). simpl in Hp. apply andb_prop in Hp as [Hp _].
  apply andb_prop in Hp as [Hp _]. apply andb_prop in Hp as [Hp _].
  assert (Hs : i_state it <> INTENT_COMPLETED).
  { apply orb_prop in Hp as [Hst%bool_decide_eq_true|Hst%bool_decide_eq_true]; by rewrite Hst. }
  assert (Hfree : forall x, x ∈ ew_evidence w -> ev_key x <> intent_key (i, it)).
  { intros x Hx Hk. apply Hs. by apply (inv_owned w Hw x (i, it)). }
  destruct (i_evidence it) as [ev|].
  { destruct ok; apply IH; [|done]. eapply settle_row_inv; eauto. }
  case_match.
  { destruct ok; apply IH; [|done]. eapply settle_row_inv; eauto. }
  destruct (owner_of (i_bucket it) (i_key it) w) as [ev|] eqn:Hown.
  { destruct ok; apply IH; [|done]. eapply settle_row_inv; eauto. }
  assert (Hw1 : inv (snd (storage_call (delete_object_versions (i_bucket it) (i_key it)) w))).
  { apply storage_call_inv; [|done]. intros j e Hj Ha _. apply delete_versions_other.
    by apply (owner_of_None _ _ _ Hown j). }
  destruct (storage_call_cases (delete_object_versions (i_bucket it) (i_key it)) w) as (fl & o & Hsc & _).
  destruct (storage_call _ w) as [[[]|x] w1]; simpl in Hw1, Hsc; subst w1; [|by apply IH].
  destruct ok; apply IH; [|done]. eapply settle_row_inv; [done|exact Hin|]. by right.
Qed.

(** *** Reachable states *)

(** Everything that happens to the evidence tables and the store.  Upload ids
    are fresh random UUIDs, so a new key belongs to no row; evidence ids are
    fresh keys.  [step_attach] records a prefill's screenshot, which may have a
    row already; [step_tombstone], [step_purge] and [step_mark] are the
    statements of a deletion one by one, since others may commit between them;
    [step_env] covers the other parts of the system: incidents,
    references and schedules change at will, intents may be deleted with their
    incident, and a tombstone or a live row may lose its incident. *)
Definition same_but_incident (x y : N * evidence) : Prop :=
  fst x = fst y /\ ev_key x = ev_key y /\ e_version (snd x) = e_version (snd y) /\ e_state (snd x) = e_state (snd y).

Inductive evidence_step : W -> W -> Prop :=
  | step_upload w b k v : evidence_step w (set_store (upload b k v (ew_store w)) w)
  | step_request w incident up user ty fn ct n now :
      up ∉ map fst (ew_intents w) ->
      (bucket, evidence_object_key (uuid_str incident) ty fn up) ∉ map intent_key (ew_intents w) ->
      (bucket, evidence_object_key (uuid_str incident) ty fn up) ∉ map ev_key (ew_evidence w) ->
      evidence_step w (snd (request_upload_url bucket max_upload_bytes intent_ttl_seconds incident up user ty fn ct n now w))
  | step_complete w incident up user ev now : ev ∉ map fst (ew_evidence w) ->
      evidence_step w (snd (complete_upload max_upload_bytes incident up user ev now w))
  | step_attach w ev e v : ev ∉ map fst (ew_evidence w) -> screenshot_key (e_key e) = true ->
      v ∈ stored (ew_store w) (e_bucket e) (e_key e) -> e_version e = v_id v ->
      evidence_step w (set_evidence (ew_evidence w ++ [(ev, e)]) w)
  | step_tombstone w i e now : evidence_step w (snd (request_purge now i e w))
  | step_purge w i e : (i, e) ∈ ew_evidence w -> e_state e <> ACTIVE -> evidence_step w (snd (purge_storage (plan_of e) w))
  | step_mark w i : evidence_step w (snd (mark_purged i w))
  | step_delete w i now : evidence_step w (snd (delete_evidence i now w))
  | step_sweep_purges w limit locked : evidence_step w (snd (sweep_pending_purges limit locked w))
  | step_sweep_intents w limit locked commits now :
      evidence_step w (snd (sweep_abandoned_upload_intents bucket limit locked commits now w))
  | step_env w w' : Forall2 same_but_incident (ew_evidence w) (ew_evidence w') ->
      sublist (ew_intents w') (ew_intents w) -> ew_store w' = ew_store w -> evidence_step w w'.

Lemma Forall2_map_eq {A K} (f : A -> K) (l l' : list A) R :
  (forall x y, R x y -> f x = f y) -> Forall2 R l l' -> map f l = map f l'.
Proof. intros HR. induction 1; simpl; [done|]. f_equal; auto. Qed.

Lemma sublist_map {A K} (f : A -> K) (l l' : list A) : sublist l l' -> sublist (map f l) (map f l').
Proof. induction 1; simpl; by constructor. Qed.

Lemma attached_inv w ev e v : inv w -> ev ∉ map fst (ew_evidence w) -> screenshot_key (e_key e) = true ->
  v ∈ stored (ew_store w) (e_bucket e) (e_key e) -> e_version e = v_id v -> inv (set_evidence (ew_evidence w ++ [(ev, e)]) w).
Proof.
  intros [I1 I2 I3 I4 Isp I5 I6] Hev Hk Hst Hv. split; simpl; try done.
  - rewrite map_app. apply NoDup_app. split_and!; [done|set_solver|apply NoDup_singleton].
  - intros i x j y [Hx|[= -> ->]%list_elem_of_singleton]%elem_of_app [Hy|[= -> ->]%list_elem_of_singleton]%elem_of_app Hkey;
      [by apply (I3 i x j y)| |by right|by left]. right. unfold ev_key in Hkey. simpl in Hkey. by injection Hkey as _ <-.
  - intros x it [Hx| ->%list_elem_of_singleton]%elem_of_app Hit Hkey; [by apply (I5 x)|]. exfalso. specialize (Isp it Hit).
    unfold ev_key, intent_key in Hkey. simpl in Hkey. injection Hkey as _ Hkk. congruence.
  - intros i x [Hx|[= -> ->]%list_elem_of_singleton]%elem_of_app Hs Hsole.
    + apply (I6 i x Hx Hs). eapply sole_mono; [|done|exact Hsole]. intros k y Hy. exists y. split; [by apply elem_of_app; left|done].
    + by exists v.
Qed.

Lemma evidence_step_inv w w' : evidence_step w w' -> inv w -> inv w'.
Proof.
  intros Hstep Hw. destruct Hstep as [w b k v|w inc up user ty fn ct n now H1 H2 H3|w inc up user ev now Hev
    |w ev e v Hev Hk Hst Hv|w i e now|w i e Hin Hs|w i|w i now|w limit locked|w limit locked commits now|w w' Hrows Hints Hst].
  - destruct Hw as [I1 I2 I3 I4 Isp I5 I6]. split; try done. simpl. intros i e Hin Hs Hsole.
    destruct (I6 i e Hin Hs Hsole) as (x & Hx & Hv). exists x. split; [by apply upload_keeps|done].
  - by apply request_upload_inv.
  - by apply complete_upload_inv.
  - by eapply attached_inv.
  - by apply request_purge_inv.
  - apply purge_storage_inv; [by apply (unowned_purged w i e)|done].
  - by apply (inv_set_state w i PURGED ltac:(done) Hw e_deleted_at).
  - by apply delete_evidence_inv.
  - pose proof (sweep_purges_spec limit locked [] 0 w (inv_evidence_ids w Hw)) as Hs. unfold sweep_pending_purges.
    destruct (sweep_purges _ _ _ _ _). by apply Hs.
  - by apply sweep_intents_inv.
  - destruct Hw as [I1 I2 I3 I4 Isp I5 I6].
    assert (Hfwd : forall k x, (k, x) ∈ ew_evidence w -> exists x', (k, x') ∈ ew_evidence w' /\ ev_key (k, x') = ev_key (k, x)).
    { intros k x (j & Hj)%list_elem_of_lookup. destruct (Forall2_lookup_l _ _ _ _ _ Hrows Hj) as ([k' x'] & Hx' & Hi & Hk & _).
      simpl in Hi. subst k'. exists x'. split; [by eapply list_elem_of_lookup_2|done]. }
    assert (Hback : forall y, y ∈ ew_evidence w' -> exists x, x ∈ ew_evidence w /\ same_but_incident x y).
    { intros y (j & Hj)%list_elem_of_lookup. destruct (Forall2_lookup_r _ _ _ _ _ Hrows Hj) as (x & Hx & HR).
      exists x. split; [by eapply list_elem_of_lookup_2|done]. }
    split.
    + erewrite <- (Forall2_map_eq fst); [done| |exact Hrows]. by intros x y (? & _).
    + eapply sublist_NoDup; [exact I2|]. by apply sublist_map.
    + intros i x j y Hx Hy Hk. destruct (Hback _ Hx) as ([i' x'] & Hx' & Hi & Hkx & _), (Hback _ Hy) as ([j' y'] & Hy' & Hj & Hky & _).
      simpl in Hi, Hj. subst i' j'. destruct (I3 i x' j y' Hx' Hy') as [|Hs]; [congruence|by left|right].
      unfold ev_key in Hkx. simpl in Hkx. by injection Hkx as _ <-.
    + eapply sublist_NoDup; [exact I4|]. by apply sublist_map.
    + intros it Hit. apply Isp. by eapply elem_of_submseteq; [|apply sublist_submseteq].
    + intros y it Hy Hit Hk. destruct (Hback y Hy) as (x & Hx & _ & Hkx & _).
      apply (I5 x it Hx); [|by rewrite Hkx]. by eapply elem_of_submseteq; [|apply sublist_submseteq].
    + intros i e Hin Hs Hsole. destruct (Hback (i, e) Hin) as ([i' e'] & Hx & Hi & Hk & Hv & Hst'). simpl in *. subst i'.
      pose proof (sole_mono w w' i e e' Hfwd Hk Hsole) as Hsole'. unfold ev_key in Hk. simpl in Hk. injection Hk as Hb Hkk. rewrite Hst, <- Hb, <- Hkk, <- Hv.
      apply (I6 i e' Hx); [congruence|done].
Qed.

(** C35. Live evidence keeps its bytes: in every state the handlers, the
    sweeps, the clients' uploads, attached prefills and the rest of the system
    reach, whatever storage calls fail, the exact object version of each
    [ACTIVE] row that shares its object with no other row is in the store; rows
    share an object only when it is the screenshot of a prefill; and an upload
    that can still be completed or cleaned belongs to no row. *)
Theorem live_evidence_stored w w' i e :
  inv w -> star evidence_step w w' -> (i, e) ∈ ew_evidence w' ->
  (e_state e = ACTIVE -> sole w' i e -> exists v, v ∈ stored (ew_store w') (e_bucket e) (e_key e) /\ v_id v = e_version e) /\
  (sole w' i e \/ screenshot_key (e_key e) = true) /\
  (forall j it, (j, it) ∈ ew_intents w' -> (i_bucket it, i_key it) = (e_bucket e, e_key e) ->
     i_state it = INTENT_COMPLETED).
Proof.
  intros Hw Hrun Hin. pose proof (star_invariant _ _ evidence_step_inv _ _ Hrun Hw) as Hw'. split_and!.
  - by apply (inv_live w' Hw' i).
  - destruct (screenshot_key (e_key e)) eqn:Hs; [by right|left]. intros j e' Hin' Hk.
    destruct (inv_keys w' Hw' i e j e' Hin Hin' Hk); congruence.
  - intros j it Hit Hk. apply (inv_owned w' Hw' (i, e) (j, it)); done.
Qed.

(** C36. The purge sweep respects retention: a row that is live, already
    purged, referenced by an OCR run, an analysis or a report snapshot, or
    locked by another worker stays as it is, and so do the bytes of every
    object none of whose rows is due; a due row stays as it is or becomes
    [PURGED]; and the result counts the rows that did. *)
Theorem sweep_respects_references limit locked w :
  NoDup (map fst (ew_evidence w)) -> let '(n, w') := sweep_pending_purges limit locked w in
  (forall i e, (i, e) ∈ ew_evidence w ->
     e_state e <> PURGE_PENDING \/ references_for w i <> [] \/ locked i = true -> (i, e) ∈ ew_evidence w') /\
  (forall b k, (forall i e, (i, e) ∈ ew_evidence w -> (e_bucket e, e_key e) = (b, k) ->
       e_state e <> PURGE_PENDING \/ references_for w i <> [] \/ locked i = true) ->
     stored (ew_store w') b k = stored (ew_store w) b k) /\
  (forall i e', (i, e') ∈ ew_evidence w' -> exists e, (i, e) ∈ ew_evidence w /\
     (e' = e \/ (e_state e = PURGE_PENDING /\ references_for w i = [] /\ locked i = false /\ e' = set_state PURGED (e_deleted_at e) e))) /\
  n = (Z.of_nat (length (filter pending_row (ew_evidence w))) -
       Z.of_nat (length (filter pending_row (ew_evidence w'))))%Z.
Proof.
  intros Hnd. pose proof (sweep_purges_spec limit locked [] 0 w Hnd) as Hs. unfold sweep_pending_purges.
  destruct (sweep_purges limit locked [] 0 w) as [n w']. destruct Hs as [_ [_ Hk Hb Hr Hc]].
  assert (Hnot : forall i e, e_state e <> PURGE_PENDING \/ references_for w i <> [] \/ locked i = true -> ~ due locked w (i, e)).
  { intros i e Hor (H1 & H2 & H3). simpl in *. destruct Hor as [|[|]]; congruence. }
  rewrite Z.sub_0_r in Hc. split_and!; [auto| | |lia].
  - intros b k Hnone. apply Hb. intros [i e] Hin Hkey. apply Hnot. by apply (Hnone i e).
  - intros i e' Hin. destruct (Hr i e' Hin) as (e & He & [->|((? & ? & ?) & ->)]); exists e; (split; [done|]); [by left|by right].
Qed.

(** *** A failing oldest tombstone *)

Lemma sweep_purges_stuck limit locked rest (w : W) i e :
  oldest deleted_key (fun x => bool_decide (e_state (snd x) = PURGE_PENDING) &&
    negb (bool_decide (fst x ∈ [])) && negb (locked (fst x))) (ew_evidence w) = Some (i, e) ->
  references_for w i = [] -> ew_faults w = replicate limit (StorageBroken false) ++ rest ->
  sweep_purges limit locked [] 0 w = (0%Z, set_faults rest w).
Proof.
  revert w. induction limit as [|limit IH]; intros w Ho Hr Hf; cbn [sweep_purges].
  { simpl in Hf. subst rest. by destruct w. }
  rewrite Ho. rewrite decide_False by (intros H'; by apply H').
  assert (Hp : purge_storage (plan_of e) w =
    (Raise StorageError, set_faults (replicate limit (StorageBroken false) ++ rest) w)).
  { unfold purge_storage, plan_of, try_except, storage_call. rewrite Hf. reflexivity. }
  rewrite Hp. by rewrite IH.
Qed.

(** The purge sweep starves behind a failing object: a record whose
    deletion raises is not excluded from the rest of the sweep (unlike one
    that is referenced), so while the oldest tombstone keeps failing every one
    of the sweep's attempts goes to it and no other record is purged, however
    many are due. *)
Theorem failing_purge_starves limit locked rest (w : W) i e :
  (i, e) ∈ ew_evidence w -> e_state e = PURGE_PENDING -> locked i = false -> references_for w i = [] ->
  (forall y, y ∈ ew_evidence w -> pending_row y = true -> y <> (i, e) -> key_leb deleted_key y (i, e) = false) ->
  ew_faults w = replicate limit (StorageBroken false) ++ rest ->
  sweep_pending_purges limit locked w = (0%Z, set_faults rest w).
Proof.
  intros Hin Hs Hl Hr Hmin Hf. apply (sweep_purges_stuck limit locked rest w i e); [|done|done].
  match goal with |- oldest _ ?p _ = _ => set (q := p) end.
  assert (Hq : q (i, e) = true).
  { unfold q. simpl. rewrite Hl, bool_decide_eq_true_2 by done. done. }
  destruct (oldest deleted_key q (ew_evidence w)) as [y|] eqn:E.
  - apply oldest_Some in E as (Hy & Hqy & Hmin'). f_equal.
    destruct (bool_decide_reflect (y = (i, e))) as [|Hne]; [done|].
    unfold q in Hqy. apply andb_prop in Hqy as [Hqy _]. apply andb_prop in Hqy as [Hqy _].
    specialize (Hmin' _ Hin Hq). by rewrite (Hmin y Hy Hqy Hne) in Hmin'.
  - by rewrite (proj1 (oldest_None _ _ _) E (i, e) Hin) in Hq.
Qed.

(** *** Completing an upload *)

(** A row recorded for the stored version [v] of intent [it]. *)
Definition records (incident user : N) (it : upload_intent) (v : obj_version) (e : evidence) : Prop :=
  e_incident e = Some incident /\ e_uploaded_by e = user /\ e_state e = ACTIVE /\
  e_bucket e = i_bucket it /\ e_key e = i_key it /\ e_type e = i_type it /\ e_filename e = i_filename it /\
  e_version e = v_id v /\ e_sha256 e = v_sha256 v /\ e_size e = v_size v /\
  (v_size v <= max_upload_bytes)%Z /\ (forall n, i_byte_size it = Some n -> v_size v = n) /\
  (forall ct, i_content_type it = Some ct -> truthy_str ct = true -> v_content_type v = Some ct).

Lemma upload_checks incident user it v now :
  mismatched_size it v = false -> mismatched_type it v = false -> (max_upload_bytes <? v_size v)%Z = false ->
  records incident user it v (evidence_of incident user it v now).
Proof.
  unfold mismatched_size, mismatched_type, records. intros Hs Ht Hm. simpl. split_and!; try done; [lia| |].
  - intros n Hn. rewrite Hn in Hs. lia.
  - intros ct Hct Htr. rewrite Hct, Htr in Ht. simpl in Ht. apply bool_decide_eq_false in Ht.
    by apply dec_stable.
Qed.

(** Completing an upload never trusts the client: success either returns
    the row this upload already produced, changing nothing, or appends one
    row under the bucket and key the server chose, with the version, size and
    checksum of an object version in the store that passes the size and type
    checks, and closes the intent for good; every error leaves the evidence
    table as it was and moves the intent at most to [EXPIRED]. *)
Theorem complete_upload_outcome incident up user ev now w :
  let '(r, w') := complete_upload max_upload_bytes incident up user ev now w in
  match r with
  | Ok (j, e) =>
      exists it, (up, it) ∈ ew_intents w /\ i_incident it = incident /\ i_created_by it = user /\
      ((w' = w /\ (j, e) ∈ ew_evidence w /\ i_state it = INTENT_COMPLETED /\ i_evidence it = Some j) \/
       (j = ev /\ i_state it = OPEN /\ (now < i_expires_at it)%Z /\ ew_evidence w' = ew_evidence w ++ [(ev, e)] /\
        ew_intents w' = update_row up (settle_intent INTENT_COMPLETED (Some ev) (Some now)) (ew_intents w) /\
        ew_store w' = ew_store w /\
        exists v, v ∈ stored (ew_store w) (i_bucket it) (i_key it) /\ records incident user it v e))
  | Raise _ =>
      ew_evidence w' = ew_evidence w /\
      (ew_intents w' = ew_intents w \/
       ew_intents w' = update_row up (fun i => settle_intent EXPIRED (i_evidence i) (i_completed_at i) i) (ew_intents w))
  end.
Proof.
  unfold complete_upload, mbind at 1, M_bind at 1, get_st.
  destruct (decide (incident ∉ ew_incidents w)) as [Hi|Hi]; [simpl; by auto|].
  destruct (get_row up (ew_intents w)) as [it|] eqn:Hget; [|simpl; by auto].
  apply get_row_elem in Hget. destruct (decide (i_incident it <> incident)) as [Hinc|Hinc]; [simpl; by auto|].
  destruct (decide (i_created_by it <> user)) as [Huser|Huser]; [simpl; by auto|].
  apply dec_stable in Hinc, Huser.
  destruct (if decide (i_state it = INTENT_COMPLETED) then _ else None) as [[j e]|] eqn:Hex.
  { case_decide as Hc; [|done]. destruct (i_evidence it) as [j'|] eqn:Hev; [|done]. simpl in Hex.
    destruct (get_row j' (ew_evidence w)) as [e'|] eqn:Hrow; [|done]. injection Hex as -> ->.
    exists it. apply get_row_elem in Hrow. split_and!; try done. left. by split_and!. }
  clear Hex. destruct (decide (i_state it <> OPEN)) as [|Ho]; [simpl; by auto|]. apply dec_stable in Ho.
  destruct (Z.leb_spec (i_expires_at it) now) as [|Hexp]; [simpl; auto|].
  unfold mbind at 1, M_bind at 1, try_except at 1.
  destruct (head_object_spec (i_bucket it) (i_key it) w) as (fl & Hfl & Hv).
  destruct (head_object (i_bucket it) (i_key it) w) as [[v|x] w1]; simpl in Hfl, Hv; subst w1;
    [|destruct x; simpl; by auto]. specialize (Hv v eq_refl).
  assert (Hrej : forall status detail, let '(r, w') := reject_upload it v status detail (set_faults fl w) in
    match r : result api_error (N * evidence) with Ok _ => False | Raise _ => ew_evidence w' = ew_evidence w /\ ew_intents w' = ew_intents w end).
  { intros status detail. unfold reject_upload, mbind, M_bind.
    destruct (storage_call_cases (delete_object (i_bucket it) (i_key it) (v_id v)) (set_faults fl w)) as (fl' & o & Hs & _).
    destruct (storage_call _ _) as [[[]|x] w2]; simpl in Hs; subst w2; done. }
  destruct (mismatched_size it v) eqn:Hsz;
    [|destruct (mismatched_type it v) eqn:Hty; [|destruct (max_upload_bytes <? v_size v)%Z eqn:Hmx]].
  1-3: match goal with |- context [reject_upload _ _ ?st ?dt] =>
    pose proof (Hrej st dt) as Hr; destruct (reject_upload _ _ st dt _) as [[[]|x] w'] end; tauto.
  unfold mbind at 1, M_bind at 1.
  destruct (storage_call_cases (fun o => o) (set_faults fl w)) as (fl2 & o & Hsc & Ho' & _).
  assert (o = ew_store w) as -> by (destruct Ho' as [-> | ->]; done).
  destruct (storage_call (fun o => o) (set_faults fl w)) as [[[]|x] w2]; simpl in Hsc; subst w2; [|simpl; by auto].
  simpl. exists it. split_and!; try done. right. split_and!; try done.
  exists v. split; [done|]. by apply upload_checks.
Qed.
End invariant.

(** ** Witnesses *)

(** A store as a list of versions, newest first; deleting without a version id
    only hides the object, as a delete marker does. *)
Definition simple_store : Type := list (pystr * pystr * obj_version).
Definition at_key (b k : pystr) (x : pystr * pystr * obj_version) : bool := bool_decide (fst x = (b, k)).
Definition simple_stored (o : simple_store) (b k : pystr) : list obj_version := map snd (filter (at_key b k) o).
Definition simple_delete (b k : pystr) (v : option pystr) (o : simple_store) : simple_store :=
  match v with
  | None => o
  | Some v => filter (fun x => negb (at_key b k x && bool_decide (v_id (snd x) = Some v))) o
  end.
Definition simple_delete_all (b k : pystr) (o : simple_store) : simple_store :=
  filter (fun x => negb (at_key b k x)) o.

Lemma elem_of_simple_stored o b k v : v ∈ simple_stored o b k <-> (b, k, v) ∈ o.
Proof.
  unfold simple_stored, at_key. rewrite list_elem_of_fmap. split.
  - intros ([bk v'] & -> & [Hb Hin]%list_elem_of_filter). apply bool_decide_unpack in Hb. simpl in *. by subst.
  - intros Hin. exists (b, k, v). split; [done|]. apply list_elem_of_filter. split; [|done]. by apply bool_decide_pack.
Qed.

Lemma simple_filter_other (p : pystr * pystr * obj_version -> bool) o b k :
  (forall x, at_key b k x = true -> p x = true) -> simple_stored (filter p o) b k = simple_stored o b k.
Proof.
  intros Hp. unfold simple_stored, simple_store in *. f_equal. induction o as [|x o IH]; [done|]. rewrite !filter_cons.
  specialize (Hp x). destruct (at_key b k x) eqn:E.
  - rewrite (Hp eq_refl), !decide_True by done. rewrite filter_cons, E, decide_True by done. by rewrite IH.
  - case_decide; rewrite ?filter_cons, ?E; by rewrite !decide_False by (intros H'; by inversion H').
Qed.

#[global] Program Instance simple_object_store : ObjectStore simple_store := {|
  stored := simple_stored;
  delete_object := simple_delete;
  delete_object_versions := simple_delete_all;
  upload b k v o := (b, k, v) :: o;
|}.
Next Obligation.
  intros o b k [v|] b' k' Hne; [|done]. unfold simple_delete. apply simple_filter_other.
  intros x Hx%bool_decide_eq_true. unfold at_key. rewrite Hx. by rewrite bool_decide_eq_false_2.
Qed.
Next Obligation.
  intros o b k v x. rewrite !elem_of_simple_stored. unfold simple_delete.
  intros [Hp Hin]%list_elem_of_filter. split; [done|]. intros Hv. unfold at_key in Hp. simpl in Hp.
  rewrite !bool_decide_eq_true_2 in Hp; done.
Qed.
Next Obligation.
  intros o b k b' k' Hne. unfold simple_delete_all. apply simple_filter_other.
  intros x Hx%bool_decide_eq_true. unfold at_key. rewrite Hx. by rewrite bool_decide_eq_false_2.
Qed.
Next Obligation. intros o b k v b' k' x. rewrite !elem_of_simple_stored. set_solver. Qed.

Definition v1 : obj_version := mk_version (Some (u "v1")) 4 None (u "aa").
Definition open_intent : upload_intent :=
  mk_intent 1 9 (u "noc-evidence") (u "k1") (u "LOG") (u "a.log") None (Some 4%Z) OPEN 100 None (Some 0%Z) None.
Definition uploaded_world : eworld simple_store :=
  mk_eworld [1%N] [] [(5%N, open_intent)] [] [] [] [(u "noc-evidence", u "k1", v1)] [].

Lemma uploaded_inv : inv uploaded_world.
Proof. split; simpl; try (by apply NoDup_nil_2); try (by apply NoDup_singleton); set_solver. Qed.

Lemma live_evidence_witness :
  exists v, v ∈ simple_stored [(u "noc-evidence", u "k1", v1)] (u "noc-evidence") (u "k1") /\ v_id v = Some (u "v1").
Proof.
  destruct (live_evidence_stored (u "noc-evidence") 1000 900 uploaded_world
    (snd (complete_upload 1000 1 5 9 7 10 uploaded_world)) 7 (evidence_of 1 9 open_intent v1 10)) as [H _].
  - exact uploaded_inv.
  - apply star_one, step_complete. simpl. set_solver.
  - apply list_elem_of_here.
  - apply (H eq_refl). by intros j e' [= -> ->]%list_elem_of_singleton _.
Defined.

Definition tombstone (key : pystr) (deleted : Z) : evidence :=
  mk_evidence None (u "LOG") (u "noc-evidence") key (u "a.log") None 4 (u "aa") (Some (u "v1")) 9 (Some 0%Z)
    PURGE_PENDING (Some deleted).
Definition tombstones (faults : list storage_fault) (ocr : list N) : eworld simple_store :=
  mk_eworld [] [(1%N, tombstone (u "k1") 5); (2%N, tombstone (u "k2") 6)] [] ocr [] []
    [(u "noc-evidence", u "k1", v1)] faults.

Lemma sweep_respects_witness :
  (1%N, tombstone (u "k1") 5) ∈ ew_evidence (snd (sweep_pending_purges 50 (fun _ => false) (tombstones [] [1%N]))).
Proof.
  pose proof (sweep_respects_references 50 (fun _ => false) (tombstones [] [1%N])) as H.
  revert H. destruct (sweep_pending_purges 50 _ _) as [n w']. intros (H & _); [by apply NoDup_by_computation|].
  apply (H 1%N (tombstone (u "k1") 5)); [apply list_elem_of_here|]. right. left. discriminate.
Defined.

Lemma failing_purge_witness :
  sweep_pending_purges 3 (fun _ => false) (tombstones (replicate 3 (StorageBroken false)) []) = (0%Z, tombstones [] []).
Proof.
  apply (failing_purge_starves 3 (fun _ => false) [] (tombstones (replicate 3 (StorageBroken false)) []) 1
    (tombstone (u "k1") 5)); try reflexivity; [apply list_elem_of_here|].
  intros y [->|[->|H]%elem_of_cons]%elem_of_cons Hp Hne; [done|reflexivity|set_solver].
Defined.
