(* ===== verification/PyColl.v ===== *)
(** * Collections

    The standard collections the services fold logs into: [sorted] and
    [Counter.most_common], [defaultdict(list)] grouping, [Counter]
    increments, and the [for] loop that updates the elements of a list in
    place while it carries a value and may raise. *)

From Stdlib Require Import Sorted.
From S2P Require Import Prelude PyStr Json.

(** ** [sorted] *)
Section sorted.
Context {A : Type} (leb : A -> A -> bool).

Fixpoint insert_sorted (x : A) (l : list A) : list A :=
  match l with
  | [] => [x]
  | y :: l => if leb x y then x :: y :: l else y :: insert_sorted x l
  end.

(** Stable: inserting from the right keeps equal elements in order. *)
Definition py_sorted (l : list A) : list A := foldr insert_sorted [] l.

Lemma insert_sorted_Permutation x l : insert_sorted x l ≡ₚ x :: l.
Proof.
  induction l as [|y l IH]; simpl; [done|]. destruct (leb x y); [done|]. rewrite IH. by rewrite Permutation_swap.
Qed.

Lemma py_sorted_Permutation l : py_sorted l ≡ₚ l.
Proof. induction l as [|x l IH]; simpl; [done|]. by rewrite insert_sorted_Permutation, IH. Qed.

Context (total : forall x y, leb x y = true \/ leb y x = true).
Context (trans : forall x y z, leb x y = true -> leb y z = true -> leb x z = true).

Lemma insert_sorted_Sorted x l :
  StronglySorted (fun a b => leb a b = true) l -> StronglySorted (fun a b => leb a b = true) (insert_sorted x l).
Proof.
  induction 1 as [|y l Hs IH Hy]; simpl; [repeat constructor|].
  destruct (leb x y) eqn:E.
  - constructor; [by constructor|]. constructor; [done|]. eapply Forall_impl; [exact Hy|]. simpl. eauto.
  - constructor; [done|]. apply Forall_forall. intros z. rewrite insert_sorted_Permutation, elem_of_cons.
    intros [->|Hz]; [by destruct (total x y); congruence|]. rewrite Forall_forall in Hy. by apply Hy.
Qed.

Lemma py_sorted_Sorted l : StronglySorted (fun a b => leb a b = true) (py_sorted l).
Proof. induction l; simpl; [constructor|]. by apply insert_sorted_Sorted. Qed.
End sorted.

(** Code point order of strings. *)
Fixpoint str_leb (s t : pystr) : bool :=
  match s, t with
  | [], _ => true
  | _, [] => false
  | a :: s, b :: t => (a <? b)%Z || ((a =? b)%Z && str_leb s t)
  end.

(** ** [defaultdict(list)] *)
Section grouping.
Context {K A : Type} `{EqDecision K} (key : A -> K).

Fixpoint add_to_group (k : K) (x : A) (g : list (K * list A)) : list (K * list A) :=
  match g with
  | [] => [(k, [x])]
  | (k', xs) :: g => if decide (k = k') then (k', xs ++ [x]) :: g else (k', xs) :: add_to_group k x g
  end.

(** [for x in l: groups[key(x)].append(x)]; groups in order of first use. *)
Definition group_by (l : list A) : list (K * list A) := foldl (fun g x => add_to_group (key x) x g) [] l.

(** The group of a key, empty when it has none. *)
Fixpoint group_of (k : K) (g : list (K * list A)) : list A :=
  match g with [] => [] | (k', xs) :: g => if decide (k = k') then xs else group_of k g end.

Record grouped (l : list A) (g : list (K * list A)) : Prop := {
  grouped_perm : mjoin (map snd g) ≡ₚ l;
  grouped_keys : NoDup (map fst g);
  grouped_ok : forall k xs, (k, xs) ∈ g -> xs <> [] /\ forall x, x ∈ xs -> key x = k;
  grouped_of : forall k, group_of k g = filter (fun x => key x = k) l;
}.

Lemma add_to_group_perm k x g : mjoin (map snd (add_to_group k x g)) ≡ₚ x :: mjoin (map snd g).
Proof.
  induction g as [|[k' xs] g IH]; simpl; [done|]. case_decide; simpl.
  - rewrite <- app_assoc. symmetry. apply Permutation_middle.
  - rewrite IH. symmetry. apply Permutation_middle.
Qed.

Lemma add_to_group_fst k x g k' : k' ∈ map fst (add_to_group k x g) <-> k' = k \/ k' ∈ map fst g.
Proof.
  induction g as [|[k2 xs] g IH]; simpl; [set_solver|]. case_decide as E; simpl.
  - subst. set_solver.
  - rewrite !elem_of_cons, IH. tauto.
Qed.

Lemma add_to_group_NoDup k x g : NoDup (map fst g) -> NoDup (map fst (add_to_group k x g)).
Proof.
  induction g as [|[k2 xs] g IH]; simpl; intros Hnd; [apply NoDup_singleton|].
  apply NoDup_cons in Hnd as [Hn Hnd]. case_decide; simpl; apply NoDup_cons; [done|].
  split; [|by apply IH]. rewrite add_to_group_fst. set_solver.
Qed.

Lemma add_to_group_elem k x g k' xs :
  (k', xs) ∈ add_to_group k x g -> (k', xs) ∈ g \/ (k' = k /\ exists ys, xs = ys ++ [x] /\ (ys = [] \/ (k, ys) ∈ g)).
Proof.
  induction g as [|[k2 zs] g IH]; simpl.
  - intros [= -> ->]%list_elem_of_singleton. right. split; [done|]. exists []. auto.
  - case_decide as E; rewrite !elem_of_cons.
    + subst k2. intros [[= -> ->]|Hin]; [|by auto]. right. split; [done|]. exists zs. set_solver.
    + intros [?|Hin]; [by auto|]. destruct (IH Hin) as [?|(-> & ys & -> & Hys)]; [by auto|].
      right. split; [done|]. exists ys. set_solver.
Qed.

Lemma group_of_add k x g k' :
  group_of k' (add_to_group k x g) = if decide (k = k') then group_of k' g ++ [x] else group_of k' g.
Proof.
  induction g as [|[k2 xs] g IH]; simpl.
  - destruct (decide (k' = k)), (decide (k = k')); congruence.
  - destruct (decide (k = k2)) as [->|]; simpl.
    + destruct (decide (k' = k2)), (decide (k2 = k')); congruence.
    + rewrite IH. destruct (decide (k' = k2)), (decide (k = k')); congruence.
Qed.

Lemma group_by_spec l : grouped l (group_by l).
Proof.
  unfold group_by. induction l as [|x l IH] using rev_ind.
  - split; simpl; [done|apply NoDup_nil_2|set_solver|done].
  - rewrite foldl_app. simpl. destruct IH as [Hp Hk Ho Hf]. split.
    + rewrite add_to_group_perm, Hp. by rewrite Permutation_app_comm.
    + by apply add_to_group_NoDup.
    + intros k xs [Hin|(-> & ys & -> & Hys)]%add_to_group_elem; [by apply Ho|].
      split; [by destruct ys|]. intros y [Hy| ->%list_elem_of_singleton]%elem_of_app; [|done].
      destruct Hys as [-> |Hys]; [set_solver|]. by apply (Ho _ _ Hys).
    + intros k. rewrite group_of_add, filter_app, Hf. simpl.
      destruct (decide (key x = k)) as [E|E].
      * by rewrite filter_cons_True by done.
      * rewrite filter_cons_False by done. by rewrite app_nil_r.
Qed.

Lemma group_of_elem l k xs : (k, xs) ∈ group_by l -> group_of k (group_by l) = xs.
Proof.
  intros Hin. pose proof (grouped_keys _ _ (group_by_spec l)) as Hnd. revert Hin Hnd.
  generalize (group_by l). intros g. induction g as [|[k2 ys] g IH]; simpl; [set_solver|].
  rewrite elem_of_cons, NoDup_cons. intros [[= -> ->]|Hin] [Hn Hnd]; [by rewrite decide_True|].
  rewrite decide_False; [by apply IH|]. intros ->. apply Hn. apply list_elem_of_fmap. by exists (k2, xs).
Qed.
End grouping.
#[global] Arguments group_by : simpl never.

(** ** [Counter] *)

(** [counter[k] += 1] *)
Fixpoint count_up (k : pystr) (c : list (pystr * Z)) : list (pystr * Z) :=
  match c with
  | [] => [(k, 1%Z)]
  | (k', n) :: c => if decide (k = k') then (k', n + 1)%Z :: c else (k', n) :: count_up k c
  end.

(** [counter[k]], zero for a missing key. *)
Definition count_of (c : list (pystr * Z)) (k : pystr) : Z := default 0%Z (assoc k c).
Definition count_sum (c : list (pystr * Z)) : Z := zsum (map snd c).

(** [counter.most_common(n)]: by count, the first counted first among equals. *)
Definition most_common (n : nat) (c : list (pystr * Z)) : list (pystr * Z) :=
  take n (py_sorted (fun x y => snd y <=? snd x)%Z c).

Lemma count_up_assoc k c k' : assoc k' (count_up k c) = if decide (k' = k) then Some (count_of c k + 1)%Z else assoc k' c.
Proof.
  unfold count_of. induction c as [|[k2 n] c IH]; simpl.
  - by destruct (decide (k' = k)).
  - destruct (decide (k = k2)) as [->|]; simpl.
    + by destruct (decide (k' = k2)).
    + rewrite IH. destruct (decide (k' = k2)) as [->|]; [|done]. by rewrite decide_False by congruence.
Qed.

Lemma count_up_of k c k' : count_of (count_up k c) k' = (count_of c k' + if decide (k' = k) then 1 else 0)%Z.
Proof.
  unfold count_of at 1. rewrite count_up_assoc. destruct (decide (k' = k)) as [->|]; simpl; [done|].
  unfold count_of. lia.
Qed.

Lemma count_up_sum k c : count_sum (count_up k c) = (count_sum c + 1)%Z.
Proof.
  unfold count_sum. induction c as [|[k2 n] c IH]; simpl; [done|].
  case_decide; simpl in *; [lia|rewrite IH; lia].
Qed.

Lemma count_up_keys k c k' : k' ∈ map fst (count_up k c) <-> k' = k \/ k' ∈ map fst c.
Proof.
  induction c as [|[k2 n] c IH]; simpl; [set_solver|]. case_decide as E; simpl.
  - subst. set_solver.
  - rewrite !elem_of_cons, IH. tauto.
Qed.

Lemma count_up_NoDup k c : NoDup (map fst c) -> NoDup (map fst (count_up k c)).
Proof.
  induction c as [|[k2 n] c IH]; simpl; intros Hnd; [apply NoDup_singleton|].
  apply NoDup_cons in Hnd as [Hn Hnd]. case_decide; simpl; apply NoDup_cons; [done|].
  split; [|by apply IH]. rewrite count_up_keys. set_solver.
Qed.

(** ** In-place loops *)
Section in_place.
Context {E S A : Type} (f : S -> A -> result E S * A).

(** [for x in l: ...] where the body may modify [x] and may raise; the
    elements after the one that raised are untouched. *)
Fixpoint for_in_place (s : S) (l : list A) : result E S * list A :=
  match l with
  | [] => (Ok s, [])
  | x :: l =>
      match f s x with
      | (Raise e, x') => (Raise e, x' :: l)
      | (Ok s', x') => let '(r, l') := for_in_place s' l in (r, x' :: l')
      end
  end.

Lemma for_in_place_length s l : length (snd (for_in_place s l)) = length l.
Proof.
  revert s. induction l as [|x l IH]; intros s; simpl; [done|].
  destruct (f s x) as [[s'|e] x']; simpl; [|done]. specialize (IH s'). destruct (for_in_place s' l). simpl in *. lia.
Qed.

(** Loop invariant rule: [P] holds of the carried value and the prefix done. *)
Lemma for_in_place_inv (P : S -> list A -> list A -> Prop) s l s' l' :
  for_in_place s l = (Ok s', l') -> P s [] [] ->
  (forall s done done' x s2 x', P s done done' -> x ∈ l -> f s x = (Ok s2, x') -> P s2 (done ++ [x]) (done' ++ [x'])) ->
  P s' l l'.
Proof.
  intros Hrun Hinit Hstep.
  enough (Hg : forall todo s done done' l', (forall x, x ∈ todo -> x ∈ l) -> P s done done' ->
    for_in_place s todo = (Ok s', l') -> P s' (done ++ todo) (done' ++ l')) by (by apply (Hg l s [] [])).
  clear Hrun Hinit l' s. induction todo as [|x todo IH]; intros s done done' l' Hsub HP Hrun; simpl in Hrun.
  - injection Hrun as <- <-. by rewrite !app_nil_r.
  - destruct (f s x) as [[s2|e] x'] eqn:Ef; [|done].
    destruct (for_in_place s2 todo) as [r l2] eqn:El. injection Hrun as -> <-.
    specialize (IH s2 (done ++ [x]) (done' ++ [x']) l2). rewrite <- !app_assoc in IH.
    apply IH; [set_solver| |done]. apply (Hstep s _ _ x); set_solver.
Qed.
End in_place.
