(* ===== verification/PyVal.v ===== *)
(** * Dynamic values

    What Python does with a JSON value whose shape the code has not checked:
    iterating it, testing membership, calling [.get], converting it with
    [str], and the exceptions these raise; binary64 arithmetic as the
    percentages need it; [json.dumps] without ASCII escapes. *)

From Stdlib Require Import SpecFloat.
From S2P Require Import Prelude PyStr Json Failures.

(** The shortest decimal of a float and the [repr] of containers. *)
Class PyText := { float_repr : spec_float -> pystr; container_repr : json -> pystr }.

(** ** Exceptions *)
Definition value_error (msg : pystr) : pyexn := mk_exn ValueError msg.
Definition type_error (msg : pystr) : pyexn := mk_exn TypeError msg.
Definition key_error (key : pystr) : pyexn := mk_exn KeyError key.
Definition attribute_error (msg : pystr) : pyexn := mk_exn AttributeError msg.
Definition encode_error : pyexn :=
  mk_exn (ForeignError (u "UnicodeEncodeError") true) (u "'utf-8' codec can't encode character: surrogates not allowed").

(** ** Objects *)
Definition type_name (j : json) : pystr :=
  match j with
  | JNull => u "NoneType" | JBool _ => u "bool" | JInt _ => u "int" | JFloat _ => u "float"
  | JStr _ => u "str" | JList _ => u "list" | JObj _ => u "dict"
  end.

(** The elements [for x in j] visits. *)
Definition py_iter (j : json) : result pyexn (list json) :=
  match j with
  | JList l => Ok l
  | JObj o => Ok (map (fun kv => JStr (fst kv)) o)
  | JStr s => Ok (map (fun c => JStr [c]) s)
  | _ => Raise (type_error (u "'" ++ type_name j ++ u "' object is not iterable"))
  end.

(** [k in j] for a string [k]. *)
Definition py_in (k : pystr) (j : json) : result pyexn bool :=
  match j with
  | JObj o => Ok (bool_decide (k ∈ map fst o))
  | JList l => Ok (bool_decide (JStr k ∈ l))
  | JStr s => Ok (contains k s)
  | _ => Raise (type_error (u "argument of type '" ++ type_name j ++ u "' is not iterable"))
  end.

(** [j.get(k, d)]; only objects have [get]. *)
Definition py_get (k : pystr) (d j : json) : result pyexn json :=
  match j with
  | JObj o => Ok (default d (assoc k o))
  | _ => Raise (attribute_error (u "'" ++ type_name j ++ u "' object has no attribute 'get'"))
  end.

(** [a or b] *)
Definition jor (a b : json) : json := if jtruthy a then a else b.

(** [str(j)] *)
Definition py_str `{PyText} (j : json) : pystr :=
  match j with
  | JNull => u "None"
  | JBool true => u "True"
  | JBool false => u "False"
  | JInt n => py_str_int n
  | JStr s => s
  | JFloat x => float_repr x
  | JList _ | JObj _ => container_repr j
  end.

(** [isinstance(j, int) and not isinstance(j, bool)] *)
Definition is_plain_int (j : json) : bool := match j with JInt _ => true | _ => false end.

(** [s.encode("utf-8")] *)
Definition py_encode (s : pystr) : result pyexn (list Z) :=
  if forallb (fun c => negb ((55296 <=? c)%Z && (c <=? 57343)%Z)) s then Ok (utf8_encode s) else Raise encode_error.

(** ** Floats *)
Definition float_of_int (n : Z) : spec_float := float_of_ratio n 1.
Definition float_zero : spec_float := S754_zero false.
Definition float_mul (x y : spec_float) : spec_float := SFmul 53 1024 x y.

(** [n / d] rounded to the nearest integer, halves to even, for [0 <= n], [0 < d]. *)
Definition div_half_even (n d : Z) : Z :=
  let q := (n / d)%Z in
  match (2 * (n mod d) ?= d)%Z with
  | Lt => q
  | Gt => q + 1
  | Eq => if Z.even q then q else q + 1
  end%Z.

(** [round(x, k)]: the decimal with [k] places nearest to the exact value of
    [x], then the float nearest to it. *)
Definition py_round (k : Z) (x : spec_float) : spec_float :=
  match x with
  | S754_finite s m e =>
      let n := (Zpos m * 10 ^ k)%Z in
      let q := if (0 <=? e)%Z then (n * 2 ^ e)%Z else div_half_even n (2 ^ (- e)) in
      if (q =? 0)%Z then S754_zero s else
      let r := float_of_ratio q (10 ^ k) in if s then SFopp r else r
  | _ => x
  end.

(** [round((count / total) * 100, 2) if total else 0.0] *)
Definition percentage (count total : Z) : json :=
  if (total =? 0)%Z then JFloat float_zero
  else JFloat (py_round 2 (float_mul (float_of_ratio count total) (float_of_int 100))).

(** One third, and a tie that binary representation breaks downwards. *)
Lemma percentage_third : percentage 1 3 = JFloat (float_of_ratio 3333 100).
Proof. vm_compute. reflexivity. Qed.

Lemma percentage_all : percentage 7 7 = JFloat (float_of_int 100).
Proof. vm_compute. reflexivity. Qed.

(** ** [json.dumps(..., ensure_ascii=False)] *)

(** One character of a string literal: quotes, backslash and control
    characters are escaped. *)
Definition dump_char_raw (c : Z) : pystr := if (127 <=? c)%Z then [c] else dump_char c.
Definition dump_str_raw (s : pystr) : pystr := 34%Z :: mjoin (map dump_char_raw s) ++ [34%Z].

(** [json.dumps(j, ensure_ascii=False, separators=(item, colon))] *)
Fixpoint dumps_raw `{PyText} (item colon : pystr) (j : json) : pystr :=
  match j with
  | JNull => u "null"
  | JBool true => u "true"
  | JBool false => u "false"
  | JInt n => py_str_int n
  | JFloat x => float_repr x
  | JStr s => dump_str_raw s
  | JList l => u "[" ++ py_join item (map (dumps_raw item colon) l) ++ u "]"
  | JObj o => u "{" ++ py_join item
                (map (fun '(k, v) => dump_str_raw k ++ colon ++ dumps_raw item colon v) o) ++ u "}"
  end.
Definition dumps_compact `{PyText} : json -> pystr := dumps_raw (u ",") (u ":").

(** ** Lemmas *)

Lemma py_get_ok k d j v : py_get k d j = Ok v -> exists o, j = JObj o /\ v = default d (assoc k o).
Proof. destruct j; simpl; try done. intros [= <-]. eauto. Qed.

Lemma div_half_even_bounds n d : (0 <= n)%Z -> (0 < d)%Z ->
  (2 * d * div_half_even n d - d <= 2 * n <= 2 * d * div_half_even n d + d)%Z.
Proof.
  intros Hn Hd. unfold div_half_even.
  assert (Hdm : (n = d * (n / d) + n mod d)%Z) by (apply Z.div_mod; lia).
  assert (Hm : (0 <= n mod d < d)%Z) by (apply Z.mod_pos_bound; lia).
  destruct (Z.compare_spec (2 * (n mod d)) d); [destruct (Z.even (n / d))| |]; nia.
Qed.

(** *** Fields of objects *)

Definition is_obj (j : json) : bool := match j with JObj _ => true | _ => false end.

Lemma is_obj_jset k v j : is_obj (jset k v j) = is_obj j.
Proof. by destruct j. Qed.

Lemma jget_jset_eq k v j : is_obj j = true -> jget k (jset k v j) = Some v.
Proof. destruct j; try done. intros _. apply assoc_set_eq. Qed.

Lemma jget_jset_ne k k' v j : k <> k' -> jget k (jset k' v j) = jget k j.
Proof. destruct j; try done. simpl. apply assoc_set_ne. Qed.

Lemma assoc_set_same {A} k (v : A) o : assoc k o = Some v -> assoc_set k v o = o.
Proof.
  induction o as [|[k' v'] o IH]; simpl; [done|]. case_decide; [by intros [= ->]|].
  intros Hk. by rewrite IH.
Qed.

Lemma jset_same k v j : jget k j = Some v -> jset k v j = j.
Proof. destruct j; try done. simpl. intros Hk. by rewrite assoc_set_same. Qed.

Lemma jset_jset k v w j : jset k v (jset k w j) = jset k v j.
Proof.
  destruct j as [| | | | | |o]; try done. simpl. f_equal.
  induction o as [|[k' v'] o IH]; simpl; [by rewrite decide_True|].
  case_decide; simpl; [by rewrite decide_True|]. rewrite decide_False by done. by rewrite IH.
Qed.

Lemma py_get_jget k d j : is_obj j = true -> py_get k d j = Ok (default d (jget k j)).
Proof. by destruct j. Qed.

Lemma py_get_is_obj k d j v : py_get k d j = Ok v -> is_obj j = true.
Proof. by destruct j. Qed.

Lemma py_in_obj k j : is_obj j = true -> py_in k j = Ok (match jget k j with Some _ => true | None => false end).
Proof.
  destruct j as [| | | | | |o]; try done. intros _. simpl. f_equal.
  destruct (assoc k o) as [v|] eqn:E.
  - apply bool_decide_eq_true_2. apply assoc_elem in E. apply list_elem_of_fmap. by exists (k, v).
  - apply bool_decide_eq_false_2. by apply assoc_None.
Qed.

Lemma omap_jint_ints ids : omap jint (map JInt ids) = ids.
Proof.
  induction ids as [|i ids IH]; [done|].
  change (i :: omap jint (map JInt ids) = i :: ids). by rewrite IH.
Qed.

(** Distinct literal keys. *)
Ltac key_ne := let E := fresh in intros E; vm_compute in E; discriminate E.

(** Read the fields of a chain of [jset]s with literal keys. *)
Ltac read_fields :=
  repeat first [ rewrite jget_jset_eq by (rewrite ?is_obj_jset; assumption || reflexivity)
               | rewrite jget_jset_ne by key_ne ].

(** The instance used to evaluate examples: no float and no container is ever
    converted to text there. *)
Definition no_text : PyText := {| float_repr := fun _ => []; container_repr := fun _ => [] |}.
