(* ===== verification/PyTime.v ===== *)
(** * ISO 8601 timestamps

    [datetime.fromisoformat], [datetime.isoformat], comparison and
    subtraction, as CPython 3.12 implements them: a datetime is naive or
    carries a UTC offset, and ordering a naive one against an aware one
    raises [TypeError]. *)

From S2P Require Import Prelude PyStr Json PyColl Failures PyVal.

Record datetime := mk_datetime {
  dt_year : Z; dt_month : Z; dt_day : Z; dt_hour : Z; dt_minute : Z; dt_second : Z; dt_micro : Z;
  dt_offset : option Z;    (* microseconds east of UTC; [None] for a naive datetime *)
}.

(** ** Calendar *)
Definition is_leap (y : Z) : bool :=
  (y mod 4 =? 0)%Z && (negb (y mod 100 =? 0)%Z || (y mod 400 =? 0)%Z).
Definition days_in_month (y m : Z) : Z :=
  if (m =? 2)%Z then if is_leap y then 29 else 28
  else if (m =? 4)%Z || (m =? 6)%Z || (m =? 9)%Z || (m =? 11)%Z then 30 else 31.
Definition days_before_year (y : Z) : Z := let y := (y - 1)%Z in (y * 365 + y / 4 - y / 100 + y / 400)%Z.
Definition days_before_month (y m : Z) : Z :=
  zsum (map (fun i => days_in_month y (Z.of_nat i)) (seq 1 (Z.to_nat (m - 1)))).
Definition ymd2ord (y m d : Z) : Z := (days_before_year y + days_before_month y m + d)%Z.

(** The month and day of the [n]-th day of a year, counting from one. *)
Fixpoint month_of (fuel : nat) (y m n : Z) : Z * Z :=
  match fuel with
  | O => (m, n)
  | S fuel => if (n <=? days_in_month y m)%Z then (m, n) else month_of fuel y (m + 1) (n - days_in_month y m)
  end.
Definition ord2ymd (y n : Z) : Z * Z * Z :=
  let len := if is_leap y then 366%Z else 365%Z in
  if (n <=? 0)%Z then let '(m, d) := month_of 12 (y - 1) 1 (n + if is_leap (y - 1) then 366 else 365) in (y - 1, m, d)%Z
  else if (len <? n)%Z then let '(m, d) := month_of 12 (y + 1) 1 (n - len) in (y + 1, m, d)%Z
  else let '(m, d) := month_of 12 y 1 n in (y, m, d).

(** An ISO week date; week 1 is the one with the year's first Thursday. *)
Definition iso_to_ymd (y week day : Z) : option (Z * Z * Z) :=
  if (y <? 1)%Z || (9999 <? y)%Z then None else
  let first_weekday := ((days_before_year y + 7) mod 7)%Z in      (* Monday is zero *)
  let long := (first_weekday =? 3)%Z || ((first_weekday =? 2)%Z && is_leap y) in
  if (week <=? 0)%Z || (53 <? week)%Z || ((week =? 53)%Z && negb long) then None
  else if (day <=? 0)%Z || (7 <? day)%Z then None
  else
    (* days of the first Monday before or after the first of January *)
    let monday := if (3 <? first_weekday)%Z then (7 - first_weekday)%Z else (- first_weekday)%Z in
    Some (ord2ymd y (monday + (week - 1) * 7 + (day - 1) + 1)%Z).

(** ** [fromisoformat] *)

(** The first byte, zero at the end as in a C string. *)
Definition head0 (s : list Z) : Z := match s with c :: _ => c | [] => 0%Z end.

Fixpoint digits (n : nat) (s : list Z) (acc : Z) : option (Z * list Z) :=
  match n, s with
  | O, _ => Some (acc, s)
  | S n, c :: s => if ascii_digit c then digits n s (acc * 10 + (c - 48))%Z else None
  | _, [] => None
  end.

(** The length of the date part. *)
Definition separator_location (s : list Z) : option nat :=
  let len := length s in
  let at_ i := nth i s 0%Z in
  if Nat.eqb len 7 then Some 7
  else if Z.eqb (at_ 4) 45 then
    if Z.eqb (at_ 5) 87 then
      if Nat.ltb 8 len && Z.eqb (at_ 8) 45 then
        if Nat.eqb len 9 then None
        else if Nat.ltb 10 len && ascii_digit (at_ 10) then Some 8 else Some 10
      else Some 8
    else Some 10
  else if Z.eqb (at_ 4) 87 then
    let n := 7 + length (fst (take_digits (drop 7 s))) in
    if Nat.ltb n 9 then Some n else if Nat.even n then Some 7 else Some 8
  else Some 8.

Definition parse_date (s : list Z) (len : nat) : option (Z * Z * Z) :=
  '(y, r) ← digits 4 s 0;
  let sep := (head0 r =? 45)%Z in
  let r := if sep then tail r else r in
  if (head0 r =? 87)%Z then
    '(week, r) ← digits 2 (tail r) 0;
    if Nat.ltb (length s - length r) len then
      if sep && negb (head0 r =? 45)%Z then None else
      '(day, _) ← digits 1 (if sep then tail r else r) 0; iso_to_ymd y week day
    else iso_to_ymd y week 1
  else
    '(m, r) ← digits 2 r 0;
    if sep && negb (head0 r =? 45)%Z then None else
    '(d, r) ← digits 2 (if sep then tail r else r) 0;
    if Nat.eqb (length s - length r) len then Some (y, m, d) else None.

(** The fraction of a second: [n] characters belong to this component; six
    digits count.  The flag says whether more text follows the digits. *)
Definition parse_fraction (s : list Z) (n : nat) : option (Z * bool) :=
  let k := Nat.min n 6 in
  '(v, r) ← digits k s 0;
  Some ((v * 10 ^ (6 - Z.of_nat k))%Z, negb (head0 (snd (take_digits r)) =? 0)%Z).

(** [HH[:MM[:SS[.ffffff]]]], with or without the colons; [i] components are
    still to come and [n] characters belong to this part of the text. *)
Fixpoint parse_hms (i : nat) (first has_sep : bool) (s : list Z) (n : nat) : option (list Z * Z * bool) :=
  match i with
  | O => '(us, more) ← parse_fraction s n; Some ([], us, more)
  | S i =>
      '(v, r) ← digits 2 s 0;
      let n := n - 2 in
      let c := head0 r in
      let has_sep := if first then (c =? 58)%Z else has_sep in
      if Nat.leb n 1 then Some (v :: replicate i 0%Z, 0%Z, negb (c =? 0)%Z)
      else
        let frac s n := '(us, more) ← parse_fraction s n; Some (v :: replicate i 0%Z, us, more) in
        if has_sep && (c =? 58)%Z then
          '(vs, us, more) ← parse_hms i false has_sep (tail r) (n - 1); Some (v :: vs, us, more)
        else if (c =? 46)%Z || (c =? 44)%Z then frac (tail r) (n - 1)
        else if has_sep then None
        else '(vs, us, more) ← parse_hms i false has_sep r n; Some (v :: vs, us, more)
  end.

Fixpoint find_zone (s : list Z) : nat :=
  match s with
  | [] => 0
  | c :: r => if (c =? 43)%Z || (c =? 45)%Z || (c =? 90)%Z then 0 else S (find_zone r)
  end.

(** The time of day and, when the text names one, the offset. *)
Definition parse_time (s : list Z) : option (list Z * Z * option Z) :=
  let n := find_zone s in
  '(hms, us, more) ← parse_hms 3 true true s n;
  match drop n s with
  | [] => if more : bool then None else Some (hms, us, None)
  | z :: r =>
      if (z =? 90)%Z then if decide (r = []) then Some (hms, us, Some 0%Z) else None
      else
        '(zone, zus, more) ← parse_hms 3 true true r (length r);
        if more : bool then None else
        match zone with
        | [h; m; sec] =>
            let secs := ((h * 60 + m) * 60 + sec)%Z in
            (* a fraction alone is dropped: no whole second means UTC *)
            let off := if (secs =? 0)%Z then 0%Z else (secs * 1000000 + zus)%Z in
            Some (hms, us, Some (if (z =? 45)%Z then - off else off)%Z)
        | _ => None
        end
  end.

(** Drop the separator: one character, however many bytes encode it. *)
Definition skip_char (s : list Z) : list Z :=
  match s with
  | [] => []
  | c :: _ => if (c <? 128)%Z then drop 1 s else if (240 <=? c)%Z then drop 4 s
              else if (224 <=? c)%Z then drop 3 s else drop 2 s
  end.

Definition valid_datetime (t : datetime) : bool :=
  (1 <=? dt_year t)%Z && (dt_year t <=? 9999)%Z && (1 <=? dt_month t)%Z && (dt_month t <=? 12)%Z &&
  (1 <=? dt_day t)%Z && (dt_day t <=? days_in_month (dt_year t) (dt_month t))%Z &&
  (dt_hour t <? 24)%Z && (dt_minute t <? 60)%Z && (dt_second t <? 60)%Z &&
  match dt_offset t with Some o => (Z.abs o <? 86400000000)%Z | None => true end.

(** [None] is [ValueError]. *)
Definition fromisoformat (s : pystr) : option datetime :=
  let b := utf8_encode s in
  if Nat.ltb (length b) 7 then None else
  loc ← separator_location b;
  '(y, m, d) ← parse_date b loc;
  t ← (if Nat.ltb loc (length b) then
         '(hms, us, off) ← parse_time (skip_char (drop loc b));
         match hms with [h; mi; sec] => Some (mk_datetime y m d h mi sec us off) | _ => None end
       else Some (mk_datetime y m d 0 0 0 0 None));
  if valid_datetime t then Some t else None.

(** ** Ordering and differences *)

(** Microseconds since the epoch of the calendar, in local time and in UTC. *)
Definition local_us (t : datetime) : Z :=
  ((((ymd2ord (dt_year t) (dt_month t) (dt_day t) * 24 + dt_hour t) * 60 + dt_minute t) * 60 + dt_second t) * 1000000
   + dt_micro t)%Z.
Definition instant (t : datetime) : Z := (local_us t - default 0 (dt_offset t))%Z.
Definition is_aware (t : datetime) : bool := match dt_offset t with Some _ => true | None => false end.

Definition naive_aware : pyexn := type_error (u "can't compare offset-naive and offset-aware datetimes").

(** [min(l)] and [max(l)] of a non-empty list: the first extreme element. *)
Fixpoint extreme (better : Z -> Z -> bool) (best : datetime) (l : list datetime) : result pyexn datetime :=
  match l with
  | [] => Ok best
  | t :: l =>
      if xorb (is_aware t) (is_aware best) then Raise naive_aware
      else extreme better (if better (instant t) (instant best) then t else best) l
  end.
Definition earliest := extreme Z.ltb.
Definition latest := extreme (fun a b => Z.ltb b a).

(** ** [isoformat] *)
Definition pad_int (width : nat) (n : Z) : pystr :=
  let s := py_str_int n in replicate (width - length s) 48%Z ++ s.
Definition isoformat_offset (o : Z) : pystr :=
  let a := Z.abs o in
  let secs := (a / 1000000)%Z in
  (if (o <? 0)%Z then u "-" else u "+") ++ pad_int 2 (secs / 3600) ++ u ":" ++ pad_int 2 ((secs / 60) mod 60) ++
  (if ((secs mod 60 =? 0) && (a mod 1000000 =? 0))%Z then [] else
     u ":" ++ pad_int 2 (secs mod 60) ++
     (if (a mod 1000000 =? 0)%Z then [] else u "." ++ pad_int 6 (a mod 1000000))).
Definition isoformat (t : datetime) : pystr :=
  pad_int 4 (dt_year t) ++ u "-" ++ pad_int 2 (dt_month t) ++ u "-" ++ pad_int 2 (dt_day t) ++ u "T" ++
  pad_int 2 (dt_hour t) ++ u ":" ++ pad_int 2 (dt_minute t) ++ u ":" ++ pad_int 2 (dt_second t) ++
  (if (dt_micro t =? 0)%Z then [] else u "." ++ pad_int 6 (dt_micro t)) ++
  match dt_offset t with Some o => isoformat_offset o | None => [] end.

(** ** Lemmas *)

(** Ordering succeeds exactly on timestamps that are all naive or all aware,
    and then returns an extreme element of the list. *)
Lemma extreme_ok better best l :
  (is_ok (extreme better best l) = true) <-> Forall (fun t => is_aware t = is_aware best) l.
Proof.
  revert best. induction l as [|t l IH]; intros best; simpl; [by split; [constructor|]|].
  destruct (is_aware t) eqn:Et, (is_aware best) eqn:Eb; simpl.
  2,3: split; [done|]; intros Hf; apply Forall_cons in Hf as [Hf _]; congruence.
  all: rewrite IH, Forall_cons, Et; destruct (better _ _); rewrite ?Et, ?Eb; tauto.
Qed.

Lemma extreme_elem better best l t : extreme better best l = Ok t -> t = best \/ t ∈ l.
Proof.
  revert best. induction l as [|x l IH]; intros best; simpl; [intros [= ->]; by left|].
  destruct (xorb _ _); [done|]. intros Ht%IH. destruct (better _ _); set_solver.
Qed.

Lemma earliest_le best l t :
  earliest best l = Ok t -> forall x, x = best \/ x ∈ l -> (instant t <= instant x)%Z.
Proof.
  unfold earliest. revert best. induction l as [|y l IH]; intros best; simpl.
  - intros [= <-] x [->|Hx]; [lia|set_solver].
  - destruct (xorb _ _); [done|]. intros Ht x Hx.
    destruct (Z.ltb_spec (instant y) (instant best)) as [Hlt|Hge].
    + specialize (IH _ Ht). destruct Hx as [->|[->|Hx]%elem_of_cons]; [|auto|auto].
      specialize (IH y (or_introl eq_refl)). lia.
    + specialize (IH _ Ht). destruct Hx as [->|[->|Hx]%elem_of_cons]; [auto| |auto].
      specialize (IH best (or_introl eq_refl)). lia.
Qed.

Lemma latest_ge best l t :
  latest best l = Ok t -> forall x, x = best \/ x ∈ l -> (instant x <= instant t)%Z.
Proof.
  unfold latest. revert best. induction l as [|y l IH]; intros best; simpl.
  - intros [= <-] x [->|Hx]; [lia|set_solver].
  - destruct (xorb _ _); [done|]. intros Ht x Hx.
    destruct (Z.ltb_spec (instant best) (instant y)) as [Hlt|Hge].
    + specialize (IH _ Ht). destruct Hx as [->|[->|Hx]%elem_of_cons]; [|auto|auto].
      specialize (IH y (or_introl eq_refl)). lia.
    + specialize (IH _ Ht). destruct Hx as [->|[->|Hx]%elem_of_cons]; [auto| |auto].
      specialize (IH best (or_introl eq_refl)). lia.
Qed.
