(* ===== verification/Sha256.v ===== *)
(** * SHA-256

    [hashlib.sha256(data).hexdigest()], the digest the services use for
    pattern identities and content checksums: FIPS 180-4 on 32-bit words with
    their wrap-around written out. *)

From S2P Require Import Prelude PyStr Json.

Definition w32 (x : Z) : Z := Z.land x 4294967295.
Definition rotr (n x : Z) : Z := Z.lor (Z.shiftr x n) (w32 (Z.shiftl x (32 - n))).

Definition big_sigma0 (x : Z) : Z := Z.lxor (rotr 2 x) (Z.lxor (rotr 13 x) (rotr 22 x)).
Definition big_sigma1 (x : Z) : Z := Z.lxor (rotr 6 x) (Z.lxor (rotr 11 x) (rotr 25 x)).
Definition small_sigma0 (x : Z) : Z := Z.lxor (rotr 7 x) (Z.lxor (rotr 18 x) (Z.shiftr x 3)).
Definition small_sigma1 (x : Z) : Z := Z.lxor (rotr 17 x) (Z.lxor (rotr 19 x) (Z.shiftr x 10)).
Definition ch (x y z : Z) : Z := Z.lxor (Z.land x y) (Z.land (Z.lxor x 4294967295) z).
Definition maj (x y z : Z) : Z := Z.lxor (Z.land x y) (Z.lxor (Z.land x z) (Z.land y z)).

(** The round constants: fractional parts of the cube roots of the first 64
    primes; the initial state: of the square roots of the first eight. *)
Definition round_constants : list Z := [
  1116352408; 1899447441; 3049323471; 3921009573; 961987163; 1508970993; 2453635748; 2870763221;
  3624381080; 310598401; 607225278; 1426881987; 1925078388; 2162078206; 2614888103; 3248222580;
  3835390401; 4022224774; 264347078; 604807628; 770255983; 1249150122; 1555081692; 1996064986;
  2554220882; 2821834349; 2952996808; 3210313671; 3336571891; 3584528711; 113926993; 338241895;
  666307205; 773529912; 1294757372; 1396182291; 1695183700; 1986661051; 2177026350; 2456956037;
  2730485921; 2820302411; 3259730800; 3345764771; 3516065817; 3600352804; 4094571909; 275423344;
  430227734; 506948616; 659060556; 883997877; 958139571; 1322822218; 1537002063; 1747873779;
  1955562222; 2024104815; 2227730452; 2361852424; 2428436474; 2756734187; 3204031479; 3329325298]%Z.
Definition initial_state : list Z := [
  1779033703; 3144134277; 1013904242; 2773480762; 1359893119; 2600822924; 528734635; 1541459225]%Z.

(** The message with its padding: a one bit, zeros, the length in bits. *)
Fixpoint be_bytes (n : nat) (x : Z) : list Z :=
  match n with O => [] | S n => Z.land (Z.shiftr x (8 * Z.of_nat n)) 255 :: be_bytes n x end.
Definition pad (bs : list Z) : list Z :=
  let l := Z.of_nat (length bs) in
  bs ++ [128%Z] ++ replicate (Z.to_nat ((55 - l) mod 64)) 0%Z ++ be_bytes 8 (8 * l).

Fixpoint words (bs : list Z) : list Z :=
  match bs with
  | a :: b :: c :: d :: bs => (a * 16777216 + b * 65536 + c * 256 + d)%Z :: words bs
  | _ => []
  end.

(** The message schedule, newest word first. *)
Fixpoint schedule (n : nat) (w : list Z) : list Z :=
  match n with
  | O => w
  | S n => schedule n (w32 (small_sigma1 (nth 1 w 0%Z) + nth 6 w 0%Z + small_sigma0 (nth 14 w 0%Z) + nth 15 w 0%Z)%Z :: w)
  end.

Definition round (s : list Z) (kw : Z * Z) : list Z :=
  match s with
  | [a; b; c; d; e; f; g; h] =>
      let t1 := (h + big_sigma1 e + ch e f g + fst kw + snd kw)%Z in
      let t2 := (big_sigma0 a + maj a b c)%Z in
      [w32 (t1 + t2); a; b; c; w32 (d + t1); e; f; g]
  | _ => s
  end.

Definition compress (s : list Z) (block : list Z) : list Z :=
  let w := reverse (schedule 48 (reverse block)) in
  zip_with (fun x y => w32 (x + y)) s (foldl round s (zip round_constants w)).

Fixpoint blocks (fuel : nat) (s : list Z) (ws : list Z) : list Z :=
  match fuel with
  | O => s
  | S fuel => match ws with [] => s | _ => blocks fuel (compress s (take 16 ws)) (drop 16 ws) end
  end.

Definition sha256 (bs : list Z) : list Z :=
  let ws := words (pad bs) in mjoin (map (be_bytes 4) (blocks (length ws) initial_state ws)).

Definition hexdigest (bs : list Z) : pystr :=
  mjoin (map (fun b => [hex_digit (Z.shiftr b 4); hex_digit (Z.land b 15)]) (sha256 bs)).

(** The two test vectors of the standard. *)
Lemma sha256_abc :
  hexdigest (u "abc") = u "ba7816bf8f01cfea414140de5dae2223b00361a396177a9cb410ff61f20015ad".
Proof. vm_compute. reflexivity. Qed.

Lemma sha256_two_blocks :
  hexdigest (u "abcdbcdecdefdefgefghfghighijhijkijkljklmklmnlmnomnopnopq")
  = u "248d6a61d20638b8e5c026930c3e6039a33ce45964ff2167f6ecedd419db06c1".
Proof. vm_compute. reflexivity. Qed.

(** Digests have 64 characters. *)
Lemma length_be_bytes n x : length (be_bytes n x) = n.
Proof. induction n; simpl; congruence. Qed.

Lemma length_round s kw : length s = 8 -> length (round s kw) = 8.
Proof. intros Hs. by do 8 (destruct s as [|? s]; [done|]); destruct s. Qed.

Lemma length_compress s b : length s = 8 -> length (compress s b) = 8.
Proof.
  intros Hs. unfold compress. rewrite length_zip_with_l_eq; [done|]. rewrite Hs. symmetry.
  revert s Hs. induction (zip _ _) as [|x l IH]; intros s Hs; [done|]. simpl. by apply IH, length_round.
Qed.

Lemma length_blocks fuel s ws : length s = 8 -> length (blocks fuel s ws) = 8.
Proof.
  revert s ws. induction fuel as [|fuel IH]; intros s ws Hs; simpl; [done|].
  destruct ws; [done|]. by apply IH, length_compress.
Qed.

Lemma length_mjoin_const {A B} (f : A -> list B) n l :
  (forall x, length (f x) = n) -> length (mjoin (map f l)) = length l * n.
Proof.
  intros Hf. induction l as [|x l IH]; [done|]. rewrite map_cons. simpl. rewrite length_app, Hf, IH. lia.
Qed.

Lemma length_hexdigest bs : length (hexdigest bs) = 64.
Proof.
  unfold hexdigest. rewrite (length_mjoin_const _ 2) by done. unfold sha256.
  rewrite (length_mjoin_const _ 4) by (intros; apply length_be_bytes). by rewrite length_blocks.
Qed.
