(* ===== verification/Regex.v ===== *)
(** * Regular expressions

    The part of Python's [re] the services use: backtracking search over
    Unicode text with greedy and lazy repetition, ordered alternation, one capture
    group per pattern, backreferences to it, a negative lookahead, word
    boundaries, one-character lookarounds and the [IGNORECASE] flag.

    [run] is structurally recursive on the pattern; the only inner recursion,
    a repetition, is bounded by the characters that remain, since every
    repeated part of the services' patterns consumes at least one. *)

From S2P Require Import Prelude PyStr.

Section regex.
Context `{UnicodeData}.

Inductive re :=
  | Eps
  | Chr (p : Z -> bool)
  | Seq (a b : re)
  | Alt (a b : re)
  | Rep (lo : nat) (hi : option nat) (a : re)
  | Lazy (lo : nat) (a : re)        (* a repetition that stops as soon as it can *)
  | Cap (a : re)                    (* the capture group *)
  | Ref                             (* a backreference to it *)
  | Word                            (* a word boundary *)
  | End                             (* [$] *)
  | Ahead (p : Z -> bool)           (* positive lookahead of one character *)
  | NotAhead (a : re)               (* negative lookahead *)
  | NotBehind (p : Z -> bool).      (* negative lookbehind of one character *)

(** A position: the characters before it, nearest first, those after it, and
    the captured group. *)
Record pos := mk_pos { before : pystr; after : pystr; group1 : option pystr }.

Definition prev_is (p : Z -> bool) (s : pos) : bool := match before s with c :: _ => p c | [] => false end.
Definition next_is (p : Z -> bool) (s : pos) : bool := match after s with c :: _ => p c | [] => false end.
Definition at_boundary (s : pos) : bool := xorb (prev_is uni_word s) (next_is uni_word s).

(** Move over the first [n] characters. *)
Definition advance (n : nat) (s : pos) : pos :=
  mk_pos (reverse (take n (after s)) ++ before s) (drop n (after s)) (group1 s).
Definition set_group (g : pystr) (s : pos) : pos := mk_pos (before s) (after s) (Some g).

(** [run a s k]: match [a] at [s] and continue with [k]; the first way of
    matching for which [k] succeeds. *)
Fixpoint run {A} (a : re) (s : pos) (k : pos -> option A) {struct a} : option A :=
  match a with
  | Eps => k s
  | Chr p => if next_is p s then k (advance 1 s) else None
  | Seq a b => run a s (fun s => run b s k)
  | Alt a b => match run a s k with Some x => Some x | None => run b s k end
  | Rep lo hi a =>
      (fix loop (n : nat) (lo : nat) (hi : option nat) (s : pos) : option A :=
         let stop := if Nat.eqb lo 0 then k s else None in
         match n, hi with
         | O, _ | _, Some O => stop
         | S n, _ =>
             match run a s (fun s' => if Nat.ltb (length (after s')) (length (after s))
                                      then loop n (pred lo) (option_map pred hi) s' else None) with
             | Some x => Some x
             | None => stop
             end
         end) (length (after s)) lo hi s
  | Lazy lo a =>
      (fix loop (n : nat) (lo : nat) (s : pos) : option A :=
         match (if Nat.eqb lo 0 then k s else None), n with
         | Some x, _ => Some x
         | None, O => None
         | None, S n => run a s (fun s' => if Nat.ltb (length (after s')) (length (after s)) then loop n (pred lo) s' else None)
         end) (length (after s)) lo s
  | Cap a => run a s (fun s' => k (set_group (take (length (after s) - length (after s')) (after s)) s'))
  | Ref => match group1 s with
           | Some g => if startswith g (after s) then k (advance (length g) s) else None
           | None => None
           end
  | Word => if at_boundary s then k s else None
  | End => match after s with
           | [] => k s
           | [c] => if (c =? 10)%Z then k s else None
           | _ => None
           end
  | Ahead p => if next_is p s then k s else None
  | NotAhead a => match run a s (fun _ => Some tt) with Some _ => None | None => k s end
  | NotBehind p => if prev_is p s then None else k s
  end.

(** *** Matching functions *)

(** A match: the text before it, the matched text, the group, the text after. *)
Record match_at := mk_match { m_pre : pystr; m_text : pystr; m_group : option pystr; m_post : pystr }.

Definition match_here (a : re) (s : pos) : option match_at :=
  run a s (fun s' => Some (mk_match (reverse (before s))
    (take (length (after s) - length (after s')) (after s)) (group1 s') (after s'))).

(** The leftmost match from position [s] on; [skip] characters first when the
    previous match was empty. *)
Fixpoint search_from (fuel : nat) (a : re) (s : pos) : option match_at :=
  match fuel with
  | O => None
  | S fuel =>
      match match_here a s with
      | Some m => Some m
      | None => match after s with [] => None | _ => search_from fuel a (advance 1 s) end
      end
  end.

(** [re.search] *)
Definition start (s : pystr) : pos := mk_pos [] s None.
Definition search (a : re) (s : pystr) : option match_at := search_from (S (length s)) a (start s).
Definition matches (a : re) (s : pystr) : bool := if search a s is Some _ then true else false.

(** Every non-overlapping match, left to right.  No pattern of the services
    matches the empty string, so each match moves the position forward. *)
Fixpoint all_from (fuel : nat) (a : re) (s : pos) : list match_at :=
  match fuel with
  | O => []
  | S fuel =>
      match search_from (S (length (after s))) a s with
      | None => []
      | Some m => m :: all_from fuel a (mk_pos (reverse (m_pre m ++ m_text m)) (m_post m) None)
      end
  end.
Definition find_all (a : re) (s : pystr) : list match_at := all_from (S (length s)) a (start s).

(** [re.findall] of a pattern with one group, and of one without. *)
Definition findall_group (a : re) (s : pystr) : list pystr := map (fun m => default [] (m_group m)) (find_all a s).
Definition findall (a : re) (s : pystr) : list pystr := map m_text (find_all a s).

(** [re.sub] with a literal replacement. *)
Fixpoint sub_from (fuel : nat) (a : re) (repl : pystr) (s : pos) : pystr :=
  match fuel with
  | O => after s
  | S fuel =>
      match search_from (S (length (after s))) a s with
      | None => after s
      | Some m => drop (length (before s)) (m_pre m) ++ repl ++
                  sub_from fuel a repl (mk_pos (reverse (m_pre m ++ m_text m)) (m_post m) None)
      end
  end.
Definition re_sub (a : re) (repl : pystr) (s : pystr) : pystr := sub_from (S (length s)) a repl (start s).

(** *** Pattern notation *)

Definition is_char (c : Z) : Z -> bool := fun d => (c =? d)%Z.
Definition one_of (s : pystr) : Z -> bool := fun d => bool_decide (d ∈ s).
Definition in_range (a b : Z) : Z -> bool := fun d => (a <=? d)%Z && (d <=? b)%Z.
Definition any_of (ps : list (Z -> bool)) : Z -> bool := fun d => existsb (fun p => p d) ps.
Definition not_ (p : Z -> bool) : Z -> bool := fun d => negb (p d).

(** [IGNORECASE] on a letter: the letter in either case, and the characters
    whose lower case it is. *)
Definition ic_char (c : Z) : Z -> bool := fun d =>
  (ascii_lower c =? ascii_lower d)%Z ||
  ((ascii_lower c =? 105)%Z && ((d =? 304)%Z || (d =? 305)%Z)) ||
  ((ascii_lower c =? 115)%Z && (d =? 383)%Z) ||
  ((ascii_lower c =? 107)%Z && (d =? 8490)%Z).

Fixpoint rseq (l : list re) : re := match l with [] => Eps | [a] => a | a :: l => Seq a (rseq l) end.
Fixpoint alt (l : list re) : re := match l with [] => Chr (fun _ => false) | [a] => a | a :: l => Alt a (alt l) end.
Definition lit (s : pystr) : re := rseq (map (fun c => Chr (is_char c)) s).
Definition lit_ic (s : pystr) : re := rseq (map (fun c => Chr (ic_char c)) s).
Definition plus (a : re) : re := Rep 1 None a.
Definition star (a : re) : re := Rep 0 None a.
Definition opt (a : re) : re := Rep 0 (Some 1) a.
Definition times (n : nat) (a : re) : re := Rep n (Some n) a.
Definition digit : Z -> bool := uni_digit.
Definition space : Z -> bool := is_space.
Definition non_space : Z -> bool := not_ is_space.

(** ** Lemmas *)

Lemma next_is_Some p s : next_is p s = true -> exists c r, after s = c :: r /\ p c = true.
Proof. unfold next_is. destruct (after s) as [|c r]; [done|eauto]. Qed.

(** A match never loses text: what precedes it, the match and what follows
    are the searched text. *)
Definition reaches (s s' : pos) : Prop := exists t, after s = t ++ after s' /\ before s' = reverse t ++ before s.

Lemma reaches_refl s : reaches s s.
Proof. by exists []. Qed.

Lemma reaches_trans s s' s'' : reaches s s' -> reaches s' s'' -> reaches s s''.
Proof.
  intros (t & Ha & Hb) (t' & Ha' & Hb'). exists (t ++ t').
  rewrite Ha, Ha', Hb', Hb, reverse_app, !app_assoc. done.
Qed.

Lemma reaches_advance n s : reaches s (advance n s).
Proof. exists (take n (after s)). simpl. by rewrite take_drop. Qed.

Lemma run_reaches {A} (a : re) s (k : pos -> option A) x :
  run a s k = Some x -> exists s', reaches s s' /\ k s' = Some x.
Proof.
  revert s k x. induction a as [|p|a IHa b IHb|a IHa b IHb|lo hi a IHa|lo a IHa|a IHa| | | |p|a IHa|p]; intros s k x Hr; simpl in Hr.
  - eauto using reaches_refl.
  - destruct (next_is p s); [|done]. eauto using reaches_advance.
  - apply IHa in Hr as (s' & Hs & Hr). apply IHb in Hr as (s'' & Hs' & Hr). eauto using reaches_trans.
  - destruct (run a s k) eqn:E; [apply IHa in E; by simplify_eq|by apply IHb].
  - revert Hr. generalize (length (after s)) as n. intros n Hr. revert Hr. revert lo hi s.
    assert (Hstop : forall lo s, (if Nat.eqb lo 0 then k s else None) = Some x ->
      exists s', reaches s s' /\ k s' = Some x)
      by (intros lo' s'; destruct (Nat.eqb lo' 0); [eauto using reaches_refl|done]).
    induction n as [|n IHn]; intros lo hi s Hr; simpl in Hr; [by apply Hstop in Hr|].
    destruct hi as [[|hi]|]; [by apply Hstop in Hr| |].
    all: destruct (run a s _) as [y|] eqn:E; [|by apply Hstop in Hr].
    all: injection Hr as <-; apply IHa in E as (s' & Hs & E);
      destruct (Nat.ltb _ _); [|done]; apply IHn in E as (s'' & Hs' & E); eauto using reaches_trans.
  - revert Hr. generalize (length (after s)) as n. intros n Hr. revert Hr. revert lo s.
    induction n as [|n IHn]; intros lo s Hr; simpl in Hr;
      destruct (if Nat.eqb lo 0 then k s else None) as [y|] eqn:E; try done;
      try (injection Hr as ->; destruct (Nat.eqb lo 0); [eauto using reaches_refl|done]).
    apply IHa in Hr as (s' & Hs & Hr). destruct (Nat.ltb _ _); [|done]. apply IHn in Hr as (s'' & Hs' & Hr). eauto using reaches_trans.
  - apply IHa in Hr as (s' & Hs & Hr). eexists. split; [|exact Hr].
    destruct Hs as (t & Ht & Hb). by exists t.
  - destruct (group1 s) as [g|]; [|done]. destruct (startswith g (after s)); [|done]. eauto using reaches_advance.
  - destruct (at_boundary s); [|done]. eauto using reaches_refl.
  - destruct (after s) as [|c [|]]; [|destruct (c =? 10)%Z|]; try done; eauto using reaches_refl.
  - destruct (next_is p s); [|done]. eauto using reaches_refl.
  - destruct (run a s _); [done|]. eauto using reaches_refl.
  - destruct (prev_is p s); [done|]. eauto using reaches_refl.
Qed.

Lemma match_here_splits a s m :
  match_here a s = Some m -> m_pre m = reverse (before s) /\ after s = m_text m ++ m_post m.
Proof.
  intros Hm. apply run_reaches in Hm as (s' & (t & Ha & Hb) & [= <-]). simpl. split; [done|].
  rewrite Ha, length_app, Nat.add_sub, take_app_length. done.
Qed.

Lemma search_from_splits fuel a s m :
  search_from fuel a s = Some m -> exists t, reverse (before s) ++ t = m_pre m /\ after s = t ++ m_text m ++ m_post m.
Proof.
  revert s. induction fuel as [|fuel IH]; intros s; simpl; [done|].
  destruct (match_here a s) as [m'|] eqn:E.
  - intros [= <-]. apply match_here_splits in E as [-> ->]. exists []. by rewrite app_nil_r.
  - destruct (after s) as [|c r] eqn:Ha; [done|]. intros Hm. apply IH in Hm as (t & Hp & Hr).
    exists (c :: t). unfold advance in *. rewrite Ha in *. simpl in *. rewrite drop_0 in Hr. rewrite <- Hp, Hr.
    change (c :: before s) with ([c] ++ before s). rewrite reverse_app. by rewrite <- app_assoc.
Qed.

Lemma search_splits a s m : search a s = Some m -> s = m_pre m ++ m_text m ++ m_post m.
Proof. intros Hm. apply search_from_splits in Hm as (t & <- & Hs). exact Hs. Qed.

(** [search] finds a match wherever one starts. *)
Lemma search_from_complete a t : forall fuel s r m,
  after s = t ++ r -> match_here a (advance (length t) s) = Some m -> length t < fuel -> exists m', search_from fuel a s = Some m'.
Proof.
  induction t as [|c t IH]; intros [|fuel] s r m Ha Hm Hf; try (simpl in Hf; lia); cbn [search_from].
  - assert (Hs : advance (length (@nil Z)) s = s) by (destruct s; done). rewrite Hs in Hm. rewrite Hm. by exists m.
  - destruct (match_here a s) as [m'|]; [by exists m'|]. rewrite Ha. cbn [app].
    apply (IH fuel (advance 1 s) r m); [unfold advance; rewrite Ha; done| |simpl in Hf; lia].
    rewrite <- Hm. f_equal. unfold advance. rewrite Ha. cbn [after before group1 length]. simpl. rewrite drop_0.
    f_equal. rewrite !reverse_cons. by rewrite <- app_assoc.
Qed.

Lemma matches_at a t r m : match_here a (mk_pos (reverse t) r None) = Some m -> matches a (t ++ r) = true.
Proof.
  intros Hm. unfold matches, search.
  destruct (search_from_complete a t (S (length (t ++ r))) (start (t ++ r)) r m) as [m' ->]; [done| |rewrite length_app; lia|done].
  unfold start, advance. cbn [after before group1]. by rewrite take_app_length, drop_app_length, app_nil_r.
Qed.
End regex.
