(* ===== verification/Preprocess.v ===== *)
(** * Deterministic log preprocessing

    [sandbox/preprocessing.py], first half: normalising an uploaded log into
    entries, classifying every entry (level, template, pattern identity, cause
    family, trace), and folding the entries into exact counts; and the request
    built from them for the model.  The second half, reconciling the model's
    answer with these counts, is in [Reconcile]. *)

From S2P Require Import Prelude PyStr Json PyColl Failures PyVal PyTime Sha256 Regex.

Definition PREPROCESSOR_VERSION : pystr := u "20".
Definition MAX_DIRECT_LOG_CHARS : Z := 2000000.

(** ** Data *)

(** One item of [entry_manifest]. *)
Record log_entry := mk_entry {
  en_id : Z; en_level : option pystr; en_text : pystr; en_pattern : pystr;
  en_family : option pystr;       (* absent in statistics of older versions *)
  en_trace : option pystr;
}.

(** One item of [pattern_manifest]. *)
Record log_pattern := mk_pattern {
  p_id : pystr; p_template : pystr; p_count : Z; p_samples : list pystr;
  p_family : option pystr; p_label : option pystr;
}.

Record log_family := mk_family { f_id : pystr; f_label : pystr; f_patterns : list pystr; f_count : Z }.

Record statistics := mk_statistics {
  st_total : Z;
  st_levels : list (pystr * Z);
  st_error_count : Z;
  st_exception_count : Z;
  st_exceptions : list (pystr * Z);
  st_endpoints : list (pystr * Z);
  st_http : list (pystr * Z);
  st_traces : list (pystr * Z);
  st_users : list (pystr * Z);
  st_records : list (pystr * Z);
  st_representative : list (Z * option pystr * pystr);
  st_entries : list log_entry;
  st_start : option pystr;
  st_end : option pystr;
  st_duration : json;
  st_patterns : list log_pattern;
  st_families : list log_family;
}.

Section preprocess.
Context `{UnicodeData} `{PyText}.

(** ** Patterns of the module *)
Definition any_char : re := Chr (fun c => negb (c =? 10)%Z).
Definition alpha : Z -> bool := any_of [in_range 65 90; in_range 97 122].
Definition hex_ic : Z -> bool := any_of [ascii_digit; in_range 97 102; in_range 65 70].
Definition hex_dash_ic : Z -> bool := any_of [hex_ic; is_char 45].
Definition date_prefix : re :=
  rseq [times 4 (Chr digit); Chr (is_char 45); times 2 (Chr digit); Chr (is_char 45); times 2 (Chr digit)].

Definition re_TIMESTAMP : re :=
  rseq [Word; Cap (Alt (rseq [date_prefix; Chr (is_char 84); plus (Chr non_space)])
                      (rseq [date_prefix; plus (Chr non_space)]))].
Definition re_LEVEL : re :=
  rseq [Word; Cap (alt (map lit_ic [u "DEBUG"; u "INFO"; u "WARN"; u "WARNING"; u "ERROR"; u "CRITICAL"; u "FATAL"])); Word].
Definition re_ENDPOINT : re :=
  rseq [alt (map lit [u "GET"; u "POST"; u "PUT"; u "PATCH"; u "DELETE"]); plus (Chr space);
       Cap (plus (Chr (fun c => non_space c && negb (c =? 63)%Z)))].
Definition re_HTTP_STATUS : re :=
  rseq [Word; alt (map lit_ic [u "status"; u "status_code"; u "statusCode"; u "http_status"]);
       star (Chr space); Chr (one_of (u "=:")); star (Chr space); opt (Chr (one_of [34%Z; 39%Z]));
       Cap (times 3 (Chr digit)); Word].
Definition id_dash : re := opt (Chr (one_of (u "_-"))).
Definition re_TRACE : re :=
  rseq [Word; Alt (rseq [lit_ic (u "trace"); id_dash; lit_ic (u "id")]) (lit_ic (u "traceId"));
       Chr (is_char 61); Cap (plus (Chr (any_of [alpha; ascii_digit; one_of (u "_-"); one_of [305; 304; 383; 8490]%Z])))].
Definition re_EXCEPTION : re :=
  rseq [Word; star (Chr (any_of [uni_word; is_char 36])); Alt (lit (u "Error")) (lit (u "Exception")); Word].
Definition re_UUID : re :=
  rseq [Word; times 8 (Chr hex_ic); Chr (is_char 45); Rep 27 None (Chr hex_dash_ic); Word].
Definition re_HEX : re := rseq [Word; lit_ic (u "0x"); plus (Chr hex_ic); Word].
Definition re_URL : re :=
  rseq [lit_ic (u "http"); opt (Chr (ic_char 115)); lit (u "://"); plus (Chr (fun c => non_space c && negb (one_of (u "])") c)))].
Definition re_NUMBER : re :=
  rseq [NotBehind alpha; plus (Chr digit); opt (rseq [Chr (is_char 46); plus (Chr digit)]); NotAhead (Chr alpha)].
Definition re_QUOTED : re :=
  rseq [Cap (Chr (one_of [39; 34]%Z));
       star (Alt (rseq [Chr (is_char 92); any_char]) (rseq [NotAhead Ref; any_char])); Ref].
Definition re_WHITESPACE : re := plus (Chr space).
Definition re_REQUEST_ID : re :=
  rseq [Word; alt [rseq [lit_ic (u "trace"); id_dash; lit_ic (u "id")]; lit_ic (u "traceId");
                  rseq [lit_ic (u "span"); id_dash; lit_ic (u "id")]; lit_ic (u "spanId");
                  rseq [lit_ic (u "request"); id_dash; lit_ic (u "id")]; lit_ic (u "requestId");
                  rseq [lit_ic (u "correlation"); id_dash; lit_ic (u "id")]; lit_ic (u "correlationId")];
       star (Chr space); Chr (one_of (u "=:")); star (Chr space); plus (Chr non_space)].

(** ** Entries *)
Definition timestamp (value : pystr) : option pystr := m ← search re_TIMESTAMP value; m_group m.

Definition parse_timestamp (value : option pystr) : option datetime :=
  v ← value;
  if decide (v = []) then None else fromisoformat (replace_char 90 (u "+00:00") v).

Definition trace_keys : list pystr :=
  [u "trace_id"; u "traceId"; u "correlation_id"; u "correlationId"; u "request_id"; u "requestId"].

(** The first usable identity among the keys of a dict: a string or integer
    that is not blank. *)
Fixpoint first_identity (keys : list pystr) (o : json) : option pystr :=
  match keys with
  | [] => None
  | k :: keys =>
      let v := jget_null k o in
      match v with
      | JStr _ | JInt _ | JBool _ =>
          let s := strip (py_str v) in if truthy_str s then Some s else first_identity keys o
      | _ => first_identity keys o
      end
  end.

(** [structured] is the entry's JSON object; an empty one counts as absent. *)
Definition structured_of (structured : option json) : option json :=
  match structured with Some j => if jtruthy j then Some j else None | None => None end.

Definition trace_id (line : pystr) (structured : option json) : option pystr :=
  let from_text := head (findall_group re_TRACE line) in
  match structured_of structured with
  | None => from_text
  | Some o =>
      match first_identity trace_keys o with
      | Some s => Some s
      | None =>
          match jget_null (u "fields") o with
          | JObj f => match first_identity trace_keys (JObj f) with Some s => Some s | None => from_text end
          | _ => from_text
          end
      end
  end.

Definition json_object (line : pystr) : option json :=
  match json_loads line with Some (JObj o) => Some (JObj o) | _ => None end.

Definition not_blank (s : pystr) : bool := truthy_str (strip s).

Definition entries (log_text : pystr) : list (pystr * option json) :=
  match json_loads log_text with
  | Some (JList document) =>
      filter (fun x => not_blank (fst x))
        (map (fun item => match item with
                          | JObj _ => (dumps_compact item, Some item)
                          | _ => (py_str item, None)
                          end) document)
  | Some (JObj o) => [(dumps_compact (JObj o), Some (JObj o))]
  | _ => map (fun line => (line, json_object line)) (filter (fun s => not_blank s) (splitlines log_text))
  end.

Definition level (line : pystr) (structured : option json) : option pystr :=
  let o := default (JObj []) (structured_of structured) in
  let value := match jor (jget_null (u "level") o) (jget_null (u "severity") o) with
               | JStr s => Some s
               | _ => m ← search re_LEVEL line; m_group m
               end in
  v ← value;
  let v := py_upper v in Some (if decide (v = u "WARNING") then u "WARN" else v).

(** ** Pattern identity *)
Definition message_keys : list pystr :=
  [u "line"; u "message"; u "msg"; u "error"; u "exception"; u "error_message"; u "detail"].

Fixpoint first_message (keys : list pystr) (o : json) : option pystr :=
  match keys with
  | [] => None
  | k :: keys => match jget_null k o with
                 | JStr s => if not_blank s then Some s else first_message keys o
                 | _ => first_message keys o
                 end
  end.

Definition squeeze (s : pystr) : pystr := strip (re_sub re_WHITESPACE (u " ") s).

Definition template (line : pystr) (structured : option json) : pystr :=
  let message := o ← structured_of structured; first_message message_keys o in
  let value := default line message in
  let value := re_sub re_URL (u "<url>") value in
  let value := re_sub re_UUID (u "<uuid>") value in
  let value := re_sub re_HEX (u "<hex>") value in
  let value := re_sub re_QUOTED (34%Z :: u "<value>" ++ [34%Z]) value in
  let value := re_sub re_TIMESTAMP (u "<timestamp>") value in
  let value := re_sub re_NUMBER (u "<n>") value in
  let value := re_sub re_REQUEST_ID (u "trace=<id>") value in
  let value := re_sub re_LEVEL (u "<level>") value in
  let value := take 300 (squeeze value) in
  if truthy_str value then value else u "unclassified log entry".

Definition pattern_id (template : pystr) : result pyexn pystr :=
  b ← py_encode template; mret (u "p-" ++ take 12 (hexdigest b)).

Definition family_rules : list (pystr * list pystr * pystr) := [
  (u "elasticsearch-timeout", [u "elasticsearch"; u "timeout"], u "Elasticsearch timeout");
  (u "elasticsearch-failure", [u "elasticsearch"], u "Elasticsearch failure");
  (u "ndrp-availability", [u "ndrp"], u "NDRP availability or response failure");
  (u "clickhouse-sql", [u "clickhouse"; u "sql"], u "ClickHouse SQL failure");
  (u "face-compare-timeout", [u "facecompare"; u "timeout"], u "Face comparison timeout");
  (u "payment-order-missing", [u "payment"; u "does not exist"], u "Payment order lookup failure");
  (u "sms-opted-out", [u "optout"], u "SMS recipient opted out");
  (u "sms-invalid-destination", [u "msisdn"; u "invalid"], u "SMS destination validation failure");
  (u "sms-invalid-destination", [u "destination value"], u "SMS destination validation failure");
  (u "sms-command-failure", [u "sms"; u "command_not_recognised"], u "SMS provider command failure");
  (u "sms-command-failure", [u "command_not_recognised"], u "SMS provider command failure");
  (u "sms-missing-phone", [u "电话号码为空"], u "SMS user phone number missing");
  (u "login-account-empty", [u "loginservice"; u "登录用户检查为空"], u "Login account validation empty");
  (u "google-login-null", [u "googleutil"; u "null"], u "Google login returned null");
  (u "third-party-game-api", [u "/thirdapi/fc/login"], u "Third-party FC game API failure");
  (u "third-party-game-api", [u "/thirdapi/evo/login"], u "Third-party EVO game API failure");
  (u "withdrawal-order-status", [u "userwithdrawservice"; u "checkstatus"; u "uwithdraw"],
     u "Withdrawal order status unavailable");
  (u "export-file-missing", [u "exporttaskservice"; u "文件失败"], u "Export file operation failure");
  (u "export-file-missing", [u "exportservice"; u "文件不存在"], u "Export file operation failure")
].
Definition dependencies : list pystr :=
  [u "elasticsearch"; u "clickhouse"; u "kafka"; u "redis"; u "mysql"; u "postgres"; u "payment"; u "sms"].

(** The family key and its label. *)
Definition cause_family (template : pystr) : result pyexn (pystr * pystr) :=
  let value := casefold template in
  match find_first (fun r => forallb (fun token => contains token value) (snd (fst r))) family_rules with
  | Some (key, _, label) => Ok (key, label)
  | None =>
      let exceptions := fromkeys (findall re_EXCEPTION template) in
      let dependency := find_first (fun token => contains token value) dependencies in
      match exceptions with
      | _ :: _ =>
          Ok (py_join (u ":") (default (u "generic") dependency :: py_sorted str_leb (map casefold exceptions)),
              u "Related " ++ default (u "exception") dependency ++ u " failure: " ++ py_join (u ", ") exceptions)
      | [] => id ← pattern_id template; mret (u "template:" ++ id, take 120 template)
      end
  end.

(** ** The fold over the entries *)

(** What [preprocess_log] accumulates. *)
Record acc := mk_acc {
  a_levels : list (pystr * Z); a_endpoints : list (pystr * Z); a_traces : list (pystr * Z);
  a_exceptions : list (pystr * Z); a_http : list (pystr * Z); a_users : list (pystr * Z); a_records : list (pystr * Z);
  a_times : list datetime;
  a_counts : list (pystr * Z);                    (* pattern_counts *)
  a_templates : list (pystr * pystr);
  a_samples : list (pystr * list pystr);
  a_families : list (pystr * (pystr * pystr));    (* pattern_families *)
  a_representative : list (Z * option pystr * pystr);
  a_entries : list log_entry;
}.
Definition empty_acc : acc := mk_acc [] [] [] [] [] [] [] [] [] [] [] [] [] [].

Definition count_all (ks : list pystr) (c : list (pystr * Z)) : list (pystr * Z) := foldl (fun c k => count_up k c) c ks.

Definition opt_list {A} (x : option A) : list A := match x with Some x => [x] | None => [] end.

(** [datetime] of the first of the usual keys that parses. *)
Definition structured_time (o : json) : option datetime :=
  let parse k := match jget_null k o with JStr s => parse_timestamp (Some s) | _ => None end in
  match parse (u "timestamp") with
  | Some t => Some t
  | None => match parse (u "time") with Some t => Some t | None => parse (u "ts") end
  end.

(** [a.get(k1) or a.get(k2) or ...]; the last value when none is truthy. *)
Fixpoint first_truthy (ks : list pystr) (o : json) : json :=
  match ks with
  | [] => JNull
  | [k] => jget_null k o
  | k :: ks => jor (jget_null k o) (first_truthy ks o)
  end.

Definition str_only (j : json) : list pystr := match j with JStr s => [s] | _ => [] end.
Definition str_or_int (j : json) : list pystr :=
  match j with JStr _ | JInt _ | JBool _ => [py_str j] | _ => [] end.

(** [int(s)] of decimal digits in any script. *)
Definition int_of_digits (s : pystr) : Z := foldl (fun n c => n * 10 + uni_decimal c)%Z 0%Z s.
Definition http_range (n : Z) : bool := (100 <=? n)%Z && (n <=? 599)%Z.

Definition status_of (j : json) : list pystr :=
  match j with JInt n => if http_range n then [py_str_int n] else [] | _ => [] end.

Definition ERROR_LEVELS : list pystr := [u "ERROR"; u "CRITICAL"; u "FATAL"].

Definition truthy_opt (s : option pystr) : list pystr :=
  match s with Some s => if truthy_str s then [s] else [] | None => [] end.

(** Counters that do not concern patterns. *)
Definition facts (line : pystr) (structured : option json) (lvl : option pystr) (a : acc) : acc :=
  let o := structured_of structured in
  let from f := match o with Some o => f o | None => [] end in
  mk_acc
    (count_all (truthy_opt lvl) (a_levels a))
    (count_all (from (fun o => str_only (first_truthy [u "path"; u "endpoint"] o)) ++
                opt_list (m ← search re_ENDPOINT line; m_group m)) (a_endpoints a))
    (count_all (from (fun o => str_only (first_truthy [u "trace_id"; u "traceId"] o)) ++ findall_group re_TRACE line)
       (a_traces a))
    (count_all (findall re_EXCEPTION line) (a_exceptions a))
    (count_all (from (fun o => status_of (first_truthy [u "status_code"; u "statusCode"; u "http_status"; u "status"] o)) ++
                filter (fun s => http_range (int_of_digits s)) (findall_group re_HTTP_STATUS line)) (a_http a))
    (count_all (from (fun o => str_or_int (first_truthy [u "user_id"; u "userId"; u "username"] o))) (a_users a))
    (count_all (from (fun o => str_or_int (first_truthy [u "record_id"; u "recordId"] o))) (a_records a))
    (a_times a ++ opt_list (o ← o; structured_time o) ++ opt_list (parse_timestamp (timestamp line)))
    (a_counts a) (a_templates a) (a_samples a) (a_families a) (a_representative a) (a_entries a).

(** The entry's pattern, family and trace, recorded. *)
Definition record_pattern (max_samples : nat) (id : Z) (line : pystr) (lvl : option pystr)
    (tmpl pid : pystr) (fam : pystr * pystr) (trace : option pystr) (a : acc) : acc :=
  let samples := default [] (assoc pid (a_samples a)) in
  mk_acc (a_levels a) (a_endpoints a) (a_traces a) (a_exceptions a) (a_http a) (a_users a) (a_records a) (a_times a)
    (count_up pid (a_counts a))
    (assoc_set pid tmpl (a_templates a))
    (if Nat.ltb (length samples) 2 then assoc_set pid (samples ++ [take 500 line]) (a_samples a) else a_samples a)
    (assoc_set pid fam (a_families a))
    (if Nat.ltb (length (a_representative a)) max_samples &&
        (bool_decide (lvl ∈ map Some ERROR_LEVELS) || Nat.ltb (length (a_representative a)) 8)
     then a_representative a ++ [(id, lvl, take 700 line)] else a_representative a)
    (a_entries a ++ [mk_entry id lvl (take 1200 line) pid (Some (fst fam)) trace]).

Definition add_entry (max_samples : nat) (a : acc) (x : Z * (pystr * option json)) : result pyexn acc :=
  let '(id, (line, structured)) := x in
  let lvl := level line structured in
  let tmpl := template line structured in
  pid ← pattern_id tmpl;
  fam ← cause_family (take 2000 (squeeze line));
  mret (record_pattern max_samples id line lvl tmpl pid fam (trace_id line structured) (facts line structured lvl a)).

Fixpoint add_entries (max_samples : nat) (a : acc) (l : list (Z * (pystr * option json))) : result pyexn acc :=
  match l with [] => Ok a | x :: l => a ← add_entry max_samples a x; add_entries max_samples a l end.

(** [enumerate] *)
Fixpoint enumerate {A} (i : Z) (l : list A) : list (Z * A) :=
  match l with [] => [] | x :: l => (i, x) :: enumerate (i + 1) l end.

(** ** The statistics *)
Definition rank_leb (counts : list (pystr * Z)) (x y : pystr) : bool :=
  if (count_of counts y <? count_of counts x)%Z then true
  else if (count_of counts x <? count_of counts y)%Z then false else str_leb x y.

Definition family_of (a : acc) (pid : pystr) : pystr * pystr := default ([], []) (assoc pid (a_families a)).

(** The public pattern manifest: the most frequent patterns, and one bucket
    for all others. *)
Definition manifest (max_patterns : nat) (a : acc) : list log_pattern :=
  let ranked := py_sorted (rank_leb (a_counts a)) (map fst (a_counts a)) in
  let omitted := zsum (map (count_of (a_counts a)) (drop max_patterns ranked)) in
  map (fun pid => mk_pattern pid (default [] (assoc pid (a_templates a))) (count_of (a_counts a) pid)
                    (default [] (assoc pid (a_samples a)))
                    (Some (fst (family_of a pid))) (Some (snd (family_of a pid)))) (take max_patterns ranked) ++
  if (omitted =? 0)%Z then []
  else [mk_pattern (u "other") (u "Other deterministic log patterns") omitted []
          (Some (u "other")) (Some (u "Other deterministic log patterns"))].

Definition family_leb (x y : log_family) : bool :=
  if (f_count y <? f_count x)%Z then true
  else if (f_count x <? f_count y)%Z then false else str_leb (f_id x) (f_id y).

(** Every family with its patterns, omitted ones included; the label is that
    of the family's last pattern. *)
Definition families (a : acc) : list log_family :=
  py_sorted family_leb
    (map (fun '(fid, members) =>
            mk_family fid (default [] (last (map (fun pid => snd (family_of a pid)) members))) members
              (zsum (map (count_of (a_counts a)) members)))
       (group_by (fun pid => fst (family_of a pid)) (map fst (a_counts a)))).

Definition preprocess_log (max_patterns max_samples : nat) (log_text : pystr) : result pyexn statistics :=
  let es := entries log_text in
  a ← add_entries max_samples empty_acc (enumerate 0 es);
  times ← match a_times a with
          | [] => Ok None
          | t :: l => lo ← earliest t l; hi ← latest t l; Ok (Some (lo, hi))
          end;
  mret (mk_statistics
    (Z.of_nat (length es))
    (py_sorted (fun x y => str_leb (fst x) (fst y)) (a_levels a))
    (zsum (map (count_of (a_levels a)) ERROR_LEVELS))
    (count_sum (a_exceptions a))
    (most_common 20 (a_exceptions a)) (most_common 20 (a_endpoints a)) (most_common 20 (a_http a))
    (most_common 20 (a_traces a)) (most_common 20 (a_users a)) (most_common 20 (a_records a))
    (a_representative a) (a_entries a)
    (isoformat ∘ fst <$> times) (isoformat ∘ snd <$> times)
    (match times with
     | Some (lo, hi) => JFloat (py_round 3 (float_of_ratio (instant hi - instant lo) 1000000))
     | None => JNull
     end)
    (manifest max_patterns a) (families a)).
Definition preprocess_default : pystr -> result pyexn statistics := preprocess_log 80 40.
End preprocess.

(** ** Accounting theorems *)

(** Entries with a given pattern. *)
Definition with_pattern (pid : pystr) (l : list log_entry) : list log_entry := filter (fun e => en_pattern e = pid) l.

(** Every entry is filed under a named family. *)
Definition has_family (e : log_entry) : Prop := exists fam, en_family e = Some fam /\ truthy_str fam = true.

Section accounting.
Context `{UnicodeData} `{PyText}.

Record acc_ok (n : Z) (a : acc) : Prop := {
  ok_ids : map en_id (a_entries a) = map Z.of_nat (seq 0 (Z.to_nat n));
  ok_len : Z.of_nat (length (a_entries a)) = n;
  ok_counts : forall pid, count_of (a_counts a) pid = Z.of_nat (length (with_pattern pid (a_entries a)));
  ok_keys : NoDup (map fst (a_counts a));
  ok_sum : count_sum (a_counts a) = n;
  ok_dom : forall pid, pid ∈ map fst (a_counts a) -> (pid <> u "other" /\ pid <> u "unquantified") /\ pid ∈ map en_pattern (a_entries a);
  ok_family : Forall has_family (a_entries a);
}.

Lemma pattern_id_shape t pid : pattern_id t = Ok pid -> exists d, pid = u "p-" ++ d.
Proof. unfold pattern_id. destruct (py_encode t); simpl; [|done]. intros [= <-]. eauto. Qed.

Lemma pattern_id_not_other t : pattern_id t <> Ok (u "other").
Proof. intros [d Hd]%pattern_id_shape. by vm_compute in Hd. Qed.

Lemma pattern_id_not_unquantified t : pattern_id t <> Ok (u "unquantified").
Proof. intros [d Hd]%pattern_id_shape. by vm_compute in Hd. Qed.

Lemma py_join_truthy sep x l : truthy_str x = true -> truthy_str (py_join sep (x :: l)) = true.
Proof. destruct x, l; done. Qed.

Lemma cause_family_truthy t fam : cause_family t = Ok fam -> truthy_str (fst fam) = true.
Proof.
  unfold cause_family. destruct (find_first _ family_rules) as [[[key req] label]|] eqn:E.
  - intros [= <-]. apply find_first_Some in E as [Hin _].
    assert (Hall : Forall (fun r => truthy_str (fst (fst r)) = true) family_rules) by (repeat constructor).
    rewrite Forall_forall in Hall. by apply Hall in Hin.
  - destruct (fromkeys (findall re_EXCEPTION t)) as [|x l].
    + unfold mbind, result_bind. destruct (pattern_id t); [|done]. by intros [= <-].
    + intros Hq. apply (f_equal (fun r => match r with Ok x => fst x | Raise _ => [] end)) in Hq.
      cbv beta iota in Hq. rewrite <- Hq. unfold fst. apply py_join_truthy. destruct (find_first _ dependencies) as [d|] eqn:E2; [|done].
      apply find_first_Some in E2 as [Hin _].
      assert (Hall : Forall (fun d => truthy_str d = true) dependencies) by (repeat constructor).
      rewrite Forall_forall in Hall. by apply Hall in Hin.
Qed.

Lemma add_entry_ok ms n a x a' :
  acc_ok n a -> (0 <= n)%Z -> fst x = n -> add_entry ms a x = Ok a' -> acc_ok (n + 1) a'.
Proof.
  intros [Hi Hl Hc Hk Hs Hd Hf] Hn Hx. destruct x as [id [line o]]. simpl in Hx. subst id.
  unfold add_entry. destruct (pattern_id (template line o)) as [pid|] eqn:Hp; [|done].
  unfold mbind, result_bind. destruct (cause_family _) as [fam|] eqn:Hcf; [|done]. intros [= <-].
  split; simpl.
  - rewrite map_app, Hi. replace (Z.to_nat (n + 1)) with (S (Z.to_nat n)) by lia.
    rewrite seq_S, map_app. simpl. by rewrite Z2Nat.id.
  - rewrite length_app. simpl. lia.
  - intros p. rewrite count_up_of, Hc. unfold with_pattern. rewrite filter_app, length_app.
    destruct (decide (p = pid)) as [->|Hne].
    + rewrite filter_cons_True by done. simpl. lia.
    + rewrite filter_cons_False by (simpl; congruence). simpl. lia.
  - by apply count_up_NoDup.
  - rewrite count_up_sum. lia.
  - intros p. rewrite count_up_keys, map_app, elem_of_app. intros [->|Hin].
    + split; [split; intros ->; [by apply pattern_id_not_other in Hp|by apply pattern_id_not_unquantified in Hp]|].
      right. apply list_elem_of_here.
    + split; [by apply Hd|]. left. by apply Hd.
  - apply Forall_app. split; [done|]. constructor; [|constructor].
    apply cause_family_truthy in Hcf. exists (fst fam). done.
Qed.

Lemma add_entries_ok ms n a l a' :
  acc_ok n a -> (0 <= n)%Z -> add_entries ms a (enumerate n l) = Ok a' -> acc_ok (n + Z.of_nat (length l)) a'.
Proof.
  revert n a. induction l as [|x l IH]; intros n a Ha Hn; cbn [enumerate add_entries].
  - intros [= <-]. simpl. by rewrite Z.add_0_r.
  - destruct (add_entry ms a (n, x)) as [a2|] eqn:E; [|done]. unfold mbind, result_bind. intros Hr.
    apply (add_entry_ok ms n) in E; [|done..].
    apply IH in Hr; [|done|lia]. simpl length. by replace (n + Z.of_nat (S (length l)))%Z with (n + 1 + Z.of_nat (length l))%Z by lia.
Qed.

Lemma empty_acc_ok : acc_ok 0 empty_acc.
Proof. split; simpl; try done; try (by apply NoDup_nil_2). set_solver. Qed.

Lemma count_sum_keys c : NoDup (map fst c) -> zsum (map (count_of c) (map fst c)) = count_sum c.
Proof.
  unfold count_sum. induction c as [|[k n] c IH]; simpl; intros Hnd; [done|].
  apply NoDup_cons in Hnd as [Hk Hnd]. rewrite <- IH by done. f_equal.
  - unfold count_of. simpl. by rewrite decide_True.
  - apply zsum_map_ext. intros x Hx. unfold count_of. simpl. rewrite decide_False; [done|]. by intros ->.
Qed.

(** The manifest lists distinct patterns whose counts add up to the whole. *)
Lemma manifest_spec max n a : acc_ok n a ->
  let m := manifest max a in
  zsum (map p_count m) = n /\ NoDup (map p_id m) /\ u "unquantified" ∉ map p_id m /\
  Forall (fun p => is_Some (p_family p)) m /\
  forall p, p ∈ m -> p_id p <> u "other" ->
    (0 < p_count p)%Z /\ p_count p = Z.of_nat (length (with_pattern (p_id p) (a_entries a))).
Proof.
  intros Ha. destruct Ha as [_ _ Hc Hk Hs Hd _]. unfold manifest.
  set (ranked := py_sorted _ _).
  assert (Hp : ranked ≡ₚ map fst (a_counts a)) by apply py_sorted_Permutation.
  assert (Hsum : (zsum (map (count_of (a_counts a)) (take max ranked)) +
                  zsum (map (count_of (a_counts a)) (drop max ranked)))%Z = n).
  { rewrite <- zsum_app, <- map_app, take_drop, Hp. by rewrite count_sum_keys. }
  assert (Hnd : NoDup ranked) by by rewrite Hp.
  assert (Hin : forall pid, pid ∈ take max ranked -> pid ∈ map fst (a_counts a))
    by (intros pid Hpid; rewrite <- Hp; rewrite <- (take_drop max ranked); apply elem_of_app; by left).
  set (omitted := zsum (map (count_of (a_counts a)) (drop max ranked))) in *.
  rewrite !map_app, !map_map. simpl. rewrite map_id. split_and!.
  - rewrite zsum_app. change (fun x => count_of (a_counts a) x) with (count_of (a_counts a)).
    destruct (Z.eqb_spec omitted 0); simpl; lia.
  - apply NoDup_app. split_and!.
    + rewrite <- (take_drop max ranked) in Hnd. by apply NoDup_app in Hnd as [? _].
    + intros pid Hpid%Hin%Hd. destruct (Z.eqb omitted 0); simpl; [set_solver|]. intros ->%list_elem_of_singleton. by destruct Hpid as [[]].
    + destruct (Z.eqb omitted 0); [by apply NoDup_nil_2|apply NoDup_singleton].
  - rewrite elem_of_app. intros [Hu%Hin%Hd|Hu]; [by destruct Hu as [[]]|].
    destruct (Z.eqb omitted 0); simpl in Hu; [set_solver|]. apply list_elem_of_singleton in Hu. by vm_compute in Hu.
  - apply Forall_app. split; [apply Forall_forall; intros p (pid & -> & _)%list_elem_of_fmap; simpl; eauto|].
    destruct (Z.eqb omitted 0); [constructor|]. constructor; [simpl; eauto|constructor].
  - intros p [(pid & -> & Hpid)%list_elem_of_fmap|Hp']%elem_of_app Hne; simpl.
    + rewrite Hc. split; [|done]. apply Hin, Hd in Hpid as [_ He].
      apply list_elem_of_fmap in He as (e & -> & He).
      enough (length (with_pattern (en_pattern e) (a_entries a)) <> 0) by lia.
      intros Hz%nil_length_inv. assert (Hw : e ∈ with_pattern (en_pattern e) (a_entries a)) by by apply list_elem_of_filter.
      rewrite Hz in Hw. by apply elem_of_nil in Hw.
    + destruct (Z.eqb omitted 0); [set_solver|]. apply list_elem_of_singleton in Hp' as ->. done.
Qed.

(** The families partition the patterns. *)
Lemma families_spec n a : acc_ok n a ->
  zsum (map f_count (families a)) = n /\ mjoin (map f_patterns (families a)) ≡ₚ map fst (a_counts a) /\
  NoDup (map f_id (families a)).
Proof.
  intros Ha. destruct Ha as [_ _ _ Hk Hs _ _]. unfold families. set (g := group_by _ _).
  assert (Hg : grouped (fun pid => fst (family_of a pid)) (map fst (a_counts a)) g) by apply group_by_spec.
  destruct Hg as [Hp Hn _ _].
  assert (Hperm : forall l : list (pystr * list pystr), py_sorted family_leb (map (fun '(fid, members) =>
            mk_family fid (default [] (last (map (fun pid => snd (family_of a pid)) members))) members
              (zsum (map (count_of (a_counts a)) members))) l) ≡ₚ map (fun x => mk_family (fst x)
              (default [] (last (map (fun pid => snd (family_of a pid)) (snd x)))) (snd x)
              (zsum (map (count_of (a_counts a)) (snd x)))) l).
  { intros l. rewrite py_sorted_Permutation. apply Permutation_refl', map_ext. by intros []. }
  split_and!.
  - rewrite (Permutation_map f_count (Hperm g)), map_map. simpl.
    rewrite <- Hs, <- count_sum_keys by done. rewrite <- Hp. clear. induction g as [|x g IH]; simpl; [done|].
    by rewrite map_app, zsum_app, IH.
  - rewrite <- Hp. clear -Hperm. specialize (Hperm g). revert Hperm. generalize (py_sorted family_leb (map (fun '(fid, members) =>
            mk_family fid (default [] (last (map (fun pid => snd (family_of a pid)) members))) members
              (zsum (map (count_of (a_counts a)) members))) g)). intros l Hl.
    rewrite Hl, map_map. done.
  - rewrite (Permutation_map f_id (Hperm g)), map_map. done.
Qed.

(** What reconciliation relies on. *)
Record statistics_ok (st : statistics) : Prop := {
  stat_total : st_total st = Z.of_nat (length (st_entries st));
  stat_ids : map en_id (st_entries st) = map Z.of_nat (seq 0 (length (st_entries st)));
  stat_entry_family : Forall has_family (st_entries st);
  stat_pattern_sum : zsum (map p_count (st_patterns st)) = st_total st;
  stat_patterns : NoDup (map p_id (st_patterns st));
  stat_reserved : u "unquantified" ∉ map p_id (st_patterns st);
  stat_pattern_family : Forall (fun p => is_Some (p_family p)) (st_patterns st);
  stat_pattern_count : forall p, p ∈ st_patterns st -> p_id p <> u "other" ->
    (0 < p_count p)%Z /\ p_count p = Z.of_nat (length (with_pattern (p_id p) (st_entries st)));
  stat_family_sum : zsum (map f_count (st_families st)) = st_total st;
  stat_families : NoDup (map f_id (st_families st)) /\ NoDup (mjoin (map f_patterns (st_families st)));
}.

Lemma length_enumerate {A} i (l : list A) : length (enumerate i l) = length l.
Proof. revert i. induction l; intros; simpl; [done|]. by rewrite IHl. Qed.

(** The fold and the range of the timestamps, the two steps that can fail. *)
Definition folded (ms : nat) (text : pystr) : result pyexn acc := add_entries ms empty_acc (enumerate 0 (entries text)).

Lemma preprocess_inv mp ms text st : preprocess_log mp ms text = Ok st ->
  exists a, folded ms text = Ok a /\ st_total st = Z.of_nat (length (entries text)) /\
    st_entries st = a_entries a /\ st_patterns st = manifest mp a /\ st_families st = families a.
Proof.
  unfold preprocess_log, mbind, result_bind. fold (folded ms text).
  destruct (folded ms text) as [a|]; [|done]. case_match; [|done]. intros <-%Ok_inj. by exists a.
Qed.

Lemma preprocess_statistics_ok mp ms text st : preprocess_log mp ms text = Ok st ->
  statistics_ok st /\ st_total st = Z.of_nat (length (entries text)).
Proof.
  intros (a & Ha & Ht & He & Hp & Hf)%preprocess_inv.
  apply (add_entries_ok ms 0) in Ha; [|apply empty_acc_ok|done]. rewrite Z.add_0_l, <- Ht in Ha.
  pose proof (manifest_spec mp _ _ Ha) as (Hm1 & Hm2 & Hm2' & Hm3 & Hm4).
  pose proof (families_spec _ _ Ha) as (Hf1 & Hf2 & Hf3).
  destruct Ha as [Hi Hl Hc Hk Hs Hd Hfam]. split; [|done].
  split; rewrite ?He, ?Hp, ?Hf; try done.
  - by rewrite Hi, <- Hl, Nat2Z.id.
  - split; [done|]. by rewrite Hf2.
Qed.

(** C39. Preprocessing loses no log line: every non-blank entry gets the next
    number and one pattern, the manifest's counts and the families' counts
    each add up to the number of entries, a named pattern's count is the
    number of entries that carry it, and no pattern belongs to two families. *)
Theorem preprocess_accounting mp ms text st :
  preprocess_log mp ms text = Ok st -> statistics_ok st /\ st_total st = Z.of_nat (length (entries text)).
Proof. apply preprocess_statistics_ok. Qed.

Lemma extreme_mixed better best l t :
  t ∈ best :: l -> is_aware t <> is_aware best -> extreme better best l = Raise naive_aware.
Proof.
  revert best. induction l as [|x l IH]; intros best Ht Hne; simpl; [set_solver|].
  destruct (xorb (is_aware x) (is_aware best)) eqn:E; [done|].
  apply xorb_eq in E. apply elem_of_cons in Ht as [->|Ht]; [done|].
  apply elem_of_cons in Ht as [->|Ht]; [congruence|].
  apply IH; [set_solver|]. destruct (better _ _); congruence.
Qed.

(** One timestamp without an offset among timestamps with one makes the
    whole log unprocessable: the range computation raises [TypeError], after
    all entries were counted, whatever else the log holds. *)
Theorem mixed_timestamps_abort mp ms text a t t' :
  folded ms text = Ok a -> t ∈ a_times a -> t' ∈ a_times a -> is_aware t <> is_aware t' ->
  preprocess_log mp ms text = Raise naive_aware.
Proof.
  intros Ha Ht Ht' Hne. unfold preprocess_log, mbind, result_bind. fold (folded ms text). rewrite Ha.
  destruct (a_times a) as [|b l]; [set_solver|]. unfold earliest.
  destruct (decide (is_aware t = is_aware b)) as [E|E].
  - rewrite (extreme_mixed _ b l t') by (done || congruence). done.
  - rewrite (extreme_mixed _ b l t) by done. done.
Qed.
End accounting.

(** ** Witnesses *)
Definition nl : pystr := [10%Z].
Definition sample_log : pystr :=
  u "2024-01-02T03:04:05Z ERROR Elasticsearch timeout after 30 s" ++ nl ++
  u "2024-01-02T03:04:07Z WARN login refused trace_id=ab" ++ nl ++
  u "2024-01-02T03:04:09Z ERROR Elasticsearch timeout after 31 s" ++ nl.

Definition mixed_log : pystr := u "2024-01-02T03:04:05Z ERROR up" ++ nl ++ u "2024-01-02T03:04:05 ERROR down" ++ nl.

Definition no_statistics : statistics :=
  mk_statistics 0 [] 0 0 [] [] [] [] [] [] [] [] None None JNull [] [].
Definition sample_stats : statistics :=
  match @preprocess_log cjk_unicode no_text 80 40 sample_log with Ok st => st | Raise _ => no_statistics end.

Lemma sample_stats_run : @preprocess_log cjk_unicode no_text 80 40 sample_log = Ok sample_stats.
Proof. vm_compute. reflexivity. Qed.

Lemma sample_stats_ok : statistics_ok sample_stats.
Proof. exact (proj1 (preprocess_statistics_ok 80 40 sample_log sample_stats sample_stats_run)). Qed.

Lemma preprocess_accounting_witness : statistics_ok sample_stats /\ st_total sample_stats = 3%Z.
Proof.
  destruct (@preprocess_accounting cjk_unicode no_text 80 40 sample_log sample_stats sample_stats_run) as [H1 H2].
  split; [exact H1|]. rewrite H2. vm_compute. reflexivity.
Defined.

Definition mixed_acc : acc := match @folded cjk_unicode no_text 40 mixed_log with Ok a => a | Raise _ => empty_acc end.

Lemma mixed_timestamps_witness : @preprocess_log cjk_unicode no_text 80 40 mixed_log = Raise naive_aware.
Proof.
  apply (@mixed_timestamps_abort cjk_unicode no_text 80 40 mixed_log mixed_acc
    (mk_datetime 2024 1 2 3 4 5 0 (Some 0%Z)) (mk_datetime 2024 1 2 3 4 5 0 None)).
  - vm_compute. reflexivity.
  - replace (a_times mixed_acc) with [mk_datetime 2024 1 2 3 4 5 0 (Some 0%Z); mk_datetime 2024 1 2 3 4 5 0 None]
      by (vm_compute; reflexivity). apply list_elem_of_here.
  - replace (a_times mixed_acc) with [mk_datetime 2024 1 2 3 4 5 0 (Some 0%Z); mk_datetime 2024 1 2 3 4 5 0 None]
      by (vm_compute; reflexivity). apply list_elem_of_further, list_elem_of_here.
  - discriminate.
Defined.
