(* ===== verification/Reconcile.v ===== *)
(** * Reconciling the model's findings with the evidence

    [sandbox/preprocessing.py], second half: the request sent to the model,
    the compaction of narratives, and [reconcile_result] for answers that
    cite evidence entries ([_reconcile_entry_grouped_result]).  Answers that
    cite pattern identities are in [PatternReconcile].

    The model's answer is an unchecked JSON object.  Python updates it in
    place, so an operation returns the updated document together with its
    outcome, also when it raises half way. *)

From Stdlib Require Import Sorted.
From S2P Require Import Prelude PyStr Json PyColl Failures PyVal Sha256 Regex Preprocess.

Section reconcile.
Context `{UnicodeData} `{PyText}.

(** ** Bounding text *)

(** [compact_log] *)
Definition compact_log (log_text : pystr) (max_chars : Z) : pystr :=
  let len := Z.of_nat (length log_text) in
  if (len <=? max_chars)%Z then log_text
  else
    let marker := u "[deterministic preprocessing omitted " ++ py_str_int (len - max_chars) ++
                  u " bytes; see representative_entries]" in
    if (max_chars <=? Z.of_nat (length marker))%Z then slice_to max_chars marker
    else
      let available := (max_chars - Z.of_nat (length marker) - 2)%Z in
      let head := (available / 2)%Z in
      let tail := (available - head)%Z in
      py_join [10%Z] [slice_to head log_text; marker; slice_from (- tail) log_text].

Definition SENTENCE_ENDINGS : pystr := u ".!?。！？".

(** The positions just after a sentence ending, counted from [i]. *)
Fixpoint endings_from (i : nat) (s : pystr) : list nat :=
  match s with
  | [] => []
  | c :: s => if bool_decide (c ∈ SENTENCE_ENDINGS) then S i :: endings_from (S i) s else endings_from (S i) s
  end.

(** [_compact_narrative] *)
Definition compact_narrative (value : pystr) (max_chars max_sentences : nat) : result pyexn pystr :=
  let text := strip value in
  let endings := endings_from 0 text in
  if Nat.leb (length text) max_chars && Nat.leb (length endings) max_sentences then Ok text
  else
    match filter (fun i => Nat.leb i max_chars) endings with
    | [] => Raise (value_error (u "cannot safely compact narrative without a complete sentence boundary"))
    | i :: usable => Ok (strip (take (nth (Nat.min max_sentences (S (length usable)) - 1) (i :: usable) 0) text))
    end.

(** Replace a field that holds a string, in place. *)
Definition compact_field (max_chars max_sentences : nat) (o : json) (field : pystr) : result pyexn json :=
  v ← py_get field JNull o;
  match v with
  | JStr s => s' ← compact_narrative s max_chars max_sentences; mret (jset field (JStr s') o)
  | _ => mret o
  end.

Definition compact_fields (max_chars max_sentences : nat) (fields : list pystr) (o : json) : result pyexn json :=
  foldl (fun r f => o ← r; compact_field max_chars max_sentences o f) (Ok o) fields.

Fixpoint map_result {A B} (f : A -> result pyexn B) (l : list A) : result pyexn (list B) :=
  match l with [] => Ok [] | x :: l => y ← f x; ys ← map_result f l; mret (y :: ys) end.

(** The findings of a group, an empty list when the group is missing. *)
Definition group_value (group : pystr) (o : json) : result pyexn json := py_get group (JList []) o.

(** Write the findings of a group back; only a list holds them by reference. *)
Definition put_group (group : pystr) (old : json) (fs : list json) (o : json) : json :=
  match old with
  | JList _ => match jget group o with Some _ => jset group (JList fs) o | None => o end
  | _ => o
  end.

Definition compact_group (o : json) (g : pystr * nat * nat) : result pyexn json :=
  let '(group, max_chars, max_sentences) := g in
  old ← group_value group o;
  fs ← py_iter old;
  fs ← map_result (compact_fields max_chars max_sentences [u "detail_zh"; u "detail_en"]) fs;
  mret (put_group group old fs o).

(** [compact_log_triage_narrative] *)
Definition compact_log_triage_narrative (o : json) : result pyexn json :=
  o ← compact_fields 800 4 [u "summary_zh"; u "summary_en"] o;
  o ← compact_group o (u "key_finds", 600, 3);
  compact_group o (u "secondary_finds", 320, 1).

(** ** The request *)

(** [_annotated_log] *)
Definition annotated_log (st : statistics) (log_text : pystr) : pystr :=
  match st_entries st with
  | [] => log_text
  | es => py_join [10%Z] (map (fun e => u "[entry_id=" ++ py_str_int (en_id e) ++ u "] " ++ en_text e) es)
  end.

Definition counter_json (c : list (pystr * Z)) : json := JObj (map (fun kn => (fst kn, JInt (snd kn))) c).
Definition representative_json (l : list (Z * option pystr * pystr)) : json :=
  JList (map (fun '(id, lvl, text) => JObj [(u "id", JInt id); (u "level", jopt lvl); (u "text", JStr text)]) l).

(** [_public_statistics]: every statistic but the pattern and family catalogue
    and the entry manifest. *)
Definition public_statistics (st : statistics) : json := JObj [
  (u "preprocessing_version", JStr PREPROCESSOR_VERSION);
  (u "total_entries", JInt (st_total st));
  (u "level_counts", counter_json (st_levels st));
  (u "error_count", JInt (st_error_count st));
  (u "exception_count", JInt (st_exception_count st));
  (u "exception_counts", counter_json (st_exceptions st));
  (u "endpoint_counts", counter_json (st_endpoints st));
  (u "http_status_counts", counter_json (st_http st));
  (u "trace_counts", counter_json (st_traces st));
  (u "user_id_counts", counter_json (st_users st));
  (u "record_id_counts", counter_json (st_records st));
  (u "representative_entries", representative_json (st_representative st));
  (u "timestamp_start", jopt (st_start st));
  (u "timestamp_end", jopt (st_end st));
  (u "duration_seconds", st_duration st);
  (u "normalization", JStr (u "json-array-or-json-lines-or-text-lines"))].

(** [build_hermes_input] with the worker's arguments *)
Definition build_hermes_input (job_id : json) (incident evidence : json) (log_text : pystr) (st : statistics) : json :=
  JObj [
    (u "schema_version", JStr (u "1.0"));
    (u "task", JStr (u "log_analysis"));
    (u "job_id", job_id);
    (u "incident", incident);
    (u "evidence", evidence);
    (u "statistics", public_statistics st);
    (u "representative_entries", representative_json (st_representative st));
    (u "log_excerpt", JStr (compact_log (annotated_log st log_text) MAX_DIRECT_LOG_CHARS));
    (u "language_order", JList [JStr (u "zh-CN"); JStr (u "en")])].

(** ** Identities and counts *)

(** [_semantic_pattern_id] *)
Definition semantic_pattern_id (finding : json) : result pyexn pystr :=
  v ← py_get (u "id") JNull finding;
  b ← py_encode (u "semantic-v1:" ++ py_str (jor v (JStr (u "finding"))));
  mret (u "semantic-" ++ take 12 (hexdigest b)).

Definition entry_by_id (st : statistics) (id : Z) : option log_entry :=
  find_first (fun e => bool_decide (en_id e = id)) (reverse (st_entries st)).

(** What one entry counts as: its trace, or itself. *)
Definition occurrence_key (st : statistics) (id : Z) : option pystr + Z :=
  match entry_by_id st id with
  | Some e => match en_trace e with
              | Some t => if truthy_str t then inl (Some t) else inr id
              | None => inr id
              end
  | None => inr id
  end.

(** [_occurrence_count] *)
Definition occurrence_count (st : statistics) (ids : list Z) : Z :=
  Z.of_nat (length (fromkeys (map (occurrence_key st) ids))).

(** ** [_reconcile_entry_grouped_result] *)

(** [sorted] of a set of integers *)
Definition sort_ids (ids : list Z) : list Z := py_sorted Z.leb (fromkeys ids).

(** The entries one cited entry stands for: its family, or its pattern. *)
Definition expand (st : statistics) (e : log_entry) : list Z :=
  let same (p : log_entry -> bool) := map en_id (filter (fun x => p x) (st_entries st)) in
  match en_family e with
  | Some fam => if truthy_str fam then same (fun x => bool_decide (en_family x = Some fam))
                else same (fun x => bool_decide (en_pattern x = en_pattern e))
  | None => same (fun x => bool_decide (en_pattern x = en_pattern e))
  end.

Definition is_claimed (claimed : list Z) (i : Z) : bool := bool_decide (i ∈ claimed).
Definition json_ints (ids : list Z) : json := JList (map JInt ids).

(** The checks on one finding's citations; the expanded entries. *)
Definition claim_entries (st : statistics) (claimed : list Z) (raw : json) : result pyexn (list Z) :=
  match raw with
  | JList l =>
      if negb (forallb is_plain_int l) then Raise (value_error (u "evidence_entry_ids must contain integer entry IDs"))
      else
        let ids := fromkeys (omap jint l) in
        match find_first (fun i => match entry_by_id st i with None => true | Some _ => false end) ids with
        | Some i => Raise (value_error (u "unknown evidence entry id: " ++ py_str_int i))
        | None =>
            match py_sorted Z.leb (filter (fun i => is_claimed claimed i) ids) with
            | i :: _ => Raise (value_error (u "evidence entry assigned to more than one finding: " ++ py_str_int i))
            | [] => Ok (sort_ids (filter (fun i => negb (is_claimed claimed i))
                                   (mjoin (map (expand st) (omap (entry_by_id st) ids)))))
            end
        end
  | _ => Raise (value_error (u "evidence_entry_ids must contain integer entry IDs"))
  end.

(** The numbers a finding gets from its entries. *)
Definition quantify (st : statistics) (ids : list Z) (f : json) : json :=
  let n := Z.of_nat (length ids) in
  jset (u "percentage") (percentage n (st_total st))
  (jset (u "count") (JInt n)
  (jset (u "occurrence_count") (JInt (occurrence_count st ids))
  (jset (u "physical_entry_count") (JInt n)
  (jset (u "evidence_entry_ids") (json_ints ids) f)))).

Definition unquantified : json := JList [JStr (u "unquantified")].
Definition unquantify (f : json) : json := jset (u "percentage") JNull (jset (u "count") JNull f).

(** One finding: the claimed entries so far, and the finding in place. *)
Definition reconcile_finding (st : statistics) (claimed : list Z) (f : json) : result pyexn (list Z) * json :=
  match py_in (u "evidence_entry_ids") f with
  | Raise e => (Raise e, f)
  | Ok false => (Ok claimed, f)
  | Ok true =>
      let expanded := raw ← py_get (u "evidence_entry_ids") JNull f; claim_entries st claimed raw in
      match expanded with
      | Raise e => (Raise e, f)
      | Ok [] => (Ok claimed, unquantify (jset (u "pattern_ids") unquantified f))
      | Ok ids =>
          match semantic_pattern_id f with
          | Raise e => (Raise e, f)
          | Ok id => (Ok (claimed ++ ids), quantify st ids (jset (u "pattern_ids") (JList [JStr id]) f))
          end
      end
  end.

(** The findings of one group of the document. *)
Definition reconcile_group (st : statistics) (group : pystr) (claimed : list Z) : M json pyexn (list Z) :=
  o ← get_st;
  old ← lift_result (group_value group o);
  fs ← lift_result (py_iter old);
  let '(r, fs) := for_in_place (reconcile_finding st) claimed fs in
  modify_st (put_group group old fs);;
  lift_result r.

(** *** Unclaimed entries *)

(** [_RECOVERABLE_FAMILY_PRESENTATIONS]: family, labels and details, English
    before Chinese. *)
Definition RECOVERABLE_FAMILY_PRESENTATIONS : list (pystr * (pystr * pystr * pystr * pystr)) := [
  (u "sms-opted-out",
    (u "SMS recipient opted out", u "短信因收件人在退订名单中而失败",
     u "The recipient was on the provider opt-out list; this is a business rejection rather than an infrastructure failure.",
     u "收件人在短信服务商退订名单中；这是业务拒绝而非基础设施故障。"));
  (u "sms-invalid-destination",
    (u "SMS destination validation failure", u "短信目标号码格式校验失败",
     u "The SMS provider rejected the destination format, so delivery could not proceed.",
     u "短信服务商拒绝了目标号码格式，因此无法继续发送。"));
  (u "sms-command-failure",
    (u "SMS provider command failure", u "短信服务商命令失败",
     u "The SMS provider returned a command or destination error while processing delivery.",
     u "短信服务商在处理发送时返回了命令或目标错误。"));
  (u "sms-missing-phone",
    (u "SMS user phone number missing", u "短信用户手机号缺失",
     u "The application could not send the marketing message because the user record had no phone number.",
     u "由于用户记录缺少手机号，应用无法发送营销短信。"));
  (u "face-compare-timeout",
    (u "Face comparison timeout", u "人脸比对超时",
     u "The face-comparison fast path timed out and the service fell back to the alternate RunPod path.",
     u "人脸比对快速路径超时，服务降级到备用RunPod路径。"));
  (u "login-account-empty",
    (u "Login account validation empty", u "登录账号校验为空",
     u "The login request did not resolve to an existing account; the log does not establish a broader service outage.",
     u "登录请求未匹配到现有账号；日志无法证明这是更广泛的服务故障。"));
  (u "google-login-null",
    (u "Google login returned null", u "谷歌登录返回空结果",
     u "The Google login validation returned a null result and the file does not show the underlying cause.",
     u "谷歌登录校验返回空结果，日志未说明具体原因。"));
  (u "generic:zipexception",
    (u "Export archive creation failure", u "导出压缩文件生成失败",
     u "An export job could not create its archive because the input file list was empty.",
     u "导出任务因输入文件列表为空而无法生成压缩文件。"));
  (u "third-party-game-api",
    (u "Third-party game API failure", u "第三方游戏接口异常",
     u "A third-party FC/EVO game API request returned an error response; the file does not establish a shared cause with the other findings.",
     u "第三方FC/EVO游戏接口返回错误；日志无法证明其与其他故障共享同一根因。"));
  (u "withdrawal-order-status",
    (u "Withdrawal order status unavailable", u "提现订单状态不可用",
     u "Withdrawal workers could not resolve the payment order status and received a null withdrawal record.",
     u "提现异步任务无法解析支付订单状态，返回的提现记录为空。"));
  (u "export-file-missing",
    (u "Export file operation failure", u "导出文件操作失败",
     u "An export task reported a missing output file after attempting to complete the export.",
     u "导出任务完成后未找到预期的输出文件。"));
  (u "generic:resourceaccessexception:sslexception",
    (u "Third-party game API transport failure", u "第三方游戏接口传输失败",
     u "A third-party game API request failed during transport with a resource-access/SSL exception.",
     u "第三方游戏接口请求在传输阶段因资源访问或SSL异常失败。"))].

(** A finding the application adds. *)
Definition added_finding (st : statistics) (id label_en label_zh detail_en detail_zh : pystr) (ids : list Z)
    (patterns : json) : json :=
  let n := Z.of_nat (length ids) in
  JObj [
    (u "id", JStr id); (u "label_en", JStr label_en); (u "label_zh", JStr label_zh);
    (u "count", JInt n);
    (u "percentage", percentage n (st_total st));
    (u "physical_entry_count", JInt n);
    (u "occurrence_count", JInt (occurrence_count st ids));
    (u "pattern_ids", patterns);
    (u "evidence_entry_ids", json_ints ids);
    (u "detail_en", JStr detail_en); (u "detail_zh", JStr detail_zh)].

Definition identified (mk : json -> json) : result pyexn json :=
  id ← semantic_pattern_id (mk (JList [])); mret (mk (JList [JStr id])).

(** The family an unclaimed entry is filed under. *)
Definition filed_under (st : statistics) (i : Z) : pystr :=
  default (u "other") (e ← entry_by_id st i; en_family e).

(** [result.setdefault("secondary_finds", []).append(f)] *)
Definition append_secondary (f : json) : M json pyexn () := fun o =>
  match jget (u "secondary_finds") o with
  | None => (Ok tt, jset (u "secondary_finds") (JList [f]) o)
  | Some (JList fs) => (Ok tt, jset (u "secondary_finds") (JList (fs ++ [f])) o)
  | Some v => (Raise (attribute_error (u "'" ++ type_name v ++ u "' object has no attribute 'append'")), o)
  end.

(** File one family of unclaimed entries; the entries that stay unnamed. *)
Definition file_family (st : statistics) (remaining : list Z) (g : pystr * list Z) : M json pyexn (list Z) :=
  match assoc (fst g) RECOVERABLE_FAMILY_PRESENTATIONS with
  | None => mret (remaining ++ snd g)
  | Some (label_en, label_zh, detail_en, detail_zh) =>
      f ← lift_result (identified
            (added_finding st (u "recovered-" ++ fst g) label_en label_zh detail_en detail_zh (snd g)));
      append_secondary f;; mret remaining
  end.

Fixpoint file_families (st : statistics) (remaining : list Z) (gs : list (pystr * list Z)) : M json pyexn (list Z) :=
  match gs with
  | [] => mret remaining
  | g :: gs => remaining ← file_family st remaining g; file_families st remaining gs
  end.

Definition other_activity (st : statistics) (ids : list Z) : json -> json :=
  added_finding st (u "other-observed-log-activity") (u "Other observed log activity") (u "其他日志活动")
    (u "These records were not assigned to a named semantic cause, so they remain included for complete evidence accounting.")
    (u "这些记录未被分配到已命名的语义故障，但仍保留在结果中以确保完整证据统计。") ids.

(** The unclaimed entries, grouped by family in family order. *)
Definition unclaimed (st : statistics) (claimed : list Z) : list Z :=
  sort_ids (filter (fun i => negb (is_claimed claimed i)) (map en_id (st_entries st))).
Definition unclaimed_families (st : statistics) (claimed : list Z) : list (pystr * list Z) :=
  py_sorted (fun x y => str_leb (fst x) (fst y)) (group_by (filed_under st) (unclaimed st claimed)).

Definition reconcile_entry_grouped (st : statistics) : M json pyexn () :=
  claimed ← reconcile_group st (u "key_finds") [];
  claimed ← reconcile_group st (u "secondary_finds") claimed;
  remaining ← file_families st [] (unclaimed_families st claimed);
  when (negb (bool_decide (remaining = [])))
    (f ← lift_result (identified (other_activity st remaining)); append_secondary f);;
  modify_st (jset (u "total_entries") (JInt (st_total st))).

(** *** Whether an answer cites evidence entries *)

(** [any("evidence_entry_ids" in f for f in ...)]; stops at the first hit. *)
Fixpoint any_cites (fs : list json) : result pyexn bool :=
  match fs with
  | [] => Ok false
  | f :: fs => b ← py_in (u "evidence_entry_ids") f; if b : bool then Ok true else any_cites fs
  end.
Definition cites_entries (o : json) : result pyexn bool :=
  fs ← (v ← group_value (u "key_finds") o; py_iter v);
  b ← any_cites fs;
  if b : bool then Ok true
  else fs ← (v ← group_value (u "secondary_finds") o; py_iter v); any_cites fs.
End reconcile.

(** ** What a reconciled answer looks like *)

Definition findings_of (group : pystr) (o : json) : list json :=
  match jget group o with Some (JList l) => l | _ => [] end.
Definition all_findings (o : json) : list json := findings_of (u "key_finds") o ++ findings_of (u "secondary_finds") o.

(** The entries a finding cites, and whether it cites at all. *)
Definition evidence_ids (f : json) : list Z :=
  match jget (u "evidence_entry_ids") f with Some (JList l) => omap jint l | _ => [] end.
Definition cites (f : json) : bool := match jget (u "evidence_entry_ids") f with Some _ => true | None => false end.

(** The fields reconciliation writes. *)
Definition written_fields : list pystr :=
  [u "pattern_ids"; u "evidence_entry_ids"; u "physical_entry_count"; u "occurrence_count"; u "count"; u "percentage"].

Section entry_theorems.
Context `{UnicodeData} `{PyText}.

(** The numbers of a citing finding are those of its entries. *)
Definition accounted (st : statistics) (f : json) : Prop :=
  let n := Z.of_nat (length (evidence_ids f)) in
  jget (u "evidence_entry_ids") f = Some (json_ints (evidence_ids f)) /\ NoDup (evidence_ids f) /\
  if decide (n = 0)%Z then
    jget (u "pattern_ids") f = Some unquantified /\ jget (u "count") f = Some JNull /\ jget (u "percentage") f = Some JNull
  else
    (exists id, semantic_pattern_id f = Ok id /\ jget (u "pattern_ids") f = Some (JList [JStr id])) /\
    jget (u "count") f = Some (JInt n) /\ jget (u "percentage") f = Some (percentage n (st_total st)) /\
    jget (u "physical_entry_count") f = Some (JInt n) /\
    jget (u "occurrence_count") f = Some (JInt (occurrence_count st (evidence_ids f))).

(** [f'] is [f] reconciled: it keeps the entries [f] cites and every field
    the application does not own. *)
Definition reconciled (st : statistics) (f f' : json) : Prop :=
  (forall i, i ∈ evidence_ids f -> i ∈ evidence_ids f') /\
  (forall k, k ∉ written_fields -> jget k f' = jget k f) /\
  (if cites f then accounted st f' else f' = f).

Context (st : statistics) (Hst : statistics_ok st).

Definition entry_ids : list Z := map en_id (st_entries st).

Lemma NoDup_entry_ids : NoDup entry_ids.
Proof.
  unfold entry_ids. rewrite (stat_ids _ Hst). apply NoDup_fmap_2; [apply _|]. apply NoDup_seq.
Qed.

Lemma entry_by_id_elem i e : entry_by_id st i = Some e -> e ∈ st_entries st /\ en_id e = i.
Proof.
  unfold entry_by_id. intros [He Hi]%find_first_Some. rewrite elem_of_reverse in He. split; [done|]. by apply bool_decide_eq_true in Hi.
Qed.

Lemma entry_by_id_of e : e ∈ st_entries st -> entry_by_id st (en_id e) = Some e.
Proof.
  intros He. destruct (entry_by_id st (en_id e)) as [e'|] eqn:E.
  - f_equal. apply entry_by_id_elem in E as [He' Heq].
    apply list_elem_of_lookup in He as [i Hi]. apply list_elem_of_lookup in He' as [j Hj].
    enough (i = j) by congruence. eapply (NoDup_lookup entry_ids); [apply NoDup_entry_ids| |];
      unfold entry_ids; rewrite list_lookup_fmap; [by rewrite Hi|]. rewrite Hj. simpl. by rewrite Heq.
  - exfalso. unfold entry_by_id in E. apply find_first_None with (x := e) in E; [|by apply elem_of_reverse].
    by rewrite bool_decide_eq_true_2 in E.
Qed.

(** *** Sorted sets of entries *)

Lemma elem_of_sort_ids ids i : i ∈ sort_ids ids <-> i ∈ ids.
Proof. unfold sort_ids. by rewrite py_sorted_Permutation, elem_of_fromkeys. Qed.

Lemma NoDup_sort_ids ids : NoDup (sort_ids ids).
Proof. unfold sort_ids. rewrite py_sorted_Permutation. apply NoDup_fromkeys. Qed.

Lemma sort_ids_Sorted ids : StronglySorted (fun a b => Z.leb a b = true) (sort_ids ids).
Proof. apply py_sorted_Sorted; intros; lia. Qed.

Lemma sorted_unique (l k : list Z) :
  StronglySorted (fun a b => Z.leb a b = true) l -> StronglySorted (fun a b => Z.leb a b = true) k ->
  NoDup l -> NoDup k -> (forall i, i ∈ l <-> i ∈ k) -> l = k.
Proof.
  intros Hl. revert k. induction Hl as [|x l Hl IH Hx]; intros k Hk Hnl Hnk Heq.
  - destruct k as [|y k]; [done|]. exfalso. apply (not_elem_of_nil y), Heq, list_elem_of_here.
  - destruct k as [|y k]; [exfalso; apply (not_elem_of_nil x), Heq, list_elem_of_here|].
    apply StronglySorted_inv in Hk as [Hk Hy]. rewrite Forall_forall in Hx, Hy.
    apply NoDup_cons in Hnl as [Hxl Hnl]. apply NoDup_cons in Hnk as [Hyk Hnk].
    assert (x = y) as ->.
    { assert (Hin : x ∈ y :: k) by (apply Heq, list_elem_of_here).
      assert (Hin' : y ∈ x :: l) by (apply Heq, list_elem_of_here).
      apply elem_of_cons in Hin as [|Hin]; [done|]. apply elem_of_cons in Hin' as [|Hin']; [done|].
      apply Hy in Hin. apply Hx in Hin'. lia. }
    f_equal. apply IH; [done..|]. intros i. specialize (Heq i). rewrite !elem_of_cons in Heq.
    destruct (decide (i = y)) as [->|]; [tauto|]. naive_solver.
Qed.

Lemma sort_ids_id l : StronglySorted (fun a b => Z.leb a b = true) l -> NoDup l -> sort_ids l = l.
Proof.
  intros Hs Hn. apply sorted_unique; [apply sort_ids_Sorted|done|apply NoDup_sort_ids|done|apply elem_of_sort_ids].
Qed.

(** *** Expansion *)

Lemma expand_self e : e ∈ st_entries st -> en_id e ∈ expand st e.
Proof.
  intros He. unfold expand.
  destruct (en_family e) as [fam|] eqn:Ef; [destruct (truthy_str fam)|]; apply list_elem_of_fmap; exists e;
    (split; [done|]); apply list_elem_of_filter; (split; [|done]); by rewrite bool_decide_eq_true_2.
Qed.

Lemma expand_entry e i : i ∈ expand st e -> i ∈ entry_ids.
Proof.
  unfold expand, entry_ids. destruct (en_family e) as [fam|]; [destruct (truthy_str fam)|];
    intros (x & -> & [_ Hx]%list_elem_of_filter)%list_elem_of_fmap; apply list_elem_of_fmap; eauto.
Qed.

(** What accepting a finding's citations means. *)
Lemma claim_entries_spec claimed raw ids :
  claim_entries st claimed raw = Ok ids ->
  exists cited, raw = json_ints cited /\
    (forall i, i ∈ cited -> i ∈ ids) /\ (forall i, i ∈ ids -> i ∈ entry_ids /\ i ∉ claimed) /\
    StronglySorted (fun a b => Z.leb a b = true) ids /\ NoDup ids /\
    (forall i, i ∈ ids <-> i ∉ claimed /\ exists c e, c ∈ cited /\ entry_by_id st c = Some e /\ i ∈ expand st e) /\
    (forall c, c ∈ cited -> c ∉ claimed /\ is_Some (entry_by_id st c)).
Proof.
  unfold claim_entries. destruct raw as [| | | | |l|]; try done.
  destruct (forallb is_plain_int l) eqn:Hl; [|done]. cbn [negb].
  assert (Hraw : l = map JInt (omap jint l)).
  { clear -Hl. induction l as [|x l IH]; [done|]. cbn [forallb] in Hl. apply andb_prop in Hl as [Hx Hl].
    destruct x as [| |n| | | |]; try done. change (omap jint (JInt n :: l)) with (n :: omap jint l).
    rewrite map_cons. f_equal. by apply IH. }
  set (cited := omap jint l) in *.
  destruct (find_first _ (fromkeys cited)) eqn:Hu; [done|].
  destruct (py_sorted Z.leb _) eqn:Hc; [|done]. intros [= <-].
  assert (Hknown : forall c, c ∈ cited -> is_Some (entry_by_id st c)).
  { intros c Hc'. apply find_first_None with (x := c) in Hu; [|by apply elem_of_fromkeys].
    destruct (entry_by_id st c); [eauto|done]. }
  assert (Hfree : forall c, c ∈ cited -> c ∉ claimed).
  { intros c Hc' Hin. assert (Hx : c ∈ py_sorted Z.leb (filter (fun i => is_claimed claimed i) (fromkeys cited))).
    { rewrite py_sorted_Permutation. apply list_elem_of_filter. split; [by apply bool_decide_pack|]. by apply elem_of_fromkeys. }
    rewrite Hc in Hx. by apply elem_of_nil in Hx. }
  assert (Hmem : forall i, i ∈ mjoin (map (expand st) (omap (entry_by_id st) (fromkeys cited))) <->
    exists c e, c ∈ cited /\ entry_by_id st c = Some e /\ i ∈ expand st e).
  { intros i. rewrite list_elem_of_join. split.
    - intros (k & Hi & (e & -> & (c & Hc' & He)%list_elem_of_omap)%list_elem_of_fmap).
      exists c, e. by rewrite elem_of_fromkeys in Hc'.
    - intros (c & e & Hc' & He & Hi). exists (expand st e). split; [done|]. apply list_elem_of_fmap.
      exists e. split; [done|]. apply list_elem_of_omap. exists c. by rewrite elem_of_fromkeys. }
  assert (Hiff : forall i, i ∈ sort_ids (filter (fun i => negb (is_claimed claimed i))
      (mjoin (map (expand st) (omap (entry_by_id st) (fromkeys cited))))) <->
    i ∉ claimed /\ exists c e, c ∈ cited /\ entry_by_id st c = Some e /\ i ∈ expand st e).
  { intros i. rewrite elem_of_sort_ids, list_elem_of_filter, Hmem. unfold is_claimed.
    destruct (bool_decide_reflect (i ∈ claimed)); simpl; naive_solver. }
  exists cited. split_and!.
  - unfold json_ints. f_equal. exact Hraw.
  - intros c Hc'. apply Hiff. split; [by apply Hfree|]. destruct (Hknown c Hc') as [e He].
    exists c, e. split_and!; [done..|]. apply entry_by_id_elem in He as [He <-]. by apply expand_self.
  - intros i (Hn & c & e & _ & _ & Hi)%Hiff. split; [by apply expand_entry in Hi|done].
  - apply sort_ids_Sorted.
  - apply NoDup_sort_ids.
  - exact Hiff.
  - auto.
Qed.

(** *** Families *)

(** A set of entries that holds every entry of the families it touches. *)
Definition family_closed (ids : list Z) : Prop :=
  forall i e x, i ∈ ids -> entry_by_id st i = Some e -> x ∈ expand st e -> x ∈ ids.

Lemma entry_by_id_known i : i ∈ entry_ids -> exists e, entry_by_id st i = Some e /\ e ∈ st_entries st /\ en_id e = i.
Proof. intros (e & -> & He)%list_elem_of_fmap. exists e. by rewrite entry_by_id_of. Qed.

Lemma expand_family e : e ∈ st_entries st ->
  exists fam, en_family e = Some fam /\
    expand st e = map en_id (filter (fun x => bool_decide (en_family x = Some fam)) (st_entries st)).
Proof.
  intros He. pose proof (stat_entry_family _ Hst) as Hf. rewrite Forall_forall in Hf.
  destruct (Hf e He) as (fam & Hfam & Ht). exists fam. split; [done|]. unfold expand. by rewrite Hfam, Ht.
Qed.

Lemma expand_class e i e' : e ∈ st_entries st -> i ∈ expand st e -> entry_by_id st i = Some e' -> expand st e' = expand st e.
Proof.
  intros He Hi Hi'. apply entry_by_id_elem in Hi' as [He' <-].
  destruct (expand_family e He) as (fam & Hfam & ->). destruct (expand_family e' He') as (fam' & Hfam' & ->).
  destruct (expand_family e He) as (fam2 & Hfam2 & Hx). rewrite Hx in Hi.
  apply list_elem_of_fmap in Hi as (y & Hy & [Hb Hyin]%list_elem_of_filter).
  apply bool_decide_unpack in Hb. pose proof (entry_by_id_of y Hyin) as Hy1. pose proof (entry_by_id_of e' He') as He1.
  rewrite <- Hy in Hy1. assert (y = e') as -> by congruence. by assert (fam' = fam) as -> by congruence.
Qed.

Lemma closed_difference ids claimed :
  family_closed claimed -> (forall i, i ∈ claimed -> i ∈ entry_ids) ->
  (forall i, i ∈ ids <-> i ∉ claimed /\ exists c e, entry_by_id st c = Some e /\ (forall x, x ∈ expand st e -> x ∉ claimed -> x ∈ ids) /\ i ∈ expand st e) ->
  family_closed ids.
Proof.
  intros Hcl Hsub Hids i e x Hi He Hx. apply Hids in Hi as (Hn & c & ec & Hc & Hall & Hi).
  apply entry_by_id_elem in Hc as [Hec _]. rewrite (expand_class ec i e) in Hx by done.
  apply Hall; [done|]. intros Hxc. apply Hn.
  destruct (entry_by_id_known x) as (ex & Hex & Hin & <-); [by apply Hsub|].
  apply (Hcl (en_id ex) ex i); [done..|]. by rewrite (expand_class ec (en_id ex) ex).
Qed.

(** *** One finding *)

Lemma evidence_ids_json ids f : jget (u "evidence_entry_ids") f = Some (json_ints ids) -> evidence_ids f = ids.
Proof. unfold evidence_ids. intros ->. apply omap_jint_ints. Qed.

Lemma semantic_pattern_id_get f f' :
  is_obj f = true -> is_obj f' = true -> jget (u "id") f' = jget (u "id") f -> semantic_pattern_id f' = semantic_pattern_id f.
Proof. intros Hf Hf' Hid. unfold semantic_pattern_id. by rewrite !py_get_jget, Hid. Qed.

Lemma not_written k : k ∉ written_fields -> Forall (fun k' => k <> k') written_fields.
Proof. intros Hk. apply Forall_forall. intros k' Hk' ->. done. Qed.

Lemma quantify_other ids id f k :
  k ∉ written_fields -> jget k (quantify st ids (jset (u "pattern_ids") (JList [JStr id]) f)) = jget k f.
Proof.
  intros Hk%not_written. unfold written_fields in Hk. rewrite !Forall_cons in Hk. destruct_and! Hk. unfold quantify.
  by rewrite !jget_jset_ne by assumption.
Qed.

Lemma unquantify_other f k :
  k ∉ written_fields -> jget k (unquantify (jset (u "pattern_ids") unquantified f)) = jget k f.
Proof.
  intros Hk%not_written. unfold written_fields in Hk. rewrite !Forall_cons in Hk. destruct_and! Hk. unfold unquantify.
  by rewrite !jget_jset_ne by assumption.
Qed.

Lemma id_not_written : u "id" ∉ written_fields.
Proof. unfold written_fields. rewrite !not_elem_of_cons. split_and!; try key_ne. apply not_elem_of_nil. Qed.

Lemma quantify_accounted f ids id :
  is_obj f = true -> ids <> [] -> NoDup ids -> semantic_pattern_id f = Ok id ->
  let f' := quantify st ids (jset (u "pattern_ids") (JList [JStr id]) f) in
  evidence_ids f' = ids /\ accounted st f'.
Proof.
  intros Hf Hne Hs Hid f'.
  assert (Hev : jget (u "evidence_entry_ids") f' = Some (json_ints ids)) by (unfold f', quantify; by read_fields).
  pose proof (evidence_ids_json _ _ Hev) as He. split; [done|]. unfold accounted. rewrite He.
  split; [done|]. split; [done|]. rewrite decide_False by (destruct ids; simpl; [done|lia]).
  split_and!; try (unfold f', quantify; by read_fields).
  exists id. split; [|unfold f', quantify; by read_fields].
  rewrite <- Hid. apply semantic_pattern_id_get; [done|by unfold f', quantify; rewrite !is_obj_jset|].
  apply quantify_other, id_not_written.
Qed.

Lemma unquantify_accounted f :
  is_obj f = true -> jget (u "evidence_entry_ids") f = Some (json_ints []) ->
  let f' := unquantify (jset (u "pattern_ids") unquantified f) in evidence_ids f' = [] /\ accounted st f'.
Proof.
  intros Hf Hev f'.
  assert (Hev' : jget (u "evidence_entry_ids") f' = Some (json_ints [])) by (unfold f', unquantify; read_fields; done).
  pose proof (evidence_ids_json _ _ Hev') as He. split; [done|]. unfold accounted. rewrite He.
  split; [done|]. split; [by apply NoDup_nil_2|]. rewrite decide_True by done.
  split_and!; unfold f', unquantify; by read_fields.
Qed.

Lemma reconcile_finding_spec claimed f c' f' :
  reconcile_finding st claimed f = (Ok c', f') ->
  reconciled st f f' /\ c' = claimed ++ evidence_ids f' /\ NoDup (evidence_ids f') /\
  (forall i, i ∈ evidence_ids f' -> i ∈ entry_ids /\ i ∉ claimed) /\
  (family_closed claimed -> (forall i, i ∈ claimed -> i ∈ entry_ids) -> family_closed (evidence_ids f')).
Proof.
  unfold reconcile_finding. destruct (py_in (u "evidence_entry_ids") f) as [[|]|] eqn:Hin; [| |done].
  - destruct (py_get (u "evidence_entry_ids") JNull f) as [raw|] eqn:Hg; [|done].
    pose proof (py_get_is_obj _ _ _ _ Hg) as Hf. rewrite py_in_obj in Hin by done.
    destruct (jget (u "evidence_entry_ids") f) as [v|] eqn:Hj; [|done].
    rewrite py_get_jget, Hj in Hg by done. injection Hg as ->.
    unfold mbind, result_bind. destruct (claim_entries st claimed raw) as [ids|] eqn:Hc; [|done].
    apply claim_entries_spec in Hc as (cited & -> & Hkeep & Hids & Hs & Hnd & Hiff & _).
    assert (Hci : cites f = true) by (unfold cites; by rewrite Hj).
    pose proof (evidence_ids_json _ _ Hj) as Hev.
    destruct ids as [|i ids].
    + intros [= <- <-]. assert (cited = []) as ->.
      { destruct cited as [|c cited]; [done|]. exfalso. apply (not_elem_of_nil c), Hkeep, list_elem_of_here. }
      destruct (unquantify_accounted f Hf Hj) as [He Ha]. rewrite He, app_nil_r.
      split_and!; [|done|by apply NoDup_nil_2|set_solver|intros _ _ x; set_solver].
      split; [rewrite Hev, He; set_solver|]. split; [apply unquantify_other|]. by rewrite Hci.
    + destruct (semantic_pattern_id f) as [id|] eqn:Hid; [|done]. intros [= <- <-].
      destruct (quantify_accounted f (i :: ids) id) as [He Ha]; [done..|]. rewrite He.
      split_and!; [|done..|].
      2: { intros Hcl Hsub. apply (closed_difference _ claimed); [done..|]. intros x. rewrite Hiff. split.
           - intros (Hn & c & e & Hc & Hce & Hx). split; [done|]. exists c, e. split_and!; [done| |done].
             intros y Hy Hny. apply Hiff. split; [done|]. by exists c, e.
           - intros (Hn & c & e & Hce & Hall & Hx). apply Hiff. by apply Hall. }
      split; [by rewrite Hev, He|]. split; [intros k; apply quantify_other|]. by rewrite Hci.
  - intros [= <- <-]. assert (Hno : jget (u "evidence_entry_ids") f = None).
    { destruct (is_obj f) eqn:Hf; [|by destruct f]. rewrite py_in_obj in Hin by done. by destruct (jget _ f). }
    assert (He : evidence_ids f = []) by (unfold evidence_ids; by rewrite Hno).
    rewrite He, app_nil_r. split_and!; [|done|by apply NoDup_nil_2|set_solver|intros _ _ x; set_solver].
    split; [done|]. split; [done|]. unfold cites. by rewrite Hno.
Qed.

(** *** A group *)

Lemma reconcile_loop_spec claimed fs c' fs' :
  for_in_place (reconcile_finding st) claimed fs = (Ok c', fs') -> NoDup claimed ->
  (forall i, i ∈ claimed -> i ∈ entry_ids) -> family_closed claimed ->
  Forall2 (reconciled st) fs fs' /\ c' = claimed ++ mjoin (map evidence_ids fs') /\ NoDup c' /\
  (forall i, i ∈ c' -> i ∈ entry_ids) /\ family_closed c' /\ Forall (fun f => family_closed (evidence_ids f)) fs'.
Proof.
  intros Hrun Hnd Hsub Hcl.
  apply (for_in_place_inv _ (fun c done done' => Forall2 (reconciled st) done done' /\
    c = claimed ++ mjoin (map evidence_ids done') /\ NoDup c /\
    (forall i, i ∈ c -> i ∈ entry_ids) /\ family_closed c /\ Forall (fun f => family_closed (evidence_ids f)) done') _ _ _ _ Hrun).
  - simpl. rewrite app_nil_r. split_and!; done || constructor.
  - intros c done done' x c2 x' (Hf & -> & Hn & Hs & Hc & Hcs) _ Hx.
    apply reconcile_finding_spec in Hx as (Hr & -> & Hn2 & Hi & Hc2). specialize (Hc2 Hc Hs). split_and!.
    + apply Forall2_app; [done|]. by constructor.
    + rewrite map_app. simpl. rewrite join_app. simpl. by rewrite app_nil_r, app_assoc.
    + apply NoDup_app. split_and!; [done| |done]. intros i Hic Hie. by apply Hi in Hie as [_ ?].
    + intros i [?|Hie]%elem_of_app; [by apply Hs|]. by apply Hi in Hie as [? _].
    + intros i e y [Hi'|Hi']%elem_of_app He Hy; apply elem_of_app; [left; by eapply Hc|right; by eapply Hc2].
    + apply Forall_app. split; [done|]. by constructor.
Qed.

Lemma group_value_findings group o old fs :
  group_value group o = Ok old -> py_iter old = Ok fs ->
  is_obj o = true /\ ((old = JList fs /\ findings_of group o = fs /\ (fs <> [] -> jget group o = Some (JList fs))) \/
                      (findings_of group o = [] /\ (forall l, old <> JList l) /\ Forall (fun f => is_obj f = false) fs)).
Proof.
  unfold group_value. intros Hg Hi. pose proof (py_get_is_obj _ _ _ _ Hg) as Ho. split; [done|].
  rewrite py_get_jget in Hg by done. injection Hg as <-. unfold findings_of.
  destruct (jget group o) as [v|]; simpl in *.
  - destruct v; try done; injection Hi as <-.
    + right. split_and!; [done..|]. by apply Forall_map, Forall_true.
    + left. done.
    + right. split_and!; [done..|]. by apply Forall_map, Forall_true.
  - injection Hi as <-. left. done.
Qed.

Lemma reconcile_group_spec group claimed o c' o' :
  reconcile_group st group claimed o = (Ok c', o') -> NoDup claimed ->
  (forall i, i ∈ claimed -> i ∈ entry_ids) -> family_closed claimed ->
  is_obj o' = true /\ (forall k, k <> group -> jget k o' = jget k o) /\
  Forall2 (reconciled st) (findings_of group o) (findings_of group o') /\
  c' = claimed ++ mjoin (map evidence_ids (findings_of group o')) /\ NoDup c' /\ (forall i, i ∈ c' -> i ∈ entry_ids) /\
  family_closed c' /\ Forall (fun f => family_closed (evidence_ids f)) (findings_of group o').
Proof.
  unfold reconcile_group. intros Hrun Hnd Hsub Hcl. run_simpl. cbn -[u] in Hrun.
  destruct (group_value group o) as [old|] eqn:Hg; [|done].
  destruct (py_iter old) as [fs|] eqn:Hi; [|done].
  destruct (for_in_place (reconcile_finding st) claimed fs) as [r fs'] eqn:Hl.
  injection Hrun as -> <-.
  apply reconcile_loop_spec in Hl as (Hf & -> & Hn & Hs & Hc' & Hcs); [|done..].
  destruct (group_value_findings _ _ _ _ Hg Hi) as [Ho [(-> & Hfs & Hj)|(Hfs & Hold & Hno)]].
  - assert (Hput : findings_of group (put_group group (JList fs) fs' o) = fs' /\ is_obj (put_group group (JList fs) fs' o) = true
      /\ forall k, k <> group -> jget k (put_group group (JList fs) fs' o) = jget k o).
    { unfold put_group. destruct (jget group o) as [v|] eqn:E.
      - split_and!; [|by rewrite is_obj_jset|intros; by apply jget_jset_ne].
        unfold findings_of. by rewrite jget_jset_eq.
      - destruct fs as [|x fs]; [|discriminate Hj; discriminate]. inversion Hf; subst. split_and!; [|done..].
        unfold findings_of. by rewrite E. }
    destruct Hput as (-> & Ho' & Hk). split_and!; try done. by rewrite Hfs.
  - assert (put_group group old fs' o = o) as -> by (destruct old as [| | | | |l|]; try done; by destruct (Hold l)).
    assert (Hev : mjoin (map evidence_ids fs') = []).
    { clear -Hf Hno. induction Hf as [|f f' fs fs' Hff _ IH]; [done|]. apply Forall_cons in Hno as [Hno1 Hno].
      simpl. rewrite IH by done. destruct Hff as (_ & _ & Hc).
      assert (cites f = false) as Hcf by (by destruct f). rewrite Hcf in Hc. subst f'. by destruct f. }
    rewrite Hfs. rewrite Hev in *. split_and!; done.
Qed.

(** *** Findings the application adds *)

(** The document [o'] is [o] with more secondary findings. *)
Definition extends (o : json) (added : list json) (o' : json) : Prop :=
  is_obj o' = true /\ (forall k, k <> u "secondary_finds" -> jget k o' = jget k o) /\
  findings_of (u "secondary_finds") o' = findings_of (u "secondary_finds") o ++ added.

Lemma extends_refl o : is_obj o = true -> extends o [] o.
Proof. intros Ho. split_and!; [done|done|by rewrite app_nil_r]. Qed.

Lemma extends_trans o a o' b o'' : extends o a o' -> extends o' b o'' -> extends o (a ++ b) o''.
Proof.
  intros (_ & Hk & Hf) (Ho & Hk' & Hf'). split_and!; [done| |by rewrite Hf', Hf, app_assoc].
  intros k Hne. by rewrite Hk', Hk.
Qed.

Lemma append_secondary_extends f o o' : is_obj o = true -> append_secondary f o = (Ok tt, o') -> extends o [f] o'.
Proof.
  intros Ho. unfold append_secondary, extends, findings_of.
  destruct (jget (u "secondary_finds") o) as [v|] eqn:E; [destruct v; try done|]; intros [= <-];
    rewrite is_obj_jset, jget_jset_eq by done; (split_and!; [done|intros; by apply jget_jset_ne|done]).
Qed.

Lemma added_finding_accounted id le lz de dz ids pid :
  ids <> [] -> NoDup ids ->
  semantic_pattern_id (added_finding st id le lz de dz ids (JList [])) = Ok pid ->
  let f := added_finding st id le lz de dz ids (JList [JStr pid]) in evidence_ids f = ids /\ accounted st f.
Proof.
  intros Hne Hnd Hid f.
  assert (Hev : jget (u "evidence_entry_ids") f = Some (json_ints ids)) by reflexivity.
  pose proof (evidence_ids_json _ _ Hev) as He. split; [done|]. unfold accounted. rewrite He.
  split; [done|]. split; [done|]. rewrite decide_False by (destruct ids; simpl; [done|lia]).
  split_and!; try reflexivity. exists pid. split; [|reflexivity]. exact Hid.
Qed.

Lemma identified_inv mk f : identified mk = Ok f -> exists pid, semantic_pattern_id (mk (JList [])) = Ok pid /\ f = mk (JList [JStr pid]).
Proof.
  unfold identified, mbind, result_bind. destruct (semantic_pattern_id _) as [pid|] eqn:E; [|done].
  intros [= <-]. by exists pid.
Qed.

(** The groups of unclaimed entries are non-empty, disjoint and closed. *)
Record good_groups (gs : list (pystr * list Z)) : Prop := {
  gg_nodup : NoDup (mjoin (map snd gs));
  gg_groups : forall k ids, (k, ids) ∈ gs -> ids <> [] /\ family_closed ids;
}.

Lemma evidence_cons f l : mjoin (map evidence_ids (f :: l)) = evidence_ids f ++ mjoin (map evidence_ids l).
Proof. done. Qed.

Lemma group_cons (k : pystr) (ids : list Z) gs : mjoin (map snd ((k, ids) :: gs)) = ids ++ mjoin (map snd gs).
Proof. done. Qed.

Lemma file_families_spec rem gs o rem' o' :
  file_families st rem gs o = (Ok rem', o') -> is_obj o = true -> good_groups gs -> family_closed rem ->
  exists added, extends o added o' /\ Forall (accounted st) added /\ family_closed rem' /\
    Forall (fun f => family_closed (evidence_ids f)) added /\
    mjoin (map evidence_ids added) ++ rem' ≡ₚ rem ++ mjoin (map snd gs).
Proof.
  revert rem o. induction gs as [|[k ids] gs IH]; intros rem o Hrun Ho [Hnd Hg] Hrem; cbn [file_families] in Hrun.
  { injection Hrun as <- <-. exists []. split_and!; try done; [by apply extends_refl|by rewrite app_nil_r]. }
  simpl in Hnd. apply NoDup_app in Hnd as (Hids & _ & Hnd).
  destruct (Hg k ids) as [Hne Hcl]; [apply list_elem_of_here|].
  assert (Hgs : good_groups gs) by (split; [done|intros; eapply Hg, list_elem_of_further; eauto]).
  apply bind_ok_inv in Hrun as (rem1 & o1 & Hstep & Hrun). unfold file_family in Hstep. cbn [fst snd] in Hstep.
  destruct (assoc k RECOVERABLE_FAMILY_PRESENTATIONS) as [[[[le lz] de] dz]|].
  - apply bind_ok_inv in Hstep as (f & o2 & Hl & Hstep).
    apply lift_ok_inv in Hl as [Hf ->]. apply identified_inv in Hf as (pid & Hpid & ->).
    apply bind_ok_inv in Hstep as ([] & o2 & Ha & Hstep). injection Hstep as <- <-.
    destruct (added_finding_accounted _ _ _ _ _ _ _ Hne Hids Hpid) as [He Hacc].
    apply append_secondary_extends in Ha; [|done].
    apply IH in Hrun as (added & Hext & Hfa & Hcr & Hfc & Hp); [|apply Ha|done|done].
    eexists (_ :: added). split_and!; [by apply (extends_trans _ [_] _ _ _ Ha)|by constructor|done|constructor; [by rewrite He|done]|].
    rewrite evidence_cons, He, <- app_assoc, Hp, group_cons. by rewrite !app_assoc, (Permutation_app_comm ids rem).
  - injection Hstep as <- <-. apply IH in Hrun as (added & Hext & Hfa & Hcr & Hfc & Hp); [|done|done|].
    + exists added. split_and!; try done. rewrite Hp. simpl. by rewrite app_assoc.
    + intros i e x [Hi|Hi]%elem_of_app He Hx; apply elem_of_app; [left; by eapply Hrem|right; by eapply Hcl].
Qed.

Lemma elem_of_unclaimed claimed i : i ∈ unclaimed st claimed <-> i ∈ entry_ids /\ i ∉ claimed.
Proof.
  unfold unclaimed. rewrite elem_of_sort_ids, list_elem_of_filter. unfold is_claimed.
  destruct (bool_decide_reflect (i ∈ claimed)); simpl; naive_solver.
Qed.

Lemma filed_under_family i e : entry_by_id st i = Some e -> filed_under st i = default (u "other") (en_family e).
Proof. unfold filed_under. by intros ->. Qed.

Lemma unclaimed_families_good claimed :
  family_closed claimed -> (forall i, i ∈ claimed -> i ∈ entry_ids) ->
  good_groups (unclaimed_families st claimed) /\ mjoin (map snd (unclaimed_families st claimed)) ≡ₚ unclaimed st claimed.
Proof.
  intros Hcl Hsub. unfold unclaimed_families.
  assert (Hg : grouped (filed_under st) (unclaimed st claimed) (group_by (filed_under st) (unclaimed st claimed)))
    by apply group_by_spec.
  set (g := group_by _ _) in *.
  assert (Hp : mjoin (map snd (py_sorted (fun x y => str_leb (fst x) (fst y)) g)) ≡ₚ unclaimed st claimed).
  { rewrite (py_sorted_Permutation _ g). apply (grouped_perm _ _ _ Hg). }
  split; [|done]. split.
  - rewrite Hp. apply NoDup_sort_ids.
  - intros k ids Hin. rewrite py_sorted_Permutation in Hin.
    destruct (grouped_ok _ _ _ Hg k ids Hin) as [Hne Hkey]. split; [done|].
    assert (Hof : ids = filter (fun i => filed_under st i = k) (unclaimed st claimed)).
    { rewrite <- (grouped_of _ _ _ Hg k). symmetry. by apply group_of_elem. }
    intros i e x Hi He Hx. pose proof (Hkey i Hi) as Hk.
    rewrite Hof, list_elem_of_filter in Hi. destruct Hi as [_ [Hie Hin']%elem_of_unclaimed].
    pose proof (entry_by_id_elem _ _ He) as [Hee Hei].
    destruct (expand_family e Hee) as (fam & Hfam & Hexp).
    assert (Hxin : x ∈ entry_ids) by (by apply expand_entry in Hx).
    destruct (entry_by_id_known x Hxin) as (ex & Hex & Hexin & Hexid).
    assert (Hcls : expand st ex = expand st e) by (by apply (expand_class e x ex)).
    rewrite Hof, list_elem_of_filter. split.
    + rewrite (filed_under_family _ _ He), Hfam in Hk. rewrite (filed_under_family _ _ Hex). simpl in Hk. subst k.
      destruct (expand_family ex Hexin) as (fam' & Hfam' & Hexp'). rewrite Hfam'. simpl.
      pose proof (expand_self _ Hexin) as Hself. rewrite Hcls, Hexp in Hself.
      apply list_elem_of_fmap in Hself as (y & Hy & [Hb Hyin]%list_elem_of_filter). apply bool_decide_unpack in Hb.
      pose proof (entry_by_id_of y Hyin) as Hy1. rewrite <- Hy, Hexid, Hex in Hy1. injection Hy1 as <-. congruence.
    + apply elem_of_unclaimed. split; [done|]. intros Hxc. apply Hin'. apply (Hcl x ex i Hxc Hex).
      rewrite Hcls, <- Hei. by apply expand_self.
Qed.

(** *** The whole answer *)

Lemma findings_of_jget group o o' : jget group o' = jget group o -> findings_of group o' = findings_of group o.
Proof. unfold findings_of. by intros ->. Qed.

(** One successful run: the reconciled findings of both groups, followed by
    the added ones, divide the entries among them. *)
Record entry_run (o o' : json) (keys secondary added : list json) : Prop := {
  er_key : findings_of (u "key_finds") o' = keys;
  er_secondary : findings_of (u "secondary_finds") o' = secondary ++ added;
  er_key_reconciled : Forall2 (reconciled st) (findings_of (u "key_finds") o) keys;
  er_secondary_reconciled : Forall2 (reconciled st) (findings_of (u "secondary_finds") o) secondary;
  er_added : Forall (accounted st) added;
  er_partition : mjoin (map evidence_ids (keys ++ secondary ++ added)) ≡ₚ entry_ids;
  er_closed : Forall (fun f => family_closed (evidence_ids f)) (keys ++ secondary ++ added);
  er_total : jget (u "total_entries") o' = Some (JInt (st_total st));
  er_obj : is_obj o = true /\ is_obj o' = true;
  er_other : forall k, k ∉ [u "key_finds"; u "secondary_finds"; u "total_entries"] -> jget k o' = jget k o;
}.

Lemma add_other_run remaining o o' :
  when (negb (bool_decide (remaining = [])))
    (f ← lift_result (identified (other_activity st remaining)); append_secondary f) o = (Ok tt, o') ->
  is_obj o = true -> NoDup remaining -> family_closed remaining ->
  exists added, extends o added o' /\ Forall (accounted st) added /\
    Forall (fun f => family_closed (evidence_ids f)) added /\ mjoin (map evidence_ids added) = remaining.
Proof.
  intros Hrun Ho Hnd Hcl. unfold when in Hrun. destruct (bool_decide_reflect (remaining = [])) as [->|Hne].
  - injection Hrun as <-. exists []. split_and!; try done. by apply extends_refl.
  - apply bind_ok_inv in Hrun as (f & o1 & Hl & Ha). apply lift_ok_inv in Hl as [Hf ->].
    apply identified_inv in Hf as (pid & Hpid & ->). apply append_secondary_extends in Ha; [|done].
    destruct (added_finding_accounted _ _ _ _ _ _ _ Hne Hnd Hpid) as [He Hacc].
    exists [other_activity st remaining (JList [JStr pid])].
    split_and!; [exact Ha|by constructor| |rewrite evidence_cons; unfold other_activity; rewrite He; apply app_nil_r].
    constructor; [unfold other_activity; by rewrite He|done].
Qed.

Lemma reconcile_group_obj group c o c' o' : reconcile_group st group c o = (Ok c', o') -> is_obj o = true.
Proof.
  unfold reconcile_group. intros Hrun. apply bind_ok_inv in Hrun as (x & s & [= <- <-] & Hrun).
  apply bind_ok_inv in Hrun as (old & s & Hl & _). apply lift_ok_inv in Hl as [Hl _]. by eapply py_get_is_obj.
Qed.

Lemma reconcile_entry_run o o' :
  reconcile_entry_grouped st o = (Ok tt, o') -> exists keys secondary added, entry_run o o' keys secondary added.
Proof.
  unfold reconcile_entry_grouped. intros Hrun.
  apply bind_ok_inv in Hrun as (c1 & o1 & Hk & Hrun).
  pose proof (reconcile_group_obj _ _ _ _ _ Hk) as Ho.
  apply reconcile_group_spec in Hk as (Ho1 & Hk1 & Hfk & -> & Hn1 & Hs1 & Hc1 & Hck);
    [|by apply NoDup_nil_2|set_solver|intros i e x; set_solver].
  apply bind_ok_inv in Hrun as (c2 & o2 & Hsec & Hrun).
  apply reconcile_group_spec in Hsec as (Ho2 & Hk2 & Hfs & -> & Hn2 & Hs2 & Hc2 & Hcs); [|done..].
  set (keys := findings_of (u "key_finds") o1) in *. set (secs := findings_of (u "secondary_finds") o2) in *.
  set (claimed := _ ++ mjoin (map evidence_ids secs)) in *.
  destruct (unclaimed_families_good claimed Hc2 Hs2) as [Hgood Hperm].
  apply bind_ok_inv in Hrun as (rem & o3 & Hff & Hrun).
  apply file_families_spec in Hff as (added1 & He1 & Ha1 & Hcr & Hca1 & Hp1); [|done|done|intros i e x; set_solver].
  apply bind_ok_inv in Hrun as ([] & o4 & Hoth & Hrun).
  assert (Hdis : mjoin (map evidence_ids added1) ++ rem ≡ₚ unclaimed st claimed) by (by rewrite Hp1, Hperm).
  assert (Hnr : NoDup rem).
  { assert (Hnd : NoDup (mjoin (map evidence_ids added1) ++ rem)) by (rewrite Hdis; apply NoDup_sort_ids).
    by apply NoDup_app in Hnd as (_ & _ & ?). }
  apply add_other_run in Hoth as (added2 & He2 & Ha2 & Hca2 & Hp2); [|by apply He1|done|done].
  injection Hrun as <-. pose proof (extends_trans _ _ _ _ _ He1 He2) as (Ho4 & Hk4 & Hf4).
  exists keys, secs, (added1 ++ added2).
  assert (Hkeys4 : findings_of (u "key_finds") o4 = keys).
  { rewrite (findings_of_jget _ _ _ (Hk4 (u "key_finds") ltac:(key_ne))).
    by rewrite (findings_of_jget _ _ _ (Hk2 (u "key_finds") ltac:(key_ne))). }
  split.
  - rewrite <- Hkeys4. apply findings_of_jget, jget_jset_ne. key_ne.
  - rewrite (findings_of_jget _ o4 (jset (u "total_entries") _ o4)); [exact Hf4|apply jget_jset_ne; key_ne].
  - exact Hfk.
  - rewrite (findings_of_jget _ o o1) in Hfs; [exact Hfs|apply Hk1; key_ne].
  - by apply Forall_app.
  - rewrite !map_app, !join_app. rewrite Hp2, Hdis. unfold claimed. rewrite app_assoc. fold claimed.
    change ([] ++ mjoin (map evidence_ids keys)) with (mjoin (map evidence_ids keys)) in *.
    apply NoDup_Permutation.
    + apply NoDup_app. split_and!; [done| |apply NoDup_sort_ids]. intros i Hi [_ Hn]%elem_of_unclaimed. done.
    + apply NoDup_entry_ids.
    + intros i. rewrite elem_of_app, elem_of_unclaimed. split; [intros [Hi|[Hi _]]; auto|].
      intros Hi. destruct (decide (i ∈ claimed)); auto.
  - rewrite !Forall_app. done.
  - by rewrite jget_jset_eq.
  - split; [done|]. by rewrite is_obj_jset.
  - intros k Hk. rewrite !not_elem_of_cons in Hk. destruct Hk as (H1 & H2 & H3 & _).
    rewrite jget_jset_ne by done. by rewrite Hk4, Hk2, Hk1 by done.
Qed.

(** The number a finding reports. *)
Definition finding_count (f : json) : Z := match jget (u "count") f with Some (JInt n) => n | _ => 0%Z end.

Lemma accounted_count f : accounted st f -> finding_count f = Z.of_nat (length (evidence_ids f)).
Proof.
  unfold accounted, finding_count. intros (_ & _ & Hc). case_decide as E.
  - destruct Hc as (_ & -> & _). lia.
  - by destruct Hc as (_ & -> & _).
Qed.

Lemma accounted_cites f : accounted st f -> cites f = true.
Proof. unfold accounted, cites. by intros (-> & _). Qed.

Lemma uncited_evidence f : cites f = false -> evidence_ids f = [].
Proof. unfold cites, evidence_ids. by destruct (jget _ f). Qed.

Lemma reconciled_cites f f' : reconciled st f f' -> cites f' = cites f /\ (cites f = true -> accounted st f').
Proof.
  intros (_ & _ & Hc). destruct (cites f) eqn:E; [|by subst]. split; [by apply accounted_cites|done].
Qed.

Lemma cited_counts_sum l :
  Forall (fun f => cites f = true -> accounted st f) l ->
  zsum (map finding_count (filter (fun f => cites f) l)) = Z.of_nat (length (mjoin (map evidence_ids l))).
Proof.
  induction 1 as [|f l Hf _ IH]; [done|]. simpl. rewrite length_app. destruct (cites f) eqn:E.
  - rewrite filter_cons_True by (by rewrite E). simpl. rewrite IH, accounted_count by auto. lia.
  - rewrite filter_cons_False by (rewrite E; by intros []). rewrite IH, (uncited_evidence _ E). done.
Qed.

Lemma run_accounted o o' keys secondary added : entry_run o o' keys secondary added ->
  Forall (fun f => cites f = true -> accounted st f) (keys ++ secondary ++ added).
Proof.
  intros []. rewrite !Forall_app. split_and!.
  - clear -er_key_reconciled0. induction er_key_reconciled0 as [|f f' ? ? Hr]; constructor; [|done].
    destruct (reconciled_cites _ _ Hr) as [-> ?]. done.
  - clear -er_secondary_reconciled0. induction er_secondary_reconciled0 as [|f f' ? ? Hr]; constructor; [|done].
    destruct (reconciled_cites _ _ Hr) as [-> ?]. done.
  - eapply Forall_impl; [exact er_added0|]. auto.
Qed.

(** C37. The answer is made to account for the whole log exactly once: after
    reconciliation every log entry belongs to exactly one finding, each
    finding keeps the entries the model cited for it and every field the
    application does not own, a citing finding's count, percentage, physical
    and occurrence counts are those of its entries and the counts add up to
    the number of entries, entries nobody cited get findings of their own,
    and the rest of the document is untouched. *)
Theorem reconcile_accounts_for_log o o' :
  reconcile_entry_grouped st o = (Ok tt, o') ->
  mjoin (map evidence_ids (all_findings o')) ≡ₚ map en_id (st_entries st) /\
  zsum (map finding_count (filter (fun f => cites f) (all_findings o'))) = st_total st /\
  Forall2 (reconciled st) (findings_of (u "key_finds") o) (findings_of (u "key_finds") o') /\
  (exists kept added, findings_of (u "secondary_finds") o' = kept ++ added /\
     Forall2 (reconciled st) (findings_of (u "secondary_finds") o) kept /\ Forall (accounted st) added) /\
  jget (u "total_entries") o' = Some (JInt (st_total st)) /\
  forall k, k ∉ [u "key_finds"; u "secondary_finds"; u "total_entries"] -> jget k o' = jget k o.
Proof.
  intros (keys & secs & added & Hr)%reconcile_entry_run. pose proof (run_accounted _ _ _ _ _ Hr) as Hacc.
  destruct Hr. unfold all_findings. rewrite er_key0, er_secondary0. split_and!; [exact er_partition0| |done| |done|done].
  - rewrite cited_counts_sum by done. rewrite er_partition0. unfold entry_ids. by rewrite length_map, (stat_total _ Hst).
  - by exists secs, added.
Qed.

(** Only citing findings are recomputed: when any finding of the answer
    cites entries, a finding that cites none leaves reconciliation with the
    count and percentage the model made up, on top of counts that already add
    up to the whole log. *)
Theorem uncited_numbers_survive o o' f :
  reconcile_entry_grouped st o = (Ok tt, o') -> f ∈ all_findings o -> cites f = false ->
  f ∈ all_findings o' /\
  (zsum (map finding_count (filter (fun f => cites f) (all_findings o'))) + finding_count f
   = st_total st + finding_count f)%Z.
Proof.
  intros Hrun Hf Hc. apply reconcile_entry_run in Hrun as (keys & secs & added & Hr).
  pose proof (run_accounted _ _ _ _ _ Hr) as Hacc. destruct Hr.
  assert (Hkeep : forall l l', Forall2 (reconciled st) l l' -> f ∈ l -> f ∈ l').
  { clear -Hc. induction 1 as [|x x' l l' Hx _ IH]; [done|]. intros [->|Hin]%elem_of_cons; [|set_solver].
    destruct Hx as (_ & _ & Hx). rewrite Hc in Hx. subst. apply list_elem_of_here. }
  unfold all_findings in *. rewrite er_key0, er_secondary0. split.
  - rewrite elem_of_app in Hf. rewrite !elem_of_app. destruct Hf as [Hf|Hf]; [left|right; left]; by eapply Hkeep.
  - rewrite cited_counts_sum by done. rewrite er_partition0. unfold entry_ids. by rewrite length_map, (stat_total _ Hst).
Qed.

(** *** Reconciling a reconciled answer *)

(** The same finding up to the order in which it lists its entries. *)
Definition same_finding (f f' : json) : Prop :=
  evidence_ids f ≡ₚ evidence_ids f' /\ forall k, k <> u "evidence_entry_ids" -> jget k f' = jget k f.

Lemma same_finding_refl f : same_finding f f.
Proof. done. Qed.

Lemma length_fromkeys_perm {A} `{EqDecision A} (l k : list A) : l ≡ₚ k -> length (fromkeys l) = length (fromkeys k).
Proof.
  intros Hp. apply Permutation_length, NoDup_Permutation; [apply NoDup_fromkeys..|].
  intros x. by rewrite !elem_of_fromkeys, Hp.
Qed.

Lemma occurrence_count_perm ids ids' : ids ≡ₚ ids' -> occurrence_count st ids = occurrence_count st ids'.
Proof. intros Hp. unfold occurrence_count. f_equal. apply length_fromkeys_perm. by rewrite Hp. Qed.

Lemma sort_ids_perm ids : NoDup ids -> sort_ids ids ≡ₚ ids.
Proof. intros Hn. apply NoDup_Permutation; [apply NoDup_sort_ids|done|apply elem_of_sort_ids]. Qed.

Lemma forallb_ints ids : forallb is_plain_int (map JInt ids) = true.
Proof. by induction ids. Qed.

(** Citing a whole number of families claims exactly these entries. *)
Lemma claim_entries_again claimed ids :
  NoDup ids -> family_closed ids -> (forall i, i ∈ ids -> i ∈ entry_ids /\ i ∉ claimed) ->
  claim_entries st claimed (json_ints ids) = Ok (sort_ids ids).
Proof.
  intros Hnd Hcl Hin. unfold claim_entries, json_ints. rewrite forallb_ints, omap_jint_ints, fromkeys_NoDup by done.
  cbn [negb]. destruct (find_first _ ids) as [i|] eqn:Hf.
  { apply find_first_Some in Hf as [Hi Hn]. destruct (entry_by_id_known i) as (e & He & _); [by apply Hin|]. by rewrite He in Hn. }
  assert (Hnone : filter (fun i => is_claimed claimed i) ids = []).
  { apply elem_of_nil_inv. intros i [Hb Hi]%list_elem_of_filter. apply bool_decide_unpack in Hb. by apply Hin in Hi as [_ ?]. }
  rewrite Hnone. cbn [py_sorted foldr]. f_equal.
  apply sorted_unique; try apply sort_ids_Sorted; try apply NoDup_sort_ids.
  intros i. rewrite !elem_of_sort_ids, list_elem_of_filter, list_elem_of_join. split.
  - intros [_ (k & Hi & (e & -> & (c & Hc & He)%list_elem_of_omap)%list_elem_of_fmap)]. by eapply Hcl.
  - intros Hi. split.
    + unfold is_claimed. rewrite bool_decide_eq_false_2; [done|]. by apply Hin.
    + destruct (entry_by_id_known i) as (e & He & Hee & <-); [by apply Hin|].
      exists (expand st e). split; [by apply expand_self|]. apply list_elem_of_fmap. exists e. split; [done|].
      apply list_elem_of_omap. by exists (en_id e).
Qed.

Lemma accounted_is_obj f : accounted st f -> is_obj f = true.
Proof. intros (Hj & _). by destruct f. Qed.

Lemma reconcile_finding_again claimed f :
  accounted st f -> family_closed (evidence_ids f) -> (forall i, i ∈ evidence_ids f -> i ∈ entry_ids /\ i ∉ claimed) ->
  exists f', reconcile_finding st claimed f = (Ok (claimed ++ evidence_ids f'), f') /\ same_finding f f'.
Proof.
  intros Hacc Hcl Hin. pose proof (accounted_is_obj _ Hacc) as Ho. destruct Hacc as (Hj & Hnd & Hacc).
  set (ids := evidence_ids f) in *. pose proof (sort_ids_perm ids Hnd) as Hp.
  assert (Hlen : length (sort_ids ids) = length ids) by (by rewrite Hp).
  exists (jset (u "evidence_entry_ids") (json_ints (sort_ids ids)) f).
  assert (He : evidence_ids (jset (u "evidence_entry_ids") (json_ints (sort_ids ids)) f) = sort_ids ids)
    by (apply evidence_ids_json; by apply jget_jset_eq).
  split; [|split; [by rewrite He|intros k Hk; by apply jget_jset_ne]]. rewrite He.
  unfold reconcile_finding. rewrite py_in_obj, Hj, py_get_jget, Hj by done.
  change (default JNull (Some (json_ints ids))) with (json_ints ids).
  unfold mbind, result_bind. rewrite claim_entries_again by done.
  case_decide as Hz.
  - assert (ids = []) as Hnil by (destruct ids; [done|simpl in Hz; lia]). rewrite Hnil in *.
    destruct Hacc as (Hpat & Hc & Hpc). change (sort_ids []) with (@nil Z). rewrite app_nil_r.
    unfold unquantify. by rewrite (jset_same _ _ _ Hpat), (jset_same _ _ _ Hc), (jset_same _ _ _ Hpc), (jset_same _ _ _ Hj).
  - destruct Hacc as ((id & Hid & Hpat) & Hc & Hpc & Hph & Hoc).
    destruct (sort_ids ids) as [|i l] eqn:Hs; [destruct ids; simpl in *; lia|]. rewrite <- Hs in *.
    rewrite Hid, (jset_same _ _ _ Hpat). unfold quantify.
    rewrite Hlen, (occurrence_count_perm _ _ Hp). set (g := jset (u "evidence_entry_ids") _ f).
    assert (Hg : forall k, k <> u "evidence_entry_ids" -> jget k g = jget k f) by (intros k Hk; by apply jget_jset_ne).
    rewrite (jset_same (u "physical_entry_count")) by (rewrite Hg by key_ne; done).
    rewrite (jset_same (u "occurrence_count")) by (rewrite Hg by key_ne; done).
    rewrite (jset_same (u "count")) by (rewrite Hg by key_ne; done).
    by rewrite (jset_same (u "percentage")) by (rewrite Hg by key_ne; done).
Qed.

(** A finding a second run accepts: its numbers are right and it holds whole
    families, or it cites nothing. *)
Definition settled (f : json) : Prop :=
  (accounted st f /\ family_closed (evidence_ids f)) \/ (is_obj f = true /\ cites f = false).

Lemma reconcile_loop_again claimed fs :
  Forall settled fs -> NoDup (claimed ++ mjoin (map evidence_ids fs)) ->
  (forall i, i ∈ mjoin (map evidence_ids fs) -> i ∈ entry_ids) ->
  exists fs', for_in_place (reconcile_finding st) claimed fs = (Ok (claimed ++ mjoin (map evidence_ids fs')), fs') /\
    Forall2 same_finding fs fs'.
Proof.
  intros Hfs. revert claimed. induction Hfs as [|f fs Hf _ IH]; intros claimed Hnd Hin.
  - exists []. simpl. rewrite app_nil_r. split; [done|constructor].
  - rewrite evidence_cons in Hnd, Hin.
    assert (Hstep : exists f', reconcile_finding st claimed f = (Ok (claimed ++ evidence_ids f'), f') /\ same_finding f f').
    { destruct Hf as [[Hacc Hcl]|[Ho Hc]].
      - apply reconcile_finding_again; [done..|]. intros i Hi. split; [apply Hin; set_solver|].
        intros Hic. apply NoDup_app in Hnd as (_ & Hdis & _). apply (Hdis i Hic). set_solver.
      - exists f. split; [|done]. rewrite (uncited_evidence _ Hc), app_nil_r. unfold reconcile_finding.
        rewrite py_in_obj by done. unfold cites in Hc. by destruct (jget _ f). }
    destruct Hstep as (f' & Hrun & Hsame). destruct (IH (claimed ++ evidence_ids f')) as (fs' & Hl & Hf2).
    + destruct Hsame as [Hp _]. by rewrite <- app_assoc, <- Hp.
    + intros i Hi. apply Hin. set_solver.
    + exists (f' :: fs'). cbn [for_in_place]. rewrite Hrun, Hl, evidence_cons, app_assoc. split; [done|]. by constructor.
Qed.

(** A group as the schema describes it: absent, or a list of objects. *)
Definition group_shaped (group : pystr) (o : json) : Prop :=
  match jget group o with None => True | Some v => exists fs, v = JList fs /\ Forall (fun f => is_obj f = true) fs end.

Lemma reconcile_group_again group claimed o fs' c :
  is_obj o = true -> group_shaped group o ->
  for_in_place (reconcile_finding st) claimed (findings_of group o) = (Ok c, fs') ->
  exists o', reconcile_group st group claimed o = (Ok c, o') /\ is_obj o' = true /\ findings_of group o' = fs' /\
    forall k, k <> group -> jget k o' = jget k o.
Proof.
  intros Ho Hsh Hrun. unfold group_shaped, findings_of in *. unfold reconcile_group, group_value.
  destruct (jget group o) as [v|] eqn:E.
  - destruct Hsh as (fs & -> & _). exists (jset group (JList fs') o).
    rewrite (bind_ok _ _ _ o o) by done. rewrite py_get_jget, E by done.
    rewrite (bind_ok _ _ _ (JList fs) o) by done. cbn [py_iter]. rewrite (bind_ok _ _ _ fs o) by done.
    rewrite Hrun. rewrite (bind_ok _ _ _ tt (jset group (JList fs') o)).
    + rewrite jget_jset_eq, is_obj_jset by done. split_and!; [done..|]. intros. by apply jget_jset_ne.
    + unfold modify_st, put_group. by rewrite E.
  - simpl in Hrun. injection Hrun as <- <-. exists o.
    rewrite (bind_ok _ _ _ o o) by done. rewrite py_get_jget, E by done.
    rewrite (bind_ok _ _ _ (JList []) o) by done. cbn [py_iter]. rewrite (bind_ok _ _ _ [] o) by done.
    cbn [for_in_place]. rewrite (bind_ok _ _ _ tt o) by (unfold modify_st, put_group; by rewrite E).
    by split_and!.
Qed.

Lemma reconciled_settled f f' : is_obj f = true -> reconciled st f f' -> family_closed (evidence_ids f') -> settled f'.
Proof.
  intros Ho (_ & _ & Hc) Hcl. destruct (cites f) eqn:E; [by left|]. subst. by right.
Qed.

Lemma Forall2_settled fs fs' :
  Forall (fun f => is_obj f = true) fs -> Forall2 (reconciled st) fs fs' ->
  Forall (fun f => family_closed (evidence_ids f)) fs' -> Forall settled fs'.
Proof.
  intros Ho Hr. induction Hr as [|f f' fs fs' Hf _ IH]; [constructor|].
  intros [Hc Hcs]%Forall_cons. apply Forall_cons in Ho as [Ho Hos]. constructor; [by eapply reconciled_settled|by apply IH].
Qed.

Lemma group_shaped_objs group o : group_shaped group o -> Forall (fun f => is_obj f = true) (findings_of group o).
Proof.
  unfold group_shaped, findings_of. destruct (jget group o) as [v|]; [|constructor]. by intros (fs & -> & Hfs).
Qed.

Lemma settled_shaped group o o' : is_obj o' = true ->
  group_shaped group o -> jget group o' = Some (JList (findings_of group o')) \/ jget group o' = None ->
  Forall settled (findings_of group o') -> group_shaped group o'.
Proof.
  intros _ _ Hj Hs. unfold group_shaped. destruct Hj as [-> | ->]; [|done]. eexists. split; [done|].
  eapply Forall_impl; [exact Hs|]. intros f [[Ha _]|[Ho _]]; [by apply accounted_is_obj|done].
Qed.

Lemma unclaimed_none claimed : (forall i, i ∈ entry_ids -> i ∈ claimed) -> unclaimed_families st claimed = [].
Proof.
  intros Hall. unfold unclaimed_families. assert (unclaimed st claimed = []) as ->; [|done].
  apply elem_of_nil_inv. intros i [Hi Hn]%elem_of_unclaimed. by apply Hn, Hall.
Qed.

Lemma reconcile_all_claimed o claimed :
  (forall i, i ∈ entry_ids -> i ∈ claimed) ->
  (remaining ← file_families st [] (unclaimed_families st claimed);
   when (negb (bool_decide (remaining = [])))
     (f ← lift_result (identified (other_activity st remaining)); append_secondary f);;
   modify_st (jset (u "total_entries") (JInt (st_total st)))) o = (Ok tt, jset (u "total_entries") (JInt (st_total st)) o).
Proof. intros Hall. by rewrite unclaimed_none. Qed.

(** A group stays absent or a list through the whole run. *)
Definition listy (group : pystr) (o : json) : Prop :=
  match jget group o with None | Some (JList _) => True | Some _ => False end.
Definition keeps_listy (o o' : json) : Prop :=
  is_obj o' = is_obj o /\ forall g, listy g o -> listy g o'.

#[local] Instance keeps_listy_preorder : PreOrder keeps_listy.
Proof. split; [done|]. intros x y z [H1 H2] [H3 H4]. split; [congruence|auto]. Qed.

Lemma keeps_listy_jset k v o : (exists l, v = JList l) -> keeps_listy o (jset k v o).
Proof.
  intros [l ->]. split; [apply is_obj_jset|]. intros g Hg. unfold listy in *.
  destruct (decide (g = k)) as [->|Hne]; [|by rewrite jget_jset_ne].
  destruct (is_obj o) eqn:Ho; [by rewrite jget_jset_eq|by destruct o].
Qed.

Lemma put_group_listy group old fs o : keeps_listy o (put_group group old fs o).
Proof.
  unfold put_group. destruct old; try done. destruct (jget group o); [|done]. apply keeps_listy_jset. eauto.
Qed.

Lemma preserves_lift {A} (r : result pyexn A) : preserves keeps_listy (lift_result r : M json pyexn A).
Proof. intros s. reflexivity. Qed.

Lemma preserves_append f : preserves keeps_listy (append_secondary f).
Proof.
  intros o. unfold append_secondary. destruct (jget _ o) as [v|]; [destruct v; try reflexivity|];
    apply keeps_listy_jset; eauto.
Qed.

#[local] Hint Resolve preserves_lift preserves_append : pysimp.

Lemma preserves_put_group group old fs : preserves keeps_listy (modify_st (put_group group old fs) : M json pyexn ()).
Proof. intros o. apply put_group_listy. Qed.
#[local] Hint Resolve preserves_put_group : pysimp.

Lemma preserves_reconcile_group group claimed : preserves keeps_listy (reconcile_group st group claimed).
Proof.
  unfold reconcile_group.
  eapply preserves_bind; [apply _|by eapply preserves_get, _|intros o].
  eapply preserves_bind; [apply _|apply preserves_lift|intros old].
  eapply preserves_bind; [apply _|apply preserves_lift|intros fs]. destruct (for_in_place _ _ _) as [r fs'].
  eapply preserves_bind; [apply _|apply preserves_put_group|intros ?; apply preserves_lift].
Qed.

Lemma preserves_file_families remaining gs : preserves keeps_listy (file_families st remaining gs).
Proof.
  revert remaining. induction gs as [|g gs IH]; intros remaining; cbn [file_families]; [by eapply preserves_ret, _|].
  eapply preserves_bind; [apply _| |intros; apply IH]. unfold file_family.
  destruct (assoc _ _) as [[[[le lz] de] dz]|]; [|by eapply preserves_ret, _].
  eapply preserves_bind; [apply _|apply preserves_lift|intros f].
  eapply preserves_bind; [apply _|apply preserves_append|intros; by eapply preserves_ret, _].
Qed.

Lemma reconcile_listy o o' g : g <> u "total_entries" ->
  reconcile_entry_grouped st o = (Ok tt, o') -> listy g o -> listy g o'.
Proof.
  intros Hne Hrun Hl. unfold reconcile_entry_grouped in Hrun.
  apply bind_ok_inv in Hrun as (c1 & o1 & H1 & Hrun). apply bind_ok_inv in Hrun as (c2 & o2 & H2 & Hrun).
  apply bind_ok_inv in Hrun as (rem & o3 & H3 & Hrun). apply bind_ok_inv in Hrun as ([] & o4 & H4 & Hrun).
  injection Hrun as <-.
  pose proof (preserves_reconcile_group (u "key_finds") [] o) as [_ P1]. rewrite H1 in P1.
  pose proof (preserves_reconcile_group (u "secondary_finds") c1 o1) as [_ P2]. rewrite H2 in P2.
  pose proof (preserves_file_families [] (unclaimed_families st c2) o2) as [_ P3]. rewrite H3 in P3.
  assert (P4 : forall g, listy g o3 -> listy g o4).
  { unfold when in H4. destruct (negb _); [|by injection H4 as <-].
    apply bind_ok_inv in H4 as (f & o5 & Hf & Ha). apply lift_ok_inv in Hf as [_ ->].
    pose proof (preserves_append f o3) as [_ P]. by rewrite Ha in P. }
  unfold listy. rewrite jget_jset_ne by done. apply P4, P3, P2, P1, Hl.
Qed.

(** An answer as the output schema describes it. *)
Definition well_shaped (o : json) : Prop := group_shaped (u "key_finds") o /\ group_shaped (u "secondary_finds") o.

Lemma group_shaped_listy g o : group_shaped g o -> listy g o.
Proof. unfold group_shaped, listy. destruct (jget g o) as [v|]; [|done]. by intros (fs & -> & _). Qed.

Lemma listy_shaped g o : listy g o -> Forall settled (findings_of g o) -> group_shaped g o.
Proof.
  unfold group_shaped, listy, findings_of. destruct (jget g o) as [[]|]; try done. intros _ Hs. eexists. split; [done|].
  eapply Forall_impl; [exact Hs|]. intros f [[Ha _]|[Ho _]]; [by apply accounted_is_obj|done].
Qed.

Lemma run_settled o o' keys secs added : well_shaped o -> entry_run o o' keys secs added ->
  Forall settled keys /\ Forall settled (secs ++ added).
Proof.
  intros [Hk Hs] Hr. destruct Hr. rewrite !Forall_app in er_closed0. destruct er_closed0 as (C1 & C2 & C3).
  rewrite Forall_app. split_and!.
  - apply (Forall2_settled (findings_of (u "key_finds") o)); [by apply group_shaped_objs|done|done].
  - apply (Forall2_settled (findings_of (u "secondary_finds") o)); [by apply group_shaped_objs|done|done].
  - rewrite Forall_forall in er_added0, C3 |- *. intros f Hf. left. split; [by apply er_added0|by apply C3].
Qed.

(** Reconciling is idempotent up to the order in which a finding lists its
    entries: an answer that was reconciled once, as the one read back from
    the artifact store was, is accepted again, gets no new finding, and keeps
    every count, percentage, identity and text. *)
Theorem reconcile_again o o' :
  well_shaped o -> reconcile_entry_grouped st o = (Ok tt, o') ->
  exists o'', reconcile_entry_grouped st o' = (Ok tt, o'') /\
    Forall2 same_finding (findings_of (u "key_finds") o') (findings_of (u "key_finds") o'') /\
    Forall2 same_finding (findings_of (u "secondary_finds") o') (findings_of (u "secondary_finds") o'') /\
    forall k, k ∉ [u "key_finds"; u "secondary_finds"] -> jget k o'' = jget k o'.
Proof.
  intros Hw Hrun. pose proof (reconcile_entry_run _ _ Hrun) as (keys & secs & added & Hr).
  destruct (run_settled _ _ _ _ _ Hw Hr) as [Hks Hss].
  assert (Hk' : group_shaped (u "key_finds") o').
  { apply listy_shaped; [|by rewrite (er_key _ _ _ _ _ Hr)].
    eapply reconcile_listy; [key_ne|done|]. apply group_shaped_listy, Hw. }
  assert (Hs' : listy (u "secondary_finds") o').
  { eapply reconcile_listy; [key_ne|done|]. apply group_shaped_listy, Hw. }
  destruct Hr as [Hkey Hsec _ _ _ Hpart _ Htot [_ Ho'] _].
  rewrite map_app, join_app in Hpart.
  assert (Hnd : NoDup (mjoin (map evidence_ids keys) ++ mjoin (map evidence_ids (secs ++ added))))
    by (rewrite Hpart; apply NoDup_entry_ids).
  destruct (reconcile_loop_again [] keys Hks) as (keys2 & Hl1 & Hsame1).
  { by apply NoDup_app in Hnd as (? & _). }
  { intros i Hi. rewrite <- Hpart. set_solver. }
  destruct (reconcile_group_again (u "key_finds") [] o' keys2 _ Ho' Hk' ltac:(by rewrite Hkey))
    as (o1 & Hg1 & Ho1 & Hf1 & Hj1).
  assert (Hsame_ev : forall l l', Forall2 same_finding l l' -> mjoin (map evidence_ids l) ≡ₚ mjoin (map evidence_ids l')).
  { clear. induction 1 as [|f f' l l' [Hp _] _ IH]; [done|]. by rewrite !evidence_cons, Hp, IH. }
  pose proof (Hsame_ev _ _ Hsame1) as Hev1.
  assert (Hs1 : group_shaped (u "secondary_finds") o1).
  { apply listy_shaped; [unfold listy; rewrite Hj1 by key_ne; done|].
    by rewrite (findings_of_jget _ o' o1), Hsec by (apply Hj1; key_ne). }
  destruct (reconcile_loop_again (mjoin (map evidence_ids keys2)) (secs ++ added) Hss) as (secs2 & Hl2 & Hsame2).
  { by rewrite <- Hev1. }
  { intros i Hi. rewrite <- Hpart. set_solver. }
  destruct (reconcile_group_again (u "secondary_finds") (mjoin (map evidence_ids keys2)) o1 secs2 _ Ho1 Hs1
    ltac:(by rewrite (findings_of_jget _ o' o1), Hsec by (apply Hj1; key_ne))) as (o2 & Hg2 & Ho2 & Hf2 & Hj2).
  pose proof (Hsame_ev _ _ Hsame2) as Hev2.
  exists (jset (u "total_entries") (JInt (st_total st)) o2). split_and!.
  - unfold reconcile_entry_grouped. rewrite (bind_ok _ _ _ _ _ Hg1), (bind_ok _ _ _ _ _ Hg2).
    apply reconcile_all_claimed. intros i Hi. by rewrite <- Hev1, <- Hev2, Hpart.
  - rewrite Hkey. rewrite (findings_of_jget (u "key_finds") o1) by (rewrite jget_jset_ne by key_ne; apply Hj2; key_ne).
    by rewrite Hf1.
  - rewrite Hsec. rewrite (findings_of_jget (u "secondary_finds") o2) by (apply jget_jset_ne; key_ne). by rewrite Hf2.
  - intros k Hk. rewrite !not_elem_of_cons in Hk. destruct Hk as (K1 & K2 & _).
    destruct (decide (k = u "total_entries")) as [->|Hne].
    + rewrite jget_jset_eq by done. by rewrite Htot.
    + rewrite jget_jset_ne by done. by rewrite Hj2, Hj1 by done.
Qed.
End entry_theorems.

(** ** Witnesses *)

(** An answer whose key finding cites the first entry, and whose secondary
    finding claims seven records without citing any. *)
Definition cited_finding : json := JObj [
  (u "id", JStr (u "f1")); (u "pattern_ids", unquantified); (u "count", JNull); (u "percentage", JNull);
  (u "evidence_entry_ids", json_ints [0%Z])].
Definition uncited_finding : json := JObj [
  (u "id", JStr (u "f2")); (u "pattern_ids", JList [JStr (u "p-x")]); (u "count", JInt 7); (u "percentage", JNull)].
Definition sample_answer : json := JObj [
  (u "summary_en", JStr (u "Two causes.")); (u "key_finds", JList [cited_finding]);
  (u "secondary_finds", JList [uncited_finding])].

Definition sample_reconciled : result pyexn () * json :=
  @reconcile_entry_grouped no_text sample_stats sample_answer.

Lemma sample_reconciled_ok : @reconcile_entry_grouped no_text sample_stats sample_answer = (Ok tt, snd sample_reconciled).
Proof. vm_compute. reflexivity. Qed.

Lemma reconcile_accounts_witness :
  mjoin (map evidence_ids (all_findings (snd sample_reconciled))) ≡ₚ [0; 1; 2]%Z.
Proof.
  destruct (@reconcile_accounts_for_log no_text sample_stats sample_stats_ok sample_answer
    (snd sample_reconciled) sample_reconciled_ok) as (Hp & _).
  rewrite Hp. vm_compute. reflexivity.
Defined.

Lemma uncited_numbers_witness : uncited_finding ∈ all_findings (snd sample_reconciled) /\ finding_count uncited_finding = 7%Z.
Proof.
  split; [|reflexivity].
  destruct (@uncited_numbers_survive no_text sample_stats sample_stats_ok sample_answer
    (snd sample_reconciled) uncited_finding sample_reconciled_ok) as [H _].
  - apply list_elem_of_further, list_elem_of_here.
  - reflexivity.
  - exact H.
Defined.

Lemma reconcile_again_witness :
  exists o'', @reconcile_entry_grouped no_text sample_stats (snd sample_reconciled) = (Ok tt, o'') /\
    Forall2 same_finding (findings_of (u "key_finds") (snd sample_reconciled)) (findings_of (u "key_finds") o'').
Proof.
  destruct (@reconcile_again no_text sample_stats sample_stats_ok sample_answer
    (snd sample_reconciled)) as (o'' & H1 & H2 & _).
  - split; (eexists; split; [reflexivity|]); repeat constructor.
  - exact sample_reconciled_ok.
  - exists o''. split; assumption.
Defined.
