(* ===== verification/PatternReconcile.v ===== *)
(** * Reconciling answers that cite pattern identities

    [sandbox/preprocessing.py: reconcile_result] for an answer whose findings
    name deterministic pattern identities.  The steps are separate
    definitions, composed in the order of the source: checking the cited
    identities, merging findings of one cause family (union-find), merging
    duplicate narratives, recounting, attaching unquantified findings by
    their wording, filing the patterns nobody cited, and promoting a finding
    when no key finding is left.

    The findings are Python dicts that several lists share.  Each is modelled
    by its contents and a number that stands for its identity ([id(finding)]);
    a document is its two lists of findings and its other fields.  Lists the
    source rebinds and the caller still holds are [d_gone] and [d_original]:
    what the argument looks like after the call is [argument_after]. *)

From S2P Require Import Prelude PyStr Json PyColl Failures PyVal Sha256 Regex Preprocess Reconcile.

(** ** Data *)

Definition tagged : Type := nat * json.        (* identity and contents *)

Record doc := mk_doc {
  d_key : list tagged;
  d_secondary : list tagged;
  d_gone : list tagged;                                   (* findings no longer listed *)
  d_original : option (list tagged * list tagged);        (* the argument's own lists, once [result] is rebound *)
}.
Definition all_of (d : doc) : list tagged := d_key d ++ d_secondary d.
Definition with_groups (k s : list tagged) (d : doc) : doc := mk_doc k s (d_gone d) (d_original d).

(** [result] is bound to a new dict from here on. *)
Definition rebind (d : doc) : option (list tagged * list tagged) :=
  match d_original d with Some x => Some x | None => Some (d_key d, d_secondary d) end.

(** Update the finding with a given identity. *)
Definition update (i : nat) (g : json -> json) (l : list tagged) : list tagged :=
  map (fun x => if Nat.eqb (fst x) i then (fst x, g (snd x)) else x) l.
Definition update_doc (i : nat) (g : json -> json) (d : doc) : doc :=
  with_groups (update i g (d_key d)) (update i g (d_secondary d)) d.
Definition find_tag (i : nat) (l : list tagged) : option json := snd <$> find_first (fun x => Nat.eqb (fst x) i) l.

Section reconcile.
Context `{UnicodeData} `{PyText}.
Context (st : statistics) (allow : bool).

(** ** The manifest *)
Definition pattern_by_id (id : pystr) : option log_pattern :=
  find_first (fun p => bool_decide (p_id p = id)) (reverse (st_patterns st)).
Definition known (id : pystr) : bool := match pattern_by_id id with Some _ => true | None => false end.
Definition pattern_count (id : pystr) : Z := match pattern_by_id id with Some p => p_count p | None => 0%Z end.
Definition OTHER : pystr := u "other".
Definition family_name (p : log_pattern) : pystr := default (u "template:" ++ p_id p) (p_family p).
Definition named_patterns : list log_pattern := filter (fun p => p_id p <> OTHER) (st_patterns st).

(** [family_by_pattern.get(id)] *)
Definition family_by_pattern (id : pystr) : option pystr :=
  p ← pattern_by_id id; if decide (id = OTHER) then None else Some (family_name p).
(** [family_labels.get(family, default)]: the last pattern of a family names it. *)
Definition family_label (d fam : pystr) : pystr :=
  match find_first (fun p => bool_decide (family_name p = fam)) (reverse named_patterns) with
  | Some p => default (p_template p) (p_label p)
  | None => d
  end.

(** ** Fields *)
Definition UNQUANTIFIED : pystr := u "unquantified".
Definition is_unquantified (ids : json) : bool := bool_decide (ids = unquantified).

(** The strings a [pattern_ids] value yields, once all are known to be strings. *)
Definition id_strings (ids : json) : list pystr :=
  match py_iter ids with Ok l => omap jstr l | Raise _ => [] end.
(** [finding.get("pattern_ids", [])] *)
Definition ids_of (f : json) : json := default (JList []) (jget (u "pattern_ids") f).
Definition json_strs (l : list pystr) : json := JList (map JStr l).
Definition set_ids (l : list pystr) (f : json) : json := jset (u "pattern_ids") (json_strs l) f.

Definition id_sum (ids : list pystr) : Z := zsum (map pattern_count ids).
Definition set_count (n : Z) (f : json) : json :=
  jset (u "percentage") (percentage n (st_total st)) (jset (u "count") (JInt n) f).

(** ** Checking the cited identities *)

(** [pattern_id in pattern_by_id] for a value of any type; a list or a dict
    cannot be looked up. *)
Definition lookup_id (v : json) : result pyexn bool :=
  match v with
  | JStr id => Ok (known id)
  | JList _ | JObj _ => Raise (type_error (u "unhashable type: '" ++ type_name v ++ u "'"))
  | _ => Ok false
  end.

Fixpoint unknown_ids (l : list json) : result pyexn (list json) :=
  match l with
  | [] => Ok []
  | v :: l =>
      if decide (v = JStr UNQUANTIFIED) then unknown_ids l
      else b ← lookup_id v; rest ← unknown_ids l; mret (if b : bool then rest else v :: rest)
  end.

Definition known_ids (l : list json) : list pystr :=
  filter (fun id => known id) (omap jstr l).

(** Claim the identities one by one. *)
Fixpoint claim_ids (used : list pystr) (l : list json) : result pyexn (list pystr) :=
  match l with
  | [] => Ok used
  | v :: l =>
      if decide (v = JStr UNQUANTIFIED) then claim_ids used l
      else match v with
      | JStr id =>
          if negb (known id) then Raise (value_error (u "unknown deterministic pattern id: " ++ id))
          else if decide (id ∈ used) then Raise (value_error (u "deterministic pattern assigned more than once: " ++ id))
          else claim_ids (used ++ [id]) l
      | _ => Raise (value_error (u "unknown deterministic pattern id: " ++ py_str v))
      end
  end.

(** [sum(pattern_by_id[item]["count"] for item in ids)] *)
Fixpoint sum_counts (l : list json) : result pyexn Z :=
  match l with
  | [] => Ok 0%Z
  | v :: l => match v with
              | JStr id => if known id then n ← sum_counts l; mret (pattern_count id + n)%Z else Raise (key_error id)
              | _ => Raise (key_error (py_str v))
              end
  end.

(** The identities a finding keeps, and the finding: unknown ones are an
    error, or are stripped in fallback mode. *)
Definition repair_ids (f : json) : result pyexn (json * json) :=
  v ← py_get (u "pattern_ids") JNull f;
  let ids := jor v (JList []) in
  l ← py_iter ids;
  unknown ← unknown_ids l;
  match unknown with
  | [] => Ok (ids, f)
  | v :: _ =>
      if allow then
        match fromkeys (known_ids l) with
        | [] => Ok (unquantified, unquantify (jset (u "pattern_ids") unquantified f))
        | k => Ok (json_strs k, set_ids k f)
        end
      else Raise (value_error (u "unknown deterministic pattern id: " ++ py_str v))
  end.

(** Claim the identities of one finding and count it.  The carried value is
    the identities claimed so far and whether an unquantified finding was
    seen; the flag says whether the finding stays. *)
Definition claim_finding (s : list pystr * bool) (ids f : json) : result pyexn (list pystr * bool) * (json * bool) :=
  let '(used, seen) := s in
  if is_unquantified ids && seen && allow then (Ok (used, seen), (f, false))
  else
    let f := if is_unquantified ids then unquantify f else f in
    let seen := seen || is_unquantified ids in
    match (l ← py_iter ids; used ← claim_ids used l; mret (l, used)) with
    | Raise e => (Raise e, (f, true))
    | Ok (l, used) =>
        if is_unquantified ids then (Ok (used, seen), (f, true))
        else match sum_counts l with
             | Raise e => (Raise e, (f, true))
             | Ok n => (Ok (used, seen), (set_count n f, true))
             end
    end.

Definition check_finding (s : list pystr * bool) (f : json) : result pyexn (list pystr * bool) * (json * bool) :=
  match repair_ids f with
  | Raise e => (Raise e, (f, true))
  | Ok (ids, f) => claim_finding s ids f
  end.

(** The findings of a group in place; dropped ones leave the list only when
    the whole group was accepted. *)
Definition check_loop (s : list pystr * bool) (fs : list json) : result pyexn (list pystr * bool) * list (json * bool) :=
  for_in_place (fun s x => check_finding s (fst x)) s (map (fun f => (f, true)) fs).

Definition check_group (group : pystr) (s : list pystr * bool) : M json pyexn (list pystr * bool) :=
  o ← get_st;
  old ← lift_result (group_value group o);
  fs ← lift_result (py_iter old);
  let '(r, fs) := check_loop s fs in
  match r with
  | Raise e => modify_st (put_group group old (map fst fs));; raise e
  | Ok s => modify_st (jset group (JList (map fst (filter (fun x : json * bool => snd x = true) fs))));; mret s
  end.

(** The first loop over both groups. *)
Definition check_ids : M json pyexn () :=
  s ← check_group (u "key_finds") ([], false);
  _ ← check_group (u "secondary_finds") s;
  mret tt.

(** The checked document, its findings numbered. *)
Fixpoint number (i : nat) (l : list json) : list tagged :=
  match l with [] => [] | f :: l => (i, f) :: number (S i) l end.
Definition open_doc (o : json) : doc :=
  let k := findings_of (u "key_finds") o in
  mk_doc (number 0 k) (number (length k) (findings_of (u "secondary_finds") o)) [] None.

(** ** Merging findings of one family *)

Section union_find.
(** [parent], indexed by position. *)
Definition forest : Type := list nat.
Definition parent (p : forest) (i : nat) : nat := nth i p i.

(** [find], with path halving: the root and the compressed forest. *)
Fixpoint find (fuel : nat) (p : forest) (i : nat) : nat * forest :=
  match fuel with
  | O => (i, p)
  | S fuel =>
      if Nat.eqb (parent p i) i then (i, p)
      else let g := parent p (parent p i) in find fuel (<[i := g]> p) g
  end.

(** [union]: the right root goes under the left one. *)
Definition union (fuel : nat) (p : forest) (left right : nat) : forest :=
  let '(l, p) := find fuel p left in
  let '(r, p) := find fuel p right in
  if Nat.eqb l r then p else <[r := l]> p.
End union_find.

(** The families a finding touches, in the order it first names them; the
    source visits them in the order of a set, which the result does not
    depend on. *)
Definition families_of (f : json) : list pystr := fromkeys (omap family_by_pattern (id_strings (ids_of f))).

(** Visit one family of finding [i]. *)
Definition join_family (fuel i : nat) (x : forest * list (pystr * nat)) (fam : pystr) : forest * list (pystr * nat) :=
  let '(p, first) := x in
  match assoc fam first with
  | Some j => (union fuel p i j, first)
  | None => (p, assoc_set fam i first)
  end.

Fixpoint join_findings (fuel i : nat) (x : forest * list (pystr * nat)) (items : list (bool * tagged)) : forest :=
  match items with
  | [] => fst x
  | it :: items => join_findings fuel (S i) (foldl (join_family fuel i) x (families_of (snd (snd it)))) items
  end.

(** [find] of every index in turn, grouping the items by root. *)
Fixpoint roots_of (fuel : nat) (p : forest) (i : nat) (items : list (bool * tagged)) : list (nat * (bool * tagged)) :=
  match items with
  | [] => []
  | it :: items => let '(r, p) := find fuel p i in (r, it) :: roots_of fuel p (S i) items
  end.
Definition components (items : list (bool * tagged)) : list (list (bool * tagged)) :=
  let n := length items in
  let p := join_findings (S n) 0 (seq 0 n, []) items in
  map (fun g => map snd (snd g)) (group_by fst (roots_of (S n) p 0 items)).

(** The finding a component keeps: the first key finding, else the first. *)
Definition primary (items : list (bool * tagged)) : option (bool * tagged) :=
  match find_first (fun it => fst it) items with Some it => Some it | None => head items end.

(** The items, marked with whether they are key findings. *)
Definition quantified (l : list tagged) : list tagged := filter (fun x => negb (is_unquantified (ids_of (snd x)))) l.
Definition items_of (d : doc) : list (bool * tagged) :=
  map (pair true) (quantified (d_key d)) ++ map (pair false) (quantified (d_secondary d)).

Definition merged_ids (items : list (bool * tagged)) : list pystr :=
  fromkeys (mjoin (map (fun it => id_strings (ids_of (snd (snd it)))) items)).
Definition merge_component (items : list (bool * tagged)) : list (bool * tagged) :=
  match primary items with
  | Some (key, (i, f)) => [(key, (i, set_ids (merged_ids items) f))]
  | None => []
  end.
Definition in_group (key : bool) (l : list (bool * tagged)) : list tagged :=
  map snd (filter (fun it => fst it = key) l).

(** [pattern_ids] values that cannot be iterated, such as an explicit null. *)
Fixpoint iterable_ids (l : list tagged) : result pyexn () :=
  match l with [] => Ok tt | x :: l => py_iter (ids_of (snd x));; iterable_ids l end.

Definition merge_families (d : doc) : doc :=
  let comps := components (items_of d) in
  if existsb (fun c => Nat.ltb 1 (length c)) comps then
    let rebuilt := mjoin (map merge_component comps) in
    let kept := map (fun it => fst (snd it)) rebuilt in
    let unq (l : list tagged) := filter (fun x => is_unquantified (ids_of (snd x))) l in
    mk_doc (in_group true rebuilt ++ unq (d_key d)) (in_group false rebuilt ++ unq (d_secondary d))
      (d_gone d ++ filter (fun x : tagged => fst x ∉ kept) (map snd (items_of d)))
      (rebind d)
  else d.

(** ** Merging duplicate narratives *)

(** [_compact_narrative_key] *)
Definition narrative_key (value : pystr) : pystr := filter (fun c => uni_word c = true) (casefold value).

(** The first detail of a finding that another finding already has; the
    details it owns otherwise. *)
Fixpoint claim_details (owners : list (pystr * nat)) (i : nat) (f : json) (fields : list pystr)
    : list (pystr * nat) * option nat :=
  match fields with
  | [] => (owners, None)
  | k :: fields =>
      let signature := match jget_null k f with JStr v => narrative_key v | _ => [] end in
      if Nat.ltb (length signature) 32 then claim_details owners i f fields
      else match assoc signature owners with
           | Some j => if Nat.eqb j i then claim_details (assoc_set signature i owners) i f fields else (owners, Some j)
           | None => claim_details (assoc_set signature i owners) i f fields
           end
  end.

Fixpoint find_duplicates (owners : list (pystr * nat)) (l : list tagged) : list (nat * nat) :=
  match l with
  | [] => []
  | (i, f) :: l =>
      let '(owners, dup) := claim_details owners i f [u "detail_en"; u "detail_zh"] in
      match dup with Some j => (i, j) :: find_duplicates owners l | None => find_duplicates owners l end
  end.

(** [owner.pattern_ids] gets the identities of its duplicate. *)
Definition give_ids (d : doc) (ij : nat * nat) : doc :=
  let ids i := match find_tag i (all_of d) with Some f => id_strings (ids_of f) | None => [] end in
  update_doc (snd ij) (set_ids (fromkeys (ids (snd ij) ++ ids (fst ij)))) d.

Definition merge_duplicates (d : doc) : doc :=
  match find_duplicates [] (quantified (all_of d)) with
  | [] => d
  | dups =>
      let d' := foldl give_ids d dups in
      let stays (x : tagged) := fst x ∉ map fst dups in
      mk_doc (filter (fun x => stays x) (d_key d')) (filter (fun x => stays x) (d_secondary d'))
        (d_gone d' ++ filter (fun x => ~ stays x) (all_of d')) (rebind d')
  end.

(** ** Recounting *)
Definition recount_finding (f : json) : json :=
  if is_unquantified (ids_of f) then f else set_count (id_sum (id_strings (ids_of f))) f.
Definition retag (g : json -> json) (l : list tagged) : list tagged := map (fun x => (fst x, g (snd x))) l.
Definition recount (d : doc) : doc := with_groups (retag recount_finding (d_key d)) (retag recount_finding (d_secondary d)) d.

(** Every identity a quantified finding holds. *)
Definition used_ids (l : list tagged) : list pystr := mjoin (map (fun x => id_strings (ids_of (snd x))) (quantified l)).

(** ** Attaching unquantified findings by their wording *)
Definition STOP_WORDS : list pystr := [
  u "related"; u "failure"; u "failures"; u "error"; u "entries"; u "pattern";
  u "timeout"; u "exception"; u "database"; u "query"; u "service"; u "logged";
  u "json"; u "http"; u "response"; u "return"; u "warning"; u "failed"; u "parse";
  u "callback"; u "external"; u "third"; u "api"; u "request"; u "line"; u "trace"].
Definition re_HINT : re :=
  let word := any_of [in_range 97 122; in_range 48 57; is_char 95] in
  Alt (rseq [Chr (in_range 97 122); Rep 3 None (Chr word)]) (rseq [Word; times 3 (Chr digit); Word]).

Definition hints_of (p : log_pattern) : list pystr :=
  let source := casefold (py_join (u " ") [family_label [] (family_name p); p_template p]) in
  filter (fun t => t ∉ STOP_WORDS) (findall re_HINT source).
Definition family_hints : list (pystr * list pystr) :=
  map (fun g => (fst g, mjoin (map hints_of (snd g)))) (group_by family_name named_patterns).

Definition PREFERRED : list (pystr * pystr) := [
  (u "ndrp-availability", u "ndrp"); (u "elasticsearch-timeout", u "elasticsearch"); (u "clickhouse-sql", u "clickhouse");
  (u "face-compare-timeout", u "facecompare"); (u "payment-order-missing", u "payment")].

Definition finding_text (f : json) : pystr :=
  casefold (py_join (u " ") (map (fun k => py_str (default (JStr []) (jget k f)))
    [u "label_en"; u "detail_en"; u "label_zh"; u "detail_zh"])).

(** The one family the wording points at. *)
Definition matching_family (f : json) : option pystr :=
  let text := finding_text f in
  let preferred := filter (fun x => (fst x ∈ map fst family_hints) /\ contains (snd x) text = true) PREFERRED in
  let matches := match preferred with
    | [x] => [fst x]
    | _ => map fst (filter (fun x => existsb (fun h => Nat.leb 4 (length h) && contains h text) (snd x) = true) family_hints)
    end in
  match matches with [fam] => Some fam | _ => None end.

Definition members (fam : pystr) : list pystr :=
  map p_id (filter (fun p => p_family p = Some fam) named_patterns).

(** One unquantified finding: the families already represented, the findings
    to drop, and the finding. *)
Definition attach (s : list pystr * list nat) (x : tagged) : (list pystr * list nat) * tagged :=
  let '(used, gone) := s in
  if is_unquantified (ids_of (snd x)) then
    match matching_family (snd x) with
    | None => (s, x)
    | Some fam =>
        if decide (fam ∈ used) then ((used, gone ++ [fst x]), x)
        else match members fam with
             | [] => (s, x)
             | ids => ((used ++ [fam], gone), (fst x, set_count (id_sum ids) (set_ids ids (snd x))))
             end
    end
  else (s, x).
Fixpoint attach_all (s : list pystr * list nat) (l : list tagged) : (list pystr * list nat) * list tagged :=
  match l with
  | [] => (s, [])
  | x :: l => let '(s, x) := attach s x in let '(s, l) := attach_all s l in (s, x :: l)
  end.

Definition attach_unquantified (d : doc) : doc :=
  let '(s, k) := attach_all (omap family_by_pattern (used_ids (all_of d)), []) (d_key d) in
  let '(s, l) := attach_all s (d_secondary d) in
  let stays (x : tagged) := fst x ∉ snd s in
  mk_doc (filter (fun x => stays x) k) (filter (fun x => stays x) l)
    (d_gone d ++ filter (fun x => ~ stays x) (k ++ l)) (d_original d).

(** ** Patterns nobody cited *)

(** [existing_by_family]: the last finding that holds a pattern of a family. *)
Definition existing_by_family (d : doc) : list (pystr * nat) :=
  foldl (fun m x => foldl (fun m id => match family_by_pattern id with Some fam => assoc_set fam (fst x) m | None => m end)
                      m (id_strings (ids_of (snd x)))) [] (all_of d).

Definition re_STOPS : re := plus (Chr (one_of (u ".!?。！？"))).
Definition descriptor (label : pystr) : pystr :=
  rstrip (take 180 (squeeze (re_sub re_STOPS (u " ") label))).

Definition unlabeled_finding (fam : pystr) (items : list log_pattern) : json :=
  let template := match items with p :: _ => p_template p | [] => [] end in
  let label := family_label template fam in
  let n := zsum (map p_count items) in
  JObj [
    (u "id", JStr (u "unlabeled-" ++ fam)); (u "label_en", JStr label); (u "label_zh", JStr label);
    (u "count", JInt n); (u "percentage", percentage n (st_total st));
    (u "pattern_ids", json_strs (map p_id items));
    (u "detail_en", JStr (u "Observed related log entries matching: " ++ descriptor label ++ u "."));
    (u "detail_zh", JStr (u "相关日志条目匹配以下模式：" ++ descriptor label ++ u "。"))].

Definition fresh (d : doc) : nat := S (foldr Nat.max 0 (map fst (all_of d ++ d_gone d))).

Definition file_pattern_family (existing : list (pystr * nat)) (d : doc) (g : pystr * list log_pattern) : doc :=
  let '(fam, items) := g in
  match assoc fam existing with
  | Some i =>
      update_doc i (fun f => let ids := fromkeys (id_strings (ids_of f) ++ map p_id items) in
                             set_count (id_sum ids) (set_ids ids f)) d
  | None => with_groups (d_key d) (d_secondary d ++ [(fresh d, unlabeled_finding fam items)]) d
  end.

Definition omitted_patterns (d : doc) : list log_pattern :=
  filter (fun p => p_id p ∉ used_ids (all_of d)) named_patterns.
Definition file_omitted (d : doc) : doc :=
  foldl (file_pattern_family (existing_by_family d)) d (group_by family_name (omitted_patterns d)).

(** ** Promotion *)
Definition fallback_finding (p : log_pattern) : json :=
  let fam := family_name p in
  let label := family_label (p_template p) fam in
  let ids := members fam in
  JObj [
    (u "id", JStr (u "fallback-" ++ fam)); (u "label_en", JStr label); (u "label_zh", JStr label);
    (u "count", JInt (id_sum ids)); (u "percentage", percentage (id_sum ids) (st_total st));
    (u "pattern_ids", json_strs ids);
    (u "detail_en", JStr (u "Observed the dominant deterministic family: " ++ label ++ u "."));
    (u "detail_zh", JStr (u "检测到主要确定性模式族：" ++ label ++ u "。"))].

Definition promote (d : doc) : doc :=
  match d_key d, d_secondary d with
  | [], x :: s => with_groups [x] s d
  | [], [] => match named_patterns with
              | p :: _ => with_groups [(fresh d, fallback_finding p)] [] d
              | [] => d
              end
  | _, _ => d
  end.

(** ** [reconcile_result] *)
Definition settle_doc (d : doc) : doc :=
  let d := merge_families d in
  let d := if allow then merge_duplicates d else d in
  let d := recount d in
  let d := if allow then attach_unquantified d else d in
  let d := file_omitted d in
  if allow then promote d else d.

Definition untag (l : list tagged) : json := JList (map snd l).
Definition put_groups (k s : list tagged) (o : json) : json :=
  jset (u "secondary_finds") (untag s) (jset (u "key_finds") (untag k) o).
Definition drop_groups (o : json) : list (pystr * json) :=
  match o with JObj l => filter (fun x => fst x ∉ [u "key_finds"; u "secondary_finds"]) l | _ => [] end.

(** The returned document. *)
Definition close_doc (o : json) (d : doc) : json :=
  jset (u "total_entries") (JInt (st_total st))
    match d_original d with
    | None => put_groups (d_key d) (d_secondary d) o
    | Some _ => JObj ((u "key_finds", untag (d_key d)) :: (u "secondary_finds", untag (d_secondary d)) :: drop_groups o)
    end.
(** The document the caller passed in, after the call. *)
Definition argument_after (o : json) (d : doc) : json :=
  match d_original d with
  | None => close_doc o d
  | Some (k, s) =>
      let latest (x : tagged) := (fst x, default (snd x) (find_tag (fst x) (all_of d ++ d_gone d))) in
      put_groups (map latest k) (map latest s) o
  end.

(** The outcome of the call, and the argument after it. *)
Definition reconcile_result (o : json) : result pyexn json * json :=
  match cites_entries o with
  | Raise e => (Raise e, o)
  | Ok true => match reconcile_entry_grouped st o with
               | (Raise e, o) => (Raise e, o)
               | (Ok _, o) => (Ok o, o)
               end
  | Ok false =>
      match check_ids o with
      | (Raise e, o) => (Raise e, o)
      | (Ok _, o) =>
          let d := open_doc o in
          match iterable_ids (map snd (items_of d)) with
          | Raise e => (Raise e, o)
          | Ok _ => let d := settle_doc d in (Ok (close_doc o d), argument_after o d)
          end
      end
  end.
End reconcile.

(** ** The document invariant *)

Definition ids (f : json) : list pystr := id_strings (ids_of f).
Definition quant (f : json) : bool := negb (is_unquantified (ids_of f)).

(** The tags, objects and identities of a list of findings. *)
Record doc_ok (st : statistics) (d : doc) : Prop := {
  dk_tags : NoDup (map fst (all_of d));
  dk_obj : Forall (fun x => is_obj (snd x) = true) (all_of d);
  dk_ids : NoDup (used_ids (all_of d));
  dk_known : Forall (fun id => known st id = true) (used_ids (all_of d));
}.

(** The numbers of a quantified finding are the sums over its patterns. *)
Definition counted (st : statistics) (f : json) : Prop :=
  quant f = true -> jget (u "count") f = Some (JInt (id_sum st (ids f))) /\
                    jget (u "percentage") f = Some (percentage (id_sum st (ids f)) (st_total st)).

Section pattern_theorems.
Context `{UnicodeData} `{PyText}.
Context (st : statistics) (Hst : statistics_ok st).

(** *** The manifest *)

Lemma pattern_by_id_elem id p : pattern_by_id st id = Some p -> p ∈ st_patterns st /\ p_id p = id.
Proof.
  unfold pattern_by_id. intros [Hp Hi]%find_first_Some. rewrite elem_of_reverse in Hp.
  split; [done|]. by apply bool_decide_eq_true in Hi.
Qed.

Lemma pattern_by_id_of p : p ∈ st_patterns st -> pattern_by_id st (p_id p) = Some p.
Proof.
  intros Hp. destruct (pattern_by_id st (p_id p)) as [q|] eqn:E.
  - f_equal. apply pattern_by_id_elem in E as [Hq Heq].
    apply list_elem_of_lookup in Hp as [i Hi]. apply list_elem_of_lookup in Hq as [j Hj].
    enough (i = j) by congruence. eapply (NoDup_lookup (map p_id (st_patterns st))); [apply (stat_patterns _ Hst)| |];
      rewrite list_lookup_fmap; [by rewrite Hi|]. rewrite Hj. simpl. by rewrite Heq.
  - exfalso. unfold pattern_by_id in E. apply find_first_None with (x := p) in E; [|by apply elem_of_reverse].
    by rewrite bool_decide_eq_true_2 in E.
Qed.

Lemma known_pattern p : p ∈ st_patterns st -> known st (p_id p) = true.
Proof. intros Hp. unfold known. by rewrite pattern_by_id_of. Qed.

Lemma known_elem id : known st id = true -> id ∈ map p_id (st_patterns st).
Proof.
  unfold known. destruct (pattern_by_id st id) as [p|] eqn:E; [|done]. intros _.
  apply pattern_by_id_elem in E as [Hp <-]. apply list_elem_of_fmap. by exists p.
Qed.

Lemma unquantified_unknown : known st UNQUANTIFIED = false.
Proof.
  destruct (known st UNQUANTIFIED) eqn:E; [|done]. apply known_elem in E. by destruct (stat_reserved _ Hst).
Qed.

Lemma pattern_count_of p : p ∈ st_patterns st -> pattern_count st (p_id p) = p_count p.
Proof. intros Hp. unfold pattern_count. by rewrite pattern_by_id_of. Qed.

Lemma elem_of_named p : p ∈ named_patterns st <-> p ∈ st_patterns st /\ p_id p <> OTHER.
Proof. unfold named_patterns. rewrite list_elem_of_filter. tauto. Qed.

Lemma id_sum_patterns ps : (forall p, p ∈ ps -> p ∈ st_patterns st) -> id_sum st (map p_id ps) = zsum (map p_count ps).
Proof. intros Hps. unfold id_sum. rewrite map_map. apply zsum_map_ext. intros p Hp. by apply pattern_count_of, Hps. Qed.

(** *** Identity lists *)

Lemma omap_jstr_strs l : omap jstr (map JStr l) = l.
Proof.
  induction l as [|x l IH]; [done|]. change (x :: omap jstr (map JStr l) = x :: l). by rewrite IH.
Qed.

Lemma id_strings_strs l : id_strings (json_strs l) = l.
Proof. apply omap_jstr_strs. Qed.

Lemma ids_of_set_ids l f : is_obj f = true -> ids_of (set_ids l f) = json_strs l.
Proof. intros Hf. unfold ids_of, set_ids. by rewrite jget_jset_eq. Qed.

Lemma ids_set_ids l f : is_obj f = true -> ids (set_ids l f) = l.
Proof. intros Hf. unfold ids. by rewrite ids_of_set_ids, id_strings_strs. Qed.

Lemma is_obj_set_ids l f : is_obj (set_ids l f) = is_obj f.
Proof. apply is_obj_jset. Qed.

Lemma is_obj_set_count n f : is_obj (set_count st n f) = is_obj f.
Proof. unfold set_count. by rewrite !is_obj_jset. Qed.

Lemma ids_of_set_count n f : ids_of (set_count st n f) = ids_of f.
Proof. unfold ids_of, set_count. by rewrite !jget_jset_ne by key_ne. Qed.

Lemma quant_strs l : Forall (fun id => known st id = true) l -> is_unquantified (json_strs l) = false.
Proof.
  intros Hl. apply bool_decide_eq_false_2. unfold json_strs, unquantified. intros Hq.
  destruct l as [|x [|]]; try done. injection Hq as ->. apply Forall_cons in Hl as [Hl _].
  change (known st UNQUANTIFIED = true) in Hl. by rewrite unquantified_unknown in Hl.
Qed.

Lemma quant_set_ids l f : is_obj f = true -> Forall (fun id => known st id = true) l -> quant (set_ids l f) = true.
Proof. intros Hf Hl. unfold quant. by rewrite ids_of_set_ids, quant_strs. Qed.

Lemma set_count_counted n f : is_obj f = true -> n = id_sum st (ids f) -> counted st (set_count st n f).
Proof.
  intros Hf -> _. unfold ids. rewrite ids_of_set_count. unfold set_count.
  rewrite jget_jset_eq by (by rewrite is_obj_jset). rewrite jget_jset_ne by key_ne. by rewrite jget_jset_eq.
Qed.

(** *** Used identities *)

Lemma quantified_cons x l : quantified (x :: l) = if quant (snd x) then x :: quantified l else quantified l.
Proof.
  unfold quantified, quant. destruct (negb (is_unquantified (ids_of (snd x)))) eqn:E.
  - rewrite filter_cons_True; [done|by rewrite E].
  - rewrite filter_cons_False; [done|rewrite E; by intros []].
Qed.

Lemma used_cons x l : used_ids (x :: l) = (if quant (snd x) then ids (snd x) else []) ++ used_ids l.
Proof. unfold used_ids. rewrite quantified_cons. by destruct (quant (snd x)). Qed.

Lemma used_app l k : used_ids (l ++ k) = used_ids l ++ used_ids k.
Proof. unfold used_ids, quantified. by rewrite filter_app, map_app, join_app. Qed.

#[global] Instance used_ids_proper : Proper ((≡ₚ) ==> (≡ₚ)) used_ids.
Proof. intros l k Hlk. unfold used_ids, quantified. by rewrite Hlk. Qed.

Lemma used_quantified l : used_ids (quantified l) = used_ids l.
Proof.
  unfold used_ids. f_equal. f_equal. unfold quantified. rewrite list_filter_filter. apply list_filter_iff. tauto.
Qed.

Lemma quantified_split l : l ≡ₚ quantified l ++ filter (fun x => is_unquantified (ids_of (snd x))) l.
Proof.
  induction l as [|x l IH]; [done|]. rewrite quantified_cons. unfold quant.
  destruct (is_unquantified (ids_of (snd x))) eqn:E; simpl.
  - rewrite filter_cons_True by (by rewrite E). rewrite <- Permutation_middle. by rewrite <- IH.
  - rewrite filter_cons_False by (rewrite E; by intros []). by rewrite <- IH.
Qed.

Lemma used_unquantified l : used_ids (filter (fun x : tagged => is_unquantified (ids_of (snd x))) l) = [].
Proof.
  induction l as [|x l IH]; [done|]. destruct (is_unquantified (ids_of (snd x))) eqn:E.
  - rewrite filter_cons_True by (by rewrite E). rewrite used_cons. unfold quant. by rewrite E.
  - by rewrite filter_cons_False by (rewrite E; by intros []).
Qed.

Lemma elem_of_used id l : id ∈ used_ids l <-> exists x, x ∈ l /\ quant (snd x) = true /\ id ∈ ids (snd x).
Proof.
  induction l as [|x l IH]; [split; [by intros ?%elem_of_nil|by intros (x & ?%elem_of_nil & _)]|].
  rewrite used_cons, elem_of_app, IH. split.
  - intros [Hid|(y & Hy & Hq & Hid)].
    + exists x. destruct (quant (snd x)); [|by apply elem_of_nil in Hid]. split_and!; [apply list_elem_of_here|done|done].
    + exists y. split_and!; [by apply list_elem_of_further|done|done].
  - intros (y & [->|Hy]%elem_of_cons & Hq & Hid); [left; by rewrite Hq|right; by exists y].
Qed.

(** *** Checking *)

Lemma sum_counts_spec l n : sum_counts st l = Ok n ->
  exists ss, l = map JStr ss /\ Forall (fun id => known st id = true) ss /\ n = id_sum st ss.
Proof.
  revert n. induction l as [|v l IH]; intros n; cbn [sum_counts]; [intros [= <-]; by exists []|].
  destruct v as [| | | |s| |]; try done. destruct (known st s) eqn:Hk; [|done].
  unfold mbind, result_bind. destruct (sum_counts st l) as [m|]; [|done]. intros [= <-].
  destruct (IH m eq_refl) as (ss & -> & Hks & ->). exists (s :: ss). split_and!; [done|by constructor|done].
Qed.

Lemma claim_ids_spec used ss used' :
  Forall (fun id => known st id = true) ss -> claim_ids st used (map JStr ss) = Ok used' ->
  used' = used ++ ss /\ (NoDup used -> NoDup used').
Proof.
  intros Hk. revert used. induction Hk as [|s ss Hs _ IH]; intros used; cbn [map claim_ids].
  - intros [= <-]. by rewrite app_nil_r.
  - rewrite decide_False; [|intros [= ->]; change (known st UNQUANTIFIED = true) in Hs; by rewrite unquantified_unknown in Hs].
    rewrite Hs. cbn [negb]. case_decide as Hin; [done|]. intros [-> Hn]%IH. rewrite <- app_assoc. split; [done|].
    rewrite <- app_assoc in Hn. intros Hu. apply Hn. apply NoDup_app. split_and!; [done| |apply NoDup_singleton].
    intros x Hx ->%list_elem_of_singleton. done.
Qed.

Lemma claim_unquantified used : claim_ids st used [JStr UNQUANTIFIED] = Ok used.
Proof. cbn [claim_ids]. by rewrite decide_True. Qed.

(** Unquantifying leaves the identities alone. *)
Lemma ids_of_unquantify f : ids_of (unquantify f) = ids_of f.
Proof. unfold ids_of, unquantify. by rewrite !jget_jset_ne by key_ne. Qed.

Lemma repair_ids_spec allow f v f' : repair_ids st allow f = Ok (v, f') ->
  is_obj f' = true /\ is_unquantified (ids_of f') = is_unquantified v /\ id_strings (ids_of f') = id_strings v.
Proof.
  unfold repair_ids. destruct (py_get (u "pattern_ids") JNull f) as [w|] eqn:Hg; [|done].
  pose proof (py_get_is_obj _ _ _ _ Hg) as Ho. rewrite py_get_jget in Hg by done. injection Hg as Hw.
  unfold mbind, result_bind. destruct (py_iter (jor w (JList []))) as [l|] eqn:Hi; [|done].
  destruct (unknown_ids st l) as [[|x unk]|]; [| |done].
  - intros [= <- <-]. split; [done|]. unfold ids_of. subst w. destruct (jget (u "pattern_ids") f) as [w|]; [|done].
    simpl. unfold jor. destruct (jtruthy w) eqn:Ht; [done|].
    destruct w as [|[]|n|x|s|l'|o]; try done; [by destruct s|by destruct l'|by destruct o].
  - destruct allow; [|done]. destruct (fromkeys (known_ids st l)) as [|k ks]; intros [= <- <-].
    + unfold unquantify. rewrite !is_obj_jset. fold (unquantify (jset (u "pattern_ids") unquantified f)).
      rewrite ids_of_unquantify. unfold ids_of. by rewrite jget_jset_eq.
    + rewrite is_obj_set_ids, ids_of_set_ids by done. done.
Qed.

(** What an accepted finding is. *)
Definition accepted (used used' : list pystr) (f : json) : Prop :=
  is_obj f = true /\ ((quant f = false /\ used' = used) \/
    (quant f = true /\ used' = used ++ ids f /\ Forall (fun id => known st id = true) (ids f))).

Lemma check_finding_spec allow s f s' f' keep :
  check_finding st allow s f = (Ok s', (f', keep)) ->
  (NoDup (fst s) -> NoDup (fst s')) /\ if keep then accepted (fst s) (fst s') f' else fst s' = fst s.
Proof.
  unfold check_finding. destruct (repair_ids st allow f) as [[v g]|] eqn:Hr; [|done].
  apply repair_ids_spec in Hr as (Ho & Hu & Hi). destruct s as [used seen]. unfold claim_finding, accepted, quant, ids.
  destruct (is_unquantified v && seen && allow); [intros [= <- <- <-]; done|].
  destruct (is_unquantified v) eqn:Hv.
  - apply bool_decide_eq_true in Hv as ->. cbn [py_iter unquantified]. unfold mbind, result_bind.
    rewrite claim_unquantified. intros [= <- <- <-]. split; [done|]. split; [by unfold unquantify; rewrite !is_obj_jset|].
    left. by rewrite ids_of_unquantify, Hu.
  - destruct (py_iter v) as [l|] eqn:Hl; [|done]. unfold mbind, result_bind.
    destruct (claim_ids st used l) as [used'|] eqn:Hc; [|done]. simpl.
    destruct (sum_counts st l) as [n|] eqn:Hs; [|done]. intros [= <- <- <-].
    apply sum_counts_spec in Hs as (ss & -> & Hk & ->). apply claim_ids_spec in Hc as [-> Hn]; [|done].
    split; [done|]. rewrite is_obj_set_count, ids_of_set_count. split; [done|]. right. rewrite Hu, Hi.
    unfold id_strings. rewrite Hl, omap_jstr_strs. done.
Qed.

(** The accepted findings of a group carry exactly the newly claimed
    identities. *)
Definition stays (x : json * bool) : Prop := snd x = true.
Definition tag_all (l : list json) : list tagged := map (pair 0) l.

Lemma check_loop_spec allow s fs s' fs' :
  check_loop st allow s fs = (Ok s', fs') -> NoDup (fst s) ->
  let l := map fst (filter (fun x : json * bool => snd x = true) fs') in
  NoDup (fst s') /\ fst s' = fst s ++ used_ids (tag_all l) /\
  Forall (fun f => is_obj f = true) l /\ Forall (fun id => known st id = true) (used_ids (tag_all l)).
Proof.
  intros Hrun Hn. unfold check_loop in Hrun.
  apply (for_in_place_inv _ (fun c _ done' => let l := map fst (filter (fun x : json * bool => snd x = true) done') in
    NoDup (fst c) /\ fst c = fst s ++ used_ids (tag_all l) /\ Forall (fun f => is_obj f = true) l /\
    Forall (fun id => known st id = true) (used_ids (tag_all l))) _ _ _ _ Hrun).
  - simpl. rewrite app_nil_r. split_and!; done || constructor.
  - intros c d d' [x b] c2 [x' keep] (Hnd & Heq & Ho & Hk) _ Hx. apply check_finding_spec in Hx as [Hn' Ha].
    specialize (Hn' Hnd). cbv zeta. rewrite filter_app, map_app. unfold tag_all. rewrite map_app.
    fold (tag_all (map fst (filter (fun x : json * bool => snd x = true) d'))). rewrite used_app.
    destruct keep.
    + rewrite filter_cons_True by done. rewrite filter_nil. cbn [map fst]. rewrite used_cons. cbn [snd].
      change (used_ids []) with (@nil pystr). rewrite app_nil_r.
      destruct Ha as [Hox [[Hq Hu]|(Hq & Hu & Hkx)]]; rewrite Hq; rewrite ?app_nil_r.
      * rewrite Hu. split_and!; [done|done|apply Forall_app; split; [done|by constructor]|done].
      * split_and!; [done|by rewrite Hu, Heq, app_assoc| |by apply Forall_app].
        apply Forall_app. split; [done|by constructor].
    + rewrite filter_cons_False by done. rewrite filter_nil. cbn [map]. change (used_ids []) with (@nil pystr).
      rewrite !app_nil_r. rewrite Ha. by split_and!.
Qed.

Lemma used_ids_tags l k : map snd l = map snd k -> used_ids l = used_ids k.
Proof.
  revert k. induction l as [|x l IH]; intros [|y k]; try done. simpl. intros [= Hx Hl].
  rewrite !used_cons, Hx. by rewrite (IH k).
Qed.

Lemma number_snd i l : map snd (number i l) = l.
Proof. revert i. induction l as [|x l IH]; intros i; [done|]. cbn [number map snd]. by rewrite IH. Qed.

Lemma number_fst i l : map fst (number i l) = seq i (length l).
Proof. revert i. induction l as [|x l IH]; intros i; [done|]. cbn [number map fst length seq]. by rewrite IH. Qed.

Lemma tag_all_snd l : map snd (tag_all l) = l.
Proof. induction l as [|x l IH]; [done|]. simpl. by rewrite IH. Qed.

Lemma check_group_spec allow group s o s' o' :
  check_group st allow group s o = (Ok s', o') -> NoDup (fst s) ->
  exists l, o' = jset group (JList l) o /\ is_obj o = true /\ NoDup (fst s') /\
    fst s' = fst s ++ used_ids (tag_all l) /\ Forall (fun f => is_obj f = true) l /\
    Forall (fun id => known st id = true) (used_ids (tag_all l)).
Proof.
  unfold check_group. intros Hrun Hn. apply bind_ok_inv in Hrun as (x & y & [= <- <-] & Hrun).
  apply bind_ok_inv in Hrun as (old & o1 & Hl & Hrun). apply lift_ok_inv in Hl as [Hg ->].
  apply bind_ok_inv in Hrun as (fs & o1 & Hl & Hrun). apply lift_ok_inv in Hl as [Hi ->].
  pose proof (py_get_is_obj _ _ _ _ Hg) as Ho.
  destruct (check_loop st allow s fs) as [r fs'] eqn:Hc. destruct r as [s2|e].
  - apply bind_ok_inv in Hrun as ([] & o1 & [= <-] & [= <- <-]).
    apply check_loop_spec in Hc as (H1 & H2 & H3 & H4); [|done]. eexists. by split_and!.
  - apply bind_ok_inv in Hrun as ([] & o1 & _ & [=]).
Qed.

Lemma open_doc_ok allow o o' : check_ids st allow o = (Ok tt, o') -> doc_ok st (open_doc o') /\ is_obj o' = true.
Proof.
  unfold check_ids. intros Hrun. apply bind_ok_inv in Hrun as (s1 & o1 & H1 & Hrun).
  apply check_group_spec in H1 as (k & -> & Ho & Hn1 & Hu1 & Ho1 & Hk1); [|by apply NoDup_nil_2].
  apply bind_ok_inv in Hrun as (s2 & o2 & H2 & Hrun). injection Hrun as <-.
  apply check_group_spec in H2 as (l & -> & Ho' & Hn2 & Hu2 & Ho2 & Hk2); [|done].
  assert (Hk : findings_of (u "key_finds") (jset (u "secondary_finds") (JList l) (jset (u "key_finds") (JList k) o)) = k).
  { unfold findings_of. rewrite jget_jset_ne by key_ne. by rewrite jget_jset_eq. }
  assert (Hl : findings_of (u "secondary_finds") (jset (u "secondary_finds") (JList l) (jset (u "key_finds") (JList k) o)) = l).
  { unfold findings_of. by rewrite jget_jset_eq. }
  assert (Hused : used_ids (all_of (open_doc (jset (u "secondary_finds") (JList l) (jset (u "key_finds") (JList k) o)))) = fst s2).
  { unfold open_doc. rewrite Hk, Hl. unfold all_of. cbn [d_key d_secondary]. rewrite used_app.
    rewrite (used_ids_tags (number 0 k) (tag_all k)) by (by rewrite number_snd, tag_all_snd).
    rewrite (used_ids_tags (number (length k) l) (tag_all l)) by (by rewrite number_snd, tag_all_snd).
    by rewrite Hu2, Hu1. }
  split; [|by rewrite !is_obj_jset]. split.
  - unfold open_doc. rewrite Hk, Hl. unfold all_of. cbn [d_key d_secondary].
    rewrite map_app, !number_fst, <- seq_app. apply NoDup_seq.
  - unfold open_doc. rewrite Hk, Hl. unfold all_of. cbn [d_key d_secondary]. apply (proj1 (Forall_map snd (fun f => is_obj f = true) _)).
    rewrite map_app, !number_snd. by apply Forall_app.
  - by rewrite Hused.
  - rewrite Hused, Hu2, Hu1. by apply Forall_app.
Qed.

(** *** Merging families *)

Lemma roots_of_snd fuel p i items : map snd (roots_of fuel p i items) = items.
Proof.
  revert p i. induction items as [|it items IH]; intros p i; [done|]. cbn [roots_of].
  destruct (find fuel p i) as [r p']. simpl. by rewrite IH.
Qed.

(** The components partition the findings, whatever the forest. *)
Lemma components_partition items : mjoin (components st items) ≡ₚ items /\ Forall (fun c => c <> []) (components st items).
Proof.
  unfold components. set (l := roots_of _ _ _ _). pose proof (group_by_spec fst l) as [Hp _ Hok _]. split.
  - assert (Hs : map snd l = items) by apply roots_of_snd. rewrite <- Hs, <- (Permutation_map snd Hp).
    clear. induction (group_by fst l) as [|g gs IH]; [done|]. simpl. by rewrite map_app, IH.
  - apply Forall_forall. intros c (g & -> & Hg)%list_elem_of_fmap. destruct g as [k xs]. simpl.
    destruct (Hok k xs Hg) as [Hne _]. by destruct xs.
Qed.

Lemma primary_elem items it : primary items = Some it -> it ∈ items.
Proof.
  unfold primary. destruct (find_first _ items) as [x|] eqn:E.
  - intros [= <-]. by apply find_first_Some in E as [? _].
  - destruct items; [done|]. intros [= <-]. apply list_elem_of_here.
Qed.

Lemma primary_some items : items <> [] -> exists it, primary items = Some it.
Proof. unfold primary. destruct (find_first _ items); [eauto|]. destruct items; [done|]. eauto. Qed.

Definition item_ok (it : bool * tagged) : Prop :=
  is_obj (snd (snd it)) = true /\ quant (snd (snd it)) = true /\ Forall (fun id => known st id = true) (ids (snd (snd it))).

(** One component: its finding holds all its identities. *)
Lemma merge_component_spec c :
  c <> [] -> Forall item_ok c -> NoDup (used_ids (map snd c)) ->
  exists key i f, merge_component c = [(key, (i, f))] /\ i ∈ map fst (map snd c) /\ is_obj f = true /\
    quant f = true /\ ids f = used_ids (map snd c) /\ Forall (fun id => known st id = true) (ids f).
Proof.
  intros Hne Hok Hnd. destruct (primary_some c Hne) as [[key [i f]] Hp]. unfold merge_component. rewrite Hp.
  pose proof (primary_elem _ _ Hp) as Hin.
  assert (Hused : used_ids (map snd c) = mjoin (map (fun it => id_strings (ids_of (snd (snd it)))) c)).
  { clear -Hok. induction Hok as [|it c (_ & Hq & _) _ IH]; [done|]. cbn [map]. rewrite used_cons, Hq, IH. done. }
  assert (Hm : merged_ids c = used_ids (map snd c)) by (unfold merged_ids; rewrite <- Hused; by apply fromkeys_NoDup).
  assert (Hobj : is_obj f = true) by (rewrite Forall_forall in Hok; by apply Hok in Hin as [? _]).
  assert (Hkn : Forall (fun id => known st id = true) (used_ids (map snd c))).
  { rewrite Hused. clear -Hok. induction Hok as [|it c (_ & _ & Hk) _ IH]; [constructor|]. simpl. by apply Forall_app. }
  exists key, i, (set_ids (merged_ids c) f). rewrite is_obj_set_ids, ids_set_ids, Hm by done.
  split_and!; try done; [|by apply quant_set_ids]. apply list_elem_of_fmap. exists (i, f). split; [done|].
  apply list_elem_of_fmap. by exists (key, (i, f)).
Qed.

Lemma merge_components_spec comps :
  Forall (fun c => c <> [] /\ Forall item_ok c) comps -> NoDup (used_ids (map snd (mjoin comps))) ->
  let r := map snd (mjoin (map merge_component comps)) in
  map fst r ⊆+ map fst (map snd (mjoin comps)) /\ Forall (fun x => is_obj (snd x) = true) r /\
  used_ids r = used_ids (map snd (mjoin comps)).
Proof.
  induction comps as [|c comps IH]; intros Hok Hnd; [done|]. apply Forall_cons in Hok as [[Hne Hc] Hok].
  change (mjoin (c :: comps)) with (c ++ mjoin comps) in *.
  change (mjoin (map merge_component (c :: comps))) with (merge_component c ++ mjoin (map merge_component comps)).
  cbv zeta. rewrite map_app, used_app in Hnd. apply NoDup_app in Hnd as (Hn1 & _ & Hn2).
  rewrite !map_app.
  destruct (IH Hok Hn2) as (Ht & Ho & Hu).
  destruct (merge_component_spec c Hne Hc Hn1) as (key & i & f & -> & Hi & Hof & Hq & Hids & _).
  cbn [map snd fst app]. split_and!.
  - change (i :: map fst (map snd (mjoin (map merge_component comps)))) with
      ([i] ++ map fst (map snd (mjoin (map merge_component comps)))).
    apply submseteq_app; [by apply singleton_submseteq_l|done].
  - by constructor.
  - rewrite used_cons. cbn [snd]. rewrite Hq, Hids, used_app. f_equal. exact Hu.
Qed.

Lemma in_group_split l : in_group true l ++ in_group false l ≡ₚ map snd l.
Proof.
  unfold in_group. induction l as [|[[] x] l IH]; [done| |].
  - rewrite filter_cons_True by done. rewrite (filter_cons_False (fun it : bool * tagged => fst it = false)) by done.
    simpl. by rewrite IH.
  - rewrite (filter_cons_False (fun it : bool * tagged => fst it = true)) by done. rewrite filter_cons_True by done.
    simpl. by rewrite <- Permutation_middle, IH.
Qed.

Lemma items_of_snd d : map snd (items_of d) = quantified (all_of d).
Proof.
  unfold items_of, all_of, quantified. rewrite filter_app, map_app, !map_map. simpl. by rewrite !map_id.
Qed.

Lemma NoDup_submseteq' {A} (l k : list A) : l ⊆+ k -> NoDup k -> NoDup l.
Proof. intros (m & Hm)%submseteq_Permutation. rewrite Hm. by intros (? & _)%NoDup_app. Qed.

Lemma doc_ok_perm d d' : all_of d ≡ₚ all_of d' -> doc_ok st d -> doc_ok st d'.
Proof. intros Hp []. split; by rewrite <- Hp. Qed.

Lemma merge_families_ok d : doc_ok st d ->
  doc_ok st (merge_families st d) /\ used_ids (all_of (merge_families st d)) ≡ₚ used_ids (all_of d).
Proof.
  intros Hd. unfold merge_families. destruct (existsb _ _); [|done].
  pose proof (components_partition (items_of d)) as [Hp Hne]. set (comps := components st (items_of d)) in *.
  destruct Hd as [Ht Ho Hn Hk].
  assert (Hq : map snd (mjoin comps) ≡ₚ quantified (all_of d)) by (by rewrite Hp, items_of_snd).
  assert (Hitems : Forall item_ok (mjoin comps)).
  { apply Forall_forall. intros it Hit. rewrite Hp in Hit.
    assert (Hin : snd it ∈ quantified (all_of d)) by (rewrite <- items_of_snd; apply list_elem_of_fmap; by exists it).
    unfold quantified in Hin. apply list_elem_of_filter in Hin as [Hqq Hin]. apply Is_true_true in Hqq.
    rewrite Forall_forall in Ho. rewrite Forall_forall in Hk. split_and!; [by apply Ho|done|].
    apply Forall_forall. intros id Hid. apply Hk, elem_of_used. by exists (snd it). }
  assert (Hcs : Forall (fun c => c <> [] /\ Forall item_ok c) comps).
  { apply Forall_forall. intros c Hc. rewrite Forall_forall in Hne. split; [by apply Hne|].
    apply Forall_forall. intros it Hit. rewrite Forall_forall in Hitems. apply Hitems, list_elem_of_join. by exists c. }
  assert (Hused : used_ids (map snd (mjoin comps)) ≡ₚ used_ids (all_of d)) by (by rewrite Hq, used_quantified).
  destruct (merge_components_spec comps Hcs) as (Htr & Hor & Hur); [by rewrite Hused|].
  set (rebuilt := mjoin (map merge_component comps)) in *.
  set (unq := fun l : list tagged => filter (fun x => is_unquantified (ids_of (snd x))) l).
  set (d' := mk_doc _ _ _ _).
  assert (Hall : all_of d' ≡ₚ map snd rebuilt ++ unq (all_of d)).
  { unfold all_of at 1, d'. cbn [d_key d_secondary]. unfold unq, all_of. rewrite filter_app, <- in_group_split.
    rewrite <- !app_assoc. apply Permutation_app_head. rewrite !app_assoc. apply Permutation_app_tail, Permutation_app_comm. }
  assert (Hsplit : all_of d ≡ₚ quantified (all_of d) ++ unq (all_of d)) by apply quantified_split.
  assert (Hu' : used_ids (all_of d') ≡ₚ used_ids (all_of d)).
  { assert (Hur' : used_ids (map snd rebuilt) = used_ids (map snd (mjoin comps))) by exact Hur.
    rewrite Hall, used_app, Hur'. unfold unq. rewrite used_unquantified, app_nil_r. exact Hused. }
  split; [|done]. split.
  - rewrite Hall, map_app. apply (NoDup_submseteq' _ (map fst (all_of d))); [|done].
    rewrite Hsplit at 2. rewrite map_app, <- Hq. apply submseteq_app; [done|reflexivity].
  - rewrite Hall. apply Forall_app. split; [done|]. rewrite Hsplit in Ho. by apply Forall_app in Ho as [_ ?].
  - by rewrite Hu'.
  - by rewrite Hu'.
Qed.

(** *** Updating one finding *)

Lemma update_app i g l k : update i g (l ++ k) = update i g l ++ update i g k.
Proof. apply map_app. Qed.

Lemma all_of_update i g d : all_of (update_doc i g d) = update i g (all_of d).
Proof. unfold all_of, update_doc, with_groups. cbn [d_key d_secondary]. by rewrite update_app. Qed.

Lemma update_fst i g l : map fst (update i g l) = map fst l.
Proof. unfold update. rewrite map_map. apply map_ext. intros x. by destruct (Nat.eqb (fst x) i). Qed.

Lemma update_obj i g l : (forall f, is_obj f = true -> is_obj (g f) = true) ->
  Forall (fun x => is_obj (snd x) = true) l -> Forall (fun x => is_obj (snd x) = true) (update i g l).
Proof.
  intros Hg Hl. unfold update. apply Forall_map. eapply Forall_impl; [exact Hl|]. intros x Hx.
  destruct (Nat.eqb (fst x) i); [by apply Hg|done].
Qed.

Lemma update_absent i g l : i ∉ map fst l -> update i g l = l.
Proof.
  intros Hi. unfold update. induction l as [|x l IH]; [done|]. simpl in *. apply not_elem_of_cons in Hi as [Hne Hi].
  rewrite IH by done. destruct (Nat.eqb_spec (fst x) i); [by subst|done].
Qed.

(** The updated finding, up to order. *)
Lemma update_split i g l f : NoDup (map fst l) -> (i, f) ∈ l ->
  exists l0, l ≡ₚ (i, f) :: l0 /\ i ∉ map fst l0 /\ update i g l ≡ₚ (i, g f) :: l0.
Proof.
  intros Hnd (l1 & l2 & ->)%list_elem_of_split. exists (l1 ++ l2).
  rewrite map_app in Hnd. cbn [map fst] in Hnd.
  assert (Hi : i ∉ map fst (l1 ++ l2)).
  { rewrite map_app. rewrite <- Permutation_middle in Hnd. by apply NoDup_cons in Hnd as [? _]. }
  rewrite map_app, not_elem_of_app in Hi. destruct Hi as [Hi1 Hi2].
  split_and!; [by rewrite Permutation_middle|by rewrite map_app, not_elem_of_app|].
  rewrite update_app, update_absent by done.
  change (update i g ((i, f) :: l2)) with ((if Nat.eqb i i then (i, g f) else (i, f)) :: update i g l2).
  rewrite Nat.eqb_refl, update_absent by done. by rewrite <- Permutation_middle.
Qed.

Lemma find_tag_elem i l f : NoDup (map fst l) -> (i, f) ∈ l -> find_tag i l = Some f.
Proof.
  intros Hnd Hin. unfold find_tag. destruct (find_first _ l) as [[j f']|] eqn:E.
  - apply find_first_Some in E as [Hin' Hj]. apply Nat.eqb_eq in Hj. simpl in Hj. subst j. simpl. f_equal.
    apply list_elem_of_lookup in Hin as [a Ha]. apply list_elem_of_lookup in Hin' as [b Hb].
    enough (a = b) by congruence. apply (NoDup_lookup (map fst l) a b i); [done| |];
      rewrite list_lookup_fmap; [by rewrite Ha|by rewrite Hb].
  - apply find_first_None with (x := (i, f)) in E; [|done]. simpl in E. by rewrite Nat.eqb_refl in E.
Qed.

Lemma tag_elem i (l : list tagged) : i ∈ map fst l -> exists f, (i, f) ∈ l.
Proof. intros ([j f] & -> & Hin)%list_elem_of_fmap. by exists f. Qed.

(** *** Duplicate narratives *)

Lemma assoc_set_elem {A} k (v : A) o k' v' : (k', v') ∈ assoc_set k v o -> v' = v \/ (k', v') ∈ o.
Proof.
  induction o as [|[a b] o IH]; cbn [assoc_set].
  - intros Hin%list_elem_of_singleton. injection Hin as -> ->. by left.
  - case_decide; intros [Hin|Hin]%elem_of_cons; [injection Hin as -> ->; by left|right; by apply list_elem_of_further
      |right; rewrite Hin; apply list_elem_of_here|].
    destruct (IH Hin); [by left|right; by apply list_elem_of_further].
Qed.

Lemma claim_details_owner owners i f fields owners' r (P : nat -> Prop) :
  claim_details owners i f fields = (owners', r) -> (forall k j, (k, j) ∈ owners -> P j) -> P i ->
  (forall k j, (k, j) ∈ owners' -> P j) /\ (forall j, r = Some j -> P j).
Proof.
  revert owners. induction fields as [|k fields IH]; intros owners; cbn [claim_details].
  { intros [= <- <-] Ho Hi. by split. }
  intros Hrun Ho Hi. case_match; [by eapply IH|].
  assert (Hset : forall s, (forall k j, (k, j) ∈ assoc_set s i owners -> P j)).
  { intros s k' j [->|Hin]%assoc_set_elem; [done|by eapply Ho]. }
  destruct (assoc _ owners) as [j|] eqn:Ha; [|eapply IH; [exact Hrun|apply Hset|done]].
  destruct (Nat.eqb j i); [eapply IH; [exact Hrun|apply Hset|done]|]. injection Hrun as <- <-. split; [done|].
  intros j' [= <-]. by apply assoc_elem, Ho in Ha.
Qed.

(** Owners come before their duplicates. *)
Fixpoint owners_first (dups : list (nat * nat)) : Prop :=
  match dups with
  | [] => True
  | (i, j) :: rest => j ∉ map fst ((i, j) :: rest) /\ i ∉ map fst rest /\ owners_first rest
  end.

Lemma claim_details_self owners i f fields owners' : i ∉ map snd owners ->
  claim_details owners i f fields = (owners', Some i) -> False.
Proof.
  intros Hi. enough (Hg : forall owners, claim_details owners i f fields = (owners', Some i) -> False) by apply Hg.
  clear. induction fields as [|k fields IH]; intros owners; cbn [claim_details]; [done|].
  case_match; [by apply IH|]. destruct (assoc _ owners) as [j|]; [|by apply IH].
  destruct (Nat.eqb_spec j i); [by apply IH|]. by intros [= _ ->].
Qed.

Lemma find_duplicates_spec owners l :
  NoDup (map fst l) -> (forall k j, (k, j) ∈ owners -> j ∉ map fst l) ->
  owners_first (find_duplicates owners l) /\ (forall i, i ∈ map fst (find_duplicates owners l) -> i ∈ map fst l) /\
  (forall i j, (i, j) ∈ find_duplicates owners l -> j ∈ map fst l \/ j ∈ map snd owners).
Proof.
  revert owners. induction l as [|[i f] l IH]; intros owners Hnd Hown; cbn [find_duplicates].
  { split_and!; [done|by intros i ?%elem_of_nil|by intros i j ?%elem_of_nil]. }
  cbn [map fst] in Hnd, Hown. apply NoDup_cons in Hnd as [Hi Hnd].
  destruct (claim_details owners i f _) as [owners' dup] eqn:E.
  pose proof (claim_details_owner _ _ _ _ _ _ (fun j => j ∉ map fst l) E) as (Ho' & Hd).
  { intros k j Hin%Hown. by apply not_elem_of_cons in Hin as [_ ?]. }
  { done. }
  pose proof (claim_details_owner _ _ _ _ _ _ (fun j => j = i \/ j ∈ map snd owners) E) as (Ho2 & Hd2).
  { intros k j Hin. right. apply list_elem_of_fmap. by exists (k, j). }
  { by left. }
  destruct (IH owners' Hnd Ho') as (H1 & H2 & H3).
  assert (H3' : forall a b, (a, b) ∈ find_duplicates owners' l -> b ∈ map fst ((i, f) :: l) \/ b ∈ map snd owners).
  { intros a b Hab. destruct (H3 a b Hab) as [Hb|Hb]; [left; by apply list_elem_of_further|].
    apply list_elem_of_fmap in Hb as ([k b'] & -> & Hb). destruct (Ho2 k b' Hb) as [-> |?]; [left; apply list_elem_of_here|by right]. }
  destruct dup as [j|].
  - split_and!.
    + cbn [owners_first map fst]. split_and!; [|intros Hin%H2; done|done].
      apply not_elem_of_cons. split.
      * intros ->. eapply claim_details_self; [|exact E]. intros Hin.
        apply list_elem_of_fmap in Hin as ([k j'] & Hj & Hin). apply Hown in Hin. simpl in Hj. subst. apply Hin, list_elem_of_here.
      * intros Hin%H2. by apply (Hd j eq_refl).
    + intros a [->|Ha]%elem_of_cons; [apply list_elem_of_here|]. apply list_elem_of_further. by apply H2.
    + intros a b [[= -> ->]|Hab]%elem_of_cons; [|by eapply H3'].
      destruct (Hd2 j eq_refl) as [-> |?]; [left; apply list_elem_of_here|by right].
  - split_and!; [done| |done]. intros a Ha%H2. by apply list_elem_of_further.
Qed.

(** Survivors and the duplicates that have not given their identities yet
    hold each identity at most once. *)
Definition survive (D : list nat) (x : tagged) : Prop := fst x ∉ D.
#[local] Instance survive_dec D x : Decision (survive D x).
Proof. unfold survive. apply _. Defined.
Definition live (D : list nat) (dups : list (nat * nat)) (l : list tagged) : list tagged :=
  filter (fun x => fst x ∉ D \/ fst x ∈ map fst dups) l.

Record giving (D : list nat) (dups : list (nat * nat)) (l : list tagged) : Prop := {
  gv_tags : NoDup (map fst l);
  gv_obj : Forall (fun x => is_obj (snd x) = true) l;
  gv_ids : NoDup (used_ids (live D dups l));
  gv_known : Forall (fun id => known st id = true) (used_ids l);
  gv_quant : forall x, x ∈ l -> fst x ∈ D \/ fst x ∈ map snd dups -> quant (snd x) = true;
}.

Lemma give_ids_list d ij : all_of (give_ids d ij) =
  update (snd ij) (set_ids (fromkeys
    (match find_tag (snd ij) (all_of d) with Some f => ids f | None => [] end ++
     match find_tag (fst ij) (all_of d) with Some f => ids f | None => [] end))) (all_of d).
Proof. unfold give_ids. by rewrite all_of_update. Qed.

Lemma live_perm D dups l l' : l ≡ₚ l' -> live D dups l ≡ₚ live D dups l'.
Proof. intros Hl. unfold live. by rewrite Hl. Qed.

Lemma elem_of_live D dups l x : x ∈ live D dups l <-> x ∈ l /\ (fst x ∉ D \/ fst x ∈ map fst dups).
Proof. unfold live. rewrite list_elem_of_filter. tauto. Qed.

Lemma live_cons D dups x l : live D dups (x :: l) =
  if decide (fst x ∉ D \/ fst x ∈ map fst dups) then x :: live D dups l else live D dups l.
Proof. unfold live. by rewrite filter_cons. Qed.

Lemma live_skip D i j dups l : i ∉ map fst l -> live D ((i, j) :: dups) l = live D dups l.
Proof.
  intros Hi. induction l as [|x l IH]; [done|]. cbn [map fst] in Hi. apply not_elem_of_cons in Hi as [Hne Hi].
  rewrite !live_cons, IH by done. cbn [map fst].
  destruct (decide (fst x ∉ D \/ fst x ∈ i :: map fst dups)) as [H1|H1],
    (decide (fst x ∉ D \/ fst x ∈ map fst dups)) as [H2|H2]; try done; exfalso.
  - apply H2. destruct H1 as [?|[Hx|?]%elem_of_cons]; [by left|by destruct Hne|by right].
  - apply H1. destruct H2 as [?|?]; [by left|]. right. by apply list_elem_of_further.
Qed.

(** One duplicate gives its identities away. *)
Lemma give_step D i j dups d :
  giving D ((i, j) :: dups) (all_of d) -> i ∈ D -> j ∉ i :: map fst dups -> i ∉ map fst dups ->
  i ∈ map fst (all_of d) -> j ∈ map fst (all_of d) ->
  giving D dups (all_of (give_ids d (i, j))) /\
  (forall id, id ∈ used_ids (all_of (give_ids d (i, j))) -> id ∈ used_ids (all_of d)).
Proof.
  intros [Ht Ho Hn Hk Hq] HiD Hj Hi Hin Hjn. rewrite give_ids_list. cbn [fst snd].
  destruct (tag_elem _ _ Hin) as [fi Hfi]. destruct (tag_elem _ _ Hjn) as [fj Hfj].
  rewrite (find_tag_elem _ _ _ Ht Hfi), (find_tag_elem _ _ _ Ht Hfj).
  apply not_elem_of_cons in Hj as [Hji Hj].
  assert (Hqi : quant fi = true) by (apply (Hq (i, fi) Hfi); by left).
  assert (Hqj : quant fj = true) by (apply (Hq (j, fj) Hfj); right; apply list_elem_of_here).
  assert (Hoj : is_obj fj = true) by (rewrite Forall_forall in Ho; by apply Ho in Hfj).
  set (new := fromkeys (ids fj ++ ids fi)). set (g := set_ids new).
  destruct (update_split j g (all_of d) fj Ht Hfj) as (l0 & Hl & Hj0 & Hl').
  assert (Hfi0 : (i, fi) ∈ l0).
  { rewrite Hl in Hfi. apply elem_of_cons in Hfi as [[= -> ->]|?]; done. }
  assert (Ht0 : NoDup (map fst l0)) by (rewrite Hl in Ht; simpl in Ht; by apply NoDup_cons in Ht as [_ ?]).
  destruct (update_split i g l0 fi Ht0 Hfi0) as (l1 & Hl1 & Hi1 & _).
  assert (Hnew : forall id, id ∈ new <-> id ∈ ids fj \/ id ∈ ids fi) by (intros id; unfold new; by rewrite elem_of_fromkeys, elem_of_app).
  assert (Hkj : Forall (fun id => known st id = true) new).
  { apply Forall_forall. rewrite Forall_forall in Hk. intros id [Hid|Hid]%Hnew; apply Hk, elem_of_used; eauto. }
  assert (Hids : ids (g fj) = new) by (by apply ids_set_ids).
  assert (Hqg : quant (g fj) = true) by (by apply quant_set_ids).
  assert (Hsub : forall id, id ∈ used_ids (update j g (all_of d)) -> id ∈ used_ids (all_of d)).
  { intros id. rewrite Hl', Hl, !used_cons, !elem_of_app. cbn [snd]. rewrite Hqg, Hqj, Hids, Hnew.
    intros [[?|?]|?]; auto. right. apply elem_of_used. by exists (i, fi). }
  split; [|done]. split.
  - by rewrite update_fst.
  - apply update_obj; [|done]. intros f Hf. unfold g. by rewrite is_obj_set_ids.
  - rewrite (live_perm _ _ _ _ Hl'). rewrite (live_perm _ _ _ _ Hl), live_cons in Hn. rewrite live_cons.
    cbn [fst] in *.
    assert (Hi0 : live D ((i, j) :: dups) l0 ≡ₚ (i, fi) :: live D dups l1).
    { rewrite (live_perm _ _ _ _ Hl1), live_cons, live_skip by done. cbn [fst].
      by rewrite decide_True by (right; apply list_elem_of_here). }
    assert (Hi0' : live D dups l0 ≡ₚ live D dups l1).
    { rewrite (live_perm _ _ _ _ Hl1), live_cons. cbn [fst]. by rewrite decide_False by (intros [?|?]; done). }
    destruct (decide (j ∉ D \/ j ∈ map fst dups)) as [Hlj|Hlj].
    + rewrite decide_True in Hn by (destruct Hlj as [?|?]; [by left|right; by apply list_elem_of_further]).
      rewrite Hi0, !used_cons in Hn. rewrite Hi0', used_cons. cbn [snd] in *. rewrite Hqj, Hqi in Hn. rewrite Hqg, Hids.
      unfold new. rewrite app_assoc in Hn. rewrite fromkeys_NoDup; [done|]. by apply NoDup_app in Hn as (? & _).
    + assert (Hno : ~ (j ∉ D \/ j ∈ map fst ((i, j) :: dups))).
      { intros [?|[Hx|?]%elem_of_cons]; [apply Hlj; by left|by destruct Hji|apply Hlj; by right]. }
      rewrite decide_False in Hn by done. rewrite Hi0, used_cons in Hn. rewrite Hi0'. by apply NoDup_app in Hn as (_ & _ & ?).
  - apply Forall_forall. intros id Hid. rewrite Forall_forall in Hk. by apply Hk, Hsub.
  - intros x Hx Hor. rewrite Hl' in Hx. apply elem_of_cons in Hx as [->|Hx]; [done|].
    apply (Hq x); [rewrite Hl; by apply list_elem_of_further|].
    destruct Hor as [?|?]; [by left|right; by apply list_elem_of_further].
Qed.

Lemma give_all D dups d :
  giving D dups (all_of d) -> owners_first dups -> (forall i, i ∈ map fst dups -> i ∈ D) ->
  (forall i j, (i, j) ∈ dups -> i ∈ map fst (all_of d) /\ j ∈ map fst (all_of d)) ->
  let d' := foldl give_ids d dups in
  giving D [] (all_of d') /\ map fst (all_of d') = map fst (all_of d) /\
  (forall id, id ∈ used_ids (all_of d') -> id ∈ used_ids (all_of d)).
Proof.
  revert d. induction dups as [|[i j] dups IH]; intros d Hg Hof HD Hin; [done|]. cbn [foldl].
  destruct Hof as (Hj & Hi & Hof). destruct (Hin i j) as [Hi1 Hj1]; [apply list_elem_of_here|].
  assert (Hfst : map fst (all_of (give_ids d (i, j))) = map fst (all_of d)) by (rewrite give_ids_list; apply update_fst).
  destruct (give_step D i j dups d) as [Hg' Hsub]; [done|apply HD, list_elem_of_here|done..|].
  destruct (IH (give_ids d (i, j))) as (H1 & H2 & H3).
  - done.
  - done.
  - intros a Ha. apply HD. by apply list_elem_of_further.
  - intros a b Hab. rewrite Hfst. apply Hin. by apply list_elem_of_further.
  - split_and!; [done|by rewrite H2|auto].
Qed.

Lemma quantified_fst_sub l i : i ∈ map fst (quantified l) -> exists x, x ∈ l /\ fst x = i /\ quant (snd x) = true.
Proof.
  intros (x & -> & Hx)%list_elem_of_fmap. unfold quantified in Hx. apply list_elem_of_filter in Hx as [Hq Hx].
  exists x. split_and!; [done|done|]. by apply Is_true_true in Hq.
Qed.

Lemma quantified_NoDup l : NoDup (map fst l) -> NoDup (map fst (quantified l)).
Proof.
  intros Hn. eapply sublist_NoDup; [exact Hn|]. apply (fmap_sublist fst). apply sublist_filter.
Qed.

Lemma merge_duplicates_ok d : doc_ok st d ->
  doc_ok st (merge_duplicates d) /\ (forall id, id ∈ used_ids (all_of (merge_duplicates d)) -> id ∈ used_ids (all_of d)).
Proof.
  intros [Ht Ho Hn Hk]. unfold merge_duplicates.
  destruct (find_duplicates_spec [] (quantified (all_of d))) as (H1 & H2 & H3);
    [by apply quantified_NoDup|by intros k j ?%elem_of_nil|].
  destruct (find_duplicates [] (quantified (all_of d))) as [|ij dups0] eqn:E; [done|].
  set (dups := ij :: dups0) in *. set (D := map fst dups).
  assert (Hg : giving D dups (all_of d)).
  { split; try done.
    - assert (Hs : forall l, live D dups l = l).
      { clear. induction l as [|x l IH]; [done|]. rewrite live_cons, IH. rewrite decide_True; [done|].
        destruct (decide (fst x ∈ D)); auto. }
      by rewrite Hs.
    - intros x Hx Hor.
      assert (Hxq : fst x ∈ map fst (quantified (all_of d))).
      { destruct Hor as [Hi|Hj]; [by apply H2|]. apply list_elem_of_fmap in Hj as ([a b] & Hb & Hab).
        destruct (H3 a b Hab) as [?|?%elem_of_nil]; [by rewrite Hb|done]. }
      apply quantified_fst_sub in Hxq as (y & Hy & Hxy & Hqy).
      assert (find_tag (fst x) (all_of d) = Some (snd x)) as Hfx by (apply find_tag_elem; [done|by destruct x]).
      assert (find_tag (fst x) (all_of d) = Some (snd y)) as Hfy by (apply find_tag_elem; [done|rewrite <- Hxy; by destruct y]).
      congruence. }
  destruct (give_all D dups d Hg H1) as (Hg' & Hfst & Hsub); [done| |].
  { intros i j Hij.
    assert (Hq : forall a, a ∈ map fst (quantified (all_of d)) -> a ∈ map fst (all_of d)).
    { intros a (x & Hx & <- & _)%quantified_fst_sub. apply list_elem_of_fmap. by exists x. }
    split; apply Hq; [apply H2, list_elem_of_fmap; by exists (i, j)|].
    by destruct (H3 i j Hij) as [?|?%elem_of_nil]. }
  set (d' := foldl give_ids d dups) in *. fold D.
  assert (Hall : forall a b c (e : option (list tagged * list tagged)), all_of (mk_doc a b c e) = a ++ b) by done.
  rewrite Hall, <- filter_app. fold (all_of d').
  assert (Hlive : forall x : tagged, fst x ∉ D <-> fst x ∉ D \/ fst x ∈ map fst (@nil (nat * nat))).
  { intros x. cbn [map]. split; [by left|]. by intros [?|?%elem_of_nil]. }
  destruct Hg' as [G1 G2 G3 G4 G5]. split.
  - split; rewrite Hall, <- filter_app; fold (all_of d').
    + eapply sublist_NoDup; [exact G1|]. apply (fmap_sublist fst), sublist_filter.
    + apply Forall_forall. intros x [_ Hx]%list_elem_of_filter. rewrite Forall_forall in G2. by apply G2.
    + erewrite list_filter_iff; [exact G3|]. intros x. apply Hlive.
    + apply Forall_forall. intros id (x & Hx & Hq & Hid)%elem_of_used. apply list_elem_of_filter in Hx as [_ Hx].
      rewrite Forall_forall in G4. apply G4, elem_of_used. by exists x.
  - intros id (x & Hx & Hq & Hid)%elem_of_used. apply list_elem_of_filter in Hx as [_ Hx]. apply Hsub, elem_of_used. by exists x.
Qed.

(** *** Recounting *)

Definition all_counted (l : list tagged) : Prop := Forall (fun x => counted st (snd x)) l.

Lemma ids_of_recount f : ids_of (recount_finding st f) = ids_of f.
Proof. unfold recount_finding. destruct (is_unquantified (ids_of f)); [done|]. by rewrite ids_of_set_count. Qed.

Lemma recount_counted f : is_obj f = true -> counted st (recount_finding st f).
Proof.
  intros Hf. unfold recount_finding. destruct (is_unquantified (ids_of f)) eqn:E.
  - unfold counted, quant. by rewrite E.
  - by apply set_count_counted.
Qed.

Lemma used_ids_retag g l : (forall f, ids_of (g f) = ids_of f) -> used_ids (retag g l) = used_ids l.
Proof.
  intros Hg. induction l as [|x l IH]; [done|]. change (retag g (x :: l)) with ((fst x, g (snd x)) :: retag g l).
  rewrite !used_cons, IH. cbn [snd]. unfold quant, ids. by rewrite Hg.
Qed.

Lemma recount_ok d : doc_ok st d -> doc_ok st (recount st d) /\ all_counted (all_of (recount st d)).
Proof.
  intros [Ht Ho Hn Hk].
  assert (Hall : all_of (recount st d) = retag (recount_finding st) (all_of d)).
  { unfold all_of, recount, with_groups, retag. cbn [d_key d_secondary]. by rewrite map_app. }
  assert (Hu : used_ids (all_of (recount st d)) = used_ids (all_of d)).
  { rewrite Hall. apply used_ids_retag, ids_of_recount. }
  split; [split; rewrite ?Hu; try done; rewrite Hall|rewrite Hall].
  - unfold retag. rewrite map_map. exact Ht.
  - apply Forall_map. eapply Forall_impl; [exact Ho|]. intros x Hx. simpl. unfold recount_finding.
    destruct (is_unquantified _); [done|by rewrite is_obj_set_count].
  - apply Forall_map. eapply Forall_impl; [exact Ho|]. intros x Hx. by apply recount_counted.
Qed.

(** *** Attaching unquantified findings *)

Lemma elem_of_members fam id : id ∈ members st fam <->
  exists p, p ∈ named_patterns st /\ p_family p = Some fam /\ p_id p = id.
Proof.
  unfold members. rewrite list_elem_of_fmap. split.
  - intros (p & -> & [Hf Hp]%list_elem_of_filter). by exists p.
  - intros (p & Hp & Hf & <-). exists p. split; [done|]. by apply list_elem_of_filter.
Qed.

Lemma NoDup_named : NoDup (map p_id (named_patterns st)).
Proof. eapply sublist_NoDup; [apply (stat_patterns _ Hst)|]. apply (fmap_sublist p_id), sublist_filter. Qed.

Lemma NoDup_members fam : NoDup (members st fam).
Proof. eapply sublist_NoDup; [apply NoDup_named|]. apply (fmap_sublist p_id), sublist_filter. Qed.

Lemma members_known fam : Forall (fun id => known st id = true) (members st fam).
Proof.
  apply Forall_forall. intros id (p & [Hp _]%elem_of_named & _ & <-)%elem_of_members. by apply known_pattern.
Qed.

(** Every identity in use belongs to a family in use. *)
Definition families_cover (used : list pystr) (U : list pystr) : Prop :=
  forall p, p ∈ named_patterns st -> p_id p ∈ U -> family_name p ∈ used.

Lemma families_cover_perm used U U' : U ≡ₚ U' -> families_cover used U -> families_cover used U'.
Proof. intros Hp Hc p Hpn Hin. apply Hc; [done|]. by rewrite Hp. Qed.

(** What attaching does to one finding; [U] are the identities of the others. *)
Lemma attach_spec s x s' x' U :
  attach st s x = (s', x') -> is_obj (snd x) = true -> counted st (snd x) ->
  NoDup (U ++ used_ids [x]) -> families_cover (fst s) (U ++ used_ids [x]) ->
  Forall (fun id => known st id = true) (used_ids [x]) ->
  fst x' = fst x /\ is_obj (snd x') = true /\ counted st (snd x') /\
  NoDup (U ++ used_ids [x']) /\ families_cover (fst s') (U ++ used_ids [x']) /\
  Forall (fun id => known st id = true) (used_ids [x']) /\
  (snd s' = snd s \/ snd s' = snd s ++ [fst x'] /\ quant (snd x') = false).
Proof.
  destruct s as [used gone]. destruct x as [i f]. unfold attach. cbn [fst snd].
  intros Hrun Ho Hc Hn Hcov Hk.
  destruct (is_unquantified (ids_of f)) eqn:Hq; [|injection Hrun as <- <-; by split_and!; try done; left].
  assert (Hqf : quant f = false) by (unfold quant; by rewrite Hq).
  destruct (matching_family st f) as [fam|]; [|injection Hrun as <- <-; by split_and!; try done; left].
  case_decide as Hused; [injection Hrun as <- <-; by split_and!; try done; right|].
  destruct (members st fam) as [|id0 ids0] eqn:Hm; [injection Hrun as <- <-; by split_and!; try done; left|].
  rewrite <- Hm in Hrun. injection Hrun as <- <-. cbn [fst snd].
  set (f' := set_count st (id_sum st (members st fam)) (set_ids (members st fam) f)).
  assert (Hids : ids f' = members st fam) by (unfold ids, f'; rewrite ids_of_set_count; by apply ids_set_ids).
  assert (Hqf' : quant f' = true).
  { unfold quant, f'. rewrite ids_of_set_count. apply quant_set_ids; [done|apply members_known]. }
  assert (Hused' : forall g : json, quant g = true -> used_ids [(i, g)] = ids g).
  { intros g Hg. rewrite used_cons. cbn [snd]. by rewrite Hg, app_nil_r. }
  rewrite used_cons in Hn, Hcov. cbn [snd] in Hn, Hcov. rewrite Hqf in Hn, Hcov.
  change (used_ids []) with (@nil pystr) in Hn, Hcov. rewrite !app_nil_r in Hn, Hcov.
  split_and!; [done|by unfold f'; rewrite is_obj_set_count, is_obj_set_ids| | | | |by left].
  - apply set_count_counted; [by rewrite is_obj_set_ids|by rewrite ids_set_ids].
  - rewrite Hused', Hids by done. apply NoDup_app. split_and!; [done| |apply NoDup_members].
    intros id HU (p & Hp & Hf & <-)%elem_of_members. apply Hused. specialize (Hcov p Hp HU).
    unfold family_name in Hcov. by rewrite Hf in Hcov.
  - rewrite Hused', Hids by done. intros p Hp [HU|Hin]%elem_of_app; apply elem_of_app.
    + left. by apply Hcov.
    + right. apply elem_of_members in Hin as (q & Hq' & Hf & Heq). apply list_elem_of_singleton.
      assert (q = p) as ->; [|unfold family_name; by rewrite Hf].
      apply elem_of_named in Hp as [Hp _]. apply elem_of_named in Hq' as [Hq' _].
      apply pattern_by_id_of in Hp. apply pattern_by_id_of in Hq'. congruence.
  - rewrite Hused', Hids by done. apply members_known.
Qed.

Lemma attach_all_spec l : forall s s' l' U,
  attach_all st s l = (s', l') -> Forall (fun x => is_obj (snd x) = true) l -> all_counted l ->
  NoDup (U ++ used_ids l) -> families_cover (fst s) (U ++ used_ids l) ->
  Forall (fun id => known st id = true) (used_ids l) ->
  map fst l' = map fst l /\ Forall (fun x => is_obj (snd x) = true) l' /\ all_counted l' /\
  NoDup (U ++ used_ids l') /\ Forall (fun id => known st id = true) (used_ids l') /\
  (forall i, i ∈ snd s' -> i ∈ snd s \/ exists x, x ∈ l' /\ fst x = i /\ quant (snd x) = false).
Proof.
  induction l as [|x l IH]; intros s s' l' U; cbn [attach_all].
  { intros [= <- <-] Ho Hc Hn Hf Hk. split_and!; try done. by left. }
  destruct (attach st s x) as [s1 x'] eqn:Hx. destruct (attach_all st s1 l) as [s2 l2] eqn:Hl.
  intros [= <- <-] [Hox Ho]%Forall_cons [Hcx Hc]%Forall_cons Hn Hf Hk.
  assert (Hsplit : forall y, used_ids (y :: l) = used_ids [y] ++ used_ids l) by (intros y; by rewrite <- used_app).
  assert (Hp : forall y, U ++ used_ids (y :: l) ≡ₚ (U ++ used_ids l) ++ used_ids [y]).
  { intros y. rewrite Hsplit, <- app_assoc. apply Permutation_app_head, Permutation_app_comm. }
  assert (Hp' : forall y, (U ++ used_ids l) ++ used_ids [y] ≡ₚ (U ++ used_ids [y]) ++ used_ids l).
  { intros y. rewrite <- !app_assoc. apply Permutation_app_head, Permutation_app_comm. }
  rewrite Hsplit, Forall_app in Hk. destruct Hk as [Hkx Hk].
  destruct (attach_spec _ _ _ _ (U ++ used_ids l) Hx Hox Hcx) as (H1 & H2 & H3 & H4 & H5 & H6 & H7);
    [by rewrite <- Hp|by eapply families_cover_perm; [apply Hp|]|done|].
  destruct (IH s1 s2 l2 (U ++ used_ids [x']) Hl Ho Hc) as (G1 & G2 & G3 & G4 & G5 & G6);
    [by rewrite <- Hp'|by eapply families_cover_perm; [apply Hp'|]|done|].
  assert (Hsplit2 : used_ids (x' :: l2) = used_ids [x'] ++ used_ids l2) by (by rewrite <- used_app).
  split_and!; [by cbn [map]; rewrite H1, G1|by constructor|by constructor|by rewrite Hsplit2, app_assoc| |].
  - rewrite Hsplit2. by apply Forall_app.
  - intros i [Hi|(y & Hy & Hyi & Hyq)]%G6; [|right; exists y; split_and!; [by apply list_elem_of_further|done|done]].
    destruct H7 as [E|[E Hq]]; rewrite E in Hi; [by left|]. apply elem_of_app in Hi as [?| ->%list_elem_of_singleton]; [by left|].
    right. exists x'. split_and!; [apply list_elem_of_here|done|done].
Qed.

Lemma attach_all_app s l k : attach_all st s (l ++ k) =
  let '(s1, l1) := attach_all st s l in let '(s2, k2) := attach_all st s1 k in (s2, l1 ++ k2).
Proof.
  revert s. induction l as [|x l IH]; intros s; cbn [attach_all app]; [by destruct (attach_all st s k)|].
  destruct (attach st s x) as [s0 x']. rewrite IH. destruct (attach_all st s0 l) as [s1 l1].
  by destruct (attach_all st s1 k).
Qed.

(** Dropping unquantified findings loses no identity. *)
Lemma used_filter (P : tagged -> Prop) `{!forall x, Decision (P x)} l :
  (forall x, x ∈ l -> ~ P x -> quant (snd x) = false) -> used_ids (filter P l) = used_ids l.
Proof.
  induction l as [|x l IH]; intros HP; [done|]. rewrite used_cons.
  assert (IH' : used_ids (filter P l) = used_ids l) by (apply IH; intros y Hy; apply HP; by apply list_elem_of_further).
  destruct (decide (P x)) as [Hx|Hx].
  - rewrite filter_cons_True by done. by rewrite used_cons, IH'.
  - rewrite filter_cons_False by done. rewrite (HP x); [done|apply list_elem_of_here|done].
Qed.

Lemma attach_unquantified_ok d : doc_ok st d -> all_counted (all_of d) ->
  doc_ok st (attach_unquantified st d) /\ all_counted (all_of (attach_unquantified st d)).
Proof.
  intros [Ht Ho Hn Hk] Hc. unfold attach_unquantified.
  set (s0 := (omap (family_by_pattern st) (used_ids (all_of d)), [])).
  destruct (attach_all st s0 (d_key d)) as [s1 k] eqn:H1. destruct (attach_all st s1 (d_secondary d)) as [s2 l] eqn:H2.
  assert (Hrun : attach_all st s0 (all_of d) = (s2, k ++ l)) by (unfold all_of; by rewrite attach_all_app, H1, H2).
  destruct (attach_all_spec _ _ _ _ [] Hrun Ho Hc Hn) as (G1 & G2 & G3 & G4 & G5 & G6); [|done|].
  { intros p Hp Hin. unfold s0. cbn [fst]. apply list_elem_of_omap. exists (p_id p). split; [done|].
    apply elem_of_named in Hp as [Hp Hne]. unfold family_by_pattern. rewrite pattern_by_id_of by done.
    unfold mbind, option_bind. by rewrite decide_False. }
  cbv zeta. set (P := fun x : tagged => fst x ∉ snd s2).
  assert (Hall : forall a b c (e : option (list tagged * list tagged)), all_of (mk_doc a b c e) = a ++ b) by done.
  assert (Hdrop : forall x, x ∈ k ++ l -> ~ (fst x ∉ snd s2) -> quant (snd x) = false).
  { intros [i f] Hx Hi. cbn [fst snd] in *.
    destruct (decide (i ∈ snd s2)) as [Hi'|]; [|done]. destruct (G6 i Hi') as [?%elem_of_nil|([j g] & Hy & Hj & Hq)]; [done|].
    simpl in Hj. subst j. assert (NoDup (map fst (k ++ l))) as Hnd by (by rewrite G1).
    pose proof (find_tag_elem _ _ _ Hnd Hx). pose proof (find_tag_elem _ _ _ Hnd Hy). simpl in Hq. congruence. }
  split; [split|]; rewrite Hall, <- filter_app.
  - eapply sublist_NoDup; [by rewrite <- G1 in Ht; exact Ht|]. apply (fmap_sublist fst), sublist_filter.
  - apply Forall_forall. intros x [_ Hx]%list_elem_of_filter. rewrite Forall_forall in G2. by apply G2.
  - by rewrite used_filter by exact Hdrop.
  - by rewrite used_filter by exact Hdrop.
  - apply Forall_forall. intros x [_ Hx]%list_elem_of_filter. unfold all_counted in G3. rewrite Forall_forall in G3. by apply G3.
Qed.

(** *** Filing the patterns nobody cited *)

(** A document all of whose quantified findings carry their own numbers. *)
Record doc_counted (d : doc) : Prop := { dc_ok : doc_ok st d; dc_counted : all_counted (all_of d) }.

Definition quantified_at (d : doc) (i : nat) : Prop := exists f, (i, f) ∈ all_of d /\ quant f = true.

Lemma family_by_pattern_known id fam : family_by_pattern st id = Some fam -> known st id = true.
Proof. unfold family_by_pattern, known. by destruct (pattern_by_id st id). Qed.

Lemma unquantified_ids f : quant f = false -> ids f = [UNQUANTIFIED].
Proof. unfold quant, ids. intros ->%negb_false_iff%bool_decide_eq_true. done. Qed.

Lemma existing_quantified d fam i : assoc fam (existing_by_family st d) = Some i -> quantified_at d i.
Proof.
  intros Hin%assoc_elem. unfold existing_by_family in Hin.
  assert (Hinner : forall (x : tagged) l m (P : nat -> Prop), (forall id fam, id ∈ l -> family_by_pattern st id = Some fam -> P (fst x)) ->
    (forall k j, (k, j) ∈ m -> P j) -> forall k j, (k, j) ∈ foldl (fun m id =>
      match family_by_pattern st id with Some fam => assoc_set fam (fst x) m | None => m end) m l -> P j).
  { intros x l. induction l as [|id l IH]; intros m P Hl Hm k j; [by apply Hm|]. cbn [foldl]. apply IH.
    - intros id' fam' Hid'. apply Hl. by apply list_elem_of_further.
    - intros k' j'. destruct (family_by_pattern st id) as [fam'|] eqn:E; [|apply Hm].
      intros [->|Hin']%assoc_set_elem; [|by eapply Hm]. eapply Hl; [apply list_elem_of_here|done]. }
  assert (Houter : forall l m, (forall x, x ∈ l -> x ∈ all_of d) -> (forall k j, (k, j) ∈ m -> quantified_at d j) ->
    forall k j, (k, j) ∈ foldl (fun m x => foldl (fun m id =>
      match family_by_pattern st id with Some fam => assoc_set fam (fst x) m | None => m end) m (id_strings (ids_of (snd x)))) m l ->
    quantified_at d j).
  { intros l. induction l as [|x l IH]; intros m Hl Hm; [done|]. cbn [foldl]. apply IH.
    - intros y Hy. apply Hl. by apply list_elem_of_further.
    - apply Hinner; [|done]. intros id fam' Hid Hf. exists (snd x). split; [rewrite <- surjective_pairing; apply Hl, list_elem_of_here|].
      destruct (quant (snd x)) eqn:Hq; [done|]. apply unquantified_ids in Hq. unfold ids in Hq. rewrite Hq in Hid.
      apply list_elem_of_singleton in Hid as ->. apply family_by_pattern_known in Hf. by rewrite unquantified_unknown in Hf. }
  eapply (Houter (all_of d) []); [done| |exact Hin]. by intros k j ?%elem_of_nil.
Qed.

Lemma quantified_at_update d i j g : quantified_at d i -> (forall f, (j, f) ∈ all_of d -> quant (g f) = true) ->
  quantified_at (update_doc j g d) i.
Proof.
  intros (f & Hin & Hq) Hg. unfold quantified_at. rewrite all_of_update. unfold update.
  destruct (Nat.eqb_spec i j) as [->|Hne].
  - exists (g f). split; [|by apply Hg]. apply list_elem_of_fmap. exists (j, f). simpl. by rewrite Nat.eqb_refl.
  - exists f. split; [|done]. apply list_elem_of_fmap. exists (i, f). simpl. split; [|done].
    by destruct (Nat.eqb_spec i j).
Qed.

Lemma fresh_spec d : fresh d ∉ map fst (all_of d).
Proof.
  assert (Hmax : forall l n, n ∈ l -> (n <= foldr Nat.max 0 l)).
  { induction l as [|m l IH]; intros n; [by intros ?%elem_of_nil|]. intros [->|Hn]%elem_of_cons; simpl; [lia|].
    apply IH in Hn. lia. }
  intros Hin. unfold fresh in Hin. specialize (Hmax (map fst (all_of d ++ d_gone d)) (fresh d)).
  rewrite map_app in Hmax. unfold fresh in Hmax at 1. rewrite map_app in Hmax, Hin.
  pose proof (Hmax ltac:(apply elem_of_app; by left)) as Hle. unfold fresh in Hle. rewrite map_app in Hle. lia.
Qed.

Lemma used_cons_quant i f l : quant f = true -> used_ids ((i, f) :: l) = ids f ++ used_ids l.
Proof. intros Hq. rewrite used_cons. cbn [snd]. by rewrite Hq. Qed.

Lemma patterns_known ps : (forall p, p ∈ ps -> p ∈ st_patterns st) -> Forall (fun id => known st id = true) (map p_id ps).
Proof. intros Hps. apply Forall_forall. intros id (p & -> & Hp)%list_elem_of_fmap. by apply known_pattern, Hps. Qed.

(** One omitted family. *)
Lemma file_family_ok existing d fam items :
  doc_counted d -> (forall k i, assoc k existing = Some i -> quantified_at d i) ->
  (forall p, p ∈ items -> p ∈ st_patterns st) -> NoDup (used_ids (all_of d) ++ map p_id items) ->
  let d' := file_pattern_family st existing d (fam, items) in
  doc_counted d' /\ (forall k i, assoc k existing = Some i -> quantified_at d' i) /\
  used_ids (all_of d') ≡ₚ used_ids (all_of d) ++ map p_id items.
Proof.
  intros [[Ht Ho Hn Hk] Hc] Hex Hit Hnd. unfold file_pattern_family. pose proof (patterns_known items Hit) as Hki.
  destruct (assoc fam existing) as [i|] eqn:Ha; cbv zeta.
  - set (g := fun f => set_count st (id_sum st (fromkeys (id_strings (ids_of f) ++ map p_id items)))
      (set_ids (fromkeys (id_strings (ids_of f) ++ map p_id items)) f)).
    destruct (Hex fam i Ha) as (f & Hin & Hq).
    destruct (update_split i g (all_of d) f Ht Hin) as (l0 & Hl & Hi0 & Hl').
    assert (Hof : is_obj f = true) by (rewrite Forall_forall in Ho; by apply Ho in Hin).
    rewrite Hl, used_cons_quant in Hn, Hnd, Hk by done. rewrite <- app_assoc in Hnd.
    apply Forall_app in Hk as [Hkf Hk0].
    assert (Hnew : fromkeys (id_strings (ids_of f) ++ map p_id items) = ids f ++ map p_id items).
    { apply fromkeys_NoDup. rewrite (Permutation_app_comm (used_ids l0)), app_assoc in Hnd. by apply NoDup_app in Hnd as [? _]. }
    assert (Hk' : Forall (fun id => known st id = true) (ids f ++ map p_id items)) by (by apply Forall_app).
    assert (Hids : ids (g f) = ids f ++ map p_id items).
    { unfold g, ids at 1. rewrite ids_of_set_count, Hnew. by apply ids_set_ids. }
    assert (Hqg : quant (g f) = true).
    { unfold g, quant. rewrite ids_of_set_count, Hnew. by apply quant_set_ids. }
    assert (Hu : used_ids (update i g (all_of d)) ≡ₚ used_ids (all_of d) ++ map p_id items).
    { rewrite Hl', Hl, !used_cons_quant, Hids by done. rewrite <- !app_assoc. apply Permutation_app_head, Permutation_app_comm. }
    split_and!; [split; [split|]| |]; rewrite ?all_of_update.
    + by rewrite update_fst.
    + apply update_obj; [|done]. intros h Hh. unfold g. by rewrite is_obj_set_count, is_obj_set_ids.
    + rewrite Hu, Hl, used_cons_quant by done. by rewrite <- app_assoc.
    + rewrite Hu, Hl, used_cons_quant by done. rewrite <- app_assoc. by repeat apply Forall_app_2.
    + unfold all_counted. rewrite Hl'. unfold all_counted in Hc. rewrite Hl in Hc. apply Forall_cons in Hc as [_ Hc].
      constructor; [|done]. apply set_count_counted; [by rewrite is_obj_set_ids|]. by rewrite ids_set_ids.
    + intros k j Hj. apply quantified_at_update; [by eapply Hex|]. intros f' Hf'.
      assert (f' = f) as -> by (pose proof (find_tag_elem _ _ _ Ht Hin); pose proof (find_tag_elem _ _ _ Ht Hf'); congruence). done.
    + done.
  - set (f := unlabeled_finding st fam items).
    assert (Hids : ids_of f = json_strs (map p_id items)) by done.
    assert (Hq : quant f = true) by (unfold quant; rewrite Hids; by rewrite quant_strs).
    assert (Hif : ids f = map p_id items) by (unfold ids; rewrite Hids; apply id_strings_strs).
    assert (Hall : all_of (with_groups (d_key d) (d_secondary d ++ [(fresh d, f)]) d) ≡ₚ (fresh d, f) :: all_of d).
    { unfold all_of, with_groups. cbn [d_key d_secondary]. rewrite app_assoc. symmetry. apply Permutation_cons_append. }
    assert (Hu : used_ids ((fresh d, f) :: all_of d) ≡ₚ used_ids (all_of d) ++ map p_id items).
    { rewrite used_cons_quant, Hif by done. apply Permutation_app_comm. }
    split_and!; [split; [split|]| |]; unfold all_counted, quantified_at.
    + rewrite Hall. cbn [map fst]. constructor; [apply fresh_spec|done].
    + rewrite Hall. by constructor.
    + by rewrite Hall, Hu.
    + rewrite Hall, Hu. by apply Forall_app.
    + rewrite Hall. constructor; [|done]. cbn [snd]. intros _. rewrite Hif, id_sum_patterns by done. done.
    + intros k j (h & Hh & Hqh)%Hex. exists h. split; [|done]. rewrite Hall. by apply list_elem_of_further.
    + by rewrite Hall.
Qed.

Lemma file_families_ok existing gs : forall d,
  doc_counted d -> (forall k i, assoc k existing = Some i -> quantified_at d i) ->
  (forall p, p ∈ mjoin (map snd gs) -> p ∈ st_patterns st) ->
  NoDup (used_ids (all_of d) ++ map p_id (mjoin (map snd gs))) ->
  let d' := foldl (file_pattern_family st existing) d gs in
  doc_counted d' /\ used_ids (all_of d') ≡ₚ used_ids (all_of d) ++ map p_id (mjoin (map snd gs)).
Proof.
  induction gs as [|[fam items] gs IH]; intros d Hd Hex Hps Hn; cbn [foldl map].
  { split; [done|]. by rewrite app_nil_r. }
  change (mjoin (snd (fam, items) :: map snd gs)) with (items ++ mjoin (map snd gs)) in *.
  change (mjoin (map snd ((fam, items) :: gs))) with (items ++ mjoin (map snd gs)) in *.
  rewrite map_app in Hn |- *. rewrite app_assoc in Hn.
  destruct (file_family_ok existing d fam items Hd Hex) as (H1 & H2 & H3);
    [intros p Hp; apply Hps, elem_of_app; by left|by apply NoDup_app in Hn as [? _]|].
  destruct (IH (file_pattern_family st existing d (fam, items)) H1 H2) as (G1 & G2).
  - intros p Hp. apply Hps, elem_of_app. by right.
  - by rewrite H3.
  - split; [done|]. by rewrite G2, H3, app_assoc.
Qed.

(** Every pattern of the manifest, the catch-all apart, is in use. *)
Definition covered (d : doc) : Prop := forall p, p ∈ named_patterns st -> p_id p ∈ used_ids (all_of d).

Lemma file_omitted_ok d : doc_ok st d -> all_counted (all_of d) ->
  doc_counted (file_omitted st d) /\ covered (file_omitted st d).
Proof.
  intros Hd Hc. unfold file_omitted. set (om := omitted_patterns st d).
  pose proof (grouped_perm _ _ _ (group_by_spec family_name om)) as Hp.
  assert (Hom : forall p, p ∈ om <-> p ∈ named_patterns st /\ p_id p ∉ used_ids (all_of d)).
  { intros p. unfold om, omitted_patterns. rewrite list_elem_of_filter. tauto. }
  destruct (file_families_ok (existing_by_family st d) (group_by family_name om) d) as [H1 H2]; [done| | | |].
  - intros k i. apply existing_quantified.
  - intros p Hin. rewrite Hp in Hin. apply Hom in Hin as [Hin%elem_of_named _]. apply Hin.
  - rewrite Hp. apply NoDup_app. split_and!; [apply Hd| |].
    + intros id Hid (p & -> & [_ Hno]%Hom)%list_elem_of_fmap. done.
    + eapply sublist_NoDup; [apply NoDup_named|]. apply (fmap_sublist p_id), sublist_filter.
  - split; [done|]. intros p Hpn. rewrite H2, Hp, elem_of_app.
    destruct (decide (p_id p ∈ used_ids (all_of d))) as [?|Hno]; [by left|]. right.
    apply list_elem_of_fmap. exists p. split; [done|]. by apply Hom.
Qed.

(** A covered document keeps its findings when one of them is promoted. *)
Lemma promote_ok d : covered d -> all_of (promote st d) = all_of d.
Proof.
  intros Hc. unfold promote. destruct (d_key d) as [|x k] eqn:Hk; [|done].
  destruct (d_secondary d) as [|x s] eqn:Hs.
  - destruct (named_patterns st) as [|p ps] eqn:Hp; [done|]. exfalso.
    assert (Hin : p_id p ∈ used_ids (all_of d)) by (apply Hc; rewrite Hp; apply list_elem_of_here).
    unfold all_of in Hin. rewrite Hk, Hs in Hin. by apply elem_of_nil in Hin.
  - unfold all_of, with_groups. by rewrite Hk, Hs.
Qed.

Lemma settle_doc_ok allow d : doc_ok st d ->
  doc_counted (settle_doc st allow d) /\ covered (settle_doc st allow d) /\
  (allow = true -> named_patterns st <> [] -> d_key (settle_doc st allow d) <> []).
Proof.
  intros Hd. unfold settle_doc. apply merge_families_ok in Hd as [Hd _].
  assert (Hd2 : doc_ok st (if allow then merge_duplicates (merge_families st d) else merge_families st d))
    by (destruct allow; [by apply merge_duplicates_ok|done]).
  apply recount_ok in Hd2 as [Hd2 Hc2]. set (d2 := recount st _) in *. cbv zeta.
  assert (Hd3 : doc_ok st (if allow then attach_unquantified st d2 else d2) /\
                all_counted (all_of (if allow then attach_unquantified st d2 else d2)))
    by (destruct allow; [by apply attach_unquantified_ok|done]).
  destruct Hd3 as [Hd3 Hc3]. destruct (file_omitted_ok _ Hd3 Hc3) as [Hd4 Hc4].
  set (d4 := file_omitted st _) in *. destruct allow; [|split_and!; done].
  pose proof (promote_ok d4 Hc4) as Hp. split_and!.
  - destruct Hd4 as [[] ?]. split; [split|]; by rewrite Hp.
  - intros p Hin. rewrite Hp. by apply Hc4.
  - intros _ Hn. unfold promote. destruct (d_key d4) as [|x k] eqn:Hk; [|by rewrite Hk].
    destruct (d_secondary d4); [|done]. destruct (named_patterns st); done.
Qed.

(** *** The returned document *)

Lemma close_doc_groups o d : is_obj o = true ->
  findings_of (u "key_finds") (close_doc st o d) = map snd (d_key d) /\
  findings_of (u "secondary_finds") (close_doc st o d) = map snd (d_secondary d) /\
  jget (u "total_entries") (close_doc st o d) = Some (JInt (st_total st)).
Proof.
  intros Ho. unfold close_doc, findings_of, put_groups. destruct (d_original d) as [[]|].
  - rewrite jget_jset_eq by done. rewrite !jget_jset_ne by key_ne. split_and!; done.
  - repeat first [rewrite jget_jset_eq by (by rewrite ?is_obj_jset) | rewrite jget_jset_ne by key_ne]. done.
Qed.

Lemma reconcile_pattern_run allow o out arg :
  cites_entries o = Ok false -> reconcile_result st allow o = (Ok out, arg) ->
  exists o1, check_ids st allow o = (Ok tt, o1) /\ out = close_doc st o1 (settle_doc st allow (open_doc o1)).
Proof.
  intros Hc. unfold reconcile_result. rewrite Hc. destruct (check_ids st allow o) as [[[]|e] o1]; [|done].
  destruct (iterable_ids _); [|done]. intros [= <- _]. by exists o1.
Qed.

Definition pattern_used (o : json) : list pystr := used_ids (tag_all (all_findings o)).

(** C38. An answer that cites pattern identities is made to account for the
    manifest exactly once, strictly or in fallback mode, whatever families
    and duplicates had to be merged: every pattern of the manifest but the
    catch-all is held by a finding, no pattern is held twice and none is
    unknown, the count and the percentage of every quantified finding are
    those of its patterns, and in fallback mode a manifest with a pattern
    leaves a key finding. *)
Theorem reconcile_accounts_for_patterns allow o out arg :
  cites_entries o = Ok false -> reconcile_result st allow o = (Ok out, arg) ->
  (forall p, p ∈ st_patterns st -> p_id p <> OTHER -> p_id p ∈ pattern_used out) /\
  NoDup (pattern_used out) /\ (forall id, id ∈ pattern_used out -> id ∈ map p_id (st_patterns st)) /\
  Forall (counted st) (all_findings out) /\
  jget (u "total_entries") out = Some (JInt (st_total st)) /\
  (allow = true -> named_patterns st <> [] -> findings_of (u "key_finds") out <> []).
Proof.
  intros Hcite Hrun. destruct (reconcile_pattern_run _ _ _ _ Hcite Hrun) as (o1 & Hcheck & ->).
  apply open_doc_ok in Hcheck as [Hd Ho]. destruct (settle_doc_ok allow _ Hd) as ([[Ht Hobj Hn Hk] Hc] & Hcov & Hkey).
  set (d := settle_doc st allow _) in *. destruct (close_doc_groups o1 d Ho) as (Hg1 & Hg2 & Htot).
  assert (Hall : all_findings (close_doc st o1 d) = map snd (all_of d)).
  { unfold all_findings, all_of. by rewrite Hg1, Hg2, map_app. }
  assert (Hu : pattern_used (close_doc st o1 d) = used_ids (all_of d)).
  { unfold pattern_used. apply used_ids_tags. by rewrite tag_all_snd, Hall. }
  rewrite Hu, Hall, Hg1. split_and!; [| done| | |done|].
  - intros p Hp Hne. apply Hcov. by apply elem_of_named.
  - intros id Hid. apply known_elem. rewrite Forall_forall in Hk. by apply Hk.
  - apply Forall_map. exact Hc.
  - intros Ha Hne Hnil. apply (Hkey Ha Hne). by destruct (d_key d).
Qed.
End pattern_theorems.

(** ** Witnesses *)

(** Two templates of one cause family, and an unrelated line. *)
Definition split_log : pystr :=
  u "2024-01-02T03:04:05Z ERROR Elasticsearch timeout after 30 s" ++ nl ++
  u "2024-01-02T03:04:07Z ERROR Elasticsearch read timeout" ++ nl ++
  u "2024-01-02T03:04:09Z WARN login refused trace_id=ab" ++ nl.
Definition split_stats : statistics :=
  match @preprocess_log cjk_unicode no_text 80 40 split_log with Ok st => st | Raise _ => no_statistics end.

Lemma split_stats_run : @preprocess_log cjk_unicode no_text 80 40 split_log = Ok split_stats.
Proof. vm_compute. reflexivity. Qed.

Lemma split_stats_ok : statistics_ok split_stats.
Proof. exact (proj1 (preprocess_statistics_ok 80 40 split_log split_stats split_stats_run)). Qed.

Definition split_id (i : nat) : pystr := default [] (p_id <$> (st_patterns split_stats !! i)).
Definition split_finding (id : pystr) (ids : list pystr) : json := JObj [
  (u "id", JStr id); (u "count", JNull); (u "percentage", JNull); (u "pattern_ids", json_strs ids)].

(** The model made two findings of one cause, and left out the last line. *)
Definition split_answer : json := JObj [
  (u "key_finds", JList [split_finding (u "f1") [split_id 0]]);
  (u "secondary_finds", JList [split_finding (u "f2") [split_id 1]])].
Definition split_reconciled (allow : bool) (o : json) : result pyexn json * json :=
  @reconcile_result cjk_unicode no_text split_stats allow o.
Definition split_out : json := match fst (split_reconciled false split_answer) with Ok o => o | Raise _ => JNull end.

Lemma split_run : split_reconciled false split_answer = (Ok split_out, snd (split_reconciled false split_answer)).
Proof. vm_compute. reflexivity. Qed.

Lemma reconcile_patterns_witness :
  (forall p, p ∈ st_patterns split_stats -> p_id p <> OTHER -> p_id p ∈ pattern_used split_out) /\
  Forall (counted split_stats) (all_findings split_out) /\ length (all_findings split_out) = 2.
Proof.
  destruct (@reconcile_accounts_for_patterns cjk_unicode no_text split_stats split_stats_ok false split_answer split_out
    (snd (split_reconciled false split_answer))) as (H1 & _ & _ & H2 & _).
  - vm_compute. reflexivity.
  - exact split_run.
  - split; [exact H1|]. split; [exact H2|]. vm_compute. reflexivity.
Defined.

(** The strict pass that merged the two findings wrote the merged identities
    into the caller's finding and left the other one in the caller's list:
    when validation then rejects the answer, the fallback pass over the same
    answer, which is there to merge such findings, rejects it. *)
Example fallback_after_merge_fails :
  fst (split_reconciled true split_answer) <> Raise (value_error (u "deterministic pattern assigned more than once: " ++ split_id 1)) /\
  fst (split_reconciled true (snd (split_reconciled false split_answer))) =
    Raise (value_error (u "deterministic pattern assigned more than once: " ++ split_id 1)).
Proof. split; [vm_compute; discriminate|vm_compute; reflexivity]. Qed.

(** A finding that mixes a known identity with the word the prompt asks for
    raises [KeyError], which the repair loop of the worker does not catch. *)
Example mixed_identities_escape :
  fst (split_reconciled false (JObj [(u "key_finds", JList [split_finding (u "f1") [split_id 0; UNQUANTIFIED]])])) =
    Raise (key_error UNQUANTIFIED).
Proof. vm_compute. reflexivity. Qed.
