(* ===== verification/Families.v ===== *)
(** * The union-find that merges findings of one cause family

    [sandbox/preprocessing.py: reconcile_result, find and union].  The loop of
    [find] halves paths while it climbs, so it terminates because the forest
    is ranked and agrees with a plain climb to the root; [union] merges two
    classes and no others; and the components the findings are grouped into
    are the connected components of the relation "names a common family",
    whatever order the families of a finding are visited in. *)

From stdpp Require Import relations.
From S2P Require Import Prelude PyStr Json PyColl PyVal Preprocess Reconcile PatternReconcile.

(** ** Forests *)

(** [r] is the root above [i]. *)
Inductive rooted (p : forest) : nat -> nat -> Prop :=
| rooted_here i : parent p i = i -> rooted p i i
| rooted_up i r : parent p i <> i -> rooted p (parent p i) r -> rooted p i r.

(** A rank that grows along every edge, with distinct values below [n]. *)
Record forest_ok (n : nat) (p : forest) (rank : nat -> nat) : Prop := {
  fo_length : length p = n;
  fo_parent : forall i, i < n -> parent p i < n;
  fo_rank : forall i, i < n -> parent p i <> i -> rank i < rank (parent p i);
  fo_bound : forall i, i < n -> rank i < n;
  fo_inj : forall i j, i < n -> j < n -> rank i = rank j -> i = j;
}.

Definition same (p : forest) (i j : nat) : Prop := exists r, rooted p i r /\ rooted p j r.

Section forest.
Context (n : nat).

Lemma parent_insert p i v j : length p = n -> i < n -> parent (<[i := v]> p) j = if decide (j = i) then v else parent p j.
Proof.
  intros Hl Hi. unfold parent. rewrite !nth_lookup. case_decide as E.
  - subst. by rewrite list_lookup_insert_eq by lia.
  - by rewrite list_lookup_insert_ne by done.
Qed.

Lemma rooted_det p i r r' : rooted p i r -> rooted p i r' -> r = r'.
Proof.
  intros H1. induction H1 as [i Hi|i r Hi _ IH]; intros H2; inversion H2; subst; try done. by apply IH.
Qed.

Lemma rooted_parent p i r : rooted p i r <-> rooted p (parent p i) r.
Proof.
  destruct (decide (parent p i = i)) as [E|E]; [by rewrite E|]. split; [|by apply rooted_up].
  inversion 1; subst; done.
Qed.

Lemma rooted_root p i r : rooted p i r -> parent p r = r.
Proof. by induction 1. Qed.

Section ok.
Context (p : forest) (rank : nat -> nat) (Hok : forest_ok n p rank).

Lemma rooted_lt i r : rooted p i r -> i < n -> r < n.
Proof. induction 1 as [|i r _ _ IH]; [done|]. intros Hi. apply IH. by apply (fo_parent _ _ _ Hok). Qed.

Lemma rooted_ex i : i < n -> exists r, rooted p i r.
Proof.
  remember (n - rank i) as m eqn:Hm. revert i Hm. induction m as [m IH] using lt_wf_ind. intros i -> Hi.
  destruct (decide (parent p i = i)) as [E|E]; [exists i; by constructor|].
  pose proof (fo_rank _ _ _ Hok i Hi E). pose proof (fo_parent _ _ _ Hok i Hi) as Hp.
  pose proof (fo_bound _ _ _ Hok _ Hp).
  destruct (IH (n - rank (parent p i)) ltac:(lia) (parent p i)) as [r Hr]; [done..|]. exists r. by constructor.
Qed.

Lemma same_refl i : i < n -> same p i i.
Proof. intros Hi. destruct (rooted_ex i Hi) as [r Hr]. by exists r. Qed.

(** Halving the path above [i]. *)
Lemma halve_ok i : i < n -> parent p i <> i -> forest_ok n (<[i := parent p (parent p i)]> p) rank.
Proof.
  intros Hi Hne. pose proof (fo_parent _ _ _ Hok) as Hpar. pose proof (fo_length _ _ _ Hok) as Hl.
  split; [by etransitivity; [apply length_insert|]| | |apply (fo_bound _ _ _ Hok)|apply (fo_inj _ _ _ Hok)].
  - intros j Hj. rewrite parent_insert by done. case_decide; auto.
  - intros j Hj. rewrite parent_insert by done. case_decide as E; [|by apply (fo_rank _ _ _ Hok)]. subst j. intros _.
    pose proof (fo_rank _ _ _ Hok i Hi Hne). destruct (decide (parent p (parent p i) = parent p i)) as [E'|E'].
    + by rewrite E'.
    + pose proof (fo_rank _ _ _ Hok (parent p i) (Hpar i Hi) E'). lia.
Qed.

Lemma halve_rooted i j r : i < n -> parent p i <> i -> j < n -> rooted p j r ->
  rooted (<[i := parent p (parent p i)]> p) j r.
Proof.
  intros Hi Hne. pose proof (halve_ok i Hi Hne) as Hok'. pose proof (fo_length _ _ _ Hok) as Hl.
  remember (n - rank j) as m eqn:Hm. revert j Hm. induction m as [m IH] using lt_wf_ind. intros j -> Hj Hr.
  pose proof (fo_parent _ _ _ Hok' j Hj) as Hp'. pose proof (fo_bound _ _ _ Hok' _ Hp').
  assert (Hup : rooted p (parent (<[i := parent p (parent p i)]> p) j) r).
  { rewrite parent_insert by done. case_decide as E; [subst j|]; by repeat apply (proj1 (rooted_parent _ _ _)). }
  destruct (decide (parent (<[i := parent p (parent p i)]> p) j = j)) as [E|E].
  - assert (Hpj : parent p j = j).
    { revert E. rewrite parent_insert by done. case_decide as Eij; [|done]. subst j. intros E. exfalso.
      pose proof (fo_rank _ _ _ Hok i Hi Hne). destruct (decide (parent p (parent p i) = parent p i)) as [E'|E']; [congruence|].
      pose proof (fo_rank _ _ _ Hok (parent p i) (fo_parent _ _ _ Hok i Hi) E'). rewrite E in H1. lia. }
    rewrite (rooted_det _ _ _ _ Hr (rooted_here _ _ Hpj)). by constructor.
  - apply rooted_up; [done|]. pose proof (fo_rank _ _ _ Hok' j Hj E). eapply IH; [|done|done|done]. lia.
Qed.
End ok.

(** *** [find] *)

Lemma find_spec fuel : forall p rank i, forest_ok n p rank -> i < n -> n - rank i <= fuel ->
  rooted p i (fst (find fuel p i)) /\ forest_ok n (snd (find fuel p i)) rank /\
  (forall j r, j < n -> rooted p j r -> rooted (snd (find fuel p i)) j r) /\
  forall fuel', fuel <= fuel' -> find fuel' p i = find fuel p i.
Proof.
  induction fuel as [|fuel IH]; intros p rank i Hok Hi Hf; [pose proof (fo_bound _ _ _ Hok i Hi); lia|].
  assert (Heq : forall k, find (S k) p i = if Nat.eqb (parent p i) i then (i, p)
    else find k (<[i := parent p (parent p i)]> p) (parent p (parent p i))) by done.
  rewrite Heq. destruct (Nat.eqb_spec (parent p i) i) as [E|E].
  - split_and!; [by constructor|done|done|]. intros [|k] Hk; [lia|]. rewrite Heq. by destruct (Nat.eqb_spec (parent p i) i).
  - pose proof (fo_parent _ _ _ Hok) as Hpar. pose proof (fo_rank _ _ _ Hok i Hi E) as Hr.
    assert (Hr2 : rank (parent p i) <= rank (parent p (parent p i))).
    { destruct (decide (parent p (parent p i) = parent p i)) as [->|E']; [done|].
      apply Nat.lt_le_incl, (fo_rank _ _ _ Hok); auto. }
    pose proof (halve_ok p rank Hok i Hi E) as Hok'.
    destruct (IH _ rank (parent p (parent p i)) Hok') as (H1 & H2 & H3 & H4); [auto|lia|].
    split_and!; [|done| |].
    + apply rooted_parent, rooted_parent. destruct (rooted_ex p rank Hok (parent p (parent p i))) as [r Hroot]; [auto|].
      pose proof (halve_rooted p rank Hok i _ r Hi E (Hpar _ (Hpar _ Hi)) Hroot) as Hroot'.
      by rewrite (rooted_det _ _ _ _ H1 Hroot').
    + intros j r Hj Hjr. apply H3; [done|]. by eapply halve_rooted.
    + intros [|k] Hk; [lia|]. rewrite Heq. destruct (Nat.eqb_spec (parent p i) i); [done|]. apply H4. lia.
Qed.

(** [S n] steps are enough. *)
Lemma find_enough p rank i : forest_ok n p rank -> i < n ->
  rooted p i (fst (find (S n) p i)) /\ forest_ok n (snd (find (S n) p i)) rank /\
  (forall j r, j < n -> rooted p j r -> rooted (snd (find (S n) p i)) j r) /\
  forall fuel', n < fuel' -> find fuel' p i = find (S n) p i.
Proof. intros Hok Hi. apply (find_spec (S n) p rank i Hok Hi). lia. Qed.

(** *** [union] *)

(** Moving the rank of [l] to the top. *)
Definition raise (rank : nat -> nat) (l i : nat) : nat :=
  if decide (i = l) then n - 1 else if decide (rank l < rank i) then rank i - 1 else rank i.

Lemma link_ok p rank l r : forest_ok n p rank -> l < n -> r < n -> l <> r -> parent p l = l -> parent p r = r ->
  forest_ok n (<[r := l]> p) (raise rank l).
Proof.
  intros Hok Hl Hr Hne Hpl Hpr. pose proof (fo_length _ _ _ Hok) as Hlen.
  pose proof (fo_bound _ _ _ Hok) as Hb. pose proof (fo_inj _ _ _ Hok) as Hinj.
  assert (Hneq : forall i, i < n -> i <> l -> rank i <> rank l) by (intros i Hi Hil Heq; by apply Hil, Hinj).
  split.
  - by etransitivity; [apply length_insert|].
  - intros i Hi. rewrite parent_insert by done. case_decide; [done|]. by apply (fo_parent _ _ _ Hok).
  - intros i Hi. rewrite parent_insert by done. unfold raise. case_decide as E.
    + intros _. subst i. rewrite (decide_False (P := r = l)), (decide_True (P := l = l)) by done.
      pose proof (Hb r Hr). pose proof (Hb l Hl). pose proof (Hneq r Hr ltac:(done)). case_decide; lia.
    + intros Hpi. pose proof (fo_rank _ _ _ Hok i Hi Hpi) as Hrk. pose proof (fo_parent _ _ _ Hok i Hi) as Hpn.
      assert (Hil : i <> l) by congruence. pose proof (Hneq i Hi Hil). pose proof (Hb _ Hpn). pose proof (Hb l Hl).
      rewrite (decide_False (P := i = l)) by done. destruct (decide (parent p i = l)) as [Epl|Epl].
      * rewrite Epl in *. rewrite decide_False by lia. lia.
      * repeat case_decide; lia.
  - intros i Hi. unfold raise. pose proof (Hb i Hi). repeat case_decide; lia.
  - intros i j Hi Hj. unfold raise. pose proof (Hb i Hi). pose proof (Hb j Hj). pose proof (Hb l Hl).
    pose proof (Hneq i Hi). pose proof (Hneq j Hj). pose proof (Hinj i j Hi Hj).
    repeat case_decide; subst; intros; try done; try (exfalso; lia).
    all: apply H4; try done; specialize (H2 ltac:(done)); specialize (H3 ltac:(done)); lia.
Qed.

Lemma link_rooted p rank l r j s : forest_ok n p rank -> l < n -> r < n -> l <> r -> parent p l = l -> parent p r = r ->
  j < n -> rooted p j s -> rooted (<[r := l]> p) j (if decide (s = r) then l else s).
Proof.
  intros Hok Hl Hr Hne Hpl Hpr Hj Hroot. pose proof (fo_length _ _ _ Hok) as Hlen.
  assert (Hll : rooted (<[r := l]> p) l l) by (constructor; rewrite parent_insert by done; by rewrite decide_False).
  induction Hroot as [i Hi|i s Hi Hs IH].
  - case_decide as E.
    + subst i. apply rooted_up; rewrite parent_insert, decide_True by done; done.
    + constructor. rewrite parent_insert by done. by rewrite decide_False.
  - assert (i <> r) by congruence. apply rooted_up; rewrite parent_insert, decide_False by done; [done|].
    apply IH. by apply (fo_parent _ _ _ Hok).
Qed.

Lemma union_spec p rank a b : forest_ok n p rank -> a < n -> b < n ->
  exists rank', forest_ok n (union (S n) p a b) rank' /\
    forall i j, i < n -> j < n -> (same (union (S n) p a b) i j <->
      same p i j \/ (same p i a /\ same p j b) \/ (same p i b /\ same p j a)).
Proof.
  intros Hok Ha Hb. unfold union. destruct (find_enough p rank a Hok Ha) as (Hra & Hok1 & Hp1 & _).
  destruct (find (S n) p a) as [ra p1]. cbn [fst snd] in *.
  destruct (find_enough p1 rank b Hok1 Hb) as (Hrb & Hok2 & Hp2 & _).
  destruct (find (S n) p1 b) as [rb p2]. cbn [fst snd] in *.
  destruct (rooted_ex p rank Hok b Hb) as [rb' Hrb'].
  assert (rb' = rb) as -> by (eapply rooted_det; [by apply Hp1|done]).
  assert (Hp : forall j r, j < n -> rooted p j r -> rooted p2 j r) by auto.
  assert (Hsame : forall q, (forall j r, j < n -> rooted p j r -> rooted q j (if decide (r = rb) then ra else r)) ->
    forall i j, i < n -> j < n -> (same q i j <-> same p i j \/ (same p i a /\ same p j b) \/ (same p i b /\ same p j a))).
  { intros q Hq i j Hi Hj. destruct (rooted_ex p rank Hok i Hi) as [ri Hri]. destruct (rooted_ex p rank Hok j Hj) as [rj Hrj].
    assert (Hs : forall x y rx ry, rooted p x rx -> rooted p y ry -> same p x y <-> rx = ry).
    { intros x y rx ry Hx Hy. split; [|intros ->; by exists ry]. intros (r & H1 & H2).
      pose proof (rooted_det _ _ _ _ Hx H1). pose proof (rooted_det _ _ _ _ Hy H2). congruence. }
    assert (Hsq : same q i j <-> (if decide (ri = rb) then ra else ri) = (if decide (rj = rb) then ra else rj)).
    { split; [|intros E; eexists; split; [by apply Hq|rewrite E; by apply Hq]]. intros (r & H1 & H2).
      rewrite <- (rooted_det _ _ _ _ H1 (Hq i ri Hi Hri)). by rewrite <- (rooted_det _ _ _ _ H2 (Hq j rj Hj Hrj)). }
    rewrite Hsq, (Hs i j ri rj), (Hs i a ri ra), (Hs j b rj rb), (Hs i b ri rb), (Hs j a rj ra) by done.
    repeat case_decide; subst; intuition congruence. }
  destruct (Nat.eqb_spec ra rb) as [E|E].
  - subst. exists rank. split; [done|]. apply Hsame. intros j r Hj Hr. case_decide; subst; auto.
  - pose proof (rooted_lt p rank Hok a ra Hra Ha). pose proof (rooted_lt p rank Hok b rb Hrb' Hb).
    pose proof (rooted_root _ _ _ (Hp _ _ Ha Hra)). pose proof (rooted_root _ _ _ (Hp _ _ Hb Hrb')).
    exists (raise rank ra). split; [by apply link_ok|]. apply Hsame. intros j r Hj Hr.
    apply (link_rooted p2 rank); auto.
Qed.

(** The fresh forest: every index is its own root. *)
Lemma fresh_parent i : parent (seq 0 n) i = i.
Proof.
  unfold parent. rewrite nth_lookup. destruct (seq 0 n !! i) as [x|] eqn:E; [|done]. simpl.
  by apply lookup_seq in E as [-> _].
Qed.

Lemma fresh_forest_ok : forest_ok n (seq 0 n) (fun i => i).
Proof. split; try done; [by rewrite length_seq|intros i; by rewrite fresh_parent|intros i _ []; apply fresh_parent]. Qed.

Lemma fresh_same i j : same (seq 0 n) i j -> i = j.
Proof.
  intros (r & H1 & H2). rewrite (rooted_det _ _ _ _ H1 (rooted_here _ _ (fresh_parent i))) in H2.
  by rewrite (rooted_det _ _ _ _ H2 (rooted_here _ _ (fresh_parent j))).
Qed.
End forest.

(** [find] terminates: in every forest that unions of positions below
    [n] build, [n + 1] rounds reach a root, more rounds change nothing, and
    halving the path leaves the root of every position where it was. *)
Theorem find_terminates n abs i :
  Forall (fun ab => fst ab < n /\ snd ab < n) abs -> i < n ->
  let p := foldl (fun p ab => union (S n) p (fst ab) (snd ab)) (seq 0 n) abs in
  let '(r, p') := find (S n) p i in
  r < n /\ parent p r = r /\ parent p' r = r /\ (forall fuel, n < fuel -> find fuel p i = (r, p')) /\
  (forall j s, j < n -> rooted p j s <-> rooted p' j s).
Proof.
  intros Habs Hi. cbv zeta.
  assert (Hok : exists rank, forest_ok n (foldl (fun p ab => union (S n) p (fst ab) (snd ab)) (seq 0 n) abs) rank).
  { pose proof (fresh_forest_ok n) as H0. revert H0. generalize (fun i : nat => i). generalize (seq 0 n).
    induction Habs as [|[a b] abs [Ha Hb] _ IH]; intros p rank Hok; [by exists rank|]. cbn [foldl].
    destruct (union_spec n p rank a b Hok Ha Hb) as (rank' & Hok' & _). by eapply IH. }
  destruct Hok as [rank Hok]. set (p := foldl _ _ _) in *.
  destruct (find_enough n p rank i Hok Hi) as (H1 & H2 & H3 & H4). destruct (find (S n) p i) as [r p']. cbn [fst snd] in *.
  split_and!; [exact (rooted_lt n p rank Hok i r H1 Hi)|exact (rooted_root p i r H1)|exact (rooted_root p' i r (H3 i r Hi H1))|done|].
  intros j s Hj. split; [by apply H3|]. intros Hs. destruct (rooted_ex n p rank Hok j Hj) as [s' Hs'].
  by rewrite (rooted_det _ _ _ _ Hs (H3 _ _ Hj Hs')).
Qed.

(** ** Findings that share a family *)

Section joining.
Context (st : statistics) (n : nat).

(** Positions that name a common family, among the incidences seen so far. *)
Definition linked (inc : list (nat * pystr)) (i j : nat) : Prop := exists fam, (i, fam) ∈ inc /\ (j, fam) ∈ inc.

Record joining (inc : list (nat * pystr)) (x : forest * list (pystr * nat)) : Prop := {
  jn_forest : exists rank, forest_ok n (fst x) rank;
  jn_inc : forall i fam, (i, fam) ∈ inc -> i < n;
  jn_same : forall i j, i < n -> j < n -> (same (fst x) i j <-> rtc (linked inc) i j);
  jn_first : forall fam, match assoc fam (snd x) with
                         | Some j => (j, fam) ∈ inc
                         | None => forall j, (j, fam) ∉ inc
                         end;
}.

Lemma linked_mono inc inc' i j : (forall x, x ∈ inc -> x ∈ inc') -> linked inc i j -> linked inc' i j.
Proof. intros Hs (fam & H1 & H2). exists fam. auto. Qed.

Lemma linked_sym inc i j : linked inc i j -> linked inc j i.
Proof. intros (fam & H1 & H2). by exists fam. Qed.

Lemma rtc_linked_sym inc i j : rtc (linked inc) i j -> rtc (linked inc) j i.
Proof. induction 1 as [|a b c Hab _ IH]; [done|]. eapply rtc_r; [exact IH|by apply linked_sym]. Qed.

Lemma same_trans p i j k : same p i j -> same p j k -> same p i k.
Proof. intros (r & H1 & H2) (s & H3 & H4). exists r. split; [done|]. by rewrite (rooted_det _ _ _ _ H2 H3). Qed.

(** A class relation that contains the links contains the chains. *)
Lemma rtc_same inc p i j : (forall a, a < n -> same p a a) -> (forall a b, linked inc a b -> a < n /\ b < n /\ same p a b) ->
  i < n -> rtc (linked inc) i j -> same p i j.
Proof.
  intros Hr Hl Hi H. induction H as [a|a b c Hab _ IH]; [by apply Hr|].
  apply Hl in Hab as (_ & Hb & Hab). eapply same_trans; [exact Hab|by apply IH].
Qed.

Lemma join_family_ok i x fam inc : i < n -> joining inc x -> joining ((i, fam) :: inc) (join_family (S n) i x fam).
Proof.
  intros Hi [(rank & Hok) Hinc Hsame Hfirst]. destruct x as [p first]. cbn [fst snd] in *. unfold join_family.
  pose proof (Hfirst fam) as Hfam.
  assert (Hinc' : forall j f, (j, f) ∈ (i, fam) :: inc -> j < n).
  { intros j f [[= -> ->]|Hin]%elem_of_cons; [done|by eapply Hinc]. }
  assert (Hmono : forall a b, rtc (linked inc) a b -> rtc (linked ((i, fam) :: inc)) a b).
  { intros a b. apply rtc_subrel. intros a' b'. apply linked_mono. intros y. by apply list_elem_of_further. }
  assert (Hlt : forall a b, linked ((i, fam) :: inc) a b -> a < n /\ b < n) by (intros a b (f & H1 & H2); split; by eapply Hinc').
  destruct (assoc fam first) as [j|] eqn:Ha.
  - pose proof (Hinc _ _ Hfam) as Hj. destruct (union_spec n p rank i j Hok Hi Hj) as (rank' & Hok' & Hu).
    set (p' := union (S n) p i j) in *.
    assert (Hr' : forall a, a < n -> same p' a a) by (intros a; by apply (same_refl n p' rank' Hok')).
    assert (Hij : same p' i j).
    { apply Hu; [done..|]. right. left. split; by apply (same_refl n p rank Hok). }
    assert (Hsub : forall a b, a < n -> b < n -> same p a b -> same p' a b) by (intros a b H1 H2 H3; apply Hu; auto).
    assert (Hsym : forall q a b, same q a b -> same q b a) by (intros q a b (r & H1 & H2); by exists r).
    assert (Hto : forall b f, (b, f) ∈ inc -> f = fam -> same p' b j).
    { intros b f Hb ->. apply Hsub; [by eapply Hinc|done|]. apply Hsame; [by eapply Hinc|done|].
      apply rtc_once. by exists fam. }
    split; cbn [fst snd].
    + by exists rank'.
    + done.
    + intros a b Hna Hnb. split.
      * intros [Hab|[[H1 H2]|[H1 H2]]]%Hu; try done.
        -- apply Hmono. by apply Hsame.
        -- apply Hsame in H1, H2; try done. etransitivity; [by apply Hmono|].
           etransitivity; [|by apply rtc_linked_sym, Hmono]. apply rtc_once. exists fam.
           split; [apply list_elem_of_here|by apply list_elem_of_further].
        -- apply Hsame in H1, H2; try done. etransitivity; [by apply Hmono|].
           etransitivity; [|by apply rtc_linked_sym, Hmono]. apply rtc_once. exists fam.
           split; [by apply list_elem_of_further|apply list_elem_of_here].
      * intros Hab. eapply rtc_same; [done| |done|exact Hab].
        intros a' b' Hl. destruct (Hlt a' b' Hl) as [La Lb]. split_and!; [done..|].
        destruct Hl as (f & [[= -> ->]|H1]%elem_of_cons & [H2|H2]%elem_of_cons).
        -- injection H2 as ->. by apply Hr'.
        -- eapply same_trans; [exact Hij|]. by eapply Hsym, Hto.
        -- injection H2 as -> ->. eapply same_trans; [by eapply Hto|]. by apply Hsym.
        -- apply Hsub; [done..|]. apply Hsame; [done..|]. apply rtc_once. by exists f.
    + intros f. specialize (Hfirst f). destruct (assoc f first) eqn:Ef; [by apply list_elem_of_further|].
      intros k [[= -> ->]|Hin]%elem_of_cons; [congruence|by eapply Hfirst].
  - assert (Hlink : forall a b, linked ((i, fam) :: inc) a b -> a = b \/ linked inc a b).
    { intros a b (f & [H1|H1]%elem_of_cons & [H2|H2]%elem_of_cons).
      - left. congruence.
      - injection H1 as -> ->. by apply Hfam in H2.
      - injection H2 as -> ->. by apply Hfam in H1.
      - right. by exists f. }
    split; cbn [fst snd].
    + by exists rank.
    + done.
    + intros a b Hna Hnb. rewrite Hsame by done. split; [apply Hmono|].
      induction 1 as [a|a b c Hab _ IH]; [done|]. destruct (Hlt _ _ Hab) as [_ Hb].
      destruct (Hlink _ _ Hab) as [->|Hab']; [by apply IH|]. eapply rtc_l; [exact Hab'|by apply IH].
    + intros f. destruct (decide (f = fam)) as [->|Hne].
      * rewrite assoc_set_eq. apply list_elem_of_here.
      * rewrite assoc_set_ne by done. specialize (Hfirst f). destruct (assoc f first); [by apply list_elem_of_further|].
        intros k [[= -> ->]|Hin]%elem_of_cons; [done|by eapply Hfirst].
Qed.

(** The incidences of a list of findings, numbered from [i]. *)
Fixpoint incidences (i : nat) (items : list (bool * tagged)) : list (nat * pystr) :=
  match items with
  | [] => []
  | it :: items => map (pair i) (families_of st (snd (snd it))) ++ incidences (S i) items
  end.

Lemma joining_perm inc inc' x : (forall y, y ∈ inc <-> y ∈ inc') -> joining inc x -> joining inc' x.
Proof.
  intros Hp [H1 H2 H3 H4]. split; [done| | |].
  - intros i f Hin. by eapply H2, Hp.
  - intros i j Hi Hj. rewrite H3 by done. split; apply rtc_subrel; intros a b; apply linked_mono; intros y; apply Hp.
  - intros fam. specialize (H4 fam). destruct (assoc fam (snd x)); [by apply Hp|]. intros j Hin. by eapply H4, Hp.
Qed.

Lemma join_one_ok i fams : forall inc x, i < n -> joining inc x ->
  joining (map (pair i) fams ++ inc) (foldl (join_family (S n) i) x fams).
Proof.
  induction fams as [|fam fams IH]; intros inc x Hi Hx; [done|]. cbn [foldl].
  eapply joining_perm; [|apply IH; [done|apply join_family_ok; done]].
  intros y. cbn [map app]. rewrite !elem_of_app, !elem_of_cons, elem_of_app. tauto.
Qed.

Lemma join_findings_ok items : forall i inc x, i + length items <= n -> joining inc x ->
  exists first, joining (incidences i items ++ inc) (join_findings st (S n) i x items, first).
Proof.
  induction items as [|it items IH]; intros i inc x Hi Hx; cbn [join_findings incidences length] in *.
  { exists (snd x). by destruct x. }
  destruct (IH (S i) _ _ ltac:(lia) (join_one_ok i (families_of st (snd (snd it))) inc x ltac:(lia) Hx)) as [first Hf].
  exists first. eapply joining_perm; [|exact Hf]. intros y. rewrite !elem_of_app. tauto.
Qed.

Lemma fresh_joining : joining [] (seq 0 n, []).
Proof.
  split; cbn [fst snd].
  - eexists. apply fresh_forest_ok.
  - by intros i f ?%elem_of_nil.
  - intros i j Hi Hj. split; [by intros ->%fresh_same|]. intros H. inversion H as [|? b ? (f & ?%elem_of_nil & _)]; [|done]. subst.
    by eapply (same_refl n _ _ (fresh_forest_ok n)).
  - intros fam. simpl. intros j ?%elem_of_nil. done.
Qed.

(** Grouping by root: the index of each item with its root. *)
Lemma roots_of_spec items : forall p rank i k it, forest_ok n p rank -> i + length items <= n ->
  items !! k = Some it -> exists r, rooted p (i + k) r /\ roots_of (S n) p i items !! k = Some (r, it).
Proof.
  induction items as [|x items IH]; intros p rank i k it Hok Hi Hk; [done|]. cbn [roots_of length] in *.
  destruct (find_enough n p rank i Hok ltac:(lia)) as (H1 & H2 & H3 & _).
  destruct (find (S n) p i) as [r p']. cbn [fst snd] in *. destruct k as [|k].
  - injection Hk as ->. exists r. by rewrite Nat.add_0_r.
  - destruct (IH p' rank (S i) k it H2 ltac:(lia) Hk) as (s & Hs & Hl). exists s. split; [|done].
    assert (Hlt : i + S k < n) by (apply lookup_lt_Some in Hk; simpl in Hk; lia).
    destruct (rooted_ex n p rank Hok (i + S k) Hlt) as [s' Hs'].
    replace (S i + k) with (i + S k) in Hs by lia. by rewrite (rooted_det _ _ _ _ Hs (H3 _ _ Hlt Hs')).
Qed.

Lemma elem_of_incidences items : forall i k fam, (k, fam) ∈ incidences i items <->
  exists j it, k = i + j /\ items !! j = Some it /\ fam ∈ families_of st (snd (snd it)).
Proof.
  induction items as [|x items IH]; intros i k fam; cbn [incidences].
  { split; [by intros ?%elem_of_nil|]. intros (j & it & _ & [=] & _). }
  rewrite elem_of_app, IH, list_elem_of_fmap. split.
  - intros [(f & [= -> ->] & Hf)|(j & it & -> & Hj & Hf)].
    + exists 0, x. split_and!; [lia|done|done].
    + exists (S j), it. split_and!; [lia|done|done].
  - intros ([|j] & it & -> & Hj & Hf).
    + left. injection Hj as <-. exists fam. split; [f_equal; lia|done].
    + right. exists j, it. split_and!; [lia|done|done].
Qed.
End joining.

(** Two findings of the list that name a common family. *)
Definition shares (st : statistics) (items : list (bool * tagged)) (x y : bool * tagged) : Prop :=
  x ∈ items /\ y ∈ items /\ exists fam, fam ∈ families_of st (snd (snd x)) /\ fam ∈ families_of st (snd (snd y)).

Lemma shares_linked st items i j x y : NoDup items -> items !! i = Some x -> items !! j = Some y ->
  rtc (linked (incidences st 0 items)) i j <-> rtc (shares st items) x y.
Proof.
  intros Hnd Hi Hj. split.
  - intros H. revert x Hi. induction H as [a|a b c Hab _ IH]; intros x Hi.
    + assert (x = y) as -> by congruence. done.
    + destruct Hab as (fam & H1 & H2). apply elem_of_incidences in H1 as (a' & xa & -> & Ha & Hfa).
      apply elem_of_incidences in H2 as (b' & xb & -> & Hb & Hfb). simpl in *.
      assert (xa = x) as -> by (assert (Some xa = Some x) as [=] by (etransitivity; [symmetry; exact Ha|exact Hi]); done). eapply rtc_l; [|by apply (IH Hj)].
      split_and!; [by eapply list_elem_of_lookup_2|by eapply list_elem_of_lookup_2|by exists fam].
  - intros H. revert i Hi. induction H as [x|x z y (Hx & Hz & fam & Hfx & Hfz) _ IH]; intros i Hi.
    + assert (i = j) as -> by (by eapply NoDup_lookup). done.
    + apply list_elem_of_lookup in Hz as [k Hk]. eapply rtc_l; [|by apply (IH Hj)].
      exists fam. split; apply elem_of_incidences; [exists i, x|exists k, z]; by split_and!.
Qed.

(** The components are exactly the connected components of "names a
    common family": two findings are merged into one if and only if a chain
    of findings, each sharing a family with the next, leads from one to the
    other. *)
Theorem components_connected st items x y : NoDup items -> x ∈ items -> y ∈ items ->
  (exists c, c ∈ components st items /\ x ∈ c /\ y ∈ c) <-> rtc (shares st items) x y.
Proof.
  intros Hnd [i Hi]%list_elem_of_lookup [j Hj]%list_elem_of_lookup.
  unfold components. set (n := length items). set (p := join_findings st (S n) 0 (seq 0 n, []) items).
  destruct (join_findings_ok st n items 0 [] (seq 0 n, []) ltac:(subst n; lia) (fresh_joining n)) as [first Hjn].
  rewrite app_nil_r in Hjn. fold p in Hjn. destruct Hjn as [(rank & Hok) _ Hsame _]. cbn [fst] in *.
  assert (Hin : i < n /\ j < n) by (split; eapply lookup_lt_Some; eassumption). destruct Hin as [Hni Hnj].
  rewrite <- (shares_linked st items i j x y) by done. rewrite <- Hsame by done.
  destruct (roots_of_spec n items p rank 0 i x Hok ltac:(subst n; lia) Hi) as (ri & Hri & Hli).
  destruct (roots_of_spec n items p rank 0 j y Hok ltac:(subst n; lia) Hj) as (rj & Hrj & Hlj). cbn [Nat.add] in *.
  set (l := roots_of (S n) p 0 items) in *. pose proof (group_by_spec fst l) as Hg.
  assert (Hsnd : map snd l = items) by apply roots_of_snd.
  assert (Huniq : forall r k z, l !! k = Some (r, z) -> forall r', (r', z) ∈ l -> r' = r).
  { intros r k z Hk r' Hin. apply list_elem_of_lookup in Hin as [k' Hk'].
    assert (k = k') as <-; [|rewrite Hk in Hk'; by injection Hk']. eapply (NoDup_lookup items); [done| |]; rewrite <- Hsnd, list_lookup_fmap;
      [by rewrite Hk|by rewrite Hk']. }
  transitivity (ri = rj).
  - split.
    + intros (c & (g & -> & Hgin)%list_elem_of_fmap & Hx & Hy). destruct g as [r xs]. cbn [snd] in *.
      destruct (grouped_ok _ _ _ Hg _ _ Hgin) as [_ Hkey].
      assert (Hsub : forall z, z ∈ xs -> z ∈ l).
      { intros z Hz. rewrite <- (grouped_perm _ _ _ Hg). apply list_elem_of_join. exists xs. split; [done|].
        apply list_elem_of_fmap. by exists (r, xs). }
      apply list_elem_of_fmap in Hx as ([r1 x'] & -> & Hx). apply list_elem_of_fmap in Hy as ([r2 y'] & -> & Hy).
      cbn [snd] in *. pose proof (Hkey _ Hx) as K1. pose proof (Hkey _ Hy) as K2. cbn [fst] in K1, K2. subst r1 r2.
      by rewrite <- (Huniq _ _ _ Hli _ (Hsub _ Hx)), <- (Huniq _ _ _ Hlj _ (Hsub _ Hy)).
    + intros ->. assert (Hgo : group_of rj (group_by fst l) = filter (fun z => fst z = rj) l) by apply (grouped_of _ _ _ Hg).
      assert (Hxg : (rj, x) ∈ group_of rj (group_by fst l)) by (rewrite Hgo; apply list_elem_of_filter; split; [done|by eapply list_elem_of_lookup_2]).
      assert (Hyg : (rj, y) ∈ group_of rj (group_by fst l)) by (rewrite Hgo; apply list_elem_of_filter; split; [done|by eapply list_elem_of_lookup_2]).
      exists (map snd (group_of rj (group_by fst l))). split_and!.
      * apply list_elem_of_fmap. exists (rj, group_of rj (group_by fst l)). split; [done|].
        revert Hxg. generalize (group_by fst l). intros g Hxg.
        induction g as [|[k' xs] g IH]; simpl in *; [by apply elem_of_nil in Hxg|].
        case_decide as E; [rewrite E; apply list_elem_of_here|]. apply list_elem_of_further. by apply IH.
      * apply list_elem_of_fmap. by exists (rj, x).
      * apply list_elem_of_fmap. by exists (rj, y).
  - split; [intros ->; by exists rj|]. intros (r & H1 & H2).
    by rewrite (rooted_det _ _ _ _ Hri H1), (rooted_det _ _ _ _ Hrj H2).
Qed.

(** ** Witnesses *)
Lemma find_terminates_witness :
  let p := union 4 (union 4 (seq 0 3) 0 1) 1 2 in parent p (fst (find 4 p 2)) = fst (find 4 p 2).
Proof.
  pose proof (find_terminates 3 [(0, 1); (1, 2)] 2) as H. cbv zeta in H |- *.
  destruct (find 4 _ 2) as [r p'] eqn:E in H |- *.
  assert (Hp : Forall (fun ab : nat * nat => fst ab < 3 /\ snd ab < 3) [(0, 1); (1, 2)]) by (repeat constructor).
  exact (proj1 (proj2 (H Hp ltac:(lia)))).
Defined.

Definition split_items : list (bool * tagged) := [
  (true, (0, split_finding (u "f1") [split_id 0])); (false, (1, split_finding (u "f2") [split_id 1]));
  (false, (2, split_finding (u "f3") [split_id 2]))].

Lemma components_connected_witness :
  let x := (true, (0, split_finding (u "f1") [split_id 0])) in
  let y := (false, (1, split_finding (u "f2") [split_id 1])) in
  exists c, c ∈ components split_stats split_items /\ x ∈ c /\ y ∈ c.
Proof.
  cbv zeta. apply (components_connected split_stats split_items).
  - apply (NoDup_fmap_1 (fun it : bool * tagged => fst (snd it))). apply (bool_decide_unpack _). vm_compute. exact I.
  - apply list_elem_of_here.
  - apply list_elem_of_further, list_elem_of_here.
  - apply rtc_once. split; [apply list_elem_of_here|]. split; [apply list_elem_of_further, list_elem_of_here|].
    exists (u "elasticsearch-timeout"). split; apply (bool_decide_unpack _); vm_compute; exact I.
Defined.
