(* ===== verification/Validation.v ===== *)
(** * Validation of model answers

    [bridge/noc_bridge/validation.py]: the narrative checks (length, sentence
    count, completeness, repetition, causal language), the log triage
    validator, the daily report validator and the schema wrapper.  The JSON
    Schema library is the parameter [js_validate].

    The claims: the log triage validator accepts exactly the answers of a
    declarative specification and raises nothing but its own exception and one
    overflow; the narrative shortening of the fallback path meets the limits
    the validator checks, and what the two make of a decimal point and of an
    unlabeled template that ends in punctuation. *)

From Stdlib Require Import SpecFloat.
From S2P Require Import Prelude PyStr Json PyColl Failures PyVal Regex Preprocess Reconcile PatternReconcile.

(** ** The exception *)
Definition invalid (msg : pystr) : pyexn := mk_exn OutputValidationError msg.
Definition overflow_error : pyexn :=
  mk_exn (ForeignError (u "OverflowError") false) (u "int too large to convert to float").
(** [if b: raise OutputValidationError(msg)] *)
Definition reject_if (b : bool) (msg : pystr) : result pyexn () := if b then Raise (invalid msg) else Ok tt.

(** [for index, item in enumerate(l)], threading a state. *)
Fixpoint for_enum {S A} (body : nat -> S -> A -> result pyexn S) (i : nat) (s : S) (l : list A) : result pyexn S :=
  match l with [] => Ok s | x :: l => s' ← body i s x; for_enum body (Datatypes.S i) s' l end.
(** The same without a state. *)
Definition for_each {A} (body : nat -> A -> result pyexn ()) (l : list A) : result pyexn () :=
  for_enum (fun i _ x => body i x) 0 tt l.

Section validation.
Context `{UnicodeData} `{PyText}.

(** ** Patterns *)
Definition any_of_lit (l : list pystr) : re := alt (map lit_ic l).
Definition spaces : re := star (Chr space).
Definition spaces1 : re := plus (Chr space).

Definition re_TRAILING_INCOMPLETE : re :=
  Seq (alt [Chr (one_of (u ":;,/"));
            rseq [Word;
                  any_of_lit [u "and"; u "or"; u "but"; u "because"; u "including"; u "such as"; u "that"; u "which"; u "with";
                              u "from"; u "to"; u "of"; u "the"; u "a"; u "an"; u "in"; u "on"; u "for"; u "as"; u "due"; u "via"];
                  Word];
            any_of_lit [u "并且"; u "包括"; u "例如"; u "由于"; u "导致"; u "以及"; u "和"; u "或"; u "其中"; u "与"; u "在"; u "对"; u "从"; u "通过"]])
      End.

Definition identifier : re := any_of_lit [u "id"; u "identifier"].
Definition re_LINKING_EVIDENCE : re := alt [
  lit_ic (u "trace"); rseq [lit_ic (u "request"); spaces; identifier]; rseq [lit_ic (u "correlation"); spaces; identifier];
  rseq [lit_ic (u "nested"); spaces1; lit_ic (u "exception")]; lit_ic (u "caller"); lit_ic (u "callee");
  rseq [lit_ic (u "same"); spaces1; lit_ic (u "dependency")];
  rseq [lit_ic (u "explicit"); opt (lit_ic (u "ly")); spaces1; lit_ic (u "linked")];
  lit_ic (u "链路"); rseq [lit_ic (u "请求"); spaces; lit_ic (u "ID")]; rseq [lit_ic (u "关联"); spaces; lit_ic (u "ID")];
  any_of_lit [u "嵌套异常"; u "调用方"; u "被调用方"; u "同一依赖"; u "明确关联"]].

Definition some_cause (prefix : pystr) : re :=
  rseq [lit_ic prefix; Rep 0 (Some 8) any_char; any_of_lit [u "根因"; u "原因"]].
Definition re_SHARED_CAUSATION : re := alt [
  rseq [lit_ic (u "share"); opt (any_of_lit [u "s"; u "d"]); spaces1;
        opt (alt [Seq (lit_ic (u "one")) spaces1; Seq (lit_ic (u "a")) spaces1]);
        opt (Seq (lit_ic (u "single")) spaces1); opt (Seq (lit_ic (u "root")) spaces1); lit_ic (u "cause")];
  rseq [lit_ic (u "common"); spaces1; opt (Seq (lit_ic (u "root")) spaces1); lit_ic (u "cause")];
  rseq [lit_ic (u "single"); spaces1; lit_ic (u "root"); spaces1; lit_ic (u "cause")];
  rseq [any_of_lit [u "both"; u "these"]; spaces1; any_of_lit [u "failures"; u "errors"; u "clusters"; u "patterns"]; spaces1;
        any_of_lit [u "are"; u "were"]; spaces1; lit_ic (u "caused"); spaces1; lit_ic (u "by")];
  some_cause (u "共同"); some_cause (u "同一"); some_cause (u "单一")].

Definition re_SPECULATIVE_CAUSATION : re := alt [
  rseq [any_of_lit [u "probably"; u "likely"; u "possibly"; u "may be"; u "might be"; u "could be"]; spaces1;
        alt [rseq [lit_ic (u "caused"); spaces1; lit_ic (u "by")]; rseq [lit_ic (u "due"); spaces1; lit_ic (u "to")];
             rseq [lit_ic (u "related"); spaces1; lit_ic (u "to")]]];
  Seq (lit_ic (u "可能")) (alt [lit_ic (u "由于"); lit_ic (u "是由"); rseq [lit_ic (u "与"); plus any_char; lit_ic (u "相关")]])].

Definition re_CAUSATION_NEGATION : re := any_of_lit [
  u "cannot"; u "can't"; u "can not"; u "no evidence"; u "not established"; u "not confirmed"; u "cannot be confirmed";
  u "无法"; u "不能"; u "未发现"; u "没有证据"; u "不能确认"; u "未确认"].

(** ** Narratives *)
Definition is_ending (c : Z) : bool := bool_decide (c ∈ SENTENCE_ENDINGS).

(** [_sentence_count] *)
Definition sentence_count (value : pystr) : nat := Nat.max 1 (length (filter (fun c => is_ending c = true) value)).

Definition CLOSERS : pystr := u ")]}" ++ [34%Z] ++ u "'”’》）】".

(** [_validate_narrative_completion] *)
Definition validate_narrative_completion (value path : pystr) : result pyexn () :=
  let text := strip value in
  reject_if (bool_decide (text = [])) (path ++ u " must be a complete sentence");;
  reject_if (endswith (u "...") text || endswith (u "…") text) (path ++ u " appears truncated");;
  let lexical := rstrip_chars CLOSERS text in
  reject_if (matches re_TRAILING_INCOMPLETE (rstrip_chars SENTENCE_ENDINGS lexical)) (path ++ u " ends with an incomplete phrase");;
  reject_if (match last lexical with Some c => negb (is_ending c) | None => true end)
    (path ++ u " must end with complete-sentence punctuation").

(** [result.get(group) or []] of an object, iterated. *)
Definition group_items (group : pystr) (o : json) : result pyexn (list json) := py_iter (jor (jget_null group o) (JList [])).

(** The string values of some fields. *)
Definition str_fields (fields : list pystr) (o : json) : list pystr := omap (fun k => jstr (jget_null k o)) fields.

(** [_analysis_text] *)
Definition analysis_text (o : json) : result pyexn pystr :=
  ks ← group_items (u "key_finds") o;
  ss ← group_items (u "secondary_finds") o;
  mret (py_join [10%Z] (str_fields [u "summary_en"; u "summary_zh"] o ++
    mjoin (map (str_fields [u "label_en"; u "label_zh"; u "detail_en"; u "detail_zh"]) (filter (fun f => is_obj f = true) (ks ++ ss))))).

(** [_compact_analysis_text] *)
Definition compact_analysis_text (value : pystr) : pystr := filter (fun c => uni_word c = true) (casefold value).

Definition item_path (label group : pystr) (i : nat) : pystr :=
  label ++ u "." ++ group ++ u "[" ++ py_str_int (Z.of_nat i) ++ u "]".

(** One finding of [_validate_repetition]. *)
Definition check_repetition (label group suffix summary : pystr) (i : nat) (seen : list pystr) (f : json) : result pyexn (list pystr) :=
  match jget (u "detail" ++ suffix) f with
  | Some (JStr detail) =>
      let d := compact_analysis_text detail in
      if Nat.ltb (length d) 32 then mret seen
      else
        let path := item_path label group i ++ u ".detail" ++ suffix in
        reject_if (contains d summary) (path ++ u " repeats its full explanation in summary" ++ suffix);;
        reject_if (bool_decide (d ∈ seen)) (path ++ u " repeats another finding detail");;
        mret (d :: seen)
  | _ => mret seen
  end.

(** [_validate_repetition] for one language. *)
Definition repetition_in (label suffix : pystr) (o : json) : result pyexn () :=
  match jget (u "summary" ++ suffix) o with
  | Some (JStr summary) =>
      let summary := compact_analysis_text summary in
      ks ← group_items (u "key_finds") o;
      seen ← for_enum (check_repetition label (u "key_finds") suffix summary) 0 [] ks;
      ss ← group_items (u "secondary_finds") o;
      _ ← for_enum (check_repetition label (u "secondary_finds") suffix summary) 0 seen ss;
      mret tt
  | _ => Ok tt
  end.
Definition validate_repetition (o : json) (label : pystr) : result pyexn () :=
  repetition_in label (u "_zh") o;; repetition_in label (u "_en") o.

(** One detail of [_validate_finding_detail_density]. *)
Definition check_density (group path : pystr) (max_length max_sentences : nat) (f : json) (field : pystr) : result pyexn () :=
  match jget field f with
  | Some (JStr value) =>
      let at_field := path ++ u "." ++ field in
      reject_if (Nat.ltb max_length (length value)) (at_field ++ u " is too long for " ++ group);;
      reject_if (Nat.ltb max_sentences (sentence_count value))
        (at_field ++ u " must be no more than " ++ py_str_int (Z.of_nat max_sentences) ++ u " sentence");;
      validate_narrative_completion value at_field
  | _ => Ok tt
  end.
Definition density_in (label : pystr) (o : json) (group : pystr) (max_length max_sentences : nat) : result pyexn () :=
  fs ← group_items group o;
  for_each (fun i f =>
    let path := item_path label group i in
    check_density group path max_length max_sentences f (u "detail_zh");;
    check_density group path max_length max_sentences f (u "detail_en")) fs.

(** [_validate_finding_detail_density] *)
Definition validate_finding_detail_density (o : json) (label : pystr) : result pyexn () :=
  density_in label o (u "key_finds") 600 3;; density_in label o (u "secondary_finds") 320 1.

(** [_validate_causation_language] *)
Definition unsupported_causation (text : pystr) : bool :=
  (matches re_SHARED_CAUSATION text || matches re_SPECULATIVE_CAUSATION text) &&
  negb (matches re_CAUSATION_NEGATION text) && negb (matches re_LINKING_EVIDENCE text).
Definition validate_causation_language (o : json) (label : pystr) : result pyexn () :=
  text ← analysis_text o;
  reject_if (unsupported_causation text)
    (label ++ u " contains an unsupported causal assertion; temporal coexistence is not causal evidence").

(** ** Log triage *)

(** A string with something other than white space. *)
Definition non_blank (j : json) : bool := match j with JStr s => not_blank s | _ => false end.
Definition non_negative (j : json) : bool := match j with JInt n => (0 <=? n)%Z | _ => false end.
Definition is_null (j : json) : bool := match j with JNull => true | _ => false end.

(** A summary. *)
Definition check_summary (label : pystr) (o : json) (field : pystr) : result pyexn () :=
  match jget_null field o with
  | JStr value =>
      reject_if (negb (not_blank value)) (label ++ u "." ++ field ++ u " must be a non-empty string");;
      reject_if (Nat.ltb 800 (length value)) (label ++ u "." ++ field ++ u " is too long for Short Summary");;
      validate_narrative_completion value (label ++ u "." ++ field);;
      reject_if (negb (Nat.leb 2 (sentence_count value) && Nat.leb (sentence_count value) 4))
        (label ++ u "." ++ field ++ u " must contain 2-4 concise sentences; got " ++ py_str_int (Z.of_nat (sentence_count value)))
  | _ => Raise (invalid (label ++ u "." ++ field ++ u " must be a non-empty string"))
  end.

(** [float(percentage)] *)
Definition py_float (j : json) : result pyexn spec_float :=
  match j with
  | JInt n => match float_of_int n with S754_infinity _ => Raise overflow_error | x => Ok x end
  | JFloat x => Ok x
  | _ => Raise (type_error (u "float() argument must be a string or a real number"))
  end.
Definition is_number (j : json) : bool := match j with JInt _ | JFloat _ => true | _ => false end.
Definition float_finite (x : spec_float) : bool := match x with S754_zero _ | S754_finite _ _ _ => true | _ => false end.
Definition in_percent_range (x : spec_float) : bool := float_finite x && SFleb float_zero x && SFleb x (float_of_int 100).
(** [abs(x - y) > 0.01] *)
Definition far_apart (x y : spec_float) : bool := SFltb (float_of_ratio 1 100) (SFabs (SFsub 53 1024 x y)).
Definition expected_percentage (count total : Z) : spec_float :=
  match percentage count total with JFloat x => x | _ => float_zero end.

(** [pattern_ids] of one finding: a non-empty list of distinct non-empty
    strings that no earlier finding holds. *)
Fixpoint claim_patterns (seen : list pystr) (ids : list pystr) : result pyexn (list pystr) :=
  match ids with
  | [] => Ok seen
  | id :: ids =>
      reject_if (bool_decide (id ∈ seen)) (u "duplicate finding identity: " ++ id);;
      claim_patterns (seen ++ [id]) ids
  end.
Definition is_id (j : json) : bool := match j with JStr s => truthy_str s | _ => false end.

Definition check_patterns (path : pystr) (seen : list pystr) (f : json) : result pyexn (list pystr * list pystr) :=
  match jget_null (u "pattern_ids") f with
  | JList (x :: l) =>
      reject_if (negb (forallb is_id (x :: l))) (path ++ u ".pattern_ids contains an invalid ID");;
      let ids := omap jstr (x :: l) in
      reject_if (negb (bool_decide (NoDup ids))) (path ++ u ".pattern_ids contains duplicate IDs");;
      seen ← claim_patterns seen ids;
      mret (seen, ids)
  | _ => Raise (invalid (path ++ u ".pattern_ids must be a non-empty list"))
  end.

Definition check_evidence (path : pystr) (f : json) : result pyexn () :=
  match jget_null (u "evidence_entry_ids") f with
  | JNull => Ok tt
  | JList (x :: l) =>
      reject_if (negb (forallb non_negative (x :: l))) (path ++ u ".evidence_entry_ids contains an invalid entry ID");;
      reject_if (negb (bool_decide (NoDup (omap jint (x :: l))))) (path ++ u ".evidence_entry_ids contains duplicate IDs")
  | _ => Raise (invalid (path ++ u ".evidence_entry_ids must be a non-empty list"))
  end.

(** [occurrence_count], at most the number of raw records. *)
Definition check_occurrence (path : pystr) (physical : option Z) (f : json) : result pyexn () :=
  match jget_null (u "occurrence_count") f with
  | JNull => Ok tt
  | JInt n => reject_if (n <? 0)%Z (path ++ u ".occurrence_count must be a non-negative integer");;
              reject_if (match physical with Some p => (p <? n)%Z | None => false end)
                (path ++ u ".occurrence_count cannot exceed physical_entry_count")
  | _ => Raise (invalid (path ++ u ".occurrence_count must be a non-negative integer"))
  end.

(** [physical_entry_count], its value. *)
Definition check_physical (path : pystr) (total : Z) (f : json) : result pyexn (option Z) :=
  match jget_null (u "physical_entry_count") f with
  | JNull => mret None
  | JInt n => reject_if (n <? 0)%Z (path ++ u ".physical_entry_count must be a non-negative integer");;
              reject_if (total <? n)%Z (path ++ u ".physical_entry_count cannot exceed total_entries");;
              mret (Some n)
  | _ => Raise (invalid (path ++ u ".physical_entry_count must be a non-negative integer"))
  end.

(** The count and the percentage of a quantified finding. *)
Definition check_numbers (path : pystr) (total : Z) (physical : option Z) (f : json) : result pyexn () :=
  match jget_null (u "count") f with
  | JInt count =>
      reject_if (count <? 0)%Z (path ++ u ".count must be a non-negative integer");;
      reject_if (total <? count)%Z (path ++ u ".count cannot exceed total_entries");;
      reject_if (match physical with Some p => (p <? count)%Z | None => false end)
        (path ++ u ".physical_entry_count cannot be less than count");;
      let p := jget_null (u "percentage") f in
      reject_if (negb (is_number p)) (path ++ u ".percentage must be a number");;
      x ← py_float p;
      reject_if (negb (in_percent_range x)) (path ++ u ".percentage must be finite and in [0, 100]");;
      let expected := expected_percentage count total in
      reject_if (far_apart x expected)
        (path ++ u ".percentage is inconsistent with count / total (" ++ py_str p ++ u " vs " ++ py_str (JFloat expected) ++ u ")")
  | _ => Raise (invalid (path ++ u ".count must be a non-negative integer"))
  end.

(** One finding; the state is the pattern identities and the finding
    identities seen so far. *)
Definition check_finding (label group : pystr) (total : Z) (i : nat) (seen : list pystr * list pystr) (f : json)
    : result pyexn (list pystr * list pystr) :=
  let path := item_path label group i in
  reject_if (negb (is_obj f)) (path ++ u " must be an object");;
  match jget_null (u "id") f with
  | JStr id =>
      reject_if (negb (not_blank id)) (path ++ u ".id must be a non-empty string");;
      reject_if (bool_decide (id ∈ snd seen)) (u "duplicate finding id: " ++ id);;
      for_each (fun _ field => reject_if (negb (non_blank (jget_null field f))) (path ++ u "." ++ field ++ u " must be a non-empty string"))
        [u "label_zh"; u "label_en"; u "detail_zh"; u "detail_en"];;
      sp ← check_patterns path (fst seen) f;
      check_evidence path f;;
      physical ← check_physical path total f;
      check_occurrence path physical f;;
      (if bool_decide (snd sp = [UNQUANTIFIED]) then
         reject_if (negb (is_null (jget_null (u "count") f) && is_null (jget_null (u "percentage") f)))
           (path ++ u " unquantified findings must not claim count or percentage")
       else check_numbers path total physical f);;
      mret (fst sp, snd seen ++ [id])
  | _ => Raise (invalid (path ++ u ".id must be a non-empty string"))
  end.

Definition check_group (label : pystr) (total : Z) (o : json) (seen : list pystr * list pystr) (group : pystr)
    : result pyexn (list pystr * list pystr) :=
  match jget_null group o with
  | JList l => for_enum (check_finding label group total) 0 seen l
  | _ => Raise (invalid (label ++ u "." ++ group ++ u " must be a list"))
  end.

(** [validate_log_triage_result] *)
Definition validate_log_triage_result (o : json) (label : pystr) : result pyexn () :=
  total ← py_get (u "total_entries") JNull o;
  match total with
  | JInt total =>
      reject_if (total <? 0)%Z (label ++ u ".total_entries must be a non-negative integer");;
      check_summary label o (u "summary_zh");;
      check_summary label o (u "summary_en");;
      seen ← check_group label total o ([], []) (u "key_finds");
      _ ← check_group label total o seen (u "secondary_finds");
      validate_finding_detail_density o label;;
      validate_repetition o label;;
      validate_causation_language o label
  | _ => Raise (invalid (label ++ u ".total_entries must be a non-negative integer"))
  end.

(** ** Daily report *)
Definition STORAGE_MARKERS : list pystr := [u "object_key"; u "analysis_run_id"; u "bucket"; u "minio"; u "s3://"].
Definition re_IDENTIFIER : re :=
  let hex n := times n (Chr hex_ic) in
  alt [rseq [lit_ic (u "http"); opt (lit_ic (u "s")); lit (u "://")];
       rseq [lit_ic (u "inc"); lit (u "-"); plus (Chr digit)];
       rseq [hex 8; lit (u "-"); hex 4; lit (u "-"); Chr (in_range 49 53); hex 3; lit (u "-");
             Chr (any_of [one_of (u "89"); ic_char 97; ic_char 98]); hex 3; lit (u "-"); hex 12]].

Definition check_general_summary (label : pystr) (summary : json) (language : pystr) : result pyexn () :=
  let at_lang := label ++ u ".general_summary." ++ language in
  match jget_null language summary with
  | JStr value =>
      reject_if (negb (not_blank value)) (at_lang ++ u " must be non-empty");;
      reject_if (Nat.ltb 1600 (length value)) (at_lang ++ u " is too long");;
      reject_if (existsb (fun m => contains m (casefold value)) STORAGE_MARKERS)
        (at_lang ++ u " contains application storage/provenance metadata");;
      reject_if (matches re_IDENTIFIER value) (at_lang ++ u " contains an application identifier or URL")
  | _ => Raise (invalid (at_lang ++ u " must be non-empty"))
  end.

(** [validate_daily_report_result] *)
Definition validate_daily_report_result (o : json) (label : pystr) : result pyexn () :=
  match o with
  | JObj [(k, summary)] =>
      reject_if (negb (bool_decide (k = u "general_summary"))) (label ++ u " must contain only general_summary");;
      reject_if (negb (is_obj summary)) (label ++ u ".general_summary must be an object");;
      check_general_summary label summary (u "zh");;
      check_general_summary label summary (u "en")
  | _ => Raise (invalid (label ++ u " must contain only general_summary"))
  end.

(** ** JSON Schema *)

(** The schema library's answer: valid, the first violation, or a defect of
    the schema itself. *)
Inductive schema_answer := SchemaValid | SchemaViolation (msg : pystr) | SchemaDefect (msg : pystr).
Class JsonSchema := { js_validate : json -> json -> schema_answer }.

(** [validate_against_schema] *)
Definition validate_against_schema `{JsonSchema} (output schema : json) (label : pystr) : result pyexn () :=
  match js_validate output schema with
  | SchemaValid => Ok tt
  | SchemaViolation msg => Raise (invalid (label ++ u " failed schema validation: " ++ msg))
  | SchemaDefect msg => Raise (invalid (label ++ u "'s own schema is invalid: " ++ msg))
  end.
End validation.

(** ** Inversion of the checks *)

Lemma reject_ok b msg : reject_if b msg = Ok tt <-> b = false.
Proof. by destruct b. Qed.

Lemma reject_seq {A} b msg (k : result pyexn A) : b = false -> (reject_if b msg;; k) = k.
Proof. by intros ->. Qed.

Lemma seq_ok {A} (m : result pyexn ()) (k : result pyexn A) y : (m;; k) = Ok y <-> m = Ok tt /\ k = Ok y.
Proof. destruct m as [[]|e]; simpl; [naive_solver|]. split; [done|by intros [? _]]. Qed.

Lemma ret_ok {A} (a b : A) : (mret a : result pyexn A) = Ok b <-> a = b.
Proof. split; [apply Ok_inj|by intros ->]. Qed.

Lemma for_each_ok {A} (body : nat -> A -> result pyexn ()) l :
  for_each body l = Ok tt <-> forall i x, l !! i = Some x -> body i x = Ok tt.
Proof.
  unfold for_each. enough (Hg : forall k, for_enum (fun i _ x => body i x) k tt l = Ok tt <->
    forall i x, l !! i = Some x -> body (k + i) x = Ok tt) by apply (Hg 0).
  induction l as [|x l IH]; intros k; cbn [for_enum]; [done|]. rewrite bind_result_ok. split.
  - intros ([] & Hx & Hl) [|i] y Hy; [injection Hy as <-; by rewrite Nat.add_0_r|].
    rewrite <- Nat.add_succ_comm. by apply IH with (i := i).
  - intros Hall. exists tt. split; [specialize (Hall 0 x eq_refl); by rewrite Nat.add_0_r in Hall|].
    apply IH. intros i y Hy. specialize (Hall (S i) y Hy). by rewrite <- Nat.add_succ_comm in Hall.
Qed.

(** *** What the validator may raise *)
Definition clean {A} (m : result pyexn A) : Prop :=
  forall e, m = Raise e -> x_class e = OutputValidationError \/ e = overflow_error.

Lemma clean_reject b msg : clean (reject_if b msg).
Proof. intros e. destruct b; [|done]. intros [= <-]. by left. Qed.

Lemma clean_ok {A} (a : A) : clean (Ok a).
Proof. by intros e. Qed.

Lemma clean_invalid {A} msg : clean (Raise (invalid msg) : result pyexn A).
Proof. intros e [= <-]. by left. Qed.

Lemma clean_bind {A B} (m : result pyexn A) (f : A -> result pyexn B) :
  clean m -> (forall a, m = Ok a -> clean (f a)) -> clean (a ← m; f a).
Proof. intros Hm Hf. destruct m as [a|e0]; [by apply Hf|]. intros e [= <-]. by apply Hm. Qed.

Lemma clean_for_enum {S A} (body : nat -> S -> A -> result pyexn S) l : (forall i s x, clean (body i s x)) ->
  forall i s, clean (for_enum body i s l).
Proof.
  intros Hb. induction l as [|x l IH]; intros i s; [apply clean_ok|]. cbn [for_enum]. apply clean_bind; [apply Hb|]. intros; apply IH.
Qed.

(** Descend through the checks of a validator. *)
Ltac solve_clean :=
  repeat first [ apply clean_reject | apply clean_ok | apply clean_invalid
               | apply clean_bind; [|intros ? _] | progress cbv zeta
               | match goal with |- clean (match ?x with _ => _ end) => destruct x end
               | match goal with |- clean (if ?x then _ else _) => destruct x end ].

Section validation_theorems.
Context `{UnicodeData} `{PyText}.

(** ** The specification *)

(** A complete narrative: not blank, not visibly cut off. *)
Definition narrative_complete (value : pystr) : Prop :=
  let text := strip value in
  let lexical := rstrip_chars CLOSERS text in
  text <> [] /\ endswith (u "...") text = false /\ endswith (u "…") text = false /\
  matches re_TRAILING_INCOMPLETE (rstrip_chars SENTENCE_ENDINGS lexical) = false /\
  exists c, last lexical = Some c /\ is_ending c = true.

Definition summary_valid (j : json) : Prop :=
  exists value, j = JStr value /\ not_blank value = true /\ length value <= 800 /\ narrative_complete value /\
    2 <= sentence_count value <= 4.

Definition patterns_of (f : json) : list pystr := match jget_null (u "pattern_ids") f with JList l => omap jstr l | _ => [] end.
Definition id_of (f : json) : pystr := match jget_null (u "id") f with JStr s => s | _ => [] end.

(** An optional count: null, or a non-negative integer. *)
Definition optional_count (j : json) (o : option Z) : Prop :=
  match j with JNull => o = None | JInt n => o = Some n /\ (0 <= n)%Z | _ => False end.

(** The numbers of a finding: none for an unquantified one; otherwise a count
    within the total and the raw records, and the matching percentage. *)
Definition numbers_valid (total : Z) (physical : option Z) (f : json) : Prop :=
  if bool_decide (patterns_of f = [UNQUANTIFIED]) then
    jget_null (u "count") f = JNull /\ jget_null (u "percentage") f = JNull
  else exists count x, jget_null (u "count") f = JInt count /\ (0 <= count <= total)%Z /\
    (forall p, physical = Some p -> (count <= p)%Z) /\
    is_number (jget_null (u "percentage") f) = true /\ py_float (jget_null (u "percentage") f) = Ok x /\
    in_percent_range x = true /\ far_apart x (expected_percentage count total) = false.

Record finding_valid (total : Z) (f : json) : Prop := {
  fv_obj : is_obj f = true;
  fv_id : non_blank (jget_null (u "id") f) = true;
  fv_text : Forall (fun k => non_blank (jget_null k f) = true) [u "label_zh"; u "label_en"; u "detail_zh"; u "detail_en"];
  fv_patterns : exists ids, jget_null (u "pattern_ids") f = json_strs ids /\ ids <> [] /\
    Forall (fun id => truthy_str id = true) ids /\ NoDup ids;
  fv_evidence : jget_null (u "evidence_entry_ids") f = JNull \/
    exists ns, jget_null (u "evidence_entry_ids") f = json_ints ns /\ ns <> [] /\ Forall (fun n => (0 <= n)%Z) ns /\ NoDup ns;
  fv_numbers : exists physical occurrences,
    optional_count (jget_null (u "physical_entry_count") f) physical /\
    optional_count (jget_null (u "occurrence_count") f) occurrences /\
    (forall p, physical = Some p -> (p <= total)%Z) /\
    (forall p n, physical = Some p -> occurrences = Some n -> (n <= p)%Z) /\ numbers_valid total physical f;
}.

(** *** Narratives *)

Lemma validate_narrative_ok value path : validate_narrative_completion value path = Ok tt <-> narrative_complete value.
Proof.
  unfold validate_narrative_completion, narrative_complete. cbv zeta. rewrite !seq_ok, !reject_ok, orb_false_iff, bool_decide_eq_false.
  set (lexical := rstrip_chars CLOSERS (strip value)).
  assert (Hl : (match last lexical with Some c => negb (is_ending c) | None => true end = false) <->
    exists c, last lexical = Some c /\ is_ending c = true).
  { destruct (last lexical) as [c|]; [rewrite negb_false_iff|]; naive_solver. }
  rewrite Hl. tauto.
Qed.

Lemma check_summary_ok label o field : check_summary label o field = Ok tt <-> summary_valid (jget_null field o).
Proof.
  unfold check_summary, summary_valid. destruct (jget_null field o) as [| | | |value| |]; try (split; [done|by intros (? & ? & _)]).
  rewrite !seq_ok, !reject_ok, validate_narrative_ok, !negb_false_iff, Nat.ltb_ge, andb_true_iff, !Nat.leb_le.
  split; [intros (?&?&?&?); by exists value|]. intros (v & [= <-] & ? & ? & ? & ?). done.
Qed.

(** *** The fields of a finding *)

Lemma forallb_ids l : forallb is_id l = true <-> exists ids, l = map JStr ids /\ Forall (fun id => truthy_str id = true) ids.
Proof.
  induction l as [|x l IH]; simpl.
  - split; [intros _; by exists []|done].
  - rewrite andb_true_iff, IH. split.
    + intros (Hx & ids & -> & Hids). destruct x; try done. exists (s :: ids). by split; [|constructor].
    + intros ([|s ids] & [=] & Hids). subst. apply Forall_cons in Hids as [? ?]. split; [done|by exists ids].
Qed.

Lemma forallb_naturals l : forallb non_negative l = true <-> exists ns, l = map JInt ns /\ Forall (fun n => (0 <= n)%Z) ns.
Proof.
  induction l as [|x l IH]; simpl.
  - split; [intros _; by exists []|done].
  - rewrite andb_true_iff, IH. split.
    + intros (Hx & ns & -> & Hns). destruct x as [| |n| | | |]; try done. apply Z.leb_le in Hx. exists (n :: ns). by split; [|constructor].
    + intros ([|n ns] & [=] & Hns). subst. apply Forall_cons in Hns as [? ?]. split; [by apply Z.leb_le|by exists ns].
Qed.

Lemma claim_patterns_ok seen ids s : NoDup seen ->
  claim_patterns seen ids = Ok s <-> NoDup (seen ++ ids) /\ s = seen ++ ids.
Proof.
  revert seen. induction ids as [|id ids IH]; intros seen Hn; cbn [claim_patterns].
  - rewrite app_nil_r. split; [intros <-%Ok_inj|intros [_ ->]]; done.
  - rewrite seq_ok, reject_ok, bool_decide_eq_false. change (id :: ids) with ([id] ++ ids). rewrite !app_assoc. split.
    + intros [Hid Hs]. apply IH in Hs; [done|]. apply NoDup_app. split_and!; [done| |apply NoDup_singleton].
      intros x Hx ->%list_elem_of_singleton. done.
    + intros [Hnd ->]. pose proof Hnd as Hnd'. apply NoDup_app in Hnd as (Hnd & _ & _). split; [|by apply IH].
      apply NoDup_app in Hnd as (_ & Hd & _). intros Hid. apply (Hd id Hid), list_elem_of_here.
Qed.

Lemma check_patterns_ok path seen f sp : NoDup seen ->
  check_patterns path seen f = Ok sp <->
  (exists ids, jget_null (u "pattern_ids") f = json_strs ids /\ ids <> [] /\ Forall (fun id => truthy_str id = true) ids /\ NoDup ids) /\
  NoDup (seen ++ patterns_of f) /\ sp = (seen ++ patterns_of f, patterns_of f).
Proof.
  intros Hn. unfold check_patterns, patterns_of. destruct (jget_null (u "pattern_ids") f) as [| | | | |[|x l]|];
    try (split; [done|intros [(ids & Hids & ?) _]; destruct ids; [naive_solver|discriminate]]).
  rewrite !seq_ok, !reject_ok, !negb_false_iff, forallb_ids, bool_decide_eq_true, bind_result_ok. split.
  - intros ((ids & Hids & Ht) & Hnd & s & Hs & Hsp). apply ret_ok in Hsp as <-. apply claim_patterns_ok in Hs as [Hs ->]; [|done].
    split; [|done]. exists ids. split_and!; [by rewrite Hids|by destruct ids|done|]. by rewrite Hids, omap_jstr_strs in Hnd.
  - intros [(ids & Hids & Hne & Ht & Hnd) [Hns ->]]. injection Hids as Hids.
    split_and!; [by exists ids|by rewrite Hids, omap_jstr_strs|]. eexists. split; [by apply claim_patterns_ok|done].
Qed.

Lemma check_evidence_ok path f : check_evidence path f = Ok tt <->
  jget_null (u "evidence_entry_ids") f = JNull \/
  exists ns, jget_null (u "evidence_entry_ids") f = json_ints ns /\ ns <> [] /\ Forall (fun n => (0 <= n)%Z) ns /\ NoDup ns.
Proof.
  unfold check_evidence. destruct (jget_null (u "evidence_entry_ids") f) as [| | | | |[|x l]|];
    try (split; [done|intros [?|(ns & Hns & ?)]; [done|destruct ns; [naive_solver|discriminate]]]); [split; [by left|done]|].
  rewrite !seq_ok, !reject_ok, !negb_false_iff, forallb_naturals, bool_decide_eq_true. split.
  - intros [(ns & Hns & Hp) Hnd]. right. exists ns. rewrite Hns, omap_jint_ints in Hnd.
    split_and!; [by rewrite Hns|by destruct ns|done|done].
  - intros [?|(ns & Hns & Hne & Hp & Hnd)]; [done|]. injection Hns as Hns. split; [by exists ns|]. by rewrite Hns, omap_jint_ints.
Qed.

Lemma check_physical_ok path total f r : check_physical path total f = Ok r <->
  optional_count (jget_null (u "physical_entry_count") f) r /\ (forall p, r = Some p -> (p <= total)%Z).
Proof.
  unfold check_physical, optional_count. destruct (jget_null (u "physical_entry_count") f) as [| |n| | | |]; try naive_solver.
  - rewrite ret_ok. naive_solver.
  - rewrite !seq_ok, !reject_ok, ret_ok, !Z.ltb_ge. naive_solver.
Qed.

Lemma check_occurrence_ok path physical f : check_occurrence path physical f = Ok tt <->
  exists occurrences, optional_count (jget_null (u "occurrence_count") f) occurrences /\
    (forall p n, physical = Some p -> occurrences = Some n -> (n <= p)%Z).
Proof.
  unfold check_occurrence, optional_count. destruct (jget_null (u "occurrence_count") f) as [| |n| | | |]; try naive_solver.
  rewrite seq_ok, !reject_ok, Z.ltb_ge. destruct physical as [p|]; [rewrite Z.ltb_ge|]; naive_solver.
Qed.

Lemma check_numbers_ok path total physical f :
  bool_decide (patterns_of f = [UNQUANTIFIED]) = false ->
  check_numbers path total physical f = Ok tt <-> numbers_valid total physical f.
Proof.
  intros Hq. unfold check_numbers, numbers_valid. rewrite Hq.
  destruct (jget_null (u "count") f) as [| |count| | | |]; try (split; [done|by intros (? & ? & ? & _)]).
  rewrite !seq_ok, !reject_ok, !Z.ltb_ge, negb_false_iff, bind_result_ok.
  assert (Hp : (match physical with Some p => (p <? count)%Z | None => false end = false) <->
    forall p, physical = Some p -> (count <= p)%Z).
  { destruct physical as [p|]; [rewrite Z.ltb_ge|]; naive_solver. }
  rewrite Hp. split.
  - intros (H1 & H2 & H3 & H4 & x & Hx & Hr). rewrite seq_ok, !reject_ok, negb_false_iff in Hr. exists count, x. naive_solver.
  - intros (c & x & [= <-] & Hc & H3 & H4 & Hx & Hr & Hf). split_and!; try (done || lia). exists x.
    by rewrite seq_ok, !reject_ok, negb_false_iff.
Qed.

(** *** A finding, a group *)

Lemma text_fields_ok path f :
  for_each (fun _ field => reject_if (negb (non_blank (jget_null field f))) (path ++ u "." ++ field ++ u " must be a non-empty string"))
    [u "label_zh"; u "label_en"; u "detail_zh"; u "detail_en"] = Ok tt <->
  Forall (fun k => non_blank (jget_null k f) = true) [u "label_zh"; u "label_en"; u "detail_zh"; u "detail_en"].
Proof.
  rewrite for_each_ok, Forall_lookup. apply forall_proper; intros i. apply forall_proper; intros k.
  by rewrite reject_ok, negb_false_iff.
Qed.

Lemma check_finding_ok label group total i seen f seen' : NoDup (fst seen) ->
  check_finding label group total i seen f = Ok seen' <->
  finding_valid total f /\ NoDup (fst seen ++ patterns_of f) /\ id_of f ∉ snd seen /\
  seen' = (fst seen ++ patterns_of f, snd seen ++ [id_of f]).
Proof.
  intros Hn. unfold check_finding. cbv zeta. rewrite seq_ok, reject_ok, negb_false_iff. unfold id_of.
  destruct (jget_null (u "id") f) as [| | | |id| |] eqn:Hid;
    try (split; [by intros [_ ?]|intros [[_ Hfid] _]; by rewrite Hid in Hfid]).
  rewrite !seq_ok, !reject_ok, negb_false_iff, bool_decide_eq_false, text_fields_ok, bind_result_ok.
  split.
  - intros (Ho & Hb & Hin & Ht & sp & Hsp & Hr). rewrite seq_ok, check_evidence_ok, bind_result_ok in Hr.
    destruct Hr as (He & physical & Hp & Hr). rewrite !seq_ok, ret_ok, check_occurrence_ok in Hr.
    destruct Hr as ((occ & Hoc & Hle) & Hnum & <-). apply check_physical_ok in Hp as [Hp Htot].
    apply check_patterns_ok in Hsp as (Hpat & Hnd & ->); [|done]. cbn [fst snd] in *. split_and!; try done.
    split; try done; [by rewrite Hid|]. exists physical, occ. split_and!; try done.
    destruct (bool_decide (patterns_of f = [UNQUANTIFIED])) eqn:Hq.
    + unfold numbers_valid. rewrite Hq. rewrite reject_ok, negb_false_iff, andb_true_iff in Hnum.
      destruct Hnum as [H1 H2]. split; [by destruct (jget_null (u "count") f)|by destruct (jget_null (u "percentage") f)].
    + by eapply check_numbers_ok.
  - intros ([Ho Hb Ht Hpat He (physical & occ & Hp & Hoc & Htot & Hle & Hnum)] & Hnd & Hin & ->).
    rewrite Hid in Hb. split_and!; try done. exists (fst seen ++ patterns_of f, patterns_of f). split; [by apply check_patterns_ok|].
    rewrite seq_ok, check_evidence_ok, bind_result_ok. split; [done|]. exists physical. split; [by apply check_physical_ok|].
    rewrite !seq_ok, check_occurrence_ok. cbn [fst snd]. split; [by exists occ|]. split; [|done].
    destruct (bool_decide (patterns_of f = [UNQUANTIFIED])) eqn:Hq.
    + unfold numbers_valid in Hnum. rewrite Hq in Hnum. destruct Hnum as [-> ->]. done.
    + by apply check_numbers_ok.
Qed.

Lemma check_findings_ok label group total l : forall i seen seen', NoDup (fst seen) -> NoDup (snd seen) ->
  for_enum (check_finding label group total) i seen l = Ok seen' <->
  Forall (finding_valid total) l /\ NoDup (fst seen ++ mjoin (map patterns_of l)) /\ NoDup (snd seen ++ map id_of l) /\
  seen' = (fst seen ++ mjoin (map patterns_of l), snd seen ++ map id_of l).
Proof.
  induction l as [|f l IH]; intros i seen seen' Hn1 Hn2; cbn [for_enum map].
  { change (mjoin []) with (@nil pystr). rewrite !app_nil_r. destruct seen. split; [intros <-%Ok_inj; by split_and!|by intros (_ & _ & _ & ->)]. }
  change (mjoin (patterns_of f :: map patterns_of l)) with (patterns_of f ++ mjoin (map patterns_of l)).
  rewrite bind_result_ok. split.
  - intros (s & Hs & Hl). apply check_finding_ok in Hs as (Hf & Hnd & Hin & ->); [|done].
    apply IH in Hl; [|done|].
    + cbn [fst snd] in Hl. rewrite <- !app_assoc in Hl. destruct Hl as (H1 & H2 & H3 & ->). split_and!; [by constructor|done..].
    + cbn [snd]. apply NoDup_app. split_and!; [done| |apply NoDup_singleton]. intros x Hx ->%list_elem_of_singleton. done.
  - intros ([Hf Hl]%Forall_cons & Hnd & Hns & ->). exists (fst seen ++ patterns_of f, snd seen ++ [id_of f]).
    change (id_of f :: map id_of l) with ([id_of f] ++ map id_of l) in *. rewrite !app_assoc in *.
    split; [apply check_finding_ok; [done|]; split_and!; try done|].
    + by apply NoDup_app in Hnd as (? & _).
    + intros Hin. apply NoDup_app in Hns as (Hns & _ & _). apply NoDup_app in Hns as (_ & Hd & _). apply (Hd _ Hin), list_elem_of_here.
    + apply IH; cbn [fst snd]; [by apply NoDup_app in Hnd as (? & _)|by apply NoDup_app in Hns as (? & _)|]. done.
Qed.

(** *** Density *)

Definition detail_dense (max_length max_sentences : nat) (f : json) (field : pystr) : Prop :=
  forall value, jget field f = Some (JStr value) ->
    length value <= max_length /\ sentence_count value <= max_sentences /\ narrative_complete value.
Definition finding_dense (max_length max_sentences : nat) (f : json) : Prop :=
  detail_dense max_length max_sentences f (u "detail_zh") /\ detail_dense max_length max_sentences f (u "detail_en").

Lemma group_items_list group o l : jget_null group o = JList l -> group_items group o = Ok l.
Proof. unfold group_items, jor. intros ->. by destruct l. Qed.

Lemma check_density_ok group path ml ms f field :
  check_density group path ml ms f field = Ok tt <-> detail_dense ml ms f field.
Proof.
  unfold check_density, detail_dense. destruct (jget field f) as [[| | | |v| |]|]; try done.
  cbv zeta. rewrite !seq_ok, !reject_ok, !Nat.ltb_ge, validate_narrative_ok. naive_solver.
Qed.

Lemma density_in_ok label o group ml ms l : jget_null group o = JList l ->
  density_in label o group ml ms = Ok tt <-> Forall (finding_dense ml ms) l.
Proof.
  intros Hl. unfold density_in. rewrite (group_items_list _ _ _ Hl). cbn [mbind result_bind].
  rewrite for_each_ok, Forall_lookup. apply forall_proper; intros i. apply forall_proper; intros f.
  cbv zeta. by rewrite seq_ok, !check_density_ok.
Qed.

(** *** Repetition *)

(** The long details of a language, in compact form. *)
Definition long_details (suffix : pystr) (l : list json) : list pystr :=
  filter (fun d => 32 <= length d) (map compact_analysis_text (omap (fun f => v ← jget (u "detail" ++ suffix) f; jstr v) l)).

Lemma long_details_cons suffix f l : long_details suffix (f :: l) = long_details suffix [f] ++ long_details suffix l.
Proof.
  unfold long_details. cbn [omap list_omap]. destruct (v ← jget (u "detail" ++ suffix) f; jstr v); [|done].
  cbn [map]. by rewrite <- filter_app.
Qed.

Lemma check_repetition_ok label group suffix summary i seen f seen' : NoDup seen ->
  check_repetition label group suffix summary i seen f = Ok seen' <->
  NoDup (long_details suffix [f] ++ seen) /\ Forall (fun d => contains d summary = false) (long_details suffix [f]) /\
  seen' = long_details suffix [f] ++ seen.
Proof.
  intros Hn. unfold check_repetition, long_details. cbn [omap list_omap].
  assert (Hnone : (mret seen : result pyexn (list pystr)) = Ok seen' <-> NoDup ([] ++ seen) /\ Forall (fun d => contains d summary = false) [] /\ seen' = [] ++ seen).
  { rewrite ret_ok. split; [by intros ->|by intros (_ & _ & ->)]. }
  destruct (jget (u "detail" ++ suffix) f) as [[| | | |detail| |]|]; cbn [mbind option_bind jstr map]; try exact Hnone.
  cbv zeta. set (d := compact_analysis_text detail). destruct (Nat.ltb_spec (length d) 32) as [Hd|Hd].
  - rewrite filter_cons_False by lia. exact Hnone.
  - rewrite filter_cons_True, filter_nil by lia. rewrite !seq_ok, !reject_ok, ret_ok, bool_decide_eq_false. cbn [app].
    rewrite NoDup_cons, Forall_singleton. naive_solver.
Qed.

Lemma repetitions_ok label group suffix summary l : forall i seen seen', NoDup seen ->
  for_enum (check_repetition label group suffix summary) i seen l = Ok seen' <->
  NoDup (reverse (long_details suffix l) ++ seen) /\ Forall (fun d => contains d summary = false) (long_details suffix l) /\
  seen' = reverse (long_details suffix l) ++ seen.
Proof.
  induction l as [|f l IH]; intros i seen seen' Hn; cbn [for_enum].
  { split; [intros <-%Ok_inj; split_and!; [done|constructor|done]|by intros (_ & _ & ->)]. }
  assert (Hshape : forall s, reverse (long_details suffix (f :: l)) ++ s = reverse (long_details suffix l) ++ long_details suffix [f] ++ s).
  { intros s. rewrite long_details_cons, reverse_app, <- app_assoc. f_equal. f_equal. unfold long_details. cbn [omap list_omap].
    destruct (v ← jget (u "detail" ++ suffix) f; jstr v) as [p|]; [|done]. cbn [map].
    destruct (decide (32 <= length (compact_analysis_text p))); [by rewrite filter_cons_True|by rewrite filter_cons_False]. }
  rewrite bind_result_ok, Hshape, (long_details_cons _ f l), Forall_app. split.
  - intros (s & Hs & Hl). apply check_repetition_ok in Hs as (H1 & H2 & ->); [|done]. apply IH in Hl as (H3 & H4 & ->); [|done]. done.
  - intros (H1 & [H2 H3] & ->). exists (long_details suffix [f] ++ seen).
    assert (Hn' : NoDup (long_details suffix [f] ++ seen)) by (by apply NoDup_app in H1 as (_ & _ & ?)).
    split; [by apply check_repetition_ok|]. by apply IH.
Qed.

Definition not_repeated (o : json) (l : list json) (suffix : pystr) : Prop :=
  forall summary, jget (u "summary" ++ suffix) o = Some (JStr summary) ->
    NoDup (long_details suffix l) /\
    Forall (fun d => contains d (compact_analysis_text summary) = false) (long_details suffix l).

Lemma repetition_in_ok label suffix o ks ss :
  jget_null (u "key_finds") o = JList ks -> jget_null (u "secondary_finds") o = JList ss ->
  repetition_in label suffix o = Ok tt <-> not_repeated o (ks ++ ss) suffix.
Proof.
  intros Hk Hs. unfold repetition_in, not_repeated.
  destruct (jget (u "summary" ++ suffix) o) as [[| | | |summary| |]|]; try naive_solver.
  cbv zeta. rewrite (group_items_list _ _ _ Hk), (group_items_list _ _ _ Hs). cbn [mbind result_bind].
  set (sm := compact_analysis_text summary).
  assert (Happ : long_details suffix (ks ++ ss) = long_details suffix ks ++ long_details suffix ss).
  { unfold long_details. by rewrite omap_app, map_app, filter_app. }
  assert (Hiff : (NoDup (long_details suffix (ks ++ ss)) /\ Forall (fun d => contains d sm = false) (long_details suffix (ks ++ ss))) <->
    exists s, for_enum (check_repetition label (u "key_finds") suffix sm) 0 [] ks = Ok s /\
      exists s', for_enum (check_repetition label (u "secondary_finds") suffix sm) 0 s ss = Ok s').
  { rewrite Happ, Forall_app. split.
    - intros [Hnd [H1 H2]]. eexists. split; [apply repetitions_ok; [constructor|split_and!; [|done|done]]|].
      + rewrite app_nil_r, reverse_Permutation. by apply NoDup_app in Hnd as (? & _).
      + eexists. apply repetitions_ok; [rewrite app_nil_r, reverse_Permutation; by apply NoDup_app in Hnd as (? & _)|].
        split_and!; [|done|done]. by rewrite app_nil_r, !reverse_Permutation, Permutation_app_comm.
    - intros (s & Hs1 & s' & Hs2). apply repetitions_ok in Hs1 as (H1 & H2 & ->); [|constructor].
      rewrite app_nil_r in *. apply repetitions_ok in Hs2 as (H3 & H4 & _); [|done].
      rewrite !reverse_Permutation, Permutation_app_comm in H3. done. }
  split.
  - intros Hr summary' [= <-]. apply Hiff. apply bind_result_ok in Hr as (s & Hs1 & Hr).
    apply bind_result_ok in Hr as (s' & Hs2 & _). eauto.
  - intros Hr. specialize (Hr summary eq_refl). apply Hiff in Hr as (s & Hs1 & s' & Hs2). fold sm. rewrite Hs1.
    cbn [mbind result_bind]. by rewrite Hs2.
Qed.

(** *** The whole answer *)

Record answer_valid (o : json) : Prop := {
  av_total : exists total ks ss, jget_null (u "total_entries") o = JInt total /\ (0 <= total)%Z /\
    jget_null (u "key_finds") o = JList ks /\ jget_null (u "secondary_finds") o = JList ss /\
    Forall (finding_valid total) (ks ++ ss) /\
    NoDup (mjoin (map patterns_of (ks ++ ss))) /\ NoDup (map id_of (ks ++ ss)) /\
    Forall (finding_dense 600 3) ks /\ Forall (finding_dense 320 1) ss /\
    not_repeated o (ks ++ ss) (u "_zh") /\ not_repeated o (ks ++ ss) (u "_en");
  av_summaries : summary_valid (jget_null (u "summary_zh") o) /\ summary_valid (jget_null (u "summary_en") o);
  av_causation : forall text, analysis_text o = Ok text -> unsupported_causation text = false;
}.

Lemma analysis_text_list o ks ss : jget_null (u "key_finds") o = JList ks -> jget_null (u "secondary_finds") o = JList ss ->
  exists text, analysis_text o = Ok text.
Proof.
  intros Hk Hs. unfold analysis_text. rewrite (group_items_list _ _ _ Hk), (group_items_list _ _ _ Hs).
  cbn [mbind result_bind]. by eexists.
Qed.

Lemma causation_ok o label ks ss : jget_null (u "key_finds") o = JList ks -> jget_null (u "secondary_finds") o = JList ss ->
  validate_causation_language o label = Ok tt <-> forall text, analysis_text o = Ok text -> unsupported_causation text = false.
Proof.
  intros Hk Hs. destruct (analysis_text_list o ks ss Hk Hs) as [text Ht]. unfold validate_causation_language. rewrite Ht.
  cbn [mbind result_bind]. rewrite reject_ok. split; [by intros Hu t <-%Ok_inj|by intros Hu; apply Hu].
Qed.

(** *** What the checks raise *)

Lemma clean_narrative value path : clean (validate_narrative_completion value path).
Proof. unfold validate_narrative_completion. solve_clean. Qed.

Lemma clean_summary label o field : clean (check_summary label o field).
Proof. unfold check_summary. solve_clean; apply clean_narrative. Qed.

Lemma clean_claims ids : forall seen, clean (claim_patterns seen ids).
Proof. induction ids as [|id ids IH]; intros seen; cbn [claim_patterns]; solve_clean. apply IH. Qed.

Lemma clean_numbers path total physical f : clean (check_numbers path total physical f).
Proof.
  unfold check_numbers. destruct (jget_null (u "count") f); try apply clean_invalid.
  do 3 (apply clean_bind; [apply clean_reject|]; intros _ _). cbv zeta.
  apply clean_bind; [apply clean_reject|]. intros [] Hn%reject_ok%negb_false_iff. apply clean_bind.
  - unfold py_float. destruct (jget_null (u "percentage") f); try done.
    destruct (float_of_int _); try apply clean_ok. intros e [= <-]. by right.
  - intros x _. solve_clean.
Qed.

Lemma clean_finding label group total i seen f : clean (check_finding label group total i seen f).
Proof.
  unfold check_finding. cbv zeta. apply clean_bind; [apply clean_reject|]. intros _ _.
  destruct (jget_null (u "id") f); try apply clean_invalid. do 2 (apply clean_bind; [apply clean_reject|]; intros _ _).
  apply clean_bind; [apply clean_for_enum; intros; apply clean_reject|]. intros _ _.
  apply clean_bind; [unfold check_patterns; solve_clean; apply clean_claims|]. intros sp _.
  apply clean_bind; [unfold check_evidence; solve_clean|]. intros _ _.
  apply clean_bind; [unfold check_physical; solve_clean|]. intros physical _.
  apply clean_bind; [unfold check_occurrence; solve_clean|]. intros _ _.
  apply clean_bind; [|intros; apply clean_ok]. destruct (bool_decide _); [apply clean_reject|apply clean_numbers].
Qed.

Lemma check_group_list label total o seen group seen' :
  check_group label total o seen group = Ok seen' -> exists l, jget_null group o = JList l.
Proof. unfold check_group. destruct (jget_null group o); try done. eauto. Qed.

Lemma clean_density label o group ml ms l : jget_null group o = JList l -> clean (density_in label o group ml ms).
Proof.
  intros Hl. unfold density_in. rewrite (group_items_list _ _ _ Hl). cbn [mbind result_bind].
  apply clean_for_enum. intros i s f. cbv zeta.
  assert (Hc : forall path field, clean (check_density group path ml ms f field)).
  { intros path field. unfold check_density. solve_clean; apply clean_narrative. }
  apply clean_bind; [apply Hc|]. intros _ _. apply Hc.
Qed.

Lemma clean_repetition label suffix o ks ss :
  jget_null (u "key_finds") o = JList ks -> jget_null (u "secondary_finds") o = JList ss -> clean (repetition_in label suffix o).
Proof.
  intros Hk Hs. unfold repetition_in. destruct (jget (u "summary" ++ suffix) o) as [[]|]; try apply clean_ok.
  cbv zeta. rewrite (group_items_list _ _ _ Hk), (group_items_list _ _ _ Hs). cbn [mbind result_bind].
  assert (Hc : forall group summary i seen f, clean (check_repetition label group suffix summary i seen f)).
  { intros. unfold check_repetition. solve_clean. }
  apply clean_bind; [by apply clean_for_enum|]. intros seen _. apply clean_bind; [by apply clean_for_enum|]. intros; apply clean_ok.
Qed.

(** *** The validator *)

Lemma validate_accepts o label : is_obj o = true -> validate_log_triage_result o label = Ok tt <-> answer_valid o.
Proof.
  intros Ho. unfold validate_log_triage_result. rewrite py_get_jget by done. cbn [mbind result_bind].
  fold (jget_null (u "total_entries") o).
  destruct (jget_null (u "total_entries") o) as [| |total| | | |] eqn:Ht;
    try (split; [done|intros [(total & ks & ss & Htot & _) _ _]; congruence]).
  assert (Hgroups : forall seen, (seen' ← check_group label total o ([], []) (u "key_finds");
      check_group label total o seen' (u "secondary_finds")) = Ok seen <->
    exists ks ss, jget_null (u "key_finds") o = JList ks /\ jget_null (u "secondary_finds") o = JList ss /\
      Forall (finding_valid total) (ks ++ ss) /\ NoDup (mjoin (map patterns_of (ks ++ ss))) /\ NoDup (map id_of (ks ++ ss)) /\
      seen = (mjoin (map patterns_of (ks ++ ss)), map id_of (ks ++ ss))).
  { intros seen. rewrite bind_result_ok. unfold check_group. split.
    - intros (s & Hk & Hs). destruct (jget_null (u "key_finds") o) as [| | | | |ks|]; try done.
      destruct (jget_null (u "secondary_finds") o) as [| | | | |ss|]; try done.
      apply check_findings_ok in Hk as (H1 & H2 & H3 & ->); [|constructor..]. cbn [fst snd app] in *.
      apply check_findings_ok in Hs as (H4 & H5 & H6 & ->); [|done..]. cbn [fst snd] in *.
      exists ks, ss. rewrite !map_app, join_app. split_and!; try done. by apply Forall_app.
    - intros (ks & ss & -> & -> & Hv & Hp & Hi & ->). rewrite !map_app, join_app in *. apply Forall_app in Hv as [Hv1 Hv2].
      exists (mjoin (map patterns_of ks), map id_of ks).
      assert (Hn : NoDup (mjoin (map patterns_of ks)) /\ NoDup (map id_of ks)) by (split; [by apply NoDup_app in Hp as (? & _)|by apply NoDup_app in Hi as (? & _)]).
      destruct Hn as [Hn1 Hn2]. split; [apply check_findings_ok; [by apply NoDup_nil_2..|]; by split_and!|].
      apply check_findings_ok; [done..|]. by split_and!. }
  rewrite !seq_ok, reject_ok, Z.ltb_ge, !check_summary_ok, bind_result_ok. split.
  - intros (H1 & H2 & H3 & seen & Hk & Hr). apply bind_result_ok in Hr as (seen' & Hs & Hr).
    destruct (proj1 (Hgroups seen')) as (ks & ss & Gk & Gs & Gv & Gp & Gi & _); [apply bind_result_ok; by exists seen|].
    rewrite !seq_ok in Hr. unfold validate_finding_detail_density, validate_repetition in Hr. rewrite !seq_ok in Hr.
    rewrite (density_in_ok _ _ _ _ _ _ Gk), (density_in_ok _ _ _ _ _ _ Gs), !(repetition_in_ok _ _ _ _ _ Gk Gs), (causation_ok _ _ _ _ Gk Gs) in Hr.
    destruct Hr as ((D1 & D2) & (R1 & R2) & Hc). split; [|done|done]. exists total, ks, ss. by split_and!.
  - intros [(total' & ks & ss & Htot & Hpos & Gk & Gs & Gv & Gp & Gi & D1 & D2 & R1 & R2) [H2 H3] Hc].
    assert (total' = total) as -> by congruence. split_and!; [done..|].
    assert (Hg := proj2 (Hgroups (mjoin (map patterns_of (ks ++ ss)), map id_of (ks ++ ss)))).
    rewrite bind_result_ok in Hg. destruct Hg as (seen & Hk & Hs); [by exists ks, ss|]. exists seen. split; [done|].
    apply bind_result_ok. eexists. split; [exact Hs|]. rewrite !seq_ok.
    unfold validate_finding_detail_density, validate_repetition. rewrite !seq_ok.
    by rewrite (density_in_ok _ _ _ _ _ _ Gk), (density_in_ok _ _ _ _ _ _ Gs), !(repetition_in_ok _ _ _ _ _ Gk Gs), (causation_ok _ _ _ _ Gk Gs).
Qed.

Lemma validate_clean o label : is_obj o = true -> clean (validate_log_triage_result o label).
Proof.
  intros Ho. unfold validate_log_triage_result. rewrite py_get_jget by done. cbn [mbind result_bind].
  destruct (default JNull (jget (u "total_entries") o)); try apply clean_invalid.
  apply clean_bind; [apply clean_reject|]. intros _ _. do 2 (apply clean_bind; [apply clean_summary|]; intros _ _).
  assert (Hg : forall seen group, clean (check_group label n o seen group)).
  { intros seen group. unfold check_group. destruct (jget_null group o); try apply clean_invalid.
    apply clean_for_enum. intros; apply clean_finding. }
  apply clean_bind; [apply Hg|]. intros seen [ks Hk]%check_group_list.
  apply clean_bind; [apply Hg|]. intros seen' [ss Hs]%check_group_list.
  apply clean_bind.
  { apply clean_bind; [by eapply clean_density|]. intros _ _. by eapply clean_density. }
  intros _ _. apply clean_bind.
  { apply clean_bind; [by eapply clean_repetition|]. intros _ _. by eapply clean_repetition. }
  intros _ _. destruct (analysis_text_list o ks ss Hk Hs) as [text Ht]. unfold validate_causation_language. rewrite Ht.
  apply clean_reject.
Qed.

(** C40. The log triage validator decides a declarative specification: an
    object is accepted exactly when its total, summaries, findings, numbers,
    identities, narratives and causal language are valid, and a rejected one
    raises the validator's own exception, or an overflow when a percentage is
    an integer too large for a float. *)
Theorem validate_log_triage_spec o label : is_obj o = true ->
  (validate_log_triage_result o label = Ok tt <-> answer_valid o) /\
  forall e, validate_log_triage_result o label = Raise e -> x_class e = OutputValidationError \/ e = overflow_error.
Proof. intros Ho. split; [by apply validate_accepts|]. by apply validate_clean. Qed.

(** *** Shortened narratives *)

Definition endings (s : pystr) : pystr := filter (fun c => is_ending c = true) s.

Lemma endings_cons c s : endings (c :: s) = if is_ending c then c :: endings s else endings s.
Proof.
  unfold endings. destruct (is_ending c) eqn:E; [by rewrite filter_cons_True|].
  rewrite filter_cons_False; [done|]. by rewrite E.
Qed.

Lemma endings_app s t : endings (s ++ t) = endings s ++ endings t.
Proof. apply filter_app. Qed.

Lemma endings_from_length i s : length (endings_from i s) = length (endings s).
Proof.
  revert i. induction s as [|c s IH]; intros i; [done|]. cbn [endings_from]. rewrite endings_cons. unfold is_ending.
  destruct (bool_decide (c ∈ SENTENCE_ENDINGS)); simpl; by rewrite IH.
Qed.

(** The [k]-th position follows the [k]-th ending. *)
Lemma endings_from_lookup s : forall i k e, endings_from i s !! k = Some e ->
  exists a c b, s = a ++ c :: b /\ e = i + S (length a) /\ is_ending c = true /\ length (endings a) = k.
Proof.
  induction s as [|c s IH]; intros i k e; cbn [endings_from]; [done|]. destruct (bool_decide (c ∈ SENTENCE_ENDINGS)) eqn:Hc.
  - destruct k as [|k]; [intros [= <-]; exists [], c, s; split_and!; [done|simpl; lia|done|done]|].
    intros (a & c' & b & -> & -> & Hc' & Hk)%IH. exists (c :: a), c', b. split_and!; [done|simpl; lia|done|].
    rewrite endings_cons. unfold is_ending. rewrite Hc. simpl. by rewrite Hk.
  - intros (a & c' & b & -> & -> & Hc' & Hk)%IH. exists (c :: a), c', b. split_and!; [done|simpl; lia|done|].
    rewrite endings_cons. unfold is_ending. by rewrite Hc.
Qed.

(** The positions within a bound are the first ones. *)
Lemma usable_lookup s mc : forall i k e, filter (fun j => Nat.leb j mc) (endings_from i s) !! k = Some e ->
  endings_from i s !! k = Some e /\ e <= mc.
Proof.
  induction s as [|c s IH]; intros i k e; cbn [endings_from]; [done|].
  destruct (bool_decide (c ∈ SENTENCE_ENDINGS)); [|apply IH]. destruct (Nat.leb (S i) mc) eqn:Hi.
  - rewrite filter_cons_True by (by rewrite Hi). apply Nat.leb_le in Hi. destruct k as [|k]; [by intros [= <-]|]. apply IH.
  - rewrite filter_cons_False by (rewrite Hi; by intros []). intros Hk. apply Nat.leb_gt in Hi.
    apply IH in Hk as [(a & c' & b & _ & -> & _)%endings_from_lookup Hle]. lia.
Qed.

Lemma sentence_count_le s n : 1 <= n -> length (endings s) <= n -> sentence_count s <= n.
Proof. unfold sentence_count, endings. lia. Qed.

Lemma ending_not_space c : is_ending c = true -> is_space c = false.
Proof.
  unfold is_ending. intros Hc%bool_decide_eq_true. destruct (is_space c) eqn:E; [|done].
  assert (Hall : Forall (fun c => is_space c = false) SENTENCE_ENDINGS) by (repeat constructor).
  rewrite Forall_forall in Hall. by rewrite Hall in E.
Qed.

(** A beginning of a stripped text that ends with an ending is stripped. *)
Lemma strip_cut value a c b : strip value = a ++ c :: b -> is_ending c = true -> strip (a ++ [c]) = a ++ [c].
Proof.
  intros Hs Hc. apply strip_id.
  - intros d r Hd. apply (strip_first value d (r ++ b)). rewrite Hs. change (c :: b) with ([c] ++ b). rewrite app_assoc, Hd. done.
  - intros r d Hd. apply app_inj_tail in Hd as [_ <-]. by apply ending_not_space.
Qed.

Lemma compact_narrative_inv value mc ms t : 1 <= ms -> compact_narrative value mc ms = Ok t ->
  (t = strip value /\ length t <= mc /\ length (endings t) <= ms) \/
  exists a c b, strip value = a ++ c :: b /\ t = a ++ [c] /\ is_ending c = true /\ S (length a) <= mc /\ length (endings a) < ms.
Proof.
  intros Hms. unfold compact_narrative. cbv zeta. destruct (_ && _) eqn:E.
  - intros <-%Ok_inj. rewrite andb_true_iff, !Nat.leb_le, endings_from_length in E. by left.
  - destruct (filter _ _) as [|i usable] eqn:Hu; [done|]. intros <-%Ok_inj. right.
    set (k := Nat.min ms (S (length usable)) - 1).
    assert (Hk : (i :: usable) !! k = Some (nth k (i :: usable) 0)).
    { rewrite nth_lookup. destruct ((i :: usable) !! k) eqn:El; [done|]. apply lookup_ge_None in El. subst k. simpl in El. lia. }
    rewrite <- Hu in Hk at 1. apply usable_lookup in Hk as [Hk Hle]. set (e := nth k (i :: usable) 0) in *.
    apply endings_from_lookup in Hk as (a & c & b & Hs & He & Hc & Hl). rewrite Nat.add_0_l in He.
    exists a, c, b. split_and!; [done| |done|lia|subst k; lia].
    rewrite Hs, He. change (c :: b) with ([c] ++ b). rewrite app_assoc, take_app_length' by (rewrite length_app; simpl; lia).
    by eapply strip_cut.
Qed.

(** The shortening of the fallback path meets the limits the validator
    checks: what it returns has at most the allowed characters and sentences,
    is the stripped text or a beginning of it that ends with a sentence
    ending, and loses nothing when the text was within the limits. *)
Theorem compaction_meets_limits value mc ms t : 1 <= ms -> compact_narrative value mc ms = Ok t ->
  length t <= mc /\ sentence_count t <= ms /\ (exists rest, strip value = t ++ rest) /\
  (t = strip value \/ exists a c, t = a ++ [c] /\ is_ending c = true) /\
  (length (strip value) <= mc -> sentence_count (strip value) <= ms -> t = strip value).
Proof.
  intros Hms Ht. split_and!.
  1-4: destruct (compact_narrative_inv _ _ _ _ Hms Ht) as [(-> & H1 & H2)|(a & c & b & Hs & -> & Hc & Hl & He)].
  - done.
  - rewrite length_app. simpl. lia.
  - by apply sentence_count_le.
  - apply sentence_count_le; [done|]. rewrite endings_app, length_app, endings_cons, Hc. simpl. lia.
  - exists []. by rewrite app_nil_r.
  - exists b. by rewrite <- app_assoc.
  - by left.
  - right. by exists a, c.
  - intros H1 H2. unfold compact_narrative in Ht. cbv zeta in Ht.
    rewrite (proj2 (Nat.leb_le _ _) H1), endings_from_length in Ht. unfold sentence_count, endings in *.
    rewrite (proj2 (Nat.leb_le (length _) ms)) in Ht by lia. by apply Ok_inj in Ht.
Qed.

(** The point of a decimal number ends a sentence for both the validator
    and the shortening: a secondary detail whose first ending is such a point
    is rejected as too many sentences, and the fallback keeps the text up to
    the point, which changes the number. *)
Theorem decimal_point_ends_sentence value a b group path field f :
  strip value = a ++ u "." ++ b -> endings a = [] -> endings b <> [] -> S (length a) <= 320 ->
  jget field f = Some (JStr value) ->
  compact_narrative value 320 1 = Ok (a ++ u ".") /\ (exists e, check_density group path 320 1 f field = Raise e).
Proof.
  intros Hs Ha Hb Hl Hf. assert (Hdot : is_ending 46 = true) by done. change (u ".") with [46%Z] in *.
  assert (Hmany : 2 <= length (endings (strip value))).
  { rewrite Hs, endings_app, endings_app, Ha, endings_cons, Hdot. destruct (endings b); [done|]. simpl. lia. }
  split.
  - unfold compact_narrative. cbv zeta. rewrite (proj2 (Nat.leb_gt (length (endings_from 0 (strip value))) 1)) by (rewrite endings_from_length; lia).
    rewrite andb_false_r.
    assert (Hfrom : endings_from 0 (strip value) = S (length a) :: endings_from (S (length a)) b).
    { rewrite Hs. assert (Hg : forall i, endings_from i (a ++ [46%Z] ++ b) = S (i + length a) :: endings_from (S (i + length a)) b); [|apply Hg].
      clear -Ha Hdot. induction a as [|c a IH]; intros i.
      - cbn [app endings_from]. change (bool_decide (46%Z ∈ SENTENCE_ENDINGS)) with (is_ending 46). rewrite Hdot. simpl. by rewrite Nat.add_0_r.
      - rewrite endings_cons in Ha. cbn [app endings_from]. change (bool_decide (c ∈ SENTENCE_ENDINGS)) with (is_ending c).
        destruct (is_ending c); [done|]. rewrite IH by done. simpl. by rewrite Nat.add_succ_r. }
    rewrite Hfrom. rewrite filter_cons_True by (by rewrite (proj2 (Nat.leb_le _ _) Hl)).
    replace (Nat.min 1 _ - 1) with 0 by (simpl; lia). cbn [nth]. rewrite Hs, app_assoc, take_app_length' by (rewrite length_app; simpl; lia).
    f_equal. eapply strip_cut; [|exact Hdot]. rewrite Hs. done.
  - unfold check_density. rewrite Hf. cbv zeta. destruct (reject_if (Nat.ltb 320 (length value)) _) as [[]|e]; [|by exists e].
    cbn [mbind result_bind]. assert (Hc : Nat.ltb 1 (sentence_count value) = true).
    { apply Nat.ltb_lt. unfold sentence_count. fold (endings value).
      assert (Hsub : length (endings (strip value)) <= length (endings value)); [|lia].
      unfold strip, lstrip_by. destruct (drop_while_suffix is_space value) as [k Hk].
      destruct (rstrip_by_prefix is_space (drop_while is_space value)) as [k' Hk'].
      rewrite Hk at 2. rewrite Hk' at 2. rewrite !endings_app, !length_app. lia. }
    rewrite Hc. by eexists.
Qed.

(** *** Findings filed for unlabeled templates *)

Lemma rstrip_chars_snoc chars s c : rstrip_chars chars (s ++ [c]) = if bool_decide (c ∈ chars) then rstrip_chars chars s else s ++ [c].
Proof. apply rstrip_by_snoc. Qed.

Lemma incomplete_punctuation s c : c ∈ u ":;,/" -> matches re_TRAILING_INCOMPLETE (s ++ [c]) = true.
Proof.
  intros Hc. assert (Hre : exists rest, re_TRAILING_INCOMPLETE = Seq (Alt (Chr (one_of (u ":;,/"))) rest) End) by (eexists; reflexivity).
  destruct Hre as [rest ->]. eapply matches_at. unfold match_here. cbn [run]. unfold next_is. cbn [after].
  unfold one_of. rewrite bool_decide_eq_true_2 by done. reflexivity.
Qed.

Lemma endswith_snoc p s c : endswith (p ++ [c]) (s ++ [c]) = endswith p s.
Proof. unfold endswith. rewrite !reverse_snoc. simpl. by rewrite Z.eqb_refl. Qed.

Lemma endswith_other p s c d : c <> d -> endswith (p ++ [c]) (s ++ [d]) = false.
Proof. intros Hne. unfold endswith. rewrite !reverse_snoc. simpl. by rewrite (proj2 (Z.eqb_neq c d)). Qed.

Lemma endings_list : SENTENCE_ENDINGS = [46; 33; 63; 12290; 65281; 65311]%Z.
Proof. vm_compute. reflexivity. Qed.
Lemma dot_not_closer : bool_decide (46%Z ∈ CLOSERS) = false.
Proof. vm_compute. reflexivity. Qed.
Lemma openers : u ":;,/" = [58; 59; 44; 47]%Z.
Proof. vm_compute. reflexivity. Qed.
Lemma three_dots : u "..." = ([46%Z] ++ [46%Z]) ++ [46%Z].
Proof. vm_compute. reflexivity. Qed.
Lemma ellipsis : u "…" = [] ++ [8230%Z].
Proof. vm_compute. reflexivity. Qed.

(** A sentence whose last word is followed by an opening punctuation mark. *)
Lemma opened_narrative path s d c : c ∈ u ":;,/" -> s = u "O" ++ d ++ [c] ++ u "." ->
  validate_narrative_completion s path = Raise (invalid (path ++ u " ends with an incomplete phrase")).
Proof.
  intros Hc ->. change (u ".") with [46%Z]. change (u "O") with [79%Z].
  assert (Hdot : 46%Z <> c) by (rewrite openers in Hc; intros <-; revert Hc; apply (bool_decide_unpack _); vm_compute; exact I).
  assert (Hend : c ∉ SENTENCE_ENDINGS).
  { rewrite openers in Hc. rewrite endings_list. intros Hin. revert Hc. revert c Hin Hdot.
    assert (Hall : Forall (fun c => c ∉ [58; 59; 44; 47]%Z) [46; 33; 63; 12290; 65281; 65311]%Z)
      by (apply (bool_decide_unpack _); vm_compute; exact I).
    rewrite Forall_forall in Hall. intros c Hin _. by apply Hall. }
  assert (Hstrip : strip ([79%Z] ++ d ++ [c] ++ [46%Z]) = [79%Z] ++ d ++ [c] ++ [46%Z]).
  { apply strip_id; [by intros x r [= <- _]|]. intros r x Hr. rewrite !app_assoc in Hr. by apply app_inj_tail in Hr as [_ <-]. }
  rewrite !app_assoc in *. set (text := (([79%Z] ++ d) ++ [c]) ++ [46%Z]) in *.
  assert (Hends : endswith (u "...") text || endswith (u "…") text = false).
  { unfold text. rewrite three_dots, endswith_snoc, endswith_other, ellipsis, endswith_other by done. done. }
  assert (Hlex : rstrip_chars SENTENCE_ENDINGS (rstrip_chars CLOSERS text) = ([79%Z] ++ d) ++ [c]).
  { unfold text. rewrite rstrip_chars_snoc, dot_not_closer, rstrip_chars_snoc, bool_decide_eq_true_2
      by (rewrite endings_list; apply list_elem_of_here).
    by rewrite rstrip_chars_snoc, bool_decide_eq_false_2. }
  unfold validate_narrative_completion. rewrite Hstrip. cbv zeta. rewrite Hends, Hlex, incomplete_punctuation by done.
  rewrite reject_seq by (by apply bool_decide_eq_false_2). by rewrite reject_seq.
Qed.

Lemma observed_prefix : u "Observed related log entries matching: " = u "O" ++ u "bserved related log entries matching: ".
Proof. vm_compute. reflexivity. Qed.

(** The finding that pattern reconciliation files for a template nobody
    cited quotes the template in a sentence, and the validator rejects the
    sentence when the template ends with a colon, a semicolon, a comma or a
    slash: no answer that holds such a finding is accepted, so a log with
    such a template is never analysed unless the model cites it. *)
Theorem unlabeled_template_rejected st fam items d c o label ss :
  descriptor (family_label st (match items with p :: _ => p_template p | [] => [] end) fam) = d ++ [c] -> c ∈ u ":;,/" ->
  is_obj o = true -> jget_null (u "secondary_finds") o = JList ss -> unlabeled_finding st fam items ∈ ss ->
  validate_log_triage_result o label <> Ok tt.
Proof.
  intros Hd Hc Ho Hs Hin Hv. apply validate_accepts in Hv; [|done].
  destruct (av_total _ Hv) as (total & ks & ss' & _ & _ & _ & Hs' & _ & _ & _ & _ & Hdense & _).
  assert (ss' = ss) as -> by congruence. rewrite Forall_forall in Hdense. apply Hdense in Hin as [_ Hen].
  destruct (Hen (u "Observed related log entries matching: " ++ d ++ [c] ++ u ".")) as (_ & _ & Hcomplete).
  { unfold unlabeled_finding. cbv zeta. rewrite Hd, <- (app_assoc d). reflexivity. }
  apply (validate_narrative_ok _ []) in Hcomplete.
  rewrite (opened_narrative [] _ (u "bserved related log entries matching: " ++ d) c Hc) in Hcomplete; [discriminate|].
  rewrite observed_prefix. by rewrite <- !app_assoc.
Qed.
End validation_theorems.

(** ** Witnesses *)
Definition good_finding (id detail_en detail_zh : pystr) (pid : pystr) (n : Z) : json := JObj [
  (u "id", JStr id); (u "label_en", JStr (u "Search timeout")); (u "label_zh", JStr (u "检索超时"));
  (u "detail_en", JStr detail_en); (u "detail_zh", JStr detail_zh);
  (u "pattern_ids", json_strs [pid]); (u "count", JInt n); (u "percentage", percentage n 3)].
Definition good_answer : json := JObj [
  (u "total_entries", JInt 3);
  (u "summary_en", JStr (u "The search backend timed out. Logins were refused."));
  (u "summary_zh", JStr (u "检索后端超时。登录被拒绝。"));
  (u "key_finds", JList [good_finding (u "f1") (u "The search backend timed out twice.") (u "检索后端两次超时。") (u "p-1") 2]);
  (u "secondary_finds", JList [good_finding (u "f2") (u "One login was refused.") (u "一次登录被拒绝。") (u "p-2") 1])].

Lemma validate_log_triage_witness : @answer_valid cjk_unicode good_answer.
Proof.
  apply (proj1 (@validate_log_triage_spec cjk_unicode no_text good_answer (u "output") eq_refl)). vm_compute. reflexivity.
Defined.

Definition decimal_detail : pystr := u "Latency reached 99.5 seconds on the gateway.".
Definition decimal_finding : json := JObj [(u "detail_en", JStr decimal_detail)].

Lemma compaction_meets_limits_witness : length (u "Latency reached 99.") <= 320 /\ sentence_count (u "Latency reached 99.") <= 1.
Proof.
  destruct (compaction_meets_limits decimal_detail 320 1 (u "Latency reached 99.")) as (H1 & H2 & _).
  - apply le_n.
  - vm_compute. reflexivity.
  - split; [exact H1|exact H2].
Defined.

Lemma decimal_point_witness : compact_narrative decimal_detail 320 1 = Ok (u "Latency reached 99" ++ u ".").
Proof.
  apply (@decimal_point_ends_sentence cjk_unicode decimal_detail (u "Latency reached 99") (u "5 seconds on the gateway.")
    (u "secondary_finds") (u "p") (u "detail_en") decimal_finding).
  - vm_compute. reflexivity.
  - vm_compute. reflexivity.
  - vm_compute. discriminate.
  - vm_compute. lia.
  - vm_compute. reflexivity.
Defined.

Definition open_pattern : log_pattern := mk_pattern (u "p-1") (u "upload failed:") 1 [] None None.
Definition open_finding : json := @unlabeled_finding cjk_unicode no_statistics (u "template:p-1") [open_pattern].
Definition open_answer : json := JObj [(u "total_entries", JInt 1); (u "secondary_finds", JList [open_finding])].

Lemma unlabeled_template_witness : @validate_log_triage_result cjk_unicode no_text open_answer (u "output") <> Ok tt.
Proof.
  apply (@unlabeled_template_rejected cjk_unicode no_text no_statistics (u "template:p-1") [open_pattern]
    (u "upload failed") 58%Z open_answer (u "output") [open_finding]).
  - vm_compute. reflexivity.
  - vm_compute. left.
  - reflexivity.
  - reflexivity.
  - apply list_elem_of_here.
Defined.
