(* ===== verification/Snapshots.v ===== *)
(** * Skill snapshots

    The rows of [skill_snapshots] ([apps/api/app/models/models.py]) that the
    API's registry writes and the worker's registry reads, the content hash
    both compute, and the reading of a manifest's dependency declarations they
    share.  A table is the list of its rows; [ORDER BY] is [Sweep.oldest] on a
    key.  The YAML library is the parameter [yaml_safe_load].  Identifiers are
    the text of a UUID.  The values an f-string interpolates are left out of
    error messages. *)

From S2P Require Import Prelude PyStr Json Failures PyVal PyColl Sweep Sha256.

Record snapshot := mk_snapshot {
  sn_id : pystr;
  skill_name : pystr;
  version_label : Z;
  content_hash : pystr;
  execution_hash : option pystr;
  skill_md : pystr;
  output_schema_json : pystr;
  manifest_yaml : pystr;
  dependency_snapshot_ids : list (pystr * pystr);
  created_at : option Z;
  is_active : bool;
}.
#[global] Instance snapshot_eq_dec : EqDecision snapshot.
Proof. solve_decision. Defined.

(** [yaml.safe_load], for documents whose values JSON has too, and the classes
    that derive from [yaml.YAMLError]. *)
Class YamlLoader := { yaml_safe_load : pystr -> result pyexn json; yaml_error : exn_class -> bool }.

(** The three identity files of a skill directory, as far as they exist. *)
Record skill_files := mk_files { f_prompt : option (list Z); f_schema : option (list Z); f_manifest : option (list Z) }.

(** Text mode: the line endings of every platform are read as newlines. *)
Fixpoint universal_newlines (s : pystr) : pystr :=
  match s with
  | [] => []
  | 13%Z :: 10%Z :: r => 10%Z :: universal_newlines r
  | 13%Z :: r => 10%Z :: universal_newlines r
  | c :: r => c :: universal_newlines r
  end.

(** [[f(x) for x in l]] for a call that can raise. *)
Fixpoint each {A B} (f : A -> result pyexn B) (l : list A) : result pyexn (list B) :=
  match l with [] => Ok [] | x :: l => y ← f x; ys ← each f l; mret (y :: ys) end.

(** ** Content hash *)

(** [digest.update(len(contents).to_bytes(8, "big")); digest.update(contents)] *)
Definition framed (contents : list Z) : list Z := be_bytes 8 (Z.of_nat (length contents)) ++ contents.
Definition digest_of (prompt schema manifest : list Z) : pystr :=
  hexdigest (framed prompt ++ framed schema ++ framed manifest).

(** ** Conversions *)

(** The digits of an integer literal, single underscores between them. *)
Fixpoint int_digits `{UnicodeData} (acc : Z) (fresh : bool) (s : pystr) : option Z :=
  match s with
  | [] => if fresh then None else Some acc
  | c :: s => if uni_digit c then int_digits (acc * 10 + uni_decimal c) false s
              else if (c =? 95)%Z && negb fresh then int_digits acc true s else None
  end.
Definition int_of_str `{UnicodeData} (s : pystr) : option Z :=
  match strip s with
  | 45%Z :: d => Z.opp <$> int_digits 0 true d
  | 43%Z :: d => int_digits 0 true d
  | d => int_digits 0 true d
  end.

Definition trunc_float (x : SpecFloat.spec_float) : result pyexn Z :=
  match x with
  | SpecFloat.S754_zero _ => Ok 0%Z
  | SpecFloat.S754_finite s m e =>
      let a := if (0 <=? e)%Z then (Zpos m * 2 ^ e)%Z else (Zpos m / 2 ^ (- e))%Z in Ok (if s then - a else a)%Z
  | SpecFloat.S754_infinity _ => Raise (mk_exn (ForeignError (u "OverflowError") false) (u "cannot convert float infinity to integer"))
  | SpecFloat.S754_nan => Raise (value_error (u "cannot convert float NaN to integer"))
  end.

(** [int(j)] *)
Definition int_of `{UnicodeData} (j : json) : result pyexn Z :=
  match j with
  | JInt n => Ok n
  | JBool b => Ok (if b then 1 else 0)%Z
  | JFloat x => trunc_float x
  | JStr s => match int_of_str s with Some n => Ok n | None => Raise (value_error (u "invalid literal for int() with base 10")) end
  | _ => Raise (type_error (u "int() argument must be a string, a bytes-like object or a real number, not '" ++ type_name j ++ u "'"))
  end.

(** ** Dependencies *)

(** [dependency if isinstance(dependency, str) else dependency.get("id")] *)
Definition dependency_name (dependency : json) : result pyexn json :=
  match dependency with JStr s => Ok (JStr s) | _ => py_get (u "id") JNull dependency end.

(** [pins.get(name)]: lists and objects cannot be keys. *)
Definition pinned_id (pins : list (pystr * pystr)) (name : json) : result pyexn (option pystr) :=
  match name with
  | JStr s => Ok (assoc s pins)
  | JList _ | JObj _ => Raise (type_error (u "unhashable type: '" ++ type_name name ++ u "'"))
  | _ => Ok None
  end.

(** [dependency.get("version")] of an object that declares one. *)
Definition declared_version (dependency : json) : option json :=
  match dependency with
  | JObj o => match assoc (u "version") o with Some JNull | None => None | Some v => Some v end
  | _ => None
  end.

(** ** Queries *)
Definition by_id (id : pystr) (db : list snapshot) : option snapshot :=
  find_first (fun s => bool_decide (sn_id s = id)) db.

Definition version_key (s : snapshot) : option Z * option Z := (Some (- version_label s)%Z, None).

(** [WHERE skill_name = name (AND version_label = version) ORDER BY version_label DESC LIMIT 1] *)
Definition latest_named (name : pystr) (version : option Z) (db : list snapshot) : option snapshot :=
  oldest version_key (fun s => bool_decide (skill_name s = name) &&
    match version with Some v => (version_label s =? v)%Z | None => true end) db.

(** The comparison of a [VARCHAR] column with a value that is not text. *)
Definition operator_error : pyexn := mk_exn (ForeignError (u "UndefinedFunction") false) (u "operator does not exist").

(** The same query for a name of unknown type; [NULL] equals nothing. *)
Definition latest_of (name : json) (version : option Z) (db : list snapshot) : result pyexn (option snapshot) :=
  match name with
  | JStr s => Ok (latest_named s version db)
  | JNull => Ok None
  | _ => Raise operator_error
  end.

(** ** Execution hash *)

(** The identity of a dependency in the execution hash. *)
Record component := mk_component { co_id : pystr; co_content : pystr; co_execution : pystr }.

(** [components.sort(key=lambda item: (item["id"], item["content_hash"]))] *)
Definition component_leb (x y : component) : bool :=
  if decide (co_id x = co_id y) then str_leb (co_content x) (co_content y) else str_leb (co_id x) (co_id y).

(** [json.dumps(payload, sort_keys=True, separators=(",", ":"))] of the
    payload [{"content_hash": ..., "dependencies": components}]. *)
Definition component_text (c : component) : pystr :=
  u "{" ++ dump_str (u "content_hash") ++ u ":" ++ dump_str (co_content c) ++
  u "," ++ dump_str (u "execution_hash") ++ u ":" ++ dump_str (co_execution c) ++
  u "," ++ dump_str (u "id") ++ u ":" ++ dump_str (co_id c) ++ u "}".
Definition payload_text (content : pystr) (components : list component) : pystr :=
  u "{" ++ dump_str (u "content_hash") ++ u ":" ++ dump_str content ++
  u "," ++ dump_str (u "dependencies") ++ u ":[" ++ py_join (u ",") (map component_text components) ++ u "]}".
Definition identity_hash (content : pystr) (components : list component) : pystr :=
  hexdigest (utf8_encode (payload_text content (py_sorted component_leb components))).

(** ** Lemmas *)

Lemma each_ok {A B} (f : A -> result pyexn B) l ys : each f l = Ok ys <-> Forall2 (fun x y => f x = Ok y) l ys.
Proof.
  revert ys. induction l as [|x l IH]; intros ys; simpl.
  - split; [intros <-%Ok_inj; constructor|by inversion 1].
  - unfold mbind, result_bind. destruct (f x) as [y|] eqn:Hx.
    + destruct (each f l) as [ys'|] eqn:Hl.
      * split; [intros <-%Ok_inj; constructor; [done|by apply IH]|]. inversion 1 as [|? y' ? ys2 Hy Hys]; subst.
        apply IH in Hys. assert (y = y') by congruence. assert (ys' = ys2) by congruence. by subst.
      * split; [done|]. inversion 1 as [|? y' ? ys2 Hy Hys]; subst. apply IH in Hys. congruence.
    + split; [done|]. inversion 1; subst. congruence.
Qed.

Lemma each_impl {A B} (f g : A -> result pyexn B) l ys :
  (forall x y, x ∈ l -> f x = Ok y -> g x = Ok y) -> each f l = Ok ys -> each g l = Ok ys.
Proof.
  rewrite !each_ok. intros Hfg. induction 1 as [|x y l ys Hx Hl IH]; constructor; [apply Hfg; [set_solver|done]|].
  apply IH. intros. apply Hfg; [set_solver|done].
Qed.

Lemma by_id_Some id db sn : by_id id db = Some sn -> sn ∈ db /\ sn_id sn = id.
Proof. intros [Hin Hid]%find_first_Some. split; [done|]. by apply bool_decide_eq_true_1 in Hid. Qed.

Lemma row_unique db x y : NoDup (map sn_id db) -> x ∈ db -> y ∈ db -> sn_id x = sn_id y -> x = y.
Proof. apply list_key_unique. Qed.

Lemma latest_named_in name v l sn : latest_named name v l = Some sn -> sn ∈ l /\ skill_name sn = name.
Proof.
  intros (Hin & Hp & _)%oldest_Some. split; [done|]. apply andb_true_iff in Hp as [Hn _]. by apply bool_decide_eq_true_1 in Hn.
Qed.

(** Rows whose skill is not on a path of skill names. *)
Definition unvisited (db : list snapshot) (active : list pystr) : nat := length (filter (fun sn => skill_name sn ∉ active) db).

Lemma unvisited_step db sn active : sn ∈ db -> skill_name sn ∉ active ->
  unvisited db (skill_name sn :: active) < unvisited db active.
Proof.
  unfold unvisited. induction db as [|x l IH]; [set_solver|]. intros [->|Hin]%elem_of_cons Hn.
  - rewrite !filter_cons. rewrite decide_False by set_solver. rewrite decide_True by done. simpl.
    apply Nat.lt_succ_r. clear. induction l as [|y l IH]; [done|]. rewrite !filter_cons. repeat case_decide; simpl; try lia. set_solver.
  - specialize (IH Hin Hn). rewrite !filter_cons. repeat case_decide; simpl; try lia. set_solver.
Qed.

Lemma unvisited_bound db active : unvisited db active <= length db.
Proof. apply length_filter. Qed.

(** ** Examples *)

(** The loader used to evaluate examples: YAML's JSON subset. *)
Definition json_yaml : YamlLoader := {|
  yaml_safe_load text := match json_loads text with
    | Some j => Ok j
    | None => Raise (mk_exn (ForeignError (u "YAMLError") false) (u "not a document"))
    end;
  yaml_error c := bool_decide (c = ForeignError (u "YAMLError") false) |}.

(** A row with the content hash of its own text. *)
Definition sample_row (id name : pystr) (version : Z) (manifest : json) (pins : list (pystr * pystr)) (active : bool) : snapshot :=
  let prompt := u "# skill" in
  let schema := u "{}" in
  let text := json_dumps (fun _ => []) manifest in
  mk_snapshot id name version (digest_of (utf8_encode prompt) (utf8_encode schema) (utf8_encode text)) None prompt schema text pins None active.
Definition sample_manifest (name : pystr) (dependencies : list json) : json :=
  JObj [(u "id", JStr name); (u "dependencies", JList dependencies)].

Definition triage_row : snapshot := sample_row (u "a1") (u "log-triage") 1 (sample_manifest (u "log-triage") []) [] true.
Definition report_row : snapshot :=
  sample_row (u "b1") (u "daily-report") 1 (sample_manifest (u "daily-report") [JStr (u "log-triage")]) [(u "log-triage", u "a1")] true.
Definition sample_rows : list snapshot := [triage_row; report_row].
(** A row that depends on itself. *)
Definition cyclic_row : snapshot := sample_row (u "c1") (u "loop") 1 (sample_manifest (u "loop") [JStr (u "loop")]) [] true.
