(* ===== verification/SkillRegistry.v ===== *)
(** * Materialising a job's skill

    [bridge/noc_bridge/skill_registry.py]: the worker verifies the snapshot a
    job names, recomputes its execution hash and writes it and its transitive
    dependencies into the job's workspace.

    The workspace is the list of skill directories in the order they are
    written; the two bookkeeping arguments the recursion mutates are part of
    the same state.  Skill names are single path components.  The recursion is
    unbounded in the source; here it takes fuel, and running out of it raises
    [RecursionError]; the theorems show that one more than the number of rows
    is always enough. *)

From S2P Require Import Prelude PyStr Json Failures PyVal PyColl Sweep Sha256 Snapshots.

Definition missing (msg : pystr) : pyexn := mk_exn SkillSnapshotMissing msg.
Definition recursion_error : pyexn :=
  mk_exn (ForeignError (u "RecursionError") false) (u "maximum recursion depth exceeded").
Definition sql_syntax_error : pyexn := mk_exn (ForeignError (u "SyntaxError") false) (u "syntax error at or near WHERE").

(** ** The live checkout *)

Definition file_not_found : pyexn := mk_exn (ForeignError (u "FileNotFoundError") false) (u "No such file or directory").
Definition read_bytes (file : option (list Z)) : result pyexn (list Z) :=
  match file with Some b => Ok b | None => Raise file_not_found end.

Definition compute_skill_hash (skills_dir : pystr -> skill_files) (name : pystr) : result pyexn pystr :=
  prompt ← read_bytes (f_prompt (skills_dir name));
  schema ← read_bytes (f_schema (skills_dir name));
  manifest ← read_bytes (f_manifest (skills_dir name));
  mret (digest_of prompt schema manifest).

Definition verify_skill_hash (skills_dir : pystr -> skill_files) (name : pystr) (expected_hash : option pystr) : result pyexn () :=
  match expected_hash with
  | None => Ok tt
  | Some expected =>
      actual ← compute_skill_hash skills_dir name;
      if decide (actual = expected) then Ok tt else Raise (mk_exn SkillHashMismatch (u "skill hash mismatch"))
  end.

(** ** Queries *)

(** [fetch_skill_snapshot].  The conditional expression binds looser than the
    concatenation of the literals, so that without a snapshot id the statement
    is the bare [WHERE content_hash = ...] clause. *)
Definition fetch_skill_snapshot (db : list snapshot) (content_hash snapshot_id : option pystr) : result pyexn (option snapshot) :=
  match snapshot_id with
  | Some ((_ :: _) as id) => Ok (by_id id db)
  | _ => Raise sql_syntax_error
  end.

Section registry.
Context `{UnicodeData} `{YamlLoader}.

(** [fetch_dependency_snapshot] *)
Definition fetch_dependency_snapshot (db : list snapshot) (dependency : json) : result pyexn (option snapshot) :=
  name ← dependency_name dependency;
  match declared_version dependency with
  | None => latest_of name None db
  | Some v => n ← int_of v; latest_of name (Some n) db
  end.

(** [_verify_snapshot_row] *)
Definition row_digest (sn : snapshot) : result pyexn pystr :=
  prompt ← py_encode (skill_md sn);
  schema ← py_encode (output_schema_json sn);
  manifest ← py_encode (manifest_yaml sn);
  mret (digest_of prompt schema manifest).
Definition verify_snapshot_row (sn : snapshot) (expected_hash : option pystr) : result pyexn () :=
  actual_hash ← row_digest sn;
  if bool_decide (length (content_hash sn) = 64 /\ actual_hash <> content_hash sn) then
    Raise (missing (u "snapshot failed content hash verification"))
  else match expected_hash with
  | Some e => if decide (e = content_hash sn) then Ok tt else Raise (missing (u "snapshot hash does not match the job reference"))
  | None => Ok tt
  end.

(** [yaml.safe_load(snapshot["manifest_yaml"]) or {}] *)
Definition manifest_of (sn : snapshot) : result pyexn json :=
  doc ← yaml_safe_load (manifest_yaml sn); mret (jor doc (JObj [])).

(** The row a dependency resolves to: the pinned one, or the latest of its name. *)
Definition resolve (db : list snapshot) (sn : snapshot) (dependency name : json) : result pyexn (option snapshot) :=
  pin ← pinned_id (dependency_snapshot_ids sn) name;
  match pin with
  | Some ((_ :: _) as id) => fetch_skill_snapshot db None (Some id)
  | _ => fetch_dependency_snapshot db dependency
  end.

Definition named (name : json) (sn : snapshot) : bool := bool_decide (JStr (skill_name sn) = name).

(** [_execution_hash] *)
Fixpoint execution_hash_of (fuel : nat) (db : list snapshot) (sn : snapshot) (active_names : list pystr) : result pyexn pystr :=
  match fuel with
  | O => Raise recursion_error
  | S fuel =>
      if decide (skill_name sn ∈ active_names) then Raise (missing (u "cyclic skill dependency")) else
      manifest ← manifest_of sn;
      declared ← py_get (u "dependencies") (JList []) manifest;
      dependencies ← py_iter (jor declared (JList []));
      components ← each (fun dependency =>
        name ← dependency_name dependency;
        child ← resolve db sn dependency name;
        match child with
        | Some child =>
            if named name child then
              execution ← execution_hash_of fuel db child (skill_name sn :: active_names);
              mret (mk_component (skill_name child) (content_hash child) execution)
            else Raise (missing (u "dependency snapshot is missing"))
        | None => Raise (missing (u "dependency snapshot is missing"))
        end) dependencies;
      mret (identity_hash (content_hash sn) components)
  end.

(** ** The workspace *)

Record workspace := mk_workspace {
  w_files : list (pystr * (pystr * pystr * pystr));   (** directories *)
  w_ids : list pystr;                                  (** [materialized_ids] *)
  w_names : list (pystr * pystr);                      (** [materialized_names] *)
}.
Definition empty_workspace : workspace := mk_workspace [] [] [].

(** [str(snapshot.get("id") or snapshot["content_hash"])] *)
Definition snapshot_ref (sn : snapshot) : pystr := match sn_id sn with [] => content_hash sn | id => id end.

(** [_write_snapshot_files] and the bookkeeping after it. *)
Definition write_snapshot (sn : snapshot) (w : workspace) : workspace :=
  mk_workspace (assoc_set (skill_name sn) (skill_md sn, output_schema_json sn, manifest_yaml sn) (w_files w))
    (snapshot_ref sn :: w_ids w) (assoc_set (skill_name sn) (snapshot_ref sn) (w_names w)).

Fixpoint for_each {S A} (f : A -> M S pyexn ()) (l : list A) : M S pyexn () :=
  match l with [] => mret () | x :: l => f x;; for_each f l end.

(** The version a declaration asks for, checked against the resolved row. *)
Definition check_version (dependency : json) (dep : snapshot) : result pyexn () :=
  match declared_version dependency with
  | None => Ok tt
  | Some v =>
      match int_of v with
      | Ok n => if decide (version_label dep = n) then Ok tt else Raise (missing (u "dependency snapshot version does not satisfy"))
      | Raise e => Raise (if bool_decide (x_class e = TypeError) || is_value_error (x_class e)
                          then missing (u "invalid dependency version") else e)
      end
  end.

(** One turn of the dependency loop up to the recursive call. *)
Definition dependency_row (db : list snapshot) (sn : snapshot) (dependency : json) : result pyexn snapshot :=
  name ← dependency_name dependency;
  if negb (jtruthy name) then Raise (missing (u "dependency is missing an id")) else
  dep ← resolve db sn dependency name;
  match dep with
  | None => Raise (missing (u "dependency snapshot is missing"))
  | Some dep =>
      if negb (named name dep) then Raise (missing (u "dependency snapshot does not satisfy its name")) else
      check_version dependency dep;; mret dep
  end.

(** The declared dependencies, which must be a list. *)
Definition dependencies_of (sn : snapshot) : result pyexn (list json) :=
  manifest ← manifest_of sn;
  declared ← py_get (u "dependencies") (JList []) manifest;
  match declared with JList l => Ok l | _ => Raise (missing (u "dependencies must be a list")) end.

(** [_materialize_snapshot_tree] *)
Fixpoint materialize_tree (fuel : nat) (db : list snapshot) (sn : snapshot) (active_names : list pystr)
    (expected_execution_hash : option pystr) : M workspace pyexn () :=
  match fuel with
  | O => raise recursion_error
  | S fuel =>
      if decide (skill_name sn ∈ active_names) then raise (missing (u "cyclic skill dependency")) else
      w ← get_st;
      if bool_decide (is_Some (assoc (skill_name sn) (w_names w)) /\ assoc (skill_name sn) (w_names w) <> Some (snapshot_ref sn)) then
        raise (missing (u "dependency name resolves to multiple snapshots"))
      else if decide (snapshot_ref sn ∈ w_ids w) then mret ()
      else
        lift_result (verify_snapshot_row sn None);;
        lift_result (match expected_execution_hash with
          | None => Ok tt
          | Some expected =>
              h ← execution_hash_of (S (length db)) db sn [];
              if decide (h = expected) then Ok tt else Raise (missing (u "snapshot execution hash does not match the job reference"))
          end);;
        modify_st (write_snapshot sn);;
        dependencies ← lift_result (dependencies_of sn);
        for_each (fun dependency =>
          dep ← lift_result (dependency_row db sn dependency);
          materialize_tree fuel db dep (skill_name sn :: active_names) None) dependencies
  end.

(** [materialize_snapshot] *)
Definition materialize_snapshot (db : list snapshot) (name : pystr) (content_hash snapshot_id execution_hash : option pystr)
    : M workspace pyexn () :=
  row ← lift_result (fetch_skill_snapshot db content_hash snapshot_id);
  match row with
  | None => raise (missing (u "no SkillSnapshot found"))
  | Some sn =>
      if decide (skill_name sn = name) then
        lift_result (verify_snapshot_row sn content_hash);;
        materialize_tree (S (length db)) db sn [] execution_hash
      else raise (missing (u "snapshot belongs to another skill"))
  end.
End registry.

(** ** What a successful materialisation wrote *)

(** The rows have distinct, non-empty identifiers. *)
Definition table_wf (db : list snapshot) : Prop := NoDup (map sn_id db) /\ Forall (fun sn => sn_id sn <> []) db.

Lemma snapshot_ref_id db sn : table_wf db -> sn ∈ db -> snapshot_ref sn = sn_id sn.
Proof. intros [_ Hne] Hin. rewrite Forall_forall in Hne. specialize (Hne sn Hin). unfold snapshot_ref. by destruct (sn_id sn). Qed.

Section closure.
Context `{UnicodeData} `{YamlLoader} (db : list snapshot) (Hwf : table_wf db).

(** [child] is a declared dependency of [sn]. *)
Definition depends (sn child : snapshot) : Prop :=
  exists deps dependency, dependencies_of sn = Ok deps /\ dependency ∈ deps /\ dependency_row db sn dependency = Ok child.

(** The row's bytes have the hash the row records, when that is a SHA-256. *)
Definition verified (sn : snapshot) : Prop :=
  exists digest, row_digest sn = Ok digest /\ (length (content_hash sn) = 64 -> digest = content_hash sn).

Lemma verify_ok sn e : verify_snapshot_row sn e = Ok tt <-> verified sn /\ (forall h, e = Some h -> h = content_hash sn).
Proof.
  unfold verify_snapshot_row, verified, mbind, result_bind. destruct (row_digest sn) as [d|].
  2:{ split; [done|by intros [(? & [=] & _) _]]. }
  case_bool_decide as Hd.
  - split; [done|]. intros [(d' & [= <-] & Hh) _]. naive_solver.
  - assert (Hv : length (content_hash sn) = 64 -> d = content_hash sn) by (destruct (decide (d = content_hash sn)); naive_solver).
    destruct e as [e|]; [destruct (decide _)|]; split; naive_solver.
Qed.

Lemma fetch_dependency_in dependency sn : fetch_dependency_snapshot db dependency = Ok (Some sn) -> sn ∈ db.
Proof.
  unfold fetch_dependency_snapshot, mbind, result_bind. destruct (dependency_name dependency) as [name|]; [|done].
  assert (Hl : forall v, latest_of name v db = Ok (Some sn) -> sn ∈ db).
  { intros v. destruct name; try done. simpl. by intros [Hin _]%Ok_inj%latest_named_in. }
  destruct (declared_version dependency); [destruct (int_of j)|]; naive_solver.
Qed.

Lemma resolve_in sn dependency name child : resolve db sn dependency name = Ok (Some child) -> child ∈ db.
Proof.
  unfold resolve, mbind, result_bind. destruct (pinned_id _ _) as [[[|c id]|]|]; try done; try apply fetch_dependency_in.
  simpl. by intros [Hin _]%Ok_inj%by_id_Some.
Qed.

Lemma dependency_row_in sn dependency child : dependency_row db sn dependency = Ok child -> child ∈ db.
Proof.
  unfold dependency_row, mbind, result_bind. destruct (dependency_name dependency) as [name|]; [|done].
  destruct (negb _); [done|]. destruct (resolve db sn dependency name) as [[dep|]|] eqn:Hr; try done.
  destruct (negb _); [done|]. destruct (check_version dependency dep); [|done]. intros <-%Ok_inj. by eapply resolve_in.
Qed.

(** *** The workspace after writing a list of rows, newest first *)
Definition workspace_of (rows : list snapshot) : workspace := foldr write_snapshot empty_workspace rows.

Record written (rows : list snapshot) : Prop := {
  written_rows : Forall (fun sn => sn ∈ db /\ verified sn) rows;
  written_names : NoDup (map skill_name rows);
}.

Lemma workspace_ids rows : w_ids (workspace_of rows) = map snapshot_ref rows.
Proof. induction rows as [|sn rows IH]; simpl; [done|]. by rewrite IH. Qed.

Lemma assoc_set_iff {A} (f : snapshot -> A) rows m sn k v :
  (forall k v, assoc k m = Some v <-> exists x, x ∈ rows /\ skill_name x = k /\ f x = v) ->
  skill_name sn ∉ map skill_name rows ->
  assoc k (assoc_set (skill_name sn) (f sn) m) = Some v <-> exists x, x ∈ sn :: rows /\ skill_name x = k /\ f x = v.
Proof.
  intros IH Hn. destruct (decide (k = skill_name sn)) as [->|Hk].
  - rewrite assoc_set_eq. split; [intros [= <-]; exists sn; set_solver|]. intros (x & [->|Hx]%elem_of_cons & Hxn & <-); [done|].
    destruct Hn. rewrite <- Hxn. by apply (list_elem_of_fmap_2 skill_name).
  - rewrite assoc_set_ne by done. rewrite IH. set_solver.
Qed.

Lemma workspace_names rows : NoDup (map skill_name rows) -> forall k r,
  assoc k (w_names (workspace_of rows)) = Some r <-> exists x, x ∈ rows /\ skill_name x = k /\ snapshot_ref x = r.
Proof.
  induction rows as [|sn rows IH]; simpl; intros Hnd k r; [set_solver|]. apply NoDup_cons in Hnd as [Hn Hnd].
  by apply (assoc_set_iff snapshot_ref); [apply IH|].
Qed.

Definition contents (sn : snapshot) : pystr * pystr * pystr := (skill_md sn, output_schema_json sn, manifest_yaml sn).

Lemma workspace_files rows : NoDup (map skill_name rows) -> forall k f,
  assoc k (w_files (workspace_of rows)) = Some f <-> exists x, x ∈ rows /\ skill_name x = k /\ contents x = f.
Proof.
  induction rows as [|sn rows IH]; simpl; intros Hnd k f; [set_solver|]. apply NoDup_cons in Hnd as [Hn Hnd].
  by apply (assoc_set_iff contents); [apply IH|].
Qed.

Lemma already_written rows sn : written rows -> sn ∈ db -> snapshot_ref sn ∈ w_ids (workspace_of rows) -> sn ∈ rows.
Proof.
  intros [Hrows _] Hin. rewrite workspace_ids. intros (x & Hx & Hxr)%list_elem_of_fmap.
  rewrite Forall_forall in Hrows. destruct (Hrows x Hxr) as [Hxd _]. rewrite !(snapshot_ref_id db) in Hx by done.
  by rewrite (row_unique db sn x (proj1 Hwf)).
Qed.

(** A call adds rows it reaches, closed under dependencies. *)
Definition extends (sn : snapshot) (rows more : list snapshot) : Prop :=
  written (more ++ rows) /\ forall x, x ∈ more -> star depends sn x /\ forall child, depends x child -> child ∈ more ++ rows.

Lemma written_app_in rows more x : written (more ++ rows) -> x ∈ more -> x ∈ db.
Proof. intros [Hr _] Hx. rewrite Forall_forall in Hr. apply Hr. set_solver. Qed.

(** Two consecutive extensions. *)
Lemma extends_step sn child rows more more' :
  depends sn child ->
  (forall x, x ∈ more -> star depends child x /\ forall c, depends x c -> c ∈ more ++ rows) ->
  (forall x, x ∈ more' -> star depends sn x /\ forall c, depends x c -> c ∈ more' ++ more ++ rows) ->
  forall x, x ∈ more' ++ more -> star depends sn x /\ forall c, depends x c -> c ∈ (more' ++ more) ++ rows.
Proof.
  intros Hd H1 H2 x [Hx|Hx]%elem_of_app; rewrite <- app_assoc; [by apply H2|].
  destruct (H1 x Hx) as [Hs Hc]. split; [by eapply star_step|]. intros c Hxc. apply elem_of_app. right. by apply Hc.
Qed.

Lemma materialize_extends fuel : forall sn active e rows w,
  sn ∈ db -> written rows -> materialize_tree fuel db sn active e (workspace_of rows) = (Ok (), w) ->
  exists more, w = workspace_of (more ++ rows) /\ sn ∈ more ++ rows /\ extends sn rows more.
Proof.
  induction fuel as [|fuel IH]; intros sn active e rows w Hin Hw; [done|]. cbn [materialize_tree].
  destruct (decide _); [done|]. unfold get_st. unfold mbind at 1, M_bind at 1.
  case_bool_decide as Hprev; [done|]. destruct (decide (snapshot_ref sn ∈ w_ids (workspace_of rows))) as [Hid|Hid].
  { intros [= <-]. exists []. split; [done|]. split; [by eapply already_written|]. split; [done|]. by intros x Hx%elem_of_nil. }
  intros (? & ? & [Hv ->]%lift_ok_inv & Hrun)%bind_ok_inv. apply bind_ok_inv in Hrun as (? & ? & [_ ->]%lift_ok_inv & Hrun).
  apply bind_ok_inv in Hrun as (? & w1 & Hmod & Hrun). injection Hmod as _ <-.
  apply bind_ok_inv in Hrun as (deps & ? & [Hdeps ->]%lift_ok_inv & Hrun).
  destruct x, x0. apply verify_ok in Hv as [Hv _].
  assert (Hnew : skill_name sn ∉ map skill_name rows).
  { intros (x & Hx & Hxr)%list_elem_of_fmap. apply Hprev. destruct Hw as [Hrows Hnd].
    assert (Ha : assoc (skill_name sn) (w_names (workspace_of rows)) = Some (snapshot_ref x)) by (apply workspace_names; [done|by exists x]).
    rewrite Ha. split; [done|]. intros [= Hr]. apply Hid. rewrite workspace_ids, <- Hr. by apply (list_elem_of_fmap_2 snapshot_ref). }
  assert (Hw1 : written (sn :: rows)).
  { destruct Hw as [Hrows Hnd]. split; [by constructor|]. cbn [map]. by constructor. }
  change (write_snapshot sn (workspace_of rows)) with (workspace_of (sn :: rows)) in Hrun.
  assert (Hloop : forall ds rows1 w, (forall d, d ∈ ds -> d ∈ deps) -> written rows1 ->
    for_each (fun dependency => dep ← lift_result (dependency_row db sn dependency);
      materialize_tree fuel db dep (skill_name sn :: active) None) ds (workspace_of rows1) = (Ok (), w) ->
    exists more, w = workspace_of (more ++ rows1) /\ extends sn rows1 more /\
      forall d c, d ∈ ds -> dependency_row db sn d = Ok c -> c ∈ more ++ rows1).
  { clear Hrun Hid Hprev Hnew. induction ds as [|d ds IHds]; intros rows1 w2 Hds Hw2; cbn [for_each].
    - intros [= <-]. exists []. split; [done|]. split; [split; [done|by intros x Hx%elem_of_nil]|by intros d c Hd%elem_of_nil].
    - intros (? & w3 & Hone & Hrest)%bind_ok_inv. apply bind_ok_inv in Hone as (dep & ? & [Hdep ->]%lift_ok_inv & Hone).
      destruct x. apply IH in Hone as (more & -> & Hdin & Hm & Hmc); [|by eapply dependency_row_in|done].
      apply IHds in Hrest as (more' & -> & [Hm' Hmc'] & Hcl); [|intros; apply Hds; set_solver|done].
      exists (more' ++ more). rewrite <- app_assoc. split; [done|]. split; [split|].
      + by rewrite <- app_assoc.
      + eapply extends_step; [|exact Hmc|exact Hmc']. exists deps, d. split_and!; [done|apply Hds; set_solver|done].
      + intros d' c [->|Hd']%elem_of_cons Hc; [|by eapply Hcl]. assert (c = dep) as -> by congruence. set_solver. }
  apply (Hloop deps (sn :: rows) w) in Hrun as (more & -> & [Hm Hmc] & Hcl); [|done|done].
  exists (more ++ [sn]). rewrite <- app_assoc. split; [done|]. split; [set_solver|]. split.
  - by rewrite <- app_assoc.
  - rewrite <- app_assoc. intros x [Hx|Hx]%elem_of_app; [by apply Hmc|]. apply list_elem_of_singleton in Hx as ->.
    split; [apply star_refl|]. intros c (deps' & d & Hd & Hdin & Hc). assert (deps' = deps) as -> by congruence. by eapply Hcl.
Qed.

Lemma closed_reaches (rows : list snapshot) sn x : sn ∈ rows -> (forall y c, y ∈ rows -> depends y c -> c ∈ rows) -> star depends sn x -> x ∈ rows.
Proof. intros Hsn Hc Hs. revert Hsn. induction Hs; eauto. Qed.

(** C28. What the worker executes is exactly what the job names: when
    materialisation succeeds, the workspace holds the files of the referenced
    snapshot and of every snapshot its declared dependencies reach, and
    nothing else; one snapshot per skill name; every row's bytes verified
    against its content hash; and the referenced row has the skill name, the
    content hash and the execution hash of the job. *)
Theorem materialized_closure name content id execution w :
  materialize_snapshot db name content (Some id) execution empty_workspace = (Ok (), w) ->
  exists root, root ∈ db /\ sn_id root = id /\ skill_name root = name /\
    (forall h, content = Some h -> h = content_hash root) /\
    (forall h, execution = Some h -> execution_hash_of (S (length db)) db root [] = Ok h) /\
    (forall skill files, assoc skill (w_files w) = Some files <->
       exists x, star depends root x /\ skill_name x = skill /\ contents x = files) /\
    (forall x, star depends root x -> verified x) /\
    (forall x y, star depends root x -> star depends root y -> skill_name x = skill_name y -> x = y).
Proof.
  unfold materialize_snapshot. intros (row & ? & [Hrow ->]%lift_ok_inv & Hrun)%bind_ok_inv.
  destruct row as [root|]; [|done]. destruct (decide (skill_name root = name)) as [Hname|]; [|done].
  apply bind_ok_inv in Hrun as ([] & ? & [Hv ->]%lift_ok_inv & Hrun). apply verify_ok in Hv as [_ Hcontent].
  assert (Hroot : root ∈ db /\ sn_id root = id).
  { destruct id; [done|]. simpl in Hrow. apply Ok_inj in Hrow. by apply by_id_Some. }
  destruct Hroot as [Hin Hid]. exists root.
  assert (Hexec : forall h, execution = Some h -> execution_hash_of (S (length db)) db root [] = Ok h).
  { intros h ->. revert Hrun. cbn [materialize_tree]. rewrite decide_False by set_solver.
    unfold get_st. unfold mbind at 1, M_bind at 1. rewrite bool_decide_eq_false_2 by (intros [[? [=]] _]).
    rewrite decide_False by (cbn; set_solver).
    intros (? & ? & [_ ->]%lift_ok_inv & Hrun)%bind_ok_inv. apply bind_ok_inv in Hrun as (? & ? & [He _]%lift_ok_inv & _).
    unfold mbind, result_bind in He. destruct (execution_hash_of _ _ _ _) as [h'|]; [|done].
    destruct (decide (h' = h)); congruence. }
  apply (materialize_extends _ _ _ _ []) in Hrun as (more & -> & Hm & [Hw Hmc]); [|done|split; [done|constructor]].
  rewrite app_nil_r in *. assert (Hset : forall x, x ∈ more <-> star depends root x).
  { intros x. split; [intros Hx; by apply Hmc|]. apply closed_reaches; [done|]. intros y c Hy Hyc.
    destruct (Hmc y Hy) as [_ Hc]. by apply Hc. }
  destruct Hw as [Hrows Hnd]. rewrite Forall_forall in Hrows. split_and!; try done.
  - intros skill files. rewrite workspace_files by done. by setoid_rewrite Hset.
  - intros x Hx%Hset. by apply Hrows.
  - intros x y Hx%Hset Hy%Hset Hxy. apply list_elem_of_lookup in Hx as [i Hi], Hy as [j Hj].
    assert (i = j) as ->; [|congruence].
    eapply NoDup_lookup; [exact Hnd|by rewrite list_lookup_fmap, Hi|rewrite list_lookup_fmap, Hj; simpl; by rewrite Hxy].
Qed.
End closure.

(** ** Termination *)

Section termination.
Context `{UnicodeData} `{YamlLoader} (db : list snapshot).
Hypothesis yaml_returns : forall text, yaml_safe_load text <> Raise recursion_error.

(** [r] is not the exception of the recursion limit. *)
Definition returns {A} (r : result pyexn A) : Prop := r <> Raise recursion_error.

Lemma returns_ok {A} (a : A) : returns (Ok a).
Proof. done. Qed.

Lemma returns_bind {A B} (m : result pyexn A) (f : A -> result pyexn B) :
  returns m -> (forall a, m = Ok a -> returns (f a)) -> returns (mbind f m).
Proof. unfold returns, mbind, result_bind. destruct m; naive_solver. Qed.

Lemma returns_class {A} e : x_class e <> x_class recursion_error -> returns (Raise e : result pyexn A).
Proof. intros Hc [= ->]. by apply Hc. Qed.

Lemma returns_get k d j : returns (py_get k d j).
Proof. destruct j; try done; by apply returns_class. Qed.

Lemma returns_iter j : returns (py_iter j).
Proof. destruct j; try done; by apply returns_class. Qed.

Lemma returns_name d : returns (dependency_name d).
Proof. destruct d; try done; apply returns_get. Qed.

Lemma returns_int j : returns (int_of j).
Proof.
  destruct j as [| | |x| | |]; try done; try by apply returns_class.
  - destruct x; try done; by apply returns_class.
  - simpl. case_match; [done|by apply returns_class].
Qed.

Lemma returns_encode s : returns (py_encode s).
Proof. unfold py_encode. case_match; [done|by apply returns_class]. Qed.

Lemma returns_latest name v : returns (latest_of name v db).
Proof. destruct name; try done; by apply returns_class. Qed.

Lemma returns_resolve sn d name : returns (resolve db sn d name).
Proof.
  unfold resolve. apply returns_bind; [destruct name; try done; by apply returns_class|]. intros pin _.
  destruct pin as [[|c id]|]; [|done|]; unfold fetch_dependency_snapshot; (apply returns_bind; [apply returns_name|]);
    intros n _; (destruct (declared_version d); [apply returns_bind; [apply returns_int|intros ? _]|]); apply returns_latest.
Qed.

Lemma returns_verify sn e : returns (verify_snapshot_row sn e).
Proof.
  unfold verify_snapshot_row, row_digest. apply returns_bind.
  - repeat (apply returns_bind; [apply returns_encode|intros ? _]). done.
  - intros d _. repeat case_match; try done; by apply returns_class.
Qed.

Lemma returns_manifest sn : returns (manifest_of sn).
Proof. apply returns_bind; [apply yaml_returns|done]. Qed.

Lemma returns_dependencies sn : returns (dependencies_of sn).
Proof.
  apply returns_bind; [apply returns_manifest|]. intros m _. apply returns_bind; [apply returns_get|].
  intros d _. destruct d; try done; by apply returns_class.
Qed.

Lemma returns_row sn d : returns (dependency_row db sn d).
Proof.
  apply returns_bind; [apply returns_name|]. intros name _. case_match; [by apply returns_class|].
  apply returns_bind; [apply returns_resolve|]. intros [dep|] _; [|by apply returns_class].
  case_match; [by apply returns_class|]. apply returns_bind; [|done]. unfold check_version.
  destruct (declared_version d); [|done]. pose proof (returns_int j) as Hi. destruct (int_of j); [case_match; [done|by apply returns_class]|].
  case_match; [by apply returns_class|]. intros [= ->]. by apply Hi.
Qed.

Lemma returns_each {A B} (f : A -> result pyexn B) l : (forall x, x ∈ l -> returns (f x)) -> returns (each f l).
Proof.
  induction l as [|x l IH]; intros Hf; [done|]. apply returns_bind; [apply Hf; set_solver|]. intros y _.
  apply returns_bind; [apply IH; set_solver|done].
Qed.

Lemma execution_hash_returns fuel : forall sn active, sn ∈ db -> unvisited db active < fuel ->
  returns (execution_hash_of fuel db sn active).
Proof.
  induction fuel as [|fuel IH]; intros sn active Hin Hf; [lia|]. cbn [execution_hash_of].
  destruct (decide _) as [|Hn]; [by apply returns_class|]. apply returns_bind; [apply returns_manifest|]. intros m _.
  apply returns_bind; [apply returns_get|]. intros deps _. apply returns_bind; [apply returns_iter|]. intros ds _.
  apply returns_bind; [|done]. apply returns_each. intros d _. apply returns_bind; [apply returns_name|]. intros name _.
  apply returns_bind; [apply returns_resolve|]. intros [child|] Hr; [|by apply returns_class].
  case_match; [|by apply returns_class]. apply returns_bind; [|done]. apply IH; [by eapply resolve_in|].
  pose proof (unvisited_step db sn active Hin Hn). lia.
Qed.

(** The same for procedures. *)
Definition returning {S A} (m : M S pyexn A) : Prop := forall s, returns (fst (m s)).

Lemma returning_bind {S A B} (m : M S pyexn A) (f : A -> M S pyexn B) :
  returning m -> (forall a s s', m s = (Ok a, s') -> returning (f a)) -> returning (mbind f m).
Proof.
  intros Hm Hf s. specialize (Hm s). unfold mbind, M_bind, returns in *. destruct (m s) as [[a|e] s'] eqn:E; [|naive_solver].
  by eapply Hf.
Qed.

Lemma returning_lift {S A} (r : result pyexn A) : returns r -> returning (lift_result r : M S pyexn A).
Proof. by intros Hr s. Qed.

Lemma returning_raise {S A} e : x_class e <> x_class recursion_error -> returning (raise e : M S pyexn A).
Proof. intros He s. by apply returns_class. Qed.

Lemma returning_for_each {S A} (f : A -> M S pyexn ()) l : (forall x, x ∈ l -> returning (f x)) -> returning (for_each f l).
Proof.
  induction l as [|x l IH]; intros Hf; [done|]. apply returning_bind; [apply Hf; set_solver|]. intros ? ? ? _. apply IH. set_solver.
Qed.

Lemma materialize_tree_returns fuel : forall sn active e, sn ∈ db -> unvisited db active < fuel ->
  returning (materialize_tree fuel db sn active e).
Proof.
  induction fuel as [|fuel IH]; intros sn active e Hin Hf; [lia|]. cbn [materialize_tree].
  destruct (decide _) as [|Hn]; [by apply returning_raise|]. apply returning_bind; [done|]. intros w _ _ _.
  case_match; [by apply returning_raise|]. case_match; [done|].
  apply returning_bind; [apply returning_lift, returns_verify|]. intros _ _ _ _. apply returning_bind.
  { apply returning_lift. destruct e; [|done]. apply returns_bind.
    - apply execution_hash_returns; [done|]. pose proof (unvisited_bound db []). lia.
    - intros h _. case_match; [done|by apply returns_class]. }
  intros _ _ _ _. apply returning_bind; [done|]. intros _ _ _ _.
  apply returning_bind; [apply returning_lift, returns_dependencies|]. intros deps _ _ _. apply returning_for_each. intros d _.
  apply returning_bind; [apply returning_lift, returns_row|]. intros dep ? ? [Hd _]%lift_ok_inv.
  apply IH; [by eapply dependency_row_in|]. pose proof (unvisited_step db sn active Hin Hn). lia.
Qed.

(** Materialisation returns, whatever the dependency declarations of the
    rows are, cyclic ones included: the recursion over snapshots and the one
    over execution hashes are never deeper than one more than the number of
    rows. *)
Theorem materialize_terminates name content id execution w :
  fst (materialize_snapshot db name content id execution w) <> Raise recursion_error.
Proof.
  revert w. change (returning (materialize_snapshot db name content id execution)). unfold materialize_snapshot.
  apply returning_bind.
  { apply returning_lift. destruct id as [[|c id]|]; [|done|]; by apply returns_class. }
  intros row ? ? [Hrow _]%lift_ok_inv. destruct row as [sn|]; [|by apply returning_raise].
  assert (Hin : sn ∈ db).
  { destruct id as [[|c id]|]; try done. simpl in Hrow. apply Ok_inj in Hrow. by apply by_id_Some in Hrow as [? _]. }
  case_decide; [|by apply returning_raise]. apply returning_bind; [apply returning_lift, returns_verify|]. intros _ _ _ _.
  apply materialize_tree_returns; [done|]. pose proof (unvisited_bound db []). lia.
Qed.
End termination.

(** ** Witnesses *)

Lemma sample_rows_wf : table_wf sample_rows.
Proof. split; [apply NoDup_by_computation; vm_compute; reflexivity|]. repeat constructor; intros E; vm_compute in E; discriminate E. Qed.

Lemma materialized_closure_witness : exists w root,
  @materialize_snapshot cjk_unicode json_yaml sample_rows (u "daily-report") None (Some (u "b1")) None empty_workspace = (Ok tt, w) /\
  sn_id root = u "b1" /\ @verified root /\ map fst (w_files w) = [u "daily-report"; u "log-triage"].
Proof.
  destruct (@materialize_snapshot cjk_unicode json_yaml sample_rows (u "daily-report") None (Some (u "b1")) None empty_workspace)
    as [[[]|e] w] eqn:E; [|exfalso; vm_compute in E; discriminate E].
  destruct (@materialized_closure cjk_unicode json_yaml sample_rows sample_rows_wf _ _ _ _ w E) as (root & _ & Hid & _ & _ & _ & _ & Hv & _).
  exists w, root. split; [reflexivity|]. split; [exact Hid|]. split; [apply Hv; apply star_refl|].
  assert (Hw : w = snd (@materialize_snapshot cjk_unicode json_yaml sample_rows (u "daily-report") None (Some (u "b1")) None empty_workspace))
    by (rewrite E; reflexivity).
  rewrite Hw. vm_compute. reflexivity.
Defined.

Lemma materialize_terminates_witness :
  fst (@materialize_snapshot cjk_unicode json_yaml [cyclic_row] (u "loop") None (Some (u "c1")) None empty_workspace) =
    Raise (missing (u "cyclic skill dependency")) /\
  fst (@materialize_snapshot cjk_unicode json_yaml [cyclic_row] (u "loop") None (Some (u "c1")) None empty_workspace) <> Raise recursion_error.
Proof.
  split; [vm_compute; reflexivity|].
  apply (@materialize_terminates cjk_unicode json_yaml [cyclic_row]).
  intros text. simpl. destruct (json_loads text); intros E; discriminate E.
Defined.

(** Without a snapshot id the worker sends a statement that is not SQL, so the
    hash-only path for older messages always fails. *)
Example hash_only_reference_fails (h : option pystr) : fst (@materialize_snapshot cjk_unicode json_yaml sample_rows (u "log-triage")
  (Some (content_hash triage_row)) None h empty_workspace) = Raise sql_syntax_error.
Proof. reflexivity. Qed.
