(* ===== verification/SkillRuntime.v ===== *)
(** * The execution contract of a skill

    [apps/api/app/skills/runtime.py]: the checks a snapshot passes before it
    is registered or activated.  The meta-schema check of the JSON Schema
    library is the parameter [check_schema]. *)

From S2P Require Import Prelude PyStr Json Failures PyVal PyColl Sweep Sha256 Snapshots.

(** [SkillContractError], a [ValueError]. *)
Definition contract_class : exn_class := ForeignError (u "SkillContractError") true.
Definition contract_error (msg : pystr) : pyexn := mk_exn contract_class msg.

Definition recursion_limit : pyexn :=
  mk_exn (ForeignError (u "RecursionError") false) (u "maximum recursion depth exceeded").

(** [jsonschema.Draft7Validator.check_schema]: the message of its [SchemaError]. *)
Class MetaSchema := { check_schema : json -> option pystr }.

Definition SUPPORTED_RENDERER_PROFILES : list json := [JNull; JStr (u "daily_report_docx"); JStr (u "report-document-v1")].
Definition SUPPORTED_INPUT_CONTRACTS : list json := [JStr (u "log-evidence-v1"); JStr (u "daily-report-context-v1")].
Definition SUPPORTED_REPORT_EXPORT_CONTRACTS : list json := [JStr (u "report-fragment-v1")].
Definition SUPPORTED_PRESENTATION_EXPORT_CONTRACTS : list json := [JStr (u "analysis-presentation-v1")].
Definition SUPPORTED_REASONING_EXPORT_ADAPTERS : list json := [JStr (u "log-triage-v1")].
Definition SUPPORTED_PRESENTATION_EXPORT_ADAPTERS : list json := [JStr (u "log-triage-v1")].

(** [j in s] for a set: lists and objects are not hashable. *)
Definition in_set (s : list json) (j : json) : result pyexn bool :=
  match j with
  | JList _ | JObj _ => Raise (type_error (u "unhashable type: '" ++ type_name j ++ u "'"))
  | _ => Ok (bool_decide (j ∈ s))
  end.

Definition is_str (j : json) : bool := match j with JStr _ => true | _ => false end.
Definition is_bool (j : json) : bool := match j with JBool _ => true | _ => false end.
Definition is_list (j : json) : bool := match j with JList _ => true | _ => false end.
Definition is_null (j : json) : bool := match j with JNull => true | _ => false end.

(** [if b: raise SkillContractError(msg)] *)
Definition require (b : bool) (msg : pystr) : result pyexn () := if b then Ok tt else Raise (contract_error msg).

Section runtime.
Context `{UnicodeData} `{PyText} `{YamlLoader} `{MetaSchema}.

Definition load_manifest (sn : snapshot) : result pyexn json :=
  match yaml_safe_load (manifest_yaml sn) with
  | Ok (JObj o) => Ok (JObj o)
  | Ok _ => Raise (contract_error (u "skill manifest must be an object"))
  | Raise e => Raise (if yaml_error (x_class e) then contract_error (u "manifest is invalid") else e)
  end.

Definition load_schema (sn : snapshot) : result pyexn json :=
  match json_loads (output_schema_json sn) with
  | None => Raise (contract_error (u "output schema is invalid"))
  | Some schema =>
      match check_schema schema with
      | Some _ => Raise (contract_error (u "output schema is invalid"))
      | None => Ok schema
      end
  end.

(** [declared_skill_version] *)
Definition declared_skill_version (sn : snapshot) : result pyexn pystr :=
  manifest ← load_manifest sn;
  value ← py_get (u "version") JNull manifest;
  mret (if is_null value then py_str_int (version_label sn) else py_str value).

Definition execution_policy (sn : snapshot) : result pyexn json :=
  manifest ← load_manifest sn;
  policy ← py_get (u "execution_policy") JNull manifest;
  mret (if is_obj policy then policy else JObj []).

Definition input_contract_version (sn : snapshot) : result pyexn (option pystr) :=
  manifest ← load_manifest sn;
  contract ← py_get (u "input_contract") JNull manifest;
  match contract with
  | JStr s => mret (Some s)
  | JObj _ =>
      version ← py_get (u "version") JNull contract;
      mret (if is_null version then None else Some (py_str version))
  | _ => mret None
  end.

(** ** Dependencies *)

Definition created_key (s : snapshot) : option Z * option Z :=
  match created_at s with None => (Some 0%Z, None) | Some t => (Some 1%Z, Some (- t)%Z) end.

(** [int(version)] with its exceptions turned into contract errors. *)
Definition requested_version (v : json) : result pyexn Z :=
  match int_of v with
  | Ok n => Ok n
  | Raise e => Raise (if bool_decide (x_class e = TypeError) || is_value_error (x_class e)
                      then contract_error (u "invalid dependency version") else e)
  end.

(** [_resolve_dependency_snapshot] *)
Definition resolve_dependency_snapshot (db : list snapshot) (dependency : json) (pins : list (pystr * pystr)) : result pyexn snapshot :=
  name ← match dependency with
    | JStr s => Ok (JStr s)
    | JObj _ => py_get (u "id") JNull dependency
    | _ => Raise (contract_error (u "skill dependency must be a name or {id, version}"))
    end;
  require (jtruthy name) (u "skill dependency is missing an id");;
  pin ← pinned_id pins name;
  match pin with
  | Some id =>
      match by_id id db with
      | Some pinned =>
          require (bool_decide (JStr (skill_name pinned) = name)) (u "unresolvable pinned skill dependency");;
          match declared_version dependency with
          | None => mret pinned
          | Some v =>
              n ← requested_version v;
              require (version_label pinned =? n)%Z (u "pinned dependency version does not match");;
              mret pinned
          end
      | None => Raise (contract_error (u "unresolvable pinned skill dependency"))
      end
  | None =>
      wanted ← match declared_version dependency with None => mret None | Some v => n ← requested_version v; mret (Some n) end;
      match name with
      | JStr s =>
          match oldest created_key (fun x => bool_decide (skill_name x = s) &&
              match wanted with Some n => (version_label x =? n)%Z | None => true end) db with
          | Some found => mret found
          | None => Raise (contract_error (u "unresolvable skill dependency"))
          end
      | _ => Raise operator_error
      end
  end.

(** The declared dependencies of a manifest that must be a list. *)
Definition dependency_list (manifest : json) : result pyexn (list json) :=
  dependencies ← py_get (u "dependencies") (JList []) manifest;
  match dependencies with JList l => Ok l | _ => Raise (contract_error (u "manifest dependencies must be a list")) end.

Fixpoint check_each {A} (f : A -> result pyexn ()) (l : list A) : result pyexn () :=
  match l with [] => Ok tt | x :: l => f x;; check_each f l end.

(** [_validate_dependency_graph] *)
Fixpoint validate_dependency_graph (fuel : nat) (db : list snapshot) (sn : snapshot) (active_names : list pystr) : result pyexn () :=
  match fuel with
  | O => Raise recursion_limit
  | S fuel =>
      require (negb (bool_decide (skill_name sn ∈ active_names))) (u "cyclic skill dependency");;
      manifest ← load_manifest sn;
      dependencies ← dependency_list manifest;
      check_each (fun dependency =>
        child ← resolve_dependency_snapshot db dependency (dependency_snapshot_ids sn);
        validate_dependency_graph fuel db child (skill_name sn :: active_names)) dependencies
  end.

(** ** The contract *)

(** One entry of [exports]. *)
Definition check_export (sn : snapshot) (exports : json) (kind : pystr) (supported adapters : list json) (output_key : pystr) : result pyexn () :=
  export ← py_get kind JNull exports;
  if is_null export then mret tt else
  contract ← (if is_obj export then py_get (u "contract") JNull export else Ok JNull);
  require (is_str contract) (u "manifest exports contract is required");;
  require (bool_decide (contract ∈ supported)) (u "unsupported export contract");;
  adapter ← py_get (u "adapter") JNull export;
  schema ← load_schema sn;
  properties ← py_get (u "properties") JNull schema;
  known ← in_set adapters adapter;
  provided ← (if (known : bool) then Ok true else py_in output_key (jor properties (JObj [])));
  require provided (u "export needs a supported adapter or its output").

(** The values of a mapping of names to JSON paths. *)
Definition path_map (fields : json) : bool :=
  match fields with JObj o => forallb (fun '(_, v) => is_str v) o | _ => false end.

(** [coverage[key]] when present *)
Definition check_flag (coverage : json) (key : pystr) : result pyexn () :=
  match jget key coverage with
  | Some v => require (is_bool v) (u "manifest coverage flag must be boolean")
  | None => mret tt
  end.

Definition check_coverage (coverage : json) : result pyexn () :=
  require (is_obj coverage) (u "manifest coverage must be an object");;
  incidents ← py_get (u "incidents") (JStr (u "optional")) coverage;
  ok ← in_set [JStr (u "all"); JStr (u "optional"); JStr (u "none")] incidents;
  require ok (u "manifest coverage.incidents is invalid");;
  analyses ← py_get (u "analyses") (JStr (u "optional")) coverage;
  ok ← in_set [JStr (u "all_available"); JStr (u "optional"); JStr (u "none")] analyses;
  require ok (u "manifest coverage.analyses is invalid");;
  check_flag coverage (u "allow_duplicate_incidents");;
  check_flag coverage (u "allow_duplicate_analyses").

(** One collection of [input_projection]. *)
Definition check_collection (kv : pystr * json) : result pyexn () :=
  let '(_, collection) := kv in
  require (is_obj collection) (u "input_projection collection is invalid");;
  source ← py_get (u "source") JNull collection;
  require (is_str source) (u "input_projection collection source is required");;
  fields ← py_get (u "fields") JNull collection;
  require (is_obj (jor fields (JObj []))) (u "input_projection collection fields are invalid");;
  require (path_map (jor fields (JObj []))) (u "input_projection collection fields are invalid").

Definition check_projection (projection : json) : result pyexn () :=
  require (is_obj projection) (u "manifest input_projection must be an object");;
  fields ← py_get (u "fields") JNull projection;
  require (is_obj (jor fields (JObj []))) (u "input_projection fields must be an object");;
  require (path_map (jor fields (JObj []))) (u "input_projection fields must map names to JSON paths");;
  collections ← py_get (u "collections") JNull projection;
  match jor collections (JObj []) with
  | JObj o => check_each check_collection o
  | _ => Raise (contract_error (u "input_projection collections must be an object"))
  end.

(** [validate_input] of a payload that is not [None]. *)
Definition validate_input (sn : snapshot) (payload : json) : result pyexn () :=
  require (negb (is_null payload)) (u "skill input must not be null");;
  manifest ← load_manifest sn;
  contract ← py_get (u "input_contract") JNull manifest;
  match contract with
  | JStr _ => require (bool_decide (contract ∈ SUPPORTED_INPUT_CONTRACTS)) (u "unsupported input contract")
  | JNull => mret tt
  | JObj _ =>
      version ← py_get (u "version") JNull contract;
      ok ← (if is_null version then Ok true else in_set SUPPORTED_INPUT_CONTRACTS version);
      require ok (u "unsupported input contract");;
      filename ← py_get (u "filename") JNull contract;
      require (match filename with JStr s => truthy_str (strip s) | _ => false end) (u "input contract filename is required");;
      intro ← py_get (u "intro_text") JNull contract;
      require (match intro with JStr s => truthy_str (strip s) | _ => false end) (u "input contract intro_text is required")
  | _ => Raise (contract_error (u "manifest input_contract must be a supported name or object"))
  end.

(** A part of the manifest that may be absent. *)
Definition optional_part (key : pystr) (check : json -> result pyexn ()) (manifest : json) : result pyexn () :=
  part ← py_get key JNull manifest; if is_null part then mret tt else check part.

(** [validate_snapshot] *)
Definition validate_snapshot (fuel : nat) (db : list snapshot) (sn : snapshot) : result pyexn () :=
  require (truthy_str (strip (skill_md sn))) (u "skill instructions must not be empty");;
  manifest ← load_manifest sn;
  legacy ← py_get (u "name") JNull manifest;
  declared ← py_get (u "id") legacy manifest;
  require (bool_decide (declared = JStr (skill_name sn))) (u "manifest id does not match snapshot skill name");;
  optional_part (u "output_schema") (fun s =>
    file ← (if is_obj s then py_get (u "file") JNull s else Ok JNull);
    require (bool_decide (file = JStr (u "output.schema.json"))) (u "manifest must declare output.schema.json")) manifest;;
  dependency_list manifest;;
  validate_dependency_graph fuel db sn [];;
  renderer ← py_get (u "renderer_profile") JNull manifest;
  ok ← in_set SUPPORTED_RENDERER_PROFILES renderer;
  require ok (u "unsupported renderer profile");;
  optional_part (u "report_export_contract") (fun c =>
    ok ← in_set SUPPORTED_REPORT_EXPORT_CONTRACTS c; require ok (u "unsupported report export contract")) manifest;;
  optional_part (u "exports") (fun exports =>
    require (is_obj exports) (u "manifest exports must be an object");;
    check_export sn exports (u "reasoning") SUPPORTED_REPORT_EXPORT_CONTRACTS SUPPORTED_REASONING_EXPORT_ADAPTERS (u "report_context");;
    check_export sn exports (u "presentation") SUPPORTED_PRESENTATION_EXPORT_CONTRACTS SUPPORTED_PRESENTATION_EXPORT_ADAPTERS
      (u "report_presentation")) manifest;;
  optional_part (u "execution_policy") (fun p => require (is_obj p) (u "manifest execution_policy must be an object")) manifest;;
  optional_part (u "coverage") check_coverage manifest;;
  optional_part (u "input_projection") check_projection manifest;;
  load_schema sn;;
  validate_input sn (JObj []).
End runtime.
