(* ===== verification/Skills.v ===== *)
(** * The skill registry of the API

    [apps/api/app/skills/registry.py]: registering the checkout's content as
    an immutable snapshot with pinned dependencies, resolving and switching the
    active snapshot.  A session is the table and the supply of new
    identifiers; one session is modelled, so the clock of its transaction is a
    constant.  The recursions take fuel, as in [SkillRegistry]. *)

From S2P Require Import Prelude PyStr Json Failures PyVal PyColl Sweep Sha256 Snapshots SkillRuntime.

Definition named_error (name : pystr) (msg : pystr) : pyexn := mk_exn (ForeignError name false) msg.
Definition files_missing : pyexn := named_error (u "SkillFilesMissing") (u "missing file").
Definition no_active_snapshot : pyexn := named_error (u "NoActiveSkillSnapshot") (u "has snapshot history but no active snapshot").
Definition version_not_found : pyexn := named_error (u "SkillVersionNotFound") (u "no snapshot with version_label").

Record session := mk_session { rows : list snapshot; next_uuid : nat }.

Section registry.
Context `{UnicodeData} `{PyText} `{YamlLoader} `{MetaSchema}.
Context (uuid : nat -> pystr) (now : Z).

(** ** Files *)

Definition read_skill_file (file : option (list Z)) : result pyexn (list Z) :=
  match file with Some b => Ok b | None => Raise files_missing end.

Definition compute_skill_hash (skills_dir : pystr -> skill_files) (name : pystr) : result pyexn pystr :=
  prompt ← read_skill_file (f_prompt (skills_dir name));
  schema ← read_skill_file (f_schema (skills_dir name));
  manifest ← read_skill_file (f_manifest (skills_dir name));
  mret (digest_of prompt schema manifest).

Definition read_text (file : option (list Z)) : result pyexn pystr :=
  match file with
  | None => Raise (named_error (u "FileNotFoundError") (u "No such file or directory"))
  | Some b => match utf8_decode b with
              | Some s => Ok (universal_newlines s)
              | None => Raise (mk_exn UnicodeDecodeError (u "invalid byte"))
              end
  end.

Record skill_text := mk_text { t_prompt : pystr; t_schema : pystr; t_manifest : pystr }.
Definition read_skill_files (skills_dir : pystr -> skill_files) (name : pystr) : result pyexn skill_text :=
  prompt ← read_text (f_prompt (skills_dir name));
  schema ← read_text (f_schema (skills_dir name));
  manifest ← read_text (f_manifest (skills_dir name));
  mret (mk_text prompt schema manifest).

(** ** Execution hash *)

(** [_dependency_snapshot] *)
Definition dependency_snapshot (db : list snapshot) (sn : snapshot) (dependency name : json) : result pyexn (option snapshot) :=
  pin ← pinned_id (dependency_snapshot_ids sn) name;
  match pin with
  | Some ((_ :: _) as id) => mret (by_id id db)
  | _ =>
      match declared_version dependency with
      | None => latest_of name None db
      | Some v => n ← int_of v; latest_of name (Some n) db
      end
  end.

(** [compute_execution_hash] *)
Fixpoint compute_execution_hash (fuel : nat) (db : list snapshot) (sn : snapshot) (active : list pystr) : result pyexn pystr :=
  match fuel with
  | O => Raise recursion_limit
  | S fuel =>
      if decide (skill_name sn ∈ active) then Raise (value_error (u "cyclic skill dependency")) else
      doc ← yaml_safe_load (manifest_yaml sn);
      declared ← py_get (u "dependencies") (JList []) (jor doc (JObj []));
      dependencies ← py_iter declared;
      components ← each (fun dependency =>
        name ← dependency_name dependency;
        child ← dependency_snapshot db sn dependency name;
        match child with
        | Some child =>
            if bool_decide (JStr (skill_name child) = name) then
              execution ← compute_execution_hash fuel db child (skill_name sn :: active);
              mret (mk_component (skill_name child) (content_hash child) execution)
            else Raise (value_error (u "unresolvable skill dependency"))
        | None => Raise (value_error (u "unresolvable skill dependency"))
        end) dependencies;
      mret (identity_hash (content_hash sn) components)
  end.

(** ** Registration *)

Definition active_named (name : pystr) (db : list snapshot) : option snapshot :=
  find_first (fun s => bool_decide (skill_name s = name) && is_active s) db.
Definition version_named (name : pystr) (version : Z) (db : list snapshot) : option snapshot :=
  find_first (fun s => bool_decide (skill_name s = name) && (version_label s =? version)%Z) db.

(** The row a dependency of a new snapshot is pinned to, if it exists. *)
Definition current_dependency (db : list snapshot) (dependency name : json) : result pyexn (option snapshot) :=
  wanted ← match declared_version dependency with None => mret None | Some v => n ← int_of v; mret (Some n) end;
  match name with
  | JStr s => mret (match wanted with Some n => version_named s n db | None => active_named s db end)
  | _ => Raise operator_error
  end.

(** Equality of dictionaries. *)
Definition dict_eq (a b : list (pystr * pystr)) : bool :=
  bool_decide (length a = length b) && forallb (fun '(k, v) => bool_decide (assoc k b = Some v)) a.

(** The newest row of this content and these pins. *)
Definition existing_snapshot (name hash : pystr) (pins : list (pystr * pystr)) (db : list snapshot) : option snapshot :=
  oldest version_key (fun s => bool_decide (skill_name s = name) && bool_decide (content_hash s = hash) &&
    dict_eq (dependency_snapshot_ids s) pins) db.

Definition rows_named (name : pystr) (db : list snapshot) : list snapshot := filter (fun s => skill_name s = name) db.
(** [coalesce(max(version_label), 0)] *)
Definition max_version (name : pystr) (db : list snapshot) : Z :=
  match map version_label (rows_named name db) with [] => 0%Z | v :: vs => foldr Z.max v vs end.

Definition set_flag (b : bool) (s : snapshot) : snapshot :=
  mk_snapshot (sn_id s) (skill_name s) (version_label s) (content_hash s) (execution_hash s) (skill_md s)
    (output_schema_json s) (manifest_yaml s) (dependency_snapshot_ids s) (created_at s) b.
(** [for other in rows of the skill: other.is_active = False] *)
Definition deactivate (p : snapshot -> bool) (db : list snapshot) : list snapshot :=
  map (fun s => if p s then set_flag false s else s) db.

Definition set_rows (db : list snapshot) (s : session) : session := mk_session db (next_uuid s).

(** The loop that pins the dependencies; [register] is the recursive call. *)
Fixpoint pin_dependencies (register : pystr -> M session pyexn snapshot) (l : list json) (pins : list (pystr * pystr))
    : M session pyexn (list (pystr * pystr)) :=
  match l with
  | [] => mret pins
  | dependency :: l =>
      name ← lift_result (dependency_name dependency);
      if negb (jtruthy name) then pin_dependencies register l pins else
      s ← get_st;
      found ← lift_result (current_dependency (rows s) dependency name);
      key ← lift_result (match name with JStr k => Ok k | _ => Raise operator_error end);
      row ← (match found with Some row => mret row | None => register key end);
      pin_dependencies register l (assoc_set key (sn_id row) pins)
  end.

(** The new row before it has an identity: hashes computed, not yet stored. *)
Definition draft_of (name hash : pystr) (text : skill_text) (pins : list (pystr * pystr)) (version : Z) (active : bool) : snapshot :=
  mk_snapshot [] name version hash None (t_prompt text) (t_schema text) (t_manifest text) pins None active.
Definition stored (draft : snapshot) (id execution : pystr) : snapshot :=
  mk_snapshot id (skill_name draft) (version_label draft) (content_hash draft) (Some execution) (skill_md draft)
    (output_schema_json draft) (manifest_yaml draft) (dependency_snapshot_ids draft) (Some now) (is_active draft).

(** [get_or_create_snapshot] after the pins are known. *)
Definition register_content (name hash : pystr) (text : skill_text) (pins : list (pystr * pystr)) (activate : option bool)
    : M session pyexn snapshot :=
  s ← get_st;
  match existing_snapshot name hash pins (rows s) with
  | Some candidate => mret candidate
  | None =>
      let is_first_snapshot_for_skill := bool_decide (rows_named name (rows s) = []) in
      let next_version := (max_version name (rows s) + 1)%Z in
      let should_activate := default is_first_snapshot_for_skill activate in
      when should_activate (modify_st (set_rows (deactivate (fun x => bool_decide (skill_name x = name)) (rows s))));;
      s ← get_st;
      let draft := draft_of name hash text pins next_version should_activate in
      lift_result (validate_snapshot (S (S (length (rows s)))) (rows s) draft);;
      execution ← lift_result (compute_execution_hash (S (S (length (rows s)))) (rows s) draft []);
      let row := stored draft (uuid (next_uuid s)) execution in
      put_st (mk_session (rows s ++ [row]) (S (next_uuid s)));;
      mret row
  end.

(** [get_or_create_snapshot] *)
Fixpoint get_or_create_snapshot (fuel : nat) (skills_dir : pystr -> skill_files) (name : pystr) (activate : option bool)
    : M session pyexn snapshot :=
  match fuel with
  | O => raise recursion_limit
  | S fuel =>
      hash ← lift_result (compute_skill_hash skills_dir name);
      text ← lift_result (read_skill_files skills_dir name);
      doc ← lift_result (yaml_safe_load (t_manifest text));
      declared ← lift_result (py_get (u "dependencies") (JList []) (jor doc (JObj [])));
      dependencies ← lift_result (py_iter declared);
      pins ← pin_dependencies (fun n => get_or_create_snapshot fuel skills_dir n None) dependencies [];
      register_content name hash text pins activate
  end.

(** ** The active snapshot *)

(** [resolve_active_snapshot] *)
Definition resolve_active_snapshot (fuel : nat) (skills_dir : pystr -> skill_files) (name : pystr) : M session pyexn snapshot :=
  get_or_create_snapshot fuel skills_dir name None;;
  s ← get_st;
  match active_named name (rows s) with
  | Some active => mret active
  | None => raise no_active_snapshot
  end.

(** [list_snapshots] and [list_skill_names] *)
Definition list_snapshots (db : list snapshot) (name : pystr) : list snapshot :=
  py_sorted (fun x y => (version_label y <=? version_label x)%Z) (rows_named name db).
Definition list_skill_names (db : list snapshot) : list pystr := py_sorted str_leb (fromkeys (map skill_name db)).

(** [except SkillContractError as exc: raise ValueError(str(exc))] *)
Definition contract_to_value_error {A} (r : result pyexn A) : result pyexn A :=
  match r with
  | Raise e => Raise (if bool_decide (x_class e = contract_class) then value_error (x_msg e) else e)
  | ok => ok
  end.

(** [set_active_snapshot] *)
Definition set_active_snapshot (name : pystr) (version : Z) : M session pyexn snapshot :=
  s ← get_st;
  match version_named name version (rows s) with
  | None => raise version_not_found
  | Some target =>
      lift_result (contract_to_value_error (validate_snapshot (S (S (length (rows s)))) (rows s) target));;
      put_st (set_rows (map (fun x => if decide (sn_id x = sn_id target) then set_flag true x else x)
        (deactivate (fun x => bool_decide (skill_name x = name /\ sn_id x <> sn_id target)) (rows s))) s);;
      mret (set_flag true target)
  end.
End registry.

(** ** Rows up to the active flag *)

Definition frozen (sn : snapshot) : snapshot := set_flag false sn.

(** The rows of [db], the active flags apart, followed by new ones. *)
Definition grows (db db' : list snapshot) : Prop := exists more, map frozen db' = map frozen db ++ more.

#[global] Instance grows_preorder : PreOrder grows.
Proof.
  split; [intros db; exists []; by rewrite app_nil_r|]. intros a b c [m Hm] [k Hk]. exists (m ++ k).
  by rewrite Hk, Hm, <- app_assoc.
Qed.

(** What the hashes read of a row. *)
Definition same_content (x y : snapshot) : Prop :=
  skill_name x = skill_name y /\ content_hash x = content_hash y /\ manifest_yaml x = manifest_yaml y /\
  dependency_snapshot_ids x = dependency_snapshot_ids y.

Lemma frozen_content x y : frozen x = frozen y -> same_content x y /\ sn_id x = sn_id y /\ version_label x = version_label y.
Proof. destruct x, y. unfold frozen, set_flag. simpl. unfold same_content. simpl. intros [=]. subst. done. Qed.

Lemma find_first_app {A} (p : A -> bool) l k : find_first p (l ++ k) =
  match find_first p l with Some x => Some x | None => find_first p k end.
Proof. induction l as [|x l IH]; simpl; [done|]. by destruct (p x). Qed.

Lemma find_first_map {A B} (f : A -> B) (p : B -> bool) l : find_first p (map f l) = f <$> find_first (fun x => p (f x)) l.
Proof. induction l as [|x l IH]; simpl; [done|]. by destruct (p (f x)). Qed.

Lemma by_id_frozen id db : by_id id (map frozen db) = frozen <$> by_id id db.
Proof. unfold by_id. by rewrite find_first_map. Qed.

Lemma by_id_grows db db' id x : grows db db' -> by_id id db = Some x -> exists x', by_id id db' = Some x' /\ frozen x' = frozen x.
Proof.
  intros [more Hm] Hx. assert (Hf : by_id id (map frozen db') = Some (frozen x)).
  { rewrite Hm. unfold by_id. rewrite find_first_app. pose proof (by_id_frozen id db) as Hb. unfold by_id in Hb, Hx.
    rewrite Hb, Hx. done. }
  rewrite by_id_frozen in Hf. destruct (by_id id db') as [x'|]; [|done]. apply (inj Some) in Hf. by exists x'.
Qed.

Lemma deactivate_frozen p db : map frozen (deactivate p db) = map frozen db.
Proof. unfold deactivate. rewrite map_map. apply map_ext. intros x. by destruct (p x), x. Qed.

Section hashes.
Context `{UnicodeData} `{YamlLoader}.

(** The declared dependencies of a row's manifest, as a list. *)
Definition declares (sn : snapshot) (deps : list json) : Prop :=
  exists o, yaml_safe_load (manifest_yaml sn) = Ok (JObj o) /\ default (JList []) (assoc (u "dependencies") o) = JList deps.

(** The row [child] a pin of [sn] names, and it is what [dependency] declares. *)
Definition pinned_child (db : list snapshot) (sn : snapshot) (dependency : json) (child : snapshot) : Prop :=
  exists name id, dependency_name dependency = Ok (JStr name) /\ name <> [] /\ id <> [] /\
    assoc name (dependency_snapshot_ids sn) = Some id /\ by_id id db = Some child /\ skill_name child = name /\
    forall v, declared_version dependency = Some v -> int_of v = Ok (version_label child).

Definition pinned_in (db : list snapshot) (sn : snapshot) : Prop :=
  exists deps, declares sn deps /\ forall d, d ∈ deps -> exists child, pinned_child db sn d child.

Lemma declares_content sn sn' deps : same_content sn sn' -> declares sn deps -> declares sn' deps.
Proof. intros (_ & _ & Hm & _) (o & Hy & Hd). exists o. by rewrite <- Hm. Qed.

Lemma declares_fun sn deps deps' : declares sn deps -> declares sn deps' -> deps = deps'.
Proof. intros (o & Hy & Hd) (o' & Hy' & Hd'). congruence. Qed.

Lemma pinned_child_grows db db' sn sn' d child : grows db db' -> same_content sn sn' -> pinned_child db sn d child ->
  exists child', pinned_child db' sn' d child' /\ frozen child' = frozen child.
Proof.
  intros Hg (_ & _ & _ & Hp) (name & id & Hn & Hne & Hid & Ha & Hb & Hc & Hv).
  destruct (by_id_grows _ _ _ _ Hg Hb) as (child' & Hb' & Hf). exists child'. split; [|done].
  destruct (frozen_content _ _ Hf) as ((Hcn & _) & _ & Hver). exists name, id. rewrite <- Hp. split_and!; try done; [congruence|].
  intros v Hd. rewrite (Hv v Hd). congruence.
Qed.

Lemma pinned_in_grows db db' sn sn' : grows db db' -> same_content sn sn' -> pinned_in db sn -> pinned_in db' sn'.
Proof.
  intros Hg Hs (deps & Hd & Hc). exists deps. split; [by eapply declares_content|]. intros d Hin.
  destruct (Hc d Hin) as [child Hp]. destruct (pinned_child_grows _ _ _ _ _ _ Hg Hs Hp) as (child' & ? & _). by exists child'.
Qed.

Lemma dependency_snapshot_pinned db sn d child name : pinned_child db sn d child -> dependency_name d = Ok name ->
  dependency_snapshot db sn d name = Ok (Some child).
Proof.
  intros (n & id & Hn & _ & Hid & Ha & Hb & _) Hname. rewrite Hn in Hname. apply Ok_inj in Hname as <-.
  unfold dependency_snapshot. cbn [pinned_id]. rewrite Ha. unfold mbind, result_bind. destruct id; [done|]. by rewrite Hb.
Qed.

Lemma dependency_snapshot_in db sn d name child : dependency_snapshot db sn d name = Ok (Some child) -> child ∈ db.
Proof.
  unfold dependency_snapshot. unfold mbind, result_bind. destruct (pinned_id _ _) as [pin|]; [|done].
  assert (Hl : forall v, latest_of name v db = Ok (Some child) -> child ∈ db).
  { intros v. destruct name; try done. simpl. by intros [Hin _]%Ok_inj%latest_named_in. }
  assert (Hf : (match declared_version d with None => latest_of name None db | Some v =>
    match int_of v with Ok n => latest_of name (Some n) db | Raise e => Raise e end end) = Ok (Some child) -> child ∈ db).
  { destruct (declared_version d) as [v|]; [destruct (int_of v)|]; naive_solver. }
  destruct pin as [[|c id]|]; [exact Hf| |exact Hf]. by intros [Hin _]%Ok_inj%by_id_Some.
Qed.

(** Every row is pinned: the execution hash of a pinned row is the same in
    every later table. *)
Lemma hash_grows db db' : (forall x, x ∈ db -> pinned_in db x) -> grows db db' -> forall fuel sn sn' active h,
  pinned_in db sn -> same_content sn sn' -> compute_execution_hash fuel db sn active = Ok h ->
  compute_execution_hash fuel db' sn' active = Ok h.
Proof.
  intros Hrows Hg fuel. induction fuel as [|fuel IH]; intros sn sn' active h Hp Hs; [done|].
  pose proof Hs as (Hname & Hcont & Hman & Hpins). destruct Hp as (deps & (o & Hy & Hd) & Hc).
  cbn [compute_execution_hash]. rewrite <- Hname. destruct (decide _); [done|]. rewrite <- Hman, Hy.
  unfold mbind, result_bind. cbn [py_get].
  assert (Hjor : py_get (u "dependencies") (JList []) (jor (JObj o) (JObj [])) = Ok (JList deps)).
  { unfold jor. destruct o; [cbn; simpl in Hd; by rewrite Hd|]. cbn [jtruthy py_get]. by rewrite Hd. }
  rewrite Hjor. cbn [py_iter].
  intros Hrun. match type of Hrun with match ?e with _ => _ end = _ => destruct e as [comps|] eqn:He; [|done] end.
  rewrite <- Hcont, <- Hrun. eapply each_impl in He; [rewrite He; reflexivity|]. clear He Hrun. intros d c Hin Hone.
  destruct (Hc d Hin) as [child Hchild]. destruct (pinned_child_grows _ _ _ _ _ _ Hg Hs Hchild) as (child' & Hchild' & Hf).
  destruct (dependency_name d) as [name|] eqn:Hname'; [|done].
  rewrite (dependency_snapshot_pinned _ _ _ _ _ Hchild Hname') in Hone. rewrite (dependency_snapshot_pinned _ _ _ _ _ Hchild' Hname').
  destruct (frozen_content _ _ Hf) as ((Hcn & Hcc & Hcm & Hcp) & _ & _). rewrite Hcn, Hcc. destruct (bool_decide _); [|done].
  destruct (compute_execution_hash fuel db child _) as [h'|] eqn:Hh'; [|done].
  assert (Hin' : child ∈ db) by (destruct Hchild as (? & ? & _ & _ & _ & _ & Hb & _); by apply by_id_Some in Hb as [? _]).
  by rewrite (IH child child' _ h' (Hrows _ Hin') ltac:(done) Hh').
Qed.

(** The fuel does not matter as soon as it covers the rows off the path. *)
Lemma hash_fuel db fuel : forall sn active h, compute_execution_hash fuel db sn active = Ok h ->
  forall fuel', unvisited db (skill_name sn :: active) < fuel' -> compute_execution_hash fuel' db sn active = Ok h.
Proof.
  induction fuel as [|fuel IH]; intros sn active h; [done|]. intros Hrun [|fuel'] Hf; [lia|]. revert Hrun.
  cbn [compute_execution_hash]. destruct (decide _); [done|]. unfold mbind, result_bind.
  destruct (yaml_safe_load _) as [doc|]; [|done]. destruct (py_get _ _ _) as [declared|]; [|done].
  destruct (py_iter declared) as [deps|]; [|done]. intros Hrun.
  match type of Hrun with match ?e with _ => _ end = _ => destruct e as [comps|] eqn:He; [|done] end.
  rewrite <- Hrun. eapply each_impl in He; [rewrite He; reflexivity|]. clear He Hrun. intros d c Hin.  cbv beta.
  destruct (dependency_name d) as [name|]; [|done]. destruct (dependency_snapshot _ _ _ _) as [[child|]|] eqn:Hc; try done.
  destruct (bool_decide _); [|done].
  destruct (compute_execution_hash fuel db child _) as [h'|] eqn:Hh'; [|done].
  rewrite (IH _ _ _ Hh' fuel'); [done|]. assert (Hn : skill_name child ∉ skill_name sn :: active).
  { intros Hn. destruct fuel; [done|]. cbn [compute_execution_hash] in Hh'. by rewrite decide_True in Hh'. }
  apply dependency_snapshot_in in Hc. pose proof (unvisited_step db child _ Hc Hn). lia.
Qed.
End hashes.

(** ** The registry's invariant *)

Section invariant.
Context `{UnicodeData} `{PyText} `{YamlLoader} `{MetaSchema}.
Context (uuid : nat -> pystr) (now : Z).
Hypothesis uuid_fresh : forall i j, uuid i = uuid j -> i = j.
Hypothesis uuid_text : forall i, uuid i <> [].

(** Identifiers are unique and come from the supply; a skill has at most one
    active row and one row per version; every row's dependencies are pinned to
    rows; and the stored execution hash is the one the table yields. *)
Record registry_wf (s : session) : Prop := {
  wf_ids : NoDup (map sn_id (rows s));
  wf_supply : forall x, x ∈ rows s -> exists i, i < next_uuid s /\ sn_id x = uuid i;
  wf_active : forall x y, x ∈ rows s -> y ∈ rows s -> is_active x = true -> is_active y = true ->
    skill_name x = skill_name y -> sn_id x = sn_id y;
  wf_versions : forall x y, x ∈ rows s -> y ∈ rows s -> skill_name x = skill_name y ->
    version_label x = version_label y -> sn_id x = sn_id y;
  wf_pinned : forall x, x ∈ rows s -> pinned_in (rows s) x;
  wf_hash : forall x, x ∈ rows s -> exists h, execution_hash x = Some h /\
    compute_execution_hash (S (length (rows s))) (rows s) x [] = Ok h;
}.

Lemma frozen_eq_in db db' x : map frozen db' = map frozen db -> x ∈ db' -> exists y, y ∈ db /\ frozen y = frozen x.
Proof.
  intros Hf Hx. assert (Hin : frozen x ∈ map frozen db) by (rewrite <- Hf; by apply (list_elem_of_fmap_2 frozen)).
  apply list_elem_of_fmap in Hin as (y & Hy & Hin). by exists y.
Qed.

Lemma frozen_grows db db' : map frozen db' = map frozen db -> grows db db'.
Proof. intros Hf. exists []. by rewrite app_nil_r. Qed.

Lemma hash_rows db db' x y h fuel : (forall x, x ∈ db -> pinned_in db x) -> grows db db' -> same_content x y -> x ∈ db ->
  compute_execution_hash fuel db x [] = Ok h -> compute_execution_hash (S (length db')) db' y [] = Ok h.
Proof.
  intros Hp Hg Hs Hin Hh. eapply hash_fuel; [by eapply hash_grows; eauto|].
  pose proof (unvisited_bound db' [skill_name y]). lia.
Qed.

(** Changing active flags. *)
Lemma wf_reflag s db : registry_wf s -> map frozen db = map frozen (rows s) ->
  (forall x y, x ∈ db -> y ∈ db -> is_active x = true -> is_active y = true -> skill_name x = skill_name y -> sn_id x = sn_id y) ->
  registry_wf (set_rows db s).
Proof.
  intros [Hids Hsup _ Hver Hpin Hhash] Hf Hact.
  assert (Hback : forall x, x ∈ db -> exists y, y ∈ rows s /\ frozen y = frozen x) by (intros x; by apply frozen_eq_in).
  split; simpl.
  - assert (Hm : forall l, map sn_id l = map sn_id (map frozen l)) by (intros l; rewrite map_map; by apply map_ext; intros []).
    rewrite Hm, Hf, <- Hm. done.
  - intros x (y & Hy & Hxy)%Hback. apply frozen_content in Hxy as (_ & <- & _). by apply Hsup.
  - done.
  - intros x y (x' & Hx & Hxx)%Hback (y' & Hy & Hyy)%Hback.
    apply frozen_content in Hxx as ((Hn & _) & Hi & Hv), Hyy as ((Hn' & _) & Hi' & Hv').
    rewrite <- Hn, <- Hn', <- Hv, <- Hv', <- Hi, <- Hi'. by apply Hver.
  - intros x (y & Hy & Hxy)%Hback. apply frozen_content in Hxy as (Hs & _ & _).
    eapply pinned_in_grows; [by apply frozen_grows|exact Hs|by apply Hpin].
  - intros x (y & Hy & Hxy)%Hback. destruct (Hhash y Hy) as (h & He & Hh). exists h. split.
    + rewrite <- He. destruct x, y. unfold frozen, set_flag in Hxy. simpl in *. congruence.
    + apply frozen_content in Hxy as (Hs & _ & _). eapply hash_rows; [exact Hpin|by apply frozen_grows|exact Hs|done|exact Hh].
Qed.

(** Adding a row. *)
Lemma wf_add s row fuel h : registry_wf s -> sn_id row = uuid (next_uuid s) ->
  (is_active row = true -> forall x, x ∈ rows s -> skill_name x = skill_name row -> is_active x = false) ->
  (forall x, x ∈ rows s -> skill_name x = skill_name row -> version_label x <> version_label row) ->
  pinned_in (rows s) row -> execution_hash row = Some h -> compute_execution_hash fuel (rows s) row [] = Ok h ->
  registry_wf (mk_session (rows s ++ [row]) (S (next_uuid s))).
Proof.
  intros [Hids Hsup Hact Hver Hpin Hhash] Hid Hra Hrv Hrp Hre Hrh.
  assert (Hg : grows (rows s) (rows s ++ [row])) by (exists [frozen row]; by rewrite map_app).
  assert (Hcases : forall x, x ∈ rows s ++ [row] -> x ∈ rows s \/ x = row) by (intros x; rewrite elem_of_app, list_elem_of_singleton; done).
  assert (Hsame : forall x, same_content x x) by done.
  split; cbn [rows next_uuid].
  - rewrite map_app. apply NoDup_app. split_and!; [done| |apply NoDup_singleton].
    intros i (x & -> & Hx)%list_elem_of_fmap [=]%list_elem_of_singleton. destruct (Hsup x Hx) as (j & Hj & Hxj).
    assert (j = next_uuid s) by (apply uuid_fresh; congruence). lia.
  - intros x [Hx| ->]%Hcases; [|by exists (next_uuid s); split; [lia|]]. destruct (Hsup x Hx) as (j & Hj & Hxj). exists j. split; [lia|done].
  - intros x y [Hx| ->]%Hcases [Hy| ->]%Hcases Ax Ay Hn; [by apply Hact| | |done].
    + by rewrite (Hra Ay x Hx Hn) in Ax.
    + by rewrite (Hra Ax y Hy (eq_sym Hn)) in Ay.
  - intros x y [Hx| ->]%Hcases [Hy| ->]%Hcases Hn Hv; [by apply Hver| | |done].
    + by destruct (Hrv x Hx Hn).
    + by destruct (Hrv y Hy (eq_sym Hn)).
  - intros x [Hx| ->]%Hcases; eapply pinned_in_grows; eauto.
  - intros x [Hx| ->]%Hcases.
    + destruct (Hhash x Hx) as (h' & He & Hh). exists h'. split; [done|]. eapply hash_rows; eauto.
    + exists h. split; [done|]. eapply hash_fuel; [by eapply hash_grows; eauto|].
      pose proof (unvisited_bound (rows s ++ [row]) [skill_name row]). lia.
Qed.

(** ** Procedures that keep the invariant *)

Definition safe {A} (P : session -> Prop) (m : M session pyexn A) (Q : A -> session -> Prop) : Prop :=
  forall s r s', registry_wf s -> P s -> m s = (r, s') ->
    registry_wf s' /\ grows (rows s) (rows s') /\ forall a, r = Ok a -> Q a s'.

Lemma safe_bind {A B} P (m : M session pyexn A) Q (f : A -> M session pyexn B) R :
  safe P m Q -> (forall a, safe (Q a) (f a) R) -> safe P (mbind f m) R.
Proof.
  intros Hm Hf s r s' Hwf Hp [(e & He & ->)|(a & s1 & Ha & Hb)]%bind_inv.
  - destruct (Hm _ _ _ Hwf Hp He) as (? & ? & _). by split_and!.
  - destruct (Hm _ _ _ Hwf Hp Ha) as (Hw1 & Hg1 & Hq). destruct (Hf a _ _ _ Hw1 (Hq a eq_refl) Hb) as (? & ? & ?).
    split_and!; [done|by etrans|done].
Qed.

Lemma safe_lift {A} (P : session -> Prop) (x : result pyexn A) (Q : A -> session -> Prop) :
  (forall s a, P s -> x = Ok a -> Q a s) -> safe P (lift_result x) Q.
Proof. intros Hq s r s' Hw Hp [= <- <-]. split_and!; [done|reflexivity|]. intros a. by apply Hq. Qed.

Lemma safe_ret {A} (P : session -> Prop) (a : A) (Q : A -> session -> Prop) : (forall s, P s -> Q a s) -> safe P (mret a) Q.
Proof. intros Hq s r s' Hw Hp [= <- <-]. split_and!; [done|reflexivity|]. intros b [= <-]. by apply Hq. Qed.

Lemma safe_raise {A} P e (Q : A -> session -> Prop) : safe P (raise e) Q.
Proof. intros s r s' Hw Hp [= <- <-]. split_and!; [done|reflexivity|done]. Qed.

Lemma safe_get P : safe P get_st (fun a s => a = s /\ P s).
Proof. intros s r s' Hw Hp [= <- <-]. split_and!; [done|reflexivity|]. by intros a [= <-]. Qed.

Lemma safe_pre {A} (P P' : session -> Prop) (m : M session pyexn A) Q : (forall s, P' s -> P s) -> safe P m Q -> safe P' m Q.
Proof. intros Hpp Hm s r s' Hw Hp. apply Hm; [done|by apply Hpp]. Qed.

Lemma safe_post {A} P (m : M session pyexn A) (Q Q' : A -> session -> Prop) : (forall a s, Q a s -> Q' a s) -> safe P m Q -> safe P m Q'.
Proof. intros Hqq Hm s r s' Hw Hp Hr. destruct (Hm _ _ _ Hw Hp Hr) as (? & ? & Hq). split_and!; [done|done|]. intros a Ha. by apply Hqq, Hq. Qed.

(** A property that growing tables keep. *)
Definition stable (P : session -> Prop) : Prop := forall s s', grows (rows s) (rows s') -> P s -> P s'.

Lemma safe_frame {A} (P F : session -> Prop) (m : M session pyexn A) Q : stable F -> safe P m Q ->
  safe (fun s => P s /\ F s) m (fun a s => Q a s /\ F s).
Proof.
  intros Hst Hm s r s' Hw [Hp Hf] Hr. destruct (Hm _ _ _ Hw Hp Hr) as (Hw' & Hg & Hq).
  split_and!; [done|done|]. intros a Ha. split; [by apply Hq|by eapply Hst].
Qed.

(** *** Pinning *)

Definition present (s : session) (name id : pystr) : Prop := exists x, x ∈ rows s /\ sn_id x = id /\ skill_name x = name.
Definition pins_ok (pins : list (pystr * pystr)) (s : session) : Prop :=
  forall name id, assoc name pins = Some id -> present s name id.
(** Every named dependency has a pin. *)
Definition covers (pins : list (pystr * pystr)) (l : list json) : Prop :=
  forall d n, d ∈ l -> dependency_name d = Ok n -> jtruthy n = true -> exists k, n = JStr k /\ is_Some (assoc k pins).

Lemma present_stable name id : stable (fun s => present s name id).
Proof.
  intros s s' [more Hm] (x & Hx & Hi & Hn). assert (Hin : frozen x ∈ map frozen (rows s')).
  { rewrite Hm. apply elem_of_app. left. by apply (list_elem_of_fmap_2 frozen). }
  apply list_elem_of_fmap in Hin as (y & Hy & Hin). apply frozen_content in Hy as ((Hny & _) & Hiy & _).
  exists y. split_and!; [done|congruence..].
Qed.

Lemma pins_ok_stable pins : stable (pins_ok pins).
Proof. intros s s' Hg Hp name id Ha. eapply present_stable; [exact Hg|by apply Hp]. Qed.

Lemma pins_ok_set pins s name id : pins_ok pins s -> present s name id -> pins_ok (assoc_set name id pins) s.
Proof.
  intros Hp Hx n i. destruct (decide (n = name)) as [->|Hn]; [rewrite assoc_set_eq; by intros [= <-]|].
  rewrite assoc_set_ne by done. apply Hp.
Qed.

Lemma current_dependency_in db d name row : current_dependency db d name = Ok (Some row) ->
  exists k, name = JStr k /\ row ∈ db /\ skill_name row = k.
Proof.
  unfold current_dependency. unfold mbind, result_bind.
  destruct (match declared_version d with None => mret None | Some v => match int_of v with Ok n => mret (Some n) | Raise e => Raise e end end)
    as [w|]; [|done]. destruct name as [| | | |k| |]; try done. intros [= Hr]. exists k. split; [done|].
  destruct w; apply find_first_Some in Hr as [Hin Hp]; apply andb_true_iff in Hp as [Hn _];
    apply bool_decide_eq_true_1 in Hn; by split.
Qed.

Lemma pin_dependencies_safe register : (forall k, safe (fun _ => True) (register k) (fun row s => row ∈ rows s /\ skill_name row = k)) ->
  forall l pins, safe (pins_ok pins) (pin_dependencies register l pins)
    (fun pins' s => pins_ok pins' s /\ covers pins' l /\ forall k, is_Some (assoc k pins) -> is_Some (assoc k pins')).
Proof.
  intros Hreg. induction l as [|d l IH]; intros pins; cbn [pin_dependencies].
  { apply safe_ret. intros s Hs. split_and!; [done| |done]. by intros d n Hd%elem_of_nil. }
  eapply safe_bind; [apply safe_lift with (Q := fun n s => dependency_name d = Ok n /\ pins_ok pins s); naive_solver|]. intros name.
  destruct (jtruthy name) eqn:Ht; cbn [negb].
  2:{ intros s r s' Hw [Hn Hp] Hr. destruct (IH pins _ _ _ Hw Hp Hr) as (Hw' & Hg & Hq). split_and!; [done|done|].
      intros a Ha. destruct (Hq a Ha) as (Hpa & Hc & Hk). split_and!; [done| |done]. intros d' n [->|Hd]%elem_of_cons Hn' Htn; [congruence|by eapply Hc]. }
  eapply safe_bind; [apply safe_get|]. intros s0.
  eapply safe_bind; [apply safe_lift with (Q := fun found s => (forall row, found = Some row -> exists k, name = JStr k /\ present s k (sn_id row)) /\
      dependency_name d = Ok name /\ pins_ok pins s)|].
  { intros s found [-> [Hn Hp]] Hf. split_and!; [|done|done]. intros row ->. apply current_dependency_in in Hf as (k & -> & Hin & Hk).
    exists k. split; [done|]. by exists row. }
  intros found. eapply safe_bind; [apply safe_lift with (Q := fun k s => name = JStr k /\
      (forall row, found = Some row -> present s k (sn_id row)) /\ dependency_name d = Ok name /\ pins_ok pins s)|].
  { intros s k (Hf & Hn & Hp) Hk. destruct name as [| | | |k'| |]; try done. apply Ok_inj in Hk as <-. split_and!; try done.
    intros row Hr. destruct (Hf row Hr) as (k & [= <-] & Hx). done. }
  intros key. eapply safe_bind with (Q := fun row s => name = JStr key /\ present s key (sn_id row) /\ dependency_name d = Ok name /\ pins_ok pins s).
  { destruct found as [row|]; [apply safe_ret; naive_solver|].
    eapply safe_pre; [|eapply safe_post; [|eapply (safe_frame (fun _ => True)
      (fun s => name = JStr key /\ dependency_name d = Ok name /\ pins_ok pins s)); [|apply Hreg]]].
    - naive_solver.
    - intros row s [[Hin Hk] (? & ? & ?)]. split_and!; [done|by exists row|done|done].
    - intros s s' Hg (? & ? & ?). split_and!; [done|done|by eapply pins_ok_stable]. }
  intros row.
  intros s r s' Hw (-> & Hx & Hn & Hp) Hr. destruct (IH _ _ _ _ Hw (pins_ok_set _ _ _ _ Hp Hx) Hr) as (Hw' & Hg & Hq).
  split_and!; [done|done|]. intros a Ha. destruct (Hq a Ha) as (Hpa & Hc & Hk). split_and!; [done| |].
  - intros d' n [->|Hd]%elem_of_cons Hn' Htn; [|by eapply Hc]. assert (n = JStr key) as -> by congruence. exists key. split; [done|].
    apply Hk. by rewrite assoc_set_eq.
  - intros k Hk'. apply Hk. destruct (decide (k = key)) as [->|Hne]; [by rewrite assoc_set_eq|by rewrite assoc_set_ne].
Qed.

(** *** Validation pins every dependency *)

Lemma require_ok b msg : require b msg = Ok tt -> b = true.
Proof. by destruct b. Qed.

Lemma check_each_ok {A} (f : A -> result pyexn ()) l : check_each f l = Ok tt -> forall x, x ∈ l -> f x = Ok tt.
Proof.
  induction l as [|y l IH]; intros Hr x; [by intros ?%elem_of_nil|]. cbn [check_each] in Hr. apply bind_result_ok in Hr as ([] & Hy & Hr).
  intros [->|Hx]%elem_of_cons; [done|by apply IH].
Qed.

Lemma load_manifest_ok sn m : load_manifest sn = Ok m -> exists o, m = JObj o /\ yaml_safe_load (manifest_yaml sn) = Ok (JObj o).
Proof. unfold load_manifest. destruct (yaml_safe_load _) as [[]|]; try done. intros <-%Ok_inj. eauto. Qed.

Lemma validate_graph_ok fuel db sn active : validate_dependency_graph fuel db sn active = Ok tt ->
  exists deps, declares sn deps /\ forall d, d ∈ deps -> exists child, resolve_dependency_snapshot db d (dependency_snapshot_ids sn) = Ok child.
Proof.
  destruct fuel as [|fuel]; [done|]. cbn [validate_dependency_graph]. intros ([] & _ & Hr)%bind_result_ok.
  apply bind_result_ok in Hr as (m & Hm & Hr). apply load_manifest_ok in Hm as (o & -> & Hy).
  apply bind_result_ok in Hr as (deps & Hd & Hr). exists deps. split.
  - exists o. split; [done|]. unfold dependency_list in Hd. apply bind_result_ok in Hd as (v & Hv & Hd). cbn [py_get] in Hv.
    apply Ok_inj in Hv. rewrite Hv. destruct v; try done. by apply Ok_inj in Hd as ->.
  - intros d Hin. eapply check_each_ok in Hr; [|exact Hin]. apply bind_result_ok in Hr as (child & Hc & _). by exists child.
Qed.

Lemma validate_ok fuel db sn : validate_snapshot fuel db sn = Ok tt -> exists deps, declares sn deps /\
  forall d, d ∈ deps -> exists child, resolve_dependency_snapshot db d (dependency_snapshot_ids sn) = Ok child.
Proof.
  unfold validate_snapshot. intros ([] & _ & Hr)%bind_result_ok. apply bind_result_ok in Hr as (m & _ & Hr).
  apply bind_result_ok in Hr as (? & _ & Hr). apply bind_result_ok in Hr as (? & _ & Hr). apply bind_result_ok in Hr as ([] & _ & Hr).
  apply bind_result_ok in Hr as ([] & _ & Hr). apply bind_result_ok in Hr as (? & _ & Hr). apply bind_result_ok in Hr as ([] & Hg & _).
  by eapply validate_graph_ok.
Qed.

Lemma requested_version_ok v n : requested_version v = Ok n -> int_of v = Ok n.
Proof. unfold requested_version. destruct (int_of v); [|done]. by intros <-%Ok_inj. Qed.

Lemma resolve_pinned db d sn child k id : resolve_dependency_snapshot db d (dependency_snapshot_ids sn) = Ok child ->
  dependency_name d = Ok (JStr k) -> assoc k (dependency_snapshot_ids sn) = Some id -> id <> [] -> pinned_child db sn d child.
Proof.
  unfold resolve_dependency_snapshot. intros (name & Hn & Hr)%bind_result_ok Hk Ha Hid.
  assert (name = JStr k) as -> by (destruct d; simpl in Hk, Hn; congruence).
  apply bind_result_ok in Hr as ([] & Ht%require_ok & Hr). cbn [pinned_id] in Hr. rewrite Ha in Hr. apply bind_result_ok in Hr as (pin & Hpin & Hr).
  apply Ok_inj in Hpin as <-. destruct (by_id id db) as [pinned|] eqn:Hb; [|done].
  apply bind_result_ok in Hr as ([] & Hs%require_ok & Hr). apply bool_decide_eq_true_1 in Hs. injection Hs as Hs.
  assert (Hcase : pinned = child /\ forall v, declared_version d = Some v -> int_of v = Ok (version_label pinned)).
  { destruct (declared_version d) as [v|]; [|apply Ok_inj in Hr; by split]. apply bind_result_ok in Hr as (n & Hv%requested_version_ok & Hr).
    apply bind_result_ok in Hr as ([] & Hn'%require_ok & Hr). apply Z.eqb_eq in Hn'. apply Ok_inj in Hr. split; [done|]. intros ? [= <-]. by rewrite Hn'. }
  destruct Hcase as [<- Hv]. exists k, id. split_and!; try done. by destruct k.
Qed.

Lemma resolve_truthy db d pins child : resolve_dependency_snapshot db d pins = Ok child ->
  exists n, dependency_name d = Ok n /\ jtruthy n = true.
Proof.
  unfold resolve_dependency_snapshot. intros (name & Hn & Hr)%bind_result_ok. apply bind_result_ok in Hr as ([] & Ht%require_ok & _).
  exists name. split; [|exact Ht]. destruct d; try discriminate Hn; exact Hn.
Qed.

(** A validated row whose pins are rows of the table is pinned in it. *)
Lemma validated_pinned s sn fuel : registry_wf s -> validate_snapshot fuel (rows s) sn = Ok tt ->
  (forall deps, declares sn deps -> covers (dependency_snapshot_ids sn) deps) -> pins_ok (dependency_snapshot_ids sn) s ->
  pinned_in (rows s) sn.
Proof.
  intros Hwf (deps & Hd & Hr)%validate_ok Hc Hp. exists deps. split; [done|]. intros d Hin.
  destruct (Hr d Hin) as [child Hchild]. exists child. destruct (resolve_truthy _ _ _ _ Hchild) as (n & Hn & Ht).
  destruct (Hc deps Hd d n Hin Hn Ht) as (k & -> & [id Hid]). eapply resolve_pinned; [exact Hchild|done|exact Hid|].
  destruct (Hp k id Hid) as (x & Hx & <- & _). destruct (wf_supply _ Hwf x Hx) as (i & _ & ->). apply uuid_text.
Qed.

(** *** Registration *)

Lemma max_version_bound name db x : x ∈ db -> skill_name x = name -> (version_label x <= max_version name db)%Z.
Proof.
  intros Hx Hn. assert (Hin : version_label x ∈ map version_label (rows_named name db)).
  { apply (list_elem_of_fmap_2 version_label). unfold rows_named. by apply list_elem_of_filter. }
  unfold max_version. destruct (map version_label _) as [|v vs]; [by apply elem_of_nil in Hin|].
  assert (Hb : (v <= foldr Z.max v vs)%Z /\ forall w, w ∈ vs -> (w <= foldr Z.max v vs)%Z).
  { clear. induction vs as [|w vs [IHv IH]]; simpl; [split; [lia|by intros ? ?%elem_of_nil]|]. split; [lia|].
    intros w' [->|Hw]%elem_of_cons; [lia|]. specialize (IH w' Hw). lia. }
  apply elem_of_cons in Hin as [->|Hin]; [by destruct Hb|by apply Hb].
Qed.

Lemma deactivate_in p db x : x ∈ deactivate p db -> is_active x = true -> x ∈ db /\ p x = false.
Proof.
  unfold deactivate. intros (y & -> & Hy)%list_elem_of_fmap. destruct (p y) eqn:Hp; [by destruct y|]. by intros _.
Qed.

Lemma wf_deactivate s p : registry_wf s -> registry_wf (set_rows (deactivate p (rows s)) s).
Proof.
  intros Hwf. eapply wf_reflag; [done|apply deactivate_frozen|]. intros x y Hx Hy Ax Ay.
  destruct (deactivate_in _ _ _ Hx Ax) as [Hx' _], (deactivate_in _ _ _ Hy Ay) as [Hy' _]. by apply (wf_active _ Hwf).
Qed.

Lemma register_content_safe name hash text pins activate :
  safe (fun s => pins_ok pins s /\ forall sn deps, manifest_yaml sn = t_manifest text -> declares sn deps -> covers pins deps)
    (register_content uuid now name hash text pins activate) (fun row s => row ∈ rows s /\ skill_name row = name).
Proof.
  intros s r s' Hwf [Hpins Hcov]. unfold register_content, get_st. unfold mbind at 1, M_bind at 1.
  destruct (existing_snapshot name hash pins (rows s)) as [candidate|] eqn:Hex.
  { intros [= <- <-]. split_and!; [done|reflexivity|]. intros a [= <-]. apply oldest_Some in Hex as (Hin & Hp & _).
    apply andb_true_iff in Hp as [Hp _]. apply andb_true_iff in Hp as [Hp _]. by apply bool_decide_eq_true_1 in Hp. }
  set (first := bool_decide (rows_named name (rows s) = [])). set (version := (max_version name (rows s) + 1)%Z).
  cbv zeta. set (act := default first activate).
  set (s1 := if act then set_rows (deactivate (fun x => bool_decide (skill_name x = name)) (rows s)) s else s).
  assert (Hwhen : when act (modify_st (set_rows (deactivate (fun x => bool_decide (skill_name x = name)) (rows s)))) s = (@Ok pyexn () tt, s1))
    by (unfold s1; by destruct act).
  assert (Hfr : map frozen (rows s1) = map frozen (rows s)) by (unfold s1; destruct act; [apply deactivate_frozen|done]).
  assert (Hwf1 : registry_wf s1) by (unfold s1; destruct act; [by apply wf_deactivate|done]).
  assert (Hoff : act = true -> forall x, x ∈ rows s1 -> skill_name x = name -> is_active x = false).
  { unfold s1. intros -> x Hx Hn. simpl in Hx. destruct (is_active x) eqn:Ha; [|done].
    apply deactivate_in in Hx as [_ Hp]; [|done]. by apply bool_decide_eq_false_1 in Hp. }
  assert (Hver : forall x, x ∈ rows s1 -> skill_name x = name -> (version_label x < version)%Z).
  { intros x Hx Hn. destruct (frozen_eq_in _ _ _ Hfr Hx) as (y & Hy & Hxy). apply frozen_content in Hxy as ((Hny & _) & _ & <-).
    pose proof (max_version_bound name (rows s) y Hy). unfold version. rewrite Hny in *. specialize (H3 Hn). lia. }
  assert (Hpins1 : pins_ok pins s1) by (eapply pins_ok_stable; [by apply frozen_grows|done]).
  clearbody s1. rewrite (bind_ok _ _ _ _ _ Hwhen). unfold mbind at 1, M_bind at 1.
  set (draft := draft_of name hash text pins version act). intros Hrun.
  assert (Hg1 : grows (rows s) (rows s1)) by by apply frozen_grows.
  apply bind_inv in Hrun as [(e & He & ->)|([] & s2 & Hval & Hrun)].
  { unfold lift_result in He. injection He as _ <-. by split_and!. }
  apply lift_ok_inv in Hval as [Hval ->]. apply bind_inv in Hrun as [(e & He & ->)|(h & s2 & Hhash & Hrun)].
  { unfold lift_result in He. injection He as _ <-. by split_and!. }
  apply lift_ok_inv in Hhash as [Hhash ->].
  set (row := stored now draft (uuid (next_uuid s1)) h) in *. injection Hrun as <- <-. cbn [rows next_uuid].
  assert (Hpin : pinned_in (rows s1) draft).
  { eapply validated_pinned; [done|exact Hval| |done]. intros deps Hd. exact (Hcov draft deps eq_refl Hd). }
  assert (Hsc : same_content draft row) by done.
  split_and!.
  - eapply (wf_add s1 row _ h); [done|done| | |exact Hpin|done|exact (hash_grows _ _ (wf_pinned _ Hwf1) (reflexivity _) _ draft row _ _ Hpin Hsc Hhash)].
    + intros Ha x Hx Hn. by apply Hoff.
    + intros x Hx Hn. pose proof (Hver x Hx Hn). change (version_label row) with version. lia.
  - etrans; [exact Hg1|]. exists [frozen row]. by rewrite map_app.
  - intros a [= <-]. split; [|done]. apply elem_of_app. right. apply list_elem_of_here.
Qed.

Lemma get_or_create_safe skills_dir fuel : forall name activate, safe (fun _ => True)
  (get_or_create_snapshot uuid now fuel skills_dir name activate) (fun row s => row ∈ rows s /\ skill_name row = name).
Proof.
  induction fuel as [|fuel IH]; intros name activate; cbn [get_or_create_snapshot]; [apply safe_raise|].
  eapply safe_bind; [apply safe_lift with (Q := fun _ _ => True); done|]. intros hash.
  eapply safe_bind; [apply safe_lift with (Q := fun _ _ => True); done|]. intros text.
  eapply safe_bind; [apply safe_lift with (Q := fun doc _ => yaml_safe_load (t_manifest text) = Ok doc); done|]. intros doc.
  eapply safe_bind; [apply safe_lift with (Q := fun declared _ => yaml_safe_load (t_manifest text) = Ok doc /\
    py_get (u "dependencies") (JList []) (jor doc (JObj [])) = Ok declared); done|]. intros declared.
  eapply safe_bind; [apply safe_lift with (Q := fun l _ => forall sn deps, manifest_yaml sn = t_manifest text -> declares sn deps -> deps = l)|].
  { intros _ l [Hy Hd] Hl sn deps Hm (o & Hy' & Hd'). rewrite Hm in Hy'. assert (doc = JObj o) as -> by congruence.
    assert (declared = JList deps) as ->.
    { unfold jor in Hd. destruct o; [cbn in Hd; simpl in Hd'; congruence|]. cbn [jtruthy py_get] in Hd. congruence. }
    by apply Ok_inj in Hl. }
  intros l. eapply safe_bind; [|intros pins; apply register_content_safe].
  eapply safe_pre; [|eapply safe_post; [|eapply (safe_frame (pins_ok [])
    (fun _ => forall sn deps, manifest_yaml sn = t_manifest text -> declares sn deps -> deps = l))];
      [| |by apply pin_dependencies_safe]].
  - intros s Hl. split; [by intros ? ?|exact Hl].
  - intros pins s [(Hp & Hc & _) Hl]. split; [done|]. intros sn deps Hm Hd. by rewrite (Hl sn deps Hm Hd).
  - by intros ? ? _.
Qed.

(** *** Registration without activation appends *)

Definition appends (s s' : session) : Prop := exists more, rows s' = rows s ++ more.
#[global] Instance appends_preorder : PreOrder appends.
Proof.
  split; [intros s; exists []; by rewrite app_nil_r|]. intros a b c [m Hm] [k Hk]. exists (m ++ k). by rewrite Hk, Hm, <- app_assoc.
Qed.

Lemma appends_lift {A} (r : result pyexn A) : preserves appends (lift_result r : M session pyexn A).
Proof. intros s. reflexivity. Qed.

Lemma deactivate_none name db : rows_named name db = [] -> deactivate (fun x => bool_decide (skill_name x = name)) db = db.
Proof.
  unfold rows_named, deactivate. induction db as [|x l IH]; [done|]. rewrite filter_cons. cbn [map].
  destruct (decide (skill_name x = name)) as [|Hn]; [done|]. intros Hf. rewrite bool_decide_eq_false_2 by done. by rewrite IH.
Qed.

Lemma register_content_appends name hash text pins :
  preserves appends (register_content uuid now name hash text pins None).
Proof.
  unfold register_content. intros s. unfold get_st. unfold mbind at 1, M_bind at 1. destruct (existing_snapshot _ _ _ _); [reflexivity|].
  cbv zeta. cbn [default]. unfold mbind at 1, M_bind at 1.
  assert (Hw : when (bool_decide (rows_named name (rows s) = []))
      (modify_st (set_rows (deactivate (fun x => bool_decide (skill_name x = name)) (rows s)))) s = (@Ok pyexn () tt, s)).
  { case_bool_decide as Hn; [|done]. cbn [when]. unfold modify_st, set_rows. rewrite deactivate_none by done. by destruct s. }
  rewrite Hw. unfold mbind at 1, M_bind at 1.
  unfold lift_result. destruct (validate_snapshot _ _ _) as [[]|]; [|reflexivity].
  unfold mbind at 1, M_bind at 1. destruct (compute_execution_hash _ _ _ _) as [h|]; [|reflexivity].
  eexists. reflexivity.
Qed.

Lemma pin_dependencies_appends register : (forall k, preserves appends (register k)) -> forall l pins,
  preserves appends (pin_dependencies register l pins).
Proof.
  intros Hr. induction l as [|d l IH]; intros pins; cbn [pin_dependencies]; [apply preserves_ret; apply _|].
  apply preserves_bind; [apply _|apply appends_lift|]. intros n. destruct (negb _); [apply IH|].
  apply preserves_bind; [apply _|apply preserves_get; apply _|]. intros s0.
  apply preserves_bind; [apply _|apply appends_lift|]. intros found. apply preserves_bind; [apply _|apply appends_lift|]. intros key.
  apply preserves_bind; [apply _|destruct found; [apply preserves_ret; apply _|apply Hr]|]. intros row. apply IH.
Qed.

Lemma get_or_create_appends skills_dir fuel : forall name, preserves appends (get_or_create_snapshot uuid now fuel skills_dir name None).
Proof.
  induction fuel as [|fuel IH]; intros name; cbn [get_or_create_snapshot]; [apply preserves_raise; apply _|].
  do 5 (apply preserves_bind; [apply _|apply appends_lift|intros ?]).
  apply preserves_bind; [apply _|by apply pin_dependencies_appends|]. intros pins. apply register_content_appends.
Qed.

(** What a skill executes changes only by activation: while a skill has an
    active snapshot, resolving it registers whatever the checkout holds now
    and still returns that snapshot, whatever content was edited. *)
Theorem resolve_ignores_drift fuel skills_dir name s active r s' : active_named name (rows s) = Some active ->
  resolve_active_snapshot uuid now fuel skills_dir name s = (Ok r, s') -> r = active /\ appends s s'.
Proof.
  intros Ha. unfold resolve_active_snapshot. intros (row & s1 & Hrun & Hres)%bind_ok_inv.
  pose proof (get_or_create_appends skills_dir fuel name s) as Happ. rewrite Hrun in Happ. cbn [snd] in Happ.
  unfold get_st in Hres. unfold mbind, M_bind in Hres. destruct Happ as [more Hmore].
  assert (Hsame : active_named name (rows s1) = Some active).
  { rewrite Hmore. unfold active_named in *. rewrite find_first_app. by rewrite Ha. }
  rewrite Hsame in Hres. injection Hres as <- <-. split; [done|by exists more].
Qed.

(** ** Histories *)

(** One operation of one administrator or job-creating request; an exception
    leaves what the session had flushed. *)
Inductive registry_step : session -> session -> Prop :=
  | step_register fuel skills_dir name activate r s s' :
      get_or_create_snapshot uuid now fuel skills_dir name activate s = (r, s') -> registry_step s s'
  | step_resolve fuel skills_dir name r s s' :
      resolve_active_snapshot uuid now fuel skills_dir name s = (r, s') -> registry_step s s'
  | step_activate name version r s s' : set_active_snapshot name version s = (r, s') -> registry_step s s'.

Definition empty_registry : session := mk_session [] 0.

Lemma set_active_rows name version s target s' : set_active_snapshot name version s = (Ok target, s') ->
  exists x, version_named name version (rows s) = Some x /\ target = set_flag true x /\
    s' = set_rows (map (fun y => if decide (sn_id y = sn_id x) then set_flag true y else y)
      (deactivate (fun y => bool_decide (skill_name y = name /\ sn_id y <> sn_id x)) (rows s))) s.
Proof.
  unfold set_active_snapshot, get_st. unfold mbind at 1, M_bind at 1. destruct (version_named _ _ _) as [x|]; [|done].
  intros ([] & s1 & [_ ->]%lift_ok_inv & Hr)%bind_ok_inv. injection Hr as <- <-. by exists x.
Qed.

Lemma set_active_raises name version s e s' : set_active_snapshot name version s = (Raise e, s') -> s' = s.
Proof.
  unfold set_active_snapshot, get_st. unfold mbind at 1, M_bind at 1. destruct (version_named _ _ _) as [x|]; [|by intros [= _ <-]].
  intros [(e' & He & _)|([] & s1 & [_ ->]%lift_ok_inv & Hr)]%bind_inv; [by injection He as _ <-|discriminate Hr].
Qed.

(** The row of the new table made from the row [y] of the old one. *)
Lemma switched_in name x db z : z ∈ map (fun y => if decide (sn_id y = sn_id x) then set_flag true y else y)
    (deactivate (fun y => bool_decide (skill_name y = name /\ sn_id y <> sn_id x)) db) ->
  exists y, y ∈ db /\ frozen y = frozen z /\ is_active z =
    (if decide (sn_id y = sn_id x) then true else if decide (skill_name y = name) then false else is_active y).
Proof.
  unfold deactivate. intros (z1 & -> & (y & -> & Hy)%list_elem_of_fmap)%list_elem_of_fmap. exists y. split; [done|].
  destruct (decide (sn_id y = sn_id x)) as [He|He].
  - rewrite bool_decide_eq_false_2 by naive_solver. rewrite decide_True by done. by destruct y.
  - destruct (decide (skill_name y = name)) as [Hn|Hn].
    + rewrite bool_decide_eq_true_2 by done. rewrite decide_False by done. by destruct y.
    + rewrite bool_decide_eq_false_2 by naive_solver. by rewrite decide_False.
Qed.

Lemma switch_frozen name x db : map frozen (map (fun y => if decide (sn_id y = sn_id x) then set_flag true y else y)
    (deactivate (fun y => bool_decide (skill_name y = name /\ sn_id y <> sn_id x)) db)) = map frozen db.
Proof.
  rewrite <- (deactivate_frozen (fun y => bool_decide (skill_name y = name /\ sn_id y <> sn_id x)) db).
  rewrite map_map. apply map_ext. intros y. destruct (decide _); by destruct y.
Qed.

Lemma set_active_safe name version : safe (fun _ => True) (set_active_snapshot name version) (fun _ _ => True).
Proof.
  intros s [target|e] s' Hwf _ Hr; [|rewrite (set_active_raises _ _ _ _ _ Hr); by split_and!].
  apply set_active_rows in Hr as (x & Hx & -> & ->). apply find_first_Some in Hx as [Hin Hp].
  apply andb_true_iff in Hp as [Hn%bool_decide_eq_true_1 _].
  split_and!; [|apply frozen_grows, switch_frozen|done]. eapply wf_reflag; [done|apply switch_frozen|].
  intros a b (a' & Ha & Hfa & ->)%switched_in (b' & Hb & Hfb & ->)%switched_in.
  apply frozen_content in Hfa as ((Hna & _) & <- & _), Hfb as ((Hnb & _) & <- & _). rewrite <- Hna, <- Hnb.
  assert (Hx : forall y, y ∈ rows s -> sn_id y = sn_id x -> skill_name y = name)
    by (intros y Hy Hi; by rewrite (row_unique _ _ _ (wf_ids _ Hwf) Hy Hin Hi)).
  repeat case_decide; try done; intros Aa Ab Hab; try congruence; try by apply (wf_active _ Hwf).
  - assert (skill_name a' = name) by auto. congruence.
  - assert (skill_name b' = name) by auto. congruence.
Qed.

Lemma step_safe s s' : registry_step s s' -> registry_wf s -> registry_wf s' /\ grows (rows s) (rows s').
Proof.
  intros Hstep Hwf. destruct Hstep as [fuel dir name activate r s s' Hr|fuel dir name r s s' Hr|name version r s s' Hr].
  - destruct (get_or_create_safe dir fuel name activate _ _ _ Hwf I Hr) as (? & ? & _). done.
  - assert (Hs : safe (fun _ => True) (resolve_active_snapshot uuid now fuel dir name) (fun _ _ => True)).
    { eapply safe_bind; [apply get_or_create_safe|]. intros row. eapply safe_bind; [apply safe_get|]. intros s0.
      destruct (active_named _ _); [by apply safe_ret|apply safe_raise]. }
    destruct (Hs _ _ _ Hwf I Hr) as (? & ? & _). done.
  - destruct (set_active_safe name version _ _ _ Hwf I Hr) as (? & ? & _). done.
Qed.

Lemma history_safe s s' : star registry_step s s' -> registry_wf s -> registry_wf s' /\ grows (rows s) (rows s').
Proof.
  induction 1 as [s|a b c Hab Hbc IH]; intros Hwf; [by split|]. destruct (step_safe _ _ Hab Hwf) as [Hwb Hg].
  destruct (IH Hwb) as [Hwc Hg']. split; [done|by etrans].
Qed.

Lemma empty_registry_wf : registry_wf empty_registry.
Proof.
  assert (Hno : forall x (P : Prop), x ∈ rows empty_registry -> P) by (intros x P Hx; by apply elem_of_nil in Hx).
  split; [constructor|intros x Hx|intros x y Hx|intros x y Hx|intros x Hx|intros x Hx]; exact (Hno _ _ Hx).
Qed.

(** C30. Snapshots are immutable history: whatever sequence of registrations,
    resolutions and activations runs, failing ones included, no row is ever
    changed or removed except for its active flag; identifiers and the
    versions of a skill stay unique; a skill has at most one active row; every
    dependency is pinned to a row; and every stored execution hash stays the
    one recomputed from the table. *)
Theorem registry_history s s' : star registry_step empty_registry s -> star registry_step s s' ->
  registry_wf s' /\ grows (rows s) (rows s').
Proof.
  intros Hs Hs'. destruct (history_safe _ _ Hs empty_registry_wf) as [Hwf _]. by apply history_safe.
Qed.

(** Activating a version makes it the one active row of its skill and
    leaves every other skill's flags alone; a refused activation changes
    nothing. *)
Theorem set_active_outcome s name version r s' : registry_wf s -> set_active_snapshot name version s = (r, s') ->
  match r with
  | Ok target => skill_name target = name /\ version_label target = version /\ active_named name (rows s') = Some target /\
      (forall x, x ∈ rows s' -> skill_name x = name -> is_active x = true -> x = target) /\
      (forall other, other <> name -> active_named other (rows s') = active_named other (rows s))
  | Raise _ => s' = s
  end.
Proof.
  intros Hwf Hr. destruct r as [target|e]; [|by eapply set_active_raises].
  pose proof (set_active_safe name version _ _ _ Hwf I Hr) as (Hwf' & _ & _).
  apply set_active_rows in Hr as (x & Hx & -> & ->). apply find_first_Some in Hx as [Hin Hp].
  apply andb_true_iff in Hp as [Hn%bool_decide_eq_true_1 Hv%Z.eqb_eq].
  assert (Hone : forall z, z ∈ rows (set_rows (map (fun y => if decide (sn_id y = sn_id x) then set_flag true y else y)
      (deactivate (fun y => bool_decide (skill_name y = name /\ sn_id y <> sn_id x)) (rows s))) s) ->
      skill_name z = name -> is_active z = true -> z = set_flag true x).
  { intros z Hz Hzn Hza. cbn [rows set_rows] in Hz. apply switched_in in Hz as (y & Hy & Hf & Ha). rewrite Ha in Hza.
    pose proof Hf as Hf'. apply frozen_content in Hf' as ((Hyn & _) & Hyi & _). destruct (decide (sn_id y = sn_id x)) as [Hi|Hi].
    - assert (y = x) as -> by exact (row_unique _ _ _ (wf_ids _ Hwf) Hy Hin Hi).
      destruct x, z. unfold frozen, set_flag in *. simpl in *. congruence.
    - rewrite decide_True in Hza by congruence. done. }
  assert (Htarget : set_flag true x ∈ map (fun y => if decide (sn_id y = sn_id x) then set_flag true y else y)
      (deactivate (fun y => bool_decide (skill_name y = name /\ sn_id y <> sn_id x)) (rows s))).
  { apply list_elem_of_fmap. exists x. split; [by rewrite decide_True|]. unfold deactivate. apply list_elem_of_fmap. exists x.
    split; [|done]. rewrite bool_decide_eq_false_2 by naive_solver. done. }
  split_and!; [by destruct x|by destruct x| |exact Hone|].
  - destruct (active_named name _) as [z|] eqn:Hz.
    + apply find_first_Some in Hz as [Hz Hp]. apply andb_true_iff in Hp as [Hzn%bool_decide_eq_true_1 Hza]. f_equal. by apply Hone.
    + exfalso. unfold active_named in Hz. rewrite find_first_None in Hz. specialize (Hz _ Htarget). cbn in Hz.
      destruct x. simpl in *. by rewrite bool_decide_eq_true_2 in Hz.
  - intros other Ho. cbn [rows set_rows]. clear Hone Htarget Hwf'. unfold active_named, deactivate.
    assert (Hall : forall l, (forall y, y ∈ l -> y ∈ rows s) -> find_first (fun y => bool_decide (skill_name y = other) && is_active y)
      (map (fun y => if decide (sn_id y = sn_id x) then set_flag true y else y)
        (map (fun y => if bool_decide (skill_name y = name /\ sn_id y <> sn_id x) then set_flag false y else y) l))
      = find_first (fun y => bool_decide (skill_name y = other) && is_active y) l); [|by apply Hall].
    induction l as [|y l IH]; intros Hl; [done|]. cbn [map find_first]. rewrite IH by (intros; apply Hl; set_solver).
    destruct (decide (skill_name y = other)) as [Hyo|Hyo].
    + rewrite (bool_decide_eq_false_2 (skill_name y = name /\ _)) by (intros [? _]; congruence). rewrite decide_False; [done|]. intros Hi. apply Ho.
      assert (y = x) as ->; [|congruence]. apply (row_unique _ _ _ (wf_ids _ Hwf)); [apply Hl; set_solver|done|done].
    + assert (Hz : forall z, skill_name z <> other -> bool_decide (skill_name z = other) && is_active z = false)
        by (intros z Hz; by rewrite bool_decide_eq_false_2).
      rewrite !Hz; [done|done|]. case_decide; case_bool_decide; by destruct y.
Qed.
End invariant.

(** ** Witnesses *)

(** A supply of identifiers, and a checkout of two skills whose prompt is the argument. *)
Definition sample_uuid (i : nat) : pystr := u "id-" ++ py_str_int (Z.of_nat i).
Definition sample_checkout (prompt : pystr) (name : pystr) : skill_files :=
  let dependencies := if decide (name = u "daily-report") then [JStr (u "log-triage")] else [] in
  mk_files (Some (utf8_encode prompt)) (Some (utf8_encode (u "{}")))
    (Some (utf8_encode (json_dumps (fun _ => []) (sample_manifest name dependencies)))).
Definition any_schema : MetaSchema := {| check_schema _ := None |}.

Lemma sample_uuid_inj i j : sample_uuid i = sample_uuid j -> i = j.
Proof. intros Hij%(inj (app _)). apply py_str_int_inj in Hij; lia. Qed.
Lemma sample_uuid_text i : sample_uuid i <> [].
Proof. intros E. apply app_eq_nil in E as [E _]. vm_compute in E. discriminate E. Qed.

Definition sample_register (prompt name : pystr) : M session pyexn snapshot :=
  @get_or_create_snapshot cjk_unicode json_yaml any_schema sample_uuid 0 4 (sample_checkout prompt) name None.
Definition sample_resolve (prompt name : pystr) : M session pyexn snapshot :=
  @resolve_active_snapshot cjk_unicode json_yaml any_schema sample_uuid 0 4 (sample_checkout prompt) name.
Definition sample_activate (name : pystr) (version : Z) : M session pyexn snapshot :=
  @set_active_snapshot cjk_unicode json_yaml any_schema name version.
(** Both skills registered, then an edited report skill as a draft. *)
Definition sample_registry : session :=
  snd (sample_register (u "# edited") (u "daily-report") (snd (sample_register (u "# skill") (u "daily-report") empty_registry))).

Definition sample_step := @registry_step cjk_unicode json_yaml any_schema sample_uuid 0.

Lemma sample_registry_reached : star sample_step empty_registry sample_registry.
Proof.
  eapply star_step; [eapply (step_register _ _ 4 (sample_checkout (u "# skill")) (u "daily-report") None); apply surjective_pairing|].
  apply star_one. eapply (step_register _ _ 4 (sample_checkout (u "# edited")) (u "daily-report") None). apply surjective_pairing.
Qed.

Lemma sample_registry_wf : @registry_wf cjk_unicode json_yaml sample_uuid sample_registry.
Proof.
  exact (proj1 (@history_safe cjk_unicode json_yaml any_schema sample_uuid 0 sample_uuid_inj sample_uuid_text _ _
    sample_registry_reached (@empty_registry_wf cjk_unicode json_yaml sample_uuid))).
Qed.

Example sample_versions : map (fun x => (skill_name x, version_label x, is_active x)) (rows sample_registry) =
  [(u "log-triage", 1%Z, true); (u "daily-report", 1%Z, true); (u "daily-report", 2%Z, false)].
Proof. vm_compute. reflexivity. Qed.

Lemma registry_history_witness :
  @registry_wf cjk_unicode json_yaml sample_uuid (snd (sample_activate (u "daily-report") 2 sample_registry)) /\
  grows (rows sample_registry) (rows (snd (sample_activate (u "daily-report") 2 sample_registry))).
Proof.
  apply (@registry_history cjk_unicode json_yaml any_schema sample_uuid 0 sample_uuid_inj sample_uuid_text).
  - exact sample_registry_reached.
  - apply star_one. eapply (step_activate _ _ (u "daily-report") 2). apply surjective_pairing.
Defined.

Lemma set_active_outcome_witness : exists target,
  fst (sample_activate (u "daily-report") 2 sample_registry) = Ok target /\
  active_named (u "daily-report") (rows (snd (sample_activate (u "daily-report") 2 sample_registry))) = Some target.
Proof.
  destruct (sample_activate (u "daily-report") 2 sample_registry) as [r s'] eqn:E.
  pose proof (@set_active_outcome cjk_unicode json_yaml any_schema sample_uuid sample_uuid_inj sample_uuid_text sample_registry (u "daily-report") 2 r s'
    sample_registry_wf E) as Ho.
  destruct r as [target|e].
  - exists target. split; [reflexivity|]. destruct Ho as (_ & _ & Ho & _). exact Ho.
  - exfalso. assert (Hr : is_ok (fst (sample_activate (u "daily-report") 2 sample_registry)) = true) by (vm_compute; reflexivity).
    rewrite E in Hr. discriminate Hr.
Defined.

Lemma resolve_ignores_drift_witness : exists active s',
  sample_resolve (u "# other") (u "daily-report") sample_registry = (Ok active, s') /\
  active_named (u "daily-report") (rows sample_registry) = Some active.
Proof.
  destruct (active_named (u "daily-report") (rows sample_registry)) as [active|] eqn:Ha; [|exfalso; vm_compute in Ha; discriminate Ha].
  destruct (sample_resolve (u "# other") (u "daily-report") sample_registry) as [[r|e] s'] eqn:E.
  - exists active, s'. split; [|reflexivity]. f_equal. f_equal.
    exact (proj1 (@resolve_ignores_drift cjk_unicode json_yaml any_schema sample_uuid 0 4 (sample_checkout (u "# other"))
      (u "daily-report") sample_registry active r s' Ha E)).
  - exfalso. assert (Hr : is_ok (fst (sample_resolve (u "# other") (u "daily-report") sample_registry)) = true) by (vm_compute; reflexivity).
    rewrite E in Hr. discriminate Hr.
Defined.
