(* ===== verification/SkillFlow.v ===== *)
(** * From registration to execution

    The API registers snapshots and stamps a job with an identifier, a content
    hash and an execution hash ([Skills]); the worker verifies them and
    materialises the tree ([SkillRegistry]).  The two recompute the execution
    hash with separate code; here they are shown to agree, a registered
    snapshot is shown to be executable, and the two registrations that are
    not are exhibited. *)

From S2P Require Import Prelude PyStr Json Failures PyVal PyColl Sweep Sha256 Snapshots SkillRegistry SkillRuntime Skills.

Section flow.
Context `{UnicodeData} `{YamlLoader}.

(** ** The two execution hashes *)

Lemma fetched_dependency db sn d name child : dependency_name d = Ok name ->
  dependency_snapshot db sn d name = Ok (Some child) -> resolve db sn d name = Ok (Some child).
Proof.
  intros Hn. unfold dependency_snapshot, resolve. unfold mbind, result_bind. destruct (pinned_id _ _) as [pin|]; [|done].
  destruct pin as [[|c id]|]; [|done|]; unfold fetch_dependency_snapshot; unfold mbind, result_bind; by rewrite Hn.
Qed.

Lemma iter_or_empty declared l : py_iter declared = Ok l -> py_iter (jor declared (JList [])) = Ok l.
Proof.
  unfold jor. destruct (jtruthy declared) eqn:Ht; [done|]. destruct declared as [| | | |s|k|o]; try done.
  - destruct s; [done|discriminate Ht].
  - destruct k; [done|discriminate Ht].
  - destruct o; [done|discriminate Ht].
Qed.

(** The worker's [_execution_hash] yields the value the API's
    [compute_execution_hash] stamped, on every table and row for which the API
    computes one. *)
Theorem execution_hashes_agree fuel db : forall sn active h,
  compute_execution_hash fuel db sn active = Ok h -> execution_hash_of fuel db sn active = Ok h.
Proof.
  induction fuel as [|fuel IH]; intros sn active h; [done|]. cbn [compute_execution_hash execution_hash_of].
  destruct (decide _); [done|]. unfold manifest_of. unfold mbind, result_bind, mret, result_ret.
  destruct (yaml_safe_load _) as [doc|]; [|done]. destruct (py_get _ _ _) as [declared|]; [|done].
  destruct (py_iter declared) as [l|] eqn:Hl; [|done]. rewrite (iter_or_empty _ _ Hl). intros Hrun.
  match type of Hrun with match ?e with _ => _ end = _ => destruct e as [comps|] eqn:He; [|done] end.
  rewrite <- Hrun. eapply each_impl in He; [rewrite He; reflexivity|]. clear He Hrun. intros d c Hin. cbv beta.
  destruct (dependency_name d) as [name|] eqn:Hn; [|done].
  destruct (dependency_snapshot db sn d name) as [[child|]|] eqn:Hc; try done. rewrite (fetched_dependency _ _ _ _ _ Hn Hc).
  unfold named. destruct (bool_decide _); [|discriminate].
  destruct (compute_execution_hash fuel db child _) as [h'|] eqn:Hh; [|done]. by rewrite (IH _ _ _ Hh).
Qed.

(** ** Registered snapshots run *)

Lemma declares_dependencies sn deps : declares sn deps -> dependencies_of sn = Ok deps.
Proof.
  intros (o & Hy & Hd). unfold dependencies_of, manifest_of. unfold mbind, result_bind. rewrite Hy. unfold mret, result_ret, jor.
  destruct o; [simpl in Hd; by injection Hd as <-|]. cbn [jtruthy py_get]. by rewrite Hd.
Qed.

Lemma pinned_dependency_row db sn d child : pinned_child db sn d child -> dependency_row db sn d = Ok child.
Proof.
  intros (name & id & Hn & Hne & Hid & Ha & Hb & Hc & Hv). unfold dependency_row. unfold mbind, result_bind. rewrite Hn.
  assert (Ht : jtruthy (JStr name) = true) by (by destruct name). rewrite Ht. cbn [negb].
  assert (Hr : resolve db sn d (JStr name) = Ok (Some child)).
  { unfold resolve. unfold mbind, result_bind. cbn [pinned_id]. rewrite Ha. destruct id; [done|]. cbn [fetch_skill_snapshot]. by rewrite Hb. }
  rewrite Hr. unfold named. rewrite bool_decide_eq_true_2 by (by rewrite Hc). cbn [negb]. unfold check_version.
  destruct (declared_version d) as [v|]; [|done]. rewrite (Hv v eq_refl). by rewrite decide_True.
Qed.

(** The path of a successful hash has no repeated name, and it continues to
    every dependency. *)
Lemma hash_children fuel db sn active h : pinned_in db sn -> compute_execution_hash (S fuel) db sn active = Ok h ->
  skill_name sn ∉ active /\ exists deps, declares sn deps /\ forall d, d ∈ deps -> exists child h',
    pinned_child db sn d child /\ compute_execution_hash fuel db child (skill_name sn :: active) = Ok h'.
Proof.
  intros (deps & Hdecl & Hc). pose proof Hdecl as (o & Hy & Hd). cbn [compute_execution_hash]. destruct (decide _); [done|].
  intros Hrun. split; [done|]. exists deps. split; [done|]. revert Hrun. unfold mbind, result_bind. rewrite Hy.
  assert (Hjor : py_get (u "dependencies") (JList []) (jor (JObj o) (JObj [])) = Ok (JList deps)).
  { unfold jor. destruct o; [cbn; simpl in Hd; by rewrite Hd|]. cbn [jtruthy py_get]. by rewrite Hd. }
  rewrite Hjor. cbn [py_iter]. intros Hrun.
  match type of Hrun with match ?e with _ => _ end = _ => destruct e as [comps|] eqn:He; [|done] end.
  clear Hrun. apply each_ok in He. intros d Hin. destruct (Hc d Hin) as [child Hchild]. exists child.
  apply list_elem_of_lookup in Hin as [i Hi]. destruct (Forall2_lookup_l _ _ _ _ _ He Hi) as (c & _ & Hone). revert Hone. cbv beta.
  destruct (dependency_name d) as [name|] eqn:Hn; [|done]. rewrite (dependency_snapshot_pinned _ _ _ _ _ Hchild Hn).
  destruct (bool_decide _); [|done]. destruct (compute_execution_hash fuel db child _) as [h'|]; [|done]. intros _. by exists h'.
Qed.

Section run.
Context (uuid : nat -> pystr).
Hypothesis uuid_text : forall i, uuid i <> [].
Context (s : session) (Hwf : registry_wf uuid s) (root : snapshot).
Hypothesis names_unique : forall x y, star (depends (rows s)) root x -> star (depends (rows s)) root y ->
  skill_name x = skill_name y -> x = y.
Hypothesis all_verified : forall x, star (depends (rows s)) root x -> verified x.

Lemma registry_table : table_wf (rows s).
Proof.
  split; [apply (wf_ids _ _ Hwf)|]. apply Forall_forall. intros x Hx. destruct (wf_supply _ _ Hwf x Hx) as (i & _ & ->). apply uuid_text.
Qed.

Definition reached (done : list snapshot) : Prop :=
  written (rows s) done /\ forall x, x ∈ done -> star (depends (rows s)) root x.

Lemma depends_in x c : depends (rows s) x c -> c ∈ rows s.
Proof. intros (deps & d & _ & _ & Hr). by eapply dependency_row_in. Qed.

Lemma materialize_runs fuel : forall sn active h e done,
  sn ∈ rows s -> star (depends (rows s)) root sn -> reached done ->
  compute_execution_hash fuel (rows s) sn active = Ok h ->
  (forall x, e = Some x -> execution_hash_of (S (length (rows s))) (rows s) sn [] = Ok x) ->
  exists more, materialize_tree fuel (rows s) sn active e (workspace_of done) = (Ok (), workspace_of (more ++ done)) /\ reached (more ++ done).
Proof.
  induction fuel as [|fuel IH]; intros sn active h e rest Hin Hreach [Hw Hrest]; [done|]. intros Hh He.
  destruct (hash_children _ _ _ _ _ (wf_pinned _ _ Hwf sn Hin) Hh) as (Hact & deps & Hdecl & Hkids).
  cbn [materialize_tree]. rewrite decide_False by done. unfold get_st. unfold mbind at 1, M_bind at 1.
  assert (Hsame : forall x, x ∈ rest -> skill_name x = skill_name sn -> x = sn) by (intros x Hx; apply names_unique; auto).
  rewrite bool_decide_eq_false_2.
  2:{ intros [[r Hr] Hne]. apply Hne. rewrite Hr. apply (workspace_names _ registry_table) in Hr as (x & Hx & Hxn & <-); [|apply Hw]. by rewrite (Hsame x Hx Hxn). }
  destruct (decide _) as [Hid|Hid]; [exists []; by split|].
  rewrite (bind_ok _ _ _ tt (workspace_of rest)).
  2:{ unfold lift_result. f_equal. apply verify_ok. split; [by apply all_verified|done]. }
  rewrite (bind_ok _ _ _ tt (workspace_of rest)).
  2:{ unfold lift_result. f_equal. destruct e as [x|]; [|done]. rewrite (He x eq_refl). unfold mbind, result_bind. by rewrite decide_True. }
  rewrite (bind_ok _ _ _ tt (workspace_of (sn :: rest))) by done.
  rewrite (bind_ok _ _ _ deps (workspace_of (sn :: rest))) by (unfold lift_result; by rewrite (declares_dependencies _ _ Hdecl)).
  assert (Hnew : skill_name sn ∉ map skill_name rest).
  { intros (x & Hx & Hxr)%list_elem_of_fmap. apply Hid. rewrite workspace_ids. rewrite <- (Hsame x Hxr (eq_sym Hx)).
    by apply (list_elem_of_fmap_2 snapshot_ref). }
  assert (Hstart : reached (sn :: rest)).
  { split; [split; [constructor; [split; [done|by apply all_verified]|apply Hw]|cbn [map]; constructor; [done|apply Hw]]|].
    intros x [->|Hx]%elem_of_cons; auto. }
  assert (Hloop : forall ds rest, (forall d, d ∈ ds -> d ∈ deps) -> reached rest -> exists more,
    for_each (fun dependency => dep ← lift_result (dependency_row (rows s) sn dependency);
      materialize_tree fuel (rows s) dep (skill_name sn :: active) None) ds (workspace_of rest) = (Ok (), workspace_of (more ++ rest)) /\
    reached (more ++ rest)).
  { clear Hstart Hnew Hid Hsame Hw Hrest rest. induction ds as [|d ds IHds]; intros rest Hds Hr; [exists []; by split|].
    destruct (Hkids d) as (child & h' & Hpc & Hch); [apply Hds; set_solver|]. pose proof (pinned_dependency_row _ _ _ _ Hpc) as Hrow.
    destruct (IH child (skill_name sn :: active) h' None rest) as (more & Hrun & Hr1); try done.
    - by eapply dependency_row_in.
    - eapply star_snoc; [exact Hreach|]. exists deps, d. split_and!; [by apply declares_dependencies|apply Hds; set_solver|done].
    - destruct (IHds (more ++ rest)) as (more' & Hrun' & Hr2); [intros; apply Hds; set_solver|done|].
      exists (more' ++ more). rewrite <- app_assoc. split; [|done]. cbn [for_each].
      rewrite (bind_ok _ _ _ tt (workspace_of (more ++ rest))); [done|].
      rewrite (bind_ok _ _ _ child (workspace_of rest)) by (unfold lift_result; by rewrite Hrow). done. }
  destruct (Hloop deps (sn :: rest)) as (more & Hrun & Hr); [done|done|]. exists (more ++ [sn]). rewrite <- app_assoc. by split.
Qed.
End run.

(** C29. A job can execute what it was stamped with: for every row of a
    registry that registrations and activations built, at any later time, the
    worker accepts the row's identifier, content hash and stored execution
    hash and materialises it, provided the rows it reaches have the content
    they were hashed with and resolve each skill name to one row. *)
Theorem registered_snapshot_runs (uuid : nat -> pystr) s sn :
  (forall i, uuid i <> []) -> registry_wf uuid s -> sn ∈ rows s ->
  (forall x y, star (depends (rows s)) sn x -> star (depends (rows s)) sn y -> skill_name x = skill_name y -> x = y) ->
  (forall x, star (depends (rows s)) sn x -> verified x) ->
  exists w, materialize_snapshot (rows s) (skill_name sn) (Some (content_hash sn)) (Some (sn_id sn)) (execution_hash sn) empty_workspace
    = (Ok (), w).
Proof.
  intros Htext Hwf Hin Hnames Hver. destruct (wf_hash _ _ Hwf sn Hin) as (h & Heh & Hh).
  destruct (materialize_runs uuid Htext s Hwf sn Hnames Hver _ sn [] h (execution_hash sn) [] Hin (star_refl _)
    ltac:(split; [split; constructor|by intros ? ?%elem_of_nil]) Hh) as (more & Hrun & _).
  { intros x Hx. apply execution_hashes_agree. congruence. }
  exists (workspace_of (more ++ [])). unfold materialize_snapshot.
  assert (Hid : by_id (sn_id sn) (rows s) = Some sn).
  { destruct (by_id (sn_id sn) (rows s)) as [x|] eqn:Hx.
    - apply by_id_Some in Hx as [Hx Hi]. f_equal. exact (row_unique _ _ _ (wf_ids _ _ Hwf) Hx Hin Hi).
    - unfold by_id in Hx. rewrite find_first_None in Hx. specialize (Hx sn Hin). cbv beta in Hx. by rewrite bool_decide_eq_true_2 in Hx. }
  assert (Hfetch : fetch_skill_snapshot (rows s) (Some (content_hash sn)) (Some (sn_id sn)) = Ok (Some sn)).
  { destruct (wf_supply _ _ Hwf sn Hin) as (i & _ & Hi). pose proof (Htext i) as Hne. rewrite <- Hi in Hne. revert Hid Hne.
    cbn [fetch_skill_snapshot]. destruct (sn_id sn); [done|]. by intros ->. }
  rewrite (bind_ok _ _ _ (Some sn) empty_workspace) by (unfold lift_result; by rewrite Hfetch). rewrite decide_True by done.
  rewrite (bind_ok _ _ _ tt empty_workspace); [exact Hrun|]. unfold lift_result. f_equal. apply verify_ok.
  split; [apply Hver, star_refl|]. by intros x [= <-].
Qed.
End flow.

(** ** Registrations that cannot run *)

(** A prompt with a carriage return: the content hash is taken over the file's
    bytes, the stored text is read with newline translation. *)
Definition crlf_prompt : pystr := u "# skill" ++ [13; 10]%Z.
Definition crlf_registry : session := snd (sample_register crlf_prompt (u "log-triage") empty_registry).

(** A skill whose files have CRLF line endings registers, activates and is
    stamped on jobs, and no worker ever accepts it: the stored row fails its
    content hash verification in every later table. *)
Theorem crlf_snapshot_never_runs db content execution : grows (rows crlf_registry) db ->
  is_ok (fst (sample_resolve crlf_prompt (u "log-triage") empty_registry)) = true /\
  @materialize_snapshot cjk_unicode json_yaml db (u "log-triage") content (Some (sample_uuid 0)) execution empty_workspace =
    (Raise (missing (u "snapshot failed content hash verification")), empty_workspace).
Proof.
  intros Hg. split; [vm_compute; reflexivity|].
  assert (Hrow : exists row, by_id (sample_uuid 0) (rows crlf_registry) = Some row /\ skill_name row = u "log-triage" /\
    forall e, verify_snapshot_row row e = Raise (missing (u "snapshot failed content hash verification"))).
  { destruct (by_id (sample_uuid 0) (rows crlf_registry)) as [row|] eqn:Hb; [|exfalso; vm_compute in Hb; discriminate Hb].
    exists row. split; [done|]. assert (Hr : Some row = by_id (sample_uuid 0) (rows crlf_registry)) by done.
    clear Hb. vm_compute in Hr. injection Hr as ->. split; [vm_compute; reflexivity|]. intros e. vm_compute. reflexivity. }
  destruct Hrow as (row & Hb & Hn & Hv). destruct (by_id_grows _ _ _ _ Hg Hb) as (row' & Hb' & Hf).
  assert (Hv' : forall e, verify_snapshot_row row' e = Raise (missing (u "snapshot failed content hash verification"))).
  { intros e. rewrite <- (Hv e). destruct row, row'. unfold frozen, set_flag in Hf. simpl in Hf. injection Hf; intros; subst; reflexivity. }
  apply frozen_content in Hf as ((Hn' & _) & _). unfold materialize_snapshot.
  rewrite (bind_ok _ _ _ (Some row') empty_workspace).
  - rewrite decide_True by congruence. apply bind_raise. unfold lift_result. by rewrite Hv'.
  - unfold lift_result. f_equal. change (sample_uuid 0) with (105 :: tail (sample_uuid 0))%Z in Hb' |- *. cbn [fetch_skill_snapshot].
    by rewrite Hb'.
Qed.

(** Skill [r] declares [b] and [c]; [b] declares [c]. *)
Definition diamond_checkout (prompt : pystr) (name : pystr) : skill_files :=
  let dependencies :=
    if decide (name = u "r") then [JStr (u "b"); JStr (u "c")] else if decide (name = u "b") then [JStr (u "c")] else [] in
  mk_files (Some (utf8_encode prompt)) (Some (utf8_encode (u "{}")))
    (Some (utf8_encode (json_dumps (fun _ => []) (sample_manifest name dependencies)))).
Definition diamond_register (prompt name : pystr) : M session pyexn snapshot :=
  @get_or_create_snapshot cjk_unicode json_yaml any_schema sample_uuid 0 5 (diamond_checkout prompt) name None.
(** [b] is registered and pins [c] version 1; [c] advances and is activated;
    [r] is registered, and pins the active [b] and the active [c]. *)
Definition diamond_history : M session pyexn snapshot :=
  diamond_register (u "# one") (u "b");;
  diamond_register (u "# two") (u "c");;
  sample_activate (u "c") 2;;
  diamond_register (u "# one") (u "r").

(** Validation accepts a snapshot whose dependencies pin two versions of
    one skill: it is registered and becomes the active snapshot, and the
    worker refuses every job stamped with it. *)
Theorem diamond_snapshot_refused : exists row s w, diamond_history empty_registry = (Ok row, s) /\
  active_named (u "r") (rows s) = Some row /\
  @materialize_snapshot cjk_unicode json_yaml (rows s) (u "r") (Some (content_hash row)) (Some (sn_id row)) (execution_hash row)
    empty_workspace = (Raise (missing (u "dependency name resolves to multiple snapshots")), w).
Proof.
  assert (H : match diamond_history empty_registry with
    | (Ok row, s) => (bool_decide (active_named (u "r") (rows s) = Some row) &&
        match fst (@materialize_snapshot cjk_unicode json_yaml (rows s) (u "r") (Some (content_hash row)) (Some (sn_id row))
          (execution_hash row) empty_workspace) with
        | Raise e => bool_decide (e = missing (u "dependency name resolves to multiple snapshots")) | Ok _ => false end)
    | _ => false end = true) by (vm_compute; reflexivity).
  destruct (diamond_history empty_registry) as [[row|e] s]; [|done]. apply andb_true_iff in H as [Ha Hm].
  apply bool_decide_eq_true_1 in Ha.
  destruct (@materialize_snapshot cjk_unicode json_yaml (rows s) (u "r") (Some (content_hash row)) (Some (sn_id row))
    (execution_hash row) empty_workspace) as [r w] eqn:E.
  destruct r as [|e]; [done|]. apply bool_decide_eq_true_1 in Hm as ->. exists row, s, w. split; [done|]. split; [done|]. exact E.
Qed.

(** ** Witnesses *)

Lemma crlf_snapshot_witness :
  fst (@materialize_snapshot cjk_unicode json_yaml (rows crlf_registry) (u "log-triage") None (Some (sample_uuid 0)) None empty_workspace) =
    Raise (missing (u "snapshot failed content hash verification")).
Proof. rewrite (proj2 (crlf_snapshot_never_runs (rows crlf_registry) None None (reflexivity _))). reflexivity. Defined.

Lemma execution_hashes_witness : exists h,
  @compute_execution_hash cjk_unicode json_yaml 3 sample_rows report_row [] = Ok h /\
  @execution_hash_of cjk_unicode json_yaml 3 sample_rows report_row [] = Ok h.
Proof.
  destruct (@compute_execution_hash cjk_unicode json_yaml 3 sample_rows report_row []) as [h|e] eqn:E;
    [|exfalso; vm_compute in E; discriminate E].
  exists h. split; [reflexivity|]. apply (@execution_hashes_agree cjk_unicode json_yaml 3 sample_rows report_row [] h E).
Defined.

(** The registry of one skill. *)
Definition one_registry : session := snd (sample_register (u "# skill") (u "log-triage") empty_registry).
Definition one_row : snapshot := default cyclic_row (head (rows one_registry)).

Lemma one_registry_wf : @registry_wf cjk_unicode json_yaml sample_uuid one_registry.
Proof.
  apply (proj1 (@history_safe cjk_unicode json_yaml any_schema sample_uuid 0 sample_uuid_inj sample_uuid_text _ one_registry
    (star_one _ _ _ (step_register _ _ 4 (sample_checkout (u "# skill")) (u "log-triage") None _ _ _ (surjective_pairing _)))
    (@empty_registry_wf cjk_unicode json_yaml sample_uuid))).
Qed.

Lemma one_row_only x : star (@depends cjk_unicode json_yaml (rows one_registry)) one_row x -> x = one_row.
Proof.
  inversion 1 as [|? b ? (deps & d & Hdeps & Hd & _) _]; [done|]. exfalso.
  assert (Hno : @dependencies_of json_yaml one_row = Ok []) by (vm_compute; reflexivity).
  rewrite Hno in Hdeps. apply Ok_inj in Hdeps as <-. by apply elem_of_nil in Hd.
Qed.

Lemma registered_snapshot_witness : exists w,
  @materialize_snapshot cjk_unicode json_yaml (rows one_registry) (skill_name one_row) (Some (content_hash one_row))
    (Some (sn_id one_row)) (execution_hash one_row) empty_workspace = (Ok tt, w).
Proof.
  apply (@registered_snapshot_runs cjk_unicode json_yaml sample_uuid one_registry one_row sample_uuid_text one_registry_wf).
  - assert (H : bool_decide (one_row ∈ rows one_registry) = true) by (vm_compute; reflexivity). exact (bool_decide_eq_true_1 _ H).
  - intros x y Hx Hy _. rewrite (one_row_only x Hx), (one_row_only y Hy). reflexivity.
  - intros x Hx. rewrite (one_row_only x Hx). apply (proj1 (proj1 (verify_ok one_row None) ltac:(vm_compute; reflexivity))).
Defined.
