(* ===== verification/LogTriage.v ===== *)
(** * Processing a log triage job

    [bridge/noc_bridge/worker.py]: reading the incident and the evidence of a
    job, the bounded conversation with the model, the artifacts, and the check
    of an artifact a former attempt stored.

    The object store is the interface [ArtifactStore]; the answers of the HTTP
    exchanges with the model are a list that is consumed, an exhausted one
    being an unreachable server; the requests sent are recorded.  Database
    reads see one consistent table each.  The two durations of the telemetry
    are parameters. *)

From S2P Require Import Prelude PyStr Json Failures PyColl PyVal PyTime Sweep Preprocess Reconcile PatternReconcile Validation Hermes Sha256 Snapshots SkillRegistry.

(** ** Data *)

Record incident_row := mk_incident_row {
  ir_id : pystr; ir_title : pystr; ir_service : pystr; ir_environment : pystr;
  ir_triggered_at : option datetime; ir_recovered_at : option datetime;
}.

(** The columns of an evidence row the worker reads. *)
Record evidence_row := mk_evidence_row {
  evr_id : pystr; evr_incident : pystr; evr_type : pystr; evr_state : pystr; evr_bucket : pystr; evr_key : pystr;
  evr_filename : pystr; evr_sha256 : pystr; evr_version : option pystr; evr_size : Z; evr_created_at : option Z;
}.

Record tables := mk_tables { tb_incidents : list incident_row; tb_evidence : list evidence_row; tb_snapshots : list snapshot }.

(** The object store: reading an object, or one version of it, and writing one. *)
Class ArtifactStore (O : Type) := {
  get_object : O -> pystr -> pystr -> option pystr -> result pyexn (list Z);
  object_exists : O -> pystr -> pystr -> bool;
  put_object : pystr -> pystr -> list Z -> O -> result pyexn O;
  put_object_get : forall b k bytes o o', put_object b k bytes o = Ok o' ->
    get_object o' b k None = Ok bytes /\ object_exists o' b k = true;
  put_object_other : forall b k bytes o o' b' k' v, put_object b k bytes o = Ok o' -> (b', k') <> (b, k) ->
    get_object o' b' k' v = get_object o b' k' v;
}.

Record triage_world (O : Type) := mk_triage {
  tw_store : O;
  tw_answers : list http_answer;   (** of the exchanges to come *)
  tw_requests : list json;         (** sent, oldest first *)
}.
Arguments mk_triage {O}. Arguments tw_store {O}. Arguments tw_answers {O}. Arguments tw_requests {O}.

Record triage_settings := mk_triage_settings {
  ts_profile : pystr;
  ts_hermes_version : pystr;
  ts_max_output_attempts : Z;
  ts_artifacts : pystr;   (** [minio_bucket_job_artifacts] *)
}.

Definition verification_error (msg : pystr) : pyexn := mk_exn EvidenceVerificationError msg.
Definition input_error (msg : pystr) : pyexn := mk_exn WorkerInputError msg.

(** ** Evidence *)

(** [ORDER BY created_at DESC], with [NULL] first. *)
Definition newest_key (e : evidence_row) : option Z * option Z :=
  match evr_created_at e with None => (Some 0%Z, None) | Some t => (Some 1%Z, Some (- t)%Z) end.

Definition iso (t : option datetime) : json := match t with Some t => JStr (isoformat t) | None => JNull end.
Definition incident_json (i : incident_row) : json := JObj [
  (u "id", JStr (ir_id i)); (u "title", JStr (ir_title i)); (u "service", JStr (ir_service i));
  (u "environment", JStr (ir_environment i)); (u "triggered_at", iso (ir_triggered_at i)); (u "recovered_at", iso (ir_recovered_at i))].
Definition evidence_json (e : evidence_row) : json := JObj [
  (u "id", JStr (evr_id e)); (u "bucket", JStr (evr_bucket e)); (u "key", JStr (evr_key e)); (u "filename", JStr (evr_filename e));
  (u "sha256", JStr (evr_sha256 e)); (u "content_version", jopt (evr_version e)); (u "byte_size", JInt (evr_size e))].

Section triage.
Context `{UnicodeData} `{PyText} `{YamlLoader} `{JsonSchema}.
Context {Store : Type} `{ArtifactStore Store}.
Context (cfg : triage_settings) (db : tables) (model_ms preprocessing_ms : Z).

(** [_incident_and_evidence], for a message that conforms to the contract. *)
Definition incident_and_evidence (message : json) : result pyexn (incident_row * evidence_row) :=
  incident_id ← py_get (u "incident_id") JNull message;
  object_refs ← py_get (u "object_refs") JNull message;
  match incident_id, jor object_refs (JList []) with
  | JStr ((_ :: _) as incident_id), JList [ref] =>
      bucket ← subscript_key (u "bucket") ref;
      key ← subscript_key (u "key") ref;
      let incident := find_first (fun i => bool_decide (ir_id i = incident_id)) (tb_incidents db) in
      let evidence := oldest newest_key (fun e => bool_decide (evr_incident e = incident_id) && bool_decide (evr_type e = u "LOG") &&
        bool_decide (evr_state e = u "ACTIVE") && bool_decide (JStr (evr_bucket e) = bucket) && bool_decide (JStr (evr_key e) = key))
        (tb_evidence db) in
      match incident, evidence with
      | Some incident, Some evidence =>
          sha256 ← py_get (u "sha256") JNull ref;
          version_id ← py_get (u "version_id") JNull ref;
          if jtruthy sha256 && negb (bool_decide (JStr (evr_sha256 evidence) = sha256)) then
            Raise (verification_error (u "job evidence checksum does not match application metadata"))
          else if jtruthy version_id && negb (bool_decide (jopt (evr_version evidence) = version_id)) then
            Raise (verification_error (u "job evidence version does not match application metadata"))
          else Ok (incident, evidence)
      | _, _ => Raise (verification_error (u "job evidence is no longer attached to the incident"))
      end
  | _, _ => Raise (verification_error (u "log analysis requires one incident and one evidence object"))
  end.

(** [storage.download_object] *)
Definition download_object (bucket key : pystr) (expected_sha256 version_id : option pystr) : M (triage_world Store) pyexn (list Z) :=
  w ← get_st;
  bytes ← lift_result (get_object (tw_store w) bucket key (match version_id with Some ((_ :: _) as v) => Some v | _ => None end));
  match expected_sha256 with
  | Some ((_ :: _) as expected) =>
      if decide (hexdigest bytes = expected) then mret bytes else raise (mk_exn ChecksumMismatch (u "expected sha256, got another"))
  | _ => mret bytes
  end.

(** [storage.upload_artifact] *)
Definition upload_artifact (bucket key : pystr) (bytes : list Z) : M (triage_world Store) pyexn () := fun w =>
  match put_object bucket key bytes (tw_store w) with
  | Ok store => (Ok tt, mk_triage store (tw_answers w) (tw_requests w))
  | Raise e => (Raise e, w)
  end.

(** The snapshot's files in the job's scratch directory. *)
Definition optional_str (k : pystr) (message : json) : option pystr := match jget k message with Some (JStr s) => Some s | _ => None end.
Definition skill_of (message : json) (name : pystr) : result pyexn (pystr * pystr) :=
  match materialize_snapshot (tb_snapshots db) name (optional_str (u "skill_hash") message)
          (optional_str (u "skill_snapshot_id") message) (optional_str (u "skill_execution_hash") message) empty_workspace with
  | (Raise e, _) => Raise e
  | (Ok _, w) =>
      match assoc name (w_files w) with
      | Some (skill_md, schema, _) => Ok (universal_newlines skill_md, universal_newlines schema)
      | None => Raise file_not_found
      end
  end.
Definition schema_of (text : pystr) : result pyexn json := match json_loads text with Some j => Ok j | None => Raise decode_error end.

(** ** The conversation with the model *)

Definition repair_hint : pystr := u "Group the annotated log entries by underlying operational cause. Return evidence_entry_ids copied exactly from the [entry_id=N] markers in log_excerpt; do not invent IDs or assign one entry to more than one finding. Use pattern_ids:[" ++ dquote ++ u "unquantified" ++ dquote ++ u "] and null count/percentage in the model response; the application will calculate authoritative counts after reconciliation. Return one concise bilingual result: summary_zh/summary_en must be at most 800 characters and 2-4 sentences; key details at most 600 characters and 3 sentences; secondary details at most 320 characters and 1 sentence. Every summary and detail must end with complete sentence punctuation; never stop mid-sentence or use an ellipsis.".

(** [runtime.analyze]: one request, one answer. *)
Definition analyze_call (request : json) : M (triage_world Store) pyexn hermes_result := fun w =>
  let '(answer, rest) := match tw_answers w with [] => (HttpUnreachable, []) | a :: rest => (a, rest) end in
  (analyze (ts_profile cfg) model_ms answer, mk_triage (tw_store w) rest (tw_requests w ++ [request])).

(** [validate_against_schema] and [validate_log_triage_result] *)
Definition validated (schema candidate : json) (label : pystr) : result pyexn json :=
  validate_against_schema candidate schema label;; validate_log_triage_result candidate label;; Ok candidate.

(** Reconciliation of an answer in place: the checked candidate, and the
    answer after it. *)
Definition strict_candidate (st : statistics) (schema answer : json) : result pyexn json * json :=
  let '(candidate, answer) := reconcile_result st false answer in
  (candidate ← candidate; validated schema candidate (u "Hermes output"), answer).
Definition fallback_candidate (st : statistics) (schema answer : json) : result pyexn json * json :=
  let '(candidate, answer) := reconcile_result st true answer in
  (candidate ← candidate; candidate ← compact_log_triage_narrative candidate;
   validated schema candidate (u "Hermes fallback output"), answer).

(** [except (KeyError, TypeError, ValueError, OutputValidationError)] *)
Definition caught_by_fallback (c : exn_class) : bool := is_value_error c || bool_decide (c ∈ [KeyError; TypeError]).

(** The fallback of the last attempt, on the last answer seen. *)
Definition fallback_output (st : statistics) (schema : json) (seen : option hermes_result) : result pyexn (hermes_result * json) :=
  match seen with
  | None => Raise (attribute_error (u "'NoneType' object has no attribute 'result'"))
  | Some res =>
      match fallback_candidate st schema (hr_result res) with
      | (Ok output, answer) => Ok (mk_hermes_result answer (hr_telemetry res), output)
      | (Raise e, _) => Raise (if caught_by_fallback (x_class e) then invalid_output else e)
      end
  end.

(** The [except] clauses of attempt [i], with [tries] attempts left after it;
    [again] makes them.  The value is the last answer, the output and the
    number of the attempt that produced it. *)
Definition conversation : Type := option hermes_result * option json * nat.
Definition after_failure (st : statistics) (schema : json) (tries i : nat)
    (again : option hermes_result -> M (triage_world Store) pyexn conversation) (seen : option hermes_result) (e : pyexn)
    : M (triage_world Store) pyexn conversation :=
  if bool_decide (x_class e = HermesInvalidResponse) then (if Nat.eqb tries 0 then raise e else again seen)
  else if is_value_error (x_class e) then
    (if Nat.eqb tries 0 then
       '(answer, output) ← lift_result (fallback_output st schema seen); mret (Some answer, Some output, i)
     else again seen)
  else raise e.

(** The attempts from number [i] on, [tries] of them; [seen] is the variable
    [result], which keeps the last answer. *)
Fixpoint output_attempts (st : statistics) (schema : json) (request : bool -> json) (tries i : nat) (seen : option hermes_result)
    : M (triage_world Store) pyexn conversation :=
  match tries with
  | O => mret (seen, None, i)
  | S tries => fun w =>
      let failed := after_failure st schema tries i (output_attempts st schema request tries (S i)) in
      match analyze_call (request (Nat.ltb 0 i)) w with
      | (Raise e, w) => failed seen e w
      | (Ok res, w) =>
          match strict_candidate st schema (hr_result res) with
          | (Ok output, answer) => (Ok (Some (mk_hermes_result answer (hr_telemetry res)), Some output, i), w)
          | (Raise e, answer) => failed (Some (mk_hermes_result answer (hr_telemetry res))) e w
          end
      end
  end.

Definition attempts_allowed : nat := Z.to_nat (Z.max 1 (ts_max_output_attempts cfg)).

(** ** The job *)

(** [{**telemetry, ...}] *)
Definition telemetry_with (base : json) (fields : list (pystr * json)) : json := foldl (fun o kv => jset (fst kv) (snd kv) o) base fields.

Definition result_key (job_id : pystr) : pystr := u "jobs/" ++ job_id ++ u "/result.json".
Definition telemetry_key (job_id : pystr) : pystr := u "jobs/" ++ job_id ++ u "/telemetry.json".

(** [path.write_text(json.dumps(j, ensure_ascii=False, separators=(",", ":")), encoding="utf-8")] *)
Definition compact_bytes (j : json) : result pyexn (list Z) := py_encode (dumps_compact j).

Definition triage_telemetry (base : json) (evidence : evidence_row) (st : statistics) (payload output : json) (raw : list Z)
    (attempt : nat) : json :=
  telemetry_with base [
    (u "hermes_version", JStr (ts_hermes_version cfg)); (u "runtime_version", JStr (ts_hermes_version cfg));
    (u "input_hash", JStr (evr_sha256 evidence)); (u "evidence_sha256", JStr (evr_sha256 evidence));
    (u "preprocessor_version", JStr PREPROCESSOR_VERSION); (u "schema_version", JStr (u "1.0"));
    (u "raw_input_bytes", JInt (Z.of_nat (length raw))); (u "evidence_bytes", JInt (Z.of_nat (length raw)));
    (u "preprocessing_ratio", JFloat (py_round 4 (float_of_ratio
      (Z.of_nat (length (dumps_raw (u ", ") (u ": ") payload))) (Z.max 1 (Z.of_nat (length raw))))));
    (u "confidence", jget_null (u "confidence") output); (u "output_attempts", JInt (Z.of_nat attempt + 1));
    (u "preprocessing_duration_ms", JInt preprocessing_ms)].

(** [_process_log_triage_message]: the output and the telemetry. *)
Definition process_log_triage_message (message : json) : M (triage_world Store) pyexn (json * json) :=
  job_type ← lift_result (py_get (u "job_type") JNull message);
  skill_name ← lift_result (py_get (u "skill_name") JNull message);
  if negb (bool_decide (job_type = JStr (u "log_triage"))) then raise (input_error (u "log triage processor received an unsupported job type"))
  else if negb (bool_decide (skill_name = JStr (u "log-triage-summary"))) then
    raise (mk_exn SkillConfigurationError (u "unsupported analysis skill"))
  else
  '(incident, evidence) ← lift_result (incident_and_evidence message);
  '(skill_md, schema_text) ← lift_result (skill_of message (u "log-triage-summary"));
  schema ← lift_result (schema_of schema_text);
  raw ← download_object (evr_bucket evidence) (evr_key evidence) (Some (evr_sha256 evidence)) (evr_version evidence);
  log_text ← lift_result (match utf8_decode raw with
    | Some t => Ok t
    | None => Raise (verification_error (u "log evidence is not valid UTF-8")) end);
  st ← lift_result (preprocess_default log_text);
  job_id ← lift_result (subscript_key (u "job_id") message);
  let payload := build_hermes_input job_id (incident_json incident) (evidence_json evidence) log_text st in
  let request (repair : bool) := chat_request (ts_profile cfg) LogAnalysis payload skill_md schema (if repair then repair_hint else []) in
  '(seen, output, attempt) ← output_attempts st schema request attempts_allowed 0 None;
  match seen, output with
  | Some answer, Some output =>
      let telemetry := triage_telemetry (hr_telemetry answer) evidence st payload output raw attempt in
      result_bytes ← lift_result (compact_bytes output);
      telemetry_bytes ← lift_result (compact_bytes telemetry);
      id_text ← lift_result (match job_id with JStr s => Ok s | _ => Raise (type_error (u "job_id is not text")) end);
      upload_artifact (ts_artifacts cfg) (result_key id_text) result_bytes;;
      upload_artifact (ts_artifacts cfg) (telemetry_key id_text) telemetry_bytes;;
      mret (output, telemetry)
  | _, _ => raise (mk_exn AssertionError [])
  end.

(** ** An artifact of a former attempt *)

(** [_artifact_exists_and_valid] *)
Definition artifact_exists_and_valid (bucket key : pystr) (schema : json) (st : statistics) (store : Store) : bool :=
  object_exists store bucket key &&
  match bytes ← get_object store bucket key None;
        result ← match text ← utf8_decode bytes; json_loads text with Some j => Ok j | None => Raise decode_error end;
        _ ← validated schema result (u "stored Hermes result");
        let '(r, result) := reconcile_result st false result in
        r;; validated schema result (u "reconciled stored Hermes result")
  with Ok _ => true | Raise _ => false end.

(** The crash reconciliation of [handle_delivery]: is the job's result stored? *)
Definition stored_result_valid (message : json) : M (triage_world Store) pyexn bool :=
  '(_, evidence) ← lift_result (incident_and_evidence message);
  skill_name ← lift_result (match jget (u "skill_name") message with Some (JStr s) => Ok s | _ => Raise (key_error (u "skill_name")) end);
  '(_, schema_text) ← lift_result (skill_of message skill_name);
  schema ← lift_result (schema_of schema_text);
  raw ← download_object (evr_bucket evidence) (evr_key evidence) (Some (evr_sha256 evidence)) (evr_version evidence);
  log_text ← lift_result (match utf8_decode raw with
    | Some t => Ok (universal_newlines t)
    | None => Raise (mk_exn UnicodeDecodeError (u "invalid byte")) end);
  st ← lift_result (preprocess_default log_text);
  id_text ← lift_result (match jget (u "job_id") message with Some (JStr s) => Ok s | _ => Raise (key_error (u "job_id")) end);
  w ← get_st;
  mret (artifact_exists_and_valid (ts_artifacts cfg) (result_key id_text) schema st (tw_store w)).
End triage.

(** ** What an accepted output says about the log *)

(** Every entry is cited by exactly one finding, or every pattern of the
    manifest is held by exactly one finding with its counts. *)
Definition accounts_for (st : statistics) (o : json) : Prop :=
  jget (u "total_entries") o = Some (JInt (st_total st)) /\
  (mjoin (map evidence_ids (all_findings o)) ≡ₚ map en_id (st_entries st) \/
   (NoDup (pattern_used o) /\ (forall p, p ∈ st_patterns st -> p_id p <> OTHER -> p_id p ∈ pattern_used o) /\
    Forall (counted st) (all_findings o))).

(** Findings that differ in their texts only. *)
Definition same_numbers (f f' : json) : Prop := forall k, k ∉ [u "detail_zh"; u "detail_en"] -> jget k f' = jget k f.

Section outputs.
Context `{UnicodeData} `{PyText}.

Lemma entry_accounts st o o' : statistics_ok st -> reconcile_entry_grouped st o = (Ok tt, o') -> accounts_for st o' /\ is_obj o' = true.
Proof.
  intros Hst (keys & secs & added & Hr)%(reconcile_entry_run st Hst). destruct Hr. split; [|by destruct er_obj].
  split; [done|left]. unfold all_findings. rewrite er_key, er_secondary. exact er_partition.
Qed.

Lemma pattern_accounts st allow o out arg : statistics_ok st -> cites_entries o = Ok false ->
  reconcile_result st allow o = (Ok out, arg) -> accounts_for st out /\ is_obj out = true.
Proof.
  intros Hst Hcite Hrun. destruct (reconcile_pattern_run st _ _ _ _ Hcite Hrun) as (o1 & Hcheck & ->).
  apply (open_doc_ok st Hst) in Hcheck as [Hd Ho]. destruct (settle_doc_ok st Hst allow _ Hd) as ([[Ht Hobj Hn Hk] Hc] & Hcov & _).
  set (d := settle_doc st allow _) in *. destruct (close_doc_groups st o1 d Ho) as (Hg1 & Hg2 & Htot).
  assert (Hall : all_findings (close_doc st o1 d) = map snd (all_of d)) by (unfold all_findings, all_of; by rewrite Hg1, Hg2, map_app).
  assert (Hu : pattern_used (close_doc st o1 d) = used_ids (all_of d)).
  { unfold pattern_used. apply used_ids_tags. by rewrite tag_all_snd, Hall. }
  split; [|by destruct (close_doc st o1 d)]. split; [done|right]. rewrite Hu, Hall. split_and!; [done| |by apply Forall_map].
  intros p Hp Hne. apply Hcov. by apply elem_of_named.
Qed.

Lemma reconciled_accounts st allow o out arg : statistics_ok st -> reconcile_result st allow o = (Ok out, arg) ->
  accounts_for st out /\ is_obj out = true.
Proof.
  intros Hst Hrun. destruct (cites_entries o) as [[]|e] eqn:Hc.
  - unfold reconcile_result in Hrun. rewrite Hc in Hrun. destruct (reconcile_entry_grouped st o) as [[[]|e] o'] eqn:Hr; [|done].
    injection Hrun as <- _. by eapply entry_accounts.
  - by eapply pattern_accounts.
  - unfold reconcile_result in Hrun. by rewrite Hc in Hrun.
Qed.

(** *** Shortening keeps the numbers *)

Lemma compact_field_keeps mc ms o field o' : compact_field mc ms o field = Ok o' ->
  is_obj o = true /\ is_obj o' = true /\ forall k, k <> field -> jget k o' = jget k o.
Proof.
  unfold compact_field. intros (v & Hv & Hr)%bind_result_ok. apply py_get_is_obj in Hv. split; [done|].
  destruct v as [| | | |s| |]; try (by apply Ok_inj in Hr as <-). apply bind_result_ok in Hr as (t & _ & Hr).
  apply Ok_inj in Hr as <-. split; [by rewrite is_obj_jset|]. intros k Hk. by rewrite jget_jset_ne.
Qed.

Lemma compact_two_keeps mc ms f1 f2 o o' : compact_fields mc ms [f1; f2] o = Ok o' ->
  is_obj o = true /\ is_obj o' = true /\ forall k, k ∉ [f1; f2] -> jget k o' = jget k o.
Proof.
  unfold compact_fields. cbn [foldl]. intros (o1 & (? & <-%Ok_inj & H1)%bind_result_ok & H2)%bind_result_ok.
  apply compact_field_keeps in H1 as (Ho & Ho1 & Hk1), H2 as (_ & Ho' & Hk2). split_and!; [done|done|].
  intros k Hk. rewrite Hk2, Hk1; [done|set_solver|set_solver].
Qed.

Lemma map_result_ok {A B} (f : A -> result pyexn B) l ys : map_result f l = Ok ys -> Forall2 (fun x y => f x = Ok y) l ys.
Proof.
  revert ys. induction l as [|x l IH]; intros ys; cbn [map_result].
  - intros <-%Ok_inj. constructor.
  - intros (y & Hy & (ys' & Hys & Hr)%bind_result_ok)%bind_result_ok. apply Ok_inj in Hr as <-. constructor; [done|by apply IH].
Qed.

Lemma compact_group_keeps o g mc ms o' : is_obj o = true -> compact_group o (g, mc, ms) = Ok o' ->
  is_obj o' = true /\ (forall k, k <> g -> jget k o' = jget k o) /\ Forall2 same_numbers (findings_of g o) (findings_of g o').
Proof.
  intros Ho. unfold compact_group. intros (old & Hold & Hr)%bind_result_ok. apply bind_result_ok in Hr as (fs & Hfs & Hr).
  apply bind_result_ok in Hr as (fs' & Hmap & Hr). apply Ok_inj in Hr as <-. apply map_result_ok in Hmap.
  unfold group_value in Hold. rewrite py_get_jget in Hold by done. apply Ok_inj in Hold.
  unfold put_group. destruct (jget g o) as [v|] eqn:Hg.
  - simpl in Hold. subst v. unfold findings_of. destruct old as [| | | | |l|]; try (rewrite Hg; by split_and!).
    rewrite Hg. apply Ok_inj in Hfs as <-. split; [by rewrite is_obj_jset|]. split; [intros k Hk; by rewrite jget_jset_ne|].
    rewrite jget_jset_eq by done. eapply Forall2_impl; [exact Hmap|]. intros f f' Hf. by apply compact_two_keeps in Hf as (_ & _ & Hf).
  - simpl in Hold. subst old. unfold findings_of. rewrite Hg. by split_and!.
Qed.

Lemma compacted_keeps o o' : compact_log_triage_narrative o = Ok o' ->
  is_obj o' = true /\ jget (u "total_entries") o' = jget (u "total_entries") o /\ Forall2 same_numbers (all_findings o) (all_findings o').
Proof.
  unfold compact_log_triage_narrative. intros (o1 & H1 & (o2 & H2 & H3)%bind_result_ok)%bind_result_ok.
  apply compact_two_keeps in H1 as (_ & Ho1 & Hk1). apply compact_group_keeps in H2 as (Ho2 & Hk2 & Hf2); [|done].
  apply compact_group_keeps in H3 as (Ho3 & Hk3 & Hf3); [|done]. split; [done|]. split.
  - rewrite Hk3, Hk2, Hk1; [done| |key_ne|key_ne]. intros [E|[E|E%elem_of_nil]%elem_of_cons]%elem_of_cons; [| |done]; revert E; key_ne.
  - unfold all_findings. apply Forall2_app.
    + unfold findings_of in *. rewrite Hk3 by key_ne. rewrite Hk1 in Hf2; [done|].
      intros [E|[E|E%elem_of_nil]%elem_of_cons]%elem_of_cons; [| |done]; revert E; key_ne.
    + unfold findings_of in *. rewrite Hk2, Hk1 in Hf3; [done| |key_ne].
      intros [E|[E|E%elem_of_nil]%elem_of_cons]%elem_of_cons; [| |done]; revert E; key_ne.
Qed.

Lemma same_numbers_get f f' k : same_numbers f f' -> bool_decide (k ∈ [u "detail_zh"; u "detail_en"]) = false -> jget k f' = jget k f.
Proof. intros Hs Hk%bool_decide_eq_false_1. by apply Hs. Qed.

Lemma compacted_accounts st o o' : accounts_for st o -> compact_log_triage_narrative o = Ok o' -> accounts_for st o' /\ is_obj o' = true.
Proof.
  intros [Htot Hacc] (Ho & Ht & Hf)%compacted_keeps. split; [|done]. split; [by rewrite Ht|].
  assert (Hev : map evidence_ids (all_findings o') = map evidence_ids (all_findings o)).
  { clear -Hf. induction Hf as [|f f' l l' Hf Hl IH]; [done|]. cbn [map]. rewrite IH. f_equal. unfold evidence_ids.
    by rewrite (same_numbers_get f f' (u "evidence_entry_ids") Hf eq_refl). }
  assert (Hids : forall f f', same_numbers f f' -> ids_of f' = ids_of f)
    by (intros f f' Hs; unfold ids_of; by rewrite (same_numbers_get f f' (u "pattern_ids") Hs eq_refl)).
  destruct Hacc as [Hp|(Hn & Hc & Hq)]; [left; by rewrite Hev|right].
  assert (Hu : pattern_used o' = pattern_used o).
  { unfold pattern_used, tag_all. clear -Hf Hids. induction Hf as [|f f' l l' Hf Hl IH]; [done|]. cbn [map].
    rewrite !used_cons. cbn [snd]. rewrite IH. unfold quant, ids. by rewrite (Hids _ _ Hf). }
  rewrite Hu. split_and!; [done|done|]. clear -Hf Hq Hids. induction Hf as [|f f' l l' Hf Hl IH]; [constructor|].
  apply Forall_cons in Hq as [Hq Hql]. constructor; [|by apply IH]. unfold counted, quant, ids in *. rewrite (Hids _ _ Hf).
  intros Hquant. destruct (Hq Hquant) as [H1 H2].
  split; [rewrite <- H1|rewrite <- H2]; apply (same_numbers_get f f'); done.
Qed.
End outputs.

Section outcome.
Context `{UnicodeData} `{PyText} `{JsonSchema} {Store : Type}.
Context (cfg : triage_settings) (model_ms : Z) (st : statistics) (Hst : statistics_ok st) (schema : json).

(** What leaves the conversation: valid for the schema and for the semantic
    contract, and accounting for the log. *)
Definition output_ok (o : json) : Prop :=
  js_validate o schema = SchemaValid /\ answer_valid o /\ accounts_for st o.

Lemma validated_ok o label c : is_obj o = true -> validated schema o label = Ok c ->
  c = o /\ js_validate o schema = SchemaValid /\ answer_valid o.
Proof.
  intros Ho. unfold validated. intros [Hs Hr]%seq_ok. apply seq_ok in Hr as [Hv <-%Ok_inj]. split; [done|]. split.
  - unfold validate_against_schema in Hs. by destruct (js_validate o schema).
  - by apply (validate_accepts o label).
Qed.

Lemma strict_output_ok answer o a : strict_candidate st schema answer = (Ok o, a) -> output_ok o.
Proof.
  unfold strict_candidate. destruct (reconcile_result st false answer) as [c a'] eqn:Hr. intros [= Hv _].
  apply bind_result_ok in Hv as (c' & -> & Hv). destruct (reconciled_accounts _ _ _ _ _ Hst Hr) as [Hacc Ho].
  apply validated_ok in Hv as (-> & ? & ?); [|done]. by split_and!.
Qed.

Lemma fallback_output_ok seen a o : fallback_output st schema seen = Ok (a, o) -> output_ok o.
Proof.
  unfold fallback_output, fallback_candidate. destruct seen as [res|]; [|done].
  destruct (reconcile_result st true (hr_result res)) as [c a'] eqn:Hr.
  cbv beta iota. match goal with |- match ?m with _ => _ end = _ -> _ => destruct m as [o'|e] eqn:Hv end; [|done]. intros [= _ <-].
  apply bind_result_ok in Hv as (c' & -> & Hv). apply bind_result_ok in Hv as (c2 & Hc & Hv).
  destruct (reconciled_accounts _ _ _ _ _ Hst Hr) as [Hacc _]. destruct (compacted_accounts _ _ _ Hacc Hc) as [Hacc' Ho].
  apply validated_ok in Hv as (-> & ? & ?); [|done]. by split_and!.
Qed.

Lemma fallback_error seen e : fallback_output st schema seen = Raise e ->
  x_class e = HermesInvalidResponse \/ is_value_error (x_class e) = false.
Proof.
  unfold fallback_output. destruct seen as [res|]; [|intros [= <-]; by right].
  destruct (fallback_candidate st schema (hr_result res)) as [[o|e'] a]; [done|]. intros [= <-].
  destruct (caught_by_fallback (x_class e')) eqn:Hc; [by left|right]. unfold caught_by_fallback in Hc. by apply orb_false_iff in Hc as [Hc _].
Qed.

(** The exchanges of a run of attempts: [k] requests, the first number [i]. *)
Definition exchanged (request : bool -> json) (i k : nat) (w w' : triage_world Store) : Prop :=
  tw_requests w' = tw_requests w ++ map (fun j => request (Nat.ltb 0 j)) (seq i k) /\
  tw_answers w' = drop k (tw_answers w) /\ tw_store w' = tw_store w.

(** How the conversation ends after [k] exchanges from attempt [i], when
    [tries] were allowed. *)
Definition ended (tries i k : nat) (r : result pyexn conversation) : Prop :=
  match r with
  | Ok (seen, out, j) => exists a o, seen = Some a /\ out = Some o /\ S j = i + k /\ output_ok o
  | Raise e => if bool_decide (x_class e = HermesInvalidResponse) then k = tries else is_value_error (x_class e) = false
  end.

Lemma analyze_call_run request (w : triage_world Store) : exists r, analyze_call cfg model_ms request w =
  (r, mk_triage (tw_store w) (drop 1 (tw_answers w)) (tw_requests w ++ [request])).
Proof. unfold analyze_call. destruct (tw_answers w); eexists; reflexivity. Qed.

(** A failed attempt: the last one ends the conversation, an earlier one may
    go on. *)
Lemma after_last_failure i again seen e (w : triage_world Store) r w' : after_failure st schema 0 i again seen e w = (r, w') ->
  w' = w /\ ended 1 i 1 r.
Proof.
  unfold after_failure. cbn [Nat.eqb]. unfold ended. case_bool_decide as He.
  - intros [= <- <-]. split; [done|]. by rewrite bool_decide_eq_true_2.
  - destruct (is_value_error (x_class e)) eqn:Hv.
    + intros [(e' & Hf & ->)|([a o] & w2 & [Hf ->]%lift_ok_inv & Hr)]%bind_inv.
      * injection Hf as Hf <-. split; [done|]. destruct (fallback_error _ _ Hf) as [Hc|Hc].
        -- by rewrite bool_decide_eq_true_2.
        -- case_bool_decide; [done|exact Hc].
      * injection Hr as <- <-. split; [done|]. exists a, o. split_and!; [done|done|lia|by eapply fallback_output_ok].
    + intros [= <- <-]. split; [done|]. by rewrite bool_decide_eq_false_2.
Qed.

Lemma after_early_failure tries i again seen e (w : triage_world Store) r w' : after_failure st schema (S tries) i again seen e w = (r, w') ->
  again seen w = (r, w') \/ (w' = w /\ ended (S (S tries)) i 1 r).
Proof.
  unfold after_failure. cbn [Nat.eqb]. unfold ended. case_bool_decide as He; [by left|].
  destruct (is_value_error (x_class e)) eqn:Hv; [by left|]. intros [= <- <-]. right. split; [done|]. by rewrite bool_decide_eq_false_2.
Qed.

Lemma exchanged_step request i k (w w1 w' : triage_world Store) :
  exchanged request i 1 w w1 -> exchanged request (S i) k w1 w' -> exchanged request i (S k) w w'.
Proof.
  intros (Hq1 & Ha1 & Hs1) (Hq & Ha & Hs). split_and!; [|by rewrite Ha, Ha1, drop_drop|congruence].
  rewrite Hq, Hq1. cbn [seq map]. by rewrite <- app_assoc.
Qed.

Lemma ended_later tries i k r : ended (S tries) (S i) k r -> ended (S (S tries)) i (S k) r.
Proof.
  unfold ended. destruct r as [[[seen out] j]|e].
  - intros (a & o & ? & ? & ? & ?). exists a, o. split_and!; [done|done|lia|done].
  - case_bool_decide; [lia|done].
Qed.

Lemma output_attempts_run request tries : forall i seen (w : triage_world Store) r w',
  output_attempts cfg model_ms st schema request (S tries) i seen w = (r, w') ->
  exists k, 1 <= k <= S tries /\ exchanged request i k w w' /\ ended (S tries) i k r.
Proof.
  induction tries as [|tries IH]; intros i seen w r w'.
  all: change (output_attempts cfg model_ms st schema request (S ?t) i seen w) with
    (let failed := after_failure st schema t i (output_attempts cfg model_ms st schema request t (S i)) in
     match analyze_call cfg model_ms (request (Nat.ltb 0 i)) w with
     | (Raise e, w) => failed seen e w
     | (Ok res, w) =>
         match strict_candidate st schema (hr_result res) with
         | (Ok output, answer) => (Ok (Some (mk_hermes_result answer (hr_telemetry res)), Some output, i), w)
         | (Raise e, answer) => failed (Some (mk_hermes_result answer (hr_telemetry res))) e w
         end
     end); cbv zeta; destruct (analyze_call_run (request (Nat.ltb 0 i)) w) as (r1 & ->).
  all: set (w1 := mk_triage (tw_store w) (drop 1 (tw_answers w)) (tw_requests w ++ [request (Nat.ltb 0 i)])).
  all: assert (Hone : exchanged request i 1 w w1) by (by split_and!).
  - assert (Hend : forall seen e, after_failure st schema 0 i (output_attempts cfg model_ms st schema request 0 (S i)) seen e w1 = (r, w') ->
        exists k, 1 <= k <= 1 /\ exchanged request i k w w' /\ ended 1 i k r).
    { intros seen' e [-> ?]%after_last_failure. exists 1. split; [lia|]. done. }
    destruct r1 as [res|e]; [|apply Hend]. destruct (strict_candidate st schema (hr_result res)) as [[o|e] a] eqn:Hs; [|apply Hend].
    intros [= <- <-]. exists 1. split; [lia|]. split; [done|]. eexists _, o. split_and!; [done|done|lia|by eapply strict_output_ok].
  - assert (Hend : forall seen e, after_failure st schema (S tries) i (output_attempts cfg model_ms st schema request (S tries) (S i)) seen e w1 = (r, w') ->
        exists k, 1 <= k <= S (S tries) /\ exchanged request i k w w' /\ ended (S (S tries)) i k r).
    { intros seen' e [(k & Hk & Hex & Hend)%IH|[-> ?]]%after_early_failure; [|exists 1; split; [lia|done]].
      exists (S k). split; [lia|]. split; [by eapply exchanged_step|by apply ended_later]. }
    destruct r1 as [res|e]; [|apply Hend]. destruct (strict_candidate st schema (hr_result res)) as [[o|e] a] eqn:Hs; [|apply Hend].
    intros [= <- <-]. exists 1. split; [lia|]. split; [done|]. eexists _, o. split_and!; [done|done|lia|by eapply strict_output_ok].
Qed.

(** C6. The conversation is bounded and safe for every sequence of answers:
    it makes at least one request and at most the configured number, repeats
    the same evidence with the repair hint after the first, and either yields
    an output that is valid for the frozen schema and the semantic contract
    and accounts for the whole log, or raises; the terminal
    [HermesInvalidResponse] is raised only when every attempt is used, and no
    validation error escapes under another class. *)
Theorem output_attempts_outcome request (w : triage_world Store) r w' :
  output_attempts cfg model_ms st schema request (attempts_allowed cfg) 0 None w = (r, w') ->
  exists k, 1 <= k <= attempts_allowed cfg /\ exchanged request 0 k w w' /\ ended (attempts_allowed cfg) 0 k r.
Proof.
  assert (Ha : exists tries, attempts_allowed cfg = S tries).
  { unfold attempts_allowed. exists (Z.to_nat (Z.max 1 (ts_max_output_attempts cfg)) - 1). lia. }
  destruct Ha as [tries ->]. apply output_attempts_run.
Qed.
End outcome.

(** ** The job's artifacts *)

Section job.
Context `{UnicodeData} `{PyText} `{YamlLoader} `{JsonSchema} {Store : Type} `{ArtifactStore Store}.
Context (cfg : triage_settings) (db : tables) (model_ms preprocessing_ms : Z).

(** The job's evidence as it is stored, verified and counted. *)
Definition counted_evidence (store : Store) (message : json) (st : statistics) : Prop :=
  exists incident evidence raw text,
    incident_and_evidence db message = Ok (incident, evidence) /\
    get_object store (evr_bucket evidence) (evr_key evidence)
      (match evr_version evidence with Some ((_ :: _) as v) => Some v | _ => None end) = Ok raw /\
    (evr_sha256 evidence <> [] -> hexdigest raw = evr_sha256 evidence) /\
    utf8_decode raw = Some text /\ preprocess_default text = Ok st.

(** The output stored under the job's result key, and what it is worth. *)
Definition stored_output (w w' : triage_world Store) (message output : json) : Prop :=
  exists st schema_text schema job_id bytes,
    counted_evidence (tw_store w) message st /\
    (exists skill_md, skill_of db message (u "log-triage-summary") = Ok (skill_md, schema_text)) /\ schema_of schema_text = Ok schema /\
    jget (u "job_id") message = Some (JStr job_id) /\
    output_ok st schema output /\ compact_bytes output = Ok bytes /\
    get_object (tw_store w') (ts_artifacts cfg) (result_key job_id) None = Ok bytes /\
    forall b k v, (b, k) <> (ts_artifacts cfg, result_key job_id) -> (b, k) <> (ts_artifacts cfg, telemetry_key job_id) ->
      get_object (tw_store w') b k v = get_object (tw_store w) b k v.

Lemma result_telemetry_ne id : (ts_artifacts cfg, result_key id) <> (ts_artifacts cfg, telemetry_key id).
Proof.
  intros [= He]. unfold result_key, telemetry_key in He. repeat apply (inj (app _)) in He. vm_compute in He. discriminate He.
Qed.

Lemma download_run bucket key expected version (w w' : triage_world Store) r : download_object bucket key expected version w = (r, w') ->
  w' = w /\ forall bytes, r = Ok bytes ->
    get_object (tw_store w) bucket key (match version with Some ((_ :: _) as v) => Some v | _ => None end) = Ok bytes /\
    forall e, expected = Some e -> e <> [] -> hexdigest bytes = e.
Proof.
  unfold download_object, get_st. unfold mbind at 1, M_bind at 1. intros [(e & He & ->)|(bytes & w1 & [Hb ->]%lift_ok_inv & Hr)]%bind_inv.
  { injection He as _ <-. split; [done|]. by intros ? [=]. }
  destruct expected as [[|c e]|]; [injection Hr as <- <-|destruct (decide _) as [He|]; injection Hr as <- <-|injection Hr as <- <-];
    (split; [done|]); try (by intros ? [=]); intros ? [= <-]; (split; [done|]); intros ? [= <-]; done.
Qed.

(** Steps that leave the store and the exchanges alone. *)
Lemma quiet_step {A B} (m : result pyexn A) (f : A -> M (triage_world Store) pyexn B) w r w' :
  (lift_result m ≫= f) w = (r, w') -> (w' = w /\ exists e, r = Raise e) \/ exists a, m = Ok a /\ f a w = (r, w').
Proof.
  intros [(e & He & ->)|(a & w1 & [Ha ->]%lift_ok_inv & Hr)]%bind_inv; [left|right; by exists a].
  injection He as _ <-. split; [done|by eexists].
Qed.

(** What a run of the whole job leaves behind. *)
Lemma triage_run message (w w' : triage_world Store) r :
  process_log_triage_message cfg db model_ms preprocessing_ms message w = (r, w') ->
  match r with
  | Ok (output, _) => stored_output w w' message output
  | Raise _ => tw_store w' = tw_store w \/ exists output, stored_output w w' message output
  end.
Proof.
  assert (Hfail : forall (e : pyexn) w'', tw_store w'' = tw_store w -> r = Raise e -> w' = w'' -> match r with
    | Ok (output, _) => stored_output w w' message output
    | Raise _ => tw_store w' = tw_store w \/ exists output, stored_output w w' message output end) by (intros ? ? ? -> ->; by left).
  unfold process_log_triage_message.
  intros [[-> [e ->]]|(job_type & _ & Hr)]%quiet_step; [by left|].
  apply quiet_step in Hr as [[-> [e ->]]|(skill & _ & Hr)]; [by left|].
  destruct (negb _); [injection Hr as <- <-; by left|]. destruct (negb _); [injection Hr as <- <-; by left|].
  apply quiet_step in Hr as [[-> [e ->]]|([incident evidence] & Hie & Hr)]; [by left|].
  apply quiet_step in Hr as [[-> [e ->]]|([skill_md schema_text] & Hskill & Hr)]; [by left|].
  apply quiet_step in Hr as [[-> [e ->]]|(schema & Hschema & Hr)]; [by left|].
  apply bind_inv in Hr as [(e & Hd & ->)|(raw & w1 & Hd & Hr)]; apply download_run in Hd as [-> Hraw]; [by left|].
  destruct (Hraw raw eq_refl) as [Hget Hsha]. clear Hraw.
  apply quiet_step in Hr as [[-> [e ->]]|(text & Htext & Hr)]; [by left|].
  apply quiet_step in Hr as [[-> [e ->]]|(st & Hst & Hr)]; [by left|].
  apply quiet_step in Hr as [[-> [e ->]]|(job_id & Hjob & Hr)]; [by left|].
  assert (Hcounted : counted_evidence (tw_store w) message st).
  { exists incident, evidence, raw, text. split_and!; [done|done|intros Hne; by apply (Hsha _ eq_refl)| |done].
    destruct (utf8_decode raw); [by apply Ok_inj in Htext as ->|discriminate Htext]. }
  cbv zeta in Hr.
  assert (Hok : statistics_ok st) by (by eapply preprocess_statistics_ok).
  apply bind_inv in Hr as [(e & Ho & ->)|([[seen out] attempt] & w1 & Ho & Hr)];
    (assert (Ha : exists tries, attempts_allowed cfg = S tries) by
      (unfold attempts_allowed; exists (Z.to_nat (Z.max 1 (ts_max_output_attempts cfg)) - 1); lia));
    destruct Ha as [tries Ha]; rewrite Ha in Ho; apply (output_attempts_run _ _ _ Hok) in Ho as (k & _ & (_ & _ & Hs) & Hend); [by left|].
  destruct Hend as (answer & output & -> & -> & _ & Hgood).
  apply quiet_step in Hr as [[-> [e ->]]|(bytes & Hbytes & Hr)]; [by left|].
  apply quiet_step in Hr as [[-> [e ->]]|(tbytes & _ & Hr)]; [by left|].
  apply quiet_step in Hr as [[-> [e ->]]|(id & Hid & Hr)]; [by left|].
  assert (Hmsg : jget (u "job_id") message = Some (JStr id)).
  { destruct job_id as [| | | |s| |]; try discriminate Hid. apply Ok_inj in Hid as ->. unfold subscript_key in Hjob.
    destruct message as [| | | | | |o]; try discriminate Hjob. cbn [jget]. destruct (assoc (u "job_id") o); [by apply Ok_inj in Hjob as ->|discriminate Hjob]. }
  unfold upload_artifact in Hr.
  apply bind_inv in Hr as [(e & Hu & ->)|([] & w2 & Hu & Hr)].
  { destruct (put_object _ _ _ _) as [store|] eqn:Hp; [discriminate Hu|]. injection Hu as _ <-. by left. }
  destruct (put_object (ts_artifacts cfg) (result_key id) bytes (tw_store w1)) as [store|] eqn:Hp; [|discriminate Hu]. injection Hu as <-.
  pose proof (put_object_get _ _ _ _ _ Hp) as [Hres _].
  assert (Hother : forall b k v, (b, k) <> (ts_artifacts cfg, result_key id) -> get_object store b k v = get_object (tw_store w) b k v).
  { intros b k' v Hne. rewrite <- Hs. by eapply put_object_other. }
  assert (Hstored : forall final, (final = store \/ put_object (ts_artifacts cfg) (telemetry_key id) tbytes store = Ok final) ->
    stored_output w (mk_triage final (tw_answers w1) (tw_requests w1)) message output).
  { intros final Hf. exists st, schema_text, schema, id, bytes. split_and!; try done; [by exists skill_md| |].
    - cbn [tw_store]. destruct Hf as [->|Hf]; [done|]. rewrite (put_object_other _ _ _ _ _ _ _ _ Hf); [done|apply result_telemetry_ne].
    - cbn [tw_store]. intros b k' v H1' H2'. destruct Hf as [->|Hf]; [by apply Hother|].
      rewrite (put_object_other _ _ _ _ _ _ _ _ Hf) by done. by apply Hother. }
  apply bind_inv in Hr as [(e & Hu & ->)|([] & w2 & Hu & Hr)]; cbn [tw_store tw_answers tw_requests] in Hu.
  - destruct (put_object _ _ _ store) as [final|] eqn:Hp2; [discriminate Hu|]. injection Hu as _ <-. right. exists output.
    apply Hstored. by left.
  - destruct (put_object (ts_artifacts cfg) (telemetry_key id) tbytes store) as [final|] eqn:Hp2; [|discriminate Hu]. injection Hu as <-.
    injection Hr as <- <-. apply Hstored. by right.
Qed.

(** C5. Nothing unchecked is stored: whatever the model, the store and the
    database answer, a triage job either leaves every stored object as it was
    or stores, under its own result key, an output that is valid for the
    frozen schema and the semantic contract and accounts for the log whose
    checksum was verified; no other object but the job's telemetry changes;
    and a job that returns has stored the output it returns. *)
Theorem triage_stores_checked_output message (w w' : triage_world Store) r :
  process_log_triage_message cfg db model_ms preprocessing_ms message w = (r, w') ->
  match r with
  | Ok (output, _) => stored_output w w' message output
  | Raise _ => tw_store w' = tw_store w \/ exists output, stored_output w w' message output
  end.
Proof. exact (triage_run message w w' r). Qed.
End job.

(** ** Witnesses *)

(** A store without versions. *)
Definition simple_objects : Type := list ((pystr * pystr) * list Z).
Definition simple_get (o : simple_objects) (b k : pystr) (_ : option pystr) : result pyexn (list Z) :=
  match find_first (fun x => bool_decide (fst x = (b, k))) o with
  | Some x => Ok (snd x)
  | None => Raise (mk_exn (ForeignError (u "ClientError") false) (u "Not Found"))
  end.

Lemma simple_get_put b k bytes (o o' : simple_objects) : Ok (((b, k), bytes) :: o) = (Ok o' : result pyexn _) ->
  simple_get o' b k None = Ok bytes /\ existsb (fun x => bool_decide (fst x = (b, k))) o' = true.
Proof. intros [= <-]. unfold simple_get. cbn. by rewrite bool_decide_eq_true_2. Qed.

Lemma simple_get_other b k bytes (o o' : simple_objects) b' k' v : Ok (((b, k), bytes) :: o) = (Ok o' : result pyexn _) -> (b', k') <> (b, k) ->
  simple_get o' b' k' v = simple_get o b' k' v.
Proof. intros [= <-] Hne. unfold simple_get. cbn. by rewrite bool_decide_eq_false_2. Qed.

Definition simple_artifacts : ArtifactStore simple_objects := {|
  get_object := simple_get;
  object_exists o b k := existsb (fun x => bool_decide (fst x = (b, k))) o;
  put_object b k bytes o := Ok (((b, k), bytes) :: o);
  put_object_get := simple_get_put;
  put_object_other := simple_get_other;
|}.
Definition accept_all : JsonSchema := {| js_validate _ _ := SchemaValid |}.

Definition triage_finding (id : pystr) (entries : list Z) : json := JObj [
  (u "id", JStr id); (u "label_zh", JStr (u "连接失败")); (u "label_en", JStr (u "Connection failure"));
  (u "detail_zh", JStr (u "数据库连接失败。")); (u "detail_en", JStr (u "The database connection failed."));
  (u "pattern_ids", unquantified); (u "evidence_entry_ids", JList (map JInt entries)); (u "count", JNull); (u "percentage", JNull)].
Definition triage_answer : json := JObj [
  (u "total_entries", JInt 0); (u "summary_zh", JStr (u "数据库连接失败。服务受到影响。"));
  (u "summary_en", JStr (u "The database connection failed. The service was affected."));
  (u "key_finds", JList [triage_finding (u "f1") [0; 1; 2]%Z]); (u "secondary_finds", JList [])].
(** The same answer with a summary of one sentence. *)
Definition short_answer : json := jset (u "summary_en") (JStr (u "The database connection failed.")) triage_answer.
Definition http_body (content : json) : http_answer := HttpBody (utf8_encode (json_dumps (fun _ => []) (JObj [(u "choices", JList [
  JObj [(u "message", JObj [(u "content", JStr (json_dumps (fun _ => []) content))])]])]))).

Definition triage_cfg : triage_settings := mk_triage_settings (u "noc") (u "1") 2 (u "artifacts").
Definition sample_evidence : evidence_row := mk_evidence_row (u "e1") (u "i1") (u "LOG") (u "ACTIVE") (u "evidence") (u "log") (u "a.log")
  (hexdigest (utf8_encode sample_log)) None 0 None.
Definition summary_row : snapshot := sample_row (u "s1") (u "log-triage-summary") 1 (sample_manifest (u "log-triage-summary") []) [] true.
Definition sample_tables : tables := mk_tables [mk_incident_row (u "i1") (u "t") (u "s") (u "e") None None] [sample_evidence] [summary_row].
Definition triage_message : json := JObj [
  (u "job_id", JStr (u "j1")); (u "job_type", JStr (u "log_triage")); (u "incident_id", JStr (u "i1"));
  (u "object_refs", JList [JObj [(u "bucket", JStr (u "evidence")); (u "key", JStr (u "log"))]]);
  (u "skill_name", JStr (u "log-triage-summary")); (u "skill_snapshot_id", JStr (u "s1"))].
(** The model first sends the short answer, then the good one. *)
Definition sample_world : triage_world simple_objects :=
  mk_triage [((u "evidence", u "log"), utf8_encode sample_log)] [http_body short_answer; http_body triage_answer] [].
#[local] Notation sample_run := (@process_log_triage_message cjk_unicode no_text json_yaml accept_all simple_objects simple_artifacts
  triage_cfg sample_tables 0 0 triage_message sample_world) (only parsing).

Lemma sample_run_ok : is_ok (fst sample_run) = true /\ length (tw_requests (snd sample_run)) = 2.
Proof. vm_compute. by split. Qed.

Lemma triage_stores_checked_witness : exists output telemetry, sample_run = (Ok (output, telemetry), snd sample_run) /\
  @stored_output cjk_unicode no_text json_yaml accept_all simple_objects simple_artifacts triage_cfg sample_tables sample_world
    (snd sample_run) triage_message output.
Proof.
  destruct (ok_pair sample_run (proj1 sample_run_ok)) as ([output telemetry] & E). exists output, telemetry.
  exact (conj E (@triage_stores_checked_output cjk_unicode no_text json_yaml accept_all simple_objects simple_artifacts triage_cfg
    sample_tables 0 0 triage_message sample_world (snd sample_run) (Ok (output, telemetry)) E)).
Defined.

(** Two answers in a row that are no JSON end in [HermesInvalidResponse]
    after two requests. *)
Definition malformed : http_answer := http_body (JInt 3).
Definition refused_world : triage_world simple_objects := mk_triage [] [malformed; malformed; http_body triage_answer] [].
#[local] Notation refused_run := (@output_attempts cjk_unicode no_text accept_all simple_objects triage_cfg 0 sample_stats (JObj []) JBool
  (attempts_allowed triage_cfg) 0 None refused_world) (only parsing).

Lemma output_attempts_outcome_witness :
  match fst refused_run with Ok _ => false | Raise e => bool_decide (x_class e = HermesInvalidResponse) end = true /\
  exists k, 1 <= k <= attempts_allowed triage_cfg /\ exchanged JBool 0 k refused_world (snd refused_run) /\
    @ended cjk_unicode accept_all sample_stats (JObj []) (attempts_allowed triage_cfg) 0 k (fst refused_run).
Proof.
  split; [vm_compute; reflexivity|].
  exact (@output_attempts_outcome cjk_unicode no_text accept_all simple_objects triage_cfg 0 sample_stats sample_stats_ok (JObj []) JBool
    refused_world (fst refused_run) (snd refused_run) (surjective_pairing refused_run)).
Defined.
