(* ===== verification/Api.v ===== *)
(** * What the request handlers share

    [apps/api/app]: the outcome of a handler, its transaction, the audit trail
    ([audit.py]), the runtime switch ([ai_runtime.py]) and the bytes functions
    of [core/storage.py] and [json] that the handlers of several routers call. *)

From S2P Require Import Prelude PyStr Json Failures PyVal Sha256.

(** ** Outcomes *)

(** An [HTTPException] with its status and detail, or any other exception,
    which the framework answers with status 500. *)
Inductive api_exn :=
  | HttpException (status : Z) (detail : json)
  | Uncaught (e : pyexn).
#[global] Instance api_exn_eq_dec : EqDecision api_exn.
Proof. solve_decision. Defined.

Section handlers.
Context {W : Type}.

Definition http {A} (status : Z) (detail : pystr) : M W api_exn A := raise (HttpException status (JStr detail)).

Definition api_result {A} (r : result pyexn A) : result api_exn A := match r with Ok a => Ok a | Raise e => Raise (Uncaught e) end.
Definition python {A} (r : result pyexn A) : M W api_exn A := lift_result (api_result r).

(** The session is closed without a commit when the handler raises. *)
Definition transaction {A} (m : M W api_exn A) : M W api_exn A := fun w =>
  match m w with (Ok a, w') => (Ok a, w') | (Raise e, _) => (Raise e, w) end.

Lemma transaction_raise {A} (m : M W api_exn A) w e w' : transaction m w = (Raise e, w') -> w' = w.
Proof. unfold transaction. destruct (m w) as [[a|x] w1]; [discriminate|by intros [= _ <-]]. Qed.

Lemma transaction_ok {A} (m : M W api_exn A) w a w' : transaction m w = (Ok a, w') <-> m w = (Ok a, w').
Proof. unfold transaction. destruct (m w) as [[x|x] w1]; [done|]. split; discriminate. Qed.

(** A step that leaves the state alone: it raises or goes on. *)
Lemma lift_step {A B} (r : result api_exn A) (f : A -> M W api_exn B) w res w' :
  (lift_result r ≫= f) w = (res, w') -> (w' = w /\ exists e, r = Raise e /\ res = Raise e) \/ exists a, r = Ok a /\ f a w = (res, w').
Proof.
  unfold lift_result, mbind, M_bind. destruct r as [a|e]; [intros Hr; right; by exists a|].
  intros [= <- <-]. left. split; [done|by exists e].
Qed.

Lemma python_step {A B} (r : result pyexn A) (f : A -> M W api_exn B) w res w' :
  (python r ≫= f) w = (res, w') -> (w' = w /\ exists e, r = Raise e /\ res = Raise (Uncaught e)) \/ exists a, r = Ok a /\ f a w = (res, w').
Proof.
  unfold python. intros [[-> (e & He & ->)]|(a & Ha & Hr)]%lift_step; destruct r as [x|x]; try discriminate.
  - left. injection He as <-. split; [done|by exists x].
  - right. apply Ok_inj in Ha as ->. by exists a.
Qed.

Lemma get_st_inv {B} (f : W -> M W api_exn B) w r w' : (get_st ≫= f) w = (r, w') -> f w w = (r, w').
Proof. done. Qed.
End handlers.

(** ** [ai_runtime.py] *)

Definition runtime_unavailable : json := JObj [
  (u "code", JStr (u "AI_RUNTIME_UNAVAILABLE")); (u "message", JStr (u "The analysis engine is not currently configured."))].
Definition require_ai_runtime (ai_runtime : pystr) : result api_exn () :=
  if decide (ai_runtime = u "hermes") then Ok tt else Raise (HttpException 503 runtime_unavailable).

(** ** [audit.py] *)

Record audit_row := mk_audit {
  au_actor : option N; au_action : pystr; au_resource_type : pystr; au_resource_id : pystr; au_metadata : json }.

Definition record_audit (actor : option N) (action resource_type resource_id : pystr) (metadata : option json) (log : list audit_row)
    : list audit_row :=
  log ++ [mk_audit actor action resource_type resource_id (jor (default JNull metadata) (JObj []))].

(** ** Bytes *)

Definition sha256_of_bytes (data : list Z) : pystr := hexdigest data.

(** [json.loads] and [.decode(errors="replace")] of bytes.  UTF-8 without a
    byte order mark is what the program writes; the other encodings that
    [json] detects, and the replacement of invalid bytes, are left to the
    library.  A document that starts with the byte of a brace is an object in
    each of them. *)
Class ByteText := {
  loads_other : list Z -> result pyexn json;
  replace_invalid : list Z -> pystr;
  loads_other_brace : forall r j, loads_other (123%Z :: r) = Ok j -> is_obj j = true;
}.

(** The text whose encoding is detected as UTF-8: no mark and no NUL among the
    first four bytes. *)
Definition detected_utf8 (b : list Z) : bool :=
  negb (bool_decide (take 3 b = [239; 187; 191]%Z)) && negb (bool_decide (take 2 b = [254; 255]%Z)) &&
  negb (bool_decide (take 2 b = [255; 254]%Z)) && negb (bool_decide (0%Z ∈ take 4 b)).
Definition loads_bytes `{ByteText} (b : list Z) : result pyexn json :=
  match utf8_decode b with
  | Some t => if detected_utf8 b then match json_loads t with Some j => Ok j | None => Raise (mk_exn JSONDecodeError (u "invalid JSON")) end
              else loads_other b
  | None => loads_other b
  end.
Lemma loads_brace `{ByteText} r j : loads_bytes (123%Z :: r) = Ok j -> is_obj j = true.
Proof.
  unfold loads_bytes. destruct (utf8_decode (123%Z :: r)) as [t|] eqn:E; [|apply loads_other_brace].
  destruct (detected_utf8 _); [|apply loads_other_brace]. cbn [utf8_decode] in E.
  change (123 <? 128)%Z with true in E. cbv iota in E. destruct (utf8_decode r) as [t'|]; [|discriminate E]. injection E as <-.
  intros Hj. destruct (json_loads (123%Z :: t')) as [x|] eqn:Hl; [|discriminate Hj]. apply Ok_inj in Hj as <-.
  unfold json_loads in Hl. change (skip_ws (123%Z :: t')) with (123%Z :: t') in Hl. cbn [parse_value] in Hl.
  change (123 =? 34)%Z with false in Hl. change (123 =? 91)%Z with false in Hl. change (123 =? 123)%Z with true in Hl. cbv iota in Hl.
  destruct (startswith _ _); [|destruct (parse_members _ _) as [[l rest]|]; [|discriminate Hl]];
    unfold mbind, option_bind in Hl; cbv beta iota in Hl; case_decide; simplify_eq; done.
Qed.

Definition decode_replace `{ByteText} (b : list Z) : pystr := match utf8_decode b with Some t => t | None => replace_invalid b end.

Definition client_error : exn_class := ForeignError (u "ClientError") false.
Definition is_client_error (e : pyexn) : bool := bool_decide (x_class e = client_error).
