(* ===== verification/Analysis.v ===== *)
(** * Requesting and reading log analyses

    [apps/api/app/api/v1/routers/analysis.py]: the cache of completed runs,
    the request that creates a job with its run, and the poll that copies a
    completed job's artifact into its run.

    A handler is a transaction on one database.  Requests interleave at the
    run table: the statements of a request see the first [visible] run rows,
    the later ones were inserted by requests that committed in between, and
    the unique index on the current run of an incident is checked against the
    whole table at the commit.  A poll takes no lock: it reads the incident,
    the job and the run from databases that others may have changed by the
    time it writes the columns of the run ([flush_run] writes those that differ
    from what it read).  [api_step] adds the worker, the object store and the
    deletion of incidents, [reached] the history of the databases.
    Identifiers and the clock are arguments; the artifact store is the
    interface of [LogTriage]. *)

From S2P Require Import Prelude PyStr Json Schema Failures PyVal PyColl Sha256 Jobs Broker Sweep Outbox Evidence Snapshots SkillRuntime Skills Preprocess Hermes LogTriage Api.

(** ** Data *)

Definition SKILL_NAME : pystr := u "log-triage-summary".
Definition AI_POLICY_VERSION : pystr := u "1".
Definition CACHE_CONTRACT_VERSION : pystr := PREPROCESSOR_VERSION ++ u "." ++ AI_POLICY_VERSION.

(** The columns of [jobs] beside those of [Jobs.job]. *)
Record job_details := mk_details {
  jd_requested_by : option N;
  jd_model : option pystr;
  jd_effort : option pystr;
  jd_skill_name : pystr;
  jd_skill_version : pystr;
  jd_skill_hash : option pystr;
  jd_skill_execution_hash : option pystr;
  jd_skill_snapshot_id : pystr;
  jd_used_cache : bool;
  jd_cache_type : option pystr;
}.

(** What a run was asked for: written once, when the row is inserted. *)
Record run_input := mk_input {
  ri_id : N;
  ri_incident : N;
  ri_job : N;
  ri_evidence : option N;
  ri_model : option pystr;
  ri_effort : option pystr;
  ri_skill_name : pystr;
  ri_skill_version : pystr;
  ri_skill_hash : pystr;
  ri_skill_execution_hash : pystr;
  ri_skill_snapshot_id : pystr;
  ri_schema_hash : pystr;
  ri_input_contract_version : option pystr;
  ri_ai_policy : json;
  ri_cache_contract_version : pystr;
  ri_input_manifest_sha256 : pystr;
  ri_used_cache : bool;
  ri_cache_type : option pystr;
  ri_created_at : usec;
}.
#[global] Instance run_input_eq_dec : EqDecision run_input.
Proof. solve_decision. Defined.

(** What it produced: the result, its text and its hash. *)
Record run_output := mk_output { ro_result : json; ro_text : pystr; ro_sha256 : pystr }.
#[global] Instance run_output_eq_dec : EqDecision run_output.
Proof. solve_decision. Defined.

Record analysis_run := mk_run {
  ar_input : run_input;
  ar_output : option run_output;
  ar_telemetry : list (pystr * json);   (** the telemetry columns that are set *)
  ar_current : bool;
}.

(** [result_json is not None]; an artifact [null] leaves the column unset. *)
Definition has_result (r : analysis_run) : bool :=
  match ar_output r with Some o => negb (bool_decide (ro_result o = JNull)) | None => false end.

Record api_db := mk_db {
  db_incidents : gset N;
  db_evidence : list (N * evidence);
  db_registry : session;
  db_store : Outbox.store;
  db_details : gmap N job_details;
  db_runs : list analysis_run;
  db_audit : list audit_row;
}.

Definition set_registry (s : session) (d : api_db) : api_db :=
  mk_db (db_incidents d) (db_evidence d) s (db_store d) (db_details d) (db_runs d) (db_audit d).
Definition set_runs (l : list analysis_run) (d : api_db) : api_db :=
  mk_db (db_incidents d) (db_evidence d) (db_registry d) (db_store d) (db_details d) l (db_audit d).
Definition set_audit (l : list audit_row) (d : api_db) : api_db :=
  mk_db (db_incidents d) (db_evidence d) (db_registry d) (db_store d) (db_details d) (db_runs d) l.
Definition set_jobs (st : Outbox.store) (jd : gmap N job_details) (d : api_db) : api_db :=
  mk_db (db_incidents d) (db_evidence d) (db_registry d) st jd (db_runs d) (db_audit d).

(** What a request draws from outside: the generated keys and the clock. *)
Record fresh := mk_fresh { fr_job : N; fr_run : N; fr_event : N; fr_correlation : pystr; fr_now : usec }.

(** ** The cache *)

Definition opt_matches {A} `{EqDecision A} (requested : option A) (column : option A) : bool :=
  match requested with None => true | Some x => bool_decide (column = Some x) end.

(** [ORDER BY created_at DESC] *)
Definition newest_run (r : analysis_run) : option Z * option Z := (Some (- ri_created_at (ar_input r))%Z, None).

Definition reusable (sha256 : pystr) (requested_model requested_effort : option pystr) (skill_hash : pystr)
    (skill_execution_hash skill_snapshot_id : option pystr) (r : analysis_run) : bool :=
  let i := ar_input r in
  bool_decide (ri_skill_name i = SKILL_NAME) && bool_decide (ri_skill_hash i = skill_hash) &&
  bool_decide (ri_cache_contract_version i = CACHE_CONTRACT_VERSION) &&
  bool_decide (ri_input_manifest_sha256 i = sha256) && has_result r &&
  opt_matches skill_execution_hash (Some (ri_skill_execution_hash i)) && opt_matches skill_snapshot_id (Some (ri_skill_snapshot_id i)) &&
  opt_matches requested_model (ri_model i) && opt_matches requested_effort (ri_effort i).

(** [_find_cached_analysis_run] *)
Definition find_cached_analysis_run (runs : list analysis_run) (sha256 : pystr) (requested_model requested_effort : option pystr)
    (skill_hash : pystr) (skill_execution_hash skill_snapshot_id : option pystr) : option analysis_run :=
  match sha256 with
  | [] => None
  | _ => oldest newest_run (reusable sha256 requested_model requested_effort skill_hash skill_execution_hash skill_snapshot_id) runs
  end.

(** ** Completed jobs *)

Definition TELEMETRY_FIELDS : list pystr := map u [
  "input_tokens"; "total_model_input_tokens"; "output_tokens"; "cache_creation_tokens"; "cache_read_tokens";
  "duration_ms"; "num_turns"; "confidence"; "escalation_reason"; "raw_input_bytes"; "evidence_bytes"; "preprocessing_ratio";
  "attempt_count"; "initial_model"; "initial_effort"; "initial_input_tokens"; "initial_output_tokens";
  "initial_cache_read_tokens"; "initial_cache_creation_tokens"; "initial_duration_ms"; "initial_estimated_cost_usd";
  "escalation_model"; "escalation_effort"; "escalation_input_tokens"; "escalation_output_tokens";
  "escalation_cache_read_tokens"; "escalation_cache_creation_tokens"; "escalation_duration_ms"; "escalation_estimated_cost_usd";
  "runtime_name"; "runtime_version"; "runtime_profile"; "provider"; "runtime_model"]%string.

(** [if field in telemetry: ... telemetry[field]] *)
Definition telemetry_field (field : pystr) (telemetry : json) : result pyexn (option json) :=
  present ← py_in field telemetry;
  if (present : bool) then v ← subscript_key field telemetry; mret (Some v) else mret None.

(** Column [column] from field [field]. *)
Definition telemetry_column (telemetry : json) (conv : json -> json) (field column : pystr) (cols : list (pystr * json))
    : result pyexn (list (pystr * json)) :=
  v ← telemetry_field field telemetry;
  mret (match v with Some v => assoc_set column (conv v) cols | None => cols end).
Definition telemetry_columns (telemetry : json) (cols : list (pystr * json)) : result pyexn (list (pystr * json)) :=
  cols ← foldl (fun cols field => cols ← cols; telemetry_column telemetry (fun v => v) field field cols) (Ok cols) TELEMETRY_FIELDS;
  cols ← telemetry_column telemetry (fun v => v) (u "cost_usd") (u "estimated_cost_usd") cols;
  telemetry_column telemetry (fun v => JBool (jtruthy v)) (u "escalated") (u "escalated") cols.

(** A flush writes a column when the session assigned another value than the
    one it loaded; otherwise the row keeps what it has by then. *)
Definition flush_column {A} `{EqDecision A} (loaded assigned row : A) : A := if decide (assigned = loaded) then row else assigned.
Lemma flush_column_same {A} `{EqDecision A} (loaded assigned : A) : flush_column loaded assigned loaded = assigned.
Proof. unfold flush_column. by case_decide. Qed.

(** A list comprehension whose body has effects. *)
Fixpoint for_each_out {W E A B} (f : A -> M W E B) (l : list A) : M W E (list B) :=
  match l with [] => mret [] | x :: l => y ← f x; ys ← for_each_out f l; mret (y :: ys) end.

Section analysis.
Context `{UnicodeData} `{PyText} `{YamlLoader} `{MetaSchema} `{SchemaValidator} `{ByteText}.
Context {Store : Type} `{ArtifactStore Store}.
Context (ai_runtime artifacts : pystr) (uuid : nat -> pystr) (skills_dir : pystr -> skill_files) (fuel : nat).

Definition DB : Type -> Type := M api_db api_exn.

(** The run as the session holds it after the assignments. *)
Definition set_output (o : run_output) (cols : list (pystr * json)) (r : analysis_run) : analysis_run :=
  mk_run (ar_input r) (Some o) cols (ar_current r).
Definition update_run (id : N) (f : analysis_run -> analysis_run) (l : list analysis_run) : list analysis_run :=
  map (fun r => if decide (ri_id (ar_input r) = id) then f r else r) l.
Definition run_of_job (jid : N) (l : list analysis_run) : option analysis_run :=
  find_first (fun r => bool_decide (ri_job (ar_input r) = jid)) l.

(** The telemetry artifact, [{}] when it cannot be read. *)
Definition telemetry_artifact (o : Store) (jid : N) : result pyexn json :=
  match body ← get_object o artifacts (telemetry_key (uuid_str jid)) None; loads_bytes body with
  | Ok t => Ok t
  | Raise e => if is_client_error e || is_value_error (x_class e) then Ok (JObj []) else Raise e
  end.

(** A flush writes the columns that differ from what the session loaded, and
    leaves the others as they are in the row by now. *)
Definition changed_columns (loaded assigned : list (pystr * json)) : list (pystr * json) :=
  List.filter (fun kv => negb (bool_decide (default JNull (assoc (fst kv) loaded) = snd kv))) assigned.
Definition write_columns (changes cols : list (pystr * json)) : list (pystr * json) :=
  foldl (fun cols kv => assoc_set (fst kv) (snd kv) cols) cols changes.
Definition changed_text (f : run_output -> pystr) (loaded : analysis_run) (o : run_output) : bool :=
  negb (bool_decide (f <$> ar_output loaded = Some (f o))).
Definition write_text (f : run_output -> pystr) (loaded : analysis_run) (o : run_output) (row : analysis_run) : pystr :=
  if changed_text f loaded o then f o else default (f o) (f <$> ar_output row).
Definition write_output (loaded : analysis_run) (o : run_output) (row : analysis_run) : run_output :=
  mk_output (if decide (ro_result o = JNull) then default JNull (ro_result <$> ar_output row) else ro_result o)
    (write_text ro_text loaded o row) (write_text ro_sha256 loaded o row).
Definition write_row (loaded : analysis_run) (o : run_output) (cols : list (pystr * json)) (row : analysis_run) : analysis_run :=
  mk_run (ar_input row) (Some (write_output loaded o row)) (write_columns (changed_columns (ar_telemetry loaded) cols) (ar_telemetry row))
    (ar_current row).
Definition nothing_changed (loaded : analysis_run) (o : run_output) (cols : list (pystr * json)) : bool :=
  bool_decide (ro_result o = JNull) && negb (changed_text ro_text loaded o) && negb (changed_text ro_sha256 loaded o) &&
  bool_decide (changed_columns (ar_telemetry loaded) cols = []).
Definition stale_data_error : pyexn := mk_exn (ForeignError (u "StaleDataError") false) (u "expected to update 1 row(s); 0 were matched").
Definition flush_run (loaded : analysis_run) (o : run_output) (cols : list (pystr * json)) : DB () :=
  d ← get_st;
  if nothing_changed loaded o cols then mret ()
  else if bool_decide (ri_id (ar_input loaded) ∈ map (fun r => ri_id (ar_input r)) (db_runs d))
  then modify_st (fun d => set_runs (update_run (ri_id (ar_input loaded)) (write_row loaded o cols) (db_runs d)) d)
  else raise (Uncaught stale_data_error).

(** [_sync_completed_job]: the run is read without a lock from the rows [seen]
    and written to the rows that are there at the flush. *)
Definition sync_completed_job (seen : list analysis_run) (o : Store) (jid : N) (j : job) : DB (option analysis_run) :=
  match run_of_job jid seen with
  | None => mret None
  | Some run =>
      if has_result run || negb (bool_decide (j_status j = COMPLETED)) then mret (Some run)
      else match get_object o artifacts (result_key (uuid_str jid)) None with
      | Raise e => if is_client_error e then mret (Some run) else raise (Uncaught e)
      | Ok body =>
          res ← python (loads_bytes body);
          telemetry ← python (telemetry_artifact o jid);
          cols ← python (telemetry_columns telemetry (ar_telemetry run));
          let out := mk_output res (decode_replace body) (sha256_of_bytes body) in
          flush_run run out cols;;
          mret (Some (set_output out cols run))
      end
  end.

(** ** The answer *)

Inductive out_value := OutJson (j : json) | OutTime (t : option usec).

Definition text_json (s : option pystr) : out_value := OutJson (jopt s).
Definition id_json (n : option N) : out_value := text_json (uuid_str <$> n).
Definition status_name (s : job_status) : pystr :=
  u (match s with QUEUED => "QUEUED" | PROCESSING => "PROCESSING" | COMPLETED => "COMPLETED" | FAILED => "FAILED" | RETRYING => "RETRYING" end).
Definition status_json (s : job_status) : out_value := OutJson (JStr (status_name s)).

Definition RUN_TELEMETRY : list pystr := map u [
  "input_tokens"; "total_model_input_tokens"; "output_tokens"; "cache_creation_tokens"; "cache_read_tokens";
  "estimated_cost_usd"; "duration_ms"; "num_turns"; "confidence"; "escalation_reason"; "raw_input_bytes"; "evidence_bytes";
  "preprocessing_ratio"; "attempt_count"; "initial_model"; "initial_effort"; "initial_input_tokens"; "initial_output_tokens";
  "initial_cache_read_tokens"; "initial_cache_creation_tokens"; "initial_duration_ms"; "initial_estimated_cost_usd";
  "escalation_model"; "escalation_effort"; "escalation_input_tokens"; "escalation_output_tokens";
  "escalation_cache_read_tokens"; "escalation_cache_creation_tokens"; "escalation_duration_ms"; "escalation_estimated_cost_usd";
  "runtime_name"; "runtime_version"; "runtime_profile"; "provider"; "runtime_model"]%string.

(** [_to_out] *)
Definition to_out (jid : N) (j : job) (jd : job_details) (run : option analysis_run) : list (pystr * out_value) :=
  let i := ar_input <$> run in
  let of_run (f : run_input -> pystr) : out_value := text_json (f <$> i) in
  let telemetry (c : pystr) : json := default JNull (run ← run; assoc c (ar_telemetry run)) in
  [(u "job_id", id_json (Some jid)); (u "incident_id", id_json (j_incident_id j)); (u "status", status_json (j_status j));
   (u "model", text_json (jd_model jd)); (u "effort", text_json (jd_effort jd));
   (u "skill_name", text_json (Some (jd_skill_name jd))); (u "skill_version", text_json (Some (jd_skill_version jd)));
   (u "skill_snapshot_id", of_run ri_skill_snapshot_id); (u "skill_hash", of_run ri_skill_hash);
   (u "skill_execution_hash", of_run ri_skill_execution_hash); (u "schema_hash", of_run ri_schema_hash);
   (u "input_contract_version", text_json (i ≫= ri_input_contract_version));
   (u "preprocessor_version", text_json ((fun _ => PREPROCESSOR_VERSION) <$> i));
   (u "ai_policy_version", text_json ((fun _ => AI_POLICY_VERSION) <$> i));
   (u "ai_policy_json", OutJson (default JNull (ri_ai_policy <$> i)));
   (u "attempt", OutJson (JInt (j_attempt j))); (u "error_code", text_json (j_error_code j));
   (u "error_message", text_json (j_error_message j)); (u "queued_at", OutTime (Some (j_queued_at j)));
   (u "started_at", OutTime (j_started_at j)); (u "completed_at", OutTime (j_completed_at j));
   (u "run_id", id_json (ri_id <$> i)); (u "result", OutJson (default JNull (run ← run; ro_result <$> ar_output run)));
   (u "current", OutJson (JBool (default false (ar_current <$> run))));
   (u "used_cache", OutJson (JBool (jd_used_cache jd))); (u "cache_type", text_json (jd_cache_type jd));
   (u "escalated", OutJson (match telemetry (u "escalated") with JNull => JBool false | b => b end))]
  ++ map (fun c => (c, OutJson (telemetry c))) RUN_TELEMETRY.

(** ** Requesting an analysis *)

(** The newest active log of the incident, NULL creation times first. *)
Definition newest_evidence (x : N * evidence) : option Z * option Z :=
  match e_created_at (snd x) with None => (Some 0%Z, None) | Some t => (Some 1%Z, Some (- t)%Z) end.
Definition log_evidence_of (incident : N) (l : list (N * evidence)) : option (N * evidence) :=
  oldest newest_evidence (fun x => bool_decide (e_incident (snd x) = Some incident) && bool_decide (e_type (snd x) = u "LOG") &&
    bool_decide (e_state (snd x) = ACTIVE)) l.

(** The registry's session is the handler's. *)
Definition on_registry {A} (m : M session pyexn A) : DB A := fun d =>
  let '(r, s) := m (db_registry d) in (api_result r, set_registry s d).

(** [_snapshot_schema_hash] *)
Definition snapshot_schema_hash (sn : snapshot) : result pyexn pystr := b ← py_encode (output_schema_json sn); mret (sha256_of_bytes b).
(** [_snapshot_runtime_provenance], without the two constants. *)
Definition snapshot_runtime_provenance (sn : snapshot) : result pyexn (option pystr * json) :=
  version ← input_contract_version sn; policy ← execution_policy sn; mret (version, policy).

(** [update(AnalysisRun).where(incident_id == ...).values(current=False)] on
    the rows the statement sees. *)
Definition demote (visible : nat) (incident : N) (l : list analysis_run) : list analysis_run :=
  map (fun r => if decide (ri_incident (ar_input r) = incident) then mk_run (ar_input r) (ar_output r) (ar_telemetry r) false else r)
    (take visible l) ++ drop visible l.

Definition run_row (incident eid : N) (e : evidence) (fr : fresh) (sn : snapshot) (version execution schema_hash : pystr)
    (provenance : option pystr * json) (model effort : option pystr) (cached : option analysis_run) : analysis_run :=
  mk_run (mk_input (fr_run fr) incident (fr_job fr) (Some eid) model effort SKILL_NAME version (content_hash sn) execution (sn_id sn)
      schema_hash (fst provenance) (snd provenance) CACHE_CONTRACT_VERSION (e_sha256 e)
      (bool_decide (is_Some cached)) ((fun _ => u "exact") <$> cached) (fr_now fr))
    (cached ≫= ar_output) [] true.

(** [_commit_current_analysis]: the unique index on the current run of an
    incident. *)
Definition current_of (incident : N) (l : list analysis_run) : list analysis_run :=
  filter (fun r => ri_incident (ar_input r) = incident /\ ar_current r = true) l.
Definition commit_current_analysis (incident : N) : DB () :=
  d ← get_st;
  if Nat.leb (length (current_of incident (db_runs d))) 1 then mret ()
  else http 409 (u "Another analysis became current for this incident; retry the request.").

Definition audit (user : N) (action resource_type resource_id : pystr) (metadata : json) : DB () :=
  modify_st (fun d => set_audit (record_audit (Some user) action resource_type resource_id (Some metadata) (db_audit d)) d).

(** The branch of a cache hit: the job is born completed. *)
Definition serve_cached (incident user eid : N) (e : evidence) (fr : fresh) (sn : snapshot) (execution : pystr) (source : analysis_run)
    : DB analysis_run :=
  provenance ← python (snapshot_runtime_provenance sn);
  version ← python (declared_skill_version sn);
  schema_hash ← python (snapshot_schema_hash sn);
  let i := ar_input source in
  let job := mk_job (u "log_triage") (Some incident) COMPLETED 1 None None (fr_now fr) (Some (fr_now fr)) (Some (fr_now fr)) None None None None in
  let details := mk_details (Some user) (ri_model i) (ri_effort i) SKILL_NAME version (Some (content_hash sn)) (Some execution) (sn_id sn)
    true (Some (u "exact")) in
  let run := run_row incident eid e fr sn version execution schema_hash provenance (ri_model i) (ri_effort i) (Some source) in
  modify_st (fun d => set_jobs (mk_store (<[fr_job fr := job]> (st_jobs (db_store d))) (st_outbox (db_store d)))
    (<[fr_job fr := details]> (db_details d)) d);;
  modify_st (fun d => set_runs (db_runs d ++ [run]) d);;
  audit user (u "incident.analysis.execute") (u "incident") (uuid_str incident)
    (JObj [(u "job_id", JStr (uuid_str (fr_job fr))); (u "used_cache", JBool true); (u "cache_type", JStr (u "exact"));
           (u "source_run_id", JStr (uuid_str (ri_id i)))]);;
  mret run.

Definition object_ref (e : evidence) : json := JObj [
  (u "bucket", JStr (e_bucket e)); (u "key", JStr (e_key e)); (u "sha256", JStr (e_sha256 e)); (u "version_id", jopt (e_version e))].

(** The branch without one: the job and its message are enqueued. *)
Definition enqueue_analysis (incident user eid : N) (e : evidence) (fr : fresh) (sn : snapshot) (execution : pystr) : DB analysis_run :=
  version ← python (declared_skill_version sn);
  policy ← python (execution_policy sn);
  let fields := mk_job_fields (fr_job fr) (u "log_triage") (Some (uuid_str incident)) [object_ref e] None None SKILL_NAME version
    (fr_correlation fr) 1 (Some (content_hash sn)) (Some execution) (Some (sn_id sn)) None (Some policy) in
  d ← get_st;
  st ← python (enqueue_job (fr_event fr) fields (Some incident) (fr_now fr) (db_store d));
  let details := mk_details (Some user) None None SKILL_NAME version (Some (content_hash sn)) (Some execution) (sn_id sn) false None in
  modify_st (fun d => set_jobs st (<[fr_job fr := details]> (db_details d)) d);;
  schema_hash ← python (snapshot_schema_hash sn);
  provenance ← python (snapshot_runtime_provenance sn);
  let run := run_row incident eid e fr sn version execution schema_hash provenance None None None in
  modify_st (fun d => set_runs (db_runs d ++ [run]) d);;
  audit user (u "incident.analysis.execute") (u "incident") (uuid_str incident) (JObj [(u "job_id", JStr (uuid_str (fr_job fr)))]);;
  mret run.

Definition request_body (visible : nat) (incident user : N) (fr : fresh) : DB analysis_run :=
  d ← get_st;
  if decide (incident ∉ db_incidents d) then http 404 (u "Incident not found") else
  match log_evidence_of incident (db_evidence d) with
  | None => http 409 (u "Incident has no LOG evidence attached — upload a log before requesting analysis.")
  | Some (eid, e) =>
      lift_result (require_ai_runtime ai_runtime);;
      sn ← on_registry (resolve_active_snapshot uuid (fr_now fr) fuel skills_dir SKILL_NAME);
      d ← get_st;
      let table := rows (db_registry d) in
      execution ← python (compute_execution_hash (S (S (length table))) table sn []);
      let cached := find_cached_analysis_run (take visible (db_runs d)) (e_sha256 e) None None (content_hash sn) (Some execution) (Some (sn_id sn)) in
      modify_st (fun d => set_runs (demote visible incident (db_runs d)) d);;
      run ← match cached with
            | Some source => serve_cached incident user eid e fr sn execution source
            | None => enqueue_analysis incident user eid e fr sn execution
            end;
      commit_current_analysis incident;;
      mret run
  end.

Definition deleted_instance : pyexn := mk_exn RuntimeError (u "instance has been deleted").
Definition answer (jid : N) (run : option analysis_run) : DB (list (pystr * out_value)) :=
  d ← get_st;
  match st_jobs (db_store d) !! jid, db_details d !! jid with
  | Some j, Some jd => mret (to_out jid j jd run)
  | _, _ => raise (Uncaught deleted_instance)
  end.

(** [request_analysis] *)
Definition request_analysis (visible : nat) (incident user : N) (fr : fresh) : DB (list (pystr * out_value)) :=
  run ← transaction (request_body visible incident user fr);
  answer (fr_job fr) (Some run).

(** ** Reading analyses *)

Definition is_analysis_of (incident : N) (j : job) : bool :=
  bool_decide (j_incident_id j = Some incident) && bool_decide (j_type j = u "log_triage").

(** After the commit the rows are read again. *)
Definition answer_refreshed (jid : N) (run : option analysis_run) : DB (list (pystr * out_value)) :=
  d ← get_st;
  match run with
  | None => answer jid None
  | Some r =>
      match find_first (fun x => bool_decide (ri_id (ar_input x) = ri_id (ar_input r))) (db_runs d) with
      | Some row => answer jid (Some row)
      | None => raise (Uncaught deleted_instance)
      end
  end.

(** [get_analysis_run]: [seen] is the database when the incident and the job
    were read, [later] when the run was; others may have committed since. *)
Definition get_analysis_run (seen later : api_db) (o : Store) (incident jid : N) : DB (list (pystr * out_value)) :=
  run ← transaction (
    if decide (incident ∉ db_incidents seen) then http 404 (u "Incident not found") else
    match st_jobs (db_store seen) !! jid with
    | Some j =>
        if is_analysis_of incident j then sync_completed_job (db_runs later) o jid j
        else http 404 (u "Analysis run not found")
    | None => http 404 (u "Analysis run not found")
    end);
  answer_refreshed jid run.

(** [ORDER BY queued_at DESC] *)
Definition analysis_jobs (incident : N) (d : api_db) : list (N * job) :=
  py_sorted (fun x y => (j_queued_at (snd y) <=? j_queued_at (snd x))%Z)
    (filter (fun x => is_analysis_of incident (snd x) = true) (map_to_list (st_jobs (db_store d)))).

(** [list_analysis_runs]: [reads] is what the poll of each job sees. *)
Definition show_read (seen : api_db) (x : N * job) (run : option analysis_run) : DB (list (pystr * out_value)) :=
  match db_details seen !! fst x with Some jd => mret (to_out (fst x) (snd x) jd run) | None => raise (Uncaught deleted_instance) end.
Definition list_analysis_runs (seen : api_db) (reads : N -> api_db * Store) (incident : N) : DB (list (list (pystr * out_value))) :=
  transaction (
    if decide (incident ∉ db_incidents seen) then http 404 (u "Incident not found") else
    for_each_out (fun x => run ← sync_completed_job (db_runs (fst (reads (fst x)))) (snd (reads (fst x))) (fst x) (snd x); show_read seen x run)
      (analysis_jobs incident seen)).
End analysis.

(** ** The run table *)

Lemma for_each_out_ind {W E A B} (R : W -> W -> Prop) (P : W -> Prop) (f : A -> M W E B) l :
  (forall w, P w -> R w w) -> (forall a b c, R a b -> R b c -> R a c) ->
  (forall x w r w', P w -> f x w = (r, w') -> P w' /\ R w w') ->
  forall w r w', P w -> for_each_out f l w = (r, w') -> P w' /\ R w w'.
Proof.
  intros Hr Ht Hf. induction l as [|x l IH]; intros w r w' Hw.
  - intros [= _ <-]. split; [done|by apply Hr].
  - cbn [for_each_out]. intros [(e & He & _)|(y & w1 & He & Hk)]%bind_inv; [by eapply Hf|].
    destruct (Hf _ _ _ _ Hw He) as [Hw1 HR].
    apply bind_inv in Hk as [(e & He' & _)|(ys & w2 & He' & Hk)]; destruct (IH _ _ _ Hw1 He') as [Hw2 HR']; [|injection Hk as _ <-];
      (split; [done|by eapply Ht]).
Qed.

Definition run_id (r : analysis_run) : N := ri_id (ar_input r).
Definition run_job (r : analysis_run) : N := ri_job (ar_input r).

(** The identity of a cached computation. *)
Definition same_key (a b : run_input) : Prop :=
  ri_skill_name a = ri_skill_name b /\ ri_skill_hash a = ri_skill_hash b /\ ri_skill_execution_hash a = ri_skill_execution_hash b /\
  ri_skill_snapshot_id a = ri_skill_snapshot_id b /\ ri_cache_contract_version a = ri_cache_contract_version b /\
  ri_input_manifest_sha256 a = ri_input_manifest_sha256 b.

Record runs_ok (d : api_db) : Prop := {
  ok_ids : NoDup (map run_id (db_runs d));
  ok_jobs : NoDup (map run_job (db_runs d));
  ok_present : forall r, r ∈ db_runs d -> is_Some (st_jobs (db_store d) !! run_job r);
  ok_current : forall i, length (current_of i (db_runs d)) <= 1;
}.

Lemma map_input {A} (f : run_input -> A) l : map (fun r => f (ar_input r)) l = map f (map ar_input l).
Proof. by rewrite map_map. Qed.

Lemma current_incl i l l' : Forall2 (fun r r' => ar_input r' = ar_input r /\ (ar_current r' = true -> ar_current r = true)) l l' ->
  length (current_of i l') <= length (current_of i l).
Proof.
  unfold current_of. induction 1 as [|a b l l' [Hi Hc] Hl IH]; [done|]. rewrite !filter_cons, Hi.
  repeat case_decide; simpl; try lia. naive_solver.
Qed.

(** ** Polls *)

Section transactions.
Context `{UnicodeData} `{PyText} `{YamlLoader} `{MetaSchema} `{SchemaValidator} `{ByteText}.
Context {Store : Type} `{ArtifactStore Store}.
Context (ai_runtime artifacts : pystr) (uuid : nat -> pystr) (skills_dir : pystr -> skill_files) (fuel : nat).

(** What a write does to the table. *)
Definition flushed (loaded : analysis_run) (out : run_output) (cols : list (pystr * json)) (d d' : api_db) : Prop :=
  d' = set_runs (update_run (run_id loaded) (write_row loaded out cols) (db_runs d)) d \/ (nothing_changed loaded out cols = true /\ d' = d).

(** What a poll may do to the tables. *)
Inductive synced (seen : list analysis_run) (o : Store) (jid : N) (j : job) (d : api_db) : option analysis_run -> api_db -> Prop :=
  | sync_none : run_of_job jid seen = None -> synced seen o jid j d None d
  | sync_same run : run_of_job jid seen = Some run ->
      (has_result run = true \/ j_status j <> COMPLETED \/ exists e, get_object o artifacts (result_key (uuid_str jid)) None = Raise e) ->
      synced seen o jid j d (Some run) d
  | sync_fill run body res cols d' : run_of_job jid seen = Some run -> has_result run = false -> j_status j = COMPLETED ->
      get_object o artifacts (result_key (uuid_str jid)) None = Ok body -> loads_bytes body = Ok res ->
      let out := mk_output res (decode_replace body) (sha256_of_bytes body) in
      flushed run out cols d d' -> synced seen o jid j d (Some (set_output out cols run)) d'.

Lemma sync_inv seen o jid j d r d' : sync_completed_job artifacts seen o jid j d = (r, d') ->
  match r with Ok run => synced seen o jid j d run d' | Raise _ => d' = d end.
Proof.
  unfold sync_completed_job. destruct (run_of_job jid seen) as [run|] eqn:Hrun.
  2: { intros [= <- <-]. by apply sync_none. }
  destruct (has_result run) eqn:Ho; cbn [orb].
  { intros [= <- <-]. apply sync_same; [done|by left]. }
  destruct (bool_decide (j_status j = COMPLETED)) eqn:Hj; cbn [negb]; [|intros [= <- <-]; apply bool_decide_eq_false_1 in Hj; apply sync_same; [done|by right; left]].
  apply bool_decide_eq_true_1 in Hj. destruct (get_object _ _ _ _) as [body|e] eqn:Hb.
  2: { destruct (is_client_error e); intros [= <- <-]; [apply sync_same; [done|right; right; by exists e]|done]. }
  intros [[-> (e & _ & ->)]|(res & Hres & Hr)]%python_step; [done|].
  apply python_step in Hr as [[-> (e & _ & ->)]|(t & _ & Hr)]; [done|].
  apply python_step in Hr as [[-> (e & _ & ->)]|(cols & _ & Hr)]; [done|]. cbv zeta in Hr.
  assert (Hf : forall r1 d1, flush_run run (mk_output res (decode_replace body) (sha256_of_bytes body)) cols d = (r1, d1) ->
    match r1 with Ok _ => flushed run (mk_output res (decode_replace body) (sha256_of_bytes body)) cols d d1 | Raise _ => d1 = d end).
  { intros r1 d1. unfold flush_run. intros Hx%get_st_inv. destruct (nothing_changed _ _ _) eqn:Hn; [injection Hx as <- <-; by right|].
    destruct (bool_decide _); [injection Hx as <- <-; by left|by injection Hx as <- <-]. }
  apply bind_inv in Hr as [(e & He%Hf & ->)|([] & d1 & Hs%Hf & Hr)]; [done|]. injection Hr as <- <-. by eapply sync_fill.
Qed.

Lemma run_of_job_in jid l run : run_of_job jid l = Some run -> run ∈ l /\ run_job run = jid.
Proof. intros [Hin Hp]%find_first_Some. split; [done|by apply bool_decide_eq_true_1 in Hp]. Qed.

Lemma answer_same jid run d r d' : answer jid run d = (r, d') -> d' = d.
Proof. unfold answer. intros Hr. apply get_st_inv in Hr. repeat case_match; by injection Hr as _ <-. Qed.
Lemma refreshed_same jid run d r d' : answer_refreshed jid run d = (r, d') -> d' = d.
Proof.
  unfold answer_refreshed. intros Hr. apply get_st_inv in Hr. destruct run as [run|]; [|by apply answer_same in Hr].
  destruct (find_first _ _); [by apply answer_same in Hr|by injection Hr as _ <-].
Qed.
Lemma show_same seen x run (d : api_db) r d' : show_read seen x run d = (r, d') -> d' = d.
Proof. unfold show_read. destruct (_ !! _); by intros [= _ <-]. Qed.

(** *** What happens to a row *)

(** The states so far, newest first. *)
Abbreviation trail := (list (api_db * Store)).
Definition read_db (past : trail) (d : api_db) : Prop := exists o, (d, o) ∈ past.
Definition read_store (past : trail) (o : Store) : Prop := exists d, (d, o) ∈ past.
(** A body the result object of the job had. *)
Definition result_body (past : trail) (jid : N) (body : list Z) : Prop :=
  exists o, read_store past o /\ get_object o artifacts (result_key (uuid_str jid)) None = Ok body.

Inductive row_step (past : trail) (r : analysis_run) : analysis_run -> Prop :=
  | row_demoted : row_step past r (mk_run (ar_input r) (ar_output r) (ar_telemetry r) false)
  | row_filled d loaded body res cols : read_db past d -> loaded ∈ db_runs d -> run_id loaded = run_id r -> has_result loaded = false ->
      result_body past (run_job loaded) body -> loads_bytes body = Ok res ->
      row_step past r (write_row loaded (mk_output res (decode_replace body) (sha256_of_bytes body)) cols r).
Definition row_steps (past : trail) : analysis_run -> analysis_run -> Prop := rtc (row_step past).
Definition poll_change (past : trail) (d d' : api_db) : Prop := d' = set_runs (db_runs d') d /\ Forall2 (row_steps past) (db_runs d) (db_runs d').

Lemma rows_same past l : Forall2 (row_steps past) l l.
Proof. induction l; constructor; [reflexivity|done]. Qed.
Lemma rows_trans past l1 l2 l3 : Forall2 (row_steps past) l1 l2 -> Forall2 (row_steps past) l2 l3 -> Forall2 (row_steps past) l1 l3.
Proof. intros H12. revert l3. induction H12; intros l3 H23; inversion H23; subst; constructor; [by etrans|auto]. Qed.
Lemma polled_same past d : poll_change past d d.
Proof. split; [by destruct d|apply rows_same]. Qed.
Lemma polled_trans past a b c : poll_change past a b -> poll_change past b c -> poll_change past a c.
Proof. intros [-> Hab] [-> Hbc]. split; [done|]. cbn [set_runs db_runs] in *. by eapply rows_trans. Qed.

Lemma synced_polled past seen o jid j d run d' : read_db past seen -> read_store past o -> synced (db_runs seen) o jid j d run d' -> poll_change past d d'.
Proof.
  intros Hseen Ho [Hn|run1 Hs _|run1 body res cols d1 Hs Hun _ Hb Hres out Hf]; [apply polled_same|apply polled_same|].
  destruct Hf as [->|[_ ->]]; [|apply polled_same]. apply run_of_job_in in Hs as [Hin Hjob]. split; [done|]. cbn [set_runs db_runs].
  unfold update_run. induction (db_runs d) as [|r l IH]; constructor; [|exact IH]. case_decide as Hid; [|reflexivity].
  apply rtc_once. apply (row_filled past r seen run1 body res cols); try done. exists o. by rewrite Hjob.
Qed.

Lemma get_polled past seen later o incident jid d r d' : read_db past later -> read_store past o ->
  get_analysis_run artifacts seen later o incident jid d = (r, d') -> poll_change past d d'.
Proof.
  intros Hl Ho. unfold get_analysis_run. intros [(e & He & _)|(run & d1 & Hs & Ha)]%bind_inv; [apply transaction_raise in He as ->; apply polled_same|].
  apply refreshed_same in Ha as ->. rewrite transaction_ok in Hs. destruct (decide _); [discriminate Hs|].
  destruct (st_jobs _ !! jid) as [j|]; [|discriminate Hs]. destruct (is_analysis_of incident j); [|discriminate Hs].
  apply sync_inv in Hs. by eapply synced_polled.
Qed.

Lemma list_polled past seen reads incident d r d' : (forall n, read_db past (fst (reads n)) /\ read_store past (snd (reads n))) ->
  list_analysis_runs artifacts seen reads incident d = (r, d') -> poll_change past d d'.
Proof.
  intros Hreads. unfold list_analysis_runs. destruct r as [out|e]; [|intros ->%transaction_raise; apply polled_same].
  rewrite transaction_ok. destruct (decide _); [done|].
  intros Hr. eapply (for_each_out_ind (poll_change past) (fun _ => True)) in Hr; [apply Hr| | | |done].
  - intros w _. apply polled_same.
  - apply polled_trans.
  - intros x a res b _ [(e & Hs & _)|(run & d1 & Hs & Ha)]%bind_inv; (split; [done|]); apply sync_inv in Hs; [subst b; apply polled_same|].
    apply show_same in Ha as ->. destruct (Hreads (fst x)). by eapply synced_polled.
Qed.
End transactions.

(** ** One request *)

Lemma demote_rows (R : analysis_run -> analysis_run -> Prop) visible incident l :
  (forall r, R r r) -> (forall r, R r (mk_run (ar_input r) (ar_output r) (ar_telemetry r) false)) -> Forall2 R l (demote visible incident l).
Proof.
  intros Hr Hd. unfold demote. rewrite <- (take_drop visible l) at 1. apply Forall2_app.
  - induction (take visible l) as [|r k IH]; constructor; [|done]. by case_decide.
  - induction (drop visible l); by constructor.
Qed.

Lemma demote_current visible incident i l : length (current_of i (demote visible incident l)) <= length (current_of i l).
Proof. apply current_incl. by apply demote_rows. Qed.

(** A request whose statements saw every row leaves no current run behind. *)
Lemma demote_all incident l : current_of incident (demote (length l) incident l) = [].
Proof.
  unfold demote, current_of. rewrite take_ge, drop_ge, app_nil_r by done.
  induction l as [|r l IH]; [done|]. cbn [map]. rewrite filter_cons. case_decide as Hd; [|exact IH].
  case_decide; naive_solver.
Qed.

(** The current runs the request did not see. *)
Lemma demote_unseen visible incident l : length (current_of incident (drop visible l)) <= length (current_of incident (demote visible incident l)).
Proof. unfold demote, current_of. rewrite filter_app, length_app. lia. Qed.

Lemma current_app i l r : length (current_of i (l ++ [r])) = length (current_of i l) + length (current_of i [r]).
Proof. unfold current_of. by rewrite filter_app, length_app. Qed.

Section requests.
Context `{UnicodeData} `{PyText} `{YamlLoader} `{MetaSchema} `{SchemaValidator}.
Context (ai_runtime : pystr) (uuid : nat -> pystr) (skills_dir : pystr -> skill_files) (fuel : nat).

(** The two ways a request is satisfied. *)
Definition served (visible : nat) (fr : fresh) (d : api_db) (run : analysis_run) (d' : api_db) : Prop :=
  exists source j, source ∈ take visible (db_runs d) /\ has_result source = true /\ ar_output run = ar_output source /\
    same_key (ar_input source) (ar_input run) /\ ri_used_cache (ar_input run) = true /\
    st_jobs (db_store d') = <[fr_job fr := j]> (st_jobs (db_store d)) /\ j_status j = COMPLETED /\ row_wf j /\
    st_outbox (db_store d') = st_outbox (db_store d).
Definition enqueued (fr : fresh) (d : api_db) (run : analysis_run) (d' : api_db) : Prop :=
  ar_output run = None /\ ri_used_cache (ar_input run) = false /\ exists j ev,
    st_jobs (db_store d') = <[fr_job fr := j]> (st_jobs (db_store d)) /\ j_status j = QUEUED /\ row_wf j /\
    st_outbox (db_store d') = st_outbox (db_store d) ++ [(fr_event fr, ev)] /\ oe_job_id ev = fr_job fr /\ pending ev = true.

Record requested (visible : nat) (incident : N) (fr : fresh) (d : api_db) (run : analysis_run) (d' : api_db) : Prop := {
  rq_evidence : exists eid e, log_evidence_of incident (db_evidence d) = Some (eid, e) /\ ri_evidence (ar_input run) = Some eid /\
    ri_input_manifest_sha256 (ar_input run) = e_sha256 e;
  rq_row : run_id run = fr_run fr /\ run_job run = fr_job fr /\ ri_incident (ar_input run) = incident /\ ar_current run = true;
  rq_runs : db_runs d' = demote visible incident (db_runs d) ++ [run];
  rq_details : is_Some (db_details d' !! fr_job fr);
  rq_one : length (current_of incident (db_runs d')) <= 1;
  rq_outcome : served visible fr d run d' \/ enqueued fr d run d';
}.

Lemma reusable_key sha sn execution source run :
  reusable sha None None (content_hash sn) (Some execution) (Some (sn_id sn)) source = true ->
  ri_skill_name (ar_input run) = SKILL_NAME -> ri_skill_hash (ar_input run) = content_hash sn ->
  ri_skill_execution_hash (ar_input run) = execution -> ri_skill_snapshot_id (ar_input run) = sn_id sn ->
  ri_cache_contract_version (ar_input run) = CACHE_CONTRACT_VERSION -> ri_input_manifest_sha256 (ar_input run) = sha ->
  has_result source = true /\ same_key (ar_input source) (ar_input run).
Proof.
  unfold reusable, opt_matches, same_key. rewrite !andb_true_iff, !bool_decide_eq_true. intros Hr. destruct_and! Hr.
  simplify_eq. intros. split; [done|]. split_and!; congruence.
Qed.

Lemma cached_in runs sha hash execution snapshot_id source :
  find_cached_analysis_run runs sha None None hash execution snapshot_id = Some source ->
  source ∈ runs /\ reusable sha None None hash execution snapshot_id source = true.
Proof. unfold find_cached_analysis_run. destruct sha; [done|]. intros (Hin & Hp & _)%oldest_Some. done. Qed.

(** The two branches, on the database [d] whose rows were demoted. *)
Lemma serve_cached_inv incident user eid e fr sn execution source d run d' :
  serve_cached incident user eid e fr sn execution source d = (Ok run, d') ->
  exists version schema_hash provenance j jd,
    run = run_row incident eid e fr sn version execution schema_hash provenance (ri_model (ar_input source)) (ri_effort (ar_input source)) (Some source) /\
    db_runs d' = db_runs d ++ [run] /\ st_jobs (db_store d') = <[fr_job fr := j]> (st_jobs (db_store d)) /\ j_status j = COMPLETED /\ row_wf j /\
    st_outbox (db_store d') = st_outbox (db_store d) /\ db_details d' = <[fr_job fr := jd]> (db_details d).
Proof.
  unfold serve_cached. intros [[_ (x & _ & [=])]|(provenance & _ & Hr)]%python_step.
  apply python_step in Hr as [[_ (x & _ & [=])]|(version & _ & Hr)].
  apply python_step in Hr as [[_ (x & _ & [=])]|(schema_hash & _ & Hr)].
  injection Hr as <- <-. eexists version, schema_hash, provenance, _, _. by split_and!.
Qed.

Lemma enqueue_analysis_inv incident user eid e fr sn execution d run d' :
  enqueue_analysis incident user eid e fr sn execution d = (Ok run, d') ->
  exists version schema_hash provenance j jd ev,
    run = run_row incident eid e fr sn version execution schema_hash provenance None None None /\
    db_runs d' = db_runs d ++ [run] /\ st_jobs (db_store d') = <[fr_job fr := j]> (st_jobs (db_store d)) /\ j_status j = QUEUED /\ row_wf j /\
    st_outbox (db_store d') = st_outbox (db_store d) ++ [(fr_event fr, ev)] /\ oe_job_id ev = fr_job fr /\ pending ev = true /\
    db_details d' = <[fr_job fr := jd]> (db_details d).
Proof.
  unfold enqueue_analysis. intros [[_ (x & _ & [=])]|(version & _ & Hr)]%python_step.
  apply python_step in Hr as [[_ (x & _ & [=])]|(policy & _ & Hr)]. apply get_st_inv in Hr.
  apply python_step in Hr as [[_ (x & _ & [=])]|(st & Hst & Hr)].
  apply bind_ok_inv in Hr as ([] & d1 & [= <-] & Hr).
  apply python_step in Hr as [[_ (x & _ & [=])]|(schema_hash & _ & Hr)].
  apply python_step in Hr as [[_ (x & _ & [=])]|(provenance & _ & Hr)].
  injection Hr as <- <-. unfold enqueue_job in Hst. destruct (build_job_message _) as [m|]; [|discriminate Hst]. apply Ok_inj in Hst as <-.
  eexists version, schema_hash, provenance, _, _, _. by split_and!.
Qed.

Lemma on_registry_inv {A} (m : M session pyexn A) (d d' : api_db) a : on_registry m d = (Ok a, d') ->
  exists s, d' = set_registry s d /\ m (db_registry d) = (Ok a, s).
Proof.
  unfold on_registry. destruct (m (db_registry d)) as [[x|e] s]; intros Hr; [|discriminate Hr].
  injection Hr as <- <-. by exists s.
Qed.

Lemma request_inv visible incident user fr d run d' :
  request_body ai_runtime uuid skills_dir fuel visible incident user fr d = (Ok run, d') -> requested visible incident fr d run d'.
Proof.
  unfold request_body. intros Hr. apply get_st_inv in Hr. destruct (decide _); [discriminate Hr|].
  destruct (log_evidence_of incident (db_evidence d)) as [[eid e]|] eqn:Hlog; [|discriminate Hr].
  apply lift_step in Hr as [[_ (x & _ & [=])]|([] & _ & Hr)].
  apply bind_ok_inv in Hr as (sn & d1 & (s & -> & _)%on_registry_inv & Hr). apply get_st_inv in Hr.
  apply python_step in Hr as [[_ (x & _ & [=])]|(execution & _ & Hr)].
  apply bind_ok_inv in Hr as ([] & d1 & [= <-] & Hr). apply bind_ok_inv in Hr as (run' & d1 & Hbranch & Hr).
  apply bind_ok_inv in Hr as ([] & d2 & Hcommit & [= -> ->]). unfold commit_current_analysis in Hcommit. apply get_st_inv in Hcommit.
  destruct (Nat.leb _ 1) eqn:Hone; [|discriminate Hcommit]. injection Hcommit as <-. apply Nat.leb_le in Hone.
  destruct (find_cached_analysis_run _ _ _ _ _ _ _) as [source|] eqn:Hc.
  - apply cached_in in Hc as [Hin Hre]. apply serve_cached_inv in Hbranch as (version & sh & prov & j & jd & -> & Hruns & Hjobs & Hj & Hwf & Hout & Hd).
    destruct (reusable_key _ _ _ _ (run_row incident eid e fr sn version execution sh prov (ri_model (ar_input source)) (ri_effort (ar_input source)) (Some source))
      Hre eq_refl eq_refl eq_refl eq_refl eq_refl eq_refl) as [Hsome Hkey].
    split; [by exists eid, e|by split_and!|exact Hruns|rewrite Hd, lookup_insert_eq; by eexists|exact Hone|].
    left. exists source, j. by split_and!.
  - apply enqueue_analysis_inv in Hbranch as (version & sh & prov & j & jd & ev & -> & Hruns & Hjobs & Hj & Hwf & Hout & Hev & Hp & Hd).
    split; [by exists eid, e|by split_and!|exact Hruns|rewrite Hd, lookup_insert_eq; by eexists|exact Hone|].
    right. split_and!; [done|done|]. exists j, ev. by split_and!.
Qed.

(** [request_analysis] commits what its body did, or nothing. *)
Lemma request_run visible incident user fr d r d' :
  request_analysis ai_runtime uuid skills_dir fuel visible incident user fr d = (r, d') ->
  match r with
  | Ok out => exists run, requested visible incident fr d run d' /\ answer (fr_job fr) (Some run) d' = (Ok out, d')
  | Raise _ => d' = d
  end.
Proof.
  unfold request_analysis. intros [(e & He & ->)|(run & d1 & Hb & Ha)]%bind_inv; [by apply transaction_raise in He|].
  apply transaction_ok, request_inv in Hb. pose proof (answer_same _ _ _ _ _ Ha) as ->.
  destruct r as [out|e]; [by exists run|]. exfalso. unfold answer in Ha. apply get_st_inv in Ha.
  assert (Hj : exists j, st_jobs (db_store d1) !! fr_job fr = Some j).
  { destruct (rq_outcome _ _ _ _ _ _ Hb) as [(? & j & _ & _ & _ & _ & _ & Hj & _)|(_ & _ & j & ? & Hj & _)]; exists j; by rewrite Hj, lookup_insert_eq. }
  destruct Hj as [j Hj]. destruct (rq_details _ _ _ _ _ _ Hb) as [jd Hd]. rewrite Hj, Hd in Ha. discriminate Ha.
Qed.

(** Fresh keys. *)
Definition fresh_for (fr : fresh) (d : api_db) : Prop := st_jobs (db_store d) !! fr_job fr = None /\ fr_run fr ∉ map run_id (db_runs d).
End requests.

(** ** All transactions *)

Section history.
Context `{UnicodeData} `{PyText} `{YamlLoader} `{MetaSchema} `{SchemaValidator} `{ByteText}.
Context {Store : Type} `{ArtifactStore Store}.
Context (ai_runtime artifacts : pystr) (uuid : nat -> pystr) (skills_dir : pystr -> skill_files) (fuel : nat).

#[local] Notation trail := (list (api_db * Store)) (only parsing).
#[local] Notation steps_of := (row_steps artifacts).
#[local] Notation body_of := (result_body artifacts).

(** One request, one poll or one listing, each on what some of its statements
    read earlier, or anything else: the workers, the other handlers and the
    object store.  Those never write a run; they remove a run with its
    incident, and a run that is left has its job. *)
Inductive api_step (past : trail) (d : api_db) (o : Store) : api_db * Store -> Prop :=
  | step_request visible incident user fr r d' : (forall x, read_db past x -> fresh_for fr x) ->
      request_analysis ai_runtime uuid skills_dir fuel visible incident user fr d = (r, d') -> api_step past d o (d', o)
  | step_get seen later store incident jid r d' : read_db past seen -> read_db past later -> read_store past store ->
      get_analysis_run artifacts seen later store incident jid d = (r, d') -> api_step past d o (d', o)
  | step_list seen reads incident r d' : read_db past seen -> (forall n, read_db past (fst (reads n)) /\ read_store past (snd (reads n))) ->
      list_analysis_runs artifacts seen reads incident d = (r, d') -> api_step past d o (d', o)
  | step_other d' o' : db_runs d' = List.filter (fun r => bool_decide (ri_incident (ar_input r) ∈ db_incidents d')) (db_runs d) ->
      (forall r, r ∈ db_runs d' -> is_Some (st_jobs (db_store d') !! run_job r)) -> api_step past d o (d', o').
Inductive reached : trail -> Prop :=
  | reached_start d o : db_runs d = [] -> reached [(d, o)]
  | reached_step past d o d' o' : reached ((d, o) :: past) -> api_step ((d, o) :: past) d o (d', o') -> reached ((d', o') :: (d, o) :: past).

(** *** What a step does to the table *)

Definition born (past : trail) (d : api_db) (r : analysis_run) : Prop :=
  (forall x r', read_db past x -> r' ∈ db_runs x -> run_id r' <> run_id r /\ run_job r' <> run_job r) /\
  if ri_used_cache (ar_input r)
  then exists source, source ∈ db_runs d /\ has_result source = true /\ ar_output r = ar_output source /\ same_key (ar_input source) (ar_input r)
  else ar_output r = None.

Record evolves (past : trail) (d d' : api_db) : Prop := {
  ev_rows : exists base kept new, db_runs d' = kept ++ new /\ Forall2 (steps_of past) base kept /\ sublist base (db_runs d) /\
    (forall r, r ∈ db_runs d -> r ∈ base \/ ri_incident (ar_input r) ∉ db_incidents d') /\ (new = [] \/ exists r, new = [r] /\ born past d r);
  ev_present : forall r, r ∈ db_runs d' -> is_Some (st_jobs (db_store d') !! run_job r);
  ev_current : forall i, length (current_of i (db_runs d')) <= 1;
}.

Lemma steps_row past r r' : steps_of past r r' ->
  ar_input r' = ar_input r /\ (is_Some (ar_output r) -> is_Some (ar_output r')) /\ (ar_current r' = true -> ar_current r = true).
Proof.
  induction 1 as [r|r r1 r' Hs _ (Hi & Ho & Hc)]; [done|]. destruct Hs as [|x loaded body res cols]; cbn in *.
  - split_and!; [done|done|by intros ?%Hc].
  - split_and!; [done|intros _; apply Ho; eauto|done].
Qed.
Lemma steps_inputs past l l' : Forall2 (steps_of past) l l' -> map ar_input l' = map ar_input l.
Proof. induction 1 as [|a b l l' (Hab & _)%steps_row Hl IH]; [done|]. cbn [map]. by rewrite IH, Hab. Qed.
Lemma steps_column {A} (f : run_input -> A) past l l' : Forall2 (steps_of past) l l' -> map (fun r => f (ar_input r)) l' = map (fun r => f (ar_input r)) l.
Proof. intros Hk%steps_inputs. by rewrite !map_input, Hk. Qed.
Lemma steps_current i past l l' : Forall2 (steps_of past) l l' -> length (current_of i l') <= length (current_of i l).
Proof. intros Hs. apply current_incl. eapply Forall2_impl; [exact Hs|]. intros x y (Hi & _ & Hc)%steps_row. by split. Qed.

Lemma born_column {A} (f : run_input -> A) past d base kept new o : (d, o) ∈ past -> NoDup (map (fun r => f (ar_input r)) (db_runs d)) ->
  sublist base (db_runs d) -> Forall2 (steps_of past) base kept ->
  (new = [] \/ exists r, new = [r] /\ forall r', r' ∈ db_runs d -> f (ar_input r') <> f (ar_input r)) ->
  NoDup (map (fun r => f (ar_input r)) (kept ++ new)).
Proof.
  intros Hd Hnd Hsub Hk Hnew. rewrite map_app. rewrite (steps_column f _ _ _ Hk).
  assert (Hb : NoDup (map (fun r => f (ar_input r)) base)) by (eapply sublist_NoDup; [exact Hnd|by apply sublist_map]).
  destruct Hnew as [->|(r & -> & Hf)]; [by rewrite app_nil_r|]. apply NoDup_app. split; [done|]. split; [|apply NoDup_singleton].
  intros x (r' & -> & Hr')%list_elem_of_fmap. cbn [map]. intros E%list_elem_of_singleton. apply (Hf r'); [|done].
  by eapply elem_of_submseteq; [|apply sublist_submseteq].
Qed.

Lemma evolves_ok past d o d' : (d, o) ∈ past -> runs_ok d -> evolves past d d' -> runs_ok d'.
Proof.
  intros Hd Hok [(base & kept & new & Hruns & Hk & Hsub & _ & Hnew) Hp Hc]. split; [| |done|done]; rewrite Hruns.
  - eapply (born_column ri_id); [exact Hd|apply Hok|exact Hsub|exact Hk|].
    destruct Hnew as [->|(r & -> & Hf & _)]; [by left|right]. exists r. split; [done|]. intros r' Hr'. by apply (Hf d r'); [exists o|].
  - eapply (born_column ri_job); [exact Hd|apply Hok|exact Hsub|exact Hk|].
    destruct Hnew as [->|(r & -> & Hf & _)]; [by left|right]. exists r. split; [done|]. intros r' Hr'. by apply (Hf d r'); [exists o|].
Qed.

(** Where a row comes from, and where it goes. *)
Lemma evolves_back past d d' r' : evolves past d d' -> r' ∈ db_runs d' -> (exists r, r ∈ db_runs d /\ steps_of past r r') \/ born past d r'.
Proof.
  intros [(base & kept & new & -> & Hk & Hsub & _ & Hnew) _ _] [[n Hr]%list_elem_of_lookup|Hr]%elem_of_app.
  - left. destruct (Forall2_lookup_r _ _ _ _ _ Hk Hr) as (r & Hr0 & Hs). exists r. split; [|done].
    eapply elem_of_submseteq; [by eapply list_elem_of_lookup_2|by apply sublist_submseteq].
  - right. destruct Hnew as [->|(r & -> & Hb)]; [by apply elem_of_nil in Hr|]. by apply list_elem_of_singleton in Hr as ->.
Qed.
Lemma evolves_on past d d' r : evolves past d d' -> r ∈ db_runs d ->
  ri_incident (ar_input r) ∉ db_incidents d' \/ exists r', r' ∈ db_runs d' /\ steps_of past r r'.
Proof.
  intros [(base & kept & new & Hruns & Hk & _ & Hall & _) _ _] Hr. destruct (Hall r Hr) as [[n Hb]%list_elem_of_lookup|Hg]; [right|by left].
  destruct (Forall2_lookup_l _ _ _ _ _ Hk Hb) as (r' & Hr' & Hs). exists r'. split; [|done]. rewrite Hruns. apply elem_of_app. left.
  by eapply list_elem_of_lookup_2.
Qed.

(** *** The steps evolve the table *)

Lemma polled_evolves past d d' : runs_ok d -> poll_change artifacts past d d' -> evolves past d d'.
Proof.
  intros Hok [Hd Hrows]. split.
  - exists (db_runs d), (db_runs d'), []. rewrite app_nil_r. split_and!; [done|done|done|by left|by left].
  - intros r' [n Hr']%list_elem_of_lookup. destruct (Forall2_lookup_r _ _ _ _ _ Hrows Hr') as (r & Hr & (Hi & _)%steps_row).
    rewrite Hd. cbn [db_store set_runs]. unfold run_job. rewrite Hi. apply (ok_present _ Hok). by eapply list_elem_of_lookup_2.
  - intros i. etrans; [by eapply steps_current|apply Hok].
Qed.

Lemma same_evolves past d : runs_ok d -> evolves past d d.
Proof. intros Hok. apply polled_evolves; [done|apply polled_same]. Qed.

Lemma requested_evolves past visible incident fr d o run d' : (d, o) ∈ past -> (forall x, read_db past x -> fresh_for fr x /\ runs_ok x) ->
  requested visible incident fr d run d' -> evolves past d d'.
Proof.
  intros Hd Hpast [_ (Hid & Hjob & Hinc & Hcur) Hruns _ Hone Hout]. destruct (Hpast d) as [[Hfj Hfr] Hok]; [by exists o|].
  assert (Hj : exists j, st_jobs (db_store d') = <[fr_job fr := j]> (st_jobs (db_store d)))
    by (destruct Hout as [(? & j & _ & _ & _ & _ & _ & Hj & _)|(_ & _ & j & ? & Hj & _)]; by exists j).
  destruct Hj as [j Hj].
  assert (Hk : Forall2 (steps_of past) (db_runs d) (demote visible incident (db_runs d))).
  { apply demote_rows; [reflexivity|]. intros r. apply rtc_once, row_demoted. }
  split.
  - exists (db_runs d), (demote visible incident (db_runs d)), [run]. split; [exact Hruns|]. split; [exact Hk|]. split; [done|]. split; [by left|].
    right. exists run. split; [done|]. split.
    + intros x r' Hx Hr'. destruct (Hpast x Hx) as [[Hxj Hxr] Hxok]. rewrite Hid, Hjob. split.
      * intros E. apply Hxr. rewrite <- E. by apply list_elem_of_fmap_2.
      * intros E. destruct (ok_present _ Hxok r' Hr') as [jr Hjr]. rewrite E, Hxj in Hjr. discriminate Hjr.
    + destruct Hout as [(source & jj & Hin & Hres & Heq & Hkey & Hu & _)|(Ho & Hu & _)]; rewrite Hu; [|done].
      exists source. split; [|done]. rewrite <- (take_drop visible (db_runs d)). apply elem_of_app. by left.
  - rewrite Hruns. intros r [[n Hr]%list_elem_of_lookup| ->%list_elem_of_singleton]%elem_of_app.
    + destruct (Forall2_lookup_r _ _ _ _ _ Hk Hr) as (r0 & Hr0 & (Hi & _)%steps_row). apply list_elem_of_lookup_2 in Hr0.
      destruct (ok_present _ Hok r0 Hr0) as [jr Hjr]. unfold run_job in *. rewrite Hi, Hj. destruct (decide (fr_job fr = ri_job (ar_input r0))) as [<-|Hne].
      * rewrite lookup_insert_eq. by eexists.
      * rewrite lookup_insert_ne by done. by eexists.
    + rewrite Hj, Hjob, lookup_insert_eq. by eexists.
  - intros i. destruct (decide (i = incident)) as [->|Hi]; [exact Hone|]. rewrite Hruns, current_app.
    assert (length (current_of i [run]) = 0) as -> by (unfold current_of; rewrite filter_cons, decide_False; [done|by rewrite Hinc; intros [? _]]).
    pose proof (demote_current visible incident i (db_runs d)) as Hdm. pose proof (ok_current _ Hok i). lia.
Qed.

Lemma filter_sublist {A} (p : A -> bool) l : sublist (List.filter p l) l.
Proof. induction l as [|x l IH]; [constructor|]. cbn [List.filter]. destruct (p x); by constructor. Qed.

Lemma other_evolves past d d' : runs_ok d -> db_runs d' = List.filter (fun r => bool_decide (ri_incident (ar_input r) ∈ db_incidents d')) (db_runs d) ->
  (forall r, r ∈ db_runs d' -> is_Some (st_jobs (db_store d') !! run_job r)) -> evolves past d d'.
Proof.
  intros Hok Hruns Hp. split; [|done|].
  - exists (db_runs d'), (db_runs d'), []. rewrite app_nil_r. split; [done|]. split; [apply rows_same|]. split; [rewrite Hruns; apply filter_sublist|].
    split; [|by left]. intros r Hr. destruct (decide (ri_incident (ar_input r) ∈ db_incidents d')) as [Hin|Hn]; [left|by right].
    rewrite Hruns. apply list_elem_of_In, filter_In. split; [by apply list_elem_of_In|]. by apply bool_decide_eq_true.
  - intros i. etrans; [|apply (ok_current _ Hok i)]. rewrite Hruns. unfold current_of. apply sublist_length.
    clear. induction (db_runs d) as [|r l IH]; [constructor|]. cbn [List.filter]. destruct (bool_decide _).
    + rewrite !filter_cons. case_decide; [by constructor|done].
    + rewrite (filter_cons _ r l). case_decide; [by constructor|done].
Qed.

(** *** What holds of all the states together *)

(** The result, its text and its hash were each read from the result object. *)
Definition reading_of (past : trail) (jid : N) (out : run_output) : Prop :=
  (exists body, body_of past jid body /\ loads_bytes body = Ok (ro_result out)) /\
  (exists body, body_of past jid body /\ decode_replace body = ro_text out) /\
  (exists body, body_of past jid body /\ sha256_of_bytes body = ro_sha256 out).
(** The run whose analysis a cached run shows: an executed one, for the same
    evidence bytes under the same skill and policy. *)
Definition executed_as (past : trail) (r : analysis_run) (out : run_output) : Prop :=
  exists x s, read_db past x /\ s ∈ db_runs x /\ ri_used_cache (ar_input s) = false /\ ar_output s = Some out /\ same_key (ar_input s) (ar_input r).

Record past_ok (past : trail) : Prop := {
  po_runs : forall x, read_db past x -> runs_ok x;
  po_ids : forall x y r r', read_db past x -> read_db past y -> r ∈ db_runs x -> r' ∈ db_runs y -> run_id r = run_id r' -> ar_input r = ar_input r';
  po_cached : forall x r, read_db past x -> r ∈ db_runs x -> ri_used_cache (ar_input r) = true -> has_result r = true;
  po_output : forall x r out, read_db past x -> r ∈ db_runs x -> ar_output r = Some out ->
    if ri_used_cache (ar_input r) then executed_as past r out else reading_of past (run_job r) out;
}.

(** A run served from the cache is never written again. *)
Lemma steps_cached past r r' : past_ok past -> (exists x r0, read_db past x /\ r0 ∈ db_runs x /\ ar_input r0 = ar_input r) ->
  ri_used_cache (ar_input r) = true -> steps_of past r r' -> ar_output r' = ar_output r.
Proof.
  intros Hok Hr Hu Hs. induction Hs as [r|r r1 r' Hs _ IH]; [done|].
  assert (ar_output r1 = ar_output r /\ ar_input r1 = ar_input r) as [Eo Ei]; [|rewrite IH, Eo; [done|by rewrite Ei|by rewrite Ei]].
  destruct Hs as [|d loaded body res cols Hd Hin Hid Hno]; [done|]. exfalso. destruct Hr as (x & r0 & Hx & Hr0 & E).
  pose proof (po_ids _ Hok d x loaded r0 Hd Hx Hin Hr0) as Hinput. unfold run_id in Hinput, Hid. rewrite E in Hinput. specialize (Hinput Hid).
  rewrite (po_cached _ Hok d loaded Hd Hin) in Hno; [discriminate Hno|]. by rewrite Hinput.
Qed.

Lemma steps_reading past r r' : past_ok past -> (exists x r0, read_db past x /\ r0 ∈ db_runs x /\ ar_input r0 = ar_input r) ->
  (forall out, ar_output r = Some out -> reading_of past (run_job r) out) -> steps_of past r r' ->
  forall out, ar_output r' = Some out -> reading_of past (run_job r) out.
Proof.
  intros Hok Hr Ho Hs. induction Hs as [r|r r1 r' Hs _ IH]; [done|].
  assert (E : ar_input r1 = ar_input r) by (by destruct Hs). unfold run_job in *. rewrite E in IH. apply IH; [exact Hr|].
  clear IH. destruct Hs as [|d loaded body res cols Hd Hin Hid Hno Hb Hres]; [exact Ho|]. cbn [ar_output write_row]. intros out [= <-].
  destruct Hr as (x & r0 & Hx & Hr0 & Er). pose proof (po_ids _ Hok d x loaded r0 Hd Hx Hin Hr0) as Hinput. unfold run_id in Hinput, Hid.
  rewrite Er in Hinput. specialize (Hinput Hid). unfold run_job in Hb. rewrite Hinput in Hb. unfold reading_of, write_output, write_text. cbn [ro_result ro_text ro_sha256].
  destruct (ar_output r) as [o|].
  - destruct (Ho o eq_refl) as (H1o & H2o & H3o). cbn [fmap option_fmap option_map default]. split_and!; [case_decide|destruct (changed_text _ _ _)|destruct (changed_text _ _ _)]; eauto.
  - cbn [fmap option_fmap option_map default]. split_and!; [case_decide as Hn; [rewrite Hn in Hres|]|destruct (changed_text _ _ _)|destruct (changed_text _ _ _)]; eauto.
Qed.

Lemma past_grows past z : (forall x, read_db past x -> read_db (z :: past) x) /\ (forall jid b, body_of past jid b -> body_of (z :: past) jid b).
Proof.
  split; [intros x [o Ho]; exists o; by right|]. intros jid b (o & [x Hx] & Hb). exists o. split; [exists x; by right|done].
Qed.
Lemma reading_grows past z jid out : reading_of past jid out -> reading_of (z :: past) jid out.
Proof. destruct (past_grows past z) as [_ Hb]. intros ((b1 & ? & ?) & (b2 & ? & ?) & (b3 & ? & ?)). split_and!; eauto. Qed.
Lemma executed_grows past z r out : executed_as past r out -> executed_as (z :: past) r out.
Proof. destruct (past_grows past z) as [Hd _]. intros (x & s & Hx & Hs). exists x, s. split; [auto|done]. Qed.

Lemma has_result_some r out : ar_output r = Some out -> has_result r = negb (bool_decide (ro_result out = JNull)).
Proof. unfold has_result. by intros ->. Qed.

Lemma past_ok_step past d o d' o' : (d, o) ∈ past -> past_ok past -> evolves past d d' -> past_ok ((d', o') :: past).
Proof.
  intros Hd Hok Hev. assert (Hrd : read_db past d) by (by exists o).
  assert (Hnew : forall x, read_db ((d', o') :: past) x -> x = d' \/ read_db past x).
  { intros x [s [[= -> ->]|Hx]%elem_of_cons]; [by left|right; by exists s]. }
  assert (Hold : forall r', r' ∈ db_runs d' -> (exists r, r ∈ db_runs d /\ steps_of past r r' /\ ar_input r' = ar_input r) \/ born past d r').
  { intros r' Hr'. destruct (evolves_back _ _ _ _ Hev Hr') as [(r & Hr & Hs)|]; [left; exists r|by right]. split_and!; [done|done|by apply steps_row in Hs as []]. }
  assert (Hcase : forall x r, read_db ((d', o') :: past) x -> r ∈ db_runs x ->
    (exists y r0, read_db past y /\ r0 ∈ db_runs y /\ ar_input r0 = ar_input r) \/ (x = d' /\ born past d r)).
  { intros x r [->|Hx]%Hnew Hr; [|left; by exists x, r]. destruct (Hold r Hr) as [(r0 & Hr0 & _ & E)|Hb]; [left; by exists d, r0|by right]. }
  split.
  - intros x [->|Hx]%Hnew; [|by apply Hok]. eapply evolves_ok; [exact Hd|by apply Hok|exact Hev].
  - intros x y r r' Hx Hy Hr Hr' E. destruct (Hcase x r Hx Hr) as [(x0 & r0 & Hx0 & Hr0 & E0)|[-> [Hf _]]], (Hcase y r' Hy Hr') as [(y0 & r1 & Hy0 & Hr1 & E1)|[-> [Hf' _]]].
    + rewrite <- E0, <- E1. eapply (po_ids _ Hok x0 y0); try done. unfold run_id. by rewrite E0, E1.
    + exfalso. destruct (Hf' x0 r0 Hx0 Hr0) as [Hne _]. apply Hne. unfold run_id in *. by rewrite E0.
    + exfalso. destruct (Hf y0 r1 Hy0 Hr1) as [Hne _]. apply Hne. unfold run_id in *. by rewrite E1.
    + assert (Hnd : runs_ok d') by (eapply evolves_ok; [exact Hd|by apply Hok|exact Hev]).
      by rewrite (list_key_unique run_id (db_runs d') r r' (ok_ids _ Hnd) Hr Hr' E).
  - intros x r [->|Hx]%Hnew Hr Hu; [|by eapply Hok]. destruct (Hold r Hr) as [(r0 & Hr0 & Hs & E)|[_ Hb]].
    + rewrite E in Hu. unfold has_result. rewrite (steps_cached past r0 r Hok); [by eapply (po_cached _ Hok d)|by exists d, r0|done|done].
    + rewrite Hu in Hb. destruct Hb as (source & _ & Hres & Ho & _). unfold has_result in *. by rewrite Ho.
  - intros x r out [->|Hx]%Hnew Hr Ho.
    + destruct (Hold r Hr) as [(r0 & Hr0 & Hs & E)|[_ Hb]].
      * destruct (ri_used_cache (ar_input r)) eqn:Hu; unfold run_job; rewrite E in *.
        -- apply executed_grows. pose proof (steps_cached past r0 r Hok ltac:(by exists d, r0) Hu Hs) as Eo. rewrite Eo in Ho.
           pose proof (po_output _ Hok d r0 out Hrd Hr0 Ho) as Hx. rewrite Hu in Hx. destruct Hx as (y & s & Hy & Hin & Hns & Hos & Hk).
           exists y, s. by rewrite E.
        -- apply reading_grows. eapply (steps_reading past r0 r); [done|by exists d, r0| |done|done]. intros out0 Ho0.
           pose proof (po_output _ Hok d r0 out0 Hrd Hr0 Ho0) as Hx. by rewrite Hu in Hx.
      * destruct (ri_used_cache (ar_input r)) eqn:Hu; [|congruence]. destruct Hb as (source & Hsrc & Hres & Eo & Hk). rewrite Eo in Ho.
        apply executed_grows. pose proof (po_output _ Hok d source out Hrd Hsrc Ho) as Hx. destruct (ri_used_cache (ar_input source)) eqn:Hsu.
        -- destruct Hx as (y & s & Hy & Hin & Hns & Hos & Hks). exists y, s. split_and!; try done. unfold same_key in *. destruct_and!. split_and!; congruence.
        -- by exists d, source.
    + pose proof (po_output _ Hok x r out Hx Hr Ho) as Hp. destruct (ri_used_cache (ar_input r)); [by apply executed_grows|by apply reading_grows].
Qed.

Lemma step_evolves past d o w : past_ok past -> (d, o) ∈ past -> api_step past d o w -> evolves past d (fst w).
Proof.
  intros Hok Hd Hstep. assert (Hokd : runs_ok d) by (apply Hok; by exists o).
  destruct Hstep as [visible incident user fr r d' Hf Hr|seen later store incident jid r d' _ Hl Hs Hr|seen reads incident r d' _ Hreads Hr|d' o' Hruns Hp]; cbn [fst].
  - apply request_run in Hr. destruct r as [out|e]; [|subst; by apply same_evolves]. destruct Hr as (run & Hr & _).
    eapply requested_evolves; [exact Hd| |exact Hr]. intros x Hx. split; [by apply Hf|by apply Hok].
  - apply polled_evolves; [done|]. by eapply get_polled.
  - apply polled_evolves; [done|]. by eapply list_polled.
  - by apply other_evolves.
Qed.

Lemma reached_ok past : reached past -> past_ok past.
Proof.
  induction 1 as [d o Hnil|past d o d' o' Hr IH Hs].
  - assert (Hx : forall x, read_db [(d, o)] x -> db_runs x = []) by (by intros x [s [= -> ->]%list_elem_of_singleton]).
    assert (Hno : forall x r, read_db [(d, o)] x -> r ∉ db_runs x) by (intros x r Hd Hr; rewrite (Hx x Hd) in Hr; by apply elem_of_nil in Hr).
    split; [|by intros x y r r' Hd _ Hr%(Hno x r Hd)|by intros x r Hd Hr%(Hno x r Hd)|by intros x r out Hd Hr%(Hno x r Hd)].
    intros x Hd. split; rewrite ?(Hx x Hd); [constructor|constructor|by intros r Hr%elem_of_nil|intros i; cbn; lia].
  - eapply past_ok_step; [by left|exact IH|]. eapply (step_evolves _ d o (d', o')); [done|by left|done].
Qed.

Lemma steps_grow past z r r' : steps_of past r r' -> steps_of (z :: past) r r'.
Proof.
  destruct (past_grows past z) as [Hd Hb]. apply rtc_subrel. intros x y [|d loaded body res cols ? ? ? ? ? ?]; [apply row_demoted|].
  eapply row_filled; eauto.
Qed.

(** A run stays until its incident is deleted. *)
Lemma reached_since past : reached past -> forall d o newer x older r, past = (d, o) :: newer ++ x :: older -> r ∈ db_runs (fst x) ->
  (exists z, z ∈ (d, o) :: newer /\ ri_incident (ar_input r) ∉ db_incidents (fst z)) \/ exists r', r' ∈ db_runs d /\ steps_of past r r'.
Proof.
  induction 1 as [d o Hnil|past d o d' o' Hr IH Hs]; intros d1 o1 newer x older r E Hin; [by destruct newer|].
  injection E as <- <- E. pose proof (step_evolves _ _ _ _ (reached_ok _ Hr) (list_elem_of_here _ _) Hs) as Hev. cbn [fst] in Hev.
  destruct newer as [|z newer]; cbn [app] in E.
  - injection E as <- <-. cbn [fst] in Hin. destruct (evolves_on _ _ _ _ Hev Hin) as [Hg|(r' & Hr' & Hst)].
    + left. exists (d', o'). split; [by left|done].
    + right. exists r'. split; [done|by apply steps_grow].
  - injection E as <- E. destruct (IH d o newer x older r ltac:(by rewrite E) Hin) as [(z & Hz & Hg)|(r1 & Hr1 & Hst)].
    + left. exists z. split; [by right|done].
    + destruct (evolves_on _ _ _ _ Hev Hr1) as [Hg|(r' & Hr' & Hst')].
      * left. exists (d', o'). split; [by left|]. apply steps_row in Hst as [Hi _]. by rewrite <- Hi.
      * right. exists r'. split; [done|]. etrans; by apply steps_grow.
Qed.

(** Two readings differ only if the object did. *)
Lemma reading_unique past jid o1 o2 : reading_of past jid o1 -> reading_of past jid o2 ->
  o1 = o2 \/ exists b1 b2, body_of past jid b1 /\ body_of past jid b2 /\ b1 <> b2.
Proof.
  intros ((b1 & B1 & L1) & (b2 & B2 & L2) & (b3 & B3 & L3)) ((c1 & C1 & M1) & (c2 & C2 & M2) & (c3 & C3 & M3)).
  destruct (decide (b1 = c1)) as [->|Hne]; [|right; by exists b1, c1]. destruct (decide (b2 = c2)) as [->|Hne]; [|right; by exists b2, c2].
  destruct (decide (b3 = c3)) as [->|Hne]; [|right; by exists b3, c3]. left. destruct o1, o2. cbn [ro_result ro_text ro_sha256] in *.
  f_equal; congruence.
Qed.

(** C7. Whatever requests, polls (each of which may write on the strength of
    rows it read earlier), worker steps, deletions of incidents and object
    store changes interleave: ids and jobs of runs are distinct and an incident
    has at most one current run; what an executed run shows was read from its
    job's result object; a run served from the cache shows the result of a run
    that was really executed, for the same evidence bytes under the same skill
    content, dependencies and policy; and a run stays with its input until its
    incident is deleted, its result once set never replaced unless the stored
    result object of its job was. *)
Theorem analysis_history past d o : reached ((d, o) :: past) ->
  runs_ok d /\
  (forall r out, r ∈ db_runs d -> ar_output r = Some out ->
     if ri_used_cache (ar_input r) then executed_as ((d, o) :: past) r out else reading_of ((d, o) :: past) (run_job r) out) /\
  (forall newer x older r, past = newer ++ x :: older -> r ∈ db_runs (fst x) ->
     (exists z, z ∈ (d, o) :: newer /\ ri_incident (ar_input r) ∉ db_incidents (fst z)) \/
     exists r', r' ∈ db_runs d /\ ar_input r' = ar_input r /\ forall out, ar_output r = Some out ->
       ar_output r' = Some out \/
       exists b b', body_of ((d, o) :: past) (run_job r) b /\ body_of ((d, o) :: past) (run_job r) b' /\ b <> b').
Proof.
  intros Hr. pose proof (reached_ok _ Hr) as Hok. assert (Hd : read_db ((d, o) :: past) d) by (exists o; by left).
  split; [by apply Hok|]. split; [intros r out Hin Ho; by apply (po_output _ Hok d r out)|].
  intros newer x older r -> Hin. destruct (reached_since _ Hr d o newer x older r eq_refl Hin) as [Hg|(r' & Hr' & Hs)]; [by left|right].
  exists r'. split; [done|]. pose proof (steps_row _ _ _ Hs) as (Hi & Hsome & _). split; [done|]. intros out Ho.
  assert (Hx : read_db ((d, o) :: newer ++ x :: older) (fst x)).
  { exists (snd x). apply elem_of_cons. right. apply elem_of_app. right. destruct x. by left. }
  destruct (Hsome ltac:(by eexists)) as [out' Ho']. pose proof (po_output _ Hok _ r out Hx Hin Ho) as H1r. pose proof (po_output _ Hok d r' out' Hd Hr' Ho') as H2r.
  rewrite Hi in H2r. destruct (ri_used_cache (ar_input r)) eqn:Hu.
  - left. by rewrite (steps_cached _ r r' Hok ltac:(by exists (fst x), r) Hu Hs).
  - unfold run_job in H2r. rewrite Hi in H2r. destruct (reading_unique _ _ _ _ H1r H2r) as [->|Hne]; [by left|by right].
Qed.

(** C9. A request either changes nothing or leaves one durable unit of work:
    a new current run on the newest active log, which is the incident's only
    current run, and its job, which is either completed with the result of an
    earlier run on the same input and no message, or queued with exactly one
    pending message; it is refused when another request's run became current
    unseen. *)
Theorem request_analysis_outcome visible incident user fr d r d' :
  request_analysis ai_runtime uuid skills_dir fuel visible incident user fr d = (r, d') ->
  match r with
  | Ok out => exists run, requested visible incident fr d run d' /\ current_of incident (db_runs d') = [run] /\
      current_of incident (drop visible (db_runs d)) = [] /\
      assoc (u "result") out = Some (OutJson (default JNull (ro_result <$> ar_output run)))
  | Raise _ => d' = d
  end.
Proof.
  intros Hr%request_run. destruct r as [out|e]; [|done]. destruct Hr as (run & Hr & Ha). exists run. split; [done|].
  destruct Hr as [_ (_ & _ & Hi & Hc) Hruns _ Hone _].
  assert (Hrun : current_of incident [run] = [run]) by (unfold current_of; by rewrite filter_cons, decide_True).
  assert (Hsplit : current_of incident (db_runs d') = current_of incident (demote visible incident (db_runs d)) ++ [run]).
  { rewrite Hruns. unfold current_of in *. by rewrite filter_app, Hrun. }
  rewrite Hsplit, length_app in Hone. simpl in Hone. pose proof (demote_unseen visible incident (db_runs d)) as Hu.
  split_and!.
  - rewrite Hsplit. by destruct (current_of _ (demote _ _ _)); [|simpl in Hone; lia].
  - apply length_zero_iff_nil. lia.
  - unfold answer in Ha. apply get_st_inv in Ha. repeat case_match; simplify_eq. injection Ha as <-. reflexivity.
Qed.
End history.

(** ** From the worker to the reader *)

Section reader.
Context `{UnicodeData} `{PyText} `{YamlLoader} `{MetaSchema} `{SchemaValidator} `{ByteText} `{Validation.JsonSchema}.
Context {Store : Type} `{ArtifactStore Store}.
Context (cfg : triage_settings) (db : tables) (model_ms preprocessing_ms : Z).

(** The run after the poll shows [output] as the worker stored it. *)
Definition shows (jid : N) (output : json) (bytes : list Z) (d : api_db) (out : list (pystr * out_value)) : Prop :=
  exists run o, run_of_job jid (db_runs d) = Some run /\ ar_output run = Some o /\ loads_bytes bytes = Ok (ro_result o) /\
    ro_text o = decode_replace bytes /\ ro_sha256 o = hexdigest bytes /\ assoc (u "result") out = Some (OutJson (ro_result o)).

Lemma update_run_of_job l run f jid : run_of_job jid l = Some run -> (forall r, ar_input (f r) = ar_input r) ->
  run_of_job jid (update_run (run_id run) f l) = Some (f run).
Proof.
  unfold run_of_job, update_run. intros Hf Hi. induction l as [|r l IH]; [done|]. cbn [map find_first] in *.
  case_bool_decide as Hr.
  - injection Hf as ->. rewrite decide_True by done. by rewrite Hi, bool_decide_eq_true_2.
  - case_decide as Hd; rewrite ?Hi, bool_decide_eq_false_2 by done; by apply IH.
Qed.

Lemma run_by_id l run : NoDup (map run_id l) -> run ∈ l -> find_first (fun x => bool_decide (ri_id (ar_input x) = ri_id (ar_input run))) l = Some run.
Proof.
  intros Hnd Hin. destruct (find_first _ l) as [x|] eqn:E.
  - apply find_first_Some in E as [Hx Hid%bool_decide_eq_true]. by rewrite (list_key_unique run_id l x run Hnd Hx Hin Hid).
  - pose proof (proj1 (find_first_None _ _) E run Hin) as Hn. cbv beta in Hn. by rewrite bool_decide_eq_true_2 in Hn.
Qed.

(** A run without an output takes the whole one. *)
Lemma write_output_first run out : ar_output run = None -> write_output run out run = out /\ forall cols, nothing_changed run out cols = false.
Proof.
  intros Ho. unfold write_output, write_text, nothing_changed, changed_text. rewrite Ho. cbn [fmap option_fmap option_map default].
  rewrite !bool_decide_eq_false_2 by done. cbn [negb]. split; [destruct out as [res text sha]; cbn; by case_decide; subst|].
  intros cols. by rewrite andb_false_r.
Qed.

(** A checked output is an object, so its bytes are never those of [null]. *)
Lemma object_bytes output bytes : is_obj output = true -> compact_bytes output = Ok bytes -> exists r, bytes = 123%Z :: r.
Proof.
  destruct output; try done. intros _. unfold compact_bytes, dumps_compact, py_encode. cbn [dumps_raw].
  destruct (forallb _ _); [|done]. intros [= <-]. by eexists.
Qed.

Lemma get_inv seen later o incident jid d out d' : get_analysis_run (ts_artifacts cfg) seen later o incident jid d = (Ok out, d') ->
  exists j run, st_jobs (db_store seen) !! jid = Some j /\ synced (ts_artifacts cfg) (db_runs later) o jid j d run d' /\
    answer_refreshed jid run d' = (Ok out, d').
Proof.
  unfold get_analysis_run. intros (run & d1 & Hs & Ha)%bind_ok_inv. pose proof (refreshed_same _ _ _ _ _ Ha) as ->. rewrite transaction_ok in Hs.
  destruct (decide _); [discriminate Hs|]. destruct (st_jobs _ !! jid) as [j|]; [|discriminate Hs].
  destruct (is_analysis_of incident j); [|discriminate Hs]. apply sync_inv in Hs. by exists j, run.
Qed.

(** The answer shows the row. *)
Lemma refreshed_result jid run d out : NoDup (map run_id (db_runs d)) -> run ∈ db_runs d -> answer_refreshed jid (Some run) d = (Ok out, d) ->
  assoc (u "result") out = Some (OutJson (default JNull (ro_result <$> ar_output run))).
Proof.
  intros Hnd Hin Ha. unfold answer_refreshed in Ha. apply get_st_inv in Ha. rewrite (run_by_id _ _ Hnd Hin) in Ha.
  unfold answer in Ha. apply get_st_inv in Ha. repeat case_match; simplify_eq. injection Ha as <-. reflexivity.
Qed.
Lemma refreshed_input jid r r' d : ar_input r = ar_input r' -> answer_refreshed jid (Some r) d = answer_refreshed jid (Some r') d.
Proof. intros E. unfold answer_refreshed. by rewrite E. Qed.

(** C8. The checked result reaches the reader unchanged: once a triage job
    has run and is marked completed, the first poll that answers shows the
    output the worker checked, as the bytes it stored, with their hash; the
    result is filled once and every later poll shows the same. *)
Theorem checked_output_reaches_reader message (w w' : triage_world Store) output telemetry incident jid d out d' run :
  process_log_triage_message cfg db model_ms preprocessing_ms message w = (Ok (output, telemetry), w') ->
  jget (u "job_id") message = Some (JStr (uuid_str jid)) -> NoDup (map run_id (db_runs d)) ->
  run_of_job jid (db_runs d) = Some run -> ar_output run = None ->
  (exists j, st_jobs (db_store d) !! jid = Some j /\ j_status j = COMPLETED) ->
  get_analysis_run (ts_artifacts cfg) d d (tw_store w') incident jid d = (Ok out, d') ->
  exists bytes, compact_bytes output = Ok bytes /\ shows jid output bytes d' out /\
    forall store out' d'', get_analysis_run (ts_artifacts cfg) d' d' store incident jid d' = (Ok out', d'') ->
      d'' = d' /\ assoc (u "result") out' = assoc (u "result") out.
Proof.
  intros Hrun Hid Hnd Hr Ho (j & Hj & Hdone) (j' & run1 & Hj' & Hs & Ha)%get_inv. assert (j' = j) as -> by congruence.
  apply triage_run in Hrun as (st & schema_text & schema & job_id & bytes & _ & _ & _ & Hjob & (_ & _ & Htotal & _) & Hbytes & Hstore & _).
  assert (job_id = uuid_str jid) as -> by congruence. exists bytes. split; [exact Hbytes|].
  assert (Hun : has_result run = false) by (unfold has_result; by rewrite Ho).
  destruct Hs as [Hn|run2 Hr2 Hwhy|run2 body res cols d1 Hr2 _ _ Hb Hres o Hf]; [congruence| |].
  { assert (run2 = run) as -> by congruence. destruct Hwhy as [?|[?|[e He]]]; congruence. }
  assert (run2 = run) as -> by congruence. assert (body = bytes) as -> by congruence. destruct (write_output_first run o Ho) as [Hw Hch].
  destruct Hf as [->|[Hf _]]; [|by rewrite Hch in Hf]. set (d1 := set_runs _ d) in *.
  set (filled := write_row run o cols run). assert (Hr1 : run_of_job jid (db_runs d1) = Some filled) by (by apply (update_run_of_job _ _ (write_row run o cols))).
  assert (Hout : ar_output filled = Some o) by (cbn; by rewrite Hw). pose proof (run_of_job_in _ _ _ Hr1) as [Hin _].
  assert (Hnd1 : NoDup (map run_id (db_runs d1))).
  { cbn [d1 db_runs set_runs]. unfold update_run. rewrite map_map. erewrite map_ext; [exact Hnd|]. intros x. by case_decide. }
  assert (Hfull : has_result filled = true).
  { rewrite (has_result_some _ _ Hout). assert (is_obj output = true) as Hobj by (by destruct output).
    destruct (object_bytes _ _ Hobj Hbytes) as [r ->]. apply loads_brace in Hres. apply negb_true_iff, bool_decide_eq_false. cbn [o ro_result].
    by intros ->. }
  rewrite (refreshed_input _ _ filled) in Ha by done. pose proof (refreshed_result _ _ _ _ Hnd1 Hin Ha) as Hshow. rewrite Hout in Hshow. split.
  - exists filled, o. by split_and!.
  - intros store out' d2 (j2 & run3 & _ & Hs & Ha')%get_inv.
    destruct Hs as [Hn|run4 Hr4 _|run4 ? ? ? ? Hr4 Hun4 _ _ _ ? _]; [congruence| |]; (assert (run4 = filled) as -> by congruence); [|congruence].
    split; [done|]. rewrite (refreshed_result _ _ _ _ Hnd1 Hin Ha'), Hout. by rewrite Hshow.
Qed.
End reader.

(** ** Witnesses *)

Definition sample_bytes : ByteText := {| loads_other _ := Raise Hermes.decode_error; replace_invalid _ := []; loads_other_brace _ _ H := match H with end |}.
Definition sample_log_row : N * Evidence.evidence :=
  (5%N, mk_evidence (Some 1%N) (u "LOG") (u "evidence") (u "log") (u "a.log") None 0 (u "abc") None 3%N (Some 1%Z) ACTIVE None).
Definition empty_db : api_db := mk_db {[1%N]} [sample_log_row] empty_registry (mk_store empty []) empty [] [].

Definition sample_request (job run event : N) (now : Z) : M api_db api_exn (list (pystr * out_value)) :=
  @request_analysis cjk_unicode no_text json_yaml any_schema draft7 (u "hermes") sample_uuid (sample_checkout (u "# skill")) 4
    8 1 3 (mk_fresh job run event (u "corr") now).
Definition sample_poll (o : simple_objects) (job : N) : M api_db api_exn (list (pystr * out_value)) :=
  fun d => @get_analysis_run sample_bytes simple_objects simple_artifacts (u "artifacts") d d o 1 job d.
Definition sample_reached := @reached cjk_unicode no_text json_yaml any_schema draft7 sample_bytes simple_objects simple_artifacts
  (u "hermes") (u "artifacts") sample_uuid (sample_checkout (u "# skill")) 4.

Definition complete_job (jid : N) (d : api_db) : api_db :=
  set_jobs (mk_store (alter (fun j => mk_job (j_type j) (j_incident_id j) COMPLETED (j_attempt j) (j_error_code j) (j_error_message j)
    (j_queued_at j) (j_started_at j) (Some 9%Z) None None None None) jid (st_jobs (db_store d))) (st_outbox (db_store d))) (db_details d) d.

(** A request, its completion by a worker, a poll, and a second request. *)
Definition asked : api_db := snd (sample_request 77 7 70 2 empty_db).
Definition stored_result : simple_objects := [((u "artifacts", result_key (uuid_str 77)), utf8_encode (u "{" ++ [34%Z; 97%Z; 34%Z] ++ u ":1}"))].
Definition polled : api_db := snd (sample_poll stored_result 77 (complete_job 77 asked)).
Definition asked_again : api_db := snd (sample_request 78 8 71 3 polled).

Definition sample_trail : list (api_db * simple_objects) :=
  [(asked_again, stored_result); (polled, stored_result); (complete_job 77 asked, stored_result); (asked, []); (empty_db, [])].

Lemma past_cases (P : api_db -> Prop) (l : list (api_db * simple_objects)) : Forall (fun x => P (fst x)) l -> forall x, read_db l x -> P x.
Proof. intros Hl x [o Hx]. by apply (proj1 (Forall_forall _ _) Hl (x, o)). Qed.

Lemma asked_again_reached : sample_reached sample_trail.
Proof.
  unfold sample_reached, sample_trail. eapply reached_step; [eapply reached_step; [eapply reached_step; [eapply reached_step; [by apply reached_start|]|]|]|].
  - eapply step_request with (visible := 8) (incident := 1%N) (user := 3%N) (fr := mk_fresh 77 7 70 (u "corr") 2); [|exact (surjective_pairing (sample_request 77 7 70 2 empty_db))].
    apply past_cases. repeat constructor; apply (bool_decide_unpack _); vm_compute; exact I.
  - apply step_other; [vm_compute; reflexivity|]. apply Forall_forall. vm_compute. repeat constructor; eauto.
  - eapply step_get with (seen := complete_job 77 asked) (later := complete_job 77 asked) (store := stored_result) (incident := 1%N) (jid := 77%N);
      [by exists stored_result; left|by exists stored_result; left|by exists (complete_job 77 asked); left|].
    exact (surjective_pairing (sample_poll stored_result 77 (complete_job 77 asked))).
  - eapply step_request with (visible := 8) (incident := 1%N) (user := 3%N) (fr := mk_fresh 78 8 71 (u "corr") 3); [|exact (surjective_pairing (sample_request 78 8 71 3 polled))].
    apply past_cases. repeat constructor; apply (bool_decide_unpack _); vm_compute; exact I.
Qed.

Example asked_again_runs : map (fun r => (run_id r, ar_current r, ri_used_cache (ar_input r), ro_result <$> ar_output r)) (db_runs asked_again) =
  [(7%N, false, false, Some (JObj [(u "a", JInt 1)])); (8%N, true, true, Some (JObj [(u "a", JInt 1)]))].
Proof. vm_compute. reflexivity. Qed.

Lemma analysis_history_witness : length (db_runs asked_again) = 2 /\ runs_ok asked_again.
Proof.
  split; [vm_compute; reflexivity|].
  exact (proj1 (@analysis_history cjk_unicode no_text json_yaml any_schema draft7 sample_bytes simple_objects simple_artifacts
    (u "hermes") (u "artifacts") sample_uuid (sample_checkout (u "# skill")) 4 (tail sample_trail) asked_again stored_result asked_again_reached)).
Defined.

Lemma request_analysis_outcome_witness : is_ok (fst (sample_request 77 7 70 2 empty_db)) = true /\
  exists run, requested 8 1 (mk_fresh 77 7 70 (u "corr") 2) empty_db run asked /\ current_of 1 (db_runs asked) = [run].
Proof.
  assert (Hok : is_ok (fst (sample_request 77 7 70 2 empty_db)) = true) by (vm_compute; reflexivity).
  split; [exact Hok|]. destruct (is_ok_inv _ Hok) as [out Hout].
  destruct (@request_analysis_outcome cjk_unicode no_text json_yaml any_schema draft7 (u "hermes") sample_uuid (sample_checkout (u "# skill")) 4
    8 1 3 (mk_fresh 77 7 70 (u "corr") 2) empty_db (Ok out) asked) as (run & Hr & Hc & _); [|exists run; split; [exact Hr|exact Hc]].
  rewrite <- Hout. exact (surjective_pairing (sample_request 77 7 70 2 empty_db)).
Defined.

(** Every float of this run is 100. *)
Definition percent_text : PyText := {| float_repr _ := u "100.0"; container_repr _ := [] |}.

(** The message of job 77, whose triage stores the good answer. *)
Definition message_77 : json := jset (u "job_id") (JStr (uuid_str 77)) triage_message.
#[local] Notation run_77 := (@process_log_triage_message cjk_unicode percent_text json_yaml accept_all simple_objects simple_artifacts
  triage_cfg sample_tables 0 0 message_77 sample_world) (only parsing).
#[local] Notation poll_77 := (@get_analysis_run sample_bytes simple_objects simple_artifacts (u "artifacts") (complete_job 77 asked) (complete_job 77 asked)
  (tw_store (snd run_77)) 1 77 (complete_job 77 asked)) (only parsing).

Lemma asked_ids : NoDup (map run_id (db_runs (complete_job 77 asked))).
Proof. apply NoDup_by_computation. vm_compute. reflexivity. Qed.

Lemma poll_77_ok : is_ok (fst run_77) = true /\ is_ok (fst poll_77) = true.
Proof. split; vm_compute; reflexivity. Qed.

Lemma checked_output_reaches_witness : exists output out bytes,
  run_77 = (Ok output, snd run_77) /\ poll_77 = (Ok out, snd poll_77) /\ @compact_bytes percent_text (fst output) = Ok bytes /\
  @shows sample_bytes 77 (fst output) bytes (snd poll_77) out.
Proof.
  destruct (ok_pair run_77 (proj1 poll_77_ok)) as ([output telemetry] & E).
  pose proof (ok_pair poll_77 (proj2 poll_77_ok)) as Ep.
  destruct Ep as [out Ep]. exists (output, telemetry), out.
  destruct (run_of_job 77 (db_runs (complete_job 77 asked))) as [run|] eqn:Hrun; [|exfalso; vm_compute in Hrun; discriminate Hrun].
  destruct (@checked_output_reaches_reader cjk_unicode percent_text json_yaml sample_bytes accept_all simple_objects simple_artifacts
    triage_cfg sample_tables 0 0 message_77 sample_world (snd run_77) output telemetry 1 77 (complete_job 77 asked) out (snd poll_77) run
    E eq_refl asked_ids Hrun) as (bytes & Hb & Hs & _).
  - revert Hrun. vm_compute. by intros [= <-].
  - destruct (st_jobs (db_store (complete_job 77 asked)) !! 77%N) as [j|] eqn:Hj; [|exfalso; vm_compute in Hj; discriminate Hj].
    exists j. split; [reflexivity|]. revert Hj. vm_compute. by intros [= <-].
  - exact Ep.
  - exists bytes. split; [exact E|]. split; [exact Ep|]. split; [exact Hb|exact Hs].
Defined.
