(* ===== verification/ReportDocument.v ===== *)
(** * The report document and its preview

    [bridge/noc_bridge/report_document.py]: the typed blocks of a report, the
    parser of declarative blocks and the historical assembler;
    [report_document_json.py]: the browser payload with its private screenshot
    index, and the audit serialisation.

    Python does not check the types of the blocks' fields, so a field that the
    code copies without conversion is a [json] value here. *)

From S2P Require Import Prelude PyStr Json Failures PyVal Hermes Snapshots.

(** ** Blocks *)

Record metadata := mk_metadata { md_label : json; md_value : json }.
Record link := mk_link { lk_label : json; lk_url : json; lk_text : json; lk_prefix : json }.
Record log_file := mk_log_file { lf_filename : json; lf_url : json }.
Record screenshot := mk_screenshot {
  sc_bucket : json; sc_object_key : json; sc_filename : json; sc_version_id : json; sc_sha256 : json;
  sc_content_type : json; sc_byte_size : json }.
Record bilingual := mk_bilingual { bi_zh : json; bi_en : json; bi_heading_zh : json; bi_heading_en : json }.
Record find := mk_find { fd_label : json; fd_detail : json; fd_stat : json }.
Record bilingual_finds := mk_bilingual_finds { bf_heading_zh : json; bf_heading_en : json; bf_zh : list find; bf_en : list find }.
Record incident_evidence := mk_incident_evidence {
  ie_heading : json; ie_incident_id : json; ie_metadata : list metadata; ie_link : option link; ie_links : list link;
  ie_log_file : option log_file; ie_screenshots : list screenshot; ie_navigation_target : json }.
(** [AnalysisReference] without its children. *)
Record analysis_head := mk_analysis {
  an_heading : json; an_available : bool; an_incident_id : json; an_run_id : json; an_unavailable_text : json;
  an_metadata : list metadata; an_provenance : list metadata; an_screenshots : list screenshot; an_log_file : option log_file;
  an_summary : option bilingual; an_key_finds : option bilingual_finds; an_secondary_finds : option bilingual_finds;
  an_likely_cause : option bilingual; an_recommended_action : option bilingual; an_bookmark : json }.

Inductive block :=
  | Heading (text : json) (level : Z)
  | Paragraph (text style : json)
  | Divider
  | PageBreak
  | Metadata (m : metadata)
  | Link (l : link)
  | LogFileReference (l : log_file)
  | Screenshot (s : screenshot)
  | AlertNavigation (entries : list (pystr * pystr))
  | BilingualText (b : bilingual)
  | BilingualFindList (b : bilingual_finds)
  | FindList (heading : json) (finds : list find) (language : json)
  | IncidentEvidence (e : incident_evidence)
  | AnalysisReference (a : analysis_head) (children : list block).

Record report_document := mk_document {
  rd_title : json; rd_blocks : list block; rd_metadata : list metadata; rd_provenance : list metadata }.

(** ** Parsing declarative blocks *)

Section parse.
Context `{UnicodeData} `{PyText}.

(** [d[k]] and [d.get(k)] of something the code takes for a dictionary. *)
Notation "j .[ k ]" := (subscript_key (u k) j) (at level 8, only parsing).
Notation "j .[ k ]?" := (py_get (u k) JNull j) (at level 8, only parsing).

(** [str(j) if j is not None else None] *)
Definition opt_str (j : json) : json := match j with JNull => JNull | _ => JStr (py_str j) end.

(** [tuple(f(item) for item in raw.get(key, []))] *)
Definition items {A} (f : json -> result pyexn A) (key : pystr) (raw : json) : result pyexn (list A) :=
  l ← py_get key (JList []) raw; l ← py_iter l; each f l.

Definition screenshot_from_dict (raw : json) : result pyexn screenshot :=
  bucket ← raw.["bucket"]; object_key ← raw.["object_key"]; filename ← raw.["filename"]?; version ← raw.["version_id"]?;
  sha256 ← raw.["sha256"]?; content_type ← raw.["content_type"]?; byte_size ← raw.["byte_size"]?;
  mret (mk_screenshot bucket object_key filename version sha256 content_type byte_size).

(** [_parse_find] *)
Definition parse_find (raw : json) : result pyexn find :=
  label ← raw.["label"]?; detail ← raw.["detail"]?; stat ← raw.["stat"]?;
  mret (mk_find (JStr (py_str (jor label (JStr [])))) (opt_str detail) (opt_str stat)).

(** [Metadata(str(item["label"]), str(item["value"]))] *)
Definition parse_metadata (item : json) : result pyexn metadata :=
  label ← item.["label"]; value ← item.["value"]; mret (mk_metadata (JStr (py_str label)) (JStr (py_str value))).
Definition parse_link (item : json) : result pyexn link :=
  label ← item.["label"]; url ← item.["url"]; text ← item.["text"]?; prefix ← item.["prefix"]?;
  mret (mk_link label url text prefix).
Definition parse_entry (item : json) : result pyexn (pystr * pystr) :=
  text ← item.["text"]; target ← item.["target"]; mret (py_str text, py_str target).

(** [LogFileReference(...) if isinstance(raw.get("log_file"), dict) else None] *)
Definition parse_log_file (raw : json) : result pyexn (option log_file) :=
  lf ← raw.["log_file"]?;
  if is_obj lf then filename ← lf.["filename"]; url ← lf.["url"]?; mret (Some (mk_log_file filename url)) else mret None.

Definition parse_incident (raw : json) : result pyexn incident_evidence :=
  heading ← raw.["heading"]; incident_id ← raw.["incident_id"]?;
  metadata ← items parse_metadata (u "metadata") raw;
  one ← raw.["link"]?;
  one ← (if jtruthy one then l ← parse_link one; mret (Some l) else mret None);
  links ← items parse_link (u "links") raw;
  log_file ← parse_log_file raw;
  screenshots ← items screenshot_from_dict (u "screenshots") raw;
  target ← raw.["navigation_target"]?;
  mret (mk_incident_evidence heading incident_id metadata one links log_file screenshots target).

Definition unsupported_block (kind : json) : pyexn :=
  value_error (u "unsupported ReportDocument block type: " ++ container_repr kind).

(** [_parse_optional_block(raw.get(key), expected)], the type as a projection. *)
Definition parse_optional {A} (blocks : list json -> result pyexn (list block)) (expected : block -> option A) (key : pystr) (raw : json)
    : result pyexn (option A) :=
  part ← py_get key JNull raw;
  if is_obj part then parsed ← blocks [part]; mret (match parsed with b :: _ => expected b | [] => None end) else mret None.
Definition as_bilingual (b : block) : option bilingual := match b with BilingualText t => Some t | _ => None end.
Definition as_finds (b : block) : option bilingual_finds := match b with BilingualFindList t => Some t | _ => None end.

Definition parse_analysis (blocks : list json -> result pyexn (list block)) (raw : json) : result pyexn block :=
  run_id ← raw.["analysis_run_id"]?; heading ← raw.["heading"]?; label ← raw.["label"]?;
  available ← py_get (u "available") (JBool true) raw;
  incident_id ← raw.["incident_id"]?; text ← raw.["unavailable_text"]?;
  metadata ← items parse_metadata (u "metadata") raw;
  provenance ← items parse_metadata (u "provenance") raw;
  inner ← py_get (u "blocks") (JList []) raw; inner ← py_get (u "children") inner raw; inner ← py_iter inner;
  children ← blocks inner;
  screenshots ← items screenshot_from_dict (u "screenshots") raw;
  log_file ← parse_log_file raw;
  summary ← parse_optional blocks as_bilingual (u "summary") raw; key_finds ← parse_optional blocks as_finds (u "key_finds") raw;
  secondary ← parse_optional blocks as_finds (u "secondary_finds") raw;
  cause ← parse_optional blocks as_bilingual (u "likely_cause") raw;
  action ← parse_optional blocks as_bilingual (u "recommended_action") raw;
  bookmark ← raw.["bookmark"]?;
  mret (AnalysisReference (mk_analysis (JStr (py_str (jor heading (jor label (jor run_id (JStr (u "Analysis"))))))) (jtruthy available)
    (opt_str incident_id) (opt_str run_id) text metadata provenance screenshots log_file summary key_finds secondary cause action bookmark) children).

Definition is_kind (kind : json) (s : string) : bool := bool_decide (kind = JStr (u s)).

(** One iteration of [_parse_blocks]. *)
Definition parse_block (blocks : list json -> result pyexn (list block)) (raw : json) : result pyexn block :=
  kind ← raw.["type"]?;
  if is_kind kind "heading" then
    text ← raw.["text"]; level ← py_get (u "level") (JInt 1) raw; level ← int_of level; mret (Heading text level)
  else if is_kind kind "paragraph" then text ← raw.["text"]; style ← raw.["style"]?; mret (Paragraph text style)
  else if is_kind kind "bilingual_text" then
    zh ← py_get (u "zh") (JStr []) raw; en ← py_get (u "en") (JStr []) raw; hzh ← raw.["heading_zh"]?; hen ← raw.["heading_en"]?;
    mret (BilingualText (mk_bilingual zh en hzh hen))
  else if is_kind kind "metadata" then
    label ← raw.["label"]; value ← raw.["value"]; mret (Metadata (mk_metadata label (JStr (py_str value))))
  else if is_kind kind "link" then l ← parse_link raw; mret (Link l)
  else if is_kind kind "log_file_reference" then
    filename ← raw.["filename"]; url ← raw.["url"]?; mret (LogFileReference (mk_log_file filename url))
  else if is_kind kind "screenshot" then s ← screenshot_from_dict raw; mret (Screenshot s)
  else if is_kind kind "alert_navigation" then entries ← items parse_entry (u "entries") raw; mret (AlertNavigation entries)
  else if is_kind kind "bilingual_find_list" then
    hzh ← raw.["heading_zh"]; hen ← raw.["heading_en"];
    zh ← items parse_find (u "finds_zh") raw; en ← items parse_find (u "finds_en") raw;
    mret (BilingualFindList (mk_bilingual_finds (JStr (py_str hzh)) (JStr (py_str hen)) zh en))
  else if is_kind kind "find_list" then
    heading ← raw.["heading"]; finds ← items parse_find (u "finds") raw; language ← raw.["language"]?;
    mret (FindList (JStr (py_str heading)) finds language)
  else if is_kind kind "incident_evidence" then e ← parse_incident raw; mret (IncidentEvidence e)
  else if is_kind kind "divider" then mret Divider
  else if is_kind kind "page_break" then mret PageBreak
  else if is_kind kind "analysis_reference" then parse_analysis blocks raw
  else Raise (unsupported_block kind).

(** [_parse_blocks]; [fuel] bounds the nesting. *)
Fixpoint parse_blocks (fuel : nat) (raw_blocks : list json) : result pyexn (list block) :=
  match fuel with
  | O => Raise (mk_exn (ForeignError (u "RecursionError") false) (u "maximum recursion depth exceeded"))
  | S fuel => each (parse_block (parse_blocks fuel)) raw_blocks
  end.
End parse.

Section documents.
Context `{UnicodeData} `{PyText}.
Notation "j .[ k ]" := (subscript_key (u k) j) (at level 8, only parsing).
Notation "j .[ k ]?" := (py_get (u k) JNull j) (at level 8, only parsing).

(** [raw.items()] of [raw or {}]. *)
Definition dict_items (raw : json) : result pyexn (list (pystr * json)) :=
  match jor raw (JObj []) with
  | JObj o => Ok o
  | j => Raise (attribute_error (u "'" ++ type_name j ++ u "' object has no attribute 'items'"))
  end.

(** [build_report_document] *)
Definition build_report_document (fuel : nat) (doc : json) : result pyexn report_document :=
  raw_metadata ← doc.["metadata"]?; metadata_items ← dict_items raw_metadata;
  let metadata := map (fun kv => mk_metadata (JStr (fst kv)) (JStr (py_str (snd kv))))
    (filter (fun kv => fst kv <> u "title" /\ snd kv <> JNull) metadata_items) in
  raw_provenance ← doc.["provenance"]?; provenance_items ← dict_items raw_provenance;
  let provenance := map (fun kv => mk_metadata (JStr (fst kv)) (JStr (py_str (snd kv)))) (filter (fun kv => snd kv <> JNull) provenance_items) in
  raw_blocks ← py_get (u "blocks") (JList []) doc; raw_blocks ← py_iter raw_blocks;
  blocks ← parse_blocks fuel raw_blocks;
  title ← py_get (u "title") (JStr (u "Report")) (jor raw_metadata (JObj []));
  mret (mk_document title blocks metadata provenance).

(** ** The historical assembler *)

(** [f"{count:,}"] *)
Fixpoint group_digits (l : pystr) : pystr :=   (** least significant digit first *)
  match l with a :: b :: c :: ((_ :: _) as r) => a :: b :: c :: 44%Z :: group_digits r | _ => l end.
Definition comma_int (n : Z) : pystr :=
  (if (n <? 0)%Z then u "-" else []) ++ reverse (group_digits (reverse (py_str_int (Z.abs n)))).
End documents.

(** The [,] format of a float. *)
Class FloatFormat := { float_comma : SpecFloat.spec_float -> pystr }.

Section legacy.
Context `{UnicodeData} `{PyText} `{FloatFormat}.
Notation "j .[ k ]" := (subscript_key (u k) j) (at level 8, only parsing).
Notation "j .[ k ]?" := (py_get (u k) JNull j) (at level 8, only parsing).

Definition format_comma (j : json) : result pyexn pystr :=
  match j with
  | JInt n => Ok (comma_int n)
  | JBool b => Ok (comma_int (if b then 1 else 0))
  | JFloat x => Ok (float_comma x)
  | JStr _ => Raise (value_error (u "Cannot specify ',' with 's'."))
  | _ => Raise (type_error (u "unsupported format string passed to " ++ type_name j ++ u ".__format__"))
  end.
(** The statistics line of a finding. *)
Definition stat_line (count percentage : json) : result pyexn json :=
  match count with
  | JNull => Ok JNull
  | _ => c ← format_comma count;
         mret (JStr (match percentage with JNull => c | _ => c ++ u " / " ++ py_str percentage ++ u "%" end))
  end.

(** [_find] and [_find_zh] *)
Definition legacy_find (zh : bool) (entry : json) : result pyexn find :=
  count ← entry.["count"]?; pct ← entry.["percentage"]?; stat ← stat_line count pct;
  label_en ← entry.["label_en"]?; label_zh ← entry.["label_zh"]?;
  detail ← py_get (if zh then u "detail_zh" else u "detail_en") JNull entry;
  mret (mk_find (if zh then jor label_zh (jor label_en (JStr [])) else jor label_en (jor label_zh (JStr []))) detail stat).

(** [_bilingual_find_list] of [finds or []] *)
Definition bilingual_find_list (heading_zh heading_en : string) (finds : json) : result pyexn (option bilingual_finds) :=
  finds ← py_iter (jor finds (JList []));
  match finds with
  | [] => Ok None
  | _ => zh ← each (legacy_find true) finds; en ← each (legacy_find false) finds;
         mret (Some (mk_bilingual_finds (JStr (u heading_zh)) (JStr (u heading_en)) zh en))
  end.

(** One [BilingualText(...) if ... else None] of [_analysis_reference]. *)
Definition labelled (prefix_zh prefix_en : string) (zh en : json) : option bilingual :=
  let text prefix v := if jtruthy v then JStr (u prefix ++ py_str v) else JStr [] in
  if jtruthy zh || jtruthy en then Some (mk_bilingual (text prefix_zh zh) (text prefix_en en) JNull JNull) else None.

Definition legacy_log_file (section : json) (with_url : bool) : result pyexn (option log_file) :=
  filename ← section.["log_filename"]?;
  if jtruthy filename then
    url ← (if with_url then section.["log_file_url"]? else Ok JNull); mret (Some (mk_log_file filename url))
  else mret None.
Definition legacy_screenshots (section : json) : result pyexn (list screenshot) :=
  l ← section.["screenshots"]?; l ← py_iter (jor l (JList [])); each screenshot_from_dict l.

(** [_analysis_reference], with the heading its caller replaces it by. *)
Definition legacy_analysis (heading : json) (section : json) : result pyexn block :=
  section.["incident_display_id"];; section.["title"];;
  analysis ← section.["analysis"]?;
  match analysis with
  | JNull => mret (AnalysisReference (mk_analysis heading false JNull JNull (JStr (u "No log analysis available yet for this incident."))
      [] [] [] None None None None None None JNull) [])
  | _ =>
      incident_id ← section.["incident_id"]?; screenshots ← legacy_screenshots section; log ← legacy_log_file section true;
      summary_zh ← analysis.["summary_zh"]?; summary_en ← analysis.["summary_en"]?;
      keys ← analysis.["key_finds"]?; keys ← bilingual_find_list "重点发现 (Key Finds)" "Key Finds" keys;
      secs ← analysis.["secondary_finds"]?; secs ← bilingual_find_list "次要发现 (Secondary Finds)" "Secondary Finds" secs;
      cause_zh ← analysis.["likely_cause_zh"]?; cause_en ← analysis.["likely_cause_en"]?;
      action_zh ← analysis.["recommended_action_zh"]?; action_en ← analysis.["recommended_action_en"]?;
      mret (AnalysisReference (mk_analysis heading true incident_id JNull JNull [] [] screenshots log
        (Some (mk_bilingual (jor summary_zh (JStr [])) (jor summary_en (JStr [])) (JStr (u "Chinese")) (JStr (u "English"))))
        keys secs (labelled "最可能原因: " "Likely cause: " cause_zh cause_en)
        (labelled "建议措施: " "Recommended action: " action_zh action_en) JNull) [])
  end.

Definition alert_heading (i : Z) (title : json) : json := JStr (u "Alert #" ++ py_str_int i ++ u " - " ++ py_str title).

Definition legacy_incident (i : Z) (section : json) : result pyexn block :=
  display ← section.["incident_display_id"]; status ← section.["status"];
  url ← section.["grafana_url"]?; log ← legacy_log_file section false; screenshots ← legacy_screenshots section; title ← section.["title"];
  mret (IncidentEvidence (mk_incident_evidence (alert_heading i title) JNull
    [mk_metadata (JStr (u "Incident")) display; mk_metadata (JStr (u "Status")) status]
    (if jtruthy url then Some (mk_link (JStr (u "Grafana")) url (JStr (u "Grafana")) (JStr (u "Grafana Link"))) else None)
    [] log screenshots JNull)).

(** [enumerate(l, start=i)] *)
Fixpoint number_from {A} (i : Z) (l : list A) : list (Z * A) := match l with [] => [] | x :: l => (i, x) :: number_from (i + 1) l end.

(** [build_daily_report_document] *)
Definition build_daily_report_document (doc : json) : result pyexn report_document :=
  sections ← py_get (u "sections") (JList []) doc; items ← py_iter sections;
  incidents ← each (fun x => legacy_incident (fst x) (snd x)) (number_from 1 items);
  overview_zh ← doc.["overview_zh"]?; overview_en ← doc.["overview_en"]?;
  cross_en ← doc.["cross_incident_findings_en"]?; cross_zh ← doc.["cross_incident_findings_zh"]?;
  analyses ← each (fun x => title ← (snd x).["title"]; legacy_analysis (alert_heading (fst x) title) (snd x)) (number_from 1 items);
  title ← doc.["title"];
  mret (mk_document title (
    Heading (JStr (u "Alerts")) 1 :: (if jtruthy sections then [] else [Paragraph (JStr (u "No incidents in this shift.")) JNull]) ++ incidents ++
    [PageBreak; Heading (JStr (u "General Summary")) 1;
     BilingualText (mk_bilingual (jor overview_zh (JStr [])) (jor overview_en (JStr [])) (JStr (u "Chinese Summary")) (JStr (u "English Summary")))] ++
    (if jtruthy cross_en || jtruthy cross_zh then
       [Heading (JStr (u "Cross-Incident Findings")) 3;
        BilingualText (mk_bilingual (jor cross_zh (JStr [])) (jor cross_en (JStr [])) (JStr (u "Chinese")) (JStr (u "English")))] else []) ++
    [PageBreak; Heading (JStr (u "Log Analysis")) 1] ++ analyses) [] []).
End legacy.

(** ** Serialisation *)

(** A call that also appends to the screenshot index. *)
Section accumulate.
Context {A : Type} (f : A -> list json -> json * list json).
Fixpoint map_accum (l : list A) (shots : list json) : list json * list json :=
  match l with
  | [] => ([], shots)
  | x :: l => let '(j, shots) := f x shots in let '(js, shots) := map_accum l shots in (j :: js, shots)
  end.
End accumulate.

Definition typed (kind : string) (fields : list (pystr * json)) : json := JObj ((u "type", JStr (u kind)) :: fields).
Definition opt_json {A} (f : A -> json) (o : option A) : json := match o with Some x => f x | None => JNull end.

Definition find_to_json (f : find) : json := JObj [(u "label", fd_label f); (u "detail", fd_detail f); (u "stat", fd_stat f)].
Definition metadata_to_json (m : metadata) : json := typed "metadata" [(u "label", md_label m); (u "value", md_value m)].
Definition link_to_json (l : link) : json :=
  typed "link" [(u "label", lk_label l); (u "prefix", lk_prefix l); (u "url", lk_url l); (u "text", lk_text l)].
Definition log_file_to_json (l : log_file) : json := typed "log_file_reference" [(u "filename", lf_filename l); (u "url", lf_url l)].
Definition bilingual_to_json (b : bilingual) : json :=
  typed "bilingual_text" [(u "text_zh", bi_zh b); (u "text_en", bi_en b); (u "heading_zh", bi_heading_zh b); (u "heading_en", bi_heading_en b)].
Definition finds_to_json (b : bilingual_finds) : json :=
  typed "bilingual_find_list" [(u "heading_zh", bf_heading_zh b); (u "heading_en", bf_heading_en b);
    (u "finds_zh", JList (map find_to_json (bf_zh b))); (u "finds_en", JList (map find_to_json (bf_en b)))].

(** The private entry of a screenshot: its coordinates that are set. *)
Definition private_entry (s : screenshot) : json := JObj (filter (fun kv => snd kv <> JNull) [
  (u "bucket", sc_bucket s); (u "object_key", sc_object_key s); (u "filename", sc_filename s); (u "version_id", sc_version_id s);
  (u "sha256", sc_sha256 s); (u "content_type", sc_content_type s); (u "byte_size", sc_byte_size s)]).
Definition screenshot_to_json (s : screenshot) (shots : list json) : json * list json :=
  (typed "screenshot" [(u "index", JInt (Z.of_nat (length shots))); (u "filename", sc_filename s)], shots ++ [private_entry s]).

(** [_block_to_json] *)
Fixpoint block_to_json (include_provenance : bool) (b : block) (shots : list json) : json * list json :=
  match b with
  | Heading text level => (typed "heading" [(u "text", text); (u "level", JInt level)], shots)
  | Paragraph text style => (typed "paragraph" [(u "text", text); (u "style", style)], shots)
  | Divider => (typed "divider" [], shots)
  | PageBreak => (typed "page_break" [], shots)
  | Metadata m => (metadata_to_json m, shots)
  | Link l => (link_to_json l, shots)
  | LogFileReference l => (log_file_to_json l, shots)
  | Screenshot s => screenshot_to_json s shots
  | AlertNavigation entries =>
      (typed "alert_navigation" [(u "entries", JList (map (fun e => JObj [(u "text", JStr (fst e)); (u "target", JStr (snd e))]) entries))], shots)
  | BilingualText t => (bilingual_to_json t, shots)
  | BilingualFindList t => (finds_to_json t, shots)
  | FindList heading finds language =>
      (typed "find_list" [(u "heading", heading); (u "language", language); (u "finds", JList (map find_to_json finds))], shots)
  | IncidentEvidence e =>
      let links := match ie_link e with Some l => l :: ie_links e | None => ie_links e end in
      let '(images, shots) := map_accum screenshot_to_json (ie_screenshots e) shots in
      (typed "incident_evidence" [
        (u "heading", ie_heading e); (u "incident_id", if include_provenance then ie_incident_id e else JNull);
        (u "metadata", JList (map metadata_to_json (ie_metadata e))); (u "links", JList (map link_to_json links));
        (u "log_file", opt_json log_file_to_json (ie_log_file e)); (u "screenshots", JList images);
        (u "navigation_target", ie_navigation_target e)], shots)
  | AnalysisReference a children =>
      let '(inner, shots) := map_accum (block_to_json include_provenance) children shots in
      let '(images, shots) := map_accum screenshot_to_json (an_screenshots a) shots in
      (typed "analysis_reference" ([
        (u "heading", an_heading a); (u "available", JBool (an_available a));
        (u "incident_id", if include_provenance then an_incident_id a else JNull); (u "unavailable_text", an_unavailable_text a);
        (u "children", JList inner); (u "screenshots", JList images); (u "log_file", opt_json log_file_to_json (an_log_file a));
        (u "summary", opt_json bilingual_to_json (an_summary a)); (u "key_finds", opt_json finds_to_json (an_key_finds a));
        (u "secondary_finds", opt_json finds_to_json (an_secondary_finds a));
        (u "likely_cause", opt_json bilingual_to_json (an_likely_cause a));
        (u "recommended_action", opt_json bilingual_to_json (an_recommended_action a)); (u "bookmark", an_bookmark a)] ++
        (if include_provenance then [
          (u "analysis_run_id", an_run_id a); (u "metadata", JList (map metadata_to_json (an_metadata a)));
          (u "provenance", JList (map metadata_to_json (an_provenance a)))] else [])), shots)
  end.

(** [document_to_preview_json] *)
Definition document_to_preview_json (d : report_document) : json * list json :=
  let '(blocks, shots) := map_accum (block_to_json false) (rd_blocks d) [] in
  (JObj [(u "title", rd_title d); (u "metadata", JList (map metadata_to_json (rd_metadata d))); (u "blocks", JList blocks)], shots).

(** [document_to_audit_json] *)
Definition document_to_audit_json (d : report_document) : json :=
  let '(blocks, shots) := map_accum (block_to_json true) (rd_blocks d) [] in
  JObj [(u "title", rd_title d); (u "metadata", JList (map metadata_to_json (rd_metadata d)));
        (u "provenance", JList (map metadata_to_json (rd_provenance d))); (u "blocks", JList blocks); (u "screenshots", JList shots)].

(** ** What the browser receives *)

(** The screenshots of a block, in the order of the serialisation. *)
Fixpoint block_shots (b : block) : list screenshot :=
  match b with
  | Screenshot s => [s]
  | IncidentEvidence e => ie_screenshots e
  | AnalysisReference a children => mjoin (map block_shots children) ++ an_screenshots a
  | _ => []
  end.
Definition document_shots (d : report_document) : list screenshot := mjoin (map block_shots (rd_blocks d)).

(** Induction over a block and the blocks inside it. *)
Definition block_induction (P : block -> Prop) (Hleaf : forall b, (forall a c, b <> AnalysisReference a c) -> P b)
    (Hnode : forall a c, Forall P c -> P (AnalysisReference a c)) : forall b, P b :=
  fix go (b : block) : P b :=
    match b with
    | AnalysisReference a c => Hnode a c ((fix all (l : list block) : Forall P l := match l with [] => @List.Forall_nil _ P | x :: l => @List.Forall_cons _ P x l (go x) (all l) end) c)
    | b => Hleaf b ltac:(by intros)
    end.

(** All keys of a payload, and the indices of the objects tagged as screenshots. *)
Fixpoint keys_of (j : json) : list pystr :=
  match j with
  | JList l => mjoin (map keys_of l)
  | JObj o => map fst o ++ mjoin (map (fun kv => keys_of (snd kv)) o)
  | _ => []
  end.
Fixpoint shown_indices (j : json) : list Z :=
  match j with
  | JList l => mjoin (map shown_indices l)
  | JObj o =>
      match assoc (u "type") o, assoc (u "index") o with
      | Some (JStr t), Some (JInt n) => if decide (t = u "screenshot") then [n] else []
      | _, _ => []
      end ++ mjoin (map (fun kv => shown_indices (snd kv)) o)
  | _ => []
  end.

(** Fields that hold no container: what the composition produces from a
    frozen snapshot, whose names and texts are strings. *)
Definition plain (j : json) : bool := match j with JList _ | JObj _ => false | _ => true end.
Definition plain_metadata (m : metadata) : bool := plain (md_label m) && plain (md_value m).
Definition plain_link (l : link) : bool := plain (lk_label l) && plain (lk_prefix l) && plain (lk_url l) && plain (lk_text l).
Definition plain_log_file (l : log_file) : bool := plain (lf_filename l) && plain (lf_url l).
Definition plain_bilingual (b : bilingual) : bool := plain (bi_zh b) && plain (bi_en b) && plain (bi_heading_zh b) && plain (bi_heading_en b).
Definition plain_find (f : find) : bool := plain (fd_label f) && plain (fd_detail f) && plain (fd_stat f).
Definition plain_finds (b : bilingual_finds) : bool :=
  plain (bf_heading_zh b) && plain (bf_heading_en b) && forallb plain_find (bf_zh b) && forallb plain_find (bf_en b).
Definition plain_opt {A} (f : A -> bool) (o : option A) : bool := match o with Some x => f x | None => true end.
Fixpoint plain_block (b : block) : bool :=
  match b with
  | Heading text _ => plain text
  | Paragraph text style => plain text && plain style
  | Divider | PageBreak | AlertNavigation _ => true
  | Metadata m => plain_metadata m
  | Link l => plain_link l
  | LogFileReference l => plain_log_file l
  | Screenshot s => plain (sc_filename s)
  | BilingualText t => plain_bilingual t
  | BilingualFindList t => plain_finds t
  | FindList heading finds language => plain heading && plain language && forallb plain_find finds
  | IncidentEvidence e =>
      plain (ie_heading e) && plain (ie_incident_id e) && forallb plain_metadata (ie_metadata e) && plain_opt plain_link (ie_link e) &&
      forallb plain_link (ie_links e) && plain_opt plain_log_file (ie_log_file e) &&
      forallb (fun s => plain (sc_filename s)) (ie_screenshots e) && plain (ie_navigation_target e)
  | AnalysisReference a children =>
      plain (an_heading a) && plain (an_incident_id a) && plain (an_run_id a) && plain (an_unavailable_text a) &&
      forallb plain_metadata (an_metadata a) && forallb plain_metadata (an_provenance a) &&
      forallb (fun s => plain (sc_filename s)) (an_screenshots a) && plain_opt plain_log_file (an_log_file a) &&
      plain_opt plain_bilingual (an_summary a) && plain_opt plain_finds (an_key_finds a) && plain_opt plain_finds (an_secondary_finds a) &&
      plain_opt plain_bilingual (an_likely_cause a) && plain_opt plain_bilingual (an_recommended_action a) && plain (an_bookmark a) &&
      forallb plain_block children
  end.
Definition plain_document (d : report_document) : bool :=
  plain (rd_title d) && forallb plain_block (rd_blocks d) && forallb plain_metadata (rd_metadata d).

(** The keys of the browser's payload.  None of them is a storage coordinate. *)
Definition PREVIEW_KEYS : list pystr := map u [
  "title"; "metadata"; "blocks"; "type"; "text"; "level"; "style"; "label"; "value"; "prefix"; "url"; "filename"; "index"; "entries"; "target";
  "text_zh"; "text_en"; "heading_zh"; "heading_en"; "finds_zh"; "finds_en"; "finds"; "heading"; "language"; "detail"; "stat";
  "incident_id"; "links"; "log_file"; "screenshots"; "navigation_target"; "available"; "unavailable_text"; "children"; "summary";
  "key_finds"; "secondary_finds"; "likely_cause"; "recommended_action"; "bookmark"]%string.
Definition STORAGE_KEYS : list pystr := map u ["bucket"; "object_key"; "version_id"; "sha256"; "content_type"; "byte_size"]%string.

(** A payload fragment: its keys are the preview's and it shows [indices]. *)
Definition shows_only (indices : list Z) (j : json) : Prop := Forall (.∈ PREVIEW_KEYS) (keys_of j) /\ shown_indices j = indices.

Lemma plain_shows j : plain j = true -> shows_only [] j.
Proof. destruct j; try done; by split; [constructor|]. Qed.

Lemma list_shows (l : list json) (indices : list (list Z)) : Forall2 shows_only indices l -> shows_only (mjoin indices) (JList l).
Proof.
  unfold shows_only. cbn [keys_of shown_indices]. induction 1 as [|i j rest js [Hk Hi] _ [IHk IHi]]; [by split|].
  cbn [map]. change (mjoin (?x :: ?xs)) with (x ++ mjoin xs) in *. split; [apply Forall_app; by split|by rewrite Hi, IHi].
Qed.

Lemma no_indices {A} (l : list A) : mjoin (map (fun _ => []) l) = ([] : list Z).
Proof. induction l as [|x l IH]; [done|exact IH]. Qed.

Lemma list_shows_none {A} (f : A -> json) (p : A -> bool) l : (forall x, p x = true -> shows_only [] (f x)) -> forallb p l = true ->
  shows_only [] (JList (map f l)).
Proof.
  intros Hf Hl. rewrite <- (no_indices l). apply list_shows. induction l as [|x l IH]; [constructor|].
  cbn [forallb] in Hl. apply andb_true_iff in Hl as [Hx Hl]. constructor; [by apply Hf|by apply IH].
Qed.

(** An object whose tag is not [screenshot]. *)
Lemma object_shows (o : list (pystr * json)) (indices : list (list Z)) :
  assoc (u "index") o = None -> forallb (fun k => bool_decide (k ∈ PREVIEW_KEYS)) (map fst o) = true ->
  Forall2 shows_only indices (map snd o) -> shows_only (mjoin indices) (JObj o).
Proof.
  intros Hi Hk Hv. assert (Hrest : Forall (.∈ PREVIEW_KEYS) (mjoin (map (fun kv => keys_of (snd kv)) o)) /\
    mjoin (map (fun kv => shown_indices (snd kv)) o) = mjoin indices).
  { clear Hi Hk. revert indices Hv. induction o as [|[k v] o IH]; intros indices Hv; cbn [map] in Hv.
    - apply Forall2_nil_inv_r in Hv as ->. by split.
    - apply Forall2_cons_inv_r in Hv as (i & rest & [Hk Hi] & Hv & ->). apply IH in Hv as [Hk' Hi']. cbn [map snd].
      change (mjoin (?x :: ?xs)) with (x ++ mjoin xs). split; [apply Forall_app; by split|by f_equal]. }
  split.
  - cbn [keys_of]. apply Forall_app. split; [|apply Hrest]. apply Forall_forall. intros k Hin.
    rewrite forallb_forall in Hk. specialize (Hk k (proj1 (list_elem_of_In _ _) Hin)). by apply bool_decide_eq_true_1 in Hk.
  - cbn [shown_indices]. rewrite Hi. destruct (assoc (u "type") o) as [[| | | |t| |]|]; exact (proj2 Hrest).
Qed.

Lemma object_plain (o : list (pystr * json)) :
  assoc (u "index") o = None -> forallb (fun k => bool_decide (k ∈ PREVIEW_KEYS)) (map fst o) = true ->
  Forall (shows_only []) (map snd o) -> shows_only [] (JObj o).
Proof.
  intros Hi Hk Hv. rewrite <- (no_indices (map snd o)). apply object_shows; [done|done|].
  induction Hv; constructor; done.
Qed.

(** Split a conjunction of booleans into hypotheses. *)
Ltac split_bools := repeat match goal with H : _ && _ = true |- _ => apply andb_true_iff in H as [? ?] end.
(** An object of plain fields with literal keys. *)
Ltac plain_fields := apply object_plain; [reflexivity|vm_compute; reflexivity|
  repeat (apply List.Forall_cons || apply List.Forall_nil); try (by apply plain_shows); auto].

Lemma metadata_shows m : plain_metadata m = true -> shows_only [] (metadata_to_json m).
Proof. unfold plain_metadata. intros. split_bools. plain_fields. Qed.
Lemma link_shows l : plain_link l = true -> shows_only [] (link_to_json l).
Proof. unfold plain_link. intros. split_bools. plain_fields. Qed.
Lemma log_file_shows l : plain_log_file l = true -> shows_only [] (log_file_to_json l).
Proof. unfold plain_log_file. intros. split_bools. plain_fields. Qed.
Lemma bilingual_shows b : plain_bilingual b = true -> shows_only [] (bilingual_to_json b).
Proof. unfold plain_bilingual. intros. split_bools. plain_fields. Qed.
Lemma find_shows f : plain_find f = true -> shows_only [] (find_to_json f).
Proof. unfold plain_find. intros. split_bools. plain_fields. Qed.
Lemma finds_shows b : plain_finds b = true -> shows_only [] (finds_to_json b).
Proof. unfold plain_finds. intros. split_bools. plain_fields; by apply (list_shows_none _ plain_find); [apply find_shows|]. Qed.
Lemma opt_shows {A} (f : A -> json) (p : A -> bool) o : (forall x, p x = true -> shows_only [] (f x)) -> plain_opt p o = true ->
  shows_only [] (opt_json f o).
Proof. intros Hf Hp. destruct o; [by apply Hf|by apply plain_shows]. Qed.

(** ** Numbering *)

Definition span (start n : nat) : list Z := map Z.of_nat (seq start n).
Lemma span_app s a b : span s (a + b) = span s a ++ span (s + a) b.
Proof. unfold span. by rewrite seq_app, map_app. Qed.

(** A serialisation that appends [entries] to the index and shows exactly
    their positions. *)
Definition numbered (entries : list json) (r : list json -> json * list json) : Prop := forall shots,
  shows_only (span (length shots) (length entries)) (fst (r shots)) /\ snd (r shots) = shots ++ entries.

Lemma numbered_none j r : (forall shots, r shots = (j, shots)) -> shows_only [] j -> numbered [] r.
Proof. intros Hr Hj shots. rewrite Hr. split; [exact Hj|]. by rewrite app_nil_r. Qed.

Definition as_list {A} (f : A -> list json -> json * list json) (l : list A) (shots : list json) : json * list json :=
  let '(js, shots) := map_accum f l shots in (JList js, shots).

Lemma as_list_numbered {A} (f : A -> list json -> json * list json) es l : Forall (fun x => numbered (es x) (f x)) l ->
  numbered (mjoin (map es l)) (as_list f l).
Proof.
  intros Hl shots. unfold as_list.
  assert (Hind : exists indices, Forall2 shows_only indices (fst (map_accum f l shots)) /\
    mjoin indices = span (length shots) (length (mjoin (map es l))) /\ snd (map_accum f l shots) = shots ++ mjoin (map es l)).
  { revert shots. induction Hl as [|x l Hx _ IH]; intros shots; cbn [map map_accum].
    - exists []. split_and!; [constructor|done|]. by rewrite app_nil_r.
    - destruct (Hx shots) as [Hs Hn]. destruct (f x shots) as [j shots1]. cbn [fst snd] in *. subst shots1.
      destruct (IH (shots ++ es x)) as (indices & Hf & Hi & Hn). destruct (map_accum f l (shots ++ es x)) as [js shots2]. cbn [fst snd] in *.
      exists (span (length shots) (length (es x)) :: indices). change (mjoin (?a :: ?b)) with (a ++ mjoin b).
      split_and!; [by constructor| |by rewrite Hn, <- app_assoc]. by rewrite Hi, !length_app, span_app. }
  destruct Hind as (indices & Hf & Hi & Hn). destruct (map_accum f l shots) as [js shots']. cbn [fst snd] in *.
  split; [|exact Hn]. rewrite <- Hi. by apply list_shows.
Qed.

Lemma screenshot_numbered s : plain (sc_filename s) = true -> numbered [private_entry s] (screenshot_to_json s).
Proof.
  intros Hp shots. split; [|done]. cbn [fst screenshot_to_json length]. split.
  - cbn [keys_of typed map fst]. apply Forall_app. split; [repeat constructor; set_solver|].
    apply plain_shows in Hp as [Hk _]. cbn [map snd]. change (mjoin (?a :: ?b)) with (a ++ mjoin b).
    repeat (apply Forall_app; split); try constructor. exact Hk.
  - cbn [shown_indices typed]. apply plain_shows in Hp as [_ Hi]. cbn [map snd]. cbn. rewrite Hi. reflexivity.
Qed.

Lemma screenshots_numbered l : forallb (fun s => plain (sc_filename s)) l = true -> numbered (map private_entry l) (as_list screenshot_to_json l).
Proof.
  intros Hl. assert (E : map private_entry l = mjoin (map (fun s => [private_entry s]) l)).
  { clear Hl. induction l as [|s l IH]; [done|]. cbn [map]. by rewrite IH. }
  rewrite E. apply as_list_numbered. apply Forall_forall. intros s Hs. apply screenshot_numbered.
  rewrite forallb_forall in Hl. apply Hl. by apply list_elem_of_In.
Qed.

Lemma accum_run {A} (f : A -> list json -> json * list json) l shots indices shots' :
  shows_only indices (fst (as_list f l shots)) -> snd (as_list f l shots) = shots' ->
  exists js, map_accum f l shots = (js, shots') /\ shows_only indices (JList js).
Proof. unfold as_list. destruct (map_accum f l shots) as [js s]. cbn [fst snd]. intros Hj <-. by exists js. Qed.

(** The fields of an object, one of which shows [indices]. *)
Ltac indexed_fields := first [reflexivity | vm_compute; reflexivity |
  repeat (apply List.Forall2_cons || apply List.Forall2_nil); try eassumption; try (by apply plain_shows); auto ].

Lemma incident_numbered e : plain_block (IncidentEvidence e) = true -> numbered (map private_entry (ie_screenshots e)) (block_to_json false (IncidentEvidence e)).
Proof.
  cbn [plain_block]. intros. split_bools. intros shots.
  destruct (screenshots_numbered (ie_screenshots e) ltac:(done) shots) as [Hs Hn].
  destruct (accum_run _ _ _ _ _ Hs Hn) as (images & Hm & Hi). cbn [block_to_json]. rewrite Hm. cbn [fst snd]. split; [|done].
  rewrite <- (app_nil_r (span _ _)). change (span (length shots) (length (map private_entry (ie_screenshots e))) ++ []) with
    (mjoin [[]; []; []; []; []; []; span (length shots) (length (map private_entry (ie_screenshots e))); []]).
  apply object_shows; [reflexivity|vm_compute; reflexivity|]. cbn [map snd].
  repeat (apply List.Forall2_cons || apply List.Forall2_nil); try exact Hi; try (by apply plain_shows).
  - by apply (list_shows_none _ plain_metadata); [apply metadata_shows|].
  - apply (list_shows_none _ plain_link); [apply link_shows|]. destruct (ie_link e); [|done]. cbn [forallb]. by apply andb_true_iff.
  - by apply (opt_shows _ plain_log_file); [apply log_file_shows|].
Qed.

Lemma analysis_numbered a children es : plain_block (AnalysisReference a children) = true ->
  numbered es (as_list (block_to_json false) children) -> numbered (es ++ map private_entry (an_screenshots a)) (block_to_json false (AnalysisReference a children)).
Proof.
  cbn [plain_block]. intros Hp Hc. split_bools. intros shots. destruct (Hc shots) as [Hs Hn].
  destruct (accum_run _ _ _ _ _ Hs Hn) as (inner & Hm & Hi). cbn [block_to_json]. rewrite Hm.
  destruct (screenshots_numbered (an_screenshots a) ltac:(done) (shots ++ es)) as [Hs2 Hn2].
  destruct (accum_run _ _ _ _ _ Hs2 Hn2) as (images & Hm2 & Hi2). rewrite Hm2. cbn [fst snd]. split; [|by rewrite app_assoc].
  rewrite length_app, span_app, <- length_app.
  set (i1 := span (length shots) (length es)) in *. set (i2 := span (length (shots ++ es)) _) in *.
  assert (i1 ++ i2 = mjoin [[]; []; []; []; []; i1; i2; []; []; []; []; []; []; []]) as -> by (cbn; by rewrite !app_nil_r).
  apply object_shows; [reflexivity|vm_compute; reflexivity|]. cbn [app map snd].
  repeat (apply List.Forall2_cons || apply List.Forall2_nil); try exact Hi; try exact Hi2; try (by apply plain_shows).
  - by apply (opt_shows _ plain_log_file); [apply log_file_shows|].
  - by apply (opt_shows _ plain_bilingual); [apply bilingual_shows|].
  - by apply (opt_shows _ plain_finds); [apply finds_shows|].
  - by apply (opt_shows _ plain_finds); [apply finds_shows|].
  - by apply (opt_shows _ plain_bilingual); [apply bilingual_shows|].
  - by apply (opt_shows _ plain_bilingual); [apply bilingual_shows|].
Qed.

Lemma block_numbered b : plain_block b = true -> numbered (map private_entry (block_shots b)) (block_to_json false b).
Proof.
  induction b as [b Hleaf|a c IH] using block_induction; intros Hp.
  - destruct b as [text level|text style| | |m|l|l|s|entries|t|t|heading finds language|e|a c]; cbn [plain_block block_shots] in *;
      try (by destruct (Hleaf a c)); try (by apply incident_numbered); try (by apply screenshot_numbered);
      match goal with |- numbered _ (block_to_json false ?b) => apply (numbered_none (fst (block_to_json false b []))); [done|] end;
      cbn [block_to_json fst]; split_bools.
    + plain_fields.
    + plain_fields.
    + plain_fields.
    + plain_fields.
    + by apply metadata_shows.
    + by apply link_shows.
    + by apply log_file_shows.
    + plain_fields. apply (list_shows_none _ (fun _ => true)); [|by apply forallb_forall]. intros x _. plain_fields.
    + by apply bilingual_shows.
    + by apply finds_shows.
    + plain_fields. by apply (list_shows_none _ plain_find); [apply find_shows|].
  - cbn [block_shots]. rewrite map_app. apply analysis_numbered; [done|].
    assert (E : map private_entry (mjoin (map block_shots c)) = mjoin (map (fun x => map private_entry (block_shots x)) c)).
    { clear. induction c as [|x c IH]; [done|]. cbn [map]. change (mjoin (?a :: ?b)) with (a ++ mjoin b). by rewrite map_app, IH. }
    rewrite E. apply as_list_numbered. cbn [plain_block] in Hp. split_bools. rewrite Forall_forall in IH |- *. intros x Hx. apply IH; [done|].
    match goal with H : forallb plain_block c = true |- _ => rewrite forallb_forall in H; apply H end. by apply list_elem_of_In.
Qed.

(** C27. The browser never receives a storage coordinate: for every document
    whose fields are plain, the keys of the preview payload are among a fixed
    set that holds none of them; the payload's screenshots carry exactly the
    positions 0, 1, 2, ... of the private index; and the index lists the
    document's own screenshots in that order. *)
Theorem preview_hides_storage d : plain_document d = true ->
  let '(payload, index) := document_to_preview_json d in
  Forall (fun k => k ∈ PREVIEW_KEYS /\ k ∉ STORAGE_KEYS) (keys_of payload) /\
  shown_indices payload = map Z.of_nat (seq 0 (length (document_shots d))) /\
  index = map private_entry (document_shots d).
Proof.
  unfold plain_document, document_to_preview_json, document_shots. intros Hp. split_bools.
  assert (Hb : numbered (mjoin (map (fun b => map private_entry (block_shots b)) (rd_blocks d))) (as_list (block_to_json false) (rd_blocks d))).
  { apply as_list_numbered. apply Forall_forall. intros b Hb. apply block_numbered.
    match goal with H : forallb plain_block _ = true |- _ => rewrite forallb_forall in H; apply H end. by apply list_elem_of_In. }
  destruct (Hb []) as [Hs Hn]. destruct (accum_run _ _ _ _ _ Hs Hn) as (blocks & Hm & Hi). rewrite Hm.
  assert (E : mjoin (map (fun b => map private_entry (block_shots b)) (rd_blocks d)) = map private_entry (mjoin (map block_shots (rd_blocks d)))).
  { clear. induction (rd_blocks d) as [|b l IH]; [done|]. cbn [map]. change (mjoin (?a :: ?b)) with (a ++ mjoin b). by rewrite map_app, IH. }
  rewrite E in *. rewrite length_map in Hi.
  assert (Hall : shows_only (mjoin [[]; []; span 0 (length (mjoin (map block_shots (rd_blocks d))))])
    (JObj [(u "title", rd_title d); (u "metadata", JList (map metadata_to_json (rd_metadata d))); (u "blocks", JList blocks)])).
  { apply object_shows; [reflexivity|vm_compute; reflexivity|]. repeat (apply List.Forall2_cons || apply List.Forall2_nil); [by apply plain_shows| |exact Hi].
    by apply (list_shows_none _ plain_metadata); [apply metadata_shows|]. }
  destruct Hall as [Hk Hix]. split_and!; [|by rewrite Hix; cbn; rewrite app_nil_r|done].
  eapply Forall_impl; [exact Hk|]. intros k Hin. split; [done|].
  assert (Hsep : forallb (fun k => bool_decide (k ∉ STORAGE_KEYS)) PREVIEW_KEYS = true) by (vm_compute; reflexivity).
  rewrite forallb_forall in Hsep. specialize (Hsep k (proj1 (list_elem_of_In _ _) Hin)). by apply bool_decide_eq_true_1 in Hsep.
Qed.

(** ** The parser's fuel *)

Fixpoint depth (j : json) : nat :=
  match j with
  | JList l => S (foldr Nat.max 0 (map depth l))
  | JObj o => S (foldr Nat.max 0 (map (fun kv => depth (snd kv)) o))
  | _ => 0
  end.
Definition depth_list (l : list json) : nat := foldr Nat.max 0 (map depth l).

Lemma depth_in x l : x ∈ l -> depth x <= depth_list l.
Proof. unfold depth_list. induction l as [|y l IH]; [by intros ?%elem_of_nil|]. intros [->|Hx]%elem_of_cons; cbn [map foldr]; [lia|]. apply IH in Hx. lia. Qed.

Lemma depth_assoc k o v : assoc k o = Some v -> depth v < depth (JObj o).
Proof.
  cbn [depth]. induction o as [|[k' v'] o IH]; [done|]. cbn [assoc map foldr snd]. case_decide; [intros [= ->]; lia|].
  intros Hv%IH. lia.
Qed.

Lemma depth_get k d raw v : py_get k d raw = Ok v -> v = d \/ depth v < depth raw.
Proof.
  intros (o & -> & ->)%py_get_ok. destruct (assoc k o) as [v|] eqn:E; [|by left]. right. by apply depth_assoc in E.
Qed.

Lemma depth_iter j l : py_iter j = Ok l -> depth_list l <= depth j.
Proof.
  destruct j as [| | | |s|l'|o]; try done; intros [= <-]; cbn [depth]; unfold depth_list; rewrite ?map_map; cbn.
  - induction s; cbn; lia.
  - lia.
  - induction o; cbn; lia.
Qed.

Section fuel.
Context `{UnicodeData} `{PyText}.

Lemma bind_ext {A B} (m : result pyexn A) (f g : A -> result pyexn B) : (forall a, m = Ok a -> f a = g a) -> m ≫= f = m ≫= g.
Proof. intros Hfg. destruct m as [a|e]; [by apply Hfg|done]. Qed.

Lemma bind_cong {A B} (m m' : result pyexn A) (f g : A -> result pyexn B) : m = m' -> (forall a, f a = g a) -> m ≫= f = m' ≫= g.
Proof. intros <- Hfg. by apply bind_ext. Qed.

Lemma optional_ext {A} (b1 b2 : list json -> result pyexn (list block)) (expected : block -> option A) key raw :
  (forall l, depth_list l < depth raw -> b1 l = b2 l) -> parse_optional b1 expected key raw = parse_optional b2 expected key raw.
Proof.
  intros Hb. unfold parse_optional. apply bind_ext. intros part Hp. destruct (is_obj part) eqn:Ho; [|done].
  rewrite Hb; [done|]. apply depth_get in Hp as [->|Hp]; [done|]. unfold depth_list. cbn. lia.
Qed.

Lemma analysis_ext b1 b2 raw : (forall l, depth_list l < depth raw -> b1 l = b2 l) -> parse_analysis b1 raw = parse_analysis b2 raw.
Proof.
  intros Hb. unfold parse_analysis. do 8 (apply bind_ext; intros ? _).
  apply bind_ext; intros inner Hin. apply bind_ext; intros inner' Hin'. apply bind_ext; intros l Hl. rewrite (Hb l).
  - do 3 (apply bind_ext; intros ? _). do 5 (apply bind_cong; [by apply optional_ext|intros ?]). done.
  - assert (Hraw : 0 < depth raw) by (apply py_get_is_obj in Hin; destruct raw; try done; cbn; lia).
    assert (Hcase : inner' = JList [] \/ depth inner' < depth raw) by (apply depth_get in Hin' as [->|?]; [by apply depth_get in Hin|by right]).
    destruct Hcase as [->|Hd]; [by apply Ok_inj in Hl as <-|]. apply depth_iter in Hl. lia.
Qed.

Lemma block_ext b1 b2 raw : (forall l, depth_list l < depth raw -> b1 l = b2 l) -> parse_block b1 raw = parse_block b2 raw.
Proof. intros Hb. unfold parse_block. apply bind_ext. intros kind _.
  do 13 (destruct (is_kind kind _); [reflexivity|]). destruct (is_kind kind _); [exact (analysis_ext b1 b2 raw Hb)|reflexivity]. Qed.

(** The nesting of the blocks bounds the recursion. *)
Lemma parse_blocks_fuel : forall n m l, depth_list l < n -> depth_list l < m -> parse_blocks n l = parse_blocks m l.
Proof.
  induction n as [|n IH]; intros m l Hn Hm; [lia|]. destruct m as [|m]; [lia|].
  change (each (parse_block (parse_blocks n)) l = each (parse_block (parse_blocks m)) l).
  assert (Hl : forall x, x ∈ l -> depth x <= depth_list l) by (intros x; apply depth_in). revert Hl Hn Hm.
  generalize (depth_list l). intros d Hl Hn Hm. induction l as [|x l IHl]; cbn [each]; [exact eq_refl|]. apply bind_cong.
  - apply block_ext. intros l' Hl'. specialize (Hl x ltac:(by left)). apply IH; lia.
  - intros b. apply bind_cong; [|reflexivity]. apply IHl. intros y Hy. apply Hl. by right.
Qed.
End fuel.

(** ** A document *)

Definition sample_document : report_document :=
  let shot key := mk_screenshot (JStr (u "evidence")) (JStr (u key)) (JStr (u "shot.png")) JNull JNull JNull JNull in
  mk_document (JStr (u "Report")) [
    Heading (JStr (u "Alerts")) 1;
    IncidentEvidence (mk_incident_evidence (JStr (u "Alert #1")) (JStr (u "i1")) [] None [] None [shot "k1"%string; shot "k2"%string] JNull);
    AnalysisReference (mk_analysis (JStr (u "Alert #1")) true (JStr (u "i1")) JNull JNull [] [] [shot "k4"%string] None None None None None None JNull)
      [Screenshot (shot "k3"%string)]] [] [].

Lemma preview_hides_storage_witness : plain_document sample_document = true /\
  let '(payload, index) := document_to_preview_json sample_document in
  Forall (fun k => k ∈ PREVIEW_KEYS /\ k ∉ STORAGE_KEYS) (keys_of payload) /\
  shown_indices payload = [0; 1; 2; 3]%Z /\ index = map private_entry (document_shots sample_document).
Proof. split; [reflexivity|]. exact (preview_hides_storage sample_document eq_refl). Defined.
