(* ===== verification/Composition.v ===== *)
(** * Composing a report

    [bridge/noc_bridge/report_composition.py]: one plan of the model resolved
    against one frozen snapshot; [analysis_presentation.py]: the blocks of a
    stored analysis; [time_projection.py]: the shift's local calendar.

    The time zone database is the interface [ZoneDb]. *)

From S2P Require Import Prelude PyStr Json Failures PyVal PyColl PyTime Sha256 Hermes Snapshots ReportDocument.

(** ** Calendar *)

(** [ZoneInfo(name)], whether its exception is [ZoneInfoNotFoundError], and
    [astimezone]. *)
Class ZoneDb := {
  zone_known : pystr -> result pyexn ();
  zone_not_found : exn_class -> bool;
  astimezone : pystr -> datetime -> result pyexn datetime;
}.

Definition WEEKDAYS : list string := ["Monday"; "Tuesday"; "Wednesday"; "Thursday"; "Friday"; "Saturday"; "Sunday"]%string.
Definition MONTHS : list string := ["January"; "February"; "March"; "April"; "May"; "June"; "July"; "August"; "September"; "October";
  "November"; "December"]%string.
(** [strftime("%A, %d %B %Y")] *)
Definition report_date (t : datetime) : pystr :=
  u (nth (Z.to_nat ((ymd2ord (dt_year t) (dt_month t) (dt_day t) + 6) mod 7)) WEEKDAYS ""%string) ++ u ", " ++ pad_int 2 (dt_day t) ++ u " " ++
  u (nth (Z.to_nat (dt_month t - 1)) MONTHS ""%string) ++ u " " ++ py_str_int (dt_year t).

Section projection.
Context `{UnicodeData} `{PyText} `{ZoneDb}.

(** [_parse_timestamp] of a value of the snapshot. *)
Definition parse_timestamp (value : json) : result pyexn datetime :=
  let text := strip (py_str (jor value (JStr []))) in
  let text := if endswith (u "Z") text then take (length text - 1) text ++ u "+00:00" else text in
  match fromisoformat text with
  | None => Raise (value_error (u "Invalid isoformat string"))
  | Some t => Ok (match dt_offset t with
      | None => mk_datetime (dt_year t) (dt_month t) (dt_day t) (dt_hour t) (dt_minute t) (dt_second t) (dt_micro t) (Some 0%Z)
      | Some _ => t end)
  end.

Record shift_time := mk_shift_time { st_timezone : pystr; st_local_start : datetime; st_local_end : option datetime }.

(** [project_shift_time] *)
Definition project_shift_time (snapshot : json) : result pyexn shift_time :=
  tz ← py_get (u "shift_timezone") JNull snapshot;
  let name := strip (py_str (jor tz (JStr (u "UTC")))) in
  match zone_known name with
  | Raise e => Raise (if zone_not_found (x_class e) then value_error (u "invalid frozen shift timezone: " ++ name) else e)
  | Ok _ =>
      starts_at ← py_get (u "shift_starts_at") JNull snapshot;
      if negb (jtruthy starts_at) then Raise (value_error (u "frozen report snapshot is missing shift_starts_at")) else
      ends_at ← py_get (u "shift_ends_at") JNull snapshot;
      start ← parse_timestamp starts_at; start ← astimezone name start;
      finish ← (if jtruthy ends_at then t ← parse_timestamp ends_at; t ← astimezone name t; mret (Some t) else mret None);
      mret (mk_shift_time name start finish)
  end.
End projection.

(** ** The presentation of an analysis *)

Section presentation.
Context `{UnicodeData} `{PyText} `{FloatFormat}.

Definition lit (s : string) : json := JStr (u s).

(** [_find] *)
Definition presented_find (zh : bool) (value : json) : result pyexn find :=
  count ← py_get (u "count") JNull value; pct ← py_get (u "percentage") JNull value; stat ← stat_line count pct;
  primary ← py_get (if zh then u "label_zh" else u "label_en") JNull value;
  fallback ← py_get (if zh then u "label_en" else u "label_zh") JNull value;
  detail ← py_get (if zh then u "detail_zh" else u "detail_en") JNull value;
  let detail := py_str (jor detail (JStr [])) in
  mret (mk_find (JStr (py_str (jor primary (jor fallback (JStr []))))) (match detail with [] => JNull | _ => JStr detail end) stat).

(** [_find_list] *)
Definition presented_list (zh : bool) (analysis : json) (key heading : string) : result pyexn block :=
  values ← py_get (u key) JNull analysis;
  finds ← each (presented_find zh) (match values with JList l => filter (fun v => is_obj v = true) l | _ => [] end);
  mret (FindList (lit heading) finds (lit (if zh then "Chinese" else "English"))).

(** [_language_section] *)
Definition language_section (zh : bool) (analysis : json) : result pyexn (list block) :=
  summary ← py_get (if zh then u "summary_zh" else u "summary_en") JNull analysis;
  key_finds ← presented_list zh analysis "key_finds" "Key Finds";
  secondary ← presented_list zh analysis "secondary_finds" "Secondary Finds";
  mret [Heading (lit (if zh then "Chinese" else "English")) 3; Heading (lit "Short Summary") 4;
        Paragraph (JStr (py_str (jor summary (JStr [])))) JNull; key_finds; secondary].

(** The blocks the analysis provides itself. *)
Definition explicit_blocks (analysis : json) : option (list json) :=
  match jget (u "report_presentation") analysis with
  | Some p => match jget (u "blocks") p with Some (JList l) => Some l | _ => None end
  | None => None
  end.

(** [build_analysis_presentation] *)
Definition build_analysis_presentation (analysis contract : json) : result pyexn (list block) :=
  if negb (is_obj analysis) then mret []
  else if bool_decide (contract ∈ [JNull; lit "analysis-presentation-v1"]) then
    match explicit_blocks analysis with
    | Some blocks => parse_blocks (S (depth_list blocks)) blocks
    | None => zh ← language_section true analysis; en ← language_section false analysis; mret (zh ++ en)
    end
  else Raise (value_error (u "unsupported analysis presentation contract: " ++ py_str contract)).
End presentation.

(** ** Blocks of one incident *)

Definition invalid_report (msg : pystr) : pyexn := mk_exn OutputValidationError msg.

Section incident.
Context `{UnicodeData} `{PyText} `{FloatFormat}.

(** [tuple(Metadata(label, str(value)) for label, value in values if value not in (None, ""))] *)
Definition facts (values : list (string * json)) : list metadata :=
  map (fun kv => mk_metadata (lit (fst kv)) (JStr (py_str (snd kv)))) (filter (fun kv => snd kv <> JNull /\ snd kv <> JStr []) values).

(** [item.get(key)] of an object. *)
Notation "j .? k" := (jget_null (u k) j) (at level 8, only parsing).

Definition incident_metadata (incident : json) : list metadata := facts [
  ("Incident", jor incident.?"display_id" incident.?"id"); ("Status", incident.?"status"); ("Service", incident.?"service");
  ("Environment", incident.?"environment"); ("Triggered", incident.?"triggered_at"); ("Recovered", incident.?"recovered_at");
  ("Trigger Value", incident.?"trigger_value")]%string.
Definition evidence_metadata (incident : json) : list metadata := facts [
  ("Triggered", incident.?"triggered_at"); ("Recovered", incident.?"recovered_at"); ("Trigger Value", incident.?"trigger_value")]%string.

(** [_bookmark_name] *)
Definition bookmark_name (incident_id : pystr) : result pyexn pystr :=
  b ← py_encode incident_id; mret (u "log_analysis_" ++ take 24 (hexdigest b)).

Definition alert_title (number : Z) (fallback : string) (incident : json) : json :=
  JStr (u "Alert #" ++ py_str_int number ++ u " - " ++ py_str (jor incident.?"title" (jor incident.?"display_id" (lit fallback)))).

(** The screenshots of an incident that name a stored object. *)
Definition incident_shots (incident : json) : result pyexn (list screenshot) :=
  l ← py_iter (jor incident.?"screenshots" (JList []));
  each screenshot_from_dict (filter (fun i => is_obj i && jtruthy i.?"bucket" && jtruthy i.?"object_key" = true) l).
Definition incident_log (incident : json) : option log_file :=
  if jtruthy incident.?"log_filename" then Some (mk_log_file incident.?"log_filename" incident.?"log_file_url") else None.

(** [_incident_block] *)
Definition incident_block (incident : json) (number : Z) (canonical : bool) (navigation_target : json) : result pyexn block :=
  let teams := if negb canonical && jtruthy incident.?"teams_url"
    then [mk_link (lit "Teams") incident.?"teams_url" (lit "Teams") (lit "Teams Link")] else [] in
  let grafana := if jtruthy incident.?"grafana_url"
    then [mk_link (lit "Grafana") incident.?"grafana_url" (lit "Grafana") (lit "Grafana Link")] else [] in
  screenshots ← incident_shots incident;
  id ← subscript_key (u "id") incident;
  mret (IncidentEvidence (mk_incident_evidence (alert_title number "Incident" incident) (JStr (py_str id))
    (if canonical then evidence_metadata incident else incident_metadata incident) None (teams ++ grafana) (incident_log incident)
    screenshots navigation_target)).

(** [_pair] *)
Definition pair_of (fragment : json) (key : string) : result pyexn (option bilingual) :=
  value ← py_get (u key) JNull fragment;
  let value := jor value (JObj []) in
  if negb (is_obj value) then mret None else
  let zh := py_str (jor value.?"zh" (JStr [])) in
  let en := py_str (jor value.?"en" (JStr [])) in
  match zh, en with
  | [], [] => mret None
  | _, _ => mret (Some (mk_bilingual (JStr zh) (JStr en) (lit "Chinese") (lit "English")))
  end.

(** [_legacy_fragment] *)
Definition legacy_pair (zh en : json) : json := JObj [(u "zh", JStr (py_str (jor zh (JStr [])))); (u "en", JStr (py_str (jor en (JStr []))))].
Definition legacy_finding (item : json) : json := JObj [
  (u "zh", JStr (py_str (jor item.?"label_zh" (jor item.?"label_en" (JStr [])))));
  (u "en", JStr (py_str (jor item.?"label_en" (jor item.?"label_zh" (JStr [])))));
  (u "detail_zh", JStr (py_str (jor item.?"detail_zh" (JStr [])))); (u "detail_en", JStr (py_str (jor item.?"detail_en" (JStr []))))].
(** [l[:5]] of a list or a text, and its objects. *)
Definition first_objects (l : json) : result pyexn (list json) :=
  match l with
  | JList l => Ok (filter (fun i => is_obj i = true) (take 5 l))
  | JStr _ => Ok []
  | _ => Raise (type_error (u "'" ++ type_name l ++ u "' object is not subscriptable"))
  end.
Definition legacy_fragment (analysis : json) : result pyexn json :=
  if negb (is_obj analysis) then mret JNull else
  findings ← first_objects (jor analysis.?"key_finds" (JList []));
  mret (JObj [
    (u "contract", lit "report-fragment-v1"); (u "headline", JStr (py_str (jor analysis.?"summary_en" (jor analysis.?"summary_zh" (JStr [])))));
    (u "severity", analysis.?"severity_signal"); (u "summary", legacy_pair analysis.?"summary_zh" analysis.?"summary_en");
    (u "likely_cause", legacy_pair (jor analysis.?"likely_cause_zh" analysis.?"likely_cause") (jor analysis.?"likely_cause_en" analysis.?"likely_cause"));
    (u "recommended_action", legacy_pair (jor analysis.?"recommended_action_zh" analysis.?"recommended_action")
      (jor analysis.?"recommended_action_en" analysis.?"recommended_action"));
    (u "findings", JList (map legacy_finding findings))]).

(** [except ValueError as exc: raise OutputValidationError(str(exc))] *)
Definition as_invalid {A} (r : result pyexn A) : result pyexn A :=
  match r with Raise e => Raise (if is_value_error (x_class e) then invalid_report (x_msg e) else e) | ok => ok end.

(** The checks of a plan node against its incident. *)
Definition check_node (incident : json) (plan_node : option json) : result pyexn () :=
  match plan_node with
  | None => mret tt
  | Some node =>
      let run_id := node.?"analysis_run_id" in
      let incident_id := node.?"incident_id" in
      if bool_decide (run_id = JNull) && bool_decide (incident_id = JNull) then
        Raise (invalid_report (u "analysis_reference requires analysis_run_id or incident_id"))
      else if bool_decide (incident_id <> JNull) && negb (bool_decide (py_str incident_id ∈ [py_str incident.?"id"; py_str incident.?"display_id"])) then
        Raise (invalid_report (u "analysis_reference incident_id does not match analysis run"))
      else if bool_decide (run_id <> JNull) && negb (bool_decide (py_str run_id = py_str incident.?"analysis_run_id")) then
        Raise (invalid_report (u "analysis reference is not the frozen run for the incident"))
      else mret tt
  end.

Definition unavailable_analysis (incident : json) (number : Z) (id run_id : json) (text : string) : block :=
  AnalysisReference (mk_analysis (alert_title number "Analysis" incident) false id run_id (lit text) [] [] [] None None None None None None JNull) [].

(** The compact export of an old snapshot. *)
Definition compact_children (fragment : json) : result pyexn (list block) :=
  summary ← pair_of fragment "summary"; cause ← pair_of fragment "likely_cause"; action ← pair_of fragment "recommended_action";
  let part (label : string) (v : option bilingual) := match v with Some t => [Heading (lit label) 3; BilingualText t] | None => [] end in
  mret (match summary with Some t => [BilingualText t] | None => [] end ++ part "Likely Cause" cause ++ part "Recommended Action" action).

Definition analysis_provenance (incident : json) : list metadata := facts [
  ("Skill Snapshot", incident.?"analysis_skill_snapshot_id"); ("Execution Hash", incident.?"analysis_skill_execution_hash");
  ("Skill Version", incident.?"analysis_skill_version"); ("Result Hash", incident.?"analysis_output_sha256");
  ("Model", incident.?"analysis_model"); ("Effort", incident.?"analysis_effort")]%string.

(** [_analysis_block] *)
Definition analysis_block (incident : json) (plan_node : option json) (number : Z) : result pyexn block :=
  check_node incident plan_node;;
  id ← subscript_key (u "id") incident;
  let id := JStr (py_str id) in
  let run_id := incident.?"analysis_run_id" in
  if negb (jtruthy run_id) then mret (unavailable_analysis incident number id JNull "No log analysis available for this incident.") else
  let analysis := incident.?"analysis" in
  fragment ← (if jtruthy incident.?"report_fragment" then mret incident.?"report_fragment" else legacy_fragment analysis);
  if negb (is_obj fragment) && negb (is_obj analysis) then
    mret (unavailable_analysis incident number id (JStr (py_str run_id)) "The frozen analysis has no report export.") else
  children ← as_invalid (build_analysis_presentation analysis incident.?"analysis_presentation_contract");
  children ← (match children with [] => compact_children fragment | _ => mret children end);
  screenshots ← incident_shots incident;
  bookmark ← bookmark_name (match id with JStr s => s | _ => [] end);
  mret (AnalysisReference (mk_analysis (alert_title number "Analysis" incident) true id (JStr (py_str run_id)) JNull [] (analysis_provenance incident)
    screenshots (incident_log incident) None None None None None (JStr bookmark)) (Heading (lit "Log Analysis") 3 :: children)).
End incident.

(** ** The plan *)

Definition DAILY_REPORT_COMPOSITION_PROFILE : pystr := u "noc-daily-report-v1".
Definition CANONICAL_TOP_LEVEL_HEADINGS : list pystr := map u ["Alerts"; "General Summary"; "Log Analysis"]%string.

(** What the nodes of a plan leave: prose, and the incidents and analyses they name. *)
Record plan_refs := mk_refs {
  pr_summary : list block;
  pr_incidents : list pystr;
  pr_analyses : list pystr;
  pr_nodes : list (pystr * json);
}.
Definition no_refs : plan_refs := mk_refs [] [] [] [].

Section compose.
Context `{UnicodeData} `{PyText} `{FloatFormat} `{ZoneDb}.
Notation "j .? k" := (jget_null (u k) j) (at level 8, only parsing).

Definition incident_id_of (incident : json) : pystr := py_str incident.?"id".

(** The index of the frozen incidents by identifier and display identifier,
    and the incidents in their order. *)
Definition index_incident (acc : list (pystr * json) * list json) (incident : json) : result pyexn (list (pystr * json) * list json) :=
  let '(index, unique) := acc in
  if negb (is_obj incident && jtruthy incident.?"id") then Raise (invalid_report (u "frozen report incident is missing an id")) else
  let id := incident_id_of incident in
  if bool_decide (is_Some (assoc id index)) then Raise (invalid_report (u "duplicate incident in frozen report snapshot: " ++ id)) else
  let index := assoc_set id incident index in
  let unique := unique ++ [incident] in
  if jtruthy incident.?"display_id" then
    let display_id := py_str incident.?"display_id" in
    if bool_decide (is_Some (assoc display_id index)) then Raise (invalid_report (u "duplicate incident display_id in frozen report snapshot: " ++ display_id))
    else mret (assoc_set display_id incident index, unique)
  else mret (index, unique).
Fixpoint index_incidents (acc : list (pystr * json) * list json) (l : list json) : result pyexn (list (pystr * json) * list json) :=
  match l with [] => mret acc | incident :: l => acc ← index_incident acc incident; index_incidents acc l end.

Definition required_text (label : string) (value : json) : result pyexn json :=
  match value with
  | JStr s => match strip s with [] => Raise (invalid_report (u label ++ u " must be a non-empty string")) | _ => mret value end
  | _ => Raise (invalid_report (u label ++ u " must be a non-empty string"))
  end.
(** [narrative_summary(plan.get("general_summary"), "general_summary")] *)
Definition narrative_summary (value : json) : result pyexn block :=
  if negb (is_obj value) then Raise (invalid_report (u "general_summary must contain zh and en")) else
  zh ← required_text "general_summary.zh" value.?"zh"; en ← required_text "general_summary.en" value.?"en";
  mret (BilingualText (mk_bilingual zh en (lit "Chinese Summary") (lit "English Summary"))).

Definition unknown_incident (ref : pystr) : pyexn := invalid_report (u "unknown incident reference: " ++ ref).
Definition add_prose (b : block) (r : plan_refs) : plan_refs := mk_refs (pr_summary r ++ [b]) (pr_incidents r) (pr_analyses r) (pr_nodes r).

(** The incident an analysis node names. *)
Definition node_incident (index : list (pystr * json)) (frozen : list json) (node : json) : result pyexn json :=
  match py_str (jor node.?"incident_id" (JStr [])) with
  | (_ :: _) as ref => match assoc ref index with Some incident => mret incident | None => Raise (unknown_incident ref) end
  | [] =>
      let run_id := py_str (jor node.?"analysis_run_id" (JStr [])) in
      match find_first (fun i => bool_decide (py_str i.?"analysis_run_id" = run_id)) frozen with
      | Some incident => mret incident
      | None => Raise (invalid_report (u "analysis reference is outside this report: " ++ run_id))
      end
  end.

(** One node of [parse]. *)
Definition parse_node (index : list (pystr * json)) (frozen : list json) (r : plan_refs) (node : json) : result pyexn plan_refs :=
  let kind := if is_obj node then node.?"type" else JNull in
  if is_kind kind "heading" then
    text ← subscript_key (u "text") node;
    let text := py_str text in
    let level := default (JInt 1) (jget (u "level") node) in
    skip ← (if bool_decide (text ∈ CANONICAL_TOP_LEVEL_HEADINGS) then n ← int_of level; mret (n =? 1)%Z else mret false);
    if (skip : bool) then mret r else n ← int_of level; mret (add_prose (Heading (JStr text) n) r)
  else if is_kind kind "paragraph" then mret (add_prose (Paragraph (JStr (py_str (jor node.?"text" (JStr [])))) node.?"style") r)
  else if is_kind kind "bilingual_generated_text" then
    mret (add_prose (BilingualText (mk_bilingual (JStr (py_str (jor node.?"zh" (JStr [])))) (JStr (py_str (jor node.?"en" (JStr []))))
      (jor node.?"heading_zh" (lit "Chinese Summary")) (jor node.?"heading_en" (lit "English Summary")))) r)
  else if is_kind kind "incident_reference" then
    let ref := py_str (jor node.?"incident_id" (JStr [])) in
    match assoc ref index with
    | None => Raise (unknown_incident ref)
    | Some incident => mret (mk_refs (pr_summary r) (pr_incidents r ++ [incident_id_of incident]) (pr_analyses r) (pr_nodes r))
    end
  else if is_kind kind "analysis_reference" then
    incident ← node_incident index frozen node;
    mret (mk_refs (pr_summary r) (pr_incidents r)
      (if jtruthy incident.?"analysis_run_id" then pr_analyses r ++ [py_str incident.?"analysis_run_id"] else pr_analyses r)
      (assoc_set (incident_id_of incident) node (pr_nodes r)))
  else if is_kind kind "divider" then mret (add_prose Divider r)
  else if is_kind kind "page_break" then mret r
  else Raise (invalid_report (u "unsupported ReportPlan node type: " ++ py_str kind)).
Fixpoint parse_plan (index : list (pystr * json)) (frozen : list json) (r : plan_refs) (nodes : list json) : result pyexn plan_refs :=
  match nodes with [] => mret r | node :: nodes => r ← parse_node index frozen r node; parse_plan index frozen r nodes end.

(** The narrative of the plan, or its nodes. *)
Definition read_plan (canonical : bool) (index : list (pystr * json)) (frozen : list json) (plan : json) : result pyexn (bool * plan_refs) :=
  match jget (u "general_summary") plan with
  | Some summary => b ← narrative_summary summary; mret (true, mk_refs [b] [] [] [])
  | None =>
      if canonical then Raise (invalid_report (u "canonical Daily Report requires general_summary")) else
      match plan.?"blocks" with
      | JList nodes => r ← parse_plan index frozen no_refs nodes; mret (false, r)
      | _ => Raise (invalid_report (u "ReportPlan must contain a blocks array"))
      end
  end.

(** ** Coverage *)

Record policy := mk_policy { po_incidents : json; po_analyses : json; po_duplicate_incidents : bool; po_duplicate_analyses : bool }.
Definition read_policy (coverage : json) : policy :=
  mk_policy (default (lit "optional") (jget (u "incidents") coverage)) (default (lit "optional") (jget (u "analyses") coverage))
    (jtruthy coverage.?"allow_duplicate_incidents") (jtruthy coverage.?"allow_duplicate_analyses").
Definition all_incidents (p : policy) : bool := bool_decide (po_incidents p = lit "all").
Definition all_analyses (p : policy) : bool := bool_decide (po_analyses p = lit "all_available").
Definition with_analysis (l : list json) : list json := filter (fun i => jtruthy i.?"analysis_run_id" = true) l.

Definition check_coverage (p : policy) (narrative : bool) (unique : list json) (r : plan_refs) : result pyexn () :=
  if negb narrative && negb (po_duplicate_incidents p) && negb (bool_decide (NoDup (pr_incidents r))) then
    Raise (invalid_report (u "duplicate incident reference in ReportPlan"))
  else if negb narrative && negb (po_duplicate_analyses p) && negb (bool_decide (NoDup (pr_analyses r))) then
    Raise (invalid_report (u "duplicate analysis reference in ReportPlan"))
  else if negb (bool_decide (po_incidents p ∈ map lit ["all"; "none"; "optional"]%string)) then
    Raise (invalid_report (u "unsupported incident coverage policy: " ++ py_str (po_incidents p)))
  else if negb (bool_decide (po_analyses p ∈ map lit ["all_available"; "none"; "optional"]%string)) then
    Raise (invalid_report (u "unsupported analysis coverage policy: " ++ py_str (po_analyses p)))
  else if negb narrative && all_incidents p && existsb (fun i => negb (bool_decide (incident_id_of i ∈ pr_incidents r))) unique then
    Raise (invalid_report (u "ReportPlan omitted required incidents"))
  else if negb narrative && all_analyses p && existsb (fun i => negb (bool_decide (py_str i.?"analysis_run_id" ∈ pr_analyses r))) (with_analysis unique) then
    Raise (invalid_report (u "ReportPlan omitted required analyses"))
  else mret tt.

(** The incidents of a plan's references, first occurrences in order. *)
Definition named_incidents (index : list (pystr * json)) (refs : list pystr) : list json :=
  omap (fun id => assoc id index) (fromkeys refs).
Definition alert_incidents (p : policy) (index : list (pystr * json)) (unique : list json) (r : plan_refs) : list json :=
  if all_incidents p then unique else named_incidents index (pr_incidents r).
Definition analysis_incidents (p : policy) (index : list (pystr * json)) (unique : list json) (r : plan_refs) : list json :=
  if all_analyses p then with_analysis unique else omap (fun n => assoc (fst n) index) (pr_nodes r).

(** ** The document *)

(** The position of an incident among the alerts, from 1. *)
Definition alert_number (alerts : list json) (id : pystr) : option Z :=
  fst <$> find_first (fun x => bool_decide (incident_id_of (snd x) = id)) (number_from 1 alerts).

Definition analysis_node (narrative : bool) (r : plan_refs) (incident : json) : option json :=
  let id := incident_id_of incident in
  match assoc id (pr_nodes r) with
  | Some node => Some node
  | None => if narrative then None else Some (JObj [(u "incident_id", JStr id)])
  end.

(** The bookmark of an available analysis block, under its incident. *)
Definition block_target (b : block) : option (pystr * pystr) :=
  match b with
  | AnalysisReference a _ =>
      match an_incident_id a, an_bookmark a with
      | JStr ((_ :: _) as id), JStr ((_ :: _) as bookmark) => if an_available a then Some (id, bookmark) else None
      | _, _ => None
      end
  | _ => None
  end.
(** A dictionary comprehension: the last entry of a key wins. *)
Definition targets_of (blocks : list block) : list (pystr * pystr) := foldl (fun o kv => assoc_set (fst kv) (snd kv) o) [] (omap block_target blocks).

Definition navigation (targets : list (pystr * pystr)) (alerts : list json) : list block :=
  match omap (fun x => target ← assoc (incident_id_of (snd x)) targets;
                       Some (match alert_title (fst x) "Incident" (snd x) with JStr t => t | _ => [] end, target)) (number_from 1 alerts) with
  | [] => []
  | entries => [AlertNavigation entries]
  end.

Definition report_metadata (snapshot : json) : result pyexn (list metadata) :=
  t ← as_invalid (project_shift_time snapshot);
  let shift := jor snapshot.?"shift_display_name" (jor snapshot.?"shift_code" (jor snapshot.?"shift_name" (lit "Shift"))) in
  mret [mk_metadata (lit "Date") (JStr (report_date (st_local_start t))); mk_metadata (lit "Shift") (JStr (py_str shift))].

(** The trusted part of the input. *)
Record frozen_report := mk_frozen {
  fr_canonical : bool;
  fr_policy : policy;
  fr_incidents : list json;              (** [snapshot.get("incidents") or []] *)
  fr_index : list (pystr * json);        (** by id and by display id *)
  fr_unique : list json;
}.
Definition read_snapshot (snapshot : json) : result pyexn frozen_report :=
  coverage ← py_get (u "coverage") JNull snapshot;
  let coverage := jor coverage (JObj []) in
  if negb (is_obj coverage) then Raise (invalid_report (u "report coverage policy must be an object")) else
  let profile := jor snapshot.?"composition_profile" coverage.?"composition_profile" in
  if negb (bool_decide (profile ∈ [JNull; JStr DAILY_REPORT_COMPOSITION_PROFILE])) then
    Raise (invalid_report (u "unsupported report composition profile: " ++ py_str profile)) else
  frozen ← py_iter (jor snapshot.?"incidents" (JList []));
  '(index, unique) ← index_incidents ([], []) frozen;
  mret (mk_frozen (bool_decide (profile = JStr DAILY_REPORT_COMPOSITION_PROFILE)) (read_policy coverage) frozen index unique).

(** A report without its summary. *)
Record frame := mk_frame { fm_alerts : list block; fm_analyses : list block; fm_metadata : list metadata; fm_provenance : list metadata }.
Definition frame_document (f : frame) (summary : list block) : report_document :=
  mk_document (lit "Daily Alert & Log Analysis Report")
    (Heading (lit "Alerts") 1 :: fm_alerts f ++ [PageBreak; Heading (lit "General Summary") 1] ++ summary ++
     [PageBreak; Heading (lit "Log Analysis") 1] ++ fm_analyses f)
    (fm_metadata f) (fm_provenance f).

Definition lay_out (snapshot : json) (fr : frozen_report) (narrative : bool) (r : plan_refs) : result pyexn frame :=
  let alerts := alert_incidents (fr_policy fr) (fr_index fr) (fr_unique fr) r in
  analyses ← each (fun x => analysis_block (snd x) (analysis_node narrative r (snd x))
      (default (fst x) (alert_number alerts (incident_id_of (snd x)))))
    (number_from 1 (analysis_incidents (fr_policy fr) (fr_index fr) (fr_unique fr) r));
  let targets := targets_of analyses in
  incidents ← each (fun x => incident_block (snd x) (fst x) (fr_canonical fr) (jopt (assoc (incident_id_of (snd x)) targets)))
    (number_from 1 alerts);
  metadata ← report_metadata snapshot;
  mret (mk_frame (navigation targets alerts ++ incidents) analyses metadata
    (facts [("Report Skill Snapshot", snapshot.?"report_skill_snapshot_id"); ("Report Execution Hash", snapshot.?"report_skill_execution_hash")]%string)).

(** [compose_report] *)
Definition compose_report (plan snapshot : json) : result pyexn report_document :=
  if negb (is_obj plan) then Raise (invalid_report (u "ReportPlan must be an object")) else
  fr ← read_snapshot snapshot;
  '(narrative, r) ← read_plan (fr_canonical fr) (fr_index fr) (fr_incidents fr) plan;
  check_coverage (fr_policy fr) narrative (fr_unique fr) r;;
  f ← lay_out snapshot fr narrative r;
  mret (frame_document f (pr_summary r)).
End compose.

(** ** What a plan decides *)

Section theorems.
Context `{UnicodeData} `{PyText} `{FloatFormat} `{ZoneDb}.
Notation "j .? k" := (jget_null (u k) j) (at level 8, only parsing).

Lemma narrative_plan canonical index frozen plan s : jget (u "general_summary") plan = Some s ->
  read_plan canonical index frozen plan = (b ← narrative_summary s; mret (true, mk_refs [b] [] [] [])).
Proof. intros Hs. unfold read_plan. by rewrite Hs. Qed.

Lemma jget_obj k j v : jget k j = Some v -> is_obj j = true.
Proof. by destruct j. Qed.

Lemma compose_parts plan snapshot d : compose_report plan snapshot = Ok d <->
  is_obj plan = true /\ exists fr narrative r f, read_snapshot snapshot = Ok fr /\
    read_plan (fr_canonical fr) (fr_index fr) (fr_incidents fr) plan = Ok (narrative, r) /\
    check_coverage (fr_policy fr) narrative (fr_unique fr) r = Ok tt /\
    lay_out snapshot fr narrative r = Ok f /\ d = frame_document f (pr_summary r).
Proof.
  unfold compose_report. destruct (is_obj plan); cbn [negb].
  - rewrite bind_result_ok. split.
    + intros (fr & Hfr & ([narrative r] & Hp & ([] & Hc & (f & Hf & [= <-])%bind_result_ok)%bind_result_ok)%bind_result_ok). by eauto 12.
    + intros [_ (fr & narrative & r & f & Hfr & Hp & Hc & Hf & ->)]. exists fr. split; [done|]. rewrite Hp. cbn [mbind result_bind].
      rewrite Hc. cbn [mbind result_bind]. by rewrite Hf.
  - split; [done|by intros []].
Qed.

(** The model's narrative decides nothing but the summary: when one
    bilingual narrative composes over a frozen snapshot, every other
    well-formed narrative composes over it too, and the two reports share
    every other block, the metadata and the provenance, whatever else the
    plans contain. *)
Theorem plan_writes_only_summary plan snapshot d s : jget (u "general_summary") plan = Some s -> compose_report plan snapshot = Ok d ->
  exists b f, narrative_summary s = Ok b /\ d = frame_document f [b] /\
    forall plan' s' b', jget (u "general_summary") plan' = Some s' -> narrative_summary s' = Ok b' ->
      compose_report plan' snapshot = Ok (frame_document f [b']).
Proof.
  intros Hs (Hobj & fr & narrative & r & f & Hfr & Hp & Hc & Hf & ->)%compose_parts.
  rewrite (narrative_plan _ _ _ _ _ Hs) in Hp. apply bind_result_ok in Hp as (b & Hb & [= <- <-]).
  exists b, f. split_and!; [done|done|]. intros plan' s' b' Hs' Hb'. apply compose_parts. split; [by eapply jget_obj|].
  exists fr, true, (mk_refs [b'] [] [] []), f. rewrite (narrative_plan _ _ _ _ _ Hs'), Hb'. done.
Qed.
End theorems.

(** ** The index of the frozen incidents *)

Section indexed.
Context `{UnicodeData} `{PyText} `{FloatFormat} `{ZoneDb}.
Notation "j .? k" := (jget_null (u k) j) (at level 8, only parsing).
Notation indexed := (prod (list (pystr * json)) (list json)).

(** What indexing keeps: every key leads to an indexed incident, every
    incident is under its identifier, and identifiers differ. *)
Definition index_wf (x : indexed) : Prop :=
  (forall k i, assoc k (fst x) = Some i -> i ∈ snd x) /\
  Forall (fun i => is_Some (assoc (incident_id_of i) (fst x)) /\ is_obj i = true) (snd x) /\ NoDup (map incident_id_of (snd x)).

Lemma assoc_set_some (k k' : pystr) (v : json) o : is_Some (assoc k o) -> is_Some (assoc k (assoc_set k' v o)).
Proof. destruct (decide (k = k')) as [->|Hne]; [intros _; rewrite assoc_set_eq; by eexists|by rewrite assoc_set_ne]. Qed.

Lemma assoc_set_inv (k k' : pystr) (v w : json) o : assoc k (assoc_set k' v o) = Some w -> w = v \/ assoc k o = Some w.
Proof. destruct (decide (k = k')) as [->|Hne]; [rewrite assoc_set_eq; intros [= ->]; by left|rewrite assoc_set_ne by done; by right]. Qed.

Lemma index_wf_set index unique k i : i ∈ unique -> index_wf (index, unique) -> index_wf (assoc_set k i index, unique).
Proof.
  intros Hi (Hin & Hall & Hnd). split_and!; cbn [fst snd] in *; [|eapply Forall_impl; [exact Hall|]; intros j [Hj ?]; split; [by apply assoc_set_some|done]|done].
  intros k' j [->|Hj]%assoc_set_inv; [done|by eapply Hin].
Qed.

Lemma index_incident_ok acc incident acc' : index_wf acc -> index_incident acc incident = Ok acc' ->
  index_wf acc' /\ snd acc' = snd acc ++ [incident].
Proof.
  destruct acc as [index unique]. intros (Hin & Hall & Hnd). unfold index_incident. destruct (is_obj incident) eqn:Ho; [|done]. cbn [andb].
  destruct (jtruthy _); [|done]. cbn [negb]. case_bool_decide as Hnew; [done|].
  assert (Hwf : index_wf (assoc_set (incident_id_of incident) incident index, unique ++ [incident])).
  { cbn [fst snd] in *. split_and!; cbn [fst snd].
    - intros k i [->|Hi]%assoc_set_inv; apply elem_of_app; [right; by left|left; by eapply Hin].
    - apply Forall_app. split; [eapply Forall_impl; [exact Hall|]; intros j [? ?]; split; [by apply assoc_set_some|done]|].
      repeat constructor; [rewrite assoc_set_eq; by eexists|done].
    - rewrite map_app. apply NoDup_app. split_and!; [done| |apply NoDup_singleton].
      cbn [map]. intros x Hx ->%list_elem_of_singleton. apply list_elem_of_fmap in Hx as (i & Hi & Hi').
      rewrite Forall_forall in Hall. apply Hnew. rewrite Hi. by apply Hall. }
  destruct (jtruthy _).
  - case_bool_decide; [done|]. intros [= <-]. split; [|done]. apply index_wf_set; [apply elem_of_app; right; by left|done].
  - by intros [= <-].
Qed.

Lemma index_incidents_ok l : forall acc acc', index_wf acc -> index_incidents acc l = Ok acc' -> index_wf acc' /\ snd acc' = snd acc ++ l.
Proof.
  induction l as [|i l IH]; intros acc acc' Hwf; cbn [index_incidents].
  - intros [= <-]. by rewrite app_nil_r.
  - intros (acc1 & Ha & Hr)%bind_result_ok. apply index_incident_ok in Ha as [Hwf1 Hs]; [|done].
    apply IH in Hr as [? Hr]; [|done]. split; [done|]. by rewrite Hr, Hs, <- app_assoc.
Qed.

(** Of a snapshot that reads: the incidents in their order, none twice. *)
Lemma read_snapshot_ok snapshot fr : read_snapshot snapshot = Ok fr ->
  index_wf (fr_index fr, fr_unique fr) /\ fr_unique fr = fr_incidents fr /\ py_iter (jor snapshot.?"incidents" (JList [])) = Ok (fr_incidents fr).
Proof.
  unfold read_snapshot. intros (coverage & _ & Hr)%bind_result_ok. destruct (negb _); [done|]. destruct (negb _); [done|].
  apply bind_result_ok in Hr as (frozen & Hf & ([index unique] & Hi & Hr)%bind_result_ok). apply Ok_inj in Hr as <-. cbn [fr_index fr_unique fr_incidents].
  apply index_incidents_ok in Hi as [Hwf Hs]; [by split|]. split_and!; [done|constructor|constructor].
Qed.
End indexed.

(** ** The blocks of a report *)

Section blocks.
Context `{UnicodeData} `{PyText} `{FloatFormat} `{ZoneDb}.
Notation "j .? k" := (jget_null (u k) j) (at level 8, only parsing).

Lemma id_subscript incident id : subscript_key (u "id") incident = Ok id -> id = incident.?"id".
Proof.
  unfold subscript_key, jget_null, jget. destruct incident as [| | | | | |o]; try discriminate.
  destruct (assoc (u "id") o); [by intros [= ->]|discriminate].
Qed.

(** The incident and the heading a block stands under. *)
Definition evidence_head (b : block) : option (json * json) :=
  match b with IncidentEvidence e => Some (ie_incident_id e, ie_heading e) | _ => None end.
Definition analysis_of_block (b : block) : option (json * json * json) :=
  match b with AnalysisReference a _ => Some (an_incident_id a, an_heading a, an_run_id a) | _ => None end.
(** Model-written prose. *)
Definition prose (b : block) : bool := match b with Heading _ _ | Paragraph _ _ | BilingualText _ | Divider => true | _ => false end.

(** The screenshots an incident's own record provides. *)
Definition own_shots (incident : json) : list screenshot :=
  match incident_shots incident with Ok l => l | Raise _ => [] end ++
  match explicit_blocks incident.?"analysis" with
  | Some l => match parse_blocks (S (depth_list l)) l with Ok bs => mjoin (map block_shots bs) | Raise _ => [] end
  | None => []
  end.

Lemma incident_block_ok incident n canonical target b : incident_block incident n canonical target = Ok b ->
  exists e, b = IncidentEvidence e /\ ie_incident_id e = JStr (incident_id_of incident) /\
    ie_heading e = alert_title n "Incident" incident /\ ie_navigation_target e = target /\ (forall s, s ∈ ie_screenshots e -> s ∈ own_shots incident).
Proof.
  unfold incident_block. intros (shots & Hs & (id & ->%id_subscript & [= <-])%bind_result_ok)%bind_result_ok.
  eexists. split_and!; try done. cbn [ie_screenshots]. intros s Hin. unfold own_shots. rewrite Hs. apply elem_of_app. by left.
Qed.

Lemma no_shots l : Forall (fun b => block_shots b = []) l -> mjoin (map block_shots l) = [].
Proof. induction 1 as [|b l Hb _ IH]; [done|]. cbn [map]. change (mjoin (?a :: ?b)) with (a ++ mjoin b). by rewrite Hb, IH. Qed.

Lemma language_shots zh analysis bs : language_section zh analysis = Ok bs -> Forall (fun b => block_shots b = []) bs.
Proof.
  unfold language_section, presented_list.
  intros (s & _ & (k & (v & _ & (f & _ & Hk)%bind_result_ok)%bind_result_ok & (k' & (v' & _ & (f' & _ & Hk')%bind_result_ok)%bind_result_ok &
    Hbs)%bind_result_ok)%bind_result_ok)%bind_result_ok.
  apply Ok_inj in Hk as <-. apply Ok_inj in Hk' as <-. apply Ok_inj in Hbs as <-. by repeat constructor.
Qed.

Lemma presentation_shots incident contract bs : build_analysis_presentation incident.?"analysis" contract = Ok bs ->
  forall s, s ∈ mjoin (map block_shots bs) -> s ∈ own_shots incident.
Proof.
  unfold build_analysis_presentation, own_shots. destruct (negb _); [intros [= <-] s Hs; by apply elem_of_nil in Hs|].
  case_bool_decide; [|done]. destruct (explicit_blocks _) as [l|].
  - intros Hp s Hs. rewrite Hp. apply elem_of_app. by right.
  - intros (zh & Hzh & (en & Hen & [= <-])%bind_result_ok)%bind_result_ok s Hs.
    rewrite no_shots in Hs; [by apply elem_of_nil in Hs|]. apply Forall_app. eauto using language_shots.
Qed.

Lemma compact_shots fragment bs : compact_children fragment = Ok bs -> mjoin (map block_shots bs) = [].
Proof.
  unfold compact_children. intros (a & _ & (b & _ & (c & _ & Hr)%bind_result_ok)%bind_result_ok)%bind_result_ok.
  apply Ok_inj in Hr as <-. destruct a, b, c; reflexivity.
Qed.

Lemma as_invalid_ok {A} (r : result pyexn A) a : as_invalid r = Ok a -> r = Ok a.
Proof. unfold as_invalid. destruct r; [done|]. by destruct (is_value_error _). Qed.

Lemma analysis_block_ok incident node n b : analysis_block incident node n = Ok b ->
  exists a c, b = AnalysisReference a c /\ an_incident_id a = JStr (incident_id_of incident) /\ an_heading a = alert_title n "Analysis" incident /\
    an_run_id a = (if jtruthy incident.?"analysis_run_id" then JStr (py_str incident.?"analysis_run_id") else JNull) /\
    (forall s, s ∈ block_shots b -> s ∈ own_shots incident).
Proof.
  unfold analysis_block. intros ([] & _ & (id & ->%id_subscript & Hr)%bind_result_ok)%bind_result_ok.
  destruct (jtruthy incident.?"analysis_run_id") eqn:Hrun; cbn [negb] in Hr.
  2:{ apply Ok_inj in Hr as <-. eexists _, _. split_and!; [exact eq_refl..|]. intros s Hs. by apply elem_of_nil in Hs. }
  apply bind_result_ok in Hr as (fragment & _ & Hr). destruct (negb _ && negb _).
  { apply Ok_inj in Hr as <-. eexists _, _. split_and!; [exact eq_refl..|]. intros s Hs. by apply elem_of_nil in Hs. }
  apply bind_result_ok in Hr as (children & Hc%as_invalid_ok & (children' & Hc' & (shots & Hs & (bm & _ & Hr)%bind_result_ok)%bind_result_ok)%bind_result_ok).
  apply Ok_inj in Hr as <-. eexists _, _. split_and!; [exact eq_refl..|].
  intros s Hin. cbn [block_shots map an_screenshots] in Hin. change (mjoin (?x :: ?y)) with (x ++ mjoin y) in Hin. cbn [block_shots app] in Hin.
  apply elem_of_app in Hin as [Hin|Hin]; [|unfold own_shots; rewrite Hs; apply elem_of_app; by left].
  destruct children as [|c0 cs]; [apply compact_shots in Hc'; rewrite Hc' in Hin; by apply elem_of_nil in Hin|].
  apply Ok_inj in Hc' as <-. by eapply presentation_shots.
Qed.

(** The model's blocks are prose. *)
Lemma narrative_prose v b : narrative_summary v = Ok b -> prose b = true.
Proof. unfold narrative_summary. destruct (negb _); [done|]. by intros (zh & _ & (en & _ & [= <-])%bind_result_ok)%bind_result_ok. Qed.

Lemma parse_node_prose index frozen r node r' : parse_node index frozen r node = Ok r' ->
  Forall (fun b => prose b = true) (pr_summary r) -> Forall (fun b => prose b = true) (pr_summary r').
Proof.
  assert (Hadd : forall b r, prose b = true -> Forall (fun b => prose b = true) (pr_summary r) -> Forall (fun b => prose b = true) (pr_summary (add_prose b r))).
  { intros b r0 Hb Hr. cbn. apply Forall_app. split; [done|by repeat constructor]. }
  unfold parse_node. destruct (is_kind _ _).
  { intros (text & _ & (skip & _ & Hr)%bind_result_ok)%bind_result_ok. destruct skip; [by apply Ok_inj in Hr as <-|].
    apply bind_result_ok in Hr as (n & _ & Hr). apply Ok_inj in Hr as <-. by apply Hadd. }
  do 2 (destruct (is_kind _ _); [intros [= <-]; by apply Hadd|]).
  destruct (is_kind _ _); [destruct (assoc _ index); [by intros [= <-]|done]|].
  destruct (is_kind _ _); [by intros (i & _ & [= <-])%bind_result_ok|].
  destruct (is_kind _ _); [intros [= <-]; by apply Hadd|]. destruct (is_kind _ _); [by intros [= <-]|done].
Qed.

Lemma parse_plan_prose index frozen nodes : forall r r', parse_plan index frozen r nodes = Ok r' ->
  Forall (fun b => prose b = true) (pr_summary r) -> Forall (fun b => prose b = true) (pr_summary r').
Proof.
  induction nodes as [|n nodes IH]; intros r r'; cbn [parse_plan]; [by intros [= <-]|].
  intros (r1 & Hn & Hr)%bind_result_ok Hp. eapply IH; [done|]. by eapply parse_node_prose.
Qed.

Lemma read_plan_prose canonical index frozen plan narrative r : read_plan canonical index frozen plan = Ok (narrative, r) ->
  Forall (fun b => prose b = true) (pr_summary r).
Proof.
  unfold read_plan. destruct (jget _ plan) as [s|].
  - intros (b & Hb & Hr)%bind_result_ok. apply Ok_inj in Hr as [= <- <-]. repeat constructor. by eapply narrative_prose.
  - destruct canonical; [done|]. destruct plan.?"blocks"; try done.
    intros (r1 & Hp & Hr)%bind_result_ok. apply Ok_inj in Hr as [= <- <-]. eapply parse_plan_prose; [done|constructor].
Qed.
End blocks.

(** ** Coverage of the frozen report *)

Section covered.
Context `{UnicodeData} `{PyText} `{FloatFormat} `{ZoneDb}.
Notation "j .? k" := (jget_null (u k) j) (at level 8, only parsing).

Lemma each_elem {A B} (f : A -> result pyexn B) l ys y : each f l = Ok ys -> y ∈ ys -> exists x, x ∈ l /\ f x = Ok y.
Proof. rewrite each_ok. induction 1 as [|x z l ys Hx _ IH]; [by intros ?%elem_of_nil|]. set_solver. Qed.

Lemma each_omap {A B C} (f : A -> result pyexn B) (g : B -> option C) (h : A -> C) l ys :
  each f l = Ok ys -> (forall x y, x ∈ l -> f x = Ok y -> g y = Some (h x)) -> omap g ys = map h l.
Proof.
  rewrite each_ok. induction 1 as [|x y l ys Hx _ IH]; intros Hg; [done|]. cbn [omap list_omap map].
  rewrite (Hg x y ltac:(by left) Hx). f_equal. apply IH. intros. by apply Hg; [right|].
Qed.

Lemma each_omap_none {A B C} (f : A -> result pyexn B) (g : B -> option C) l ys :
  each f l = Ok ys -> (forall x y, f x = Ok y -> g y = None) -> omap g ys = [].
Proof. rewrite each_ok. induction 1 as [|x y l ys Hx _ IH]; intros Hg; [done|]. cbn [omap list_omap]. by rewrite (Hg x y Hx), IH. Qed.

Lemma omap_none {A B} (g : A -> option B) l : Forall (fun x => g x = None) l -> omap g l = [].
Proof. induction 1 as [|x l Hx _ IH]; [done|]. cbn [omap list_omap]. by rewrite Hx. Qed.

Lemma number_from_elem {A} (l : list A) : forall i n x, (n, x) ∈ number_from i l -> x ∈ l /\ (i <= n)%Z.
Proof.
  induction l as [|y l IH]; intros i n x; cbn [number_from]; [by intros ?%elem_of_nil|].
  intros [[= -> ->]|Hx]%elem_of_cons; [split; [by left|lia]|]. apply IH in Hx as [? ?]. split; [by right|lia].
Qed.

Lemma number_from_filter {A} (p : A -> bool) (l : list A) : forall i,
  filter (fun x => p x = true) l = map snd (filter (fun x => p (snd x) = true) (number_from i l)).
Proof. induction l as [|x l IH]; intros i; [done|]. cbn [number_from]. rewrite !filter_cons. cbn [snd]. case_decide; cbn [map snd]; by rewrite (IH (i + 1)%Z). Qed.

Lemma alert_number_at (l : list json) n x : NoDup (map incident_id_of l) -> (n, x) ∈ number_from 1 l -> alert_number l (incident_id_of x) = Some n.
Proof.
  unfold alert_number. generalize 1%Z. induction l as [|y l IH]; intros i Hnd Hx; cbn [number_from find_first] in *; [by apply elem_of_nil in Hx|].
  cbn [snd map] in *. apply NoDup_cons in Hnd as [Hy Hnd]. apply elem_of_cons in Hx as [[= -> ->]|Hx]; [by rewrite bool_decide_eq_true_2|].
  rewrite bool_decide_eq_false_2; [by apply IH|]. intros E. apply Hy. rewrite E. apply number_from_elem in Hx as [Hx _].
  by apply (list_elem_of_fmap_2 incident_id_of).
Qed.

Lemma map_number_from {A B} (f : A -> B) l : forall i, map (fun x => f (snd x)) (number_from i l) = map f l.
Proof. induction l as [|x l IH]; intros i; [done|]. cbn [number_from map snd]. by rewrite IH. Qed.

(** An analysis that is presented is one of the alerts' incidents, under their number. *)
Lemma numbered_analyses {B} (f : Z -> json -> B) (p : json -> bool) l : NoDup (map incident_id_of l) ->
  map (fun x => f (default (fst x) (alert_number l (incident_id_of (snd x)))) (snd x)) (number_from 1 (filter (fun i => p i = true) l)) =
  map (fun x => f (fst x) (snd x)) (filter (fun x => p (snd x) = true) (number_from 1 l)).
Proof.
  intros Hnd.
  assert (E : forall k, map (fun x => f (default (fst x) (alert_number l (incident_id_of (snd x)))) (snd x)) (number_from k (filter (fun i => p i = true) l)) =
    map (fun x => f (default (fst x) (alert_number l (incident_id_of (snd x)))) (snd x)) (filter (fun x => p (snd x) = true) (number_from 1 l))).
  { rewrite (number_from_filter p l 1).
    assert (Hsub : forall x, x ∈ filter (fun x => p (snd x) = true) (number_from 1 l) -> x ∈ number_from 1 l) by (intros x [_ ?]%list_elem_of_filter; done).
    revert Hsub. generalize (filter (fun x => p (snd x) = true) (number_from 1 l)). intros q Hq k. revert k Hq.
    induction q as [|[n x] q IH]; intros k Hq; [done|]. cbn [map number_from fst snd].
    rewrite (alert_number_at l n x) by (done || apply Hq; by left). cbn [default]. f_equal. apply IH. intros y Hy. apply Hq. by right. }
  rewrite E. apply map_ext_in. intros [n x] Hx%list_elem_of_In. apply list_elem_of_filter in Hx as [_ Hx]. cbn [fst snd]. by rewrite (alert_number_at l n x).
Qed.

Lemma targets_elem blocks id t : assoc id (targets_of blocks) = Some t -> (id, t) ∈ omap block_target blocks.
Proof.
  unfold targets_of. generalize (omap block_target blocks). intros l.
  assert (Hgen : forall o, assoc id (foldl (fun o kv => assoc_set (fst kv) (snd kv) o) o l) = Some t -> (id, t) ∈ l \/ assoc id o = Some t).
  { induction l as [|[k v] l IH]; intros o; cbn [foldl]; [by right|]. intros [Ht|Ht]%IH; [left; by right|]. cbn [fst snd] in Ht.
    destruct (decide (id = k)) as [->|Hne]; [rewrite assoc_set_eq in Ht; simplify_eq; left; by left|rewrite assoc_set_ne in Ht by done; by right]. }
  intros [Ht|Ht]%Hgen; [done|discriminate].
Qed.
End covered.

Section complete.
Context `{UnicodeData} `{PyText} `{FloatFormat} `{ZoneDb}.
Notation "j .? k" := (jget_null (u k) j) (at level 8, only parsing).

Lemma lay_out_ok snapshot fr narrative r f : lay_out snapshot fr narrative r = Ok f ->
  let alerts := alert_incidents (fr_policy fr) (fr_index fr) (fr_unique fr) r in
  exists incidents, fm_alerts f = navigation (targets_of (fm_analyses f)) alerts ++ incidents /\
    each (fun x => analysis_block (snd x) (analysis_node narrative r (snd x)) (default (fst x) (alert_number alerts (incident_id_of (snd x)))))
      (number_from 1 (analysis_incidents (fr_policy fr) (fr_index fr) (fr_unique fr) r)) = Ok (fm_analyses f) /\
    each (fun x => incident_block (snd x) (fst x) (fr_canonical fr) (jopt (assoc (incident_id_of (snd x)) (targets_of (fm_analyses f)))))
      (number_from 1 alerts) = Ok incidents.
Proof.
  unfold lay_out. intros (analyses & Ha & (incidents & Hi & (meta & _ & Hr)%bind_result_ok)%bind_result_ok)%bind_result_ok.
  apply Ok_inj in Hr as <-. by exists incidents.
Qed.

(** What a document shows under a projection that sees evidence and analyses only. *)
Lemma omap_frame {A} (g : block -> option A) f summary : (forall b, prose b = true \/ b = PageBreak \/ (exists l, b = AlertNavigation l) -> g b = None) ->
  Forall (fun b => prose b = true) summary -> omap g (rd_blocks (frame_document f summary)) = omap g (fm_alerts f) ++ omap g (fm_analyses f).
Proof.
  intros Hg Hs. cbn [rd_blocks frame_document]. cbn [omap list_omap]. rewrite (Hg (Heading _ _)) by (by left). rewrite omap_app. f_equal.
  cbn [app omap list_omap]. rewrite !Hg by auto. rewrite omap_app.
  rewrite omap_none; [|eapply Forall_impl; [exact Hs|]; intros b Hb; apply Hg; by left]. cbn [app omap list_omap]. by rewrite !Hg by auto.
Qed.

Lemma omap_navigation {A} (g : block -> option A) targets alerts : (forall l, g (AlertNavigation l) = None) -> omap g (navigation targets alerts) = [].
Proof. intros Hg. unfold navigation. destruct (omap _ (number_from 1 alerts)) as [|x l]; [done|]. cbn [omap list_omap]. by rewrite (Hg (x :: l)). Qed.

Lemma incidents_of_frozen fr r i : index_wf (fr_index fr, fr_unique fr) -> fr_unique fr = fr_incidents fr ->
  i ∈ alert_incidents (fr_policy fr) (fr_index fr) (fr_unique fr) r \/ i ∈ analysis_incidents (fr_policy fr) (fr_index fr) (fr_unique fr) r ->
  i ∈ fr_incidents fr.
Proof.
  intros (Hidx & _) Heq. cbn [fst snd] in Hidx. unfold alert_incidents, analysis_incidents, named_incidents, with_analysis.
  rewrite <- Heq. intros [Hi|Hi].
  - destruct (all_incidents _); [done|]. apply list_elem_of_omap in Hi as (k & _ & Hk). by eapply Hidx.
  - destruct (all_analyses _); [by apply list_elem_of_filter in Hi as [_ ?]|]. apply list_elem_of_omap in Hi as (k & _ & Hk). by eapply Hidx.
Qed.

Lemma shots_in (blocks : list block) s : s ∈ mjoin (map block_shots blocks) <-> exists b, b ∈ blocks /\ s ∈ block_shots b.
Proof.
  rewrite list_elem_of_join. split; [intros (l & Hs & (b & -> & Hb)%list_elem_of_fmap); eauto|].
  intros (b & Hb & Hs). exists (block_shots b). split; [done|]. by apply (list_elem_of_fmap_2 block_shots).
Qed.

(** A plan authorises no read: every stored image of a composed report
    is one that a frozen incident of the snapshot provides itself, among its
    screenshots or in the blocks of its own stored analysis. *)
Lemma composed_shots_own plan snapshot fr d : read_snapshot snapshot = Ok fr -> compose_report plan snapshot = Ok d ->
  forall s, s ∈ document_shots d -> exists i, i ∈ fr_incidents fr /\ s ∈ own_shots i.
Proof.
  intros Hsn (_ & fr' & narrative & r & f & Hfr & Hp & _ & Hf & ->)%compose_parts s Hs. rewrite Hsn in Hfr. injection Hfr as <-.
  apply read_snapshot_ok in Hsn as (Hwf & Heq & _). apply read_plan_prose in Hp. apply lay_out_ok in Hf as (incidents & Hal & Han & Hinc).
  unfold document_shots in Hs. apply shots_in in Hs as (b & Hb & Hs). cbn [rd_blocks frame_document] in Hb.
  rewrite Hal in Hb. rewrite !elem_of_cons, !elem_of_app, !elem_of_cons in Hb.
  assert (Hprose : prose b = true -> False) by (intros E; destruct b; try discriminate; by apply elem_of_nil in Hs).
  rewrite Forall_forall in Hp.
  destruct Hb as [->|[[Hb|Hb]|[[->|[->|Hb]]|[Hb|[[->|[->|Hb]]|Hb]]]]]; try (by apply elem_of_nil in Hs); try (by apply elem_of_nil in Hb).
  - unfold navigation in Hb. destruct (omap _ _); [by apply elem_of_nil in Hb|]. apply list_elem_of_singleton in Hb as ->. by apply elem_of_nil in Hs.
  - destruct (each_elem _ _ _ _ Hinc Hb) as ([n i] & Hi & He). apply number_from_elem in Hi as [Hi _]. cbn [fst snd] in He.
    apply incident_block_ok in He as (e & -> & _ & _ & _ & Hown). exists i. split; [|by apply Hown]. eapply incidents_of_frozen; eauto.
  - by destruct (Hprose (Hp b Hb)).
  - destruct (each_elem _ _ _ _ Han Hb) as ([n i] & Hi & He). apply number_from_elem in Hi as [Hi _]. cbn [fst snd] in He.
    apply analysis_block_ok in He as (a & c & _ & _ & _ & _ & Hown). exists i. split; [|by apply Hown]. eapply incidents_of_frozen; eauto.
Qed.

(** C26. Under the coverage of the daily report (all incidents, all available
    analyses) the report shows every frozen incident once, in the snapshot's
    order and numbered from 1, and then the analysis of every incident that
    has a run, under its incident's number and with that run; a link of an
    incident leads to the bookmark of its own analysis. *)
Theorem complete_report_covers plan snapshot fr d : read_snapshot snapshot = Ok fr ->
  all_incidents (fr_policy fr) = true -> all_analyses (fr_policy fr) = true -> compose_report plan snapshot = Ok d ->
  NoDup (map incident_id_of (fr_incidents fr)) /\
  omap evidence_head (rd_blocks d) =
    map (fun x => (JStr (incident_id_of (snd x)), alert_title (fst x) "Incident" (snd x))) (number_from 1 (fr_incidents fr)) /\
  omap analysis_of_block (rd_blocks d) =
    map (fun x => (JStr (incident_id_of (snd x)), alert_title (fst x) "Analysis" (snd x), JStr (py_str (snd x).?"analysis_run_id")))
      (filter (fun x => jtruthy (snd x).?"analysis_run_id" = true) (number_from 1 (fr_incidents fr))) /\
  forall e, IncidentEvidence e ∈ rd_blocks d -> ie_navigation_target e <> JNull ->
    exists a c, AnalysisReference a c ∈ rd_blocks d /\ an_available a = true /\ an_incident_id a = ie_incident_id e /\
      an_bookmark a = ie_navigation_target e.
Proof.
  intros Hsn Hall Hana (_ & fr' & narrative & r & f & Hfr & Hp & _ & Hf & ->)%compose_parts. rewrite Hsn in Hfr. injection Hfr as <-.
  apply read_snapshot_ok in Hsn as ((_ & _ & Hnd) & Heq & _). cbn [fst snd] in Hnd. rewrite Heq in *. apply read_plan_prose in Hp.
  apply lay_out_ok in Hf as (incidents & Hal & Han & Hinc). unfold alert_incidents, analysis_incidents in *. rewrite Hall, Hana, Heq in *.
  split; [exact Hnd|]. split; [|split].
  - rewrite omap_frame; [|by intros [] [|[|[]]]|done]. rewrite Hal, omap_app, omap_navigation by done. cbn [app].
    rewrite (each_omap_none _ _ _ _ Han), app_nil_r; [|intros x y (a & c & -> & _)%analysis_block_ok; done].
    eapply (each_omap _ _ _ _ _ Hinc). intros x y _ (e & -> & Hid & Hh & _)%incident_block_ok. cbn. by rewrite Hid, Hh.
  - rewrite omap_frame; [|by intros [] [|[|[]]]|done]. rewrite Hal, omap_app, omap_navigation by done.
    rewrite (each_omap_none _ _ _ _ Hinc); [|intros x y (e & -> & _)%incident_block_ok; done]. cbn [app].
    etransitivity; [|exact (numbered_analyses (fun n i => (JStr (incident_id_of i), alert_title n "Analysis" i, JStr (py_str i.?"analysis_run_id")))
      (fun i => jtruthy i.?"analysis_run_id") (fr_incidents fr) Hnd)].
    eapply (each_omap _ _ _ _ _ Han). intros [n i] y Hx (a & c & -> & Hid & Hh & Hr & _)%analysis_block_ok.
    apply number_from_elem in Hx as [Hx _]. apply list_elem_of_filter in Hx as [Hrun _]. cbn [fst snd] in *. rewrite Hrun in Hr.
    cbn [analysis_of_block]. by rewrite Hid, Hh, Hr.
  - intros e He Ht. assert (Hin : IncidentEvidence e ∈ incidents).
    { cbn [rd_blocks frame_document] in He. rewrite Hal in He. rewrite !elem_of_cons, !elem_of_app, !elem_of_cons in He. rewrite Forall_forall in Hp.
      destruct He as [|[[He|He]|[[|[|He]]|[He|[[|[|He]]|He]]]]]; try discriminate; try (by apply elem_of_nil in He); try done.
      - unfold navigation in He. destruct (omap _ _); [by apply elem_of_nil in He|]. by apply list_elem_of_singleton in He.
      - by apply Hp in He.
      - destruct (each_elem _ _ _ _ Han He) as (x & _ & Hx). by apply analysis_block_ok in Hx as (a & c & ? & _). }
    destruct (each_elem _ _ _ _ Hinc Hin) as ([n i] & _ & Hx). apply incident_block_ok in Hx as (e' & [= <-] & Hid & _ & Htgt & _). cbn [fst snd] in *.
    rewrite Hid, Htgt in *. destruct (assoc _ _) as [t|] eqn:Hasc; [|done]. apply targets_elem in Hasc.
    apply list_elem_of_omap in Hasc as (b & Hb & Hbt). destruct b as [| | | | | | | | | | | | |a c]; try discriminate. cbn [block_target] in Hbt.
    exists a, c. split_and!.
    + cbn [rd_blocks frame_document]. set_solver.
    + by repeat (case_match; try discriminate).
    + repeat (case_match; try discriminate). congruence.
    + repeat (case_match; try discriminate). cbn [jopt]. congruence.
Qed.
End complete.

(** ** A report *)

Definition utc_zone : ZoneDb := {| zone_known _ := Ok tt; zone_not_found _ := true; astimezone _ t := Ok t |}.
Definition int_commas : FloatFormat := {| float_comma _ := u "1.0" |}.

Definition sample_shot (bucket key : string) : json := JObj [(u "bucket", lit bucket); (u "object_key", lit key); (u "filename", lit "shot.png")].
Definition sample_analysis : json := JObj [
  (u "summary_zh", lit "x"); (u "summary_en", lit "Connections failed."); (u "report_presentation", JObj [(u "blocks", JList [
    JObj [(u "type", lit "paragraph"); (u "text", lit "Timeline")];
    jset (u "type") (lit "screenshot") (sample_shot "evidence" "other")])])].
Definition sample_incidents : list json := [
  JObj [(u "id", lit "i1"); (u "display_id", lit "INC-1"); (u "title", lit "Disk"); (u "screenshots", JList [sample_shot "evidence" "k1"])];
  JObj [(u "id", lit "i2"); (u "display_id", lit "INC-2"); (u "title", lit "Database"); (u "analysis_run_id", lit "r2"); (u "analysis", sample_analysis)]].
Definition sample_snapshot : json := JObj [
  (u "shift_timezone", lit "UTC"); (u "shift_starts_at", lit "2025-03-01T08:00:00+00:00"); (u "shift_code", lit "DAY");
  (u "coverage", JObj [(u "composition_profile", JStr DAILY_REPORT_COMPOSITION_PROFILE); (u "incidents", lit "all"); (u "analyses", lit "all_available")]);
  (u "incidents", JList sample_incidents)].
Definition sample_narrative (en : string) : json := JObj [(u "zh", lit "x"); (u "en", lit en)].
Definition sample_plan (en : string) : json := JObj [(u "general_summary", sample_narrative en)].
#[local] Notation sample_report := (@compose_report cjk_unicode no_text int_commas utc_zone (sample_plan "Quiet.") sample_snapshot) (only parsing).
#[local] Notation sample_frozen := (read_snapshot sample_snapshot) (only parsing).

Lemma sample_report_ok : is_ok sample_report = true /\ is_ok (@read_snapshot no_text sample_snapshot) = true.
Proof. vm_compute. by split. Qed.

Lemma plan_writes_only_summary_witness : exists d, sample_report = Ok d /\
  exists b f, narrative_summary (sample_narrative "Quiet.") = Ok b /\ d = frame_document f [b] /\
    @compose_report cjk_unicode no_text int_commas utc_zone (sample_plan "Loud.") sample_snapshot =
      Ok (frame_document f [BilingualText (mk_bilingual (lit "x") (lit "Loud.") (lit "Chinese Summary") (lit "English Summary"))]).
Proof.
  destruct (is_ok_inv sample_report (proj1 sample_report_ok)) as [d Hd]. exists d. split; [exact Hd|].
  destruct (@plan_writes_only_summary cjk_unicode no_text int_commas utc_zone (sample_plan "Quiet.") sample_snapshot d (sample_narrative "Quiet.")
    ltac:(vm_compute; reflexivity) Hd) as (b & f & Hb & Hdoc & Hother).
  exists b, f. split; [exact Hb|]. split; [exact Hdoc|].
  apply (Hother (sample_plan "Loud.") (sample_narrative "Loud.")); vm_compute; reflexivity.
Defined.

Lemma complete_report_covers_witness : exists fr d, @read_snapshot no_text sample_snapshot = Ok fr /\ sample_report = Ok d /\
  omap evidence_head (rd_blocks d) =
    map (fun x => (JStr (@incident_id_of no_text (snd x)), @alert_title no_text (fst x) "Incident" (snd x))) (number_from 1 (fr_incidents fr)).
Proof.
  destruct (is_ok_inv sample_report (proj1 sample_report_ok)) as [d Hd]. destruct (is_ok_inv _ (proj2 sample_report_ok)) as [fr Hfr].
  exists fr, d. split; [exact Hfr|]. split; [exact Hd|].
  assert (Hpolicy : match @read_snapshot no_text sample_snapshot with Ok fr => all_incidents (fr_policy fr) && all_analyses (fr_policy fr) | _ => false end = true)
    by (vm_compute; reflexivity).
  rewrite Hfr in Hpolicy. apply andb_true_iff in Hpolicy as [Hi Ha].
  exact (proj1 (proj2 (@complete_report_covers cjk_unicode no_text int_commas utc_zone (sample_plan "Quiet.") sample_snapshot fr d Hfr Hi Ha Hd))).
Defined.

(** The second incident has no screenshot; the image of its analysis is the
    object that the stored answer of the model names. *)
Lemma analysis_names_its_image : match sample_report with Ok d => map (fun s => sc_object_key s) (document_shots d) | Raise _ => [] end =
  [lit "k1"; lit "other"].
Proof. vm_compute. reflexivity. Qed.
