(* ===== verification/DocxRender.v ===== *)
(** * Rendering a report

    [bridge/noc_bridge/docx_render.py]: what a document becomes in the word
    processor file, its text, links, bookmarks, images and their sizes.

    The file library is the interface [DocxLib]: what it accepts, the header
    of an image and the bytes it saves.  Fonts, colours, spacing, borders and
    shading are left out. *)

From Stdlib Require Import SpecFloat.
From S2P Require Import Prelude PyStr Json Failures PyVal Regex Hermes Snapshots ReportDocument.

(** ** The file *)

Inductive inline :=
  | Text (t : json)
  | ExternalLink (url text : json)
  | InternalLink (target text : json)
  | Picture (data : list Z) (width height : Z)   (** in English metric units *)
  | BookmarkStart (id : pystr) (name : json)
  | BookmarkEnd (id : pystr).
Inductive item :=
  | HeadingItem (level : Z) (content : list inline)
  | ParagraphItem (style : json) (content : list inline)
  | PageBreakItem
  | TableItem (rows : list (list (list inline))).
Record docx := mk_docx { dx_header : json; dx_footer : list json; dx_body : list item }.

Record image_header := mk_image { im_width : Z; im_height : Z; im_horizontal : Z; im_vertical : Z }.

(** [python-docx]: whether a value is accepted as text, as a paragraph style,
    as a heading level, as the address of a link and as an attribute; the
    header of an image; adding it; and the saved file. *)
Class DocxLib := {
  docx_text : json -> result pyexn ();
  docx_style : json -> result pyexn ();
  docx_level : Z -> result pyexn ();
  docx_url : json -> result pyexn ();
  docx_attribute : json -> result pyexn ();
  image_size : list Z -> result pyexn image_header;
  docx_picture : list Z -> Z -> Z -> result pyexn ();
  docx_save : docx -> result pyexn (list Z);
}.

Definition EMU_PER_INCH : Z := 914400.
Definition SINGLE_MAX_WIDTH_IN : spec_float := float_of_ratio 49 10.
Definition SINGLE_MAX_HEIGHT_IN : spec_float := float_of_ratio 34 10.
Definition PAIR_MAX_WIDTH_IN : spec_float := float_of_ratio 30 10.
Definition PAIR_MAX_HEIGHT_IN : spec_float := float_of_ratio 32 10.

(** ** Arithmetic *)

Definition zero_division : pyexn := mk_exn (ForeignError (u "ZeroDivisionError") false) (u "division by zero").
Definition float_div (x y : spec_float) : result pyexn spec_float :=
  match y with S754_zero _ => Raise zero_division | _ => Ok (SFdiv 53 1024 x y) end.
(** [n / d] *)
Definition int_div (n d : Z) : result pyexn spec_float :=
  if (d =? 0)%Z then Raise zero_division else Ok (if (d <? 0)%Z then SFopp (float_of_ratio n (- d)) else float_of_ratio n d).
(** [round(x)]: halves to even *)
Definition round_float (x : spec_float) : result pyexn Z :=
  match x with
  | S754_finite s m e => let q := if (0 <=? e)%Z then (Zpos m * 2 ^ e)%Z else div_half_even (Zpos m) (2 ^ (- e)) in Ok (if s then - q else q)%Z
  | _ => trunc_float x
  end.
Definition float_min (x y : spec_float) : spec_float := if SFltb y x then y else x.

(** ** Images *)

(** [screenshot_fetcher]: bucket, key, version, expected checksum. *)
Definition fetcher : Type := json -> json -> json -> json -> result pyexn (list Z).

Section render.
Context `{UnicodeData} `{PyText} `{DocxLib}.
Context (screenshot_fetcher : option fetcher) (include_provenance : bool).

Definition integrity (msg : pystr) : pyexn := mk_exn EvidenceIntegrityError msg.
Definition shot_name (shot : screenshot) : json := jor (sc_filename shot) (sc_object_key shot).

(** [_fetch_screenshot] *)
Definition fetch_screenshot (shot : screenshot) : result pyexn (list Z) :=
  match screenshot_fetcher with
  | None => Raise (integrity (u "no screenshot fetcher for frozen evidence: " ++ py_str (shot_name shot)))
  | Some fetch =>
      data ← (match fetch (sc_bucket shot) (sc_object_key shot) (sc_version_id shot) (sc_sha256 shot) with
              | Raise e => if bool_decide (x_class e = TypeError) then fetch (sc_bucket shot) (sc_object_key shot) JNull JNull else Raise e
              | ok => ok end);
      match data with
      | [] => Raise (mk_exn EvidenceRetrievalError (u "frozen screenshot could not be retrieved: " ++ py_str (sc_bucket shot) ++ u "/" ++ py_str (sc_object_key shot)))
      | _ => Ok data
      end
  end.

(** [_scaled_dimensions] *)
Definition scaled_dimensions (data : list Z) (max_width max_height : spec_float) : result pyexn (Z * Z) :=
  image ← image_size data;
  let dpi n := float_of_int (if (n =? 0)%Z then 96 else n) in
  width ← float_div (float_of_int (im_width image)) (dpi (im_horizontal image));
  height ← float_div (float_of_int (im_height image)) (dpi (im_vertical image));
  sx ← float_div max_width width; sy ← float_div max_height height;
  let scale := float_min (float_min sx sy) (float_of_int 1) in
  let emu x := round_float (float_mul (float_mul x scale) (float_of_int EMU_PER_INCH)) in
  w ← emu width; h ← emu height; mret (w, h).

(** [_add_picture_dimensions] and [_add_picture] *)
Definition add_picture_dimensions (data : list Z) (width height : Z) : result pyexn inline :=
  docx_picture data width height;; mret (Picture data width height).
Definition add_picture (data : list Z) (max_width max_height : spec_float) : result pyexn inline :=
  '(width, height) ← scaled_dimensions data max_width max_height; add_picture_dimensions data width height.

(** [except Exception as exc: raise EvidenceIntegrityError(msg) from exc] *)
Definition or_integrity {A} (msg : pystr) (r : result pyexn A) : result pyexn A := match r with Ok a => Ok a | Raise _ => Raise (integrity msg) end.

(** [_add_screenshot] *)
Definition add_screenshot (shot : screenshot) : result pyexn item :=
  data ← fetch_screenshot shot;
  or_integrity (u "frozen screenshot is not a valid image: " ++ py_str (shot_name shot))
    (p ← add_picture data SINGLE_MAX_WIDTH_IN SINGLE_MAX_HEIGHT_IN; mret (ParagraphItem JNull [p])).

(** [_screenshot_label] *)
Definition screenshot_label (shot : screenshot) (index : Z) : result pyexn json :=
  match shot_name shot with
  | JStr s =>
      let name := casefold s in
      Ok (JStr (if contains (u "recover") name then u "Recovered" else if contains (u "trigger") name then u "Triggered"
                else u "Screenshot " ++ py_str_int index))
  | j => Raise (attribute_error (u "'" ++ type_name j ++ u "' object has no attribute 'casefold'"))
  end.

Definition stacked (shot : screenshot) (data : list Z) (index : Z) : result pyexn (list item) :=
  label ← screenshot_label shot index; docx_text label;;
  p ← add_picture data SINGLE_MAX_WIDTH_IN SINGLE_MAX_HEIGHT_IN; mret [ParagraphItem JNull [Text label]; ParagraphItem JNull [p]].
Definition table_column (common_height : Z) (shot : screenshot) (data : list Z) (size : Z * Z) (index : Z) : result pyexn (list inline * list inline) :=
  label ← screenshot_label shot index; docx_text label;;
  q ← int_div (fst size * common_height) (snd size); width ← round_float q;
  p ← add_picture_dimensions data width common_height; mret ([Text label], [p]).
(** Two images side by side, or above each other when one is very narrow. *)
Definition add_pair (shot1 shot2 : screenshot) (data1 data2 : list Z) : result pyexn (list item) :=
  size1 ← scaled_dimensions data1 PAIR_MAX_WIDTH_IN PAIR_MAX_HEIGHT_IN; size2 ← scaled_dimensions data2 PAIR_MAX_WIDTH_IN PAIR_MAX_HEIGHT_IN;
  let narrow (size : Z * Z) := SFltb (float_of_ratio (fst size) EMU_PER_INCH) (float_of_ratio 215 100) in
  if narrow size1 || narrow size2 then
    first ← stacked shot1 data1 1; second ← stacked shot2 data2 2; mret (first ++ second)
  else
    let common_height := Z.min (snd size1) (snd size2) in
    '(label1, cell1) ← table_column common_height shot1 data1 size1 1;
    '(label2, cell2) ← table_column common_height shot2 data2 size2 2;
    mret [TableItem [[label1; label2]; [cell1; cell2]]].

(** [_add_screenshots] *)
Definition add_screenshots (shots : list screenshot) : result pyexn (list item) :=
  match shots with
  | [shot1; shot2] =>
      data1 ← fetch_screenshot shot1; data2 ← fetch_screenshot shot2;
      or_integrity (u "frozen screenshot pair contains an invalid image") (add_pair shot1 shot2 data1 data2)
  | _ => each add_screenshot shots
  end.

(** ** Paragraphs *)

Definition str_text (t : pystr) : result pyexn inline := docx_text (JStr t);; mret (Text (JStr t)).
Definition text (t : json) : result pyexn inline := docx_text t;; mret (Text t).
Definition add_paragraph (t : json) : result pyexn item := i ← text t; mret (ParagraphItem JNull [i]).
Definition add_heading (t : json) (level : Z) : result pyexn item := docx_level level;; i ← text t; mret (HeadingItem level [i]).

(** [_add_hyperlink] and [_add_internal_hyperlink] *)
Definition add_hyperlink (url t : json) : result pyexn inline := docx_url url;; docx_text t;; mret (ExternalLink url t).
Definition add_internal_hyperlink (target t : json) : result pyexn inline := docx_attribute target;; docx_text t;; mret (InternalLink target t).

(** [int(s, 16)], its digits and its prefix *)
Definition hex_digit (c : Z) : option Z :=
  if uni_digit c then Some (uni_decimal c)
  else if (97 <=? c)%Z && (c <=? 102)%Z then Some (c - 87)%Z else if (65 <=? c)%Z && (c <=? 70)%Z then Some (c - 55)%Z else None.
Fixpoint hex_digits (acc : Z) (fresh : bool) (s : pystr) : option Z :=
  match s with
  | [] => if fresh then None else Some acc
  | c :: s => match hex_digit c with
              | Some d => hex_digits (acc * 16 + d) false s
              | None => if (c =? 95)%Z && negb fresh then hex_digits acc true s else None
              end
  end.
Definition hex_unsigned (s : pystr) : option Z :=
  match s with
  | 48%Z :: c :: s' => if (c =? 120)%Z || (c =? 88)%Z then hex_digits 0 true (match s' with 95%Z :: s' => s' | _ => s' end) else hex_digits 0 true s
  | _ => hex_digits 0 true s
  end.
Definition hex_int (s : pystr) : option Z :=
  match strip s with 45%Z :: d => Z.opp <$> hex_unsigned d | 43%Z :: d => hex_unsigned d | d => hex_unsigned d end.

(** [name.rsplit("_", 1)[-1]] *)
Fixpoint until_underscore (s : pystr) : pystr := match s with [] => [] | c :: s => if (c =? 95)%Z then [] else c :: until_underscore s end.
Definition after_last_underscore (s : pystr) : pystr := reverse (until_underscore (reverse s)).

(** [_add_bookmark] around the content of a paragraph *)
Definition bookmark_id (name : json) : result pyexn pystr :=
  match name with
  | JStr s => if decide (s = u "alerts_start") then Ok (u "0")
              else match hex_int (after_last_underscore s) with
                   | Some n => Ok (py_str_int n)
                   | None => Raise (value_error (u "invalid literal for int() with base 16"))
                   end
  | j => Raise (attribute_error (u "'" ++ type_name j ++ u "' object has no attribute 'rsplit'"))
  end.
Definition add_bookmark (name : json) (content : list inline) : result pyexn (list inline) :=
  id ← bookmark_id name; docx_attribute name;; mret (BookmarkStart id name :: content ++ [BookmarkEnd id]).

(** [_add_link_paragraph], [_add_log_file] *)
Definition add_link_paragraph (l : link) : result pyexn item :=
  i ← add_hyperlink (lk_url l) (jor (lk_prefix l) (lk_label l)); mret (ParagraphItem JNull [i]).
Definition add_log_file (l : log_file) : result pyexn item :=
  label ← str_text (u "Log File: ");
  i ← (if jtruthy (lf_url l) then add_hyperlink (lf_url l) (lf_filename l) else text (lf_filename l));
  mret (ParagraphItem JNull [label; i]).

(** [_add_alert_navigation] *)
Definition add_alert_navigation (entries : list (pystr * pystr)) : result pyexn (list item) :=
  docx_level 3;; i ← str_text (u "Alert Navigation"); content ← add_bookmark (JStr (u "alerts_start")) [i];
  links ← each (fun e => docx_style (JStr (u "List Bullet"));;
    i ← add_internal_hyperlink (JStr (snd e)) (JStr (fst e)); mret (ParagraphItem (JStr (u "List Bullet")) [i])) entries;
  mret (HeadingItem 3 content :: links).

(** [_add_finds] *)
Definition find_stats (zh : bool) (stat : json) : pystr :=
  if jtruthy stat then (if zh then u "（" ++ py_str stat ++ u "）" else u " (" ++ py_str stat ++ u ")") else [].
Definition add_find (zh : bool) (i : Z) (f : find) : result pyexn item :=
  number ← str_text (py_str_int i ++ u ". "); label ← text (fd_label f);
  stats ← (match find_stats zh (fd_stat f) with [] => Ok [] | s => i ← str_text s; mret [i] end);
  detail ← (if jtruthy (fd_detail f) then i ← str_text (u " - " ++ py_str (fd_detail f)); mret [i] else Ok []);
  mret (ParagraphItem JNull (number :: label :: stats ++ detail)).
Definition add_finds (heading : json) (finds : list find) (zh : bool) : result pyexn (list item) :=
  i ← text heading; docx_style (JStr (u "Intense Quote"));;
  rest ← each (fun x => add_find zh (fst x) (snd x)) (number_from 1 finds);
  mret (ParagraphItem (JStr (u "Intense Quote")) [i] :: rest).
(** [_add_bilingual_find_list], [_add_bilingual_text] *)
Definition add_bilingual_find_list (l : bilingual_finds) : result pyexn (list item) :=
  zh ← add_finds (bf_heading_zh l) (bf_zh l) true; en ← add_finds (bf_heading_en l) (bf_en l) false; mret (zh ++ en).
Definition headed (heading t : json) : result pyexn (list item) :=
  h ← (if jtruthy heading then i ← add_heading heading 3; mret [i] else Ok []); p ← add_paragraph t; mret (h ++ [p]).
Definition add_bilingual_text (b : bilingual) : result pyexn (list item) :=
  zh ← headed (bi_heading_zh b) (bi_zh b); en ← headed (bi_heading_en b) (bi_en b); mret (zh ++ en).

(** ** Blocks *)

(** [f"{label}: {value}"] *)
Definition labelled_text (m : metadata) : pystr := py_str (md_label m) ++ u ": " ++ py_str (md_value m).
Definition add_fact (m : metadata) : result pyexn item :=
  label ← str_text (py_str (md_label m) ++ u ": "); value ← text (md_value m); mret (ParagraphItem JNull [label; value]).
Definition optional {A} (f : A -> result pyexn (list item)) (o : option A) : result pyexn (list item) := match o with Some x => f x | None => Ok [] end.
Definition one {A} (f : A -> result pyexn item) (x : A) : result pyexn (list item) := i ← f x; mret [i].
Definition when {A} (b : bool) (r : result pyexn (list A)) : result pyexn (list A) := if b then r else Ok [].

(** [_add_incident_evidence] *)
Definition add_incident_evidence (e : incident_evidence) : result pyexn (list item) :=
  docx_level 2;;
  i ← (if jtruthy (ie_navigation_target e) then add_internal_hyperlink (ie_navigation_target e) (ie_heading e) else text (ie_heading e));
  shots ← add_screenshots (ie_screenshots e);
  facts ← each add_fact (ie_metadata e);
  links ← each add_link_paragraph (match ie_link e with Some l => l :: ie_links e | None => ie_links e end);
  log ← optional (one add_log_file) (ie_log_file e);
  id ← when (include_provenance && jtruthy (ie_incident_id e)) (one add_paragraph (JStr (u "Incident ID: " ++ py_str (ie_incident_id e))));
  mret (HeadingItem 2 [i] :: shots ++ facts ++ links ++ log ++ id).

(** The paragraphs of a cause or an action. *)
Definition add_sides (b : bilingual) : result pyexn (list item) :=
  zh ← when (jtruthy (bi_zh b)) (one add_paragraph (bi_zh b)); en ← when (jtruthy (bi_en b)) (one add_paragraph (bi_en b)); mret (zh ++ en).

(** [_add_analysis_reference]; [children] renders the blocks inside. *)
Definition add_analysis_reference (a : analysis_head) (children : result pyexn (list item)) : result pyexn (list item) :=
  h ← add_heading (an_heading a) 2;
  content ← (let content := match h with HeadingItem _ content => content | _ => [] end in
             if jtruthy (an_bookmark a) then add_bookmark (an_bookmark a) content else Ok content);
  shots ← add_screenshots (an_screenshots a);
  log ← optional (one add_log_file) (an_log_file a);
  provenance ← when include_provenance (
    run ← when (jtruthy (an_run_id a)) (one add_paragraph (JStr (u "Analysis reference: " ++ py_str (an_run_id a))));
    rest ← each (fun m => add_paragraph (JStr (labelled_text m))) (an_metadata a ++ an_provenance a); mret (run ++ rest));
  let before := HeadingItem 2 content :: shots ++ log ++ provenance in
  if negb (an_available a) then
    p ← add_paragraph (jor (an_unavailable_text a) (JStr (u "No analysis available."))); mret (before ++ [p])
  else
    inner ← children;
    summary ← optional add_bilingual_text (an_summary a);
    key_finds ← optional add_bilingual_find_list (an_key_finds a); secondary ← optional add_bilingual_find_list (an_secondary_finds a);
    cause ← optional add_sides (an_likely_cause a); action ← optional add_sides (an_recommended_action a);
    back ← when (jtruthy (an_bookmark a)) (i ← add_internal_hyperlink (JStr (u "alerts_start")) (JStr (u "↑ Back to Alerts")); mret [ParagraphItem JNull [i]]);
    mret (before ++ inner ++ summary ++ key_finds ++ secondary ++ cause ++ action ++ back).

Definition gather {A} (r : result pyexn (list (list A))) : result pyexn (list A) := match r with Ok l => Ok (mjoin l) | Raise e => Raise e end.

(** [_render_block] *)
Fixpoint render_block (b : block) : result pyexn (list item) :=
  match b with
  | Heading t level => one (add_heading t) level
  | Paragraph t style =>
      if jtruthy style then i ← text t; docx_style style;; mret [ParagraphItem style [i]] else one add_paragraph t
  | Metadata m => one add_paragraph (JStr (labelled_text m))
  | Link l => one add_link_paragraph l
  | LogFileReference l => one add_log_file l
  | Screenshot s => one add_screenshot s
  | AlertNavigation entries => add_alert_navigation entries
  | Divider => one add_paragraph (JStr (mjoin (replicate 20 (u "―"))))
  | PageBreak => Ok [PageBreakItem]
  | BilingualText t => add_bilingual_text t
  | BilingualFindList l => add_bilingual_find_list l
  | FindList heading finds language => add_finds heading finds (bool_decide (language = JStr (u "Chinese")))
  | IncidentEvidence e => add_incident_evidence e
  | AnalysisReference a children => add_analysis_reference a (gather (each render_block children))
  end.

(** ** The document *)

(** [sep.join(values)] *)
Definition join_texts (sep : pystr) (values : list json) : result pyexn pystr :=
  l ← each (fun v => match v with JStr s => Ok s | _ => Raise (type_error (u "sequence item: expected str instance, " ++ type_name v ++ u " found")) end) values;
  mret (py_join sep l).
Definition metadata_value (label : string) (l : list metadata) : json :=
  match find_first (fun m => bool_decide (md_label m = JStr (u label))) l with Some m => md_value m | None => JStr [] end.

(** [_configure_document]: the header and the footer. *)
Definition page_frame (d : report_document) : result pyexn (json * list json) :=
  docx_text (rd_title d);;
  left_text ← join_texts (u " · ") (filter (fun v => jtruthy v = true) [metadata_value "Date" (rd_metadata d); metadata_value "Shift" (rd_metadata d)]);
  docx_text (JStr left_text);;
  mret (rd_title d, [JStr left_text; JStr (u "  |  Page ")]).

Definition subtitle (l : list metadata) : result pyexn (list item) :=
  match l with
  | [] => Ok []
  | _ => t ← join_texts (u " | ") (map (fun m => if bool_decide (md_label m ∈ map (fun s => JStr (u s)) ["Date"; "Shift"]%string)
                                               then md_value m else JStr (labelled_text m)) l);
         one add_paragraph (JStr t)
  end.

(** [render_document]: the saved file. *)
Definition document_file (d : report_document) : result pyexn docx :=
  '(header, footer) ← page_frame d;
  title ← add_heading (rd_title d) 0;
  under ← subtitle (rd_metadata d);
  audit ← (match rd_provenance d with
           | [] => Ok []
           | l => when include_provenance (h ← add_heading (JStr (u "Audit Provenance")) 2;
                    rest ← each (fun m => add_paragraph (JStr (labelled_text m))) l; mret (h :: rest))
           end);
  blocks ← gather (each render_block (rd_blocks d));
  mret (mk_docx header footer (title :: under ++ audit ++ blocks)).
Definition render_document (d : report_document) : result pyexn (list Z) := file ← document_file d; docx_save file.
End render.

(** ** The images of the file *)

Definition inline_picture (i : inline) : option (list Z) := match i with Picture data _ _ => Some data | _ => None end.
Definition item_pictures (i : item) : list (list Z) :=
  match i with
  | HeadingItem _ content | ParagraphItem _ content => omap inline_picture content
  | PageBreakItem => []
  | TableItem rows => mjoin (map (fun row => mjoin (map (omap inline_picture) row)) rows)
  end.
Definition pictures (l : list item) : list (list Z) := mjoin (map item_pictures l).

(** The images a block asks for: an analysis that is not available shows none of its inner blocks. *)
Fixpoint rendered_shots (b : block) : list screenshot :=
  match b with
  | Screenshot s => [s]
  | IncidentEvidence e => ie_screenshots e
  | AnalysisReference a children => an_screenshots a ++ (if an_available a then mjoin (map rendered_shots children) else [])
  | _ => []
  end.

Lemma pictures_app l k : pictures (l ++ k) = pictures l ++ pictures k.
Proof. unfold pictures. by rewrite map_app, join_app. Qed.
Lemma pictures_cons i l : pictures (i :: l) = item_pictures i ++ pictures l.
Proof. done. Qed.

Lemma singletons {A} (l : list A) : mjoin (map (fun x => [x]) l) = l.
Proof. induction l as [|x l IH]; [done|]. cbn [map]. change (mjoin (?a :: ?b)) with (a ++ mjoin b). by rewrite IH. Qed.

(** Invert a successful sequence of calls. *)
Ltac unbind := repeat match goal with
  | H : _ ≫= _ = Ok _ |- _ => apply bind_result_ok in H as (? & ? & H)
  | H : mret _ = Ok _ |- _ => apply Ok_inj in H
  | H : Ok _ = Ok _ |- _ => apply Ok_inj in H
  | H : Raise _ = Ok _ |- _ => discriminate H
  | H : (let '(_, _) := ?x in _) = Ok _ |- _ => destruct x
  end; subst.

Section images.
Context `{UnicodeData} `{PyText} `{DocxLib}.
Context (screenshot_fetcher : option fetcher) (include_provenance : bool).

Notation fetched := (Forall2 (fun s data => fetch_screenshot screenshot_fetcher s = Ok data)).
(** Items that show exactly the images of [shots]. *)
Definition shows (shots : list screenshot) (l : list item) : Prop := fetched shots (pictures l).

Lemma shows_none l : pictures l = [] -> shows [] l.
Proof. unfold shows. intros ->. constructor. Qed.
Lemma shows_app s s' l l' : shows s l -> shows s' l' -> shows (s ++ s') (l ++ l').
Proof. unfold shows. rewrite pictures_app. apply Forall2_app. Qed.
Lemma shows_plain_r s l l' : shows s l -> pictures l' = [] -> shows s (l ++ l').
Proof. intros Hs Hl. rewrite <- (app_nil_r s). by apply shows_app, shows_none. Qed.
Lemma shows_plain_l s l l' : shows s l -> pictures l' = [] -> shows s (l' ++ l).
Proof. intros Hs Hl. by apply (shows_app []), Hs; apply shows_none. Qed.

Lemma picture_dimensions data w h i : add_picture_dimensions data w h = Ok i -> inline_picture i = Some data.
Proof. unfold add_picture_dimensions. intros. by unbind. Qed.
Lemma picture_scaled data mw mh i : add_picture data mw mh = Ok i -> inline_picture i = Some data.
Proof. unfold add_picture. intros (x & _ & Hi)%bind_result_ok. destruct x. by eapply picture_dimensions. Qed.
Lemma or_integrity_ok {A} msg (r : result pyexn A) a : or_integrity msg r = Ok a -> r = Ok a.
Proof. by destruct r. Qed.

Lemma add_screenshot_shows s i : add_screenshot screenshot_fetcher s = Ok i -> shows [s] [i].
Proof.
  unfold add_screenshot. intros (data & Hd & (p & Hp & Hi)%or_integrity_ok%bind_result_ok)%bind_result_ok. apply Ok_inj in Hi as <-.
  apply picture_scaled in Hp. unfold shows, pictures. cbn [map item_pictures omap list_omap]. rewrite Hp. by repeat constructor.
Qed.

Lemma each_shows {A} (f : A -> result pyexn item) (s : A -> list screenshot) l ys :
  (forall x i, x ∈ l -> f x = Ok i -> shows (s x) [i]) -> each f l = Ok ys -> shows (mjoin (map s l)) ys.
Proof.
  rewrite each_ok. intros Hf. induction 1 as [|x i l ys Hx _ IH]; [constructor|].
  apply (shows_app (s x) _ [i]); [apply Hf; [by left|done]|]. apply IH. intros. apply Hf; [by right|done].
Qed.
Lemma gather_shows {A} (f : A -> result pyexn (list item)) (s : A -> list screenshot) l ys :
  (forall x i, x ∈ l -> f x = Ok i -> shows (s x) i) -> gather (each f l) = Ok ys -> shows (mjoin (map s l)) ys.
Proof.
  unfold gather. destruct (each f l) as [ls|] eqn:E; [|done]. intros Hf [= <-]. apply each_ok in E.
  induction E as [|x i l ys Hx _ IH]; [constructor|]. apply shows_app; [apply Hf; [by left|done]|]. apply IH. intros. apply Hf; [by right|done].
Qed.

Lemma stacked_shows s data n l : fetch_screenshot screenshot_fetcher s = Ok data -> stacked s data n = Ok l -> shows [s] l.
Proof.
  unfold stacked. intros Hd (label & _ & (_ & _ & (p & Hp & Hl)%bind_result_ok)%bind_result_ok)%bind_result_ok. apply Ok_inj in Hl as <-.
  apply picture_scaled in Hp. unfold shows, pictures. cbn [map item_pictures omap list_omap inline_picture]. rewrite Hp. by repeat constructor.
Qed.

Lemma column_shows h s data size n label cell : table_column h s data size n = Ok (label, cell) ->
  omap inline_picture label = [] /\ omap inline_picture cell = [data].
Proof.
  unfold table_column. intros (t & _ & (_ & _ & (q & _ & (w & _ & (p & Hp & Hl)%bind_result_ok)%bind_result_ok)%bind_result_ok)%bind_result_ok)%bind_result_ok.
  apply Ok_inj in Hl. injection Hl as <- <-. apply picture_dimensions in Hp. cbn [omap list_omap inline_picture]. by rewrite Hp.
Qed.

Lemma add_screenshots_shows shots l : add_screenshots screenshot_fetcher shots = Ok l -> shows shots l.
Proof.
  assert (Heach : each (add_screenshot screenshot_fetcher) shots = Ok l -> shows shots l).
  { intros Hl. rewrite <- (singletons shots). by eapply (each_shows _ (fun s => [s])); [|exact Hl]; intros; eapply add_screenshot_shows. }
  unfold add_screenshots. destruct shots as [|s1 [|s2 [|s3 shots]]]; try exact Heach. clear Heach.
  intros (d1 & Hd1 & (d2 & Hd2 & Hp%or_integrity_ok)%bind_result_ok)%bind_result_ok. unfold add_pair in Hp.
  apply bind_result_ok in Hp as (z1 & _ & (z2 & _ & Hp)%bind_result_ok). destruct (_ || _).
  - apply bind_result_ok in Hp as (l1 & Hl1 & (l2 & Hl2 & Hl)%bind_result_ok). apply Ok_inj in Hl as <-.
    apply (shows_app [s1] [s2]); by eapply stacked_shows.
  - apply bind_result_ok in Hp as ([label1 cell1] & Hc1 & ([label2 cell2] & Hc2 & Hl)%bind_result_ok). apply Ok_inj in Hl as <-.
    apply column_shows in Hc1 as [Ha1 Hb1]. apply column_shows in Hc2 as [Ha2 Hb2].
    unfold shows, pictures. cbn [map item_pictures]. rewrite Ha1, Ha2, Hb1, Hb2. by repeat constructor.
Qed.
End images.

(** ** Items without images *)

Section wordings.
Context `{UnicodeData} `{PyText} `{DocxLib}.

(** Every successful value of a computation satisfies [P]. *)
Definition yields {A} (P : A -> Prop) (r : result pyexn A) : Prop := forall a, r = Ok a -> P a.
Lemma yields_ret {A} (P : A -> Prop) a : P a -> yields P (mret a).
Proof. by intros Ha b [= <-]. Qed.
Lemma yields_bind {A B} (Q : A -> Prop) (P : B -> Prop) m (f : A -> result pyexn B) :
  yields Q m -> (forall a, Q a -> yields P (f a)) -> yields P (m ≫= f).
Proof. intros Hm Hf b (a & Ha & Hb)%bind_result_ok. eapply Hf; [by apply Hm|done]. Qed.
Lemma yields_any {A B} (P : B -> Prop) m (f : A -> result pyexn B) : (forall a, yields P (f a)) -> yields P (m ≫= f).
Proof. intros Hf. apply (yields_bind (fun _ => True)); [done|]. intros a _. apply Hf. Qed.
Lemma yields_if {A} (P : A -> Prop) (b : bool) r r' : yields P r -> yields P r' -> yields P (if b then r else r').
Proof. by destruct b. Qed.
Lemma yields_each {A B} (P : B -> Prop) (f : A -> result pyexn B) l : (forall x, yields P (f x)) -> yields (Forall P) (each f l).
Proof. intros Hf ys Hy%each_ok. induction Hy as [|x y l ys Hx _ IH]; constructor; [by apply (Hf x)|done]. Qed.

Definition word (i : inline) : Prop := inline_picture i = None.
Definition bare (i : item) : Prop := item_pictures i = [].
Definition words (l : list item) : Prop := Forall bare l.

Lemma words_pictures l : words l -> pictures l = [].
Proof. unfold words, pictures. induction 1 as [|i l Hi _ IH]; [done|]. cbn [map]. rewrite Hi. exact IH. Qed.
Lemma bare_content content : Forall word content -> omap inline_picture content = [].
Proof. induction 1 as [|i l Hi _ IH]; [done|]. cbn [omap list_omap]. by rewrite Hi. Qed.
Lemma bare_paragraph style content : Forall word content -> bare (ParagraphItem style content).
Proof. apply bare_content. Qed.
Lemma bare_heading level content : Forall word content -> bare (HeadingItem level content).
Proof. apply bare_content. Qed.

Lemma text_word t : yields word (text t).
Proof. apply yields_any. intros. by apply yields_ret. Qed.
Lemma str_text_word t : yields word (str_text t).
Proof. apply yields_any. intros. by apply yields_ret. Qed.
Lemma hyperlink_word url t : yields word (add_hyperlink url t).
Proof. do 2 (apply yields_any; intros). by apply yields_ret. Qed.
Lemma internal_word target t : yields word (add_internal_hyperlink target t).
Proof. do 2 (apply yields_any; intros). by apply yields_ret. Qed.
Lemma add_paragraph_bare t : yields bare (add_paragraph t).
Proof. eapply yields_bind; [apply text_word|]. intros i Hi. apply yields_ret, bare_paragraph. by repeat constructor. Qed.
Lemma add_heading_bare t level : yields bare (add_heading t level).
Proof. apply yields_any; intros _. eapply yields_bind; [apply text_word|]. intros i Hi. apply yields_ret, bare_heading. by repeat constructor. Qed.
Lemma add_link_bare l : yields bare (add_link_paragraph l).
Proof. eapply yields_bind; [apply hyperlink_word|]. intros i Hi. apply yields_ret, bare_paragraph. by repeat constructor. Qed.
Lemma add_log_bare l : yields bare (add_log_file l).
Proof.
  eapply yields_bind; [apply str_text_word|]. intros i Hi. eapply yields_bind; [apply yields_if; [apply hyperlink_word|apply text_word]|].
  intros j Hj. apply yields_ret, bare_paragraph. by repeat constructor.
Qed.
Lemma add_fact_bare m : yields bare (add_fact m).
Proof.
  eapply yields_bind; [apply str_text_word|]. intros i Hi. eapply yields_bind; [apply text_word|].
  intros j Hj. apply yields_ret, bare_paragraph. by repeat constructor.
Qed.

Lemma one_words {A} (f : A -> result pyexn item) x : yields bare (f x) -> yields words (one f x).
Proof. intros Hf. eapply yields_bind; [exact Hf|]. intros i Hi. apply yields_ret. by repeat constructor. Qed.
Lemma optional_words {A} (f : A -> result pyexn (list item)) o : (forall x, yields words (f x)) -> yields words (optional f o).
Proof. intros Hf. destruct o; [apply Hf|]. apply yields_ret. constructor. Qed.
Lemma when_words b r : yields words r -> yields words (when b r).
Proof. intros Hr. destruct b; [done|]. apply yields_ret. constructor. Qed.
Lemma words_app l k : words l -> words k -> words (l ++ k).
Proof. intros. by apply Forall_app. Qed.
Lemma words_nil : words [].
Proof. constructor. Qed.
Lemma words_cons i l : bare i -> words l -> words (i :: l).
Proof. by constructor. Qed.
End wordings.

Create HintDb words.
#[export] Hint Resolve text_word str_text_word hyperlink_word internal_word add_paragraph_bare add_heading_bare add_link_bare add_log_bare
  add_fact_bare one_words optional_words when_words words_app words_nil words_cons bare_paragraph bare_heading yields_if yields_each
  List.Forall_cons List.Forall_nil : words.

(** Step through a sequence of calls, each of which yields text only. *)
Ltac wordy := repeat first [
  progress intros |
  solve [eauto 6 with words] |
  apply yields_ret |
  eapply yields_bind; [solve [eauto 6 with words]|] |
  apply yields_any ].

Section more_wordings.
Context `{UnicodeData} `{PyText} `{DocxLib}.

Lemma headed_words heading t : yields words (headed heading t).
Proof.
  unfold headed. apply (yields_bind words); [apply yields_if; [|apply yields_ret, words_nil]; eapply yields_bind; [apply add_heading_bare|]|];
    intros; [apply yields_ret; auto with words|]. wordy.
Qed.
Lemma bilingual_text_words b : yields words (add_bilingual_text b).
Proof. unfold add_bilingual_text. do 2 (eapply yields_bind; [apply headed_words|intros]). wordy. Qed.
Lemma find_item_bare zh i f : yields bare (add_find zh i f).
Proof.
  unfold add_find. do 2 (eapply yields_bind; [solve [eauto with words]|intros]).
  apply (yields_bind (Forall word)); [destruct (find_stats _ _); [apply yields_ret; constructor|wordy]|intros].
  apply (yields_bind (Forall word)); [apply yields_if; [wordy|apply yields_ret; constructor]|intros].
  apply yields_ret, bare_paragraph. do 2 (constructor; [done|]). by apply Forall_app.
Qed.
Lemma finds_words heading l zh : yields words (add_finds heading l zh).
Proof.
  unfold add_finds. eapply yields_bind; [apply text_word|intros]. apply yields_any; intros.
  eapply yields_bind; [apply (yields_each bare); intros; apply find_item_bare|intros]. wordy.
Qed.
Lemma find_list_words l : yields words (add_bilingual_find_list l).
Proof. unfold add_bilingual_find_list. do 2 (eapply yields_bind; [apply finds_words|intros]). wordy. Qed.
Lemma bookmark_word name content : Forall word content -> yields (Forall word) (add_bookmark name content).
Proof. intros Hc. unfold add_bookmark. do 2 (apply yields_any; intros). apply yields_ret. constructor; [done|]. apply Forall_app. by repeat constructor. Qed.
Lemma navigation_words entries : yields words (add_alert_navigation entries).
Proof.
  unfold add_alert_navigation. apply yields_any; intros. eapply yields_bind; [apply str_text_word|intros].
  eapply yields_bind; [apply bookmark_word; by repeat constructor|intros]. eapply yields_bind; [apply (yields_each bare)|wordy].
  intros e. apply yields_any; intros. eapply yields_bind; [apply internal_word|intros]. wordy.
Qed.
Lemma sides_words b : yields words (add_sides b).
Proof. unfold add_sides. do 2 (eapply yields_bind; [solve [eauto with words]|intros]). wordy. Qed.
Lemma each_words {A} (f : A -> result pyexn item) l : (forall x, yields bare (f x)) -> yields words (each f l).
Proof. apply yields_each. Qed.
End more_wordings.
#[export] Hint Resolve headed_words bilingual_text_words finds_words find_list_words navigation_words sides_words each_words : words.

(** ** Every image, once *)

Section rendered.
Context `{UnicodeData} `{PyText} `{DocxLib}.
Context (screenshot_fetcher : option fetcher) (include_provenance : bool).
Notation shows := (shows screenshot_fetcher).

Lemma words_shows l : words l -> shows [] l.
Proof. intros Hl. apply shows_none. by apply words_pictures. Qed.

Lemma incident_shows e l : add_incident_evidence screenshot_fetcher include_provenance e = Ok l -> shows (ie_screenshots e) l.
Proof.
  unfold add_incident_evidence. intros (_ & _ & Hl)%bind_result_ok. apply bind_result_ok in Hl as (i & Hi & Hl).
  apply bind_result_ok in Hl as (shots & Hs%add_screenshots_shows & Hl). apply bind_result_ok in Hl as (fs & Hf & Hl).
  apply bind_result_ok in Hl as (links & Hk & Hl). apply bind_result_ok in Hl as (log & Hg & Hl). apply bind_result_ok in Hl as (id & Hd & Hl).
  apply Ok_inj in Hl as <-.
  assert (Hi' : word i) by (revert Hi; apply yields_if; auto with words).
  assert (Hrest : words (fs ++ links ++ log ++ id)).
  { repeat apply words_app; [revert Hf|revert Hk|revert Hg|revert Hd].
    - apply yields_each. auto with words.
    - apply yields_each. auto with words.
    - apply optional_words. auto with words.
    - apply when_words. auto with words. }
  apply (shows_plain_l _ _ _ [_]); [|apply words_pictures; repeat constructor; apply bare_heading; by repeat constructor].
  apply shows_plain_r; [done|by apply words_pictures].
Qed.

Lemma analysis_shows a children inner l : add_analysis_reference screenshot_fetcher include_provenance a children = Ok l ->
  (forall k, children = Ok k -> shows inner k) -> shows (an_screenshots a ++ if an_available a then inner else []) l.
Proof.
  unfold add_analysis_reference. intros Hl Hinner. apply bind_result_ok in Hl as (h & Hh & Hl). apply bind_result_ok in Hl as (content & Hc & Hl).
  apply bind_result_ok in Hl as (shots & Hs%add_screenshots_shows & Hl). apply bind_result_ok in Hl as (log & Hg & Hl).
  apply bind_result_ok in Hl as (prov & Hp & Hl).
  assert (Hcontent : Forall word content).
  { apply add_heading_bare in Hh as Hbare. unfold add_heading in Hh. apply bind_result_ok in Hh as (_ & _ & (t & Ht%text_word & Hh)%bind_result_ok).
    apply Ok_inj in Hh as <-. revert Hc. apply yields_if; [apply bookmark_word; by repeat constructor|]. apply (yields_ret (Forall word)). by repeat constructor. }
  assert (Hbefore : shows (an_screenshots a) (HeadingItem 2 content :: shots ++ log ++ prov)).
  { apply (shows_plain_l _ _ _ [_]); [|apply words_pictures; repeat constructor; by apply bare_heading].
    apply shows_plain_r; [done|]. apply words_pictures, words_app; [revert Hg; apply optional_words; auto with words|].
    revert Hp. apply when_words. eapply yields_bind; [apply when_words; auto with words|intros run Hrun].
    eapply yields_bind; [apply each_words; auto with words|intros rest Hrest]. apply yields_ret. by apply words_app. }
  destruct (an_available a); cbn [negb] in Hl.
  - apply bind_result_ok in Hl as (k & Hk & Hl). apply Hinner in Hk. apply bind_result_ok in Hl as (s1 & H1' & Hl). apply bind_result_ok in Hl as (s2 & H2' & Hl).
    apply bind_result_ok in Hl as (s3 & H3' & Hl). apply bind_result_ok in Hl as (s4 & H4' & Hl). apply bind_result_ok in Hl as (s5 & H5' & Hl).
    apply bind_result_ok in Hl as (s6 & H6' & Hl). apply Ok_inj in Hl as <-.
    apply (shows_app _ _ _ _ _ Hbefore). apply shows_plain_r; [done|]. apply words_pictures. repeat apply words_app.
    all: match goal with Hr : ?r = Ok ?s |- words ?s => refine ((_ : yields words r) s Hr) end.
    all: try (apply optional_words; auto with words). apply when_words. eapply yields_bind; [apply internal_word|intros]. wordy.
  - apply bind_result_ok in Hl as (p & Hp'%add_paragraph_bare & Hl). apply Ok_inj in Hl as <-. rewrite app_nil_r.
    apply shows_plain_r; [done|]. apply words_pictures. by repeat constructor.
Qed.

Lemma block_shows b : forall l, render_block screenshot_fetcher include_provenance b = Ok l -> shows (rendered_shots b) l.
Proof.
  induction b as [b Hleaf|a c IH] using block_induction; intros l.
  - destruct b as [t level|t style| | |m|k|k|s|entries|t|t|heading finds language|e|a c]; cbn [render_block rendered_shots]; try (by destruct (Hleaf a c)).
    all: try (by apply incident_shows).
    all: try (intros Hl; apply words_shows; lazymatch type of Hl with ?r = Ok ?s => refine ((_ : yields words r) s Hl) end; solve [auto with words]).
    + intros Hl. apply words_shows. revert Hl. apply yields_if; [|auto with words]. eapply yields_bind; [apply text_word|intros]. apply yields_any; intros. wordy.
    + intros Hl. apply words_shows. revert Hl. apply (yields_ret words). by repeat constructor.
    + intros (i & Hi%add_screenshot_shows & Hl)%bind_result_ok. by apply Ok_inj in Hl as <-.
  - cbn [render_block rendered_shots]. intros Hl. eapply analysis_shows; [exact Hl|]. intros k Hk.
    eapply gather_shows; [|exact Hk]. intros x i Hx. rewrite Forall_forall in IH. by apply IH.
Qed.

Lemma document_images d file : document_file screenshot_fetcher include_provenance d = Ok file ->
  Forall2 (fun s data => fetch_screenshot screenshot_fetcher s = Ok data) (mjoin (map rendered_shots (rd_blocks d))) (pictures (dx_body file)).
Proof.
  unfold document_file. intros ([header footer] & _ & Hl)%bind_result_ok. apply bind_result_ok in Hl as (title & Ht%add_heading_bare & Hl).
  apply bind_result_ok in Hl as (under & Hu & Hl). apply bind_result_ok in Hl as (audit & Ha & Hl). apply bind_result_ok in Hl as (blocks & Hb & Hl).
  apply Ok_inj in Hl as <-. cbn [dx_body]. apply (shows_plain_l _ _ _ [title]); [|apply words_pictures; by repeat constructor].
  apply shows_plain_l; [apply shows_plain_l|].
  - eapply gather_shows; [|exact Hb]. intros x i _. apply block_shows.
  - apply words_pictures. destruct (rd_provenance d); [by apply Ok_inj in Ha as <-; constructor|]. revert Ha. apply when_words.
    eapply yields_bind; [apply add_heading_bare|intros]. eapply yields_bind; [apply each_words; auto with words|intros]. wordy.
  - apply words_pictures. unfold subtitle in Hu. destruct (rd_metadata d); [by apply Ok_inj in Hu as <-; constructor|].
    revert Hu. apply yields_any. intros. auto with words.
Qed.

(** A rendered report holds every image that it shows exactly once, in
    the order of the document, and each with the very bytes that the fetcher
    returned for that frozen reference; no image is skipped, replaced or
    added, and one that cannot be fetched or decoded fails the report. *)
Theorem rendered_images d file : document_file screenshot_fetcher include_provenance d = Ok file ->
  Forall2 (fun s data => fetch_screenshot screenshot_fetcher s = Ok data) (mjoin (map rendered_shots (rd_blocks d))) (pictures (dx_body file)).
Proof. exact (document_images d file). Qed.
End rendered.

(** ** A file *)

Definition plain_library : DocxLib := {|
  docx_text _ := Ok tt; docx_style _ := Ok tt; docx_level _ := Ok tt; docx_url _ := Ok tt; docx_attribute _ := Ok tt;
  image_size data := match data with w :: h :: _ => Ok (mk_image w h 96 0) | _ => Raise (value_error (u "not an image")) end;
  docx_picture _ _ _ := Ok tt; docx_save _ := Ok [80; 75]%Z; |}.
(** The key of a stored image gives its width; all are 600 pixels high. *)
Definition sample_fetcher : fetcher := fun bucket key version sha256 =>
  match key with JStr [107%Z; d] => Ok [(d - 48) * 500; 600]%Z | _ => Ok [] end.
#[local] Notation sample_file := (@document_file cjk_unicode no_text plain_library (Some sample_fetcher) false sample_document) (only parsing).

(** The pair of the first alert, 500 and 1000 pixels wide, is laid out in one
    row of equal height; the screenshots of the analysis are alone. *)
Definition sizes_of (i : item) : list (Z * Z) :=
  let size i := match i with Picture _ w h => Some (w, h) | _ => None end in
  match i with
  | HeadingItem _ content | ParagraphItem _ content => omap size content
  | TableItem rows => mjoin (map (fun row => mjoin (map (omap size) row)) rows)
  | PageBreakItem => []
  end.
Lemma sample_sizes : match sample_file with Ok file => mjoin (map sizes_of (dx_body file)) | Raise _ => [] end =
  [(1371600, 1645920); (2743200, 1645920); (4480560, 1344168); (4480560, 1792224)]%Z.
Proof. vm_compute. reflexivity. Qed.

Lemma rendered_images_witness : exists file, sample_file = Ok file /\
  Forall2 (fun s data => @fetch_screenshot no_text (Some sample_fetcher) s = Ok data) (mjoin (map rendered_shots (rd_blocks sample_document)))
    (pictures (dx_body file)).
Proof.
  destruct (is_ok_inv sample_file ltac:(vm_compute; reflexivity)) as [file Hfile]. exists file. split; [exact Hfile|].
  exact (@rendered_images cjk_unicode no_text plain_library (Some sample_fetcher) false sample_document file Hfile).
Defined.
