(* ===== verification/DailyReport.v ===== *)
(** * Processing a daily report job

    [bridge/noc_bridge/daily_report.py] and [worker.py]: the projection of the
    frozen snapshot for the model, the narrative plan and its retries, the
    recovery of a former attempt's plan and artifacts, composition, rendering
    and the identity of what was stored.

    The object store is the interface [ArtifactStore] with versions, the file
    library [DocxLib]; the answers of the model are a list, as in [LogTriage].
    The order in which a set of names is iterated is a parameter. *)

From S2P Require Import Prelude PyStr Json Failures PyVal PyTime Validation Hermes Sha256 Snapshots SkillRegistry LogTriage ReportDocument Composition DocxRender.

(** ** What the model sees *)

Definition FRAGMENT_KEYS : list pystr := map u ["contract"; "headline"; "severity"; "summary"; "findings"; "likely_cause"; "recommended_action"]%string.

Section input.
(** [allowed], in the order of its iteration. *)
Context (allowed : list pystr).

(** [_compact_fragment] *)
Definition compact_fragment (fragment : json) : json :=
  match fragment with
  | JObj o =>
      let kept := omap (fun k => pair k <$> assoc k o) allowed in
      match assoc (u "findings") kept with
      | Some (JList l) => JObj (assoc_set (u "findings") (JList (filter (fun i => is_obj i = true) (take 5 l))) kept)
      | _ => JObj kept
      end
  | _ => JNull
  end.

Definition incident_input (number : Z) (incident : json) : json :=
  let get k := jget_null (u k) incident in
  JObj [(u "incident_number", JInt number); (u "title", get "title"%string); (u "status", get "status"%string);
        (u "service", get "service"%string); (u "environment", get "environment"%string);
        (u "report_fragment", compact_fragment (get "report_fragment"%string))].

(** [build_daily_report_input] *)
Definition build_daily_report_input (snapshot : json) : result pyexn json :=
  if negb (is_obj snapshot) then Raise (value_error (u "report snapshot must be an object")) else
  let get k := jget_null (u k) snapshot in
  items ← py_iter (jor (get "incidents"%string) (JList []));
  mret (JObj [
    (u "schema_version", JStr (u "daily-report-context-v1")); (u "task", JStr (u "daily_report"));
    (u "language_order", JList [JStr (u "zh-CN"); JStr (u "en")]);
    (u "shift", JObj [(u "name", jor (get "shift_display_name"%string) (get "shift_name"%string));
                      (u "timezone", jor (get "shift_timezone"%string) (JStr (u "UTC")))]);
    (u "incidents", JList (map (fun x => incident_input (fst x) (snd x)) (filter (fun x => is_obj (snd x) = true) (number_from 1 items))))]).
End input.

(** ** The store *)

(** Writing with a content type, and the version and content type of an
    object.  A version once read keeps its bytes. *)
Class VersionedStore (O : Type) `{ArtifactStore O} := {
  put_typed : pystr -> pystr -> pystr -> list Z -> O -> result pyexn O;
  head_object : O -> pystr -> pystr -> result pyexn (option pystr * json);
  put_typed_current : forall ct b k bytes o o', put_typed ct b k bytes o = Ok o' ->
    get_object o' b k None = Ok bytes /\
    forall v t, head_object o' b k = Ok (v, t) -> t = JStr ct /\ get_object o' b k v = Ok bytes;
  put_typed_other : forall ct b k bytes o o' b' k', put_typed ct b k bytes o = Ok o' -> (b', k') <> (b, k) ->
    head_object o' b' k' = head_object o b' k' /\ forall v, get_object o' b' k' v = get_object o b' k' v;
  put_object_head : forall b k bytes o o' b' k', put_object b k bytes o = Ok o' -> (b', k') <> (b, k) ->
    head_object o' b' k' = head_object o b' k';
}.

(** [read_artifact_metadata]; an empty version is no version. *)
Definition artifact_metadata (bucket key : pystr) (version : option pystr) (bytes : list Z) (content_type : json) : json := JObj [
  (u "bucket", JStr bucket); (u "object_key", JStr key); (u "version_id", jopt version); (u "sha256", JStr (hexdigest bytes));
  (u "byte_size", JInt (Z.of_nat (length bytes))); (u "content_type", content_type)].
Definition nonempty (v : option pystr) : option pystr := match v with Some [] => None | _ => v end.

Definition plan_key (job_id : pystr) : pystr := u "jobs/" ++ job_id ++ u "/report-plan.json".
Definition report_telemetry_key (job_id : pystr) : pystr := u "jobs/" ++ job_id ++ u "/report-telemetry.json".
Definition docx_key (job_id : pystr) : pystr := u "reports/" ++ job_id ++ u "/report.docx".
Definition document_key (job_id : pystr) : pystr := u "reports/" ++ job_id ++ u "/document.json".
Definition screenshots_key (job_id : pystr) : pystr := u "reports/" ++ job_id ++ u "/document.screenshots.json".

Definition DOCX_TYPE : pystr := u "application/vnd.openxmlformats-officedocument.wordprocessingml.document".
Definition JSON_TYPE : pystr := u "application/json".

Record report_settings := mk_report_settings {
  rs_triage : triage_settings;    (** what both processors use *)
  rs_reports : pystr;             (** [minio_bucket_reports] *)
}.

Record stored_artifacts := mk_artifacts { sa_report : json; sa_document : json; sa_screenshots : json }.
Record report_result := mk_report_result {
  rr_output : json; rr_telemetry : json; rr_artifacts : stored_artifacts; rr_provenance : json }.

Section report.
Context `{UnicodeData} `{PyText} `{YamlLoader} `{JsonSchema} `{FloatFormat} `{ZoneDb} `{DocxLib}.
Context {Store : Type} `{ArtifactStore Store} `{!VersionedStore Store}.
Context (cfg : report_settings) (db : tables) (model_ms duration_ms : Z) (allowed : list pystr).
Notation world := (triage_world Store).

Definition read_artifact_metadata (store : Store) (bucket key : pystr) : result pyexn json :=
  '(version, content_type) ← head_object store bucket key;
  bytes ← get_object store bucket key (nonempty version);
  mret (artifact_metadata bucket key version bytes content_type).

(** [upload_artifact_metadata] *)
Definition upload_artifact_metadata (bucket key content_type : pystr) (bytes : list Z) : M world pyexn json := fun w =>
  match put_typed content_type bucket key bytes (tw_store w) with
  | Ok store => (read_artifact_metadata store bucket key, mk_triage store (tw_answers w) (tw_requests w))
  | Raise e => (Raise e, w)
  end.

(** [load_saved_plan]: any failure counts as no plan. *)
Definition load_saved_plan (store : Store) (job_id : pystr) : option json :=
  match bytes ← get_object store (ts_artifacts (rs_triage cfg)) (plan_key job_id) None;
        match t ← utf8_decode bytes; json_loads t with Some j => Ok j | None => Raise decode_error end
  with
  | Ok (JObj o) => Some (JObj o)
  | _ => None
  end.

(** [existing_report_artifacts] *)
Definition existing_report_artifacts (store : Store) (job_id : pystr) : option stored_artifacts :=
  match report ← read_artifact_metadata store (rs_reports cfg) (docx_key job_id);
        document ← read_artifact_metadata store (rs_reports cfg) (document_key job_id);
        screenshots ← read_artifact_metadata store (rs_reports cfg) (screenshots_key job_id);
        mret (mk_artifacts report document screenshots)
  with Ok a => Some a | Raise _ => None end.

(** ** The plan *)

(** [validate_against_schema] and [validate_daily_report_result] *)
Definition validated_plan (schema plan : json) (label : pystr) : result pyexn json :=
  validate_against_schema plan schema label;; validate_daily_report_result plan label;; Ok plan.

Definition report_telemetry (base : json) (sha256 : json) (attempt : nat) : json :=
  telemetry_with base [
    (u "hermes_version", JStr (ts_hermes_version (rs_triage cfg))); (u "runtime_version", JStr (ts_hermes_version (rs_triage cfg)));
    (u "runtime_profile", JStr (ts_profile (rs_triage cfg))); (u "input_hash", sha256); (u "snapshot_sha256", sha256);
    (u "schema_version", JStr (u "daily-report-context-v1")); (u "output_attempts", JInt (Z.of_nat attempt + 1)); (u "duration_ms", JInt duration_ms)].

(** The [except] clauses, with [tries] attempts left; [again] makes them. *)
Definition after_plan_failure {A} (tries : nat) (again : M world pyexn A) (e : pyexn) : M world pyexn A :=
  if bool_decide (x_class e = HermesInvalidResponse) then (if Nat.eqb tries 0 then raise e else again)
  else if is_value_error (x_class e) then
    (if Nat.eqb tries 0 then raise (mk_exn HermesInvalidResponse (u "Hermes returned invalid daily report output")) else again)
  else raise e.

(** The attempts from number [i] on, [tries] of them: the plan and its telemetry. *)
Fixpoint plan_attempts (schema request sha256 : json) (tries i : nat) : M world pyexn (json * json) :=
  match tries with
  | O => raise (mk_exn HermesInvalidResponse (u "Hermes returned no daily report plan"))
  | S tries => fun w =>
      let failed := after_plan_failure tries (plan_attempts schema request sha256 tries (S i)) in
      match analyze_call (rs_triage cfg) model_ms request w with
      | (Raise e, w) => failed e w
      | (Ok res, w) =>
          match validated_plan schema (hr_result res) (u "Hermes daily report plan") with
          | Ok plan => (Ok (plan, report_telemetry (hr_telemetry res) sha256 i), w)
          | Raise e => failed e w
          end
      end
  end.

(** The plan of a former attempt, or a new one that is stored with its telemetry. *)
Definition obtain_plan (schema payload sha256 : json) (skill_md job_id : pystr) : M world pyexn (json * option json) :=
  w ← get_st;
  match load_saved_plan (tw_store w) job_id with
  | Some plan => _ ← lift_result (validated_plan schema plan (u "stored daily report plan")); mret (plan, None)
  | None =>
      let request := chat_request (ts_profile (rs_triage cfg)) DailyReport payload skill_md schema [] in
      '(plan, telemetry) ← plan_attempts schema request sha256 (attempts_allowed (rs_triage cfg)) 0;
      bytes ← lift_result (compact_bytes plan);
      upload_artifact (ts_artifacts (rs_triage cfg)) (plan_key job_id) bytes;;
      tbytes ← lift_result (compact_bytes telemetry);
      upload_artifact (ts_artifacts (rs_triage cfg)) (report_telemetry_key job_id) tbytes;;
      mret (plan, Some telemetry)
  end.

(** ** The report *)

(** A parameter of the storage client. *)
Definition text_parameter (j : json) : result pyexn pystr :=
  match j with JStr s => Ok s | _ => Raise (mk_exn (ForeignError (u "ParamValidationError") false) (u "Parameter validation failed")) end.
Definition optional_parameter (j : json) : result pyexn (option pystr) := if jtruthy j then s ← text_parameter j; mret (Some s) else Ok None.

(** [screenshot_fetcher] *)
Definition screenshot_fetcher (store : Store) : fetcher := fun bucket key version expected =>
  v ← optional_parameter version; b ← text_parameter bucket; k ← text_parameter key;
  body ← get_object store b k v;
  if jtruthy expected && negb (bool_decide (JStr (hexdigest body) = expected)) then
    Raise (mk_exn EvidenceIntegrityError (u "screenshot checksum mismatch: " ++ k))
  else Ok body.

(** [compose_and_render]: the file, the preview and its private index. *)
Definition compose_and_render (store : Store) (plan snapshot : json) : result pyexn (list Z * json * list json) :=
  document ← compose_report plan snapshot;
  file ← render_document (Some (screenshot_fetcher store)) false document;
  let '(preview, screenshots) := document_to_preview_json document in
  mret (file, preview, screenshots).

Definition report_provenance (plan sha256 : json) (telemetry : option json) : result pyexn json :=
  let tel k := match telemetry with Some t => jget_null (u k) t | None => JNull end in
  bytes ← compact_bytes plan;
  mret (JObj [
    (u "runtime_name", JStr (u "hermes")); (u "runtime_version", JStr (ts_hermes_version (rs_triage cfg)));
    (u "runtime_profile", JStr (ts_profile (rs_triage cfg))); (u "provider", tel "provider"%string); (u "runtime_model", tel "runtime_model"%string);
    (u "input_manifest_sha256", sha256); (u "output_sha256", JStr (hexdigest bytes)); (u "input_tokens", tel "input_tokens"%string);
    (u "output_tokens", tel "output_tokens"%string); (u "duration_ms", tel "duration_ms"%string)]).

Definition report_error (msg : pystr) : pyexn := mk_exn WorkerInputError msg.
(** The one frozen snapshot a message refers to. *)
Definition snapshot_ref (message : json) : result pyexn json :=
  job_type ← py_get (u "job_type") JNull message; skill_name ← py_get (u "skill_name") JNull message;
  if negb (bool_decide (job_type = JStr (u "daily_report"))) then Raise (report_error (u "daily report processor received an unsupported job type"))
  else if negb (bool_decide (skill_name = JStr (u "daily-alert-report"))) then
    Raise (mk_exn SkillConfigurationError (u "unsupported daily report skill"))
  else
    refs ← py_get (u "object_refs") JNull message; incident_id ← py_get (u "incident_id") JNull message;
    match incident_id, jor refs (JList []) with
    | JNull, JList [ref] => Ok ref
    | _, _ => Raise (report_error (u "daily report requires one frozen report snapshot"))
    end.

(** The snapshot a reference names. *)
Definition load_snapshot (ref : json) : M world pyexn json :=
  bucket ← lift_result (b ← subscript_key (u "bucket") ref; text_parameter b);
  key ← lift_result (k ← subscript_key (u "key") ref; text_parameter k);
  bytes ← download_object bucket key (optional_str (u "sha256") ref) (optional_str (u "version_id") ref);
  lift_result (match t ← utf8_decode bytes; json_loads (universal_newlines t) with
    | Some j => Ok j
    | None => Raise (mk_exn EvidenceIntegrityError (u "report snapshot is not valid JSON")) end).

(** Store the rendered report and its previews. *)
Definition store_report (job_id : pystr) (file : list Z) (preview : json) (screenshots : list json) : M world pyexn stored_artifacts :=
  preview_bytes ← lift_result (compact_bytes preview);
  screenshot_bytes ← lift_result (compact_bytes (JList screenshots));
  report ← upload_artifact_metadata (rs_reports cfg) (docx_key job_id) DOCX_TYPE file;
  document ← upload_artifact_metadata (rs_reports cfg) (document_key job_id) JSON_TYPE preview_bytes;
  index ← upload_artifact_metadata (rs_reports cfg) (screenshots_key job_id) JSON_TYPE screenshot_bytes;
  mret (mk_artifacts report document index).

(** The second half: the artifacts of a former attempt, or new ones. *)
Definition publish_report (plan snapshot sha256 : json) (telemetry : option json) (job_id : pystr) : M world pyexn report_result :=
  w ← get_st;
  artifacts ← (match existing_report_artifacts (tw_store w) job_id with
    | Some a => mret a
    | None =>
        '(file, preview, screenshots) ← lift_result (compose_and_render (tw_store w) plan snapshot);
        store_report job_id file preview screenshots
    end);
  provenance ← lift_result (report_provenance plan sha256 telemetry);
  mret (mk_report_result plan (default (JObj []) telemetry) artifacts provenance).

(** [_process_daily_report_message] *)
Definition process_daily_report_message (message : json) : M world pyexn report_result :=
  ref ← lift_result (snapshot_ref message);
  job_id ← lift_result (j ← subscript_key (u "job_id") message; match j with JStr s => Ok s | _ => Raise (type_error (u "job_id is not text")) end);
  '(skill_md, schema_text) ← lift_result (skill_of db message (u "daily-alert-report"));
  schema ← lift_result (schema_of schema_text);
  snapshot ← load_snapshot ref;
  payload ← lift_result (build_daily_report_input allowed snapshot);
  let sha256 := jget_null (u "sha256") ref in
  '(plan, telemetry) ← obtain_plan schema payload sha256 skill_md job_id;
  publish_report plan snapshot sha256 telemetry job_id.
End report.

(** [process_message] *)
Section dispatch.
Context `{UnicodeData} `{PyText} `{YamlLoader} `{JsonSchema} `{FloatFormat} `{ZoneDb} `{DocxLib}.
Context {Store : Type} `{ArtifactStore Store} `{!VersionedStore Store}.
Context (cfg : report_settings) (db : tables) (model_ms preprocessing_ms duration_ms : Z) (allowed : list pystr).

Inductive job_result := Triaged (output telemetry : json) | Reported (r : report_result).
Definition process_message (message : json) : M (triage_world Store) pyexn job_result :=
  job_type ← lift_result (py_get (u "job_type") JNull message);
  if bool_decide (job_type = JStr (u "log_triage")) then
    '(output, telemetry) ← process_log_triage_message (rs_triage cfg) db model_ms preprocessing_ms message; mret (Triaged output telemetry)
  else if bool_decide (job_type = JStr (u "daily_report")) then
    r ← process_daily_report_message cfg db model_ms duration_ms allowed message; mret (Reported r)
  else raise (report_error (u "unsupported job type: " ++ py_str job_type)).
End dispatch.

(** ** Runs *)

Section runs.
Context `{UnicodeData} `{PyText} `{YamlLoader} `{JsonSchema} `{FloatFormat} `{ZoneDb} `{DocxLib}.
Context {Store : Type} `{ArtifactStore Store} `{!VersionedStore Store}.
Context (cfg : report_settings) (db : tables) (model_ms duration_ms : Z) (allowed : list pystr).
Notation world := (triage_world Store).
Notation artifacts := (ts_artifacts (rs_triage cfg)).

(** Every object but those at [ks] reads as before. *)
Definition elsewhere (ks : list (pystr * pystr)) (store store' : Store) : Prop := forall b k, (b, k) ∉ ks ->
  head_object store' b k = head_object store b k /\ forall v, get_object store' b k v = get_object store b k v.
Lemma elsewhere_refl ks store : elsewhere ks store store.
Proof. by intros b k _. Qed.
Lemma elsewhere_trans ks ks' store store1 store2 : elsewhere ks store store1 -> elsewhere ks' store1 store2 -> elsewhere (ks ++ ks') store store2.
Proof.
  intros H1' H2' b k Hn. rewrite elem_of_app in Hn. destruct (H1' b k) as [Ha Hb]; [tauto|]. destruct (H2' b k) as [Hc Hd]; [tauto|].
  split; [by rewrite Hc|]. intros v. by rewrite Hd.
Qed.
Lemma elsewhere_put b k bytes store store' : put_object b k bytes store = Ok store' -> elsewhere [(b, k)] store store'.
Proof. intros Hp b' k' Hne%not_elem_of_cons. destruct Hne as [Hne _]. split; [by eapply put_object_head|]. intros v. by eapply put_object_other. Qed.
Lemma elsewhere_typed ct b k bytes store store' : put_typed ct b k bytes store = Ok store' -> elsewhere [(b, k)] store store'.
Proof. intros Hp b' k' Hne%not_elem_of_cons. destruct Hne as [Hne _]. by eapply put_typed_other. Qed.

Definition artifact_keys (job_id : pystr) : list (pystr * pystr) := [(artifacts, plan_key job_id); (artifacts, report_telemetry_key job_id)].
Definition report_keys (job_id : pystr) : list (pystr * pystr) := map (pair (rs_reports cfg)) [docx_key job_id; document_key job_id; screenshots_key job_id].

(** Keys of one job differ by their last part, plans and reports by the first. *)
Lemma keys_apart (pre a b id : pystr) : a <> b -> pre ++ id ++ a <> pre ++ id ++ b.
Proof. intros Hne. by repeat apply (inj_iff (app _)) || intros ->%(inj (app _))%(inj (app _)). Qed.
Lemma report_not_artifact job_id b k : (b, k) ∈ report_keys job_id -> (b, k) ∉ artifact_keys job_id.
Proof.
  unfold report_keys, artifact_keys. intros Hr Ha. apply list_elem_of_fmap in Hr as (x & [= -> ->] & Hx).
  rewrite !elem_of_cons, elem_of_nil in Hx. rewrite !elem_of_cons, elem_of_nil in Ha.
  unfold docx_key, document_key, screenshots_key, plan_key, report_telemetry_key in *.
  by destruct Hx as [->|[->|[->|[]]]]; destruct Ha as [[= _ Ha]|[[= _ Ha]|[]]].
Qed.

Lemma after_plan_failure_run {A} tries (again : M world pyexn A) e w r w' : after_plan_failure tries again e w = (r, w') ->
  again w = (r, w') \/ (w' = w /\ exists e', r = Raise e').
Proof. unfold after_plan_failure. repeat case_match; auto; intros [= <- <-]; eauto. Qed.

Lemma validated_plan_same schema plan label p : validated_plan schema plan label = Ok p -> p = plan.
Proof. unfold validated_plan. by intros (_ & _ & (_ & _ & [= <-])%bind_result_ok)%bind_result_ok. Qed.

(** [k] requests, and a plan only when it is valid. *)
Definition asked (schema request : json) (k : nat) (w w' : world) (r : result pyexn (json * json)) : Prop :=
  tw_store w' = tw_store w /\ tw_requests w' = tw_requests w ++ replicate k request /\
  forall plan telemetry, r = Ok (plan, telemetry) -> 1 <= k /\ validated_plan schema plan (u "Hermes daily report plan") = Ok plan.

Lemma plan_attempts_run schema request sha256 tries : forall i (w w' : world) r,
  plan_attempts cfg model_ms duration_ms schema request sha256 tries i w = (r, w') -> exists k, k <= tries /\ asked schema request k w w' r.
Proof.
  induction tries as [|tries IH]; intros i w w' r; cbn [plan_attempts].
  - intros [= <- <-]. exists 0. split; [done|]. split_and!; [done|by rewrite app_nil_r|done].
  - destruct (analyze_call_run (rs_triage cfg) model_ms request w) as (r1 & ->).
    set (w1 := mk_triage (tw_store w) (drop 1 (tw_answers w)) (tw_requests w ++ [request])). cbv zeta.
    assert (Hfailed : forall e, after_plan_failure tries (plan_attempts cfg model_ms duration_ms schema request sha256 tries (S i)) e w1 = (r, w') ->
      exists k, k <= S tries /\ asked schema request k w w' r).
    { intros e [(k & Hk & Hs & Hreq & Hok)%IH|[-> [e' ->]]]%after_plan_failure_run.
      - exists (S k). split; [lia|]. split_and!; [done|by rewrite Hreq; cbn; rewrite <- app_assoc|]. intros plan telemetry Hr. split; [lia|by eapply Hok].
      - exists 1. split; [lia|]. by split_and!. }
    destruct r1 as [res|e]; [|apply Hfailed]. destruct (validated_plan _ _ _) as [plan|e] eqn:Hv; [|apply Hfailed].
    intros [= <- <-]. exists 1. split; [lia|]. split_and!; [done|done|]. intros p t [= <- _]. split; [lia|].
    by rewrite <- (validated_plan_same _ _ _ _ Hv) in Hv.
Qed.

Lemma upload_run b k bytes (w w' : world) r : upload_artifact b k bytes w = (r, w') ->
  (w' = w /\ exists e, r = Raise e) \/
  (r = Ok tt /\ get_object (tw_store w') b k None = Ok bytes /\ elsewhere [(b, k)] (tw_store w) (tw_store w') /\ tw_requests w' = tw_requests w).
Proof.
  unfold upload_artifact. destruct (put_object _ _ _ _) as [store|e] eqn:Hp; intros [= <- <-]; [right|left; by eauto].
  cbn [tw_store tw_requests]. split_and!; [done|by apply put_object_get in Hp as []|by eapply elsewhere_put|done].
Qed.

(** A plan is the stored one, and then nothing changes and nothing is asked;
    or it is the model's, checked, and stored. *)
Lemma obtain_plan_run schema payload sha256 skill_md job_id (w w' : world) r :
  obtain_plan cfg model_ms duration_ms schema payload sha256 skill_md job_id w = (r, w') ->
  match load_saved_plan cfg (tw_store w) job_id with
  | Some plan => w' = w /\ forall p t, r = Ok (p, t) -> p = plan /\ t = None /\ validated_plan schema plan (u "stored daily report plan") = Ok plan
  | None => elsewhere (artifact_keys job_id) (tw_store w) (tw_store w') /\
      (exists k, k <= attempts_allowed (rs_triage cfg) /\ length (tw_requests w') = length (tw_requests w) + k) /\
      forall p t, r = Ok (p, t) -> is_Some t /\ validated_plan schema p (u "Hermes daily report plan") = Ok p /\
        exists bytes, compact_bytes p = Ok bytes /\ get_object (tw_store w') artifacts (plan_key job_id) None = Ok bytes
  end.
Proof.
  unfold obtain_plan. unfold get_st at 1. unfold mbind at 1, M_bind at 1. destruct (load_saved_plan cfg (tw_store w) job_id) as [plan|].
  { intros [[-> [e ->]]|(p & Hp & Hr)]%quiet_step; [done|]. injection Hr as <- <-. split; [done|]. intros p' t [= <- <-].
    split_and!; [done..|]. by rewrite Hp, (validated_plan_same _ _ _ _ Hp). }
  intros [(e & Hp & ->)|([plan telemetry] & w1 & Hp & Hr)]%bind_inv; apply plan_attempts_run in Hp as (k & Hk & Hs & Hreq & Hok).
  { split; [rewrite Hs; apply elsewhere_refl|]. split; [exists k; rewrite Hreq, length_app, length_replicate; done|done]. }
  destruct (Hok _ _ eq_refl) as [_ Hv].
  assert (Hask : exists k, k <= attempts_allowed (rs_triage cfg) /\ length (tw_requests w1) = length (tw_requests w) + k).
  { exists k. by rewrite Hreq, length_app, length_replicate. }
  apply quiet_step in Hr as [[-> [e ->]]|(bytes & Hb & Hr)]; [rewrite Hs; split_and!; [apply elsewhere_refl|done|done]|].
  apply bind_inv in Hr as [(e & Hu & ->)|([] & w2 & Hu & Hr)]; apply upload_run in Hu as [[-> [e' He]]|(He & Hget & Hp1 & Hreq1)]; try discriminate.
  { rewrite Hs. split_and!; [apply elsewhere_refl|done|done]. }
  rewrite Hs in Hp1. rewrite <- Hreq1 in Hask.
  assert (He1 : elsewhere (artifact_keys job_id) (tw_store w) (tw_store w2)) by (intros b k' Hn; apply Hp1; unfold artifact_keys in Hn; set_solver).
  apply quiet_step in Hr as [[-> [e ->]]|(tbytes & _ & Hr)]; [by split_and!|].
  apply bind_inv in Hr as [(e & Hu & ->)|([] & w3 & Hu & Hr)]; apply upload_run in Hu as [[-> [e' He']]|(He' & _ & Hp2 & Hreq2)]; try discriminate.
  { by split_and!. }
  injection Hr as <- <-. rewrite <- Hreq2 in Hask. split_and!; [|done|].
  - by apply (elsewhere_trans _ _ _ _ _ Hp1 Hp2).
  - intros p t [= <- <-]. split_and!; [by eexists|done|]. exists bytes. split; [done|]. destruct (Hp2 artifacts (plan_key job_id)) as [_ ->]; [|done].
    intros E%list_elem_of_singleton. apply (f_equal snd) in E. revert E. cbn [snd]. unfold plan_key, report_telemetry_key. apply keys_apart. discriminate.
Qed.
End runs.

(** ** What a completed report job leaves *)

Section outcome.
Context `{UnicodeData} `{PyText} `{YamlLoader} `{JsonSchema} `{FloatFormat} `{ZoneDb} `{DocxLib}.
Context {Store : Type} `{ArtifactStore Store} `{!VersionedStore Store}.
Context (cfg : report_settings) (db : tables) (model_ms duration_ms : Z) (allowed : list pystr).
Notation world := (triage_world Store).
Notation artifacts := (ts_artifacts (rs_triage cfg)).
Notation elsewhere := (elsewhere (Store := Store)).

(** [bytes] are stored under [key], and [meta] is the identity of that version. *)
Definition stored_as (store : Store) (key content_type : pystr) (bytes : list Z) (meta : json) : Prop :=
  get_object store (rs_reports cfg) key None = Ok bytes /\
  exists version, meta = artifact_metadata (rs_reports cfg) key version bytes (JStr content_type) /\
    get_object store (rs_reports cfg) key (nonempty version) = Ok bytes.

Lemma upload_metadata_run key ct bytes (w w' : world) meta :
  upload_artifact_metadata (rs_reports cfg) key ct bytes w = (Ok meta, w') ->
  stored_as (tw_store w') key ct bytes meta /\ elsewhere [(rs_reports cfg, key)] (tw_store w) (tw_store w') /\ tw_requests w' = tw_requests w.
Proof.
  unfold upload_artifact_metadata. destruct (put_typed _ _ _ _ _) as [store|] eqn:Hp; [|done]. intros [= Hm <-]. cbn [tw_store tw_requests].
  destruct (put_typed_current _ _ _ _ _ _ Hp) as [Hget Hver]. split_and!; [|by eapply elsewhere_typed|done]. split; [done|].
  unfold read_artifact_metadata in Hm. apply bind_result_ok in Hm as ([version t] & Hh & (b & Hb & Hm)%bind_result_ok). apply Ok_inj in Hm as <-.
  destruct (Hver _ _ Hh) as [-> Hv]. exists version.
  assert (Hn : get_object store (rs_reports cfg) key (nonempty version) = Ok bytes) by (by destruct version as [[|c s]|]).
  split; [|done]. rewrite Hn in Hb. by apply Ok_inj in Hb as ->.
Qed.

Lemma stored_elsewhere ks store store' key ct bytes meta : elsewhere ks store store' -> (rs_reports cfg, key) ∉ ks ->
  stored_as store key ct bytes meta -> stored_as store' key ct bytes meta.
Proof. intros He Hn (Hg & version & Hm & Hv). destruct (He _ _ Hn) as [_ Hget]. split; [by rewrite Hget|]. exists version. by rewrite Hget. Qed.

(** The report of a plan over a snapshot, with the images of [source]. *)
Definition rendering (source : Store) (plan snapshot : json) (file preview screenshots : list Z) : Prop := exists document docx,
  compose_report plan snapshot = Ok document /\ document_file (Some (screenshot_fetcher source)) false document = Ok docx /\
  docx_save docx = Ok file /\ compact_bytes (fst (document_to_preview_json document)) = Ok preview /\
  compact_bytes (JList (snd (document_to_preview_json document))) = Ok screenshots.

(** The three stored objects and their identities. *)
Definition holds_report (store : Store) (job_id : pystr) (file preview screenshots : list Z) (a : stored_artifacts) : Prop :=
  stored_as store (docx_key job_id) DOCX_TYPE file (sa_report a) /\ stored_as store (document_key job_id) JSON_TYPE preview (sa_document a) /\
  stored_as store (screenshots_key job_id) JSON_TYPE screenshots (sa_screenshots a).

Lemma report_keys_ne (a b job_id : pystr) : a <> b -> (rs_reports cfg, u "reports/" ++ job_id ++ a) ∉ [(rs_reports cfg, u "reports/" ++ job_id ++ b)].
Proof. intros Hne E%list_elem_of_singleton. apply (f_equal snd) in E. revert E. cbn [snd]. by apply keys_apart. Qed.

Lemma store_report_run job_id file preview screenshots (w w' : world) a :
  store_report cfg job_id file preview screenshots w = (Ok a, w') ->
  exists pbytes sbytes, compact_bytes preview = Ok pbytes /\ compact_bytes (JList screenshots) = Ok sbytes /\
    holds_report (tw_store w') job_id file pbytes sbytes a /\ elsewhere (report_keys cfg job_id) (tw_store w) (tw_store w') /\
    tw_requests w' = tw_requests w.
Proof.
  unfold store_report. intros [[-> [e ?]]|(pbytes & Hp & Hr)]%quiet_step; [done|].
  apply quiet_step in Hr as [[-> [e ?]]|(sbytes & Hs & Hr)]; [done|].
  apply bind_inv in Hr as [(e & _ & ?)|(m1 & w1 & H1'%upload_metadata_run & Hr)]; [done|].
  apply bind_inv in Hr as [(e & _ & ?)|(m2 & w2 & H2'%upload_metadata_run & Hr)]; [done|].
  apply bind_inv in Hr as [(e & _ & ?)|(m3 & w3 & H3'%upload_metadata_run & Hr)]; [done|]. injection Hr as <- <-.
  destruct H1' as (Hs1 & He1 & Hq1), H2' as (Hs2 & He2 & Hq2), H3' as (Hs3 & He3 & Hq3).
  exists pbytes, sbytes. split_and!; [done|done| | |by rewrite Hq3, Hq2, Hq1].
  - split_and!; cbn [sa_report sa_document sa_screenshots]; [|by eapply stored_elsewhere; [exact He3|by apply report_keys_ne|]|done].
    eapply stored_elsewhere; [exact He3|by apply report_keys_ne|]. eapply stored_elsewhere; [exact He2|by apply report_keys_ne|done].
  - apply (elsewhere_trans _ _ _ _ _ (elsewhere_trans _ _ _ _ _ He1 He2) He3).
Qed.

(** The former attempt's artifacts as they are, or this rendering's. *)
Definition published (source : Store) (job_id : pystr) (plan snapshot : json) (store : Store) (a : stored_artifacts) : Prop :=
  match existing_report_artifacts cfg source job_id with
  | Some former => a = former /\ store = source
  | None => elsewhere (report_keys cfg job_id) source store /\
      exists file preview screenshots, rendering source plan snapshot file preview screenshots /\
        holds_report store job_id file preview screenshots a
  end.

Lemma publish_report_run plan snapshot sha256 telemetry job_id (w w' : world) r :
  publish_report cfg plan snapshot sha256 telemetry job_id w = (Ok r, w') ->
  rr_output r = plan /\ tw_requests w' = tw_requests w /\ published (tw_store w) job_id plan snapshot (tw_store w') (rr_artifacts r) /\
  exists bytes, compact_bytes plan = Ok bytes /\ jget (u "output_sha256") (rr_provenance r) = Some (JStr (hexdigest bytes)).
Proof.
  unfold publish_report. unfold get_st at 1. unfold mbind at 1, M_bind at 1.
  intros [(e & _ & ?)|(a & w1 & Ha & Hr)]%bind_inv; [done|]. apply quiet_step in Hr as [[-> [e ?]]|(prov & Hp & Hr)]; [done|]. injection Hr as <- <-.
  cbn [rr_output rr_artifacts rr_provenance].
  assert (Hprov : exists bytes, compact_bytes plan = Ok bytes /\ jget (u "output_sha256") prov = Some (JStr (hexdigest bytes))).
  { unfold report_provenance in Hp. apply bind_result_ok in Hp as (bytes & Hb & Hp). apply Ok_inj in Hp as <-. exists bytes. split; [done|]. generalize (hexdigest bytes). intros d. reflexivity. }
  unfold published. destruct (existing_report_artifacts _ _ _) as [former|]; [injection Ha as <- <-; by split_and!|].
  apply quiet_step in Ha as [[-> [e ?]]|([[file preview] screenshots] & Hc & Ha)]; [done|].
  apply store_report_run in Ha as (pbytes & sbytes & Hpb & Hsb & Hh & He & Hq).
  split; [done|]. split; [done|]. split; [|done]. split; [done|].
  exists file, pbytes, sbytes. split; [|done]. unfold compose_and_render in Hc. apply bind_result_ok in Hc as (document & Hd & (bytes & Hf & Hc)%bind_result_ok).
  destruct (document_to_preview_json document) as [j l] eqn:Hprev. apply Ok_inj in Hc. injection Hc as <- <- <-.
  unfold render_document in Hf. apply bind_result_ok in Hf as (docx & Hdocx & Hsave). exists document, docx. by rewrite Hprev.
Qed.
End outcome.

(** ** The job *)

Section job.
Context `{UnicodeData} `{PyText} `{YamlLoader} `{JsonSchema} `{FloatFormat} `{ZoneDb} `{DocxLib}.
Context {Store : Type} `{ArtifactStore Store} `{!VersionedStore Store}.
Context (cfg : report_settings) (db : tables) (model_ms duration_ms : Z) (allowed : list pystr).
Notation world := (triage_world Store).
Notation artifacts := (ts_artifacts (rs_triage cfg)).
Notation elsewhere := (elsewhere (Store := Store)).
Notation process := (process_daily_report_message cfg db model_ms duration_ms allowed).

(** The snapshot [ref] names in the store, its checksum verified. *)
Definition frozen_snapshot (store : Store) (ref snapshot : json) : Prop := exists bucket key bytes text,
  subscript_key (u "bucket") ref = Ok (JStr bucket) /\ subscript_key (u "key") ref = Ok (JStr key) /\
  get_object store bucket key (nonempty (optional_str (u "version_id") ref)) = Ok bytes /\
  (forall sha256, optional_str (u "sha256") ref = Some sha256 -> sha256 <> [] -> hexdigest bytes = sha256) /\
  utf8_decode bytes = Some text /\ json_loads (universal_newlines text) = Some snapshot.

(** The stored plan, or the model's after at most the configured number of
    requests, which is then stored. *)
Definition plan_source (job_id : pystr) (plan : json) (w w1 : world) : Prop :=
  match load_saved_plan cfg (tw_store w) job_id with
  | Some stored => plan = stored /\ w1 = w
  | None => elsewhere (artifact_keys cfg job_id) (tw_store w) (tw_store w1) /\
      (exists k, k <= attempts_allowed (rs_triage cfg) /\ length (tw_requests w1) = length (tw_requests w) + k) /\
      exists bytes, compact_bytes plan = Ok bytes /\ get_object (tw_store w1) artifacts (plan_key job_id) None = Ok bytes
  end.

Definition job_id_of (message : json) (job_id : pystr) : Prop := jget (u "job_id") message = Some (JStr job_id).

(** What a completed job did; [w1] is the state when the plan was there. *)
Definition completed_report (message : json) (w w' : world) (r : report_result) (job_id : pystr) (snapshot : json) (w1 : world) : Prop :=
  job_id_of message job_id /\ (exists ref, snapshot_ref message = Ok ref /\ frozen_snapshot (tw_store w) ref snapshot) /\
  (exists skill_md schema_text schema label, skill_of db message (u "daily-alert-report") = Ok (skill_md, schema_text) /\
    schema_of schema_text = Ok schema /\ validated_plan schema (rr_output r) label = Ok (rr_output r)) /\
  plan_source job_id (rr_output r) w w1 /\ tw_requests w' = tw_requests w1 /\
  published cfg (tw_store w1) job_id (rr_output r) snapshot (tw_store w') (rr_artifacts r).

Lemma load_snapshot_run ref (w w' : world) r : load_snapshot ref w = (r, w') ->
  w' = w /\ forall snapshot, r = Ok snapshot -> frozen_snapshot (tw_store w) ref snapshot.
Proof.
  unfold load_snapshot. intros [[-> [e ->]]|(bucket & Hb & Hr)]%quiet_step; [done|]. apply quiet_step in Hr as [[-> [e ->]]|(key & Hk & Hr)]; [done|].
  apply bind_inv in Hr as [(e & Hd & ->)|(bytes & w1 & Hd & Hr)]; apply download_run in Hd as [-> Hd]; [done|].
  unfold lift_result in Hr. injection Hr as <- <-. split; [done|]. intros snapshot Hs.
  destruct (Hd bytes eq_refl) as [Hget Hsha].
  apply bind_result_ok in Hb as (jb & Hb & Hb'). apply bind_result_ok in Hk as (jk & Hk & Hk').
  destruct jb as [| | | |b| |]; try discriminate Hb'. apply Ok_inj in Hb' as ->. destruct jk as [| | | |k| |]; try discriminate Hk'. apply Ok_inj in Hk' as ->.
  exists bucket, key, bytes. destruct (utf8_decode bytes) as [t|] eqn:Ht; [|discriminate Hs]. exists t.
  split; [exact Hb|]. split; [exact Hk|]. split; [unfold nonempty; destruct (optional_str (u "version_id") ref) as [[|c v]|]; exact Hget|].
  split; [exact Hsha|]. split; [exact eq_refl|]. change (Some t ≫= _) with (json_loads (universal_newlines t)) in Hs.
  destruct (json_loads (universal_newlines t)) as [j|]; [by apply Ok_inj in Hs as ->|discriminate Hs].
Qed.

Lemma job_steps message (w w' : world) r : process message w = (r, w') ->
  (w' = w /\ exists e, r = Raise e) \/
  exists ref job_id skill_md schema_text schema snapshot payload w1, snapshot_ref message = Ok ref /\ job_id_of message job_id /\
    skill_of db message (u "daily-alert-report") = Ok (skill_md, schema_text) /\ schema_of schema_text = Ok schema /\
    frozen_snapshot (tw_store w) ref snapshot /\
    ((exists e, r = Raise e /\ obtain_plan cfg model_ms duration_ms schema payload (jget_null (u "sha256") ref) skill_md job_id w = (Raise e, w')) \/
     exists plan telemetry, obtain_plan cfg model_ms duration_ms schema payload (jget_null (u "sha256") ref) skill_md job_id w = (Ok (plan, telemetry), w1) /\
       publish_report cfg plan snapshot (jget_null (u "sha256") ref) telemetry job_id w1 = (r, w')).
Proof.
  unfold process_daily_report_message.
  intros [[-> [e ->]]|(ref & Href & Hr)]%quiet_step; [by left; eauto|].
  apply quiet_step in Hr as [[-> [e ->]]|(job_id & Hid & Hr)]; [by left; eauto|].
  apply quiet_step in Hr as [[-> [e ->]]|([skill_md schema_text] & Hskill & Hr)]; [by left; eauto|].
  apply quiet_step in Hr as [[-> [e ->]]|(schema & Hschema & Hr)]; [by left; eauto|].
  apply bind_inv in Hr as [(e & Hs & ->)|(snapshot & w1 & Hs & Hr)]; apply load_snapshot_run in Hs as [-> Hfrozen]; [by left; eauto|].
  apply quiet_step in Hr as [[-> [e ->]]|(payload & Hpay & Hr)]; [by left; eauto|]. right. cbv zeta in Hr.
  apply bind_result_ok in Hid as (j & Hid & Hj). destruct j as [| | | |s| |]; try discriminate Hj. apply Ok_inj in Hj as ->.
  assert (Hmsg : job_id_of message job_id).
  { unfold job_id_of, subscript_key in *. destruct message as [| | | | | |o]; try discriminate Hid. cbn [jget].
    destruct (assoc (u "job_id") o); [by apply Ok_inj in Hid as ->|discriminate Hid]. }
  apply bind_inv in Hr as [(e & Hp & ->)|([plan telemetry] & w1 & Hp & Hr)].
  - exists ref, job_id, skill_md, schema_text, schema, snapshot, payload, w.
    repeat (split; [first [exact Href|exact Hmsg|exact Hskill|exact Hschema|exact (Hfrozen _ eq_refl)]|]). left. by exists e.
  - exists ref, job_id, skill_md, schema_text, schema, snapshot, payload, w1.
    repeat (split; [first [exact Href|exact Hmsg|exact Hskill|exact Hschema|exact (Hfrozen _ eq_refl)]|]). right. by exists plan, telemetry.
Qed.

(** C10. A report job that completes publishes exactly its plan over its frozen
    snapshot: the snapshot was read with the checksum of the message, the plan
    is valid and is the one a former attempt stored (then nothing is asked) or
    one of the model's first answers, which is stored; and the stored file,
    preview and image index are those of one composed document, each returned
    with the checksum and version of the bytes stored, unless a former attempt
    left all three, which are then returned as they are. *)
Theorem report_job_outcome message (w w' : world) r : process message w = (Ok r, w') ->
  exists job_id snapshot w1, completed_report message w w' r job_id snapshot w1.
Proof.
  intros [[_ [e ?]]|(ref & job_id & skill_md & schema_text & schema & snapshot & payload & w1 & Href & Hid & Hskill & Hschema & Hf & Hrun)]%job_steps; [done|].
  destruct Hrun as [(e & ? & _)|(plan & telemetry & Hp & (<- & Hq & Hpub & _)%publish_report_run)]; [done|].
  exists job_id, snapshot, w1. apply obtain_plan_run in Hp.
  split_and!; [done|by exists ref| | |done|done].
  - exists skill_md, schema_text, schema. destruct (load_saved_plan _ _ _) as [stored|].
    + destruct Hp as [_ Hp]. destruct (Hp _ _ eq_refl) as (-> & _ & Hv). by eexists.
    + destruct Hp as (_ & _ & Hp). destruct (Hp _ _ eq_refl) as (_ & Hv & _). by eexists.
  - unfold plan_source. destruct (load_saved_plan _ _ _) as [stored|].
    + destruct Hp as [-> Hp]. by destruct (Hp _ _ eq_refl) as (-> & _ & _).
    + destruct Hp as (He & Hk & Hp). destruct (Hp _ _ eq_refl) as (_ & _ & Hb). by split_and!.
Qed.
End job.

(** ** Recovery and images *)

Section guarantees.
Context `{UnicodeData} `{PyText} `{YamlLoader} `{JsonSchema} `{FloatFormat} `{ZoneDb} `{DocxLib}.
Context {Store : Type} `{ArtifactStore Store} `{!VersionedStore Store}.
Context (cfg : report_settings) (db : tables) (model_ms duration_ms : Z) (allowed : list pystr).
Notation world := (triage_world Store).
Notation elsewhere := (elsewhere (Store := Store)).
Notation process := (process_daily_report_message cfg db model_ms duration_ms allowed).

(** A run that sends nothing and writes only the objects at [ks]. *)
Definition writes_only (ks : list (pystr * pystr)) (w w' : world) : Prop :=
  elsewhere ks (tw_store w) (tw_store w') /\ tw_requests w' = tw_requests w.
Lemma writes_refl ks w : writes_only ks w w.
Proof. by split; [apply elsewhere_refl|]. Qed.
Lemma writes_trans ks w w1 w2 : writes_only ks w w1 -> writes_only ks w1 w2 -> writes_only ks w w2.
Proof.
  intros [He Hq] [He' Hq']. split; [|by rewrite Hq']. intros b k Hn. destruct (He b k Hn) as [Ha Hb], (He' b k Hn) as [Hc Hd].
  split; [by rewrite Hc|]. intros v. by rewrite Hd.
Qed.

(** Every call of a sequence writes only the objects at [ks]. *)
Definition writer {A} (ks : list (pystr * pystr)) (m : M world pyexn A) : Prop := forall w r w', m w = (r, w') -> writes_only ks w w'.
Lemma writer_bind {A B} ks (m : M world pyexn A) (f : A -> M world pyexn B) : writer ks m -> (forall a, writer ks (f a)) -> writer ks (m ≫= f).
Proof. intros Hm Hf w r w' [(e & Ha & _)|(a & w1 & Ha & Hr)]%bind_inv; [by eapply Hm|]. eapply writes_trans; [by eapply Hm|by eapply Hf]. Qed.
Lemma writer_lift {A} ks (r : result pyexn A) : writer ks (lift_result r).
Proof. intros w r' w' [= _ <-]. apply writes_refl. Qed.
Lemma writer_ret {A} ks (a : A) : writer ks (mret a).
Proof. intros w r' w' [= _ <-]. apply writes_refl. Qed.
Lemma writer_get ks : writer ks get_st.
Proof. intros w r' w' [= _ <-]. apply writes_refl. Qed.

Lemma upload_writer ks key ct bytes : (rs_reports cfg, key) ∈ ks -> writer ks (upload_artifact_metadata (rs_reports cfg) key ct bytes).
Proof.
  intros Hin w r w'. unfold upload_artifact_metadata. destruct (put_typed _ _ _ _ _) as [store|] eqn:Hp; intros [= _ <-]; [|apply writes_refl].
  split; [|done]. intros b k Hn. eapply elsewhere_typed; [exact Hp|]. set_solver.
Qed.

Lemma publish_writer plan snapshot sha256 telemetry job_id : writer (report_keys cfg job_id) (publish_report cfg plan snapshot sha256 telemetry job_id).
Proof.
  unfold publish_report. apply writer_bind; [apply writer_get|intros w]. apply writer_bind; [|intros a; apply writer_bind; [apply writer_lift|intros; apply writer_ret]].
  destruct (existing_report_artifacts _ _ _); [apply writer_ret|]. apply writer_bind; [apply writer_lift|intros [[file preview] screenshots]].
  unfold store_report. do 2 (apply writer_bind; [apply writer_lift|intros]).
  do 3 (apply writer_bind; [apply upload_writer; unfold report_keys; cbn [map]; set_solver|intros]). apply writer_ret.
Qed.

(** C12. A redelivered report job never asks the model again: once a readable
    plan is stored, every further run of the job, failed or not, sends no
    request, writes nothing but the three report objects, and can only return
    that plan. *)
Theorem stored_plan_is_final message job_id plan (w w' : world) r : job_id_of message job_id ->
  load_saved_plan cfg (tw_store w) job_id = Some plan -> process message w = (r, w') ->
  writes_only (report_keys cfg job_id) w w' /\ load_saved_plan cfg (tw_store w') job_id = Some plan /\
  forall out, r = Ok out -> rr_output out = plan.
Proof.
  intros Hid Hplan Hrun.
  assert (Hend : writes_only (report_keys cfg job_id) w w' -> (forall out, r = Ok out -> rr_output out = plan) ->
    writes_only (report_keys cfg job_id) w w' /\ load_saved_plan cfg (tw_store w') job_id = Some plan /\ forall out, r = Ok out -> rr_output out = plan).
  { intros [He Hq] Hout. split_and!; [done..| |done]. unfold load_saved_plan in *.
    destruct (He (ts_artifacts (rs_triage cfg)) (plan_key job_id)) as [_ ->]; [|done].
    intros Hin%report_not_artifact. apply Hin. unfold artifact_keys. by left. }
  apply job_steps in Hrun as [[-> [e ->]]|(ref & id & skill_md & schema_text & schema & snapshot & payload & w1 & _ & Hid' & _ & _ & _ & Hrun)].
  - apply Hend; [apply writes_refl|done].
  - unfold job_id_of in *. rewrite Hid in Hid'. injection Hid' as <-.
    destruct Hrun as [(e & -> & Hp)|(p & telemetry & Hp & Hr)]; apply obtain_plan_run in Hp; rewrite Hplan in Hp; destruct Hp as [-> Hp].
    + apply Hend; [apply writes_refl|done].
    + destruct (Hp _ _ eq_refl) as (-> & _ & _). apply Hend; [by eapply publish_writer|]. intros out ->. by apply publish_report_run in Hr as [-> _].
Qed.

(** An image was read at a frozen reference, and has its checksum when the
    reference states one. *)
Definition frozen_image (store : Store) (s : screenshot) (data : list Z) : Prop := exists bucket key version,
  sc_bucket s = JStr bucket /\ sc_object_key s = JStr key /\ optional_parameter (sc_version_id s) = Ok version /\
  get_object store bucket key version = Ok data /\ (jtruthy (sc_sha256 s) = true -> sc_sha256 s = JStr (hexdigest data)).

Lemma fetched_frozen store s data : (forall b k v e, get_object store b k v = Raise e -> x_class e <> TypeError) ->
  fetch_screenshot (Some (screenshot_fetcher store)) s = Ok data -> frozen_image store s data.
Proof.
  intros Hread. unfold fetch_screenshot.
  assert (Hno : forall v e, screenshot_fetcher store (sc_bucket s) (sc_object_key s) v (sc_sha256 s) = Raise e -> x_class e <> TypeError).
  { intros v e. unfold screenshot_fetcher, optional_parameter, text_parameter. destruct (jtruthy v).
    - destruct v; cbn [mbind result_bind mret result_ret]; try (by intros [= <-]).
      destruct (sc_bucket s); try (by intros [= <-]). destruct (sc_object_key s); cbn [mbind result_bind]; try (by intros [= <-]).
      destruct (get_object _ _ _ _) as [body|e'] eqn:Hg; cbn [mbind result_bind]; [destruct (_ && _); by intros [= <-]|intros [= <-]; by eapply Hread].
    - cbn [mbind result_bind]. destruct (sc_bucket s); try (by intros [= <-]). destruct (sc_object_key s); cbn [mbind result_bind]; try (by intros [= <-]).
      destruct (get_object _ _ _ _) as [body|e'] eqn:Hg; cbn [mbind result_bind]; [destruct (_ && _); by intros [= <-]|intros [= <-]; by eapply Hread]. }
  destruct (screenshot_fetcher store _ _ (sc_version_id s) (sc_sha256 s)) as [body|e] eqn:Hf.
  2:{ rewrite bool_decide_eq_false_2 by (by eapply Hno). by intros (? & ? & _)%bind_result_ok. }
  cbn [mbind result_bind]. intros Hd. assert (body = data) as -> by (destruct body; [discriminate Hd|by apply Ok_inj in Hd]). clear Hd Hno.
  unfold screenshot_fetcher in Hf. apply bind_result_ok in Hf as (version & Hv & (bucket & Hb & (key & Hk & (body & Hg & Hf)%bind_result_ok)%bind_result_ok)%bind_result_ok).
  unfold text_parameter in Hb, Hk. unfold frozen_image. destruct (sc_bucket s) as [| | | |b| |]; try discriminate Hb. destruct (sc_object_key s) as [| | | |k| |]; try discriminate Hk.
  apply Ok_inj in Hb as ->. apply Ok_inj in Hk as ->.
  exists bucket, key, version. destruct (jtruthy (sc_sha256 s)); cbn [andb] in Hf.
  - case_bool_decide as Hsha; cbn [negb] in Hf; [|discriminate Hf]. apply Ok_inj in Hf as ->.
    split_and!; [exact eq_refl|exact eq_refl|exact Hv|exact Hg|intros _; symmetry; exact Hsha].
  - apply Ok_inj in Hf as ->. split_and!; [exact eq_refl|exact eq_refl|exact Hv|exact Hg|discriminate].
Qed.

Lemma rendered_in_block b : forall s, s ∈ rendered_shots b -> s ∈ block_shots b.
Proof.
  induction b as [b Hleaf|a c IH] using block_induction; intros s.
  - by destruct b; try (by destruct (Hleaf a children)).
  - cbn [rendered_shots block_shots]. rewrite !elem_of_app. intros [Hs|Hs]; [by right|left]. destruct (an_available a); [|by apply elem_of_nil in Hs].
    apply list_elem_of_join in Hs as (l & Hs & Hl). apply list_elem_of_fmap in Hl as (x & -> & Hx). apply shots_in. exists x. split; [done|].
    rewrite Forall_forall in IH. by apply IH.
Qed.

(** C11. No image of a published report is anything but frozen evidence: the
    stored file of a job that rendered is the saved composition of its plan,
    and every image in it was read at a reference that one of the snapshot's
    incidents provides (its screenshots, or the blocks of its stored
    analysis), with the checksum of the reference when it states one. *)
Theorem report_images_frozen message (w w' : world) r job_id snapshot w1 :
  completed_report cfg db message w w' r job_id snapshot w1 -> existing_report_artifacts cfg (tw_store w1) job_id = None ->
  (forall b k v e, get_object (tw_store w1) b k v = Raise e -> x_class e <> TypeError) ->
  exists fr docx file, read_snapshot snapshot = Ok fr /\ docx_save docx = Ok file /\
    stored_as cfg (tw_store w') (docx_key job_id) DOCX_TYPE file (sa_report (rr_artifacts r)) /\
    forall data, data ∈ pictures (dx_body docx) -> exists i s, i ∈ fr_incidents fr /\ s ∈ own_shots i /\ frozen_image (tw_store w1) s data.
Proof.
  intros (_ & _ & _ & _ & _ & Hpub) Hnone Hread. unfold published in Hpub. rewrite Hnone in Hpub.
  destruct Hpub as (_ & file & preview & screenshots & (document & docx & Hc & Hd & Hs & _) & Hh & _).
  apply compose_parts in Hc as Hc'. destruct Hc' as (_ & fr & _ & _ & _ & Hfr & _). exists fr, docx, file. split_and!; try done.
  intros data Hin. apply document_images in Hd. apply list_elem_of_lookup in Hin as [n Hn]. eapply Forall2_lookup_r in Hn as (s & Hsn & Hf); [|exact Hd].
  apply list_elem_of_lookup_2 in Hsn.
  assert (Hdoc : s ∈ document_shots document).
  { unfold document_shots. apply list_elem_of_join in Hsn as (l & Hs' & Hl). apply list_elem_of_fmap in Hl as (b & -> & Hb). apply shots_in.
    exists b. split; [done|]. by apply rendered_in_block. }
  destruct (composed_shots_own _ _ _ _ Hfr Hc s Hdoc) as (i & Hi & Hown). exists i, s. split_and!; [done|done|]. by apply fetched_frozen.
Qed.
End guarantees.

(** ** A report job *)

(** A store that keeps content types and has no versions. *)
Definition typed_objects : Type := list ((pystr * pystr) * (pystr * list Z)).
Definition typed_find (o : typed_objects) (b k : pystr) : option (pystr * list Z) := snd <$> find_first (fun x => bool_decide (fst x = (b, k))) o.
Definition not_found : pyexn := mk_exn (ForeignError (u "ClientError") false) (u "Not Found").
Definition typed_get (o : typed_objects) (b k : pystr) (_ : option pystr) : result pyexn (list Z) :=
  match typed_find o b k with Some x => Ok (snd x) | None => Raise not_found end.
Definition typed_head (o : typed_objects) (b k : pystr) : result pyexn (option pystr * json) :=
  match typed_find o b k with Some x => Ok (None, JStr (fst x)) | None => Raise not_found end.
Definition typed_put (ct b k : pystr) (bytes : list Z) (o : typed_objects) : result pyexn typed_objects := Ok (((b, k), (ct, bytes)) :: o).

Lemma typed_find_put ct b k bytes o : typed_find (((b, k), (ct, bytes)) :: o) b k = Some (ct, bytes).
Proof. unfold typed_find. cbn [find_first fst]. by rewrite bool_decide_eq_true_2. Qed.
Lemma typed_find_other ct b k bytes o b' k' : (b', k') <> (b, k) -> typed_find (((b, k), (ct, bytes)) :: o) b' k' = typed_find o b' k'.
Proof. intros Hne. unfold typed_find. cbn [find_first fst]. by rewrite bool_decide_eq_false_2. Qed.

#[refine] Definition typed_artifacts : ArtifactStore typed_objects := {|
  get_object := typed_get;
  object_exists o b k := bool_decide (is_Some (typed_find o b k));
  put_object := typed_put JSON_TYPE;
|}.
Proof.
  - intros b k bytes o o' [= <-]. unfold typed_get. rewrite typed_find_put. split; [done|]. by apply bool_decide_eq_true_2.
  - intros b k bytes o o' b' k' v [= <-] Hne. unfold typed_get. by rewrite typed_find_other.
Defined.
#[refine] Definition typed_versions : @VersionedStore typed_objects typed_artifacts := {|
  put_typed := typed_put;
  head_object := typed_head;
|}.
Proof.
  - intros ct b k bytes o o' [= <-]. cbn. unfold typed_get, typed_head. rewrite typed_find_put. split; [done|]. by intros v t [= _ <-].
  - intros ct b k bytes o o' b' k' [= <-] Hne. cbn. unfold typed_get, typed_head. by rewrite !typed_find_other.
  - intros b k bytes o o' b' k' [= <-] Hne. cbn. unfold typed_head. by rewrite typed_find_other.
Defined.

Definition report_cfg : report_settings := mk_report_settings triage_cfg (u "reports").
Definition report_row : snapshot := sample_row (u "s9") (u "daily-alert-report") 1 (sample_manifest (u "daily-alert-report") []) [] true.
Definition report_tables : tables := mk_tables [] [] [report_row].
Definition snapshot_bytes : list Z := utf8_encode (json_dumps (fun _ => []) sample_snapshot).
Definition report_message : json := JObj [
  (u "job_id", JStr (u "j9")); (u "job_type", JStr (u "daily_report")); (u "skill_name", JStr (u "daily-alert-report"));
  (u "skill_snapshot_id", JStr (u "s9"));
  (u "object_refs", JList [JObj [(u "bucket", JStr (u "frozen")); (u "key", JStr (u "snap")); (u "sha256", JStr (hexdigest snapshot_bytes))]])].
Definition report_evidence : typed_objects := [
  ((u "frozen", u "snap"), (JSON_TYPE, snapshot_bytes)); ((u "evidence", u "k1"), (u "image/png", [200; 100]%Z));
  ((u "evidence", u "other"), (u "image/png", [100; 100]%Z))].
Definition plan_bytes (en : string) : list Z := utf8_encode (json_dumps (fun _ => []) (sample_plan en)).
Definition fresh_world : triage_world typed_objects := mk_triage report_evidence [http_body (JInt 3); http_body (sample_plan "Quiet.")] [].
Definition recovered_world : triage_world typed_objects :=
  mk_triage (((u "artifacts", plan_key (u "j9")), (JSON_TYPE, plan_bytes "Quiet.")) :: report_evidence) [] [].
#[local] Notation run := (@process_daily_report_message cjk_unicode no_text json_yaml accept_all int_commas utc_zone plain_library
  typed_objects typed_artifacts typed_versions report_cfg report_tables 0 0 FRAGMENT_KEYS report_message) (only parsing).

Lemma sample_runs_ok : is_ok (fst (run fresh_world)) = true /\ length (tw_requests (snd (run fresh_world))) = 2 /\
  is_ok (fst (run recovered_world)) = true.
Proof. vm_compute. by split_and!. Qed.

Lemma report_job_outcome_witness : exists r, run fresh_world = (Ok r, snd (run fresh_world)) /\
  exists job_id snapshot w1, @completed_report cjk_unicode no_text json_yaml accept_all int_commas utc_zone plain_library
    typed_objects typed_artifacts typed_versions report_cfg report_tables report_message fresh_world (snd (run fresh_world)) r job_id snapshot w1.
Proof.
  destruct (ok_pair (run fresh_world) (proj1 sample_runs_ok)) as [r E]. exists r. split; [exact E|].
  exact (@report_job_outcome cjk_unicode no_text json_yaml accept_all int_commas utc_zone plain_library typed_objects typed_artifacts
    typed_versions report_cfg report_tables 0 0 FRAGMENT_KEYS report_message fresh_world (snd (run fresh_world)) r E).
Defined.

Lemma recovered_plan : @load_saved_plan typed_objects typed_artifacts report_cfg (tw_store recovered_world) (u "j9") = Some (sample_plan "Quiet.").
Proof. vm_compute. reflexivity. Qed.

Lemma stored_plan_is_final_witness : exists out, run recovered_world = (Ok out, snd (run recovered_world)) /\ rr_output out = sample_plan "Quiet.".
Proof.
  destruct (ok_pair (run recovered_world) (proj2 (proj2 sample_runs_ok))) as [out E]. exists out. split; [exact E|].
  exact (proj2 (proj2 (@stored_plan_is_final cjk_unicode no_text json_yaml accept_all int_commas utc_zone plain_library typed_objects typed_artifacts
    typed_versions report_cfg report_tables 0 0 FRAGMENT_KEYS report_message (u "j9") (sample_plan "Quiet.") recovered_world
    (snd (run recovered_world)) (Ok out) ltac:(vm_compute; reflexivity) recovered_plan E)) out eq_refl).
Defined.

Lemma typed_reads (o : typed_objects) b k v e : typed_get o b k v = Raise e -> x_class e <> TypeError.
Proof. unfold typed_get. destruct (typed_find o b k); by intros [= <-]. Qed.

Lemma no_former_report : @existing_report_artifacts typed_objects typed_artifacts typed_versions report_cfg (tw_store recovered_world) (u "j9") = None.
Proof. vm_compute. reflexivity. Qed.

Lemma report_images_frozen_witness : exists r snapshot fr docx file, fst (run recovered_world) = Ok r /\
  @read_snapshot no_text snapshot = Ok fr /\ @docx_save plain_library docx = Ok file /\
  forall data, data ∈ pictures (dx_body docx) -> exists i s, i ∈ fr_incidents fr /\ s ∈ @own_shots cjk_unicode no_text i /\
    @frozen_image typed_objects typed_artifacts (tw_store recovered_world) s data.
Proof.
  destruct (ok_pair (run recovered_world) (proj2 (proj2 sample_runs_ok))) as [r E].
  destruct (@report_job_outcome cjk_unicode no_text json_yaml accept_all int_commas utc_zone plain_library typed_objects typed_artifacts
    typed_versions report_cfg report_tables 0 0 FRAGMENT_KEYS report_message recovered_world (snd (run recovered_world)) r E)
    as (job_id & snapshot & w1 & Hc).
  pose proof Hc as (Hid & _ & _ & Hsource & _). unfold job_id_of in Hid. assert (Hj : job_id = u "j9") by (vm_compute in Hid; by injection Hid as <-).
  subst job_id. unfold plan_source in Hsource. rewrite recovered_plan in Hsource. destruct Hsource as [_ ->].
  destruct (@report_images_frozen cjk_unicode no_text json_yaml accept_all int_commas utc_zone plain_library typed_objects typed_artifacts
    typed_versions report_cfg report_tables report_message recovered_world (snd (run recovered_world)) r (u "j9") snapshot recovered_world Hc
    no_former_report (typed_reads (tw_store recovered_world))) as (fr & docx & file & Hfr & Hsave & _ & Himages).
  exists r, snapshot, fr, docx, file. split; [by rewrite E|]. split; [exact Hfr|]. split; [exact Hsave|exact Himages].
Defined.

(** A plan that cannot be read next to a complete former report: the model is
    asked again, the new plan is stored and returned as the job's output, and
    the former report, of another plan, is returned as its artifacts. *)
Definition former_report : typed_objects := [
  ((u "reports", docx_key (u "j9")), (DOCX_TYPE, [80; 75; 1]%Z)); ((u "reports", document_key (u "j9")), (JSON_TYPE, [123; 125]%Z));
  ((u "reports", screenshots_key (u "j9")), (JSON_TYPE, [91; 93]%Z))].
Definition unreadable_world : triage_world typed_objects := mk_triage
  (((u "artifacts", plan_key (u "j9")), (JSON_TYPE, [255]%Z)) :: former_report ++ report_evidence) [http_body (sample_plan "Loud.")] [].
Lemma unreadable_plan_replaced : match fst (run unreadable_world) with
  | Ok r => rr_output r = sample_plan "Loud." /\
      rr_artifacts r = default (rr_artifacts r) (@existing_report_artifacts typed_objects typed_artifacts typed_versions report_cfg
        (tw_store unreadable_world) (u "j9")) /\
      jget (u "sha256") (sa_report (rr_artifacts r)) = Some (JStr (hexdigest [80; 75; 1]%Z))
  | Raise _ => False
  end.
Proof. vm_compute. by split_and!. Qed.
