(* ===== verification/Reports.v ===== *)
(** * Generating and reading reports

    [apps/api/app/api/v1/routers/reports.py] and [report_fragments.py]: the
    frozen snapshot of a shift, the numbered report with its job, the pinning
    of a completed report's file, and the downloads.

    A handler is a transaction on one database; what it wrote to the object
    store stays when it raises.  Report numbers are allocated under the lock of
    the shift's row, held until the commit, so the transactions of one shift
    follow one another.  A poll takes no lock: it reads the report, then its
    job, then the object store ([poll_reads]), each possibly long before it
    writes the columns of the report that it changed ([flush_report]).  A
    completed job can be reopened by a late failure and completed again; what
    is final about a report is stated with that in mind.  Generated keys and
    the clock are arguments, and the registry of media types, which the host's
    files extend, is a parameter. *)

From Stdlib Require Import SpecFloat.
From S2P Require Import Prelude PyStr Json Schema Failures PyVal PyColl PyTime Sha256 Jobs Broker Sweep Outbox Evidence Snapshots SkillRuntime Skills Preprocess Hermes LogTriage Api Analysis ReportDocument Composition DailyReport.

(** ** [report_fragments.py] *)

Section fragments.
Context `{PyText}.
Notation "j .? k" := (jget_null (u k) j) (at level 8, only parsing).

Definition text_of (j : json) : json := JStr (py_str (jor j (JStr []))).
(** [_pair] *)
Definition fragment_pair (zh en : json) : json := JObj [(u "zh", text_of zh); (u "en", text_of en)].

(** One side of a pair: of the object under [key], or the flat field. *)
Definition context_side (context : json) (key side : string) : json :=
  let nested := jget_null (u key) context in
  if is_obj nested then jget_null (u side) nested else jget_null (u key ++ u "_" ++ u side) context.
Definition context_pair (context : json) (key : string) : json :=
  fragment_pair (context_side context key "zh") (context_side context key "en").
Definition has_any (keys : list string) (j : json) : bool := existsb (fun k => bool_decide (is_Some (jget (u k) j))) keys.

(** [list(l)[:5]] *)
Definition first_five (j : json) : result pyexn json := l ← py_iter (jor j (JList [])); mret (JList (take 5 l)).
Definition context_fragment (context : json) : result pyexn json :=
  findings ← first_five context.?"findings";
  mret (JObj ([
    (u "contract", JStr (u "report-fragment-v1")); (u "headline", text_of context.?"headline"); (u "severity", context.?"severity");
    (u "summary", context_pair context "summary"); (u "findings", findings)] ++
    (if has_any ["likely_cause"; "likely_cause_zh"; "likely_cause_en"]%string context then [(u "likely_cause", context_pair context "likely_cause")] else []) ++
    (if has_any ["recommended_action"; "recommended_action_zh"; "recommended_action_en"]%string context
     then [(u "recommended_action", context_pair context "recommended_action")] else []))).

Definition fragment_finding (f : json) : json := JObj [
  (u "zh", text_of (jor f.?"label_zh" f.?"label_en")); (u "en", text_of (jor f.?"label_en" f.?"label_zh"));
  (u "detail_zh", text_of f.?"detail_zh"); (u "detail_en", text_of f.?"detail_en")].
Definition triage_fragment (o : json) : result pyexn json :=
  findings ← first_objects (jor o.?"key_finds" (JList []));
  mret (JObj ([
    (u "contract", JStr (u "report-fragment-v1")); (u "headline", text_of (jor o.?"summary_en" o.?"summary_zh"));
    (u "severity", o.?"severity_signal"); (u "summary", fragment_pair o.?"summary_zh" o.?"summary_en"); (u "findings", JList (map fragment_finding findings))] ++
    (if has_any ["likely_cause_zh"; "likely_cause_en"]%string o
     then [(u "likely_cause", fragment_pair o.?"likely_cause_zh" o.?"likely_cause_en")] else []) ++
    (if has_any ["recommended_action_zh"; "recommended_action_en"]%string o
     then [(u "recommended_action", fragment_pair o.?"recommended_action_zh" o.?"recommended_action_en")] else []))).

(** [build_report_fragment] *)
Definition build_report_fragment (o : json) : result pyexn json :=
  if negb (is_obj o) then mret JNull
  else if is_obj o.?"report_context" then context_fragment o.?"report_context" else triage_fragment o.
End fragments.

(** ** Data *)

#[global] Instance artifact_eq_dec : EqDecision artifact.
Proof. solve_decision. Defined.

Record shift_row := mk_shift {
  sh_id : N; sh_name : pystr; sh_timezone : option pystr;   (** of its definition *)
  sh_starts_at : datetime; sh_ends_at : option datetime }.
Record incident_facts := mk_facts {
  if_id : N; if_shift : option N; if_display_id : pystr; if_title : pystr; if_service : pystr; if_environment : pystr; if_status : pystr;
  if_triggered_at : datetime; if_recovered_at : option datetime; if_trigger_value : option pystr; if_teams_url : option pystr;
  if_grafana_url : option pystr; if_created_at : usec }.
Record report_snapshot := mk_report_snapshot {
  rsn_id : N; rsn_shift : N; rsn_json : json; rsn_sha256 : pystr; rsn_skill_snapshot_id : pystr; rsn_execution_hash : pystr; rsn_created_by : N }.
(** The columns of [reports] written when the row is inserted; the artifact
    columns are those of [Jobs.report]. *)
Record report_row := mk_report_row {
  rp_id : N; rp_shift : N; rp_snapshot : N; rp_job : N; rp_version : Z; rp_skill_version : pystr; rp_skill_hash : pystr;
  rp_skill_snapshot_id : pystr; rp_execution_hash : pystr; rp_generated_by : N; rp_created_at : usec }.

Record reports_db := mk_reports_db {
  rd_api : api_db;
  rd_shifts : list shift_row;
  rd_incidents : list incident_facts;
  rd_snapshots : list report_snapshot;
  rd_rows : list report_row;
  rd_written : gmap N Jobs.report;
}.
Record reports_world (O : Type) := mk_reports_world { rw_db : reports_db; rw_objects : O }.
Arguments mk_reports_world {O}. Arguments rw_db {O}. Arguments rw_objects {O}.

Definition set_api (a : api_db) (d : reports_db) : reports_db :=
  mk_reports_db a (rd_shifts d) (rd_incidents d) (rd_snapshots d) (rd_rows d) (rd_written d).
Definition add_snapshot (s : report_snapshot) (d : reports_db) : reports_db :=
  mk_reports_db (rd_api d) (rd_shifts d) (rd_incidents d) (rd_snapshots d ++ [s]) (rd_rows d) (rd_written d).
Definition set_written (w : gmap N Jobs.report) (d : reports_db) : reports_db :=
  mk_reports_db (rd_api d) (rd_shifts d) (rd_incidents d) (rd_snapshots d) (rd_rows d) w.
Definition no_artifact : artifact := mk_artifact None None None None None None.
Definition no_provenance : provenance := mk_provenance None None None None None None None None None None.
Definition add_report (r : report_row) (d : reports_db) : reports_db :=
  mk_reports_db (rd_api d) (rd_shifts d) (rd_incidents d) (rd_snapshots d) (rd_rows d ++ [r])
    (<[rp_id r := mk_report (rp_job r) no_artifact no_artifact no_artifact no_provenance None]> (rd_written d)).

Record report_keys_drawn := mk_drawn { dr_snapshot : N; dr_job : N; dr_report : N; dr_event : N; dr_correlation : pystr; dr_now : usec }.

(** Writing an object also returns its version; the bytes of a version never
    change. *)
Class UploadStore (O : Type) `{VersionedStore O} := {
  uploaded_version : O -> pystr -> pystr -> option pystr;
  uploaded_version_get : forall ct b k bytes o o', put_typed ct b k bytes o = Ok o' ->
    get_object o' b k (nonempty (uploaded_version o' b k)) = Ok bytes;
  version_immutable : forall ct b k bytes o o' b' k' v x, put_typed ct b k bytes o = Ok o' ->
    get_object o b' k' (Some v) = Ok x -> get_object o' b' k' (Some v) = Ok x;
}.

(** ** The snapshot *)

Definition opt_iso (t : option datetime) : json := match t with Some t => JStr (isoformat t) | None => JNull end.

(** [_frozen_evidence_identity] *)
Definition frozen_evidence_identity (x : N * evidence) : json :=
  let e := snd x in JObj [
    (u "evidence_id", JStr (uuid_str (fst x))); (u "evidence_type", JStr (e_type e)); (u "bucket", JStr (e_bucket e)); (u "object_key", JStr (e_key e));
    (u "version_id", jopt (e_version e)); (u "sha256", JStr (e_sha256 e)); (u "filename", JStr (e_filename e)); (u "content_type", jopt (e_mime e));
    (u "byte_size", JInt (e_size e))].

Definition active_evidence (incident : N) (l : list (N * evidence)) : list (N * evidence) :=
  filter (fun x => e_incident (snd x) = Some incident /\ e_state (snd x) = ACTIVE) l.
Definition is_log (x : N * evidence) : bool := bool_decide (e_type (snd x) = u "LOG").
Definition is_screenshot (x : N * evidence) : bool := bool_decide (e_type (snd x) ∈ map u ["ALERT_SCREENSHOT"; "GRAFANA_SCREENSHOT"]%string).

(** [shift_incident_statement] *)
Definition shift_incidents (shift : N) (l : list incident_facts) : list incident_facts :=
  py_sorted (fun x y => (if_created_at x <=? if_created_at y)%Z) (filter (fun i => if_shift i = Some shift) l).

(** [if object and all fields of the run]: one column of the run, null without one. *)
Definition run_column (run : option analysis_run) (f : analysis_run -> json) : json := match run with Some r => f r | None => JNull end.
Definition telemetry_value (r : analysis_run) (c : string) : json := default JNull (assoc (u c) (ar_telemetry r)).

Section snapshot.
Context `{UnicodeData} `{PyText} `{YamlLoader}.

(** [analysis_presentation_contract] *)
Definition presentation_contract (table : list snapshot) (run : option analysis_run) : result pyexn json :=
  match run with
  | Some r =>
      match by_id (ri_skill_snapshot_id (ar_input r)) table with
      | Some sn =>
          manifest ← load_manifest sn; exports ← py_get (u "exports") JNull manifest;
          let exports := jor exports (JObj []) in
          let presentation := if is_obj exports then jget_null (u "presentation") exports else JNull in
          mret (if is_obj presentation then jget_null (u "contract") presentation else JNull)
      | None => mret JNull
      end
  | None => mret JNull
  end.

Definition run_result (run : option analysis_run) : json := run_column run (fun r => match ar_output r with Some o => ro_result o | None => JNull end).

Definition incident_row (d : api_db) (i : incident_facts) : result pyexn json :=
  let runs := take 2 (current_of (if_id i) (db_runs d)) in
  if Nat.ltb 1 (length runs) then Raise (mk_exn RuntimeError (u "incident " ++ uuid_str (if_id i) ++ u " has multiple current AnalysisRuns")) else
  let run := head runs in
  contract ← presentation_contract (rows (db_registry d)) run;
  let items := active_evidence (if_id i) (db_evidence d) in
  let log := find_first is_log items in
  fragment ← build_report_fragment (run_result run);
  let input (f : run_input -> json) : json := run_column run (fun r => f (ar_input r)) in
  let telemetry (c : string) : json := run_column run (fun r => telemetry_value r c) in
  mret (JObj [
    (u "id", JStr (uuid_str (if_id i))); (u "display_id", JStr (if_display_id i)); (u "title", JStr (if_title i)); (u "service", JStr (if_service i));
    (u "environment", JStr (if_environment i)); (u "status", JStr (if_status i)); (u "triggered_at", JStr (isoformat (if_triggered_at i)));
    (u "recovered_at", opt_iso (if_recovered_at i)); (u "trigger_value", jopt (if_trigger_value i)); (u "teams_url", jopt (if_teams_url i));
    (u "grafana_url", jopt (if_grafana_url i)); (u "log_filename", jopt ((fun x => e_filename (snd x)) <$> log));
    (u "log_evidence", match log with Some x => frozen_evidence_identity x | None => JNull end);
    (u "screenshots", JList (map frozen_evidence_identity (filter (fun x => is_screenshot x = true) items)));
    (u "analysis", jor (run_result run) JNull); (u "analysis_presentation_contract", contract); (u "report_fragment", fragment);
    (u "analysis_run_id", run_column run (fun r => JStr (uuid_str (ri_id (ar_input r)))));
    (u "analysis_log_evidence_id", input (fun r => jopt (uuid_str <$> ri_evidence r)));
    (u "analysis_skill_snapshot_id", input (fun r => JStr (ri_skill_snapshot_id r)));
    (u "analysis_skill_execution_hash", input (fun r => JStr (ri_skill_execution_hash r))); (u "analysis_skill_hash", input (fun r => JStr (ri_skill_hash r)));
    (u "analysis_skill_version", input (fun r => JStr (ri_skill_version r))); (u "analysis_schema_hash", input (fun r => JStr (ri_schema_hash r)));
    (u "analysis_input_contract_version", input (fun r => jopt (ri_input_contract_version r)));
    (u "analysis_preprocessor_version", input (fun _ => JStr PREPROCESSOR_VERSION)); (u "analysis_ai_policy_version", input (fun _ => JStr AI_POLICY_VERSION));
    (u "analysis_ai_policy", input ri_ai_policy); (u "analysis_input_manifest_sha256", input (fun r => JStr (ri_input_manifest_sha256 r)));
    (u "analysis_model", input (fun r => jopt (ri_model r))); (u "analysis_effort", input (fun r => jopt (ri_effort r)));
    (u "analysis_attempt_count", telemetry "attempt_count"%string);
    (u "analysis_used_cache", match run with Some r => JBool (ri_used_cache (ar_input r)) | None => JBool false end);
    (u "analysis_cache_type", input (fun r => jopt (ri_cache_type r))); (u "analysis_input_tokens", telemetry "input_tokens"%string);
    (u "analysis_output_tokens", telemetry "output_tokens"%string); (u "analysis_cache_read_tokens", telemetry "cache_read_tokens"%string);
    (u "analysis_cache_creation_tokens", telemetry "cache_creation_tokens"%string);
    (u "analysis_estimated_cost_usd", telemetry "estimated_cost_usd"%string);
    (u "analysis_output_sha256", run_column run (fun r => jopt (ro_sha256 <$> ar_output r)));
    (u "analysis_total_model_input_tokens", telemetry "total_model_input_tokens"%string)]).

(** [_build_snapshot] *)
Definition build_snapshot (d : reports_db) (shift : shift_row) (skill : snapshot) : result pyexn json :=
  manifest ← load_manifest skill;
  incidents ← each (incident_row (rd_api d)) (shift_incidents (sh_id shift) (rd_incidents d));
  let table := rows (db_registry (rd_api d)) in
  execution ← compute_execution_hash (S (S (length table))) table skill [];
  profile ← py_get (u "composition_profile") JNull manifest; coverage ← py_get (u "coverage") JNull manifest;
  let name := JStr (sh_name shift) in
  mret (JObj [
    (u "shift_id", JStr (uuid_str (sh_id shift))); (u "shift_starts_at", JStr (isoformat (sh_starts_at shift))); (u "shift_ends_at", opt_iso (sh_ends_at shift));
    (u "shift_name", name); (u "shift_code", name); (u "shift_display_name", name);
    (u "shift_timezone", jor (jopt (sh_timezone shift)) (JStr (u "UTC"))); (u "report_skill_snapshot_id", JStr (sn_id skill));
    (u "report_skill_execution_hash", JStr execution); (u "composition_profile", profile); (u "coverage", jor coverage (JObj []));
    (u "incidents", JList incidents)]).
End snapshot.

(** ** The handlers *)

(** What a poll of one report reads after the report itself: the database when
    its job is read, and the object store at the two calls; others may have
    committed in between. *)
Record poll_reads (O : Type) := mk_reads { pl_job : reports_db; pl_head : O; pl_get : O }.
Arguments mk_reads {O}. Arguments pl_job {O}. Arguments pl_head {O}. Arguments pl_get {O}.

Section handlers.
Context `{UnicodeData} `{PyText} `{YamlLoader} `{MetaSchema} `{SchemaValidator} `{ByteText}.
Context {Store : Type} `{ArtifactStore Store} `{!VersionedStore Store} `{!UploadStore Store}.
Context (ai_runtime reports_bucket : pystr) (daily_report_ai_enabled : bool) (uuid : nat -> pystr) (skills_dir : pystr -> skill_files) (fuel : nat).
Context (guess_type : pystr -> option pystr).
Notation RW := (reports_world Store).
Definition RDB : Type -> Type := M RW api_exn.

(** A commit at the end; a handler that raises leaves only what it stored. *)
Definition db_transaction {A} (m : RDB A) : RDB A := fun w =>
  match m w with (Ok a, w') => (Ok a, w') | (Raise e, w') => (Raise e, mk_reports_world (rw_db w) (rw_objects w')) end.
Definition modify_db (f : reports_db -> reports_db) : RDB () := modify_st (fun w => mk_reports_world (f (rw_db w)) (rw_objects w)).
Definition get_db : RDB reports_db := fun w => (Ok (rw_db w), w).
(** A step on the tables of the other handlers. *)
Definition on_api {A} (m : M api_db api_exn A) : RDB A := fun w =>
  let '(r, a) := m (rd_api (rw_db w)) in (r, mk_reports_world (set_api a (rw_db w)) (rw_objects w)).

Definition shift_of (id : N) (d : reports_db) : option shift_row := find_first (fun s => bool_decide (sh_id s = id)) (rd_shifts d).
(** [_get_shift_or_404], [_lock_shift_or_404] *)
Definition shift_or_404 (id : N) : RDB shift_row :=
  d ← get_db; match shift_of id d with Some s => mret s | None => http 404 (u "Shift not found") end.

(** [_allocate_report_version] *)
Definition versions_of (shift : N) (l : list report_row) : list Z := map rp_version (filter (fun r => rp_shift r = shift) l).
Definition allocate_report_version (shift : N) (l : list report_row) : Z :=
  (foldr (fun v m => Z.max v m) 0 (versions_of shift l) + 1)%Z.

Definition report_disabled : json := JObj [
  (u "code", JStr (u "DAILY_REPORT_RUNTIME_UNAVAILABLE"));
  (u "message", JStr (u "Daily Alert Report AI generation is disabled; enable it after the log-analysis quality gate."))].

Definition snapshot_object_key (shift snapshot : N) : pystr := u "snapshots/" ++ uuid_str shift ++ u "/" ++ uuid_str snapshot ++ u ".json".
Definition upload_snapshot (key : pystr) (bytes : list Z) : RDB (option pystr) := fun w =>
  match put_typed JSON_TYPE reports_bucket key bytes (rw_objects w) with
  | Ok o => (Ok (uploaded_version o reports_bucket key), mk_reports_world (rw_db w) o)
  | Raise e => (Raise (Uncaught e), w)
  end.

Definition snapshot_object_ref (key sha256 : pystr) (version : option pystr) : json := JObj ([
  (u "bucket", JStr reports_bucket); (u "key", JStr key); (u "sha256", JStr sha256)] ++
  match nonempty version with Some v => [(u "version_id", JStr v)] | None => [] end).

(** The constraint on a shift's report numbers, at the commit. *)
Definition commit_report : RDB () :=
  d ← get_db;
  if bool_decide (NoDup (map (fun r => (rp_shift r, rp_version r)) (rd_rows d))) then mret ()
  else raise (Uncaught (mk_exn (ForeignError (u "IntegrityError") false) (u "uq_reports_shift_version"))).

Definition report_audit (user shift : N) (dr : report_keys_drawn) (version : Z) : RDB () := on_api (audit user (u "report.generate") (u "shift") (uuid_str shift)
  (JObj [(u "job_id", JStr (uuid_str (dr_job dr))); (u "report_version", JInt version)])).

(** The job of a report. *)
Definition report_job_fields (dr : report_keys_drawn) (skill : snapshot) (ref : json) (version execution : pystr) (policy : json) : job_fields :=
  mk_job_fields (dr_job dr) (u "daily_report") None [ref] None None (u "daily-alert-report") version (dr_correlation dr) 1
    (Some (content_hash skill)) (Some execution) (Some (sn_id skill)) None (Some policy).
Definition enqueue_report (user : N) (dr : report_keys_drawn) (skill : snapshot) (ref : json) (execution : pystr) : RDB pystr :=
  version ← python (declared_skill_version skill); policy ← python (execution_policy skill);
  d ← get_db;
  st ← python (enqueue_job (dr_event dr) (report_job_fields dr skill ref version execution policy) None (dr_now dr) (db_store (rd_api d)));
  let details := mk_details (Some user) None None (u "daily-alert-report") version (Some (content_hash skill)) (Some execution) (sn_id skill) false None in
  modify_db (fun d => set_api (set_jobs st (<[dr_job dr := details]> (db_details (rd_api d))) (rd_api d)) d);;
  mret version.

Definition generate_body (shift_id user : N) (dr : report_keys_drawn) : RDB report_row :=
  shift ← shift_or_404 shift_id;
  lift_result (require_ai_runtime ai_runtime);;
  if negb daily_report_ai_enabled then raise (HttpException 503 report_disabled) else
  d ← get_db;
  let number := allocate_report_version (sh_id shift) (rd_rows d) in
  skill ← on_api (on_registry (resolve_active_snapshot uuid (dr_now dr) fuel skills_dir (u "daily-alert-report")));
  d ← get_db;
  let table := rows (db_registry (rd_api d)) in
  execution ← python (compute_execution_hash (S (S (length table))) table skill []);
  frozen ← python (build_snapshot d shift skill);
  let bytes := utf8_encode (json_dumps float_repr frozen) in
  let sha256 := sha256_of_bytes bytes in
  modify_db (add_snapshot (mk_report_snapshot (dr_snapshot dr) (sh_id shift) frozen sha256 (sn_id skill) execution user));;
  let key := snapshot_object_key (sh_id shift) (dr_snapshot dr) in
  object_version ← upload_snapshot key bytes;
  version ← enqueue_report user dr skill (snapshot_object_ref key sha256 object_version) execution;
  let row := mk_report_row (dr_report dr) (sh_id shift) (dr_snapshot dr) (dr_job dr) number version (content_hash skill) (sn_id skill) execution user (dr_now dr) in
  modify_db (add_report row);;
  report_audit user (sh_id shift) dr number;;
  commit_report;;
  mret row.

(** [_to_out] *)
Definition artifact_set (a : artifact) : bool := bool_decide (is_Some (nonempty (a_object_key a))) && bool_decide (is_Some (nonempty (a_version_id a))).
Definition int_json (n : option Z) : out_value := OutJson (match n with Some n => JInt n | None => JNull end).
Definition report_out (row : report_row) (w : Jobs.report) (j : job) (jd : job_details) : list (pystr * out_value) :=
  let p := r_provenance w in
  [(u "id", id_json (Some (rp_id row))); (u "shift_id", id_json (Some (rp_shift row))); (u "snapshot_id", id_json (Some (rp_snapshot row)));
   (u "job_id", id_json (Some (rp_job row))); (u "version", int_json (Some (rp_version row))); (u "status", status_json (j_status j));
   (u "model", text_json (jd_model jd)); (u "effort", text_json (jd_effort jd)); (u "skill_name", text_json (Some (jd_skill_name jd)));
   (u "skill_version", text_json (Some (rp_skill_version row))); (u "skill_snapshot_id", text_json (Some (rp_skill_snapshot_id row)));
   (u "skill_hash", text_json (Some (rp_skill_hash row))); (u "skill_execution_hash", text_json (Some (rp_execution_hash row)));
   (u "runtime_name", text_json (p_runtime_name p)); (u "runtime_version", text_json (p_runtime_version p));
   (u "runtime_profile", text_json (p_runtime_profile p)); (u "provider", text_json (p_provider p)); (u "runtime_model", text_json (p_runtime_model p));
   (u "input_manifest_sha256", text_json (p_input_manifest_sha256 p)); (u "output_sha256", text_json (p_output_sha256 p));
   (u "input_tokens", int_json (p_input_tokens p)); (u "output_tokens", int_json (p_output_tokens p)); (u "duration_ms", int_json (p_duration_ms p));
   (u "generated_by", id_json (Some (rp_generated_by row))); (u "generated_at", OutTime (r_generated_at w)); (u "error_message", text_json (j_error_message j));
   (u "created_at", OutTime (Some (rp_created_at row))); (u "downloadable", OutJson (JBool (artifact_set (r_report w))));
   (u "previewable", OutJson (JBool (artifact_set (r_document w)))); (u "report_version_id", text_json (a_version_id (r_report w)))].

(** The job and the artifact columns of a report row. *)
Definition deleted_row : api_exn := Uncaught (mk_exn RuntimeError (u "instance has been deleted")).
Definition job_of_report (row : report_row) (d : reports_db) : option (Jobs.report * job * job_details) :=
  w ← rd_written d !! rp_id row; j ← st_jobs (db_store (rd_api d)) !! rp_job row; jd ← db_details (rd_api d) !! rp_job row; Some (w, j, jd).
Definition report_answer (row : report_row) : RDB (list (pystr * out_value)) :=
  d ← get_db; match job_of_report row d with Some (w, j, jd) => mret (report_out row w j jd) | None => raise deleted_row end.

(** [generate_report] *)
Definition generate_report (shift_id user : N) (dr : report_keys_drawn) : RDB (list (pystr * out_value)) :=
  row ← db_transaction (generate_body shift_id user dr); report_answer row.

(** ** Pinning and reading *)

(** The columns of a completed report's file, from the object as it is now. *)
Definition json_text (j : json) : option pystr := match j with JStr s => Some s | _ => None end.
Definition pinned_file (bucket key : pystr) (version : option pystr) (body : list Z) (content_type : json) : artifact :=
  mk_artifact (Some bucket) (Some key) version (Some (sha256_of_bytes body)) (Some (Z.of_nat (length body)))
    (if jtruthy content_type then json_text content_type else guess_type key).
Definition update_written (id : N) (f : Jobs.report -> Jobs.report) (d : reports_db) : reports_db := set_written (alter f id (rd_written d)) d.

Definition flush_artifact (loaded assigned row : artifact) : artifact :=
  let column {A} `{EqDecision A} (f : artifact -> A) := flush_column (f loaded) (f assigned) (f row) in
  mk_artifact (column a_bucket) (column a_object_key) (column a_version_id) (column a_sha256) (column a_byte_size) (column a_content_type).
Definition flush_written (loaded assigned row : Jobs.report) : Jobs.report :=
  mk_report (r_job_id row) (flush_artifact (r_report loaded) (r_report assigned) (r_report row)) (r_document row) (r_screenshots row) (r_provenance row)
    (flush_column (r_generated_at loaded) (r_generated_at assigned) (r_generated_at row)).
Definition flush_report (id : N) (loaded assigned : Jobs.report) : RDB () :=
  if decide (r_report assigned = r_report loaded /\ r_generated_at assigned = r_generated_at loaded) then mret () else
  d ← get_db;
  match rd_written d !! id with
  | Some _ => modify_db (update_written id (flush_written loaded assigned))
  | None => raise (Uncaught stale_data_error)
  end.

(** [_sync_completed_report]: the report as it was read, the job as it was read
    after it, and the object store at the two calls. *)
Definition sync_completed_report (row : report_row) (loaded : Jobs.report) (j : job) (head get : Store) : RDB Jobs.report :=
  if negb (bool_decide (j_status j = COMPLETED)) || bool_decide (is_Some (nonempty (a_version_id (r_report loaded)))) then mret loaded else
  let key := default (docx_key (uuid_str (rp_job row))) (nonempty (a_object_key (r_report loaded))) in
  let bucket := default reports_bucket (nonempty (a_bucket (r_report loaded))) in
  match '(version, content_type) ← head_object head bucket key; body ← get_object get bucket key (nonempty version); mret (version, content_type, body) with
  | Raise e => if is_client_error e then mret loaded else raise (Uncaught e)
  | Ok (version, content_type, body) =>
      let assigned := mk_report (r_job_id loaded) (pinned_file bucket key version body content_type) (r_document loaded) (r_screenshots loaded)
                        (r_provenance loaded) (j_completed_at j) in
      flush_report (rp_id row) loaded assigned;; mret assigned
  end.

Definition report_row_of (id : N) (d : reports_db) : option report_row := find_first (fun r => bool_decide (rp_id r = id)) (rd_rows d).
(** The report as [seen], its job as read next, and the sync. *)
Definition poll_report (seen : reports_db) (p : poll_reads Store) (row : report_row) : RDB (Jobs.report * job) :=
  match rd_written seen !! rp_id row with
  | None => raise deleted_row
  | Some loaded =>
      match st_jobs (db_store (rd_api (pl_job p))) !! rp_job row with
      | None => raise (Uncaught (attribute_error (u "'NoneType' object has no attribute 'status'")))
      | Some j => x ← sync_completed_report row loaded j (pl_head p) (pl_get p); mret (x, j)
      end
  end.

(** Find the report, pin it and commit. *)
Definition synced_report (seen : reports_db) (p : poll_reads Store) (id : N) : RDB report_row :=
  db_transaction (
    match report_row_of id seen with
    | None => http 404 (u "Report not found")
    | Some row => poll_report seen p row;; mret row
    end).
(** After the commit the row is read again. *)
Definition written_of (row : report_row) : RDB Jobs.report :=
  d ← get_db; match rd_written d !! rp_id row with Some w => mret w | None => raise deleted_row end.

(** [list_reports]: [reads] is what the poll of each report sees. *)
Definition show_polled (seen : reports_db) (p : poll_reads Store) (row : report_row) : RDB (list (pystr * out_value)) :=
  '(x, j) ← poll_report seen p row;
  match db_details (rd_api (pl_job p)) !! rp_job row with Some jd => mret (report_out row x j jd) | None => raise deleted_row end.
Definition list_reports (seen : reports_db) (reads : N -> poll_reads Store) (shift_id : N) : RDB (list (list (pystr * out_value))) :=
  db_transaction (
    match shift_of shift_id seen with
    | None => http 404 (u "Shift not found")
    | Some _ =>
        for_each_out (fun row => show_polled seen (reads (rp_id row)) row)
          (py_sorted (fun x y => (rp_version y <=? rp_version x)%Z) (filter (fun r => rp_shift r = shift_id) (rd_rows seen)))
    end).

(** The pinned coordinates of a report's file. *)
Definition ready_file (row : report_row) : RDB (pystr * pystr * pystr * option pystr) :=
  w ← written_of row;
  let a := r_report w in
  match nonempty (a_object_key a), nonempty (a_version_id a) with
  | None, _ => http 409 (u "Report is not ready to download yet")
  | _, None => http 409 (u "Report artifact is not version-pinned yet")
  | Some key, Some version => mret (default [] (a_bucket a), key, version, a_sha256 a)
  end.

(** [get_report_download_url]; signing is a parameter. *)
Definition get_report_download_url (presigned : pystr -> pystr -> pystr -> pystr) (seen : reports_db) (p : poll_reads Store) (id : N) : RDB pystr :=
  row ← synced_report seen p id; '(bucket, key, version, _) ← ready_file row; mret (presigned bucket key version).

(** Bytes of one version, with the answers for a storage error and for a
    checksum that differs. *)
Definition stored_bytes (bucket key : pystr) (version expected : option pystr) (missing broken : api_exn) : RDB (list Z) := fun w =>
  match get_object (rw_objects w) bucket key (nonempty version) with
  | Raise e => (Raise (if is_client_error e then missing else Uncaught e), w)
  | Ok body =>
      match nonempty expected with
      | Some sha256 => if decide (sha256_of_bytes body = sha256) then (Ok body, w) else (Raise broken, w)
      | None => (Ok body, w)
      end
  end.
Definition gateway_error (msg : pystr) : api_exn := HttpException 502 (JStr msg).
Definition no_preview : api_exn := HttpException 404 (JStr (u "No structured preview is available for this report")).

(** [download_report]: the body and its file name. *)
Definition download_report (seen : reports_db) (p : poll_reads Store) (id : N) : RDB (list Z * pystr) :=
  row ← synced_report seen p id;
  '(bucket, key, version, sha256) ← ready_file row;
  body ← stored_bytes bucket key (Some version) sha256 (gateway_error (u "Could not fetch report from storage")) (gateway_error (u "Report artifact checksum mismatch"));
  mret (body, u "shift-report-v" ++ py_str_int (rp_version row) ++ u ".docx").

(** [_report_or_404] *)
Definition report_or_404 (seen : reports_db) (p : poll_reads Store) (id : N) : RDB (report_row * Jobs.report) :=
  row ← synced_report seen p id; w ← written_of row;
  match nonempty (a_object_key (r_report w)) with None => http 409 (u "Report is not ready yet") | Some _ => mret (row, w) end.

(** [get_report_document]: the preview and its media type. *)
Definition get_report_document (seen : reports_db) (p : poll_reads Store) (id : N) : RDB (list Z * pystr) :=
  '(row, w) ← report_or_404 seen p id;
  let a := r_document w in
  match nonempty (a_version_id a) with
  | None => raise no_preview
  | Some version =>
      body ← stored_bytes (default [] (a_bucket (r_report w))) (default (document_key (uuid_str (rp_job row))) (nonempty (a_object_key a))) (Some version)
        (a_sha256 a) no_preview (gateway_error (u "Report preview checksum mismatch"));
      mret (body, default JSON_TYPE (nonempty (a_content_type a)))
  end.

(** [l[index]] of the private index; [len] of it. *)
Definition index_length (l : json) : result pyexn Z :=
  match l with
  | JList l => Ok (Z.of_nat (length l)) | JObj o => Ok (Z.of_nat (length o)) | JStr s => Ok (Z.of_nat (length s))
  | _ => Raise (type_error (u "object of type '" ++ type_name l ++ u "' has no len()"))
  end.
Definition index_entry (l : json) (index : Z) : result pyexn json :=
  match l with
  | JList l => match l !! Z.to_nat index with Some j => Ok j | None => Raise index_error end
  | JStr s => match s !! Z.to_nat index with Some c => Ok (JStr [c]) | None => Raise index_error end
  | _ => Raise (key_error (py_str_int index))
  end.
Definition optional_text (j : json) : result pyexn (option pystr) := if jtruthy j then s ← text_parameter j; mret (Some s) else Ok None.

(** [get_report_document_screenshot]: one image and its media type. *)
Definition get_report_document_screenshot (seen : reports_db) (p : poll_reads Store) (id : N) (index : Z) : RDB (list Z * pystr) :=
  '(row, w) ← report_or_404 seen p id;
  let a := r_screenshots w in
  match nonempty (a_version_id a) with
  | None => raise no_preview
  | Some version =>
      raw ← stored_bytes (default [] (a_bucket (r_report w))) (default (screenshots_key (uuid_str (rp_job row))) (nonempty (a_object_key a))) (Some version)
        None no_preview no_preview;
      screenshots ← python (loads_bytes raw);
      (if decide (is_Some (nonempty (a_sha256 a)) /\ nonempty (a_sha256 a) <> Some (sha256_of_bytes raw))
       then raise (gateway_error (u "Report screenshot index checksum mismatch")) else mret tt);;
      length ← python (index_length screenshots);
      if (index <? 0)%Z || (length <=? index)%Z then http 404 (u "No such screenshot") else
      entry ← python (index_entry screenshots index);
      bucket ← python (b ← subscript_key (u "bucket") entry; text_parameter b); key ← python (k ← subscript_key (u "object_key") entry; text_parameter k);
      version ← python (v ← py_get (u "version_id") JNull entry; optional_text v);
      expected ← python (py_get (u "sha256") JNull entry);
      image ← stored_bytes bucket key version None (gateway_error (u "Could not fetch screenshot from storage")) no_preview;
      (if jtruthy expected && negb (bool_decide (expected = JStr (sha256_of_bytes image)))
       then raise (gateway_error (u "Screenshot integrity check failed")) else mret tt);;
      filename ← python (f ← py_get (u "filename") JNull entry; text_parameter (jor f (JStr [])));
      mret (image, default (u "application/octet-stream") (guess_type filename))
  end.
End handlers.

(** ** Theorems *)

Section generation.
Context `{UnicodeData} `{PyText} `{YamlLoader} `{MetaSchema} `{SchemaValidator} `{ByteText}.
Context {Store : Type} `{ArtifactStore Store} `{!VersionedStore Store} `{!UploadStore Store}.
Context (ai_runtime reports_bucket : pystr) (daily_report_ai_enabled : bool) (uuid : nat -> pystr) (skills_dir : pystr -> skill_files) (fuel : nat).
Notation RW := (reports_world Store).
Notation body := (generate_body ai_runtime reports_bucket daily_report_ai_enabled uuid skills_dir fuel).
Notation generate := (generate_report ai_runtime reports_bucket daily_report_ai_enabled uuid skills_dir fuel).

Lemma db_transaction_inv {A} (m : RDB A) (w : RW) r w' : db_transaction m w = (r, w') ->
  match r with Ok a => m w = (Ok a, w') | Raise e => exists w1, m w = (Raise e, w1) /\ rw_db w' = rw_db w /\ rw_objects w' = rw_objects w1 end.
Proof. unfold db_transaction. destruct (m w) as [[a|e] w1]; intros [= <- <-]; [done|]. by exists w1. Qed.

(** The message of a report job. *)
Definition report_fields (dr : report_keys_drawn) (skill : snapshot) (ref : json) (execution : pystr) (f : job_fields) : Prop :=
  exists version policy, declared_skill_version skill = Ok version /\ f = report_job_fields dr skill ref version execution policy.

(** A request that committed. *)
Record generated (shift_id user : N) (dr : report_keys_drawn) (w : RW) (row : report_row) (w' : RW) : Prop := {
  ge_row : rp_id row = dr_report dr /\ rp_shift row = shift_id /\ rp_job row = dr_job dr /\ rp_snapshot row = dr_snapshot dr /\
    rp_version row = allocate_report_version shift_id (rd_rows (rw_db w));
  ge_rows : rd_rows (rw_db w') = rd_rows (rw_db w) ++ [row];
  ge_written : rd_written (rw_db w') =
    <[dr_report dr := mk_report (dr_job dr) no_artifact no_artifact no_artifact no_provenance None]> (rd_written (rw_db w));
  ge_details : exists jd, db_details (rd_api (rw_db w')) = <[dr_job dr := jd]> (db_details (rd_api (rw_db w)));
  ge_frozen : exists skill frozen f message j,
    let bytes := utf8_encode (json_dumps float_repr frozen) in
    let key := snapshot_object_key shift_id (dr_snapshot dr) in
    let version := uploaded_version (rw_objects w') reports_bucket key in
    rd_snapshots (rw_db w') = rd_snapshots (rw_db w) ++
      [mk_report_snapshot (dr_snapshot dr) shift_id frozen (sha256_of_bytes bytes) (sn_id skill) (rp_execution_hash row) user] /\
    put_typed JSON_TYPE reports_bucket key bytes (rw_objects w) = Ok (rw_objects w') /\
    report_fields dr skill (snapshot_object_ref reports_bucket key (sha256_of_bytes bytes) version) (rp_execution_hash row) f /\
    build_job_message f = Ok message /\ j_status j = QUEUED /\ row_wf j /\
    st_jobs (db_store (rd_api (rw_db w'))) = <[dr_job dr := j]> (st_jobs (db_store (rd_api (rw_db w)))) /\
    st_outbox (db_store (rd_api (rw_db w'))) = st_outbox (db_store (rd_api (rw_db w))) ++
      [(dr_event dr, mk_outbox_event (dr_job dr) (routing_key (queue_names (u "daily_report"))) message (Some (dr_now dr)) None 0 None)];
}.

Lemma shift_of_id id d s : shift_of id d = Some s -> sh_id s = id.
Proof. by intros [_ Hp%bool_decide_eq_true_1]%find_first_Some. Qed.

Lemma enqueue_report_inv user dr skill ref execution (w : RW) version w' : enqueue_report user dr skill ref execution w = (Ok version, w') ->
  exists f message j jd, report_fields dr skill ref execution f /\ build_job_message f = Ok message /\ j_status j = QUEUED /\ row_wf j /\
    w' = mk_reports_world (set_api (set_jobs (Outbox.mk_store (<[dr_job dr := j]> (st_jobs (db_store (rd_api (rw_db w)))))
      (st_outbox (db_store (rd_api (rw_db w))) ++
        [(dr_event dr, mk_outbox_event (dr_job dr) (routing_key (queue_names (u "daily_report"))) message (Some (dr_now dr)) None 0 None)]))
      (<[dr_job dr := jd]> (db_details (rd_api (rw_db w)))) (rd_api (rw_db w))) (rw_db w)) (rw_objects w).
Proof.
  unfold enqueue_report. intros [[_ (x & _ & [=])]|(v & Hv & Hr)]%python_step. apply python_step in Hr as [[_ (x & _ & [=])]|(policy & _ & Hr)].
  apply bind_ok_inv in Hr as (d & w1 & [= <- <-] & Hr). apply python_step in Hr as [[_ (x & _ & [=])]|(st & Hst & Hr)].
  apply bind_ok_inv in Hr as ([] & w2 & [= <-] & [= -> <-]).
  unfold enqueue_job in Hst. destruct (build_job_message _) as [m|] eqn:Hm; [|discriminate Hst]. apply Ok_inj in Hst as <-.
  eexists _, m, (mk_job (u "daily_report") None QUEUED 1 None None (dr_now dr) None None None None None None), _. split; [by eexists _, _|]. split; [exact Hm|]. split; [exact eq_refl|]. split; [intros _; by split_and!|exact eq_refl].
Qed.

Lemma generate_inv shift_id user dr (w : RW) row w' : body shift_id user dr w = (Ok row, w') -> generated shift_id user dr w row w'.
Proof.
  unfold generate_body. intros (shift & w1 & Hs & Hr)%bind_ok_inv.
  assert (w1 = w /\ shift_of shift_id (rw_db w) = Some shift) as [-> Hshift].
  { unfold shift_or_404 in Hs. apply bind_ok_inv in Hs as (d & w2 & [= <- <-] & Hs). destruct (shift_of shift_id (rw_db w)) as [s|]; [|discriminate Hs].
    by injection Hs as -> ->. }
  clear Hs. apply shift_of_id in Hshift as Hid.
  apply lift_step in Hr as [[_ (x & _ & [=])]|([] & _ & Hr)]. destruct (negb daily_report_ai_enabled); [discriminate Hr|].
  apply bind_ok_inv in Hr as (d & w1 & [= <- <-] & Hr). cbv zeta in Hr.
  apply bind_ok_inv in Hr as (skill & w1 & Hskill & Hr).
  assert (exists s, w1 = mk_reports_world (set_api (set_registry s (rd_api (rw_db w))) (rw_db w)) (rw_objects w)) as [s ->].
  { unfold on_api in Hskill. destruct (on_registry _ _) as [[a|e] d1] eqn:E; [|discriminate Hskill]. apply on_registry_inv in E as (s & -> & _).
    injection Hskill as _ <-. by exists s. }
  clear Hskill. apply bind_ok_inv in Hr as (d & w1 & [= <- <-] & Hr).
  apply python_step in Hr as [[_ (x & _ & [=])]|(execution & _ & Hr)]. apply python_step in Hr as [[_ (x & _ & [=])]|(frozen & _ & Hr)]. cbv zeta in Hr.
  apply bind_ok_inv in Hr as ([] & w1 & [= <-] & Hr). apply bind_ok_inv in Hr as (version & w1 & Hup & Hr).
  unfold upload_snapshot in Hup. destruct (put_typed _ _ _ _ _) as [o|] eqn:Hput; [|discriminate Hup]. injection Hup as <- <-.
  apply bind_ok_inv in Hr as (declared & w1 & (f & message & j & jd & Hf & Hm & Hj & Hwf & ->)%enqueue_report_inv & Hr).
  apply bind_ok_inv in Hr as ([] & w1 & [= <-] & Hr). apply bind_ok_inv in Hr as ([] & w1 & [= <-] & Hr).
  apply bind_ok_inv in Hr as ([] & w1 & Hc & [= <- <-]). unfold commit_report in Hc. apply bind_ok_inv in Hc as (d & w2 & [= <- <-] & Hc).
  case_bool_decide; [|discriminate Hc]. injection Hc as <-. rewrite Hid in *.
  split; [by split_and!|exact eq_refl|exact eq_refl|by exists jd|].
  exists skill, frozen, f, message, j. cbv zeta. split; [exact eq_refl|]. split; [exact Hput|]. split; [exact Hf|]. split; [exact Hm|].
  split; [exact Hj|]. split; [exact Hwf|]. split; exact eq_refl.
Qed.

(** [generate_report] commits what its body did, or writes nothing but the
    uploaded object. *)
Lemma generate_run shift_id user dr (w : RW) r w' : generate shift_id user dr w = (r, w') ->
  match r with
  | Ok out => exists row, generated shift_id user dr w row w' /\ report_answer row w' = (Ok out, w')
  | Raise _ => rw_db w' = rw_db w
  end.
Proof.
  unfold generate_report. intros [(e & He & ->)|(row & w1 & Hb & Ha)]%bind_inv.
  - by apply db_transaction_inv in He as (w1 & _ & He & _).
  - apply db_transaction_inv, generate_inv in Hb.
    assert (w' = w1 /\ exists out, r = Ok out) as [-> [out ->]]; [|by exists row].
    unfold report_answer in Ha. destruct Hb as [(Hid & _ & Hjob & _) _ Hw [jd Hd] (skill & frozen & f & message & j & _ & _ & _ & _ & _ & _ & Hj & _)].
    unfold mbind, M_bind, get_db, job_of_report in Ha. rewrite Hw, Hid, Hjob, Hd, Hj, !lookup_insert_eq in Ha.
    injection Ha as <- <-. split; [done|by eexists].
Qed.
End generation.

(** ** From the request to the worker *)

Lemma universal_newlines_printable s : Forall printable s -> universal_newlines s = s.
Proof.
  induction 1 as [|c s Hc _ IH]; [done|]. cbn [universal_newlines]. rewrite IH. unfold printable in Hc.
  destruct c as [|p|p]; try lia. repeat (destruct p as [p|p|]; try reflexivity; try lia).
Qed.

Section handoff.
Context `{UnicodeData} `{PyText} `{YamlLoader} `{MetaSchema} `{SchemaValidator} `{ByteText}.
Context {Store : Type} `{ArtifactStore Store} `{!VersionedStore Store} `{!UploadStore Store}.
Context (ai_runtime reports_bucket : pystr) (daily_report_ai_enabled : bool) (uuid : nat -> pystr) (skills_dir : pystr -> skill_files) (fuel : nat).
Notation RW := (reports_world Store).
Notation generate := (generate_report ai_runtime reports_bucket daily_report_ai_enabled uuid skills_dir fuel).

Lemma build_message_ok f m : build_job_message f = Ok m -> m = message_of f.
Proof. unfold build_job_message. case_decide; [|discriminate]. destruct (is_valid _ _); [by intros [= <-]|discriminate]. Qed.

Lemma nonempty_match (v : option pystr) : match v with Some ((_ :: _) as x) => Some x | _ => None end = nonempty v.
Proof. by destruct v as [[|c v]|]. Qed.

(** What the worker reads at a reference to an upload. *)
Lemma uploaded_snapshot_loads key frozen (o o' : Store) answers requests : wire_with (float_reads float_repr) frozen ->
  let bytes := utf8_encode (json_dumps float_repr frozen) in
  put_typed JSON_TYPE reports_bucket key bytes o = Ok o' ->
  let ref := snapshot_object_ref reports_bucket key (sha256_of_bytes bytes) (uploaded_version o' reports_bucket key) in
  let w := mk_triage o' answers requests in load_snapshot ref w = (Ok frozen, w).
Proof.
  intros Hw bytes Hput ref w. apply uploaded_version_get in Hput. unfold load_snapshot.
  assert (Hb : subscript_key (u "bucket") ref = Ok (JStr reports_bucket)) by (unfold ref, snapshot_object_ref; by destruct (nonempty _)).
  assert (Hk : subscript_key (u "key") ref = Ok (JStr key)) by (unfold ref, snapshot_object_ref; by destruct (nonempty _)).
  assert (Hs : optional_str (u "sha256") ref = Some (sha256_of_bytes bytes)) by (unfold ref, snapshot_object_ref; by destruct (nonempty _)).
  assert (Hv : nonempty (optional_str (u "version_id") ref) = nonempty (uploaded_version o' reports_bucket key))
    by (unfold ref, snapshot_object_ref; by destruct (uploaded_version _ _ _) as [[|c v]|]).
  rewrite Hb, Hk, Hs. clearbody ref. unfold mbind, M_bind, lift_result. cbn [mbind result_bind text_parameter].
  assert (Hd : download_object reports_bucket key (Some (sha256_of_bytes bytes)) (optional_str (u "version_id") ref) w = (Ok bytes, w)).
  { unfold download_object, mbind, M_bind, get_st, lift_result. cbn [tw_store w].
    rewrite nonempty_match, Hv, Hput. unfold sha256_of_bytes. destruct (hexdigest bytes) as [|c x] eqn:E; [done|]. by rewrite decide_True. }
  rewrite Hd. clear Hd. subst bytes. pose proof (dumps_in_ascii float_repr frozen Hw) as Ha.
  rewrite (utf8_encode_ascii _ Ha), (utf8_decode_ascii _ Ha).
  unfold option_bind.
  by rewrite (universal_newlines_printable _ (dumps_in_print float_repr frozen Hw)), (loads_dumps float_repr frozen Hw).
Qed.

(** C14. The report job works on the snapshot the request froze: a request that
    succeeds leaves exactly one new job, report, snapshot and queued message,
    and the message is one the worker's report processor accepts, naming an
    object at which it reads, with the checksum verified, the very snapshot
    stored in the database, as long as the snapshot's text is Unicode and each
    of its floats (a confidence, a percentage, a cost) reads back from the text
    [float.__repr__] gives it. *)
Theorem report_job_reads_frozen_snapshot shift_id user dr (w : RW) out w' :
  generate_report ai_runtime reports_bucket daily_report_ai_enabled uuid skills_dir fuel shift_id user dr w = (Ok out, w') ->
  exists sn message ref j, rd_snapshots (rw_db w') = rd_snapshots (rw_db w) ++ [sn] /\ rsn_id sn = dr_snapshot dr /\ rsn_shift sn = shift_id /\
    rsn_sha256 sn = sha256_of_bytes (utf8_encode (json_dumps float_repr (rsn_json sn))) /\
    st_jobs (db_store (rd_api (rw_db w'))) = <[dr_job dr := j]> (st_jobs (db_store (rd_api (rw_db w)))) /\ j_status j = QUEUED /\
    st_outbox (db_store (rd_api (rw_db w'))) = st_outbox (db_store (rd_api (rw_db w))) ++
      [(dr_event dr, mk_outbox_event (dr_job dr) (u "job.daily_report") message (Some (dr_now dr)) None 0 None)] /\
    job_id_of message (uuid_str (dr_job dr)) /\ snapshot_ref message = Ok ref /\
    (wire_with (float_reads float_repr) (rsn_json sn) -> forall answers requests, let x := mk_triage (rw_objects w') answers requests in load_snapshot ref x = (Ok (rsn_json sn), x)).
Proof.
  intros (row & [_ _ _ _ (skill & frozen & f & message & j & Hsn & Hput & (version & policy & _ & ->) & Hm & Hj & _ & Hjobs & Hout)] & _)%generate_run.
  apply build_message_ok in Hm as ->. eexists _, _, _, j. split; [exact Hsn|].
  split; [exact eq_refl|]. split; [exact eq_refl|]. split; [exact eq_refl|]. split; [exact Hjobs|]. split; [exact Hj|]. split; [exact Hout|].
  split; [exact eq_refl|]. split; [exact eq_refl|]. intros Hw answers requests. by eapply uploaded_snapshot_loads.
Qed.
End handoff.

(** ** Everything that happens to reports *)

Definition pinned (w : Jobs.report) : bool := bool_decide (is_Some (nonempty (a_version_id (r_report w)))).
(** The tables of the worker's statements. *)
Definition jobs_db (d : reports_db) : Jobs.db := Jobs.mk_db (st_jobs (db_store (rd_api d))) (rd_written d).
Definition settle (x : Jobs.db) (d : reports_db) : reports_db :=
  let a := rd_api d in
  set_written (Jobs.reports x) (set_api (set_jobs (Outbox.mk_store (Jobs.jobs x) (st_outbox (db_store a))) (db_details a) a) d).

(** Every shift's reports are numbered from one without gaps, in the order they
    were asked for, and every report has its job. *)
Record reports_ok (d : reports_db) : Prop := {
  ok_numbers : forall s, versions_of s (rd_rows d) = map Z.of_nat (seq 1 (length (versions_of s (rd_rows d))));
  ok_keys : NoDup (map rp_id (rd_rows d));
  ok_linked : forall r, r ∈ rd_rows d -> exists w j jd, job_of_report r d = Some (w, j, jd) /\ r_job_id w = rp_job r;
}.

(** What is never undone: a report stays with its number, its snapshot and its
    job. *)
Record grown (d d' : reports_db) : Prop := {
  gr_rows : exists l, rd_rows d' = rd_rows d ++ l;
  gr_written : forall k w, rd_written d !! k = Some w -> exists w', rd_written d' !! k = Some w' /\ r_job_id w' = r_job_id w;
}.

#[global] Instance grown_preorder : PreOrder grown.
Proof.
  split.
  - intros d. split; [exists []; by rewrite app_nil_r|intros k w Hw; by exists w].
  - intros d1 d2 d3 [[l Hl] Hw] [[l' Hl'] Hw']. split; [exists (l ++ l'); by rewrite Hl', Hl, app_assoc|].
    intros k w (w1 & (w2 & Hk & Hi2)%Hw' & Hi1)%Hw. exists w2. split; [done|congruence].
Qed.

Lemma job_of_report_Some row d w j jd : job_of_report row d = Some (w, j, jd) <->
  rd_written d !! rp_id row = Some w /\ st_jobs (db_store (rd_api d)) !! rp_job row = Some j /\ db_details (rd_api d) !! rp_job row = Some jd.
Proof.
  unfold job_of_report. destruct (rd_written d !! rp_id row), (st_jobs _ !! rp_job row), (db_details _ !! rp_job row); cbn; naive_solver.
Qed.

(** A step that keeps the rows, their jobs and their links keeps all of it. *)
Lemma kept_ok d d' : rd_rows d' = rd_rows d ->
  (forall k w, rd_written d !! k = Some w -> exists w', rd_written d' !! k = Some w' /\ r_job_id w' = r_job_id w) ->
  (forall r, r ∈ rd_rows d -> is_Some (st_jobs (db_store (rd_api d)) !! rp_job r) -> is_Some (db_details (rd_api d) !! rp_job r) ->
    is_Some (st_jobs (db_store (rd_api d')) !! rp_job r) /\ is_Some (db_details (rd_api d') !! rp_job r)) ->
  reports_ok d -> reports_ok d' /\ grown d d'.
Proof.
  intros Hr Hw Hj [Hn Hk Hl]. split; [|split; [exists []; by rewrite app_nil_r|exact Hw]]. split; [by setoid_rewrite Hr|by rewrite Hr|].
  intros r Hin. rewrite Hr in Hin. destruct (Hl r Hin) as (w & j & jd & (Hx & Hjr & Hdr)%job_of_report_Some & Hi).
  destruct (Hw _ _ Hx) as (w' & Hx' & Hi'). destruct (Hj r Hin) as [[j' Hj'] [jd' Hd']]; [by eexists..|].
  exists w', j', jd'. split; [by apply job_of_report_Some|congruence].
Qed.

(** What a completion and a lease do to the tables. *)
Lemma completion_reports i meta tok now x k w : Jobs.reports x !! k = Some w ->
  exists w', Jobs.reports (snd (mark_completed i meta tok now x)) !! k = Some w' /\ r_job_id w' = r_job_id w /\
    (r_job_id w <> i \/ fst (mark_completed i meta tok now x) = false -> w' = w).
Proof.
  intros Hk. pose proof (mark_completed_reports i meta tok now x k w Hk) as Hr. destruct (mark_completed i meta tok now x) as [ok x']. cbn in *.
  destruct Hr as [Hsame (w' & Hw' & Hid & Ho & _)]. exists w'. split_and!; [done|done|]. intros [Hn|Hn]; [by apply Ho|].
  rewrite (Hsame Hn) in Hw'. congruence.
Qed.
Lemma update_keeps_jobs i p f x k : is_Some (Jobs.jobs x !! k) -> is_Some (Jobs.jobs (snd (update_job i p f x)) !! k).
Proof.
  intros Hk. unfold update_job. destruct (Jobs.jobs x !! i) as [j|] eqn:Hj; [|done]. destruct (p j); [|done]. cbn.
  destruct (decide (k = i)) as [->|]; [rewrite lookup_insert_eq; by eexists|by rewrite lookup_insert_ne].
Qed.
Lemma completion_keeps_jobs i meta tok now x k : is_Some (Jobs.jobs x !! k) -> is_Some (Jobs.jobs (snd (mark_completed i meta tok now x)) !! k).
Proof.
  intros Hk. apply (update_keeps_jobs i (token_matches tok) (complete_row now)) in Hk. unfold mark_completed.
  destruct (update_job _ _ _ x) as [[] x1]; cbn in *; [|done]. destruct meta; [cbn; by rewrite save_artifacts_jobs|done].
Qed.

Section history.
Context `{UnicodeData} `{PyText} `{YamlLoader} `{MetaSchema} `{SchemaValidator} `{ByteText}.
Context {Store : Type} `{ArtifactStore Store} `{!VersionedStore Store} `{!UploadStore Store}.
Context (ai_runtime reports_bucket : pystr) (daily_report_ai_enabled : bool) (uuid : nat -> pystr) (skills_dir : pystr -> skill_files) (fuel : nat).
Context (guess_type : pystr -> option pystr).
Notation RW := (reports_world Store).
Notation generate := (generate_report ai_runtime reports_bucket daily_report_ai_enabled uuid skills_dir fuel).
Notation sync := (sync_completed_report reports_bucket guess_type).
Notation list_of := (list_reports reports_bucket guess_type).
Notation polled := (poll_report reports_bucket guess_type).
Notation synced := (synced_report reports_bucket guess_type).

(** No version of an object is lost. *)
Definition versions_kept (o o' : Store) : Prop := forall b k v x, get_object o b k (Some v) = Ok x -> get_object o' b k (Some v) = Ok x.
(** A report that was pinned whenever it was read stays as it is. *)
Definition pins_kept (R : reports_db -> Prop) (d d' : reports_db) : Prop := forall k x, rd_written d !! k = Some x ->
  (forall seen x', R seen -> rd_written seen !! k = Some x' -> pinned x' = true) -> rd_written d' !! k = Some x.
(** What every handler does that read its reports from states of [R]. *)
Definition safe (R : reports_db -> Prop) (w w' : RW) : Prop :=
  versions_kept (rw_objects w) (rw_objects w') /\ pins_kept R (rw_db w) (rw_db w') /\
  (reports_ok (rw_db w) -> reports_ok (rw_db w') /\ grown (rw_db w) (rw_db w')).
#[local] Instance versions_kept_preorder : PreOrder versions_kept.
Proof. split; [by intros o b k v x|intros o1 o2 o3 H12 H23 b k v x Hx; auto]. Qed.
#[local] Instance safe_preorder R : PreOrder (safe R).
Proof.
  split.
  - intros w. split; [reflexivity|]. split; [by intros k x|]. intros Hok. split; [done|reflexivity].
  - intros w1 w2 w3 (Ho & Hp & Hs) (Ho' & Hp' & Hs'). split; [by etrans|]. split; [intros k x Hx Hr; auto|].
    intros [Hok Hg]%Hs. apply Hs' in Hok as [Hok Hg']. split; [done|by etrans].
Qed.

Lemma transaction_safe {A} R (m : RDB A) : preserves (safe R) m -> preserves (safe R) (db_transaction m).
Proof.
  intros Hm w. specialize (Hm w). unfold db_transaction. destruct (m w) as [[a|e] w1]; [done|]. cbn [snd] in *.
  split; [apply Hm|]. split; [by intros k x|]. cbn. intros Hok. split; [done|reflexivity].
Qed.

Lemma safe_seq {A B} R (m : RDB A) (f : A -> RDB B) : preserves (safe R) m -> (forall a, preserves (safe R) (f a)) -> preserves (safe R) (m ≫= f).
Proof. intros Hm Hf. by apply preserves_bind; [apply _| |]. Qed.

(** The flush of a report that was read unpinned. *)
Lemma flush_safe (R : reports_db -> Prop) seen id loaded assigned : R seen -> rd_written seen !! id = Some loaded -> pinned loaded = false ->
  preserves (safe R) (flush_report (Store := Store) id loaded assigned).
Proof.
  intros Hr Hl Hp w. unfold flush_report. destruct (decide _); [reflexivity|]. unfold mbind, M_bind, get_db.
  destruct (rd_written (rw_db w) !! id) as [row|] eqn:Hrow; [|reflexivity]. cbn [snd modify_db modify_st]. split; [reflexivity|]. split.
  - intros k x Hx Hpin. cbn. rewrite lookup_alter. case_decide as E; [|done]. subst k. specialize (Hpin _ _ Hr Hl). congruence.
  - apply kept_ok; [done| |by auto]. intros k x Hx. cbn. rewrite lookup_alter. case_decide as E; [|by exists x]. subst k. rewrite Hx. by eexists.
Qed.

Lemma sync_safe (R : reports_db -> Prop) seen row loaded j head get : R seen -> rd_written seen !! rp_id row = Some loaded ->
  preserves (safe R) (sync row loaded j head get).
Proof.
  intros Hr Hl w. unfold sync_completed_report. destruct (negb _ || _) eqn:Hc; [reflexivity|]. apply orb_false_iff in Hc as [_ Hp].
  cbv zeta. destruct (mbind _ _) as [[[version content_type] body]|e]; [|destruct (is_client_error e); reflexivity].
  apply safe_seq; [by eapply flush_safe|]. intros ? w'. reflexivity.
Qed.

Lemma poll_safe (R : reports_db -> Prop) seen p row : R seen -> preserves (safe R) (polled seen p row).
Proof.
  intros Hr w. unfold poll_report. destruct (rd_written seen !! rp_id row) as [loaded|] eqn:Hl; [|reflexivity].
  destruct (st_jobs _ !! rp_job row) as [j|]; [|reflexivity]. apply safe_seq; [by eapply sync_safe|]. intros x w'. reflexivity.
Qed.

Lemma row_of_in id d row : report_row_of id d = Some row -> row ∈ rd_rows d /\ rp_id row = id.
Proof. intros [Hin Hp%bool_decide_eq_true_1]%find_first_Some. done. Qed.

Lemma synced_safe (R : reports_db -> Prop) seen p id : R seen -> preserves (safe R) (synced seen p id).
Proof.
  intros Hr. apply transaction_safe. destruct (report_row_of id seen) as [row|]; [|intros w; reflexivity].
  apply safe_seq; [by apply poll_safe|]. intros x w. reflexivity.
Qed.

Lemma show_safe (R : reports_db -> Prop) seen p row : R seen -> preserves (safe R) (show_polled reports_bucket guess_type seen p row).
Proof.
  intros Hr. apply safe_seq; [by apply poll_safe|]. intros [x j] w. destruct (db_details _ !! rp_job row); reflexivity.
Qed.

Lemma list_reports_safe (R : reports_db -> Prop) seen reads shift : R seen -> preserves (safe R) (list_of seen reads shift).
Proof.
  intros Hr. apply transaction_safe. destruct (shift_of shift seen) as [s|]; [|intros w; reflexivity].
  generalize (py_sorted (fun x y => (rp_version y <=? rp_version x)%Z) (filter (fun r => rp_shift r = shift) (rd_rows seen))). intros l.
  induction l as [|row l IH]; [intros w; reflexivity|]. cbn [for_each_out].
  apply safe_seq; [by apply show_safe|]. intros y. apply safe_seq; [exact IH|]. intros ys w. reflexivity.
Qed.

(** The readers change nothing after the commit. *)
Definition quiet {A} (m : RDB A) : Prop := preserves (@eq RW) m.
Lemma quiet_safe {A} R (m : RDB A) : quiet m -> preserves (safe R) m.
Proof. intros Hm w. specialize (Hm w). rewrite <- Hm. reflexivity. Qed.
Lemma read_answer_quiet row : forall w : RW, snd (report_answer row w) = w.
Proof. intros w. unfold report_answer, mbind, M_bind, get_db. by destruct (job_of_report row (rw_db w)) as [[[? ?] ?]|]. Qed.
Lemma quiet_lift {A} (r : result api_exn A) : quiet (lift_result r).
Proof. done. Qed.
Lemma quiet_written row : quiet (written_of row).
Proof. intros w. unfold written_of, mbind, M_bind, get_db. by destruct (rd_written (rw_db w) !! rp_id row). Qed.
Lemma quiet_ready row : quiet (ready_file row).
Proof. apply preserves_bind; [apply _|apply quiet_written|]. intros r w. cbv zeta. by destruct (nonempty (a_object_key (r_report r))), (nonempty (a_version_id (r_report r))). Qed.
Lemma quiet_bytes bucket key version expected missing broken : quiet (stored_bytes bucket key version expected missing broken).
Proof. intros w. unfold stored_bytes. destruct (get_object _ _ _ _) as [body|e]; [|done]. destruct (nonempty expected); [|done]. by case_decide. Qed.
Lemma quiet_raise {A} e : quiet (raise e : RDB A).
Proof. done. Qed.
Lemma quiet_ret {A} (a : A) : quiet (mret a).
Proof. done. Qed.
Lemma quiet_bind {A B} (m : RDB A) (f : A -> RDB B) : quiet m -> (forall a, quiet (f a)) -> quiet (m ≫= f).
Proof. intros Hm Hf. by apply preserves_bind; [apply _| |]. Qed.
#[local] Hint Resolve quiet_lift quiet_written quiet_ready quiet_bytes quiet_raise quiet_ret : core.

Ltac quiet :=
  repeat match goal with
  | _ => progress (cbv beta zeta)
  | |- forall _, _ => intro
  | |- quiet (_ ≫= _) => apply quiet_bind
  | |- quiet (let '_ := ?x in _) => destruct x
  | |- quiet (match ?x with _ => _ end) => destruct x
  | |- quiet _ => solve [auto | apply quiet_lift]
  end.

(** A reader: the sync of the report it saw, then reads. *)
Lemma reader_safe {A} (R : reports_db -> Prop) seen p id (f : report_row -> RDB A) : R seen -> (forall row, quiet (f row)) ->
  preserves (safe R) (synced seen p id ≫= f).
Proof. intros Hr Hf. apply safe_seq; [by apply synced_safe|]. intros row. by apply quiet_safe. Qed.
Lemma ready_safe {A} (R : reports_db -> Prop) seen p id (f : report_row * Jobs.report -> RDB A) : R seen -> (forall x, quiet (f x)) ->
  preserves (safe R) (report_or_404 reports_bucket guess_type seen p id ≫= f).
Proof. intros Hr Hf. apply safe_seq; [apply reader_safe; [exact Hr|quiet]|]. intros x. by apply quiet_safe. Qed.
Lemma url_safe (R : reports_db -> Prop) presigned seen p id : R seen ->
  preserves (safe R) (get_report_download_url reports_bucket guess_type presigned seen p id).
Proof. intros Hr. apply reader_safe; [exact Hr|quiet]. Qed.
Lemma download_safe (R : reports_db -> Prop) seen p id : R seen -> preserves (safe R) (download_report reports_bucket guess_type seen p id).
Proof. intros Hr. apply reader_safe; [exact Hr|quiet]. Qed.
Lemma document_safe (R : reports_db -> Prop) seen p id : R seen -> preserves (safe R) (get_report_document reports_bucket guess_type seen p id).
Proof. intros Hr. apply ready_safe; [exact Hr|]. intros [row w]. quiet. Qed.
Lemma screenshot_safe (R : reports_db -> Prop) seen p id index : R seen ->
  preserves (safe R) (get_report_document_screenshot reports_bucket guess_type seen p id index).
Proof. intros Hr. apply ready_safe; [exact Hr|]. intros [row w]. quiet. Qed.

(** A request stores one object and no version is lost. *)
Definition objects_kept (w w' : RW) : Prop := versions_kept (rw_objects w) (rw_objects w').
#[local] Instance objects_kept_preorder : PreOrder objects_kept.
Proof. split; [intros w; unfold objects_kept; reflexivity|intros x y z Hxy Hyz; unfold objects_kept in *; by etrans]. Qed.

Lemma stores_bind {A B} (m : RDB A) (f : A -> RDB B) : preserves objects_kept m -> (forall a, preserves objects_kept (f a)) -> preserves objects_kept (m ≫= f).
Proof. intros Hm Hf. by apply preserves_bind; [apply _| |]. Qed.
Lemma stores_lift {A} (r : result api_exn A) : preserves objects_kept (lift_result r : RDB A).
Proof. intros w. reflexivity. Qed.
Lemma stores_get : preserves objects_kept (get_db : RDB reports_db).
Proof. intros w. reflexivity. Qed.
Lemma stores_modify f : preserves objects_kept (modify_db f : RDB ()).
Proof. intros w b k v x Hx. exact Hx. Qed.
Lemma stores_api {A} (m : M api_db api_exn A) : preserves objects_kept (on_api m : RDB A).
Proof. intros w b k v x. unfold on_api. by destruct (m (rd_api (rw_db w))). Qed.
Lemma stores_upload key bytes : preserves objects_kept (upload_snapshot reports_bucket key bytes).
Proof. intros w b k v x Hx. unfold upload_snapshot. destruct (put_typed _ _ _ _ _) as [o|] eqn:Hp; [|exact Hx]. by eapply version_immutable. Qed.
Lemma stores_raise {A} e : preserves objects_kept (raise e : RDB A).
Proof. intros w. reflexivity. Qed.
Lemma stores_ret {A} (a : A) : preserves objects_kept (mret a : RDB A).
Proof. intros w. reflexivity. Qed.
#[local] Hint Resolve stores_lift stores_get stores_modify stores_api stores_upload stores_raise stores_ret : core.

Ltac stores :=
  repeat match goal with
  | _ => progress (cbv beta zeta)
  | |- forall _, _ => intro
  | |- preserves objects_kept (_ ≫= _) => apply stores_bind
  | |- preserves objects_kept (match ?x with _ => _ end) => destruct x
  | |- preserves objects_kept _ => solve [auto | apply stores_lift | apply stores_api]
  end.

Lemma generate_stores shift user dr : preserves objects_kept (generate shift user dr).
Proof.
  apply stores_bind; [|intros row w; rewrite read_answer_quiet; reflexivity].
  intros w. unfold db_transaction. enough (Hb : preserves objects_kept (generate_body ai_runtime reports_bucket daily_report_ai_enabled uuid skills_dir fuel shift user dr)).
  { specialize (Hb w). by destruct (generate_body _ _ _ _ _ _ _ _ _ w) as [[row|e] w1]. }
  clear w. unfold generate_body, shift_or_404, enqueue_report, report_audit, commit_report. stores.
Qed.

Definition fresh_report (dr : report_keys_drawn) (d : reports_db) : Prop :=
  st_jobs (db_store (rd_api d)) !! dr_job dr = None /\ rd_written d !! dr_report dr = None.

Lemma next_number n : foldr (fun v m => Z.max v m) 0%Z (map Z.of_nat (seq 1 n)) = Z.of_nat n.
Proof.
  enough (E : forall a, foldr (fun v m => Z.max v m) 0%Z (map Z.of_nat (seq a n)) = if bool_decide (n = 0) then 0%Z else Z.of_nat (a + n - 1)).
  { rewrite E. case_bool_decide; [by subst|f_equal; lia]. }
  induction n as [|n IH]; intros a; [done|]. cbn [seq map foldr]. rewrite IH. repeat case_bool_decide; lia.
Qed.

Lemma generated_ok shift user dr (w : RW) row w' : fresh_report dr (rw_db w) -> reports_ok (rw_db w) -> generated reports_bucket shift user dr w row w' ->
  reports_ok (rw_db w') /\ grown (rw_db w) (rw_db w').
Proof.
  intros [Hfj Hfr] [Hn Hk Hl] [(Hid & Hs & Hjob & _ & Hv) Hrows Hw [jd Hd] (skill & frozen & f & message & j & _ & _ & _ & _ & Hj & Hjwf & Hjobs & _)].
  split.
  - split.
    + intros s. rewrite Hrows. unfold versions_of. rewrite filter_app, map_app. fold (versions_of s (rd_rows (rw_db w))).
      rewrite filter_cons. case_decide as E; cbn [map filter]; [|by rewrite app_nil_r].
      rewrite length_app. cbn [length]. rewrite Nat.add_1_r, seq_S, map_app, <- Hn. f_equal. cbn [map]. f_equal.
      rewrite Hv. unfold allocate_report_version. replace shift with s by congruence.
      pose proof (Hn s) as En. revert En. generalize (length (versions_of s (rd_rows (rw_db w)))). intros n ->. rewrite next_number. lia.
    + rewrite Hrows, map_app. apply NoDup_app. split; [done|]. split; [|apply NoDup_singleton].
      intros i (r & -> & Hr)%list_elem_of_fmap. cbn [map]. rewrite Hid. intros E%list_elem_of_singleton.
      destruct (Hl r Hr) as (w2 & j2 & jd2 & (Hw2 & _)%job_of_report_Some & _). congruence.
    + intros r Hr. rewrite Hrows in Hr. apply elem_of_app in Hr as [Hr| ->%list_elem_of_singleton].
      * destruct (Hl r Hr) as (w2 & j2 & jd2 & (Hw2 & Hj2 & Hd2)%job_of_report_Some & Hi). exists w2, j2.
        exists jd2. split; [|done]. apply job_of_report_Some. rewrite Hw, Hjobs, Hd.
        assert (rp_job r <> dr_job dr) by congruence. assert (rp_id r <> dr_report dr) by congruence.
        by rewrite !lookup_insert_ne by done.
      * eexists _, j, jd. rewrite job_of_report_Some, Hw, Hjobs, Hd, Hid, Hjob, !lookup_insert_eq. by split_and!.
  - split; [by exists [row]|]. intros k x Hx. rewrite Hw. exists x. split; [|done]. rewrite lookup_insert_ne; [done|congruence].
Qed.

(** Anything that happens: a request handler, on a report that it read in a
    state of [R]; a worker's completion, labelled with the job it completed; or
    a step of the rest of the system (leases, failures and retries of the
    workers among them, which may reopen a completed job), which inserts no
    report, fills no artifact column, removes no report's job and no recorded
    version. *)
Definition report_versions_kept (d : reports_db) (o o' : Store) : Prop := forall k x v bytes, rd_written d !! k = Some x ->
  nonempty (a_version_id (r_report x)) = Some v -> forall b key, get_object o b key (Some v) = Ok bytes -> get_object o' b key (Some v) = Ok bytes.

Inductive report_event (R : reports_db -> Prop) : option N -> RW -> RW -> Prop :=
  | ev_generate shift user dr w : fresh_report dr (rw_db w) -> report_event R None w (snd (generate shift user dr w))
  | ev_list seen reads shift w : R seen -> report_event R None w (snd (list_of seen reads shift w))
  | ev_url presigned seen p id w : R seen -> report_event R None w (snd (get_report_download_url reports_bucket guess_type presigned seen p id w))
  | ev_download seen p id w : R seen -> report_event R None w (snd (download_report reports_bucket guess_type seen p id w))
  | ev_document seen p id w : R seen -> report_event R None w (snd (get_report_document reports_bucket guess_type seen p id w))
  | ev_screenshot seen p id index w : R seen -> report_event R None w (snd (get_report_document_screenshot reports_bucket guess_type seen p id index w))
  | ev_complete i meta tok now w completed x : mark_completed i meta tok now (jobs_db (rw_db w)) = (completed, x) ->
      report_event R (if completed then Some i else None) w (mk_reports_world (settle x (rw_db w)) (rw_objects w))
  | ev_other w d' o' : rd_rows d' = rd_rows (rw_db w) -> rd_written d' = rd_written (rw_db w) ->
      (forall r, r ∈ rd_rows (rw_db w) -> is_Some (st_jobs (db_store (rd_api (rw_db w))) !! rp_job r) -> is_Some (db_details (rd_api (rw_db w)) !! rp_job r) ->
        is_Some (st_jobs (db_store (rd_api d')) !! rp_job r) /\ is_Some (db_details (rd_api d') !! rp_job r)) ->
      report_versions_kept (rw_db w) (rw_objects w) o' -> report_event R None w (mk_reports_world d' o').
(** The same, whatever the handlers had read. *)
Definition report_step (w w' : RW) : Prop := exists e, report_event (fun _ => True) e w w'.

(** What an event does: the file of a report that every reader saw pinned is
    touched by a completion of its own job only. *)
Definition file_kept (R : reports_db -> Prop) (e : option N) (d d' : reports_db) : Prop := forall k x, rd_written d !! k = Some x ->
  (forall seen x', R seen -> rd_written seen !! k = Some x' -> pinned x' = true) -> e <> Some (r_job_id x) -> rd_written d' !! k = Some x.
Record preserved (R : reports_db -> Prop) (e : option N) (w w' : RW) : Prop := {
  pr_ok : reports_ok (rw_db w');
  pr_grown : grown (rw_db w) (rw_db w');
  pr_files : file_kept R e (rw_db w) (rw_db w');
  pr_versions : report_versions_kept (rw_db w) (rw_objects w) (rw_objects w');
}.

Lemma safe_preserved R (w w' : RW) : reports_ok (rw_db w) -> safe R w w' -> preserved R None w w'.
Proof.
  intros Hok (Hv & Hp & Hs). destruct (Hs Hok) as [Hok' Hg]. split; [done|done| |]; [intros k x Hx Hr _; auto|intros k x v bytes _ _ b key; apply Hv].
Qed.

Lemma completion_preserved R i meta tok now (w : RW) completed x : mark_completed i meta tok now (jobs_db (rw_db w)) = (completed, x) ->
  reports_ok (rw_db w) -> preserved R (if completed then Some i else None) w (mk_reports_world (settle x (rw_db w)) (rw_objects w)).
Proof.
  intros E Hok. pose proof (completion_reports i meta tok now (jobs_db (rw_db w))) as Hw. pose proof (completion_keeps_jobs i meta tok now (jobs_db (rw_db w))) as Hj.
  rewrite E in *. cbn in Hw, Hj.
  destruct (kept_ok (rw_db w) (settle x (rw_db w))) as [Hok' Hg]; [done| | |exact Hok|].
  - intros k y (y' & Hy' & Hi & _)%Hw. by exists y'.
  - intros r _ Hjr Hdr. split; [by apply Hj|exact Hdr].
  - split; [done|done| |by intros k y v bytes _ _ b key]. intros k y Hy _ He. destruct (Hw k y Hy) as (y' & Hy' & _ & Hs). cbn. rewrite Hy'. f_equal. apply Hs.
    destruct completed; [|by right]. left. congruence.
Qed.

Lemma event_preserved R e (w w' : RW) : report_event R e w w' -> reports_ok (rw_db w) -> preserved R e w w'.
Proof.
  intros He Hok. destruct He as [shift user dr w Hf|seen reads shift w Hr|presigned seen p id w Hr|seen p id w Hr|seen p id w Hr|seen p id index w Hr|i meta tok now w completed x E|w d' o' Hr Hw Hg Hv].
  - apply safe_preserved; [done|]. split; [apply generate_stores|]. destruct (generate shift user dr w) as [r w'] eqn:E.
    apply generate_run in E. cbn [snd]. destruct r as [out|e]; [|rewrite E; split; [by intros k x|]; intros _; split; [done|reflexivity]].
    destruct E as (row & Hg & _). split; [|intros _; by eapply generated_ok]. intros k x Hx _. destruct Hf as [_ Hf], Hg as [_ _ Hw _ _]. rewrite Hw.
    rewrite lookup_insert_ne; [done|congruence].
  - by apply safe_preserved, list_reports_safe.
  - by apply safe_preserved, url_safe.
  - by apply safe_preserved, download_safe.
  - by apply safe_preserved, document_safe.
  - by apply safe_preserved, screenshot_safe.
  - by apply (completion_preserved R) in E.
  - destruct (kept_ok (rw_db w) d') as [Hok' Hgr]; [done| |exact Hg|exact Hok|].
    + intros k x Hx. exists x. by rewrite Hw.
    + split; [done|done| |done]. intros k x Hx _ _. cbn. by rewrite Hw.
Qed.

Lemma history_preserved (w w' : RW) : star report_step w w' -> reports_ok (rw_db w) -> reports_ok (rw_db w') /\ grown (rw_db w) (rw_db w').
Proof.
  induction 1 as [w|w w1 w2 [e H01] _ IH]; intros Hok; [split; [done|reflexivity]|]. apply event_preserved in H01 as [Hok1 Hg _ _]; [|done].
  destruct (IH Hok1) as [Hok2 Hg2]. split; [done|by etrans].
Qed.

(** A lease and an unguarded retry are other steps. *)
Lemma row_event R i p f (w : RW) o' : report_versions_kept (rw_db w) (rw_objects w) o' ->
  report_event R None w (mk_reports_world (settle (snd (update_job i p f (jobs_db (rw_db w)))) (rw_db w)) o').
Proof.
  intros Hv. pose proof (update_job_reports i p f (jobs_db (rw_db w))) as Hr. apply ev_other; [done|exact Hr| |exact Hv].
  intros r _ Hj Hd. split; [by apply update_keeps_jobs|exact Hd].
Qed.

Lemma numbers_unique l : (forall s, versions_of s l = map Z.of_nat (seq 1 (length (versions_of s l)))) ->
  NoDup (map (fun r => (rp_shift r, rp_version r)) l).
Proof.
  intros Hn. assert (Hs : forall s, NoDup (versions_of s l)).
  { intros s. rewrite (Hn s). apply NoDup_fmap_2; [intros x y; lia|apply NoDup_seq]. }
  clear Hn. induction l as [|r l IH]; [constructor|]. cbn [map]. constructor.
  - intros (r' & E & Hr')%list_elem_of_fmap. injection E as Es Ev. specialize (Hs (rp_shift r)). unfold versions_of in Hs.
    rewrite filter_cons, decide_True in Hs by done. cbn [map] in Hs. apply NoDup_cons in Hs as [Hs _]. apply Hs. rewrite Ev.
    apply list_elem_of_fmap. exists r'. split; [done|]. by apply list_elem_of_filter.
  - apply IH. intros s. specialize (Hs s). unfold versions_of in *. rewrite filter_cons in Hs. case_decide; [|done]. by apply NoDup_cons in Hs as [_ Hs].
Qed.

(** C13. Report numbers and rows survive everything that happens: whatever
    requests, completions, retries and other steps follow one another, and
    whatever the polls had read, each shift's reports are numbered from one
    without gaps in the order they were asked for, the constraint on them is
    never violated, the next number is one more than their count, and no report
    is removed, renumbered or cut off from its job. *)
Theorem report_history (w w' : RW) : reports_ok (rw_db w) -> star report_step w w' ->
  reports_ok (rw_db w') /\ grown (rw_db w) (rw_db w') /\ commit_report w' = (Ok tt, w') /\
  forall s, allocate_report_version s (rd_rows (rw_db w')) = (Z.of_nat (length (versions_of s (rd_rows (rw_db w')))) + 1)%Z.
Proof.
  intros Hok Hs. destruct (history_preserved _ _ Hs Hok) as (Hok' & Hg). split_and!; [done|done| |].
  - unfold commit_report, mbind, M_bind, get_db. rewrite bool_decide_eq_true_2; [done|]. by apply numbers_unique, ok_numbers.
  - intros s. unfold allocate_report_version. rewrite (ok_numbers _ Hok' s), next_number at 1. done.
Qed.

(** The file a download serves. *)
Definition served_file (w : RW) (id : N) (body : list Z) (name : pystr) : Prop := exists row x key v,
  report_row_of id (rw_db w) = Some row /\ rd_written (rw_db w) !! rp_id row = Some x /\
  nonempty (a_object_key (r_report x)) = Some key /\ nonempty (a_version_id (r_report x)) = Some v /\
  get_object (rw_objects w) (default [] (a_bucket (r_report x))) key (Some v) = Ok body /\
  (forall sha256, nonempty (a_sha256 (r_report x)) = Some sha256 -> sha256_of_bytes body = sha256) /\
  name = u "shift-report-v" ++ py_str_int (rp_version row) ++ u ".docx".

Lemma stored_bytes_inv bucket key version expected missing broken (w : RW) body w' :
  stored_bytes bucket key version expected missing broken w = (Ok body, w') ->
  w' = w /\ get_object (rw_objects w) bucket key (nonempty version) = Ok body /\
  forall sha256, nonempty expected = Some sha256 -> sha256_of_bytes body = sha256.
Proof.
  unfold stored_bytes. destruct (get_object _ _ _ _) as [x|e]; [|discriminate]. destruct (nonempty expected) as [sha|].
  - destruct (decide _) as [E|]; [|discriminate]. intros [= <- <-]. split_and!; [done|done|]. by intros sha256 [= <-].
  - by intros [= <- <-].
Qed.

Lemma sync_rows row loaded j head get (w : RW) : rd_rows (rw_db (snd (sync row loaded j head get w))) = rd_rows (rw_db w).
Proof.
  unfold sync_completed_report. destruct (negb _ || _); [done|]. cbv zeta. destruct (mbind _ _) as [[[version content_type] body]|e]; [|by destruct (is_client_error e)].
  unfold flush_report, mbind, M_bind, get_db. destruct (decide _); [done|]. by destruct (rd_written (rw_db w) !! rp_id row).
Qed.
Lemma synced_inv seen p id (w : RW) row w' : synced seen p id w = (Ok row, w') -> report_row_of id seen = Some row /\ rd_rows (rw_db w') = rd_rows (rw_db w).
Proof.
  intros Hr%db_transaction_inv. destruct (report_row_of id seen) as [r|]; [|discriminate Hr]. apply bind_ok_inv in Hr as (x & w1 & Hp & [= <- <-]).
  split; [done|]. unfold poll_report in Hp. destruct (rd_written seen !! rp_id r) as [loaded|]; [|discriminate Hp].
  destruct (st_jobs _ !! rp_job r) as [j|]; [|discriminate Hp]. apply bind_ok_inv in Hp as (y & w2 & Hs & [= <- <-]).
  pose proof (sync_rows r loaded j (pl_head p) (pl_get p) w) as E. by rewrite Hs in E.
Qed.

Lemma nonempty_twice v : nonempty (nonempty v) = nonempty v.
Proof. by destruct v as [[|c s]|]. Qed.
Lemma nonempty_Some v s : nonempty v = Some s -> nonempty (Some s) = Some s.
Proof. destruct v as [[|c t]|]; intros [= <-]; done. Qed.

Lemma row_of_grown id d d' row : grown d d' -> report_row_of id d = Some row -> report_row_of id d' = Some row.
Proof. intros [[l Hl] _] Hrow. unfold report_row_of in *. by rewrite Hl, find_first_app, Hrow. Qed.

Lemma download_inv seen p id (w : RW) body name w' : download_report reports_bucket guess_type seen p id w = (Ok (body, name), w') ->
  grown seen (rw_db w) -> served_file w' id body name /\ report_row_of id seen = report_row_of id (rw_db w').
Proof.
  unfold download_report. intros (row & w1 & [Hrow Hrows]%synced_inv & Hr)%bind_ok_inv Hg.
  apply bind_ok_inv in Hr as ([[[bucket key] version] sha256] & w2 & Hready & Hr).
  pose proof (quiet_ready row w1) as E. rewrite Hready in E. cbn in E. subst w2.
  apply bind_ok_inv in Hr as (b & w2 & (-> & Hget & Hsha)%stored_bytes_inv & [= -> <- <-]).
  unfold ready_file in Hready. apply bind_ok_inv in Hready as (x & w2 & Hx & Hready).
  unfold written_of in Hx. apply bind_ok_inv in Hx as (d & w3 & [= <- <-] & Hx). destruct (rd_written (rw_db w1) !! rp_id row) as [y|] eqn:Hy; [|discriminate Hx].
  injection Hx as -> <-. cbv zeta in Hready. destruct (nonempty (a_object_key (r_report x))) as [k|] eqn:Hk; [|discriminate Hready].
  destruct (nonempty (a_version_id (r_report x))) as [v|] eqn:Hv; [|discriminate Hready]. injection Hready as <- <- <- <-.
  rewrite (nonempty_Some _ _ Hv) in Hget.
  assert (Hnow : report_row_of id (rw_db w1) = Some row).
  { apply (row_of_grown id _ _ _ Hg) in Hrow. unfold report_row_of in *. by rewrite Hrows. }
  split; [|by rewrite Hrow, Hnow]. exists row, x, k, v. by split_and!.
Qed.

(** What the readers of a trail could have read. *)
Definition read_from (trail : list RW) (seen : reports_db) : Prop := exists v, v ∈ trail /\ seen = rw_db v.
(** Everything that happens after [w1], by readers that read their reports
    since then, without another completion of the job [jid]. *)
Inductive since (jid : N) (w1 : RW) : list RW -> Prop :=
  | since_start : since jid w1 [w1]
  | since_step past w e w' : since jid w1 (w :: past) -> report_event (read_from (w :: past)) e w w' -> e <> Some jid -> since jid w1 (w' :: w :: past).

(** A report with its file. *)
Definition filed (id : N) (row : report_row) (x : Jobs.report) (body : list Z) (key v : pystr) (w : RW) : Prop :=
  reports_ok (rw_db w) /\ report_row_of id (rw_db w) = Some row /\ rd_written (rw_db w) !! rp_id row = Some x /\
  get_object (rw_objects w) (default [] (a_bucket (r_report x))) key (Some v) = Ok body.

Lemma filed_linked id row x body key v w : filed id row x body key v w -> r_job_id x = rp_job row /\
  is_Some (st_jobs (db_store (rd_api (rw_db w))) !! rp_job row).
Proof.
  intros (Hok & [Hin _]%row_of_in & Hx & _). destruct (ok_linked _ Hok row Hin) as (y & j & jd & (Hy & Hj & _)%job_of_report_Some & Hi).
  rewrite Hx in Hy. injection Hy as <-. split; [done|by exists j].
Qed.

Lemma since_filed id row x body key v w1 trail : nonempty (a_version_id (r_report x)) = Some v -> filed id row x body key v w1 ->
  since (rp_job row) w1 trail -> Forall (filed id row x body key v) trail.
Proof.
  intros Hv Hf. induction 1 as [|past w e w' _ IH He Hne]; [by constructor|]. constructor; [|done].
  assert (Hw : filed id row x body key v w) by (apply Forall_cons in IH; apply IH). pose proof (filed_linked _ _ _ _ _ _ _ Hw) as [Hi _].
  pose proof Hw as (Hok & Hrow & Hx & Hget). destruct (event_preserved _ _ _ _ He Hok) as [Hok' Hg Hfiles Hvers].
  split; [done|]. split; [by eapply row_of_grown|]. split; [|by eapply Hvers].
  apply Hfiles; [done| |by rewrite Hi]. intros seen x' (r & Hr & ->) Hx'. rewrite Forall_forall in IH. destruct (IH r Hr) as (_ & _ & Hxu & _).
  rewrite Hx' in Hxu. injection Hxu as <-. unfold pinned. rewrite Hv. by apply bool_decide_eq_true_2.
Qed.

(** A pinned file is served as it is. *)
Lemma served_again id row x body key v (w r t : RW) head get : filed id row x body key v w -> filed id row x body key v r -> filed id row x body key v t ->
  nonempty (a_object_key (r_report x)) = Some key -> nonempty (a_version_id (r_report x)) = Some v ->
  (forall sha256, nonempty (a_sha256 (r_report x)) = Some sha256 -> sha256_of_bytes body = sha256) ->
  download_report reports_bucket guess_type (rw_db r) (mk_reads (rw_db t) head get) id w =
    (Ok (body, u "shift-report-v" ++ py_str_int (rp_version row) ++ u ".docx"), w).
Proof.
  intros (_ & _ & Hx & Hget) (_ & Hrow & Hxu & _) [_ [j Hj]]%filed_linked Hk Hv Hsha.
  assert (Hs : synced (rw_db r) (mk_reads (rw_db t) head get) id w = (Ok row, w)).
  { unfold synced_report, db_transaction, poll_report, mbind, M_bind. rewrite Hrow, Hxu. cbn [pl_job]. rewrite Hj. unfold sync_completed_report.
    rewrite (bool_decide_eq_true_2 (is_Some _)) by (rewrite Hv; by eexists). by rewrite orb_true_r. }
  unfold download_report, mbind, M_bind. rewrite Hs. unfold ready_file, written_of, mbind, M_bind, get_db. rewrite Hx. cbn [mret M_ret]. cbv zeta.
  rewrite Hk, Hv. cbn [mret M_ret]. unfold stored_bytes. rewrite (nonempty_Some _ _ Hv), Hget.
  destruct (nonempty (a_sha256 (r_report x))) as [sha|]; [by rewrite decide_True by auto|done].
Qed.

(** C15. A downloaded report stays as it was until its own job is completed
    again: after any requests, polls that read the report since the download,
    completions of other jobs, retries, leases and writes to the object store,
    downloading it again gives the same bytes under the same name, whose
    checksum is the recorded one, and changes nothing, whatever the newest
    object at its key is by then. *)
Theorem downloaded_report_final seen p id (w w1 : RW) body name row w2 past : reports_ok (rw_db w) -> grown seen (rw_db w) ->
  download_report reports_bucket guess_type seen p id w = (Ok (body, name), w1) -> report_row_of id seen = Some row ->
  since (rp_job row) w1 (w2 :: past) ->
  served_file w2 id body name /\ forall seen' jobs head get, read_from (w2 :: past) seen' -> read_from (w2 :: past) jobs ->
    download_report reports_bucket guess_type seen' (mk_reads jobs head get) id w2 = (Ok (body, name), w2).
Proof.
  intros Hok Hg Hd Hrow Hs. assert (Hok1 : reports_ok (rw_db w1)).
  { pose proof (event_preserved (fun _ => True) _ w _ (ev_download _ seen p id w I) Hok) as [Hok1 _ _ _]. by rewrite Hd in Hok1. }
  apply download_inv in Hd as [(row' & x & key & v & Hrow' & Hx & Hk & Hv & Hget & Hsha & ->) E]; [|exact Hg].
  rewrite Hrow, Hrow' in E. injection E as <-.
  pose proof (since_filed id row x body key v w1 _ Hv ltac:(by split_and!) Hs) as Hall. rewrite Forall_forall in Hall.
  pose proof (Hall w2 ltac:(set_solver)) as Hw2. split.
  - destruct Hw2 as (_ & Hrow2 & Hx2 & Hget2). exists row, x, key, v. by split_and!.
  - intros seen' jobs head get (r & Hr & ->) (t & Ht & ->). by apply (served_again id row x body key v); auto.
Qed.

(** The screenshot proxy serves only what the report's pinned index
    names: the image is the object of the entry with that number, in range, at
    the entry's version, with the entry's checksum when it has one; and the
    index has the checksum the report records. *)
Theorem screenshot_proxy seen p id index (w w' : RW) image media :
  get_report_document_screenshot reports_bucket guess_type seen p id index w = (Ok (image, media), w') ->
  exists row x v raw screenshots entry bucket key version, report_row_of id seen = Some row /\ rd_written (rw_db w') !! rp_id row = Some x /\
    nonempty (a_version_id (r_screenshots x)) = Some v /\
    get_object (rw_objects w') (default [] (a_bucket (r_report x))) (default (screenshots_key (uuid_str (rp_job row))) (nonempty (a_object_key (r_screenshots x))))
      (Some v) = Ok raw /\
    (forall sha256, nonempty (a_sha256 (r_screenshots x)) = Some sha256 -> sha256_of_bytes raw = sha256) /\ loads_bytes raw = Ok screenshots /\
    (0 <= index)%Z /\ (exists n, index_length screenshots = Ok n /\ (index < n)%Z) /\ index_entry screenshots index = Ok entry /\
    subscript_key (u "bucket") entry = Ok (JStr bucket) /\ subscript_key (u "object_key") entry = Ok (JStr key) /\
    get_object (rw_objects w') bucket key (nonempty version) = Ok image /\
    exists expected, py_get (u "sha256") JNull entry = Ok expected /\ (jtruthy expected = true -> expected = JStr (sha256_of_bytes image)).
Proof.
  unfold get_report_document_screenshot. intros ([row x] & w1 & Hrep & Hr)%bind_ok_inv.
  assert (Hrow : report_row_of id seen = Some row /\ rd_written (rw_db w1) !! rp_id row = Some x).
  { unfold report_or_404 in Hrep. apply bind_ok_inv in Hrep as (r & w2 & [Hrow _]%synced_inv & Hrep). apply bind_ok_inv in Hrep as (y & w3 & Hy & Hrep).
    unfold written_of in Hy. apply bind_ok_inv in Hy as (d & w4 & [= <- <-] & Hy). destruct (rd_written (rw_db w2) !! rp_id r) as [z|] eqn:Hz; [|discriminate Hy].
    injection Hy as -> <-. destruct (nonempty _); [|discriminate Hrep]. injection Hrep as <- <- <-. done. }
  clear Hrep. destruct Hrow as [Hrow Hx]. cbv zeta in Hr. destruct (nonempty (a_version_id (r_screenshots x))) as [v|] eqn:Hv; [|discriminate Hr].
  apply bind_ok_inv in Hr as (raw & w2 & (-> & Hraw & _)%stored_bytes_inv & Hr). rewrite (nonempty_Some _ _ Hv) in Hraw.
  apply python_step in Hr as [[_ (e & _ & [=])]|(screenshots & Hload & Hr)].
  apply bind_ok_inv in Hr as ([] & w2 & Hsha & Hr). destruct (decide _) as [|Hd] in Hsha; [discriminate Hsha|]. injection Hsha as <-.
  apply python_step in Hr as [[_ (e & _ & [=])]|(n & Hn & Hr)]. destruct (_ || _) eqn:Hb in Hr; [discriminate Hr|]. apply orb_false_iff in Hb as [Hlo Hhi].
  apply python_step in Hr as [[_ (e & _ & [=])]|(entry & Hentry & Hr)].
  apply python_step in Hr as [[_ (e & _ & [=])]|(bucket & Hbucket & Hr)]. apply python_step in Hr as [[_ (e & _ & [=])]|(key & Hkey & Hr)].
  apply python_step in Hr as [[_ (e & _ & [=])]|(version & _ & Hr)]. apply python_step in Hr as [[_ (e & _ & [=])]|(expected & Hexp & Hr)].
  apply bind_ok_inv in Hr as (img & w2 & (-> & Himg & _)%stored_bytes_inv & Hr).
  apply bind_ok_inv in Hr as ([] & w2 & Hcheck & Hr). destruct (jtruthy expected && _) eqn:Hc in Hcheck; [discriminate Hcheck|]. injection Hcheck as <-.
  apply python_step in Hr as [[_ (e & _ & [=])]|(filename & _ & [= <- <- <-])].
  exists row, x, v, raw, screenshots, entry, bucket, key, version. split_and!; try done.
  - intros sha Hs. destruct (decide (sha256_of_bytes raw = sha)) as [|Hne]; [done|]. exfalso. apply Hd. rewrite Hs. split; [by eexists|congruence].
  - lia.
  - exists n. split; [done|lia].
  - apply bind_result_ok in Hbucket as (j & Hj & Ht). destruct j; try discriminate Ht. by apply Ok_inj in Ht as <-.
  - apply bind_result_ok in Hkey as (j & Hj & Ht). destruct j; try discriminate Ht. by apply Ok_inj in Ht as <-.
  - exists expected. split; [done|]. intros Ht. rewrite Ht in Hc. cbn in Hc. apply negb_false_iff, bool_decide_eq_true_1 in Hc. exact Hc.
Qed.
End history.

(** ** A shift, from the request to the download *)

(** A store whose versions are numbered in unary, newest object first. *)
Fixpoint version_find (o : typed_objects) (b k v : pystr) : option (list Z) :=
  match o with
  | [] => None
  | x :: o => if decide (fst x = (b, k) /\ v = replicate (S (length o)) 118%Z) then Some (snd (snd x)) else version_find o b k v
  end.
Fixpoint newest (o : typed_objects) (b k : pystr) : option (pystr * pystr * list Z) :=
  match o with
  | [] => None
  | x :: o => if decide (fst x = (b, k)) then Some (replicate (S (length o)) 118%Z, fst (snd x), snd (snd x)) else newest o b k
  end.
Definition version_get (o : typed_objects) (b k : pystr) (v : option pystr) : result pyexn (list Z) :=
  match v with
  | Some v => match version_find o b k v with Some x => Ok x | None => Raise not_found end
  | None => match newest o b k with Some x => Ok (snd x) | None => Raise not_found end
  end.
Definition version_head (o : typed_objects) (b k : pystr) : result pyexn (option pystr * json) :=
  match newest o b k with Some (v, t, _) => Ok (Some v, JStr t) | None => Raise not_found end.
Definition newest_version (o : typed_objects) (b k : pystr) : option pystr := fst <$> (fst <$> newest o b k).

Lemma version_find_length o b k v x : version_find o b k v = Some x -> length v <= length o.
Proof.
  induction o as [|y o IH]; [done|]. cbn [version_find length]. case_decide as E; [destruct E as [_ ->]; by rewrite length_replicate|].
  intros Hx%IH. lia.
Qed.

Lemma put_newest ct b k bytes (o : typed_objects) : newest (((b, k), (ct, bytes)) :: o) b k = Some (replicate (S (length o)) 118%Z, ct, bytes).
Proof. cbn. by rewrite decide_True. Qed.
Lemma put_newest_other ct b k bytes (o : typed_objects) b' k' : (b', k') <> (b, k) -> newest (((b, k), (ct, bytes)) :: o) b' k' = newest o b' k'.
Proof. intros Hne. cbn. by rewrite decide_False by congruence. Qed.
Lemma put_version ct b k bytes (o : typed_objects) : version_find (((b, k), (ct, bytes)) :: o) b k (replicate (S (length o)) 118%Z) = Some bytes.
Proof. cbn [version_find fst snd]. by rewrite decide_True. Qed.
Lemma put_version_other ct b k bytes (o : typed_objects) b' k' v : (b', k') <> (b, k) ->
  version_find (((b, k), (ct, bytes)) :: o) b' k' v = version_find o b' k' v.
Proof. intros Hne. cbn [version_find fst snd]. rewrite decide_False; [done|]. by intros [? _]. Qed.
Lemma put_version_kept ct b k bytes (o : typed_objects) b' k' v x : version_find o b' k' v = Some x ->
  version_find (((b, k), (ct, bytes)) :: o) b' k' v = Some x.
Proof.
  intros Hx. cbn [version_find fst snd]. rewrite decide_False; [done|]. intros [_ ->]. apply version_find_length in Hx. rewrite length_replicate in Hx. lia.
Qed.

#[refine] Definition versioned_artifacts : ArtifactStore typed_objects := {|
  get_object := version_get;
  object_exists o b k := bool_decide (is_Some (newest o b k));
  put_object := typed_put JSON_TYPE;
|}.
Proof.
  all: generalize JSON_TYPE; intros ct.
  - intros b k bytes o o' [= <-]. unfold version_get. rewrite put_newest. split; [reflexivity|]. by apply bool_decide_eq_true_2.
  - intros b k bytes o o' b' k' v [= <-] Hne. unfold version_get. rewrite put_newest_other by exact Hne.
    destruct v; [by rewrite put_version_other|reflexivity].
Defined.
#[refine] Definition versioned_store : @VersionedStore typed_objects versioned_artifacts := {|
  put_typed := typed_put;
  head_object := version_head;
|}.
Proof.
  - intros ct b k bytes o o' [= <-]. change (@get_object _ versioned_artifacts) with version_get. unfold version_get, version_head. rewrite put_newest.
    split; [reflexivity|]. intros v t [= <- <-]. split; [reflexivity|]. by rewrite put_version.
  - intros ct b k bytes o o' b' k' [= <-] Hne. change (@get_object _ versioned_artifacts) with version_get. unfold version_head, version_get.
    rewrite put_newest_other by exact Hne. split; [reflexivity|]. intros [v|]; [by rewrite put_version_other|reflexivity].
  - change (@put_object _ versioned_artifacts) with (typed_put JSON_TYPE). generalize JSON_TYPE. intros ct b k bytes o o' b' k' [= <-] Hne.
    unfold version_head. by rewrite put_newest_other.
Defined.
#[refine] Definition versioned_uploads : @UploadStore typed_objects versioned_artifacts versioned_store := {|
  uploaded_version := newest_version;
|}.
Proof.
  - change (@get_object _ versioned_artifacts) with version_get. change (@put_typed _ _ versioned_store) with typed_put.
    intros ct b k bytes o o' [= <-]. unfold newest_version. rewrite put_newest. cbn [fmap option_fmap option_map fst]. unfold nonempty. cbn [replicate].
    unfold version_get. by rewrite put_version.
  - change (@get_object _ versioned_artifacts) with version_get. change (@put_typed _ _ versioned_store) with typed_put.
    intros ct b k bytes o o' b' k' v x [= <-]. unfold version_get. destruct (version_find o b' k' v) as [y|] eqn:Hy; [|discriminate].
    by rewrite (put_version_kept _ _ _ _ _ _ _ _ _ Hy).
Defined.

Lemma forallb_Forall_true {A} (p : A -> bool) l : forallb p l = true -> Forall (fun x => p x = true) l.
Proof. rewrite forallb_forall. intros Hp. apply Forall_forall. intros x Hx. by apply Hp, list_elem_of_In. Qed.

(** A decision procedure for [wire_with]. *)
Definition text_okb (s : pystr) : bool := forallb (fun c => ((0 <=? c) && (c <? 55296)) || ((57344 <=? c) && (c <? 1114112)))%Z s.
Fixpoint wire_okb (fl : spec_float -> bool) (j : json) : bool :=
  match j with
  | JFloat x => fl x
  | JStr s => text_okb s
  | JList l => forallb (wire_okb fl) l
  | JObj o => bool_decide (NoDup (map fst o)) && forallb (fun kv => text_okb (fst kv) && wire_okb fl (snd kv)) o
  | _ => true
  end.
Lemma text_okb_ok s : text_okb s = true -> Forall scalar_value s.
Proof. intros Hs%forallb_Forall_true. eapply Forall_impl; [exact Hs|]. intros c. unfold scalar_value. lia. Qed.
Lemma wire_okb_ok fl (P : spec_float -> Prop) j : (forall x, fl x = true -> P x) -> wire_okb fl j = true -> wire_with P j.
Proof.
  intros Hfl. induction j as [|b|n|x|s|l IH|o IH] using json_ind'; intros Hj; try done.
  - by apply Hfl.
  - by apply text_okb_ok.
  - apply wire_ok_list. cbn [wire_okb] in Hj. apply forallb_Forall_true in Hj. rewrite Forall_forall in IH, Hj |- *. auto.
  - cbn [wire_okb] in Hj. apply andb_prop in Hj as [Hn Hj]. apply bool_decide_eq_true_1 in Hn. apply forallb_Forall_true in Hj.
    apply wire_ok_obj. split; [exact Hn|]. rewrite Forall_forall in IH, Hj |- *. intros [k x] Hin. specialize (IH _ Hin). specialize (Hj _ Hin).
    cbn [fst snd] in *. apply andb_prop in Hj as [Hk Hx]. split; [by apply text_okb_ok|auto].
Qed.

Definition night_shift : shift_row := mk_shift 4 (u "Night") None (mk_datetime 2026 3 1 20 0 0 0 None) None.
Definition reports_start : reports_world typed_objects := mk_reports_world (mk_reports_db empty_db [night_shift] [] [] [] ∅) [].
Definition sample_drawn : report_keys_drawn := mk_drawn 41 77 31 71 (u "corr") 2.
#[local] Notation sample_generate := (@generate_report cjk_unicode no_text json_yaml any_schema draft7 typed_objects
  versioned_artifacts versioned_store versioned_uploads (u "hermes") (u "reports") true sample_uuid (sample_checkout (u "# skill")) 4 4 3 sample_drawn) (only parsing).
Definition report_asked : reports_world typed_objects := snd (sample_generate reports_start).
(** A worker leases the job, stores a file and completes it. *)
Definition claim_77 (x : Jobs.db) : bool * Jobs.db := update_job 77 (claimable 3) (claim_row_update (u "w1") 900 5 3) x.
Definition leased_jobs : Jobs.db := snd (claim_77 (jobs_db (rw_db report_asked))).
Definition stored_file : typed_objects := ((u "reports", docx_key (uuid_str 77)), (DOCX_TYPE, [80; 75; 9]%Z)) :: rw_objects report_asked.
Definition report_leased : reports_world typed_objects := mk_reports_world (settle leased_jobs (rw_db report_asked)) stored_file.
Definition report_finished : reports_world typed_objects :=
  mk_reports_world (settle (snd (mark_completed 77 None (Some 5%N) 4 (jobs_db (rw_db report_leased)))) (rw_db report_leased)) stored_file.
Definition reads_of (w : reports_world typed_objects) : poll_reads typed_objects := mk_reads (rw_db w) (rw_objects w) (rw_objects w).
#[local] Notation sample_download w := (@download_report typed_objects
  versioned_artifacts versioned_store (u "reports") (fun _ => None) (rw_db w) (reads_of w) 31 w) (only parsing).
Definition sample_event : (reports_db -> Prop) -> option N -> reports_world typed_objects -> reports_world typed_objects -> Prop :=
  @report_event cjk_unicode no_text json_yaml any_schema
  draft7 sample_bytes typed_objects versioned_artifacts versioned_store versioned_uploads (u "hermes") (u "reports") true sample_uuid
  (sample_checkout (u "# skill")) 4 (fun _ => None).
Definition sample_history (w w' : reports_world typed_objects) : Prop := exists e, sample_event (fun _ => True) e w w'.

Lemma reports_start_ok : reports_ok (rw_db reports_start).
Proof. split; [done|constructor|by intros r Hr%elem_of_nil]. Qed.

Lemma report_asked_reached : sample_history reports_start report_asked.
Proof.
  exists None. apply (@ev_generate cjk_unicode no_text json_yaml any_schema draft7 sample_bytes typed_objects versioned_artifacts versioned_store versioned_uploads).
  split; apply lookup_empty.
Qed.

Lemma report_leased_reached : sample_history report_asked report_leased.
Proof.
  exists None. apply (@row_event cjk_unicode no_text json_yaml any_schema draft7 sample_bytes typed_objects versioned_artifacts versioned_store versioned_uploads).
  intros k x v bytes _ _ b key Hget. exact (@version_immutable _ _ _ versioned_uploads DOCX_TYPE (u "reports") _ _ (rw_objects report_asked) stored_file b key v bytes eq_refl Hget).
Qed.
Lemma sample_completed : fst (mark_completed 77 None (Some 5%N) 4 (jobs_db (rw_db report_leased))) = true.
Proof. vm_compute. reflexivity. Qed.
Lemma report_finished_reached : star sample_history reports_start report_finished.
Proof.
  eapply star_step; [exact report_asked_reached|]. eapply star_step; [exact report_leased_reached|]. apply star_one. exists (Some 77%N).
  apply (@ev_complete cjk_unicode no_text json_yaml any_schema draft7 sample_bytes typed_objects versioned_artifacts versioned_store versioned_uploads
    (u "hermes") (u "reports") true sample_uuid (sample_checkout (u "# skill")) 4 (fun _ => None) (fun _ => True) 77 None (Some 5%N) 4 report_leased true).
  rewrite <- sample_completed. apply surjective_pairing.
Qed.

Lemma report_finished_ok : reports_ok (rw_db report_finished).
Proof. apply (history_preserved _ _ _ _ _ _ _ _ _ report_finished_reached). exact reports_start_ok. Qed.

Lemma report_history_witness : length (rd_rows (rw_db report_finished)) = 1 /\ reports_ok (rw_db report_finished) /\
  allocate_report_version 4 (rd_rows (rw_db report_finished)) = 2%Z.
Proof.
  destruct (@report_history cjk_unicode no_text json_yaml any_schema draft7 sample_bytes typed_objects versioned_artifacts versioned_store versioned_uploads
    (u "hermes") (u "reports") true sample_uuid (sample_checkout (u "# skill")) 4 (fun _ => None) reports_start report_finished
    reports_start_ok report_finished_reached) as (Hok & _ & _ & Hnext).
  split; [vm_compute; reflexivity|]. split; [exact Hok|]. rewrite Hnext. vm_compute. reflexivity.
Defined.

Definition downloaded_77 : reports_world typed_objects := snd (sample_download report_finished).
Lemma sample_downloaded : is_ok (fst (sample_download report_finished)) = true.
Proof. vm_compute. reflexivity. Qed.

(** The same request downloads the file again after another file was stored at
    its key and a listing of the shift was asked for. *)
Definition overwritten : reports_world typed_objects :=
  mk_reports_world (rw_db downloaded_77) (((u "reports", docx_key (uuid_str 77)), (DOCX_TYPE, [80; 75; 7]%Z)) :: rw_objects downloaded_77).
Definition sample_listed : reports_world typed_objects := snd (@list_reports typed_objects versioned_artifacts versioned_store (u "reports")
  (fun _ => None) (rw_db downloaded_77) (fun _ => reads_of overwritten) 4 overwritten).
Lemma sample_since jid : @since cjk_unicode no_text json_yaml any_schema draft7 sample_bytes typed_objects versioned_artifacts versioned_store versioned_uploads
  (u "hermes") (u "reports") true sample_uuid (sample_checkout (u "# skill")) 4 (fun _ => None) jid downloaded_77 [sample_listed; overwritten; downloaded_77].
Proof.
  apply since_step with (e := None); [apply since_step with (e := None); [apply since_start| |discriminate]| |discriminate].
  - apply ev_other; [reflexivity|reflexivity|by intros r _ Hj Hd|]. intros k x v bytes _ _ b key Hget.
    exact (@version_immutable _ _ _ versioned_uploads DOCX_TYPE (u "reports") (docx_key (uuid_str 77)) [80; 75; 7]%Z (rw_objects downloaded_77)
      (rw_objects overwritten) b key v bytes eq_refl Hget).
  - apply ev_list. exists downloaded_77. split; [apply list_elem_of_further, list_elem_of_here|reflexivity].
Qed.
Lemma downloaded_report_final_witness : exists out, sample_download report_finished = (Ok out, downloaded_77) /\
  sample_download sample_listed = (Ok out, sample_listed).
Proof.
  destruct (ok_pair (sample_download report_finished) sample_downloaded) as [[body name] E]. exists (body, name). split; [exact E|].
  destruct (report_row_of 31 (rw_db report_finished)) as [row|] eqn:Hrow; [|vm_compute in Hrow; discriminate Hrow].
  destruct (@downloaded_report_final cjk_unicode no_text json_yaml any_schema draft7 sample_bytes typed_objects versioned_artifacts versioned_store
    versioned_uploads (u "hermes") (u "reports") true sample_uuid (sample_checkout (u "# skill")) 4 (fun _ => None) (rw_db report_finished)
    (reads_of report_finished) 31 report_finished downloaded_77 body name row sample_listed [overwritten; downloaded_77]
    report_finished_ok (reflexivity _) E Hrow (sample_since _)) as [_ Hagain].
  unfold reads_of at 1. apply Hagain; exists sample_listed; (split; [apply list_elem_of_here|reflexivity]).
Defined.

(** A late failure reopens the completed job, another worker stores a file of
    its own and completes the job with it: the downloaded file is replaced. *)
Definition reopened : Jobs.db := snd (mark_retrying 77 (u "E") (u "late") (jobs_db (rw_db downloaded_77))).
Definition other_file : artifact := mk_artifact (Some (u "reports")) (Some (docx_key (uuid_str 77))) (Some (replicate 3 118%Z)) None None None.
Definition recompleted : reports_world typed_objects := mk_reports_world (settle (snd (mark_completed 77 (Some (mk_artifact_metadata (Some other_file) None None None))
  (Some 6%N) 9 (snd (update_job 77 (claimable 8) (claim_row_update (u "w2") 900 6 8) reopened)))) (rw_db downloaded_77)) (rw_objects overwritten).
Example recompleted_report_replaced : fst (sample_download report_finished) = Ok ([80; 75; 9]%Z, u "shift-report-v1.docx") /\
  fst (sample_download recompleted) = Ok ([80; 75; 7]%Z, u "shift-report-v1.docx").
Proof. vm_compute. split; reflexivity. Qed.

(** A shift whose incident has a completed analysis with a confidence. *)
Definition hundred : spec_float := float_of_decimal false 1000 (-1).
Lemma hundred_reads : float_reads (@float_repr percent_text) hundred.
Proof.
  split; [apply (bool_decide_unpack _); vm_compute; exact I|]. intros fuel r Hr.
  destruct r as [|c r]; [vm_compute; reflexivity|]. destruct Hr as [->|[->| ->]]; reflexivity.
Qed.
Definition analysed : analysis_run :=
  mk_run (mk_input 9 1 70 (Some 8%N) None None SKILL_NAME [] [] [] [] [] None JNull [] [] false None 0)
    (Some (mk_output (JObj [(u "summary_en", JStr (u "Disk full.")); (u "confidence", JFloat hundred)]) [] [])) [(u "estimated_cost_usd", JFloat hundred)] true.
Definition busy_start : reports_world typed_objects := mk_reports_world (mk_reports_db (set_runs [analysed] empty_db) [night_shift]
  [mk_facts 1 (Some 4%N) (u "INC-1") (u "Disk") (u "db") (u "PRD") (u "OPEN") (mk_datetime 2026 3 1 21 0 0 0 None) None None None None 5] [] [] ∅) [].
#[local] Notation busy_generate := (@generate_report cjk_unicode percent_text json_yaml any_schema draft7 typed_objects
  versioned_artifacts versioned_store versioned_uploads (u "hermes") (u "reports") true sample_uuid (sample_checkout (u "# skill")) 4 4 3 sample_drawn) (only parsing).
Definition busy_asked : reports_world typed_objects := snd (busy_generate busy_start).

Lemma busy_generated : is_ok (fst (busy_generate busy_start)) = true.
Proof. vm_compute. reflexivity. Qed.

Lemma report_job_reads_witness : exists message ref frozen, snapshot_ref message = Ok ref /\ job_id_of message (uuid_str 77) /\
  map snd (st_outbox (db_store (rd_api (rw_db busy_asked)))) = [mk_outbox_event 77 (u "job.daily_report") message (Some 2%Z) None 0 None] /\
  rd_snapshots (rw_db busy_asked) = [frozen] /\ fst (@load_snapshot typed_objects versioned_artifacts ref (mk_triage (rw_objects busy_asked) [] [])) = Ok (rsn_json frozen).
Proof.
  destruct (ok_pair (busy_generate busy_start) busy_generated) as [out E].
  destruct (@report_job_reads_frozen_snapshot cjk_unicode percent_text json_yaml any_schema draft7 typed_objects versioned_artifacts versioned_store
    versioned_uploads (u "hermes") (u "reports") true sample_uuid (sample_checkout (u "# skill")) 4 4 3 sample_drawn busy_start out busy_asked E)
    as (sn & message & ref & j & Hsn & _ & _ & _ & _ & _ & Hout & Hid & Href & Hload).
  exists message, ref, sn. split; [exact Href|]. split; [exact Hid|]. split; [rewrite Hout; reflexivity|]. split; [exact Hsn|].
  rewrite Hload; [reflexivity|]. apply (wire_okb_ok (fun x => bool_decide (x = hundred))); [intros x ->%bool_decide_eq_true_1; exact hundred_reads|].
  pose proof Hsn as Hw. vm_compute in Hw. injection Hw as <-. vm_compute. reflexivity.
Defined.

(** A report completed with its previews: one image, and its index. *)
Definition preview_image : list Z := [137; 80; 78; 71]%Z.
Definition index_bytes : list Z := utf8_encode (json_dumps (fun _ => []) (JList [JObj [
  (u "bucket", JStr (u "evidence")); (u "object_key", JStr (u "k1")); (u "version_id", JStr (replicate 1 118%Z));
  (u "sha256", JStr (hexdigest preview_image)); (u "filename", JStr (u "a.png"))]])).
Definition preview_objects : typed_objects := [
  ((u "reports", screenshots_key (uuid_str 77)), (JSON_TYPE, index_bytes)); ((u "evidence", u "k1"), (u "image/png", preview_image))].
Definition pinned_at (key : pystr) (version : nat) (bytes : list Z) : artifact :=
  mk_artifact (Some (u "reports")) (Some key) (Some (replicate version 118%Z)) (Some (hexdigest bytes)) None None.
Definition preview_meta : Jobs.artifact_metadata := mk_artifact_metadata (Some (pinned_at (docx_key (uuid_str 77)) 1 []))
  (Some (pinned_at (document_key (uuid_str 77)) 1 [])) (Some (pinned_at (screenshots_key (uuid_str 77)) 2 index_bytes)) None.
Definition report_previewed : reports_world typed_objects := mk_reports_world
  (settle (snd (mark_completed 77 (Some preview_meta) (Some 5%N) 4 (jobs_db (rw_db report_leased)))) (rw_db report_leased)) preview_objects.
#[local] Notation sample_screenshot := (@get_report_document_screenshot sample_bytes typed_objects versioned_artifacts versioned_store
  (u "reports") (fun _ => None) (rw_db report_previewed) (reads_of report_previewed) 31 0 report_previewed) (only parsing).

Lemma sample_shown : fst (sample_screenshot) = Ok (preview_image, u "application/octet-stream").
Proof. vm_compute. reflexivity. Qed.

Lemma screenshot_proxy_witness : exists entry bucket key version expected,
  get_object (ArtifactStore := versioned_artifacts) (rw_objects (snd (sample_screenshot))) bucket key version = Ok preview_image /\
  subscript_key (u "object_key") entry = Ok (JStr key) /\
  py_get (u "sha256") JNull entry = Ok expected /\ (jtruthy expected = true -> expected = JStr (sha256_of_bytes preview_image)).
Proof.
  pose proof (surjective_pairing (sample_screenshot)) as E. rewrite sample_shown in E.
  destruct (@screenshot_proxy sample_bytes typed_objects versioned_artifacts versioned_store (u "reports") (fun _ => None) (rw_db report_previewed)
    (reads_of report_previewed) 31 0 report_previewed _ _ _ E) as (row & x & v & raw & screenshots & entry & bucket & key & version & _ & _ & _ & _ & _ & _ & _ & _ & _ & _ & Hkey & Hget & expected & He & Hok).
  exists entry, bucket, key, (nonempty version), expected. split; [exact Hget|]. split; [exact Hkey|]. split; [exact He|exact Hok].
Defined.
