(* ===== verification/Incidents.v ===== *)
(** * Incidents, shifts and their evidence

    [apps/api/app/api/v1/routers/incidents.py], [shifts.py] and the attachment
    of a screenshot prefill in [ocr.py]: the rows an operator works with, from
    the opening of a shift to the deletion of an incident with everything that
    hangs on it.

    One world holds the tables; the purge of evidence is the one of [Evidence],
    run on the view [files] of this world.  A handler is a transaction; what it
    does to the object store after its commit is outside it.  Requests that
    allocate a display name hold one advisory lock, so creations follow one
    another.  An update and a closing read their row without a lock: the row
    they saw is an argument, and they write the columns they changed.  A
    deletion and an attachment are one transition each here, whose effect on
    evidence is a run of [Evidence.evidence_step]. *)

From Stdlib Require Import Sorted.
From S2P Require Import Prelude PyStr Json Schema Failures PyVal PyColl Snapshots Jobs Sweep Outbox Evidence Api Analysis.

(** ** Data *)

Record incident := mk_incident {
  in_id : N; in_display_id : pystr; in_shift : option N; in_title : pystr; in_service : pystr; in_environment : pystr; in_status : pystr;
  in_alert_source : option pystr; in_triggered_at : usec; in_recovered_at : option usec; in_trigger_value : option pystr;
  in_teams_url : option pystr; in_grafana_url : option pystr; in_notes : option pystr; in_created_by : option N; in_updated_by : option N;
  in_created_at : usec; in_updated_at : usec }.
#[global] Instance incident_eq_dec : EqDecision incident.
Proof. solve_decision. Defined.

Record shift := mk_shift {
  sf_id : N; sf_definition : N; sf_starts_at : usec; sf_ends_at : option usec; sf_state : pystr; sf_opened_by : option N; sf_closed_by : option N }.
Record shift_definition := mk_definition { sd_id : N; sd_name : pystr; sd_start_time : pystr; sd_end_time : pystr; sd_timezone : pystr; sd_enabled : bool }.

(** A screenshot uploaded before its incident exists. *)
Record prefill_run := mk_prefill {
  pf_id : N; pf_incident : option N; pf_bucket : pystr; pf_key : pystr; pf_filename : pystr; pf_mime : option pystr; pf_sha256 : pystr;
  pf_json : option json; pf_status : pystr }.

Record ops_world (O : Type) := mk_ops {
  ow_incidents : list incident;
  ow_shifts : list shift;
  ow_definitions : list shift_definition;
  ow_prefills : list prefill_run;
  ow_evidence : list (N * evidence);
  ow_intents : list (N * upload_intent);
  ow_ocr : list N;                     (** evidence ids of the OCR runs *)
  ow_runs : list analysis_run;
  ow_jobs : Outbox.store;
  ow_snapshots : list json;            (** of the reports *)
  ow_audit : list audit_row;
  ow_store : O;
  ow_faults : list storage_fault;
}.
Arguments mk_ops {O}. Arguments ow_incidents {O}. Arguments ow_shifts {O}. Arguments ow_definitions {O}. Arguments ow_prefills {O}.
Arguments ow_evidence {O}. Arguments ow_intents {O}. Arguments ow_ocr {O}. Arguments ow_runs {O}. Arguments ow_jobs {O}. Arguments ow_snapshots {O}.
Arguments ow_audit {O}. Arguments ow_store {O}. Arguments ow_faults {O}.

(** ** Requests *)

Record incident_create := mk_create {
  ic_title : pystr; ic_service : pystr; ic_environment : pystr; ic_status : pystr; ic_alert_source : option pystr; ic_triggered_at : usec;
  ic_recovered_at : option usec; ic_trigger_value : option pystr; ic_teams_url : option pystr; ic_grafana_url : option pystr; ic_notes : option pystr }.
(** A field that was sent, possibly as null. *)
Record incident_update := mk_update {
  iu_title : option (option pystr); iu_status : option (option pystr); iu_recovered_at : option (option usec); iu_notes : option (option pystr) }.

Definition STATUSES : list pystr := map u ["open"; "investigating"; "recovered"]%string.
Definition length_in (low high : nat) (s : pystr) : bool := Nat.leb low (length s) && Nat.leb (length s) high.
(** The validation of the request bodies. *)
Definition create_valid (b : incident_create) : bool :=
  length_in 1 500 (ic_title b) && length_in 1 200 (ic_service b) && length_in 1 100 (ic_environment b) && bool_decide (ic_status b ∈ STATUSES).
Definition update_valid (b : incident_update) : bool :=
  match iu_title b with Some (Some t) => length_in 1 500 t | _ => true end &&
  match iu_status b with Some (Some s) => bool_decide (s ∈ STATUSES) | _ => true end.

(** The widths of the columns. *)
Definition opt_within (high : nat) (s : option pystr) : bool := match s with Some s => Nat.leb (length s) high | None => true end.
Definition row_fits (i : incident) : bool :=
  Nat.leb (length (in_display_id i)) 20 && Nat.leb (length (in_title i)) 500 && Nat.leb (length (in_service i)) 200 &&
  Nat.leb (length (in_environment i)) 50 && Nat.leb (length (in_status i)) 20 && opt_within 200 (in_alert_source i) &&
  opt_within 500 (in_trigger_value i) && opt_within 500 (in_teams_url i) && opt_within 500 (in_grafana_url i).

Definition integrity_error (msg : pystr) : pyexn := mk_exn (ForeignError (u "IntegrityError") false) msg.
Definition data_error : pyexn := mk_exn (ForeignError (u "DataError") false) (u "value too long").
Definition is_integrity_error (e : api_exn) : bool :=
  match e with Uncaught x => bool_decide (x_class x = ForeignError (u "IntegrityError") false) | _ => false end.

(** A text that is there and not empty. *)
Definition nonempty_text (s : option pystr) : option pystr := match s with Some [] => None | _ => s end.

(** ** Display names *)

(** The digits of the Unicode character database: the decimal ones and those
    that [str.isdigit] accepts without being decimal, such as superscripts. *)
Class DigitTable `{UnicodeData} := {
  superscript : Z -> bool;
  superscript_ascii : forall c, (0 <= c < 128)%Z -> superscript c = false;
  digit_ascii : forall c, (0 <= c < 128)%Z -> uni_digit c = ascii_digit c;
  decimal_ascii : forall c, ascii_digit c = true -> uni_decimal c = (c - 48)%Z;
}.

Section names.
Context `{DigitTable}.

(** [str.isdigit] *)
Definition isdigit (s : pystr) : bool := negb (bool_decide (s = [])) && forallb (fun c => uni_digit c || superscript c) s.

Definition DISPLAY_PREFIX : pystr := u "INC-".
Definition highest_step (highest : Z) (display_id : pystr) : result pyexn Z :=
  let suffix := removeprefix DISPLAY_PREFIX display_id in
  if isdigit suffix then
    match int_of_str suffix with
    | Some n => Ok (Z.max highest n)
    | None => Raise (value_error (u "invalid literal for int() with base 10"))
    end
  else Ok highest.
Fixpoint highest_suffix (highest : Z) (l : list pystr) : result pyexn Z :=
  match l with [] => Ok highest | x :: l => n ← highest_step highest x; highest_suffix n l end.
(** [_next_display_id] *)
Definition next_display_id (l : list incident) : result pyexn pystr :=
  n ← highest_suffix 1000 (filter (fun d => startswith DISPLAY_PREFIX d = true) (map in_display_id l));
  mret (DISPLAY_PREFIX ++ py_str_int (n + 1)).
End names.

(** ** Steps on the world *)

Section incidents.
Context `{DigitTable}.
Context {Store : Type} `{ObjectStore Store}.
Context (json_time : usec -> pystr).
Notation W := (ops_world Store).
Definition IDB : Type -> Type := M W api_exn.

Definition set_incidents (l : list incident) (w : W) : W :=
  mk_ops l (ow_shifts w) (ow_definitions w) (ow_prefills w) (ow_evidence w) (ow_intents w) (ow_ocr w) (ow_runs w) (ow_jobs w) (ow_snapshots w)
    (ow_audit w) (ow_store w) (ow_faults w).
Definition set_shifts (l : list shift) (w : W) : W :=
  mk_ops (ow_incidents w) l (ow_definitions w) (ow_prefills w) (ow_evidence w) (ow_intents w) (ow_ocr w) (ow_runs w) (ow_jobs w) (ow_snapshots w)
    (ow_audit w) (ow_store w) (ow_faults w).
Definition set_prefills (l : list prefill_run) (w : W) : W :=
  mk_ops (ow_incidents w) (ow_shifts w) (ow_definitions w) l (ow_evidence w) (ow_intents w) (ow_ocr w) (ow_runs w) (ow_jobs w) (ow_snapshots w)
    (ow_audit w) (ow_store w) (ow_faults w).
Definition set_ops_evidence (l : list (N * evidence)) (w : W) : W :=
  mk_ops (ow_incidents w) (ow_shifts w) (ow_definitions w) (ow_prefills w) l (ow_intents w) (ow_ocr w) (ow_runs w) (ow_jobs w) (ow_snapshots w)
    (ow_audit w) (ow_store w) (ow_faults w).
Definition set_ops_audit (l : list audit_row) (w : W) : W :=
  mk_ops (ow_incidents w) (ow_shifts w) (ow_definitions w) (ow_prefills w) (ow_evidence w) (ow_intents w) (ow_ocr w) (ow_runs w) (ow_jobs w)
    (ow_snapshots w) l (ow_store w) (ow_faults w).
Definition log_audit (user : N) (action resource_type resource_id : pystr) (metadata : json) : IDB () :=
  modify_st (fun w => set_ops_audit (record_audit (Some user) action resource_type resource_id (Some metadata) (ow_audit w)) w).

(** The tables of the evidence lifecycle. *)
Definition evidence_of_runs (l : list analysis_run) : list N := omap (fun r => ri_evidence (ar_input r)) l.
Definition files (w : W) : eworld Store :=
  mk_eworld (map in_id (ow_incidents w)) (ow_evidence w) (ow_intents w) (ow_ocr w) (evidence_of_runs (ow_runs w)) (ow_snapshots w)
    (ow_store w) (ow_faults w).
Definition with_files (e : eworld Store) (w : W) : W :=
  mk_ops (ow_incidents w) (ow_shifts w) (ow_definitions w) (ow_prefills w) (ew_evidence e) (ew_intents e) (ow_ocr w) (ow_runs w) (ow_jobs w)
    (ow_snapshots w) (ow_audit w) (ew_store e) (ew_faults e).
Definition on_files {A} (m : M (eworld Store) api_error A) : M W api_error A := fun w =>
  let '(r, e) := m (files w) in (r, with_files e w).

Definition incident_in (id : N) (l : list incident) : option incident := find_first (fun i => bool_decide (in_id i = id)) l.
Definition incident_of (id : N) (w : W) : option incident := incident_in id (ow_incidents w).
Definition with_incident {A} (id : N) (f : incident -> IDB A) : IDB A :=
  w ← get_st; match incident_of id w with Some i => f i | None => http 404 (u "Incident not found") end.

(** ** Reading *)

Definition analysis_status_of (s : job_status) : pystr :=
  match s with COMPLETED => u "completed" | FAILED => u "failed" | QUEUED => u "queued" | RETRYING => u "retrying" | PROCESSING => u "running" end.

(** An incident as it is shown. *)
Record incident_view := mk_view { vw_incident : incident; vw_has_log : bool; vw_analysis_status : pystr }.

Definition is_active_log (e : evidence) : bool := bool_decide (e_type e = u "LOG") && bool_decide (e_state e = ACTIVE).
(** [_attach_derived]: one query for the logs and one for the current runs of
    all the incidents, whatever their number. *)
Definition log_incidents (ids : list N) (w : W) : list N :=
  omap (fun x => e_incident (snd x)) (List.filter (fun x => is_active_log (snd x) && match e_incident (snd x) with Some i => bool_decide (i ∈ ids) | None => false end)
    (ow_evidence w)).
Definition status_rows (ids : list N) (w : W) : list (N * job_status) :=
  omap (fun r => j ← st_jobs (ow_jobs w) !! ri_job (ar_input r); Some (ri_incident (ar_input r), j_status j))
    (filter (fun r => ri_incident (ar_input r) ∈ ids /\ ar_current r = true) (ow_runs w)).
Definition status_by_incident (rows : list (N * job_status)) : gmap N pystr :=
  foldl (fun m row => <[fst row := analysis_status_of (snd row)]> m) ∅ rows.
Definition attach_derived (w : W) (l : list incident) : list incident_view :=
  let ids := map in_id l in
  match ids with
  | [] => []
  | _ =>
      let logs := log_incidents ids w in
      let statuses := status_by_incident (status_rows ids w) in
      map (fun i => mk_view i (bool_decide (in_id i ∈ logs)) (default (u "not_analyzed") (statuses !! in_id i))) l
  end.

Definition has_active_log (w : W) (id : N) : bool :=
  existsb (fun x => is_active_log (snd x) && bool_decide (e_incident (snd x) = Some id)) (ow_evidence w).
Definition by_created (x y : incident) : bool := (in_created_at x <=? in_created_at y)%Z.
(** Newest alert first. *)
Definition by_triggered (x y : incident) : bool := (in_triggered_at y <=? in_triggered_at x)%Z.

(** [list_incidents]; an empty text filters nothing, a limit of zero is no
    limit. *)
Definition text_filter (want : option pystr) (have : pystr) : bool :=
  match want with Some ((_ :: _) as s) => bool_decide (have = s) | _ => true end.
Definition list_incidents (limit offset : nat) (shift_id : option N) (status_filter service environment : option pystr) (has_log : option bool)
    : IDB (list incident_view * nat) :=
  w ← get_st;
  let wanted (i : incident) : bool :=
    match shift_id with Some s => bool_decide (in_shift i = Some s) | None => true end &&
    text_filter status_filter (in_status i) && text_filter service (in_service i) && text_filter environment (in_environment i) &&
    match has_log with Some b => Bool.eqb (has_active_log w (in_id i)) b | None => true end in
  let found := List.filter wanted (ow_incidents w) in
  let sorted := py_sorted (match shift_id with Some _ => by_created | None => by_triggered end) found in
  let rest := drop offset sorted in
  mret (attach_derived w (match limit with 0 => rest | _ => take limit rest end), length found).

(** [list_incident_readiness] *)
Definition incidents_of_shift (shift_id : N) (w : W) : list incident :=
  py_sorted by_created (List.filter (fun i => bool_decide (in_shift i = Some shift_id)) (ow_incidents w)).
Definition list_incident_readiness (shift_id : N) : IDB (list (N * pystr * bool * pystr)) :=
  w ← get_st;
  mret (map (fun v => (in_id (vw_incident v), in_title (vw_incident v), vw_has_log v, vw_analysis_status v))
    (attach_derived w (incidents_of_shift shift_id w))).

Definition get_incident (id : N) : IDB (list incident_view) := with_incident id (fun i => w ← get_st; mret (attach_derived w [i])).

(** *** The timeline *)

Record timeline_event := mk_event { te_type : pystr; te_label : pystr; te_at : usec; te_detail : json }.

(** [str.title], for ASCII. *)
Fixpoint title_from (cased : bool) (s : pystr) : pystr :=
  match s with
  | [] => []
  | c :: s =>
      let upper := ((65 <=? c) && (c <=? 90))%Z in let lower := ((97 <=? c) && (c <=? 122))%Z in
      (if cased then if upper then (c + 32)%Z else c else if lower then (c - 32)%Z else c) :: title_from (upper || lower) s
  end.
Definition evidence_label (evidence_type : pystr) : pystr :=
  if decide (evidence_type = u "SCREENSHOT") then u "Screenshot attached"
  else if decide (evidence_type = u "LOG") then u "Log attached" else title_from false evidence_type ++ u " attached".
Definition evidence_event (x : N * evidence) : result pyexn timeline_event :=
  match e_created_at (snd x) with
  | Some t => Ok (mk_event (u "evidence_attached") (evidence_label (e_type (snd x))) t
                 (JObj [(u "evidence_type", JStr (e_type (snd x))); (u "filename", JStr (e_filename (snd x)))]))
  | None => Raise (mk_exn (ForeignError (u "ValidationError") true) (u "occurred_at"))
  end.
Definition job_events (x : N * job) : list timeline_event :=
  let '(id, j) := x in
  let kind := if decide (j_type j = u "log_triage") then u "Analysis" else u "Report generation" in
  let who := [(u "job_id", JStr (uuid_str id)); (u "job_type", JStr (j_type j))] in
  [mk_event (u "job_requested") (kind ++ u " requested") (j_queued_at j) (JObj who)] ++
  match j_started_at j with Some t => [mk_event (u "job_started") (kind ++ u " started") t (JObj who)] | None => [] end ++
  match j_status j, j_completed_at j with
  | COMPLETED, Some t => [mk_event (u "job_completed") (kind ++ u " completed") t (JObj who)]
  | RETRYING, t => [mk_event (u "job_retrying") (kind ++ u " retrying") (default (j_queued_at j) t)
      (JObj (who ++ [(u "error_code", jopt (j_error_code j)); (u "error_message", jopt (j_error_message j))]))]
  | FAILED, Some t => [mk_event (u "job_failed") (kind ++ u " failed") t
      (JObj (who ++ [(u "error_code", jopt (j_error_code j)); (u "error_message", jopt (j_error_message j))]))]
  | _, _ => []
  end.
Definition evidence_of_incident (id : N) (w : W) : list (N * evidence) := filter (fun x => e_incident (snd x) = Some id) (ow_evidence w).
Definition jobs_of_incident (id : N) (w : W) : list (N * job) :=
  filter (fun x => j_incident_id (snd x) = Some id) (map_to_list (st_jobs (ow_jobs w))).
Definition opt_time (x y : option usec) : bool := match x, y with Some x, Some y => (x <=? y)%Z | Some _, None => true | None, None => true | None, Some _ => false end.
(** [get_incident_timeline] *)
Definition get_incident_timeline (id : N) : IDB (list timeline_event) :=
  with_incident id (fun i =>
    w ← get_st;
    attached ← python (each evidence_event (py_sorted (fun x y => opt_time (e_created_at (snd x)) (e_created_at (snd y))) (evidence_of_incident id w)));
    let started := [
      mk_event (u "triggered") (u "Triggered") (in_triggered_at i)
        (match nonempty_text (in_alert_source i) with Some s => JObj [(u "alert_source", JStr s)] | None => JNull end);
      mk_event (u "incident_created") (u "Incident created") (in_created_at i) JNull] in
    let worked := mjoin (map job_events (py_sorted (fun x y => (j_queued_at (snd x) <=? j_queued_at (snd y))%Z) (jobs_of_incident id w))) in
    let ended := match in_recovered_at i with Some t => [mk_event (u "recovered") (u "Recovered") t JNull] | None => [] end in
    mret (py_sorted (fun x y => (te_at x <=? te_at y)%Z) (started ++ attached ++ worked ++ ended))).

(** ** Writing *)

(** A handler that raises leaves the tables as they were; the object store and
    what was asked of it stay. *)
Definition ops_transaction {A} (m : IDB A) : IDB A := fun w =>
  match m w with
  | (Ok a, w') => (Ok a, w')
  | (Raise e, w') => (Raise e, with_files (mk_eworld [] (ow_evidence w) (ow_intents w) [] [] [] (ow_store w') (ow_faults w')) w)
  end.

Definition recovery_error {A} (status : option pystr) (recovered_at : option usec) (k : IDB A) : IDB A :=
  if decide (status = Some (u "recovered") /\ recovered_at = None) then http 422 (u "Recovered incidents require recovered_at.")
  else if decide (status <> Some (u "recovered") /\ recovered_at <> None) then http 422 (u "Only recovered incidents may have recovered_at.")
  else k.

Definition active_shift (l : list shift) : option shift := find_first (fun s => bool_decide (sf_state s = u "active")) l.

(** [db.flush()] of a new row: the widths and the unique display name. *)
Definition flush_incident (i : incident) : IDB () :=
  w ← get_st;
  if negb (row_fits i) then raise (Uncaught data_error)
  else if bool_decide (in_display_id i ∈ map in_display_id (ow_incidents w)) then raise (Uncaught (integrity_error (u "incidents_display_id_key")))
  else modify_st (set_incidents (ow_incidents w ++ [i])).

(** One attempt of [create_incident]. *)
Definition insert_incident (b : incident_create) (shift_id : option N) (user id : N) (now : usec) : IDB incident :=
  w ← get_st;
  display_id ← python (next_display_id (ow_incidents w));
  let row := mk_incident id display_id shift_id (ic_title b) (ic_service b) (ic_environment b) (ic_status b) (ic_alert_source b) (ic_triggered_at b)
    (ic_recovered_at b) (ic_trigger_value b) (ic_teams_url b) (ic_grafana_url b) (ic_notes b) (Some user) (Some user) now now in
  flush_incident row;; mret row.

(** [create_incident]: [read] is the table of shifts when the request read it. *)
Definition create_incident (read : list shift) (b : incident_create) (user id : N) (now : usec) : IDB incident :=
  ops_transaction (
    let shift_id := sf_id <$> active_shift read in
    recovery_error (Some (ic_status b)) (ic_recovered_at b) (
      let attempt := insert_incident b shift_id user id now in
      row ← try_except attempt (fun e => if is_integrity_error e then attempt else raise e);
      log_audit user (u "incident.create") (u "incident") (uuid_str id) (JObj [(u "display_id", JStr (in_display_id row))]);;
      mret row)).

(** The incident as the session holds it after the assignments, and what the
    flush makes of the row that is there by then. *)
Definition assign_update (b : incident_update) (user : N) (i : incident) : incident :=
  mk_incident (in_id i) (in_display_id i) (in_shift i) (default (in_title i) (mjoin (iu_title b))) (in_service i) (in_environment i)
    (default (in_status i) (mjoin (iu_status b))) (in_alert_source i) (in_triggered_at i) (default (in_recovered_at i) (iu_recovered_at b))
    (in_trigger_value i) (in_teams_url i) (in_grafana_url i) (default (in_notes i) (iu_notes b)) (in_created_by i) (Some user)
    (in_created_at i) (in_updated_at i).
Definition flush_update (now : usec) (seen assigned row : incident) : incident :=
  let column {A} `{EqDecision A} (f : incident -> A) := flush_column (f seen) (f assigned) (f row) in
  mk_incident (in_id row) (in_display_id row) (in_shift row) (column in_title) (in_service row) (in_environment row) (column in_status)
    (in_alert_source row) (in_triggered_at row) (column in_recovered_at) (in_trigger_value row) (in_teams_url row) (in_grafana_url row)
    (column in_notes) (in_created_by row) (column in_updated_by) (in_created_at row) now.
Definition sent {A} (k : string) (f : A -> json) (x : option (option A)) : list (pystr * json) :=
  match x with Some v => [(u k, match v with Some v => f v | None => JNull end)] | None => [] end.
Definition update_json (b : incident_update) : json := JObj (
  sent "title" JStr (iu_title b) ++ sent "status" JStr (iu_status b) ++ sent "recovered_at" (fun t => JStr (json_time t)) (iu_recovered_at b) ++
  sent "notes" JStr (iu_notes b)).
Definition update_incident_row (id : N) (f : incident -> incident) (l : list incident) : list incident :=
  map (fun i => if decide (in_id i = id) then f i else i) l.
(** The [UPDATE] of the changed columns; a column that may not be null is
    checked by the database. *)
Definition write_update (id : N) (b : incident_update) (user : N) (now : usec) (seen : incident) : IDB () :=
  if bool_decide (iu_title b = Some None) || bool_decide (iu_status b = Some None) then raise (Uncaught (integrity_error (u "null value in column")))
  else if decide (assign_update b user seen = seen) then mret ()
  else
    w ← get_st;
    match incident_of id w with
    | Some _ => modify_st (fun w => set_incidents (update_incident_row id (flush_update now seen (assign_update b user seen)) (ow_incidents w)) w)
    | None => raise (Uncaught stale_data_error)
    end.
(** [db.refresh(incident)] *)
Definition refreshed_incident (id : N) : IDB (list incident_view) :=
  w ← get_st;
  match incident_of id w with
  | Some i => mret (attach_derived w [i])
  | None => raise (Uncaught (mk_exn (ForeignError (u "InvalidRequestError") false) (u "Could not refresh instance")))
  end.
(** [update_incident]: the incident is read without a lock from the rows
    [read]; others may have committed since. *)
Definition update_incident (read : list incident) (id : N) (b : incident_update) (user : N) (now : usec) : IDB (list incident_view) :=
  ops_transaction (
    match incident_in id read with
    | None => http 404 (u "Incident not found")
    | Some i =>
        let next_status := match iu_status b with Some s => s | None => Some (in_status i) end in
        let next_recovered_at := match iu_recovered_at b with Some t => t | None => in_recovered_at i end in
        recovery_error next_status next_recovered_at (
          write_update id b user now i;;
          log_audit user (u "incident.update") (u "incident") (uuid_str id) (update_json b))
    end);;
  refreshed_incident id.

(** *** Deletion *)

Definition evidence_exn (e : api_error) : api_exn :=
  match e with
  | EvidenceReferenced refs => HttpException 409 (JStr (u "Incident evidence is retained: evidence is retained by: " ++ py_join (u ", ") refs))
  | Http status detail => HttpException status (JStr detail)
  | StorageClientError code => Uncaught (mk_exn (ForeignError (u "ClientError") false) code)
  | StorageError => Uncaught (mk_exn (ForeignError (u "Exception") false) [])
  end.
(** [[request_purge(db, evidence) for evidence in evidence_records]] *)
Fixpoint request_purges (now : usec) (l : list (N * evidence)) : M W api_error (list (N * purge_plan)) :=
  match l with
  | [] => mret []
  | (i, e) :: l => plan ← on_files (request_purge now i e); plans ← request_purges now l; mret ((i, plan) :: plans)
  end.
Definition purge_requests (now : usec) (l : list (N * evidence)) : IDB (list (N * purge_plan)) := fun w =>
  match request_purges now l w with (Ok plans, w') => (Ok plans, w') | (Raise e, w') => (Raise (evidence_exn e), w') end.

Definition detach_incident (e : evidence) : evidence :=
  mk_evidence None (e_type e) (e_bucket e) (e_key e) (e_filename e) (e_mime e) (e_size e) (e_sha256 e) (e_version e) (e_uploaded_by e)
    (e_created_at e) (e_state e) (e_deleted_at e).
Definition release_prefill (id : N) (p : prefill_run) : prefill_run :=
  mk_prefill (pf_id p) (if decide (pf_incident p = Some id) then None else pf_incident p) (pf_bucket p) (pf_key p) (pf_filename p) (pf_mime p)
    (pf_sha256 p) (pf_json p) (pf_status p).
(** The statements between the purge requests and the commit. *)
Definition erase_incident (id : N) (evidence_ids : list N) (w : W) : W :=
  let job_ids := map fst (jobs_of_incident id w) in
  mk_ops (List.filter (fun i => negb (bool_decide (in_id i = id))) (ow_incidents w)) (ow_shifts w) (ow_definitions w)
    (map (release_prefill id) (ow_prefills w))
    (map (fun x => if decide (e_incident (snd x) = Some id) then (fst x, detach_incident (snd x)) else x) (ow_evidence w))
    (List.filter (fun x => negb (bool_decide (i_incident (snd x) = id))) (ow_intents w))
    (List.filter (fun e => negb (bool_decide (e ∈ evidence_ids))) (ow_ocr w))
    (List.filter (fun r => negb (bool_decide (ri_incident (ar_input r) = id))) (ow_runs w))
    (Outbox.mk_store (filter (fun x => j_incident_id (snd x) <> Some id) (st_jobs (ow_jobs w)))
       (List.filter (fun x => negb (bool_decide (oe_job_id (snd x) ∈ job_ids))) (st_outbox (ow_jobs w))))
    (ow_snapshots w) (ow_audit w) (ow_store w) (ow_faults w).
(** A run refers to its job. *)
Definition runs_have_jobs (w : W) : bool := forallb (fun r => bool_decide (is_Some (st_jobs (ow_jobs w) !! ri_job (ar_input r)))) (ow_runs w).

Definition delete_rows (id user : N) (now : usec) : IDB (list (N * purge_plan)) :=
  ops_transaction (
    with_incident id (fun _ =>
      w ← get_st;
      let records := evidence_of_incident id w in
      plans ← purge_requests now records;
      modify_st (erase_incident id (map fst records));;
      log_audit user (u "incident.delete") (u "incident") (uuid_str id) (JObj []);;
      w ← get_st;
      if runs_have_jobs w then mret plans else raise (Uncaught (integrity_error (u "analysis_runs_job_id_fkey"))))).

(** What follows the commit: an object that cannot be deleted now stays with
    its tombstone. *)
Fixpoint purge_all (plans : list (N * purge_plan)) : M W api_error () :=
  match plans with
  | [] => mret ()
  | (i, plan) :: plans =>
      (fun w => match on_files (purge_storage plan) w with
                | (Ok _, w') => on_files (mark_purged i) w'
                | (Raise _, w') => (Ok tt, w')
                end);;
      purge_all plans
  end.
Definition delete_incident (id user : N) (now : usec) : IDB () :=
  plans ← delete_rows id user now;
  (fun w => let '(_, w') := purge_all plans w in (Ok tt, w')) : IDB ().

(** ** [ocr.py: attach_prefill_to_incident] *)

Definition PREFILL_FIELDS : list string := ["title"; "service"; "environment"; "status"; "trigger_value"; "notes"].
Definition suggested_value (prefill : json) (field : pystr) : result pyexn json :=
  f ← py_get field (JObj []) prefill; py_get (u "value") JNull f.
Definition final_value (i : incident) (field : string) : json :=
  match field with
  | "title" => JStr (in_title i) | "service" => JStr (in_service i) | "environment" => JStr (in_environment i) | "status" => JStr (in_status i)
  | "trigger_value" => jopt (in_trigger_value i) | _ => jopt (in_notes i)
  end%string.
Definition corrections (prefill : option json) (i : incident) : result pyexn json :=
  let source := jor (default JNull prefill) (JObj []) in
  pairs ← each (fun f => v ← suggested_value source (u f); mret (f, v)) PREFILL_FIELDS;
  mret (JObj (omap (fun '(f, v) => if decide (v = final_value i f) then None
    else Some (u f, JObj [(u "suggested", v); (u "final", final_value i f)])) pairs)).

Definition update_prefill (id incident_id : N) (l : list prefill_run) : list prefill_run :=
  map (fun p => if decide (pf_id p = id) then mk_prefill (pf_id p) (Some incident_id) (pf_bucket p) (pf_key p) (pf_filename p) (pf_mime p) (pf_sha256 p)
    (pf_json p) (pf_status p) else p) l.
Definition attach_prefill_to_incident (prefill_id incident_id user evidence_id : N) (now : usec) : IDB (N * evidence) :=
  ops_transaction (
    w ← get_st;
    match find_first (fun p => bool_decide (pf_id p = prefill_id)) (ow_prefills w) with
    | None => http 404 (u "Incident prefill not found")
    | Some prefill =>
        with_incident incident_id (fun incident =>
          if decide (pf_status prefill = u "OCR_FAILED") then http 409 (u "Cannot attach a prefill whose OCR failed")
          else if decide (pf_incident prefill <> None /\ pf_incident prefill <> Some incident_id) then http 409 (u "Prefill is already attached to another incident")
          else
            match find_first (fun x => bool_decide (e_incident (snd x) = Some incident_id /\ e_key (snd x) = pf_key prefill)) (ow_evidence w) with
            | Some existing => mret existing
            | None =>
                head ← (fun w => match on_files (head_object (pf_bucket prefill) (pf_key prefill)) w with
                                 | (Ok v, w') => (Ok v, w')
                                 | (Raise _, w') => (Raise (HttpException 409 (JStr (u "Prefill screenshot is no longer available"))), w') end);
                let e := mk_evidence (Some incident_id) (u "ALERT_SCREENSHOT") (pf_bucket prefill) (pf_key prefill) (pf_filename prefill) (pf_mime prefill)
                  (v_size head) (pf_sha256 prefill) (v_id head) user (Some now) ACTIVE None in
                modify_st (fun w => set_ops_evidence (ow_evidence w ++ [(evidence_id, e)]) w);;
                modify_st (fun w => set_prefills (update_prefill prefill_id incident_id (ow_prefills w)) w);;
                made ← python (corrections (pf_json prefill) incident);
                log_audit user (u "incident.prefill.attached") (u "evidence") (uuid_str evidence_id) (JObj [
                  (u "prefill_id", JStr (uuid_str prefill_id)); (u "incident_id", JStr (uuid_str incident_id)); (u "corrections", made)]);;
                mret (evidence_id, e)
            end)
    end).

(** ** Shifts *)

Context (collate : pystr -> pystr -> bool).   (** the order of names in the database *)

Definition end_shift (now : usec) (user : N) (s : shift) : shift :=
  mk_shift (sf_id s) (sf_definition s) (sf_starts_at s) (Some now) (u "ended") (sf_opened_by s) (Some user).
Definition update_shift (id : N) (f : shift -> shift) (l : list shift) : list shift := map (fun s => if decide (sf_id s = id) then f s else s) l.
Definition is_active (s : shift) : bool := bool_decide (sf_state s = u "active").
(** The unique index on the active shift. *)
Definition one_active (l : list shift) : bool := Nat.leb (length (List.filter is_active l)) 1.

Definition choose_definition (wanted : option N) (l : list shift_definition) : IDB shift_definition :=
  match wanted with
  | Some id =>
      match find_first (fun d => bool_decide (sd_id d = id)) l with Some d => mret d | None => http 404 (u "Shift definition not found") end
  | None =>
      match head (py_sorted (fun x y => collate (sd_name x) (sd_name y)) (List.filter sd_enabled l)) with
      | Some d => mret d
      | None => http 400 (u "No enabled shift definition to open")
      end
  end.
(** [open_shift]: [read] is the table of shifts when the request read it;
    others may have committed since. *)
Definition open_shift (read : list shift) (wanted : option N) (user id : N) (now : usec) : IDB shift :=
  ops_transaction (
    w ← get_st;
    definition ← choose_definition wanted (ow_definitions w);
    let row := mk_shift id (sd_id definition) now None (u "active") (Some user) None in
    let ended := match active_shift read with Some s => update_shift (sf_id s) (end_shift now user) (ow_shifts w) | None => ow_shifts w end in
    if one_active (ended ++ [row]) then
      modify_st (set_shifts (ended ++ [row]));;
      log_audit user (u "shift.open") (u "shift") (uuid_str id) (JObj [(u "shift_definition_id", JStr (uuid_str (sd_id definition)))]);;
      mret row
    else http 409 (u "Another shift was opened concurrently; reload the current shift.")).

Definition newest_shift (x y : shift) : bool := (sf_starts_at y <=? sf_starts_at x)%Z.
Definition get_current_shift : IDB shift :=
  w ← get_st;
  match head (py_sorted newest_shift (List.filter is_active (ow_shifts w))) with Some s => mret s | None => http 404 (u "No active shift") end.
Definition list_shifts : IDB (list shift) := w ← get_st; mret (py_sorted newest_shift (ow_shifts w)).
Definition get_shift (id : N) : IDB shift :=
  w ← get_st; match find_first (fun s => bool_decide (sf_id s = id)) (ow_shifts w) with Some s => mret s | None => http 404 (u "Shift not found") end.
(** [close_shift]: [read] is the table of shifts when the request read it. *)
Definition close_shift (read : list shift) (id user : N) (now : usec) : IDB shift :=
  ops_transaction (
    match find_first (fun s => bool_decide (sf_id s = id)) read with
    | None => http 404 (u "Shift not found")
    | Some s =>
        if negb (is_active s) then http 400 (u "Shift is not active") else
        modify_st (fun w => set_shifts (update_shift id (end_shift now user) (ow_shifts w)) w);;
        log_audit user (u "shift.close") (u "shift") (uuid_str id) (JObj [])
    end);;
  get_shift id.
End incidents.

(** ** Theorems *)

(** *** Display names *)

Section naming.
Context `{DigitTable}.

Lemma digit_not_space c : ascii_digit c = true -> is_space c = false.
Proof. unfold ascii_digit, is_space. intros [Hl Hh]%andb_prop. rewrite !orb_false_iff, !andb_false_iff, !Z.leb_gt, !Z.eqb_neq. lia. Qed.

Lemma digits_uni s : forallb ascii_digit s = true -> forallb (fun c => uni_digit c || superscript c) s = true.
Proof.
  induction s as [|c s IH]; [done|]. cbn [forallb]. intros [Hc Hs]%andb_prop. rewrite IH by done. rewrite digit_ascii, Hc; [done|].
  unfold ascii_digit in Hc. lia.
Qed.

Lemma int_digits_ascii s : forall acc fresh, forallb ascii_digit s = true -> s <> [] \/ fresh = false ->
  int_digits acc fresh s = Some (foldl (fun acc c => acc * 10 + (c - 48))%Z acc s).
Proof.
  induction s as [|c s IH]; intros acc fresh; [by intros _ [?| ->]|]. cbn [forallb int_digits foldl]. intros [Hc Hs]%andb_prop _.
  rewrite digit_ascii by (unfold ascii_digit in Hc; lia). rewrite Hc, decimal_ascii by done. apply IH; [done|by right].
Qed.

Lemma int_of_str_digits n : (0 <= n)%Z -> int_of_str (py_str_int n) = Some n.
Proof.
  intros Hn. pose proof (py_str_int_isdigit n Hn) as Hd. pose proof (py_str_int_roundtrip n Hn) as Hr.
  unfold isdigit_ascii in Hd. apply andb_prop in Hd as [Hne Hd]. apply negb_true_iff, bool_decide_eq_false_1 in Hne.
  assert (Hs : strip (py_str_int n) = py_str_int n).
  { apply strip_id.
    - intros c r E. rewrite E in Hd. cbn in Hd. apply andb_prop in Hd as [Hc _]. by apply digit_not_space.
    - intros r c E. rewrite E, forallb_app in Hd. cbn in Hd. apply andb_prop in Hd as [_ Hc]. rewrite andb_true_r in Hc. by apply digit_not_space. }
  unfold int_of_str. rewrite Hs. destruct (py_str_int n) as [|c s] eqn:E; [done|].
  assert (Hc : ascii_digit c = true) by (cbn in Hd; by apply andb_prop in Hd as [Hc _]).
  assert (Hi : int_digits 0 true (c :: s) = Some n) by (rewrite int_digits_ascii by (done || by left); exact (f_equal Some Hr)).
  unfold ascii_digit in Hc. apply andb_prop in Hc as [Hlo%Z.leb_le Hhi%Z.leb_le]. destruct c as [|q|q]; [lia| |lia].
  do 6 (destruct q as [q|q|]; try exact Hi; try (exfalso; lia)).
Qed.

Lemma highest_ge l : forall low n, highest_suffix low l = Ok n -> (low <= n)%Z /\
  forall d k, d ∈ l -> isdigit (removeprefix DISPLAY_PREFIX d) = true -> int_of_str (removeprefix DISPLAY_PREFIX d) = Some k -> (k <= n)%Z.
Proof.
  induction l as [|x l IH]; intros low n; cbn [highest_suffix].
  - intros [= <-]. split; [lia|]. by intros d k Hd%elem_of_nil.
  - intros (m & Hm & [Hle Hall]%IH)%bind_result_ok. unfold highest_step in Hm. cbv zeta in Hm.
    destruct (isdigit (removeprefix DISPLAY_PREFIX x)) eqn:Hd.
    + destruct (int_of_str (removeprefix DISPLAY_PREFIX x)) as [y|] eqn:Hy; [|discriminate Hm]. apply Ok_inj in Hm as <-. split; [lia|].
      intros d k [->|Hin]%elem_of_cons Hdig Hk; [|by eapply Hall]. rewrite Hy in Hk. injection Hk as <-. lia.
    + apply Ok_inj in Hm as <-. split; [done|]. intros d k [->|Hin]%elem_of_cons Hdig Hk; [congruence|by eapply Hall].
Qed.

(** The number of a display name of the program's own form. *)
Definition numbered (n : Z) (d : pystr) : Prop := (0 <= n)%Z /\ d = DISPLAY_PREFIX ++ py_str_int n.

Lemma next_display_id_above l d : next_display_id l = Ok d ->
  exists n, (1000 < n)%Z /\ numbered n d /\ forall i k, i ∈ l -> numbered k (in_display_id i) -> (k < n)%Z.
Proof.
  unfold next_display_id. intros (n & Hn & E)%bind_result_ok. apply Ok_inj in E as <-. apply highest_ge in Hn as [Hle Hall].
  exists (n + 1)%Z. split; [lia|]. split; [split; [lia|done]|]. intros i k Hi [Hk E].
  enough (k <= n)%Z by lia. apply (Hall (in_display_id i)).
  - apply list_elem_of_filter. split; [rewrite E; apply startswith_app|by apply list_elem_of_fmap_2].
  - rewrite E, removeprefix_app. pose proof (py_str_int_isdigit k Hk) as Hd. unfold isdigit_ascii in Hd. unfold isdigit.
    apply andb_prop in Hd as [-> Hd]. by apply digits_uni.
  - rewrite E, removeprefix_app. by apply int_of_str_digits.
Qed.

Lemma next_display_id_fresh l d : next_display_id l = Ok d -> d ∉ map in_display_id l.
Proof.
  intros (n & _ & Hd & Hall)%next_display_id_above (i & -> & Hi)%list_elem_of_fmap. specialize (Hall i n Hi Hd). lia.
Qed.
End naming.

(** *** Creating and updating *)

Definition recovery_ok (i : incident) : Prop := in_status i = u "recovered" <-> is_Some (in_recovered_at i).

Section creation.
Context `{DigitTable}.
Context {Store : Type} `{ObjectStore Store}.
Context (json_time : usec -> pystr).
Notation W := (ops_world Store).

Lemma ops_transaction_inv {A} (m : IDB A) (w : W) r w' : ops_transaction m w = (r, w') ->
  match r with
  | Ok a => m w = (Ok a, w')
  | Raise e => exists w1, m w = (Raise e, w1) /\
      w' = with_files (mk_eworld [] (ow_evidence w) (ow_intents w) [] [] [] (ow_store w1) (ow_faults w1)) w
  end.
Proof. unfold ops_transaction. destruct (m w) as [[a|e] w1]; intros [= <- <-]; [done|]. by exists w1. Qed.

(** What a failed transaction that asked nothing of the store leaves. *)
Lemma rolled_back (w w1 : W) : ow_store w1 = ow_store w -> ow_faults w1 = ow_faults w ->
  with_files (mk_eworld [] (ow_evidence w) (ow_intents w) [] [] [] (ow_store w1) (ow_faults w1)) w = w.
Proof. intros -> ->. by destruct w. Qed.

Lemma recovery_iff (status : pystr) (recovered_at : option usec) : ~ (Some status = Some (u "recovered") /\ recovered_at = None) ->
  ~ (Some status <> Some (u "recovered") /\ recovered_at <> None) -> (status = u "recovered" <-> is_Some recovered_at).
Proof.
  intros Hn Hs. destruct recovered_at as [t|]; split; intros Hx.
  - by eexists.
  - destruct (decide (status = u "recovered")) as [->|Hne]; [reflexivity|]. exfalso. apply Hs. split; congruence.
  - exfalso. apply Hn. split; congruence.
  - by destruct Hx.
Qed.

Lemma recovery_run {A} status recovered_at (k : IDB A) (w : W) r w' : recovery_error (Some status) recovered_at k w = (r, w') ->
  (w' = w /\ exists d, r = Raise (HttpException 422 d)) \/ ((status = u "recovered" <-> is_Some recovered_at) /\ k w = (r, w')).
Proof.
  unfold recovery_error. case_decide as H1d; [intros [= <- <-]; left; eauto|]. case_decide as H2d; [intros [= <- <-]; left; eauto|].
  intros Hk. right. split; [by apply recovery_iff|done].
Qed.

Lemma insert_run b shift_id user id now (w : W) r w' : insert_incident b shift_id user id now w = (r, w') ->
  match r with
  | Ok row => w' = set_incidents (ow_incidents w ++ [row]) w /\ next_display_id (ow_incidents w) = Ok (in_display_id row) /\
      in_id row = id /\ in_shift row = shift_id /\ in_status row = ic_status b /\ in_recovered_at row = ic_recovered_at b /\ row_fits row = true
  | Raise e => w' = w /\ is_integrity_error e = false
  end.
Proof.
  unfold insert_incident. intros Hr. apply get_st_inv in Hr. apply python_step in Hr as [[-> (x & Hx & ->)]|(d & Hd & Hr)].
  { split; [done|]. cbn [is_integrity_error]. apply bool_decide_eq_false_2. intros Hc.
    unfold next_display_id in Hx. destruct (highest_suffix _ _) as [n|e] eqn:Hh; [discriminate Hx|]. injection Hx as <-.
    assert (Hv : forall l low e, highest_suffix low l = Raise e -> x_class e = ValueError).
    { clear. induction l as [|y l IH]; intros low e; [done|]. cbn [highest_suffix]. unfold highest_step. cbv zeta. destruct (isdigit _).
      - destruct (int_of_str _); [apply IH|]. by intros [= <-].
      - apply IH. }
    rewrite (Hv _ _ _ Hh) in Hc. discriminate Hc. }
  cbv zeta in Hr. apply bind_inv in Hr as [(e & He & ->)|([] & w1 & Hf & [= <- <-])]; unfold flush_incident in *.
  - apply get_st_inv in He. destruct (negb _); [by injection He as <- <-|].
    rewrite bool_decide_eq_false_2 in He by (cbn [in_display_id]; by apply next_display_id_fresh). discriminate He.
  - apply get_st_inv in Hf. destruct (negb _) eqn:Hfit; [discriminate Hf|]. destruct (bool_decide _); [discriminate Hf|]. injection Hf as <-.
    apply negb_false_iff in Hfit. by split_and!.
Qed.

Lemma create_run read b user id now (w : W) r w' : create_incident read b user id now w = (r, w') ->
  match r with
  | Ok row => (exists audit, w' = set_ops_audit audit (set_incidents (ow_incidents w ++ [row]) w)) /\
      next_display_id (ow_incidents w) = Ok (in_display_id row) /\ in_id row = id /\ in_shift row = sf_id <$> active_shift read /\ recovery_ok row
  | Raise e => w' = w /\ is_integrity_error e = false
  end.
Proof.
  unfold create_incident. intros Hr%ops_transaction_inv.
  assert (Hrun : forall r1 w1, (let shift_id := sf_id <$> active_shift read in
    recovery_error (Some (ic_status b)) (ic_recovered_at b) (
      let attempt := insert_incident b shift_id user id now in
      row ← try_except attempt (fun e => if is_integrity_error e then attempt else raise e);
      log_audit user (u "incident.create") (u "incident") (uuid_str id) (JObj [(u "display_id", JStr (in_display_id row))]);;
      mret row)) w = (r1, w1) ->
    match r1 with
    | Ok row => exists w2 audit, insert_incident b (sf_id <$> active_shift read) user id now w = (Ok row, w2) /\ w1 = set_ops_audit audit w2 /\
        (ic_status b = u "recovered" <-> is_Some (ic_recovered_at b))
    | Raise e => w1 = w /\ is_integrity_error e = false
    end).
  { clear r w' Hr. intros r w' Hr. cbv zeta in Hr. apply recovery_run in Hr as [[-> [d ->]]|[Hrec Hr]]; [by split|].
    apply bind_inv in Hr as [(e & He & ->)|(row & w1 & Ha & Hr)].
    - unfold try_except in He. destruct (insert_incident _ _ _ _ _ w) as [[row|x] w1] eqn:E; [discriminate He|]. apply insert_run in E as [-> Hx].
      rewrite Hx in He. by injection He as <- <-.
    - unfold try_except in Ha. destruct (insert_incident _ _ _ _ _ w) as [[row'|x] w2] eqn:E.
      + injection Ha as -> ->. unfold log_audit, modify_st, mbind, M_bind in Hr. injection Hr as <- <-. exists w1. eexists. by split_and!.
      + apply insert_run in E as [-> Hx]. rewrite Hx in Ha. discriminate Ha. }
  destruct r as [row|e].
  - apply Hrun in Hr as (w2 & audit & (-> & Hd & Hid & Hs & Hst & Hrec & _)%insert_run & -> & Hok). split_and!; try done; [by exists audit|].
    unfold recovery_ok. by rewrite Hst, Hrec.
  - destruct Hr as (w1 & [-> He]%Hrun & ->). split; [by apply rolled_back|done].
Qed.

(** A new incident gets a display name whose number is above every number
    in use, on the active shift, with a recovery time exactly if it is
    recovered; a creation that fails changes nothing, and never fails because
    the name is taken: one attempt is enough. *)
Theorem create_incident_outcome read b user id now (w : W) r w' : create_incident read b user id now w = (r, w') ->
  match r with
  | Ok row => ow_incidents w' = ow_incidents w ++ [row] /\ in_id row = id /\ in_shift row = sf_id <$> active_shift read /\ recovery_ok row /\
      exists n, (1000 < n)%Z /\ numbered n (in_display_id row) /\ forall i k, i ∈ ow_incidents w -> numbered k (in_display_id i) -> (k < n)%Z
  | Raise e => w' = w /\ is_integrity_error e = false
  end.
Proof.
  intros Hr%create_run. destruct r as [row|e]; [|done]. destruct Hr as ([audit ->] & Hd & Hid & Hs & Hok).
  split_and!; [done..|by apply next_display_id_above].
Qed.

Lemma with_incident_run {A} id (f : incident -> IDB A) (w : W) :
  with_incident id f w = match incident_of id w with Some i => f i w | None => (Raise (HttpException 404 (JStr (u "Incident not found"))), w) end.
Proof. unfold with_incident, mbind, M_bind, get_st. by destruct (incident_of id w). Qed.

Lemma log_audit_run user action kind id meta (w : W) r w' : log_audit user action kind id meta w = (r, w') ->
  r = Ok tt /\ exists audit, w' = set_ops_audit audit w.
Proof. intros [= <- <-]. split; [done|by eexists]. Qed.

Lemma write_update_run id b user now i (w : W) r w' : write_update id b user now i w = (r, w') ->
  match r with
  | Ok _ => iu_status b <> Some None /\ (w' = w /\ assign_update b user i = i \/
      w' = set_incidents (update_incident_row id (flush_update now i (assign_update b user i)) (ow_incidents w)) w)
  | Raise _ => w' = w
  end.
Proof.
  unfold write_update. destruct (_ || _) eqn:Hnull; [by intros [= <- <-]|]. apply orb_false_iff in Hnull as [_ Hs%bool_decide_eq_false_1].
  case_decide as E; [intros [= <- <-]; split; [done|by left]|]. intros Hr%get_st_inv. destruct (incident_of id w); injection Hr as <- <-; [|done].
  split; [done|by right].
Qed.

(** The incident after an update. *)
Lemma update_run read id b user now (w : W) r w' : update_incident json_time read id b user now w = (r, w') ->
  exists audit, w' = set_ops_audit audit w \/
    exists i, incident_in id read = Some i /\ recovery_ok (assign_update b user i) /\
      w' = set_ops_audit audit (set_incidents (update_incident_row id (flush_update now i (assign_update b user i)) (ow_incidents w)) w).
Proof.
  assert (Hself : w = set_ops_audit (ow_audit w) w) by (by destruct w).
  assert (Hrefresh : forall r1 (w1 w2 : W), refreshed_incident id w1 = (r1, w2) -> w2 = w1).
  { intros r1 w1 w2. unfold refreshed_incident. intros Hx%get_st_inv. by destruct (incident_of id w1); injection Hx as _ <-. }
  unfold update_incident. match goal with |- (ops_transaction ?handler ≫= _) w = _ -> _ => set (m := handler) end.
  assert (Hm : forall r1 w1, m w = (r1, w1) -> match r1 with
    | Ok _ => exists audit, w1 = set_ops_audit audit w \/
        exists i, incident_in id read = Some i /\ recovery_ok (assign_update b user i) /\
          w1 = set_ops_audit audit (set_incidents (update_incident_row id (flush_update now i (assign_update b user i)) (ow_incidents w)) w)
    | Raise _ => ow_store w1 = ow_store w /\ ow_faults w1 = ow_faults w end).
  { intros r1 w1. unfold m. destruct (incident_in id read) as [i|]; [|by intros [= <- <-]]. cbv zeta.
    unfold recovery_error. case_decide as H1d; [by intros [= <- <-]|]. case_decide as H2d; [by intros [= <- <-]|].
    intros [(e & ->%write_update_run & ->)|([] & w2 & [Hs Hw]%write_update_run & [-> [audit ->]]%log_audit_run)]%bind_inv; [done|]. exists audit.
    destruct Hw as [[-> _]| ->]; [by left|right]. exists i. split; [done|]. split; [|reflexivity]. unfold recovery_ok, assign_update. cbn [in_status in_recovered_at].
    destruct (iu_status b) as [[s|]|]; [|done|]; cbn [mjoin option_join default] in *; destruct (iu_recovered_at b) as [t|]; cbn [default];
      by apply recovery_iff. }
  intros [(e & He%ops_transaction_inv & _)|([] & w1 & Hw%ops_transaction_inv & ->%Hrefresh)]%bind_inv; [|exact (Hm _ _ Hw)].
  destruct He as (w1 & [Hs Hf]%Hm & ->). exists (ow_audit w). left. rewrite <- Hself. by apply rolled_back.
Qed.
End creation.

(** *** Deleting *)

(** What a purge request makes of a row. *)
Definition pend (now : usec) (e : evidence) : evidence :=
  if decide (e_state e = PURGED) then e else set_state PURGE_PENDING (Some (default now (e_deleted_at e))) e.
Definition pend_rows (now : usec) (ids : list N) (l : list (N * evidence)) : list (N * evidence) :=
  map (fun x => if decide (fst x ∈ ids) then (fst x, pend now (snd x)) else x) l.

Lemma pend_facts now e : e_state (pend now e) <> ACTIVE /\ plan_of (pend now e) = plan_of e /\ e_incident (pend now e) = e_incident e.
Proof. unfold pend. case_decide as Hs; [by rewrite Hs|done]. Qed.

Section deletion.
Context `{DigitTable}.
Context {Store : Type} `{ObjectStore Store}.
Notation W := (ops_world Store).

Lemma request_step now i e (w : W) r w' : (i, e) ∈ ow_evidence w -> NoDup (map fst (ow_evidence w)) ->
  on_files (request_purge now i e) w = (r, w') ->
  match r with
  | Ok plan => plan = plan_of e /\ w' = set_ops_evidence (pend_rows now [i] (ow_evidence w)) w /\ (e_state e = PURGED \/ references_for (files w) i = [])
  | Raise x => w' = w /\ exists refs, x = EvidenceReferenced refs
  end.
Proof.
  intros Hin Hnd. unfold on_files, request_purge, pend_rows. case_decide as Hp.
  - intros [= <- <-]. split; [done|]. split; [|by left]. destruct w. unfold with_files, set_ops_evidence, files. cbn. f_equal. symmetry.
    cbn in *. rewrite <- (map_id ow_evidence0) at 2. apply map_ext_in. intros [k x] Hx%list_elem_of_In. cbn [fst snd]. case_decide as Hk; [|done].
    apply list_elem_of_singleton in Hk as ->. rewrite (id_unique _ _ _ _ Hnd Hx Hin). unfold pend. by rewrite decide_True.
  - unfold mbind, M_bind, get_st, modify_st. cbv beta iota zeta. case_decide as Hr; [intros [= <- <-]; split; [by destruct w|by eexists]|].
    intros [= <- <-]. split; [done|]. split; [|right; exact Hr]. destruct w. unfold with_files, set_ops_evidence, files. cbn. f_equal.
    cbn in *. unfold update_row. apply map_ext_in. intros [k x] Hx%list_elem_of_In. cbn [fst snd].
    case_decide as Hk; [subst k|by rewrite decide_False by (by intros ->%list_elem_of_singleton)].
    rewrite decide_True by (by apply list_elem_of_singleton). rewrite (id_unique _ _ _ _ Hnd Hx Hin). unfold pend. rewrite decide_False by done.
    by destruct (e_deleted_at e).
Qed.

Lemma pend_rows_ids now ids l : map fst (pend_rows now ids l) = map fst l.
Proof. unfold pend_rows. rewrite map_map. apply map_ext. intros [k e]. by case_decide. Qed.
Lemma pend_rows_app now i ids l : i ∉ ids -> pend_rows now ids (pend_rows now [i] l) = pend_rows now (i :: ids) l.
Proof.
  intros Hi. unfold pend_rows. rewrite map_map. apply map_ext. intros [k e]. cbn [fst snd].
  destruct (decide (k ∈ [i])) as [->%list_elem_of_singleton|Hk]; cbn [fst snd].
  - rewrite (decide_False (P := i ∈ ids)) by done. by rewrite decide_True by set_solver.
  - case_decide; [by rewrite decide_True by set_solver|by rewrite decide_False by set_solver].
Qed.
Lemma pend_rows_nil now l : pend_rows now [] l = l.
Proof. unfold pend_rows. rewrite <- (map_id l) at 2. apply map_ext. intros [k e]. cbn [fst]. by rewrite decide_False by set_solver. Qed.

Lemma purges_run now l : forall (w : W) r w', (forall x, x ∈ l -> x ∈ ow_evidence w) -> NoDup (map fst l) -> NoDup (map fst (ow_evidence w)) ->
  request_purges now l w = (r, w') ->
  match r with
  | Ok plans => plans = map (fun x => (fst x, plan_of (snd x))) l /\ w' = set_ops_evidence (pend_rows now (map fst l) (ow_evidence w)) w /\
      (forall x, x ∈ l -> e_state (snd x) = PURGED \/ references_for (files w) (fst x) = [])
  | Raise x => ow_store w' = ow_store w /\ ow_faults w' = ow_faults w /\ exists refs, x = EvidenceReferenced refs
  end.
Proof.
  induction l as [|[i e] l IH]; intros w r w' Hin Hl Hnd; cbn [request_purges map fst].
  - intros [= <- <-]. rewrite pend_rows_nil. split; [done|]. split; [by destruct w|]. by intros x Hx%elem_of_nil.
  - apply NoDup_cons in Hl as [Hi Hl]. intros [(x & Hx & ->)|(plan & w1 & Hs & Hr)]%bind_inv.
    + apply request_step in Hx as [-> Hx]; [by split_and!|by apply Hin; left|done].
    + apply request_step in Hs as (-> & -> & He); [|by apply Hin; left|done].
      assert (Hin1 : forall x, x ∈ l -> x ∈ pend_rows now [i] (ow_evidence w)).
      { intros [k x] Hx. unfold pend_rows. apply list_elem_of_fmap. exists (k, x). split; [|by apply Hin; right]. cbn [fst].
        rewrite decide_False; [done|]. intros ->%list_elem_of_singleton. apply Hi. by apply (list_elem_of_fmap_2 fst) in Hx. }
      apply bind_inv in Hr as [(x & Hx & ->)|(plans & w2 & Hs & [= <- <-])].
      * apply IH in Hx; [exact Hx|exact Hin1|done|by cbn; rewrite pend_rows_ids].
      * apply IH in Hs as (-> & -> & Hrest); [|exact Hin1|done|by cbn; rewrite pend_rows_ids].
        split; [done|]. split; [destruct w; unfold set_ops_evidence; cbn; f_equal; by apply pend_rows_app|].
        intros x [->|Hx]%elem_of_cons; [done|]. exact (Hrest x Hx).
Qed.

(** After the commit. *)
Definition purge_row (ids : list N) (x y : N * evidence) : Prop :=
  fst y = fst x /\ (snd y = snd x \/ fst x ∈ ids /\ snd y = set_state PURGED (e_deleted_at (snd x)) (snd x)).
Definition purged_from (plans : list (N * purge_plan)) (w w' : W) : Prop := exists ev st fl,
  w' = with_files (mk_eworld [] ev (ow_intents w) [] [] [] st fl) w /\ Forall2 (purge_row (map fst plans)) (ow_evidence w) ev /\
  forall b k, (forall i v, (i, (b, k, v)) ∉ plans) -> stored st b k = stored (ow_store w) b k.

Lemma purge_row_refl ids l : Forall2 (purge_row ids) l l.
Proof. induction l; constructor; [by split; [|left]|done]. Qed.
Lemma purge_rows_trans ids l1 l2 l3 : Forall2 (purge_row ids) l1 l2 -> Forall2 (purge_row ids) l2 l3 -> Forall2 (purge_row ids) l1 l3.
Proof.
  intros H12. revert l3. induction H12 as [|x y l l' [Hk Hy] _ IH]; intros l3 H23; inversion H23 as [|? z ? l3' [Hk' Hz] Hrest]; subst; constructor; [|by apply IH].
  split; [congruence|]. destruct Hz as [->|[Hin ->]]; [done|]. right. split; [congruence|]. by destruct Hy as [->|[_ ->]].
Qed.
Lemma purge_row_mono ids ids' l l' : ids ⊆ ids' -> Forall2 (purge_row ids) l l' -> Forall2 (purge_row ids') l l'.
Proof. intros Hsub Hl. eapply Forall2_impl; [exact Hl|]. intros x y [Hk [Hy|[Hin Hy]]]; (split; [done|]); [by left|right; split; [by apply Hsub|done]]. Qed.

Lemma purge_step i plan (w : W) r w' : on_files (purge_storage plan) w = (r, w') -> purged_from [(i, plan)] w w'.
Proof.
  destruct plan as [[b k] v]. unfold on_files, purge_storage, try_except.
  destruct (storage_call_cases (delete_object b k v) (files w)) as (fl & o & Hs & Ho & _).
  assert (Hframe : forall b' k', (forall j v', (j, (b', k', v')) ∉ [(i, (b, k, v))]) -> stored o b' k' = stored (ow_store w) b' k').
  { intros b' k' Hn. destruct Ho as [->| ->]; [|done]. apply delete_other. intros [= -> ->]. by apply (Hn i v), list_elem_of_singleton. }
  assert (Hres : forall (e : eworld Store), e = set_store o (set_faults fl (files w)) -> purged_from [(i, (b, k, v))] w (with_files e w)).
  { intros e ->. exists (ow_evidence w), o, fl. split; [done|]. split; [apply purge_row_refl|exact Hframe]. }
  destruct (storage_call _ (files w)) as [[[]|x] e]; cbn [snd] in Hs; [intros [= _ <-]; by apply Hres|].
  destruct x as [status detail|refs|code|]; try (intros [= _ <-]; by apply Hres). case_decide; intros [= _ <-]; by apply Hres.
Qed.

Lemma mark_step i plan (w : W) r w' : on_files (mark_purged i) w = (r, w') -> purged_from [(i, plan)] w w'.
Proof.
  unfold on_files, mark_purged, modify_st. intros [= _ <-]. eexists _, (ow_store w), (ow_faults w). split; [reflexivity|]. split; [|done].
  cbn [files ew_evidence set_evidence]. unfold update_row. induction (ow_evidence w) as [|[k e] l IH]; cbn [map]; constructor; [|exact IH].
  case_decide as Hk; split; cbn [fst snd]; [done| |done|by left]. right. split; [by subst; left|done].
Qed.

Lemma purged_trans p1 p2 p (w1 w2 w3 : W) : p1 ⊆ p -> p2 ⊆ p -> purged_from p1 w1 w2 -> purged_from p2 w2 w3 -> purged_from p w1 w3.
Proof.
  intros Hp1 Hp2 (ev & st & fl & -> & Hev & Hst) (ev' & st' & fl' & -> & Hev' & Hst'). exists ev', st', fl'. split; [done|].
  assert (Hsub : forall q : list (N * purge_plan), q ⊆ p -> map fst q ⊆ map fst p).
  { intros q Hq x (y & -> & Hy)%list_elem_of_fmap. apply list_elem_of_fmap_2. by apply Hq. }
  split.
  - apply (purge_rows_trans _ _ ev); eapply purge_row_mono; [apply Hsub, Hp1|exact Hev|apply Hsub, Hp2|exact Hev'].
  - intros b k Hn. rewrite Hst' by (intros i v Hi; by apply (Hn i v), Hp2). apply Hst. intros i v Hi. by apply (Hn i v), Hp1.
Qed.

Lemma purge_all_run plans : forall (w : W) r w', purge_all plans w = (r, w') -> purged_from plans w w'.
Proof.
  induction plans as [|[i plan] plans IH]; intros w r w'; cbn [purge_all].
  - intros [= _ <-]. exists (ow_evidence w), (ow_store w), (ow_faults w). split; [by destruct w|]. split; [apply purge_row_refl|done].
  - assert (Hone : forall w r w', (fun w : W => match on_files (purge_storage plan) w with
        | (Ok _, w') => on_files (mark_purged i) w' | (Raise _, w') => (Ok tt, w') end) w = (r, w') -> purged_from [(i, plan)] w w').
    { clear w r w'. intros w r w'. destruct (on_files (purge_storage plan) w) as [[[]|e] w1] eqn:E; apply (purge_step i) in E.
      - intros Hm%(mark_step i plan). by eapply purged_trans.
      - by intros [= _ <-]. }
    intros [(e & He%Hone & _)|([] & w1 & Hs%Hone & Hr%IH)]%bind_inv.
    + destruct He as (ev & st & fl & -> & Hev & Hst). exists ev, st, fl. split; [done|]. split.
      * eapply purge_row_mono; [|exact Hev]. cbn [map fst]. set_solver.
      * intros b k Hn. apply Hst. intros j v Hj. apply (Hn j v). set_solver.
    + eapply purged_trans; [| |exact Hs|exact Hr]; set_solver.
Qed.

(** What is left of an incident that was deleted. *)
Record deleted (id : N) (w w' : W) : Prop := {
  dl_known : exists i, incident_of id w = Some i;
  dl_incidents : ow_incidents w' = List.filter (fun i => negb (bool_decide (in_id i = id))) (ow_incidents w);
  dl_runs : ow_runs w' = List.filter (fun r => negb (bool_decide (ri_incident (ar_input r) = id))) (ow_runs w);
  dl_intents : ow_intents w' = List.filter (fun x => negb (bool_decide (i_incident (snd x) = id))) (ow_intents w);
  dl_jobs : st_jobs (ow_jobs w') = filter (fun x => j_incident_id (snd x) <> Some id) (st_jobs (ow_jobs w));
  dl_outbox : st_outbox (ow_jobs w') = List.filter (fun x => negb (bool_decide (oe_job_id (snd x) ∈ map fst (jobs_of_incident id w)))) (st_outbox (ow_jobs w));
  dl_prefills : ow_prefills w' = map (release_prefill id) (ow_prefills w);
  dl_ocr : ow_ocr w' = List.filter (fun e => negb (bool_decide (e ∈ map fst (evidence_of_incident id w)))) (ow_ocr w);
  dl_snapshots : ow_snapshots w' = ow_snapshots w;
  dl_run_jobs : runs_have_jobs w' = true;
  dl_shifts : ow_shifts w' = ow_shifts w;
  dl_tombstones : Forall2 (fun x y => fst y = fst x /\ plan_of (snd y) = plan_of (snd x) /\
    if decide (e_incident (snd x) = Some id) then e_incident (snd y) = None /\ e_state (snd y) <> ACTIVE else y = x) (ow_evidence w) (ow_evidence w');
  dl_unreferenced : forall x, x ∈ ow_evidence w -> e_incident (snd x) = Some id -> e_state (snd x) = PURGED \/ references_for (files w) (fst x) = [];
  dl_objects : forall b k, (forall x, x ∈ ow_evidence w -> e_incident (snd x) = Some id -> (e_bucket (snd x), e_key (snd x)) <> (b, k)) ->
    stored (ow_store w') b k = stored (ow_store w) b k;
}.
End deletion.

Section deleting.
Context `{DigitTable}.
Context {Store : Type} `{ObjectStore Store}.
Notation W := (ops_world Store).

Lemma mine_in id (w : W) x : x ∈ evidence_of_incident id w <-> x ∈ ow_evidence w /\ e_incident (snd x) = Some id.
Proof. unfold evidence_of_incident. rewrite list_elem_of_filter. tauto. Qed.
Lemma mine_nodup id (w : W) : NoDup (map fst (ow_evidence w)) -> NoDup (map fst (evidence_of_incident id w)).
Proof. intros Hn. eapply sublist_NoDup; [exact Hn|]. apply (fmap_sublist fst), sublist_filter. Qed.

(** The incident's rows are those under its ids. *)
Lemma mine_id id (w : W) k e : NoDup (map fst (ow_evidence w)) -> (k, e) ∈ ow_evidence w ->
  k ∈ map fst (evidence_of_incident id w) <-> e_incident e = Some id.
Proof.
  intros Hnd Hin. split.
  - intros ([k' e'] & -> & [Hin' Hi]%mine_in)%list_elem_of_fmap. cbn [fst snd] in *. by rewrite (id_unique _ _ _ _ Hnd Hin Hin').
  - intros Hi. apply (list_elem_of_fmap_2 fst (evidence_of_incident id w) (k, e)). by apply mine_in.
Qed.

(** The tables at the commit of a deletion. *)
Lemma delete_rows_run id user now (w : W) r w' : NoDup (map fst (ow_evidence w)) -> delete_rows id user now w = (r, w') ->
  match r with
  | Ok plans => plans = map (fun x => (fst x, plan_of (snd x))) (evidence_of_incident id w) /\ is_Some (incident_of id w) /\
      runs_have_jobs w' = true /\
      (forall x, x ∈ evidence_of_incident id w -> e_state (snd x) = PURGED \/ references_for (files w) (fst x) = []) /\
      exists audit, let ids := map fst (evidence_of_incident id w) in
      w' = set_ops_audit audit (erase_incident id ids (set_ops_evidence (pend_rows now ids (ow_evidence w)) w))
  | Raise _ => w' = w
  end.
Proof.
  intros Hnd Hr%ops_transaction_inv.
  assert (Hrun : forall r1 w1, with_incident id (fun _ =>
      w ← get_st;
      let records := evidence_of_incident id w in
      plans ← purge_requests now records;
      modify_st (erase_incident id (map fst records));;
      log_audit user (u "incident.delete") (u "incident") (uuid_str id) (JObj []);;
      w ← get_st;
      if runs_have_jobs w then mret plans else raise (Uncaught (integrity_error (u "analysis_runs_job_id_fkey")))) w = (r1, w1) ->
    ow_store w1 = ow_store w /\ ow_faults w1 = ow_faults w /\
    match r1 with
    | Ok plans => plans = map (fun x => (fst x, plan_of (snd x))) (evidence_of_incident id w) /\ is_Some (incident_of id w) /\
        runs_have_jobs w1 = true /\
        (forall x, x ∈ evidence_of_incident id w -> e_state (snd x) = PURGED \/ references_for (files w) (fst x) = []) /\
        exists audit, let ids := map fst (evidence_of_incident id w) in
        w1 = set_ops_audit audit (erase_incident id ids (set_ops_evidence (pend_rows now ids (ow_evidence w)) w))
    | Raise _ => True
    end).
  { clear r w' Hr. intros r w' Hr. rewrite with_incident_run in Hr. destruct (incident_of id w) as [i|]; [|by injection Hr as <- <-].
    apply get_st_inv in Hr. cbv zeta in Hr. unfold purge_requests, mbind at 1, M_bind at 1 in Hr.
    destruct (request_purges now (evidence_of_incident id w) w) as [[plans|x] w1] eqn:E;
      apply purges_run in E; try (by intros x' [? _]%mine_in); try (by apply mine_nodup); try done.
    - destruct E as (-> & -> & Href). unfold log_audit, modify_st, get_st, mbind, M_bind in Hr. destruct (runs_have_jobs _) eqn:Hj.
      + injection Hr as <- <-. split; [done|]. split; [done|]. split; [done|]. split; [by eexists|]. split; [exact Hj|]. split; [done|]. by eexists.
      + by injection Hr as <- <-.
    - injection Hr as <- <-. by destruct E as (? & ? & _). }
  destruct r as [plans|e].
  - by apply Hrun in Hr as (_ & _ & Hr).
  - destruct Hr as (w1 & (Hs & Hf & _)%Hrun & ->). by apply rolled_back.
Qed.

Lemma tombstone_row id ids now k e y : (k ∈ ids <-> e_incident e = Some id) ->
  purge_row ids (let x := if decide (k ∈ ids) then (k, pend now e) else (k, e) in
    if decide (e_incident (snd x) = Some id) then (fst x, detach_incident (snd x)) else x) y ->
  fst y = k /\ plan_of (snd y) = plan_of e /\
  if decide (e_incident e = Some id) then e_incident (snd y) = None /\ e_state (snd y) <> ACTIVE else y = (k, e).
Proof.
  intros Hid. destruct (pend_facts now e) as (Hs & Hp & Hi). cbv zeta. destruct (decide (e_incident e = Some id)) as [He|He].
  - rewrite (decide_True (P := k ∈ ids)) by (by apply Hid). cbn [fst snd]. rewrite decide_True by (by rewrite Hi). intros [Hk Hy]. cbn [fst snd] in *.
    split; [done|]. destruct Hy as [->|[_ ->]]; by split.
  - assert (Hk : k ∉ ids) by (by rewrite Hid). rewrite (decide_False (P := k ∈ ids)) by done. cbn [fst snd]. rewrite decide_False by done.
    destruct y as [k' e']. intros [Hk' Hy]. cbn [fst snd] in *. subst k'. destruct Hy as [->|[Hin _]]; [by split_and!|by destruct Hk].
Qed.

Lemma tombstones id ids now l : forall l', (forall k e, (k, e) ∈ l -> k ∈ ids <-> e_incident e = Some id) ->
  Forall2 (purge_row ids) (map (fun x => if decide (e_incident (snd x) = Some id) then (fst x, detach_incident (snd x)) else x) (pend_rows now ids l)) l' ->
  Forall2 (fun x y => fst y = fst x /\ plan_of (snd y) = plan_of (snd x) /\
    if decide (e_incident (snd x) = Some id) then e_incident (snd y) = None /\ e_state (snd y) <> ACTIVE else y = x) l l'.
Proof.
  induction l as [|[k e] l IH]; cbn [pend_rows map]; intros l' Hid Hl; inversion Hl as [|x y ? ? Hxy Hrest]; subst; constructor.
  - apply (tombstone_row id ids now); [apply Hid; left|exact Hxy].
  - apply IH; [intros k' e' Hin; apply Hid; by right|exact Hrest].
Qed.

Lemma delete_run id user now (w : W) r w' : NoDup (map fst (ow_evidence w)) -> delete_incident id user now w = (r, w') ->
  match r with Ok _ => deleted id w w' | Raise _ => w' = w end.
Proof.
  intros Hnd. unfold delete_incident. intros [(e & He%delete_rows_run & ->)|(plans & w1 & Hs & Hr)]%bind_inv; [done|done|].
  apply delete_rows_run in Hs as (-> & [i Hi] & Hj & Href & audit & ->); [|done].
  destruct (purge_all _ _) as [r1 w2] eqn:E. injection Hr as <- <-. apply purge_all_run in E as (ev & st & fl & -> & Hev & Hst).
  rewrite map_map in Hev. split; try done.
  - by exists i.
  - apply (tombstones id (map fst (evidence_of_incident id w)) now); [|exact Hev]. intros k e Hin. by apply mine_id.
  - intros x Hx He. apply Href. by apply mine_in.
  - intros b k Hn. apply Hst. intros j v (x & [= -> Hb Hk _] & [Hx He]%mine_in)%list_elem_of_fmap. apply (Hn x Hx He). by rewrite <- Hb, <- Hk.
Qed.
End deleting.

(** *** Reading *)

(** What [_attach_derived] promises for one incident: the status of the last
    of its current runs that has a job. *)
Definition current_statuses {Store} (id : N) (w : ops_world Store) : list job_status :=
  omap (fun r => if decide (ri_incident (ar_input r) = id /\ ar_current r = true) then j_status <$> st_jobs (ow_jobs w) !! ri_job (ar_input r) else None)
    (ow_runs w).
Definition derived_view {Store} (w : ops_world Store) (i : incident) : incident_view :=
  mk_view i (has_active_log w (in_id i)) (default (u "not_analyzed") (analysis_status_of <$> last (current_statuses (in_id i) w))).

Section reading.
Context {Store : Type}.
Notation W := (ops_world Store).

Lemma status_lookup rows id : status_by_incident rows !! id = (fun row => analysis_status_of (snd row)) <$> last (filter (fun row => fst row = id) rows).
Proof.
  induction rows as [|[k s] rows IH] using rev_ind; [apply lookup_empty|]. unfold status_by_incident in *. rewrite foldl_app. cbn [foldl fst snd].
  rewrite filter_app. destruct (decide (k = id)) as [->|Hne].
  - rewrite lookup_insert, decide_True by done. rewrite filter_cons_True by done. by rewrite filter_nil, last_snoc.
  - rewrite lookup_insert_ne, IH by done. rewrite filter_cons_False by done. by rewrite filter_nil, app_nil_r.
Qed.

Lemma rows_of ids id (w : W) : id ∈ ids -> map snd (filter (fun row => fst row = id) (status_rows ids w)) = current_statuses id w.
Proof.
  intros Hid. unfold status_rows, current_statuses. induction (ow_runs w) as [|r l IH]; [done|]. cbn [omap list_omap].
  destruct (decide (ri_incident (ar_input r) ∈ ids /\ ar_current r = true)) as [Hin|Hin].
  - rewrite filter_cons_True by done. cbn [omap list_omap]. unfold mbind, option_bind. destruct (st_jobs (ow_jobs w) !! ri_job (ar_input r)) as [j|]; cbn [fmap option_fmap option_map].
    + destruct (decide (ri_incident (ar_input r) = id)) as [<-|Hne].
      * rewrite filter_cons_True by done. rewrite decide_True by tauto. cbn [map snd]. f_equal. exact IH.
      * rewrite filter_cons_False by done. rewrite decide_False by tauto. exact IH.
    + case_decide; exact IH.
  - rewrite filter_cons_False by done. rewrite decide_False; [exact IH|]. intros [<- Hc]. by destruct Hin.
Qed.

Lemma log_of ids id (w : W) : id ∈ ids -> bool_decide (id ∈ log_incidents ids w) = has_active_log w id.
Proof.
  intros Hid. apply Bool.eq_true_iff_eq. unfold log_incidents, has_active_log. rewrite bool_decide_eq_true, list_elem_of_omap, existsb_exists. split.
  - intros ([k e] & Hin%list_elem_of_In & He). apply filter_In in Hin as [Hin [Hl _]%andb_prop]. exists (k, e). split; [done|]. cbn [snd] in *.
    by rewrite Hl, bool_decide_eq_true_2.
  - intros ([k e] & Hin & [Hl He%bool_decide_eq_true]%andb_prop). cbn [snd] in *. exists (k, e). split; [|done]. apply list_elem_of_In, filter_In.
    split; [done|]. cbn [snd]. rewrite Hl, He. by apply bool_decide_eq_true.
Qed.

(** The two queries for all the incidents of a page give each of them the
    log flag and the analysis status a query per incident would. *)
Theorem attach_derived_per_incident (w : W) l : attach_derived w l = map (derived_view w) l.
Proof.
  unfold attach_derived. destruct l as [|i0 l0]; [done|]. cbv zeta. change (map in_id (i0 :: l0)) with (in_id i0 :: map in_id l0) at 1. cbv iota.
  apply map_ext_in. intros i Hi%list_elem_of_In. pose proof (list_elem_of_fmap_2 in_id _ _ Hi) as Hid. change (in_id <$> (i0 :: l0)) with (map in_id (i0 :: l0)) in Hid.
  unfold derived_view. f_equal; [by apply log_of|]. rewrite status_lookup, <- (rows_of _ _ w Hid).
  change (map snd ?x) with (snd <$> x). rewrite fmap_last. by destruct (last _).
Qed.
End reading.

Section timeline.
Context {Store : Type}.
Notation W := (ops_world Store).

(** A timeline is in order of time, and reading it changes nothing. *)
Lemma timeline_sorted id (w : W) r w' : get_incident_timeline id w = (r, w') ->
  w' = w /\ forall events, r = Ok events -> StronglySorted (fun x y => (te_at x <=? te_at y)%Z = true) events.
Proof.
  unfold get_incident_timeline, with_incident. intros Hr%get_st_inv. destruct (incident_of id w) as [i|]; [|by injection Hr as <- <-].
  repeat (first [apply get_st_inv in Hr | progress cbv zeta in Hr | apply python_step in Hr as [[-> (x & _ & ->)]|(a & _ & Hr)]; [done|]]).
  apply pair_equal_spec in Hr as [<- <-]. split; [done|]. intros events Hev%Ok_inj. subst events. apply (py_sorted_Sorted (fun x y => (te_at x <=? te_at y)%Z)).
  - intros x y. rewrite !Z.leb_le. lia.
  - intros x y z. rewrite !Z.leb_le. lia.
Qed.
End timeline.

(** *** Attaching a prefill, shifts *)

Section others.
Context `{DigitTable}.
Context {Store : Type} `{ObjectStore Store}.
Notation W := (ops_world Store).

Lemma head_run b k (w : W) r w' : (fun w => match on_files (head_object b k) w with
    | (Ok v, w') => (Ok v, w')
    | (Raise _, w') => (Raise (HttpException 409 (JStr (u "Prefill screenshot is no longer available"))), w') end : result api_exn obj_version * W) w = (r, w') ->
  (exists fl, w' = with_files (mk_eworld [] (ow_evidence w) (ow_intents w) [] [] [] (ow_store w) fl) w) /\
  forall v, r = Ok v -> v ∈ stored (ow_store w) b k.
Proof.
  unfold on_files. destruct (head_object_spec b k (files w)) as (fl & Hs & Hv). destruct (head_object b k (files w)) as [[v|e] w1]; cbn [fst snd] in *;
    subst w1; intros [= <- <-]; (split; [by exists fl|]); [|done]. intros v' [= <-]. by apply Hv.
Qed.

(** What attaching a prefill does to the tables. *)
Lemma attach_run prefill_id incident_id user evidence_id now (w : W) r w' :
  attach_prefill_to_incident prefill_id incident_id user evidence_id now w = (r, w') ->
  exists fl, let w0 := with_files (mk_eworld [] (ow_evidence w) (ow_intents w) [] [] [] (ow_store w) fl) w in
  match r with
  | Ok (k, e) => e_incident e = Some incident_id /\ is_Some (incident_of incident_id w) /\
      (w' = w /\ (k, e) ∈ ow_evidence w \/
       exists p audit v, p ∈ ow_prefills w /\ pf_id p = prefill_id /\ (pf_incident p = None \/ pf_incident p = Some incident_id) /\
         v ∈ stored (ow_store w) (pf_bucket p) (pf_key p) /\ k = evidence_id /\ e_state e = ACTIVE /\ plan_of e = (pf_bucket p, pf_key p, v_id v) /\
         w' = set_ops_audit audit (set_prefills (update_prefill prefill_id incident_id (ow_prefills w))
                (set_ops_evidence (ow_evidence w ++ [(evidence_id, e)]) w0)))
  | Raise _ => w' = w0
  end.
Proof.
  assert (Hself : with_files (mk_eworld [] (ow_evidence w) (ow_intents w) [] [] [] (ow_store w) (ow_faults w)) w = w) by (by destruct w).
  unfold attach_prefill_to_incident. match goal with |- ops_transaction ?handler w = _ -> _ => set (m := handler) end. intros Hr%ops_transaction_inv.
  assert (Hm : forall r1 w1, m w = (r1, w1) -> exists fl, let w0 := with_files (mk_eworld [] (ow_evidence w) (ow_intents w) [] [] [] (ow_store w) fl) w in
    match r1 with
    | Ok (k, e) => e_incident e = Some incident_id /\ is_Some (incident_of incident_id w) /\
      (w1 = w /\ (k, e) ∈ ow_evidence w \/
       exists p audit v, p ∈ ow_prefills w /\ pf_id p = prefill_id /\ (pf_incident p = None \/ pf_incident p = Some incident_id) /\
         v ∈ stored (ow_store w) (pf_bucket p) (pf_key p) /\ k = evidence_id /\ e_state e = ACTIVE /\ plan_of e = (pf_bucket p, pf_key p, v_id v) /\
         w1 = set_ops_audit audit (set_prefills (update_prefill prefill_id incident_id (ow_prefills w))
                (set_ops_evidence (ow_evidence w ++ [(evidence_id, e)]) w0)))
    | Raise _ => ow_store w1 = ow_store w /\ ow_faults w1 = fl
    end).
  { clear r w' Hr. intros r w' Hr. unfold m in Hr. apply get_st_inv in Hr.
    destruct (find_first _ (ow_prefills w)) as [p|] eqn:Hp; [|by injection Hr as <- <-; exists (ow_faults w)].
    apply find_first_Some in Hp as [Hp Hid%bool_decide_eq_true]. rewrite with_incident_run in Hr.
    destruct (incident_of incident_id w) as [i|] eqn:Hi; [|by injection Hr as <- <-; exists (ow_faults w)].
    case_decide as Hfail; [by injection Hr as <- <-; exists (ow_faults w)|]. case_decide as Htaken; [by injection Hr as <- <-; exists (ow_faults w)|].
    destruct (find_first _ (ow_evidence w)) as [[k e]|] eqn:He.
    { apply find_first_Some in He as [He [Hinc _]%bool_decide_eq_true]. injection Hr as <- <-. exists (ow_faults w). split; [exact Hinc|]. split; [by eexists|].
      left. by split. }
    apply bind_inv in Hr as [(x & [[fl ->] _]%head_run & ->)|(v & w1 & [[fl ->] Hv]%head_run & Hr)]; exists fl; [done|].
    unfold modify_st, log_audit, mbind, M_bind in Hr. destruct (corrections _ _) as [made|x]; cbn [python] in Hr.
    - injection Hr as <- <-. split; [done|]. split; [by eexists|]. right. exists p. do 2 eexists. split; [exact Hp|]. split; [exact Hid|].
      split; [|split; [by apply Hv|by split_and!]]. destruct (pf_incident p) as [j|]; [right|by left]. f_equal.
      destruct (decide (Some j = Some incident_id)) as [E|Hne]; [congruence|]. exfalso. by apply Htaken.
    - by injection Hr as <- <-. }
  destruct r as [[k e]|x]; [exact (Hm _ _ Hr)|]. destruct Hr as (w1 & (fl & Hs & <-)%Hm & ->). exists (ow_faults w1). cbv zeta. by rewrite Hs.
Qed.

(** Shifts. *)
Lemma ended_active now user id l : length (List.filter is_active (update_shift id (end_shift now user) l)) <= length (List.filter is_active l).
Proof.
  induction l as [|s l IH]; [done|]. cbn [update_shift map List.filter]. case_decide as Hs.
  - change (is_active (end_shift now user s)) with false. cbn iota. unfold update_shift in IH. destruct (is_active s); cbn [length]; lia.
  - destruct (is_active s); cbn [length]; unfold update_shift in IH; lia.
Qed.

Context (collate : pystr -> pystr -> bool).

(** Opening a shift leaves the tables as they were or ends the shift that was
    read as active and adds an active one. *)
Lemma open_run read wanted user id now (w : W) r w' : open_shift collate read wanted user id now w = (r, w') ->
  match r with
  | Ok row => sf_id row = id /\ is_active row = true /\ one_active (ow_shifts w') = true /\
      ow_shifts w' = match active_shift read with Some s => update_shift (sf_id s) (end_shift now user) (ow_shifts w) | None => ow_shifts w end ++ [row] /\
      exists audit, w' = set_ops_audit audit (set_shifts (ow_shifts w') w)
  | Raise _ => w' = w
  end.
Proof.
  unfold open_shift. match goal with |- ops_transaction ?handler w = _ -> _ => set (m := handler) end. intros Hr%ops_transaction_inv.
  assert (Hm : forall r1 w1, m w = (r1, w1) -> match r1 with
    | Ok row => sf_id row = id /\ is_active row = true /\ one_active (ow_shifts w1) = true /\
      ow_shifts w1 = match active_shift read with Some s => update_shift (sf_id s) (end_shift now user) (ow_shifts w) | None => ow_shifts w end ++ [row] /\
      exists audit, w1 = set_ops_audit audit (set_shifts (ow_shifts w1) w)
    | Raise _ => w1 = w end).
  { intros r1 w1. unfold m. intros Hx%get_st_inv. apply bind_inv in Hx as [(e & He & ->)|(d & w2 & Hd & Hx)].
    - unfold choose_definition in He. destruct wanted; destruct (find_first _ _) || destruct (head _); try discriminate He; by injection He as _ <-.
    - assert (w2 = w) as ->.
      { unfold choose_definition in Hd. destruct wanted; destruct (find_first _ _) || destruct (head _); try discriminate Hd; by injection Hd as _ <-. }
      cbv zeta in Hx. destruct (one_active _) eqn:Hone; [|by injection Hx as <- <-]. unfold log_audit, modify_st, mbind, M_bind in Hx.
      injection Hx as <- <-. do 2 (split; [done|]). split; [exact Hone|]. split; [done|]. by eexists. }
  destruct r as [row|x]; [exact (Hm _ _ Hr)|]. destruct Hr as (w1 & ->%Hm & ->). by apply rolled_back.
Qed.

Lemma close_run read id user now (w : W) r w' : close_shift read id user now w = (r, w') ->
  w' = w \/ exists audit, w' = set_ops_audit audit (set_shifts (update_shift id (end_shift now user) (ow_shifts w)) w).
Proof.
  assert (Hread : forall r1 (w1 w2 : W), get_shift id w1 = (r1, w2) -> w2 = w1).
  { intros r1 w1 w2. unfold get_shift. intros Hx%get_st_inv. destruct (find_first _ _); by injection Hx as _ <-. }
  unfold close_shift. match goal with |- (ops_transaction ?handler ≫= _) w = _ -> _ => set (m := handler) end.
  assert (Hm : forall r1 w1, m w = (r1, w1) -> ow_store w1 = ow_store w /\ ow_faults w1 = ow_faults w /\ match r1 with
    | Ok _ => exists audit, w1 = set_ops_audit audit (set_shifts (update_shift id (end_shift now user) (ow_shifts w)) w)
    | Raise _ => True end).
  { intros r1 w1. unfold m. destruct (find_first _ read) as [s|]; [|by intros [= <- <-]]. destruct (negb (is_active s)); [by intros [= <- <-]|].
    unfold log_audit, modify_st, mbind, M_bind. intros [= <- <-]. split; [done|]. split; [done|]. by eexists. }
  intros [(e & He%ops_transaction_inv & _)|([] & w1 & Hw%ops_transaction_inv & ->%Hread)]%bind_inv; [left|right].
  - destruct He as (w1 & (Hs & Hf & _)%Hm & ->). by apply rolled_back.
  - by apply Hm in Hw as (_ & _ & Hw).
Qed.
End others.

(** *** The evidence lifecycle *)

(** A deletion and an attachment are steps of the evidence lifecycle on the
    view [files], so what holds in every state that lifecycle reaches holds of
    the tables here. *)
Section lifecycle.
Context `{DigitTable}.
Context {Store : Type} `{ObjectStore Store}.
Context (bucket : pystr) (max_upload_bytes intent_ttl_seconds : Z).
Notation W := (ops_world Store).
Notation step := (evidence_step bucket max_upload_bytes intent_ttl_seconds).

Lemma same_rows (l : list (N * evidence)) : Forall2 same_but_incident l l.
Proof. apply Forall_Forall2_diag, Forall_forall. by intros x _. Qed.

(** A step on the view, with the rest of the world around it. *)
Lemma on_files_steps {A} (m : M (eworld Store) api_error A) (w : W) : step (files w) (snd (m (files w))) -> star step (files w) (files (snd (on_files m w))).
Proof.
  intros Hs. unfold on_files. destruct (m (files w)) as [r e] eqn:E. cbn [snd] in *. eapply star_step; [exact Hs|]. apply star_one.
  apply step_env; [apply same_rows|reflexivity|done].
Qed.

Lemma request_purges_steps now l : forall w : W, star step (files w) (files (snd (request_purges now l w))).
Proof.
  induction l as [|[i e] l IH]; intros w; [apply star_refl|]. cbn [request_purges]. unfold mbind, M_bind.
  pose proof (on_files_steps (request_purge now i e) w (step_tombstone _ _ _ _ i e now)) as Hs. destruct (on_files _ w) as [[plan|x] w1]; [|exact Hs].
  specialize (IH w1). destruct (request_purges now l w1) as [[plans|x] w2]; by eapply star_trans.
Qed.

(** The plans are those of tombstones. *)
Definition planned (plans : list (N * purge_plan)) (w : W) : Prop := forall i plan, (i, plan) ∈ plans ->
  exists e, (i, e) ∈ ow_evidence w /\ plan_of e = plan /\ e_state e <> ACTIVE.

Lemma purge_all_steps plans : forall w : W, planned plans w -> star step (files w) (files (snd (purge_all plans w))).
Proof.
  induction plans as [|[i plan] plans IH]; intros w Hp; [apply star_refl|]. cbn [purge_all]. unfold mbind, M_bind.
  destruct (Hp i plan) as (e & Hin & <- & He); [left|]. pose proof (on_files_steps (purge_storage (plan_of e)) w (step_purge _ _ _ (files w) i e Hin He)) as Hs.
  destruct (purge_storage_rows (plan_of e) (files w)) as (Hrows & _). unfold on_files in Hs. unfold on_files at 1.
  destruct (purge_storage (plan_of e) (files w)) as [[[]|x] e1] eqn:E; cbn [snd] in *.
  - pose proof (on_files_steps (mark_purged i) (with_files e1 w) (step_mark _ _ _ _ i)) as Hm. destruct (on_files (mark_purged i) (with_files e1 w)) as [r w1] eqn:Em.
    assert (r = Ok tt /\ ow_evidence w1 = update_row i (fun e => set_state PURGED (e_deleted_at e) e) (ow_evidence w)) as [-> Hw1].
    { unfold on_files, mark_purged, modify_st in Em. injection Em as <- <-. cbn. by rewrite Hrows. }
    cbn [snd] in *. eapply star_trans; [exact Hs|]. eapply star_trans; [exact Hm|]. apply IH. intros j plan Hj.
    destruct (Hp j plan) as (e' & Hin' & Hpl & Hst); [by right|]. rewrite Hw1. unfold update_row.
    destruct (decide (j = i)) as [->|Hne].
    + exists (set_state PURGED (e_deleted_at e') e'). split; [|done]. apply list_elem_of_fmap. exists (i, e'). split; [|done]. cbn [fst]. by rewrite decide_True.
    + exists e'. split; [|done]. apply list_elem_of_fmap. exists (j, e'). split; [|done]. cbn [fst]. by rewrite decide_False.
  - eapply star_trans; [exact Hs|]. apply IH. intros j plan Hj. destruct (Hp j plan) as (e' & Hin' & Hrest); [by right|]. exists e'. split; [|done]. cbn. by rewrite Hrows.
Qed.

(** The plans of a committed deletion. *)
Lemma delete_rows_planned id user now (w : W) plans w1 : NoDup (map fst (ow_evidence w)) -> delete_rows id user now w = (Ok plans, w1) -> planned plans w1.
Proof.
  intros Hnd (-> & _ & _ & _ & audit & ->)%delete_rows_run i plan; [|done]. intros ([k e] & [= -> ->] & [Hin Hid]%mine_in)%list_elem_of_fmap.
  destruct (pend_facts now e) as (Hs & Hp & Hi). exists (detach_incident (pend now e)). split; [|by rewrite <- Hp].
  apply list_elem_of_fmap. exists (k, pend now e). cbn [fst snd] in *. split; [by rewrite decide_True by congruence|].
  apply list_elem_of_fmap. exists (k, e). split; [|done]. cbn [fst snd]. by rewrite decide_True by (by apply (mine_id id w k e)).
Qed.

(** The tombstones of a committed deletion are the requested ones. *)
Lemma delete_rows_requested id user now (w : W) plans w1 : delete_rows id user now w = (Ok plans, w1) ->
  request_purges now (evidence_of_incident id w) w = (Ok plans, snd (request_purges now (evidence_of_incident id w) w)).
Proof.
  intros Hr%ops_transaction_inv. rewrite with_incident_run in Hr. destruct (incident_of id w); [|discriminate Hr]. apply get_st_inv in Hr. cbv zeta in Hr.
  apply bind_ok_inv in Hr as (plans' & w2 & Hp & Hr). unfold purge_requests in Hp. destruct (request_purges _ _ w) as [[p|x] w3]; [|discriminate Hp].
  injection Hp as -> ->. unfold log_audit, modify_st, get_st, mbind, M_bind in Hr. destruct (runs_have_jobs _); [by injection Hr as <- _|discriminate Hr].
Qed.

(** A deletion is a sequence of steps of the evidence lifecycle. *)
Theorem delete_incident_steps id user now (w : W) : NoDup (map fst (ow_evidence w)) ->
  star step (files w) (files (snd (delete_incident id user now w))).
Proof.
  intros Hnd. unfold delete_incident, mbind, M_bind. destruct (delete_rows id user now w) as [[plans|e] w1] eqn:E.
  2: { apply delete_rows_run in E as ->; [apply star_refl|done]. }
  pose proof (delete_rows_planned _ _ _ _ _ _ Hnd E) as Hp. pose proof (delete_rows_requested _ _ _ _ _ _ E) as Hreq.
  assert (Htomb : star step (files w) (files w1)).
  { pose proof (request_purges_steps now (evidence_of_incident id w) w) as Hs. apply delete_rows_run in E as (_ & _ & _ & _ & audit & ->); [|done].
    apply purges_run in Hreq as (_ & Hw2 & _); [|by intros x [? _]%mine_in|by apply mine_nodup|done]. rewrite Hw2 in Hs.
    eapply star_snoc; [exact Hs|]. apply step_env; [|apply filter_sublist|done]. cbn. apply Forall2_fmap_r, Forall_Forall2_diag, Forall_forall.
    intros [k x] _. cbn [fst snd]. unfold compose. cbn [fst snd]. by case_decide. }
  pose proof (purge_all_steps plans w1 Hp) as Hpurge. destruct (purge_all plans w1) as [r w2]. by eapply star_trans.
Qed.

(** So is an attachment of a screenshot kept under the prefills' own keys. *)
Theorem attach_prefill_steps prefill_id id user evidence_id now (w : W) : evidence_id ∉ map fst (ow_evidence w) ->
  (forall p, p ∈ ow_prefills w -> screenshot_key (pf_key p) = true) ->
  star step (files w) (files (snd (attach_prefill_to_incident prefill_id id user evidence_id now w))).
Proof.
  intros Hfresh Hkeys. destruct (attach_prefill_to_incident _ _ _ _ _ w) as [r w'] eqn:E. apply attach_run in E as (fl & Hr). cbv zeta in Hr.
  set (w0 := with_files _ w) in Hr. assert (H0w : step (files w) (files w0)) by (apply step_env; [apply same_rows|reflexivity|done]).
  destruct r as [[k e]|x]; [|subst w'; by apply star_one].
  destruct Hr as (_ & _ & [[-> _]|(p & audit & v & Hp & _ & _ & Hv & -> & _ & Hplan & ->)]); [apply star_refl|].
  eapply star_step; [exact H0w|]. unfold plan_of in Hplan. injection Hplan as Hb Hk Hver. apply star_one.
  apply (step_attach _ _ _ (files w0) evidence_id e v); [exact Hfresh|rewrite Hk; by apply Hkeys|by rewrite Hb, Hk|done].
Qed.
End lifecycle.

(** *** The history of the tables *)

(** The references the database enforces. *)
Record refs_ok {Store} (w : ops_world Store) : Prop := {
  ro_evidence : forall x id, x ∈ ow_evidence w -> e_incident (snd x) = Some id -> id ∈ map in_id (ow_incidents w);
  ro_intents : forall x, x ∈ ow_intents w -> i_incident (snd x) ∈ map in_id (ow_incidents w);
  ro_runs : forall r, r ∈ ow_runs w -> ri_incident (ar_input r) ∈ map in_id (ow_incidents w);
  ro_jobs : forall k j id, st_jobs (ow_jobs w) !! k = Some j -> j_incident_id j = Some id -> id ∈ map in_id (ow_incidents w);
  ro_run_jobs : runs_have_jobs w = true;
  ro_outbox : forall x, x ∈ st_outbox (ow_jobs w) -> is_Some (st_jobs (ow_jobs w) !! oe_job_id (snd x));
  ro_prefills : forall p id, p ∈ ow_prefills w -> pf_incident p = Some id -> id ∈ map in_id (ow_incidents w);
}.
Record ops_inv {Store} (w : ops_world Store) : Prop := {
  oi_ids : NoDup (map in_id (ow_incidents w));
  oi_names : NoDup (map in_display_id (ow_incidents w));
  oi_shift : one_active (ow_shifts w) = true;
  oi_evidence : NoDup (map fst (ow_evidence w));
  oi_refs : refs_ok w;
}.

(** A recovery time exactly for the recovered incidents. *)
Definition recoveries_ok {Store} (w : ops_world Store) : Prop := forall i, i ∈ ow_incidents w -> recovery_ok i.

Section history.
Context `{DigitTable}.
Context {Store : Type} `{ObjectStore Store}.
Context (json_time : usec -> pystr) (collate : pystr -> pystr -> bool).
Notation W := (ops_world Store).

(** One request, or a step of the other components: uploads, analyses, the
    worker and the previews of prefills write the other tables, under the
    references the database enforces.  Of an update, a closing and an opening
    the row or table that was read is arbitrary; [serial] is the case that
    every update read its incident as it is when it writes. *)
Inductive ops_step (serial : bool) (w w' : W) : Prop :=
| step_create read b user id now r : id ∉ map in_id (ow_incidents w) -> create_incident read b user id now w = (r, w') -> ops_step serial w w'
| step_update read id b user now r : (serial = true -> incident_in id read = incident_of id w) -> update_incident json_time read id b user now w = (r, w') -> ops_step serial w w'
| step_delete id user now r : delete_incident id user now w = (r, w') -> ops_step serial w w'
| step_attach prefill id user evidence_id now r : evidence_id ∉ map fst (ow_evidence w) ->
    attach_prefill_to_incident prefill id user evidence_id now w = (r, w') -> ops_step serial w w'
| step_open read wanted user id now r : open_shift collate read wanted user id now w = (r, w') -> ops_step serial w w'
| step_close read id user now r : close_shift read id user now w = (r, w') -> ops_step serial w w'
| step_other : ow_incidents w' = ow_incidents w -> ow_shifts w' = ow_shifts w -> NoDup (map fst (ow_evidence w')) -> refs_ok w' -> ops_step serial w w'.

Lemma refs_grow (w w' : W) : map in_id (ow_incidents w) ⊆ map in_id (ow_incidents w') -> ow_evidence w' = ow_evidence w -> ow_intents w' = ow_intents w ->
  ow_runs w' = ow_runs w -> ow_jobs w' = ow_jobs w -> ow_prefills w' = ow_prefills w -> refs_ok w -> refs_ok w'.
Proof.
  intros Hsub He Hi Hr Hj Hp [R1 R2 R3 R4 R5 R6 R7]. split; unfold runs_have_jobs in *; rewrite ?He, ?Hi, ?Hr, ?Hj, ?Hp; try done; intros; apply Hsub; eauto.
Qed.

Lemma create_inv read b user id now (w : W) r w' : ops_inv w -> id ∉ map in_id (ow_incidents w) -> create_incident read b user id now w = (r, w') -> ops_inv w'.
Proof.
  intros [I1 I2 I4 I5 I6] Hid Hr%create_run. destruct r as [row|e]; [|by destruct Hr as [-> _]]. destruct Hr as ([audit ->] & Hd & <- & _ & Hok).
  apply next_display_id_fresh in Hd. split; cbn [ow_incidents ow_shifts ow_evidence set_ops_audit set_incidents]; rewrite ?map_app; try done.
  - apply NoDup_app. split; [done|]. split; [|apply NoDup_singleton]. intros x Hx ->%list_elem_of_singleton. by apply Hid.
  - apply NoDup_app. split; [done|]. split; [|apply NoDup_singleton]. intros x Hx ->%list_elem_of_singleton. by apply Hd.
  - apply (refs_grow w); [|done..|exact I6]. cbn [ow_incidents set_ops_audit set_incidents]. rewrite map_app. set_solver.
Qed.

Lemma updated_ids id f l : (forall i, in_id (f i) = in_id i) -> map in_id (update_incident_row id f l) = map in_id l.
Proof. intros Hf. unfold update_incident_row. rewrite map_map. apply map_ext. intros i. by case_decide. Qed.
Lemma updated_names id f l : (forall i, in_display_id (f i) = in_display_id i) -> map in_display_id (update_incident_row id f l) = map in_display_id l.
Proof. intros Hf. unfold update_incident_row. rewrite map_map. apply map_ext. intros i. by case_decide. Qed.

Lemma audit_inv audit (w : W) : ops_inv w -> ops_inv (set_ops_audit audit w).
Proof. intros [I1 I2 I4 I5 I6]. split; try done. by apply (refs_grow w). Qed.

Lemma update_inv read id b user now (w : W) r w' : ops_inv w -> update_incident json_time read id b user now w = (r, w') -> ops_inv w'.
Proof.
  intros Hw (audit & [->|(i & _ & _ & ->)])%update_run; apply audit_inv; [done|]. destruct Hw as [I1 I2 I4 I5 I6].
  split; cbn [ow_incidents ow_shifts ow_evidence set_incidents]; rewrite ?updated_ids, ?updated_names by done; try done.
  apply (refs_grow w); [|done..|exact I6]. cbn [ow_incidents set_incidents]. by rewrite updated_ids.
Qed.

(** An update of the row it read. *)
Lemma update_recoveries read id b user now (w : W) r w' : ops_inv w -> incident_in id read = incident_of id w ->
  update_incident json_time read id b user now w = (r, w') -> recoveries_ok w -> recoveries_ok w'.
Proof.
  intros Hw Hread (audit & [->|(i & Hi & Hok & ->)])%update_run Hrec; [done|]. rewrite Hread in Hi. unfold incident_of, incident_in in Hi.
  apply find_first_Some in Hi as [Hin Hid%bool_decide_eq_true]. intros j (k & -> & Hk)%list_elem_of_fmap. case_decide as Hj; [|by apply Hrec].
  rewrite (list_key_unique in_id _ k i (oi_ids _ Hw) Hk Hin) by congruence. unfold recovery_ok, flush_update in *. cbn [in_status in_recovered_at].
  by rewrite !flush_column_same.
Qed.

Lemma kept_incident id id' (w : W) : id' <> id -> id' ∈ map in_id (ow_incidents w) ->
  id' ∈ map in_id (List.filter (fun i => negb (bool_decide (in_id i = id))) (ow_incidents w)).
Proof.
  intros Hne (i & -> & Hi)%list_elem_of_fmap. apply (list_elem_of_fmap_2 in_id). apply list_elem_of_In, filter_In. split; [by apply list_elem_of_In|].
  by rewrite bool_decide_eq_false_2.
Qed.

Lemma filter_map_nodup {A B} (f : A -> B) (p : A -> bool) l : NoDup (map f l) -> NoDup (map f (List.filter p l)).
Proof.
  induction l as [|x l IH]; [done|]. cbn [map List.filter]. intros [Hn Hnd]%NoDup_cons. destruct (p x); [|by apply IH]. cbn [map]. apply NoDup_cons.
  split; [|by apply IH]. intros (y & E & [Hy _]%list_elem_of_In%filter_In)%list_elem_of_fmap. apply Hn. rewrite E. by apply list_elem_of_fmap_2, list_elem_of_In.
Qed.

Lemma deleted_refs id (w w' : W) : deleted id w w' -> refs_ok w -> refs_ok w'.
Proof.
  intros [_ Hinc Hruns Hint Hjobs Hout Hpf _ _ Hrj _ Htomb _ _] [R1 R2 R3 R4 R5 R6 R7]. split; rewrite ?Hinc, ?Hruns, ?Hint, ?Hjobs, ?Hout, ?Hpf; try done.
  - intros y id' Hy Hid. apply list_elem_of_lookup in Hy as [n Hy]. destruct (Forall2_lookup_r _ _ _ _ _ Htomb Hy) as (x & Hx & _ & _ & Hrow).
    apply list_elem_of_lookup_2 in Hx. case_decide as Hmine; [destruct Hrow; congruence|]. subst y. apply kept_incident; [congruence|by apply (R1 x)].
  - intros x [Hx Hne%negb_true_iff%bool_decide_eq_false]%list_elem_of_In%filter_In. apply kept_incident; [done|]. by apply R2, list_elem_of_In.
  - intros x [Hx Hne%negb_true_iff%bool_decide_eq_false]%list_elem_of_In%filter_In. apply kept_incident; [done|]. by apply R3, list_elem_of_In.
  - intros k j id' [Hj Hne]%map_lookup_filter_Some Hid. cbn [snd] in Hne. apply kept_incident; [congruence|by apply (R4 k j)].
  - intros x [Hx Hne%negb_true_iff%bool_decide_eq_false]%list_elem_of_In%filter_In. destruct (R6 x) as [j Hj]; [by apply list_elem_of_In|].
    exists j. apply map_lookup_filter_Some. split; [done|]. cbn [snd]. intros Hid. apply Hne.
    apply (list_elem_of_fmap_2 fst (jobs_of_incident id w) (oe_job_id (snd x), j)). apply list_elem_of_filter. split; [done|]. by apply elem_of_map_to_list.
  - intros p id' (q & -> & Hq)%list_elem_of_fmap. unfold release_prefill. cbn [pf_incident]. case_decide as Hmine; [done|]. intros Hid.
    apply kept_incident; [congruence|by apply (R7 q)].
Qed.

Lemma incident_delete_inv id user now (w : W) r w' : ops_inv w -> delete_incident id user now w = (r, w') -> ops_inv w'.
Proof.
  intros [I1 I2 I4 I5 I6] Hr%delete_run; [|done]. destruct r as [[]|e]; [|by subst]. pose proof (deleted_refs _ _ _ Hr I6) as Hrefs.
  destruct Hr as [_ Hinc _ _ _ _ _ _ _ _ Hs Htomb _ _]. split; rewrite ?Hinc, ?Hs; try done; try (by apply filter_map_nodup).
  - replace (map fst (ow_evidence w')) with (map fst (ow_evidence w)); [done|]. clear -Htomb.
    induction Htomb as [|x y l l' (Hk & _) _ IH]; [done|]. cbn [map]. by rewrite Hk, IH.
Qed.

Lemma attach_inv prefill id user evidence_id now (w : W) r w' : ops_inv w -> evidence_id ∉ map fst (ow_evidence w) ->
  attach_prefill_to_incident prefill id user evidence_id now w = (r, w') -> ops_inv w'.
Proof.
  intros [I1 I2 I4 I5 I6] Hfresh (fl & Hr)%attach_run. cbv zeta in Hr.
  destruct r as [[k e]|x]; [|subst w'; split; try done; by apply (refs_grow w)].
  destruct Hr as (He & [i Hi] & [[-> _]|(p & audit & v & Hp & _ & _ & _ & -> & _ & _ & ->)]); [by split|].
  assert (Hid : id ∈ map in_id (ow_incidents w)).
  { unfold incident_of in Hi. apply find_first_Some in Hi as [Hin <-%bool_decide_eq_true]. by apply list_elem_of_fmap_2. }
  destruct I6 as [R1 R2 R3 R4 R5 R6 R7]. split; try done.
  - cbn. rewrite map_app. apply NoDup_app. split; [done|]. split; [|apply NoDup_singleton]. by intros y Hy ->%list_elem_of_singleton.
  - split; try done.
    + intros y id' [Hy| ->%list_elem_of_singleton]%elem_of_app Hy'; [by apply (R1 y)|]. cbn [snd] in Hy'. rewrite He in Hy'. by injection Hy' as <-.
    + intros q id' (q' & -> & Hq)%list_elem_of_fmap. case_decide; [intros [= <-]; exact Hid|by apply R7].
Qed.

(** One step keeps the invariant, and a serial one the recovery times. *)
Lemma step_inv serial (w w' : W) : ops_step serial w w' -> ops_inv w -> ops_inv w' /\ (serial = true -> recoveries_ok w -> recoveries_ok w').
Proof.
  intros Hs Hw.
  destruct Hs as [read b user id now r Hid Hr|read id b user now r Hserial Hr|id user now r Hr|prefill id user ev now r Hid Hr|read wanted user id now r Hr|
    read id user now r Hr|Hi Hsh He Hrefs].
  - split; [by eapply create_inv|]. intros _ Hrec. apply create_run in Hr. destruct r as [row|e]; [|by destruct Hr as [-> _]].
    destruct Hr as ([audit ->] & _ & _ & _ & Hok). intros i [Hi| ->%list_elem_of_singleton]%elem_of_app; [by apply Hrec|done].
  - split; [by eapply update_inv|]. intros ->. eapply update_recoveries; [done|by apply Hserial|exact Hr].
  - split; [by eapply incident_delete_inv|]. intros _ Hrec. apply delete_run in Hr; [|apply Hw]. destruct r as [[]|e]; [|by subst].
    intros i Hi. rewrite (dl_incidents _ _ _ Hr) in Hi. apply list_elem_of_In, filter_In in Hi as [Hi _]. by apply Hrec, list_elem_of_In.
  - split; [by eapply attach_inv|]. intros _ Hrec. apply attach_run in Hr as (fl & Hr). cbv zeta in Hr. destruct r as [[k e]|x]; [|by subst w'].
    by destruct Hr as (_ & _ & [[-> _]|(p & audit & v & _ & _ & _ & _ & _ & _ & _ & ->)]).
  - apply open_run in Hr. destruct r as [row|x]; [|by subst]. destruct Hr as (_ & _ & Hone & _ & audit & ->). destruct Hw as [I1 I2 I4 I5 I6].
    split; [|done]. split; try done. by apply (refs_grow w).
  - apply close_run in Hr as [->|[audit ->]]; [done|]. destruct Hw as [I1 I2 I4 I5 I6].
    split; [|done]. split; try done; [|by apply (refs_grow w)]. unfold one_active in *. cbn [ow_shifts set_ops_audit set_shifts].
    apply Nat.leb_le in I4. apply Nat.leb_le. etrans; [apply ended_active|done].
  - destruct Hw as [I1 I2 I4 I5 I6]. split; [split; rewrite ?Hi, ?Hsh; done|]. unfold recoveries_ok. by rewrite Hi.
Qed.

(** C16. Whatever requests follow one another, whatever row an update or a
    closing had read, and whatever the other components write in between:
    incidents keep distinct ids and distinct display names, at most one shift
    is active, evidence ids stay distinct, and no evidence, upload intent, run,
    job, outbox entry or prefill is left referring to a deleted row.  When
    moreover no update is overtaken by another write to its incident, an
    incident has a recovery time exactly if it is recovered. *)
Theorem incident_history serial (w w' : W) : rtc (ops_step serial) w w' -> ops_inv w ->
  ops_inv w' /\ (serial = true -> recoveries_ok w -> recoveries_ok w').
Proof.
  intros Hs. induction Hs as [|w w1 w' Hs _ IH]; [done|]. intros Hw. destruct (step_inv _ _ _ Hs Hw) as [Hw1 Hr1].
  destruct (IH Hw1) as [Hw' Hr']. split; [done|auto].
Qed.
End history.

(** *** Deletion, and what a later attachment can lose *)

Section removal.
Context `{DigitTable}.
Context {Store : Type} `{ObjectStore Store}.
Notation W := (ops_world Store).

(** The rows that do not belong to the incident, table by table. *)
Definition incident_of_job (k : N) (w : W) : option N := j ← st_jobs (ow_jobs w) !! k; j_incident_id j.
Record others_kept (id : N) (w w' : W) : Prop := {
  ot_incidents : ow_incidents w' = List.filter (fun i => negb (bool_decide (in_id i = id))) (ow_incidents w);
  ot_runs : ow_runs w' = List.filter (fun r => negb (bool_decide (ri_incident (ar_input r) = id))) (ow_runs w);
  ot_jobs : forall k j, st_jobs (ow_jobs w') !! k = Some j <-> st_jobs (ow_jobs w) !! k = Some j /\ j_incident_id j <> Some id;
  ot_outbox : st_outbox (ow_jobs w') = List.filter (fun x => negb (bool_decide (incident_of_job (oe_job_id (snd x)) w = Some id))) (st_outbox (ow_jobs w));
  ot_intents : ow_intents w' = List.filter (fun x => negb (bool_decide (i_incident (snd x) = id))) (ow_intents w);
  ot_ocr : forall k, k ∈ ow_ocr w' <-> k ∈ ow_ocr w /\ ~ exists e, (k, e) ∈ ow_evidence w /\ e_incident e = Some id;
  ot_prefills : ow_prefills w' = map (release_prefill id) (ow_prefills w);
  ot_evidence : map fst (ow_evidence w') = map fst (ow_evidence w);
  ot_shifts : ow_shifts w' = ow_shifts w;
  ot_snapshots : ow_snapshots w' = ow_snapshots w;
}.

Lemma deleted_others id (w w' : W) : deleted id w w' -> others_kept id w w'.
Proof.
  intros [_ Hinc Hruns Hint Hjobs Hout Hpf Hocr Hsnap _ Hsh Htomb _ _]. split; try done.
  - intros k j. rewrite Hjobs, map_lookup_filter_Some. done.
  - rewrite Hout. apply List.filter_ext. intros [k x]. cbn [snd]. f_equal. apply bool_decide_ext. unfold jobs_of_incident. split.
    + intros ([k' j] & -> & [Hj Hin%elem_of_map_to_list]%list_elem_of_filter)%list_elem_of_fmap. unfold incident_of_job. cbn [fst]. by rewrite Hin.
    + unfold incident_of_job. destruct (st_jobs (ow_jobs w) !! oe_job_id x) as [j|] eqn:Hj; [|done]. cbn. intros Hid.
      apply (list_elem_of_fmap_2 fst _ (oe_job_id x, j)). apply list_elem_of_filter. split; [done|]. by apply elem_of_map_to_list.
  - intros k. rewrite Hocr, list_elem_of_In, filter_In, negb_true_iff, bool_decide_eq_false, <- list_elem_of_In. apply and_iff_compat_l.
    apply not_iff_compat. rewrite list_elem_of_fmap. split.
    + intros ([k' e] & -> & [Hin Hi]%mine_in). by exists e.
    + intros (e & Hin & Hi). exists (k, e). split; [done|]. by apply mine_in.
  - clear -Htomb. induction Htomb as [|x y l l' (Hk & _) _ IH]; [done|]. cbn [map]. by rewrite Hk, IH.
Qed.

(** C17. After a deletion, as one transaction, nothing refers to the incident;
    every evidence row it had is still there under the same object, inactive,
    and was referenced by no run, OCR run or report unless it was purged
    already; and the incidents, runs, jobs, outbox entries, upload intents, OCR
    runs, evidence rows and objects of the others, the shifts and the reports'
    snapshots are exactly as they were.  A deletion that fails leaves the tables
    and the objects alone. *)
Theorem delete_incident_leaves_nothing id user now (w : W) r w' : ops_inv w -> delete_incident id user now w = (r, w') ->
  match r with
  | Ok _ => id ∉ map in_id (ow_incidents w') /\ refs_ok w' /\ others_kept id w w' /\
      (forall k e, (k, e) ∈ ow_evidence w -> e_incident e = Some id ->
         (e_state e = PURGED \/ references_for (files w) k = []) /\
         exists e', (k, e') ∈ ow_evidence w' /\ plan_of e' = plan_of e /\ e_incident e' = None /\ e_state e' <> ACTIVE) /\
      (forall k e, (k, e) ∈ ow_evidence w -> e_incident e <> Some id -> (k, e) ∈ ow_evidence w') /\
      (forall b k, (forall x, x ∈ ow_evidence w -> e_incident (snd x) = Some id -> (e_bucket (snd x), e_key (snd x)) <> (b, k)) ->
         stored (ow_store w') b k = stored (ow_store w) b k)
  | Raise _ => w' = w
  end.
Proof.
  intros Hw Hr%delete_run; [|apply Hw]. destruct r as [[]|e]; [|done]. pose proof (deleted_refs _ _ _ Hr (oi_refs _ Hw)) as Hrefs.
  pose proof (deleted_others _ _ _ Hr) as Hothers. destruct Hr as [_ Hinc _ _ _ _ _ _ _ _ _ Htomb Href Hobj].
  assert (Hrow : forall k e, (k, e) ∈ ow_evidence w -> exists e', (k, e') ∈ ow_evidence w' /\ plan_of e' = plan_of e /\
    if decide (e_incident e = Some id) then e_incident e' = None /\ e_state e' <> ACTIVE else e' = e).
  { intros k e Hin. apply list_elem_of_lookup in Hin as [n Hn]. destruct (Forall2_lookup_l _ _ _ _ _ Htomb Hn) as ([k' e'] & Hn' & Hk & Hp & Hy).
    cbn [fst snd] in *. subst k'. exists e'. split; [by eapply list_elem_of_lookup_2|]. split; [done|]. case_decide; [done|by injection Hy]. }
  split; [|split; [done|split; [done|split; [|split; [|done]]]]].
  - rewrite Hinc. intros (i & -> & [_ Hi]%list_elem_of_In%filter_In)%list_elem_of_fmap. by rewrite bool_decide_eq_true_2 in Hi.
  - intros k e Hin He. split; [by apply (Href (k, e))|]. destruct (Hrow k e Hin) as (e' & Hin' & Hp & Hy). exists e'.
    rewrite decide_True in Hy by done. by destruct Hy.
  - intros k e Hin He. destruct (Hrow k e Hin) as (e' & Hin' & _ & Hy). rewrite decide_False in Hy by done. by subst e'.
Qed.
End removal.

(** *** Samples *)

#[global] Program Instance ascii_digits : @DigitTable cjk_unicode := {| superscript := fun _ => false |}.
Next Obligation. done. Qed.
Next Obligation. done. Qed.
Next Obligation. done. Qed.

Definition sample_incident (id : N) (name : string) : incident :=
  mk_incident id (u name) None (u "Disk full") (u "db") (u "production") (u "open") None 0 None None None None None (Some 9%N) (Some 9%N) 0 0.
Definition sample_prefill : prefill_run :=
  mk_prefill 7 (Some 1%N) (u "noc-evidence") (u "prefills/k1") (u "a.png") (Some (u "image/png")) (u "aa") None (u "REVIEW_REQUIRED").
Definition sample_shot : evidence :=
  mk_evidence (Some 1%N) (u "ALERT_SCREENSHOT") (u "noc-evidence") (u "prefills/k1") (u "a.png") (Some (u "image/png")) 4 (u "aa") (Some (u "v1")) 9 (Some 0%Z) ACTIVE None.
Definition sample_ops (faults : list storage_fault) : ops_world simple_store :=
  mk_ops [sample_incident 1 "INC-1001"; sample_incident 2 "INC-1002"] [mk_shift 3 4 0 None (u "active") (Some 9%N) None]
    [mk_definition 4 (u "Night") (u "22:00") (u "06:00") (u "UTC") true] [sample_prefill] [(5%N, sample_shot)] [] [] [] (Outbox.mk_store ∅ []) []
    [] [(u "noc-evidence", u "prefills/k1", v1)] faults.

(** The purge of a deleted incident's screenshot waits; its prefill is attached
    to another incident, which then has an active row for the same version;
    the sweep deletes that version. *)
Definition deleted_1 : ops_world simple_store := snd (delete_incident 1 9 10 (sample_ops [StorageBroken false])).
Definition reattached : ops_world simple_store := snd (@attach_prefill_to_incident simple_store _ 7 2 9 6 20 deleted_1).
Definition swept_later : eworld simple_store := snd (sweep_pending_purges 10 (fun _ => false) (files reattached)).

(** An operator deletes an incident while the store is down; the purge of
    its screenshot waits.  The screenshot's prefill, released by the deletion,
    is attached to another incident.  The next sweep deletes the object under
    the second incident's active evidence. *)
Theorem reattached_screenshot_is_purged : exists e,
  (6%N, e) ∈ ow_evidence reattached /\ (6%N, e) ∈ ew_evidence swept_later /\ e_state e = ACTIVE /\ e_incident e = Some 2%N /\
  stored (ow_store reattached) (e_bucket e) (e_key e) = [v1] /\ stored (ew_store swept_later) (e_bucket e) (e_key e) = [].
Proof.
  exists (mk_evidence (Some 2%N) (u "ALERT_SCREENSHOT") (u "noc-evidence") (u "prefills/k1") (u "a.png") (Some (u "image/png")) 4 (u "aa") (Some (u "v1")) 9
    (Some 20%Z) ACTIVE None).
  split; [apply (bool_decide_unpack _); vm_compute; exact I|]. split; [apply (bool_decide_unpack _); vm_compute; exact I|].
  split; [reflexivity|]. split; [reflexivity|]. split; vm_compute; reflexivity.
Qed.

Lemma sample_ops_inv faults : ops_inv (sample_ops faults).
Proof.
  split; try (apply (bool_decide_unpack _); vm_compute; exact I).
  split; set_solver.
Qed.
Lemma sample_recoveries faults : recoveries_ok (sample_ops faults).
Proof.
  intros i Hi. cbn [ow_incidents sample_ops] in Hi. assert (i = sample_incident 1 "INC-1001" \/ i = sample_incident 2 "INC-1002") as Hor by set_solver.
  unfold recovery_ok. split; [|intros [t Ht]]; destruct Hor as [->| ->]; (discriminate || (intros Hs; discriminate Hs)).
Qed.

(** Two updates of one recovered incident: the first reopens it, the second,
    which read it before, corrects the recovery time; the incident ends up open
    with a recovery time. *)
Definition recovered_1 : incident :=
  mk_incident 1 (u "INC-1001") None (u "Disk full") (u "db") (u "production") (u "recovered") None 0 (Some 5%Z) None None None None (Some 9%N) (Some 9%N) 0 0.
Definition recovered_ops : ops_world simple_store := set_incidents [recovered_1] (sample_ops []).
Definition reopening : incident_update := mk_update None (Some (Some (u "open"))) (Some None) None.
Definition correction : incident_update := mk_update None None (Some (Some 7%Z)) None.
Definition overtaken : ops_world simple_store :=
  snd (update_incident (fun _ => []) [recovered_1] 1 correction 8 12 (snd (update_incident (fun _ => []) [recovered_1] 1 reopening 9 11 recovered_ops))).
Example overtaken_update_breaks_recovery :
  map (fun i => (in_status i, in_recovered_at i)) (ow_incidents overtaken) = [(u "open", Some 7%Z)].
Proof. vm_compute. reflexivity. Qed.

Definition sample_body : incident_create :=
  mk_create (u "Link flapping") (u "edge") (u "production") (u "recovered") None 5 (Some 25%Z) None None None None.
#[local] Notation sample_created faults := (@create_incident cjk_unicode ascii_digits simple_store (ow_shifts (sample_ops faults)) sample_body 9 8 30 (sample_ops faults)) (only parsing).
#[local] Notation sample_deletion faults := (@delete_incident simple_store _ 1 9 10 (sample_ops faults)) (only parsing).

Lemma sample_create_runs : exists row, fst (sample_created []) = Ok row /\ in_display_id row = u "INC-1003".
Proof. eexists. split; vm_compute; reflexivity. Qed.

Lemma create_incident_outcome_witness : exists row, fst (sample_created []) = Ok row /\ in_shift row = Some 3%N /\ recovery_ok row.
Proof.
  destruct sample_create_runs as (row & Hrow & _). pose proof (surjective_pairing (sample_created [])) as E. rewrite Hrow in E.
  apply (@create_incident_outcome cjk_unicode ascii_digits simple_store) in E as (_ & _ & Hs & Hok & _). exists row.
  split; [exact Hrow|]. split; [exact Hs|exact Hok].
Defined.

Lemma delete_incident_leaves_nothing_witness :
  1%N ∉ map in_id (ow_incidents (snd (sample_deletion []))) /\ refs_ok (snd (sample_deletion [])).
Proof.
  destruct (@delete_incident_leaves_nothing simple_store _ 1 9 10 (sample_ops []) (Ok ()) (snd (sample_deletion [])) (sample_ops_inv []))
    as (Hid & Hrefs & _); [vm_compute; reflexivity|]. split; [exact Hid|exact Hrefs].
Defined.

Lemma incident_history_witness : ops_inv (snd (sample_deletion [])) /\ recoveries_ok (snd (sample_deletion [])).
Proof.
  destruct (@incident_history cjk_unicode ascii_digits simple_store _ (fun _ => []) (fun _ _ => true) true (sample_ops []) (snd (sample_deletion [])))
    as [Hinv Hrec]; [|exact (sample_ops_inv [])|].
  - apply rtc_once. eapply step_delete. exact (surjective_pairing (sample_deletion [])).
  - split; [exact Hinv|]. apply Hrec; [reflexivity|exact (sample_recoveries [])].
Defined.
