(* ===== verification/Accounts.v ===== *)
(** * Accounts: sign-in, sessions, roles and permissions

    [core/security.py], [deps.py], [routers/auth.py], the user, role and shift
    definition requests of [routers/admin.py], and [seed.py].

    A handler starts with its [require_permission]; signing tokens and hashing
    passwords are libraries, [Jwt] and [PasswordHash].  A refresh locks its
    session row, so refreshes follow one another.  [account_request] lists the
    requests that can change an account, [serve] answers one. *)

From S2P Require Import Prelude PyStr Json Schema Failures PyVal PyColl Jobs Api Incidents.

(** ** Data *)

Record role := mk_role { ro_id : N; ro_name : pystr; ro_permissions : list pystr }.
Record user := mk_user {
  us_id : N; us_username : pystr; us_display_name : pystr; us_email : option pystr; us_password_hash : pystr; us_enabled : bool;
  us_last_login_at : option usec; us_roles : list N }.
Record refresh_session := mk_refresh { rs_user : N; rs_token_hash : pystr; rs_expires_at : usec; rs_revoked_at : option usec }.
#[global] Instance role_eq_dec : EqDecision role.
Proof. solve_decision. Defined.
#[global] Instance user_eq_dec : EqDecision user.
Proof. solve_decision. Defined.

Record accounts := mk_accounts {
  ac_permissions : list pystr; ac_roles : list role; ac_users : list user; ac_sessions : list refresh_session;
  ac_definitions : list shift_definition; ac_audit : list audit_row }.
Definition set_permissions (l : list pystr) (w : accounts) : accounts := mk_accounts l (ac_roles w) (ac_users w) (ac_sessions w) (ac_definitions w) (ac_audit w).
Definition set_roles (l : list role) (w : accounts) : accounts := mk_accounts (ac_permissions w) l (ac_users w) (ac_sessions w) (ac_definitions w) (ac_audit w).
Definition set_users (l : list user) (w : accounts) : accounts := mk_accounts (ac_permissions w) (ac_roles w) l (ac_sessions w) (ac_definitions w) (ac_audit w).
Definition set_sessions (l : list refresh_session) (w : accounts) : accounts :=
  mk_accounts (ac_permissions w) (ac_roles w) (ac_users w) l (ac_definitions w) (ac_audit w).
Definition set_definitions (l : list shift_definition) (w : accounts) : accounts :=
  mk_accounts (ac_permissions w) (ac_roles w) (ac_users w) (ac_sessions w) l (ac_audit w).
Definition set_account_audit (l : list audit_row) (w : accounts) : accounts :=
  mk_accounts (ac_permissions w) (ac_roles w) (ac_users w) (ac_sessions w) (ac_definitions w) l.
Definition AC : Type -> Type := M accounts api_exn.

(** Who may do what. *)
Definition permissions_in (roles : list role) (ids : list N) : list pystr :=
  fromkeys (mjoin (map ro_permissions (filter (fun r => ro_id r ∈ ids) roles))).
(** [User.permission_names] *)
Definition permission_names (w : accounts) (x : user) : list pystr := permissions_in (ac_roles w) (us_roles x).

Record user_out := mk_user_out {
  uo_id : N; uo_username : pystr; uo_display_name : pystr; uo_email : option pystr; uo_enabled : bool; uo_last_login_at : option usec;
  uo_roles : list pystr; uo_permissions : list pystr }.
Definition user_view (w : accounts) (x : user) : user_out :=
  mk_user_out (us_id x) (us_username x) (us_display_name x) (us_email x) (us_enabled x) (us_last_login_at x)
    (map ro_name (filter (fun r => ro_id r ∈ us_roles x) (ac_roles w))) (py_sorted str_leb (permission_names w x)).

(** ** Passwords and tokens *)

(** [passlib]; the hash takes a salt. *)
Class PasswordHash := {
  hash_password : pystr -> pystr -> result pyexn pystr;
  verify_password : pystr -> pystr -> result pyexn bool;
  verify_hashed : forall salt p h, hash_password salt p = Ok h -> verify_password p h = Ok true;
}.

Definition seconds (t : usec) : Z := (t / 1000000)%Z.
(** [jose.jwt]: what was signed with a secret is read back with it until it
    expires. *)
Class Jwt := {
  jwt_encode : pystr -> json -> pystr;
  jwt_decode : pystr -> usec -> pystr -> option (list (pystr * json));
  jwt_roundtrip : forall secret now claims exp, wire_ok (JObj claims) -> assoc (u "exp") claims = Some (JInt exp) ->
    jwt_decode secret now (jwt_encode secret (JObj claims)) = if (exp <? seconds now)%Z then None else Some claims;
}.

Section accounts.
Context `{PasswordHash, Jwt}.
Context (jwt_secret : pystr) (access_token_expire_minutes refresh_token_expire_minutes : Z).

Definition minutes (n : Z) : usec := (n * 60 * 1000000)%Z.
Definition token_claims (subject token_type : pystr) (expire : usec) : list (pystr * json) :=
  [(u "sub", JStr subject); (u "type", JStr token_type); (u "exp", JInt (seconds expire))].
(** [create_token], for an access token. *)
Definition create_token (subject : pystr) (now : usec) : pystr :=
  jwt_encode jwt_secret (JObj (token_claims subject (u "access") (now + minutes access_token_expire_minutes)%Z)).
Definition hash_refresh_secret (secret : pystr) : pystr := sha256_of_bytes (utf8_encode secret).

(** ** [deps.py] *)

(** [uuid.UUID(payload["sub"])] *)
Definition subject_id (payload : list (pystr * json)) : result pyexn N :=
  match assoc (u "sub") payload with
  | None => Raise (key_error (u "sub"))
  | Some (JStr s) => match uuid_parse s with Some n => Ok n | None => Raise (value_error (u "badly formed hexadecimal UUID string")) end
  | Some _ => Raise (mk_exn AttributeError (u "replace"))
  end.
Definition user_of (id : N) (w : accounts) : option user := find_first (fun x => bool_decide (us_id x = id)) (ac_users w).
Definition enabled_user (id : N) (w : accounts) : result api_exn user :=
  match user_of id w with
  | Some x => if us_enabled x then Ok x else Raise (HttpException 401 (JStr (u "User not found or disabled")))
  | None => Raise (HttpException 401 (JStr (u "User not found or disabled")))
  end.
Definition get_current_user (token : pystr) (now : usec) : AC user :=
  w ← get_st;
  match jwt_decode jwt_secret now token with
  | None => http 401 (u "Invalid or expired token")
  | Some payload =>
      if decide (assoc (u "type") payload = Some (JStr (u "access"))) then
        id ← python (subject_id payload); lift_result (enabled_user id w)
      else http 401 (u "Not an access token")
  end.
Definition require_permission (permission token : pystr) (now : usec) : AC user :=
  x ← get_current_user token now;
  w ← get_st;
  if bool_decide (permission ∈ permission_names w x) then mret x else http 403 (u "Missing permission: " ++ permission).

(** ** [auth.py] *)

Definition username_of (name : pystr) (l : list user) : option user := find_first (fun x => bool_decide (us_username x = name)) l.
Definition record (actor : option N) (action resource_type resource_id : pystr) (metadata : json) : AC () :=
  if Nat.leb (length resource_id) 100 then
    modify_st (fun w => set_account_audit (record_audit actor action resource_type resource_id (Some metadata) (ac_audit w)) w)
  else raise (Uncaught data_error).
(** [_new_refresh_session]; the digest is unique. *)
Definition new_refresh_session (user_id : N) (secret : pystr) (now : usec) : AC pystr :=
  w ← get_st;
  if bool_decide (hash_refresh_secret secret ∈ map rs_token_hash (ac_sessions w)) then raise (Uncaught (integrity_error (u "refresh_sessions_token_hash_key")))
  else
    modify_st (set_sessions (ac_sessions w ++
      [mk_refresh user_id (hash_refresh_secret secret) (now + minutes refresh_token_expire_minutes)%Z None]));;
    mret secret.
Definition update_user_row (id : N) (f : user -> user) (l : list user) : list user := map (fun x => if decide (us_id x = id) then f x else x) l.
Definition mark_login (now : usec) (x : user) : user :=
  mk_user (us_id x) (us_username x) (us_display_name x) (us_email x) (us_password_hash x) (us_enabled x) (Some now) (us_roles x).
(** The user whose credentials these are. *)
Definition credentials (username password : pystr) (w : accounts) : result pyexn (option user) :=
  match username_of username (ac_users w) with
  | Some x => if us_enabled x then ok ← verify_password password (us_password_hash x); mret (if ok : bool then Some x else None) else Ok None
  | None => Ok None
  end.

(** The access token and the refresh cookie. *)
Definition login (username password secret : pystr) (now : usec) : AC (pystr * pystr) :=
  w ← get_st;
  found ← python (credentials username password w);
  match found with
  | None =>
      transaction (record None (u "auth.login.failed") (u "user") username (JObj []));;
      http 401 (u "Incorrect username or password")
  | Some x =>
      transaction (
        modify_st (fun w => set_users (update_user_row (us_id x) (mark_login now) (ac_users w)) w);;
        record (Some (us_id x)) (u "auth.login") (u "user") (uuid_str (us_id x)) (JObj []);;
        cookie ← new_refresh_session (us_id x) secret now;
        mret (create_token (uuid_str (us_id x)) now, cookie))
  end.

Definition session_of (secret : pystr) (w : accounts) : option refresh_session :=
  find_first (fun s => bool_decide (rs_token_hash s = hash_refresh_secret secret)) (ac_sessions w).
Definition revoke_session (hash : pystr) (now : usec) (l : list refresh_session) : list refresh_session :=
  map (fun s => if decide (rs_token_hash s = hash) then mk_refresh (rs_user s) (rs_token_hash s) (rs_expires_at s) (Some now) else s) l.

Definition refresh (cookie : option pystr) (secret : pystr) (now : usec) : AC (pystr * pystr) :=
  transaction (
    w ← get_st;
    match nonempty_text cookie with
    | None => http 401 (u "Refresh session is required")
    | Some old =>
        match session_of old w with
        | None => http 401 (u "Invalid or expired refresh session")
        | Some s =>
            if bool_decide (is_Some (rs_revoked_at s)) || (rs_expires_at s <=? now)%Z then http 401 (u "Invalid or expired refresh session") else
            x ← lift_result (enabled_user (rs_user s) w);
            modify_st (fun w => set_sessions (revoke_session (rs_token_hash s) now (ac_sessions w)) w);;
            replacement ← new_refresh_session (us_id x) secret now;
            mret (create_token (uuid_str (us_id x)) now, replacement)
        end
    end).

Definition logout (cookie : option pystr) (now : usec) : AC () :=
  w ← get_st;
  match nonempty_text cookie with
  | None => mret tt
  | Some old =>
      match session_of old w with
      | Some s => if bool_decide (rs_revoked_at s = None) then modify_st (fun w => set_sessions (revoke_session (rs_token_hash s) now (ac_sessions w)) w) else mret tt
      | None => mret tt
      end
  end.

Definition me (token : pystr) (now : usec) : AC user_out := x ← get_current_user token now; w ← get_st; mret (user_view w x).

(** ** [admin.py]: users and roles *)

Definition sorted_missing (wanted found : list pystr) : list pystr :=
  py_sorted str_leb (fromkeys (filter (fun s => s ∉ found) wanted)).
Definition resolve_roles (role_names : list pystr) : AC (list role) :=
  w ← get_st;
  let roles := filter (fun r => ro_name r ∈ role_names) (ac_roles w) in
  match sorted_missing role_names (map ro_name roles) with
  | [] => mret roles
  | unknown => http 400 (u "Unknown roles: " ++ py_join (u ", ") unknown)
  end.

Record user_create := mk_user_create {
  uc_username : pystr; uc_display_name : pystr; uc_email : option pystr; uc_password : pystr; uc_role_names : list pystr }.
Record user_update := mk_user_update {
  uu_display_name : option (option pystr); uu_email : option (option pystr); uu_enabled : option (option bool); uu_role_names : option (option (list pystr)) }.
Definition user_create_valid (b : user_create) : bool :=
  length_in 3 100 (uc_username b) && length_in 1 200 (uc_display_name b) && length_in 8 200 (uc_password b).
Definition user_update_valid (b : user_update) : bool :=
  match uu_display_name b with Some (Some s) => length_in 1 200 s | _ => true end.
Definition user_fits (x : user) : bool :=
  Nat.leb (length (us_username x)) 100 && Nat.leb (length (us_display_name x)) 200 && opt_within 200 (us_email x) && Nat.leb (length (us_password_hash x)) 255.

Definition list_users (token : pystr) (now : usec) : AC (list user_out) :=
  _ ← require_permission (u "user.read") token now; w ← get_st;
  mret (map (user_view w) (py_sorted (fun x y => str_leb (us_username x) (us_username y)) (ac_users w))).

(** [create_user]: [read] is the table when the name was looked up; others may
    have committed since. *)
Definition create_user (read : list user) (b : user_create) (id : N) (salt token : pystr) (now : usec) : AC user_out :=
  transaction (
    current ← require_permission (u "user.manage") token now;
    if bool_decide (is_Some (username_of (uc_username b) read)) then http 409 (u "Username already exists") else
    roles ← resolve_roles (uc_role_names b);
    h ← python (hash_password salt (uc_password b));
    let x := mk_user id (uc_username b) (uc_display_name b) (uc_email b) h true None (map ro_id roles) in
    w ← get_st;
    if negb (user_fits x) then raise (Uncaught data_error)
    else if bool_decide (is_Some (username_of (uc_username b) (ac_users w))) then raise (Uncaught (integrity_error (u "users_username_key")))
    else
      modify_st (set_users (ac_users w ++ [x]));;
      record (Some (us_id current)) (u "user.create") (u "user") (uuid_str id) (JObj [(u "username", JStr (uc_username b))]);;
      w ← get_st; mret (user_view w x)).

Definition apply_user_update (b : user_update) (roles : option (list N)) (x : user) : user :=
  mk_user (us_id x) (us_username x) (default (us_display_name x) (mjoin (uu_display_name b))) (default (us_email x) (uu_email b)) (us_password_hash x)
    (default (us_enabled x) (mjoin (uu_enabled b))) (us_last_login_at x) (default (us_roles x) roles).
Definition user_update_json (b : user_update) : json := JObj (
  sent "display_name" JStr (uu_display_name b) ++ sent "email" JStr (uu_email b) ++ sent "enabled" JBool (uu_enabled b) ++
  sent "role_names" (fun l => JList (map JStr l)) (uu_role_names b)).
Definition update_user (id : N) (b : user_update) (token : pystr) (now : usec) : AC user_out :=
  transaction (
    current ← require_permission (u "user.manage") token now;
    w ← get_st;
    match user_of id w with
    | None => http 404 (u "User not found")
    | Some x =>
        roles ← match mjoin (uu_role_names b) with Some names => l ← resolve_roles names; mret (Some (map ro_id l)) | None => mret None end;
        let x' := apply_user_update b roles x in
        record (Some (us_id current)) (u "user.update") (u "user") (uuid_str id) (user_update_json b);;
        if bool_decide (uu_display_name b = Some None) || bool_decide (uu_enabled b = Some None) then raise (Uncaught (integrity_error (u "null value in column")))
        else if negb (user_fits x') then raise (Uncaught data_error)
        else modify_st (fun w => set_users (update_user_row id (apply_user_update b roles) (ac_users w)) w);;
             w ← get_st; mret (user_view w x')
    end).

Definition role_view (r : role) : N * pystr * list pystr := (ro_id r, ro_name r, py_sorted str_leb (ro_permissions r)).
Definition list_roles (token : pystr) (now : usec) : AC (list (N * pystr * list pystr)) :=
  _ ← require_permission (u "role.manage") token now; w ← get_st;
  mret (map role_view (py_sorted (fun x y => str_leb (ro_name x) (ro_name y)) (ac_roles w))).
Definition role_of (id : N) (w : accounts) : option role := find_first (fun r => bool_decide (ro_id r = id)) (ac_roles w).
Definition update_role_row (id : N) (permissions : list pystr) (l : list role) : list role :=
  map (fun r => if decide (ro_id r = id) then mk_role (ro_id r) (ro_name r) permissions else r) l.
Definition ADMIN : pystr := u "Admin".
Definition update_role (id : N) (wanted : list pystr) (token : pystr) (now : usec) : AC (N * pystr * list pystr) :=
  transaction (
    current ← require_permission (u "role.manage") token now;
    w ← get_st;
    match role_of id w with
    | None => http 404 (u "Role not found")
    | Some r =>
        if decide (ro_name r = ADMIN) then http 400 (u "The Administrator role cannot be edited") else
        let permissions := filter (fun p => p ∈ wanted) (ac_permissions w) in
        match sorted_missing wanted permissions with
        | [] =>
            modify_st (fun w => set_roles (update_role_row id permissions (ac_roles w)) w);;
            record (Some (us_id current)) (u "role.update") (u "role") (uuid_str id)
              (JObj [(u "name", JStr (ro_name r)); (u "permissions", JList (map JStr (py_sorted str_leb permissions)))]);;
            mret (role_view (mk_role id (ro_name r) permissions))
        | unknown => http 400 (u "Unknown permissions: " ++ py_join (u ", ") unknown)
        end
    end).

(** *** Shift definitions *)

Record definition_update := mk_definition_update {
  du_start_time : option (option pystr); du_end_time : option (option pystr); du_timezone : option (option pystr); du_enabled : option (option bool) }.
Definition list_shift_definitions (token : pystr) (now : usec) : AC (list shift_definition) :=
  _ ← require_permission (u "shift.read") token now; w ← get_st;
  mret (py_sorted (fun x y => str_leb (sd_start_time x) (sd_start_time y)) (ac_definitions w)).
Definition apply_definition_update (b : definition_update) (d : shift_definition) : shift_definition :=
  mk_definition (sd_id d) (sd_name d) (default (sd_start_time d) (mjoin (du_start_time b))) (default (sd_end_time d) (mjoin (du_end_time b)))
    (default (sd_timezone d) (mjoin (du_timezone b))) (default (sd_enabled d) (mjoin (du_enabled b))).
Definition definition_update_json (b : definition_update) : json := JObj (
  sent "start_time" JStr (du_start_time b) ++ sent "end_time" JStr (du_end_time b) ++ sent "timezone" JStr (du_timezone b) ++ sent "enabled" JBool (du_enabled b)).
Definition definition_fits (d : shift_definition) : bool :=
  Nat.leb (length (sd_start_time d)) 8 && Nat.leb (length (sd_end_time d)) 8 && Nat.leb (length (sd_timezone d)) 64.
Definition update_shift_definition (id : N) (b : definition_update) (token : pystr) (now : usec) : AC shift_definition :=
  transaction (
    current ← require_permission (u "shift.manage") token now;
    w ← get_st;
    match find_first (fun d => bool_decide (sd_id d = id)) (ac_definitions w) with
    | None => http 404 (u "Shift definition not found")
    | Some d =>
        let d' := apply_definition_update b d in
        record (Some (us_id current)) (u "shift_definition.update") (u "shift_definition") (uuid_str id) (definition_update_json b);;
        if bool_decide (du_start_time b = Some None) || bool_decide (du_end_time b = Some None) || bool_decide (du_timezone b = Some None) ||
           bool_decide (du_enabled b = Some None) then raise (Uncaught (integrity_error (u "null value in column")))
        else if negb (definition_fits d') then raise (Uncaught data_error)
        else
          modify_st (fun w => set_definitions (map (fun d => if decide (sd_id d = id) then apply_definition_update b d else d) (ac_definitions w)) w);;
          mret d'
    end).

(** ** [seed.py] *)

Definition ALL_PERMISSIONS : list pystr := map u [
  "dashboard.read"; "incident.read"; "incident.create"; "incident.update"; "incident.delete"; "incident.evidence.upload"; "incident.analysis.execute";
  "report.read"; "report.generate"; "report.download"; "knowledge.read"; "analytics.read"; "user.read"; "user.manage"; "role.manage"; "shift.read";
  "shift.operate"; "shift.manage"; "system.read"; "system.configure"; "audit.read"; "skill.manage"]%string.
Definition NOC_PERMISSIONS : list pystr := map u [
  "dashboard.read"; "incident.read"; "incident.create"; "incident.update"; "incident.evidence.upload"; "incident.analysis.execute"; "report.read";
  "report.generate"; "report.download"; "knowledge.read"; "shift.read"; "shift.operate"]%string.
Definition DEVOPS_PERMISSIONS : list pystr := NOC_PERMISSIONS ++ map u ["analytics.read"; "audit.read"]%string.
Definition ROLE_PERMISSIONS : list (pystr * list pystr) :=
  [(u "NOC", NOC_PERMISSIONS); (u "DevOps", DEVOPS_PERMISSIONS); (ADMIN, ALL_PERMISSIONS)].
Definition DEFAULT_SHIFT_DEFINITIONS : list (pystr * pystr * pystr) := map (fun '(n, s, e) => (u n, u s, u e)) [
  ("Day", "08:00:00", "16:00:00"); ("Swing", "16:00:00", "00:00:00"); ("Night", "00:00:00", "08:00:00")]%string.

Definition get_or_create_permission (name : pystr) (l : list pystr) : list pystr := if decide (name ∈ l) then l else l ++ [name].
Definition role_named (name : pystr) (l : list role) : option role := find_first (fun r => bool_decide (ro_name r = name)) l.
(** [_get_or_create_role]; [id] is the key of a new row. *)
Definition get_or_create_role (id : N) (name : pystr) (names : list pystr) (w : accounts) : accounts :=
  let roles := if bool_decide (is_Some (role_named name (ac_roles w))) then ac_roles w else ac_roles w ++ [mk_role id name []] in
  let roles := map (fun r => if decide (ro_name r = name) then mk_role (ro_id r) (ro_name r) names else r) roles in
  set_roles roles (set_permissions (foldl (fun l p => get_or_create_permission p l) (ac_permissions w) names) w).
Definition seed_definition (id : N) (d : pystr * pystr * pystr) (l : list shift_definition) : list shift_definition :=
  let '(name, start_time, end_time) := d in
  if bool_decide (name ∈ map sd_name l) then l else l ++ [mk_definition id name start_time end_time (u "Asia/Manila") true].
(** [new_id] gives the keys of new rows, by their name. *)
Definition seed (new_id : pystr -> N) (salt : pystr) : M accounts pyexn () :=
  modify_st (fun w => foldl (fun w '(name, perms) => get_or_create_role (new_id name) name perms w) w ROLE_PERMISSIONS);;
  w ← get_st;
  (if bool_decide (is_Some (username_of (u "admin") (ac_users w))) then mret tt else
   h ← lift_result (hash_password salt (u "ChangeMe123!"));
   modify_st (set_users (ac_users w ++ [mk_user (new_id (u "admin")) (u "admin") (u "Administrator") (Some (u "admin@example.com")) h true None
     (map ro_id (filter (fun r => ro_name r = ADMIN) (ac_roles w)))])));;
  modify_st (fun w => set_definitions (foldl (fun l d => seed_definition (new_id (fst (fst d))) d l) (ac_definitions w) DEFAULT_SHIFT_DEFINITIONS) w).
End accounts.

(** ** Theorems *)

Lemma request_case {W A} (m : M W api_exn A) w r w' : transaction m w = (r, w') -> match r with Ok _ => m w = (r, w') | Raise _ => w' = w end.
Proof. destruct r as [a|e]; [apply transaction_ok|apply transaction_raise]. Qed.

Section authorisation.
Context `{PasswordHash, Jwt}.
Context (jwt_secret : pystr) (access_token_expire_minutes refresh_token_expire_minutes : Z).
#[local] Notation current_user := (get_current_user jwt_secret) (only parsing).
#[local] Notation permitted := (require_permission jwt_secret) (only parsing).

Lemma enabled_inv id w x : enabled_user id w = Ok x -> x ∈ ac_users w /\ us_id x = id /\ us_enabled x = true.
Proof.
  unfold enabled_user, user_of. destruct (find_first _ _) as [y|] eqn:Hy; [|done]. destruct (us_enabled y) eqn:He; [|done]. intros [= ->].
  by apply find_first_Some in Hy as [Hin Hid%bool_decide_eq_true].
Qed.

(** Who is asking is read from the token and looked up at every request. *)
Lemma current_user_inv token now w r w' : current_user token now w = (r, w') -> w' = w /\ forall x, r = Ok x ->
  exists payload, jwt_decode jwt_secret now token = Some payload /\ subject_id payload = Ok (us_id x) /\ x ∈ ac_users w /\ us_enabled x = true.
Proof.
  unfold get_current_user. intros Hr%get_st_inv. destruct (jwt_decode _ _ _) as [payload|]; [|by injection Hr as <- <-].
  case_decide as Ht; [|by injection Hr as <- <-]. apply python_step in Hr as [[-> (e & _ & ->)]|(id & Hid & Hr)]; [done|].
  unfold lift_result in Hr. injection Hr as <- <-. split; [done|]. intros x (Hin & <- & He)%enabled_inv. by exists payload.
Qed.

Lemma permission_inv p token now w r w' : permitted p token now w = (r, w') -> w' = w /\ forall x, r = Ok x ->
  x ∈ ac_users w /\ us_enabled x = true /\ p ∈ permission_names w x.
Proof.
  unfold require_permission. intros [(e & [-> _]%current_user_inv & ->)|(x & w1 & [-> Hx]%current_user_inv & Hr)]%bind_inv; [done|].
  apply get_st_inv in Hr. destruct (bool_decide _) eqn:Hp; [|by injection Hr as <- <-]. injection Hr as <- <-. split; [done|]. intros y [= <-].
  destruct (Hx x eq_refl) as (payload & _ & _ & Hin & He). split; [done|]. split; [done|]. by apply bool_decide_eq_true in Hp.
Qed.

(** A handler behind a permission: it is refused, or the handler runs for a
    user who has it. *)
Lemma guarded_inv {A} p token now (f : user -> AC A) w r w' : (x ← permitted p token now; f x) w = (r, w') ->
  (w' = w /\ exists e, r = Raise e) \/ exists x, permitted p token now w = (Ok x, w) /\ f x w = (r, w').
Proof.
  intros [(e & Hp & ->)|(x & w1 & Hp & Hr)]%bind_inv; pose proof Hp as [-> _]%permission_inv.
  - left. split; [done|by exists e].
  - right. by exists x.
Qed.

Lemma record_inv actor action resource id metadata w r w' : record actor action resource id metadata w = (r, w') ->
  (w' = w /\ exists e, r = Raise e) \/ (r = Ok () /\ exists audit, w' = set_account_audit audit w).
Proof.
  unfold record. destruct (Nat.leb _ _); [|intros [= <- <-]; left; split; [done|by eexists]].
  intros [= <- <-]. right. split; [done|by eexists].
Qed.

Lemma resolve_inv names w r w' : resolve_roles names w = (r, w') -> w' = w /\ forall l, r = Ok l -> l = filter (fun x => ro_name x ∈ names) (ac_roles w).
Proof.
  unfold resolve_roles. intros Hr%get_st_inv. cbv zeta in Hr. destruct (sorted_missing _ _) as [|s l]; injection Hr as <- <-; split; try done. by intros l [= <-].
Qed.

(** *** What each request does to the tables *)

Lemma create_user_run read b id salt token now w r w' : create_user jwt_secret read b id salt token now w = (r, w') ->
  match r with
  | Ok _ => exists current h audit, permitted (u "user.manage") token now w = (Ok current, w) /\ hash_password salt (uc_password b) = Ok h /\
      username_of (uc_username b) (ac_users w) = None /\
      w' = set_account_audit audit (set_users (ac_users w ++ [mk_user id (uc_username b) (uc_display_name b) (uc_email b) h true None
             (map ro_id (filter (fun x => ro_name x ∈ uc_role_names b) (ac_roles w)))]) w)
  | Raise _ => w' = w
  end.
Proof.
  unfold create_user. intros Hr%request_case. destruct r as [out|e]; [|done].
  apply guarded_inv in Hr as [[_ [e He]]|(current & Hp & Hr)]; [done|]. destruct (bool_decide _); [done|].
  apply bind_ok_inv in Hr as (roles & w1 & [-> Hroles]%resolve_inv & Hr). rewrite (Hroles roles eq_refl) in Hr. clear Hroles.
  apply python_step in Hr as [[_ (e & _ & He)]|(h & Hh & Hr)]; [done|]. cbv zeta in Hr. apply get_st_inv in Hr. destruct (negb _); [done|].
  destruct (bool_decide (is_Some (username_of _ (ac_users w)))) eqn:Hu; [done|]. apply bool_decide_eq_false, eq_None_not_Some in Hu.
  unfold modify_st, mbind at 1, M_bind at 1 in Hr. apply bind_ok_inv in Hr as ([] & w2 & [[_ [e He]]|[_ [audit ->]]]%record_inv & Hr); [done|].
  apply get_st_inv in Hr. injection Hr as _ <-. exists current, h, audit. by split_and!.
Qed.

Lemma update_user_run id b token now w r w' : update_user jwt_secret id b token now w = (r, w') ->
  match r with
  | Ok _ => exists current x roles audit, permitted (u "user.manage") token now w = (Ok current, w) /\ user_of id w = Some x /\
      roles = (fun names => map ro_id (filter (fun x => ro_name x ∈ names) (ac_roles w))) <$> mjoin (uu_role_names b) /\
      w' = set_account_audit audit (set_users (update_user_row id (apply_user_update b roles) (ac_users w)) w)
  | Raise _ => w' = w
  end.
Proof.
  unfold update_user. intros Hr%request_case. destruct r as [out|e]; [|done].
  apply guarded_inv in Hr as [[_ [e He]]|(current & Hp & Hr)]; [done|]. apply get_st_inv in Hr.
  destruct (user_of id w) as [x|] eqn:Hx; [|done]. apply bind_ok_inv in Hr as (roles & w1 & Hroles & Hr).
  assert (w1 = w /\ roles = (fun names => map ro_id (filter (fun x => ro_name x ∈ names) (ac_roles w))) <$> mjoin (uu_role_names b)) as [-> Hroles'].
  { destruct (mjoin (uu_role_names b)) as [names|]; [|by injection Hroles as <- <-].
    apply bind_ok_inv in Hroles as (l & w2 & [-> Hl]%resolve_inv & Hm). injection Hm as <- <-. by rewrite (Hl l eq_refl). }
  cbv zeta in Hr. apply bind_ok_inv in Hr as ([] & w2 & [[_ [e He]]|[_ [audit ->]]]%record_inv & Hr); [done|].
  destruct (_ || _); [done|]. destruct (negb _); [done|]. unfold modify_st, mbind at 1, M_bind at 1 in Hr. apply get_st_inv in Hr.
  injection Hr as _ <-. exists current, x, roles, audit. by split_and!.
Qed.

Lemma update_role_run id wanted token now w r w' : update_role jwt_secret id wanted token now w = (r, w') ->
  match r with
  | Ok _ => exists current x audit, permitted (u "role.manage") token now w = (Ok current, w) /\ role_of id w = Some x /\ ro_name x <> ADMIN /\
      w' = set_account_audit audit (set_roles (update_role_row id (filter (fun p => p ∈ wanted) (ac_permissions w)) (ac_roles w)) w)
  | Raise _ => w' = w
  end.
Proof.
  unfold update_role. intros Hr%request_case. destruct r as [out|e]; [|done].
  apply guarded_inv in Hr as [[_ [e He]]|(current & Hp & Hr)]; [done|]. apply get_st_inv in Hr.
  destruct (role_of id w) as [x|] eqn:Hx; [|done]. case_decide as Ha; [done|]. cbv zeta in Hr. destruct (sorted_missing _ _); [|done].
  unfold modify_st, mbind at 1, M_bind at 1 in Hr. apply bind_ok_inv in Hr as ([] & w2 & [[_ [e He]]|[_ [audit ->]]]%record_inv & Hr); [done|].
  injection Hr as _ <-. exists current, x, audit. by split_and!.
Qed.

Lemma update_definition_run id b token now w r w' : update_shift_definition jwt_secret id b token now w = (r, w') ->
  ac_users w' = ac_users w /\ ac_roles w' = ac_roles w /\ ac_permissions w' = ac_permissions w /\ ac_sessions w' = ac_sessions w.
Proof.
  unfold update_shift_definition. intros Hr%request_case. destruct r as [out|e]; [|by subst w'].
  apply guarded_inv in Hr as [[_ [e He]]|(current & _ & Hr)]; [done|]. apply get_st_inv in Hr. destruct (find_first _ _); [|done]. cbv zeta in Hr.
  apply bind_ok_inv in Hr as ([] & w2 & [[_ [e He]]|[_ [audit ->]]]%record_inv & Hr); [done|].
  destruct (_ || _); [done|]. destruct (negb _); [done|]. by injection Hr as _ <-.
Qed.
End authorisation.

(** *** Refresh sessions *)

(** The secret's session was ended. *)
Definition spent (hash : pystr) (l : list refresh_session) : Prop := exists s, s ∈ l /\ rs_token_hash s = hash /\ is_Some (rs_revoked_at s).
(** What a step does to the sessions. *)
Definition sessions_step (l l' : list refresh_session) : Prop :=
  (NoDup (map rs_token_hash l) -> NoDup (map rs_token_hash l')) /\ forall hash, spent hash l -> spent hash l'.

Lemma sessions_refl l : sessions_step l l.
Proof. by split. Qed.
Lemma sessions_trans l1 l2 l3 : sessions_step l1 l2 -> sessions_step l2 l3 -> sessions_step l1 l3.
Proof. intros [H12 S12] [H23 S23]. split; auto. Qed.

Lemma revoke_hashes hash now l : map rs_token_hash (revoke_session hash now l) = map rs_token_hash l.
Proof. unfold revoke_session. rewrite map_map. apply map_ext. intros s. by case_decide. Qed.
Lemma sessions_revoke hash now l : sessions_step l (revoke_session hash now l).
Proof.
  split; [by rewrite revoke_hashes|]. intros h (s & Hs & Hh & Hr). unfold revoke_session, spent.
  exists (if decide (rs_token_hash s = hash) then mk_refresh (rs_user s) (rs_token_hash s) (rs_expires_at s) (Some now) else s).
  split; [apply list_elem_of_fmap; by exists s|]. by case_decide.
Qed.
Lemma revoke_spent s now l : s ∈ l -> spent (rs_token_hash s) (revoke_session (rs_token_hash s) now l).
Proof.
  intros Hs. exists (mk_refresh (rs_user s) (rs_token_hash s) (rs_expires_at s) (Some now)). split; [|by split].
  apply list_elem_of_fmap. exists s. split; [|done]. by rewrite decide_True.
Qed.
Lemma sessions_append s l : rs_token_hash s ∉ map rs_token_hash l -> sessions_step l (l ++ [s]).
Proof.
  intros Hs. split.
  - intros Hn. rewrite map_app. apply NoDup_app. split; [done|]. split; [|apply NoDup_singleton]. by intros x Hx ->%list_elem_of_singleton.
  - intros h (t & Ht & Hr). exists t. split; [|done]. apply elem_of_app. by left.
Qed.

Section sessions.
Context `{PasswordHash, Jwt}.
Context (jwt_secret : pystr) (access_token_expire_minutes refresh_token_expire_minutes : Z).
#[local] Notation login := (login jwt_secret access_token_expire_minutes refresh_token_expire_minutes).
#[local] Notation refresh := (refresh jwt_secret access_token_expire_minutes refresh_token_expire_minutes).
#[local] Notation lifetime := (minutes refresh_token_expire_minutes).

(** A session of one user, from now on. *)
Definition session_for (user : N) (secret : pystr) (now : usec) : refresh_session := mk_refresh user (hash_refresh_secret secret) (now + lifetime)%Z None.

Lemma new_session_inv user secret now w r w' : new_refresh_session refresh_token_expire_minutes user secret now w = (r, w') ->
  (w' = w /\ exists e, r = Raise e) \/
  (r = Ok secret /\ hash_refresh_secret secret ∉ map rs_token_hash (ac_sessions w) /\ w' = set_sessions (ac_sessions w ++ [session_for user secret now]) w).
Proof.
  unfold new_refresh_session. intros Hr%get_st_inv. destruct (bool_decide _) eqn:Hb; [injection Hr as <- <-; left; split; [done|by eexists]|].
  apply bool_decide_eq_false in Hb. injection Hr as <- <-. right. by split_and!.
Qed.

Lemma login_run username password secret now w r w' : login username password secret now w = (r, w') ->
  match r with
  | Ok (access, cookie) => exists x audit, credentials username password w = Ok (Some x) /\ cookie = secret /\
      access = create_token jwt_secret access_token_expire_minutes (uuid_str (us_id x)) now /\
      hash_refresh_secret secret ∉ map rs_token_hash (ac_sessions w) /\
      w' = set_sessions (ac_sessions w ++ [session_for (us_id x) secret now])
             (set_account_audit audit (set_users (update_user_row (us_id x) (mark_login now) (ac_users w)) w))
  | Raise _ => w' = w \/ exists audit, w' = set_account_audit audit w
  end.
Proof.
  unfold Accounts.login. intros Hr%get_st_inv. apply python_step in Hr as [[-> (e & _ & ->)]|(found & Hf & Hr)]; [by left|].
  destruct found as [x|].
  - apply request_case in Hr. destruct r as [[access cookie]|e]; [|by left]. unfold modify_st, mbind at 1, M_bind at 1 in Hr.
    apply bind_ok_inv in Hr as ([] & w2 & [[_ [e He]]|[_ [audit ->]]]%record_inv & Hr); [done|].
    apply bind_ok_inv in Hr as (c & w3 & [[_ [e He]]|(Hc & Hfresh & ->)]%new_session_inv & Hr); [done|]. apply Ok_inj in Hc as ->.
    injection Hr as <- <- <-. exists x, audit. by split_and!.
  - apply bind_inv in Hr as [(e & He%request_case & ->)|([] & w2 & Ha%request_case & Hr)]; [by left|].
    apply record_inv in Ha as [[_ [e He]]|[_ [audit ->]]]; [done|]. injection Hr as <- <-. right. by exists audit.
Qed.

Lemma session_inv secret w s : session_of secret w = Some s -> s ∈ ac_sessions w /\ rs_token_hash s = hash_refresh_secret secret.
Proof. intros [Hin Hh%bool_decide_eq_true]%find_first_Some. by split. Qed.

Lemma refresh_run cookie secret now w r w' : refresh cookie secret now w = (r, w') ->
  match r with
  | Ok (access, replacement) => exists old s x, cookie = Some old /\ session_of old w = Some s /\ rs_revoked_at s = None /\ (now < rs_expires_at s)%Z /\
      enabled_user (rs_user s) w = Ok x /\ replacement = secret /\
      access = create_token jwt_secret access_token_expire_minutes (uuid_str (us_id x)) now /\
      hash_refresh_secret secret ∉ map rs_token_hash (ac_sessions w) /\
      w' = set_sessions (revoke_session (rs_token_hash s) now (ac_sessions w) ++ [session_for (us_id x) secret now]) w
  | Raise _ => w' = w
  end.
Proof.
  unfold Accounts.refresh. intros Hr%request_case. destruct r as [[access replacement]|e]; [|done]. apply get_st_inv in Hr.
  destruct (nonempty_text cookie) as [old|] eqn:Hc; [|done].
  assert (cookie = Some old) as -> by (destruct cookie as [[|c t]|]; [done|by injection Hc as <-|done]). clear Hc.
  destruct (session_of old w) as [s|] eqn:Hs; [|done]. destruct (_ || _) eqn:Hb; [done|].
  apply orb_false_iff in Hb as [Hrev%bool_decide_eq_false Hexp%Z.leb_gt]. apply eq_None_not_Some in Hrev.
  apply lift_step in Hr as [[_ (e & _ & He)]|(x & Hx & Hr)]; [done|]. unfold modify_st, mbind at 1, M_bind at 1 in Hr.
  apply bind_ok_inv in Hr as (c & w3 & [[_ [e He]]|(Hc & Hfresh & ->)]%new_session_inv & Hr); [done|]. apply Ok_inj in Hc as ->.
  injection Hr as <- <- <-. cbn [ac_sessions set_sessions] in Hfresh. rewrite revoke_hashes in Hfresh. exists old, s, x. by split_and!.
Qed.

Lemma logout_run cookie now w r w' : logout cookie now w = (r, w') -> r = Ok () /\
  (w' = w \/ exists hash, w' = set_sessions (revoke_session hash now (ac_sessions w)) w) /\
  forall secret s, cookie = Some secret -> secret <> [] -> session_of secret w = Some s -> spent (hash_refresh_secret secret) (ac_sessions w').
Proof.
  unfold logout. intros Hr%get_st_inv. destruct (nonempty_text cookie) as [old|] eqn:Hc.
  - assert (cookie = Some old) as -> by (destruct cookie as [[|c t]|]; [done|by injection Hc as <-|done]). clear Hc.
    destruct (session_of old w) as [s|] eqn:Hs.
    + destruct (bool_decide _) eqn:Hb; injection Hr as <- <-; (split; [done|]).
      * split; [right; by eexists|]. intros secret s' [= <-] _ _. apply session_inv in Hs as [Hin <-]. by apply revoke_spent.
      * split; [by left|]. intros secret s' [= <-] _ _. apply session_inv in Hs as [Hin Hh]. exists s. split; [done|]. split; [done|].
        apply bool_decide_eq_false in Hb. by apply not_eq_None_Some.
    + injection Hr as <- <-. split; [done|]. split; [by left|]. intros secret s' [= <-] _ Hs'. congruence.
  - injection Hr as <- <-. split; [done|]. split; [by left|]. intros secret s [= ->] Hne. destruct secret; [done|discriminate Hc].
Qed.
End sessions.

(** *** Histories of requests *)

Record accounts_inv (w : accounts) : Prop := {
  ai_ids : NoDup (map us_id (ac_users w));
  ai_names : NoDup (map us_username (ac_users w));
  ai_role_ids : NoDup (map ro_id (ac_roles w));
  ai_role_names : NoDup (map ro_name (ac_roles w));
  ai_hashes : NoDup (map rs_token_hash (ac_sessions w));
  ai_user_roles : forall x r, x ∈ ac_users w -> r ∈ us_roles x -> r ∈ map ro_id (ac_roles w);
  ai_permissions : forall r p, r ∈ ac_roles w -> p ∈ ro_permissions r -> p ∈ ac_permissions w;
}.

(** What an account is made of, besides its last login. *)
Definition identity (x : user) : N * pystr * pystr := (us_id x, us_username x, us_password_hash x).
Definition rights (x : user) : N * pystr * pystr * bool * list N := (identity x, us_enabled x, us_roles x).

Section steps.
Context `{PasswordHash, Jwt}.
Context (jwt_secret : pystr) (access_token_expire_minutes refresh_token_expire_minutes : Z).
#[local] Notation login := (login jwt_secret access_token_expire_minutes refresh_token_expire_minutes).
#[local] Notation refresh := (refresh jwt_secret access_token_expire_minutes refresh_token_expire_minutes).
#[local] Notation permitted := (require_permission jwt_secret) (only parsing).

Inductive account_step (w w' : accounts) : Prop :=
| step_login username password secret now r : login username password secret now w = (r, w') -> account_step w w'
| step_refresh cookie secret now r : refresh cookie secret now w = (r, w') -> account_step w w'
| step_logout cookie now r : logout cookie now w = (r, w') -> account_step w w'
| step_create_user read b id salt token now r : id ∉ map us_id (ac_users w) -> create_user jwt_secret read b id salt token now w = (r, w') -> account_step w w'
| step_update_user id b token now r : update_user jwt_secret id b token now w = (r, w') -> account_step w w'
| step_update_role id wanted token now r : update_role jwt_secret id wanted token now w = (r, w') -> account_step w w'
| step_definition id b token now r : update_shift_definition jwt_secret id b token now w = (r, w') -> account_step w w'.

(** The tables after a request, by what can have changed. *)
Inductive changed (w w' : accounts) : Prop :=
| changed_sessions : ac_users w' = ac_users w -> ac_roles w' = ac_roles w -> ac_permissions w' = ac_permissions w ->
    sessions_step (ac_sessions w) (ac_sessions w') -> changed w w'
| changed_login id now : ac_users w' = update_user_row id (mark_login now) (ac_users w) -> ac_roles w' = ac_roles w -> ac_permissions w' = ac_permissions w ->
    sessions_step (ac_sessions w) (ac_sessions w') -> changed w w'
| changed_user_added token now current x : permitted (u "user.manage") token now w = (Ok current, w) -> us_id x ∉ map us_id (ac_users w) ->
    us_username x ∉ map us_username (ac_users w) -> (forall r, r ∈ us_roles x -> r ∈ map ro_id (ac_roles w)) ->
    ac_users w' = ac_users w ++ [x] -> ac_roles w' = ac_roles w -> ac_permissions w' = ac_permissions w -> ac_sessions w' = ac_sessions w -> changed w w'
| changed_user token now current id b roles : permitted (u "user.manage") token now w = (Ok current, w) ->
    (forall l r, roles = Some l -> r ∈ l -> r ∈ map ro_id (ac_roles w)) ->
    ac_users w' = update_user_row id (apply_user_update b roles) (ac_users w) -> ac_roles w' = ac_roles w -> ac_permissions w' = ac_permissions w ->
    ac_sessions w' = ac_sessions w -> changed w w'
| changed_role token now current id x permissions : permitted (u "role.manage") token now w = (Ok current, w) ->
    role_of id w = Some x -> ro_name x <> ADMIN -> (forall p, p ∈ permissions -> p ∈ ac_permissions w) ->
    ac_roles w' = update_role_row id permissions (ac_roles w) -> ac_users w' = ac_users w -> ac_permissions w' = ac_permissions w ->
    ac_sessions w' = ac_sessions w -> changed w w'.

Lemma changed_same w w' : ac_users w' = ac_users w -> ac_roles w' = ac_roles w -> ac_permissions w' = ac_permissions w -> ac_sessions w' = ac_sessions w ->
  changed w w'.
Proof. intros Hu Hr Hp Hs. apply changed_sessions; try done. rewrite Hs. apply sessions_refl. Qed.

Lemma role_ids_of (names : list pystr) (l : list role) r : r ∈ map ro_id (filter (fun x => ro_name x ∈ names) l) -> r ∈ map ro_id l.
Proof. intros (x & -> & [_ Hx]%list_elem_of_filter)%list_elem_of_fmap. by apply list_elem_of_fmap_2. Qed.

Lemma step_changed w w' : account_step w w' -> changed w w'.
Proof.
  intros [username password secret now r Hr|cookie secret now r Hr|cookie now r Hr|read b id salt token now r Hid Hr|id b token now r Hr|id wanted token now r Hr|id b token now r Hr].
  - apply login_run in Hr. destruct r as [[access cookie]|e]; [|destruct Hr as [->|[audit ->]]; by apply changed_same].
    destruct Hr as (x & audit & _ & _ & _ & Hfresh & ->). eapply changed_login; try done. by apply sessions_append.
  - apply refresh_run in Hr. destruct r as [[access replacement]|e]; [|subst w'; by apply changed_same].
    destruct Hr as (old & s & x & _ & _ & _ & _ & _ & _ & _ & Hfresh & ->). apply changed_sessions; try done. cbn [ac_sessions set_sessions].
    eapply sessions_trans; [apply sessions_revoke|]. apply sessions_append. by rewrite revoke_hashes.
  - apply logout_run in Hr as (_ & [->|[hash ->]] & _); [by apply changed_same|]. apply changed_sessions; try done. apply sessions_revoke.
  - apply create_user_run in Hr. destruct r as [out|e]; [|subst w'; by apply changed_same].
    destruct Hr as (current & h & audit & Hp & _ & Hname & ->). eapply changed_user_added; [exact Hp| | | |reflexivity|done..].
    + exact Hid.
    + cbn [us_username]. intros (x & E & Hx)%list_elem_of_fmap. unfold username_of in Hname.
      apply (proj1 (find_first_None _ _) Hname) in Hx. by rewrite bool_decide_eq_true_2 in Hx.
    + intros r. apply role_ids_of.
  - apply update_user_run in Hr. destruct r as [out|e]; [|subst w'; by apply changed_same].
    destruct Hr as (current & x & roles & audit & Hp & _ & -> & ->). eapply changed_user; [exact Hp| |done..].
    intros l r Hl. destruct (mjoin (uu_role_names b)) as [names|]; [|done]. injection Hl as <-. apply role_ids_of.
  - apply update_role_run in Hr. destruct r as [out|e]; [|subst w'; by apply changed_same].
    destruct Hr as (current & x & audit & Hp & Hx & Ha & ->). eapply changed_role; [exact Hp|exact Hx|exact Ha| |done..].
    by intros p [_ ?]%list_elem_of_filter.
  - apply update_definition_run in Hr as (Hu & Hro & Hp & Hs). by apply changed_same.
Qed.

Lemma updated_users {B} (g : user -> B) id f l : (forall x, g (f x) = g x) -> map g (update_user_row id f l) = map g l.
Proof. intros Hf. unfold update_user_row. rewrite map_map. apply map_ext. intros x. by case_decide. Qed.
Lemma updated_roles {B} (g : role -> B) id perms l : (forall x, g (mk_role (ro_id x) (ro_name x) perms) = g x) -> map g (update_role_row id perms l) = map g l.
Proof. intros Hf. unfold update_role_row. rewrite map_map. apply map_ext. intros x. by case_decide. Qed.

Lemma changed_inv w w' : changed w w' -> accounts_inv w -> accounts_inv w'.
Proof.
  intros Hc [I1 I2 I3 I4 I5 I6 I7].
  destruct Hc as [Hu Hr Hp [Hs _]|id now Hu Hr Hp [Hs _]|token now current x _ Hid Hn Hx Hu Hr Hp Hs|token now current id b roles _ Hro Hu Hr Hp Hs|token now current id x permissions _ Hx Ha Hper Hr Hu Hp Hs];
    split; rewrite ?Hu, ?Hr, ?Hp; rewrite ?Hs; auto; rewrite ?updated_users, ?updated_roles by done; auto.
  - intros y r (z & -> & Hz)%list_elem_of_fmap Hy. apply (I6 z); [done|]. by case_decide.
  - rewrite map_app. apply NoDup_app. split; [done|]. split; [|apply NoDup_singleton]. by intros y Hy ->%list_elem_of_singleton.
  - rewrite map_app. apply NoDup_app. split; [done|]. split; [|apply NoDup_singleton]. by intros y Hy ->%list_elem_of_singleton.
  - intros y r [Hy| ->%list_elem_of_singleton]%elem_of_app; [by apply I6|apply Hx].
  - intros y r (z & -> & Hz)%list_elem_of_fmap. case_decide; [|by apply (I6 z)]. unfold apply_user_update. cbn [us_roles].
    destruct roles as [l|]; [|by apply (I6 z)]. by apply Hro.
  - intros r p (z & -> & Hz)%list_elem_of_fmap. case_decide; [|by apply I7]. apply Hper.
Qed.

(** C18. Through any requests, refused ones included: user and role keys, user
    names, role names and refresh digests stay distinct; users hold existing
    roles and roles existing permissions; no account is removed, renamed or
    given another password, and the permissions of the administrator role stay
    as they are. *)
Theorem account_history w w' : rtc account_step w w' -> accounts_inv w -> accounts_inv w' /\
  map identity (ac_users w) `prefix_of` map identity (ac_users w') /\ (forall r, r ∈ ac_roles w -> ro_name r = ADMIN -> r ∈ ac_roles w').
Proof.
  intros Hs. induction Hs as [w|w w1 w' Hs%step_changed _ IH]; [done|]. intros Hw. destruct (IH (changed_inv _ _ Hs Hw)) as (Hw' & Hids & Hadmin).
  split; [done|]. clear IH Hw'. split.
  - etrans; [|exact Hids]. destruct Hs as [Hu _ _ _|id now Hu _ _ _|token now current x _ _ _ _ Hu _ _ _|token now current id b roles _ _ Hu _ _ _|token now current id x permissions _ _ _ _ _ Hu _ _]; rewrite Hu;
      rewrite ?updated_users by done; try done. rewrite map_app. by apply prefix_app_r.
  - intros r Hr Ha. apply Hadmin; [|done]. destruct Hs as [_ Hro _ _|id now _ Hro _ _|token now current x _ _ _ _ _ Hro _ _|token now current id b roles _ _ _ Hro _ _|token now current id x permissions _ Hx Hna _ Hro _ _ _]; rewrite Hro; try done.
    apply list_elem_of_fmap. exists r. split; [|done]. rewrite decide_False; [done|]. intros <-. unfold role_of in Hx.
    apply find_first_Some in Hx as [Hin Hid%bool_decide_eq_true].
    assert (x = r); [|by subst]. apply (list_key_unique ro_id (ac_roles w)); try done. apply Hw.
Qed.

(** A request with its body, and the token it carries: the forms of a session
    carry none.  [read] and the generated keys are as in the handlers. *)
Inductive account_request :=
  | Login (username password secret : pystr)
  | Refresh (cookie : option pystr) (secret : pystr)
  | Logout (cookie : option pystr)
  | CreateUser (read : list user) (body : user_create) (id : N) (salt token : pystr)
  | UpdateUser (id : N) (body : user_update) (token : pystr)
  | UpdateRole (id : N) (wanted : list pystr) (token : pystr)
  | UpdateDefinition (id : N) (body : definition_update) (token : pystr).
Definition request_token (q : account_request) : option pystr :=
  match q with
  | CreateUser _ _ _ _ token | UpdateUser _ _ token | UpdateRole _ _ token | UpdateDefinition _ _ token => Some token
  | _ => None
  end.
(** The tables after the request was served at [now]. *)
Definition serve (q : account_request) (now : usec) (w : accounts) : accounts :=
  match q with
  | Login username password secret => snd (login username password secret now w)
  | Refresh cookie secret => snd (refresh cookie secret now w)
  | Logout cookie => snd (logout cookie now w)
  | CreateUser read b id salt token => snd (create_user jwt_secret read b id salt token now w)
  | UpdateUser id b token => snd (update_user jwt_secret id b token now w)
  | UpdateRole id wanted token => snd (update_role jwt_secret id wanted token now w)
  | UpdateDefinition id b token => snd (update_shift_definition jwt_secret id b token now w)
  end.

(** [token], at [now], is an access token of an enabled user who has the
    permission. *)
Definition authorized (permission token : pystr) (now : usec) (w : accounts) : Prop := exists payload x,
  jwt_decode jwt_secret now token = Some payload /\ assoc (u "type") payload = Some (JStr (u "access")) /\ subject_id payload = Ok (us_id x) /\
  x ∈ ac_users w /\ us_enabled x = true /\ permission ∈ permission_names w x.
Lemma permitted_authorized p token now w x : permitted p token now w = (Ok x, w) -> authorized p token now w.
Proof.
  intros Hp. pose proof (permission_inv jwt_secret _ _ _ _ _ _ Hp) as [_ Hx]. destruct (Hx x eq_refl) as (Hin & He & Hhas).
  unfold require_permission in Hp. apply bind_ok_inv in Hp as (y & w1 & Hy & Hp). pose proof (current_user_inv jwt_secret _ _ _ _ _ Hy) as [-> Hy'].
  destruct (Hy' y eq_refl) as (payload & Hd & Hsub & _ & _). apply get_st_inv in Hp. destruct (bool_decide _); [|discriminate Hp]. injection Hp as <-.
  exists payload, y. split; [done|]. split; [|by split_and!]. unfold get_current_user in Hy. apply get_st_inv in Hy. rewrite Hd in Hy.
  case_decide as Ht; [done|discriminate Hy].
Qed.

(** C19. Rights change only at the hands of somebody who may change them: if
    the roles differ after a request, its own token was, at the moment of the
    request, an unexpired access token of an enabled user who had role.manage;
    if the accounts' passwords, roles or enabled flags differ, one of an enabled
    user who had user.manage. *)
Theorem rights_guarded q now w :
  (ac_roles (serve q now w) <> ac_roles w -> exists token, request_token q = Some token /\ authorized (u "role.manage") token now w) /\
  (map rights (ac_users (serve q now w)) <> map rights (ac_users w) -> exists token, request_token q = Some token /\ authorized (u "user.manage") token now w).
Proof.
  destruct q as [username password secret|cookie secret|cookie|read b id salt token|id b token|id wanted token|id b token]; cbn [serve request_token].
  - destruct (login _ _ _ _ w) as [r w'] eqn:E. apply login_run in E. cbn [snd].
    destruct r as [[access cookie]|e]; [|by destruct E as [->|[audit ->]]]. destruct E as (x & audit & _ & _ & _ & _ & ->). split; [done|].
    cbn [ac_users set_sessions set_account_audit set_users]. by rewrite updated_users.
  - destruct (refresh _ _ _ w) as [r w'] eqn:E. apply refresh_run in E. cbn [snd]. destruct r as [[access replacement]|e]; [|by subst w'].
    by destruct E as (old & s & x & _ & _ & _ & _ & _ & _ & _ & _ & ->).
  - destruct (logout _ _ w) as [r w'] eqn:E. by apply logout_run in E as (_ & [->|[hash ->]] & _).
  - destruct (create_user _ _ _ _ _ _ _ w) as [r w'] eqn:E. apply create_user_run in E. cbn [snd]. destruct r as [out|e]; [|by subst w'].
    destruct E as (current & h & audit & Hp & _ & _ & ->). split; [done|]. intros _. exists token. split; [done|by eapply permitted_authorized].
  - destruct (update_user _ _ _ _ _ w) as [r w'] eqn:E. apply update_user_run in E. cbn [snd]. destruct r as [out|e]; [|by subst w'].
    destruct E as (current & x & roles & audit & Hp & _ & -> & ->). split; [done|]. intros _. exists token. split; [done|by eapply permitted_authorized].
  - destruct (update_role _ _ _ _ _ w) as [r w'] eqn:E. apply update_role_run in E. cbn [snd]. destruct r as [out|e]; [|by subst w'].
    destruct E as (current & x & audit & Hp & _ & _ & ->). split; [|done]. intros _. exists token. split; [done|by eapply permitted_authorized].
  - destruct (update_shift_definition _ _ _ _ _ w) as [r w'] eqn:E. apply update_definition_run in E as (Hu & Hro & _ & _). cbn [snd]. by rewrite Hu, Hro.
Qed.

(** C20. A refresh credential is used once: when it was accepted, or its owner
    logged out, no later request accepts it again, whatever happens in
    between. *)
Theorem refresh_single_use secret replacement now w res w1 w2 replacement' now' r w3 : accounts_inv w -> secret <> [] -> is_Some (session_of secret w) ->
  refresh (Some secret) replacement now w = (Ok res, w1) \/ logout (Some secret) now w = (Ok (), w1) ->
  rtc account_step w1 w2 -> refresh (Some secret) replacement' now' w2 = (r, w3) ->
  r = Raise (HttpException 401 (JStr (u "Invalid or expired refresh session"))) /\ w3 = w2.
Proof.
  intros Hw Hne [s0 Hs0] Hend Hs Hr.
  assert (H1 : accounts_inv w1 /\ spent (hash_refresh_secret secret) (ac_sessions w1)).
  { split.
    - destruct Hend as [Hr1|Hr1]; (eapply changed_inv; [apply step_changed|exact Hw]); [by eapply step_refresh|by eapply step_logout].
    - destruct Hend as [Hr1|Hr1].
      + apply refresh_run in Hr1. destruct res as [access rep]. destruct Hr1 as (old & s & x & [= <-] & Hsess & _ & _ & _ & _ & _ & Hf & ->).
        apply session_inv in Hsess as [Hin Hh]. cbn [ac_sessions set_sessions]. rewrite <- Hh.
        apply (sessions_append (session_for refresh_token_expire_minutes (us_id x) replacement now)); [by rewrite revoke_hashes|].
        by apply revoke_spent.
      + apply logout_run in Hr1 as (_ & _ & Hsp). by eapply Hsp. }
  assert (H2 : accounts_inv w2 /\ spent (hash_refresh_secret secret) (ac_sessions w2)).
  { clear Hr Hend Hw Hs0. induction Hs as [w1|w1 w' w2 Hst%step_changed _ IH]; [done|]. apply IH. destruct H1 as [Hinv Hsp].
    split; [by eapply changed_inv|].
    destruct Hst as [_ _ _ [_ Hss]|id now1 _ _ _ [_ Hss]|token now1 current x _ _ _ _ _ _ _ Hss|token now1 current id b roles _ _ _ _ _ Hss|token now1 current id x permissions _ _ _ _ _ _ _ Hss];
      try rewrite Hss; auto. }
  assert (Htext : nonempty_text (Some secret) = Some secret) by (clear -Hne; by destruct secret).
  destruct H2 as [Hw2 (s & Hin & Hh & Hrev)]. revert Hr. unfold Accounts.refresh, transaction, mbind, M_bind, get_st. rewrite Htext.
  destruct (session_of secret w2) as [s'|] eqn:Hs'; [|intros [= <- <-]; split; exact eq_refl].
  apply session_inv in Hs' as [Hin' Hh']. rewrite <- Hh in Hh'.
  rewrite (list_key_unique rs_token_hash (ac_sessions w2) s' s (ai_hashes _ Hw2) Hin' Hin Hh').
  rewrite bool_decide_eq_true_2 by exact Hrev. cbn [orb]. intros [= <- <-]. split; exact eq_refl.
Qed.
End steps.

(** *** Signing in *)

Section signing_in.
Context `{PasswordHash, Jwt}.
Context (jwt_secret : pystr) (access_token_expire_minutes refresh_token_expire_minutes : Z).
#[local] Notation login := (login jwt_secret access_token_expire_minutes refresh_token_expire_minutes).
#[local] Notation refresh := (refresh jwt_secret access_token_expire_minutes refresh_token_expire_minutes).
#[local] Notation permitted := (require_permission jwt_secret) (only parsing).

(** The claims of an issued token, read back before they expire. *)
Lemma claims_wire_ok subject kind expire : Forall scalar_value subject -> Forall scalar_value kind -> wire_ok (JObj (token_claims subject kind expire)).
Proof.
  intros Hs Hk. apply wire_ok_obj. split; [apply (bool_decide_unpack _); vm_compute; exact I|].
  assert (Hkeys : Forall (fun k => Forall scalar_value (u k)) ["sub"; "type"; "exp"]%string).
  { repeat apply Forall_cons_2; try apply Forall_nil_2; apply (bool_decide_unpack _); vm_compute; exact I. }
  rewrite !Forall_cons in Hkeys. destruct Hkeys as (K1 & K2 & K3 & _). unfold token_claims. rewrite !Forall_cons. cbn [fst snd wire_with].
  split_and!; (exact K1 || exact K2 || exact K3 || exact Hs || exact Hk || exact I || apply Forall_nil_2).
Qed.

Lemma token_read subject issued now : Forall scalar_value subject -> (seconds now <= seconds (issued + minutes access_token_expire_minutes))%Z ->
  jwt_decode jwt_secret now (create_token jwt_secret access_token_expire_minutes subject issued) =
    Some (token_claims subject (u "access") (issued + minutes access_token_expire_minutes)%Z).
Proof.
  intros Hs Hle. unfold create_token. erewrite jwt_roundtrip; [|apply claims_wire_ok; [exact Hs|]|exact eq_refl].
  - by rewrite (proj2 (Z.ltb_ge _ _)).
  - apply (bool_decide_unpack _). vm_compute. exact I.
Qed.

Lemma user_of_unique w x : NoDup (map us_id (ac_users w)) -> x ∈ ac_users w -> user_of (us_id x) w = Some x.
Proof.
  intros Hn Hx. unfold user_of. destruct (find_first _ _) as [y|] eqn:Hy.
  - apply find_first_Some in Hy as [Hin Hid%bool_decide_eq_true]. f_equal. by apply (list_key_unique us_id (ac_users w)).
  - apply (proj1 (find_first_None _ _) Hy) in Hx. by rewrite bool_decide_eq_true_2 in Hx.
Qed.
Lemma username_unique name (l : list user) x : NoDup (map us_username l) -> x ∈ l -> us_username x = name -> username_of name l = Some x.
Proof.
  intros Hn Hx Hname. unfold username_of. destruct (find_first _ _) as [y|] eqn:Hy.
  - apply find_first_Some in Hy as [Hin Hid%bool_decide_eq_true]. f_equal. apply (list_key_unique us_username l); [done..|congruence].
  - apply (proj1 (find_first_None _ _) Hy) in Hx. by rewrite bool_decide_eq_true_2 in Hx.
Qed.

Lemma subject_read n kind expire : (n < 2 ^ 128)%N -> subject_id (token_claims (uuid_str n) kind expire) = Ok n.
Proof. intros Hn. unfold subject_id, token_claims. cbn [assoc]. rewrite decide_True by exact eq_refl. by rewrite uuid_parse_str. Qed.

(** A token issued for an enabled account answers every request for a
    permission by what the account's roles hold at that time. *)
Lemma token_permits x issued now p w : NoDup (map us_id (ac_users w)) -> (us_id x < 2 ^ 128)%N -> x ∈ ac_users w -> us_enabled x = true ->
  (seconds now <= seconds (issued + minutes access_token_expire_minutes))%Z ->
  permitted p (create_token jwt_secret access_token_expire_minutes (uuid_str (us_id x)) issued) now w =
    ((if bool_decide (p ∈ permission_names w x) then Ok x else Raise (HttpException 403 (JStr (u "Missing permission: " ++ p)))), w).
Proof.
  intros Hn Hid Hx He Hle. unfold require_permission, get_current_user, mbind, M_bind, get_st. rewrite token_read by (done || apply uuid_str_ascii).
  rewrite decide_True by exact eq_refl. unfold python, lift_result.
  rewrite subject_read by done. cbn [api_result]. unfold enabled_user. rewrite user_of_unique, He by done.
  by destruct (bool_decide _).
Qed.

Lemma permissions_elem roles ids p : p ∈ permissions_in roles ids <-> exists r, r ∈ roles /\ ro_id r ∈ ids /\ p ∈ ro_permissions r.
Proof.
  unfold permissions_in. rewrite elem_of_fromkeys. rewrite list_elem_of_join. split.
  - intros (l & Hp & (r & -> & [Hid Hr]%list_elem_of_filter)%list_elem_of_fmap). by exists r.
  - intros (r & Hr & Hid & Hp). exists (ro_permissions r). split; [done|]. apply list_elem_of_fmap. exists r. split; [done|]. by apply list_elem_of_filter.
Qed.

(** An account an administrator created signs in with its name and
    password, and until it expires the token it gets is accepted for exactly
    the permissions of the roles that were named. *)
Theorem created_account_signs_in read b id salt token now out secret login_at w w1 : accounts_inv w -> (id < 2 ^ 128)%N -> id ∉ map us_id (ac_users w) ->
  create_user jwt_secret read b id salt token now w = (Ok out, w1) -> hash_refresh_secret secret ∉ map rs_token_hash (ac_sessions w1) ->
  exists access w2 x, login (uc_username b) (uc_password b) secret login_at w1 = (Ok (access, secret), w2) /\ us_id x = id /\
    forall p at_time, (seconds at_time <= seconds (login_at + minutes access_token_expire_minutes))%Z ->
      permitted p access at_time w2 = (if bool_decide (p ∈ permission_names w2 x) then Ok x else Raise (HttpException 403 (JStr (u "Missing permission: " ++ p))), w2) /\
      (p ∈ permission_names w2 x <-> exists r, r ∈ ac_roles w /\ ro_name r ∈ uc_role_names b /\ p ∈ ro_permissions r).
Proof.
  intros Hw Hid Hfresh Hc Hsecret.
  assert (Hw1 : accounts_inv w1).
  { eapply changed_inv; [|exact Hw]. eapply (step_changed jwt_secret access_token_expire_minutes refresh_token_expire_minutes).
    eapply step_create_user; [exact Hfresh|exact Hc]. }
  apply create_user_run in Hc as (current & h & audit & _ & Hh & _ & Hw1').
  set (ids := map ro_id (filter (fun x => ro_name x ∈ uc_role_names b) (ac_roles w))) in Hw1'.
  set (x := mk_user id (uc_username b) (uc_display_name b) (uc_email b) h true None ids) in Hw1'.
  assert (Hx : x ∈ ac_users w1) by (rewrite Hw1'; apply elem_of_app; right; by apply list_elem_of_singleton).
  assert (Hroles : ac_roles w1 = ac_roles w) by (by rewrite Hw1').
  assert (Hcred : credentials (uc_username b) (uc_password b) w1 = Ok (Some x)).
  { unfold credentials. rewrite (username_unique (uc_username b) _ x (ai_names _ Hw1) Hx eq_refl). cbn [us_enabled us_password_hash x].
    by rewrite (verify_hashed _ _ _ Hh). }
  destruct (login (uc_username b) (uc_password b) secret login_at w1) as [r w2] eqn:Hl.
  assert (Hok : is_ok r).
  { revert Hl. unfold Accounts.login, mbind, M_bind, get_st, python, lift_result, transaction, modify_st, record. rewrite Hcred. cbn [api_result].
    rewrite length_uuid_str. cbn [Nat.leb]. unfold modify_st, new_refresh_session, mbind, M_bind, get_st. cbn [ac_sessions set_account_audit set_users].
    rewrite bool_decide_eq_false_2 by exact Hsecret. intros [= <- _]. exact I. }
  destruct r as [[access cookie]|e]; [|done]. apply login_run in Hl as (x' & audit' & Hcred' & -> & -> & _ & Hw2). rewrite Hcred in Hcred'. apply Ok_inj in Hcred'. injection Hcred' as <-.
  exists (create_token jwt_secret access_token_expire_minutes (uuid_str (us_id x)) login_at), w2, (mark_login login_at x).
  split; [done|]. split; [done|]. intros p at_time Hle. split.
  - apply (token_permits (mark_login login_at x)); try done.
    + rewrite Hw2. cbn [ac_users set_sessions set_account_audit set_users]. rewrite updated_users by done. apply Hw1.
    + rewrite Hw2. cbn [ac_users set_sessions set_account_audit set_users]. apply list_elem_of_fmap. exists x. split; [by rewrite decide_True|done].
  - unfold permission_names. rewrite permissions_elem. rewrite Hw2. cbn [ac_roles set_sessions set_account_audit set_users us_roles mark_login x]. rewrite Hroles. split.
    + intros (r & Hr & (r' & Er & [Hn Hr']%list_elem_of_filter)%list_elem_of_fmap & Hp). exists r. split; [done|]. split; [|done].
      by rewrite (list_key_unique ro_id (ac_roles w) r r' (ai_role_ids _ Hw) Hr Hr' Er).
    + intros (r & Hr & Hn & Hp). exists r. split; [done|]. split; [|done]. apply list_elem_of_fmap. exists r. split; [done|]. by apply list_elem_of_filter.
Qed.

(** An account that was disabled is shut out at once: no password signs it
    in, no token speaks for it and no session of it is renewed. *)
Theorem disabled_account_shut_out id b token now out w w1 : accounts_inv w -> uu_enabled b = Some (Some false) ->
  update_user jwt_secret id b token now w = (Ok out, w1) ->
  (forall x, user_of id w1 = Some x -> forall password secret at_time res w2, login (us_username x) password secret at_time w1 <> (Ok res, w2)) /\
  (forall any at_time x w2, get_current_user jwt_secret any at_time w1 = (Ok x, w2) -> us_id x <> id) /\
  (forall cookie s secret at_time res w2, session_of cookie w1 = Some s -> rs_user s = id -> refresh (Some cookie) secret at_time w1 <> (Ok res, w2)).
Proof.
  intros Hw Hb Hu.
  assert (Hw1 : accounts_inv w1).
  { eapply changed_inv; [|exact Hw]. eapply (step_changed jwt_secret access_token_expire_minutes refresh_token_expire_minutes).
    eapply step_update_user; exact Hu. }
  apply update_user_run in Hu as (current & x0 & roles & audit & _ & Hx0 & _ & ->).
  assert (Hoff : forall x, x ∈ ac_users (set_account_audit audit (set_users (update_user_row id (apply_user_update b roles) (ac_users w)) w)) ->
    us_id x = id -> us_enabled x = false).
  { intros x (y & -> & Hy)%list_elem_of_fmap. case_decide as Hid; [|done]. intros _. unfold apply_user_update. cbn [us_enabled]. by rewrite Hb. }
  split; [|split].
  - intros x [Hin Hid%bool_decide_eq_true]%find_first_Some password secret at_time [access cookie] w2 (y & audit' & Hc & _)%login_run.
    unfold credentials in Hc. rewrite (username_unique _ _ x (ai_names _ Hw1) Hin eq_refl), (Hoff x Hin Hid) in Hc. discriminate Hc.
  - intros any at_time x w2 [_ Hx]%current_user_inv Hid. destruct (Hx x eq_refl) as (payload & _ & _ & Hin & He). by rewrite (Hoff x Hin Hid) in He.
  - intros cookie s secret at_time [access replacement] w2 Hs Hid (old & s' & x & [= <-] & Hs' & _ & _ & Hx & _)%refresh_run.
    rewrite Hs in Hs'. injection Hs' as <-. apply enabled_inv in Hx as (Hin & Hxid & He). rewrite (Hoff x Hin) in He; [done|congruence].
Qed.
End signing_in.

(** *** Seeding *)

(** A role of that name exists and holds exactly these permissions. *)
Definition seeded (name : pystr) (perms : list pystr) (w : accounts) : Prop :=
  is_Some (role_named name (ac_roles w)) /\ (forall r, r ∈ ac_roles w -> ro_name r = name -> ro_permissions r = perms) /\
  forall p, p ∈ perms -> p ∈ ac_permissions w.

Lemma permissions_created (perms l : list pystr) : let l' := foldl (fun l p => get_or_create_permission p l) l perms in
  (forall p, p ∈ l -> p ∈ l') /\ forall p, p ∈ perms -> p ∈ l'.
Proof.
  revert l. induction perms as [|q perms IH]; intros l; [split; [done|by intros p Hp%elem_of_nil]|]. cbn [foldl].
  destruct (IH (get_or_create_permission q l)) as [Hkeep Hnew].
  assert (Hq : forall p, p ∈ l \/ p = q -> p ∈ get_or_create_permission q l).
  { intros p Hp. unfold get_or_create_permission. case_decide; [by destruct Hp as [?| ->]|]. rewrite elem_of_app, list_elem_of_singleton. tauto. }
  split; intros p Hp; [by apply Hkeep, Hq; left|]. apply elem_of_cons in Hp as [->|Hp]; [by apply Hkeep, Hq; right|by apply Hnew].
Qed.
Lemma permissions_there (perms l : list pystr) : (forall p, p ∈ perms -> p ∈ l) -> foldl (fun l p => get_or_create_permission p l) l perms = l.
Proof.
  induction perms as [|q perms IH]; intros Hall; [done|]. cbn [foldl]. unfold get_or_create_permission at 2. rewrite decide_True by (apply Hall; by left).
  apply IH. intros p Hp. apply Hall. by right.
Qed.

Lemma role_named_spec name (l : list role) : is_Some (role_named name l) <-> name ∈ map ro_name l.
Proof.
  unfold role_named. split.
  - intros [r [Hr <-%bool_decide_eq_true]%find_first_Some]. by apply list_elem_of_fmap_2.
  - intros (r & -> & Hr)%list_elem_of_fmap. destruct (find_first _ _) as [x|] eqn:Hx; [by eexists|].
    apply (proj1 (find_first_None _ _) Hx) in Hr. by rewrite bool_decide_eq_true_2 in Hr.
Qed.

(** The roles of [get_or_create_role] before they get their permissions. *)
Definition with_role (id : N) (name : pystr) (l : list role) : list role :=
  if bool_decide (is_Some (role_named name l)) then l else l ++ [mk_role id name []].
Definition grant (name : pystr) (perms : list pystr) (l : list role) : list role :=
  map (fun r => if decide (ro_name r = name) then mk_role (ro_id r) (ro_name r) perms else r) l.

Lemma grant_names name perms l : map ro_name (grant name perms l) = map ro_name l.
Proof. unfold grant. rewrite map_map. apply map_ext. intros r. by case_decide. Qed.
Lemma with_role_names id name l n : n ∈ map ro_name (with_role id name l) <-> n = name \/ n ∈ map ro_name l.
Proof.
  unfold with_role. case_bool_decide as Hn.
  - apply role_named_spec in Hn. split; [tauto|]. by intros [->|?].
  - rewrite map_app, elem_of_app. cbn [map ro_name]. rewrite list_elem_of_singleton. tauto.
Qed.

Lemma role_seeded id name perms w : seeded name perms (get_or_create_role id name perms w).
Proof.
  split; [|split].
  - apply role_named_spec. change (name ∈ map ro_name (grant name perms (with_role id name (ac_roles w)))). rewrite grant_names. apply with_role_names. by left.
  - intros r (x & -> & _)%list_elem_of_fmap. by case_decide.
  - intros p Hp. by apply permissions_created.
Qed.
Lemma seeded_kept id name perms name' perms' w : name' <> name -> seeded name perms w -> seeded name perms (get_or_create_role id name' perms' w).
Proof.
  intros Hne (Hr & Hp & Hall). split; [|split].
  - apply role_named_spec. change (name ∈ map ro_name (grant name' perms' (with_role id name' (ac_roles w)))). rewrite grant_names. apply with_role_names.
    right. by apply role_named_spec.
  - intros r (x & -> & Hx)%list_elem_of_fmap. case_decide as Hn; cbn [ro_name ro_permissions]; [intros Hn'; congruence|]. intros Hn'. apply Hp; [|done].
    case_bool_decide; [done|]. apply elem_of_app in Hx as [Hx| ->%list_elem_of_singleton]; [done|]. cbn [ro_name] in Hn. done.
  - intros p Hin. apply (proj1 (permissions_created perms' _)). by apply Hall.
Qed.
Lemma seeded_same id name perms w : seeded name perms w -> get_or_create_role id name perms w = w.
Proof.
  intros (Hr & Hp & Hall). unfold get_or_create_role. rewrite bool_decide_eq_true_2 by done. rewrite permissions_there by done.
  replace (map _ (ac_roles w)) with (ac_roles w); [by destruct w|]. symmetry. rewrite <- (map_id (ac_roles w)) at 2. apply map_ext_in.
  intros r Hin%list_elem_of_In. case_decide as Hn; [|done]. rewrite <- (Hp r Hin Hn). by destruct r.
Qed.

Section seeding.
Context `{PasswordHash}.

Definition seed_roles (new_id : pystr -> N) (l : list (pystr * list pystr)) (w : accounts) : accounts :=
  foldl (fun w '(name, perms) => get_or_create_role (new_id name) name perms w) w l.

Lemma seed_roles_kept new_id l : forall w name perms, name ∉ map fst l -> seeded name perms w -> seeded name perms (seed_roles new_id l w).
Proof.
  induction l as [|[n ps] l IH]; intros w name perms Hn Hs; [done|]. cbn [seed_roles foldl]. apply not_elem_of_cons in Hn as [Hne Hn].
  apply IH; [exact Hn|]. apply seeded_kept; [|done]. cbn [fst] in Hne. congruence.
Qed.
Lemma seed_roles_seeded new_id l : forall w, NoDup (map fst l) -> forall name perms, (name, perms) ∈ l -> seeded name perms (seed_roles new_id l w).
Proof.
  induction l as [|[n ps] l IH]; intros w Hd name perms Hin; [by apply elem_of_nil in Hin|]. apply NoDup_cons in Hd as [Hn Hd].
  apply elem_of_cons in Hin as [[= -> ->]|Hin]; cbn [seed_roles foldl]; [|by apply IH]. apply seed_roles_kept; [exact Hn|]. apply role_seeded.
Qed.
Lemma seed_roles_same new_id l w : (forall name perms, (name, perms) ∈ l -> seeded name perms w) -> seed_roles new_id l w = w.
Proof.
  induction l as [|[n ps] l IH]; intros Hs; [done|]. cbn [seed_roles foldl]. rewrite seeded_same by (apply Hs; by left).
  apply IH. intros name perms Hin. apply Hs. by right.
Qed.

Lemma definitions_kept new_id l : forall ds n, n ∈ map sd_name ds -> n ∈ map sd_name (foldl (fun ds d => seed_definition (new_id (fst (fst d))) d ds) ds l).
Proof.
  induction l as [|[[name s] e] l IH]; intros ds n Hn; [done|]. cbn [foldl]. apply IH. unfold seed_definition. case_bool_decide; [done|].
  rewrite map_app, elem_of_app. by left.
Qed.
Lemma definitions_seeded new_id l : forall ds d, d ∈ l -> fst (fst d) ∈ map sd_name (foldl (fun ds d => seed_definition (new_id (fst (fst d))) d ds) ds l).
Proof.
  induction l as [|[[name s] e] l IH]; intros ds d Hd; [by apply elem_of_nil in Hd|]. cbn [foldl].
  apply elem_of_cons in Hd as [->|Hd]; [|by apply IH]. apply definitions_kept. unfold seed_definition. cbn [fst]. case_bool_decide as Hn; [done|].
  rewrite map_app, elem_of_app. right. by left.
Qed.
Lemma definitions_same new_id l ds : (forall d, d ∈ l -> fst (fst d) ∈ map sd_name ds) -> foldl (fun ds d => seed_definition (new_id (fst (fst d))) d ds) ds l = ds.
Proof.
  induction l as [|[[name s] e] l IH]; intros Hs; [done|]. cbn [foldl]. unfold seed_definition at 2. rewrite bool_decide_eq_true_2 by (by apply (Hs (name, s, e)); left).
  apply IH. intros d Hd. apply Hs. by right.
Qed.

(** A seeded database is left alone. *)
Lemma seed_again new_id salt w : (forall name perms, (name, perms) ∈ ROLE_PERMISSIONS -> seeded name perms w) -> is_Some (username_of (u "admin") (ac_users w)) ->
  (forall d, d ∈ DEFAULT_SHIFT_DEFINITIONS -> fst (fst d) ∈ map sd_name (ac_definitions w)) -> seed new_id salt w = (Ok (), w).
Proof.
  intros Hs Hadmin Hdefs. unfold seed, mbind, M_bind, get_st, modify_st.
  change (foldl _ w ROLE_PERMISSIONS) with (seed_roles new_id ROLE_PERMISSIONS w). rewrite seed_roles_same by exact Hs.
  rewrite bool_decide_eq_true_2 by exact Hadmin. unfold mret, M_ret. rewrite (definitions_same new_id) by exact Hdefs. by destruct w.
Qed.

(** What seeding does after the roles. *)
Definition seed_rest (new_id : pystr -> N) (salt : pystr) : M accounts pyexn () :=
  w ← get_st;
  (if bool_decide (is_Some (username_of (u "admin") (ac_users w))) then mret tt else
   h ← lift_result (hash_password salt (u "ChangeMe123!"));
   modify_st (set_users (ac_users w ++ [mk_user (new_id (u "admin")) (u "admin") (u "Administrator") (Some (u "admin@example.com")) h true None
     (map ro_id (filter (fun r => ro_name r = ADMIN) (ac_roles w)))])));;
  modify_st (fun w => set_definitions (foldl (fun l d => seed_definition (new_id (fst (fst d))) d l) (ac_definitions w) DEFAULT_SHIFT_DEFINITIONS) w).
Lemma seed_rest_run new_id salt w r w' : seed_rest new_id salt w = (r, w') -> ac_roles w' = ac_roles w /\ ac_permissions w' = ac_permissions w /\
  (r = Ok () -> is_Some (username_of (u "admin") (ac_users w')) /\ forall d, d ∈ DEFAULT_SHIFT_DEFINITIONS -> fst (fst d) ∈ map sd_name (ac_definitions w')).
Proof.
  unfold seed_rest, mbind, M_bind, get_st, modify_st. case_bool_decide as Hadmin.
  - intros [<- <-]%pair_equal_spec. split; [done|]. split; [done|]. intros _. split; [exact Hadmin|]. intros d. apply (definitions_seeded new_id).
  - unfold lift_result. destruct (hash_password _ _) as [h|e]; intros [<- <-]%pair_equal_spec; (split; [done|]); (split; [done|]); [|done].
    intros _. split; [|intros d; apply (definitions_seeded new_id)]. cbn [ac_users set_users set_definitions].
    unfold username_of. destruct (find_first _ (_ ++ _)) as [x|] eqn:Hx; [by eexists|]. exfalso.
    assert (Hin : forall y : user, y ∈ ac_users w ++ [y]) by (intros y; apply elem_of_app; right; by left).
    pose proof (proj1 (find_first_None _ _) Hx _ (Hin _)) as Hf. cbn [us_username] in Hf. by rewrite bool_decide_eq_true_2 in Hf.
Qed.

(** However often the database is seeded, with whatever keys and salt: the
    first run that gets through is the last one that changes anything.  But
    every run gives the three roles back the permissions they were born with,
    whatever administrators had made of them. *)
Theorem seed_outcome new_id salt w r w1 : seed new_id salt w = (r, w1) ->
  (forall name perms x, (name, perms) ∈ ROLE_PERMISSIONS -> x ∈ ac_roles w1 -> ro_name x = name -> ro_permissions x = perms) /\
  (r = Ok () -> forall new_id' salt', seed new_id' salt' w1 = (Ok (), w1)).
Proof.
  intros Hr. assert (Hrest : seed_rest new_id salt (seed_roles new_id ROLE_PERMISSIONS w) = (r, w1)) by exact Hr. clear Hr.
  assert (Hd : NoDup (map fst ROLE_PERMISSIONS)) by (apply (bool_decide_unpack _); vm_compute; exact I).
  pose proof (seed_roles_seeded new_id ROLE_PERMISSIONS w Hd) as Hseeded. apply seed_rest_run in Hrest as (Hroles & Hperms & Hok).
  assert (Hall : forall name perms, (name, perms) ∈ ROLE_PERMISSIONS -> seeded name perms w1).
  { intros name perms Hin. unfold seeded. rewrite Hroles, Hperms. by apply Hseeded. }
  split; [intros name perms x Hin; by apply (Hall name perms Hin)|].
  intros [Hadmin Hdefs]%Hok new_id' salt'. apply seed_again; [exact Hall|exact Hadmin|exact Hdefs].
Qed.
End seeding.

(** *** Samples *)

(** Passwords kept as they are, and tokens as the text of their claims. *)
#[global] Program Instance plain_passwords : PasswordHash := {|
  hash_password salt p := Ok p;
  verify_password p h := Ok (bool_decide (p = h));
|}.
Next Obligation. intros salt p h [= ->]. by rewrite bool_decide_eq_true_2. Qed.
Definition text_of_claims (claims : json) : pystr := json_dumps (fun _ => []) claims.
Definition read_claims (now : usec) (token : pystr) : option (list (pystr * json)) :=
  match json_loads token with
  | Some (JObj o) => match assoc (u "exp") o with Some (JInt exp) => if (exp <? seconds now)%Z then None else Some o | _ => None end
  | _ => None
  end.
#[global] Program Instance text_tokens : Jwt := {| jwt_encode _ claims := text_of_claims claims; jwt_decode _ := read_claims |}.
Next Obligation. intros secret now claims exp Hw He. unfold read_claims, text_of_claims. rewrite json_loads_dumps by exact Hw. by rewrite He. Qed.

Definition key_of (name : pystr) : N := N.of_nat (length name).
Definition empty_accounts : accounts := mk_accounts [] [] [] [] [] [].
#[local] Notation seeded_run := (@seed plain_passwords key_of [] empty_accounts) (only parsing).
Definition seeded_accounts : accounts := snd seeded_run.
Definition admin_token : pystr := create_token (u "secret") 30 (uuid_str 5) 0.
Definition new_user : user_create := mk_user_create (u "mei") (u "Mei") None (u "correct horse") [u "NOC"].
#[local] Notation created := (create_user (u "secret") [] new_user 77 [] admin_token 10 seeded_accounts) (only parsing).

Lemma seeded_inv : accounts_inv seeded_accounts.
Proof.
  split; try (apply (bool_decide_unpack _); vm_compute; exact I).
  - assert (Hall : Forall (fun x => Forall (fun r => r ∈ map ro_id (ac_roles seeded_accounts)) (us_roles x)) (ac_users seeded_accounts))
      by (apply (bool_decide_unpack _); vm_compute; exact I).
    intros x r Hx Hr. rewrite Forall_forall in Hall. specialize (Hall x Hx). rewrite Forall_forall in Hall. by apply Hall.
  - assert (Hall : Forall (fun x => Forall (fun p => p ∈ ac_permissions seeded_accounts) (ro_permissions x)) (ac_roles seeded_accounts))
      by (apply (bool_decide_unpack _); vm_compute; exact I).
    intros r p Hr Hp. rewrite Forall_forall in Hall. specialize (Hall r Hr). rewrite Forall_forall in Hall. by apply Hall.
Qed.

Lemma seed_outcome_witness : @seed plain_passwords key_of [1%Z] seeded_accounts = (Ok (), seeded_accounts).
Proof.
  exact (proj2 (@seed_outcome plain_passwords key_of [] empty_accounts _ seeded_accounts (surjective_pairing seeded_run)) eq_refl key_of [1%Z]).
Defined.

Lemma created_ok : is_ok (fst created) = true.
Proof. vm_compute. reflexivity. Qed.

Lemma created_account_signs_in_witness : exists access w2,
  login (u "secret") 30 600 (u "mei") (u "correct horse") (u "s1") 20 (snd created) = (Ok (access, u "s1"), w2).
Proof.
  destruct (ok_pair created created_ok) as [out Hout].
  destruct (@created_account_signs_in plain_passwords text_tokens (u "secret") 30 600 [] new_user 77 [] admin_token 10 out (u "s1") 20 seeded_accounts
    (snd created) seeded_inv) as (access & w2 & x & Hl & _).
  - reflexivity.
  - apply (bool_decide_unpack _). vm_compute. exact I.
  - exact Hout.
  - apply not_elem_of_nil.
  - exists access, w2. exact Hl.
Defined.

Definition off : user_update := mk_user_update None None (Some (Some false)) None.
#[local] Notation disabled := (update_user (u "secret") 77 off admin_token 30 (snd created)) (only parsing).
Lemma disabled_ok : is_ok (fst disabled) = true.
Proof. vm_compute. reflexivity. Qed.
Lemma created_step : account_step (u "secret") 30 600 seeded_accounts (snd created).
Proof. eapply step_create_user; [|exact (surjective_pairing created)]. apply (bool_decide_unpack _). vm_compute. exact I. Qed.
Lemma created_inv : accounts_inv (snd created).
Proof. exact (changed_inv _ _ _ (step_changed _ _ _ _ _ created_step) seeded_inv). Qed.

Lemma disabled_account_shut_out_witness : forall any at_time x w2, get_current_user (u "secret") any at_time (snd disabled) = (Ok x, w2) -> us_id x <> 77%N.
Proof.
  destruct (ok_pair disabled disabled_ok) as [out Hout].
  exact (proj1 (proj2 (@disabled_account_shut_out plain_passwords text_tokens (u "secret") 30 600 77 off admin_token 30 out (snd created) (snd disabled)
    created_inv eq_refl Hout))).
Defined.

Lemma account_history_witness : accounts_inv (snd created) /\ map identity (ac_users seeded_accounts) `prefix_of` map identity (ac_users (snd created)).
Proof.
  destruct (@account_history plain_passwords text_tokens (u "secret") 30 600 seeded_accounts (snd created) (rtc_once _ _ created_step) seeded_inv)
    as (Hinv & Hids & _). split; [exact Hinv|exact Hids].
Defined.

Lemma rights_guarded_witness : @authorized text_tokens (u "secret") (u "user.manage") admin_token 10 seeded_accounts.
Proof.
  destruct (proj2 (@rights_guarded plain_passwords text_tokens (u "secret") 30 600 (CreateUser [] new_user 77 [] admin_token) 10 seeded_accounts))
    as (token & Htoken & Hauth).
  - apply (bool_decide_unpack _). vm_compute. exact I.
  - injection Htoken as <-. exact Hauth.
Defined.

#[local] Notation signed_in := (login (u "secret") 30 600 (u "mei") (u "correct horse") (u "s1") 20 (snd created)) (only parsing).
#[local] Notation renewed := (refresh (u "secret") 30 600 (Some (u "s1")) (u "s2") 40 (snd signed_in)) (only parsing).
#[local] Notation reused := (refresh (u "secret") 30 600 (Some (u "s1")) (u "s3") 50 (snd renewed)) (only parsing).
Lemma signed_in_inv : accounts_inv (snd signed_in).
Proof.
  apply (changed_inv (u "secret") _ _ (step_changed (u "secret") 30 600 (snd created) _ ltac:(eapply step_login; exact (surjective_pairing signed_in)))).
  exact created_inv.
Qed.
Lemma renewed_ok : is_ok (fst renewed) = true.
Proof. vm_compute. reflexivity. Qed.
Lemma signed_in_session : bool_decide (is_Some (session_of (u "s1") (snd signed_in))) = true.
Proof. vm_compute. reflexivity. Qed.

Lemma refresh_single_use_witness : fst reused = Raise (HttpException 401 (JStr (u "Invalid or expired refresh session"))).
Proof.
  destruct (ok_pair renewed renewed_ok) as [res Hres].
  refine (proj1 (@refresh_single_use plain_passwords text_tokens (u "secret") 30 600 (u "s1") (u "s2") 40 (snd signed_in) res (snd renewed) (snd renewed)
    (u "s3") 50 (fst reused) (snd reused) signed_in_inv _ _ (or_introl Hres) (rtc_refl _ _) (surjective_pairing reused))).
  - discriminate.
  - exact (proj1 (bool_decide_eq_true _) signed_in_session).
Defined.
