(* ===== verification/Prefill.v ===== *)
(** * Incident prefill

    [incident_prefill.py], [local_inference.py] and the two requests of
    [routers/ocr.py] that run it: the fields of an incident suggested from the
    text of a screenshot, by rules first and then, for what the rules left
    open, by a local model whose answers must cite a line of the text.

    The OCR engine, the model server and the object store are parameters.
    Times measured for display are left out. *)

From Stdlib Require Import Floats.SpecFloat.
From S2P Require Import Prelude PyStr Json Schema Failures PyVal PyColl PyTime Regex Snapshots Jobs Evidence Api Incidents.

(** ** Data *)

Inductive field_quality := HIGH | REVIEW | UNRESOLVED.
Inductive field_method := deterministic | deterministic_fuzzy | local_ai | unresolved.
Record prefill_field := mk_field {
  fl_value : option pystr; fl_source : option pystr; fl_quality : field_quality; fl_method : field_method; fl_confidence : option spec_float }.
(** [PrefillField()] *)
Definition no_field : prefill_field := mk_field None None UNRESOLVED unresolved None.

Inductive field_name := title | service | notes | status | triggered_at | recovered_at | trigger_value | environment.
#[global] Instance field_name_eq_dec : EqDecision field_name.
Proof. solve_decision. Defined.
Definition FIELDS : list field_name := [title; service; notes; status; triggered_at; recovered_at; trigger_value; environment].
Definition name_of (f : field_name) : pystr := match f with
  | title => u "title" | service => u "service" | notes => u "notes" | status => u "status" | triggered_at => u "triggered_at"
  | recovered_at => u "recovered_at" | trigger_value => u "trigger_value" | environment => u "environment" end.

Inductive mapper_status := DETERMINISTIC | LOCAL_AI | FALLBACK.
Record incident_prefill := mk_incident_prefill {
  ip_field : field_name -> prefill_field; ip_status : mapper_status; ip_model : option pystr; ip_error : option pystr }.
Definition set_field (f : field_name) (v : prefill_field) (p : incident_prefill) : incident_prefill :=
  mk_incident_prefill (fun g => if decide (g = f) then v else ip_field p g) (ip_status p) (ip_model p) (ip_error p).

(** What OCR read: the lines with their confidence, and the text. *)
Record extraction := mk_extraction { ex_lines : list (pystr * option spec_float); ex_raw_text : pystr }.
Record ocr_line := mk_line { ol_text : pystr; ol_confidence : option spec_float; ol_index : nat }.

Definition NEWLINE : pystr := [10%Z].
(** [str.strip] leaves something. *)
Definition has_text (s : pystr) : bool := negb (bool_decide (strip s = [])).
(** [_lines] *)
Definition lines_of (e : extraction) : list ocr_line :=
  let numbered := match ex_lines e with
    | [] => imap (fun i t => mk_line t None i) (splitlines (ex_raw_text e))
    | l => imap (fun i '(t, c) => mk_line t c i) l
    end in
  List.filter (fun l => has_text (ol_text l)) numbered.
Definition normalize_ocr_text (raw : pystr) : pystr :=
  py_join NEWLINE (map (fun l => py_join (u " ") (split_ws l)) (List.filter has_text (splitlines raw))).

Section patterns.
Context `{UnicodeData}.

(** ** Patterns *)

Definition dot : re := Chr (not_ (is_char 10)).
Definition spaces : re := star (Chr space).
Definition separator : re := Chr (one_of (u ":：=-")).
Definition words (l : list string) : re := alt (map (fun s => lit_ic (u s)) l).
Definition spaced (a b : string) : re := rseq [lit_ic (u a); spaces; lit_ic (u b)].
Definition application : re := Seq (lit_ic (u "app")) (opt (lit_ic (u "lication"))).

Definition labels : re := alt [
  spaced "alert" "title"; lit_ic (u "title"); lit_ic (u "alert"); lit_ic (u "incident"); lit_ic (u "service"); application;
  words ["component"; "environment"; "env"; "description"; "details"; "notes"; "triggered"; "recovered"]; spaced "trigger" "value";
  words ["value"; "status"; "告警"; "标题"; "服务"; "应用"; "环境"; "描述"; "备注"; "触发"; "恢复"]].
(** A label, a separator and a value; [capture] marks the part that is asked
    for. *)
Definition labelled_re (label : re) (capture_label : bool) : re :=
  rseq [spaces; (if capture_label then Cap label else label); spaces; separator; spaces;
        (let value := Lazy 1 dot in if capture_label then value else Cap value); spaces; End].
(** [re.match] and one of its groups. *)
Definition match_group (a : re) (s : pystr) : option pystr := m ← match_here a (start s); m_group m.
Definition label_of : pystr -> option pystr := match_group (labelled_re labels true).
Definition value_of : pystr -> option pystr := match_group (labelled_re labels false).
Definition is_labelled (s : pystr) : bool := bool_decide (is_Some (label_of s)).

Definition between (lo hi : nat) (a : re) : re := Rep lo (Some hi) a.
Definition dash_or_slash : re := Chr (one_of (u "-/")).
Definition date_part : re :=
  rseq [lit (u "20"); times 2 (Chr digit); dash_or_slash; between 1 2 (Chr digit); dash_or_slash; between 1 2 (Chr digit)].
Definition colon : re := Chr (is_char 58).
(** [_FULL_TIMESTAMP_RE]; its group is the whole match. *)
Definition full_timestamp_re : re := rseq [Word; date_part; Chr (one_of (u " T")); between 1 2 (Chr digit); colon; times 2 (Chr digit);
  opt (rseq [colon; times 2 (Chr digit)]);
  opt (alt [Chr (is_char 90); rseq [Chr (one_of (u "+-")); times 2 (Chr digit); opt colon; times 2 (Chr digit)]]); Word].
Definition hour_part : re := Alt (Seq (opt (Chr (one_of (u "01")))) (Chr digit)) (Seq (Chr (is_char 50)) (Chr (in_range 48 51))).
Definition minute_part : re := Seq (Chr (in_range 48 53)) (Chr digit).
Definition time_re : re := rseq [Word; hour_part; colon; minute_part; opt (rseq [colon; minute_part]); Word].
(** [_TRIGGER_VALUE_RE] *)
Definition unit_re : re := alt [Chr (is_char 37); words ["ms"; "s"; "K"; "M"; "G"; "MB"; "GB"]].
Definition quantity : re := rseq [Word; plus (Chr digit); opt (rseq [Chr (is_char 46); plus (Chr digit)]); opt (Chr space); unit_re; Word].

Definition status_re : re := alt [rseq [Word; words ["recovered"; "triggered"; "investigating"]; Word]; words ["恢复"; "触发"]].
Definition triggered_re : re := words ["triggered"; "触发"].
Definition recovered_re : re := words ["recovered"; "恢复"].

(** ** Rules *)

(** A confidence of at least 0.85, or none. *)
Definition confident (c : option spec_float) : bool := match c with Some c => SFleb (float_of_ratio 85 100) c | None => true end.
(** [_field] *)
Definition field_from (value : option pystr) (source : ocr_line) (method : field_method) (quality : option field_quality) : prefill_field :=
  match nonempty_text value with
  | None => no_field
  | Some v =>
      let by_rule := match method with deterministic => confident (ol_confidence source) | _ => false end in
      mk_field (Some (strip v)) (Some (ol_text source)) (default (if by_rule then HIGH else REVIEW) quality) method (ol_confidence source)
  end.
Definition by_rule (value : pystr) (source : ocr_line) : prefill_field := field_from (Some value) source deterministic None.
(** [_unresolved] *)
Definition open_field (source : ocr_line) : prefill_field := mk_field None (Some (ol_text source)) UNRESOLVED unresolved (ol_confidence source).

Definition unspaced (s : pystr) : pystr := py_replace (u " ") [] s.
(** [_labelled] *)
Fixpoint labelled (wanted : list pystr) (lines : list ocr_line) : option (pystr * ocr_line) :=
  match lines with
  | [] => None
  | l :: lines =>
      match label_of (ol_text l), value_of (ol_text l) with
      | Some label, Some value =>
          if decide (unspaced (casefold label) ∈ map unspaced wanted) then Some (strip value, l) else labelled wanted lines
      | _, _ => labelled wanted lines
      end
  end.

(** [_normalize_environment] *)
Definition normalize_environment (value : pystr) : option pystr :=
  assoc (filter (fun c => in_range 97 122 c = true) (casefold value))
    [(u "prod", u "production"); (u "production", u "production"); (u "staging", u "staging"); (u "stage", u "staging")].

(** *** [difflib.SequenceMatcher] *)

(** Where each character of the second text is, unless it is popular there. *)
Definition positions (b : pystr) (c : Z) : list nat :=
  let at_c := omap (fun '(j, d) => if (c =? d)%Z then Some j else None) (imap pair b) in
  let n := length b in
  if Nat.leb 200 n && Nat.ltb (n / 100 + 1) (length at_c) then [] else at_c.
Record block := mk_block { bl_i : nat; bl_j : nat; bl_size : nat }.
(** One row of the search for the longest common block. *)
Fixpoint scan_row (blo bhi i : nat) (prev : gmap nat nat) (js : list nat) (row : gmap nat nat) (best : block) : gmap nat nat * block :=
  match js with
  | [] => (row, best)
  | j :: js =>
      if Nat.ltb j blo then scan_row blo bhi i prev js row best
      else if Nat.leb bhi j then (row, best)
      else
        let k := S (match j with O => 0 | S j => default 0 (prev !! j) end) in
        let best := if Nat.ltb (bl_size best) k then mk_block (i + 1 - k) (j + 1 - k) k else best in
        scan_row blo bhi i prev js (<[j := k]> row) best
  end.
Fixpoint scan_rows (b : pystr) (blo bhi i : nat) (rest : pystr) (prev : gmap nat nat) (best : block) : block :=
  match rest with
  | [] => best
  | c :: rest => let '(row, best) := scan_row blo bhi i prev (positions b c) ∅ best in scan_rows b blo bhi (S i) rest row best
  end.
Fixpoint extend_left (fuel : nat) (a b : pystr) (alo blo : nat) (x : block) : block :=
  match fuel with
  | O => x
  | S fuel =>
      if Nat.ltb alo (bl_i x) && Nat.ltb blo (bl_j x) && bool_decide (a !! (bl_i x - 1) = b !! (bl_j x - 1))
      then extend_left fuel a b alo blo (mk_block (bl_i x - 1) (bl_j x - 1) (S (bl_size x))) else x
  end.
Fixpoint extend_right (fuel : nat) (a b : pystr) (ahi bhi : nat) (x : block) : block :=
  match fuel with
  | O => x
  | S fuel =>
      if Nat.ltb (bl_i x + bl_size x) ahi && Nat.ltb (bl_j x + bl_size x) bhi && bool_decide (a !! (bl_i x + bl_size x) = b !! (bl_j x + bl_size x))
      then extend_right fuel a b ahi bhi (mk_block (bl_i x) (bl_j x) (S (bl_size x))) else x
  end.
Definition find_longest_match (a b : pystr) (alo ahi blo bhi : nat) : block :=
  let x := scan_rows b blo bhi alo (take (ahi - alo) (drop alo a)) ∅ (mk_block alo blo 0) in
  extend_right (length a) a b ahi bhi (extend_left (length a) a b alo blo x).
(** The characters in all the matching blocks. *)
Fixpoint matched (fuel : nat) (a b : pystr) (alo ahi blo bhi : nat) : nat :=
  match fuel with
  | O => 0
  | S fuel =>
      let x := find_longest_match a b alo ahi blo bhi in
      if Nat.eqb (bl_size x) 0 then 0 else
      (if Nat.ltb alo (bl_i x) && Nat.ltb blo (bl_j x) then matched fuel a b alo (bl_i x) blo (bl_j x) else 0) + bl_size x +
      (if Nat.ltb (bl_i x + bl_size x) ahi && Nat.ltb (bl_j x + bl_size x) bhi
       then matched fuel a b (bl_i x + bl_size x) ahi (bl_j x + bl_size x) bhi else 0)
  end.
(** [ratio()] as a fraction: twice the matched characters over the total.  The
    quotients the program compares are of lengths far below 2^26, where
    doubles order them as the fractions do. *)
Definition ratio (a b : pystr) : Z * Z :=
  match (length a + length b)%nat with
  | O => (1, 1)%Z
  | total => (2 * Z.of_nat (matched (S (length a)) a b 0 (length a) 0 (length b)), Z.of_nat total)%Z
  end.
Definition ratio_lt (x y : Z * Z) : bool := (fst x * snd y <? fst y * snd x)%Z.
(** [max] of pairs of a ratio and a name. *)
Definition better_candidate (x y : (Z * Z) * pystr) : (Z * Z) * pystr :=
  if ratio_lt (fst x) (fst y) || (negb (ratio_lt (fst y) (fst x)) && negb (str_leb (snd y) (snd x))) then y else x.

Definition compact (s : pystr) : pystr := filter (fun c => any_of [in_range 97 122; in_range 48 57] c = true) s.
(** [_known_service] *)
Definition known_service (value : pystr) (source : ocr_line) (known_services : list pystr) : prefill_field :=
  match known_services with
  | [] => by_rule value source
  | first :: rest =>
      let folded := casefold value in
      let fuzzy := fun c => field_from (Some c) source deterministic_fuzzy (Some REVIEW) in
      match find_first (fun c => bool_decide (folded = casefold c)) known_services with
      | Some c => by_rule c source
      | None =>
          match find_first (fun c => bool_decide (compact folded = compact (casefold c))) known_services with
          | Some c => fuzzy c
          | None =>
              let scored := map (fun c => (ratio folded (casefold c), c)) in
              let best := foldl better_candidate (ratio folded (casefold first), first) (scored rest) in
              if ratio_lt (fst best) (9, 10)%Z then open_field source else fuzzy (snd best)
          end
      end
  end.

(** *** Timestamps *)

Definition found_timestamp (s : pystr) : option pystr := m_text <$> search full_timestamp_re s.
(** [datetime.fromisoformat(value.replace("Z", "+00:00")).isoformat()] *)
Definition iso_time (value : pystr) : option pystr := isoformat <$> fromisoformat (py_replace (u "Z") (u "+00:00") value).
Fixpoint first_timestamp (lines : list ocr_line) : option (pystr * ocr_line) :=
  match lines with
  | [] => None
  | l :: lines => match found_timestamp (ol_text l) with Some t => Some (t, l) | None => first_timestamp lines end
  end.
Definition mentions (a : re) (l : ocr_line) : bool := matches a (ol_text l).
Definition triggered_field (lines : list ocr_line) : prefill_field :=
  let found := match first_timestamp (List.filter (mentions triggered_re) lines) with
    | Some x => Some x
    | None => first_timestamp (List.filter (fun l => negb (mentions recovered_re l)) lines)
    end in
  match found with
  | Some (value, l) => match iso_time (py_replace (u "/") (u "-") value) with Some t => by_rule t l | None => open_field l end
  | None =>
      match find_first (mentions triggered_re) lines with
      | Some l => if mentions time_re l then open_field l else no_field
      | None => no_field
      end
  end.
(** A timestamp that [fromisoformat] does not read raises here. *)
Definition recovered_field (lines : list ocr_line) : result pyexn prefill_field :=
  match find_first (mentions recovered_re) lines with
  | None => Ok no_field
  | Some l =>
      match found_timestamp (ol_text l) with
      | None => Ok (open_field l)
      | Some value => match iso_time value with
                      | Some t => Ok (by_rule t l)
                      | None => Raise (value_error (u "Invalid isoformat string"))
                      end
      end
  end.

Definition status_field (lines : list ocr_line) : prefill_field :=
  match find_first (mentions status_re) lines with
  | None => no_field
  | Some l =>
      let lowered := casefold (ol_text l) in
      by_rule (if contains (u "recovered") lowered || contains (u "恢复") (ol_text l) then u "recovered"
               else if contains (u "investigating") lowered then u "investigating" else u "open") l
  end.
Fixpoint first_quantity (lines : list ocr_line) : option (pystr * ocr_line) :=
  match lines with
  | [] => None
  | l :: lines => match search quantity (ol_text l) with Some m => Some (m_text m, l) | None => first_quantity lines end
  end.
Definition title_found (lines : list ocr_line) : option (pystr * ocr_line) :=
  match labelled (map u ["alert"; "alert title"; "title"; "incident"; "告警"; "标题"]%string) lines with
  | Some x => Some x
  | None => (fun l => (ol_text l, l)) <$> find_first (fun l => Nat.ltb 3 (length (strip (ol_text l))) && negb (is_labelled (ol_text l))) lines
  end.
Definition found_field (x : option (pystr * ocr_line)) : prefill_field := match x with Some (v, l) => by_rule v l | None => no_field end.

Definition deterministic_prefill (e : extraction) (known_services : list pystr) : result pyexn incident_prefill :=
  let lines := lines_of e in
  recovered ← recovered_field lines;
  mret (mk_incident_prefill (fun f => match f with
    | title => match title_found lines with
               | Some (v, l) => field_from (Some v) l deterministic (Some (if is_labelled (ol_text l) then HIGH else REVIEW))
               | None => no_field end
    | service => match labelled (map u ["service"; "app"; "application"; "component"; "服务"; "应用"]%string) lines with
                 | Some (v, l) => known_service v l known_services | None => no_field end
    | notes => found_field (labelled (map u ["description"; "details"; "notes"; "描述"; "备注"]%string) lines)
    | status => status_field lines
    | triggered_at => triggered_field lines
    | recovered_at => recovered
    | trigger_value => found_field (first_quantity lines)
    | environment => match labelled (map u ["environment"; "env"; "环境"]%string) lines with
                     | Some (v, l) => match normalize_environment v with Some n => by_rule n l | None => no_field end
                     | None => no_field end
    end) DETERMINISTIC None None).
End patterns.

(** ** The mapper *)

Section mapper.
Context `{UnicodeData}.

Definition word_chars (s : pystr) : pystr := filter (fun c => uni_word c = true) s.
Definition tokens (s : pystr) : list pystr := findall (plus (Chr uni_word)) s.
(** [_value_supported] *)
Definition value_supported (value source_text : pystr) : bool :=
  let v := word_chars (casefold value) in
  if negb (bool_decide (v = [])) && contains v (word_chars (casefold source_text)) then true else
  let value_tokens := List.filter (fun t => Nat.ltb 1 (length t)) (tokens (casefold value)) in
  negb (bool_decide (value_tokens = [])) && forallb (fun t => bool_decide (t ∈ tokens (casefold source_text))) value_tokens.

Definition service_label_re : re := labelled_re (alt [lit_ic (u "service");
  rseq [application; opt (rseq [plus (Chr space); lit_ic (u "name")])]; words ["component"; "服务"; "应用"]]) false.
Definition title_label_re : re := labelled_re (alt [
  rseq [lit_ic (u "alert"); spaces; opt (words ["title"; "name"])]; words ["title"; "incident"; "告警"; "标题"]]) false.

Definition STATUS_ALIASES : list (pystr * pystr) :=
  [(u "triggered", u "open"); (u "open", u "open"); (u "investigating", u "investigating"); (u "recovered", u "recovered")].
Definition source_status (text : pystr) : option pystr :=
  let lowered := casefold text in
  if contains (u "recovered") lowered || contains (u "恢复") text then Some (u "recovered")
  else if contains (u "investigating") lowered then Some (u "investigating")
  else if contains (u "triggered") lowered || contains (u "触发") text then Some (u "open") else None.
Definition cited (source_text : pystr) : ocr_line := mk_line source_text None 0.

(** [_model_value_supported] *)
Definition model_value_supported (f : field_name) (value source_text : pystr) (known_services : list pystr) : bool :=
  if decide (f = service /\ known_services <> []) then
    let resolved := known_service (default (strip source_text) (match_group service_label_re source_text)) (cited source_text) known_services in
    match fl_value resolved with Some v => bool_decide (casefold v = casefold value) | None => false end
  else if value_supported value source_text then true else
  let labels := name_of f :: map u ["environment"; "env"; "status"; "service"; "app"; "application"; "component"]%string in
  let source_value := match labelled labels [cited source_text] with Some (v, _) => v | None => source_text end in
  match f with
  | environment => bool_decide (is_Some (normalize_environment value)) && bool_decide (normalize_environment value = normalize_environment source_value)
  | status => bool_decide (assoc (casefold value) STATUS_ALIASES = source_status source_value)
  | _ => false
  end.

(** [_normalize_model_value] *)
Definition normalize_model_value (f : field_name) (value source_text : pystr) : pystr :=
  match f with
  | title => match match_group title_label_re source_text with Some v => strip v | None => strip value end
  | _ => strip value
  end.

(** The line a candidate cites: by its text, or by its number when it gives no
    text.  [True] is a number to Python. *)
Definition cited_text (lines : list ocr_line) (candidate : list (pystr * json)) : json :=
  match default JNull (assoc (u "source_text") candidate) with
  | JNull =>
      let index := match assoc (u "source_index") candidate with Some (JInt n) => Some n | Some (JBool b) => Some (Z.b2z b) | _ => None end in
      match index with
      | Some n => match find_first (fun l => (Z.of_nat (ol_index l) =? n)%Z) lines with Some l => JStr (ol_text l) | None => JNull end
      | None => JNull
      end
  | j => j
  end.
Definition model_field (value source_text : pystr) : prefill_field := mk_field (Some value) (Some source_text) REVIEW local_ai None.
(** What becomes of one candidate: [None] leaves the field as it was. *)
Definition model_value (f : field_name) (value source_text : pystr) (known_services : list pystr) : option pystr :=
  value ← (match f with environment => normalize_environment value | _ => Some value end);
  let value := normalize_model_value f value source_text in
  match f with
  | status => assoc (casefold value) STATUS_ALIASES
  | triggered_at | recovered_at => iso_time value
  | service => match known_services with
               | [] => Some value
               | _ => fl_value (known_service value (cited source_text) known_services)
               end
  | _ => Some value
  end.
Definition candidate_field (f : field_name) (candidate : json) (lines : list ocr_line) (known_services : list pystr) : option prefill_field :=
  match candidate with
  | JObj o =>
      match default JNull (assoc (u "value") o), cited_text lines o with
      | JStr value, JStr source_text =>
          if has_text value && bool_decide (source_text ∈ map ol_text lines) && model_value_supported f value source_text known_services
          then (fun v => model_field v source_text) <$> model_value f value source_text known_services
          else None
      | _, _ => None
      end
  | _ => None
  end.
(** [_apply_model_output] *)
Definition apply_field (lines : list ocr_line) (o : list (pystr * json)) (known_services : list pystr) (p : incident_prefill) (f : field_name) : incident_prefill :=
  match candidate_field f (default JNull (assoc (name_of f) o)) lines known_services with Some v => set_field f v p | None => p end.
Definition apply_model_output (p : incident_prefill) (model_output : json) (e : extraction) (known_services : list pystr) : result pyexn incident_prefill :=
  match model_output with
  | JObj o =>
      let p := foldl (apply_field (lines_of e) o known_services) p FIELDS in
      Ok (mk_incident_prefill (ip_field p) LOCAL_AI (ip_model p) (ip_error p))
  | _ => Raise (mk_exn AttributeError (u "get"))
  end.

(** *** The request *)

Definition nat_str (n : nat) : pystr := py_str_int (Z.of_nat n).
(** [build_mapper_prompt] *)
Definition candidate_line (p : incident_prefill) (f : field_name) : option pystr :=
  match nonempty_text (fl_value (ip_field p f)) with
  | Some v => Some (name_of f ++ u ": " ++ v ++ u " (source: " ++ default (u "None") (fl_source (ip_field p f)) ++ u ")")
  | None => None
  end.
Definition or_text (s default_text : pystr) : pystr := match s with [] => default_text | _ => s end.
Definition build_mapper_prompt (e : extraction) (unresolved_fields : list field_name) (known_services : list pystr) (p : incident_prefill) : pystr :=
  u "Map only unresolved Incident fields from the OCR evidence below. " ++
  u "Return one JSON object with each requested field as {value, source_index}; use null values when unsupported. " ++
  u "source_index must identify the complete OCR line supporting the value. " ++
  u "Do not use a substring and do not invent facts." ++ NEWLINE ++
  u "Fields: " ++ py_join (u ", ") (map name_of unresolved_fields) ++ NEWLINE ++
  u "Known services: " ++ match known_services with [] => u "none configured" | l => py_join (u ", ") l end ++ NEWLINE ++
  u "Deterministic candidates:" ++ NEWLINE ++ or_text (py_join NEWLINE (omap (candidate_line p) unresolved_fields)) (u "none") ++ NEWLINE ++
  u "OCR lines (indices are zero-based):" ++ NEWLINE ++
  py_join NEWLINE (map (fun l => u "[" ++ nat_str (ol_index l) ++ u "] " ++ ol_text l) (lines_of e)).
(** [build_mapper_response_schema] *)
Definition mapper_field_schema : json := JObj [
  (u "type", JStr (u "object"));
  (u "properties", JObj [
    (u "value", JObj [(u "type", JList [JStr (u "string"); JStr (u "null")])]);
    (u "source_index", JObj [(u "type", JList [JStr (u "integer"); JStr (u "null")])])]);
  (u "required", JList [JStr (u "value"); JStr (u "source_index")]); (u "additionalProperties", JBool false)].
Definition build_mapper_response_schema (unresolved_fields : list field_name) : json := JObj [
  (u "type", JStr (u "object")); (u "properties", JObj (map (fun f => (name_of f, mapper_field_schema)) unresolved_fields));
  (u "required", JList (map (fun f => JStr (name_of f)) unresolved_fields)); (u "additionalProperties", JBool false)].

(** [_has_field_evidence] *)
Definition time_start_re : re := rseq [Word; hour_part; colon; minute_part].
Definition evidence_re (f : field_name) : re := match f with
  | service => alt [lit_ic (u "service"); application; words ["component"; "服务"; "应用"]]
  | notes => words ["description"; "details"; "notes"; "描述"; "备注"]
  | status => words ["recovered"; "triggered"; "investigating"; "恢复"; "触发"]
  | triggered_at => alt [words ["triggered"; "触发"]; date_part; time_start_re]
  | recovered_at => recovered_re
  | trigger_value => Alt (spaced "trigger" "value") quantity
  | environment => words ["environment"; "env"; "环境"]
  | title => Eps
  end.
Definition has_field_evidence (f : field_name) (lines : list ocr_line) : bool :=
  match f with title => negb (bool_decide (lines = [])) | _ => existsb (mentions (evidence_re f)) lines end.

(** A local model: what it answers to a prompt, with or without a schema. *)
Record local_inference := mk_inference { li_model : pystr; li_complete : pystr -> option json -> result pyexn json }.
Definition open_fields (p : incident_prefill) (lines : list ocr_line) : list field_name :=
  List.filter (fun f => (bool_decide (fl_value (ip_field p f) = None) || match fl_quality (ip_field p f) with HIGH => false | _ => true end) &&
    has_field_evidence f lines) FIELDS.
(** An adapter without the second argument is asked again without it. *)
Definition ask_mapper (inference : local_inference) (prompt : pystr) (schema : json) : result pyexn json :=
  match li_complete inference prompt (Some schema) with
  | Ok j => Ok j
  | Raise x => if bool_decide (x_class x = TypeError) && contains (u "response_schema") (x_msg x) then li_complete inference prompt None else Raise x
  end.
(** [build_incident_prefill] *)
Definition build_incident_prefill (e : extraction) (inference : option local_inference) (known_services : list pystr) : result pyexn incident_prefill :=
  p ← deterministic_prefill e known_services;
  match inference with
  | None => Ok p
  | Some inference =>
      match open_fields p (lines_of e) with
      | [] => Ok p
      | unresolved_fields =>
          let answer := (output ← ask_mapper inference (build_mapper_prompt e unresolved_fields known_services p) (build_mapper_response_schema unresolved_fields);
                         apply_model_output p output e known_services) in
          match answer with
          | Ok r => Ok (mk_incident_prefill (ip_field r) (ip_status r) (Some (li_model inference)) (ip_error r))
          | Raise x => Ok (mk_incident_prefill (ip_field p) FALLBACK (Some (li_model inference)) (Some (take 500 (x_msg x))))
          end
      end
  end.
End mapper.

(** ** [local_inference.py] *)

(** Ollama's adapter: two requests at most; [post] is what the server, or the
    lack of one, makes of a prompt. *)
Definition HTTP_ERROR : exn_class := ForeignError (u "HTTPError") true.
Definition read_reply (body : json) : result pyexn json :=
  message ← py_get (u "message") JNull body;
  content ← py_get (u "content") JNull (jor message (JObj []));
  content ← (if jtruthy content then Ok content else py_get (u "response") JNull body);
  match content with
  | JStr s => match json_loads s with
              | Some (JObj o) => Ok (JObj o)
              | Some _ => Raise (value_error (u "Ollama response JSON must be an object"))
              | None => Raise (mk_exn JSONDecodeError (u "invalid JSON"))
              end
  | _ => Raise (value_error (u "Ollama response did not contain message.content"))
  end.
Definition retried (x : pyexn) : bool := is_value_error (x_class x) || bool_decide (x_class x = HTTP_ERROR).
Definition LocalInferenceError (msg : pystr) : pyexn := mk_exn (ForeignError (u "LocalInferenceError") true) msg.
(** [_complete_with_bounded_retry] *)
Definition complete_with_bounded_retry (post : pystr -> option json -> result pyexn json) (prompt : pystr) (schema : option json) : result pyexn json :=
  let attempt := fun prompt => body ← post prompt schema; read_reply body in
  match attempt prompt with
  | Ok j => Ok j
  | Raise x =>
      if retried x then
        match attempt (prompt ++ NEWLINE ++ u "Return strict JSON without markdown or commentary.") with
        | Ok j => Ok j
        | Raise x => if retried x then Raise (LocalInferenceError (u "Ollama local prefill failed: " ++ x_msg x)) else Raise x
        end
      else Raise x
  end.

(** [complete_json]: [qu_free] slots of the bounded queue are free, the callers
    [qu_inside] hold one each, and one of them may hold the inference slot. A
    caller that finds no free slot is refused at once; the others wait. *)
Record inference_queue := mk_queue { qu_free : nat; qu_inside : list N; qu_running : option N }.
Definition LocalInferenceBusy : pyexn := mk_exn (ForeignError (u "LocalInferenceBusy") true) (u "local prefill queue is full").
Definition new_queue (max_queue : nat) : inference_queue := mk_queue max_queue [] None.
Definition enter_queue (caller : N) (q : inference_queue) : result pyexn inference_queue :=
  match qu_free q with
  | O => Raise LocalInferenceBusy
  | S free => Ok (mk_queue free (qu_inside q ++ [caller]) (qu_running q))
  end.
(** The lock; [None] while another caller holds it. *)
Definition take_inference (caller : N) (q : inference_queue) : option inference_queue :=
  if bool_decide (caller ∈ qu_inside q) && bool_decide (qu_running q = None) then Some (mk_queue (qu_free q) (qu_inside q) (Some caller)) else None.
(** The [finally] clause, whatever the request answered. *)
Definition leave_queue (caller : N) (q : inference_queue) : option inference_queue :=
  if bool_decide (qu_running q = Some caller)
  then Some (mk_queue (S (qu_free q)) (filter (fun c => c <> caller) (qu_inside q)) None) else None.

(** ** [routers/ocr.py] *)

(** What the engine reads off an image: the text, its lines with confidence and
    box, and fields of its own. *)
Record ocr_result := mk_ocr { oc_raw_text : pystr; oc_lines : list (pystr * spec_float * json); oc_fields : json }.
Definition extraction_of (r : ocr_result) : extraction := mk_extraction (map (fun '(t, c, _) => (t, Some c)) (oc_lines r)) (oc_raw_text r).
(** [_extraction_payload] *)
Definition extraction_payload (r : ocr_result) : json := JObj [
  (u "fields", oc_fields r);
  (u "lines", JList (map (fun '(t, c, box) => JObj [(u "text", JStr t); (u "confidence", JFloat c); (u "bbox", box)]) (oc_lines r)))].

Definition quality_name (q : field_quality) : pystr := match q with HIGH => u "HIGH" | REVIEW => u "REVIEW" | UNRESOLVED => u "UNRESOLVED" end.
Definition method_name (m : field_method) : pystr := match m with
  | deterministic => u "deterministic" | deterministic_fuzzy => u "deterministic_fuzzy" | local_ai => u "local_ai" | unresolved => u "unresolved" end.
Definition status_name (s : mapper_status) : pystr := match s with DETERMINISTIC => u "DETERMINISTIC" | LOCAL_AI => u "LOCAL_AI" | FALLBACK => u "FALLBACK" end.
Definition field_json (f : prefill_field) : json := JObj [
  (u "value", jopt (fl_value f)); (u "source_text", jopt (fl_source f)); (u "quality", JStr (quality_name (fl_quality f)));
  (u "method", JStr (method_name (fl_method f))); (u "ocr_confidence", match fl_confidence f with Some c => JFloat c | None => JNull end)].
(** [prefill.model_dump(mode="json")] *)
Definition prefill_json (p : incident_prefill) : json := JObj (
  map (fun f => (name_of f, field_json (ip_field p f))) FIELDS ++
  [(u "mapper_status", JStr (status_name (ip_status p))); (u "mapper_model", jopt (ip_model p)); (u "mapper_error", jopt (ip_error p))]).

Section requests.
Context `{UnicodeData}.
Context {Store : Type} `{ObjectStore Store}.
Context (run_ocr : list Z -> result pyexn ocr_result) (configured : option local_inference) (known_services : list pystr).
Context (evidence_bucket : pystr) (max_upload_bytes : nat).
Notation W := (ops_world Store).

(** The OCR run and the mapper on one screenshot: the stored prefill and the
    status.  Any exception marks the run as failed. *)
Definition prefill_screenshot (content : list Z) : option json * pystr :=
  match (r ← run_ocr content; build_incident_prefill (extraction_of r) configured known_services) with
  | Ok p => (Some (prefill_json p), match ip_status p with FALLBACK => u "FALLBACK" | _ => u "REVIEW_REQUIRED" end)
  | Raise _ => (None, u "OCR_FAILED")
  end.

(** [os.path.basename] *)
Definition basename (s : pystr) : pystr := default [] (last (split_on 47 [] s)).
Definition prefill_key (id : N) (filename : pystr) : pystr := u "prefills/" ++ uuid_str id ++ u "/" ++ filename.
Definition prefill_fits (p : prefill_run) : bool :=
  Nat.leb (length (pf_key p)) 1000 && Nat.leb (length (pf_filename p)) 500 && opt_within 200 (pf_mime p).
(** [create_incident_prefill]; [version] is the identifier the store gives. *)
Definition create_incident_prefill (content : list Z) (name mime : option pystr) (id user : N) (version : option pystr) : @IDB Store prefill_run :=
  ops_transaction (
    if Nat.ltb max_upload_bytes (length content) then http 413 (u "Screenshot exceeds the upload limit")
    else match content with [] => http 400 (u "Screenshot is empty") | _ =>
      let filename := basename (default (u "screenshot.png") (nonempty_text name)) in
      let key := prefill_key id filename in
      let object := mk_version version (Z.of_nat (length content)) (Some (default (u "application/octet-stream") (nonempty_text mime))) (sha256_of_bytes content) in
      (fun w => match on_files (storage_call (upload evidence_bucket key object)) w with
                | (Ok _, w') => (Ok tt, w') | (Raise e, w') => (Raise (evidence_exn e), w') end);;
      let '(suggested, run_status) := prefill_screenshot content in
      let run := mk_prefill id None evidence_bucket key filename mime (sha256_of_bytes content) suggested run_status in
      if negb (prefill_fits run) then raise (Uncaught data_error) else
      modify_st (fun w => set_prefills (ow_prefills w ++ [run]) w);;
      log_audit user (u "incident.prefill") (u "incident_prefill_run") (uuid_str id)
        (JObj [(u "status", JStr run_status); (u "source_filename", JStr filename)]);;
      mret run
    end).

(** [run_ocr_on_evidence]: a run is kept whether it failed or not; only one
    that did not is audited. *)
Record ocr_run := mk_ocr_run { or_evidence : N; or_status : pystr; or_raw_text : option pystr; or_normalized_text : option pystr; or_extracted : json }.
Context (get_object_bytes : pystr -> pystr -> option pystr -> Store -> result pyexn (list Z)).
Definition add_ocr_run (evidence_id : N) (w : W) : W :=
  mk_ops (ow_incidents w) (ow_shifts w) (ow_definitions w) (ow_prefills w) (ow_evidence w) (ow_intents w) (ow_ocr w ++ [evidence_id]) (ow_runs w)
    (ow_jobs w) (ow_snapshots w) (ow_audit w) (ow_store w) (ow_faults w).
Definition run_ocr_on_evidence (evidence_id run_id user : N) : @IDB Store ocr_run :=
  w ← get_st;
  match get_row evidence_id (ow_evidence w) with
  | None => http 404 (u "Evidence not found")
  | Some e =>
      if decide (e_state e <> ACTIVE) then http 410 (u "Evidence is no longer available") else
      modify_st (add_ocr_run evidence_id);;
      match (bytes ← get_object_bytes (e_bucket e) (e_key e) (e_version e) (ow_store w); run_ocr bytes) with
      | Raise x => mret (mk_ocr_run evidence_id (u "FAILED") None None (JObj [(u "error", JStr (x_msg x))]))
      | Ok r =>
          log_audit user (u "evidence.ocr") (u "ocr_run") (uuid_str run_id)
            (JObj [(u "evidence_id", JStr (uuid_str evidence_id)); (u "status", JStr (u "REVIEW_REQUIRED"))]);;
          mret (mk_ocr_run evidence_id (u "REVIEW_REQUIRED") (Some (oc_raw_text r)) (Some (normalize_ocr_text (oc_raw_text r))) (extraction_payload r))
      end
  end.
End requests.

(** ** Theorems *)

(** *** The longest matching blocks *)

(** A block inside two ranges. *)
Definition inside (alo ahi blo bhi : nat) (x : block) : Prop :=
  alo <= bl_i x /\ bl_i x + bl_size x <= ahi /\ blo <= bl_j x /\ bl_j x + bl_size x <= bhi.
(** The lengths of the runs that end before row [i] stay within the ranges. *)
Definition runs_within (alo blo i : nat) (row : gmap nat nat) : Prop := forall j k, row !! j = Some k -> alo + k <= i /\ blo + k <= S j.

Lemma scan_row_inside alo ahi blo bhi i prev js : alo <= i -> i < ahi -> runs_within alo blo i prev ->
  forall row best row' best', runs_within alo blo (S i) row -> inside alo ahi blo bhi best ->
  scan_row blo bhi i prev js row best = (row', best') -> runs_within alo blo (S i) row' /\ inside alo ahi blo bhi best'.
Proof.
  intros Hlo Hhi Hprev. induction js as [|j js IH]; intros row best row' best' Hrow Hbest; cbn [scan_row]; [by intros [= <- <-]|].
  destruct (Nat.ltb j blo) eqn:Hj; [by apply IH|]. apply Nat.ltb_ge in Hj. destruct (Nat.leb bhi j) eqn:Hb; [by intros [= <- <-]|].
  apply Nat.leb_gt in Hb. cbv zeta.
  set (k := S (match j with O => 0 | S j => default 0 (prev !! j) end)).
  assert (Hk : alo + k <= S i /\ blo + k <= S j).
  { subst k. destruct j as [|j]; [lia|]. destruct (prev !! j) as [n|] eqn:Hn; simpl; [apply Hprev in Hn|]; lia. }
  apply IH.
  - intros j' k'. rewrite lookup_insert_Some. intros [[<- <-]|[_ Hl]]; [lia|]. by apply Hrow.
  - destruct (Nat.ltb _ _); [|done]. unfold inside. cbn [bl_i bl_j bl_size]. lia.
Qed.

Lemma scan_rows_inside b alo ahi blo bhi rest : forall i prev best, alo <= i -> i + length rest <= ahi -> runs_within alo blo i prev ->
  inside alo ahi blo bhi best -> inside alo ahi blo bhi (scan_rows b blo bhi i rest prev best).
Proof.
  induction rest as [|c rest IH]; intros i prev best Hlo Hhi Hprev Hbest; [done|]. cbn [scan_rows length] in *.
  destruct (scan_row _ _ _ _ _ _ _) as [row best'] eqn:E. apply (scan_row_inside alo ahi) in E as [Hrow Hbest']; try done; try lia.
  apply IH; [lia|lia|done|done].
Qed.

Lemma extend_left_inside fuel a b alo ahi blo bhi : forall x, inside alo ahi blo bhi x ->
  inside alo ahi blo bhi (extend_left fuel a b alo blo x) /\ bl_size x <= bl_size (extend_left fuel a b alo blo x).
Proof.
  induction fuel as [|fuel IH]; intros x Hx; [by split|]. cbn [extend_left]. destruct (_ && _) eqn:E; [|by split].
  apply andb_prop in E as [[Hi%Nat.ltb_lt Hj%Nat.ltb_lt]%andb_prop _]. unfold inside in *.
  destruct (IH (mk_block (bl_i x - 1) (bl_j x - 1) (S (bl_size x)))) as [Hin Hs]; [cbn [bl_i bl_j bl_size]; lia|]. split; [done|]. cbn [bl_size] in Hs. lia.
Qed.
Lemma extend_right_inside fuel a b alo ahi blo bhi : forall x, inside alo ahi blo bhi x ->
  inside alo ahi blo bhi (extend_right fuel a b ahi bhi x) /\ bl_size x <= bl_size (extend_right fuel a b ahi bhi x).
Proof.
  induction fuel as [|fuel IH]; intros x Hx; [by split|]. cbn [extend_right]. destruct (_ && _) eqn:E; [|by split].
  apply andb_prop in E as [[Hi%Nat.ltb_lt Hj%Nat.ltb_lt]%andb_prop _]. unfold inside in *.
  destruct (IH (mk_block (bl_i x) (bl_j x) (S (bl_size x)))) as [Hin Hs]; [cbn [bl_i bl_j bl_size]; lia|]. split; [done|]. cbn [bl_size] in Hs. lia.
Qed.

Lemma longest_inside a b alo ahi blo bhi : alo <= ahi -> blo <= bhi -> inside alo ahi blo bhi (find_longest_match a b alo ahi blo bhi).
Proof.
  intros Ha Hb. unfold find_longest_match. apply extend_right_inside, extend_left_inside, scan_rows_inside.
  - lia.
  - rewrite length_take. lia.
  - intros j k. by rewrite lookup_empty.
  - unfold inside. cbn [bl_i bl_j bl_size]. lia.
Qed.

(** One more than the length of the first range is fuel enough. *)
Lemma matched_fuel a b fuel : forall more alo ahi blo bhi, alo <= ahi -> blo <= bhi -> ahi - alo < fuel -> fuel <= more ->
  matched more a b alo ahi blo bhi = matched fuel a b alo ahi blo bhi.
Proof.
  induction fuel as [|fuel IH]; intros more alo ahi blo bhi Ha Hb Hf Hm; [lia|]. destruct more as [|more]; [lia|]. cbn [matched].
  pose proof (longest_inside a b alo ahi blo bhi Ha Hb) as (H1 & H2 & H3 & H4). destruct (find_longest_match a b alo ahi blo bhi) as [i j k]. cbn [bl_i bl_j bl_size] in *.
  destruct (Nat.eqb k 0) eqn:Hk; [done|]. apply Nat.eqb_neq in Hk. f_equal; [f_equal|].
  - destruct (_ && _) eqn:E; [|done]. apply IH; lia.
  - destruct (_ && _) eqn:E; [|done]. apply IH; lia.
Qed.

(** The matched characters fit into either text, so no ratio exceeds one. *)
Lemma matched_bound a b fuel : forall alo ahi blo bhi, alo <= ahi -> blo <= bhi ->
  matched fuel a b alo ahi blo bhi <= ahi - alo /\ matched fuel a b alo ahi blo bhi <= bhi - blo.
Proof.
  induction fuel as [|fuel IH]; intros alo ahi blo bhi Ha Hb; [cbn [matched]; lia|]. cbn [matched].
  pose proof (longest_inside a b alo ahi blo bhi Ha Hb) as (H1 & H2 & H3 & H4). destruct (find_longest_match a b alo ahi blo bhi) as [i j k]. cbn [bl_i bl_j bl_size] in *.
  destruct (Nat.eqb k 0); [lia|].
  assert (Hl : (if Nat.ltb alo i && Nat.ltb blo j then matched fuel a b alo i blo j else 0) <= i - alo /\
    (if Nat.ltb alo i && Nat.ltb blo j then matched fuel a b alo i blo j else 0) <= j - blo) by (destruct (_ && _); [by apply IH|lia]).
  assert (Hr : (if Nat.ltb (i + k) ahi && Nat.ltb (j + k) bhi then matched fuel a b (i + k) ahi (j + k) bhi else 0) <= ahi - (i + k) /\
    (if Nat.ltb (i + k) ahi && Nat.ltb (j + k) bhi then matched fuel a b (i + k) ahi (j + k) bhi else 0) <= bhi - (j + k))
    by (destruct (Nat.ltb (i + k) ahi && Nat.ltb (j + k) bhi); [by apply IH|lia]).
  lia.
Qed.
Lemma ratio_bound a b : (0 <= fst (ratio a b) <= snd (ratio a b))%Z /\ (0 < snd (ratio a b))%Z.
Proof.
  unfold ratio. pose proof (matched_bound a b (S (length a)) 0 (length a) 0 (length b) ltac:(lia) ltac:(lia)) as [Hm Hn].
  destruct (length a + length b)%nat as [|n] eqn:E; cbn [fst snd]; lia.
Qed.

(** *** Values and their evidence *)

Section evidence.
Context `{UnicodeData}.
Context (known_services : list pystr).

(** What a value of a field may be. *)
Definition admissible (f : field_name) (v : pystr) : Prop := match f with
  | status => v ∈ map u ["open"; "investigating"; "recovered"]%string
  | environment => v = u "production" \/ v = u "staging"
  | service => known_services <> [] -> v ∈ map strip known_services
  | triggered_at | recovered_at => exists t, v = isoformat t \/ v = strip (isoformat t)
  | _ => True
  end.
(** The value after a label of one of the given names. *)
Definition after_label (wanted : list string) (text v : pystr) : Prop := exists label value,
  label_of text = Some label /\ value_of text = Some value /\ unspaced (casefold label) ∈ map unspaced (map u wanted) /\ v = strip value.
(** A service that was read as [value]: itself without a list, else a listed
    one of the same letters or at least nine tenths alike. *)
Definition names_service (value v : pystr) : Prop :=
  known_services = [] /\ v = strip value \/
  exists c, c ∈ known_services /\ v = strip c /\
    (casefold value = casefold c \/ compact (casefold value) = compact (casefold c) \/ ratio_lt (ratio (casefold value) (casefold c)) (9, 10)%Z = false).
(** A point of time that the text gives. *)
Definition gives_time (clean : pystr -> pystr) (text v : pystr) : Prop := exists stamp t,
  found_timestamp text = Some stamp /\ fromisoformat (py_replace (u "Z") (u "+00:00") (clean stamp)) = Some t /\ v = strip (isoformat t).
(** What the rules read a field from: this line says that value. *)
Definition rule_reads (f : field_name) (text v : pystr) : Prop := match f with
  | title => (exists raw, after_label ["alert"; "alert title"; "title"; "incident"; "告警"; "标题"] text raw /\ v = strip raw) \/
      is_labelled text = false /\ 3 < length (strip text) /\ v = strip text
  | service => exists raw, after_label ["service"; "app"; "application"; "component"; "服务"; "应用"] text raw /\ names_service raw v
  | notes => exists raw, after_label ["description"; "details"; "notes"; "描述"; "备注"] text raw /\ v = strip raw
  | status => matches status_re text = true /\
      let recovered := contains (u "recovered") (casefold text) || contains (u "恢复") text in
      v = if recovered then u "recovered" else if contains (u "investigating") (casefold text) then u "investigating" else u "open"
  | triggered_at => (matches triggered_re text = true \/ matches recovered_re text = false) /\ gives_time (py_replace (u "/") (u "-")) text v
  | recovered_at => matches recovered_re text = true /\ gives_time id text v
  | trigger_value => exists m, search quantity text = Some m /\ v = strip (m_text m)
  | environment => exists raw, after_label ["environment"; "env"; "环境"] text raw /\ normalize_environment raw = Some v
  end%string.
(** A value comes with a line of the text; the rules alone may be sure of it;
    what they gave is what they read in that line; what the model gave is for
    review, was accepted against the line it cites, and is what the program
    makes of the model's words. *)
Definition backed (lines : list ocr_line) (f : field_name) (x : prefill_field) : Prop := forall v, fl_value x = Some v -> admissible f v /\
  (exists l, l ∈ lines /\ fl_source x = Some (ol_text l)) /\ (fl_quality x = HIGH -> fl_method x = deterministic) /\
  (fl_method x <> local_ai -> exists text, fl_source x = Some text /\ rule_reads f text v) /\
  (fl_method x = local_ai -> fl_quality x = REVIEW /\ exists said source, fl_source x = Some source /\
     model_value_supported f said source known_services = true /\ model_value f said source known_services = Some v).

Lemma field_from_value v l m q w : fl_value (field_from (Some v) l m q) = Some w -> w = strip v.
Proof. unfold field_from. destruct v as [|c v]; [done|]. by intros [= <-]. Qed.
(** A value of the rules. *)
Lemma rule_backed lines f v l m q : l ∈ lines -> admissible f (strip v) -> rule_reads f (ol_text l) (strip v) ->
  m = deterministic \/ (m = deterministic_fuzzy /\ q = Some REVIEW) -> backed lines f (field_from (Some v) l m q).
Proof.
  intros Hl Ha Hreads Hm w Hw. pose proof (field_from_value _ _ _ _ _ Hw) as ->. split; [done|]. unfold field_from in *. destruct v as [|c v]; [done|].
  cbn [nonempty_text fl_source fl_quality fl_method] in *. split; [by exists l|].
  destruct Hm as [->|[-> ->]]; (split; [done|]; split; [intros _; by eexists|done]).
Qed.
Lemma no_field_backed lines f : backed lines f no_field.
Proof. by intros v. Qed.
Lemma open_backed lines f l : backed lines f (open_field l).
Proof. by intros v. Qed.

Lemma labelled_in wanted lines v l : labelled (map u wanted) lines = Some (v, l) -> l ∈ lines /\ after_label wanted (ol_text l) v.
Proof.
  induction lines as [|x lines IH]; [done|]. cbn [labelled].
  assert (Hrest : labelled (map u wanted) lines = Some (v, l) -> l ∈ x :: lines /\ after_label wanted (ol_text l) v) by (intros [Hl Ha]%IH; split; [by right|done]).
  destruct (label_of (ol_text x)) as [label|] eqn:Hlab; [|done]. destruct (value_of (ol_text x)) as [value|] eqn:Hval; [|done].
  case_decide; [|done]. intros [= <- <-]. split; [by left|]. by exists label, value.
Qed.
Lemma timestamp_in lines v l : first_timestamp lines = Some (v, l) -> l ∈ lines /\ found_timestamp (ol_text l) = Some v.
Proof.
  induction lines as [|x lines IH]; [done|]. cbn [first_timestamp]. destruct (found_timestamp (ol_text x)) eqn:E; [intros [= -> ->]; split; [by left|done]|].
  intros [Hl Hv]%IH. split; [by right|done].
Qed.
Lemma quantity_in lines v l : first_quantity lines = Some (v, l) -> l ∈ lines /\ exists m, search quantity (ol_text l) = Some m /\ v = m_text m.
Proof.
  induction lines as [|x lines IH]; [done|]. cbn [first_quantity]. destruct (search quantity (ol_text x)) as [m|] eqn:E.
  - intros [= <- <-]. split; [by left|]. by exists m.
  - intros [Hl Hv]%IH. split; [by right|done].
Qed.

Lemma best_in (f : pystr -> Z * Z) rest : forall best, snd (foldl better_candidate best (map (fun c => (f c, c)) rest)) = snd best \/
  snd (foldl better_candidate best (map (fun c => (f c, c)) rest)) ∈ rest.
Proof.
  induction rest as [|c rest IH]; intros best; [by left|]. cbn [map foldl]. destruct (IH (better_candidate best (f c, c))) as [->|Hin]; [|right; by right].
  unfold better_candidate. destruct (_ || _); [right; by left|by left].
Qed.

Lemma known_value value l w : known_services <> [] -> fl_value (known_service value l known_services) = Some w -> w ∈ map strip known_services.
Proof.
  unfold known_service. destruct known_services as [|first rest] eqn:E; [done|]. intros _. rewrite <- E.
  destruct (find_first (fun c => bool_decide (casefold value = casefold c)) known_services) as [c|] eqn:H1f.
  { intros ->%field_from_value. apply find_first_Some in H1f as [Hc _]. by apply list_elem_of_fmap_2. }
  destruct (find_first (fun c => bool_decide (compact (casefold value) = compact (casefold c))) known_services) as [c|] eqn:H2f.
  { intros ->%field_from_value. apply find_first_Some in H2f as [Hc _]. by apply list_elem_of_fmap_2. }
  destruct (ratio_lt _ _); [done|]. intros ->%field_from_value. apply list_elem_of_fmap_2. rewrite E.
  destruct (best_in (fun c => ratio (casefold value) (casefold c)) rest (ratio (casefold value) (casefold first), first)) as [->|Hin]; [by left|by right].
Qed.
Lemma best_scored (f : pystr -> Z * Z) rest : forall best, fst best = f (snd best) ->
  let x := foldl better_candidate best (map (fun c => (f c, c)) rest) in fst x = f (snd x).
Proof. induction rest as [|c rest IH]; intros best Hb; [done|]. cbn [map foldl]. apply IH. unfold better_candidate. by destruct (_ || _). Qed.
Lemma known_shape value l : known_service value l known_services = open_field l \/
  (exists c, names_service value (strip c) /\ known_service value l known_services = by_rule c l) \/
  exists c, names_service value (strip c) /\ known_service value l known_services = field_from (Some c) l deterministic_fuzzy (Some REVIEW).
Proof.
  unfold known_service, names_service. destruct known_services as [|first rest] eqn:E; [right; left; exists value; split; [by left|done]|]. rewrite <- E.
  destruct (find_first (fun c => bool_decide (casefold value = casefold c)) known_services) as [c|] eqn:H1f.
  { apply find_first_Some in H1f as [Hc Heq%bool_decide_eq_true]. right. left. exists c. split; [|done]. right. exists c. split; [done|]. split; [done|by left]. }
  destruct (find_first (fun c => bool_decide (compact (casefold value) = compact (casefold c))) known_services) as [c|] eqn:H2f.
  { apply find_first_Some in H2f as [Hc Heq%bool_decide_eq_true]. right. right. exists c. split; [|done]. right. exists c. split; [done|]. split; [done|by right; left]. }
  destruct (ratio_lt _ _) eqn:Hlt; [by left|]. right. right. eexists. split; [|done]. right. eexists. split; [|split; [done|right; right]].
  - rewrite E. destruct (best_in (fun c => ratio (casefold value) (casefold c)) rest (ratio (casefold value) (casefold first), first)) as [->|Hin]; [by left|by right].
  - rewrite <- (best_scored (fun c => ratio (casefold value) (casefold c)) rest (ratio (casefold value) (casefold first), first) eq_refl). exact Hlt.
Qed.
Lemma known_backed lines value l : l ∈ lines -> (forall v, names_service value v -> rule_reads service (ol_text l) v) ->
  backed lines service (known_service value l known_services).
Proof.
  intros Hl Hr v Hv. assert (Ha : admissible service v) by (intros Hks; by eapply known_value). revert v Hv Ha.
  destruct (known_shape value l) as [->|[(c & Hc & ->)|(c & Hc & ->)]]; intros v Hv Ha; [by apply (open_backed lines service l)| |];
    (eapply rule_backed; [exact Hl| |by apply Hr|auto|exact Hv]); pose proof (field_from_value _ _ _ _ _ Hv) as <-; exact Ha.
Qed.

Lemma environment_value value v : normalize_environment value = Some v -> strip v = v /\ (v = u "production" \/ v = u "staging").
Proof.
  unfold normalize_environment. cbn [assoc].
  repeat (case_decide; [intros [= <-]; split; [vm_compute; reflexivity|(by left) || (by right)]|]). done.
Qed.
Lemma alias_value value v : assoc value STATUS_ALIASES = Some v -> v ∈ map u ["open"; "investigating"; "recovered"]%string.
Proof.
  unfold STATUS_ALIASES. cbn [assoc map]. repeat (case_decide; [intros [= <-]; set_solver|]). done.
Qed.
Lemma status_backed lines : backed lines status (status_field lines).
Proof.
  unfold status_field. destruct (find_first _ _) as [l|] eqn:Hl; [|apply no_field_backed]. apply find_first_Some in Hl as [Hl Hm]. cbv zeta.
  apply rule_backed; [done| | |by left].
  - cbn [admissible map]. destruct (_ || _); [|destruct (contains _ _)]; (match goal with |- strip ?x ∈ _ => change (strip x) with x end); set_solver.
  - split; [exact Hm|]. cbv zeta. by destruct (_ || _); [|destruct (contains _ _)].
Qed.

Lemma triggered_backed lines : backed lines triggered_at (triggered_field lines).
Proof.
  assert (Hfilter : forall p x, x ∈ List.filter p lines -> x ∈ lines /\ p x = true) by (intros p x [Hx Hp]%list_elem_of_In%filter_In; split; [by apply list_elem_of_In|done]).
  unfold triggered_field. cbv zeta.
  assert (Hfound : forall v l, (match first_timestamp (List.filter (mentions triggered_re) lines) with Some x => Some x
    | None => first_timestamp (List.filter (fun l => negb (mentions recovered_re l)) lines) end) = Some (v, l) ->
    l ∈ lines /\ found_timestamp (ol_text l) = Some v /\ (matches triggered_re (ol_text l) = true \/ matches recovered_re (ol_text l) = false)).
  { intros v l. destruct (first_timestamp (List.filter (mentions triggered_re) lines)) as [[v' l']|] eqn:E.
    - intros [= -> ->]. apply timestamp_in in E as [[Hl Hm]%Hfilter Hv]. split; [done|]. split; [done|by left].
    - intros [[Hl Hm%negb_true_iff]%Hfilter Hv]%timestamp_in. split; [done|]. split; [done|by right]. }
  destruct (match first_timestamp _ with Some _ => _ | None => _ end) as [[v l]|].
  - destruct (Hfound v l eq_refl) as (Hl & Hv & Hm). unfold iso_time. destruct (fromisoformat _) as [t|] eqn:Ht; cbn [fmap option_fmap option_map]; [|apply open_backed].
    apply rule_backed; [done| | |by left]; [exists t; by right|]. split; [done|]. by exists v, t.
  - destruct (find_first _ _) as [l|]; [|apply no_field_backed]. destruct (mentions _ _); [apply open_backed|apply no_field_backed].
Qed.
Lemma recovered_backed lines x : recovered_field lines = Ok x -> backed lines recovered_at x.
Proof.
  unfold recovered_field. destruct (find_first _ _) as [l|] eqn:Hl; [|intros <-%Ok_inj; apply no_field_backed].
  apply find_first_Some in Hl as [Hl Hm]. destruct (found_timestamp _) as [v|] eqn:Hv; [|intros <-%Ok_inj; apply open_backed].
  unfold iso_time. destruct (fromisoformat _) as [t|] eqn:Ht; cbn [fmap option_fmap option_map]; [|done]. intros <-%Ok_inj.
  apply rule_backed; [done| | |by left]; [exists t; by right|]. split; [exact Hm|]. by exists v, t.
Qed.

Lemma labelled_backed f wanted lines : (forall v, admissible f v) -> (forall text raw, after_label wanted text raw -> rule_reads f text (strip raw)) ->
  backed lines f (found_field (labelled (map u wanted) lines)).
Proof.
  intros Ha Hr. destruct (labelled _ lines) as [[v l]|] eqn:E; [|apply no_field_backed]. apply labelled_in in E as [Hl Hv].
  apply rule_backed; [done|apply Ha|by apply Hr|by left].
Qed.

Lemma deterministic_backed e p : deterministic_prefill e known_services = Ok p -> forall f, backed (lines_of e) f (ip_field p f).
Proof.
  unfold deterministic_prefill. cbv zeta. intros (x & Hx & Hp)%bind_result_ok. apply Ok_inj in Hp as <-. set (lines := lines_of e) in *.
  intros f. cbn [ip_field]. destruct f.
  - unfold title_found. destruct (labelled _ lines) as [[v l]|] eqn:E.
    + apply labelled_in in E as [Hl Hv]. apply rule_backed; [done|done| |by left]. left. by exists v.
    + destruct (find_first _ _) as [l|] eqn:Hl; cbn [fmap option_fmap option_map]; [|apply no_field_backed].
      apply find_first_Some in Hl as [Hl [Hlen%Nat.ltb_lt Hlab%negb_true_iff]%andb_prop]. apply rule_backed; [done|done| |by left]. by right.
  - destruct (labelled _ lines) as [[v l]|] eqn:E; [|apply no_field_backed]. apply labelled_in in E as [Hl Hv]. apply known_backed; [done|].
    intros w Hw. by exists v.
  - apply labelled_backed; [done|]. intros text raw Hr. by exists raw.
  - apply status_backed.
  - apply triggered_backed.
  - by apply recovered_backed.
  - destruct (first_quantity lines) as [[v l]|] eqn:E; [|apply no_field_backed]. apply quantity_in in E as (Hl & m & Hm & ->).
    apply rule_backed; [done|done|by exists m|by left].
  - destruct (labelled _ lines) as [[v l]|] eqn:E; [|apply no_field_backed]. apply labelled_in in E as [Hl Hv].
    destruct (normalize_environment v) as [n|] eqn:Hn; [|apply no_field_backed]. pose proof Hn as [Hs Hadm]%environment_value.
    apply rule_backed; [done|cbn [admissible]; by rewrite Hs| |by left]. exists v. by rewrite Hs.
Qed.
End evidence.

Section answers.
Context `{UnicodeData}.
Context (known_services : list pystr).

Lemma model_value_admissible f said source v : model_value f said source known_services = Some v -> admissible known_services f v.
Proof.
  unfold model_value. destruct f; unfold mbind, option_bind; try done.
  - intros Hv Hks. revert Hv. destruct known_services as [|k ks] eqn:E; [done|]. intros Hv. by apply (known_value (k :: ks)) in Hv.
  - apply alias_value.
  - unfold iso_time. destruct (fromisoformat _) as [t|]; [|done]. intros [= <-]. exists t. by left.
  - unfold iso_time. destruct (fromisoformat _) as [t|]; [|done]. intros [= <-]. exists t. by left.
  - destruct (normalize_environment said) as [n|] eqn:Hn; [|done]. apply environment_value in Hn as [Hs Hn]. cbn [normalize_model_value].
    rewrite Hs. by intros [= <-].
Qed.

Lemma candidate_backed f candidate lines x : candidate_field f candidate lines known_services = Some x -> backed known_services lines f x.
Proof.
  unfold candidate_field. destruct candidate as [| | | | | |o]; try done. destruct (default JNull (assoc (u "value") o)) as [| | | |said| |]; try done.
  destruct (cited_text lines o) as [| | | |source| |]; try done.
  destruct (has_text said && bool_decide (source ∈ map ol_text lines) && model_value_supported f said source known_services) eqn:E; [|done].
  apply andb_prop in E as [[_ Hin%bool_decide_eq_true]%andb_prop Hs].
  destruct (model_value f said source known_services) as [w|] eqn:Hw; [|done]. intros [= <-] v [= <-]. split; [by eapply model_value_admissible|].
  apply list_elem_of_fmap in Hin as (l & -> & Hl). split; [by exists l|]. split; [done|]. split; [by intros []|]. intros _. split; [done|]. by exists said, (ol_text l).
Qed.

Lemma output_backed p output e p' : apply_model_output p output e known_services = Ok p' -> (forall f, backed known_services (lines_of e) f (ip_field p f)) ->
  forall f, backed known_services (lines_of e) f (ip_field p' f).
Proof.
  unfold apply_model_output. destruct output as [| | | | | |o]; try done. intros <-%Ok_inj. cbn [ip_field]. generalize FIELDS. intros fs. revert p.
  induction fs as [|g fs IH]; intros p Hp; [exact Hp|]. cbn [foldl]. apply IH. unfold apply_field.
  destruct (candidate_field g _ _ _) as [x|] eqn:Hx; [|exact Hp]. intros f. unfold set_field. cbn [ip_field]. case_decide as Hf; [|apply Hp]. subst f.
  by eapply candidate_backed.
Qed.

(** C21. Whatever the local model answers, every suggested value comes with a
    line of the text that was read; what the rules gave is what that very line
    says for the field, and only they are sure of a value; what came from the
    model is for review and was accepted against the very line it
    cites; states, environments and times are of the known forms, and with a
    list of services only a listed one is suggested. *)
Theorem suggestions_backed e inference p f : build_incident_prefill e inference known_services = Ok p -> backed known_services (lines_of e) f (ip_field p f).
Proof.
  unfold build_incident_prefill. intros (q & Hq & Hp)%bind_result_ok. pose proof (deterministic_backed _ _ _ Hq) as Hb.
  destruct inference as [inference|]; [|by apply Ok_inj in Hp as <-]. destruct (open_fields q (lines_of e)) as [|g gs]; [by apply Ok_inj in Hp as <-|].
  cbv zeta in Hp. destruct (ask_mapper _ _ _ ≫= _) as [r|x] eqn:Hr; apply Ok_inj in Hp as <-; [|apply Hb].
  apply bind_result_ok in Hr as (output & _ & Hr). by apply (output_backed _ _ _ _ Hr).
Qed.

(** The model cannot make a prefill fail: it raises when and only when the
    rules do, and a model that fails leaves the fields of the rules. *)
Theorem mapper_never_fails e inference : 
  (forall x, build_incident_prefill e inference known_services = Raise x <-> recovered_field (lines_of e) = Raise x) /\
  (forall p, build_incident_prefill e inference known_services = Ok p -> ip_status p <> LOCAL_AI ->
     exists q, deterministic_prefill e known_services = Ok q /\ ip_field p = ip_field q).
Proof.
  assert (Hd : forall x, deterministic_prefill e known_services = Raise x <-> recovered_field (lines_of e) = Raise x).
  { intros x. unfold deterministic_prefill. cbv zeta. unfold mbind, result_bind, mret, result_ret. destruct (recovered_field _); split; congruence. }
  unfold build_incident_prefill, mbind, result_bind. split.
  - intros x. rewrite <- Hd. destruct (deterministic_prefill e known_services) as [q|y]; [|done]. split; [|done].
    destruct inference as [inference|]; [|done]. destruct (open_fields _ _); [done|]. cbv zeta. by destruct (match ask_mapper _ _ _ with Ok _ => _ | Raise _ => _ end).
  - intros p. destruct (deterministic_prefill e known_services) as [q|y]; [|done]. intros Hp Hs. exists q. split; [done|]. revert Hp.
    destruct inference as [inference|]; [|by intros <-%Ok_inj]. destruct (open_fields _ _); [by intros <-%Ok_inj|]. cbv zeta.
    destruct (ask_mapper _ _ _) as [output|x]; [|by intros <-%Ok_inj]. unfold apply_model_output. destruct output as [| | | | | |o];
      by intros <-%Ok_inj.
Qed.
End answers.

(** ** The inference queue *)

Inductive queue_step (q q' : inference_queue) : Prop :=
| queue_entered c : c ∉ qu_inside q -> enter_queue c q = Ok q' -> queue_step q q'
| queue_started c : take_inference c q = Some q' -> queue_step q q'
| queue_left c : leave_queue c q = Some q' -> queue_step q q'.

Record queue_inv (max_queue : nat) (q : inference_queue) : Prop := {
  qi_distinct : NoDup (qu_inside q);
  qi_slots : qu_free q + length (qu_inside q) = max_queue;
  qi_running : forall c, qu_running q = Some c -> c ∈ qu_inside q }.

Lemma without_one (c : N) (l : list N) : NoDup l -> c ∈ l -> length l = S (length (filter (fun x => x <> c) l)).
Proof.
  intros Hl Hc. change (length l = length (c :: filter (fun x => x <> c) l)). apply Permutation_length, NoDup_Permutation; [done| |].
  - apply NoDup_cons. split; [rewrite list_elem_of_filter; tauto|by apply NoDup_filter].
  - intros x. rewrite elem_of_cons, list_elem_of_filter. destruct (decide (x = c)) as [->|]; tauto.
Qed.

Lemma queue_keeps max_queue q q' : queue_step q q' -> queue_inv max_queue q -> queue_inv max_queue q'.
Proof.
  intros Hstep [Hd Hs Hr]. destruct Hstep as [c Hc Hq|c Hq|c Hq].
  - unfold enter_queue in Hq. destruct (qu_free q) as [|free] eqn:Hf; [discriminate|]. injection Hq as <-. split; simpl.
    + apply NoDup_app. split; [done|]. split; [set_solver|apply NoDup_singleton].
    + rewrite length_app. simpl. lia.
    + intros c' Hc'. specialize (Hr c' Hc'). set_solver.
  - unfold take_inference in Hq. repeat case_bool_decide; try discriminate. injection Hq as <-. split; simpl; [done|done|congruence].
  - unfold leave_queue in Hq. case_bool_decide as Hrun; [|discriminate]. injection Hq as <-.
    split; simpl; [by apply NoDup_filter|rewrite (without_one c) in Hs by auto; lia|done].
Qed.

(** In every history at most [max_queue] callers are inside and the one that
    runs is among them; a caller is refused exactly when the queue is full; and
    while somebody is inside, either nobody runs and each can start, or the one
    that runs can leave. *)
Theorem inference_queue_history max_queue q : rtc queue_step (new_queue max_queue) q -> queue_inv max_queue q /\
  (forall c, enter_queue c q = Raise LocalInferenceBusy <-> length (qu_inside q) = max_queue) /\
  (forall c, c ∈ qu_inside q -> (qu_running q = None /\ is_Some (take_inference c q)) \/
     exists r q', qu_running q = Some r /\ leave_queue r q = Some q' /\ length (qu_inside q) = S (length (qu_inside q')) /\ qu_running q' = None).
Proof.
  intros Hrun. assert (Hinv : queue_inv max_queue q).
  { remember (new_queue max_queue) as q0 eqn:E. assert (queue_inv max_queue q0) as H0 by (subst; split; simpl; [apply NoDup_nil_2|lia|done]).
    clear E. induction Hrun; [done|]. apply IHHrun. by eapply queue_keeps. }
  split; [done|]. destruct Hinv as [Hd Hs Hr]. split.
  - intros c. unfold enter_queue. destruct (qu_free q); split; intros H; try discriminate; try lia. done.
  - intros c Hc. destruct (qu_running q) as [r|] eqn:Er.
    + right. eexists r, _. split; [done|]. unfold leave_queue. rewrite bool_decide_true by done. split; [done|]. simpl. split; [|done]. apply without_one; auto.
    + left. split; [done|]. unfold take_inference. rewrite !bool_decide_true by done. by eexists.
Qed.

(** *** A stored prefill *)

Lemma suggested_field p f : f ∈ FIELDS -> suggested_value (prefill_json p) (name_of f) = Ok (jopt (fl_value (ip_field p f))).
Proof.
  intros Hf. assert (Hall : Forall (fun f => suggested_value (prefill_json p) (name_of f) = Ok (jopt (fl_value (ip_field p f)))) FIELDS)
    by (repeat constructor; exact eq_refl).
  rewrite Forall_forall in Hall. by apply Hall.
Qed.

Lemma corrections_ok p i : exists j, corrections (Some (prefill_json p)) i = Ok j.
Proof.
  unfold corrections. cbv zeta. change (jor (default JNull (Some (prefill_json p))) (JObj [])) with (prefill_json p).
  assert (Heach : forall l, (forall s, s ∈ l -> exists f, f ∈ FIELDS /\ u s = name_of f) ->
    exists pairs, each (fun s => v ← suggested_value (prefill_json p) (u s); mret (s, v)) l = Ok pairs).
  { intros l Hl. assert (Hpairs : exists pairs, Forall2 (fun s y => (v ← suggested_value (prefill_json p) (u s); mret (s, v)) = Ok y) l pairs).
    { induction l as [|s l IH]; [by exists []|]. destruct (Hl s) as (f & Hf & Hs); [by left|]. destruct IH as [pairs Hp]; [intros s' Hs'; apply Hl; by right|].
      eexists. constructor; [rewrite Hs, suggested_field by done; exact eq_refl|exact Hp]. }
    destruct Hpairs as [pairs Hp]. exists pairs. by apply each_ok. }
  destruct (Heach PREFILL_FIELDS) as [pairs Hp].
  - intros s Hs. unfold PREFILL_FIELDS in Hs. rewrite !elem_of_cons in Hs.
    destruct Hs as [->|[->|[->|[->|[->|[->|Hs]]]]]]; [exists title|exists service|exists environment|exists status|exists trigger_value|exists notes|by apply elem_of_nil in Hs];
      (split; [unfold FIELDS; set_solver|exact eq_refl]).
  - rewrite Hp. by eexists.
Qed.

Section stored.
Context `{UnicodeData}.
Context {Store : Type} `{ObjectStore Store}.
Context (run_ocr : list Z -> result pyexn ocr_result) (configured : option local_inference) (known_services : list pystr).
Context (evidence_bucket : pystr) (max_upload_bytes : nat).
Notation W := (ops_world Store).
#[local] Notation screened := (prefill_screenshot run_ocr configured known_services) (only parsing).
#[local] Notation create := (create_incident_prefill run_ocr configured known_services evidence_bucket max_upload_bytes) (only parsing).

(** A run that failed has no suggestions, any other has a complete set. *)
Lemma screened_cases content : (exists x, screened content = (None, u "OCR_FAILED") /\ (r ← run_ocr content; build_incident_prefill (extraction_of r) configured known_services) = Raise x) \/
  exists p, fst (screened content) = Some (prefill_json p) /\ snd (screened content) <> u "OCR_FAILED".
Proof.
  unfold prefill_screenshot. destruct (run_ocr content ≫= _) as [p|x]; [right; exists p|left; by exists x].
  split; [done|]. cbn [snd]. by destruct (ip_status p).
Qed.

Lemma create_prefill_run content name mime id user version (w : W) r w' : create content name mime id user version w = (r, w') ->
  ow_incidents w' = ow_incidents w /\ ow_evidence w' = ow_evidence w /\ match r with
  | Ok run => pf_id run = id /\ pf_incident run = None /\ (pf_json run, pf_status run) = screened content /\ pf_bucket run = evidence_bucket /\
      pf_sha256 run = sha256_of_bytes content /\ ow_prefills w' = ow_prefills w ++ [run]
  | Raise _ => ow_prefills w' = ow_prefills w
  end.
Proof.
  unfold create_incident_prefill. match goal with |- ops_transaction ?handler w = _ -> _ => set (m := handler) end. intros Hr%ops_transaction_inv.
  destruct r as [run|e]; [|destruct Hr as (w1 & _ & ->); by destruct w].
  unfold m in Hr. destruct (Nat.ltb _ _); [done|]. destruct content as [|c content]; [done|]. cbv zeta in Hr.
  apply bind_ok_inv in Hr as ([] & w1 & Hs & Hr).
  assert (H1w : ow_incidents w1 = ow_incidents w /\ ow_evidence w1 = ow_evidence w /\ ow_prefills w1 = ow_prefills w).
  { revert Hs. unfold on_files. match goal with |- context [storage_call ?f (files w)] => destruct (storage_call_cases f (files w)) as (fl & o & Hc & _);
      destruct (storage_call f (files w)) as [[[]|x] e] end; cbn [snd] in Hc; subst e; intros [= <-]; by destruct w. }
  destruct H1w as (Hi & He & Hp). revert Hr. generalize (sha256_of_bytes (c :: content)). intros digest.
  destruct (prefill_screenshot _ _ _ _) as [suggested run_status]. destruct (negb _); [done|].
  unfold modify_st, log_audit, mbind, M_bind. intros [Hrun <-]%pair_equal_spec. apply Ok_inj in Hrun as <-.
  cbn [ow_incidents ow_evidence ow_prefills set_prefills set_ops_audit pf_id pf_incident pf_json pf_status pf_bucket pf_sha256].
  rewrite Hp. split; [exact Hi|]. split; [exact He|]. split_and!; exact eq_refl.
Qed.
End stored.

Section attaching.
Context `{UnicodeData}.
Context {Store : Type} `{ObjectStore Store}.
Context (run_ocr : list Z -> result pyexn ocr_result) (configured : option local_inference) (known_services : list pystr).
Context (evidence_bucket : pystr) (max_upload_bytes : nat).
Notation W := (ops_world Store).

Lemma prefill_found id (l : list prefill_run) run : id ∉ map pf_id l -> pf_id run = id ->
  find_first (fun p => bool_decide (pf_id p = id)) (l ++ [run]) = Some run.
Proof.
  intros Hid Hrun. induction l as [|p l IH]; cbn [app find_first]; [by rewrite bool_decide_eq_true_2|].
  apply not_elem_of_cons in Hid as [Hne Hid]. rewrite bool_decide_eq_false_2 by congruence. by apply IH.
Qed.

(** A screenshot that was taken in can be attached: when reading it failed
    the attachment is refused and nothing happens; otherwise, while the object
    is there, the incident gets an active screenshot of that very object with
    the checksum of the bytes that came in, and no suggestion stands in the
    way. *)
Theorem stored_prefill_attaches content name mime id user version (w : W) run w1 incident_id i by_user evidence_id now v rest :
  create_incident_prefill run_ocr configured known_services evidence_bucket max_upload_bytes content name mime id user version w = (Ok run, w1) ->
  id ∉ map pf_id (ow_prefills w) -> incident_of incident_id w1 = Some i -> (forall x, x ∈ ow_evidence w1 -> e_key (snd x) <> pf_key run) ->
  stored (ow_store w1) (pf_bucket run) (pf_key run) = v :: rest -> ow_faults w1 = [] ->
  if decide (pf_status run = u "OCR_FAILED")
  then attach_prefill_to_incident id incident_id by_user evidence_id now w1 = (Raise (HttpException 409 (JStr (u "Cannot attach a prefill whose OCR failed"))), w1)
  else exists e w2, attach_prefill_to_incident id incident_id by_user evidence_id now w1 = (Ok (evidence_id, e), w2) /\ (evidence_id, e) ∈ ow_evidence w2 /\
    e_incident e = Some incident_id /\ e_state e = ACTIVE /\ plan_of e = (evidence_bucket, pf_key run, v_id v) /\ e_sha256 e = sha256_of_bytes content.
Proof.
  intros Hc Hid Hi Hkeys Hstored Hfaults.
  apply create_prefill_run in Hc as (_ & _ & Hrid & Hrinc & Hscreened & Hbucket & Hsha & Hprefills).
  assert (Hfound : find_first (fun p => bool_decide (pf_id p = id)) (ow_prefills w1) = Some run) by (rewrite Hprefills; by apply prefill_found).
  assert (Hnew : find_first (fun x => bool_decide (e_incident (snd x) = Some incident_id /\ e_key (snd x) = pf_key run)) (ow_evidence w1) = None).
  { apply find_first_None. intros x Hx. apply bool_decide_eq_false_2. intros [_ Hk]. by apply (Hkeys x Hx). }
  assert (Hself : with_files (mk_eworld [] (ow_evidence w1) (ow_intents w1) [] [] [] (ow_store w1) (ow_faults w1)) w1 = w1) by (by destruct w1).
  unfold attach_prefill_to_incident, ops_transaction, with_incident, mbind, M_bind, get_st. rewrite Hfound, Hi. case_decide as Hfailed; [unfold http, raise; by rewrite Hself|].
  assert (exists p, pf_json run = Some (prefill_json p)) as [p Hp].
  { destruct (screened_cases run_ocr configured known_services content) as [(x & Hx & _)|(p & Hp & _)]; [|exists p; by rewrite <- Hscreened in Hp].
    rewrite Hx in Hscreened. injection Hscreened as _ Hs. done. }
  rewrite decide_False by (intros [Hn _]; by apply Hn). rewrite Hnew.
  unfold on_files, head_object. cbn [files ew_faults ew_store set_faults]. rewrite Hfaults. cbn [ew_store]. rewrite Hstored.
  destruct (corrections_ok p i) as [made Hmade]. rewrite Hp. unfold modify_st, log_audit, mbind, M_bind, python, lift_result. rewrite Hmade. cbn [api_result].
  rewrite <- Hsha, <- Hbucket. eexists _, _. split; [reflexivity|].
  split; [apply elem_of_app; right; by apply list_elem_of_singleton|]. by split_and!.
Qed.
End attaching.

(** *** Samples *)

#[local] Existing Instance cjk_unicode.

Definition sure : spec_float := float_of_ratio 95 100.
Definition read_lines (l : list string) : ocr_result := mk_ocr [] (map (fun s => (u s, sure, JNull)) l) (JObj []).
#[local] Notation values e configured known := (match build_incident_prefill (extraction_of (read_lines e)) configured known with
  | Ok p => map (fun f => (f, fl_value (ip_field p f), fl_quality (ip_field p f))) (List.filter (fun f => bool_decide (is_Some (fl_value (ip_field p f)))) FIELDS)
  | Raise _ => [] end) (only parsing).

Example rules_read_labels : values ["Alert title: Disk full"; "Service：edge_gateway"; "Environment: PROD"; "Triggered: 2026/07/04 10:00:00"]%string None [u "edge-gateway"] =
  [(title, Some (u "Disk full"), HIGH); (service, Some (u "edge-gateway"), REVIEW); (status, Some (u "open"), HIGH);
   (triggered_at, Some (u "2026-07-04T10:00:00"), HIGH); (environment, Some (u "production"), HIGH)].
Proof. vm_compute. reflexivity. Qed.

(** A percentage at the end of a line, or before a space, is not read: the
    pattern asks for a word boundary after the sign. *)
Example percentages_not_read : map (fun s => first_quantity [cited (u s)]) ["CPU usage 97.5%"; "97.5 % of the disk"]%string = [None; None] /\
  m_text <$> search quantity (u "latency 250ms") = Some (u "250ms").
Proof. vm_compute. split; reflexivity. Qed.

(** The date of a recovery is read less well than that of an alert: with
    slashes, which the pattern accepts, an alert's is understood, while a
    recovery's makes the whole run fail, whatever model and services are
    configured, and the screenshot can then not be attached. *)
Theorem slashed_recovery_fails_run configured known_services content :
  prefill_screenshot (fun _ => Ok (read_lines ["Alert: Disk full"; "Recovered: 2026/07/04 10:00:00"]%string)) configured known_services content = (None, u "OCR_FAILED") /\
  exists p, deterministic_prefill (extraction_of (read_lines ["Alert: Disk full"; "Triggered: 2026/07/04 10:00:00"]%string)) known_services = Ok p /\
    fl_value (ip_field p triggered_at) = Some (u "2026-07-04T10:00:00").
Proof.
  split.
  - unfold prefill_screenshot, mbind, result_bind. destruct (mapper_never_fails known_services (extraction_of (read_lines ["Alert: Disk full"; "Recovered: 2026/07/04 10:00:00"]%string)) configured) as [Hraise _].
    rewrite (proj2 (Hraise (value_error (u "Invalid isoformat string")))); [exact eq_refl|]. vm_compute. reflexivity.
  - eexists. split; [reflexivity|]. vm_compute. reflexivity.
Qed.

(** A model that answers for a field nobody asked it about. *)
Definition eager : local_inference := mk_inference (u "m") (fun _ _ => Ok (JObj [
  (u "title", JObj [(u "value", JStr (u "db1 is slow")); (u "source_index", JInt 1)])])).

(** The model is asked about open fields only, but its answer is not held
    to them: a title the rules were sure of is replaced by the model's. *)
Theorem sure_field_replaced : let e := extraction_of (read_lines ["Alert title: Disk full"; "db1 is slow since 10:00"; "triggered 10:00"]%string) in
  exists p q, deterministic_prefill e [] = Ok p /\ title ∉ open_fields p (lines_of e) /\ fl_value (ip_field p title) = Some (u "Disk full") /\
    fl_quality (ip_field p title) = HIGH /\
    build_incident_prefill e (Some eager) [] = Ok q /\ fl_value (ip_field q title) = Some (u "db1 is slow") /\ fl_quality (ip_field q title) = REVIEW.
Proof.
  cbv zeta. eexists _, _. split; [reflexivity|]. split; [apply (bool_decide_unpack _); vm_compute; exact I|].
  split; [vm_compute; reflexivity|]. split; [vm_compute; reflexivity|]. split; [vm_compute; reflexivity|]. split; vm_compute; reflexivity.
Qed.

#[local] Existing Instance cjk_unicode.
#[local] Notation eager_lines := (extraction_of (read_lines ["Alert title: Disk full"; "db1 is slow since 10:00"; "triggered 10:00"]%string)) (only parsing).
#[local] Notation eager_run := (build_incident_prefill eager_lines (Some eager) []) (only parsing).
Lemma eager_runs : exists p, eager_run = Ok p /\ fl_method (ip_field p title) = local_ai /\ fl_value (ip_field p title) = Some (u "db1 is slow").
Proof. eexists. split; [vm_compute; reflexivity|]. split; vm_compute; reflexivity. Qed.

Lemma suggestions_backed_witness : exists p said source, eager_run = Ok p /\ fl_source (ip_field p title) = Some source /\
  model_value_supported title said source [] = true.
Proof.
  destruct eager_runs as (p & Hp & Hm & Hv).
  destruct (@suggestions_backed cjk_unicode [] eager_lines (Some eager) p title Hp _ Hv) as (_ & _ & _ & _ & Hai). destruct (Hai Hm) as (_ & said & source & Hs & Hok & _).
  exists p, said, source. split; [exact Hp|]. split; [exact Hs|exact Hok].
Defined.

Definition mute : local_inference := mk_inference (u "m") (fun _ _ => Raise (LocalInferenceError (u "no answer"))).
#[local] Notation mute_run := (build_incident_prefill eager_lines (Some mute) []) (only parsing).
Lemma mute_runs : exists p, mute_run = Ok p /\ ip_status p = FALLBACK.
Proof. eexists. split; vm_compute; reflexivity. Qed.
Lemma mapper_never_fails_witness : exists p q, mute_run = Ok p /\ deterministic_prefill eager_lines [] = Ok q /\ ip_field p = ip_field q.
Proof.
  destruct mute_runs as (p & Hp & Hs).
  destruct (proj2 (@mapper_never_fails cjk_unicode [] eager_lines (Some mute)) p Hp) as (q & Hq & Hf); [rewrite Hs; discriminate|].
  exists p, q. split; [exact Hp|]. split; [exact Hq|exact Hf].
Defined.

#[local] Notation taken_in := (create_incident_prefill (Store := simple_store) (fun _ => Ok (read_lines ["Alert: Disk full"; "status: open"]%string)) None []
  (u "noc-evidence") 100 [1; 2; 3]%Z (Some (u "shot.png")) None 8 9 (Some (u "v9")) (sample_ops [])) (only parsing).
Lemma taken_in_ok : is_ok (fst taken_in) = true.
Proof. vm_compute. reflexivity. Qed.
Definition taken_row : prefill_run := match fst taken_in with Ok run => run | Raise _ => sample_prefill end.
Definition taken_version : obj_version := default v1 (head (stored (ow_store (snd taken_in)) (pf_bucket taken_row) (pf_key taken_row))).
Lemma taken_in_row : taken_in = (Ok taken_row, snd taken_in).
Proof. destruct (ok_pair taken_in taken_in_ok) as [run Hrun]. rewrite Hrun. unfold taken_row. by rewrite Hrun. Qed.

Lemma stored_prefill_attaches_witness : exists e w2, attach_prefill_to_incident 8 2 9 6 50 (snd taken_in) = (Ok (6%N, e), w2) /\ e_state e = ACTIVE.
Proof.
  pose proof (@stored_prefill_attaches cjk_unicode simple_store _ (fun _ => Ok (read_lines ["Alert: Disk full"; "status: open"]%string)) None []
    (u "noc-evidence") 100 [1; 2; 3]%Z (Some (u "shot.png")) None 8 9 (Some (u "v9")) (sample_ops []) taken_row (snd taken_in) 2 (sample_incident 2 "INC-1002") 9 6 50
    taken_version [] taken_in_row) as Hth.
  rewrite decide_False in Hth by (vm_compute; discriminate).
  destruct Hth as (e & w2 & Ha & _ & _ & He & _).
  - apply (bool_decide_unpack _). vm_compute. exact I.
  - vm_compute. reflexivity.
  - apply Forall_forall. apply (bool_decide_unpack _). vm_compute. exact I.
  - vm_compute. reflexivity.
  - vm_compute. reflexivity.
  - exists e, w2. split; [exact Ha|exact He].
Defined.
