(* ===== verification/Health.v ===== *)
(** * Health of the processes

    [noc_bridge/worker_health.py], the probes of a worker and its health
    endpoints; [app/operational_health.py], what the API finds out about its
    dependencies, the worker's answer included; the health routes of [main.py]
    and the runtime status of [routers/admin.py].

    A probe's outcome, the answer of a server or an exception, is an argument;
    clocks that only appear in an answer are left out. *)

From stdpp Require Import sorting.
From S2P Require Import Prelude PyStr Json Failures PyVal PyColl Broker Jobs Hermes Api.

Definition HEALTHY : pystr := u "healthy".
Definition DEGRADED : pystr := u "degraded".
Definition UNAVAILABLE : pystr := u "unavailable".
Definition UNKNOWN : pystr := u "unknown".
Definition DISABLED : pystr := u "disabled".

(** What [urlopen] comes back with; an error status is an exception that can
    be read. *)
Inductive reply :=
  | Replied (body : list Z)
  | HttpError (code : Z) (body : result pyexn (list Z))
  | NoReply (x : pyexn).
Definition HTTPError : pyexn := mk_exn (ForeignError (u "HTTPError") false) [].

(** [json.loads(body.decode("utf-8"))] *)
Definition json_text (body : list Z) : result pyexn json :=
  match utf8_decode body with
  | None => Raise (mk_exn UnicodeDecodeError [])
  | Some t => match json_loads t with Some j => Ok j | None => Raise (mk_exn JSONDecodeError []) end
  end.

(** [j in {...}] for a set of strings: the value is hashed first. *)
Definition in_set (j : json) (l : list pystr) : result pyexn bool :=
  match j with
  | JList _ | JObj _ => Raise (type_error (u "unhashable type: '" ++ type_name j ++ u "'"))
  | JStr s => Ok (bool_decide (s ∈ l))
  | _ => Ok false
  end.

(** [url.rstrip("/").split("/p/", 1)[0]] *)
Definition listener_root (url : pystr) : pystr :=
  let s := rstrip_chars (u "/") url in match split_at_profile s with Some (listener, _) => listener | None => s end.

(** ** The worker: [worker_health.py] *)

Module Worker_health.

(** The dictionary [WorkerMetrics.values]. *)
Definition metrics := list (pystr * json).
Definition initial_metrics : metrics :=
  map (fun k => (u k, JInt 0)) ["jobs_queued"; "jobs_processing"; "jobs_completed"; "jobs_failed"; "retry_count"; "schema_validation_failures";
    "provider_failures"; "last_duration_ms"; "last_preprocessing_duration_ms"; "queue_depth"]%string ++
  map (fun k => (u k, JBool false)) ["runtime_ready"; "rabbitmq_ready"; "hermes_profile_ready"]%string.
(** [set_value]; [set_runtime_ready] is the case of that key. *)
Definition set_value (name : pystr) (v : json) (m : metrics) : metrics := assoc_set name v m.
Definition set_runtime_ready (ready : bool) : metrics -> metrics := set_value (u "runtime_ready") (JBool ready).

Definition hermes_health_url (base_url : pystr) : pystr := listener_root base_url ++ u "/health".
(** [hermes_is_reachable]: the status of a response, or an exception. *)
Definition hermes_is_reachable (status : result pyexn Z) : bool :=
  match status with Ok s => (200 <=? s)%Z && (s <? 300)%Z | Raise _ => false end.
(** [hermes_profile_is_ready]: the address and the reading of the answer. *)
Definition toolsets_url (hermes_base_url profile : pystr) : pystr := base_url hermes_base_url profile ++ u "/v1/toolsets".
Definition hermes_profile_is_ready (r : reply) : bool :=
  match r with
  | Replied body =>
      match payload ← json_text body; py_get (u "data") JNull payload with
      | Ok (JList toolsets) => negb (existsb enabled_item toolsets)
      | _ => false
      end
  | _ => false
  end.
(** [postgresql_is_ready]: what [fetchone] returned after [SELECT 1]. *)
Definition postgresql_is_ready (row : result pyexn (option (list Z))) : bool :=
  match row with Ok (Some [1%Z]) => true | _ => false end.
(** [minio_is_ready] *)
Definition probed_buckets (worker_kind evidence artifacts reports : pystr) : list pystr :=
  [evidence; artifacts] ++ (if decide (worker_kind = u "daily_report") then [reports] else []).
Definition minio_is_ready (buckets : list pystr) (client : result pyexn ()) (head_bucket : pystr -> result pyexn ()) : bool :=
  is_ok client && forallb (fun b => is_ok (head_bucket b)) buckets.

(** *** [_ProbeCache]

    The lock is held for the look-up and for the store, not for the probe
    between them, so the two are transitions of their own. *)
Definition cache := gmap pystr (Z * bool).
Definition cached (ttl : Z) (key : pystr) (now : Z) (c : cache) : option bool :=
  '(stored, result) ← c !! key; if (now - stored <? ttl)%Z then Some result else None.
Definition store_probe (key : pystr) (now : Z) (result : bool) (c : cache) : cache := <[key := (now, result)]> c.

(** *** [_HealthHandler.do_GET] *)
Section handler.
Context (profile worker_kind : pystr).

Definition PATHS : list pystr := map u ["/health"; "/health/live"; "/health/ready"; "/metrics"]%string.
Definition PROBES : list pystr := map u ["hermes"; "hermes_profile"; "postgresql"; "minio"]%string.
Definition health_name (ok : bool) : pystr := if ok then HEALTHY else UNAVAILABLE.
(** [metrics.get(key, metrics.get("runtime_ready", False))] *)
Definition flag (key : pystr) (m : metrics) : bool :=
  jtruthy (default (default (JBool false) (assoc (u "runtime_ready") m)) (assoc key m)).
(** The dependencies of the answer, from the probes' results in the order of
    [PROBES]. *)
Definition dependencies (m : metrics) (results : list bool) : list (pystr * pystr) :=
  let l := (u "rabbitmq", health_name (flag (u "rabbitmq_ready") m)) :: zip_with (fun name ok => (name, health_name ok)) PROBES results in
  if flag (u "hermes_profile_ready") m then l else assoc_set (u "hermes_profile") UNAVAILABLE l.
Definition is_ready (m : metrics) (results : list bool) : bool :=
  flag (u "runtime_ready") m && forallb (fun d => bool_decide (snd d = HEALTHY)) (dependencies m results).
Definition dependencies_json (m : metrics) (results : list bool) : json := JObj (map (fun d => (fst d, JStr (snd d))) (dependencies m results)).
Definition live_payload : json :=
  JObj [(u "status", JStr HEALTHY); (u "component", JStr (u "ai-worker")); (u "worker_kind", JStr worker_kind)].
Definition ready_payload (m : metrics) (results : list bool) : json := JObj [
  (u "status", JStr (if is_ready m results then HEALTHY else DEGRADED)); (u "component", JStr (u "ai-worker")); (u "runtime", JStr (u "hermes"));
  (u "worker_kind", JStr worker_kind); (u "profile", JStr profile); (u "dependencies", dependencies_json m results);
  (u "metrics", JObj (assoc_set (u "dependencies") (dependencies_json m results) m))].
(** [do_GET]: the status code and the payload, if any. *)
Definition do_GET (path : pystr) (m : metrics) (results : list bool) : Z * option json :=
  if bool_decide (path ∉ PATHS) then (404%Z, None)
  else if bool_decide (path = u "/health/live") then (200%Z, Some live_payload)
  else ((if is_ready m results || bool_decide (path ∈ map u ["/health"; "/metrics"]%string) then 200 else 503)%Z, Some (ready_payload m results)).
End handler.
End Worker_health.

(** ** The API: [operational_health.py] *)

Record check := mk_check { ck_status : pystr; ck_detail : option json }.
#[global] Instance check_eq_dec : EqDecision check.
Proof. solve_decision. Defined.
Definition check_json (c : check) : json :=
  JObj ((u "status", JStr (ck_status c)) :: match ck_detail c with Some d => [(u "detail", d)] | None => [] end).
Definition raised_name (x : pyexn) : pystr := class_name (x_class x).
Definition unavailable (detail : pystr) : check := mk_check UNAVAILABLE (Some (JStr detail)).
(** A check whose body is one [try]. *)
Definition reported (r : result pyexn (option json)) : check :=
  match r with Ok detail => mk_check HEALTHY detail | Raise x => unavailable (raised_name x) end.

(** [_check_database], [_check_minio] *)
Definition check_database (select_1 : result pyexn ()) : check := reported (_ ← select_1; mret None).
Definition check_minio (list_buckets : result pyexn ()) : check := reported (_ ← list_buckets; mret None).
(** [_check_rabbitmq]: [count] is the message count of a queue that a passive
    declaration reports. *)
Fixpoint queue_counts (count : pystr -> result pyexn Z) (types : list pystr) : result pyexn (list (pystr * json)) :=
  match types with
  | [] => Ok []
  | t :: rest =>
      ready ← count (main (queue_names t)); dead ← count (dlq (queue_names t)); l ← queue_counts count rest;
      mret ((t, JObj [(u "ready", JInt ready); (u "dead_letter", JInt dead)]) :: l)
  end.
Definition check_rabbitmq (connect close : result pyexn ()) (count : pystr -> result pyexn Z) : check :=
  reported (_ ← connect; queues ← queue_counts count JOB_TYPES; _ ← close; mret (Some (JObj [(u "queues", JObj queues)]))).

(** [_check_http_dependency] *)
Definition reported_status (body : list Z) : result pyexn (json * json) :=
  payload ← json_text body; status ← py_get (u "status") JNull payload; _ ← in_set status []; mret (payload, status).
Definition is_bad (status : json) : option pystr :=
  match status with JStr s => if decide (s ∈ [DEGRADED; UNAVAILABLE]) then Some s else None | _ => None end.
Definition check_http_dependency (r : reply) (name : pystr) : check :=
  match r with
  | Replied body =>
      match reported_status body with
      | Ok (payload, status) =>
          if bool_decide (status = JStr HEALTHY \/ status = JStr (u "ok")) then mk_check HEALTHY (Some payload)
          else mk_check (default UNKNOWN (is_bad status)) (Some payload)
      | Raise x => unavailable (name ++ u ": " ++ raised_name x)
      end
  | HttpError code body =>
      match '(payload, status) ← (b ← body; reported_status b); mret (payload, is_bad status) with
      | Ok (payload, Some s) => mk_check s (Some payload)
      | _ => unavailable (name ++ u ": HTTP " ++ py_str_int code)
      end
  | NoReply x => unavailable (name ++ u ": " ++ raised_name x)
  end.

Section console.
Context `{PyText}.

(** The configuration the checks read. *)
Record settings := mk_settings {
  st_ai_runtime : pystr; st_hermes_base_url : pystr; st_ai_worker_health_url : pystr; st_daily_report_worker_health_url : pystr;
  st_daily_report_ai_enabled : bool; st_local_prefill_ai_enabled : bool; st_local_prefill_base_url : pystr; st_local_prefill_model : pystr }.
(** The world the checks meet: what the calls of the libraries come back
    with. *)
Record probed := mk_probed {
  pr_select_1 : result pyexn (); pr_connect : result pyexn (); pr_close : result pyexn (); pr_count : pystr -> result pyexn Z;
  pr_list_buckets : result pyexn (); pr_get : pystr -> reply }.

Context (s : settings) (e : probed).

(** [_check_ollama] *)
Fixpoint model_names (models : list json) : result pyexn (list pystr) :=
  match models with
  | [] => Ok []
  | JObj o :: rest => l ← model_names rest; mret (py_str (default JNull (assoc (u "name") o)) :: l)
  | _ :: rest => model_names rest
  end.
Definition installed_models (body : list Z) : result pyexn (list json * list pystr) :=
  payload ← json_text body; models ← py_get (u "models") JNull payload; items ← py_iter (jor models (JList []));
  names ← model_names items; mret (items, names).
Definition check_ollama : check :=
  let configured := st_local_prefill_model s in
  match match pr_get e (rstrip_chars (u "/") (st_local_prefill_base_url s) ++ u "/api/tags") with
        | Replied body => installed_models body
        | HttpError _ _ => Raise HTTPError
        | NoReply x => Raise x
        end with
  | Ok (models, names) =>
      let counted := [(u "model", JStr configured); (u "model_count", JInt (Z.of_nat (length models)))] in
      if decide (configured ∈ names) then mk_check HEALTHY (Some (JObj counted))
      else mk_check DEGRADED (Some (JObj (counted ++ [(u "reason", JStr (u "configured model is not installed"))])))
  | Raise x => unavailable (u "ollama: " ++ raised_name x)
  end.

(** [_check_hermes], [_check_ai_worker] *)
Definition check_hermes : check := check_http_dependency (pr_get e (listener_root (st_hermes_base_url s) ++ u "/health")) (u "hermes").
Definition check_ai_worker : check := check_http_dependency (pr_get e (st_ai_worker_health_url s)) (u "ai-worker").

(** [_worker_reports_hermes_healthy]; the inner [get] is evaluated even when
    the outer one finds its key. *)
Definition worker_reports_hermes_healthy (worker : json) : result pyexn bool :=
  detail ← py_get (u "detail") JNull worker;
  if is_obj detail then
    runtime_detail ← py_get (u "metrics") detail detail;
    older ← py_get (u "dependencies") (JObj []) runtime_detail;
    dependencies ← py_get (u "dependencies") older detail;
    if is_obj dependencies && jtruthy dependencies then
      hermes ← py_get (u "hermes") JNull dependencies; profile ← py_get (u "hermes_profile") JNull dependencies;
      mret (bool_decide (hermes = JStr HEALTHY) && bool_decide (profile = JStr HEALTHY))
    else
      status ← py_get (u "status") JNull worker; ready ← py_get (u "runtime_ready") JNull runtime_detail;
      reachable ← py_get (u "runtime_reachable") JNull runtime_detail;
      mret (bool_decide (status = JStr HEALTHY) && bool_decide (ready = JBool true) && bool_decide (reachable = JBool true))
  else mret false.

(** [_overall_status] *)
Definition overall_status (statuses : list pystr) : pystr :=
  let counted := filter (fun x => x ∉ [DISABLED; u "not_applicable"]) statuses in
  if decide (UNAVAILABLE ∈ counted) then UNAVAILABLE
  else if decide (DEGRADED ∈ counted) then DEGRADED
  else if decide (UNKNOWN ∈ counted) then UNKNOWN
  else HEALTHY.

Definition checks_table := list (pystr * check).
Definition runtime_enabled : bool := bool_decide (st_ai_runtime s = u "hermes").
(** The checks that [dependency_health] submits, with their results. *)
Definition submitted : checks_table := [
  (u "postgresql", check_database (pr_select_1 e));
  (u "rabbitmq", check_rabbitmq (pr_connect e) (pr_close e) (pr_count e));
  (u "minio", check_minio (pr_list_buckets e));
  (u "ai_runtime", if runtime_enabled then check_hermes else mk_check DISABLED (Some (JStr (u "AI runtime is disabled by configuration"))));
  (u "ollama", if st_local_prefill_ai_enabled s then check_ollama else mk_check DISABLED (Some (JStr (u "local prefill AI is disabled by configuration"))))] ++
  if runtime_enabled then [(u "ai_worker", check_ai_worker)] else [].

(** What the worker can see of Hermes replaces what the API can see. *)
Definition trusted_runtime (d : checks_table) : result pyexn checks_table :=
  match runtime_enabled, assoc (u "ai_runtime") d with
  | true, Some direct =>
      let worker := match assoc (u "ai_worker") d with Some c => check_json c | None => JObj [] end in
      trusted ← worker_reports_hermes_healthy worker;
      if trusted : bool then
        detail ← py_get (u "detail") JNull worker; runtime ← py_get (u "runtime") JNull detail; profile ← py_get (u "profile") JNull detail;
        mret (assoc_set (u "ai_runtime") (mk_check HEALTHY (Some (JObj [(u "source", JStr (u "ai-worker")); (u "runtime", runtime);
          (u "profile", profile); (u "direct_probe", check_json direct)]))) d)
      else mret d
  | _, _ => Ok d
  end.

(** [dependencies.get("rabbitmq", {}).get("detail", {}).get("queues", {})] *)
Definition queue_detail (d : checks_table) : result pyexn json :=
  py_get (u "queues") (JObj []) (match assoc (u "rabbitmq") d with Some c => default (JObj []) (ck_detail c) | None => JObj [] end).
(** [sum(int(queue.get("dead_letter", 0)) ...)]; the counts are integers, as
    [check_rabbitmq] writes them. *)
Definition py_int (j : json) : result pyexn Z :=
  match j with JInt n => Ok n | _ => Raise (type_error (u "int() argument must be a number")) end.
Fixpoint dead_letters_in (queues : list (pystr * json)) : result pyexn Z :=
  match queues with
  | [] => Ok 0%Z
  | (_, JObj o) :: rest => n ← py_int (default (JInt 0) (assoc (u "dead_letter") o)); m ← dead_letters_in rest; mret (n + m)%Z
  | _ :: rest => dead_letters_in rest
  end.
Definition dead_letter_count (queues : json) : result pyexn Z :=
  match queues with JObj o => dead_letters_in o | _ => Raise (attribute_error (u "'" ++ type_name queues ++ u "' object has no attribute 'values'")) end.

Record health := mk_health {
  he_status : pystr; he_dependency_status : pystr; he_pipeline_status : pystr; he_dead_letters : Z; he_dependencies : checks_table }.
(** [dependency_health], from the results in the order in which the checks
    finished. *)
Definition dependency_health (finished : checks_table) : result pyexn health :=
  d ← trusted_runtime finished;
  let dependency_status := overall_status (map (fun x => ck_status (snd x)) d) in
  queues ← queue_detail d;
  n ← dead_letter_count queues;
  let pipeline_status := if (n =? 0)%Z then HEALTHY else DEGRADED in
  mret (mk_health (if decide (dependency_status = HEALTHY) then pipeline_status else dependency_status) dependency_status pipeline_status n d).

(** [readiness] of [main.py] *)
Definition CORE : list pystr := map u ["postgresql"; "rabbitmq"; "minio"]%string.
Definition core_status (h : health) (name : pystr) : result pyexn pystr :=
  match assoc name (he_dependencies h) with Some c => Ok (ck_status c) | None => Raise (key_error name) end.
Fixpoint core_healthy (h : health) (names : list pystr) : result pyexn bool :=
  match names with
  | [] => Ok true
  | name :: rest => x ← core_status h name; all ← core_healthy h rest; mret (bool_decide (x = HEALTHY) && all)
  end.
Definition readiness (finished : checks_table) : result pyexn (Z * health) :=
  h ← dependency_health finished; ready ← core_healthy h CORE; mret (if ready : bool then 200%Z else 503%Z, h).

(** ** The runtime status of [routers/admin.py] *)

(** The newest completed run: rows of analysis runs or reports with their
    job, provider and model. *)
Definition completed_run := (usec * option pystr * option pystr)%type.
Definition latest_run (rows : list (job_id * option pystr * option pystr)) (jobs : gmap job_id job) : option completed_run :=
  head (py_sorted (fun x y : completed_run => fst (fst y) <=? fst (fst x))%Z (omap (fun '(i, provider, model) =>
    j ← jobs !! i; at_time ← j_completed_at j; if decide (j_status j = COMPLETED) then Some (at_time, provider, model) else None) rows)).
(** [max(..., key=lambda item: item[0])]: the first of equal ones. *)
Definition latest_success (log_run report_run : option completed_run) : option (pystr * completed_run) :=
  match log_run, report_run with
  | None, None => None
  | Some l, None => Some (u "log_triage", l)
  | None, Some r => Some (u "daily_report", r)
  | Some l, Some r => Some (if (fst (fst l) <? fst (fst r))%Z then (u "daily_report", r) else (u "log_triage", l))
  end.
Definition depth_of (queues : json) (job_type key : pystr) : result pyexn json :=
  q ← py_get job_type (JObj []) queues; py_get key JNull q.
Record pipeline_part := mk_part { pp_status : pystr; pp_worker : json; pp_profile : option pystr; pp_queue_depth : json; pp_dlq_depth : json }.
Record runtime_status := mk_runtime {
  rt_enabled : bool; rt_hermes : json; rt_log_analysis : pipeline_part; rt_daily_report : pipeline_part;
  rt_last_successful_job : option (pystr * completed_run); rt_dependencies : list (pystr * json) }.
Definition status_only (x : pystr) : json := JObj [(u "status", JStr x)].
Definition dependency_json (d : checks_table) (name fallback : pystr) : json :=
  match assoc name d with Some c => check_json c | None => status_only fallback end.
Definition daily_enabled : bool := runtime_enabled && st_daily_report_ai_enabled s.
Definition daily_worker : json :=
  if negb (st_daily_report_ai_enabled s) then status_only (u "not_required")
  else if negb runtime_enabled then status_only (u "not_configured")
  else check_json (check_http_dependency (pr_get e (st_daily_report_worker_health_url s)) (u "daily-report-worker")).
(** [get_runtime_status] *)
Definition get_runtime_status (finished : checks_table) (jobs : gmap job_id job) (analysis_runs reports : list (job_id * option pystr * option pystr))
    : result pyexn runtime_status :=
  h ← dependency_health finished;
  let d := he_dependencies h in
  queues ← queue_detail d;
  log_ready ← depth_of queues (u "log_triage") (u "ready"); log_dead ← depth_of queues (u "log_triage") (u "dead_letter");
  daily_ready ← depth_of queues (u "daily_report") (u "ready"); daily_dead ← depth_of queues (u "daily_report") (u "dead_letter");
  mret (mk_runtime runtime_enabled (dependency_json d (u "ai_runtime") DISABLED)
    (mk_part (if runtime_enabled then u "enabled" else DISABLED) (if runtime_enabled then dependency_json d (u "ai_worker") UNKNOWN else status_only (u "not_required"))
      (if runtime_enabled then Some (u "noc-log-analysis") else None) log_ready log_dead)
    (mk_part (if daily_enabled then u "enabled" else if st_daily_report_ai_enabled s then u "not_configured" else DISABLED) daily_worker
      (if daily_enabled then Some (u "noc-daily-report") else None) daily_ready daily_dead)
    (latest_success (latest_run analysis_runs jobs) (latest_run reports jobs))
    (map (fun name => (name, dependency_json d name UNKNOWN)) CORE)).
End console.

(** ** Theorems *)

Lemma elem_assoc {A} k (v : A) o : NoDup (map fst o) -> (k, v) ∈ o -> assoc k o = Some v.
Proof.
  induction o as [|[k' v'] o IH]; cbn [map fst]; [set_solver|]. intros [Hk Hnd]%NoDup_cons Hin. simpl. case_decide as E.
  - apply elem_of_cons in Hin as [[= -> ->]|Hin]; [done|]. subst. destruct Hk. apply list_elem_of_fmap. by exists (k', v).
  - apply IH; [done|]. apply elem_of_cons in Hin as [[= -> ->]|Hin]; done.
Qed.
Lemma assoc_perm {A} (l l' : list (pystr * A)) k : NoDup (map fst l) -> l ≡ₚ l' -> assoc k l = assoc k l'.
Proof.
  intros Hnd Hp. assert (Hnd' : NoDup (map fst l')) by (by rewrite <- Hp).
  destruct (assoc k l) as [v|] eqn:E.
  - apply assoc_elem in E. rewrite Hp in E. symmetry. by apply elem_assoc.
  - symmetry. apply assoc_None. apply assoc_None in E. by rewrite <- Hp.
Qed.

(** *** The probe cache *)
Section freshness.
Context (ttl : Z).

Lemma store_lookup key now result c k : Worker_health.store_probe key now result c !! k = if decide (key = k) then Some (now, result) else c !! k.
Proof. unfold Worker_health.store_probe. case_decide as E; [subst; apply lookup_insert_eq|by apply lookup_insert_ne]. Qed.

(** The cache, the probes completed so far and the clock, which does not go
    back.  Requests run at the same time; a store follows a probe that some
    request made. *)
Record probing := mk_probing { pg_cache : Worker_health.cache; pg_done : list (pystr * (Z * bool)); pg_now : Z }.
Inductive probing_step (p : probing) : probing -> Prop :=
| time_passed now : (pg_now p <= now)%Z -> probing_step p (mk_probing (pg_cache p) (pg_done p) now)
| probe_stored key result now : (pg_now p <= now)%Z ->
    probing_step p (mk_probing (Worker_health.store_probe key now result (pg_cache p)) (pg_done p ++ [(key, (now, result))]) now).
Definition no_probes (now : Z) : probing := mk_probing ∅ [] now.

(** The newest completed probe of a dependency. *)
Definition newest (key : pystr) (l : list (pystr * (Z * bool))) : option (Z * bool) := snd <$> last (filter (fun x => fst x = key) l).

Lemma newest_snoc key l k v : newest key (l ++ [(k, v)]) = if decide (k = key) then Some v else newest key l.
Proof. unfold newest. rewrite filter_app. destruct (decide (k = key)) as [E|E].
  - by rewrite filter_cons_True, filter_nil, last_snoc.
  - by rewrite filter_cons_False, filter_nil, app_nil_r. Qed.

Theorem probe_answers_fresh start p key now result : rtc probing_step (no_probes start) p -> 
  Worker_health.cached ttl key now (pg_cache p) = Some result ->
  exists at_time, newest key (pg_done p) = Some (at_time, result) /\ (now - at_time < ttl)%Z /\ (at_time <= pg_now p)%Z.
Proof.
  intros Hrun. assert (Hinv : forall key v, pg_cache p !! key = Some v -> newest key (pg_done p) = Some v /\ (fst v <= pg_now p)%Z).
  { remember (no_probes start) as p0 eqn:E0.
    assert (H0 : forall key v, pg_cache p0 !! key = Some v -> newest key (pg_done p0) = Some v /\ (fst v <= pg_now p0)%Z) by (subst; done).
    clear E0. induction Hrun as [|p0 p1 p2 Hs _ IH]; [done|]. apply IH. intros k v. destruct Hs as [t Ht|k' r t Ht]; simpl.
    - intros Hv. destruct (H0 k v Hv). split; [done|lia].
    - rewrite newest_snoc, store_lookup. case_decide; [intros [= <-]; split; [done|simpl; lia]|].
      intros Hv. destruct (H0 k v Hv). split; [done|lia]. }
  unfold Worker_health.cached. intros Hc. destruct (pg_cache p !! key) as [[t r]|] eqn:E; [|discriminate]. simpl in Hc.
  destruct (now - t <? ttl)%Z eqn:El; [|discriminate]. injection Hc as <-. destruct (Hinv _ _ E). exists t. split; [done|]. simpl in *. split; [lia|done].
Qed.
End freshness.

(** *** The checks of the API *)

(** A result, or the [AttributeError] of a [get] on something that has none. *)
Definition gets {A} (r : result pyexn A) : Prop := (exists v, r = Ok v) \/ exists msg, r = Raise (attribute_error msg).
Lemma gets_ret {A} (v : A) : gets (Ok v).
Proof. left. by exists v. Qed.
Lemma gets_bind {A B} (m : result pyexn A) (f : A -> result pyexn B) : gets m -> (forall v, m = Ok v -> gets (f v)) -> gets (v ← m; f v).
Proof. intros [[v ->]|[msg ->]] Hf; [by apply Hf|right; by exists msg]. Qed.
Lemma gets_get k d j : gets (py_get k d j).
Proof. destruct j; [right; by eexists..|left; by eexists]. Qed.
#[local] Hint Resolve gets_ret gets_get : core.
Ltac gets := repeat (apply gets_bind; [by auto|intros ? ?]); auto.

Section checks.
Context `{PyText} (s : settings) (e : probed).
#[local] Notation submitted := (submitted s e).
#[local] Notation broker := (check_rabbitmq (pr_connect e) (pr_close e) (pr_count e)).

Lemma submitted_keys : NoDup (map fst submitted).
Proof. apply (bool_decide_unpack _). unfold submitted. destruct (runtime_enabled s); vm_compute; exact I. Qed.
Lemma finished_assoc finished name : finished ≡ₚ submitted -> assoc name finished = assoc name submitted.
Proof. intros Hp. symmetry. apply assoc_perm; [apply submitted_keys|by symmetry]. Qed.

Lemma worker_reports_gets worker : gets (worker_reports_hermes_healthy worker).
Proof. unfold worker_reports_hermes_healthy. gets. destruct (is_obj _); [|apply gets_ret]. gets. case_match; gets; apply gets_ret. Qed.

(** [trusted_runtime] changes at most the one entry, or fails as above. *)
Lemma trusted_gets finished : gets (trusted_runtime s finished).
Proof.
  unfold trusted_runtime. destruct (runtime_enabled s); [|apply gets_ret]. destruct (assoc _ _) as [c|]; [|apply gets_ret].
  apply gets_bind; [apply worker_reports_gets|]. intros [] _; [gets; apply gets_ret|apply gets_ret].
Qed.
Lemma trusted_inv finished d : trusted_runtime s finished = Ok d ->
  d = finished \/ exists detail, d = assoc_set (u "ai_runtime") (mk_check HEALTHY detail) finished.
Proof.
  unfold trusted_runtime. intros Hd. destruct (runtime_enabled s); [|left; by injection Hd as <-].
  destruct (assoc (u "ai_runtime") finished) as [c|]; [|left; by injection Hd as <-].
  apply bind_result_ok in Hd as ([] & _ & Hd); [|left; by injection Hd as <-].
  do 3 apply bind_result_ok in Hd as (? & _ & Hd). injection Hd as <-. right. by eexists.
Qed.
Lemma trusted_others finished d name : trusted_runtime s finished = Ok d -> name <> u "ai_runtime" -> assoc name d = assoc name finished.
Proof. intros [->|[detail ->]]%trusted_inv Hname; [done|by apply assoc_set_ne]. Qed.

Lemma queue_counts_inv count types q : queue_counts count types = Ok q ->
  exists dead, Forall2 (fun t n => count (dlq (queue_names t)) = Ok n) types dead /\ dead_letters_in q = Ok (zsum dead).
Proof.
  revert q. induction types as [|t types IH]; intros q; cbn [queue_counts].
  - intros [= <-]. exists []. by split; [constructor|].
  - intros (ready & _ & (n & En & (l & El & [= <-])%bind_result_ok)%bind_result_ok)%bind_result_ok.
    destruct (IH l El) as (dead & Hd & Hsum). exists (n :: dead). split; [by constructor|]. simpl. by rewrite Hsum.
Qed.

(** The broker's check is healthy with the counts of all queues, or names the
    exception. *)
Lemma broker_case : (exists name, broker = unavailable name) \/
  exists q dead, broker = mk_check HEALTHY (Some (JObj [(u "queues", JObj q)])) /\ dead_letters_in q = Ok (zsum dead) /\
    Forall2 (fun t n => pr_count e (dlq (queue_names t)) = Ok n) JOB_TYPES dead.
Proof.
  unfold check_rabbitmq, reported. destruct (pr_connect e); [|left; by eexists]. cbn [mbind result_bind].
  destruct (queue_counts _ _) as [q|] eqn:Eq; [|left; by eexists]. cbn [mbind result_bind]. destruct (pr_close e); [|left; by eexists].
  right. apply queue_counts_inv in Eq as (dead & Hd & Hsum). by exists q, dead.
Qed.

Lemma submitted_broker : assoc (u "rabbitmq") submitted = Some broker.
Proof. apply elem_assoc; [apply submitted_keys|]. right. left. Qed.
Lemma broken_detail d name : assoc (u "rabbitmq") d = Some (unavailable name) -> exists msg, queue_detail d = Raise (attribute_error msg).
Proof. intros Hd. unfold queue_detail. rewrite Hd. by eexists. Qed.
Lemma healthy_detail d q : assoc (u "rabbitmq") d = Some (mk_check HEALTHY (Some (JObj [(u "queues", JObj q)]))) -> queue_detail d = Ok (JObj q).
Proof. intros Hd. unfold queue_detail. by rewrite Hd. Qed.

(** C23. The health endpoints of the API do not survive the outage they are to
    report: when the check of the message broker fails, at the connection, at a
    queue or at the close, whatever else is found, [dependency_health] raises
    [AttributeError], since the [detail] it reads the queues from is then the
    name of the exception, and readiness answers neither 200 nor 503. *)
Theorem broker_outage_breaks_health finished : finished ≡ₚ submitted -> ck_status broker <> HEALTHY ->
  exists msg, dependency_health s finished = Raise (attribute_error msg) /\ readiness s finished = Raise (attribute_error msg).
Proof.
  intros Hp Hb. assert (Hd : exists msg, dependency_health s finished = Raise (attribute_error msg)).
  { unfold dependency_health. destruct (trusted_gets finished) as [[d Hd]|[msg ->]]; [rewrite Hd|by exists msg]. cbn [mbind result_bind].
    destruct broker_case as [[name Hn]|(q & dead & Hq & _)]; [|by rewrite Hq in Hb].
    destruct (broken_detail d name) as [msg ->]; [|by exists msg]. by rewrite (trusted_others _ _ _ Hd), (finished_assoc finished), submitted_broker, Hn. }
  destruct Hd as [msg Hd]. exists msg. split; [done|]. unfold readiness. by rewrite Hd.
Qed.

(** *** The status of the whole *)

Definition STATUSES : list pystr := [HEALTHY; DEGRADED; UNAVAILABLE; UNKNOWN; DISABLED].
Definition fine (x : pystr) : Prop := x = HEALTHY \/ x = DISABLED.

Lemma reply_status r name : ck_status (check_http_dependency r name) ∈ STATUSES.
Proof.
  assert (Hbad : forall st x, is_bad st = Some x -> x ∈ STATUSES).
  { intros st x. unfold is_bad. destruct st; try discriminate. case_decide as E; [|discriminate]. intros [= <-]. unfold STATUSES. set_solver. }
  unfold check_http_dependency. destruct r as [body|code body|x]; [| |unfold STATUSES; simpl; set_solver].
  - destruct (reported_status body) as [[payload st]|x]; [|unfold STATUSES; simpl; set_solver].
    case_bool_decide; [unfold STATUSES; simpl; set_solver|]. cbn [ck_status]. destruct (is_bad st) eqn:E; [by eapply Hbad|unfold STATUSES; simpl; set_solver].
  - destruct (_ ← (b ← body; reported_status b); _) as [[payload [x|]]|x] eqn:E; [|unfold STATUSES; simpl; set_solver..].
    apply bind_result_ok in E as ([p st] & _ & [= _ E]). by eapply Hbad.
Qed.
Lemma reported_in r : ck_status (reported r) ∈ STATUSES.
Proof. destruct r; unfold STATUSES; simpl; set_solver. Qed.
Lemma disabled_in d : ck_status (mk_check DISABLED d) ∈ STATUSES.
Proof. unfold STATUSES. simpl. set_solver. Qed.
Lemma ollama_status : ck_status (check_ollama s e) ∈ STATUSES.
Proof. unfold check_ollama. repeat case_match; unfold STATUSES; simpl; set_solver. Qed.
Lemma submitted_statuses : Forall (fun x => ck_status (snd x) ∈ STATUSES) submitted.
Proof.
  unfold submitted. apply Forall_app. split.
  - repeat apply Forall_cons_2; [apply reported_in..|destruct (runtime_enabled s); [apply reply_status|apply disabled_in]| |apply Forall_nil_2].
    destruct (st_local_prefill_ai_enabled s); [apply ollama_status|apply disabled_in].
  - destruct (runtime_enabled s); [|apply Forall_nil_2]. apply Forall_cons_2; [apply reply_status|apply Forall_nil_2].
Qed.
End checks.

#[global] Instance overall_status_perm : Proper (Permutation ==> eq) overall_status.
Proof.
  intros l l' Hp. unfold overall_status.
  assert (E : forall x, x ∈ filter (fun x => x ∉ [DISABLED; u "not_applicable"]) l <-> x ∈ filter (fun x => x ∉ [DISABLED; u "not_applicable"]) l').
  { intros x. by rewrite !list_elem_of_filter, Hp. }
  by rewrite (decide_ext _ _ _ _ (E UNAVAILABLE)), (decide_ext _ _ _ _ (E DEGRADED)), (decide_ext _ _ _ _ (E UNKNOWN)).
Qed.

Lemma overall_status_spec l : Forall (fun x => x ∈ STATUSES) l ->
  (overall_status l = HEALTHY <-> Forall fine l) /\ (overall_status l = UNAVAILABLE <-> UNAVAILABLE ∈ l).
Proof.
  intros Hl. rewrite Forall_forall in Hl. unfold overall_status, fine. rewrite Forall_forall.
  assert (E : forall x, x <> DISABLED -> x <> u "not_applicable" -> x ∈ filter (fun x => x ∉ [DISABLED; u "not_applicable"]) l <-> x ∈ l).
  { intros x Hx Hx'. rewrite list_elem_of_filter. set_solver. }
  assert (D : forall x, x ∈ [UNAVAILABLE; DEGRADED; UNKNOWN] -> x <> DISABLED /\ x <> u "not_applicable").
  { apply Forall_forall. repeat constructor; discriminate. }
  pose proof (fun x Hx => E x (proj1 (D x Hx)) (proj2 (D x Hx))) as E'.
  assert (EU := E' UNAVAILABLE ltac:(set_solver)). assert (ED := E' DEGRADED ltac:(set_solver)). assert (EK := E' UNKNOWN ltac:(set_solver)).
  rewrite (decide_ext _ _ _ _ EU), (decide_ext _ _ _ _ ED), (decide_ext _ _ _ _ EK).
  assert (N : forall x, x ∈ [UNAVAILABLE; DEGRADED; UNKNOWN] -> x <> HEALTHY /\ x <> DISABLED).
  { apply Forall_forall. repeat constructor; discriminate. }
  assert (Hbad : forall x, x ∈ [UNAVAILABLE; DEGRADED; UNKNOWN] -> x ∈ l -> ~ forall y, y ∈ l -> y = HEALTHY \/ y = DISABLED).
  { intros x Hx Hin Hall. destruct (N x Hx), (Hall x Hin); done. }
  assert (Hgood : UNAVAILABLE ∉ l -> DEGRADED ∉ l -> UNKNOWN ∉ l -> forall y, y ∈ l -> y = HEALTHY \/ y = DISABLED).
  { intros HU HD HK y Hy. specialize (Hl y Hy). unfold STATUSES in Hl. rewrite !elem_of_cons, elem_of_nil in Hl.
    destruct Hl as [->|[->|[->|[->|[->|[]]]]]]; auto; done. }
  destruct (decide (UNAVAILABLE ∈ l)) as [HU|HU]; [split; [split; [discriminate|]|done]; intros Hall; by destruct (Hbad UNAVAILABLE ltac:(set_solver))|].
  destruct (decide (DEGRADED ∈ l)) as [HD|HD].
  { split; [split; [discriminate|]|split; [discriminate|done]]. intros Hall. by destruct (Hbad DEGRADED ltac:(set_solver)). }
  destruct (decide (UNKNOWN ∈ l)) as [HK|HK]; split; split; try discriminate; try done; [|by auto]. intros Hall. by destruct (Hbad UNKNOWN ltac:(set_solver)).
Qed.

Lemma assoc_set_forall {A} (P : pystr * A -> Prop) k v o : P (k, v) -> Forall P o -> Forall P (assoc_set k v o).
Proof.
  intros Hv. induction 1 as [|[k' v'] o Hx Ho IH]; simpl; [by constructor|]. case_decide as E; constructor; [by rewrite <- E|done..].
Qed.
Lemma assoc_set_perm {A} k (v : A) l l' : NoDup (map fst l) -> l ≡ₚ l' -> assoc_set k v l ≡ₚ assoc_set k v l'.
Proof.
  intros Hnd Hp. induction Hp as [|[k1 v1] l l' Hp IH|[k1 v1] [k2 v2] l|l l2 l' Hp IH Hp' IH']; simpl; [done| | |].
  - apply NoDup_cons in Hnd as [_ Hnd]. case_decide; constructor; auto.
  - cbn in Hnd. apply NoDup_cons in Hnd as [Hk _]. repeat case_decide; subst; try apply perm_swap. destruct Hk. left.
  - rewrite IH by done. apply IH'. by rewrite <- Hp.
Qed.

Section console.
Context `{PyText} (s : settings) (e : probed).
#[local] Notation submitted := (submitted s e).

Lemma health_inv finished h : finished ≡ₚ submitted -> dependency_health s finished = Ok h ->
  trusted_runtime s finished = Ok (he_dependencies h) /\
  he_dependency_status h = overall_status (map (fun x => ck_status (snd x)) (he_dependencies h)) /\
  he_pipeline_status h = (if (he_dead_letters h =? 0)%Z then HEALTHY else DEGRADED) /\
  he_status h = (if decide (he_dependency_status h = HEALTHY) then he_pipeline_status h else he_dependency_status h) /\
  exists dead, he_dead_letters h = zsum dead /\ Forall2 (fun t n => pr_count e (dlq (queue_names t)) = Ok n) JOB_TYPES dead.
Proof.
  intros Hp Hh. unfold dependency_health in Hh. apply bind_result_ok in Hh as (d & Hd & Hh). apply bind_result_ok in Hh as (queues & Hq & Hh).
  apply bind_result_ok in Hh as (n & Hn & [= <-]). cbn [he_dependencies he_dependency_status he_pipeline_status he_status he_dead_letters].
  do 4 (split; [done|]). destruct (broker_case e) as [[name Hb]|(q & dead & Hb & Hsum & Hdead)].
  - destruct (broken_detail d name) as [msg Hm]; [|congruence]. by rewrite (trusted_others _ _ _ _ Hd), (finished_assoc s e finished), submitted_broker, Hb.
  - rewrite (healthy_detail d q) in Hq; [|by rewrite (trusted_others _ _ _ _ Hd), (finished_assoc s e finished), submitted_broker, Hb].
    injection Hq as <-. exists dead. cbn in Hn. split; [congruence|done].
Qed.

Lemma trusted_statuses finished d : finished ≡ₚ submitted -> trusted_runtime s finished = Ok d -> Forall (fun x => ck_status (snd x) ∈ STATUSES) d.
Proof.
  intros Hp Hd. assert (Hf : Forall (fun x => ck_status (snd x) ∈ STATUSES) finished) by (rewrite Hp; apply submitted_statuses).
  apply trusted_inv in Hd as [->|[detail ->]]; [done|]. apply assoc_set_forall; [left|done].
Qed.

(** The summary the console shows tells the truth: it is healthy exactly
    when every dependency that is switched on is healthy and no message lies in
    a dead-letter queue, and unavailable exactly when some dependency is; the
    dead letters are those the broker counts in the queues of all job types. *)
Theorem console_status finished h : finished ≡ₚ submitted -> dependency_health s finished = Ok h ->
  (he_status h = HEALTHY <-> Forall (fun x => fine (ck_status (snd x))) (he_dependencies h) /\ he_dead_letters h = 0%Z) /\
  (he_status h = UNAVAILABLE <-> exists x, x ∈ he_dependencies h /\ ck_status (snd x) = UNAVAILABLE) /\
  exists dead, he_dead_letters h = zsum dead /\ Forall2 (fun t n => pr_count e (dlq (queue_names t)) = Ok n) JOB_TYPES dead.
Proof.
  intros Hp Hh. destruct (health_inv finished h Hp Hh) as (Hd & Hs & Hpipe & Hst & Hdead). split; [|split; [|done]].
  all: destruct (overall_status_spec (map (fun x => ck_status (snd x)) (he_dependencies h))) as [Hok Hbad];
    [by apply Forall_map, (trusted_statuses finished)|]; rewrite <- Hs in Hok, Hbad; rewrite Hst, Hpipe.
  - rewrite Forall_map in Hok. rewrite <- Hok. case_decide as E; [|split; [intros E'; by destruct E|intros [E' _]; by destruct E]].
    destruct (Z.eqb_spec (he_dead_letters h) 0); split; try done. by intros []. 
  - rewrite list_elem_of_fmap in Hbad. case_decide as E.
    + rewrite E in Hbad. split; [destruct (_ =? _)%Z; discriminate|]. intros (x & Hx & Hu). symmetry in Hu.
      discriminate (proj2 Hbad (ex_intro _ x (conj Hu Hx))).
    + rewrite Hbad. split; intros (x & H1 & H2); exists x; split; done || by symmetry.
Qed.

(** Two outcomes of [trusted_runtime] or [dependency_health] that differ at
    most in the order of the table. *)
Definition same_outcome {A} (R : A -> A -> Prop) (r r' : result pyexn A) : Prop :=
  match r, r' with Ok a, Ok a' => R a a' | Raise x, Raise x' => x = x' | _, _ => False end.
Lemma same_bind {A B} (R : A -> A -> Prop) (S : B -> B -> Prop) m m' (f f' : A -> result pyexn B) :
  same_outcome R m m' -> (forall a a', m = Ok a -> m' = Ok a' -> R a a' -> same_outcome S (f a) (f' a')) ->
  same_outcome S (a ← m; f a) (a ← m'; f' a).
Proof. destruct m, m'; simpl; try done. intros HR Hf. by apply Hf. Qed.
Lemma same_result {A B} (S : B -> B -> Prop) (m : result pyexn A) (f f' : A -> result pyexn B) :
  (forall a, same_outcome S (f a) (f' a)) -> same_outcome S (a ← m; f a) (a ← m; f' a).
Proof. destruct m; simpl; auto. Qed.

Lemma trusted_order f f' : f ≡ₚ submitted -> f' ≡ₚ submitted -> same_outcome Permutation (trusted_runtime s f) (trusted_runtime s f').
Proof.
  intros Hp Hp'. assert (Hff : f ≡ₚ f') by (by rewrite Hp'). assert (Hnd : NoDup (map fst f)) by (rewrite Hp; apply submitted_keys).
  unfold trusted_runtime. rewrite !(finished_assoc s e f _ Hp), !(finished_assoc s e f' _ Hp').
  destruct (runtime_enabled s); [|done]. destruct (assoc (u "ai_runtime") submitted) as [c|]; [|done].
  apply same_result. intros []; [|done]. do 3 (apply same_result; intros ?). by apply assoc_set_perm.
Qed.

(** The checks run in parallel and are filed as they finish; the order has
    no influence: the same status, the same dead letters and the same table of
    dependencies come out, or the same exception. *)
Theorem completion_order_irrelevant f f' : f ≡ₚ submitted -> f' ≡ₚ submitted ->
  same_outcome (fun h h' => he_status h = he_status h' /\ he_dependency_status h = he_dependency_status h' /\
    he_dead_letters h = he_dead_letters h' /\ he_dependencies h ≡ₚ he_dependencies h') (dependency_health s f) (dependency_health s f').
Proof.
  intros Hp Hp'. unfold dependency_health. eapply same_bind; [by apply trusted_order|]. intros d d' Hd Hd' Hdd.
  assert (Hq : queue_detail d = queue_detail d').
  { unfold queue_detail. rewrite (trusted_others _ _ _ _ Hd), (trusted_others _ _ _ _ Hd') by done. by rewrite (finished_assoc s e f), (finished_assoc s e f'). }
  assert (Hs : overall_status (map (fun x => ck_status (snd x)) d) = overall_status (map (fun x => ck_status (snd x)) d')) by (by rewrite Hdd).
  rewrite Hq. do 2 (apply same_result; intros ?). cbn [same_outcome mret result_ret he_status he_dependency_status he_dead_letters he_dependencies]. by rewrite Hs.
Qed.
End console.

(** *** What the worker says reaches the console *)

(** What [urlopen] makes of an answer with that status. *)
Definition answered (code : Z) (body : list Z) : reply := if (200 <=? code)%Z && (code <? 300)%Z then Replied body else HttpError code (Ok body).

Lemma text_ok t : forallb (fun c => (0 <=? c)%Z && (c <? 55296)%Z) t = true -> wire_ok (JStr t).
Proof. apply literal_scalar. Qed.
Lemma entries_ok l : NoDup (map fst l) -> Forall (fun kv : pystr * json => Forall scalar_value (fst kv)) l -> Forall (fun kv => wire_ok (snd kv)) l -> wire_ok (JObj l).
Proof. intros Hnd Hk Hv. apply wire_ok_obj. split; [done|]. rewrite Forall_forall in *. intros kv Hkv. split; [by apply Hk|by apply Hv]. Qed.
Ltac keys := apply (bool_decide_unpack _); vm_compute; exact I.
Ltac literals := repeat (apply Forall_cons_2; [apply literal_scalar; reflexivity|]); apply Forall_nil_2.

Section end_to_end.
Context `{PyText} (s : settings) (e : probed) (profile worker_kind : pystr) (float_text : SpecFloat.spec_float -> pystr).
#[local] Notation submitted := (submitted s e).
Import Worker_health.

Lemma wire_read j : wire_ok j -> json_text (to_wire float_text j) = Ok j.
Proof.
  intros Hw%(from_to_wire float_text). unfold json_text. unfold from_wire in Hw. destruct (utf8_decode _); [|discriminate]. simpl in Hw. by rewrite Hw.
Qed.
Lemma ready_status m results code payload : do_GET profile worker_kind (u "/health/ready") m results = (code, Some payload) ->
  payload = ready_payload profile worker_kind m results /\ code = if is_ready m results then 200%Z else 503%Z.
Proof. unfold do_GET. simpl. destruct (is_ready m results); simpl; by intros [= <- <-]. Qed.

Lemma dependencies_four m h p d b : dependencies m [h; p; d; b] = [
  (u "rabbitmq", health_name (flag (u "rabbitmq_ready") m)); (u "hermes", health_name h);
  (u "hermes_profile", if flag (u "hermes_profile_ready") m then health_name p else UNAVAILABLE); (u "postgresql", health_name d); (u "minio", health_name b)].
Proof.
  unfold dependencies. generalize (flag (u "rabbitmq_ready") m). intros r. destruct (flag _ m); [reflexivity|].
  destruct r, h, p, d, b; vm_compute; reflexivity.
Qed.
Lemma dependencies_ok m h p d b : wire_ok (dependencies_json m [h; p; d; b]).
Proof.
  unfold dependencies_json. rewrite dependencies_four. apply entries_ok; [keys|literals|]. cbn [map fst snd].
  repeat (apply Forall_cons_2; [cbn [snd]; unfold health_name; repeat case_match; apply text_ok; reflexivity|]). apply Forall_nil_2.
Qed.
Lemma payload_ok m h p d b : wire_ok (JObj m) -> Forall scalar_value profile -> Forall scalar_value worker_kind ->
  wire_ok (ready_payload profile worker_kind m [h; p; d; b]).
Proof.
  intros Hm Hp Hk. apply entries_ok; [keys|literals|].
  rewrite !Forall_cons, Forall_nil. cbn [snd]. split; [destruct (is_ready _ _); by apply text_ok|]. split; [by apply text_ok|]. split; [by apply text_ok|].
  split; [done|]. split; [done|]. split; [apply dependencies_ok|]. split; [|done].
  apply (wire_ok_jset _ _ _ (JObj m)); [apply literal_scalar; reflexivity|apply dependencies_ok|done].
Qed.

Section worker_answer.
Context (m : metrics) (h p d b : bool).
#[local] Notation results := [h; p; d; b].
#[local] Notation payload := (ready_payload profile worker_kind m results).
#[local] Notation code := (if is_ready m results then 200%Z else 503%Z).

(** The API files the answer under the status it carries, the payload in
    full, whatever the status code. *)
Lemma answer_filed name : wire_ok payload ->
  check_http_dependency (answered code (to_wire float_text payload)) name = mk_check (if is_ready m results then HEALTHY else DEGRADED) (Some payload).
Proof.
  intros Hw. assert (Hr : reported_status (to_wire float_text payload) = Ok (payload, JStr (if is_ready m results then HEALTHY else DEGRADED))).
  { unfold reported_status. rewrite wire_read by done. reflexivity. }
  destruct (is_ready m results); unfold answered; cbn [andb Z.leb Z.ltb Z.compare Pos.compare Pos.compare_cont check_http_dependency].
  - rewrite Hr. rewrite bool_decide_true by (by left). done.
  - cbn [mbind result_bind]. rewrite Hr. reflexivity.
Qed.
Lemma answer_trusted status : worker_reports_hermes_healthy (check_json (mk_check status (Some payload))) = Ok (h && p && flag (u "hermes_profile_ready") m).
Proof.
  unfold worker_reports_hermes_healthy, check_json, ready_payload, dependencies_json. rewrite dependencies_four. clear float_text.
  generalize (flag (u "rabbitmq_ready") m), (flag (u "hermes_profile_ready") m), (is_ready m results). intros r f ready.
  destruct h, p, f; vm_compute; reflexivity.
Qed.

Lemma submitted_worker : runtime_enabled s = true -> assoc (u "ai_runtime") submitted = Some (check_hermes s e) /\
  assoc (u "ai_worker") submitted = Some (check_ai_worker s e).
Proof.
  intros Hr. pose proof (submitted_keys s e) as Hk. unfold submitted in *. rewrite Hr in Hk |- *. split; apply elem_assoc; try done.
  - do 3 right. left.
  - do 5 right. left.
Qed.

(** C24. What the worker found out reaches the operator's console through the
    HTTP answer, whatever its status code: with Hermes configured and the broker
    up, [dependency_health] files the worker's payload as it was sent, healthy
    exactly when the worker is ready; and the AI runtime counts as healthy when
    the worker's two probes of Hermes and its profile check were, even if a
    database or bucket of the worker's is down and its answer a 503; otherwise
    it has the status of the API's own probe. *)
Theorem worker_word_reaches_console finished answer status : finished ≡ₚ submitted -> st_ai_runtime s = u "hermes" ->
  ck_status (check_rabbitmq (pr_connect e) (pr_close e) (pr_count e)) = HEALTHY ->
  do_GET profile worker_kind (u "/health/ready") m results = (status, Some answer) ->
  pr_get e (st_ai_worker_health_url s) = answered status (to_wire float_text answer) ->
  wire_ok (JObj m) -> Forall scalar_value profile -> Forall scalar_value worker_kind ->
  exists report, dependency_health s finished = Ok report /\
    assoc (u "ai_worker") (he_dependencies report) = Some (mk_check (if is_ready m results then HEALTHY else DEGRADED) (Some answer)) /\
    ck_status <$> assoc (u "ai_runtime") (he_dependencies report) =
      Some (if h && p && flag (u "hermes_profile_ready") m then HEALTHY else ck_status (check_hermes s e)).
Proof.
  intros Hp Hs Hb [-> ->]%ready_status Hget Hm Hpr Hk. assert (Hr : runtime_enabled s = true) by (unfold runtime_enabled; by apply bool_decide_true).
  destruct (submitted_worker Hr) as [Hai Hw]. pose proof (payload_ok m h p d b Hm Hpr Hk) as Hwire.
  assert (Hc : check_ai_worker s e = mk_check (if is_ready m results then HEALTHY else DEGRADED) (Some payload)).
  { unfold check_ai_worker. rewrite Hget. by apply answer_filed. }
  assert (Ht : exists t, trusted_runtime s finished = Ok t /\ assoc (u "ai_worker") t = Some (check_ai_worker s e) /\
    ck_status <$> assoc (u "ai_runtime") t = Some (if h && p && flag (u "hermes_profile_ready") m then HEALTHY else ck_status (check_hermes s e))).
  { unfold trusted_runtime. rewrite Hr, !(finished_assoc s e finished _ Hp), Hai, Hw, Hc, answer_trusted. cbn [mbind result_bind].
    destruct (_ && _ && _); [|exists finished; by rewrite !(finished_assoc s e finished _ Hp), Hai, Hw, Hc].
    eexists. split; [reflexivity|]. rewrite assoc_set_ne, assoc_set_eq by done. by rewrite (finished_assoc s e finished _ Hp), Hw, Hc. }
  destruct Ht as (t & Ht & Htw & Htr). destruct (broker_case e) as [[name Hn]|(q & dead & Hq & Hsum & _)]; [by rewrite Hn in Hb|].
  exists (mk_health (let x := overall_status (map (fun x => ck_status (snd x)) t) in
    if decide (x = HEALTHY) then if (zsum dead =? 0)%Z then HEALTHY else DEGRADED else x)
    (overall_status (map (fun x => ck_status (snd x)) t)) (if (zsum dead =? 0)%Z then HEALTHY else DEGRADED) (zsum dead) t).
  split; [|by rewrite <- Hc]. unfold dependency_health. rewrite Ht. cbn [mbind result_bind]. rewrite (healthy_detail t q).
  - cbn [mbind result_bind dead_letter_count]. by rewrite Hsum.
  - rewrite (trusted_others _ _ _ _ Ht), (finished_assoc s e finished _ Hp), submitted_broker by done. by rewrite Hq.
Qed.
End worker_answer.
End end_to_end.

(** *** The answers of the health routes *)

Lemma ready_iff m h p d b : Worker_health.is_ready m [h; p; d; b] = true <->
  Worker_health.flag (u "runtime_ready") m = true /\ Worker_health.flag (u "rabbitmq_ready") m = true /\
  Worker_health.flag (u "hermes_profile_ready") m = true /\ h = true /\ p = true /\ d = true /\ b = true.
Proof.
  unfold Worker_health.is_ready. rewrite dependencies_four.
  generalize (Worker_health.flag (u "runtime_ready") m), (Worker_health.flag (u "rabbitmq_ready") m), (Worker_health.flag (u "hermes_profile_ready") m).
  intros x y z. destruct x, y, z, h, p, d, b; vm_compute; split; (intros E; discriminate E) || (intros (E1 & E2 & E3 & E4 & E5 & E6 & E7); discriminate) || tauto.
Qed.

(** Readiness of the API asks the core dependencies only. *)
Lemma readiness_code `{PyText} s finished code h : readiness s finished = Ok (code, h) -> dependency_health s finished = Ok h /\
  (code = 200%Z <-> forall name, name ∈ CORE -> ck_status <$> assoc name (he_dependencies h) = Some HEALTHY) /\ (code = 200%Z \/ code = 503%Z).
Proof.
  unfold readiness. intros (h' & Hh & ([] & Hc & [= <- <-])%bind_result_ok)%bind_result_ok; (split; [done|]); (split; [|by auto]); [split; [|done]; intros _|split; [discriminate|]].
  - revert Hc. generalize CORE. induction l as [|n l IH]; cbn [core_healthy]; [set_solver|].
    intros (x & Hx & (all & Hall & [= [->%bool_decide_eq_true ->]%andb_prop])%bind_result_ok)%bind_result_ok name [->|Hin]%elem_of_cons; [|by apply IH].
    unfold core_status in Hx. destruct (assoc n _); [|discriminate]. injection Hx as Hx. simpl. by rewrite Hx.
  - intros Hall. exfalso. revert Hc Hall. generalize CORE. induction l as [|n l IH]; cbn [core_healthy]; [discriminate|].
    intros (x & Hx & (all & Hc & E)%bind_result_ok)%bind_result_ok Hall. unfold core_status in Hx. pose proof (Hall n ltac:(left)) as Hn.
    destruct (assoc n _); [|discriminate]. injection Hx as <-. injection Hn as Hn. rewrite Hn, bool_decide_true in E by done. cbn in E. injection E as ->.
    apply IH; [done|]. intros name Hname. apply Hall. by right.
Qed.

(** The runtime page shows a run whose job is completed, and no completed run
    is newer. *)
Lemma latest_run_newest rows jobs at_time provider model : latest_run rows jobs = Some (at_time, provider, model) ->
  (exists i j, (i, provider, model) ∈ rows /\ jobs !! i = Some j /\ j_status j = COMPLETED /\ j_completed_at j = Some at_time) /\
  forall i j provider' model' t, (i, provider', model') ∈ rows -> jobs !! i = Some j -> j_status j = COMPLETED -> j_completed_at j = Some t -> (t <= at_time)%Z.
Proof.
  unfold latest_run. set (leb := fun x y : completed_run => (fst (fst y) <=? fst (fst x))%Z). set (runs := omap _ rows). intros Hhd.
  destruct (py_sorted leb runs) as [|x rest] eqn:Es; [discriminate|]. injection Hhd as ->.
  pose proof (py_sorted_Permutation leb runs) as Hp. rewrite Es in Hp.
  pose proof (py_sorted_Sorted leb ltac:(unfold leb; lia) ltac:(unfold leb; lia) runs) as Hs. rewrite Es in Hs.
  split.
  - assert (Hin : (at_time, provider, model) ∈ runs) by (rewrite <- Hp; left). apply list_elem_of_omap in Hin as ([[i pr] mo] & Hin & Hr).
    destruct (jobs !! i) as [j|] eqn:Ej; [|discriminate]. simpl in Hr. destruct (j_completed_at j) as [t|] eqn:Et; [|discriminate].
    simpl in Hr. case_decide as Ec; [|discriminate]. injection Hr as <- <- <-. by exists i, j.
  - intros i j pr mo t Hin Hj Hst Ht. assert (Hr : (t, pr, mo) ∈ runs).
    { apply list_elem_of_omap. exists (i, pr, mo). split; [done|]. rewrite Hj. simpl. rewrite Ht. simpl. by rewrite decide_True. }
    rewrite <- Hp in Hr. apply elem_of_cons in Hr as [[= -> _ _]|Hr]; [lia|]. apply StronglySorted_inv in Hs as [_ Hall].
    rewrite Forall_forall in Hall. specialize (Hall _ Hr). unfold leb in Hall. simpl in Hall. lia.
Qed.

(** ** Witnesses *)

#[local] Existing Instance no_text.
Definition with_hermes : settings := mk_settings (u "hermes") (u "http://hermes:8642/p/noc-log-analysis/") (u "http://ai-worker:8092/health/ready")
  (u "http://daily:8093/health/ready") true false [] [].
(** A worker whose database is down; Hermes cannot be reached from the API. *)
Definition busy_metrics : Worker_health.metrics := Worker_health.set_value (u "hermes_profile_ready") (JBool true)
  (Worker_health.set_value (u "rabbitmq_ready") (JBool true) (Worker_health.set_runtime_ready true Worker_health.initial_metrics)).
Definition worker_reply : Z * option json := Worker_health.do_GET (u "noc-log-analysis") (u "log_triage") (u "/health/ready") busy_metrics [true; true; false; true].
Definition worker_body : json := default JNull (snd worker_reply).
Definition no_floats (_ : SpecFloat.spec_float) : pystr := [].
Definition refused : pyexn := mk_exn (ForeignError (u "URLError") false) [].
Definition probes (connect : result pyexn ()) : probed := mk_probed (Ok ()) connect (Ok ()) (fun q => Ok 0%Z) (Ok ()) (fun url =>
  if decide (url = u "http://ai-worker:8092/health/ready") then answered 503 (to_wire no_floats worker_body) else NoReply refused).
#[local] Notation up := (probes (Ok ())).
#[local] Notation down := (probes (Raise (mk_exn (ForeignError (u "AMQPConnectionError") false) []))).

Lemma broker_outage_breaks_health_witness : exists msg, readiness with_hermes (submitted with_hermes down) = Raise (attribute_error msg).
Proof.
  destruct (broker_outage_breaks_health with_hermes down (submitted with_hermes down) (reflexivity _)) as (msg & _ & Hr); [vm_compute; discriminate|].
  exists msg. exact Hr.
Defined.

Lemma initial_ok : wire_ok (JObj Worker_health.initial_metrics).
Proof. apply entries_ok; [keys|literals|]. apply Forall_app. split; apply Forall_map, Forall_true; intros ?; exact I. Qed.
Lemma busy_ok : wire_ok (JObj busy_metrics).
Proof. do 3 (apply (wire_ok_jset _ _ _ (JObj _)); [apply literal_scalar; reflexivity|exact I|]). exact initial_ok. Qed.
Lemma worker_word_reaches_console_witness : exists report, dependency_health with_hermes (submitted with_hermes up) = Ok report /\
  ck_status <$> assoc (u "ai_worker") (he_dependencies report) = Some DEGRADED /\ ck_status <$> assoc (u "ai_runtime") (he_dependencies report) = Some HEALTHY /\
  ck_status (check_hermes with_hermes up) = UNAVAILABLE.
Proof.
  destruct (worker_word_reaches_console with_hermes up (u "noc-log-analysis") (u "log_triage") no_floats busy_metrics true true false true
    (submitted with_hermes up) worker_body 503 (reflexivity _)) as (report & Hh & Hw & Hr).
  - reflexivity.
  - vm_compute. reflexivity.
  - reflexivity.
  - reflexivity.
  - exact busy_ok.
  - apply literal_scalar. reflexivity.
  - apply literal_scalar. reflexivity.
  - exists report. split; [exact Hh|]. split; [rewrite Hw; reflexivity|]. split; [rewrite Hr; reflexivity|vm_compute; reflexivity].
Defined.

Lemma console_status_witness : exists h, dependency_health with_hermes (submitted with_hermes up) = Ok h /\ he_status h <> HEALTHY.
Proof.
  destruct (dependency_health with_hermes (submitted with_hermes up)) as [h|] eqn:Hh; [|vm_compute in Hh; discriminate Hh].
  exists h. split; [reflexivity|]. intros Hs. apply (console_status with_hermes up (submitted with_hermes up) h (reflexivity _) Hh) in Hs as [Hall _].
  vm_compute in Hh. injection Hh as <-. revert Hall. apply (bool_decide_unpack _). vm_compute. exact I.
Defined.

Lemma completion_order_irrelevant_witness : match dependency_health with_hermes (rev (submitted with_hermes up)) with
  | Ok h => he_status h = DEGRADED | Raise _ => False end.
Proof.
  pose proof (completion_order_irrelevant with_hermes up (submitted with_hermes up) (rev (submitted with_hermes up)) (reflexivity _)
    (symmetry (Permutation_rev _))) as Hsame.
  destruct (dependency_health with_hermes (submitted with_hermes up)) as [h|] eqn:Hh; [|vm_compute in Hh; discriminate Hh].
  destruct (dependency_health with_hermes (rev _)) as [h'|]; [|exact Hsame]. destruct Hsame as [<- _]. vm_compute in Hh. injection Hh as <-. reflexivity.
Defined.

Lemma probe_answers_fresh_witness : exists at_time, newest (u "minio") [(u "minio", (3%Z, true))] = Some (at_time, true) /\ (7 - at_time < 5)%Z.
Proof.
  destruct (probe_answers_fresh 5 0 (mk_probing (Worker_health.store_probe (u "minio") 3 true ∅) [(u "minio", (3%Z, true))] 3) (u "minio") 7 true) as (t & Hn & Ht & _).
  - apply rtc_once. apply (probe_stored (no_probes 0) (u "minio") true 3). simpl. lia.
  - reflexivity.
  - exists t. split; [exact Hn|exact Ht].
Defined.
