(* ===== verification/Operations.v ===== *)
(** * Queue, job and skill administration

    What is left of [routers/admin.py] beside accounts ([Accounts]) and the
    runtime status ([Health]): the dead-letter queues, the listings and the
    activation of skill versions. *)

From S2P Require Import Prelude PyStr Json Schema Failures PyVal PyColl Jobs Broker Snapshots SkillRuntime Skills Api Incidents.

(** ** Pages of a listing *)

(** [LIMIT] and [OFFSET]; the routes bound the limit from above only, and the
    database refuses a negative one. *)
Definition page_allowed (limit offset : Z) : bool := (limit <=? 500)%Z && (0 <=? offset)%Z.
Definition negative_limit : pyexn := mk_exn (ForeignError (u "DataError") false) (u "LIMIT must not be negative").
Definition page {A} (limit offset : Z) (l : list A) : result pyexn (list A) :=
  if (limit <? 0)%Z then Raise negative_limit else Ok (take (Z.to_nat limit) (drop (Z.to_nat offset) l)).
Definition newest_first {A} (at_time : A -> usec) (l : list A) : list A := py_sorted (fun x y => at_time y <=? at_time x)%Z l.

Section queues.
Context {C : Type} `{HasChannel C} (float_repr : SpecFloat.spec_float -> pystr).

(** The broker's channel, the tables of the jobs, and the audit log. *)
Record admin_world := mk_admin { aw_channel : C; aw_db : db; aw_audit : list audit_row }.
Definition AW : Type -> Type := M admin_world api_exn.
Definition on_channel {A} (m : M C pyexn A) : AW A := fun w =>
  let '(r, c) := m (aw_channel w) in (api_result r, mk_admin c (aw_db w) (aw_audit w)).
(** A request that raises rolls the tables back to [base], not the channel. *)
Definition admin_commit {A} (base : admin_world) (m : AW A) : AW A := fun w =>
  match m w with
  | (Ok a, w') => (Ok a, w')
  | (Raise x, w') => (Raise x, mk_admin (aw_channel w') (aw_db base) (aw_audit base))
  end.
Definition log_admin (actor : N) (action resource_type resource_id : pystr) (metadata : json) : AW () :=
  if Nat.leb (length resource_id) 100 then
    modify_st (fun w => mk_admin (aw_channel w) (aw_db w) (record_audit (Some actor) action resource_type resource_id (Some metadata) (aw_audit w)))
  else raise (Uncaught data_error).

(** [list_jobs] *)
Definition list_jobs (limit offset : Z) : AW (list (job_id * job)) :=
  w ← get_st; python (page limit offset (newest_first (fun x => j_queued_at (snd x)) (map_to_list (jobs (aw_db w))))).

(** The session with the broker around [m]: [opened] is connecting and
    declaring the topology, [closed] the [finally] clause. *)
Definition with_broker {A} (opened closed : result pyexn ()) (m : AW A) : AW A :=
  python opened;; a ← m; python closed;; mret a.

(** [dlq_status] *)
Definition dlq_status (opened closed : result pyexn ()) (count : pystr -> result pyexn Z) : AW (list (pystr * Z)) :=
  with_broker opened closed (
    (fix go types := match types with
     | [] => mret []
     | t :: rest => n ← python (count (dlq (queue_names t))); l ← go rest; mret ((dlq (queue_names t), n) :: l)
     end) JOB_TYPES).

(** The columns that [requeue_dlq] resets. *)
Definition requeued_row (j : job) : job :=
  set_worker None (release (set_completed None (set_started None (set_error None None (set_attempt 1 (set_status QUEUED j)))))).
Definition requeuable (j : job) : bool := bool_decide (j_status j ∈ [FAILED; RETRYING; QUEUED]).
(** [uuid.UUID(job_id)] *)
Definition uuid_arg (j : json) : result pyexn N :=
  match j with
  | JStr s => match uuid_parse s with Some n => Ok n | None => Raise (value_error (u "badly formed hexadecimal UUID string")) end
  | _ => Raise (attribute_error (u "'" ++ type_name j ++ u "' object has no attribute 'replace'"))
  end.
Definition text_arg (j : json) : pystr := match j with JStr s => s | _ => [] end.
(** [requeue_dlq]: [got] is the message the queue hands out; [meanwhile] is
    what the workers do to the tables between its publication and the lock on
    the row. *)
Definition reconcile_job (job_type : pystr) (actor : N) (payload : json) : AW Z :=
  let job_id := jget_null (u "job_id") payload in
  (if jtruthy job_id then
     i ← python (uuid_arg job_id);
     modify_st (fun w => mk_admin (aw_channel w) (snd (update_job i requeuable requeued_row (aw_db w))) (aw_audit w))
   else mret ());;
  log_admin actor (u "dlq.requeue") (u "job") (text_arg job_id) (JObj [(u "job_type", JStr job_type)]);;
  mret 1%Z.
Definition requeue_dlq (job_type : pystr) (opened closed : result pyexn ()) (got : option (N * option pystr * list Z)) (meanwhile : db -> db) (actor : N) : AW Z :=
  if bool_decide (job_type ∉ JOB_TYPES) then http 404 (u "Unknown job_type") else
  payload ← with_broker opened closed (on_channel (requeue_one_dlq_message float_repr job_type got));
  modify_st (fun w => mk_admin (aw_channel w) (meanwhile (aw_db w)) (aw_audit w));;
  w ← get_st;
  match payload with
  | None => mret 0%Z
  | Some payload => admin_commit w (reconcile_job job_type actor payload)
  end.

(** [purge_dlq_endpoint] *)
Definition purge_dlq_endpoint (job_type : pystr) (opened closed : result pyexn ()) (count : Z) (actor : N) : AW Z :=
  if bool_decide (job_type ∉ JOB_TYPES) then http 404 (u "Unknown job_type") else
  purged ← with_broker opened closed (on_channel (purge_dlq job_type count));
  log_admin actor (u "dlq.purge") (u "job_type") job_type (JObj [(u "purged", JInt purged)]);;
  mret purged.
(** [list_audit]: the log is kept oldest first. *)
Definition list_audit (limit offset : Z) : AW (list audit_row) := w ← get_st; python (page limit offset (rev (aw_audit w))).
End queues.

(** ** Skill versions *)
Section skills.
Context `{UnicodeData} `{PyText} `{YamlLoader} `{MetaSchema} (uuid : nat -> pystr) (now : usec).

(** The registry and the audit log. *)
Record skills_world := mk_skills_world { kw_registry : session; kw_audit : list audit_row }.
Definition SW : Type -> Type := M skills_world api_exn.
Definition registry {A} (m : M session pyexn A) : SW A := fun w =>
  let '(r, s) := m (kw_registry w) in (api_result r, mk_skills_world s (kw_audit w)).

(** [list_skills]: the two skills the program dispatches are registered
    first. *)
Definition list_skills (fuel : nat) (skills_dir : pystr -> skill_files) : SW (list pystr) := transaction (
  registry (get_or_create_snapshot uuid now fuel skills_dir (u "log-triage-summary") None);;
  registry (get_or_create_snapshot uuid now fuel skills_dir (u "daily-alert-report") None);;
  w ← get_st; mret (list_skill_names (rows (kw_registry w)))).
(** [list_skill_versions] *)
Definition list_skill_versions (name : pystr) : SW (list snapshot) :=
  w ← get_st;
  match list_snapshots (rows (kw_registry w)) name with
  | [] => http 404 (u "No snapshots recorded for skill " ++ name)
  | l => mret l
  end.
(** [activate_skill_version] *)
Definition refused_version (x : pyexn) : bool := is_value_error (x_class x) || bool_decide (x_class x = x_class version_not_found).
Definition activation_error (x : api_exn) : api_exn :=
  match x with Uncaught x => if refused_version x then HttpException 404 (JStr (x_msg x)) else Uncaught x | _ => x end.
Definition activate_skill_version (name : pystr) (version : Z) (actor : N) : SW snapshot := transaction (
  sn ← try_except (registry (set_active_snapshot name version)) (fun x => raise (activation_error x));
  modify_st (fun w => mk_skills_world (kw_registry w) (record_audit (Some actor) (u "skill.activate") (u "skill_snapshot") (sn_id sn)
    (Some (JObj [(u "skill_name", JStr name); (u "version_label", JInt version); (u "content_hash", JStr (content_hash sn))])) (kw_audit w)));;
  mret sn).
End skills.

(** ** Theorems *)

(** *** Pages *)

(** The pages of a listing that does not change put together are the listing,
    and only the limits below zero are refused. *)
Lemma pages_cover {A} (limit : Z) (l : list A) count : (0 < limit)%Z -> length l <= count * Z.to_nat limit ->
  exists pages, Forall2 (fun k p => page limit (Z.of_nat k * limit) l = Ok p) (seq 0 count) pages /\ mjoin pages = l /\
    Forall (fun p => length p <= Z.to_nat limit) pages.
Proof.
  intros Hlim Hlen. set (n := Z.to_nat limit) in *.
  assert (Hpage : forall k, page limit (Z.of_nat k * limit) l = Ok (take n (drop (k * n) l))).
  { intros k. unfold page. destruct (Z.ltb_spec limit 0); [lia|]. do 3 f_equal. unfold n. lia. }
  exists (map (fun k => take n (drop (k * n) l)) (seq 0 count)). split; [|split].
  - apply Forall2_fmap_r, Forall_Forall2_diag, Forall_true. exact Hpage.
  - assert (Hall : forall m from, mjoin (map (fun k => take n (drop (k * n) l)) (seq from m)) = take (m * n) (drop (from * n) l)).
    { induction m as [|m IH]; intros from; [done|].
      change (take n (drop (from * n) l) ++ mjoin (map (fun k => take n (drop (k * n) l)) (seq (S from) m)) = take (n + m * n) (drop (from * n) l)).
      rewrite (IH (S from)). replace (S from * n) with (from * n + n) by lia. by rewrite <- drop_drop, take_take_drop. }
    rewrite Hall. simpl. rewrite drop_0. apply take_ge. lia.
  - apply Forall_map, Forall_true. intros k. rewrite length_take. lia.
Qed.
Lemma page_refused {A} limit offset (l : list A) x : page limit offset l = Raise x <-> (limit < 0)%Z /\ x = negative_limit.
Proof. unfold page. destruct (Z.ltb_spec limit 0); split; [intros [= <-]; done|by intros [_ ->]|discriminate|lia]. Qed.

(** *** The requeue *)
Section requeue.
Context {C : Type} `{HasChannel C} (float_repr : SpecFloat.spec_float -> pystr).

Lemma on_channel_inv {A} (m : M C pyexn A) w r w' : on_channel m w = (r, w') -> aw_db w' = aw_db w /\ aw_audit w' = aw_audit w /\
  exists q, m (aw_channel w) = (q, aw_channel w') /\ r = api_result q.
Proof. unfold on_channel. destruct (m (aw_channel w)) as [q c]. intros [= <- <-]. do 2 (split; [done|]). by exists q. Qed.
Lemma with_broker_inv {A} opened closed (m : @AW C A) w r w' : with_broker opened closed m w = (r, w') ->
  (w' = w /\ is_ok r = false) \/ exists q, m w = (q, w') /\ (is_ok r = true -> r = q /\ closed = Ok tt).
Proof.
  unfold with_broker. destruct opened as [[]|x]; [|intros [= <- <-]; by left]. intros Hr. right. cbn in Hr. unfold mbind, M_bind in Hr. cbn in Hr.
  destruct (m w) as [q w2]. exists q. destruct q as [a|x]; [|injection Hr as <- <-; done].
  destruct closed as [[]|x]; cbn in Hr; injection Hr as <- <-; done.
Qed.

(** The lease that the abstract automaton of [Jobs] sees is nobody's. *)
Lemma requeued_claimable j now : claimable now (requeued_row j) = true.
Proof. done. Qed.

Lemma log_admin_inv actor action resource id metadata (w : @admin_world C) r w' : log_admin actor action resource id metadata w = (r, w') ->
  aw_channel w' = aw_channel w /\ aw_db w' = aw_db w /\
  (r = Ok tt -> aw_audit w' = record_audit (Some actor) action resource id (Some metadata) (aw_audit w)).
Proof. unfold log_admin. destruct (Nat.leb _ _); intros [= <- <-]; done. Qed.

(** What [reconcile_job] does when it succeeds. *)
Lemma reconcile_inv job_type actor payload (w : @admin_world C) n w' : reconcile_job job_type actor payload w = (Ok n, w') -> n = 1%Z /\
  aw_channel w' = aw_channel w /\
  aw_audit w' = record_audit (Some actor) (u "dlq.requeue") (u "job") (text_arg (jget_null (u "job_id") payload)) (Some (JObj [(u "job_type", JStr job_type)])) (aw_audit w) /\
  (aw_db w' = aw_db w /\ jtruthy (jget_null (u "job_id") payload) = false \/
   exists s i, jget_null (u "job_id") payload = JStr s /\ uuid_parse s = Some i /\ aw_db w' = snd (update_job i requeuable requeued_row (aw_db w))).
Proof.
  unfold reconcile_job. intros Hr. apply bind_ok_inv in Hr as ([] & w1 & H1 & Hr). apply bind_ok_inv in Hr as ([] & w2 & H2 & [= <- <-]).
  apply log_admin_inv in H2 as (Hc & Hd & Ha). specialize (Ha eq_refl). split; [done|]. rewrite Hc, Hd, Ha. destruct (jtruthy _) eqn:Et.
  - apply bind_ok_inv in H1 as (i & w3 & H3 & [= <-]). unfold python, lift_result in H3. unfold uuid_arg in H3.
    destruct (jget_null _ payload) as [| | | |s| |] eqn:Ej; try discriminate H3. destruct (uuid_parse s) as [i'|] eqn:Ei; [|discriminate H3].
    injection H3 as <- <-. do 2 (split; [done|]). right. by exists s, i'.
  - injection H1 as <-. do 2 (split; [done|]). by left.
Qed.
End requeue.

Section requeue_theorems.
Context {C : Type} `{HasChannel C} (float_repr : SpecFloat.spec_float -> pystr).

Lemma chan_do_ok op (s s' : C) : chan_do op s = (Ok tt, s') -> chan_log s' = chan_log s ++ [op].
Proof. intros Hd. destruct (chan_do_log op s) as [[_ Hl]|[(e & He) _]]; [by rewrite Hd in Hl|by rewrite Hd in He]. Qed.

(** The two channel operations of a successful requeue. *)
Definition requeued_ops (job_type : pystr) (tag : N) (mid : option pystr) (payload : json) : list chan_op :=
  [Publish JOBS_EXCHANGE (routing_key (queue_names job_type)) (to_wire float_repr payload) true true mid; Ack tag].
Lemma requeue_one_inv job_type got (s s' : C) r : requeue_one_dlq_message float_repr job_type got s = (Ok r, s') ->
  match r with
  | None => got = None /\ s' = s
  | Some payload => exists tag mid body o, got = Some (tag, mid, body) /\ from_wire body = Some (JObj o) /\
      payload = JObj (assoc_set (u "attempt") (JInt 1) o) /\ chan_log s' = chan_log s ++ requeued_ops job_type tag mid payload
  end.
Proof.
  unfold requeue_one_dlq_message. destruct got as [[[tag mid] body]|]; [|by intros [= <- <-]].
  destruct (from_wire body) as [[| | | | | |o]|] eqn:Eb; try discriminate. intros Hr.
  apply bind_ok_inv in Hr as ([] & s1 & H1%chan_do_ok & Hr). apply bind_ok_inv in Hr as ([] & s2 & H2%chan_do_ok & [= <- <-]).
  exists tag, mid, body, o. do 3 (split; [done|]). by rewrite H2, H1, <- app_assoc.
Qed.

Context (job_type : pystr) (opened closed : result pyexn ()) (got : option (N * option pystr * list Z)) (meanwhile : db -> db) (actor : N).
#[local] Notation requeue := (requeue_dlq float_repr job_type opened closed got meanwhile actor).

Lemma requeue_run (w : @admin_world C) r w' : requeue w = (r, w') -> match r with
  | Raise _ => aw_audit w' = aw_audit w /\ (aw_db w' = aw_db w \/ aw_db w' = meanwhile (aw_db w))
  | Ok n => exists payload c, requeue_one_dlq_message float_repr job_type got (aw_channel w) = (Ok payload, c) /\ aw_channel w' = c /\
      match payload with
      | None => n = 0%Z /\ aw_db w' = meanwhile (aw_db w) /\ aw_audit w' = aw_audit w
      | Some payload => reconcile_job job_type actor payload (mk_admin c (meanwhile (aw_db w)) (aw_audit w)) = (Ok n, w')
      end
  end.
Proof.
  unfold requeue_dlq. case_bool_decide; [intros [= <- <-]; split; [done|by left]|]. intros Hr. apply bind_inv in Hr as [(x & Hb & ->)|(payload & w1 & Hb & Hr)].
  - apply with_broker_inv in Hb as [[-> _]|(q & Hq & _)]; [split; [done|by left]|]. apply on_channel_inv in Hq as (Hd & Ha & _). split; [done|by left].
  - apply with_broker_inv in Hb as [[_ E]|(q & Hq & Hok)]; [discriminate|]. destruct (Hok eq_refl) as [<- _].
    apply on_channel_inv in Hq as (Hd & Ha & q' & Hq & Eq). destruct q' as [p|x]; [|discriminate Eq]. injection Eq as <-.
    apply bind_inv in Hr as [(x & [=] & _)|([] & w2 & [= <-] & Hr)]. apply get_st_inv in Hr. rewrite Hd, Ha in Hr. destruct payload as [payload|].
    + unfold admin_commit in Hr. destruct (reconcile_job _ _ _ _) as [[n|x] w3] eqn:E; injection Hr as <- <-; [|split; [done|by right]].
      exists (Some payload), (aw_channel w1). split; [done|]. split; [|done]. by apply reconcile_inv in E as (_ & Hc & _).
    + injection Hr as <- <-. exists None, (aw_channel w1). done.
Qed.
End requeue_theorems.

Section requeue_claims.
Context {C : Type} `{HasChannel C} (float_repr : SpecFloat.spec_float -> pystr).

Lemma with_broker_ok {A} (m : @AW C A) w a w' : m w = (Ok a, w') -> with_broker (Ok tt) (Ok tt) m w = (Ok a, w').
Proof. intros Hm. unfold with_broker. erewrite bind_ok by reflexivity. erewrite bind_ok by exact Hm. by erewrite bind_ok by reflexivity. Qed.
Lemma on_channel_ok {A} (m : M C pyexn A) w a c : m (aw_channel w) = (Ok a, c) -> on_channel m w = (Ok a, mk_admin c (aw_db w) (aw_audit w)).
Proof. intros Hm. unfold on_channel. by rewrite Hm. Qed.
Lemma reconcile_refused job_type actor payload (w : @admin_world C) s : jget_null (u "job_id") payload = JStr s -> s <> [] -> uuid_parse s = None ->
  reconcile_job job_type actor payload w = (Raise (Uncaught (value_error (u "badly formed hexadecimal UUID string"))), w).
Proof.
  intros Hs Hne Hu. unfold reconcile_job. rewrite Hs. apply bind_raise. replace (jtruthy (JStr s)) with true by (by destruct s).
  apply bind_raise. unfold uuid_arg. by rewrite Hu.
Qed.
Context (job_type : pystr) (opened closed : result pyexn ()) (got : option (N * option pystr * list Z)) (meanwhile : db -> db) (actor : N).
#[local] Notation requeue := (requeue_dlq float_repr job_type opened closed got meanwhile actor).

(** The job a message names. *)
Definition named_job (payload : json) : option N := match jget_null (u "job_id") payload with JStr s => uuid_parse s | _ => None end.
(** A job after a requeue of the message. *)
Definition after_requeue (payload : json) (i : N) (j : job) : job := if bool_decide (named_job payload = Some i) && requeuable j then requeued_row j else j.

Lemma reconciled_jobs payload (d d' : db) :
  d' = d /\ jtruthy (jget_null (u "job_id") payload) = false \/
  (exists s k, jget_null (u "job_id") payload = JStr s /\ uuid_parse s = Some k /\ d' = snd (update_job k requeuable requeued_row d)) ->
  reports d' = reports d /\ forall i, jobs d' !! i = after_requeue payload i <$> jobs d !! i.
Proof.
  unfold after_requeue, named_job. intros [[-> Ht]|(s & k & -> & -> & ->)].
  - split; [done|]. intros i. rewrite bool_decide_eq_false_2; [by destruct (jobs d !! i)|]. destruct (jget_null _ _) as [| | | |s| |]; try done.
    destruct s as [|c s]; [|done]. by vm_compute.
  - split; [apply update_job_reports|]. intros i. unfold update_job. destruct (jobs d !! k) as [j|] eqn:Ek.
    + destruct (requeuable j) eqn:Eq; cbn [snd jobs].
      * destruct (decide (k = i)) as [->|Hne]; [rewrite lookup_insert_eq, Ek; cbn; by rewrite bool_decide_eq_true_2, Eq by done|].
        rewrite lookup_insert_ne by done. rewrite bool_decide_eq_false_2 by congruence. by destruct (jobs d !! i).
      * destruct (decide (k = i)) as [->|Hne]; [rewrite Ek; cbn; by rewrite Eq, andb_false_r|].
        rewrite bool_decide_eq_false_2 by congruence. by destruct (jobs d !! i).
    + destruct (decide (k = i)) as [->|Hne]; [by rewrite Ek|]. cbn. rewrite bool_decide_eq_false_2 by congruence. by destruct (jobs d !! i).
Qed.

(** C22. A requeue that reports success moved one message of the dead-letter
    queue, or found it empty: it published the message with attempt 1 on the
    main queue's key before it acknowledged it, wrote the audit row that says
    who requeued which job of which kind, and of all jobs reset exactly the one
    the message names, if that was waiting or had failed at the moment its row
    was locked: it can then be claimed at any time.  Every other job keeps its
    row, a job that a worker took or finished meanwhile too, as every row does
    when the request fails. *)
Theorem requeue_outcome (w : @admin_world C) r w' : requeue w = (r, w') ->
  let there := meanwhile (aw_db w) in
  (forall i j, jobs there !! i = Some j -> j_status j = PROCESSING \/ j_status j = COMPLETED ->
     aw_db w' = aw_db w \/ jobs (aw_db w') !! i = Some j) /\
  match r with
  | Raise _ => aw_audit w' = aw_audit w /\ (aw_db w' = aw_db w \/ aw_db w' = there)
  | Ok n => n = 0%Z /\ got = None /\ aw_channel w' = aw_channel w /\ aw_db w' = there /\ aw_audit w' = aw_audit w \/
      exists tag mid body o, let payload := JObj (assoc_set (u "attempt") (JInt 1) o) in
        n = 1%Z /\ got = Some (tag, mid, body) /\ from_wire body = Some (JObj o) /\
        chan_log (aw_channel w') = chan_log (aw_channel w) ++ requeued_ops float_repr job_type tag mid payload /\
        aw_audit w' = record_audit (Some actor) (u "dlq.requeue") (u "job") (text_arg (jget_null (u "job_id") payload))
          (Some (JObj [(u "job_type", JStr job_type)])) (aw_audit w) /\
        reports (aw_db w') = reports there /\
        (forall i, jobs (aw_db w') !! i = after_requeue payload i <$> jobs there !! i) /\
        forall i j now, named_job payload = Some i -> j_status j <> PROCESSING -> j_status j <> COMPLETED ->
          after_requeue payload i j = requeued_row j /\ claimable now (requeued_row j) = true
  end.
Proof.
  intros Hr%requeue_run there. destruct r as [n|x].
  - destruct Hr as (payload & c & Hone & Hc & Hr). apply requeue_one_inv in Hone. destruct payload as [payload|].
    + destruct Hone as (tag & mid & body & o & -> & Hb & Hpay & Hlog). apply reconcile_inv in Hr as (-> & _ & Ha & Hdb). cbn [aw_db aw_audit] in Ha, Hdb.
      apply reconciled_jobs in Hdb as [Hrep Hjobs]. fold there in Hrep, Hjobs. split.
      * intros i j Hj Hst. right. rewrite Hjobs, Hj. cbn. f_equal. unfold after_requeue, requeuable. rewrite andb_comm, bool_decide_eq_false_2; [done|].
        destruct Hst as [-> | ->]; set_solver.
      * right. exists tag, mid, body, o. cbv zeta. rewrite <- Hpay, Hc. do 7 (split; [done|]). intros i j now Hn Hp Hd. split; [|by apply requeued_claimable].
        unfold after_requeue. rewrite bool_decide_eq_true_2 by done. unfold requeuable. rewrite bool_decide_eq_true_2; [done|]. destruct (j_status j); try done; set_solver.
    + destruct Hone as [-> Hs], Hr as (-> & Hdb & Ha). split; [intros i j Hj _; right; by rewrite Hdb|]. left. by rewrite Hc, Hs.
  - destruct Hr as [Ha Hdb]. split; [|done]. intros i j Hj _. destruct Hdb as [Hdb|Hdb]; [by left|right; by rewrite Hdb].
Qed.

(** The message is published and acknowledged before its job is looked up:
    a dead letter whose job id is no UUID leaves the dead-letter queue and goes
    to the workers again, but the request ends as an uncaught [ValueError],
    status 500, and the operation is not audited. *)
Theorem malformed_dead_letter_released (w : @admin_world C) payload c s : job_type ∈ JOB_TYPES -> opened = Ok tt -> closed = Ok tt ->
  requeue_one_dlq_message float_repr job_type got (aw_channel w) = (Ok (Some payload), c) ->
  jget_null (u "job_id") payload = JStr s -> s <> [] -> uuid_parse s = None ->
  requeue w = (Raise (Uncaught (value_error (u "badly formed hexadecimal UUID string"))), mk_admin c (meanwhile (aw_db w)) (aw_audit w)) /\
  exists tag mid, chan_log c = chan_log (aw_channel w) ++ requeued_ops float_repr job_type tag mid payload.
Proof.
  intros Hj -> -> Hone Hs Hne Hu. split.
  - unfold requeue_dlq. rewrite bool_decide_false by (intros E; by apply E). cbv beta iota.
    etransitivity; [eapply bind_ok; by apply with_broker_ok, on_channel_ok|]. do 2 (etransitivity; [eapply bind_ok; reflexivity|]). unfold admin_commit. by rewrite (reconcile_refused _ _ _ _ s).
  - apply requeue_one_inv in Hone as (tag & mid & body & o & _ & _ & _ & Hlog). by exists tag, mid.
Qed.
End requeue_claims.

(** *** Activating a version *)
Section activation.
Context `{UnicodeData} `{PyText} `{YamlLoader} `{MetaSchema}.

(** A refused activation changes nothing; one that succeeds leaves the version
    it names as the only active one of its skill and is audited. *)
Lemma activation_outcome name version actor (w : skills_world) r w' : NoDup (map sn_id (rows (kw_registry w))) ->
  activate_skill_version name version actor w = (r, w') ->
  match r with
  | Raise _ => w' = w
  | Ok sn => skill_name sn = name /\ version_label sn = version /\ Snapshots.is_active sn = true /\ sn ∈ rows (kw_registry w') /\
      (forall x, x ∈ rows (kw_registry w') -> skill_name x = name -> Snapshots.is_active x = true -> sn_id x = sn_id sn) /\
      length (kw_audit w') = S (length (kw_audit w))
  end.
Proof.
  intros Hnd Hr. unfold activate_skill_version in Hr. destruct r as [sn|x]; [|by apply transaction_raise in Hr].
  apply (proj1 (transaction_ok _ _ _ _)) in Hr. apply bind_ok_inv in Hr as (sn' & w1 & Hact & Hr). apply bind_ok_inv in Hr as ([] & w2 & [= <-] & [= <- <-]).
  unfold try_except, registry in Hact. destruct (set_active_snapshot name version (kw_registry w)) as [[sn|x] s] eqn:Es; [|discriminate Hact]. injection Hact as <- <-.
  unfold set_active_snapshot in Es. apply bind_ok_inv in Es as (s0 & s0' & [= <- <-] & Es). destruct (version_named _ _ _) as [target|] eqn:Et; [|discriminate Es].
  apply bind_ok_inv in Es as ([] & s1 & [_ ->]%lift_ok_inv & Es). apply bind_ok_inv in Es as ([] & s2 & [= <-] & [= <- <-]).
  unfold version_named in Et. apply find_first_Some in Et as [Hin Ht]. apply andb_prop in Ht as [Hname%bool_decide_eq_true Hv%Z.eqb_eq].
  cbn [kw_registry kw_audit rows set_rows]. do 3 (split; [done|]). split; [|split].
  - apply list_elem_of_fmap. exists target. split; [by rewrite decide_True|]. apply list_elem_of_fmap. exists target. split; [|done].
    by rewrite bool_decide_false by naive_solver.
  - intros x Hx Hxn Hxa. apply list_elem_of_fmap in Hx as (y & -> & Hy). apply list_elem_of_fmap in Hy as (z & -> & Hz).
    destruct (decide (sn_id (if bool_decide (skill_name z = name /\ sn_id z <> sn_id target) then set_flag false z else z) = sn_id target)) as [E|E]; [done|].
    case_bool_decide as Ez; [discriminate Hxa|]. simpl in *. destruct (decide (sn_id z = sn_id target)) as [E'|E']; [done|]. by destruct Ez.
  - unfold record_audit. rewrite length_app. simpl. lia.
Qed.
End activation.

(** ** Witnesses *)

#[local] Program Instance log_channel : HasChannel (list chan_op) := {| chan_do op := fun s => (Ok tt, s ++ [op]); chan_log s := s |}.
Next Obligation. intros op s. by left. Qed.
Definition plain_float (_ : SpecFloat.spec_float) : pystr := [].
Definition failed_job : job := mk_job (u "log_triage") None FAILED 3 (Some (u "E")) (Some (u "m")) 0 (Some 1%Z) (Some 2%Z) None None None (Some (u "w")).
Definition queue_tables : db := mk_db {[ 7%N := failed_job ]} ∅.
Definition dead_letter (id : pystr) : list Z := to_wire plain_float (JObj [(u "job_id", JStr id); (u "attempt", JInt 4)]).
Definition queue_world : @admin_world (list chan_op) := mk_admin [] queue_tables [].
#[local] Notation requeue_seven := (requeue_dlq plain_float (u "log_triage") (Ok tt) (Ok tt) (Some (1%N, None, dead_letter (uuid_str 7))) (fun d => d) 1 queue_world) (only parsing).

Lemma requeue_outcome_witness : jobs (aw_db (snd requeue_seven)) !! 7%N = Some (requeued_row failed_job) /\ claimable 0 (requeued_row failed_job) = true.
Proof.
  destruct (requeue_outcome plain_float (u "log_triage") (Ok tt) (Ok tt) (Some (1%N, None, dead_letter (uuid_str 7))) (fun d => d) 1 queue_world (Ok 1%Z)
    (snd requeue_seven)) as [_ [[E _]|(tag & mid & body & o & _ & Hg & Hb & _ & _ & _ & Hjobs & Hrow)]].
  - vm_compute. reflexivity.
  - discriminate E.
  - injection Hg as <- <- <-. assert (Ho : o = [(u "job_id", JStr (uuid_str 7)); (u "attempt", JInt 4)]).
    { vm_compute in Hb. injection Hb as <-. vm_compute. reflexivity. }
    subst o. destruct (Hrow 7%N failed_job 0%Z) as [Hafter Hc]; [vm_compute; reflexivity|discriminate|discriminate|].
    split; [|exact Hc]. rewrite (Hjobs 7%N). transitivity (Some (after_requeue (JObj (assoc_set (u "attempt") (JInt 1)
      [(u "job_id", JStr (uuid_str 7)); (u "attempt", JInt 4)])) 7 failed_job)); [reflexivity|]. exact (f_equal Some Hafter).
Defined.

Lemma malformed_dead_letter_released_witness : exists w', requeue_dlq plain_float (u "log_triage") (Ok tt) (Ok tt)
  (Some (1%N, None, dead_letter (u "job-7"))) (fun d => d) 1 queue_world = (Raise (Uncaught (value_error (u "badly formed hexadecimal UUID string"))), w').
Proof.
  eexists. refine (proj1 (malformed_dead_letter_released plain_float (u "log_triage") (Ok tt) (Ok tt) (Some (1%N, None, dead_letter (u "job-7"))) (fun d => d) 1
    queue_world (JObj [(u "job_id", JStr (u "job-7")); (u "attempt", JInt 1)]) _ (u "job-7") _ eq_refl eq_refl _ _ _ _)).
  - apply (bool_decide_unpack _). vm_compute. exact I.
  - vm_compute. reflexivity.
  - reflexivity.
  - discriminate.
  - vm_compute. reflexivity.
Defined.
