(* ===== verification/Insight.v ===== *)
(** * Dashboard, analytics and search

    [routers/dashboard.py], [routers/analytics.py], [report_metrics.py] and
    [routers/search.py]: queries over the tables that the other components
    keep.

    What the database's text functions answer is the interface [TextSearch];
    the day that its [date_trunc] puts a time on depends on the time zone of
    the session and is an argument.  Rows that an ORDER BY leaves equal come in
    the order of the table. *)

From S2P Require Import Prelude PyStr Json Failures PyVal PyColl Jobs Sweep Outbox Evidence Api Analysis Incidents Operations.

Definition count_where {A} (p : A -> bool) (l : list A) : Z := Z.of_nat (length (List.filter p l)).

(** ** [report_metrics.py] *)

(** The reports with the shift each belongs to, joined with their jobs. *)
Definition report_table := list (N * report).
Definition joined_reports (jobs : gmap job_id job) (reports : report_table) : list (N * report * job) :=
  omap (fun '(shift, r) => j ← jobs !! r_job_id r; Some (shift, r, j)) reports.
Definition generated_report_predicate (x : N * report * job) : bool :=
  bool_decide (j_status (snd x) = COMPLETED) && bool_decide (is_Some (a_version_id (r_report (snd (fst x))))).
Definition generated_report_time (x : N * report * job) : option usec :=
  match j_completed_at (snd x) with Some t => Some t | None => r_generated_at (snd (fst x)) end.

Section queries.
Context {Store : Type}.
Notation W := (ops_world Store).

Definition job_table (w : W) : gmap job_id job := st_jobs (ow_jobs w).
(** A current run of the incident whose job is in that state. *)
Definition current_in (s : job_status) (w : W) (id : N) (r : analysis_run) : bool :=
  bool_decide (ri_incident (ar_input r) = id) && ar_current r &&
  match job_table w !! ri_job (ar_input r) with Some j => bool_decide (j_status j = s) | None => false end.
Definition usable_analysis (w : W) (id : N) : bool := existsb (fun r => current_in COMPLETED w id r && has_result r) (ow_runs w).
Definition running_analysis (w : W) (id : N) : bool := existsb (current_in PROCESSING w id) (ow_runs w).

(** ** [routers/dashboard.py] *)

Record dashboard := mk_dashboard {
  da_open_incidents : Z; da_active_alerts : Z; da_recovered_alerts : Z; da_logs_awaiting_analysis : Z; da_analyses_running : Z;
  da_reports_generated_this_shift : Z }.
Definition current_shift (w : W) : option shift := head (py_sorted newest_shift (List.filter is_active (ow_shifts w))).
Definition of_shift (shift : N) (i : incident) : bool := bool_decide (in_shift i = Some shift).
Definition has_status (s : string) (i : incident) : bool := bool_decide (in_status i = u s).
Definition shift_reports (shift : N) (w : W) (reports : report_table) : Z :=
  count_where (fun x => bool_decide (fst (fst x) = shift) && generated_report_predicate x) (joined_reports (job_table w) reports).
(** [dashboard_summary] *)
Definition dashboard_summary (w : W) (reports : report_table) : dashboard :=
  match current_shift w with
  | None => mk_dashboard 0 0 0 0 0 0
  | Some s =>
      let n (p : incident -> bool) := count_where (fun i => of_shift (sf_id s) i && p i) (ow_incidents w) in
      mk_dashboard (n (fun i => negb (has_status "recovered" i))) (n (has_status "open")) (n (has_status "recovered"))
        (n (fun i => has_active_log w (in_id i) && negb (usable_analysis w (in_id i)))) (n (fun i => running_analysis w (in_id i)))
        (shift_reports (sf_id s) w reports)
  end.

(** ** [routers/analytics.py] *)

(** Days since the epoch. *)
Definition DAY : usec := 86400000000%Z.
Definition day_of (t : usec) : Z := (t / DAY)%Z.
(** [date.weekday()], Monday is zero. *)
Definition weekday (day : Z) : Z := ((day + 3) mod 7)%Z.
Definition DAY_LABELS : list pystr := map u ["Mon"; "Tue"; "Wed"; "Thu"; "Fri"; "Sat"; "Sun"]%string.
Definition day_label (day : Z) : pystr := default [] (DAY_LABELS !! Z.to_nat (weekday day)).

Section grouping.
Context {K : Type} `{EqDecision K}.
(** [GROUP BY] with [count( * )]: the groups in order of first occurrence. *)
Definition tally (l : list K) : list (K * Z) := map (fun k => (k, count_where (fun x => bool_decide (x = k)) l)) (fromkeys l).
Definition most_first (l : list (K * Z)) : list (K * Z) := py_sorted (fun x y => snd y <=? snd x)%Z l.
Definition tallied (k : K) (l : list (K * Z)) : Z := match find_first (fun x => bool_decide (fst x = k)) l with Some x => snd x | None => 0%Z end.
End grouping.

Record report_counts := mk_report_counts { rc_this_shift : Z; rc_today : Z; rc_this_week : Z }.
Record analytics := mk_analytics {
  an_incidents_by_day : list (pystr * Z); an_incidents_by_shift : list (pystr * Z); an_alerts_by_service : list (pystr * Z);
  an_recovered_vs_unresolved : list (pystr * Z); an_analysis_job_outcomes : list (pystr * Z); an_top_titles : list (pystr * Z);
  an_reports : report_counts }.

(** [session_day] is the day [date_trunc] finds in the session's time zone. *)
Definition incidents_by_day (session_day : usec -> Z) (now : usec) (w : W) : list (pystr * Z) :=
  let today := day_of now in
  let window := List.filter (fun i => ((today - 6) * DAY <=? in_triggered_at i)%Z && (in_triggered_at i <? (today + 1) * DAY)%Z) (ow_incidents w) in
  let counts := tally (map (fun i => session_day (in_triggered_at i)) window) in
  map (fun i => let day := (today - 6 + Z.of_nat i)%Z in (day_label day, tallied day counts)) (seq 0 7).
(** The definition of an incident's shift, by its name. *)
Definition definition_name (w : W) (i : incident) : option pystr :=
  s ← in_shift i; sh ← find_first (fun x => bool_decide (sf_id x = s)) (ow_shifts w);
  sd_name <$> find_first (fun d => bool_decide (sd_id d = sf_definition sh)) (ow_definitions w).
Definition incidents_by_shift (w : W) : list (pystr * Z) :=
  py_sorted (fun x y => str_leb (fst x) (fst y)) (tally (omap (definition_name w) (ow_incidents w))).
Definition alerts_by_service (w : W) : list (pystr * Z) := take 10 (most_first (tally (map in_service (ow_incidents w)))).
Definition recovered_vs_unresolved (w : W) : list (pystr * Z) :=
  let rows := tally (map in_status (ow_incidents w)) in
  [(u "Recovered", tallied (u "recovered") rows); (u "Investigating", tallied (u "investigating") rows); (u "Open", tallied (u "open") rows)].
(** No job has the status DEAD_LETTER that the code adds. *)
Definition analysis_job_outcomes (w : W) : list (pystr * Z) :=
  let triage := List.filter (fun j => bool_decide (j_type j = u "log_triage")) (map snd (map_to_list (job_table w))) in
  let rows := tally (map j_status triage) in
  [(u "Completed", tallied COMPLETED rows); (u "Failed", tallied FAILED rows)].
Definition min_text (l : list pystr) : pystr := default [] (head (py_sorted str_leb l)).
(** The titles that occur more than once when case is folded by [lower]. *)
Definition top_recurring_titles (lower : pystr -> pystr) (w : W) : list (pystr * Z) :=
  take 10 (most_first (map (fun '(k, n) => (min_text (List.filter (fun t => bool_decide (lower t = k)) (map in_title (ow_incidents w))), n))
    (List.filter (fun x => 1 <? snd x)%Z (tally (map (fun i => lower (in_title i)) (ow_incidents w)))))).
Definition since (start : usec) (x : N * report * job) : bool := match generated_report_time x with Some t => (start <=? t)%Z | None => false end.
Definition report_generation_counts (now : usec) (w : W) (reports : report_table) : report_counts :=
  let today := day_of now in
  let generated := List.filter generated_report_predicate (joined_reports (job_table w) reports) in
  mk_report_counts (match current_shift w with Some s => shift_reports (sf_id s) w reports | None => 0 end)
    (count_where (since (today * DAY)) generated) (count_where (since ((today - weekday today) * DAY)) generated).
(** [analytics_summary] *)
Definition analytics_summary (session_day : usec -> Z) (lower : pystr -> pystr) (now : usec) (w : W) (reports : report_table) : analytics :=
  mk_analytics (incidents_by_day session_day now w) (incidents_by_shift w) (alerts_by_service w) (recovered_vs_unresolved w)
    (analysis_job_outcomes w) (top_recurring_titles lower w) (report_generation_counts now w reports).
End queries.

(** ** [routers/search.py] *)

(** PostgreSQL's [lower], [ILIKE], full-text match and rank of a document for a
    query, and the trigram similarity operator. *)
Class TextSearch := {
  db_lower : pystr -> pystr; ilike : pystr -> pystr -> bool; text_match : pystr -> pystr -> bool; text_rank : pystr -> pystr -> Z;
  trigram_similar : pystr -> pystr -> bool }.

Section search.
Context `{UnicodeData} `{TextSearch} {Store : Type}.
Notation W := (ops_world Store).

Record search_query := mk_query {
  qu_text : option pystr; qu_service : option pystr; qu_environment : option pystr; qu_status : option pystr; qu_has_log : option bool;
  qu_shift : option N; qu_from : option usec; qu_to : option usec }.
Record search_result := mk_result { sr_incident : incident; sr_has_log : bool; sr_summary : json; sr_recurrence : Z }.

(** The document of an incident, [_incident_tsvector]. *)
Definition incident_document (i : incident) : pystr :=
  in_title i ++ u " " ++ in_service i ++ u " " ++ in_environment i ++ u " " ++ default [] (in_notes i).
(** [ocr] are the texts of the OCR runs with their evidence. *)
Definition ocr_match (w : W) (ocr : list (N * pystr)) (q : pystr) (id : N) : bool :=
  existsb (fun e => bool_decide (e_incident (snd e) = Some id) && bool_decide (e_state (snd e) = ACTIVE) &&
    existsb (fun t => bool_decide (fst t = fst e) && ilike (snd t) (u "%" ++ q ++ u "%")) ocr) (ow_evidence w).
Definition analysis_match (w : W) (q : pystr) (id : N) : bool :=
  existsb (fun r => bool_decide (ri_incident (ar_input r) = id) && match ar_output r with Some o => ilike (ro_text o) (u "%" ++ q ++ u "%") | None => false end)
    (ow_runs w).
Definition query_text (q : search_query) : option pystr := match qu_text q with Some (_ :: _) => qu_text q | _ => None end.
Definition wanted (w : W) (ocr : list (N * pystr)) (q : search_query) (i : incident) : bool :=
  text_filter (qu_service q) (in_service i) && text_filter (qu_environment q) (in_environment i) && text_filter (qu_status q) (in_status i) &&
  match qu_shift q with Some s => bool_decide (in_shift i = Some s) | None => true end &&
  match qu_from q with Some t => (t <=? in_triggered_at i)%Z | None => true end &&
  match qu_to q with Some t => (in_triggered_at i <=? t)%Z | None => true end &&
  match qu_has_log q with Some b => Bool.eqb (has_active_log w (in_id i)) b | None => true end &&
  match query_text q with
  | Some text => text_match (incident_document i) text || trigram_similar (in_title i) text || ocr_match w ocr text (in_id i) || analysis_match w text (in_id i)
  | None => true
  end.
(** Best rank first, then the newest alert. *)
Definition found_before (q : search_query) (x y : incident) : bool :=
  match query_text q with
  | Some text => let rx := text_rank (incident_document x) text in let ry := text_rank (incident_document y) text in
      (ry <? rx)%Z || ((rx =? ry)%Z && by_triggered x y)
  | None => by_triggered x y
  end.
(** The summary of the current run, [null] when there is none. *)
Definition analysis_summary (w : W) (id : N) : result pyexn json :=
  match r ← find_first (fun r => bool_decide (ri_incident (ar_input r) = id) && ar_current r) (ow_runs w); ar_output r with
  | Some o => if jtruthy (ro_result o) then py_get (u "summary") JNull (ro_result o) else Ok JNull
  | None => Ok JNull
  end.
Definition recurrence_count (w : W) (i : incident) : Z :=
  count_where (fun x => bool_decide (db_lower (in_title x) = py_lower (in_title i)) && negb (bool_decide (in_id x = in_id i))) (ow_incidents w).
Definition result_of (w : W) (i : incident) : result pyexn search_result :=
  summary ← analysis_summary w (in_id i); mret (mk_result i (has_active_log w (in_id i)) summary (recurrence_count w i)).
Fixpoint results_of (w : W) (l : list incident) : result pyexn (list search_result) :=
  match l with [] => Ok [] | i :: l => x ← result_of w i; rest ← results_of w l; mret (x :: rest) end.
(** [search] *)
Definition search (limit offset : Z) (q : search_query) (w : W) (ocr : list (N * pystr)) : result pyexn (list search_result * Z) :=
  let found := List.filter (wanted w ocr q) (ow_incidents w) in
  shown ← page limit offset (py_sorted (found_before q) found);
  items ← results_of w shown;
  mret (items, Z.of_nat (length found)).
End search.

(** ** Theorems *)

Lemma count_app {A} (p : A -> bool) l k : count_where p (l ++ k) = (count_where p l + count_where p k)%Z.
Proof. unfold count_where. rewrite List.filter_app, length_app. lia. Qed.
Lemma count_cons {A} (p : A -> bool) x l : count_where p (x :: l) = ((if p x then 1 else 0) + count_where p l)%Z.
Proof. unfold count_where. simpl. destruct (p x); simpl; lia. Qed.
Lemma count_ext {A} (p q : A -> bool) l : (forall x, x ∈ l -> p x = q x) -> count_where p l = count_where q l.
Proof.
  induction l as [|x l IH]; intros Hpq; [done|]. rewrite !count_cons, (Hpq x) by left. rewrite IH; [done|]. intros y Hy. apply Hpq. by right.
Qed.
Lemma count_map {A B} (f : A -> B) (p : B -> bool) l : count_where p (map f l) = count_where (fun x => p (f x)) l.
Proof. induction l as [|x l IH]; [done|]. simpl. by rewrite !count_cons, IH. Qed.
Lemma count_filter {A} (p q : A -> bool) l : count_where p (List.filter q l) = count_where (fun x => q x && p x) l.
Proof. induction l as [|x l IH]; [done|]. simpl. rewrite count_cons. destruct (q x); simpl; [by rewrite count_cons, IH|by rewrite IH]. Qed.
Lemma count_le {A} (p q : A -> bool) l : (forall x, p x = true -> q x = true) -> (count_where p l <= count_where q l)%Z.
Proof. intros Hpq. induction l as [|x l IH]; [done|]. rewrite !count_cons. specialize (Hpq x). destruct (p x), (q x); (lia || discriminate (Hpq eq_refl)). Qed.
Lemma count_split {A} (p q : A -> bool) l : (count_where (fun x => p x && q x) l + count_where (fun x => p x && negb (q x)) l = count_where p l)%Z.
Proof. induction l as [|x l IH]; [done|]. rewrite !count_cons. destruct (p x), (q x); simpl; lia. Qed.
Lemma count_none {A} (p : A -> bool) l : (forall x, x ∈ l -> p x = false) -> count_where p l = 0%Z.
Proof. intros Hp. rewrite (count_ext p (fun _ => false)) by done. induction l; [done|]. rewrite count_cons, IHl; [done|]. intros y Hy. apply Hp. by right. Qed.

Section tallies.
Context {K : Type} `{EqDecision K}.
Lemma tallied_tally (k : K) l : tallied k (tally l) = count_where (fun x => bool_decide (x = k)) l.
Proof.
  unfold tallied, tally. assert (Hf : forall keys, match find_first (fun x : K * Z => bool_decide (fst x = k))
      (map (fun k => (k, count_where (fun x => bool_decide (x = k)) l)) keys) with Some x => snd x | None => 0%Z end =
    if decide (k ∈ keys) then count_where (fun x => bool_decide (x = k)) l else 0%Z).
  { induction keys as [|k' keys IH]; [done|]. cbn [map find_first fst]. case_bool_decide as E; [subst; rewrite decide_True; [done|left]|].
    rewrite IH. apply decide_ext. rewrite elem_of_cons. naive_solver. }
  rewrite Hf. case_decide as Hin; [done|]. rewrite elem_of_fromkeys in Hin. symmetry. apply count_none. intros x Hx. apply bool_decide_eq_false. by intros ->.
Qed.
(** The groups of a [GROUP BY] add up to the rows. *)
Lemma tally_total (l : list K) : zsum (map snd (tally l)) = Z.of_nat (length l).
Proof.
  unfold tally. rewrite map_map. cbn [snd]. assert (Hs : forall keys, NoDup keys -> zsum (map (fun k => count_where (fun x => bool_decide (x = k)) l) keys) =
    count_where (fun x => bool_decide (x ∈ keys)) l).
  { induction keys as [|k keys IH]; intros Hnd; [symmetry; apply count_none; intros x _; apply bool_decide_eq_false; set_solver|].
    apply NoDup_cons in Hnd as [Hk Hnd]. cbn [map zsum foldr]. change (foldr Z.add 0%Z ?x) with (zsum x). rewrite IH by done.
    rewrite <- (count_split (fun x => bool_decide (x ∈ k :: keys)) (fun x => bool_decide (x = k))). f_equal; apply count_ext; intros x _.
    - repeat case_bool_decide; set_solver.
    - repeat case_bool_decide; set_solver. }
  rewrite Hs by apply NoDup_fromkeys. rewrite (count_ext _ (fun _ => true)); [|intros x Hx; by apply bool_decide_eq_true, elem_of_fromkeys].
  unfold count_where. f_equal. clear. induction l; simpl; congruence.
Qed.
End tallies.

(** *** Analytics *)
Section analytics.
Context {Store : Type}.
Notation W := (ops_world Store).

Lemma day_bounds day t : (day * DAY <= t < (day + 1) * DAY)%Z <-> day_of t = day.
Proof. unfold day_of, DAY. split; [intros; symmetry; apply Z.div_unique with (t - day * 86400000000)%Z; lia|intros <-; pose proof (Z.div_mod t 86400000000); pose proof (Z.mod_pos_bound t 86400000000); lia]. Qed.

(** Day by day over [k] days is the whole stretch. *)
Lemma days_total (l : list incident) lo k :
  zsum (map (fun i => count_where (fun x => bool_decide (day_of (in_triggered_at x) = (lo + Z.of_nat i)%Z)) l) (seq 0 k)) =
  count_where (fun x => (lo * DAY <=? in_triggered_at x)%Z && (in_triggered_at x <? (lo + Z.of_nat k) * DAY)%Z) l.
Proof.
  induction k as [|k IH].
  { symmetry. apply count_none. intros x _. change (Z.of_nat 0) with 0%Z. rewrite Z.add_0_r. lia. }
  rewrite seq_S, map_app, zsum_app, IH. clear IH. cbn [map zsum foldr Nat.add]. rewrite Z.add_0_r, Z.add_comm.
  replace (Z.of_nat (S k)) with (Z.of_nat k + 1)%Z by lia. assert (Hk : (0 <= Z.of_nat k)%Z) by lia. revert Hk. generalize (Z.of_nat k). intros n Hk.
  rewrite <- (count_split (fun x => (lo * DAY <=? in_triggered_at x)%Z && (in_triggered_at x <? (lo + (n + 1)) * DAY)%Z)
    (fun x => bool_decide (day_of (in_triggered_at x) = (lo + n)%Z))).
  f_equal; apply count_ext; intros x _; case_bool_decide as E; rewrite ?andb_true_r, ?andb_false_r; rewrite <- ?day_bounds in E; unfold DAY in *; try done; lia.
Qed.

(** The seven bars of the analytics page are the last seven UTC days, the
    current one last, under the names of their weekdays; when the database
    session is in UTC each counts exactly the incidents whose alert fell on that
    day, and together they count every alert of the seven days once. *)
Theorem incidents_by_day_bars (w : W) now : let today := day_of now in
  incidents_by_day day_of now w =
    map (fun i => let day := (today - 6 + Z.of_nat i)%Z in
      (day_label day, count_where (fun x => bool_decide (day_of (in_triggered_at x) = day)) (ow_incidents w))) (seq 0 7) /\
  zsum (map snd (incidents_by_day day_of now w)) =
    count_where (fun x => ((today - 6) * DAY <=? in_triggered_at x)%Z && (in_triggered_at x <? (today + 1) * DAY)%Z) (ow_incidents w).
Proof.
  intros today. assert (Hday : incidents_by_day day_of now w = map (fun i => let day := (today - 6 + Z.of_nat i)%Z in
      (day_label day, count_where (fun x => bool_decide (day_of (in_triggered_at x) = day)) (ow_incidents w))) (seq 0 7)).
  { unfold incidents_by_day. apply map_ext_in. intros i Hi%in_seq. cbv zeta. f_equal. fold today. rewrite tallied_tally, count_map, count_filter.
    apply count_ext. intros x _. case_bool_decide as E; [|apply andb_false_r]. apply day_bounds in E. rewrite andb_true_r. clearbody today.
    assert (Hn : (0 <= Z.of_nat i <= 6)%Z) by lia. revert Hn E. generalize (Z.of_nat i). intros n Hn E. unfold DAY in *. lia. }
  split; [done|]. rewrite Hday, map_map. cbn [snd]. rewrite days_total.
  by replace (today - 6 + Z.of_nat 7)%Z with (today + 1)%Z by lia.
Qed.

(** The three slices of the status chart are all the incidents. *)
Lemma status_slices (w : W) : (forall i, i ∈ ow_incidents w -> in_status i ∈ STATUSES) ->
  zsum (map snd (recovered_vs_unresolved w)) = Z.of_nat (length (ow_incidents w)).
Proof.
  intros Hs. unfold recovered_vs_unresolved. cbn [map snd zsum foldr]. rewrite !tallied_tally, !count_map. set (l := ow_incidents w) in *. clearbody l.
  induction l as [|i l IH]; [done|]. rewrite !count_cons. cbn [length]. rewrite Nat2Z.inj_succ, <- IH by (intros j Hj; apply Hs; by right).
  specialize (Hs i ltac:(left)). change STATUSES with [u "open"; u "investigating"; u "recovered"] in Hs.
  rewrite !elem_of_cons, elem_of_nil in Hs. destruct Hs as [->|[->|[->|[]]]].
  all: repeat (case_bool_decide as E; [try discriminate E|try by destruct E]; clear E); lia.
Qed.
(** The shifts' bars count the incidents of a defined shift once. *)
Lemma shift_bars (w : W) : zsum (map snd (incidents_by_shift w)) = count_where (fun i => bool_decide (is_Some (definition_name w i))) (ow_incidents w).
Proof.
  unfold incidents_by_shift. rewrite (zsum_Permutation _ (map snd (tally (omap (definition_name w) (ow_incidents w)))));
    [|apply Permutation_map, py_sorted_Permutation]. rewrite tally_total. induction (ow_incidents w) as [|i l IH]; [done|].
  rewrite count_cons. cbn [omap list_omap]. destruct (definition_name w i); cbn [length]; rewrite <- IH; [rewrite bool_decide_eq_true_2 by eauto; lia|].
  rewrite bool_decide_eq_false_2; [lia|by intros []].
Qed.
End analytics.

(** *** The dashboard *)
Section dashboard.
Context {Store : Type}.
Notation W := (ops_world Store).

(** The current runs of an incident. *)
Definition current_runs (w : W) (id : N) : list analysis_run :=
  List.filter (fun r => bool_decide (ri_incident (ar_input r) = id) && ar_current r) (ow_runs w).
(** What the other components keep true ([Analysis.analysis_history], and the
    polling that stores a completed answer). *)
Record runs_settled (w : W) : Prop := {
  rs_one : forall id, length (current_runs w id) <= 1;
  rs_stored : forall r j, r ∈ ow_runs w -> ar_current r = true -> job_table w !! ri_job (ar_input r) = Some j -> j_status j = COMPLETED -> has_result r = true }.

Lemma existsb_filter {A} (p q : A -> bool) l : existsb (fun x => p x && q x) l = existsb q (List.filter p l).
Proof. induction l as [|x l IH]; [done|]. simpl. destruct (p x); simpl; by rewrite IH. Qed.
Lemma current_in_runs s w id : existsb (current_in s w id) (ow_runs w) =
  existsb (fun r => match job_table w !! ri_job (ar_input r) with Some j => bool_decide (j_status j = s) | None => false end) (current_runs w id).
Proof. unfold current_runs. by rewrite <- existsb_filter. Qed.
Lemma statuses_of_runs (w : W) id :
  current_statuses id w = omap (fun r => j_status <$> job_table w !! ri_job (ar_input r)) (current_runs w id).
Proof.
  unfold current_statuses, current_runs, job_table. induction (ow_runs w) as [|r l IH]; [done|]. cbn [omap list_omap List.filter]. rewrite IH.
  destruct (decide (ri_incident (ar_input r) = id /\ ar_current r = true)) as [[E1 E2]|Hn].
  - by rewrite bool_decide_eq_true_2, E2 by done.
  - destruct (bool_decide _ && _) eqn:E; [|done]. apply andb_prop in E as [E1%bool_decide_eq_true E2]. by destruct Hn.
Qed.
Lemma run_in_state (w : W) s id : length (current_runs w id) <= 1 ->
  existsb (current_in s w id) (ow_runs w) = bool_decide (last (current_statuses id w) = Some s).
Proof.
  intros Hl. rewrite current_in_runs, statuses_of_runs. destruct (current_runs w id) as [|r [|]]; [done| |simpl in Hl; lia].
  simpl. rewrite orb_false_r. destruct (job_table w !! _) as [j|]; simpl; [|done]. apply bool_decide_ext. split; [by intros ->|by intros [= ->]].
Qed.
Lemma usable_settled (w : W) id : runs_settled w -> usable_analysis w id = existsb (current_in COMPLETED w id) (ow_runs w).
Proof.
  intros [_ Hst]. unfold usable_analysis. pose proof (Hst) as Hst'. assert (Hin : forall r, r ∈ ow_runs w -> current_in COMPLETED w id r && has_result r = current_in COMPLETED w id r).
  { intros r Hr. destruct (current_in COMPLETED w id r) eqn:E; [|done]. simpl. unfold current_in in E.
    apply andb_prop in E as [[_ Hc]%andb_prop Hj]. destruct (job_table w !! _) as [j|] eqn:Ej; [|discriminate]. apply bool_decide_eq_true in Hj. by eapply Hst. }
  clear Hst Hst'. induction (ow_runs w) as [|r l IH]; [done|]. cbn [existsb]. rewrite (Hin r) by left. f_equal. apply IH. intros x Hx. apply Hin. by right.
Qed.

Lemma status_is (w : W) i s : (forall s', analysis_status_of s' = analysis_status_of s -> s' = s) -> analysis_status_of s <> u "not_analyzed" ->
  bool_decide (vw_analysis_status (derived_view w i) = analysis_status_of s) = bool_decide (last (current_statuses (in_id i) w) = Some s).
Proof.
  intros Hinj Hne. apply bool_decide_ext. unfold derived_view. cbn [vw_analysis_status]. destruct (last _) as [s'|]; simpl.
  - split; [intros E; f_equal; by apply Hinj|by intros [= ->]].
  - split; [intros E; by destruct Hne|done].
Qed.

(** C25. The dashboard counts what the incident list shows: over the incidents
    of the active shift as the list presents them, its numbers are the rows
    that are not recovered, open, recovered, have a log without a completed
    analysis, and have a running analysis; unrecovered and recovered rows are
    all rows; and its report count is the one of the analytics page.  The two
    views differ only while a completed answer has not been stored yet. *)
Theorem dashboard_matches_list (w : W) s reports : runs_settled w -> current_shift w = Some s ->
  let shown := attach_derived w (List.filter (of_shift (sf_id s)) (ow_incidents w)) in
  let d := dashboard_summary w reports in
  da_open_incidents d = count_where (fun v => negb (has_status "recovered" (vw_incident v))) shown /\
  da_active_alerts d = count_where (fun v => has_status "open" (vw_incident v)) shown /\
  (da_open_incidents d + da_recovered_alerts d)%Z = Z.of_nat (length shown) /\ (da_active_alerts d <= da_open_incidents d)%Z /\
  da_logs_awaiting_analysis d = count_where (fun v => vw_has_log v && negb (bool_decide (vw_analysis_status v = u "completed"))) shown /\
  da_analyses_running d = count_where (fun v => bool_decide (vw_analysis_status v = u "running")) shown /\
  forall now, da_reports_generated_this_shift d = rc_this_shift (report_generation_counts now w reports).
Proof.
  intros Hset Hs shown d. unfold d, dashboard_summary. rewrite Hs. cbn [da_open_incidents da_active_alerts da_recovered_alerts da_logs_awaiting_analysis da_analyses_running da_reports_generated_this_shift].
  assert (Hcount : forall p : incident_view -> bool, count_where p shown = count_where (fun i => of_shift (sf_id s) i && p (derived_view w i)) (ow_incidents w)).
  { intros p. unfold shown. rewrite attach_derived_per_incident, count_map. apply count_filter. }
  rewrite !Hcount. do 2 (split; [done|]). split; [|split; [|split; [|split]]].
  - rewrite Z.add_comm, count_split. unfold shown. rewrite attach_derived_per_incident, length_map. done.
  - apply count_le. intros i [-> Ho]%andb_prop. unfold has_status in *. apply bool_decide_eq_true in Ho. by rewrite Ho.
  - apply count_ext. intros i _. f_equal. cbn [vw_has_log derived_view]. f_equal. f_equal. rewrite usable_settled by done. rewrite run_in_state by apply Hset.
    symmetry. apply (status_is w i COMPLETED); [intros []; discriminate || done|discriminate].
  - apply count_ext. intros i _. f_equal. unfold running_analysis. rewrite run_in_state by apply Hset.
    symmetry. apply (status_is w i PROCESSING); [intros []; discriminate || done|discriminate].
  - intros now. unfold report_generation_counts. by rewrite Hs.
Qed.
End dashboard.

(** *** Search *)
Section searching.
Context `{UnicodeData} `{TextSearch} {Store : Type}.
Notation W := (ops_world Store).

Lemma summary_case (w : W) id : (forall r o, r ∈ ow_runs w -> ar_output r = Some o -> is_obj (ro_result o) = true) -> exists j, analysis_summary w id = Ok j.
Proof.
  intros Hobj. unfold analysis_summary. destruct (find_first _ _) as [r|] eqn:E; [|by eexists]. simpl. destruct (ar_output r) as [o|] eqn:Eo; [|by eexists].
  apply find_first_Some in E as [Hin _]. specialize (Hobj r o Hin Eo). destruct (jtruthy _); [|by eexists]. destruct (ro_result o); try discriminate Hobj. by eexists.
Qed.
Lemma results_total (w : W) l : (forall r o, r ∈ ow_runs w -> ar_output r = Some o -> is_obj (ro_result o) = true) ->
  exists items, results_of w l = Ok items /\ map sr_incident items = l.
Proof.
  intros Hobj. induction l as [|i l (items & Hr & Hm)]; [by exists []|]. cbn [results_of]. unfold result_of.
  destruct (summary_case w (in_id i) Hobj) as [j Hj]. rewrite Hj. simpl. rewrite Hr. simpl. eexists. split; [done|]. simpl. by rewrite Hm.
Qed.

(** The pages of a search put together are the matching incidents, each
    once, and every page reports their number; a search raises only for a
    negative limit, which no bound of the route excludes, provided that stored
    results are objects. *)
Theorem search_pages limit count q (w : W) ocr : (0 < limit)%Z -> (forall r o, r ∈ ow_runs w -> ar_output r = Some o -> is_obj (ro_result o) = true) ->
  let found := List.filter (wanted w ocr q) (ow_incidents w) in
  length found <= count * Z.to_nat limit ->
  exists pages, Forall2 (fun k p => search limit (Z.of_nat k * limit) q w ocr = Ok (p, Z.of_nat (length found))) (seq 0 count) pages /\
    map sr_incident (mjoin pages) ≡ₚ found /\ Forall (fun p => length p <= Z.to_nat limit) pages.
Proof.
  intros Hlim Hobj found Hlen. set (l := py_sorted (found_before q) found). assert (Hp : l ≡ₚ found) by apply py_sorted_Permutation.
  destruct (pages_cover limit l count Hlim) as (pages & Hpages & Hjoin & Hsize); [by rewrite Hp|].
  assert (Hitems : exists pages', Forall2 (fun k p => search limit (Z.of_nat k * limit) q w ocr = Ok (p, Z.of_nat (length found))) (seq 0 count) pages' /\
    map sr_incident (mjoin pages') = mjoin pages /\ Forall (fun p => length p <= Z.to_nat limit) pages').
  { clear Hjoin. revert Hsize. induction Hpages as [|k p ks pages Hk _ IH]; intros Hsize; [by exists []|]. apply Forall_cons in Hsize as [Hsz Hsize].
    destruct (IH Hsize) as (rest & Hr & Hm & Hs). destruct (results_total w p Hobj) as (items & Hi & Hmi). exists (items :: rest). split; [|split].
    - constructor; [|done]. unfold search. fold found. fold l. by rewrite Hk; simpl; rewrite Hi.
    - simpl. by rewrite map_app, Hmi, <- Hm.
    - constructor; [|done]. by rewrite <- Hmi, length_map in Hsz. }
  destruct Hitems as (pages' & Hr & Hm & Hs). exists pages'. split; [done|]. by rewrite Hm, Hjoin.
Qed.

(** The result keys of the contract that both the skill's schema and the
    validator require; the schema admits no others. *)
Definition result_keys : list pystr :=
  map u ["total_entries"; "summary_en"; "summary_zh"; "key_finds"; "secondary_finds"; "severity_signal"; "confidence"]%string.
(** A search reads the key [summary], which an answer that satisfies the
    contract does not have: it never shows a summary. *)
Theorem contract_answers_show_no_summary (w : W) id :
  (forall r o, r ∈ ow_runs w -> ar_output r = Some o -> exists fields, ro_result o = JObj fields /\ forall k, k ∈ map fst fields -> k ∈ result_keys) ->
  analysis_summary w id = Ok JNull.
Proof.
  intros Hkeys. unfold analysis_summary. destruct (find_first _ _) as [r|] eqn:E; [|done]. simpl. destruct (ar_output r) as [o|] eqn:Eo; [|done].
  apply find_first_Some in E as [Hin _]. destruct (Hkeys r o Hin Eo) as (fields & -> & Hf). destruct (jtruthy _); [|done]. unfold py_get.
  destruct (assoc (u "summary") fields) as [v|] eqn:Ea; [|done]. exfalso. assert (Hk : u "summary" ∈ map fst fields).
  { apply assoc_elem in Ea. apply list_elem_of_fmap. by exists (u "summary", v). }
  specialize (Hf _ Hk). revert Hf. apply (bool_decide_unpack _). vm_compute. exact I.
Qed.
End searching.

(** ** Witnesses *)

Definition an_incident (id : N) (status : string) (at_time : usec) : incident :=
  mk_incident id (u "INC-1") (Some 1%N) (u "Disk full") (u "edge") (u "production") (u status) None at_time None None None None None None None 0 0.
Definition a_log (incident : N) : evidence := mk_evidence (Some incident) (u "LOG") (u "b") (u "k") (u "f.log") None 1 (u "h") None 1 None ACTIVE None.
Definition a_run (incident job : N) : analysis_run :=
  mk_run (mk_input incident incident job None None None [] [] [] [] [] [] None JNull [] [] false None 0) None [] true.
Definition a_job (s : job_status) : job := mk_job (u "log_triage") None s 1 None None 0 None None None None None None.
Definition a_world : ops_world () := mk_ops [an_incident 1 "open" 1000; an_incident 2 "recovered" (DAY + 5)] [mk_shift 1 1 0 None (u "active") None None] []
  [] [(1%N, a_log 1); (2%N, a_log 2)] [] [] [a_run 1 7] (mk_store {[ 7%N := a_job PROCESSING ]} []) [] [] () [].

Lemma a_world_settled : runs_settled a_world.
Proof.
  split.
  - intros id. unfold current_runs. cbn. case_bool_decide; simpl; lia.
  - intros r j Hr _ Hj Hc. apply elem_of_cons in Hr as [->|Hr]; [|by apply elem_of_nil in Hr]. vm_compute in Hj. injection Hj as <-. discriminate Hc.
Qed.
Lemma dashboard_matches_list_witness : da_analyses_running (dashboard_summary a_world []) = 1%Z /\ da_logs_awaiting_analysis (dashboard_summary a_world []) = 2%Z /\
  da_open_incidents (dashboard_summary a_world []) = 1%Z.
Proof.
  destruct (dashboard_matches_list a_world (mk_shift 1 1 0 None (u "active") None None) [] a_world_settled eq_refl) as (Ho & _ & _ & _ & Hw & Hr & _).
  rewrite Ho, Hw, Hr. vm_compute. split; [reflexivity|]. split; reflexivity.
Defined.

#[local] Existing Instance cjk_unicode.
Definition plain_search : TextSearch := {| db_lower := fun s => s; ilike := fun _ _ => false; text_match := fun d q => contains q d; text_rank := fun _ _ => 0%Z;
  trigram_similar := fun _ _ => false |}.
#[local] Existing Instance plain_search.
Definition disk_query : search_query := mk_query (Some (u "Disk")) None None None None None None None.
Lemma search_pages_witness : exists first second, search 1 0 disk_query a_world [] = Ok (first, 2%Z) /\ search 1 1 disk_query a_world [] = Ok (second, 2%Z) /\
  length (first ++ second) = 2.
Proof.
  destruct (search_pages 1 2 disk_query a_world []) as (pages & Hp & Hperm & _).
  - lia.
  - intros r o Hr Ho. apply elem_of_cons in Hr as [->|Hr]; [discriminate Ho|by apply elem_of_nil in Hr].
  - apply Nat.leb_le. vm_compute. reflexivity.
  - inversion Hp as [|? first ? rest H1 Hp']; subst. inversion Hp' as [|? second ? rest' H2 Hp'']; subst. inversion Hp''; subst.
    exists first, second. split; [exact H1|]. split; [exact H2|]. apply Permutation_length in Hperm. rewrite length_map in Hperm. simpl in Hperm.
    rewrite app_nil_r in Hperm. rewrite Hperm. vm_compute. reflexivity.
Defined.
